(* ===== verification/_CoqProject ===== *)
-Q . S2P
Prelude.v
Json.v
Codec.v
CodecFacts.v
Config.v
RedisStore.v
Models.v
Effects.v
Crypto.v
Payloads.v
CryptoFacts.v
Sessions.v
SessionFacts.v
RateLimit.v
RateLimitFacts.v
Deps.v
Logic.v
Dms.v
BlobStorage.v
BlobFiles.v
BlobFilesFacts.v
Queue.v
QueueFacts.v
MailboxFacts.v
QueueTypes.v
DmsReaper.v
DmsFacts.v
DueFacts.v
TokenSets.v
BurnerTokens.v
InviteTokens.v
TokenFacts.v
Reaper.v
ReaperFacts.v
Messages.v
MessagesFacts.v
Sealed.v
SealedFacts.v
Groups.v
GroupMessages.v
FederationClient.v
FederationWorker.v
Cleanup.v
FederationFacts.v
WorkerFacts.v
CleanupFacts.v
FedQueueFacts.v
GroupSync.v
Users.v
Federation.v
Auth.v
Account.v
BurnerApi.v
Inbox.v
Mail.v
Push.v
Smtp.v
Database.v
Web.v
Admin.v
Operator.v
MailOut.v
GroupFacts.v
GroupMessageFacts.v
SnapshotFacts.v
FederationApiFacts.v
AuthFacts.v
InboxFacts.v
AccountFacts.v
Backup.v
BurnerFacts.v
FederatedMessageFacts.v
PullFacts.v
MailFacts.v
PushFacts.v
SmtpFacts.v
WebFacts.v
AdminFacts.v
OperatorFacts.v
MailOutFacts.v
