(* ===== verification/Prelude.v ===== *)
(** * Morok Relay: a verification library

    Morok Relay (src/morok_relay) is an asynchronous Python service that passes end-to-end encrypted
    messages.  Clients authenticate with Ed25519 keys; the relay keeps envelopes for a limited time
    in Redis with their ciphertext in files, users and dead man's switches in PostgreSQL, and talks
    to other relays.  This library models the parts that carry its guarantees and proves them.

    ** How the program is modelled

    - A coroutine is a program over events ([Effects.prog], [Effects.M] when it can raise): reading
      the clock, one atomic exchange with Redis, a random token, a file operation, a SQL statement,
      a commit or rollback, starting a background task.  [run] executes a program on a world
      (clock, server, tables, files, tasks, tokens, failures to come); [cstep] interleaves any
      number of programs event by event, as asyncio and several processes do.
    - A failure is part of the world: the request never reached the server, or its reply was lost
      after the server acted.  The client sees the same exception, as in the source.  "Calm" in a
      statement means that no failure is to come.
    - Redis, SHA-256, Ed25519 and the JSON codec of Redis scripts are not in the repository: they
      are classes ([RedisStore.Redis], [Crypto.Sha256], [Crypto.Nacl], [BurnerTokens.Cjson]).  The
      laws of [Redis] are the documented replies and effects of each command; [Mem_Redis] is an
      instance.  [observe_doc] is the refinement that everything else uses: a run on any such
      server is, as far as it can be observed, the run on the documented view.
    - DNS and HTTP to other relays are answers of a network, a part of the world; what a program asked
      of it stays in its trace.  The node that sends mail to the outside runs apart and has a world of
      its own, a conversation of questions and replies ([MailOut.node]), in which every reply may depend
      on all that went before.
    - A SQL statement is a function on the lists of rows of [Models.database]; the session of a
      request ([Deps.with_session]) commits at the end or rolls back when the handler raises.
    - Times and counters are unbounded [Z], as Python integers are.  Text is bytes.

    ** Files and sources

    The base:
    - [Prelude]: scope, tactics, hint databases, lemmas on strings, hexadecimal and lists.
    - [Json]: the json module (print, parse, round trip).  The parser's fuel is the length of the
      text plus two: a level of nesting takes two and has two brackets, a further element takes one
      and has a separator; for the texts that are printed this is proved ([loads_dumps]).
    - [Codec], [CodecFacts]: int, base64 and UUID texts.  [Config]: the settings that are read.
    - [RedisStore]: commands, Lua scripts and MULTI blocks on the documented view; keys a command
      can change.  [Models]: tables (models.py, mail_models.py).
    - [Effects]: programs, worlds, execution, interleaving, invariants of interleavings.  [Logic]:
      what a program does to the tables whatever else happens, and which exchanges keep an
      invariant of Redis.

    The components, each with its theorems in the file named [...Facts]:
    - [Crypto], [Payloads], [CryptoFacts]: crypto.py, sensitive_action.py and every object that is
      signed anywhere.
    - [Sessions], [SessionFacts]; [RateLimit], [RateLimitFacts]; [Deps] (deps.py, dms_liveness.py and
      the request session of db.py).
    - [BlobStorage]: blob_storage.py as the events that the other files use; [BlobFiles] the same functions
      call by call on a file system of names and inodes that threads share, [BlobFilesFacts] the logic of
      such threads and that a write is one event.
    - [Queue]: queue.py with both Lua scripts; [QueueFacts] has the effect of each operation, [MailboxFacts] the abstract mailbox that the queue refines,
      [QueueTypes] the kinds of the keys.
    - [TokenSets], [BurnerTokens], [InviteTokens], [TokenFacts]: burner_tokens.py and
      invite_tokens.py; [Token_Family] is the interface both provide, against which the cap is
      proved once.  [BurnerApi], [BurnerFacts]: api/burner.py.
    - [Dms], [DmsReaper]: api/dms.py and scripts/dms_reaper.py; [DmsFacts] has the states of a switch,
      [DueFacts] that due switches fire.
    - [Messages], [MessagesFacts] (api/messages.py); [Sealed], [SealedFacts] (api/sealed.py).
    - [Groups], [GroupMessages], [GroupSync]: api/groups.py; [GroupFacts] for rows and members,
      [GroupMessageFacts] for messages, [SnapshotFacts] for copies of groups.
    - [Auth], [AuthFacts] (api/auth.py); [Account], [AccountFacts] (api/account.py); [Backup]
      (api/backup.py, with its theorems); [Users] (api/users.py); [Inbox], [InboxFacts] (api/inbox.py).
    - [FederationClient], [FederationFacts] (federation_client.py); [FederationWorker], [WorkerFacts],
      [FedQueueFacts] (scripts/federation_worker.py); [Federation], [FederationApiFacts]
      (api/federation.py).  [FederatedMessageFacts] and [PullFacts] compose two relays.
    - [Mail], [MailFacts] (api/mail.py); [Smtp], [SmtpFacts] (mail_smtp.py, mail_convert.py); [MailOut],
      [MailOutFacts] (mail_out.py, scripts/mailout_worker.py).
    - [Push], [PushFacts] (api/push.py, push_sender.py); [Database] (db.py and the lifespan of main.py, with
      their theorems); [Web], [WebFacts] (the rest of main.py); [Admin], [AdminFacts]
      (api/admin.py); [Operator], [OperatorFacts] (scripts/federate.py, scripts/set_user_tier.py).
    - [Reaper], [ReaperFacts] (scripts/reaper.py); [Cleanup], [CleanupFacts] (cleanup.py).

    Definitions have the names of the source.  A constant of a module is the definition of the same
    name; a helper that names a part of a function says so in its comment.  The repetitions of the
    source are bounded there (attempts, pages, batches) or go over lists, and are recursive on that
    number or list; the rounds of the script scans have the source's own limits as fuel.

    ** What the theorems show

    - Queue: what a post, a fan-out and an acknowledgement change, key by key, and what each refusal
      leaves; no interleaving overfills an inbox; a file is deleted exactly once, by the last
      recipient; who may delete what; the queue refines a mailbox of letters.
    - Files: writes of blobs are atomic in every interleaving of their system calls with other writes and
      reads, and end; what a deletion that runs alone leaves.  That deletions are not atomic is shown by examples.
    - Signatures: canonical JSON is injective up to the order of keys; signed bytes determine
      purpose and fields over all twelve purposes; nonces are single-use for their window.
    - Who is heard: a session needs a signed challenge, and logging out everywhere is complete; a
      socket serves the owner of its ticket or token, gets what is posted, and closes when the
      sessions end; an account that is deleted leaves nothing of its rows; backups are their owner's.
    - Limits: the bound per minute with and without Redis; caps of tokens in every interleaving.
    - Messages: who may post what to whom, that a message reaches exactly its recipient, its deletion,
      sealed messages, and messages through burner links.
    - Groups: a step relation that every request and every history satisfies; who may post; that a
      message reaches the members; that a copy is the group that its host has.
    - Between relays: only trusted peers are heard; control messages act once; a message posted on
      one relay arrives on the other; a queued row is tried at most eleven times and reaches a final
      state; only public addresses are called.
    - Mail: the life of an address and of an outgoing mail over any history; mail between accounts
      arrives, and nobody sends in the name of another's address.  Mail from outside reaches only the
      owners of active addresses, and arrives sealed.  The sending node connects only to public addresses
      it resolved before, reports only what was taken, and keeps its daily cap.
    - Push: how many subscriptions there are and where pushes go; that a push task changes no table.
    - Operation: the logs show no credential of a query, of a masked path or of the address of a client; there
      is at most one client of each kind and none when the lifespan ends without an error; nobody administers without a
      login, and the statistics say nothing about anybody; trust in a peer and its key are the operator's.
    - Dead man's switches: the states of a switch under every operation, failure and history; due
      switches fire; and a sequence of failures that loses the secret.

    Every theorem with hypotheses has a witness in the Demo module at the end of its file.

    ** What is not modelled

    Not modelled: starting and stopping the processes (the loops and signal handlers of the scripts,
    middleware and routes of main.py), the disk below the file system, the transport below HTTP, SMTP and push, the
    MIME parser and generator, cryptographic primitives, logging other than its redaction, the migrations
    of the database, and the developer tools under tools/, which are clients for tests and load.  The rate limits that
    stand in front of endpoints are those of [RateLimit] and are left out of the handlers.  Outside
    the model: eviction and data loss in Redis, floats in JSON, non-ASCII case mapping, the clock
    moving during a single run (interleavings have it move), and SQL isolation below one handler at a
    time, which the row and advisory locks of the source provide for the code modelled. *)

From Stdlib Require Import Ascii String.
From stdpp Require Import prelude gmap strings list fin_maps.

(** ** Notation and scope *)

Declare Scope morok_scope.
Delimit Scope morok_scope with morok.

(** ** Automation *)

(** Hint database of the development: lemmas that close the common side goals. *)
Create HintDb morok discriminated.
Create Rewrite HintDb morok_str.

(** Split every conjunction of the goal and close the leaves by [done]. *)
Ltac split_done := split_and?; try done.

(** Case analysis on the innermost [match]/[if] scrutinee of the goal. *)
Ltac case_goal :=
  match goal with
  | |- context [match ?x with _ => _ end] =>
      lazymatch x with
      | context [match _ with _ => _ end] => fail
      | _ => destruct x eqn:?
      end
  end.

(** The same in a hypothesis. *)
Ltac case_hyp H :=
  match type of H with
  | context [match ?x with _ => _ end] =>
      lazymatch x with
      | context [match _ with _ => _ end] => fail
      | _ => destruct x eqn:?
      end
  end.

(** Two concatenations with literal prefixes that differ in the prefix are different strings. *)
Ltac string_ne :=
  let H := fresh "Hne" in
  intros H; exfalso; revert H; cbv [append]; intros H; first [discriminate H | congruence].

(** Turn boolean comparisons on [Z] in the context and the goal into propositions. *)
Ltac zify_bool :=
  repeat match goal with
  | H : (_ <? _)%Z = true |- _ => apply Z.ltb_lt in H
  | H : (_ <? _)%Z = false |- _ => apply Z.ltb_ge in H
  | H : (_ <=? _)%Z = true |- _ => apply Z.leb_le in H
  | H : (_ <=? _)%Z = false |- _ => apply Z.leb_gt in H
  | H : (_ =? _)%Z = true |- _ => apply Z.eqb_eq in H
  | H : (_ =? _)%Z = false |- _ => apply Z.eqb_neq in H
  | |- (_ <? _)%Z = true => apply Z.ltb_lt
  | |- (_ <? _)%Z = false => apply Z.ltb_ge
  | |- (_ <=? _)%Z = true => apply Z.leb_le
  | |- (_ <=? _)%Z = false => apply Z.leb_gt
  | |- (_ =? _)%Z = true => apply Z.eqb_eq
  | |- (_ =? _)%Z = false => apply Z.eqb_neq
  end.

(** ** Text and bytes

    A Python [str] and a Python [bytes] are both a [string]: a sequence of 8-bit characters
    (a [str] stands for its UTF-8 encoding, so [s.encode()] is the identity). *)

Fixpoint string_forallb (f : ascii -> bool) (s : string) : bool :=
  match s with
  | EmptyString => true
  | String c s' => f c && string_forallb f s'
  end.

(** [c in "0123456789abcdef"] *)
Definition is_lower_hex (c : ascii) : bool :=
  let n := N_of_ascii c in
  ((48 <=? n) && (n <=? 57))%N || ((97 <=? n) && (n <=? 102))%N.

(** The value of a hexadecimal digit, either case. *)
Definition hex_val (c : ascii) : option N :=
  let n := N_of_ascii c in
  if ((48 <=? n) && (n <=? 57))%N then Some (n - 48)%N
  else if ((97 <=? n) && (n <=? 102))%N then Some (n - 87)%N
  else if ((65 <=? n) && (n <=? 70))%N then Some (n - 55)%N
  else None.

Definition hex_digit (n : N) : ascii :=
  ascii_of_N (if (n <? 10)%N then n + 48 else n + 87)%N.

(** [bytes.hex()] *)
Fixpoint hex_of_bytes (s : string) : string :=
  match s with
  | EmptyString => EmptyString
  | String c s' =>
      let n := N_of_ascii c in
      String (hex_digit (n / 16)) (String (hex_digit (n mod 16)) (hex_of_bytes s'))
  end.

(** ASCII white space, which [bytes.fromhex] skips between two bytes. *)
Definition is_space (c : ascii) : bool :=
  let n := N_of_ascii c in
  (n =? 32)%N || ((9 <=? n) && (n <=? 13))%N.

(** [bytes.fromhex(s)]; [None] is its [ValueError]. *)
Fixpoint bytes_fromhex (s : string) : option string :=
  match s with
  | EmptyString => Some EmptyString
  | String c s' =>
      if is_space c then bytes_fromhex s'
      else match hex_val c, s' with
           | Some a, String d s'' =>
               match hex_val d, bytes_fromhex s'' with
               | Some b, Some r => Some (String (ascii_of_N (16 * a + b)) r)
               | _, _ => None
               end
           | _, _ => None
           end
  end.

Definition string_len (s : string) : Z := Z.of_nat (String.length s).

(** ** Lemmas on text *)

Lemma hex_digit_val n : (n < 16)%N -> hex_val (hex_digit n) = Some n.
Proof.
  intros Hn.
  assert (Hall : forall m : nat, m < 16 -> hex_val (hex_digit (N.of_nat m)) = Some (N.of_nat m)).
  { intros m Hm. do 16 (destruct m as [|m]; [reflexivity|]). lia. }
  rewrite <- (N2Nat.id n). apply Hall. lia.
Qed.

Lemma hex_digit_not_space n : (n < 16)%N -> is_space (hex_digit n) = false.
Proof.
  intros Hn.
  assert (Hall : forall m : nat, m < 16 -> is_space (hex_digit (N.of_nat m)) = false).
  { intros m Hm. do 16 (destruct m as [|m]; [reflexivity|]). lia. }
  rewrite <- (N2Nat.id n). apply Hall. lia.
Qed.

(** [bytes.fromhex] inverts [bytes.hex]. *)
Lemma bytes_fromhex_hex s : bytes_fromhex (hex_of_bytes s) = Some s.
Proof.
  induction s as [|c s IH]; [done|].
  assert (Hc : (N_of_ascii c < 256)%N) by apply N_ascii_bounded.
  assert (Hq : (N_of_ascii c / 16 < 16)%N) by (apply N.Div0.div_lt_upper_bound; lia).
  assert (Hr : (N_of_ascii c mod 16 < 16)%N) by (apply N.mod_lt; lia).
  cbn [hex_of_bytes bytes_fromhex].
  rewrite (hex_digit_not_space _ Hq), (hex_digit_val _ Hq), (hex_digit_val _ Hr), IH.
  rewrite <- N.div_mod by lia. by rewrite ascii_N_embedding.
Qed.
Lemma hex_of_bytes_inj a b : hex_of_bytes a = hex_of_bytes b -> a = b.
Proof. intros H. apply (f_equal bytes_fromhex) in H. rewrite !bytes_fromhex_hex in H. congruence. Qed.

Lemma string_app_assoc (a b c : string) : (a +:+ b) +:+ c = a +:+ (b +:+ c).
Proof. induction a as [|x a IH]; [done|]. cbv [append] in *. by f_equal. Qed.

Lemma string_app_nil_r (a : string) : a +:+ "" = a.
Proof. induction a as [|x a IH]; [done|]. cbv [append] in *. by f_equal. Qed.

Lemma string_app_nil_l (a : string) : "" +:+ a = a.
Proof. done. Qed.

Lemma string_app_cons (c : ascii) (a b : string) : String c a +:+ b = String c (a +:+ b).
Proof. done. Qed.

Lemma string_length_app (a b : string) :
  String.length (a +:+ b) = String.length a + String.length b.
Proof. induction a as [|x a IH]; [done|]. cbn. by rewrite <- IH. Qed.

#[export] Hint Rewrite string_app_assoc string_app_nil_l string_app_nil_r string_app_cons : morok_str.

(** Equal-length prefixes of equal concatenations are equal. *)
Lemma string_app_eq_length (a b c d : string) :
  String.length a = String.length b -> a +:+ c = b +:+ d -> a = b /\ c = d.
Proof.
  revert b. induction a as [|x a IH]; intros [|y b]; cbn [String.length]; try lia.
  - intros _ H. done.
  - intros Hlen H. rewrite !string_app_cons in H. injection H as -> H.
    destruct (IH b) as [-> ->]; [lia|done|done].
Qed.
