(* ===== verification/Json.v ===== *)
(** * JSON text

    The fragment of Python's [json] module the relay uses: [json.dumps] with the default
    separators (envelope metadata, tokens and events kept in Redis), [json.dumps] with sorted keys
    and no blanks ([crypto.canonical_json], the bytes that are signed), and [json.loads].

    Numbers are integers (the relay writes no floats).  A Python dict is an association list in
    insertion order with distinct keys.  Text is a [string] of UTF-8 bytes: bytes outside ASCII are
    written as they are, which is what [ensure_ascii=False] does; for texts within ASCII it is also
    what the default does. *)

From Stdlib Require Import Ascii String DecimalString DecimalZ.
From stdpp Require Import prelude gmap strings list fin_maps sorting.
From S2P Require Import Prelude.

#[local] Set Warnings "-register-all".

(** ** Values *)

Inductive json : Type :=
| JNull
| JBool (b : bool)
| JNum (n : Z)
| JStr (s : string)
| JArr (l : list json)
| JObj (d : list (string * json)).

(** A Python dict with JSON values. *)
Abbreviation dict := (list (string * json)).

(** [d.get(k)] *)
Fixpoint dict_get (k : string) (d : dict) : option json :=
  match d with
  | [] => None
  | (k', v) :: d' => if String.eqb k k' then Some v else dict_get k d'
  end.

(** [d[k] = v]: in place when the key exists, at the end otherwise. *)
Fixpoint dict_set (k : string) (v : json) (d : dict) : dict :=
  match d with
  | [] => [(k, v)]
  | (k', v') :: d' => if String.eqb k k' then (k, v) :: d' else (k', v') :: dict_set k v d'
  end.

(** [k in d] *)
Definition dict_mem (k : string) (d : dict) : bool :=
  match dict_get k d with Some _ => true | None => false end.

Definition dict_keys (d : dict) : list string := d.*1.

(** Python's truth value of a JSON value. *)
Definition json_truthy (j : json) : bool :=
  match j with
  | JNull => false
  | JBool b => b
  | JNum n => negb (n =? 0)%Z
  | JStr s => negb (String.eqb s "")
  | JArr l => match l with [] => false | _ => true end
  | JObj d => match d with [] => false | _ => true end
  end.

Definition get_truthy (k : string) (d : dict) : bool :=
  match dict_get k d with Some j => json_truthy j | None => false end.

(** [d.get(k) == JStr s] *)
Definition get_is_str (k s : string) (d : dict) : bool :=
  match dict_get k d with Some (JStr s') => String.eqb s' s | _ => false end.

(** Text or null. *)
Definition opt_str (o : option string) : json := match o with Some s => JStr s | None => JNull end.

(** Keys are distinct in every object. *)
Inductive json_wf : json -> Prop :=
| wf_null : json_wf JNull
| wf_bool b : json_wf (JBool b)
| wf_num n : json_wf (JNum n)
| wf_str s : json_wf (JStr s)
| wf_arr l : Forall json_wf l -> json_wf (JArr l)
| wf_obj d : NoDup d.*1 -> Forall (fun kv => json_wf kv.2) d -> json_wf (JObj d).

(** ** Printing *)

Definition dquote : ascii := "034"%char.
Definition backslash : ascii := "092"%char.

Definition escape_char (c : ascii) : string :=
  let n := N_of_ascii c in
  if Ascii.eqb c dquote then String backslash (String dquote "")
  else if Ascii.eqb c backslash then String backslash (String backslash "")
  else if (n =? 8)%N then String backslash "b"
  else if (n =? 9)%N then String backslash "t"
  else if (n =? 10)%N then String backslash "n"
  else if (n =? 12)%N then String backslash "f"
  else if (n =? 13)%N then String backslash "r"
  else if (n <? 32)%N then
    String backslash ("u00" +:+ String (hex_digit (n / 16)) (String (hex_digit (n mod 16)) ""))
  else String c "".

Fixpoint escape (s : string) : string :=
  match s with
  | EmptyString => EmptyString
  | String c s' => escape_char c +:+ escape s'
  end.

Definition quoted (s : string) : string := String dquote (escape s +:+ String dquote "").

Definition print_Z (n : Z) : string := NilZero.string_of_int (Z.to_int n).

(** [separators=(item_sep, key_sep)] *)
Record style := Style { item_sep : string; key_sep : string }.
Definition default_style : style := Style ", " ": ".
Definition compact_style : style := Style "," ":".

Fixpoint join (sep : string) (l : list string) : string :=
  match l with
  | [] => ""
  | [x] => x
  | x :: l' => x +:+ sep +:+ join sep l'
  end.

Fixpoint print (st : style) (j : json) : string :=
  match j with
  | JNull => "null"
  | JBool true => "true"
  | JBool false => "false"
  | JNum n => print_Z n
  | JStr s => quoted s
  | JArr l => "[" +:+ join (item_sep st) (map (print st) l) +:+ "]"
  | JObj d =>
      "{" +:+ join (item_sep st)
                (map (fun kv => quoted kv.1 +:+ key_sep st +:+ print st kv.2) d) +:+ "}"
  end.

(** [json.dumps(j)] *)
Definition dumps (j : json) : string := print default_style j.

(** Keys in code-point order: byte order of the UTF-8 encodings. *)
Definition key_le (a b : string * json) : Prop := String.le a.1 b.1.
#[export] Instance key_le_dec : RelDecision key_le := fun a b => decide (String.le a.1 b.1).

Fixpoint sort_keys (j : json) : json :=
  match j with
  | JArr l => JArr (map sort_keys l)
  | JObj d => JObj (merge_sort key_le (map (fun kv => (kv.1, sort_keys kv.2)) d))
  | _ => j
  end.

(** ** Parsing *)

Definition is_ws (c : ascii) : bool :=
  let n := N_of_ascii c in (n =? 32)%N || (n =? 9)%N || (n =? 10)%N || (n =? 13)%N.

Fixpoint skip_ws (s : string) : string :=
  match s with
  | String c s' => if is_ws c then skip_ws s' else s
  | EmptyString => s
  end.

(** The character a short escape stands for. *)
Definition unescape_char (c : ascii) : option ascii :=
  if Ascii.eqb c dquote || Ascii.eqb c backslash || Ascii.eqb c "/"%char then Some c
  else if Ascii.eqb c "b"%char then Some "008"%char
  else if Ascii.eqb c "t"%char then Some "009"%char
  else if Ascii.eqb c "n"%char then Some "010"%char
  else if Ascii.eqb c "f"%char then Some "012"%char
  else if Ascii.eqb c "r"%char then Some "013"%char
  else None.

Definition hex4 (a b c d : ascii) : option N :=
  match hex_val a, hex_val b, hex_val c, hex_val d with
  | Some a, Some b, Some c, Some d => Some (((a * 16 + b) * 16 + c) * 16 + d)%N
  | _, _, _, _ => None
  end.

(** A string body up to and including the closing quote.  A [\u] escape is read when it stands
    for an ASCII character (the only ones the relay writes). *)
Fixpoint parse_string (s : string) : option (string * string) :=
  match s with
  | EmptyString => None
  | String c s1 =>
      if Ascii.eqb c dquote then Some ("", s1)
      else if Ascii.eqb c backslash then
        match s1 with
        | String "u" (String a (String b (String c' (String d s2)))) =>
            match hex4 a b c' d, parse_string s2 with
            | Some n, Some (body, r) =>
                if (n <? 128)%N then Some (String (ascii_of_N n) body, r) else None
            | _, _ => None
            end
        | String e s2 =>
            match unescape_char e, parse_string s2 with
            | Some x, Some (body, r) => Some (String x body, r)
            | _, _ => None
            end
        | EmptyString => None
        end
      else if (N_of_ascii c <? 32)%N then None
      else match parse_string s1 with
           | Some (body, r) => Some (String c body, r)
           | None => None
           end
  end.

Definition is_num_char (c : ascii) : bool :=
  let n := N_of_ascii c in ((48 <=? n) && (n <=? 57))%N || (n =? 45)%N.

Fixpoint span_num (s : string) : string * string :=
  match s with
  | String c s' => if is_num_char c then let '(a, r) := span_num s' in (String c a, r) else ("", s)
  | EmptyString => ("", "")
  end.

(** A JSON value and the text after it.  The fuel bounds the nesting and the number of elements:
    the length of the text is enough ([parse_print]). *)
Fixpoint parse (fuel : nat) (s : string) : option (json * string) :=
  match fuel with
  | 0 => None
  | S f =>
      match skip_ws s with
      | EmptyString => None
      | String c s1 =>
          if Ascii.eqb c dquote then
            match parse_string s1 with Some (x, r) => Some (JStr x, r) | None => None end
          else if Ascii.eqb c "n"%char then
            match s1 with String "u" (String "l" (String "l" r)) => Some (JNull, r) | _ => None end
          else if Ascii.eqb c "t"%char then
            match s1 with
            | String "r" (String "u" (String "e" r)) => Some (JBool true, r) | _ => None end
          else if Ascii.eqb c "f"%char then
            match s1 with
            | String "a" (String "l" (String "s" (String "e" r))) => Some (JBool false, r)
            | _ => None end
          else if Ascii.eqb c "["%char then
            match skip_ws s1 with
            | String "]" r => Some (JArr [], r)
            | _ => match parse_items f s1 with
                   | Some (l, r) => Some (JArr l, r) | None => None end
            end
          else if Ascii.eqb c "{"%char then
            match skip_ws s1 with
            | String "}" r => Some (JObj [], r)
            | _ => match parse_members f s1 [] with
                   | Some (d, r) => Some (JObj d, r) | None => None end
            end
          else
            let '(num, r) := span_num (String c s1) in
            match NilZero.int_of_string num with
            | Some i => Some (JNum (Z.of_int i), r)
            | None => None
            end
      end
  end
with parse_items (fuel : nat) (s : string) : option (list json * string) :=
  match fuel with
  | 0 => None
  | S f =>
      match parse f s with
      | Some (j, r) =>
          match skip_ws r with
          | String "]" r' => Some ([j], r')
          | String "," r' =>
              match parse_items f r' with Some (l, r'') => Some (j :: l, r'') | None => None end
          | _ => None
          end
      | None => None
      end
  end
with parse_members (fuel : nat) (s : string) (acc : dict) : option (dict * string) :=
  match fuel with
  | 0 => None
  | S f =>
      match skip_ws s with
      | String c s1 =>
          if Ascii.eqb c dquote then
            match parse_string s1 with
            | Some (k, r) =>
                match skip_ws r with
                | String ":" r1 =>
                    match parse f r1 with
                    | Some (v, r2) =>
                        match skip_ws r2 with
                        | String "}" r3 => Some (dict_set k v acc, r3)
                        | String "," r3 => parse_members f r3 (dict_set k v acc)
                        | _ => None
                        end
                    | None => None
                    end
                | _ => None
                end
            | None => None
            end
          else None
      | EmptyString => None
      end
  end.

(** [json.loads(s)]; [None] is [JSONDecodeError]. *)
Definition loads (s : string) : option json :=
  match parse (S (S (String.length s))) s with
  | Some (j, r) => if String.eqb (skip_ws r) "" then Some j else None
  | None => None
  end.

(** ** Induction over nested values *)

Section JsonInd.
  Variable P : json -> Prop.
  Hypothesis Pnull : P JNull.
  Hypothesis Pbool : forall b, P (JBool b).
  Hypothesis Pnum : forall n, P (JNum n).
  Hypothesis Pstr : forall s, P (JStr s).
  Hypothesis Parr : forall l, Forall P l -> P (JArr l).
  Hypothesis Pobj : forall d : dict, Forall (fun kv => P kv.2) d -> P (JObj d).

Fixpoint json_nested_ind (j : json) : P j :=
  match j with
  | JNull => Pnull
  | JBool b => Pbool b
  | JNum n => Pnum n
  | JStr s => Pstr s
  | JArr l =>
      Parr l ((fix go l : Forall P l :=
                 match l with
                 | [] => Forall_nil_2 _
                 | x :: l' => Forall_cons_2 _ _ _ (json_nested_ind x) (go l')
                 end) l)
  | JObj d =>
      Pobj d ((fix go (d : dict) : Forall (fun kv => P kv.2) d :=
                 match d with
                 | [] => Forall_nil_2 _
                 | x :: d' => Forall_cons_2 _ _ _ (json_nested_ind x.2) (go d')
                 end) d)
  end.
End JsonInd.

(** ** Dicts *)

Lemma dict_get_set k k' v d :
  dict_get k (dict_set k' v d) = if String.eqb k k' then Some v else dict_get k d.
Proof.
  induction d as [|[k0 v0] d IH]; cbn [dict_set dict_get].
  - by destruct (String.eqb k k').
  - destruct (String.eqb_spec k' k0) as [->|Hne]; cbn [dict_get].
    + by destruct (String.eqb k k0).
    + destruct (String.eqb_spec k k0) as [->|Hk].
      * destruct (String.eqb_spec k0 k'); congruence.
      * by rewrite IH.
Qed.

Lemma dict_get_None k d : dict_get k d = None <-> k ∉ d.*1.
Proof.
  induction d as [|[k0 v0] d IH]; cbn [dict_get fmap list_fmap].
  - split; [intros _; apply not_elem_of_nil|done].
  - rewrite not_elem_of_cons. destruct (String.eqb_spec k k0) as [->|Hne].
    + split; [done|intros [? _]; done].
    + rewrite IH. split; [done|intros [_ ?]; done].
Qed.

Lemma dict_mem_spec k d : dict_mem k d = true <-> k ∈ d.*1.
Proof.
  unfold dict_mem. destruct (dict_get k d) eqn:E.
  - split; [|done]. intros _. destruct (decide (k ∈ d.*1)) as [|Hn]; [done|].
    apply dict_get_None in Hn. congruence.
  - apply dict_get_None in E. split; [discriminate|done].
Qed.

(** A new key goes to the end. *)
Lemma dict_set_new k v d : k ∉ d.*1 -> dict_set k v d = d ++ [(k, v)].
Proof.
  induction d as [|[k0 v0] d IH]; cbn; [done|].
  intros [Hk Hd]%not_elem_of_cons. destruct (String.eqb_spec k k0); [done|]. by rewrite IH.
Qed.

Lemma dict_set_keys k v d :
  (dict_set k v d).*1 = if dict_mem k d then d.*1 else d.*1 ++ [k].
Proof.
  unfold dict_mem. induction d as [|[k0 v0] d IH]; cbn [dict_set dict_get]; [done|].
  destruct (String.eqb_spec k k0) as [->|]; cbn; [done|].
  rewrite IH. by destruct (dict_get k d).
Qed.

Lemma dict_set_wf k v d : json_wf (JObj d) -> json_wf v -> json_wf (JObj (dict_set k v d)).
Proof.
  intros Hwf Hv. inversion Hwf as [| | | | |? Hnd Hall]; subst. clear Hwf. constructor.
  - rewrite dict_set_keys. destruct (dict_mem k d) eqn:E; [done|].
    apply NoDup_app; split_and!; [done| |apply NoDup_singleton].
    intros x Hx ->%list_elem_of_singleton. apply dict_mem_spec in Hx. congruence.
  - clear Hnd. induction Hall as [|[k0 v0] d Hk Hd IH]; cbn.
    + apply Forall_singleton. done.
    + destruct (String.eqb k k0); apply Forall_cons_2; done.
Qed.

(** ** Round trip *)

(** Fuel that is enough to parse a printed value. *)
Fixpoint need (j : json) : nat :=
  match j with
  | JArr l => S ((fix go l := match l with [] => 0 | x :: l' => S (max (need x) (go l')) end) l)
  | JObj d =>
      S ((fix go (d : dict) := match d with [] => 0 | x :: d' => S (max (need x.2) (go d')) end) d)
  | _ => 1
  end.

Definition need_items (l : list json) : nat :=
  foldr (fun x n => S (max (need x) n)) 0 l.
Definition need_members (d : dict) : nat :=
  foldr (fun x n => S (max (need x.2) n)) 0 d.

Lemma need_arr l : need (JArr l) = S (need_items l).
Proof. done. Qed.

Lemma need_obj d : need (JObj d) = S (need_members d).
Proof. done. Qed.

(** What may follow a value: nothing, or a character that closes or separates. *)
Definition delim (r : string) : bool :=
  match r with
  | EmptyString => true
  | String c _ => Ascii.eqb c ","%char || Ascii.eqb c "]"%char || Ascii.eqb c "}"%char
  end.

Definition style_ok (st : style) : Prop :=
  (exists w, item_sep st = String "," w /\ skip_ws w = "") /\
  (exists w, key_sep st = String ":" w /\ skip_ws w = "").

Lemma default_style_ok : style_ok default_style.
Proof. split; eexists; split; done. Qed.
Lemma compact_style_ok : style_ok compact_style.
Proof. split; eexists; split; done. Qed.

Lemma skip_ws_app w s : skip_ws w = "" -> skip_ws (w +:+ s) = skip_ws s.
Proof.
  induction w as [|c w IH]; [done|]. rewrite string_app_cons. cbn [skip_ws].
  destruct (is_ws c); [apply IH|intros [=]].
Qed.

Lemma parse_skip f w s : skip_ws w = "" -> parse f (w +:+ s) = parse f s.
Proof. intros Hw. destruct f; [done|]. cbn [parse]. by rewrite skip_ws_app. Qed.

Lemma parse_items_skip f w s : skip_ws w = "" -> parse_items f (w +:+ s) = parse_items f s.
Proof. intros Hw. destruct f; [done|]. cbn [parse_items]. by rewrite parse_skip. Qed.

Lemma parse_members_skip f w s acc :
  skip_ws w = "" -> parse_members f (w +:+ s) acc = parse_members f s acc.
Proof. intros Hw. destruct f; [done|]. cbn [parse_members]. by rewrite skip_ws_app. Qed.

Lemma parse_string_escape_char c X :
  parse_string (escape_char c +:+ X) =
  match parse_string X with Some (b, r) => Some (String c b, r) | None => None end.
Proof.
  destruct (parse_string X) as [[b r]|] eqn:E;
    destruct c as [[] [] [] [] [] [] [] []];
    cbv -[parse_string]; cbn [parse_string]; cbv -[parse_string]; rewrite ?E; reflexivity.
Qed.

Lemma parse_string_quoted s r : parse_string (escape s +:+ String dquote r) = Some (s, r).
Proof.
  induction s as [|c s IH]; [done|]. cbn [escape].
  by rewrite string_app_assoc, parse_string_escape_char, IH.
Qed.

(** *** Numbers *)

Lemma uint_chars d : string_forallb is_num_char (NilEmpty.string_of_uint d) = true.
Proof. induction d; cbn [NilEmpty.string_of_uint string_forallb]; rewrite ?IHd; done. Qed.

Lemma to_int_nonnil n : Z.to_int n <> Decimal.Pos Decimal.Nil /\ Z.to_int n <> Decimal.Neg Decimal.Nil.
Proof.
  destruct n as [|p|p]; cbn [Z.to_int]; split; try discriminate;
    intros [=H]; by apply DecimalPos.Unsigned.to_uint_nonnil in H.
Qed.

Lemma print_Z_read n : NilZero.int_of_string (print_Z n) = Some (Z.to_int n).
Proof. destruct (to_int_nonnil n). by apply NilZero.isi. Qed.

Lemma print_Z_chars n : string_forallb is_num_char (print_Z n) = true.
Proof.
  unfold print_Z, NilZero.string_of_int, NilZero.string_of_uint.
  destruct (Z.to_int n) as [d|d]; destruct d; apply uint_chars || exact (uint_chars (Decimal.D1 _)) || done.
Qed.

Lemma print_Z_start n : exists c s, print_Z n = String c s /\ is_num_char c = true.
Proof.
  pose proof (print_Z_chars n) as Hc. pose proof (print_Z_read n) as Hr.
  destruct (print_Z n) as [|c s]; [discriminate Hr|].
  apply andb_prop in Hc as [Hc _]. eauto.
Qed.

Lemma span_num_app a r :
  string_forallb is_num_char a = true -> delim r = true -> span_num (a +:+ r) = (a, r).
Proof.
  intros Ha Hr. induction a as [|c a IH].
  - change ("" +:+ r) with r. destruct r as [|c r]; [done|]. cbn [span_num delim] in *.
    destruct (is_num_char c) eqn:E; [|done].
    destruct c as [[] [] [] [] [] [] [] []]; discriminate.
  - apply andb_prop in Ha as [Hc Ha]. rewrite string_app_cons. cbn [span_num].
    by rewrite Hc, (IH Ha).
Qed.

(** *** First characters *)

(** Characters no printed value starts with. *)
Definition start_ok (c : ascii) : bool :=
  negb (is_ws c) && negb (Ascii.eqb c "]"%char) && negb (Ascii.eqb c "}"%char).

Lemma num_start_ok c : is_num_char c = true -> start_ok c = true.
Proof. destruct c as [[] [] [] [] [] [] [] []]; done. Qed.

Lemma print_start st j : exists c s, print st j = String c s /\ start_ok c = true.
Proof.
  destruct j as [|[]|n|s|l|d]; try (eexists _, _; split; reflexivity).
  destruct (print_Z_start n) as (c & s & E & Hc). exists c, s. eauto using num_start_ok.
Qed.

Lemma print_skip st j r : skip_ws (print st j +:+ r) = print st j +:+ r.
Proof.
  destruct (print_start st j) as (c & s & -> & Hc). rewrite string_app_cons. cbn [skip_ws].
  unfold start_ok in Hc. by destruct (is_ws c).
Qed.

(** The dispatch on the first character of a number falls through to the number case. *)
Lemma parse_num f c s :
  is_num_char c = true ->
  parse (S f) (String c s) =
  (let '(num, r) := span_num (String c s) in
   match NilZero.int_of_string num with Some i => Some (JNum (Z.of_int i), r) | None => None end).
Proof. intros Hc. destruct c as [[] [] [] [] [] [] [] []]; try discriminate Hc; reflexivity. Qed.

(** The printed elements of an array, the printed members of an object. *)
Definition print_items (st : style) (l : list json) : string :=
  join (item_sep st) (map (print st) l).
Definition print_member (st : style) (kv : string * json) : string :=
  quoted kv.1 +:+ key_sep st +:+ print st kv.2.
Definition print_members (st : style) (d : dict) : string :=
  join (item_sep st) (map (print_member st) d).

Lemma join_cons sep x y l : join sep (x :: y :: l) = x +:+ sep +:+ join sep (y :: l).
Proof. done. Qed.

Lemma not_close_arr (A : Type) c (x y : A) :
  start_ok c = true -> match c with "]"%char => x | _ => y end = y.
Proof. destruct c as [[] [] [] [] [] [] [] []]; done || discriminate. Qed.

Lemma not_close_obj (A : Type) c (x y : A) :
  start_ok c = true -> match c with "}"%char => x | _ => y end = y.
Proof. destruct c as [[] [] [] [] [] [] [] []]; done || discriminate. Qed.

Lemma print_items_start st x l :
  exists c s, print_items st (x :: l) = String c s /\ start_ok c = true.
Proof.
  unfold print_items. cbn [map]. destruct (print_start st x) as (c & s & E & Hc).
  destruct (map (print st) l); [cbn [join]; eauto|].
  rewrite join_cons, E, string_app_cons. eauto.
Qed.

Lemma print_members_start st kv d :
  exists c s, print_members st (kv :: d) = String c s /\ start_ok c = true.
Proof.
  unfold print_members. cbn [map].
  assert (E : exists s, print_member st kv = String dquote s) by (eexists; reflexivity).
  destruct E as [s E]. destruct (map (print_member st) d).
  - cbn [join]. rewrite E. eauto.
  - rewrite join_cons, E, string_app_cons. eauto.
Qed.

Lemma start_skip c s : start_ok c = true -> skip_ws (String c s) = String c s.
Proof. unfold start_ok. cbn [skip_ws]. by destruct (is_ws c). Qed.

(** *** The theorem *)

Definition parses (st : style) (j : json) : Prop :=
  forall f r, need j <= f -> delim r = true -> parse f (print st j +:+ r) = Some (j, r).

Lemma parse_items_print st l f r :
  style_ok st -> l <> [] -> Forall (parses st) l -> need_items l <= f ->
  parse_items f (print_items st l +:+ "]" +:+ r) = Some (l, r).
Proof.
  intros [(w & Hw & Hws) _] Hne Hall. revert f. unfold print_items.
  induction Hall as [|x l Hx Hl IH]; [done|]. intros f Hf.
  destruct f as [|f]; [cbn in Hf; lia|]. destruct l as [|y l].
  - cbn in Hf. cbn [map join parse_items].
    rewrite Hx by (done || lia). done.
  - cbn [need_items foldr] in Hf. cbn [map]. rewrite join_cons.
    rewrite Hw, !string_app_assoc, string_app_cons. cbn [parse_items].
    rewrite Hx by (done || lia). cbn [skip_ws]. change (is_ws ",") with false. cbv iota.
    rewrite parse_items_skip by done. change (print st y :: map (print st) l) with (map (print st) (y :: l)).
    rewrite <- Hw, IH by (done || cbn [need_items foldr]; lia). done.
Qed.

Lemma parse_members_print st d f r acc :
  style_ok st -> d <> [] -> Forall (fun kv => parses st kv.2) d -> need_members d <= f ->
  NoDup (acc ++ d).*1 ->
  parse_members f (print_members st d +:+ "}" +:+ r) acc = Some (acc ++ d, r).
Proof.
  intros [(w & Hw & Hws) (w' & Hw' & Hws')] Hne Hall. revert f acc. unfold print_members.
  induction Hall as [|[k v] d Hx Hd IH]; [done|]. intros f acc Hf Hnd.
  destruct f as [|f]; [cbn in Hf; lia|]. cbn [snd] in Hx.
  assert (Hk : k ∉ acc.*1).
  { rewrite fmap_app in Hnd. apply NoDup_app in Hnd as (_ & Hdis & _).
    intros Hin. apply (Hdis _ Hin). left. }
  assert (Hset : dict_set k v acc = acc ++ [(k, v)]) by by apply dict_set_new.
  assert (Hkey : forall X, parse_members (S f) (print_member st (k, v) +:+ X) acc =
    match parse f (print st v +:+ X) with
    | Some (v', r2) =>
        match skip_ws r2 with
        | String "}" r3 => Some (dict_set k v' acc, r3)
        | String "," r3 => parse_members f r3 (dict_set k v' acc)
        | _ => None
        end
    | None => None end).
  { intros X. unfold print_member, quoted. cbn [fst snd]. rewrite Hw'.
    rewrite !string_app_assoc, !string_app_cons, !string_app_assoc, !string_app_cons.
    cbn [parse_members skip_ws]. change (is_ws dquote) with false. cbv iota.
    change (Ascii.eqb dquote dquote) with true. cbv iota.
    rewrite parse_string_quoted, string_app_nil_l. cbn [skip_ws]. change (is_ws ":") with false. cbv iota.
    by rewrite parse_skip by done. }
  destruct d as [|y d].
  - cbn in Hf. cbn [map join]. rewrite Hkey, Hx by (done || lia). by rewrite <- Hset.
  - cbn [need_members foldr snd] in Hf. cbn [map]. rewrite join_cons.
    rewrite Hw, !string_app_assoc, string_app_cons, Hkey, Hx by (done || lia).
    cbn [skip_ws]. change (is_ws ",") with false. cbv iota.
    rewrite parse_members_skip by done.
    change (print_member st y :: map (print_member st) d) with (map (print_member st) (y :: d)).
    rewrite Hset, <- Hw, IH by (done || (cbn [need_members foldr]; lia) || by rewrite <- app_assoc).
    by rewrite <- app_assoc.
Qed.

(** Parsing a printed value gives the value back, with the rest of the text. *)
Lemma parse_print st j : style_ok st -> json_wf j -> parses st j.
Proof.
  intros Hst. induction j as [| b | n | s | l IH | d IH] using json_nested_ind;
    intros Hwf f r Hf Hr.
  - destruct f; [cbn in Hf; lia|]. done.
  - destruct f; [cbn in Hf; lia|]. by destruct b.
  - destruct f as [|f]; [cbn in Hf; lia|]. cbn [print].
    destruct (print_Z_start n) as (c & s & E & Hc). pose proof (print_Z_chars n) as Hch.
    rewrite E at 1. rewrite string_app_cons, (parse_num f c _ Hc), <- string_app_cons, <- E.
    rewrite span_num_app by done. rewrite print_Z_read. cbv iota. by rewrite DecimalZ.of_to.
  - destruct f as [|f]; [cbn in Hf; lia|]. cbn [print]. unfold quoted.
    rewrite string_app_cons, string_app_assoc, string_app_cons. cbn [parse skip_ws].
    change (is_ws dquote) with false. cbv iota. change (Ascii.eqb dquote dquote) with true. cbv iota.
    by rewrite parse_string_quoted.
  - rewrite need_arr in Hf. destruct f as [|f]; [lia|].
    inversion Hwf as [| | | |? Hl|]; subst.
    assert (Hps : Forall (parses st) l) by (rewrite Forall_forall in *; eauto).
    change (print st (JArr l)) with ("[" +:+ print_items st l +:+ "]").
    rewrite !string_app_assoc.
    change (parse (S f) ("[" +:+ print_items st l +:+ "]" +:+ r)) with
      (match skip_ws (print_items st l +:+ "]" +:+ r) with
       | String "]" r => Some (JArr [], r)
       | _ => match parse_items f (print_items st l +:+ "]" +:+ r) with
              | Some (l, r) => Some (JArr l, r) | None => None end
       end).
    destruct l as [|x l]; [done|].
    rewrite (parse_items_print st) by (done || lia).
    destruct (print_items_start st x l) as (c & s & E & Hc).
    rewrite E, string_app_cons, start_skip by done. by apply not_close_arr.
  - rewrite need_obj in Hf. destruct f as [|f]; [lia|].
    inversion Hwf as [| | | | |? Hnd Hd]; subst.
    assert (Hps : Forall (fun kv => parses st kv.2) d).
    { rewrite Forall_forall in *. intros kv Hin. by apply IH, Hd. }
    change (print st (JObj d)) with ("{" +:+ print_members st d +:+ "}").
    rewrite !string_app_assoc.
    change (parse (S f) ("{" +:+ print_members st d +:+ "}" +:+ r)) with
      (match skip_ws (print_members st d +:+ "}" +:+ r) with
       | String "}" r => Some (JObj [], r)
       | _ => match parse_members f (print_members st d +:+ "}" +:+ r) [] with
              | Some (d, r) => Some (JObj d, r) | None => None end
       end).
    destruct d as [|x d]; [done|].
    rewrite (parse_members_print st) by (done || lia).
    destruct (print_members_start st x d) as (c & s & E & Hc).
    rewrite E, string_app_cons, start_skip by done. by apply not_close_obj.
Qed.

(** The length of the text is enough fuel. *)
Lemma join_length_cons sep x y l :
  String.length (join sep (x :: y :: l)) =
  String.length x + String.length sep + String.length (join sep (y :: l)).
Proof. rewrite join_cons, !string_length_app. lia. Qed.

Lemma need_length st j : style_ok st -> need j <= String.length (print st j).
Proof.
  intros [(w & Hw & _) _].
  assert (Hsep : 1 <= String.length (item_sep st)) by (rewrite Hw; cbn; lia).
  induction j as [| b | n | s | l IH | d IH] using json_nested_ind.
  - cbn. lia.
  - destruct b; cbn; lia.
  - cbn [print need]. destruct (print_Z_start n) as (c & s & -> & _). cbn. lia.
  - cbn. lia.
  - rewrite need_arr. change (print st (JArr l)) with ("[" +:+ print_items st l +:+ "]").
    rewrite !string_length_app. cbn [String.length].
    enough (need_items l <= S (String.length (print_items st l))) by lia.
    unfold print_items. induction IH as [|x l Hx Hl IH]; [cbn; lia|].
    cbn [need_items foldr map]. destruct l as [|y l]; [cbn; lia|].
    cbn [map] in *. rewrite join_length_cons. fold (need_items (y :: l)). lia.
  - rewrite need_obj. change (print st (JObj d)) with ("{" +:+ print_members st d +:+ "}").
    rewrite !string_length_app. cbn [String.length].
    enough (need_members d <= S (String.length (print_members st d))) by lia.
    unfold print_members. induction IH as [|x d Hx Hd IH]; [cbn; lia|].
    assert (Hm : String.length (print st x.2) <= String.length (print_member st x)).
    { unfold print_member. rewrite !string_length_app. lia. }
    cbn [need_members foldr map]. destruct d as [|y d]; [cbn; lia|].
    cbn [map] in *. rewrite join_length_cons. fold (need_members (y :: d)). lia.
Qed.

Lemma loads_print st j : style_ok st -> json_wf j -> loads (print st j) = Some j.
Proof.
  intros Hst Hwf. unfold loads.
  pose proof (need_length st j Hst) as Hlen.
  rewrite <- (string_app_nil_r (print st j)) at 2.
  rewrite (parse_print st j Hst Hwf) by (done || lia). done.
Qed.

(** [json.loads(json.dumps(j)) == j] *)
Lemma loads_dumps j : json_wf j -> loads (dumps j) = Some j.
Proof. apply loads_print, default_style_ok. Qed.

Lemma wf_empty : json_wf (JObj []).
Proof. constructor; [apply NoDup_nil_2|apply Forall_nil_2]. Qed.

(** What is read has distinct keys. *)
Lemma parse_wf f :
  (forall s j r, parse f s = Some (j, r) -> json_wf j) /\
  (forall s l r, parse_items f s = Some (l, r) -> Forall json_wf l) /\
  (forall s acc d r, json_wf (JObj acc) -> parse_members f s acc = Some (d, r) -> json_wf (JObj d)).
Proof.
  induction f as [|f (IHp & IHi & IHm)]; [done|]. split_and!.
  - intros s j r. cbn [parse]. destruct (skip_ws s) as [|c s1]; [done|].
    repeat (let E := fresh "E" in case_match eqn:E; try discriminate); intros; simplify_eq;
      lazymatch goal with
      | |- json_wf (JArr []) => apply wf_arr, Forall_nil_2
      | |- json_wf (JArr _) => apply wf_arr; eapply IHi; eassumption
      | |- json_wf (JObj []) => apply wf_empty
      | |- json_wf (JObj _) => eapply IHm; [apply wf_empty|eassumption]
      | |- _ => constructor
      end.
  - intros s l r. cbn [parse_items]. destruct (parse f s) as [[j r0]|] eqn:Ep; [|done].
    apply IHp in Ep.
    repeat (let E := fresh "E" in case_match eqn:E; try discriminate); intros; simplify_eq;
      [by apply Forall_singleton|]. apply Forall_cons_2; [done|eapply IHi; eassumption].
  - intros s acc d r Hacc. cbn [parse_members]. destruct (skip_ws s) as [|c s1]; [done|].
    destruct (Ascii.eqb c dquote); [|done]. destruct (parse_string s1) as [[k r0]|]; [|done].
    repeat (let E := fresh "E" in case_match eqn:E; try discriminate); intros; simplify_eq;
      first [ apply dict_set_wf; [done|eapply IHp; eassumption]
               | eapply IHm; [|eassumption]; apply dict_set_wf; [done|eapply IHp; eassumption] ].
Qed.

Lemma loads_wf s j : loads s = Some j -> json_wf j.
Proof.
  unfold loads. destruct (parse _ s) as [[j0 r]|] eqn:E; [|done]. case_match; [|done].
  intros [= ->]. by eapply parse_wf.
Qed.

#[export] Hint Resolve default_style_ok compact_style_ok : morok.

(** ** Sorted keys *)

Lemma sort_keys_wf j : json_wf j -> json_wf (sort_keys j).
Proof.
  induction j as [| b | n | s | l IH | d IH] using json_nested_ind; intros Hwf;
    cbn [sort_keys]; try by constructor.
  - inversion Hwf; subst. constructor. rewrite Forall_fmap. rewrite Forall_forall in *.
    intros x Hx. cbn. eauto.
  - inversion Hwf as [| | | | |? Hnd Hd]; subst.
    assert (Hp : merge_sort key_le (map (fun kv => (kv.1, sort_keys kv.2)) d)
                 ≡ₚ map (fun kv => (kv.1, sort_keys kv.2)) d) by apply merge_sort_Permutation.
    constructor.
    + rewrite Hp. change (map ?f d) with (f <$> d). by rewrite <- list_fmap_compose.
    + rewrite Hp. apply Forall_fmap. rewrite Forall_forall in *. intros x Hx. cbn. eauto.
Qed.
