(* ===== verification/Codec.v ===== *)
(** * Text codecs of the Python standard library

    [int(s)] on text, and [base64.b64decode(s, validate=True)] with its inverse
    [base64.b64encode], and [uuid.UUID(s)] with [str(u)].  [bytes.fromhex] and [bytes.hex] are in [Prelude].

    [int] is on ASCII text, without the limit of 4300 digits.  [b64decode] follows the strict mode
    of CPython 3.12 ([binascii.a2b_base64]), which accepts more than one spelling of some texts. *)

From Stdlib Require Import Ascii String DecimalString DecimalZ.
From stdpp Require Import prelude strings list.
From S2P Require Import Prelude Json.

(** ** [int(s)] *)

Definition digit_val (c : ascii) : option Z :=
  let n := Z.of_N (N_of_ascii c) in
  if (48 <=? n)%Z && (n <=? 57)%Z then Some (n - 48)%Z else None.

(** Digits, with single underscores between them; [dig]: the last character was a digit. *)
Fixpoint py_uint (acc : Z) (dig : bool) (s : string) : option Z :=
  match s with
  | EmptyString => if dig then Some acc else None
  | String c s' =>
      match digit_val c with
      | Some d => py_uint (acc * 10 + d) true s'
      | None => if Ascii.eqb c "_" && dig then py_uint acc false s' else None
      end
  end.

Definition is_py_space (c : ascii) : bool :=
  let n := N_of_ascii c in
  ((9 <=? n)%N && (n <=? 13)%N) || ((28 <=? n)%N && (n <=? 32)%N).

Fixpoint lstrip (s : string) : string :=
  match s with
  | String c s' => if is_py_space c then lstrip s' else s
  | EmptyString => EmptyString
  end.

(** [s.strip()] *)
Fixpoint rstrip (s : string) : string :=
  match s with
  | EmptyString => EmptyString
  | String c s' =>
      match rstrip s' with
      | EmptyString => if is_py_space c then EmptyString else String c EmptyString
      | r => String c r
      end
  end.
Definition strip (s : string) : string := rstrip (lstrip s).

(** [s.split(sep)] *)
Fixpoint split_on (sep : ascii) (s : string) : list string :=
  match s with
  | EmptyString => [""]
  | String c s' =>
      if Ascii.eqb c sep then "" :: split_on sep s'
      else match split_on sep s' with [] => [String c ""] | a :: l => String c a :: l end
  end.

(** [s.partition(c)], where any character of [p] separates. *)
Fixpoint before (p : ascii -> bool) (s : string) : string :=
  match s with EmptyString => "" | String c s' => if p c then "" else String c (before p s') end.
Fixpoint after (p : ascii -> bool) (s : string) : string :=
  match s with EmptyString => "" | String c s' => if p c then s' else after p s' end.
Definition is_char (d c : ascii) : bool := Ascii.eqb c d.
(** [c in cs], [needle in s] and [s.endswith(suffix)] *)
Definition char_in (cs : string) (c : ascii) : bool := match String.index 0 (String c "") cs with Some _ => true | None => false end.
Definition contains (needle s : string) : bool := match String.index 0 needle s with Some _ => true | None => false end.
Fixpoint ends_with (suffix s : string) : bool :=
  String.eqb s suffix || match s with EmptyString => false | String _ s' => ends_with suffix s' end.
Fixpoint filter_chars (p : ascii -> bool) (s : string) : string :=
  match s with EmptyString => "" | String c s' => if p c then String c (filter_chars p s') else filter_chars p s' end.
(** [s.lstrip(cs)] *)
Fixpoint lstrip_chars (p : ascii -> bool) (s : string) : string :=
  match s with EmptyString => "" | String c s' => if p c then lstrip_chars p s' else s end.
Definition is_alpha (c : ascii) : bool :=
  let n := N_of_ascii c in ((65 <=? n) && (n <=? 90))%N || ((97 <=? n) && (n <=? 122))%N.
Definition is_alnum (c : ascii) : bool :=
  let n := N_of_ascii c in is_alpha c || ((48 <=? n) && (n <=? 57))%N.

(** [int(s)] *)
Definition py_int (s : string) : option Z :=
  match strip s with
  | String "-" s' => Z.opp <$> py_uint 0 false s'
  | String "+" s' => py_uint 0 false s'
  | s' => py_uint 0 false s'
  end.

(** ** Base64 *)

Definition b64_alphabet : string := "ABCDEFGHIJKLMNOPQRSTUVWXYZabcdefghijklmnopqrstuvwxyz0123456789+/".

Definition b64_char (n : N) : ascii :=
  match String.get (N.to_nat n) b64_alphabet with Some c => c | None => "="%char end.

Definition b64_val (c : ascii) : option N :=
  let n := N_of_ascii c in
  if (65 <=? n)%N && (n <=? 90)%N then Some (n - 65)%N
  else if (97 <=? n)%N && (n <=? 122)%N then Some (n - 71)%N
  else if (48 <=? n)%N && (n <=? 57)%N then Some (n + 4)%N
  else if (n =? 43)%N then Some 62%N
  else if (n =? 47)%N then Some 63%N
  else None.

(** Three bytes to four characters; the end is padded. *)
Fixpoint b64encode (s : string) : string :=
  match s with
  | String a (String b (String c s')) =>
      let x := N_of_ascii a in let y := N_of_ascii b in let z := N_of_ascii c in
      String (b64_char (x / 4)) (String (b64_char (x mod 4 * 16 + y / 16))
        (String (b64_char (y mod 16 * 4 + z / 64)) (String (b64_char (z mod 64)) (b64encode s'))))
  | String a (String b EmptyString) =>
      let x := N_of_ascii a in let y := N_of_ascii b in
      String (b64_char (x / 4)) (String (b64_char (x mod 4 * 16 + y / 16))
        (String (b64_char (y mod 16 * 4)) "="))
  | String a EmptyString =>
      let x := N_of_ascii a in
      String (b64_char (x / 4)) (String (b64_char (x mod 4 * 16)) "==")
  | EmptyString => EmptyString
  end.

(** The loop of [a2b_base64]: [quad_pos], [leftchar], [pads] and [padding_started] of the source. *)
Fixpoint b64_loop (quad_pos : nat) (left : N) (pads : nat) (padding_started : bool) (s : string)
    : option string :=
  match s with
  | EmptyString => if (quad_pos =? 0)%nat then Some EmptyString else None
  | String c s' =>
      if Ascii.eqb c "=" then
        if (2 <=? quad_pos)%nat then
          if (4 <=? quad_pos + S pads)%nat
          then match s' with EmptyString => Some EmptyString | _ => None end
          else b64_loop quad_pos left (S pads) true s'
        else b64_loop quad_pos left pads true s'
      else
        match b64_val c with
        | None => None
        | Some v =>
            if padding_started then None
            else
              match quad_pos with
              | 0 => b64_loop 1 v 0 false s'
              | 1 => String (ascii_of_N (left * 4 + v / 16)) <$> b64_loop 2 (v mod 16) 0 false s'
              | 2 => String (ascii_of_N (left * 16 + v / 4)) <$> b64_loop 3 (v mod 4) 0 false s'
              | _ => String (ascii_of_N (left * 64 + v)) <$> b64_loop 0 0 0 false s'
              end
        end
  end.

Definition b64decode (s : string) : option string :=
  match s with
  | String "=" _ => None
  | _ => b64_loop 0 0 0 false s
  end.

(** ** Round trips *)

Lemma b64_val_char n : (n < 64)%N -> b64_val (b64_char n) = Some n.
Proof.
  intros Hn.
  assert (Hall : forallb (fun k => bool_decide (b64_val (b64_char (N.of_nat k)) = Some (N.of_nat k)))
                   (seq 0 64) = true) by (vm_compute; reflexivity).
  rewrite forallb_forall in Hall. specialize (Hall (N.to_nat n)).
  rewrite N2Nat.id in Hall.
  eapply bool_decide_eq_true_1, Hall, in_seq. lia.
Qed.

Lemma b64_char_not_pad n : (n < 64)%N -> Ascii.eqb (b64_char n) "=" = false.
Proof.
  intros Hn. destruct (Ascii.eqb_spec (b64_char n) "="); [|done].
  pose proof (b64_val_char n Hn) as H. by rewrite e in H.
Qed.

Section B64Loop.
#[local] Ltac Zify.zify_post_hook ::= Z.to_euclidean_division_equations.

Lemma byte_lt a : (N_of_ascii a < 256)%N.
Proof. apply N_ascii_bounded. Qed.

Lemma b64_step q left n s : (n < 64)%N ->
  b64_loop q left 0 false (String (b64_char n) s) =
  match q with
  | 0 => b64_loop 1 n 0 false s
  | 1 => String (ascii_of_N (left * 4 + n / 16)) <$> b64_loop 2 (n mod 16) 0 false s
  | 2 => String (ascii_of_N (left * 16 + n / 4)) <$> b64_loop 3 (n mod 4) 0 false s
  | _ => String (ascii_of_N (left * 64 + n)) <$> b64_loop 0 0 0 false s
  end.
Proof. intros Hn. cbn [b64_loop]. by rewrite b64_char_not_pad, b64_val_char by done. Qed.

Lemma byte_split a n : n = N_of_ascii a -> ascii_of_N n = a.
Proof. intros ->. apply ascii_N_embedding. Qed.

Lemma b64_loop_encode s : b64_loop 0 0 0 false (b64encode s) = Some s.
Proof.
  enough (H : forall n s, String.length s <= n -> b64_loop 0 0 0 false (b64encode s) = Some s)
    by by eapply H.
  clear s. induction n as [|n IH]; intros s Hlen.
  - by destruct s; [|cbn in Hlen; lia].
  - destruct s as [|a [|b [|c s]]]; [done|..]; cbn [b64encode];
      pose proof (byte_lt a); try pose proof (byte_lt b); try pose proof (byte_lt c).
    + repeat (rewrite b64_step by lia; cbv iota beta). cbn. do 2 f_equal. apply byte_split. lia.
    + repeat (rewrite b64_step by lia; cbv iota beta). cbn. do 2 f_equal; [apply byte_split; lia|].
      f_equal. apply byte_split. lia.
    + repeat (rewrite b64_step by lia; cbv iota beta). rewrite IH by (cbn in Hlen; lia). cbn.
      do 2 f_equal; [apply byte_split; lia|]. f_equal; [apply byte_split; lia|].
      f_equal. apply byte_split. lia.
Qed.
End B64Loop.

Lemma b64encode_start s c r : b64encode s = String c r -> exists n, (n < 64)%N /\ c = b64_char n.
Proof.
  assert (Hn : forall a, (N_of_ascii a / 4 < 64)%N)
    by (intros a; pose proof (byte_lt a); apply N.Div0.div_lt_upper_bound; lia).
  destruct s as [|a [|b [|d s]]]; cbn [b64encode]; [done|..]; intros [= <- _]; eauto.
Qed.

Lemma b64decode_encode s : b64decode (b64encode s) = Some s.
Proof.
  rewrite <- (b64_loop_encode s). unfold b64decode.
  destruct (b64encode s) as [|c r] eqn:E; [done|].
  destruct (b64encode_start s c r E) as (n & Hn & Hc).
  pose proof (b64_char_not_pad n Hn) as Hp. rewrite <- Hc in Hp.
  destruct c as [[] [] [] [] [] [] [] []]; try reflexivity. done.
Qed.

(** ** Printed numbers read back *)

(** [py_uint] on decimal digits is the positional value. *)
Lemma py_uint_pos d p :
  py_uint (Z.pos p) true (NilEmpty.string_of_uint d) = Some (Z.pos (Pos.of_uint_acc d p)).
Proof.
  revert p. induction d; intros p; cbn [NilEmpty.string_of_uint py_uint Pos.of_uint_acc]; [done|..];
    rewrite <- IHd; f_equal; cbn; lia.
Qed.

Lemma py_uint_zero d b : d <> Decimal.Nil \/ b = true ->
  py_uint 0 b (NilEmpty.string_of_uint d) = Some (Z.of_uint d).
Proof.
  unfold Z.of_uint. revert b. induction d; intros b Hd; cbn [NilEmpty.string_of_uint py_uint Pos.of_uint].
  { destruct b; [done|naive_solver]. }
  { apply IHd. by right. }
  all: apply py_uint_pos.
Qed.

Lemma num_char_space c : is_num_char c = true -> is_py_space c = false.
Proof. destruct c as [[] [] [] [] [] [] [] []]; vm_compute; congruence. Qed.

Lemma strip_num s : string_forallb is_num_char s = true -> strip s = s.
Proof.
  intros Hs. unfold strip.
  assert (Hl : lstrip s = s).
  { destruct s as [|c s]; [done|]. cbn in *. apply andb_prop in Hs as [Hc _].
    by rewrite num_char_space. }
  rewrite Hl. clear Hl. induction s as [|c s IH]; [done|]. cbn in *.
  apply andb_prop in Hs as [Hc Hs]. rewrite IH by done.
  destruct s; [by rewrite num_char_space|done].
Qed.

Lemma zero_of_nil d : d <> Decimal.Nil -> NilZero.string_of_uint d = NilEmpty.string_of_uint d.
Proof. by destruct d. Qed.

(** [int(str(n)) == n] *)
Lemma py_int_print n : py_int (print_Z n) = Some n.
Proof.
  unfold py_int. rewrite strip_num by apply print_Z_chars.
  destruct (to_int_nonnil n) as [Hp Hn]. unfold print_Z, NilZero.string_of_int.
  rewrite <- (DecimalZ.of_to n) at 2.
  destruct (Z.to_int n) as [d|d]; cbn [Z.of_int].
  - assert (Hd : d <> Decimal.Nil) by congruence. rewrite (zero_of_nil d Hd).
    destruct d; [done|..]; exact (py_uint_zero _ false (or_introl Hd)).
  - assert (Hd : d <> Decimal.Nil) by congruence. rewrite (zero_of_nil d Hd).
    rewrite py_uint_zero by (by left). done.
Qed.

(** ** UUIDs as text

    [uuid.UUID(s)] and [str(u)]; a UUID is its 16 bytes. *)

(** [s.replace(pat, "")] for a pattern that is not empty; [skip] characters are still to drop. *)
Fixpoint remove_pat (pat : string) (skip : nat) (s : string) : string :=
  match s with
  | EmptyString => EmptyString
  | String c s' =>
      match skip with
      | S skip' => remove_pat pat skip' s'
      | O => if String.prefix pat s then remove_pat pat (String.length pat - 1) s'
             else String c (remove_pat pat 0 s')
      end
  end.

Definition is_brace (c : ascii) : bool := Ascii.eqb c "{" || Ascii.eqb c "}".
Fixpoint lstrip_braces (s : string) : string :=
  match s with
  | String c s' => if is_brace c then lstrip_braces s' else s
  | EmptyString => EmptyString
  end.
Fixpoint rstrip_braces (s : string) : string :=
  match s with
  | EmptyString => EmptyString
  | String c s' =>
      match rstrip_braces s' with
      | EmptyString => if is_brace c then EmptyString else String c EmptyString
      | r => String c r
      end
  end.

(** [int(s, 16)]: blanks around, a sign, a prefix 0x, single underscores between digits. *)
Fixpoint py_hex (acc : Z) (dig : bool) (s : string) : option Z :=
  match s with
  | EmptyString => if dig then Some acc else None
  | String c s' =>
      match hex_val c with
      | Some d => py_hex (acc * 16 + Z.of_N d) true s'
      | None => if Ascii.eqb c "_" && dig then py_hex acc false s' else None
      end
  end.
Definition py_hex_body (s : string) : option Z :=
  match s with
  | String "0" (String "x" (String "_" s')) | String "0" (String "X" (String "_" s')) => py_hex 0 false s'
  | String "0" (String "x" s') | String "0" (String "X" s') => py_hex 0 false s'
  | _ => py_hex 0 false s
  end.
Definition py_int16 (s : string) : option Z :=
  match strip s with
  | String "-" s' => Z.opp <$> py_hex_body s'
  | String "+" s' => py_hex_body s'
  | s' => py_hex_body s'
  end.

(** The [len] low bytes of a number, the highest first. *)
Fixpoint big_endian (len : nat) (n : Z) : string :=
  match len with
  | O => ""
  | S len' => big_endian len' (n / 256) +:+ String (ascii_of_N (Z.to_N (n mod 256))) ""
  end.

Definition uuid_of_string (s : string) : option string :=
  let hex := remove_pat "uuid:" 0 (remove_pat "urn:" 0 s) in
  let hex := remove_pat "-" 0 (rstrip_braces (lstrip_braces hex)) in
  if negb (String.length hex =? 32)%nat then None
  else match py_int16 hex with
       | Some n => if (0 <=? n)%Z && (n <? 2 ^ 128)%Z then Some (big_endian 16 n) else None
       | None => None
       end.

Definition uuid_to_string (u : string) : string :=
  let h := hex_of_bytes u in
  substring 0 8 h +:+ "-" +:+ substring 8 4 h +:+ "-" +:+ substring 12 4 h +:+ "-" +:+
  substring 16 4 h +:+ "-" +:+ substring 20 12 h.
