(* ===== verification/CodecFacts.v ===== *)
(** * Text of keys and identifiers: properties

    Hexadecimal text has two digits per byte, and the text of a UUID is read back as the UUID. *)

From Stdlib Require Import Ascii String.
From stdpp Require Import prelude strings list.
From S2P Require Import Prelude Json Codec.

#[local] Open Scope morok_scope.

(** ** Hexadecimal text *)

Lemma hex_digit_lower n : (n < 16)%N -> is_lower_hex (hex_digit n) = true.
Proof.
  intros Hn.
  assert (Hall : forall m : nat, m < 16 -> is_lower_hex (hex_digit (N.of_nat m)) = true).
  { intros m Hm. do 16 (destruct m as [|m]; [reflexivity|]). lia. }
  rewrite <- (N2Nat.id n). apply Hall. lia.
Qed.

Lemma hex_of_bytes_len b : (string_len (hex_of_bytes b) =? 2 * string_len b)%Z && string_forallb is_lower_hex (hex_of_bytes b) = true.
Proof.
  unfold string_len. apply andb_true_iff. split; [apply Z.eqb_eq|]; induction b as [|c b IH]; try done.
  - cbn [hex_of_bytes String.length] in *. lia.
  - cbn [hex_of_bytes string_forallb]. assert (Hc : (N_of_ascii c < 256)%N) by apply N_ascii_bounded.
    rewrite IH, !hex_digit_lower; [done|apply N.mod_lt; lia|apply N.Div0.div_lt_upper_bound; lia].
Qed.

Lemma lower_hex_not_space c : is_lower_hex c = true -> is_space c = false.
Proof.
  unfold is_lower_hex, is_space. intros H. destruct (N.eqb_spec (N_of_ascii c) 32) as [E|_]; [by rewrite E in H|].
  cbn [orb]. apply andb_false_iff. right. apply N.leb_gt. apply orb_true_iff in H as [H|H]; apply andb_true_iff in H as [H _];
    apply N.leb_le in H; lia.
Qed.

(** Lower-case hex digits are decoded two by two. *)
Lemma fromhex_len h : forall b, string_forallb is_lower_hex h = true -> bytes_fromhex h = Some b -> string_len h = (2 * string_len b)%Z.
Proof.
  induction h as [h IH] using (induction_ltof1 _ String.length). unfold ltof in IH. intros b Hh Hb.
  destruct h as [|c [|d h]]; cbn [bytes_fromhex string_forallb] in *.
  - by injection Hb as <-.
  - apply andb_true_iff in Hh as [Hc _]. rewrite (lower_hex_not_space _ Hc) in Hb. by destruct (hex_val c).
  - apply andb_true_iff in Hh as [Hc [Hd Hh]%andb_true_iff]. rewrite (lower_hex_not_space _ Hc) in Hb.
    destruct (hex_val c); [|done]. destruct (hex_val d); [|done]. destruct (bytes_fromhex h) as [r|] eqn:Er; [|done].
    injection Hb as <-. assert (Hl : string_len h = (2 * string_len r)%Z) by (apply IH; [cbn; lia|done|done]).
    unfold string_len in *. cbn [String.length]. lia.
Qed.


(** ** Parts of a text *)

Lemma forallb_substring f s : forall i n, string_forallb f s = true -> string_forallb f (substring i n s) = true.
Proof.
  induction s as [|c s IH]; intros i n Hs; [by destruct i, n|]. cbn in Hs. apply andb_true_iff in Hs as [Hc Hs].
  destruct i, n; cbn; try done; try by apply IH. by rewrite Hc, IH.
Qed.

Lemma substring_all s : substring 0 (String.length s) s = s.
Proof. induction s as [|c s IH]; [done|]. cbn. by rewrite IH. Qed.

Lemma substring_length n s : (n <= String.length s)%nat -> String.length (substring 0 n s) = n.
Proof. revert n. induction s as [|c s IH]; intros [|n] Hn; cbn in *; try lia. rewrite IH; lia. Qed.
Lemma substring_app_l a b : substring 0 (String.length a) (a +:+ b) = a.
Proof. induction a as [|c a IH]; [by destruct b|]. rewrite string_app_cons. cbn [String.length substring]. by rewrite IH. Qed.
Lemma substring_app_r a b n : substring (String.length a) n (a +:+ b) = substring 0 n b.
Proof. induction a as [|c a IH]; [done|]. rewrite string_app_cons. exact IH. Qed.

(** A text up to a separator, and what follows it. *)
Lemma before_app p a c b : string_forallb (fun x => negb (p x)) a = true -> p c = true -> before p (a +:+ String c b) = a.
Proof.
  intros Ha Hc. induction a as [|x a IH]; rewrite ?string_app_nil_l, ?string_app_cons; cbn in *; [by rewrite Hc|]. apply andb_true_iff in Ha as [Hx%negb_true_iff Ha].
  by rewrite Hx, IH.
Qed.
Lemma after_app p a c b : string_forallb (fun x => negb (p x)) a = true -> p c = true -> after p (a +:+ String c b) = b.
Proof.
  intros Ha Hc. induction a as [|x a IH]; rewrite ?string_app_nil_l, ?string_app_cons; cbn in *; [by rewrite Hc|]. apply andb_true_iff in Ha as [Hx%negb_true_iff Ha].
  by rewrite Hx, IH.
Qed.
Lemma char_in_app a c b : char_in (a +:+ String c b) c = true.
Proof.
  unfold char_in. assert (H : String.index 0 (String c "") (a +:+ String c b) <> None).
  { induction a as [|x a IH]; rewrite ?string_app_nil_l, ?string_app_cons; cbn.
    - destruct (ascii_dec c c) as [_|]; [|done]. by destruct b.
    - destruct (ascii_dec c x) as [->|]; [by destruct (a +:+ String x b)|].
      destruct (String.index 0 (String c "") (a +:+ String c b)); [done|]. by intros _; apply IH. }
  by destruct (String.index 0 (String c "") (a +:+ String c b)).
Qed.
Lemma substring_split s : forall i m n, substring i m s +:+ substring (i + m) n s = substring i (m + n) s.
Proof.
  induction s as [|c s IH]; intros i m n; [by destruct i, m, n|]. destruct i as [|i].
  - destruct m as [|m]; [done|]. cbn [substring Nat.add]. rewrite string_app_cons. f_equal. apply (IH 0 m n).
  - cbn [substring Nat.add]. apply IH.
Qed.

Lemma substring_parts h : String.length h = 32 ->
  substring 0 8 h +:+ substring 8 4 h +:+ substring 12 4 h +:+ substring 16 4 h +:+ substring 20 12 h = h.
Proof.
  intros Hn. pose proof (substring_split h 16 4 12) as E1. pose proof (substring_split h 12 4 16) as E2.
  pose proof (substring_split h 8 4 20) as E3. pose proof (substring_split h 0 8 24) as E4. cbn [Nat.add] in E1, E2, E3, E4.
  rewrite E1, E2, E3, E4, <- Hn. apply substring_all.
Qed.

(** ** UUIDs *)

Lemma hex_lower b : string_forallb is_lower_hex (hex_of_bytes b) = true.
Proof. pose proof (hex_of_bytes_len b) as H. by apply andb_true_iff in H as [_ H]. Qed.

Lemma forallb_app f a b : string_forallb f (a +:+ b) = string_forallb f a && string_forallb f b.
Proof. induction a as [|c a IH]; [done|]. cbn. by rewrite <- andb_assoc, <- IH. Qed.

Lemma forallb_weaken (f g : ascii -> bool) s :
  (forall c, f c = true -> g c = true) -> string_forallb f s = true -> string_forallb g s = true.
Proof.
  intros Hfg. induction s as [|c s IH]; [done|]. cbn. intros [Hc Hs]%andb_true_iff. by rewrite (Hfg c Hc), IH.
Qed.

(** A pattern whose first character does not occur is not found. *)
Lemma remove_pat_absent c0 pat s :
  string_forallb (fun c => negb (Ascii.eqb c0 c)) s = true -> remove_pat (String c0 pat) 0 s = s.
Proof.
  induction s as [|c s IH]; [done|]. cbn [string_forallb remove_pat]. intros [Hc Hs]%andb_true_iff.
  assert (Hp : String.prefix (String c0 pat) (String c s) = false).
  { cbn. destruct (ascii_dec c0 c) as [->|]; [|done]. by rewrite Ascii.eqb_refl in Hc. }
  rewrite Hp. f_equal. by apply IH.
Qed.

Lemma remove_dash_app a b : remove_pat "-" 0 (a +:+ b) = remove_pat "-" 0 a +:+ remove_pat "-" 0 b.
Proof.
  induction a as [|c a IH]; [done|]. rewrite string_app_cons. cbn [remove_pat].
  assert (Hp : forall r, String.prefix "-" (String c r) = if ascii_dec "-" c then true else false).
  { intros r. change (String.prefix "-" (String c r)) with (if ascii_dec "-" c then String.prefix "" r else false). by destruct (ascii_dec "-" c), r. }
  rewrite !Hp. destruct (ascii_dec "-" c); [exact IH|]. by rewrite IH, string_app_cons.
Qed.

Lemma lstrip_braces_none s : string_forallb (fun c => negb (is_brace c)) s = true -> lstrip_braces s = s.
Proof. destruct s as [|c s]; [done|]. cbn. intros [Hc _]%andb_true_iff. by destruct (is_brace c). Qed.
Lemma rstrip_braces_none s : string_forallb (fun c => negb (is_brace c)) s = true -> rstrip_braces s = s.
Proof.
  induction s as [|c s IH]; [done|]. cbn [string_forallb rstrip_braces]. intros [Hc Hs]%andb_true_iff.
  rewrite (IH Hs). destruct s; [|done]. by destruct (is_brace c).
Qed.

(** The characters of the text of a UUID. *)
Definition uuid_char (c : ascii) : bool := is_lower_hex c || Ascii.eqb c "-".

Lemma hex_char_cases (P : ascii -> Prop) : (forall n, n < 16 -> P (hex_digit (N.of_nat n))) -> forall c, is_lower_hex c = true -> P c.
Proof.
  intros HP c Hc.
  assert (Hex : exists n, n < 16 /\ c = hex_digit (N.of_nat n)); [|destruct Hex as (n & Hn & ->); by apply HP].
  revert Hc. destruct c as [[] [] [] [] [] [] [] []]; intros Hc; try discriminate Hc;
    first [exists 0; split; [lia|reflexivity]|exists 1; split; [lia|reflexivity]|exists 2; split; [lia|reflexivity]
          |exists 3; split; [lia|reflexivity]|exists 4; split; [lia|reflexivity]|exists 5; split; [lia|reflexivity]
          |exists 6; split; [lia|reflexivity]|exists 7; split; [lia|reflexivity]|exists 8; split; [lia|reflexivity]
          |exists 9; split; [lia|reflexivity]|exists 10; split; [lia|reflexivity]|exists 11; split; [lia|reflexivity]
          |exists 12; split; [lia|reflexivity]|exists 13; split; [lia|reflexivity]|exists 14; split; [lia|reflexivity]
          |exists 15; split; [lia|reflexivity]].
Qed.

(** A test that every digit passes. *)
Lemma all_digits (f : ascii -> bool) :
  forallb (fun n => f (hex_digit (N.of_nat n))) (seq 0 16) = true -> forall c, is_lower_hex c = true -> f c = true.
Proof.
  intros Hf. apply hex_char_cases. intros n Hn. rewrite forallb_forall in Hf. apply Hf, in_seq. lia.
Qed.

Lemma uuid_char_not (f : ascii -> bool) :
  forallb (fun n => f (hex_digit (N.of_nat n))) (seq 0 16) = true -> f "-"%char = true -> forall c, uuid_char c = true -> f c = true.
Proof.
  intros Hf Hd c [Hc|Hc]%orb_true_iff; [by apply all_digits|]. by apply Ascii.eqb_eq in Hc as ->.
Qed.

Lemma strip_digits s : string_forallb is_lower_hex s = true -> strip s = s.
Proof.
  intros Hs. unfold strip.
  assert (Hsp : forall c, is_lower_hex c = true -> negb (is_py_space c) = true) by (by apply all_digits).
  assert (Hl : lstrip s = s).
  { destruct s as [|c s]; [done|]. cbn in *. apply andb_true_iff in Hs as [Hc _]. specialize (Hsp c Hc). by destruct (is_py_space c). }
  rewrite Hl. clear Hl. induction s as [|c s IH]; [done|]. cbn [string_forallb rstrip] in *.
  apply andb_true_iff in Hs as [Hc Hs]. rewrite (IH Hs). destruct s; [|done]. specialize (Hsp c Hc). by destruct (is_py_space c).
Qed.

Lemma hex_body_digits c d s : is_lower_hex c = true -> is_lower_hex d = true ->
  py_hex_body (String c (String d s)) = py_hex 0 false (String c (String d s)).
Proof.
  intros Hc. revert d. revert c Hc. apply (hex_char_cases (fun c => forall d, is_lower_hex d = true -> _)).
  intros n Hn. apply hex_char_cases. intros m Hm.
  do 16 (destruct n as [|n]; [do 16 (destruct m as [|m]; [reflexivity|]); lia|]). lia.
Qed.

Lemma int16_digits c d s : string_forallb is_lower_hex (String c (String d s)) = true ->
  py_int16 (String c (String d s)) = py_hex 0 false (String c (String d s)).
Proof.
  intros Hs. unfold py_int16. rewrite (strip_digits _ Hs). cbn [string_forallb] in Hs.
  apply andb_true_iff in Hs as [Hc [Hd _]%andb_true_iff]. rewrite <- hex_body_digits by done.
  revert Hd. revert c Hc. apply (hex_char_cases (fun c => is_lower_hex d = true -> _)).
  intros n Hn _. do 16 (destruct n as [|n]; [reflexivity|]). lia.
Qed.

(** The number that bytes are, the highest first. *)
Fixpoint be_value (s : string) : Z :=
  match s with
  | EmptyString => 0
  | String c s' => Z.of_N (N_of_ascii c) * 256 ^ string_len s' + be_value s'
  end.

Lemma string_len_cons c s : string_len (String c s) = (1 + string_len s)%Z.
Proof. unfold string_len. cbn [String.length]. lia. Qed.
Lemma string_len_nonneg s : (0 <= string_len s)%Z.
Proof. unfold string_len. lia. Qed.

Lemma be_value_bound s : (0 <= be_value s < 256 ^ string_len s)%Z.
Proof.
  induction s as [|c s IH]; [done|]. cbn [be_value]. rewrite string_len_cons.
  pose proof (string_len_nonneg s). rewrite Z.pow_add_r by lia. assert (Hc : (N_of_ascii c < 256)%N) by apply N_ascii_bounded. nia.
Qed.

Lemma py_hex_bytes s acc dig :
  s <> "" \/ dig = true -> py_hex acc dig (hex_of_bytes s) = Some (acc * 256 ^ string_len s + be_value s)%Z.
Proof.
  revert acc dig. induction s as [|c s IH]; intros acc dig Hd.
  - destruct Hd as [Hd| ->]; [done|]. cbn [hex_of_bytes py_hex be_value]. f_equal. change (256 ^ string_len "")%Z with 1%Z. lia.
  - assert (Hc : (N_of_ascii c < 256)%N) by apply N_ascii_bounded.
    cbn [hex_of_bytes py_hex]. rewrite !hex_digit_val by (first [apply N.mod_lt; lia|apply N.Div0.div_lt_upper_bound; lia]).
    rewrite IH by by right. f_equal. cbn [be_value]. rewrite string_len_cons. pose proof (string_len_nonneg s).
    rewrite Z.pow_add_r by lia. change (256 ^ 1)%Z with 256%Z.
    assert (En : Z.of_N (N_of_ascii c) = (16 * Z.of_N (N_of_ascii c / 16) + Z.of_N (N_of_ascii c mod 16))%Z)
      by (pose proof (N.div_mod (N_of_ascii c) 16 ltac:(lia)); lia).
    rewrite En. ring.
Qed.

Lemma big_endian_split m n v : (0 <= v)%Z -> big_endian (m + n) v = big_endian m (v / 256 ^ Z.of_nat n) +:+ big_endian n v.
Proof.
  revert v. induction n as [|n IH]; intros v Hv.
  - rewrite Nat.add_0_r. cbn [big_endian]. rewrite string_app_nil_r. f_equal. change (256 ^ Z.of_nat 0)%Z with 1%Z. by rewrite Z.div_1_r.
  - rewrite Nat.add_succ_r. cbn [big_endian]. rewrite IH by (apply Z.div_pos; lia). rewrite <- string_app_assoc. f_equal. f_equal. f_equal.
    rewrite Z.div_div by lia. f_equal. rewrite <- Z.pow_succ_r by lia. f_equal. lia.
Qed.

Lemma big_endian_bytes s x : (0 <= x)%Z -> big_endian (String.length s) (x * 256 ^ string_len s + be_value s) = s.
Proof.
  revert x. induction s as [|c s IH]; intros x Hx; [done|]. cbn [String.length]. rewrite <- Nat.add_1_l.
  pose proof (be_value_bound s) as Hb. pose proof (string_len_nonneg s) as Hl. pose proof (N_ascii_bounded c) as Hc.
  assert (Hp : (0 < 256 ^ string_len s)%Z) by (apply Z.pow_pos_nonneg; lia).
  assert (E : (x * 256 ^ string_len (String c s) + be_value (String c s) =
               (x * 256 + Z.of_N (N_of_ascii c)) * 256 ^ string_len s + be_value s)%Z).
  { cbn [be_value]. rewrite string_len_cons, Z.pow_add_r by lia. lia. }
  rewrite E, big_endian_split by nia. fold (string_len s). rewrite IH by lia.
  rewrite Z.div_add_l by lia. rewrite (Z.div_small (be_value s)) by lia. rewrite Z.add_0_r. cbn [big_endian].
  rewrite Z.add_comm, Z.mod_add, Z.mod_small by lia. rewrite N2Z.id, ascii_N_embedding. done.
Qed.

(** The text of a UUID is read back as the UUID. *)
Lemma uuid_text_parse u : string_len u = 16%Z -> uuid_of_string (uuid_to_string u) = Some u.
Proof.
  intros Hu. pose proof (hex_lower u) as Hh. pose proof (hex_of_bytes_len u) as Hl. apply andb_true_iff in Hl as [Hl _].
  apply Z.eqb_eq in Hl. rewrite Hu in Hl. unfold string_len in Hl.
  set (h := hex_of_bytes u) in *. unfold uuid_of_string, uuid_to_string. fold h.
  set (t := _ +:+ _).
  assert (Hn : String.length h = 32) by lia.
  assert (Hsub : forall i n, string_forallb is_lower_hex (substring i n h) = true) by (intros; by apply forallb_substring).
  assert (Ht : string_forallb uuid_char t = true).
  { unfold t. rewrite !forallb_app. 
    assert (Hw : forall i n, string_forallb uuid_char (substring i n h) = true).
    { intros. eapply forallb_weaken; [|apply Hsub]. intros c Hc. unfold uuid_char. by rewrite Hc. }
    rewrite !Hw. done. }
  rewrite (remove_pat_absent "u" "rn:") by (eapply forallb_weaken; [|exact Ht]; apply uuid_char_not; reflexivity).
  rewrite (remove_pat_absent "u" "uid:") by (eapply forallb_weaken; [|exact Ht]; apply uuid_char_not; reflexivity).
  assert (Hbr : string_forallb (fun c => negb (is_brace c)) t = true) by (eapply forallb_weaken; [|exact Ht]; apply uuid_char_not; reflexivity).
  rewrite (lstrip_braces_none t Hbr), (rstrip_braces_none t Hbr).
  assert (Hd : forall i n, remove_pat "-" 0 (substring i n h) = substring i n h).
  { intros. apply remove_pat_absent. eapply forallb_weaken; [|apply Hsub]. apply all_digits. reflexivity. }
  assert (E : remove_pat "-" 0 t = h).
  { unfold t. rewrite !remove_dash_app, !Hd. change (remove_pat "-" 0 "-") with "". rewrite !string_app_nil_l.
    by apply substring_parts. }
  rewrite E, Hn. cbn [Nat.eqb negb].
  assert (Hi : py_int16 h = py_hex 0 false h).
  { destruct h as [|c [|d h']]; [discriminate Hn..|]. by apply int16_digits. }
  rewrite Hi. unfold h. rewrite py_hex_bytes by (left; intros ->; discriminate Hu). rewrite Hu.
  pose proof (be_value_bound u) as Hb. rewrite Hu in Hb. change (256 ^ 16)%Z with (2 ^ 128)%Z in *.
  rewrite (proj2 (Z.leb_le _ _)), (proj2 (Z.ltb_lt _ _)) by lia. cbn [andb]. f_equal.
  pose proof (big_endian_bytes u 0 ltac:(lia)) as E2. rewrite Hu in E2. unfold string_len in Hu.
  replace (String.length u) with 16 in E2 by lia. exact E2.
Qed.
