(* ===== verification/Config.v ===== *)
(** * Settings (config.py)

    The settings the endpoints and the scripts read, as one record; environment variables and their
    parsing are left out.  [action_proof_required_set] is the set the source computes from its
    comma-separated setting.  The components modelled first take the few settings they need as
    plain arguments. *)

From Stdlib Require Import Ascii String.
From stdpp Require Import prelude strings list.
From S2P Require Import Prelude Json Codec.

Record Settings := mkSettings {
  relay_name : string;
  relay_pubkey_hex : string;
  relay_privkey_hex : string;
  message_ttl_hard_seconds : Z;
  max_blob_bytes : Z;
  username_cooldown_days : Z;
  username_change_min_interval_seconds : Z;
  mail_ttl_seconds : Z;
  rate_limit_enabled : bool;
  trusted_proxy_ips : string;
  rate_limit_sealed_per_minute : Z;
  action_proof_required : string
}.

Definition action_proof_required_set (s : Settings) : list string :=
  List.filter (fun a => negb (String.eqb a "")) (map strip (split_on "," (action_proof_required s))).

(** The setting is checked when the settings are read: an unknown action stops the start. *)
Definition known_actions : list string := ["account_delete"; "backup_replace"; "backup_delete"; "dms_cancel"; "dms_checkin"].
Definition _known_actions (v : string) : option string :=
  let names := List.filter (fun a => negb (String.eqb a "")) (map strip (split_on "," v)) in
  if forallb (fun a => existsb (String.eqb a) known_actions) names then Some v else None.

(** So every action that is required is one that the endpoints know. *)
Lemma required_known s v : _known_actions v = Some (action_proof_required s) -> forall a, a ∈ action_proof_required_set s -> a ∈ known_actions.
Proof.
  unfold _known_actions. destruct (forallb _ _) eqn:E; [|done]. intros [= ->] a Ha. rewrite forallb_forall in E.
  apply list_elem_of_In in Ha. specialize (E a Ha). apply existsb_exists in E as (b & Hb & ->%String.eqb_eq). by apply list_elem_of_In.
Qed.
