(* ===== verification/RedisStore.v ===== *)
(** * The Redis service

    Redis is not part of the repository: it is a parameter of the development, the class [Redis].
    An instance is a state type with one operation, [rexec], that runs one command at a time of
    the server's clock, and a view of that state: the live keys with their values and deadlines,
    the subscriber counts, and the messages published so far.  The laws of the class say what the
    Redis documentation says: each command's reply and its effect on the view ([documented]), and
    that with the passing of time nothing changes but the keys whose deadline has passed.  Two
    behaviours of a deployment are therefore outside the model: eviction under memory pressure,
    and a loss of data at a restart.

    [Mem_Redis] is an instance, so the laws can hold; the witnesses run on it.

    Lua scripts and MULTI blocks run atomically.  They are programs over commands ([rprog]), which
    [rrun] runs on any instance; [rrun_view] reduces that run to a run on the view. *)

From Stdlib Require Import Ascii String DecimalString.
From stdpp Require Import prelude gmap strings list fin_maps sorting.
From S2P Require Import Prelude Json.

(** ** Values, commands and replies *)

Inductive rval :=
| VStr (s : string)
| VSet (x : gset string)
| VZSet (z : gmap string Z).

(** A value with the server time from which it is gone ([None]: no TTL). *)
Record entry := Entry { e_val : rval; e_deadline : option Z }.

Record rview := View {
  rv_keys : gmap string entry;
  rv_subs : gmap string Z;                 (* subscribers of a channel *)
  rv_pub : list (string * string)          (* (channel, message), oldest first *)
}.

(** The commands the relay sends.  [SETEX] is [SET] with [ex]. *)
Inductive command :=
| GET (k : string)
| SET (k s : string) (ex : option Z) (nx xx keepttl : bool)
| DEL (ks : list string)
| EXISTS (k : string)
| INCR (k : string)
| DECR (k : string)
| EXPIRE (k : string) (secs : Z)
| GETDEL (k : string)
| SADD (k : string) (ms : list string)
| SREM (k : string) (ms : list string)
| SMEMBERS (k : string)
| SCARD (k : string)
| ZADD (k : string) (score : Z) (m : string)
| ZREM (k m : string)
| ZCARD (k : string)
| ZSCORE (k m : string)
| ZRANGE (k : string) (start stop : Z)
| ZRANGEBYSCORE (k : string) (lo hi : Z)
| ZREMRANGEBYSCORE (k : string) (lo hi : Z)
| PUBLISH (channel message : string).

Inductive reply :=
| RNil
| ROk
| RInt (n : Z)
| RBulk (s : string)
| RList (l : list string)
| RMembers (x : gset string)
| RError (msg : string).

(** ** The documented effect of a command on the view *)

Definition live_at (now : Z) (ke : string * entry) : Prop :=
  match e_deadline ke.2 with None => True | Some d => (now < d)%Z end.
#[export] Instance live_at_dec now ke : Decision (live_at now ke).
Proof. unfold live_at. destruct (e_deadline ke.2); apply _. Defined.

(** The view at a later time. *)
Definition expire (now : Z) (v : rview) : rview :=
  View (filter (live_at now) (rv_keys v)) (rv_subs v) (rv_pub v).

Definition put (k : string) (e : entry) (v : rview) : rview :=
  View (<[k := e]> (rv_keys v)) (rv_subs v) (rv_pub v).
Definition del (k : string) (v : rview) : rview :=
  View (delete k (rv_keys v)) (rv_subs v) (rv_pub v).
Definition publish (ch msg : string) (v : rview) : rview :=
  View (rv_keys v) (rv_subs v) (rv_pub v ++ [(ch, msg)]).

(** The deadline of a key, if it has one. *)
Definition deadline_of (k : string) (v : rview) : option Z :=
  match rv_keys v !! k with Some e => e_deadline e | None => None end.

(** An empty collection is no key at all. *)
Definition put_zset (k : string) (z : gmap string Z) (v : rview) : rview :=
  if decide (z = ∅) then del k v else put k (Entry (VZSet z) (deadline_of k v)) v.
Definition put_set (k : string) (x : gset string) (v : rview) : rview :=
  if decide (x = ∅) then del k v else put k (Entry (VSet x) (deadline_of k v)) v.

(** The three typed readings of a key; [None] is a value of another type. *)
Definition str_at (k : string) (v : rview) : option (option string) :=
  match rv_keys v !! k with
  | None => Some None
  | Some (Entry (VStr s) _) => Some (Some s)
  | Some _ => None
  end.
Definition set_at (k : string) (v : rview) : option (gset string) :=
  match rv_keys v !! k with
  | None => Some ∅
  | Some (Entry (VSet x) _) => Some x
  | Some _ => None
  end.
Definition zset_at (k : string) (v : rview) : option (gmap string Z) :=
  match rv_keys v !! k with
  | None => Some ∅
  | Some (Entry (VZSet z) _) => Some z
  | Some _ => None
  end.

Definition wrong_type : reply := RError "WRONGTYPE".

(** Members by score, ties in byte order. *)
Definition score_le (a b : string * Z) : Prop :=
  (a.2 < b.2)%Z \/ a.2 = b.2 /\ String.le a.1 b.1.
#[export] Instance score_le_dec : RelDecision score_le.
Proof. intros a b. unfold score_le. apply _. Defined.

Definition by_score (z : gmap string Z) : list (string * Z) := merge_sort score_le (map_to_list z).

(** [ZRANGE k start stop]: inclusive ranks, negative ones from the end. *)
Definition rank (len i : Z) : Z := if (i <? 0)%Z then (len + i)%Z else i.
Definition slice {A} (start stop : Z) (l : list A) : list A :=
  let len := Z.of_nat (length l) in
  let a := Z.max 0 (rank len start) in
  let b := rank len stop in
  take (Z.to_nat (b - a + 1)) (drop (Z.to_nat a) l).

Lemma by_score_elem z id s : (id, s) ∈ by_score z <-> z !! id = Some s.
Proof. unfold by_score. by rewrite (merge_sort_Permutation score_le), elem_of_map_to_list. Qed.
Lemma by_score_ids z id : id ∈ (by_score z).*1 <-> is_Some (z !! id).
Proof.
  rewrite list_elem_of_fmap. split.
  - intros ([id' s] & -> & Hin%by_score_elem). by eexists.
  - intros [s Hs]. exists (id, s). split; [done|]. by apply by_score_elem.
Qed.

Definition in_range (lo hi : Z) (mz : string * Z) : Prop := (lo <= mz.2 /\ mz.2 <= hi)%Z.
#[export] Instance in_range_dec lo hi mz : Decision (in_range lo hi mz).
Proof. unfold in_range. apply _. Defined.

Definition documented (now : Z) (c : command) (v : rview) : reply * rview :=
  match c with
  | GET k =>
      (match str_at k v with
       | Some (Some s) => RBulk s | Some None => RNil | None => wrong_type end, v)
  | SET k s ex nx xx keepttl =>
      let present := match rv_keys v !! k with Some _ => true | None => false end in
      match ex with
      | Some n =>
          if (n <=? 0)%Z then (RError "invalid expire time", v)
          else if (nx && present) || (xx && negb present) then (RNil, v)
          else (ROk, put k (Entry (VStr s) (Some (now + n)%Z)) v)
      | None =>
          if (nx && present) || (xx && negb present) then (RNil, v)
          else (ROk, put k (Entry (VStr s) (if keepttl then deadline_of k v else None)) v)
      end
  | DEL ks =>
      foldl (fun '(r, v) k =>
               match r, rv_keys v !! k with
               | RInt n, Some _ => (RInt (n + 1), del k v)
               | _, _ => (r, v)
               end) (RInt 0, v) ks
  | EXISTS k => (RInt (match rv_keys v !! k with Some _ => 1 | None => 0 end), v)
  | INCR k =>
      match str_at k v with
      | Some None => (RInt 1, put k (Entry (VStr "1") None) v)
      | Some (Some s) =>
          match NilZero.int_of_string s with
          | Some i => (RInt (Z.of_int i + 1),
                       put k (Entry (VStr (print_Z (Z.of_int i + 1))) (deadline_of k v)) v)
          | None => (RError "value is not an integer", v)
          end
      | None => (wrong_type, v)
      end
  | DECR k =>
      match str_at k v with
      | Some None => (RInt (-1), put k (Entry (VStr "-1") None) v)
      | Some (Some s) =>
          match NilZero.int_of_string s with
          | Some i => (RInt (Z.of_int i - 1),
                       put k (Entry (VStr (print_Z (Z.of_int i - 1))) (deadline_of k v)) v)
          | None => (RError "value is not an integer", v)
          end
      | None => (wrong_type, v)
      end
  | EXPIRE k secs =>
      match rv_keys v !! k with
      | None => (RInt 0, v)
      | Some e =>
          if (secs <=? 0)%Z then (RInt 1, del k v)
          else (RInt 1, put k (Entry (e_val e) (Some (now + secs)%Z)) v)
      end
  | GETDEL k =>
      match str_at k v with
      | Some (Some s) => (RBulk s, del k v)
      | Some None => (RNil, v)
      | None => (wrong_type, v)
      end
  | SADD k ms =>
      match set_at k v with
      | Some x => (RInt (Z.of_nat (size (list_to_set ms ∖ x))), put_set k (x ∪ list_to_set ms) v)
      | None => (wrong_type, v)
      end
  | SREM k ms =>
      match set_at k v with
      | Some x => (RInt (Z.of_nat (size (x ∩ list_to_set ms))), put_set k (x ∖ list_to_set ms) v)
      | None => (wrong_type, v)
      end
  | SMEMBERS k => (match set_at k v with Some x => RMembers x | None => wrong_type end, v)
  | SCARD k =>
      (match set_at k v with Some x => RInt (Z.of_nat (size x)) | None => wrong_type end, v)
  | ZADD k score m =>
      match zset_at k v with
      | Some z => (RInt (match z !! m with Some _ => 0 | None => 1 end),
                   put_zset k (<[m := score]> z) v)
      | None => (wrong_type, v)
      end
  | ZREM k m =>
      match zset_at k v with
      | Some z => (RInt (match z !! m with Some _ => 1 | None => 0 end),
                   put_zset k (delete m z) v)
      | None => (wrong_type, v)
      end
  | ZCARD k =>
      (match zset_at k v with Some z => RInt (Z.of_nat (size z)) | None => wrong_type end, v)
  | ZSCORE k m =>
      (match zset_at k v with
       | Some z => match z !! m with Some s => RBulk (print_Z s) | None => RNil end
       | None => wrong_type end, v)
  | ZRANGE k start stop =>
      (match zset_at k v with
       | Some z => RList (slice start stop (by_score z)).*1 | None => wrong_type end, v)
  | ZRANGEBYSCORE k lo hi =>
      (match zset_at k v with
       | Some z => RList (by_score (filter (in_range lo hi) z)).*1 | None => wrong_type end, v)
  | ZREMRANGEBYSCORE k lo hi =>
      match zset_at k v with
      | Some z => (RInt (Z.of_nat (size (filter (in_range lo hi) z))),
                   put_zset k (filter (fun mz => ~ in_range lo hi mz) z) v)
      | None => (wrong_type, v)
      end
  | PUBLISH ch msg => (RInt (default 0%Z (rv_subs v !! ch)), publish ch msg v)
  end.

(** ** The interface *)

Class Redis := {
  rstore : Type;
  rview_at : Z -> rstore -> rview;
  rexec : Z -> command -> rstore -> reply * rstore;
  rexec_documented : forall now c s,
    (fst (rexec now c s), rview_at now (snd (rexec now c s))) = documented now c (rview_at now s);
  rview_later : forall t t' s, (t <= t')%Z -> rview_at t' s = expire t' (rview_at t s)
}.

(** ** Programs over commands: plain commands, Lua scripts, MULTI blocks *)

Inductive rprog (A : Type) : Type :=
| RRet (a : A)
| RDo (c : command) (k : reply -> rprog A).
Arguments RRet {A} a.
Arguments RDo {A} c k.

(** A program that may raise: [None] is redis-py's [ResponseError], from an error reply. *)
Abbreviation rtx A := (rprog (option A)).

Definition rret {A} (a : A) : rtx A := RRet (Some a).

Fixpoint rbind {A B} (p : rtx A) (f : A -> rtx B) : rtx B :=
  match p with
  | RRet (Some a) => f a
  | RRet None => RRet None
  | RDo c k => RDo c (fun r => rbind (k r) f)
  end.

Notation "'let%r' x := p 'in' q" := (rbind p (fun x => q))
  (at level 10, x pattern, p at level 100, q at level 200) : morok_scope.
#[local] Open Scope morok_scope.

(** One command and the decoding of its reply. *)
Definition rcall {A} (c : command) (dec : reply -> option A) : rtx A := RDo c (fun r => RRet (dec r)).

Definition as_any (r : reply) : option unit := match r with RError _ => None | _ => Some tt end.
Definition as_int (r : reply) : option Z := match r with RInt n => Some n | _ => None end.
Definition as_bulk (r : reply) : option (option string) :=
  match r with RBulk s => Some (Some s) | RNil => Some None | _ => None end.
Definition as_set_ok (r : reply) : option bool :=
  match r with ROk => Some true | RNil => Some false | _ => None end.
Definition as_list (r : reply) : option (list string) :=
  match r with RList l => Some l | _ => None end.
Definition as_members (r : reply) : option (gset string) :=
  match r with RMembers x => Some x | _ => None end.

(** A raw reply of a pipeline: its truth value, that of the first one, and its text. *)
Definition reply_truthy (r : reply) : bool :=
  match r with
  | RNil => false
  | RInt n => negb (n =? 0)%Z
  | _ => true
  end.
Definition first_truthy (l : list reply) : bool :=
  match l with r :: _ => reply_truthy r | [] => false end.
Definition bulk_of (r : reply) : option string := match r with RBulk s => Some s | _ => None end.

(** [pipeline(transaction=True)]: every command runs, the replies come back together, and the
    first error reply is raised at the end. *)
Fixpoint rmulti (cs : list command) : rtx (list reply) :=
  match cs with
  | [] => rret []
  | c :: cs' =>
      RDo c (fun r =>
        (fix collect (p : rtx (list reply)) : rtx (list reply) :=
           match p with
           | RRet (Some rs) =>
               RRet (match r with RError _ => None | _ => Some (r :: rs) end)
           | RRet None => RRet None
           | RDo c k => RDo c (fun r => collect (k r))
           end) (rmulti cs'))
  end.

(** A run on the view. *)
Fixpoint rrun_doc {A} (now : Z) (p : rprog A) (v : rview) : A * rview :=
  match p with
  | RRet a => (a, v)
  | RDo c k => let '(r, v') := documented now c v in rrun_doc now (k r) v'
  end.

Section Run.
  Context `{R : Redis}.

(** A run on an instance. *)
Fixpoint rrun {A} (now : Z) (p : rprog A) (s : rstore) : A * rstore :=
  match p with
  | RRet a => (a, s)
  | RDo c k => let '(r, s') := rexec now c s in rrun now (k r) s'
  end.

(** What a program returns, and what can be observed after it, depend on the view alone. *)
Lemma rrun_view {A} now (p : rprog A) s :
  (fst (rrun now p s), rview_at now (snd (rrun now p s))) = rrun_doc now p (rview_at now s).
Proof.
  revert s. induction p as [a|c k IH]; intros s; cbn [rrun rrun_doc]; [done|].
  pose proof (rexec_documented now c s) as Hd.
  destruct (rexec now c s) as [r s']. cbn in Hd. rewrite <- Hd. apply IH.
Qed.

Lemma rrun_fst {A} now (p : rprog A) s :
  fst (rrun now p s) = fst (rrun_doc now p (rview_at now s)).
Proof. by rewrite <- rrun_view. Qed.

Lemma rrun_snd {A} now (p : rprog A) s :
  rview_at now (snd (rrun now p s)) = snd (rrun_doc now p (rview_at now s)).
Proof. by rewrite <- rrun_view. Qed.
End Run.

(** ** Reading the keys after an update *)

Lemma keys_put k e v k' :
  rv_keys (put k e v) !! k' = if decide (k = k') then Some e else rv_keys v !! k'.
Proof. cbn. by rewrite lookup_insert. Qed.

Lemma keys_del k v k' :
  rv_keys (del k v) !! k' = if decide (k = k') then None else rv_keys v !! k'.
Proof. cbn. by rewrite lookup_delete. Qed.

Lemma keys_publish ch m v k' : rv_keys (publish ch m v) !! k' = rv_keys v !! k'.
Proof. done. Qed.

Lemma keys_put_zset k z v k' :
  rv_keys (put_zset k z v) !! k' =
  if decide (k = k')
  then if decide (z = ∅) then None else Some (Entry (VZSet z) (deadline_of k v))
  else rv_keys v !! k'.
Proof.
  unfold put_zset. destruct (decide (z = ∅)); rewrite ?keys_put, ?keys_del; by case_decide.
Qed.

Lemma keys_put_set k x v k' :
  rv_keys (put_set k x v) !! k' =
  if decide (k = k')
  then if decide (x = ∅) then None else Some (Entry (VSet x) (deadline_of k v))
  else rv_keys v !! k'.
Proof.
  unfold put_set. destruct (decide (x = ∅)); rewrite ?keys_put, ?keys_del; by case_decide.
Qed.

Lemma keys_expire now v k :
  rv_keys (expire now v) !! k =
  match rv_keys v !! k with
  | Some e => if decide (live_at now (k, e)) then Some e else None
  | None => None
  end.
Proof.
  cbn. destruct (rv_keys v !! k) as [e|] eqn:E; [case_decide|].
  - by apply map_lookup_filter_Some.
  - apply map_lookup_filter_None. right. intros e' E'. by simplify_eq.
  - apply map_lookup_filter_None. by left.
Qed.

Create Rewrite HintDb morok_keys.
#[export] Hint Rewrite keys_put keys_del keys_publish keys_put_zset keys_put_set : morok_keys.

(** Simplify every reading [rv_keys (...) !! k], deciding the key comparisons: equal keys
    syntactically, different key families by their literal prefixes, other pairs by a hypothesis. *)
Ltac key_decide :=
  match goal with
  | |- context [decide (?a = ?a)] => rewrite (decide_True (P := a = a)) by reflexivity
  | |- context [decide (?a = ?b)] => rewrite (decide_False (P := a = b)) by (done || string_ne)
  end.
Ltac key_simpl := autorewrite with morok_keys; repeat (key_decide; autorewrite with morok_keys).

Lemma zset_at_put_zset k z v : zset_at k (put_zset k z v) = Some z.
Proof.
  unfold zset_at. rewrite keys_put_zset, decide_True by done. by case_decide; subst.
Qed.

Lemma set_at_put_set k x v : set_at k (put_set k x v) = Some x.
Proof.
  unfold set_at. rewrite keys_put_set, decide_True by done. by case_decide; subst.
Qed.

Lemma str_at_put k s d v : str_at k (put k (Entry (VStr s) d) v) = Some (Some s).
Proof. unfold str_at. rewrite keys_put, decide_True by done. done. Qed.

Lemma str_at_del k v : str_at k (del k v) = Some None.
Proof. unfold str_at. by rewrite keys_del, decide_True by done. Qed.

(** A deletion of several keys removes them all and counts the ones that were there. *)
Definition del_keys (ks : list string) (v : rview) : rview := foldr del v (rev ks).

Lemma documented_del now ks v :
  exists n, documented now (DEL ks) v = (RInt n, snd (documented now (DEL ks) v)) /\
  forall k, rv_keys (snd (documented now (DEL ks) v)) !! k =
            if decide (k ∈ ks) then None else rv_keys v !! k.
Proof.
  cbn [documented].
  enough (H : forall n, exists n',
    foldl (fun '(r, v) k =>
               match r, rv_keys v !! k with
               | RInt n, Some _ => (RInt (n + 1), del k v)
               | _, _ => (r, v)
               end) (RInt n, v) ks = (RInt n', snd (foldl (fun '(r, v) k =>
               match r, rv_keys v !! k with
               | RInt n, Some _ => (RInt (n + 1), del k v)
               | _, _ => (r, v)
               end) (RInt n, v) ks)) /\
    forall k, rv_keys (snd (foldl (fun '(r, v) k =>
               match r, rv_keys v !! k with
               | RInt n, Some _ => (RInt (n + 1), del k v)
               | _, _ => (r, v)
               end) (RInt n, v) ks)) !! k = if decide (k ∈ ks) then None else rv_keys v !! k)
    by (destruct (H 0%Z) as (n' & E & Hk); eauto).
  revert v. induction ks as [|k0 ks IH]; intros v n; cbn [foldl].
  - exists n. split; [done|]. intros k. by rewrite decide_False by apply not_elem_of_nil.
  - destruct (rv_keys v !! k0) as [e|] eqn:E0.
    + destruct (IH (del k0 v) (n + 1)%Z) as (n' & E & Hk). exists n'. split; [done|].
      intros k. rewrite Hk, keys_del. repeat case_decide; subst; set_solver.
    + destruct (IH v n) as (n' & E & Hk). exists n'. split; [done|].
      intros k. rewrite Hk. repeat case_decide; subst; set_solver.
Qed.

Lemma pub_documented_del now ks v : rv_pub (snd (documented now (DEL ks) v)) = rv_pub v.
Proof.
  cbn [documented]. generalize (RInt 0). revert v. induction ks as [|k0 ks IH]; intros v r; cbn [foldl]; [done|].
  destruct r; try apply IH. destruct (rv_keys v !! k0); by rewrite IH.
Qed.

(** ** An instance *)

Definition all_live (now : Z) (v : rview) : Prop :=
  forall k e, rv_keys v !! k = Some e -> live_at now (k, e).

Lemma expire_all_live now v : all_live now (expire now v).
Proof. intros k e. cbn. rewrite map_lookup_filter_Some. naive_solver. Qed.

Lemma expire_id now v : all_live now v -> expire now v = v.
Proof.
  intros H. unfold expire. destruct v as [m subs pub]; cbn in *. f_equal.
  apply map_filter_id. intros k e. apply H.
Qed.

Lemma all_live_put now k e v : live_at now (k, e) -> all_live now v -> all_live now (put k e v).
Proof. intros He H k' e'. rewrite keys_put. case_decide; [naive_solver|apply H]. Qed.

Lemma all_live_del now k v : all_live now v -> all_live now (del k v).
Proof. intros H k' e'. rewrite keys_del. case_decide; [done|apply H]. Qed.

Lemma live_deadline_of now k v x : all_live now v -> live_at now (k, Entry x (deadline_of k v)).
Proof.
  intros H. unfold live_at, deadline_of. cbn. destruct (rv_keys v !! k) as [e|] eqn:E; [|done].
  apply (H k e E).
Qed.

Lemma all_live_put_zset now k z v : all_live now v -> all_live now (put_zset k z v).
Proof.
  intros H. unfold put_zset. case_decide; [by apply all_live_del|].
  apply all_live_put; [by apply live_deadline_of|done].
Qed.

Lemma all_live_put_set now k x v : all_live now v -> all_live now (put_set k x v).
Proof.
  intros H. unfold put_set. case_decide; [by apply all_live_del|].
  apply all_live_put; [by apply live_deadline_of|done].
Qed.

#[export] Hint Resolve all_live_del all_live_put_zset all_live_put_set live_deadline_of : morok.

(** Commands keep the view free of expired keys. *)
Lemma documented_live now c v : all_live now v -> all_live now (snd (documented now c v)).
Proof.
  intros H. destruct c; cbn [documented];
    try (repeat case_match; cbn [snd]; auto with morok; fail).
  - (* SET *)
    repeat case_match; cbn [snd]; zify_bool; try done; apply all_live_put; auto with morok;
      unfold live_at; cbn; (lia || done).
  - (* DEL *)
    intros k e. destruct (documented_del now ks v) as (n & _ & Hk). cbn [documented] in Hk.
    rewrite Hk. case_decide; [done|apply H].
  - (* INCR *)
    repeat case_match; cbn [snd]; try done; apply all_live_put; auto with morok; done.
  - (* DECR *)
    repeat case_match; cbn [snd]; try done; apply all_live_put; auto with morok; done.
  - (* EXPIRE *)
    repeat case_match; cbn [snd]; zify_bool; auto with morok.
    apply all_live_put; [unfold live_at; cbn; lia|done].
Qed.

Lemma expire_later t t' v : (t <= t')%Z -> expire t' v = expire t' (expire t v).
Proof.
  intros Ht. unfold expire. cbn. f_equal. rewrite map_filter_filter_l; [done|].
  intros k e _. unfold live_at. cbn. destruct (e_deadline e); [lia|done].
Qed.

(** A server that keeps the view itself, and forgets expired keys when it executes a command. *)
#[export] Program Instance Mem_Redis : Redis := {|
  rstore := rview;
  rview_at := expire;
  rexec now c v := documented now c (expire now v)
|}.
Next Obligation.
  intros now c s. cbn. rewrite (expire_id now (snd _)).
  - by destruct (documented now c (expire now s)).
  - apply documented_live, expire_all_live.
Qed.
Next Obligation. intros t t' s. cbn. apply expire_later. Qed.

Lemma view_all_live `{Redis} now s : all_live now (rview_at now s).
Proof. rewrite (rview_later now now) by done. apply expire_all_live. Qed.

(** ** Typed readings after an update *)

(** Readings of one key agree when the key holds the same thing. *)
Lemma zset_at_ext k v v' : rv_keys v !! k = rv_keys v' !! k -> zset_at k v = zset_at k v'.
Proof. unfold zset_at. by intros ->. Qed.
Lemma set_at_ext k v v' : rv_keys v !! k = rv_keys v' !! k -> set_at k v = set_at k v'.
Proof. unfold set_at. by intros ->. Qed.
Lemma str_at_ext k v v' : rv_keys v !! k = rv_keys v' !! k -> str_at k v = str_at k v'.
Proof. unfold str_at. by intros ->. Qed.
Lemma deadline_of_ext k v v' : rv_keys v !! k = rv_keys v' !! k -> deadline_of k v = deadline_of k v'.
Proof. unfold deadline_of. by intros ->. Qed.

Section Frame.
  Context (k k' : string) (Hne : k <> k').

Lemma keys_put_ne e v : rv_keys (put k e v) !! k' = rv_keys v !! k'.
Proof. by rewrite keys_put, decide_False. Qed.
Lemma keys_del_ne v : rv_keys (del k v) !! k' = rv_keys v !! k'.
Proof. by rewrite keys_del, decide_False. Qed.
Lemma keys_put_zset_ne z v : rv_keys (put_zset k z v) !! k' = rv_keys v !! k'.
Proof. by rewrite keys_put_zset, decide_False. Qed.
Lemma keys_put_set_ne x v : rv_keys (put_set k x v) !! k' = rv_keys v !! k'.
Proof. by rewrite keys_put_set, decide_False. Qed.

Lemma zset_at_put_ne e v : zset_at k' (put k e v) = zset_at k' v.
Proof. apply zset_at_ext, keys_put_ne. Qed.
Lemma zset_at_del_ne v : zset_at k' (del k v) = zset_at k' v.
Proof. apply zset_at_ext, keys_del_ne. Qed.
Lemma zset_at_put_zset_ne z v : zset_at k' (put_zset k z v) = zset_at k' v.
Proof. apply zset_at_ext, keys_put_zset_ne. Qed.
Lemma zset_at_put_set_ne x v : zset_at k' (put_set k x v) = zset_at k' v.
Proof. apply zset_at_ext, keys_put_set_ne. Qed.
Lemma set_at_put_ne e v : set_at k' (put k e v) = set_at k' v.
Proof. apply set_at_ext, keys_put_ne. Qed.
Lemma set_at_del_ne v : set_at k' (del k v) = set_at k' v.
Proof. apply set_at_ext, keys_del_ne. Qed.
Lemma set_at_put_zset_ne z v : set_at k' (put_zset k z v) = set_at k' v.
Proof. apply set_at_ext, keys_put_zset_ne. Qed.
Lemma set_at_put_set_ne x v : set_at k' (put_set k x v) = set_at k' v.
Proof. apply set_at_ext, keys_put_set_ne. Qed.
Lemma str_at_put_ne e v : str_at k' (put k e v) = str_at k' v.
Proof. apply str_at_ext, keys_put_ne. Qed.
Lemma str_at_del_ne v : str_at k' (del k v) = str_at k' v.
Proof. apply str_at_ext, keys_del_ne. Qed.
Lemma str_at_put_zset_ne z v : str_at k' (put_zset k z v) = str_at k' v.
Proof. apply str_at_ext, keys_put_zset_ne. Qed.
Lemma str_at_put_set_ne x v : str_at k' (put_set k x v) = str_at k' v.
Proof. apply str_at_ext, keys_put_set_ne. Qed.
End Frame.

Lemma keys_put_eq k e v : rv_keys (put k e v) !! k = Some e.
Proof. by rewrite keys_put, decide_True. Qed.
Lemma keys_del_eq k v : rv_keys (del k v) !! k = None.
Proof. by rewrite keys_del, decide_True. Qed.
Lemma zset_at_publish k ch m v : zset_at k (publish ch m v) = zset_at k v.
Proof. done. Qed.
Lemma set_at_publish k ch m v : set_at k (publish ch m v) = set_at k v.
Proof. done. Qed.
Lemma str_at_publish k ch m v : str_at k (publish ch m v) = str_at k v.
Proof. done. Qed.
Lemma zset_at_del k v : zset_at k (del k v) = Some ∅.
Proof. unfold zset_at. by rewrite keys_del_eq. Qed.
Lemma set_at_del k v : set_at k (del k v) = Some ∅.
Proof. unfold set_at. by rewrite keys_del_eq. Qed.
Lemma zset_at_put_val k z d v : zset_at k (put k (Entry (VZSet z) d) v) = Some z.
Proof. unfold zset_at. by rewrite keys_put_eq. Qed.
Lemma set_at_put_val k x d v : set_at k (put k (Entry (VSet x) d) v) = Some x.
Proof. unfold set_at. by rewrite keys_put_eq. Qed.
Lemma pub_put k e v : rv_pub (put k e v) = rv_pub v.
Proof. done. Qed.
Lemma pub_publish ch m v : rv_pub (publish ch m v) = rv_pub v ++ [(ch, m)].
Proof. done. Qed.
Lemma pub_del k v : rv_pub (del k v) = rv_pub v.
Proof. done. Qed.
Lemma pub_put_zset k z v : rv_pub (put_zset k z v) = rv_pub v.
Proof. unfold put_zset. by case_decide. Qed.
Lemma pub_put_set k x v : rv_pub (put_set k x v) = rv_pub v.
Proof. unfold put_set. by case_decide. Qed.

Create Rewrite HintDb morok_at.
#[export] Hint Rewrite keys_put_eq keys_del_eq keys_publish zset_at_put_zset set_at_put_set
  str_at_put str_at_del zset_at_del set_at_del zset_at_put_val set_at_put_val
  zset_at_publish set_at_publish str_at_publish pub_put pub_publish pub_del pub_put_zset pub_put_set : morok_at.
#[export] Hint Rewrite keys_put_ne keys_del_ne keys_put_zset_ne keys_put_set_ne
  zset_at_put_ne zset_at_del_ne zset_at_put_zset_ne zset_at_put_set_ne
  set_at_put_ne set_at_del_ne set_at_put_zset_ne set_at_put_set_ne
  str_at_put_ne str_at_del_ne str_at_put_zset_ne str_at_put_set_ne
  using (first [done | by apply not_eq_sym | string_ne]) : morok_at.

(** Simplify readings of updated views. *)
Ltac at_simpl := autorewrite with morok_at.

(** Deleting one key. *)
Lemma documented_del1 now k v : exists n, documented now (DEL [k]) v = (RInt n, del k v).
Proof.
  cbn. destruct (rv_keys v !! k) eqn:E; [by eexists|].
  eexists. f_equal. unfold del. destruct v as [m ? ?]; cbn in *. by rewrite delete_id.
Qed.

(** A MULTI block runs its commands in order and collects the replies. *)
Fixpoint multi_doc (now : Z) (cs : list command) (v : rview) : list reply * rview :=
  match cs with
  | [] => ([], v)
  | c :: cs' =>
      let '(r, v') := documented now c v in
      let '(rs, v'') := multi_doc now cs' v' in (r :: rs, v'')
  end.

Definition is_error (r : reply) : bool := match r with RError _ => true | _ => false end.

Lemma rrun_rmulti now cs v :
  rrun_doc now (rmulti cs) v =
  (if existsb is_error (fst (multi_doc now cs v)) then None else Some (fst (multi_doc now cs v)),
   snd (multi_doc now cs v)).
Proof.
  revert v. induction cs as [|c cs IH]; intros v; [done|].
  cbn [rmulti rrun_doc multi_doc]. destruct (documented now c v) as [r v1].
  assert (Hc : forall p v, rrun_doc now
     ((fix collect (p : rtx (list reply)) : rtx (list reply) :=
           match p with
           | RRet (Some rs) => RRet (match r with RError _ => None | _ => Some (r :: rs) end)
           | RRet None => RRet None
           | RDo c k => RDo c (fun r => collect (k r))
           end) p) v =
     (match fst (rrun_doc now p v) with
      | Some rs => if is_error r then None else Some (r :: rs)
      | None => None end, snd (rrun_doc now p v))).
  { intros p. induction p as [[rs|]|c0 k0 IHp]; intros v0; cbn [rrun_doc].
    - by destruct r.
    - done.
    - destruct (documented now c0 v0) as [r0 v2]. apply IHp. }
  rewrite Hc, IH. destruct (multi_doc now cs v1) as [rs v2]. cbn [fst snd existsb].
  destruct (existsb is_error rs), (is_error r); done.
Qed.

Lemma rrun_rbind {A B} now (p : rtx A) (f : A -> rtx B) v :
  rrun_doc now (rbind p f) v =
  (let '(o, v') := rrun_doc now p v in
   match o with Some a => rrun_doc now (f a) v' | None => (None, v') end).
Proof.
  revert v. induction p as [[a|]|c k IH]; intros v; cbn [rbind rrun_doc]; [done|done|].
  destruct (documented now c v) as [r v']. apply IH.
Qed.

Lemma rrun_rcall {A} now c (dec : reply -> option A) v :
  rrun_doc now (rcall c dec) v = (dec (fst (documented now c v)), snd (documented now c v)).
Proof. unfold rcall. cbn. by destruct (documented now c v). Qed.

(** ** Single commands on views of known type *)

(** [redis.set(k, s, ex=ex)], [redis.setex(k, ex, s)], and the former with [nx=True]. *)
Definition set_ex (k s : string) (ex : Z) : command := SET k s (Some ex) false false false.
Definition set_nx_ex (k s : string) (ex : Z) : command := SET k s (Some ex) true false false.

(** [redis.call] in a script: the reply does not matter, an error reply ends the script. *)
Definition lua_call (c : command) : rtx unit := rcall c as_any.

Section Commands.
  Context (now : Z) (v : rview).

Lemma doc_zadd k s m z : zset_at k v = Some z ->
  documented now (ZADD k s m) v =
  (RInt (match z !! m with Some _ => 0 | None => 1 end),
   put k (Entry (VZSet (<[m := s]> z)) (deadline_of k v)) v).
Proof.
  intros Hz. cbn. rewrite Hz. unfold put_zset. rewrite decide_False; [done|].
  apply insert_non_empty.
Qed.

Lemma doc_zrem k m z : zset_at k v = Some z ->
  documented now (ZREM k m) v =
  (RInt (match z !! m with Some _ => 1 | None => 0 end), put_zset k (delete m z) v).
Proof. intros Hz. cbn. by rewrite Hz. Qed.

Lemma doc_sadd k ms x : set_at k v = Some x -> ms <> [] ->
  documented now (SADD k ms) v =
  (RInt (Z.of_nat (size (list_to_set ms ∖ x))),
   put k (Entry (VSet (x ∪ list_to_set ms)) (deadline_of k v)) v).
Proof.
  intros Hx Hms. cbn. rewrite Hx. unfold put_set. rewrite decide_False; [done|].
  destruct ms; [done|]. set_solver.
Qed.

Lemma doc_expire k e secs : rv_keys v !! k = Some e -> (0 < secs)%Z ->
  documented now (EXPIRE k secs) v = (RInt 1, put k (Entry (e_val e) (Some (now + secs)%Z)) v).
Proof. intros Hk Hs. cbn. rewrite Hk. case_match; [zify_bool; lia|done]. Qed.

Lemma doc_set_ex k s ex : (0 < ex)%Z ->
  documented now (set_ex k s ex) v = (ROk, put k (Entry (VStr s) (Some (now + ex)%Z)) v).
Proof. intros Hs. cbn. case_match; [zify_bool; lia|done]. Qed.

Lemma doc_set_nx_ex k s ex : (0 < ex)%Z ->
  documented now (set_nx_ex k s ex) v =
  match rv_keys v !! k with
  | Some _ => (RNil, v)
  | None => (ROk, put k (Entry (VStr s) (Some (now + ex)%Z)) v)
  end.
Proof.
  intros Hs. cbn. destruct (ex <=? 0)%Z eqn:?; [zify_bool; lia|].
  by destruct (rv_keys v !! k).
Qed.
End Commands.

(** A MULTI block whose commands all succeed, with its replies and the view after it. *)
Definition multi_ok (now : Z) (cs : list command) (v : rview) (rs : list reply) (v' : rview) : Prop :=
  multi_doc now cs v = (rs, v') /\ existsb is_error rs = false.

Lemma multi_nil now v : multi_ok now [] v [] v.
Proof. done. Qed.

Lemma multi_cons now c cs v r v1 rs v' :
  documented now c v = (r, v1) -> is_error r = false -> multi_ok now cs v1 rs v' ->
  multi_ok now (c :: cs) v (r :: rs) v'.
Proof.
  intros Hc Hr [Hm Hs]. unfold multi_ok. cbn [multi_doc existsb]. rewrite Hc, Hm. by rewrite Hr.
Qed.

Lemma rrun_multi_ok now cs v rs v' :
  multi_ok now cs v rs v' -> rrun_doc now (rmulti cs) v = (Some rs, v').
Proof. intros [Hm He]. rewrite rrun_rmulti, Hm. cbn [fst snd]. by rewrite He. Qed.

(** ** Commands that cannot make a sorted set grow *)

(** The key a command may put members or a value under. *)
Definition adds_to (c : command) : option string :=
  match c with
  | SET k _ _ _ _ _ | INCR k | DECR k | SADD k _ | ZADD k _ _ => Some k
  | _ => None
  end.

Lemma zset_at_other k v v' z :
  zset_at k v = Some z -> rv_keys v' !! k = rv_keys v !! k -> zset_at k v' = Some z.
Proof. unfold zset_at. by intros ? ->. Qed.

(** Every other command leaves the set at a key, or a part of it. *)
Lemma documented_shrinks now c k v z :
  adds_to c <> Some k -> zset_at k v = Some z ->
  exists z', zset_at k (snd (documented now c v)) = Some z' /\ z' ⊆ z.
Proof.
  intros Hc Hz.
  assert (Hsame : forall v', rv_keys v' !! k = rv_keys v !! k ->
            exists z', zset_at k v' = Some z' /\ z' ⊆ z)
    by (intros v' Hk; exists z; split; [by eapply zset_at_other|done]).
  assert (Hdel : forall k', exists z', zset_at k (del k' v) = Some z' /\ z' ⊆ z).
  { intros k'. destruct (decide (k' = k)) as [->|]; [|by apply Hsame, keys_del_ne].
    exists ∅. split; [apply zset_at_del|apply map_empty_subseteq]. }
  assert (Hput : forall k' z', (k' = k -> z' ⊆ z) ->
            exists z'', zset_at k (put_zset k' z' v) = Some z'' /\ z'' ⊆ z).
  { intros k' z' Hsub. destruct (decide (k' = k)) as [->|]; [|by apply Hsame, keys_put_zset_ne].
    exists z'. split; [apply zset_at_put_zset|auto]. }
  destruct c; cbn [adds_to] in Hc; cbn [documented].
  all: try (apply Hsame; repeat case_match; cbn [snd]; at_simpl; congruence).
  - (* DEL *)
    destruct (documented_del now ks v) as (n & _ & Hd). cbn [documented] in Hd.
    specialize (Hd k). case_decide; [|by apply Hsame].
    exists ∅. split; [|apply map_empty_subseteq]. unfold zset_at. by rewrite Hd.
  - (* EXPIRE *)
    destruct (rv_keys v !! k0) as [e|] eqn:E; [|by apply Hsame].
    case_match; [apply Hdel|]. cbn [snd].
    destruct (decide (k0 = k)) as [->|]; [|by apply Hsame, keys_put_ne].
    exists z. split; [|done]. unfold zset_at in *. rewrite keys_put_eq. rewrite E in Hz.
    by destruct e as [[] ?].
  - (* GETDEL *) repeat case_match; try apply Hdel; by apply Hsame.
  - (* SREM *)
    destruct (set_at k0 v) as [x|] eqn:E; [|by apply Hsame]. cbn [snd].
    destruct (decide (k0 = k)) as [->|]; [|by apply Hsame, keys_put_set_ne].
    unfold set_at, zset_at in E, Hz. unfold put_set. destruct (rv_keys v !! k) as [[[] ?]|] eqn:Ek; try done.
    simplify_eq. rewrite decide_True by set_solver. apply Hdel.
  - (* ZREM *)
    destruct (zset_at k0 v) as [z0|] eqn:E; [|by apply Hsame]. cbn [snd]. apply Hput.
    intros ->. simplify_eq. apply delete_subseteq.
  - (* ZREMRANGEBYSCORE *)
    destruct (zset_at k0 v) as [z0|] eqn:E; [|by apply Hsame]. cbn [snd]. apply Hput.
    intros ->. simplify_eq. apply map_filter_subseteq.
Qed.

(** ** The keys a command may change *)

Definition writes (c : command) : list string :=
  match c with
  | SET k _ _ _ _ _ | INCR k | DECR k | EXPIRE k _ | GETDEL k | SADD k _ | SREM k _
  | ZADD k _ _ | ZREM k _ | ZREMRANGEBYSCORE k _ _ => [k]
  | DEL ks => ks
  | _ => []
  end.

Lemma documented_frame now c k v : k ∉ writes c -> rv_keys (snd (documented now c v)) !! k = rv_keys v !! k.
Proof.
  intros Hk. destruct c; cbn [writes] in Hk; cbn [documented];
    try (apply not_elem_of_cons in Hk as [Hk _]; apply not_eq_sym in Hk);
    try (repeat case_match; cbn [snd]; at_simpl; done).
  destruct (documented_del now ks v) as (n & _ & Hd). cbn [documented] in Hd. rewrite (Hd k).
  by rewrite decide_False.
Qed.

Lemma zset_at_present k v z :
  zset_at k v = Some z -> z <> ∅ -> exists d, rv_keys v !! k = Some (Entry (VZSet z) d).
Proof.
  unfold zset_at. destruct (rv_keys v !! k) as [[[] d]|]; intros Hz Hne; simplify_eq. eauto.
Qed.

Lemma multi_app now cs1 cs2 v rs1 v1 rs2 v2 :
  multi_ok now cs1 v rs1 v1 -> multi_ok now cs2 v1 rs2 v2 ->
  multi_ok now (cs1 ++ cs2) v (rs1 ++ rs2) v2.
Proof.
  revert v rs1. induction cs1 as [|c cs1 IH]; intros v rs1 [H1 He1] H2; cbn in H1.
  - by simplify_eq.
  - destruct (documented now c v) as [r v'] eqn:Ec.
    destruct (multi_doc now cs1 v') as [rs v''] eqn:Em. simplify_eq. cbn in He1.
    apply orb_false_elim in He1 as [Hr Hrs].
    cbn [app]. eapply multi_cons; [done|done|]. apply IH; [|done]. split; [by rewrite Em|done].
Qed.

(** ** A new deadline for a key, if it exists *)

Definition touch (k : string) (d : Z) (v : rview) : rview :=
  match rv_keys v !! k with Some e => put k (Entry (e_val e) (Some d)) v | None => v end.

Lemma keys_touch k d v k' :
  rv_keys (touch k d v) !! k' =
  if decide (k = k') then (fun e => Entry (e_val e) (Some d)) <$> rv_keys v !! k else rv_keys v !! k'.
Proof.
  unfold touch. destruct (rv_keys v !! k) as [e|] eqn:E; [by rewrite keys_put|].
  case_decide; subst; done.
Qed.

Lemma keys_touch_ne k k' d v : k <> k' -> rv_keys (touch k d v) !! k' = rv_keys v !! k'.
Proof. intros. by rewrite keys_touch, decide_False. Qed.

Lemma pub_touch k d v : rv_pub (touch k d v) = rv_pub v.
Proof. unfold touch. by case_match. Qed.

Lemma str_at_touch k d v k' : str_at k' (touch k d v) = str_at k' v.
Proof.
  unfold str_at. rewrite keys_touch. case_decide as Hk; [|done]. subst.
  by destruct (rv_keys v !! k') as [[]|].
Qed.
Lemma set_at_touch k d v k' : set_at k' (touch k d v) = set_at k' v.
Proof.
  unfold set_at. rewrite keys_touch. case_decide as Hk; [|done]. subst.
  by destruct (rv_keys v !! k') as [[]|].
Qed.

Lemma doc_touch now k secs v : (0 < secs)%Z ->
  exists n, documented now (EXPIRE k secs) v = (RInt n, touch k (now + secs) v).
Proof.
  intros Hs. cbn. unfold touch. destruct (rv_keys v !! k); [|by eexists].
  rewrite (proj2 (Z.leb_gt _ _)) by lia. by eexists.
Qed.

Lemma doc_srem now k ms x v : set_at k v = Some x ->
  documented now (SREM k ms) v =
  (RInt (Z.of_nat (size (x ∩ list_to_set ms))), put_set k (x ∖ list_to_set ms) v).
Proof. intros Hx. cbn. by rewrite Hx. Qed.

#[export] Hint Rewrite str_at_touch set_at_touch pub_touch : morok_at.
#[export] Hint Rewrite keys_touch_ne using (first [done | by apply not_eq_sym | string_ne]) : morok_at.
