(* ===== verification/Models.v ===== *)
(** * Database tables (models.py)

    Each SQLAlchemy class is a record with the columns the modelled code reads or writes, and the
    database is the record of its tables.  A SQL statement of the source is a function on these
    lists: [SELECT ... WHERE p] is [filter], [UPDATE ... WHERE p SET f] is [update_where], which also
    gives the row count.  A UUID is its 16 bytes. *)

From Stdlib Require Import Ascii String Sorted.
From stdpp Require Import prelude gmap strings list.
From S2P Require Import Prelude Json.

#[local] Set Warnings "-register-all".

(** ** Enumerations *)

Inductive UserTier := FREE | PREMIUM | ADMIN.
Inductive DMSStatus := ARMED | TRIGGERED | CANCELLED.
Inductive FedQueueStatus := PENDING | IN_FLIGHT | SUCCEEDED | DEAD_LETTER.
Inductive AliasStatus := ACTIVE | PAUSED | DEAD.
Inductive OutboundStatus := QUEUED | SENDING | DELIVERED | FAILED.

#[export] Instance UserTier_eq_dec : EqDecision UserTier.
Proof. solve_decision. Defined.
#[export] Instance DMSStatus_eq_dec : EqDecision DMSStatus.
Proof. solve_decision. Defined.
#[export] Instance FedQueueStatus_eq_dec : EqDecision FedQueueStatus.
Proof. solve_decision. Defined.

#[export] Instance AliasStatus_eq_dec : EqDecision AliasStatus.
Proof. solve_decision. Defined.
#[export] Instance OutboundStatus_eq_dec : EqDecision OutboundStatus.
Proof. solve_decision. Defined.

(** [status.value] *)
Definition dms_status_value (s : DMSStatus) : string :=
  match s with ARMED => "armed" | TRIGGERED => "triggered" | CANCELLED => "cancelled" end.

(** ** Rows *)

Record User := mkUser {
  u_pubkey : string;
  u_username : option string;
  u_tier : UserTier;
  u_home_relay : string;
  u_created_at : Z;
  u_last_seen_at : option Z;
  u_deleted_at : option Z;
  u_username_changed_at : option Z
}.

Record UsernameHistory := mkHistory {
  uh_username : string;
  uh_pubkey : string;
  uh_claimed_at : Z;
  uh_released_at : Z
}.

Record Group := mkGroup {
  g_id : string;
  g_creator_pubkey : string;
  g_name_encrypted : string;
  g_is_channel : bool;
  g_default_ttl_seconds : Z;
  g_slug : option string;
  g_expires_at : option Z;
  g_anonymous_senders : bool;
  g_max_members : Z;
  g_home_relay : option string;
  g_created_at : Z;
  g_deleted_at : option Z
}.

Record GroupMember := mkMember {
  gm_group_id : string;
  gm_pubkey : string;
  gm_is_admin : bool;
  gm_joined_at : Z
}.

Record FederationPeer := mkPeer {
  fp_hostname : string;
  fp_pubkey : string;
  fp_is_trusted : bool;
  fp_last_handshake_at : option Z;
  fp_created_at : Z
}.

Record FederationOutboundQueue := mkFed {
  fq_id : string;
  fq_envelope_id : string;
  fq_envelope_data : dict;
  fq_target_relay : string;
  fq_status : FedQueueStatus;
  fq_attempts : Z;
  fq_next_attempt_at : Z;
  fq_last_error : option string;
  fq_created_at : Z;
  fq_delivered_at : option Z
}.

Record EncryptedBackup := mkBackup {
  eb_pubkey : string;
  eb_username_at_backup : option string;
  eb_encrypted_seed : string;
  eb_kdf_salt : string;
  eb_kdf_params : dict;
  eb_schema_version : Z;
  eb_created_at : Z;
  eb_updated_at : Z
}.

Record InboxToken := mkInboxToken {
  it_pubkey : string;
  it_token_hash : string;
  it_created_at : Z
}.

Record PushSubscription := mkPush {
  ps_pubkey : string;
  ps_endpoint : string;
  ps_p256dh : string;
  ps_auth : string;
  ps_platform : string;
  ps_user_agent : option string;
  ps_created_at : Z;
  ps_updated_at : Z;
  ps_last_used_at : option Z
}.

Record LoginLog := mkLogin {
  ll_id : string;
  ll_pubkey : string;
  ll_created_at : Z;
  ll_ip_hash : string;
  ll_user_agent : option string
}.

(** A row of the outbound mail queue (mail_models.py). *)
Record MailOutbound := mkOutbound {
  mo_id : string;
  mo_owner_pubkey : string;
  mo_from_alias : string;
  mo_to_addr : string;
  mo_subject : option string;
  mo_body_text : option string;
  mo_attachments_json : option string;
  mo_in_reply_to : option string;
  mo_references_hdr : option string;
  mo_status : OutboundStatus;
  mo_attempts : Z;
  mo_last_error : option string;
  mo_created_at : Z;
  mo_updated_at : Z
}.

(** A mail address of this relay (mail_models.py). *)
Record MailAlias := mkAlias {
  ma_alias : string;
  ma_owner_pubkey : string;
  ma_status : AliasStatus;
  ma_is_primary : bool;
  ma_label : option string;
  ma_created_at : Z;
  ma_received_count : Z
}.

Record DMSRecipient := mkRecipient {
  dr_recipient_pubkey : string;
  dr_delivered_at : option Z
}.

(** The recipients are the rows of [dms_recipients] the relationship loads. *)
Record DeadManSwitch := mkDMS {
  dms_id : string;
  dms_creator_pubkey : string;
  dms_trigger_seconds : Z;
  dms_last_check_in_at : Z;
  dms_payload_encrypted : string;
  dms_label : option string;
  dms_status : DMSStatus;
  dms_created_at : Z;
  dms_triggered_at : option Z;
  dms_cancelled_at : option Z;
  dms_recipients : list DMSRecipient
}.

Record database := Database {
  t_users : list User;
  t_history : list UsernameHistory;
  t_groups : list Group;
  t_members : list GroupMember;
  t_peers : list FederationPeer;
  t_fedqueue : list FederationOutboundQueue;
  t_backups : list EncryptedBackup;
  t_inbox_tokens : list InboxToken;
  t_push : list PushSubscription;
  t_logins : list LoginLog;
  t_outbound : list MailOutbound;
  t_dms : list DeadManSwitch;
  t_aliases : list MailAlias
}.

Definition empty_db : database := Database [] [] [] [] [] [] [] [] [] [] [] [] [].

(** ** Statements *)

(** [UPDATE t SET f WHERE p]: the new table and [rowcount]. *)
Definition update_where {A} (p : A -> bool) (f : A -> A) (t : list A) : Z * list A :=
  (Z.of_nat (length (List.filter p t)), map (fun r => if p r then f r else r) t).

(** [SELECT ... WHERE p], [scalar_one_or_none()] on a unique column. *)
Definition select_one {A} (p : A -> bool) (t : list A) : option A := List.find p t.

(** The same on a column that is not unique: [None] is its [MultipleResultsFound]. *)
Definition select_sole {A} (p : A -> bool) (t : list A) : option (option A) :=
  match List.filter p t with [] => Some None | [r] => Some (Some r) | _ => None end.

(** [DELETE FROM t WHERE p]: the new table and [rowcount]. *)
Definition delete_where {A} (p : A -> bool) (t : list A) : Z * list A :=
  (Z.of_nat (length (List.filter p t)), List.filter (fun r => negb (p r)) t).

(** [ORDER BY key] *)
Fixpoint insert_by {A} (key : A -> Z) (x : A) (l : list A) : list A :=
  match l with
  | [] => [x]
  | y :: l' => if (key x <=? key y)%Z then x :: l else y :: insert_by key x l'
  end.
Definition order_by {A} (key : A -> Z) (l : list A) : list A := foldr (insert_by key) [] l.

Lemma insert_by_perm {A} (key : A -> Z) x l : insert_by key x l ≡ₚ x :: l.
Proof.
  induction l as [|y l IH]; [done|]. cbn. destruct (key x <=? key y)%Z; [done|]. rewrite IH. apply Permutation_swap.
Qed.

Lemma order_by_perm {A} (key : A -> Z) l : order_by key l ≡ₚ l.
Proof. induction l as [|x l IH]; [done|]. cbn. by rewrite insert_by_perm, IH. Qed.

Lemma insert_by_sorted {A} (key : A -> Z) x l :
  StronglySorted (fun a b => (key a <= key b)%Z) l -> StronglySorted (fun a b => (key a <= key b)%Z) (insert_by key x l).
Proof.
  induction 1 as [|y l Hs IH Hf]; cbn; [by repeat constructor|].
  destruct (key x <=? key y)%Z eqn:E; zify_bool.
  - constructor; [by constructor|]. constructor; [done|]. eapply Forall_impl; [exact Hf|]. intros z Hz. cbn in *. lia.
  - constructor; [done|]. rewrite insert_by_perm. by constructor; [lia|].
Qed.

Lemma order_by_sorted {A} (key : A -> Z) l : StronglySorted (fun a b => (key a <= key b)%Z) (order_by key l).
Proof. induction l as [|x l IH]; [constructor|]. by apply insert_by_sorted. Qed.

Lemma sorted_take {A} (R : A -> A -> Prop) n l x y :
  StronglySorted R l -> x ∈ take n l -> y ∈ drop n l -> R x y.
Proof.
  revert l. induction n as [|n IH]; intros [|a l] Hs Hx Hy; cbn in *; try by apply elem_of_nil in Hx.
  inv Hs. apply elem_of_cons in Hx as [->|Hx]; [|by eapply IH].
  match goal with Hf : Forall (R a) l |- _ => rewrite Forall_forall in Hf; apply Hf end.
  rewrite <- (take_drop n l). by apply elem_of_app; right.
Qed.

Lemma select_in {A} p (t : list A) r : select_one p t = Some r -> r ∈ t /\ p r = true.
Proof. intros H. apply List.find_some in H as [Hin Hp]. split; [by apply list_elem_of_In|done]. Qed.

Definition set_users (l : list User) (d : database) : database :=
  Database l (t_history d) (t_groups d) (t_members d) (t_peers d) (t_fedqueue d)
    (t_backups d) (t_inbox_tokens d) (t_push d) (t_logins d) (t_outbound d) (t_dms d) (t_aliases d).
Definition set_history (l : list UsernameHistory) (d : database) : database :=
  Database (t_users d) l (t_groups d) (t_members d) (t_peers d) (t_fedqueue d)
    (t_backups d) (t_inbox_tokens d) (t_push d) (t_logins d) (t_outbound d) (t_dms d) (t_aliases d).
Definition set_groups (l : list Group) (d : database) : database :=
  Database (t_users d) (t_history d) l (t_members d) (t_peers d) (t_fedqueue d)
    (t_backups d) (t_inbox_tokens d) (t_push d) (t_logins d) (t_outbound d) (t_dms d) (t_aliases d).
Definition set_members (l : list GroupMember) (d : database) : database :=
  Database (t_users d) (t_history d) (t_groups d) l (t_peers d) (t_fedqueue d)
    (t_backups d) (t_inbox_tokens d) (t_push d) (t_logins d) (t_outbound d) (t_dms d) (t_aliases d).
Definition set_peers (l : list FederationPeer) (d : database) : database :=
  Database (t_users d) (t_history d) (t_groups d) (t_members d) l (t_fedqueue d)
    (t_backups d) (t_inbox_tokens d) (t_push d) (t_logins d) (t_outbound d) (t_dms d) (t_aliases d).
Definition set_fedqueue (l : list FederationOutboundQueue) (d : database) : database :=
  Database (t_users d) (t_history d) (t_groups d) (t_members d) (t_peers d) l
    (t_backups d) (t_inbox_tokens d) (t_push d) (t_logins d) (t_outbound d) (t_dms d) (t_aliases d).
Definition set_backups (l : list EncryptedBackup) (d : database) : database :=
  Database (t_users d) (t_history d) (t_groups d) (t_members d) (t_peers d) (t_fedqueue d)
    l (t_inbox_tokens d) (t_push d) (t_logins d) (t_outbound d) (t_dms d) (t_aliases d).
Definition set_inbox_tokens (l : list InboxToken) (d : database) : database :=
  Database (t_users d) (t_history d) (t_groups d) (t_members d) (t_peers d) (t_fedqueue d)
    (t_backups d) l (t_push d) (t_logins d) (t_outbound d) (t_dms d) (t_aliases d).
Definition set_push (l : list PushSubscription) (d : database) : database :=
  Database (t_users d) (t_history d) (t_groups d) (t_members d) (t_peers d) (t_fedqueue d)
    (t_backups d) (t_inbox_tokens d) l (t_logins d) (t_outbound d) (t_dms d) (t_aliases d).
Definition set_logins (l : list LoginLog) (d : database) : database :=
  Database (t_users d) (t_history d) (t_groups d) (t_members d) (t_peers d) (t_fedqueue d)
    (t_backups d) (t_inbox_tokens d) (t_push d) l (t_outbound d) (t_dms d) (t_aliases d).
Definition set_outbound (l : list MailOutbound) (d : database) : database :=
  Database (t_users d) (t_history d) (t_groups d) (t_members d) (t_peers d) (t_fedqueue d)
    (t_backups d) (t_inbox_tokens d) (t_push d) (t_logins d) l (t_dms d) (t_aliases d).
Definition set_dms (l : list DeadManSwitch) (d : database) : database :=
  Database (t_users d) (t_history d) (t_groups d) (t_members d) (t_peers d) (t_fedqueue d)
    (t_backups d) (t_inbox_tokens d) (t_push d) (t_logins d) (t_outbound d) l (t_aliases d).
Definition set_aliases (l : list MailAlias) (d : database) : database :=
  Database (t_users d) (t_history d) (t_groups d) (t_members d) (t_peers d) (t_fedqueue d)
    (t_backups d) (t_inbox_tokens d) (t_push d) (t_logins d) (t_outbound d) (t_dms d) l.

(** ** Counting and relating rows *)

Definition count {A} (p : A -> bool) (l : list A) : Z := Z.of_nat (length (List.filter p l)).

Lemma count_app {A} (p : A -> bool) l x : count p (l ++ [x]) = (count p l + (if p x then 1 else 0))%Z.
Proof. unfold count. rewrite List.filter_app, length_app. cbn. destruct (p x); cbn; lia. Qed.
Lemma count_related {A} (R : A -> A -> Prop) (p : A -> bool) l l' :
  (forall x y, R x y -> p y = true -> p x = true) -> Forall2 R l l' -> (count p l' <= count p l)%Z.
Proof.
  intros Hp. unfold count. induction 1 as [|x y l l' Hxy _ IH]; [done|]. cbn [List.filter].
  destruct (p y) eqn:Ey; [rewrite (Hp x y Hxy Ey); cbn [length]; lia|]. destruct (p x); cbn [length]; lia.
Qed.
Lemma count_filter {A} (p q : A -> bool) l : (count p (List.filter q l) <= count p l)%Z.
Proof.
  unfold count. induction l as [|x l IH]; [done|]. cbn [List.filter]. destruct (q x); cbn [List.filter]; destruct (p x); cbn [length]; lia.
Qed.
Lemma count_weaken {A} (p q : A -> bool) l : (forall x, x ∈ l -> p x = true -> q x = true) -> (count p l <= count q l)%Z.
Proof.
  unfold count. induction l as [|x l IH]; intros Hpq; [done|]. cbn [List.filter].
  pose proof (IH (fun y Hy => Hpq y (list_elem_of_further y x l Hy))).
  destruct (p x) eqn:Ep; [rewrite (Hpq x (list_elem_of_here x l) Ep); cbn [length]; lia|]. destruct (q x); cbn [length]; lia.
Qed.
Lemma related_keys {A K} (R : A -> A -> Prop) (key : A -> K) l l' :
  (forall x y, R x y -> key y = key x) -> Forall2 R l l' -> map key l' = map key l.
Proof. intros Hk. induction 1 as [|x y l l' Hxy _ IH]; [done|]. cbn. by rewrite IH, (Hk x y). Qed.

(** An update by a condition. *)
Lemma update_related {A} (R : A -> A -> Prop) p f (l : list A) :
  (forall x, R x x) -> (forall x, x ∈ l -> p x = true -> R x (f x)) -> Forall2 R l (snd (update_where p f l)).
Proof.
  intros Hr Hf. cbn [snd update_where]. induction l as [|x l IH]; [constructor|]. cbn [map]. constructor.
  - destruct (p x) eqn:E; [apply Hf; [left|done]|apply Hr].
  - apply IH. intros y Hy. apply Hf. by right.
Qed.

Lemma existsb_none {A} (q : A -> bool) l : existsb q l = false -> List.filter q l = [].
Proof. induction l as [|a l IH]; [done|]. cbn [existsb List.filter]. intros [-> E]%orb_false_iff. by apply IH. Qed.

(** The row that was found is the only one of its name. *)
Lemma found_only {A} (key : A -> string) (q : A -> bool) l x :
  NoDup (map key l) -> select_one q l = Some x -> forall y, y ∈ l -> String.eqb (key y) (key x) = true -> y = x.
Proof.
  intros Hnd Hs y Hy E%String.eqb_eq. apply select_in in Hs as [Hx _].
  apply list_elem_of_lookup in Hy as [i Hi]. apply list_elem_of_lookup in Hx as [j Hj].
  assert (i = j) as ->; [|congruence].
  eapply NoDup_lookup; [exact Hnd|..]; rewrite list_lookup_fmap, ?Hi, ?Hj; cbn; [done|by rewrite E].
Qed.

Lemma update_where_in {A} p f (t : list A) (r : A) :
  r ∈ snd (update_where p f t) <-> exists r0, r0 ∈ t /\ r = if p r0 then f r0 else r0.
Proof. cbn. rewrite list_elem_of_fmap. naive_solver. Qed.

Lemma update_where_length {A} p f (t : list A) : length (snd (update_where p f t)) = length t.
Proof. apply length_map. Qed.

(** ** Rows by their key *)

Section Keyed.
  Context {A : Type} (key : A -> string).

Definition has_key (id : string) (r : A) : bool := String.eqb (key r) id.
Definition row (id : string) (t : list A) : option A := List.find (has_key id) t.
Definition unique_keys (t : list A) : Prop := NoDup (map key t).

Lemma row_map f id t : (forall r, key (f r) = key r) -> row id (map f t) = f <$> row id t.
Proof.
  intros Hf. unfold row, has_key. induction t as [|r t IH]; [done|]. cbn. rewrite Hf.
  by destruct (String.eqb (key r) id).
Qed.

Lemma row_some id t r : row id t = Some r -> r ∈ t /\ key r = id.
Proof. intros [Hin Hid%String.eqb_eq]%List.find_some. by rewrite list_elem_of_In. Qed.

Lemma row_none id t : row id t = None <-> forall r, r ∈ t -> key r <> id.
Proof.
  unfold row, has_key. split.
  - intros Hn r Hr. pose proof (List.find_none _ _ Hn r) as H. rewrite <- list_elem_of_In in H.
    by apply String.eqb_neq, H.
  - intros Hne. destruct (List.find _ t) as [r|] eqn:E; [|done]. apply row_some in E as [Hin Hid]. by destruct (Hne r).
Qed.

Lemma row_unique t r : unique_keys t -> r ∈ t -> row (key r) t = Some r.
Proof.
  intros Hu Hr. destruct (row (key r) t) as [r'|] eqn:E.
  - apply row_some in E as [Hr' Hid]. f_equal.
    apply list_elem_of_lookup in Hr as [i Hi]. apply list_elem_of_lookup in Hr' as [j Hj].
    assert (i = j) as ->; [|congruence].
    eapply NoDup_lookup; [exact Hu|..]; rewrite list_lookup_fmap, ?Hi, ?Hj; cbn; [done|by rewrite Hid].
  - by destruct (proj1 (row_none _ _) E r Hr).
Qed.

Lemma unique_map f t : (forall r, key (f r) = key r) -> unique_keys (map f t) <-> unique_keys t.
Proof. intros Hf. unfold unique_keys. by rewrite map_map, (map_ext _ key Hf). Qed.

Lemma unique_sublist t t' : t' `sublist_of` t -> unique_keys t -> unique_keys t'.
Proof. intros Hs Hu. eapply sublist_NoDup; [exact Hu|]. by apply (fmap_sublist key). Qed.

Lemma filter_sublist (p : A -> bool) t : List.filter p t `sublist_of` t.
Proof. induction t as [|r t IH]; cbn; [done|]. destruct (p r); by constructor. Qed.

Lemma row_filter p id t :
  unique_keys t -> row id (List.filter p t) = r ← row id t; if p r then Some r else None.
Proof.
  intros Hu. destruct (row id t) as [r|] eqn:E; cbn.
  - apply row_some in E as [Hr <-]. destruct (p r) eqn:Hp.
    + apply row_unique; [by eapply unique_sublist, Hu; apply filter_sublist|].
      rewrite list_elem_of_In. apply List.filter_In. by rewrite <- list_elem_of_In.
    + apply row_none. intros r' [Hr' Hp']%list_elem_of_In%List.filter_In Hk. apply list_elem_of_In in Hr'.
      pose proof (row_unique t r Hu Hr) as H1. rewrite <- Hk, (row_unique t r' Hu Hr') in H1. injection H1 as ->. by rewrite Hp in Hp'.
  - apply row_none. intros r' [Hr' _]%list_elem_of_In%List.filter_In. apply list_elem_of_In in Hr'.
    by apply (proj1 (row_none _ _) E).
Qed.

Lemma row_app id t t' : row id (t ++ t') = match row id t with Some r => Some r | None => row id t' end.
Proof. unfold row. induction t as [|r t IH]; [done|]. cbn. by destruct (has_key id r). Qed.
End Keyed.
