(* ===== verification/Effects.v ===== *)
(** * Effects: the asynchronous Python code as programs over events

    A coroutine of the source is a [prog]: a sequence of events with the code between two events
    run atomically, which is what [asyncio] gives (a coroutine yields only at an [await]).  The
    events are reading the clock, an atomic exchange with Redis, drawing a random token, file
    operations on the blob directory, SQL statements on the session, and starting a background
    task.  [M A] is a [prog] that returns a value or raises.

    [run] executes one program from start to end.  [cstep] is the interleaving of any number of
    programs: an event of one of them at a time, with the clock moving and failures striking in
    between.  [keeps_reachable] reduces a safety property of all interleavings to a condition on
    each event of each program ([keeps]).

    A Redis exchange can fail before the server saw it ([LostRequest]) or after the server executed
    it ([LostReply]); the client sees the same exception. *)

From Stdlib Require Import Ascii String.
From stdpp Require Import prelude gmap strings list.
From S2P Require Import Prelude Json RedisStore Models.

#[local] Open Scope morok_scope.

(** ** Exceptions and results *)

Inductive exn :=
| HTTPException (status_code : Z) (detail : string)
| EnqueueRejected (status_code : Z) (reason : string)
| RedisError
| OSError
| ValueError (msg : string)
| TypeError
| OverflowError
| AttributeError
| IntegrityError
| DataError                                           (* a value the column does not take *)
| KeyError
| MultipleResultsFound                                (* scalar_one_or_none() of two rows or more *)
| PendingRollbackError                                (* commit after a failed flush *)
| HTTPError                                           (* httpx *)
| FileNotFoundError.

Inductive res (A : Type) := Ok (a : A) | Raise (e : exn).
Arguments Ok {A} a.
Arguments Raise {A} e.

(** ** Events *)

(** What [asyncio.create_task] is given. *)
Inductive task :=
| TDeleteBlob (envelope_id : string)                  (* queue._delete_blob_after_last_ack *)
| TPush (recipients : list string)                    (* push_sender.schedule_push *)
| TBumpDms (pubkey_hex : string)                      (* deps._bump_dms_check_in_for_pubkey *)
| TBumpSeen (pubkey_hex : string).                    (* deps._bump_last_seen *)

(** A file of the blob directory: its bytes and modification time. *)
Record file := File { f_bytes : string; f_mtime : Z }.

(** A request to another relay: the address connected to, the host name, the path, and the JSON body
    of a POST. *)
Record request := Request { rq_ip : string; rq_host : string; rq_path : string; rq_body : option json }.

Inductive ev : Type -> Type :=
| ETime : ev Z                                        (* int(time.time()) *)
| ERedis {R} (p : rtx R) : ev (option R)              (* None: an exception *)
| EToken : ev string                                  (* secrets.token_hex / token_urlsafe *)
| EBlobWrite (id bytes : string) : ev bool            (* false: OSError *)
| EBlobRead (id : string) : ev (option string)
| EBlobDelete (id : string) : ev (option bool)        (* None: OSError *)
| EBlobList : ev (list string)                        (* the paths under the directory *)
| EBlobStat (id : string) : ev (option Z)             (* st_mtime; None: FileNotFoundError *)
| EResolve (hostname : string) : ev (option (list string))   (* getaddrinfo; None: an error *)
| EHttp (r : request) : ev (option (Z * option json)) (* status and JSON body; None: httpx.HTTPError *)
| ESql {R} (f : database -> R * database) : ev R      (* a statement in the session *)
| ECommit : ev unit
| ERollback : ev unit
| ESpawn (t : task) : ev unit.

Inductive prog (A : Type) : Type :=
| Ret (a : A)
| Vis {X : Type} (e : ev X) (k : X -> prog A).
Arguments Ret {A} a.
Arguments Vis {A X} e k.

Fixpoint pbind {A B} (p : prog A) (f : A -> prog B) : prog B :=
  match p with
  | Ret a => f a
  | Vis e k => Vis e (fun x => pbind (k x) f)
  end.

(** ** Programs that return or raise *)

Abbreviation M A := (prog (res A)).

Definition ret {A} (a : A) : M A := Ret (Ok a).
Definition raise {A} (e : exn) : M A := Ret (Raise e).

Definition of_res {A} (r : res A) : M A := Ret r.

Definition bind {A B} (p : M A) (f : A -> M B) : M B :=
  pbind p (fun r => match r with Ok a => f a | Raise e => Ret (Raise e) end).

(** [try: p except Exception as e: h(e)] *)
Definition try_except {A} (p : M A) (h : exn -> M A) : M A :=
  pbind p (fun r => match r with Ok a => Ret (Ok a) | Raise e => h e end).

Notation "'let!' x := p 'in' q" := (bind p (fun x => q))
  (at level 10, x pattern, p at level 100, q at level 200) : morok_scope.

Definition now_ : M Z := Vis ETime (fun t => ret t).
Definition redis_ {A} (p : rtx A) : M A :=
  Vis (ERedis p) (fun r => match r with Some a => ret a | None => raise RedisError end).
(** One command, whatever it replies; an error reply raises. *)
Definition cmd_ (c : command) : M unit := redis_ (rcall c as_any).
Definition token_ : M string := Vis EToken (fun t => ret t).
Definition spawn (t : task) : M unit := Vis (ESpawn t) (fun _ => ret tt).
Definition sql {A} (f : database -> A * database) : M A := Vis (ESql f) (fun a => ret a).
Definition commit : M unit := Vis ECommit (fun _ => ret tt).
Definition rollback : M unit := Vis ERollback (fun _ => ret tt).

(** A coroutine whose result nobody waits for. *)
Definition detached {A} (p : prog A) : prog unit := pbind p (fun _ => Ret tt).

(** One command whose reply is kept as it is, error replies too; a Lua script as such. *)
Definition pipe_cmd (c : command) : rtx reply := RDo c (fun r => rret r).
Fixpoint pipe_script (p : rtx Z) : rtx reply :=
  match p with
  | RRet (Some n) => rret (RInt n)
  | RRet None => rret (RError "ERR")
  | RDo c k => RDo c (fun r => pipe_script (k r))
  end.

(** [pipeline(transaction=False)]: the exchanges happen one after the other, and those of other
    clients in between; a lost connection ends the loop; an error reply is raised when all the
    replies are in. *)
Fixpoint pipeline_loop (cs : list (rtx reply)) : M (list reply) :=
  match cs with
  | [] => ret []
  | c :: cs' =>
      let! r := redis_ c in
      let! rs := pipeline_loop cs' in
      ret (r :: rs)
  end.

Definition pipeline (cs : list (rtx reply)) : M (list reply) :=
  let! rs := pipeline_loop cs in
  if existsb is_error rs then raise RedisError else ret rs.

Lemma rrun_pipe_script now p v :
  rrun_doc now (pipe_script p) v =
  (Some (match fst (rrun_doc now p v) with Some n => RInt n | None => RError "ERR" end),
   snd (rrun_doc now p v)).
Proof.
  revert v. induction p as [[n|]|c k IH]; intros v; [done|done|].
  cbn. destruct (documented now c v). apply IH.
Qed.

(** ** The world *)

Inductive fault := Fine | LostRequest | LostReply.
#[export] Instance fault_eq_dec : EqDecision fault.
Proof. solve_decision. Defined.

(** What the network answers to the next question: to a name, and to a request. *)
Record answer := Answer { an_addresses : option (list string); an_response : option (Z * option json) }.
Definition no_network : nat -> answer := fun _ => Answer None None.

(** [S] is the state of the Redis server: an instance's state, or the view of it. *)
Record world (S : Type) := World {
  w_now : Z;
  w_redis : S;
  w_db : database;                          (* committed *)
  w_work : database;                        (* as the open session sees it *)
  w_blobs : gmap string file;
  w_tasks : list task;                      (* background tasks started, oldest first *)
  w_tokens : nat -> string;                 (* the random tokens to come *)
  w_faults : list fault;                    (* the failures to come; none after the last *)
  w_net : nat -> answer;                    (* what the network will answer *)
  w_sent : list request                     (* the requests made to other relays, oldest first *)
}.
Arguments World {S}.
Arguments w_now {S}. Arguments w_redis {S}. Arguments w_db {S}. Arguments w_work {S}.
Arguments w_blobs {S}. Arguments w_tasks {S}. Arguments w_tokens {S}. Arguments w_faults {S}.
Arguments w_net {S}. Arguments w_sent {S}.

Definition set_redis {S T} (s : T) (w : world S) : world T :=
  World (w_now w) s (w_db w) (w_work w) (w_blobs w) (w_tasks w) (w_tokens w) (w_faults w)
    (w_net w) (w_sent w).
Definition set_databases {S} (db work : database) (w : world S) : world S :=
  World (w_now w) (w_redis w) db work (w_blobs w) (w_tasks w) (w_tokens w) (w_faults w)
    (w_net w) (w_sent w).
Definition set_blobs {S} (b : gmap string file) (w : world S) : world S :=
  World (w_now w) (w_redis w) (w_db w) (w_work w) b (w_tasks w) (w_tokens w) (w_faults w)
    (w_net w) (w_sent w).
Definition set_tasks {S} (ts : list task) (w : world S) : world S :=
  World (w_now w) (w_redis w) (w_db w) (w_work w) (w_blobs w) ts (w_tokens w) (w_faults w)
    (w_net w) (w_sent w).
Definition set_tokens {S} (f : nat -> string) (w : world S) : world S :=
  World (w_now w) (w_redis w) (w_db w) (w_work w) (w_blobs w) (w_tasks w) f (w_faults w)
    (w_net w) (w_sent w).
Definition set_faults {S} (fs : list fault) (w : world S) : world S :=
  World (w_now w) (w_redis w) (w_db w) (w_work w) (w_blobs w) (w_tasks w) (w_tokens w) fs
    (w_net w) (w_sent w).
Definition set_now {S} (t : Z) (w : world S) : world S :=
  World t (w_redis w) (w_db w) (w_work w) (w_blobs w) (w_tasks w) (w_tokens w) (w_faults w)
    (w_net w) (w_sent w).
Definition set_net {S} (f : nat -> answer) (sent : list request) (w : world S) : world S :=
  World (w_now w) (w_redis w) (w_db w) (w_work w) (w_blobs w) (w_tasks w) (w_tokens w) (w_faults w) f sent.

Definition next_fault {S} (w : world S) : fault := match w_faults w with f :: _ => f | [] => Fine end.
Definition pop_fault {S} (w : world S) : world S := set_faults (tail (w_faults w)) w.

(** ** Execution, for any way [exec] of running an exchange on a server state *)

Section Exec.
  Context {S : Type} (exec : forall A, Z -> rtx A -> S -> option A * S).

Definition ev_exec {X} (e : ev X) (w : world S) : X * world S :=
  match e in ev X return X * world S with
  | ETime => (w_now w, w)
  | @ERedis A p =>
      let w1 := pop_fault w in
      match next_fault w with
      | Fine => let '(o, s) := exec A (w_now w) p (w_redis w) in (o, set_redis s w1)
      | LostRequest => (None, w1)
      | LostReply => (None, set_redis (snd (exec A (w_now w) p (w_redis w))) w1)
      end
  | EToken => (w_tokens w 0, set_tokens (fun n => w_tokens w (Datatypes.S n)) w)
  | EBlobWrite id b =>
      match next_fault w with
      | Fine => (true, set_blobs (<[id := File b (w_now w)]> (w_blobs w)) (pop_fault w))
      | _ => (false, pop_fault w)
      end
  | EBlobRead id => (f_bytes <$> w_blobs w !! id, w)
  | EBlobDelete id =>
      match w_blobs w !! id with
      | None => (Some false, w)
      | Some _ =>
          match next_fault w with
          | Fine => (Some true, set_blobs (delete id (w_blobs w)) (pop_fault w))
          | _ => (None, pop_fault w)
          end
      end
  | EBlobList => ((map_to_list (w_blobs w)).*1, w)
  | EBlobStat id => (f_mtime <$> w_blobs w !! id, w)
  | EResolve _ => (an_addresses (w_net w 0), set_net (fun n => w_net w (Datatypes.S n)) (w_sent w) w)
  | EHttp r => (an_response (w_net w 0), set_net (fun n => w_net w (Datatypes.S n)) (w_sent w ++ [r]) w)
  | ESql f => let '(a, d) := f (w_work w) in (a, set_databases (w_db w) d w)
  | ECommit => (tt, set_databases (w_work w) (w_work w) w)
  | ERollback => (tt, set_databases (w_db w) (w_db w) w)
  | ESpawn t => (tt, set_tasks (w_tasks w ++ [t]) w)
  end.

Fixpoint run_exec {A} (p : prog A) (w : world S) : A * world S :=
  match p with
  | Ret a => (a, w)
  | Vis e k => let '(x, w') := ev_exec e w in run_exec (k x) w'
  end.

Lemma run_exec_pbind {A B} (p : prog A) (f : A -> prog B) w :
  run_exec (pbind p f) w = (let '(a, w') := run_exec p w in run_exec (f a) w').
Proof.
  revert w. induction p as [a|X e k IH]; intros w; cbn [pbind run_exec]; [done|].
  destruct (ev_exec e w) as [x w']. apply IH.
Qed.
End Exec.

(** On the view. *)
Definition doc_exec (A : Type) (now : Z) (p : rtx A) (v : rview) : option A * rview := rrun_doc now p v.
Abbreviation vworld := (world rview).
Definition ev_doc {X} (e : ev X) (w : vworld) : X * vworld := ev_exec doc_exec e w.
Definition run_doc {A} (p : prog A) (w : vworld) : A * vworld := run_exec doc_exec p w.

Section Run.
  Context `{R : Redis}.

Definition srv_exec (A : Type) (now : Z) (p : rtx A) (s : rstore) : option A * rstore := rrun now p s.

(** On a server. *)
Definition ev_run {X} (e : ev X) (w : world rstore) : X * world rstore := ev_exec srv_exec e w.
Definition run {A} (p : prog A) (w : world rstore) : A * world rstore := run_exec srv_exec p w.

(** Time passes and nothing else happens. *)
Definition later (t : Z) (w : vworld) : vworld := set_redis (expire t (w_redis w)) (set_now t w).

(** What can be observed of a world. *)
Definition absw (w : world rstore) : vworld := set_redis (rview_at (w_now w) (w_redis w)) w.

(** The result of a run and what can be observed after it. *)
Definition observe {A} (p : prog A) (w : world rstore) : A * vworld :=
  let '(a, w') := run p w in (a, absw w').

Lemma absw_later t w : (w_now w <= t)%Z -> absw (set_now t w) = later t (absw w).
Proof. intros Ht. unfold absw, later, set_redis, set_now. cbn. by rewrite (rview_later (w_now w)). Qed.

Lemma ev_view {X} (e : ev X) w :
  (fst (ev_run e w), absw (snd (ev_run e w))) = ev_doc e (absw w).
Proof.
  unfold ev_run, ev_doc. destruct e; try (cbn; done).
  - (* ERedis *)
    pose proof (rrun_view (w_now w) p (w_redis w)) as Hv.
    unfold ev_exec, next_fault, pop_fault, absw, srv_exec, doc_exec in *. cbn.
    rewrite <- Hv. destruct (rrun (w_now w) p (w_redis w)) as [o s].
    destruct (w_faults w) as [|[] ?]; reflexivity.
  - cbn. unfold next_fault. cbn. destruct (w_faults w) as [|[] ?]; done.
  - cbn. unfold next_fault. cbn. destruct (w_blobs w !! id); [|done].
    destruct (w_faults w) as [|[] ?]; done.
  - cbn. by destruct (f (w_work w)).
Qed.

(** A run on any server is, as far as anyone can observe, the run on the view. *)
Lemma observe_doc {A} (p : prog A) w : observe p w = run_doc p (absw w).
Proof.
  unfold observe, run, run_doc. revert w.
  induction p as [a|X e k IH]; intros w; cbn [run_exec]; [done|].
  pose proof (ev_view e w) as Hv. unfold ev_run, ev_doc in Hv.
  destruct (ev_exec srv_exec e w) as [x w']. cbn in Hv. rewrite <- Hv. apply IH.
Qed.

Lemma run_absw {A} (p : prog A) w a w' : run p w = (a, w') -> run_doc p (absw w) = (a, absw w').
Proof. intros H. rewrite <- observe_doc. unfold observe. by rewrite H. Qed.

Lemma snd_run_absw {A} (p : prog A) w : absw (snd (run p w)) = snd (run_doc p (absw w)).
Proof. rewrite <- observe_doc. unfold observe. by destruct (run p w). Qed.

Lemma fst_run {A} (p : prog A) w : fst (run p w) = fst (run_doc p (absw w)).
Proof. rewrite <- observe_doc. unfold observe. by destruct (run p w). Qed.
End Run.

(** ** Interleaving *)

Section Interleaving.
  Context `{R : Redis}.

(** Running coroutines; each returns something nobody waits for. *)
Abbreviation pool := (list (prog unit)).

(** [cstep starts luck]: an event of one coroutine; a new coroutine, one of those [starts] allows;
    time passing; the failures to come being others that [luck] allows, and the tokens and the
    network any. *)
Inductive cstep (starts : prog unit -> Prop) (luck : list fault -> Prop)
  : pool * world rstore -> pool * world rstore -> Prop :=
| step_event i X (e : ev X) k ps w :
    ps !! i = Some (Vis e k) ->
    cstep starts luck (ps, w) (<[i := k (fst (ev_run e w))]> ps, snd (ev_run e w))
| step_start p ps w :
    starts p -> cstep starts luck (ps, w) (ps ++ [p], w)
| step_time t ps w :
    (w_now w <= t)%Z -> cstep starts luck (ps, w) (ps, set_now t w)
| step_luck fs tok net ps w :
    luck fs -> cstep starts luck (ps, w) (ps, set_faults fs (set_tokens tok (set_net net (w_sent w) w))).

(** A coroutine may run to its end without interruption. *)
Lemma cstep_run starts luck ps i (p : prog unit) w :
  ps !! i = Some p -> rtc (cstep starts luck) (ps, w) (<[i := Ret tt]> ps, snd (run p w)).
Proof.
  revert ps w. induction p as [[]|X e k IH]; intros ps w Hi.
  - rewrite list_insert_id by done. apply rtc_refl.
  - eapply rtc_l; [by apply (step_event starts luck i X e k)|].
    assert (Hk : <[i := k (fst (ev_run e w))]> ps !! i = Some (k (fst (ev_run e w)))).
    { apply list_lookup_insert_eq. by apply lookup_lt_Some in Hi. }
    specialize (IH _ _ (snd (ev_run e w)) Hk). rewrite list_insert_insert_eq in IH.
    unfold run in *. cbn [run_exec]. unfold ev_run in *. by destruct (ev_exec srv_exec e w).
Qed.

(** Started in any world where [I] holds, each event of the program keeps [I], and the program
    returns a value in [Q].  Between two events other coroutines may have run, so [I] is all that
    is known when an event starts. *)
Fixpoint keeps {A} (I : vworld -> Prop) (p : prog A) (Q : A -> Prop) : Prop :=
  match p with
  | Ret a => Q a
  | Vis e k => forall v, I v -> I (snd (ev_doc e v)) /\ keeps I (k (fst (ev_doc e v))) Q
  end.

(** Time passing, failures and tokens do not break [I]. *)
Record stable (luck : list fault -> Prop) (I : vworld -> Prop) : Prop := {
  stable_time v t : (w_now v <= t)%Z -> I v -> I (set_redis (expire t (w_redis v)) (set_now t v));
  stable_luck v fs tok net : luck fs -> I v -> I (set_faults fs (set_tokens tok (set_net net (w_sent v) v)))
}.

Lemma keeps_reachable starts luck (I : vworld -> Prop) c c' :
  stable luck I -> (forall p, starts p -> keeps I p (fun _ => True)) ->
  rtc (cstep starts luck) c c' ->
  I (absw c.2) -> Forall (fun p => keeps I p (fun _ => True)) c.1 ->
  I (absw c'.2) /\ Forall (fun p => keeps I p (fun _ => True)) c'.1.
Proof.
  intros Hst Hstart Hrtc. induction Hrtc as [c|c1 c2 c3 Hstep _ IH]; [done|].
  intros HI Hall. apply IH; clear IH;
    destruct Hstep as [i X e k ps w Hi|p ps w Hp|t ps w Ht|fs tok net ps w Hfs]; cbn [fst snd] in *;
    try done.
  - rewrite Forall_lookup in Hall. specialize (Hall _ _ Hi). cbn in Hall.
    pose proof (f_equal snd (ev_view e w)) as Hv. cbn [snd] in Hv. rewrite Hv. by apply Hall.
  - pose proof (stable_time luck I Hst (absw w) t Ht HI) as H.
    unfold absw in *. cbn in *. by rewrite (rview_later (w_now w)).
  - exact (stable_luck luck I Hst (absw w) fs tok net Hfs HI).
  - rewrite Forall_lookup in Hall. pose proof (Hall _ _ Hi) as Hk. cbn in Hk.
    pose proof (f_equal fst (ev_view e w)) as Hv. cbn [fst] in Hv. rewrite Hv.
    apply Forall_insert; [by apply Forall_lookup|by apply Hk].
  - apply Forall_app; auto.
Qed.
End Interleaving.

Lemma keeps_weaken {A} I (p : prog A) (Q Q' : A -> Prop) :
  keeps I p Q -> (forall a, Q a -> Q' a) -> keeps I p Q'.
Proof.
  intros Hp HQ. induction p as [a|X e k IH]; cbn in *; [auto|].
  intros v Hv. destruct (Hp v Hv). auto.
Qed.

Lemma keeps_pbind {A B} I (p : prog A) (f : A -> prog B) Q Q' :
  keeps I p Q -> (forall a, Q a -> keeps I (f a) Q') -> keeps I (pbind p f) Q'.
Proof.
  intros Hp Hf. induction p as [a|X e k IH]; cbn in *; [auto|].
  intros v Hv. destruct (Hp v Hv). auto.
Qed.

(** The postcondition of a value, anything of an exception. *)
Definition value_is {A} (Q : A -> Prop) (r : res A) : Prop := match r with Ok a => Q a | Raise _ => True end.

Lemma keeps_bind {A B} I (p : M A) (f : A -> M B) Q Q' :
  keeps I p (value_is Q) -> (forall a, Q a -> keeps I (f a) (value_is Q')) ->
  keeps I (bind p f) (value_is Q').
Proof. intros Hp Hf. eapply keeps_pbind; [exact Hp|]. intros [a|e]; [apply Hf|done]. Qed.

(** With a postcondition on the result, exceptions included. *)
Lemma keeps_bind_res {A B} I (p : M A) (f : A -> M B) Q Q' :
  keeps I p Q ->
  (forall r, Q r -> keeps I (match r with Ok a => f a | Raise e => Ret (Raise e) end) Q') ->
  keeps I (bind p f) Q'.
Proof. apply keeps_pbind. Qed.

Lemma keeps_try_res {A} I (p : M A) h Q Q' :
  keeps I p Q ->
  (forall r, Q r -> keeps I (match r with Ok a => Ret (Ok a) | Raise e => h e end) Q') ->
  keeps I (try_except p h) Q'.
Proof. apply keeps_pbind. Qed.

Lemma keeps_try {A} I (p : M A) h Q :
  keeps I p (value_is Q) -> (forall e, keeps I (h e) (value_is Q)) -> keeps I (try_except p h) (value_is Q).
Proof. intros Hp Hf. eapply keeps_pbind; [exact Hp|]. intros [a|e]; [done|]. intros _. apply Hf. Qed.

Lemma keeps_any {A} I (p : M A) Q : keeps I p (value_is Q) -> keeps I p (fun _ => True).
Proof. intros H. by eapply keeps_weaken. Qed.

(** ** Invariants of the server's keys

    For an invariant that speaks of the Redis view alone it is enough that every exchange of a
    program keeps it, whatever the program has read before. *)

Section RedisInvariant.
  Context (J : rview -> Prop).

Definition rkeeps {A} (p : rprog A) : Prop := forall now v, J v -> J (snd (rrun_doc now p v)).
Definition ckeeps (c : command) : Prop := forall now v, J v -> J (snd (documented now c v)).

Lemma rkeeps_ret {A} (a : A) : rkeeps (RRet a).
Proof. by intros now v. Qed.

Lemma rkeeps_do {A} c (k : reply -> rprog A) :
  ckeeps c -> (forall r, rkeeps (k r)) -> rkeeps (RDo c k).
Proof.
  intros Hc Hk now v Hv. cbn. specialize (Hc now v Hv).
  destruct (documented now c v) as [r v']. by apply Hk.
Qed.

Lemma rkeeps_rcall {A} c (dec : reply -> option A) : ckeeps c -> rkeeps (rcall c dec).
Proof. intros Hc. apply rkeeps_do; [done|]. intros r. apply rkeeps_ret. Qed.

Lemma rkeeps_rbind {A B} (p : rtx A) (f : A -> rtx B) :
  rkeeps p -> (forall a, rkeeps (f a)) -> rkeeps (rbind p f).
Proof.
  intros Hp Hf now v Hv. rewrite rrun_rbind. specialize (Hp now v Hv).
  destruct (rrun_doc now p v) as [[a|] v']; [by apply Hf|done].
Qed.

Lemma rkeeps_rmulti cs : Forall ckeeps cs -> rkeeps (rmulti cs).
Proof.
  intros Hcs now v Hv. rewrite rrun_rmulti. cbn [snd]. revert v Hv.
  induction Hcs as [|c cs Hc Hcs IH]; intros v Hv; cbn; [done|].
  specialize (Hc now v Hv). destruct (documented now c v) as [r v1]. specialize (IH v1 Hc).
  by destruct (multi_doc now cs v1).
Qed.

Lemma rkeeps_pipe_script p : rkeeps p -> rkeeps (pipe_script p).
Proof. intros Hp now v Hv. rewrite rrun_pipe_script. by apply Hp. Qed.

(** Every exchange of the program keeps [J]. *)
Fixpoint exchanges_keep {A} (p : prog A) : Prop :=
  match p with
  | Ret _ => True
  | Vis e k =>
      match e with ERedis q => rkeeps q | _ => True end /\ forall x, exchanges_keep (k x)
  end.

Lemma exchanges_pbind {A B} (p : prog A) (f : A -> prog B) :
  exchanges_keep p -> (forall a, exchanges_keep (f a)) -> exchanges_keep (pbind p f).
Proof.
  intros Hp Hf. induction p as [a|X e k IH]; cbn in *; [auto|]. destruct Hp as [He Hk]. auto.
Qed.

Lemma exchanges_bind {A B} (p : M A) (f : A -> M B) :
  exchanges_keep p -> (forall a, exchanges_keep (f a)) -> exchanges_keep (bind p f).
Proof. intros Hp Hf. apply exchanges_pbind; [done|]. intros [a|e]; [apply Hf|done]. Qed.

Lemma exchanges_try {A} (p : M A) h :
  exchanges_keep p -> (forall e, exchanges_keep (h e)) -> exchanges_keep (try_except p h).
Proof. intros Hp Hf. apply exchanges_pbind; [done|]. intros [a|e]; [done|apply Hf]. Qed.

Lemma exchanges_redis {A} (p : rtx A) : rkeeps p -> exchanges_keep (redis_ p).
Proof. intros Hp. split; [done|]. by intros [a|]. Qed.

Lemma exchanges_pipeline cs : Forall rkeeps cs -> exchanges_keep (pipeline cs).
Proof.
  intros Hcs. apply exchanges_bind; [|intros rs; by case_match].
  induction Hcs as [|c cs Hc Hcs IH]; [done|]. cbn [pipeline_loop].
  apply exchanges_bind; [by apply exchanges_redis|]. intros r.
  apply exchanges_bind; [done|]. done.
Qed.

(** Commands that a criterion allows keep the invariant. *)
Class Harmless (allowed : command -> Prop) : Prop := harmless : forall c, allowed c -> ckeeps c.

Section Allowed.
  Context `{Hh : Harmless allowed}.

Lemma exchanges_call {A} c (dec : reply -> option A) : allowed c -> exchanges_keep (redis_ (rcall c dec)).
Proof. intros Hc. by apply exchanges_redis, rkeeps_rcall, Hh. Qed.

Lemma exchanges_multi cs : Forall allowed cs -> exchanges_keep (redis_ (rmulti cs)).
Proof.
  intros Hc. apply exchanges_redis, rkeeps_rmulti. eapply Forall_impl; [done|]. intros c. apply Hh.
Qed.

Lemma rkeeps_cmd c : allowed c -> rkeeps (pipe_cmd c).
Proof. intros Hc. apply rkeeps_do; [by apply Hh|]. intros r. apply rkeeps_ret. Qed.
End Allowed.

(** The invariant on worlds: [J] of the view, and only failures that [luck] allows to come. *)
Definition redis_inv (luck : list fault -> Prop) (w : vworld) : Prop :=
  J (w_redis w) /\ luck (w_faults w).

Definition drops (luck : list fault -> Prop) : Prop := forall fs, luck fs -> luck (tail fs).

Lemma exchanges_keeps {A} luck (p : prog A) :
  drops luck -> exchanges_keep p -> keeps (redis_inv luck) p (fun _ => True).
Proof.
  intros Hd. induction p as [a|X e k IH]; [done|]. intros [He Hk] v [HJ Hl].
  split; [|by apply IH]. unfold redis_inv, ev_doc, doc_exec, ev_exec.
  destruct e; cbn; auto.
  - specialize (He (w_now v) (w_redis v) HJ).
    destruct (rrun_doc (w_now v) p (w_redis v)) as [o s]. case_match; cbn; auto.
  - case_match; cbn; auto.
  - case_match; [|done]. case_match; cbn; auto.
  - by case_match.
Qed.

Lemma exchanges_run {A} (p : prog A) (w : vworld) :
  exchanges_keep p -> J (w_redis w) -> J (w_redis (snd (run_doc p w))).
Proof.
  unfold run_doc. revert w. induction p as [a|X e k IH]; intros w; [done|]. intros [He Hk] HJ. cbn [run_exec].
  assert (Hev : J (w_redis (snd (ev_exec doc_exec e w)))).
  { unfold doc_exec, ev_exec. destruct e; cbn; auto.
    - specialize (He (w_now w) (w_redis w) HJ).
      destruct (rrun_doc (w_now w) p (w_redis w)) as [o s]. by case_match.
    - by case_match.
    - case_match; [|done]. by case_match.
    - by case_match. }
  destruct (ev_exec doc_exec e w) as [x w']. by apply IH.
Qed.

Lemma redis_inv_stable luck :
  (forall now v, J v -> J (expire now v)) -> stable luck (redis_inv luck).
Proof. intros He. split; unfold redis_inv; cbn; naive_solver. Qed.
End RedisInvariant.

(** Closes [exchanges_keep J p] for programs made of commands that [tac] shows to be allowed. *)
Ltac exchanges_step tac :=
  match goal with
  | |- forall _, _ => intros ?
  | |- exchanges_keep _ (bind _ _) => apply exchanges_bind
  | |- exchanges_keep _ (try_except _ _) => apply exchanges_try
  | |- exchanges_keep _ (pbind _ _) => apply exchanges_pbind
  | |- exchanges_keep _ (redis_ (rcall _ _)) => eapply exchanges_call; [typeclasses eauto|tac]
  | |- exchanges_keep _ (redis_ (lua_call _)) => eapply exchanges_call; [typeclasses eauto|tac]
  | |- exchanges_keep _ (redis_ (rmulti _)) => eapply exchanges_multi; [typeclasses eauto|]
  | |- exchanges_keep _ (pipeline _) => apply exchanges_pipeline
  | |- exchanges_keep _ (match ?x with _ => _ end) => destruct x
  | |- exchanges_keep _ (Vis _ _) => split; [done|]
  | |- rkeeps _ (match ?x with _ => _ end) => destruct x
  | |- exchanges_keep _ _ => done
  | |- Forall _ (_ :: _) => constructor
  | |- Forall _ [] => constructor
  | |- Forall _ (_ ++ _) => apply Forall_app; split
  | |- Forall _ (map _ _) => apply Forall_map, Forall_true
  | |- Forall _ (flat_map _ _) => apply Forall_flat_map, Forall_true
  | |- Forall _ (if ?b then _ else _) => destruct b
  | |- Forall (rkeeps _) _ => fail 1
  | |- rkeeps _ (pipe_cmd _) => eapply rkeeps_cmd; [typeclasses eauto|]
  | |- _ /\ _ => split
  | |- _ => tac
  end.
Ltac exchanges tac := repeat exchanges_step tac.

(** Without failures a pipeline of exchanges that never fail, given [J], returns. *)
Section Surely.
  Context (J : rview -> Prop) (luck : list fault -> Prop).
  Context (Hcalm : forall fs, luck fs -> fs = []).

Definition surely (p : rtx reply) : Prop :=
  forall now v, J v -> exists r, fst (rrun_doc now p v) = Some r /\ is_error r = false.

Lemma keeps_redis_surely p :
  rkeeps J p -> surely p ->
  keeps (redis_inv J luck) (redis_ p) (fun r => exists a, r = Ok a /\ is_error a = false).
Proof.
  intros Hp Hs w [HJ Hl]. pose proof (Hcalm _ Hl) as Hf. unfold ev_doc, ev_exec, next_fault, pop_fault, doc_exec.
  rewrite Hf. destruct (Hs (w_now w) (w_redis w) HJ) as (r & Hr & He).
  specialize (Hp (w_now w) (w_redis w) HJ).
  destruct (rrun_doc (w_now w) p (w_redis w)) as [o v'] eqn:Eq. cbn in Hr. subst o. split; cbn.
  - split; [done|]. cbn. by rewrite Hf in Hl.
  - eauto.
Qed.

Lemma keeps_pipeline_surely cs :
  Forall (rkeeps J) cs -> Forall surely cs ->
  keeps (redis_inv J luck) (pipeline cs) (fun r => exists rs, r = Ok rs).
Proof.
  intros Hk Hs.
  assert (keeps (redis_inv J luck) (pipeline_loop cs)
            (fun r => exists rs, r = Ok rs /\ existsb is_error rs = false)) as Hl.
  { induction cs as [|c cs IH]; [by exists []|].
    apply Forall_cons in Hk as [Hk1 Hk]. apply Forall_cons in Hs as [Hs1 Hs].
    change (pipeline_loop (c :: cs)) with
      (bind (redis_ c) (fun r => bind (pipeline_loop cs) (fun rs => ret (r :: rs)))).
    eapply keeps_bind_res; [by apply keeps_redis_surely|]. intros ? (r & -> & Hr).
    eapply keeps_bind_res; [by apply IH|]. intros ? (rs & -> & Hrs).
    exists (r :: rs). split; [done|]. cbn. by rewrite Hr, Hrs. }
  eapply keeps_bind_res; [exact Hl|]. intros ? (rs & -> & Hrs). rewrite Hrs. by exists rs.
Qed.
End Surely.

(** ** Symbolic execution on the view *)

(** No failure is to come. *)
Definition calm {S} (w : world S) : Prop := w_faults w = [].

(** The result of an exchange, as the caller sees it. *)
Definition res_of {A} (o : option A) : res A := match o with Some a => Ok a | None => Raise RedisError end.

Lemma run_doc_bind {A B} (p : M A) (f : A -> M B) w :
  run_doc (bind p f) w =
  (let '(r, w') := run_doc p w in
   match r with Ok a => run_doc (f a) w' | Raise e => (Raise e, w') end).
Proof.
  unfold run_doc, bind. rewrite run_exec_pbind.
  destruct (run_exec doc_exec p w) as [[a|e] w']; done.
Qed.

Lemma run_doc_try {A} (p : M A) h w :
  run_doc (try_except p h) w =
  (let '(r, w') := run_doc p w in
   match r with Ok a => (Ok a, w') | Raise e => run_doc (h e) w' end).
Proof.
  unfold run_doc, try_except. rewrite run_exec_pbind.
  destruct (run_exec doc_exec p w) as [[a|e] w']; done.
Qed.

Lemma run_doc_ret {A} (a : A) w : run_doc (ret a) w = (Ok a, w).
Proof. done. Qed.
Lemma run_doc_raise {A} (e : exn) w : run_doc (raise (A := A) e) w = (Raise e, w).
Proof. done. Qed.
Lemma run_doc_now w : run_doc now_ w = (Ok (w_now w), w).
Proof. done. Qed.
Lemma run_doc_token w :
  run_doc token_ w = (Ok (w_tokens w 0), set_tokens (fun n => w_tokens w (S n)) w).
Proof. done. Qed.
Lemma run_doc_spawn t w : run_doc (spawn t) w = (Ok tt, set_tasks (w_tasks w ++ [t]) w).
Proof. done. Qed.

Lemma calm_pop (w : vworld) : calm w -> next_fault w = Fine /\ pop_fault w = w.
Proof. unfold calm, next_fault, pop_fault, set_faults. destruct w; cbn. by intros ->. Qed.

Lemma run_doc_redis_fine {A} (p : rtx A) w :
  next_fault w = Fine ->
  run_doc (redis_ p) w =
  (res_of (fst (rrun_doc (w_now w) p (w_redis w))),
   set_redis (snd (rrun_doc (w_now w) p (w_redis w))) (pop_fault w)).
Proof.
  intros Hn. unfold run_doc, redis_. cbn [run_exec ev_exec]. rewrite Hn. unfold doc_exec.
  destruct (rrun_doc (w_now w) p (w_redis w)) as [[a|] v]; done.
Qed.

(** Whatever happens: the server executed the exchange or not, and a value is its value. *)
Lemma run_doc_redis_any {A} (p : rtx A) w :
  let x := rrun_doc (w_now w) p (w_redis w) in
  exists r v', run_doc (redis_ p) w = (r, set_redis v' (pop_fault w)) /\ (v' = w_redis w \/ v' = snd x) /\
    forall a, r = Ok a -> fst x = Some a /\ v' = snd x.
Proof.
  unfold run_doc, redis_. cbn [run_exec ev_exec]. unfold doc_exec.
  destruct (next_fault w); [destruct (rrun_doc (w_now w) p (w_redis w)) as [[a|] v]|..]; cbn;
    do 2 eexists; (split; [try done|]); try (split; [by right|]; by intros a' [= <-]); try (split; [by right|]; done).
  split; [by left|]. done.
Qed.

Lemma run_doc_redis {A} (p : rtx A) w :
  calm w ->
  run_doc (redis_ p) w =
  (res_of (fst (rrun_doc (w_now w) p (w_redis w))),
   set_redis (snd (rrun_doc (w_now w) p (w_redis w))) w).
Proof.
  intros Hw. destruct (calm_pop w Hw) as [Hn Hp]. by rewrite run_doc_redis_fine, Hp.
Qed.

Lemma run_cmd c r v' w :
  calm w -> documented (w_now w) c (w_redis w) = (r, v') -> is_error r = false ->
  run_doc (cmd_ c) w = (Ok tt, set_redis v' w).
Proof.
  intros Hw Hc Hr. unfold cmd_. rewrite run_doc_redis, rrun_rcall, Hc by done. cbn [fst snd]. by destruct r.
Qed.

Lemma run_expire k secs w :
  calm w -> (0 < secs)%Z ->
  run_doc (cmd_ (EXPIRE k secs)) w = (Ok tt, set_redis (touch k (w_now w + secs) (w_redis w)) w).
Proof.
  intros Hw Hs. destruct (doc_touch (w_now w) k secs (w_redis w) Hs) as [n Hn].
  by eapply run_cmd.
Qed.

Lemma run_del k w :
  calm w -> run_doc (cmd_ (DEL [k])) w = (Ok tt, set_redis (del k (w_redis w)) w).
Proof.
  intros Hw. destruct (documented_del1 (w_now w) k (w_redis w)) as [n Hn]. by eapply run_cmd.
Qed.

Lemma run_srem k ms x w :
  calm w -> set_at k (w_redis w) = Some x ->
  run_doc (cmd_ (SREM k ms)) w = (Ok tt, set_redis (put_set k (x ∖ list_to_set ms) (w_redis w)) w).
Proof. intros Hw Hx. eapply run_cmd; [done|by apply doc_srem|done]. Qed.

Lemma run_set_ex k s ex w :
  calm w -> (0 < ex)%Z ->
  run_doc (cmd_ (set_ex k s ex)) w =
  (Ok tt, set_redis (put k (Entry (VStr s) (Some (w_now w + ex)%Z)) (w_redis w)) w).
Proof. intros Hw Hx. eapply run_cmd; [done|by apply doc_set_ex|done]. Qed.

Lemma run_sadd k ms x w :
  calm w -> ms <> [] -> set_at k (w_redis w) = Some x ->
  run_doc (cmd_ (SADD k ms)) w =
  (Ok tt, set_redis (put k (Entry (VSet (x ∪ list_to_set ms)) (deadline_of k (w_redis w))) (w_redis w)) w).
Proof. intros Hw Hm Hx. eapply run_cmd; [done|by apply doc_sadd|done]. Qed.

(** Reading a text. *)
Lemma run_get k o w :
  calm w -> str_at k (w_redis w) = Some o ->
  run_doc (redis_ (rcall (GET k) as_bulk)) w = (Ok o, w).
Proof.
  intros Hw Ho. rewrite run_doc_redis, rrun_rcall by done. cbn [documented]. rewrite Ho.
  destruct o; by destruct w.
Qed.

Lemma run_multi cs rs v' w :
  calm w -> multi_ok (w_now w) cs (w_redis w) rs v' ->
  run_doc (redis_ (rmulti cs)) w = (Ok rs, set_redis v' w).
Proof. intros Hw Hm. rewrite run_doc_redis, (rrun_multi_ok _ _ _ _ _ Hm) by done. done. Qed.

(** Without failures a pipeline runs its exchanges in order. *)
Fixpoint pipe_ok (now : Z) (cs : list (rtx reply)) (v : rview) (rs : list reply) (v' : rview) : Prop :=
  match cs, rs with
  | [], [] => v = v'
  | c :: cs', r :: rs' =>
      is_error r = false /\ exists v1, rrun_doc now c v = (Some r, v1) /\ pipe_ok now cs' v1 rs' v'
  | _, _ => False
  end.

Lemma run_pipeline cs rs v' w :
  calm w -> pipe_ok (w_now w) cs (w_redis w) rs v' ->
  run_doc (pipeline cs) w = (Ok rs, set_redis v' w).
Proof.
  intros Hc Hok.
  assert (run_doc (pipeline_loop cs) w = (Ok rs, set_redis v' w) /\ existsb is_error rs = false)
    as [Hl He].
  { revert rs w Hc Hok. induction cs as [|c cs IH]; intros [|r rs] w Hc Hok; try done.
    - cbn in Hok. subst. by destruct w.
    - destruct Hok as (Hr & v1 & H1 & Hok).
      change (pipeline_loop (c :: cs)) with
        (bind (redis_ c) (fun r => bind (pipeline_loop cs) (fun rs => ret (r :: rs)))).
      rewrite run_doc_bind, run_doc_redis, H1 by done. cbn [fst snd res_of].
      destruct (IH rs (set_redis v1 w)) as [H2 He]; [done|done|].
      rewrite run_doc_bind, H2. cbn [existsb]. by rewrite Hr, He. }
  unfold pipeline. rewrite run_doc_bind, Hl, He. done.
Qed.

(** An exchange that the next failure strikes raises; the server may or may not have executed it. *)
Lemma run_doc_redis_fault {A} (p : rtx A) w f fs :
  w_faults w = f :: fs -> f <> Fine ->
  run_doc (redis_ p) w =
  (Raise RedisError,
   set_faults fs (set_redis (if decide (f = LostReply)
                             then snd (rrun_doc (w_now w) p (w_redis w)) else w_redis w) w)).
Proof.
  intros Hf Hne. unfold run_doc, redis_, doc_exec. cbn [run_exec ev_exec].
  unfold next_fault, pop_fault. rewrite Hf. by destruct f, w; cbn in *.
Qed.

Create Rewrite HintDb morok_run.
#[export] Hint Rewrite @run_doc_bind @run_doc_try @run_doc_ret @run_doc_raise run_doc_now
  run_doc_spawn : morok_run.
