(* ===== verification/Crypto.v ===== *)
(** * Cryptographic checks (crypto.py, sensitive_action.py): definitions

    The primitives are PyNaCl's and hashlib's: arguments of the definitions ([Nacl], [Sha256]).
    What is modelled is everything around them: the canonical bytes that are signed, the length and
    freshness checks, and the order in which they refuse. *)

From Stdlib Require Import Ascii String.
From stdpp Require Import prelude gmap strings list sorting.
From S2P Require Import Prelude Json Codec RedisStore Models Effects.

#[local] Open Scope morok_scope.

(** [hashlib.sha256(x).digest()]: an argument of the definitions that use it. *)
Class Sha256 := sha256 : string -> string.
Definition sha256_hex `{Sha256} (x : string) : string := hex_of_bytes (sha256 x).

(** PyNaCl: [VerifyKey(pk).verify(msg, sig)], [SigningKey(seed).sign(msg).signature],
    [SigningKey(seed).verify_key], [crypto_sign_ed25519_pk_to_curve25519]. *)
Class Nacl := {
  nacl_verify : string -> string -> string -> bool;
  nacl_sign : string -> string -> string;
  nacl_public : string -> string;
  nacl_to_curve25519 : string -> res string
}.

(** ** Canonical serialization *)

Definition canonical_json (obj : json) : string := print compact_style (sort_keys obj).

(** ** Ed25519 *)

Section Ed25519.
  Context `{Nacl}.

Record Ed25519Keypair := mkKeypair { public_key : string; private_key : string }.

Definition from_seed (seed : string) : res Ed25519Keypair :=
  if negb (string_len seed =? 32)%Z then Raise (ValueError "Ed25519 seed must be 32 bytes")
  else Ok (mkKeypair (nacl_public seed) seed).

Definition ed25519_sign (message private_key : string) : res string :=
  if negb (string_len private_key =? 32)%Z
  then Raise (ValueError "Ed25519 private key must be 32 bytes")
  else Ok (nacl_sign private_key message).

Definition ed25519_verify (message signature public_key : string) : bool :=
  if String.eqb signature "" || String.eqb public_key "" then false
  else if negb (string_len signature =? 64)%Z || negb (string_len public_key =? 32)%Z then false
  else nacl_verify public_key message signature.

Definition x25519_pubkey_from_ed25519 (ed_pubkey : string) : res string :=
  if negb (string_len ed_pubkey =? 32)%Z then Raise (ValueError "Ed25519 pubkey must be 32 bytes")
  else nacl_to_curve25519 ed_pubkey.

(** ** Challenge and response *)

Definition CHALLENGE_BYTES : Z := 32.
Definition CHALLENGE_TTL_SECONDS : Z := 60.

Definition auth_payload (challenge_hex pubkey_hex : string) (timestamp : Z) : json :=
  JObj [("morok_auth", JStr "v1"); ("challenge", JStr challenge_hex);
        ("pubkey", JStr pubkey_hex); ("timestamp", JNum timestamp)].

Definition build_auth_message (challenge pubkey : string) (timestamp : Z) : res string :=
  if negb (string_len challenge =? CHALLENGE_BYTES)%Z then Raise (ValueError "Challenge must be 32 bytes")
  else if negb (string_len pubkey =? 32)%Z then Raise (ValueError "Pubkey must be 32 bytes")
  else Ok (canonical_json (auth_payload (hex_of_bytes challenge) (hex_of_bytes pubkey) timestamp)).

Definition verify_auth_response (challenge pubkey : string) (timestamp : Z) (signature : string)
    (max_age_seconds now : Z) : res bool :=
  if (max_age_seconds <? Z.abs (now - timestamp))%Z then Ok false
  else match build_auth_message challenge pubkey timestamp with
       | Raise e => Raise e
       | Ok message => Ok (ed25519_verify message signature pubkey)
       end.

(** ** Envelopes *)

Record MessageEnvelope := mkEnvelope {
  sender_pubkey : string;
  recipient_pubkey : string;
  timestamp : Z;
  ttl_seconds : Z;
  blob : string
}.

(** [n.to_bytes(8, "big")]; [None] is an [OverflowError]. *)
Fixpoint be_bytes (len : nat) (n : Z) : string :=
  match len with
  | O => ""
  | S len' => be_bytes len' (n / 256) +:+ String (ascii_of_N (Z.to_N (n mod 256))) ""
  end.
Definition to_bytes_8 (n : Z) : option string :=
  if (0 <=? n)%Z && (n <? 2 ^ 64)%Z then Some (be_bytes 8 n) else None.

Definition envelope_id `{Sha256} (e : MessageEnvelope) : option string :=
  ts ← to_bytes_8 (timestamp e);
  Some (sha256_hex (sender_pubkey e +:+ recipient_pubkey e +:+ ts +:+ sha256 (blob e))).

(** [bytes.fromhex(v)], [int(v)] and [base64.b64decode(v, validate=True)] of a JSON value. *)
Definition fromhex_of (j : json) : option string :=
  match j with JStr s => bytes_fromhex s | _ => None end.
Definition int_of (j : json) : option Z :=
  match j with
  | JNum n => Some n
  | JBool b => Some (if b then 1%Z else 0%Z)
  | JStr s => py_int s
  | _ => None
  end.
Definition b64_of (j : json) : option string :=
  match j with JStr s => b64decode s | _ => None end.

Inductive envelope_error :=
| EMissing (fields : list string)
| EMalformed
| EReason (reason : string).

Definition required_fields : list string := ["from"; "to"; "ts"; "ttl"; "blob"; "sig"].
Definition SIGNED_FIELDS : list string := ["from"; "to"; "ts"; "ttl"; "blob"].

(** [sorted(required - envelope.keys())] *)
Definition missing_fields (envelope : dict) : list string :=
  merge_sort String.le (filter (fun k => dict_mem k envelope = false) required_fields).

(** [{k: envelope[k] for k in SIGNED_FIELDS if k in envelope}] *)
Definition unsigned_of (envelope : dict) : dict :=
  omap (fun k => (fun v => (k, v)) <$> dict_get k envelope) SIGNED_FIELDS.

(** The six fields, decoded. *)
Record decoded := Decoded {
  d_sender : string; d_recipient : string; d_ts : Z; d_ttl : Z; d_blob : string; d_sig : string
}.

Definition decode_envelope (envelope : dict) : option decoded :=
  sender ← dict_get "from" envelope ≫= fromhex_of;
  recipient ← dict_get "to" envelope ≫= fromhex_of;
  ts ← dict_get "ts" envelope ≫= int_of;
  ttl ← dict_get "ttl" envelope ≫= int_of;
  blob ← dict_get "blob" envelope ≫= b64_of;
  sig ← dict_get "sig" envelope ≫= fromhex_of;
  Some (Decoded sender recipient ts ttl blob sig).

Definition verify_envelope_signature (envelope : dict) (max_age_seconds max_future_seconds now : Z)
    : bool * option envelope_error :=
  match missing_fields envelope with
  | _ :: _ as missing => (false, Some (EMissing missing))
  | [] =>
      match decode_envelope envelope with
      | None => (false, Some EMalformed)
      | Some d =>
          if negb (string_len (d_sender d) =? 32)%Z || negb (string_len (d_recipient d) =? 32)%Z
          then (false, Some (EReason "invalid pubkey length"))
          else if negb (string_len (d_sig d) =? 64)%Z
          then (false, Some (EReason "invalid signature length"))
          else if (d_ttl d <=? 0)%Z then (false, Some (EReason "ttl must be positive"))
          else if (d_ts d <? now - max_age_seconds)%Z then (false, Some (EReason "envelope too old"))
          else if (now + max_future_seconds <? d_ts d)%Z
          then (false, Some (EReason "envelope from the future"))
          else if negb (ed25519_verify (canonical_json (JObj (unsigned_of envelope)))
                          (d_sig d) (d_sender d))
          then (false, Some (EReason "signature invalid"))
          else (true, None)
      end
  end.
End Ed25519.

(** ** Utilities *)

(** [full[i:i+4]] *)
Definition slice_str (i n : nat) (s : string) : string := substring i n s.

(** The separator is a middle dot between blanks, in UTF-8. *)
Definition middle_dot : string := " " +:+ String "194" (String "183" " ").

Definition short_fingerprint (pubkey : string) (segments : nat) : res string :=
  if negb (string_len pubkey =? 32)%Z then Raise (ValueError "Pubkey must be 32 bytes")
  else Ok (join middle_dot (map (fun i => slice_str (i * 4) 4 (hex_of_bytes pubkey)) (seq 0 segments))).

Definition constant_time_compare (a b : string) : bool := String.eqb a b.

(** ** Proofs of possession for irreversible actions (sensitive_action.py) *)

Definition ACTION_SIG_WINDOW_SECONDS : Z := 300.

Definition action_payload (action relay : string) (timestamp : Z) (nonce target : string) : json :=
  JObj [("morok_sensitive_action", JStr "v1"); ("action", JStr action); ("relay", JStr relay);
        ("timestamp", JNum timestamp); ("nonce", JStr nonce); ("target", JStr target)].

Definition action_nonce_key (pubkey_hex nonce : string) : string :=
  "morok:sensitive_action_nonce:" +:+ pubkey_hex +:+ ":" +:+ nonce.

Definition verify_sensitive_action `{Nacl} (action pubkey_hex target nonce : string) (timestamp : Z)
    (signature_hex relay_name : string) : M bool :=
  let! now := now_ in
  if (ACTION_SIG_WINDOW_SECONDS <? Z.abs (now - timestamp))%Z then ret false
  else
    let message := canonical_json (action_payload action relay_name timestamp nonce target) in
    match bytes_fromhex signature_hex, bytes_fromhex pubkey_hex with
    | Some sig_bytes, Some pubkey_bytes =>
        if negb (ed25519_verify message sig_bytes pubkey_bytes) then ret false
        else
          try_except
            (redis_ (rcall (set_nx_ex (action_nonce_key pubkey_hex nonce) "1"
                              ACTION_SIG_WINDOW_SECONDS) as_set_ok))
            (fun _ => ret false)
    | _, _ => ret false
    end.

(** [SensitiveActionProof], its fields possibly absent. *)
Record action_proof := ActionProof {
  action_signature_hex : option string;
  action_nonce : option string;
  action_timestamp : option Z
}.

(** [required]: [settings.action_proof_required_set()]. *)
Definition enforce_sensitive_action `{Nacl} (required : list string) (relay_name : string)
    (action pubkey_hex target : string) (proof : option action_proof) : M unit :=
  match proof ≫= action_signature_hex with
  | None =>
      if bool_decide (action ∈ required)
      then raise (HTTPException 401 "action_proof_required")
      else ret tt
  | Some sig =>
      let! valid := verify_sensitive_action action pubkey_hex target
        (default "" (proof ≫= action_nonce)) (default 0%Z (proof ≫= action_timestamp))
        sig relay_name in
      if negb valid then raise (HTTPException 401 "invalid_action_proof") else ret tt
  end.
