(* ===== verification/Payloads.v ===== *)
(** * Everything that is signed

    The relay's protocol signs canonical JSON in twelve places.  [payload] has a constructor for
    each, and [payload_json] the object of the source.  [canonical_payload_inj] says that the
    signed bytes determine the purpose and every field: a signature made for one purpose is never
    one for another. *)

From Stdlib Require Import Ascii String.
From stdpp Require Import prelude gmap strings list sorting.
From S2P Require Import Prelude Json Codec RedisStore Models Effects Crypto.

#[local] Open Scope morok_scope.

Inductive payload :=
| PAuth (challenge pubkey : string) (timestamp : Z)              (* api/auth.py, crypto.py *)
| PEnvelope (from to_ : string) (ts ttl : Z) (blob : string)     (* SIGNED_FIELDS *)
| PAction (action relay : string) (timestamp : Z) (nonce target : string)
| PReadReceipt (envelope_id sender reader : string) (group_id : option string) (signed_at : Z)
| PDmDelete (envelope_id : string) (ts : Z)
| PGroupDelete (group_id envelope_id : string) (ts : Z)
| PGroupGone (group_id : string) (ts : Z)
| PHandshake (hostname pubkey : string) (timestamp : Z)
| PForward (envelope : dict) (relay_pubkey : string) (forwarded_at : Z)
| PPullSnapshot (group_id caller relay_pubkey : string) (timestamp : Z)
| PCheckin (pubkey : string) (timestamp : Z)
| PDmsTrigger (envelope_id to_ : string) (ts : Z) (creator dms_id : string).

Definition read_receipt_payload (envelope_id sender reader : string) (group_id : option string)
    (signed_at : Z) : json :=
  JObj [("morok_read_receipt", JStr "morok_read_receipt:v1"); ("envelope_id", JStr envelope_id);
        ("sender_pubkey_hex", JStr sender); ("reader_pubkey_hex", JStr reader);
        ("group_id", match group_id with Some g => JStr g | None => JNull end);
        ("signed_at", JNum signed_at)].

(** The payload of [_verify_delete_sig], for any kind. *)
Definition delete_payload (kind envelope_id : string) (ts : Z) (group_id : option string) : json :=
  let payload :=
    if String.eqb kind "group_gone" then [("kind", JStr kind); ("ts", JNum ts)]
    else [("kind", JStr kind); ("envelope_id", JStr envelope_id); ("ts", JNum ts)] in
  JObj (match group_id with Some g => dict_set "group_id" (JStr g) payload | None => payload end).

Definition handshake_payload (hostname pubkey : string) (timestamp : Z) : json :=
  JObj [("morok_handshake", JStr "v1"); ("hostname", JStr hostname); ("pubkey", JStr pubkey);
        ("timestamp", JNum timestamp)].

Definition forward_payload (envelope : dict) (relay_pubkey : string) (forwarded_at : Z) : json :=
  JObj [("morok_forward", JStr "v1"); ("envelope", JObj envelope); ("relay_pubkey", JStr relay_pubkey);
        ("forwarded_at", JNum forwarded_at)].

Definition pull_snapshot_payload (group_id caller relay_pubkey : string) (timestamp : Z) : json :=
  JObj [("morok_pull_snapshot", JStr "v1"); ("group_id", JStr group_id); ("caller_pubkey", JStr caller);
        ("relay_pubkey", JStr relay_pubkey); ("timestamp", JNum timestamp)].

Definition checkin_payload (pubkey : string) (timestamp : Z) : json :=
  JObj [("morok_dms_checkin", JStr "v1"); ("pubkey", JStr pubkey); ("timestamp", JNum timestamp)].

Definition dms_trigger_payload (envelope_id to_ : string) (ts : Z) (creator dms_id : string) : json :=
  JObj [("morok_dms_trigger", JStr "v1"); ("envelope_id", JStr envelope_id); ("to", JStr to_);
        ("ts", JNum ts); ("dms_creator_pubkey", JStr creator); ("dms_id", JStr dms_id)].

Definition envelope_payload (from to_ : string) (ts ttl : Z) (blob : string) : json :=
  JObj [("from", JStr from); ("to", JStr to_); ("ts", JNum ts); ("ttl", JNum ttl); ("blob", JStr blob)].

Definition payload_json (p : payload) : json :=
  match p with
  | PAuth c k t => auth_payload c k t
  | PEnvelope f t ts ttl b => envelope_payload f t ts ttl b
  | PAction a r t n g => action_payload a r t n g
  | PReadReceipt e s r g t => read_receipt_payload e s r g t
  | PDmDelete e t => delete_payload "dm_delete" e t None
  | PGroupDelete g e t => delete_payload "group_delete" e t (Some g)
  | PGroupGone g t => delete_payload "group_gone" "" t (Some g)
  | PHandshake h k t => handshake_payload h k t
  | PForward e r t => forward_payload e r t
  | PPullSnapshot g c r t => pull_snapshot_payload g c r t
  | PCheckin k t => checkin_payload k t
  | PDmsTrigger e r t c d => dms_trigger_payload e r t c d
  end.

(** Equal, but for the order of the keys inside a forwarded envelope. *)
Definition payload_eq (p q : payload) : Prop :=
  match p, q with
  | PForward e1 r1 t1, PForward e2 r2 t2 => sort_keys (JObj e1) = sort_keys (JObj e2) /\ r1 = r2 /\ t1 = t2
  | _, _ => p = q
  end.

(** The forwarded envelope is a JSON object, as Python's dicts are. *)
Definition payload_wf (p : payload) : Prop :=
  match p with PForward e _ _ => json_wf (JObj e) | _ => True end.

(** ** Canonical JSON forgets the order of keys and nothing else *)

Lemma dict_get_elem k v d : NoDup d.*1 -> dict_get k d = Some v <-> (k, v) ∈ d.
Proof.
  induction d as [|[k0 v0] d IH]; cbn [fmap list_fmap dict_get]; intros Hnd.
  - split; [done|]. by intros ?%elem_of_nil.
  - apply NoDup_cons in Hnd as [Hk0 Hnd]. rewrite elem_of_cons.
    destruct (String.eqb_spec k k0) as [->|Hne].
    + split; [intros [= ->]; by left|]. intros [[= ->]|Hin]; [done|].
      exfalso. apply Hk0. apply list_elem_of_fmap. by exists (k0, v).
    + rewrite IH by done. split; [by right|]. intros [[= -> ->]|?]; done.
Qed.

Lemma dict_get_perm k d1 d2 : NoDup d1.*1 -> d1 ≡ₚ d2 -> dict_get k d1 = dict_get k d2.
Proof.
  intros Hnd Hp. assert (Hnd2 : NoDup d2.*1) by by rewrite <- Hp.
  destruct (dict_get k d1) as [v|] eqn:E.
  - symmetry. apply dict_get_elem; [done|]. rewrite <- Hp. by apply dict_get_elem in E.
  - apply dict_get_None in E. symmetry. apply dict_get_None. by rewrite <- Hp.
Qed.

Lemma dict_get_map k (f : json -> json) d :
  dict_get k (map (fun kv => (kv.1, f kv.2)) d) = f <$> dict_get k d.
Proof. induction d as [|[k0 v0] d IH]; [done|]. cbn. by destruct (String.eqb k k0). Qed.

Lemma keys_map (f : json -> json) (d : dict) : (map (fun kv => (kv.1, f kv.2)) d).*1 = d.*1.
Proof. induction d as [|kv d IH]; [done|]. cbn. by f_equal. Qed.

Lemma sort_keys_get k d :
  json_wf (JObj d) -> dict_get k (match sort_keys (JObj d) with JObj d' => d' | _ => [] end) = sort_keys <$> dict_get k d.
Proof.
  intros Hwf. inversion Hwf as [| | | | |? Hnd _]; subst. cbn [sort_keys].
  rewrite <- dict_get_map. symmetry. apply dict_get_perm; [by rewrite keys_map|].
  symmetry. apply merge_sort_Permutation.
Qed.

(** Equal bytes, equal values up to the order of keys. *)
Lemma canonical_json_inj j1 j2 :
  json_wf j1 -> json_wf j2 -> canonical_json j1 = canonical_json j2 -> sort_keys j1 = sort_keys j2.
Proof.
  intros H1 H2 Heq. apply (f_equal loads) in Heq. unfold canonical_json in Heq.
  rewrite !loads_print in Heq by auto using sort_keys_wf with morok. congruence.
Qed.

Lemma canonical_json_get j1 j2 d1 d2 k :
  j1 = JObj d1 -> j2 = JObj d2 -> json_wf j1 -> json_wf j2 -> canonical_json j1 = canonical_json j2 ->
  sort_keys <$> dict_get k d1 = sort_keys <$> dict_get k d2.
Proof.
  intros -> -> H1 H2 Heq. rewrite <- !sort_keys_get by done. by rewrite (canonical_json_inj _ _ H1 H2 Heq).
Qed.

#[export] Instance key_le_trans : Transitive key_le.
Proof. intros a b c. unfold key_le. apply transitivity. Qed.
#[export] Instance key_le_total : Total key_le.
Proof. intros a b. unfold key_le. apply (total String.le). Qed.

(** The members of an object never share a key, so their order is the only freedom: objects with the
    same members have the same canonical bytes. *)
Lemma canonical_json_perm d1 d2 :
  json_wf (JObj d1) -> d1 ≡ₚ d2 -> canonical_json (JObj d1) = canonical_json (JObj d2).
Proof.
  intros Hwf Hp. inversion Hwf as [| | | | |? Hnd _]; subst. unfold canonical_json. f_equal. cbn [sort_keys].
  f_equal. set (f := fun kv : string * json => (kv.1, sort_keys kv.2)).
  assert (Hpm : map f d1 ≡ₚ map f d2) by by apply Permutation_map.
  assert (Hnd1 : NoDup (map f d1).*1) by (unfold f; by rewrite keys_map).
  apply (Sorted_unique_strong key_le).
  - intros [k1 v1] [k2 v2] H1 H2 H12 H21. unfold key_le in H12, H21. cbn in H12, H21.
    assert (k1 = k2) as -> by by apply (anti_symm String.le).
    rewrite (merge_sort_Permutation key_le (map f d1)) in H1.
    rewrite (merge_sort_Permutation key_le (map f d2)), <- Hpm in H2.
    apply dict_get_elem in H1, H2; [|done|done]. congruence.
  - apply Sorted_merge_sort; apply _.
  - apply Sorted_merge_sort; apply _.
  - by rewrite !merge_sort_Permutation.
Qed.

(** ** Domain separation *)

Lemma payload_json_wf p : payload_wf p -> json_wf (payload_json p).
Proof.
  destruct p; cbn [payload_wf payload_json]; intros Hwf; cbv [auth_payload envelope_payload action_payload
    read_receipt_payload delete_payload handshake_payload forward_payload pull_snapshot_payload
    checkin_payload dms_trigger_payload];
    (constructor; [apply (bool_decide_unpack _); vm_compute; exact I|]);
    repeat (apply Forall_cons_2; [cbn [snd]; first [exact Hwf|constructor|case_match; constructor]|]);
    apply Forall_nil_2.
Qed.

(** The keys that tell the payloads apart, and those that carry their fields. *)
Definition payload_keys : list string :=
  [ "morok_auth"; "challenge"; "pubkey"; "timestamp"; "from"; "to"; "ts"; "ttl"; "blob";
    "morok_sensitive_action"; "action"; "relay"; "nonce"; "target"; "morok_read_receipt";
    "envelope_id"; "sender_pubkey_hex"; "reader_pubkey_hex"; "group_id"; "signed_at"; "kind";
    "morok_handshake"; "hostname"; "morok_forward"; "envelope"; "relay_pubkey"; "forwarded_at";
    "morok_pull_snapshot"; "caller_pubkey"; "morok_dms_checkin"; "morok_dms_trigger";
    "dms_creator_pubkey"; "dms_id"].

Definition payload_dict (p : payload) : dict := match payload_json p with JObj d => d | _ => [] end.

Lemma payload_same_gets p q :
  payload_wf p -> payload_wf q -> canonical_json (payload_json p) = canonical_json (payload_json q) ->
  Forall (fun k => sort_keys <$> dict_get k (payload_dict p) = sort_keys <$> dict_get k (payload_dict q)) payload_keys.
Proof.
  intros Hp Hq Heq. apply Forall_forall. intros k _.
  apply (canonical_json_get (payload_json p) (payload_json q)); auto using payload_json_wf; by destruct p, q.
Qed.

(** Two readings of one key, once the dicts are known. *)
Ltac read_keys Hk :=
  cbn [payload_dict payload_json auth_payload envelope_payload action_payload read_receipt_payload
    delete_payload handshake_payload forward_payload pull_snapshot_payload checkin_payload
    dms_trigger_payload dict_get dict_set String.eqb Ascii.eqb Bool.eqb
    fmap option_fmap option_map sort_keys] in Hk.

Lemma payload_gets_eq p q :
  Forall (fun k => sort_keys <$> dict_get k (payload_dict p) = sort_keys <$> dict_get k (payload_dict q)) payload_keys ->
  payload_eq p q.
Proof.
  unfold payload_keys. intros Hk.
  repeat (apply Forall_cons in Hk as [?H Hk]). clear Hk.
  destruct p, q;
    repeat match goal with H : _ <$> _ = _ <$> _ |- _ => read_keys H; try discriminate H; revert H end;
    intros; cbn [payload_eq];
    try match goal with |- PReadReceipt _ _ _ ?g _ = PReadReceipt _ _ _ ?g' _ => destruct g, g' end;
    try discriminate;
    repeat match goal with H : Some _ = Some _ |- _ => injection H; clear H; intros end;
    subst; try split_and!; first [done | cbn [sort_keys]; congruence].
Qed.

Lemma canonical_payload_eq p q :
  payload_wf p -> payload_wf q ->
  canonical_json (payload_json p) = canonical_json (payload_json q) -> payload_eq p q.
Proof. intros Hp Hq Heq. by apply payload_gets_eq, payload_same_gets. Qed.
