(* ===== verification/CryptoFacts.v ===== *)
(** * Cryptographic checks (crypto.py, sensitive_action.py): properties *)

From Stdlib Require Import Ascii String.
From stdpp Require Import prelude gmap strings list sorting.
From S2P Require Import Prelude Json Codec RedisStore Models Effects Crypto Payloads.

#[local] Open Scope morok_scope.

(** ** Lengths *)

Lemma string_len_app a b : string_len (a +:+ b) = (string_len a + string_len b)%Z.
Proof. unfold string_len. rewrite string_length_app. lia. Qed.

Lemma be_bytes_length n k : String.length (be_bytes n k) = n.
Proof.
  revert k. induction n as [|n IH]; intros k; cbn [be_bytes]; [done|].
  rewrite string_length_app, IH. cbn. lia.
Qed.

(** The bytes of a number determine it. *)
Lemma be_bytes_inj n k1 k2 :
  (0 <= k1 < 256 ^ Z.of_nat n)%Z -> (0 <= k2 < 256 ^ Z.of_nat n)%Z -> be_bytes n k1 = be_bytes n k2 -> k1 = k2.
Proof.
  revert k1 k2. induction n as [|n IH]; intros k1 k2 H1 H2; cbn [be_bytes].
  { cbn in *. lia. }
  rewrite Nat2Z.inj_succ, Z.pow_succ_r in H1, H2 by lia.
  intros Heq. apply string_app_eq_length in Heq as [Hq Hr]; [|by rewrite !be_bytes_length].
  injection Hr as Hr. apply (f_equal N_of_ascii) in Hr.
  pose proof (Z.mod_pos_bound k1 256). pose proof (Z.mod_pos_bound k2 256).
  rewrite !N_ascii_embedding in Hr by lia.
  assert (Hmod : (k1 mod 256 = k2 mod 256)%Z) by lia.
  assert (Hdiv : (k1 / 256 = k2 / 256)%Z).
  { apply IH; [|..|exact Hq]; (split; [apply Z.div_pos; lia|apply Z.div_lt_upper_bound; lia]). }
  rewrite (Z.div_mod k1 256), (Z.div_mod k2 256) by lia. congruence.
Qed.


(** ** Envelope ids *)

(** Two byte strings with the same hash. *)
Definition collision `{Sha256} : Prop := exists x y, x <> y /\ sha256 x = sha256 y.

Lemma envelope_id_parts `{Sha256} e1 e2 i :
  envelope_id e1 = Some i -> envelope_id e2 = Some i ->
  string_len (sender_pubkey e1) = 32%Z -> string_len (sender_pubkey e2) = 32%Z ->
  string_len (recipient_pubkey e1) = 32%Z -> string_len (recipient_pubkey e2) = 32%Z ->
  (sender_pubkey e1 = sender_pubkey e2 /\ recipient_pubkey e1 = recipient_pubkey e2 /\
   timestamp e1 = timestamp e2 /\ blob e1 = blob e2) \/ collision.
Proof.
  unfold envelope_id, to_bytes_8, string_len.
  destruct ((0 <=? timestamp e1) && (timestamp e1 <? 2 ^ 64))%Z eqn:Ht1; [|done].
  destruct ((0 <=? timestamp e2) && (timestamp e2 <? 2 ^ 64))%Z eqn:Ht2; [|done].
  apply andb_prop in Ht1 as [Ha1 Hb1], Ht2 as [Ha2 Hb2]. zify_bool. cbn [mbind option_bind].
  assert (Hlen : String.length (be_bytes 8 (timestamp e1)) = String.length (be_bytes 8 (timestamp e2)))
    by by rewrite !be_bytes_length.
  assert (Hinj : be_bytes 8 (timestamp e1) = be_bytes 8 (timestamp e2) -> timestamp e1 = timestamp e2)
    by (apply be_bytes_inj; lia).
  revert Hlen Hinj. generalize (be_bytes 8 (timestamp e1)) as b1, (be_bytes 8 (timestamp e2)) as b2.
  intros b1 b2 Hlen Hinj [= H1] [= H2] Hs1 Hs2 Hr1 Hr2. rewrite <- H2 in H1. apply hex_of_bytes_inj in H1.
  set (x1 := sender_pubkey e1 +:+ _) in H1. set (x2 := sender_pubkey e2 +:+ _) in H1.
  destruct (decide (x1 = x2)) as [Hx|Hx]; [|right; by exists x1, x2].
  apply string_app_eq_length in Hx as [Hs Hx]; [|lia].
  apply string_app_eq_length in Hx as [Hr Hx]; [|lia].
  apply string_app_eq_length in Hx as [Ht Hx]; [|done].
  destruct (decide (blob e1 = blob e2)) as [Hb|Hb]; [left; auto|right; by exists (blob e1), (blob e2)].
Qed.

(** ** Envelopes *)

Section Envelopes.
  Context `{Nacl}.

Lemma ed25519_verify_sizes m s k :
  ed25519_verify m s k = true -> string_len s = 64%Z /\ string_len k = 32%Z /\ nacl_verify k m s = true.
Proof.
  unfold ed25519_verify. destruct (String.eqb s "" || String.eqb k ""); [done|].
  destruct (string_len s =? 64)%Z eqn:E1, (string_len k =? 32)%Z eqn:E2; cbn; try done.
  zify_bool. done.
Qed.

(** What the envelope check accepts. *)
Record acceptable (envelope : dict) (max_age max_future now : Z) (d : decoded) : Prop := {
  acc_decoded : decode_envelope envelope = Some d;
  acc_sender : string_len (d_sender d) = 32%Z;
  acc_recipient : string_len (d_recipient d) = 32%Z;
  acc_sig_len : string_len (d_sig d) = 64%Z;
  acc_ttl : (0 < d_ttl d)%Z;
  acc_ts : (now - max_age <= d_ts d <= now + max_future)%Z;
  acc_sig : nacl_verify (d_sender d) (canonical_json (JObj (unsigned_of envelope))) (d_sig d) = true
}.

(** The fields of an envelope that decodes. *)
Lemma decode_fields envelope d :
  decode_envelope envelope = Some d ->
  (exists j, dict_get "from" envelope = Some j /\ fromhex_of j = Some (d_sender d)) /\
  (exists j, dict_get "to" envelope = Some j /\ fromhex_of j = Some (d_recipient d)) /\
  (exists j, dict_get "ts" envelope = Some j /\ int_of j = Some (d_ts d)) /\
  (exists j, dict_get "ttl" envelope = Some j /\ int_of j = Some (d_ttl d)) /\
  (exists j, dict_get "blob" envelope = Some j /\ b64_of j = Some (d_blob d)) /\
  (exists j, dict_get "sig" envelope = Some j /\ fromhex_of j = Some (d_sig d)).
Proof.
  unfold decode_envelope. intros Hd.
  repeat (apply bind_Some in Hd as (? & ?Hf & Hd)). injection Hd as <-. cbn [d_sender d_recipient d_ts d_ttl d_blob d_sig].
  repeat match goal with Hf : (dict_get _ _ ≫= _) = Some _ |- _ => apply bind_Some in Hf as (? & ? & ?) end.
  split_and!; eauto.
Qed.

(** An envelope that decodes has all its fields. *)
Lemma decoded_complete envelope d : decode_envelope envelope = Some d -> missing_fields envelope = [].
Proof.
  intros Hd. apply decode_fields in Hd as ((? & E1 & _) & (? & E2 & _) & (? & E3 & _) & (? & E4 & _) &
    (? & E5 & _) & (? & E6 & _)).
  unfold missing_fields.
  assert (Hnil : filter (fun k => dict_mem k envelope = false) required_fields = []).
  { unfold required_fields, dict_mem. rewrite !filter_cons, E1, E2, E3, E4, E5, E6. done. }
  by rewrite Hnil.
Qed.

Lemma verify_envelope_spec envelope max_age max_future now :
  fst (verify_envelope_signature envelope max_age max_future now) = true <->
  exists d, acceptable envelope max_age max_future now d.
Proof.
  unfold verify_envelope_signature. split.
  - destruct (missing_fields envelope); [|done].
    destruct (decode_envelope envelope) as [d|] eqn:Ed; [|done].
    destruct (string_len (d_sender d) =? 32)%Z eqn:E1; cbn [negb orb]; [|done].
    destruct (string_len (d_recipient d) =? 32)%Z eqn:E2; cbn [negb orb]; [|done].
    destruct (string_len (d_sig d) =? 64)%Z eqn:E3; cbn [negb]; [|done].
    destruct (d_ttl d <=? 0)%Z eqn:E4; [done|].
    destruct (d_ts d <? now - max_age)%Z eqn:E5; [done|].
    destruct (now + max_future <? d_ts d)%Z eqn:E6; [done|].
    destruct (ed25519_verify _ _ _) eqn:E7; [|done]. intros _. zify_bool.
    apply ed25519_verify_sizes in E7 as (_ & _ & E7). exists d. split; (done || lia).
  - intros (d & [Hd Hs Hr Hsig Httl Hts Hv]). rewrite (decoded_complete _ _ Hd), Hd.
    rewrite (proj2 (Z.eqb_eq _ _) Hs), (proj2 (Z.eqb_eq _ _) Hr), (proj2 (Z.eqb_eq _ _) Hsig).
    cbn [negb orb]. rewrite (proj2 (Z.leb_gt _ _)), !(proj2 (Z.ltb_ge _ _)) by lia.
    unfold ed25519_verify. rewrite (proj2 (Z.eqb_eq _ _) Hs), (proj2 (Z.eqb_eq _ _) Hsig).
    destruct (String.eqb_spec (d_sig d) ""); [by rewrite e in Hsig|].
    destruct (String.eqb_spec (d_sender d) ""); [by rewrite e in Hs|].
    cbn [negb orb]. by rewrite Hv.
Qed.

(** What is signed, and everything else the check looks at, are the six fields. *)
Lemma verify_envelope_six_fields e1 e2 max_age max_future now :
  (forall k, k ∈ required_fields -> dict_get k e1 = dict_get k e2) ->
  verify_envelope_signature e1 max_age max_future now = verify_envelope_signature e2 max_age max_future now.
Proof.
  intros Hk. unfold verify_envelope_signature.
  assert (Hm : missing_fields e1 = missing_fields e2).
  { unfold missing_fields, required_fields, dict_mem. f_equal.
    rewrite !filter_cons, !Hk by (unfold required_fields; set_solver). done. }
  assert (Hd : decode_envelope e1 = decode_envelope e2).
  { unfold decode_envelope. rewrite !Hk by (unfold required_fields; set_solver). done. }
  assert (Hu : unsigned_of e1 = unsigned_of e2).
  { unfold unsigned_of, SIGNED_FIELDS. cbn [omap list_omap]. by rewrite !Hk by (unfold required_fields; set_solver). }
  by rewrite Hm, Hd, Hu.
Qed.
End Envelopes.

(** ** Challenge and response *)

Lemma verify_auth_spec `{Nacl} challenge pubkey ts sig max_age now :
  verify_auth_response challenge pubkey ts sig max_age now = Ok true <->
  string_len challenge = 32%Z /\ string_len pubkey = 32%Z /\ string_len sig = 64%Z /\
  (Z.abs (now - ts) <= max_age)%Z /\
  nacl_verify pubkey (canonical_json (auth_payload (hex_of_bytes challenge) (hex_of_bytes pubkey) ts)) sig = true.
Proof.
  unfold verify_auth_response, build_auth_message. change CHALLENGE_BYTES with 32%Z.
  destruct (max_age <? Z.abs (now - ts))%Z eqn:E1; zify_bool; [split; [done|lia]|].
  destruct (string_len challenge =? 32)%Z eqn:E2; zify_bool; cbn [negb]; [|split; [done|lia]].
  destruct (string_len pubkey =? 32)%Z eqn:E3; zify_bool; cbn [negb]; [|split; [done|lia]].
  split.
  - intros [= Hv]. apply ed25519_verify_sizes in Hv as (? & ? & ?). done.
  - intros (_ & _ & Hs & _ & Hv). f_equal. unfold ed25519_verify.
    destruct (String.eqb_spec sig ""); [by rewrite e in Hs|].
    destruct (String.eqb_spec pubkey ""); [by rewrite e in E3|].
    by rewrite (proj2 (Z.eqb_eq _ _) Hs), (proj2 (Z.eqb_eq _ _) E3).
Qed.

(** ** Action proofs *)

Section ActionProofs.
  Context `{Nacl} (action pubkey_hex target nonce : string) (ts : Z) (sig_hex relay : string).

(** The proof is fresh at [now] and signed by the key. *)
Definition proof_valid (now : Z) : Prop :=
  (Z.abs (now - ts) <= ACTION_SIG_WINDOW_SECONDS)%Z /\
  exists sig key, bytes_fromhex sig_hex = Some sig /\ bytes_fromhex pubkey_hex = Some key /\
    ed25519_verify (canonical_json (action_payload action relay ts nonce target)) sig key = true.

Let claim := action_nonce_key pubkey_hex nonce.
Let check := verify_sensitive_action action pubkey_hex target nonce ts sig_hex relay.

Lemma run_action_valid (w : vworld) :
  calm w -> proof_valid (w_now w) ->
  run_doc check w =
  match rv_keys (w_redis w) !! claim with
  | Some _ => (Ok false, w)
  | None => (Ok true, set_redis (put claim (Entry (VStr "1") (Some (w_now w + ACTION_SIG_WINDOW_SECONDS)%Z))
                                   (w_redis w)) w)
  end.
Proof.
  intros Hc (Hwin & sig & key & Hsig & Hkey & Hv). unfold check, verify_sensitive_action.
  rewrite run_doc_bind, run_doc_now, (proj2 (Z.ltb_ge _ _)), Hsig, Hkey, Hv by done. cbn [negb].
  rewrite run_doc_try, run_doc_redis, rrun_rcall, doc_set_nx_ex by (done || unfold ACTION_SIG_WINDOW_SECONDS; lia).
  fold claim. destruct (rv_keys (w_redis w) !! claim); [by destruct w|done].
Qed.

Lemma run_action_invalid (w : vworld) :
  ~ proof_valid (w_now w) -> run_doc check w = (Ok false, w).
Proof.
  intros Hno. unfold check, verify_sensitive_action. rewrite run_doc_bind, run_doc_now.
  destruct (_ <? _)%Z eqn:E; [done|]. zify_bool.
  destruct (bytes_fromhex sig_hex) as [sig|] eqn:Hsig; [|done].
  destruct (bytes_fromhex pubkey_hex) as [key|] eqn:Hkey; [|done].
  destruct (ed25519_verify _ sig key) eqn:Hv; [|done].
  exfalso. apply Hno. split; [lia|]. eauto.
Qed.

Lemma proof_valid_dec now : proof_valid now \/ ~ proof_valid now.
Proof.
  unfold proof_valid.
  destruct (decide (Z.abs (now - ts) <= ACTION_SIG_WINDOW_SECONDS)%Z); [|right; tauto].
  destruct (bytes_fromhex sig_hex) as [sig|]; [|right; naive_solver].
  destruct (bytes_fromhex pubkey_hex) as [key|]; [|right; naive_solver].
  destruct (ed25519_verify (canonical_json (action_payload action relay ts nonce target)) sig key) eqn:E.
  - left. split; [done|]. by exists sig, key.
  - right. intros (_ & sig' & key' & [= <-] & [= <-] & Hv). congruence.
Qed.

(** An accepted proof was valid and unclaimed, and is claimed now. *)
Lemma run_action_accepted (w w' : vworld) :
  calm w -> run_doc check w = (Ok true, w') ->
  proof_valid (w_now w) /\ rv_keys (w_redis w) !! claim = None /\
  w' = set_redis (put claim (Entry (VStr "1") (Some (w_now w + ACTION_SIG_WINDOW_SECONDS)%Z)) (w_redis w)) w.
Proof.
  intros Hc Hrun. destruct (proof_valid_dec (w_now w)) as [Hv|Hv].
  - rewrite run_action_valid in Hrun by done. case_match; naive_solver.
  - by rewrite run_action_invalid in Hrun.
Qed.

Lemma run_action_claimed (w : vworld) :
  calm w -> rv_keys (w_redis w) !! claim <> None -> fst (run_doc check w) = Ok false.
Proof.
  intros Hc Hk. destruct (proof_valid_dec (w_now w)) as [Hv|Hv].
  - rewrite run_action_valid by done. by case_match.
  - by rewrite run_action_invalid.
Qed.

(** Whatever fails, a failing Redis included, the answer is no. *)
Lemma run_action_fault (w : vworld) f fs :
  w_faults w = f :: fs -> f <> Fine -> fst (run_doc check w) = Ok false.
Proof.
  intros Hf Hne. unfold check, verify_sensitive_action. rewrite run_doc_bind, run_doc_now.
  destruct (_ <? _)%Z; [done|].
  destruct (bytes_fromhex sig_hex) as [sig|]; [|done].
  destruct (bytes_fromhex pubkey_hex) as [key|]; [|done].
  destruct (ed25519_verify _ sig key); cbn [negb]; [|done].
  by rewrite run_doc_try, (run_doc_redis_fault _ _ _ _ Hf).
Qed.
End ActionProofs.

(** ** Properties *)

(** C18: what is signed determines what it was signed for.  Over the twelve kinds of signed
    messages of the protocol, equal canonical bytes mean the same kind and the same fields (up to
    the order of keys inside a forwarded envelope, which canonical JSON forgets); so no signature
    can be moved from one purpose, relay, target or moment to another. *)
Theorem canonical_payload_inj (p q : payload) :
  payload_wf p -> payload_wf q ->
  canonical_json (payload_json p) = canonical_json (payload_json q) -> payload_eq p q.
Proof. apply canonical_payload_eq. Qed.

(** Canonical JSON is a function of the object and not of the order of its keys, and it is
    injective: objects with the same members have the same bytes, and equal bytes come from values
    that are equal once every object is sorted. *)
Theorem canonical_json_faithful (d1 d2 : dict) :
  json_wf (JObj d1) -> json_wf (JObj d2) ->
  (d1 ≡ₚ d2 -> canonical_json (JObj d1) = canonical_json (JObj d2)) /\
  (canonical_json (JObj d1) = canonical_json (JObj d2) -> sort_keys (JObj d1) = sort_keys (JObj d2)).
Proof. intros H1 H2. split; [by apply canonical_json_perm|by apply canonical_json_inj]. Qed.

(** An envelope is accepted exactly if its six fields decode to keys, a signature and a
    positive lifetime of the right sizes, its timestamp is in the window, and the signature is the
    sender's on the canonical form of the five signed fields; nothing else in the envelope, such as
    the metadata a forwarding relay adds, has any influence. *)
Theorem envelope_accepted_iff `{Nacl} (envelope : dict) (max_age max_future now : Z) :
  (fst (verify_envelope_signature envelope max_age max_future now) = true <->
   exists d, acceptable envelope max_age max_future now d) /\
  (forall other, (forall k, k ∈ required_fields -> dict_get k envelope = dict_get k other) ->
   verify_envelope_signature envelope max_age max_future now =
   verify_envelope_signature other max_age max_future now).
Proof.
  split; [apply verify_envelope_spec|]. intros other. apply verify_envelope_six_fields.
Qed.

(** An envelope id names one message.  Two envelopes with the same id have the same sender,
    recipient, timestamp and ciphertext, or they exhibit a collision of SHA-256. *)
Theorem envelope_id_names_message `{Sha256} (e1 e2 : MessageEnvelope) (i : string) :
  envelope_id e1 = Some i -> envelope_id e2 = Some i ->
  string_len (sender_pubkey e1) = 32%Z -> string_len (sender_pubkey e2) = 32%Z ->
  string_len (recipient_pubkey e1) = 32%Z -> string_len (recipient_pubkey e2) = 32%Z ->
  (sender_pubkey e1 = sender_pubkey e2 /\ recipient_pubkey e1 = recipient_pubkey e2 /\
   timestamp e1 = timestamp e2 /\ blob e1 = blob e2) \/ collision.
Proof. apply envelope_id_parts. Qed.

(** An auth response is accepted exactly if challenge, key and signature have their sizes,
    the timestamp is fresh, and the signature is the key's on the message that names this
    challenge, this key and this timestamp. *)
Theorem auth_response_iff `{Nacl} (challenge pubkey : string) (ts : Z) (sig : string) (max_age now : Z) :
  verify_auth_response challenge pubkey ts sig max_age now = Ok true <->
  string_len challenge = 32%Z /\ string_len pubkey = 32%Z /\ string_len sig = 64%Z /\
  (Z.abs (now - ts) <= max_age)%Z /\
  nacl_verify pubkey (canonical_json (auth_payload (hex_of_bytes challenge) (hex_of_bytes pubkey) ts)) sig = true.
Proof. apply verify_auth_spec. Qed.

Section ActionProperties.
  Context `{R : Redis} `{Nacl}.

(** A nonce proves one action.  Once a proof was accepted, no proof of the same key with the
    same nonce is accepted during the next 300 seconds, whatever it is for; and if Redis fails
    the answer is no. *)
Theorem action_nonce_single_use pubkey_hex nonce relay action target ts sig_hex
    action' target' ts' sig_hex' relay' (w w1 : world rstore) (t : Z) :
  calm w ->
  run (verify_sensitive_action action pubkey_hex target nonce ts sig_hex relay) w = (Ok true, w1) ->
  (w_now w <= t < w_now w + ACTION_SIG_WINDOW_SECONDS)%Z ->
  fst (observe (verify_sensitive_action action' pubkey_hex target' nonce ts' sig_hex' relay') (set_now t w1)) = Ok false /\
  (forall w2 f fs, w_faults w2 = f :: fs -> f <> Fine ->
     fst (observe (verify_sensitive_action action' pubkey_hex target' nonce ts' sig_hex' relay') w2) = Ok false).
Proof.
  intros Hc Hrun Ht. split; [|intros w2 f fs Hf Hne; rewrite observe_doc; by eapply run_action_fault].
  apply run_absw in Hrun. apply run_action_accepted in Hrun as (_ & _ & Hw1); [|exact Hc].
  assert (Hnow : w_now w1 = w_now w) by exact (f_equal w_now Hw1).
  assert (Hcalm : calm (absw w1)) by by rewrite Hw1.
  rewrite observe_doc, absw_later by lia. apply run_action_claimed; [exact Hcalm|].
  cbn [later w_redis set_redis set_now]. rewrite Hw1. cbn [w_redis set_redis].
  rewrite keys_expire, keys_put_eq, decide_True; [done|]. unfold live_at. cbn. lia.
Qed.

(** But a proof can be replayed when the claim has expired and the timestamp is not yet stale:
    the claim lives 300 seconds from its first use, while the proof is fresh until 300 seconds after
    its timestamp, which may lie up to 300 seconds in the future.  A proof dated at or after its
    first use at time [w_now w] is accepted again, unchanged, at any [t] from [w_now w + 300] to
    [ts + 300]. *)
Theorem action_proof_replay pubkey_hex nonce relay action target ts sig_hex (w w1 : world rstore) (t : Z) :
  calm w ->
  run (verify_sensitive_action action pubkey_hex target nonce ts sig_hex relay) w = (Ok true, w1) ->
  (w_now w + ACTION_SIG_WINDOW_SECONDS <= t <= ts + ACTION_SIG_WINDOW_SECONDS)%Z ->
  fst (observe (verify_sensitive_action action pubkey_hex target nonce ts sig_hex relay) (set_now t w1)) = Ok true.
Proof.
  intros Hc Hrun Ht.
  apply run_absw in Hrun. apply run_action_accepted in Hrun as ((Hwin & Hsig) & _ & Hw1); [|exact Hc].
  change (w_now (absw w)) with (w_now w) in Hwin. unfold ACTION_SIG_WINDOW_SECONDS in *.
  assert (Hnow : w_now w1 = w_now w) by exact (f_equal w_now Hw1).
  assert (Hcalm : calm (absw w1)) by by rewrite Hw1.
  rewrite observe_doc, absw_later by lia. rewrite run_action_valid.
  - cbn [later w_redis set_redis set_now]. rewrite Hw1. cbn [w_redis set_redis].
    rewrite keys_expire, keys_put_eq, decide_False; [done|]. unfold live_at. cbn.
    change (w_now (absw w)) with (w_now w). lia.
  - exact Hcalm.
  - split; [|exact Hsig]. cbn. unfold ACTION_SIG_WINDOW_SECONDS. lia.
Qed.
End ActionProperties.

(** ** Witnesses *)

Module CryptoDemo.
(** A scheme with the shape of Ed25519: 32-byte keys, 64-byte signatures that name the key. *)
Definition key32 : string := "0123456789abcdef0123456789abcdef".
#[local] Instance demo_nacl : Nacl := {|
  nacl_verify pk m s := String.eqb s (pk +:+ pk);
  nacl_sign sk m := sk +:+ sk;
  nacl_public sk := sk;
  nacl_to_curve25519 pk := Ok pk
|}.
#[local] Instance demo_sha : Sha256 := fun s => s.

Definition start : world (rstore (Redis := Mem_Redis)) :=
  World 1000%Z (View ∅ ∅ []) empty_db empty_db ∅ [] (fun _ => "t") [] no_network [].
Definition proof (ts : Z) : M bool :=
  verify_sensitive_action "account_delete" (hex_of_bytes key32) "target" "nonce" ts
    (hex_of_bytes (key32 +:+ key32)) "relay".
Definition used (ts : Z) : world (rstore (Redis := Mem_Redis)) := snd (run (proof ts) start).

Lemma canonical_payload_witness : payload_eq (PDmDelete "e" 5) (PDmDelete "e" 5).
Proof. apply (canonical_payload_inj (PDmDelete "e" 5) (PDmDelete "e" 5)); reflexivity. Defined.

Lemma canonical_json_witness :
  canonical_json (JObj [("b", JNum 1); ("a", JNull)]) = canonical_json (JObj [("a", JNull); ("b", JNum 1)]).
Proof.
  apply (canonical_json_faithful [("b", JNum 1); ("a", JNull)] [("a", JNull); ("b", JNum 1)]).
  - constructor; [apply (bool_decide_unpack _); vm_compute; exact I|repeat constructor].
  - constructor; [apply (bool_decide_unpack _); vm_compute; exact I|repeat constructor].
  - apply perm_swap.
Defined.

Lemma envelope_id_witness :
  let e := mkEnvelope key32 key32 1000 60 "cipher" in
  (key32 = key32 /\ key32 = key32 /\ 1000%Z = 1000%Z /\ "cipher" = "cipher") \/ collision.
Proof.
  intros e. apply (envelope_id_names_message e e (match envelope_id e with Some i => i | None => "" end));
    vm_compute; reflexivity.
Defined.

Definition demo_envelope (extra : dict) : dict :=
  [("from", JStr (hex_of_bytes key32)); ("to", JStr (hex_of_bytes key32)); ("ts", JNum 1000);
   ("ttl", JNum 60); ("blob", JStr "YWJj"); ("sig", JStr (hex_of_bytes (key32 +:+ key32)))] ++ extra.

Lemma envelope_accepted_witness :
  fst (verify_envelope_signature (demo_envelope []) 300 60 1010) = true /\
  verify_envelope_signature (demo_envelope []) 300 60 1010 =
  verify_envelope_signature (demo_envelope [("kind", JStr "dm")]) 300 60 1010.
Proof.
  split; [vm_compute; reflexivity|].
  apply (envelope_accepted_iff (demo_envelope []) 300 60 1010).
  intros k Hk. repeat (apply elem_of_cons in Hk as [->|Hk]; [vm_compute; reflexivity|]).
  apply elem_of_nil in Hk. destruct Hk.
Defined.

Lemma action_nonce_witness :
  fst (observe (proof 1000) (set_now 1100 (used 1000))) = Ok false.
Proof.
  apply (action_nonce_single_use (hex_of_bytes key32) "nonce" "relay" "account_delete" "target" 1000
    (hex_of_bytes (key32 +:+ key32)) "account_delete" "target" 1000 (hex_of_bytes (key32 +:+ key32)) "relay"
    start (used 1000) 1100); [reflexivity|vm_compute; reflexivity|vm_compute; split; congruence].
Defined.

Lemma action_replay_witness :
  fst (observe (proof 1200) (set_now 1400 (used 1200))) = Ok true.
Proof.
  apply (action_proof_replay (hex_of_bytes key32) "nonce" "relay" "account_delete" "target" 1200
    (hex_of_bytes (key32 +:+ key32)) start (used 1200) 1400);
    [reflexivity|vm_compute; reflexivity|vm_compute; split; congruence].
Defined.
End CryptoDemo.
