(* ===== verification/Sessions.v ===== *)
(** * Sessions, tickets and challenges (sessions.py)

    A bearer token is stored as its SHA-256 in [morok:session:], with the value
    [pubkey|created_at]; [morok:user_sessions:] is the reverse index.  A token that is not found by
    its digest is looked up as it is (the "legacy" scheme) and moved to the new one. *)

From Stdlib Require Import Ascii String.
From stdpp Require Import prelude gmap strings list.
From S2P Require Import Prelude Json Codec RedisStore Models Effects Crypto.

#[local] Open Scope morok_scope.

Definition SESSION_TTL_SECONDS : Z := 7 * 24 * 60 * 60.
Definition SESSION_ABSOLUTE_MAX_SECONDS : Z := 30 * 24 * 60 * 60.
Definition SESSION_KEY_PREFIX : string := "morok:session:".
Definition USER_SESSIONS_KEY_PREFIX : string := "morok:user_sessions:".

Record Session := mkSession { token : string; pubkey_hex : string; expires_at : Z }.

Definition _token_digest `{Sha256} (token : string) : string := sha256_hex token.
Definition _session_key (identifier : string) : string := SESSION_KEY_PREFIX +:+ identifier.
Definition _user_sessions_key (pubkey_hex : string) : string := USER_SESSIONS_KEY_PREFIX +:+ pubkey_hex.

(** [s.partition("|")], without the separator: the second part is empty when there is none. *)
Fixpoint partition_bar (s : string) : string * string :=
  match s with
  | EmptyString => ("", "")
  | String c s' =>
      if Ascii.eqb c "|" then ("", s')
      else let '(a, b) := partition_bar s' in (String c a, b)
  end.

Definition session_value (pubkey_hex : string) (created_at : Z) : string :=
  pubkey_hex +:+ "|" +:+ print_Z created_at.

Section Sessions.
  Context `{Sha256}.

Definition create_session (pubkey_hex : string) : M Session :=
  let! tok := token_ in
  let! now := now_ in
  let expires_at := (now + SESSION_TTL_SECONDS)%Z in
  let digest := _token_digest tok in
  let! created := now_ in
  let! _ := cmd_ (set_ex (_session_key digest) (session_value pubkey_hex created) SESSION_TTL_SECONDS) in
  let! _ := cmd_ (SADD (_user_sessions_key pubkey_hex) [digest]) in
  let! _ := cmd_ (EXPIRE (_user_sessions_key pubkey_hex) (SESSION_ABSOLUTE_MAX_SECONDS + 86400)) in
  ret (mkSession tok pubkey_hex expires_at).

(** The ceiling of a value [pubkey|created]: an unreadable time counts as now, none as no ceiling. *)
Definition over_ceiling (now : Z) (created_str : string) : bool :=
  if String.eqb created_str "" then false
  else
    let created_at := match py_int created_str with Some n => n | None => now end in
    (SESSION_ABSOLUTE_MAX_SECONDS <? now - created_at)%Z.

(** From the value on: the ceiling, then the sliding window. *)
Definition accept_session (tok : string) (now : Z) (value : string) : M (option Session) :=
  let key := _session_key (_token_digest tok) in
  let '(pubkey_hex, created_str) := partition_bar value in
  if over_ceiling now created_str then
    let! _ := cmd_ (DEL [key]) in
    let! _ := cmd_ (SREM (_user_sessions_key pubkey_hex) [_token_digest tok]) in
    ret None
  else
    let! _ := cmd_ (EXPIRE key SESSION_TTL_SECONDS) in
    let! _ := cmd_ (EXPIRE (_user_sessions_key pubkey_hex) (SESSION_ABSOLUTE_MAX_SECONDS + 86400)) in
    let! now' := now_ in
    ret (Some (mkSession tok pubkey_hex (now' + SESSION_TTL_SECONDS))).

Definition verify_session_token (tok : string) : M (option Session) :=
  if String.eqb tok "" then ret None
  else
    let! now := now_ in
    let digest := _token_digest tok in
    let key := _session_key digest in
    let! value := redis_ (rcall (GET key) as_bulk) in
    match value with
    | Some value => accept_session tok now value
    | None =>
        let legacy_key := _session_key tok in
        let! value := redis_ (rcall (GET legacy_key) as_bulk) in
        match value with
        | None => ret None
        | Some value =>
            let pubkey_legacy := fst (partition_bar value) in
            let migrated_value := session_value pubkey_legacy now in
            let! _ := redis_ (rmulti
              [ set_ex key migrated_value SESSION_TTL_SECONDS;
                DEL [legacy_key];
                SREM (_user_sessions_key pubkey_legacy) [tok];
                SADD (_user_sessions_key pubkey_legacy) [digest] ]) in
            accept_session tok now migrated_value
        end
    end.

Definition is_session_alive (tok : string) : M bool :=
  if String.eqb tok "" then ret false
  else
    let! value := redis_ (rcall (GET (_session_key (_token_digest tok))) as_bulk) in
    let! value :=
      match value with
      | Some v => ret (Some v)
      | None => redis_ (rcall (GET (_session_key tok)) as_bulk)
      end in
    match value with
    | None => ret false
    | Some raw =>
        let created_str := snd (partition_bar raw) in
        if String.eqb created_str "" then ret true
        else match py_int created_str with
             | None => ret true
             | Some created_at =>
                 let! now := now_ in
                 ret (negb (SESSION_ABSOLUTE_MAX_SECONDS <? now - created_at)%Z)
             end
    end.

(** ** Tickets for the WebSocket handshake *)

Definition WS_TICKET_TTL_SECONDS : Z := 25.
Definition ws_ticket_key (ticket : string) : string := "morok:ws_ticket:" +:+ ticket.

Definition issue_ws_ticket (pubkey_hex : string) : M string :=
  let! ticket := token_ in
  let! _ := cmd_ (set_nx_ex (ws_ticket_key ticket) pubkey_hex WS_TICKET_TTL_SECONDS) in
  ret ticket.

Definition consume_ws_ticket (ticket : string) : M (option string) :=
  redis_ (rcall (GETDEL (ws_ticket_key ticket)) as_bulk).

Definition has_any_live_session (pubkey_hex : string) : M bool :=
  let! count := redis_ (rcall (SCARD (_user_sessions_key pubkey_hex)) as_int) in
  ret (negb (count =? 0)%Z).

(** ** Revocation *)

Definition session_revoked_event (tok : option string) : string :=
  dumps (JObj [("kind", JStr "session_revoked");
               ("token_hash", match tok with
                              | Some t => if String.eqb t "" then JNull else JStr (sha256_hex t)
                              | None => JNull end)]).

Definition _publish_session_revoked (pubkey_hex : string) (tok : option string) : M unit :=
  try_except (cmd_ (PUBLISH ("morok:inbox:channel:" +:+ pubkey_hex) (session_revoked_event tok)))
    (fun _ => ret tt).

Definition revoke_session (tok : string) : M bool :=
  let digest := _token_digest tok in
  let! value := redis_ (rcall (GET (_session_key digest)) as_bulk) in
  let! found :=
    match value with
    | Some v => ret (Some (_session_key digest, v))
    | None =>
        let! value := redis_ (rcall (GET (_session_key tok)) as_bulk) in
        ret (match value with Some v => Some (_session_key tok, v) | None => None end)
    end in
  match found with
  | None => ret false
  | Some (key, v) =>
      let pubkey_hex := fst (partition_bar v) in
      let! deleted := redis_ (rcall (DEL [key]) as_int) in
      let! _ := cmd_ (SREM (_user_sessions_key pubkey_hex) [tok; digest]) in
      let! _ := _publish_session_revoked pubkey_hex (Some tok) in
      ret (0 <? deleted)%Z
  end.

Definition first_int (l : list reply) : Z := match l with RInt n :: _ => n | _ => 0%Z end.

Definition revoke_all_sessions (pubkey_hex : string) : M Z :=
  let reverse_key := _user_sessions_key pubkey_hex in
  let! tokens := redis_ (rcall (SMEMBERS reverse_key) as_members) in
  if decide (tokens = ∅) then
    let! _ := _publish_session_revoked pubkey_hex None in
    ret 0%Z
  else
    let forward_keys := map _session_key (elements tokens) in
    let! results := pipeline [ pipe_cmd (DEL forward_keys); pipe_cmd (DEL [reverse_key]) ] in
    let! _ := _publish_session_revoked pubkey_hex None in
    ret (first_int results).

(** ** Challenges *)

Definition CHALLENGE_KEY_PREFIX : string := "morok:auth:challenge:".
Definition CHALLENGE_TTL_SECONDS : Z := 60.
Definition _challenge_key (challenge_hex : string) : string := CHALLENGE_KEY_PREFIX +:+ challenge_hex.

Definition store_challenge (challenge_hex pubkey_hex : string) : M unit :=
  cmd_ (set_ex (_challenge_key challenge_hex) pubkey_hex CHALLENGE_TTL_SECONDS).

Definition first_bulk (l : list reply) : option string := match l with RBulk s :: _ => Some s | _ => None end.

Definition consume_challenge (challenge_hex : string) : M (option string) :=
  let! results := redis_ (rmulti [ GET (_challenge_key challenge_hex); DEL [_challenge_key challenge_hex] ]) in
  ret (first_bulk results).
End Sessions.
