(* ===== verification/SessionFacts.v ===== *)
(** * Sessions, tickets and challenges: properties *)

From Stdlib Require Import Ascii String.
From stdpp Require Import prelude gmap strings list.
From S2P Require Import Prelude Json Codec RedisStore Models Effects Crypto Sessions.

#[local] Open Scope morok_scope.

(** ** Values *)

(** A public key in hexadecimal has no bar. *)
Definition no_bar (s : string) : bool := string_forallb (fun c => negb (Ascii.eqb c "|")) s.

Lemma partition_value pk rest : no_bar pk = true -> partition_bar (pk +:+ "|" +:+ rest) = (pk, rest).
Proof.
  induction pk as [|c pk IH]; [done|]. cbn [no_bar string_forallb]. intros [Hc Hpk]%andb_prop.
  rewrite string_app_cons. cbn [partition_bar].
  destruct (Ascii.eqb c "|"); [done|]. by rewrite (IH Hpk).
Qed.

Lemma over_ceiling_at now c : over_ceiling now (print_Z c) = (SESSION_ABSOLUTE_MAX_SECONDS <? now - c)%Z.
Proof.
  unfold over_ceiling. rewrite py_int_print. destruct (String.eqb_spec (print_Z c) ""); [|done].
  destruct (print_Z_start c) as (x & s & E & _). congruence.
Qed.

(** The key holds this text until this time. *)
Definition holds (k s : string) (d : Z) (v : rview) : Prop :=
  rv_keys v !! k = Some (Entry (VStr s) (Some d)).

Lemma holds_str k s d v : holds k s d v -> str_at k v = Some (Some s).
Proof. unfold holds, str_at. by intros ->. Qed.

Lemma set_at_member k v (x : gset string) (d : string) :
  set_at k v = Some x -> d ∈ x -> exists DI, rv_keys v !! k = Some (Entry (VSet x) DI).
Proof.
  unfold set_at. intros Hx Hd. destruct (rv_keys v !! k) as [[[] DI]|]; [done| |done|].
  - simplify_eq. by exists DI.
  - injection Hx as <-. set_solver.
Qed.

Section Verify.
  Context `{Sha256} (tok : string).
  Hypothesis Htok : tok <> "".

Let digest := _token_digest tok.
Let key := _session_key digest.

Lemma run_accept_raw (w : vworld) now raw x :
  let '(pk, created) := partition_bar raw in
  calm w -> set_at (_user_sessions_key pk) (w_redis w) = Some x ->
  run_doc (accept_session tok now raw) w =
  if over_ceiling now created
  then (Ok None, set_redis (put_set (_user_sessions_key pk) (x ∖ {[digest]}) (del key (w_redis w))) w)
  else (Ok (Some (mkSession tok pk (w_now w + SESSION_TTL_SECONDS))),
        set_redis (touch (_user_sessions_key pk) (w_now w + (SESSION_ABSOLUTE_MAX_SECONDS + 86400))
          (touch key (w_now w + SESSION_TTL_SECONDS) (w_redis w))) w).
Proof.
  unfold accept_session. destruct (partition_bar raw) as [pk created]. intros Hc Hx.
  fold digest key. destruct (over_ceiling now created).
  - rewrite run_doc_bind, run_del, run_doc_bind by done.
    assert (Hx' : set_at (_user_sessions_key pk) (del key (w_redis w)) = Some x)
      by (unfold key, digest, _session_key, _user_sessions_key, SESSION_KEY_PREFIX, USER_SESSIONS_KEY_PREFIX; by at_simpl).
    rewrite (run_srem _ _ x) by done. rewrite run_doc_ret. cbn [list_to_set foldr].
    by rewrite (right_id_L ∅ (∪)).
  - rewrite run_doc_bind, run_expire, run_doc_bind, run_expire by done. done.
Qed.

Lemma run_accept (w : vworld) now pk c x :
  calm w -> no_bar pk = true -> set_at (_user_sessions_key pk) (w_redis w) = Some x ->
  run_doc (accept_session tok now (session_value pk c)) w =
  if (SESSION_ABSOLUTE_MAX_SECONDS <? now - c)%Z
  then (Ok None, set_redis (put_set (_user_sessions_key pk) (x ∖ {[digest]}) (del key (w_redis w))) w)
  else (Ok (Some (mkSession tok pk (w_now w + SESSION_TTL_SECONDS))),
        set_redis (touch (_user_sessions_key pk) (w_now w + (SESSION_ABSOLUTE_MAX_SECONDS + 86400))
          (touch key (w_now w + SESSION_TTL_SECONDS) (w_redis w))) w).
Proof.
  intros Hc Hpk Hx. pose proof (run_accept_raw w now (session_value pk c) x) as H1.
  unfold session_value in *. rewrite partition_value, over_ceiling_at in H1 by done. by apply H1.
Qed.

Lemma run_verify_hit (w : vworld) v0 :
  calm w -> str_at key (w_redis w) = Some (Some v0) ->
  run_doc (verify_session_token tok) w = run_doc (accept_session tok (w_now w) v0) w.
Proof.
  intros Hc Hv. unfold verify_session_token.
  destruct (String.eqb_spec tok ""); [done|].
  rewrite run_doc_bind, run_doc_now, run_doc_bind. fold digest key.
  by rewrite (run_get _ _ _ Hc Hv).
Qed.

(** A token unknown by its digest: nothing, or the move of a key of the old scheme. *)
Lemma run_verify_miss (w : vworld) :
  calm w -> str_at key (w_redis w) = Some None -> str_at (_session_key tok) (w_redis w) = Some None ->
  run_doc (verify_session_token tok) w = (Ok None, w).
Proof.
  intros Hc Hv Hl. unfold verify_session_token.
  destruct (String.eqb_spec tok ""); [done|].
  rewrite run_doc_bind, run_doc_now, run_doc_bind. fold digest key.
  by rewrite (run_get _ _ _ Hc Hv), run_doc_bind, (run_get _ _ _ Hc Hl).
Qed.

(** The server after the move. *)
Definition moved (now : Z) (pk : string) (x : gset string) (v : rview) : rview :=
  let idx := _user_sessions_key pk in
  let v := del (_session_key tok) (put key (Entry (VStr (session_value pk now)) (Some (now + SESSION_TTL_SECONDS)%Z)) v) in
  let v := put_set idx (x ∖ {[tok]}) v in
  put idx (Entry (VSet (x ∖ {[tok]} ∪ {[digest]})) (deadline_of idx v)) v.

Lemma run_verify_legacy (w : vworld) v0 x :
  let pk := fst (partition_bar v0) in
  calm w -> str_at key (w_redis w) = Some None -> str_at (_session_key tok) (w_redis w) = Some (Some v0) ->
  set_at (_user_sessions_key pk) (w_redis w) = Some x ->
  run_doc (verify_session_token tok) w =
  run_doc (accept_session tok (w_now w) (session_value pk (w_now w)))
    (set_redis (moved (w_now w) pk x (w_redis w)) w).
Proof.
  intros pk Hc Hv Hl Hx. unfold verify_session_token.
  destruct (String.eqb_spec tok ""); [done|].
  rewrite run_doc_bind, run_doc_now, run_doc_bind. fold digest key.
  rewrite (run_get _ _ _ Hc Hv), run_doc_bind, (run_get _ _ _ Hc Hl). fold pk.
  rewrite run_doc_bind.
  set (v1 := put key (Entry (VStr (session_value pk (w_now w))) (Some (w_now w + SESSION_TTL_SECONDS)%Z)) (w_redis w)).
  destruct (documented_del1 (w_now w) (_session_key tok) v1) as [n1 Hn].
  assert (Hx2 : set_at (_user_sessions_key pk) (del (_session_key tok) v1) = Some x)
    by (unfold v1, key, digest, _session_key, _user_sessions_key, SESSION_KEY_PREFIX, USER_SESSIONS_KEY_PREFIX in *; by at_simpl).
  erewrite run_multi; [reflexivity|done|].
  eapply multi_cons; [by apply doc_set_ex|done|].
  eapply multi_cons; [exact Hn|done|].
  eapply multi_cons; [by apply (doc_srem _ _ _ x)|done|].
  eapply multi_cons; [eapply doc_sadd; [at_simpl; reflexivity|done]|done|].
  cbn [list_to_set foldr]. rewrite !(right_id_L ∅ (∪)). apply multi_nil.
Qed.
End Verify.

(** ** The index of a user's sessions

    [indexed now v]: every session key holds a session of some user until a time at most seven days
    ahead, and is in that user's index, which lives at least as long. *)

Definition in_index (pk d : string) (D : Z) (v : rview) : Prop :=
  exists x DI, rv_keys v !! _user_sessions_key pk = Some (Entry (VSet x) (Some DI)) /\ d ∈ x /\ (D <= DI)%Z.

Record indexed (now : Z) (v : rview) : Prop := {
  ix_session d (e : entry) : rv_keys v !! _session_key d = Some e ->
    exists pk c D, no_bar pk = true /\ e = Entry (VStr (session_value pk c)) (Some D) /\
      (D <= now + SESSION_TTL_SECONDS)%Z /\ in_index pk d D v;
  ix_index pk : exists x, set_at (_user_sessions_key pk) v = Some x;
  ix_deadline pk (e : entry) D : rv_keys v !! _user_sessions_key pk = Some e -> e_deadline e = Some D ->
    (D <= now + (SESSION_ABSOLUTE_MAX_SECONDS + 86400))%Z
}.

Lemma session_key_inj d d' : _session_key d = _session_key d' -> d = d'.
Proof. apply (inj (String.append _)). Qed.
Lemma index_key_inj pk pk' : _user_sessions_key pk = _user_sessions_key pk' -> pk = pk'.
Proof. apply (inj (String.append _)). Qed.
Lemma session_index_ne d pk : _session_key d <> _user_sessions_key pk.
Proof. unfold _session_key, _user_sessions_key, SESSION_KEY_PREFIX, USER_SESSIONS_KEY_PREFIX. string_ne. Qed.
Lemma index_session_ne d pk : _user_sessions_key pk <> _session_key d.
Proof. apply not_eq_sym, session_index_ne. Qed.

(** Decide every comparison of keys. *)
Ltac keys_cases :=
  repeat (first
    [ rewrite (decide_False (P := _session_key _ = _user_sessions_key _)) by apply session_index_ne
    | rewrite (decide_False (P := _user_sessions_key _ = _session_key _)) by apply index_session_ne
    | rewrite keys_put | rewrite keys_del | rewrite keys_touch | rewrite keys_put_set | rewrite keys_publish
    | key_decide
    | match goal with
      | |- context [decide (_session_key ?a = _session_key ?b)] =>
          destruct (decide (_session_key a = _session_key b)) as [Heqk%session_key_inj|?]; [subst|]
      | |- context [decide (_user_sessions_key ?a = _user_sessions_key ?b)] =>
          destruct (decide (_user_sessions_key a = _user_sessions_key b)) as [Heqk%index_key_inj|?]; [subst|]
      end ]).

Lemma indexed_update now v v' pk :
  indexed now v ->
  (forall pk', pk' <> pk -> rv_keys v' !! _user_sessions_key pk' = rv_keys v !! _user_sessions_key pk') ->
  (exists x, set_at (_user_sessions_key pk) v' = Some x) ->
  (forall (e : entry) D, rv_keys v' !! _user_sessions_key pk = Some e -> e_deadline e = Some D ->
    (D <= now + (SESSION_ABSOLUTE_MAX_SECONDS + 86400))%Z) ->
  (forall d (e : entry), rv_keys v' !! _session_key d = Some e ->
    (rv_keys v !! _session_key d = Some e /\
     (forall D, (D <= now + SESSION_TTL_SECONDS)%Z -> in_index pk d D v -> in_index pk d D v')) \/
    (exists c D, no_bar pk = true /\ e = Entry (VStr (session_value pk c)) (Some D) /\
      (D <= now + SESSION_TTL_SECONDS)%Z /\ in_index pk d D v')) ->
  indexed now v'.
Proof.
  intros Hv Hne Hx HD Hs. split.
  - intros d e He. destruct (Hs d e He) as [[Hold Hin]|(c & D & Hnew)]; [|by exists pk, c, D].
    destruct (ix_session _ _ Hv d e Hold) as (pk0 & c & D & Hpk & -> & HDD & Hi).
    exists pk0, c, D. split_and!; try done. destruct (decide (pk0 = pk)) as [->|Hpk0]; [by apply Hin|].
    unfold in_index in *. by rewrite Hne.
  - intros pk0. destruct (decide (pk0 = pk)) as [->|Hpk0]; [done|].
    destruct (ix_index _ _ Hv pk0) as [x0 Hx0]. exists x0. rewrite <- Hx0. by apply set_at_ext, Hne.
  - intros pk0 e D. destruct (decide (pk0 = pk)) as [->|Hpk0]; [apply HD|].
    rewrite Hne by done. apply (ix_deadline _ _ Hv).
Qed.

(** A new session, entered in the index. *)
Lemma indexed_add now v pk d c v' x :
  indexed now v -> no_bar pk = true ->
  (forall pk', pk' <> pk -> rv_keys v' !! _user_sessions_key pk' = rv_keys v !! _user_sessions_key pk') ->
  (forall d' (e : entry), d' <> d -> rv_keys v' !! _session_key d' = Some e -> rv_keys v !! _session_key d' = Some e) ->
  rv_keys v' !! _session_key d = Some (Entry (VStr (session_value pk c)) (Some (now + SESSION_TTL_SECONDS)%Z)) ->
  rv_keys v' !! _user_sessions_key pk =
    Some (Entry (VSet x) (Some (now + (SESSION_ABSOLUTE_MAX_SECONDS + 86400))%Z)) ->
  d ∈ x ->
  (forall y (e : entry) d', set_at (_user_sessions_key pk) v = Some y -> d' ∈ y -> d' <> d ->
     rv_keys v' !! _session_key d' = Some e -> d' ∈ x) ->
  indexed now v'.
Proof.
  intros Hv Hpk Hi Hs Hd Hx Hin Hsub.
  eapply (indexed_update now v v' pk Hv Hi).
  - exists x. unfold set_at. by rewrite Hx.
  - intros e D He HD. rewrite Hx in He. simplify_eq. cbn in HD. simplify_eq. lia.
  - intros d' e He. destruct (decide (d' = d)) as [->|Hne].
    + right. rewrite Hd in He. simplify_eq. exists c, (now + SESSION_TTL_SECONDS)%Z.
      split_and!; try done. exists x, (now + (SESSION_ABSOLUTE_MAX_SECONDS + 86400))%Z. split_and!; try done.
      unfold SESSION_TTL_SECONDS, SESSION_ABSOLUTE_MAX_SECONDS. lia.
    + left. split; [by eapply Hs|]. intros D HD (y & DI & Hy & Hdy & _).
      exists x, (now + (SESSION_ABSOLUTE_MAX_SECONDS + 86400))%Z. split_and!; [done| |].
      * eapply Hsub; [|done..]. unfold set_at. by rewrite Hy.
      * unfold SESSION_TTL_SECONDS, SESSION_ABSOLUTE_MAX_SECONDS in *. lia.
Qed.

(** A session gone, and others' ids without a session removed from the index with it. *)
Lemma indexed_drop now v pk ms d v' x :
  indexed now v -> set_at (_user_sessions_key pk) v = Some x ->
  (forall pk', pk' <> pk -> rv_keys v' !! _user_sessions_key pk' = rv_keys v !! _user_sessions_key pk') ->
  rv_keys v' !! _user_sessions_key pk =
    (if decide (x ∖ ms = ∅) then None else Some (Entry (VSet (x ∖ ms)) (deadline_of (_user_sessions_key pk) v))) ->
  (forall d' (e : entry), rv_keys v' !! _session_key d' = Some e -> d' <> d /\ rv_keys v !! _session_key d' = Some e) ->
  (forall m, m ∈ ms -> m = d \/ rv_keys v !! _session_key m = None) ->
  indexed now v'.
Proof.
  intros Hv Hx Hi Hx' Hs Hms. eapply (indexed_update now v v' pk Hv Hi).
  - exists (x ∖ ms). unfold set_at. rewrite Hx'. case_decide as He; [by rewrite He|done].
  - intros e D He HD. rewrite Hx' in He. case_decide; [done|]. simplify_eq. cbn in HD.
    unfold deadline_of in HD. destruct (rv_keys v !! _user_sessions_key pk) as [e0|] eqn:E; [|done].
    by eapply (ix_deadline _ _ Hv).
  - intros d' e He. left. destruct (Hs d' e He) as [Hne Hold]. split; [done|].
    intros D HD (y & DI & Hy & Hdy & Hle).
    assert (y = x) as -> by (unfold set_at in Hx; rewrite Hy in Hx; by simplify_eq).
    assert (d' ∈ x ∖ ms).
    { apply elem_of_difference. split; [done|]. intros [->|Hn]%Hms; [done|]. rewrite Hold in Hn. done. }
    exists (x ∖ ms), DI. rewrite Hx', decide_False by set_solver. unfold deadline_of. rewrite Hy. done.
Qed.

Lemma indexed_expire now t v : (now <= t)%Z -> indexed now v -> indexed t (expire t v).
Proof.
  intros Ht Hv. split.
  - intros d e. rewrite keys_expire. destruct (rv_keys v !! _session_key d) as [e0|] eqn:E; [|done].
    case_decide as Hl; [|done]. intros ?. simplify_eq.
    destruct (ix_session _ _ Hv d e E) as (pk & c & D & Hpk & -> & HD & x & DI & Hx & Hd & Hle).
    exists pk, c, D. split_and!; [done|done|lia|]. exists x, DI. split_and!; [|done..].
    rewrite keys_expire, Hx, decide_True; [done|]. unfold live_at in *. cbn in *. lia.
  - intros pk. destruct (ix_index _ _ Hv pk) as [x Hx]. unfold set_at in *. rewrite keys_expire.
    destruct (rv_keys v !! _user_sessions_key pk) as [e0|] eqn:E; [|by exists ∅].
    case_decide; [by exists x|by exists ∅].
  - intros pk e D. rewrite keys_expire.
    destruct (rv_keys v !! _user_sessions_key pk) as [e0|] eqn:E; [|done].
    case_decide; [|done]. intros ? HD. simplify_eq. pose proof (ix_deadline _ _ Hv pk e D E HD). lia.
Qed.

(** A session of a key is in the key's index. *)
Lemma session_indexed now v pk created d (dg : string) : indexed now v -> no_bar pk = true ->
  forall x, set_at (_user_sessions_key pk) v = Some x ->
  rv_keys v !! _session_key dg = Some (Entry (VStr (session_value pk created)) d) -> dg ∈ x.
Proof.
  intros Hi Hpk x Hx Hk. destruct (ix_session _ _ Hi _ _ Hk) as (pk' & c & D & Hpk' & [= Hval _] & _ & y & DI & Hy & Hd & _).
  assert (pk' = pk) as ->.
  { pose proof (f_equal (fun s => fst (partition_bar s)) Hval) as E. unfold session_value in E. by rewrite !partition_value in E. }
  unfold set_at in Hx. rewrite Hy in Hx. by injection Hx as <-.
Qed.


(** ** The operations on an indexed server *)

Definition fine (w : vworld) : Prop := calm w /\ indexed (w_now w) (w_redis w).

Section Operations.
  Context `{Sha256}.

(** The server after a session was issued. *)
Definition issued (now : Z) (pk d : string) (x : gset string) (v : rview) : rview :=
  let idx := _user_sessions_key pk in
  let v := put (_session_key d) (Entry (VStr (session_value pk now)) (Some (now + SESSION_TTL_SECONDS)%Z)) v in
  touch idx (now + (SESSION_ABSOLUTE_MAX_SECONDS + 86400))
    (put idx (Entry (VSet (x ∪ list_to_set [d])) (deadline_of idx v)) v).

Lemma run_create (w : vworld) pk x :
  calm w -> set_at (_user_sessions_key pk) (w_redis w) = Some x ->
  run_doc (create_session pk) w =
  (Ok (mkSession (w_tokens w 0) pk (w_now w + SESSION_TTL_SECONDS)),
   set_redis (issued (w_now w) pk (_token_digest (w_tokens w 0)) x (w_redis w))
     (set_tokens (fun n => w_tokens w (S n)) w)).
Proof.
  intros Hc Hx. unfold create_session. rewrite run_doc_bind, run_doc_token.
  set (w1 := set_tokens _ w). assert (Hc1 : calm w1) by exact Hc.
  rewrite run_doc_bind, run_doc_now. cbv zeta.
  rewrite run_doc_bind, run_doc_now, run_doc_bind, run_set_ex by done.
  rewrite run_doc_bind, (run_sadd _ _ x)
    by first [done | cbn [w_redis set_redis]; by rewrite set_at_put_ne by apply session_index_ne].
  rewrite run_doc_bind, run_expire by done. rewrite run_doc_ret. done.
Qed.

Lemma indexed_issued now pk d x v :
  no_bar pk = true -> set_at (_user_sessions_key pk) v = Some x -> indexed now v ->
  indexed now (issued now pk d x v).
Proof.
  intros Hpk Hx Hv. unfold issued.
  eapply (indexed_add now v pk d now _ (x ∪ list_to_set [d]) Hv Hpk).
  - intros pk' Hne. by keys_cases.
  - intros d' e Hne. by keys_cases.
  - by keys_cases.
  - by keys_cases.
  - set_solver.
  - intros y e d' Hy Hd' Hne _. simplify_eq. set_solver.
Qed.

Lemma fine_create pk (w : vworld) : no_bar pk = true -> fine w -> fine (snd (run_doc (create_session pk) w)).
Proof.
  intros Hpk [Hc Hi]. destruct (ix_index _ _ Hi pk) as [x Hx]. rewrite (run_create w pk x) by done.
  split; [exact Hc|]. cbn. by apply indexed_issued.
Qed.

(** What a session key holds. *)
Lemma indexed_value (w : vworld) d : fine w ->
  str_at (_session_key d) (w_redis w) = Some None \/
  exists pk c x D DI, no_bar pk = true /\
    rv_keys (w_redis w) !! _session_key d = Some (Entry (VStr (session_value pk c)) (Some D)) /\
    str_at (_session_key d) (w_redis w) = Some (Some (session_value pk c)) /\
    rv_keys (w_redis w) !! _user_sessions_key pk = Some (Entry (VSet x) (Some DI)) /\
    set_at (_user_sessions_key pk) (w_redis w) = Some x /\ d ∈ x.
Proof.
  intros [_ Hi]. unfold str_at. destruct (rv_keys (w_redis w) !! _session_key d) as [e|] eqn:E; [right|by left].
  destruct (ix_session _ _ Hi d e E) as (pk & c & D & Hpk & -> & _ & x & DI & Hx & Hd & _).
  exists pk, c, x, D, DI. split_and!; try done. unfold set_at. by rewrite Hx.
Qed.

Lemma fine_accept tok (w : vworld) pk c x e :
  fine w -> no_bar pk = true -> set_at (_user_sessions_key pk) (w_redis w) = Some x ->
  _token_digest tok ∈ x ->
  rv_keys (w_redis w) !! _session_key (_token_digest tok) = Some e -> e_val e = VStr (session_value pk c) ->
  fine (snd (run_doc (accept_session tok (w_now w) (session_value pk c)) w)).
Proof.
  intros [Hc Hi] Hpk Hx Hd He Hval. rewrite (run_accept tok _ _ _ _ _ Hc Hpk Hx).
  destruct (_ <? _)%Z; (split; [exact Hc|]); cbn.
  - eapply (indexed_drop _ _ pk {[_token_digest tok]} (_token_digest tok) _ x Hi Hx).
    + intros pk' Hne. by keys_cases.
    + keys_cases. case_decide; [done|]. unfold deadline_of. by rewrite keys_del_ne by apply session_index_ne.
    + intros d' e'. keys_cases; [done|]. split; [congruence|done].
    + intros m ->%elem_of_singleton. by left.
  - destruct (set_at_member _ _ _ _ Hx Hd) as [DI HDI].
    eapply (indexed_add _ _ pk (_token_digest tok) c _ x Hi Hpk).
    + intros pk' Hne. by keys_cases.
    + intros d' e' Hne. by keys_cases.
    + keys_cases. rewrite He. cbn. by rewrite Hval.
    + keys_cases. by rewrite HDI.
    + done.
    + intros y e' d' Hy Hd' _ _. by simplify_eq.
Qed.

Lemma indexed_moved now tok pk x v e :
  indexed now v -> no_bar pk = true ->
  rv_keys v !! _session_key (_token_digest tok) = None -> rv_keys v !! _session_key tok = Some e ->
  set_at (_user_sessions_key pk) v = Some x ->
  indexed now (touch (_user_sessions_key pk) (now + (SESSION_ABSOLUTE_MAX_SECONDS + 86400))
                (touch (_session_key (_token_digest tok)) (now + SESSION_TTL_SECONDS) (moved tok now pk x v))).
Proof.
  intros Hv Hpk Hno Hk Hx. assert (Hne : tok <> _token_digest tok) by congruence.
  assert (Hne' : _session_key tok <> _session_key (_token_digest tok)) by (intros ?%session_key_inj; done).
  unfold moved. cbn zeta.
  eapply (indexed_add now v pk (_token_digest tok) now _ (x ∖ {[tok]} ∪ {[_token_digest tok]}) Hv Hpk).
  - intros pk' Hpk'. by keys_cases.
  - intros d' e' Hd'. by keys_cases.
  - by keys_cases.
  - by keys_cases.
  - set_solver.
  - intros y e' d' Hy Hd' Hdd. simplify_eq. keys_cases; try done; intros _;
      assert (d' <> tok) by congruence; set_solver.
Qed.

Lemma run_verify_empty (w : vworld) : run_doc (verify_session_token "") w = (Ok None, w).
Proof. done. Qed.

Lemma set_at_moved tok now pk x v :
  set_at (_user_sessions_key pk) (moved tok now pk x v) = Some (x ∖ {[tok]} ∪ {[_token_digest tok]}).
Proof. unfold moved. cbn zeta. unfold set_at. by rewrite keys_put_eq. Qed.

Lemma str_at_none k v : str_at k v = Some None <-> rv_keys v !! k = None.
Proof. unfold str_at. destruct (rv_keys v !! k) as [[[] ?]|]; naive_solver. Qed.

Lemma run_verify_move tok (w : vworld) pk c x :
  tok <> "" -> calm w -> no_bar pk = true ->
  str_at (_session_key (_token_digest tok)) (w_redis w) = Some None ->
  str_at (_session_key tok) (w_redis w) = Some (Some (session_value pk c)) ->
  set_at (_user_sessions_key pk) (w_redis w) = Some x ->
  run_doc (verify_session_token tok) w =
  (Ok (Some (mkSession tok pk (w_now w + SESSION_TTL_SECONDS))),
   set_redis (touch (_user_sessions_key pk) (w_now w + (SESSION_ABSOLUTE_MAX_SECONDS + 86400))
                (touch (_session_key (_token_digest tok)) (w_now w + SESSION_TTL_SECONDS)
                   (moved tok (w_now w) pk x (w_redis w)))) w).
Proof.
  intros Htok Hc Hpk Hd Hk Hx.
  assert (Hp : fst (partition_bar (session_value pk c)) = pk) by (unfold session_value; by rewrite partition_value).
  rewrite (run_verify_legacy tok Htok w _ x Hc Hd Hk) by by rewrite Hp. rewrite Hp.
  rewrite (run_accept tok _ _ _ _ (x ∖ {[tok]} ∪ {[_token_digest tok]})); [|exact Hc|done|apply set_at_moved].
  by rewrite Z.sub_diag.
Qed.

Lemma fine_verify tok (w : vworld) : fine w -> fine (snd (run_doc (verify_session_token tok) w)).
Proof.
  intros Hf. destruct (decide (tok = "")) as [->|Htok]; [done|]. pose proof Hf as [Hc Hi].
  destruct (indexed_value w (_token_digest tok) Hf) as [Hd|(pk & c & x & D & DI & Hpk & Hk & Hs & Hx & Hx' & Hin)].
  - destruct (indexed_value w tok Hf) as [Hl|(pk & c & x & D & DI & Hpk & Hk & Hs & Hx & Hx' & Hin)].
    + by rewrite run_verify_miss.
    + rewrite (run_verify_move tok w pk c x) by done. split; [exact Hc|]. cbn.
      eapply indexed_moved; [done..|by apply str_at_none|done|done].
  - rewrite (run_verify_hit tok Htok w _ Hc Hs). by eapply fine_accept.
Qed.
Definition revoked_note (pk : string) (o : option string) (v : rview) : rview :=
  publish ("morok:inbox:channel:" +:+ pk) (session_revoked_event o) v.

Lemma run_publish_revoked pk o (w : vworld) :
  calm w -> run_doc (_publish_session_revoked pk o) w = (Ok tt, set_redis (revoked_note pk o (w_redis w)) w).
Proof. intros Hc. unfold _publish_session_revoked. rewrite run_doc_try. by erewrite run_cmd. Qed.

(** The key a token's session is found under. *)
Definition found_under (tok : string) (v : rview) : string :=
  if decide (rv_keys v !! _session_key (_token_digest tok) = None) then tok else _token_digest tok.

Lemma run_revoke tok (w : vworld) raw e x :
  let k := _session_key (found_under tok (w_redis w)) in
  let idx := _user_sessions_key (fst (partition_bar raw)) in
  calm w -> rv_keys (w_redis w) !! k = Some e -> e_val e = VStr raw ->
  set_at idx (w_redis w) = Some x ->
  run_doc (revoke_session tok) w =
  (Ok true,
   set_redis (revoked_note (fst (partition_bar raw)) (Some tok)
     (put_set idx (x ∖ list_to_set [tok; _token_digest tok]) (del k (w_redis w)))) w).
Proof.
  intros k idx Hc Hk He Hx. unfold revoke_session. rewrite run_doc_bind.
  assert (Hstr : str_at k (w_redis w) = Some (Some raw)) by (unfold str_at; rewrite Hk; by destruct e; cbn in *; subst).
  assert (Hrest : run_doc
    (let! deleted := redis_ (rcall (DEL [k]) as_int) in
     let! _ := cmd_ (SREM idx [tok; _token_digest tok]) in
     let! _ := _publish_session_revoked (fst (partition_bar raw)) (Some tok) in
     ret (0 <? deleted)%Z) w = (Ok true, set_redis (revoked_note (fst (partition_bar raw)) (Some tok)
     (put_set idx (x ∖ list_to_set [tok; _token_digest tok]) (del k (w_redis w)))) w)).
  { rewrite run_doc_bind, run_doc_redis, rrun_rcall by done. cbn [documented foldl]. rewrite Hk. cbn [fst snd as_int res_of].
    rewrite run_doc_bind, (run_srem _ _ x), run_doc_bind, run_publish_revoked
      by first [done | cbn [w_redis set_redis]; by rewrite set_at_del_ne by apply session_index_ne].
    done. }
  unfold k, found_under in *. clear k. case_decide as Hno.
  - rewrite (run_get _ None) by (done || by apply str_at_none).
    rewrite run_doc_bind, run_doc_bind, (run_get _ _ _ Hc Hstr), run_doc_ret. exact Hrest.
  - rewrite (run_get _ _ _ Hc Hstr), run_doc_bind, run_doc_ret. exact Hrest.
Qed.

Lemma run_revoke_unknown tok (w : vworld) :
  calm w -> rv_keys (w_redis w) !! _session_key (_token_digest tok) = None ->
  rv_keys (w_redis w) !! _session_key tok = None ->
  run_doc (revoke_session tok) w = (Ok false, w).
Proof.
  intros Hc Hd%str_at_none Hl%str_at_none. unfold revoke_session.
  rewrite run_doc_bind, (run_get _ _ _ Hc Hd), run_doc_bind, run_doc_bind, (run_get _ _ _ Hc Hl).
  done.
Qed.

(** No token is at once the digest of another live one. *)
Definition unambiguous (tok : string) (v : rview) : Prop :=
  rv_keys v !! _session_key tok = None \/ rv_keys v !! _session_key (_token_digest tok) = None.

Lemma fine_revoke tok (w : vworld) :
  unambiguous tok (w_redis w) -> fine w -> fine (snd (run_doc (revoke_session tok) w)).
Proof.
  intros Hu Hf. pose proof Hf as [Hc Hi].
  destruct (indexed_value w (found_under tok (w_redis w)) Hf) as [Hd|(pk & c & x & D & DI & Hpk & Hk & _ & _ & Hx & _)].
  - assert (rv_keys (w_redis w) !! _session_key (_token_digest tok) = None /\
            rv_keys (w_redis w) !! _session_key tok = None) as [H1 H2].
    { apply str_at_none in Hd. unfold found_under in Hd. case_decide; tauto. }
    by rewrite run_revoke_unknown.
  - assert (Hp : fst (partition_bar (session_value pk c)) = pk) by (unfold session_value; by rewrite partition_value).
    erewrite (run_revoke tok w (session_value pk c) _ x Hc Hk); [|done|by rewrite Hp]. rewrite Hp.
    split; [exact Hc|]. cbn [snd set_redis w_redis w_now]. unfold revoked_note.
    eapply (indexed_drop _ _ pk (list_to_set [tok; _token_digest tok]) (found_under tok (w_redis w)) _ x Hi Hx).
    + intros pk' Hne. by keys_cases.
    + keys_cases. case_decide; [done|]. unfold deadline_of. by rewrite keys_del_ne by apply session_index_ne.
    + intros d' e'. keys_cases; [done|]. split; [congruence|done].
    + intros m Hm. unfold found_under, unambiguous in *. case_decide; destruct Hu; set_solver.
Qed.

(** What revoking all sessions leaves. *)
Lemma run_revoke_all pk (w : vworld) x :
  calm w -> set_at (_user_sessions_key pk) (w_redis w) = Some x ->
  exists n v', run_doc (revoke_all_sessions pk) w = (Ok n, set_redis v' w) /\
    rv_pub v' = rv_pub (w_redis w) ++ [("morok:inbox:channel:" +:+ pk, session_revoked_event None)] /\
    set_at (_user_sessions_key pk) v' = Some ∅ /\
    (rv_keys v' !! _user_sessions_key pk = None \/
     rv_keys v' !! _user_sessions_key pk = rv_keys (w_redis w) !! _user_sessions_key pk) /\
    (forall d, rv_keys v' !! _session_key d = if decide (d ∈ x) then None else rv_keys (w_redis w) !! _session_key d) /\
    (forall pk', pk' <> pk -> rv_keys v' !! _user_sessions_key pk' = rv_keys (w_redis w) !! _user_sessions_key pk').
Proof.
  intros Hc Hx. unfold revoke_all_sessions.
  assert (Hm : run_doc (redis_ (rcall (SMEMBERS (_user_sessions_key pk)) as_members)) w = (Ok x, w)).
  { rewrite run_doc_redis, rrun_rcall by done. cbn. rewrite Hx. by destruct w. }
  rewrite run_doc_bind, Hm. destruct (decide (x = ∅)) as [->|Hne].
  - rewrite run_doc_bind, run_publish_revoked by done. exists 0%Z, (revoked_note pk None (w_redis w)).
    split_and!; try done. by right.
  - set (ks := map _session_key (elements x)).
    destruct (documented_del (w_now w) ks (w_redis w)) as (n & Hn & Hk).
    pose proof (pub_documented_del (w_now w) ks (w_redis w)) as Hpub.
    set (v1 := snd (documented (w_now w) (DEL ks) (w_redis w))) in *.
    destruct (documented_del1 (w_now w) (_user_sessions_key pk) v1) as [n2 Hn2].
    rewrite run_doc_bind, (run_pipeline _ [RInt n; RInt n2] (del (_user_sessions_key pk) v1)).
    2: done.
    2: { split; [done|]. exists v1. split; [unfold pipe_cmd; cbn [rrun_doc]; by rewrite Hn|].
         split; [done|]. eexists. split; [unfold pipe_cmd; cbn [rrun_doc]; rewrite Hn2; reflexivity|done]. }
    rewrite run_doc_bind, run_publish_revoked by done.
    exists n, (revoked_note pk None (del (_user_sessions_key pk) v1)). split_and!.
    + done.
    + unfold revoked_note. at_simpl. by rewrite Hpub.
    + unfold revoked_note. by at_simpl.
    + left. unfold revoked_note. by at_simpl.
    + intros d. unfold revoked_note. rewrite keys_publish, keys_del_ne, Hk by apply index_session_ne.
      apply decide_ext. unfold ks. rewrite list_elem_of_fmap. split.
      * intros (d' & Hd & Hin). apply session_key_inj in Hd as ->. set_solver.
      * intros Hin. exists d. set_solver.
    + intros pk' Hne'. unfold revoked_note. rewrite keys_publish, keys_del_ne, Hk
        by (intros ?%index_key_inj; congruence).
      rewrite decide_False; [done|]. unfold ks. intros (d & Hd & _)%list_elem_of_fmap.
      by apply index_session_ne in Hd.
Qed.

Lemma fine_revoke_all pk (w : vworld) : fine w -> fine (snd (run_doc (revoke_all_sessions pk) w)).
Proof.
  intros [Hc Hi]. destruct (ix_index _ _ Hi pk) as [x Hx].
  destruct (run_revoke_all pk w x Hc Hx) as (n & v' & -> & _ & He & Hix & Hs & Hne).
  split; [exact Hc|]. cbn. eapply (indexed_update _ _ _ pk Hi Hne).
  - by exists ∅.
  - intros e D HeD HD. destruct Hix as [Hix|Hix]; rewrite Hix in HeD; [done|].
    by eapply (ix_deadline _ _ Hi).
  - intros d e. rewrite Hs. case_decide as Hd; [done|]. intros Hold. left. split; [done|].
    intros D _ (y & DI & Hy & Hdy & _). unfold set_at in Hx. rewrite Hy in Hx. by simplify_eq.
Qed.

(** After it no token of the user verifies. *)
Lemma verify_gives_indexed tok (w w' : vworld) s :
  fine w -> run_doc (verify_session_token tok) w = (Ok (Some s), w') ->
  exists d x, set_at (_user_sessions_key (pubkey_hex s)) (w_redis w) = Some x /\ d ∈ x /\
    rv_keys (w_redis w) !! _session_key d <> None.
Proof.
  intros Hf Hrun. pose proof Hf as [Hc _]. destruct (decide (tok = "")) as [->|Htok]; [done|].
  destruct (indexed_value w (_token_digest tok) Hf) as [Hd|(pk & c & x & D & DI & Hpk & Hk & Hs & Hx & Hx' & Hin)].
  - destruct (indexed_value w tok Hf) as [Hl|(pk & c & x & D & DI & Hpk & Hk & Hs & Hx & Hx' & Hin)].
    + by rewrite run_verify_miss in Hrun.
    + rewrite (run_verify_move tok w pk c x) in Hrun by done. simplify_eq. exists tok, x. by rewrite Hk.
  - rewrite (run_verify_hit tok Htok w _ Hc Hs), (run_accept tok _ _ _ _ _ Hc Hpk Hx') in Hrun.
    destruct (_ <? _)%Z; simplify_eq. exists (_token_digest tok), x. by rewrite Hk.
Qed.
End Operations.

(** ** Histories *)

Section Histories.
  Context `{Redis} `{Sha256}.

(** One operation, from start to end, or time passing. *)
Inductive session_step : world rstore -> world rstore -> Prop :=
| step_create w pk : no_bar pk = true -> session_step w (snd (run (create_session pk) w))
| step_verify w tok : session_step w (snd (run (verify_session_token tok) w))
| step_revoke w tok : unambiguous tok (w_redis (absw w)) -> session_step w (snd (run (revoke_session tok) w))
| step_revoke_all w pk : session_step w (snd (run (revoke_all_sessions pk) w))
| step_wait w t : (w_now w <= t)%Z -> session_step w (set_now t w).

Lemma fine_step w w' : session_step w w' -> fine (absw w) -> fine (absw w').
Proof.
  intros Hs Hf. destruct Hs as [w pk Hpk|w tok|w tok Hu|w pk|w t Ht]; rewrite ?snd_run_absw.
  - by apply fine_create.
  - by apply fine_verify.
  - by apply fine_revoke.
  - by apply fine_revoke_all.
  - rewrite absw_later by done. destruct Hf as [Hc Hi]. split; [exact Hc|]. by apply (indexed_expire (w_now w)).
Qed.

Lemma fine_steps w w' : rtc session_step w w' -> fine (absw w) -> fine (absw w').
Proof. induction 1; [done|]. eauto using fine_step. Qed.

Lemma fine_empty (w : world rstore) : calm w -> rv_keys (w_redis (absw w)) = ∅ -> fine (absw w).
Proof.
  intros Hc He. split; [exact Hc|]. split.
  - intros d e. by rewrite He, lookup_empty.
  - intros pk. exists ∅. unfold set_at. by rewrite He, lookup_empty.
  - intros pk e D. by rewrite He, lookup_empty.
Qed.

(** C17: logging out everywhere works.  After any history of logins, verifications, single logouts
    and waiting that starts on an empty server, once [revoke_all_sessions] returned for a user, no
    text at all verifies as a session of that user, and every connected client was told. *)
Theorem logout_everywhere (w0 w : world rstore) pk :
  calm w0 -> rv_keys (w_redis (absw w0)) = ∅ -> rtc session_step w0 w ->
  exists n w1, observe (revoke_all_sessions pk) w = (Ok n, w1) /\
    rv_pub (w_redis w1) = rv_pub (w_redis (absw w)) ++
      [("morok:inbox:channel:" +:+ pk, session_revoked_event None)] /\
    forall tok s w2, run_doc (verify_session_token tok) w1 = (Ok (Some s), w2) -> pubkey_hex s <> pk.
Proof.
  intros Hc He Hs. assert (Hf : fine (absw w)) by (eapply fine_steps; [done|by apply fine_empty]).
  pose proof (fine_revoke_all pk _ Hf) as Hf1. pose proof Hf as [Hcw Hi].
  destruct (ix_index _ _ Hi pk) as [x Hx].
  destruct (run_revoke_all pk _ x Hcw Hx) as (n & v' & Hrun & Hpub & Hidx & _).
  rewrite Hrun in Hf1. exists n, (set_redis v' (absw w)). rewrite observe_doc. split_and!; [done..|].
  intros tok s w2 Hv <-. destruct (verify_gives_indexed _ _ _ _ Hf1 Hv) as (d & y & Hy & Hd & _).
  cbn [snd w_redis set_redis] in Hy. rewrite Hidx in Hy. simplify_eq. set_solver.
Qed.
End Histories.

(** ** Lifetimes *)

Section Lifetimes.
  Context `{Redis} `{Sha256}.

(** A session slides and ends.  While it is at most thirty days old a verification returns it
    and sets its end to seven days from now (the index outlives it); past thirty days it is refused
    and removed with its index entry, however often it was used; no other key changes. *)
Theorem verify_slides_to_ceiling tok pk c x (w : world rstore) :
  let v := w_redis (absw w) in
  let key := _session_key (_token_digest tok) in
  let idx := _user_sessions_key pk in
  calm w -> tok <> "" -> no_bar pk = true -> _token_digest tok ∈ x ->
  str_at key v = Some (Some (session_value pk c)) -> set_at idx v = Some x ->
  exists r w1, observe (verify_session_token tok) w = (Ok r, w1) /\
    (if (w_now w - c <=? SESSION_ABSOLUTE_MAX_SECONDS)%Z
     then r = Some (mkSession tok pk (w_now w + SESSION_TTL_SECONDS)) /\
          holds key (session_value pk c) (w_now w + SESSION_TTL_SECONDS) (w_redis w1) /\
          rv_keys (w_redis w1) !! idx = Some (Entry (VSet x) (Some (w_now w + (SESSION_ABSOLUTE_MAX_SECONDS + 86400))%Z))
     else r = None /\ rv_keys (w_redis w1) !! key = None /\ set_at idx (w_redis w1) = Some (x ∖ {[_token_digest tok]})) /\
    (forall k, k <> key -> k <> idx -> rv_keys (w_redis w1) !! k = rv_keys v !! k).
Proof.
  intros v key idx Hc Htok Hpk Hd Hs Hx. rewrite observe_doc.
  rewrite (run_verify_hit tok Htok (absw w) _ Hc Hs), (run_accept tok (absw w) _ _ _ _ Hc Hpk Hx).
  fold key idx v. rewrite Z.ltb_antisym. change (w_now (absw w)) with (w_now w).
  destruct (w_now w - c <=? SESSION_ABSOLUTE_MAX_SECONDS)%Z; cbn [negb]; eexists _, _; (split; [done|]);
    cbn [w_redis set_redis].
  - split.
    + destruct (set_at_member _ _ _ _ Hx Hd) as [DI HDI]. unfold str_at in Hs.
      destruct (rv_keys v !! key) as [[[] D]|] eqn:Ek; simplify_eq. unfold key, idx in *.
      split_and!; [done| |].
      * unfold holds. keys_cases. by rewrite Ek.
      * keys_cases. by rewrite HDI.
    + intros k Hk1 Hk2. by rewrite !keys_touch_ne by congruence.
  - split.
    + split; [done|]. unfold key, idx. split; [by keys_cases|]. by at_simpl.
    + intros k Hk1 Hk2. by rewrite keys_put_set_ne, keys_del_ne by congruence.
Qed.

Lemma run_alive tok (w : vworld) o :
  tok <> "" -> calm w -> str_at (_session_key (_token_digest tok)) (w_redis w) = Some o ->
  (o = None -> str_at (_session_key tok) (w_redis w) = Some None) ->
  run_doc (is_session_alive tok) w =
  (Ok (match o with Some raw => negb (over_ceiling (w_now w) (snd (partition_bar raw))) | None => false end), w).
Proof.
  intros Htok Hc Ho Hl. unfold is_session_alive. destruct (String.eqb_spec tok ""); [done|].
  rewrite run_doc_bind, (run_get _ _ _ Hc Ho), run_doc_bind. destruct o as [raw|].
  - rewrite run_doc_ret. unfold over_ceiling. destruct (String.eqb _ ""); [done|].
    destruct (py_int _); [by rewrite run_doc_bind|]. by rewrite Z.sub_diag.
  - by rewrite (run_get _ _ _ Hc (Hl eq_refl)).
Qed.


(** But what is stored is itself a token.  The digest that Redis holds of a session, presented
    as a bearer token, goes through the migration branch: it is accepted as a session of that user
    whatever the age of the session, the session moves under the digest of the digest (so the real
    token is logged out), and its age starts again from now.  Hashing at rest does not protect the
    sessions, and the thirty-day ceiling can be renewed for ever by who holds a token. *)
Theorem stored_digest_is_a_token tok pk c x (w : world rstore) :
  let v := w_redis (absw w) in
  let d := _token_digest tok in
  calm w -> d <> "" -> no_bar pk = true ->
  str_at (_session_key d) v = Some (Some (session_value pk c)) ->
  str_at (_session_key (_token_digest d)) v = Some None ->
  set_at (_user_sessions_key pk) v = Some x ->
  exists w1, observe (verify_session_token d) w =
      (Ok (Some (mkSession d pk (w_now w + SESSION_TTL_SECONDS))), w1) /\
    rv_keys (w_redis w1) !! _session_key d = None /\
    holds (_session_key (_token_digest d)) (session_value pk (w_now w)) (w_now w + SESSION_TTL_SECONDS) (w_redis w1).
Proof.
  intros v d Hc Hd Hpk Hs Hn Hx. rewrite observe_doc, (run_verify_move d (absw w) pk c x) by done.
  assert (Hne : _session_key d <> _session_key (_token_digest d)) by congruence.
  assert (d <> _token_digest d) by (intros E; by rewrite <- E in Hne).
  eexists. split; [done|]. cbn [w_redis set_redis]. unfold moved. cbn zeta. split.
  - by keys_cases.
  - unfold holds. by keys_cases.
Qed.

(** A user without a live session can count as having one.  [has_any_live_session] counts the
    index, whose entries outlive the sessions: a user who logged in once and did nothing for seven
    days has no token that is alive, yet [has_any_live_session] says yes until the 31st day. *)
Theorem index_outlives_sessions pk (w : world rstore) (t : Z) :
  calm w -> rv_keys (w_redis (absw w)) = ∅ ->
  (w_now w + SESSION_TTL_SECONDS <= t < w_now w + (SESSION_ABSOLUTE_MAX_SECONDS + 86400))%Z ->
  let w1 := set_now t (snd (run (create_session pk) w)) in
  fst (observe (has_any_live_session pk) w1) = Ok true /\
  forall tok, fst (observe (is_session_alive tok) w1) = Ok false.
Proof.
  intros Hc He Ht w1.
  assert (Hx : set_at (_user_sessions_key pk) (w_redis (absw w)) = Some ∅) by (unfold set_at; by rewrite He, lookup_empty).
  pose proof (run_create (absw w) pk ∅ Hc Hx) as Hrun.
  set (d := _token_digest (w_tokens (absw w) 0)) in Hrun.
  pose proof (f_equal snd Hrun) as Hw. rewrite <- snd_run_absw in Hw.
  assert (Hnow : w_now (snd (run (create_session pk) w)) = w_now w) by exact (f_equal w_now Hw).
  assert (Haw : absw w1 = later t (absw (snd (run (create_session pk) w))))
    by (apply absw_later; rewrite Hnow; unfold SESSION_TTL_SECONDS in Ht; lia).
  assert (Hkeys : forall k, rv_keys (w_redis (absw w1)) !! k =
            if decide (k = _user_sessions_key pk)
            then Some (Entry (VSet (∅ ∪ list_to_set [d])) (Some (w_now w + (SESSION_ABSOLUTE_MAX_SECONDS + 86400))%Z)) else None).
  { intros k. rewrite Haw. cbn [later w_redis set_redis]. rewrite keys_expire, Hw. cbn [snd w_redis set_redis].
    unfold issued. cbn zeta. rewrite keys_touch.
    destruct (decide (k = _user_sessions_key pk)) as [->|Hk].
    - rewrite !decide_True, keys_put_eq by done. cbn [fmap option_fmap option_map e_val].
      rewrite decide_True; [done|]. unfold live_at. cbn. lia.
    - rewrite decide_False, keys_put_ne, keys_put by congruence. case_decide as Hkd.
      + rewrite decide_False; [done|]. unfold live_at. cbn. lia.
      + by rewrite He, lookup_empty. }
  assert (Hcalm : calm (absw w1)) by (rewrite Haw, Hw; exact Hc).
  split.
  - rewrite observe_doc. unfold has_any_live_session. rewrite run_doc_bind, run_doc_redis, rrun_rcall by done.
    cbn [documented]. unfold set_at. rewrite Hkeys, decide_True by done. cbn [fst snd as_int res_of].
    rewrite run_doc_ret. cbn [fst]. rewrite (proj2 (Z.eqb_neq _ _)); [done|].
    enough (size (∅ ∪ list_to_set [d] : gset string) <> 0) by lia. intros Hz%size_empty_inv. set_solver.
  - intros tok. destruct (decide (tok = "")) as [->|Htok]; [done|].
    assert (Hno : forall d', str_at (_session_key d') (w_redis (absw w1)) = Some None).
    { intros d'. apply str_at_none. rewrite Hkeys, decide_False by apply session_index_ne. done. }
    by rewrite observe_doc, (run_alive tok _ None Htok Hcalm (Hno _)).
Qed.

(** ** Tickets and challenges *)

Lemma run_consume_ticket ticket (w : vworld) o :
  calm w -> str_at (ws_ticket_key ticket) (w_redis w) = Some o ->
  run_doc (consume_ws_ticket ticket) w =
  (Ok o, set_redis (match o with Some _ => del (ws_ticket_key ticket) (w_redis w) | None => w_redis w end) w).
Proof.
  intros Hc Ho. unfold consume_ws_ticket. rewrite run_doc_redis, rrun_rcall by done. cbn [documented].
  rewrite Ho. by destruct o.
Qed.

Lemma run_consume_challenge ch (w : vworld) o :
  calm w -> str_at (_challenge_key ch) (w_redis w) = Some o ->
  run_doc (consume_challenge ch) w = (Ok o, set_redis (del (_challenge_key ch) (w_redis w)) w).
Proof.
  intros Hc Ho. unfold consume_challenge. rewrite run_doc_bind.
  destruct (documented_del1 (w_now w) (_challenge_key ch) (w_redis w)) as [n Hn].
  erewrite run_multi; [|done|].
  2: { eapply multi_cons; [cbn [documented]; rewrite Ho; reflexivity|by destruct o|].
       eapply multi_cons; [exact Hn|done|apply multi_nil]. }
  rewrite run_doc_ret. by destruct o.
Qed.

(** A text stored until [d], read at [t]; and once it is gone, it stays gone. *)
Lemma str_at_until k s d t v :
  rv_keys v !! k = Some (Entry (VStr s) (Some d)) ->
  str_at k (expire t v) = Some (if (t <? d)%Z then Some s else None).
Proof.
  intros Hk. unfold str_at. rewrite keys_expire, Hk. unfold live_at. cbn.
  destruct (Z.ltb_spec t d); [by rewrite decide_True|rewrite decide_False; [done|lia]].
Qed.

Lemma str_at_gone k t v : rv_keys v !! k = None -> str_at k (expire t v) = Some None.
Proof. intros Hk. apply str_at_none. by rewrite keys_expire, Hk. Qed.

(** A challenge works once.  A challenge stored for a key is consumed as that key within its
    sixty seconds; after the time, or after having been consumed, it is unknown at every later
    time. *)
Theorem challenge_once ch pk (w : world rstore) (t t' : Z) :
  calm w -> (w_now w <= t <= t')%Z ->
  let stored := snd (run (store_challenge ch pk) w) in
  let first := run (consume_challenge ch) (set_now t stored) in
  fst first = Ok (if (t <? w_now w + CHALLENGE_TTL_SECONDS)%Z then Some pk else None) /\
  fst (observe (consume_challenge ch) (set_now t' (snd first))) = Ok None.
Proof.
  intros Hc Ht stored first.
  pose proof (snd_run_absw (store_challenge ch pk) w) as Hst. unfold store_challenge in Hst at 2.
  rewrite run_set_ex in Hst by done. fold stored in Hst. cbn [snd] in Hst.
  assert (Hn : w_now stored = w_now w) by exact (f_equal w_now Hst).
  assert (Ha : absw (set_now t stored) = later t (absw stored)) by (apply absw_later; lia).
  assert (Hrun : run_doc (consume_challenge ch) (absw (set_now t stored)) =
            (Ok (if (t <? w_now w + CHALLENGE_TTL_SECONDS)%Z then Some pk else None),
             set_redis (del (_challenge_key ch) (w_redis (absw (set_now t stored)))) (absw (set_now t stored)))).
  { apply run_consume_challenge; [rewrite Ha, Hst; exact Hc|]. rewrite Ha, Hst. cbn [later w_redis set_redis].
    erewrite str_at_until by apply keys_put_eq. done. }
  split; [unfold first; by rewrite fst_run, Hrun|].
  pose proof (snd_run_absw (consume_challenge ch) (set_now t stored)) as Hs1. fold first in Hs1. rewrite Hrun in Hs1.
  cbn [snd] in Hs1. assert (Hn1 : w_now (snd first) = t) by exact (f_equal w_now Hs1).
  rewrite observe_doc, absw_later, Hs1 by lia.
  rewrite (run_consume_challenge ch _ None); [done|rewrite Ha, Hst; exact Hc|].
  cbn [later w_redis set_redis]. apply str_at_gone. apply keys_del_eq.
Qed.

(** A ticket works once.  The ticket issued for a user opens one socket of that user within
    twenty-five seconds; after the time, or after having been consumed, it is unknown at every
    later time. *)
Theorem ws_ticket_once pk (w : world rstore) (t t' : Z) :
  let ticket := w_tokens w 0 in
  calm w -> (w_now w <= t <= t')%Z -> rv_keys (w_redis (absw w)) !! ws_ticket_key ticket = None ->
  let issued := run (issue_ws_ticket pk) w in
  let first := run (consume_ws_ticket ticket) (set_now t (snd issued)) in
  fst issued = Ok ticket /\
  fst first = Ok (if (t <? w_now w + WS_TICKET_TTL_SECONDS)%Z then Some pk else None) /\
  fst (observe (consume_ws_ticket ticket) (set_now t' (snd first))) = Ok None.
Proof.
  intros ticket Hc Ht Hfree issued first.
  set (w1 := set_tokens (fun n => w_tokens w (S n)) (absw w)).
  assert (Hi : run_doc (issue_ws_ticket pk) (absw w) =
    (Ok ticket, set_redis (put (ws_ticket_key ticket)
        (Entry (VStr pk) (Some (w_now w + WS_TICKET_TTL_SECONDS)%Z)) (w_redis (absw w))) w1)).
  { unfold issue_ws_ticket. rewrite run_doc_bind, run_doc_token, run_doc_bind.
    erewrite run_cmd; [by rewrite run_doc_ret|exact Hc| |].
    - rewrite doc_set_nx_ex by done. cbn [w_redis set_tokens]. change (w_tokens (absw w) 0) with ticket. by rewrite Hfree.
    - done. }
  pose proof (snd_run_absw (issue_ws_ticket pk) w) as Hst. rewrite Hi in Hst. fold issued in Hst. cbn [snd] in Hst.
  assert (Hn : w_now (snd issued) = w_now w) by exact (f_equal w_now Hst).
  assert (Ha : absw (set_now t (snd issued)) = later t (absw (snd issued))) by (apply absw_later; lia).
  set (o := if (t <? w_now w + WS_TICKET_TTL_SECONDS)%Z then Some pk else None).
  assert (Ho : str_at (ws_ticket_key ticket) (w_redis (absw (set_now t (snd issued)))) = Some o).
  { rewrite Ha, Hst. cbn [later w_redis set_redis]. by erewrite str_at_until by apply keys_put_eq. }
  assert (Hc1 : calm (absw (set_now t (snd issued)))) by (rewrite Ha, Hst; exact Hc).
  pose proof (run_consume_ticket ticket _ o Hc1 Ho) as Hrun.
  split; [unfold issued; by rewrite fst_run, Hi|]. split; [unfold first; by rewrite fst_run, Hrun|].
  pose proof (snd_run_absw (consume_ws_ticket ticket) (set_now t (snd issued))) as Hs1.
  fold first in Hs1. rewrite Hrun in Hs1. cbn [snd] in Hs1.
  assert (Hn1 : w_now (snd first) = t) by exact (f_equal w_now Hs1).
  rewrite observe_doc, absw_later, Hs1 by lia.
  rewrite (run_consume_ticket ticket _ None); [done|exact Hc1|]. cbn [later w_redis set_redis].
  destruct o; apply str_at_gone; [apply keys_del_eq|by apply str_at_none].
Qed.
End Lifetimes.

(** ** Witnesses *)

Module SessionDemo.
#[local] Instance demo_sha : Sha256 := fun s => "#" +:+ s.

Definition start : world (rstore (Redis := Mem_Redis)) :=
  World 1000%Z (View ∅ ∅ []) empty_db empty_db ∅ [] (fun _ => "secret") [] no_network [].
Definition logged_in : world (rstore (Redis := Mem_Redis)) := snd (run (create_session "alice") start).

Lemma logout_witness :
  exists n w1, observe (revoke_all_sessions "alice") logged_in = (Ok n, w1) /\
    forall tok s w2, run_doc (verify_session_token tok) w1 = (Ok (Some s), w2) -> pubkey_hex s <> "alice".
Proof.
  destruct (logout_everywhere start logged_in "alice") as (n & w1 & H1 & _ & H2).
  - reflexivity.
  - vm_compute. reflexivity.
  - apply rtc_once. apply (step_create start "alice"). reflexivity.
  - exists n, w1. split; [exact H1|exact H2].
Defined.

Lemma verify_slides_witness :
  exists r w1, observe (verify_session_token "secret") (set_now 5000 logged_in) = (Ok r, w1) /\
    r = Some (mkSession "secret" "alice" 609800).
Proof.
  destruct (verify_slides_to_ceiling "secret" "alice" 1000 {["23736563726574"]} (set_now 5000 logged_in)) as (r & w1 & H1 & H2 & _).
  - reflexivity.
  - discriminate.
  - reflexivity.
  - apply elem_of_singleton. vm_compute. reflexivity.
  - vm_compute. reflexivity.
  - vm_compute. reflexivity.
  - exists r, w1. split; [exact H1|]. destruct H2 as [H2 _]. exact H2.
Defined.


Lemma stored_digest_witness :
  exists w1, observe (verify_session_token "23736563726574") (set_now 5000 logged_in) =
    (Ok (Some (mkSession "23736563726574" "alice" 609800)), w1).
Proof.
  destruct (stored_digest_is_a_token "secret" "alice" 1000 {["23736563726574"]} (set_now 5000 logged_in)) as (w1 & H & _).
  - reflexivity.
  - discriminate.
  - reflexivity.
  - vm_compute. reflexivity.
  - vm_compute. reflexivity.
  - vm_compute. reflexivity.
  - exists w1. exact H.
Defined.

Lemma index_outlives_witness :
  fst (observe (has_any_live_session "alice") (set_now 700000 logged_in)) = Ok true.
Proof.
  apply (index_outlives_sessions "alice" start 700000);
    [reflexivity|vm_compute; reflexivity|vm_compute; split; congruence].
Defined.

Lemma challenge_witness :
  fst (run (consume_challenge "c") (set_now 1030 (snd (run (store_challenge "c" "alice") start)))) = Ok (Some "alice").
Proof. apply (challenge_once "c" "alice" start 1030 1040); [reflexivity|vm_compute; split; congruence]. Defined.

Lemma ticket_witness : fst (run (issue_ws_ticket "alice") start) = Ok "secret".
Proof.
  apply (ws_ticket_once "alice" start 1010 1020);
    [reflexivity|vm_compute; split; congruence|vm_compute; reflexivity].
Defined.
End SessionDemo.
