(* ===== verification/RateLimit.v ===== *)
(** * Rate limits and WebSocket slots (rate_limit.py)

    A fixed window per minute in Redis, with a counter in the memory of the process as a reserve for
    the critical buckets.  That counter is the state [LocalFallbackLimiter], passed through
    [check_rate_limit] explicitly; a synchronous method, it is never interrupted.

    Settings are arguments.  [str.lower] and slicing are on ASCII text; times are whole seconds; the
    Retry-After header of the 429 response is left out. *)

From Stdlib Require Import Ascii String.
From stdpp Require Import prelude gmap strings list.
From S2P Require Import Prelude Json Codec RedisStore Models Effects.

#[local] Open Scope morok_scope.

(** ** The reserve in the memory of the process *)

Definition CRITICAL_BUCKETS : list string :=
  ["auth_challenge"; "auth_verify"; "admin_login"; "federation_handshake"; "backup_restore"].

Record LocalFallbackLimiter := mkLimiter { lf_counts : gmap (string * string) Z; lf_window : Z }.
Definition empty_limiter : LocalFallbackLimiter := mkLimiter ∅ 0.

Definition hit (now : Z) (l : LocalFallbackLimiter) (bucket identifier : string) (limit : Z)
    : bool * Z * LocalFallbackLimiter :=
  let window := (now / 60)%Z in
  let counts := if negb (window =? lf_window l)%Z then ∅ else lf_counts l in
  let count := (default 0 (counts !! (bucket, identifier)) + 1)%Z in
  ((count <=? limit)%Z, count, mkLimiter (<[(bucket, identifier) := count]> counts) window).

(** ** Who is asking *)

Record Request := mkRequest {
  client_host : option string;
  headers : gmap string string;             (* by lower-case name *)
  path_params : gmap string string;
  json_body : option json                   (* None: not JSON *)
}.

Definition ascii_lower (c : ascii) : ascii :=
  let n := N_of_ascii c in
  if (65 <=? n)%N && (n <=? 90)%N then ascii_of_N (n + 32) else c.
Fixpoint lower (s : string) : string :=
  match s with EmptyString => EmptyString | String c s' => String (ascii_lower c) (lower s') end.

Definition trusted_set (trusted_proxy_ips : string) : list string :=
  List.filter (fun s => negb (String.eqb s "")) (map strip (split_on "," trusted_proxy_ips)).

(** A header with a value that is not empty. *)
Definition truthy (o : option string) : option string :=
  match o with Some s => if String.eqb s "" then None else Some s | None => None end.

Definition get_ip_from_request (trusted_proxy_ips : string) (request : Request) : string :=
  let peer := client_host request in
  let proxy_trusted :=
    match peer with Some p => bool_decide (p ∈ trusted_set trusted_proxy_ips) | None => false end in
  let direct := match truthy peer with Some p => p | None => "unknown" end in
  if proxy_trusted then
    if String.eqb (lower (strip (default "" (headers request !! "x-morok-via")))) "tor" then "tor"
    else match truthy (headers request !! "x-real-ip") with
         | Some real_ip => strip real_ip
         | None =>
             match truthy (headers request !! "x-forwarded-for") with
             | Some fwd => strip (hd "" (split_on "," fwd))
             | None => direct
             end
         end
  else direct.

(** ** The check *)

Definition ratelimit_key (bucket identifier : string) (minute_window : Z) : string :=
  "morok:ratelimit:" +:+ bucket +:+ ":" +:+ identifier +:+ ":" +:+ print_Z minute_window.

(** (allowed, current count, seconds until the next window) *)
Record verdict := Verdict { v_allowed : bool; v_count : Z; v_retry_after : Z }.

Definition first_reply_int (l : list reply) : Z := match l with RInt n :: _ => n | _ => 0%Z end.

Definition check_rate_limit (enabled : bool) (l : LocalFallbackLimiter)
    (bucket identifier : string) (limit_per_minute : Z) : M (verdict * LocalFallbackLimiter) :=
  if negb enabled then ret (Verdict true 0 0, l)
  else
    let! now := now_ in
    let minute_window := (now / 60)%Z in
    let retry_after := (60 - now mod 60)%Z in
    let key := ratelimit_key bucket identifier minute_window in
    let! count :=
      try_except
        (let! results := pipeline [ pipe_cmd (INCR key); pipe_cmd (EXPIRE key 90) ] in
         ret (Some (first_reply_int results)))
        (fun _ => ret None) in
    match count with
    | None =>
        if bool_decide (bucket ∈ CRITICAL_BUCKETS) then
          let! now := now_ in
          let '(allowed, count, l') := hit now l bucket identifier limit_per_minute in
          ret (Verdict allowed count retry_after, l')
        else ret (Verdict true 0 0, l)
    | Some count => ret (Verdict (count <=? limit_per_minute)%Z count retry_after, l)
    end.

Definition rate_limited_detail (bucket : string) (current limit : Z) : string :=
  "rate_limited_" +:+ bucket +:+ "_" +:+ print_Z current +:+ "_of_" +:+ print_Z limit +:+ "_per_minute".

Definition _raise_rate_limited {A} (bucket : string) (current limit : Z) : M A :=
  raise (HTTPException 429 (rate_limited_detail bucket current limit)).

(** ** Dependencies of the endpoints *)

Section Dependencies.
  Context (enabled : bool) (trusted_proxy_ips : string) (l : LocalFallbackLimiter).

Definition TOR_GLOBAL_MULTIPLIER : Z := 20.

Definition _tor_aware_check (request : Request) (bucket : string) (limit_per_minute : Z)
    (claimed_identity : option string) : M (verdict * LocalFallbackLimiter) :=
  let ip := get_ip_from_request trusted_proxy_ips request in
  if negb (String.eqb ip "tor") then check_rate_limit enabled l bucket ip limit_per_minute
  else
    let! (v, l1) := check_rate_limit enabled l bucket "tor" (limit_per_minute * TOR_GLOBAL_MULTIPLIER) in
    if negb (v_allowed v) then ret (v, l1)
    else match truthy claimed_identity with
         | Some claimed => check_rate_limit enabled l1 bucket ("tor:" +:+ claimed) limit_per_minute
         | None => ret (v, l1)
         end.

(** Pass, with the reserve as it is now, or 429. *)
Definition pass_or_429 (bucket : string) (limit_per_minute : Z) (p : M (verdict * LocalFallbackLimiter))
    : M LocalFallbackLimiter :=
  let! (v, l') := p in
  if negb (v_allowed v) then _raise_rate_limited bucket (v_count v) limit_per_minute else ret l'.

Definition claimed_pubkey (body : option json) : option string :=
  match body with
  | Some (JObj payload) =>
      match dict_get "pubkey_hex" payload with
      | Some (JStr candidate) => if (string_len candidate =? 64)%Z then Some (lower candidate) else None
      | _ => None
      end
  | _ => None
  end.

Definition rate_limit_tor_aware_by_body_pubkey (bucket : string) (limit_per_minute : Z) (request : Request)
    : M LocalFallbackLimiter :=
  pass_or_429 bucket limit_per_minute
    (_tor_aware_check request bucket limit_per_minute (claimed_pubkey (json_body request))).

Definition rate_limit_tor_aware_by_path_param (bucket : string) (limit_per_minute : Z) (param_name : string)
    (request : Request) : M LocalFallbackLimiter :=
  let claimed := (fun c => substring 0 64 (lower c)) <$> path_params request !! param_name in
  pass_or_429 bucket limit_per_minute (_tor_aware_check request bucket limit_per_minute claimed).

Definition rate_limit_by_ip (bucket : string) (limit_per_minute : Z) (request : Request)
    : M LocalFallbackLimiter :=
  pass_or_429 bucket limit_per_minute
    (check_rate_limit enabled l bucket (get_ip_from_request trusted_proxy_ips request) limit_per_minute).

Definition rate_limit_by_pubkey (bucket : string) (limit_per_minute : Z) (session_pubkey_hex : string)
    : M LocalFallbackLimiter :=
  pass_or_429 bucket limit_per_minute
    (check_rate_limit enabled l bucket session_pubkey_hex limit_per_minute).
End Dependencies.

(** ** WebSocket slots *)

Definition WS_SLOT_TTL_SECONDS : Z := 90.
Definition WS_SLOT_KEY_TTL : Z := 200.

Definition _ws_connections_key (pubkey_hex : string) : string := "morok:ws:connections:" +:+ pubkey_hex.

(** [results[3]] *)
Definition fourth_int (l : list reply) : Z := match l with [_; _; _; RInt n] => n | _ => 0%Z end.

Definition reserve_ws_slot (enabled : bool) (pubkey_hex connection_id : string) (limit : Z) : M bool :=
  if negb enabled then ret true
  else
    let key := _ws_connections_key pubkey_hex in
    let! now := now_ in
    let cutoff := (now - WS_SLOT_TTL_SECONDS)%Z in
    let! count :=
      try_except
        (let! results := redis_ (rmulti
           [ ZREMRANGEBYSCORE key 0 cutoff; ZADD key now connection_id;
             EXPIRE key WS_SLOT_KEY_TTL; ZCARD key ]) in
         ret (Some (fourth_int results)))
        (fun _ => ret None) in
    match count with
    | None => ret true
    | Some count =>
        if (limit <? count)%Z then
          let! _ := try_except (cmd_ (ZREM key connection_id)) (fun _ => ret tt) in
          ret false
        else ret true
    end.

Definition refresh_ws_slot (pubkey_hex connection_id : string) : M unit :=
  let key := _ws_connections_key pubkey_hex in
  try_except
    (let! now := now_ in
     let! _ := redis_ (rmulti [ ZADD key now connection_id; EXPIRE key WS_SLOT_KEY_TTL ]) in
     ret tt)
    (fun _ => ret tt).

Definition release_ws_slot (pubkey_hex connection_id : string) : M unit :=
  try_except (cmd_ (ZREM (_ws_connections_key pubkey_hex) connection_id)) (fun _ => ret tt).
