(* ===== verification/Deps.v ===== *)
(** * Who is calling, and signs of life (deps.py, dms_liveness.py, the session of db.py)

    [get_current_session] verifies the bearer token and starts, at most once in a while, the
    background tasks that record activity.  [with_session] is the database session of a request:
    committed when the handler returns, rolled back when it raises. *)

From Stdlib Require Import Ascii String.
From stdpp Require Import prelude gmap strings list.
From S2P Require Import Prelude Json Codec RedisStore Models Effects Crypto Sessions RateLimit.

#[local] Open Scope morok_scope.

(** [raise HTTPException(status_code=code, detail=detail)] *)
Definition http {A} (code : Z) (detail : string) : M A := raise (HTTPException code detail).

(** ** The session of a request (db.get_session) *)

Definition with_session {A} (p : M A) : M A :=
  try_except
    (let! a := p in
     let! _ := commit in
     ret a)
    (fun e => let! _ := rollback in raise e).

(** [async with _session_factory() as db]: a session of its own, closed at the end. *)
Definition own_session {A} (p : M A) : M A :=
  let! a := try_except p (fun e => let! _ := rollback in raise e) in
  let! _ := rollback in
  ret a.

(** ** dms_liveness.py *)

Definition signed_checkin_key (pubkey_hex : string) : string := "morok:dms:signed_checkin:" +:+ pubkey_hex.
Definition _TTL_SECONDS : Z := 400 * 86400.

Definition remember_signed_checkin (pubkey_hex : string) : M unit :=
  try_except (cmd_ (set_ex (signed_checkin_key pubkey_hex) "1" _TTL_SECONDS)) (fun _ => ret tt).

(** [required]: [settings.action_proof_required_set()]. *)
Definition signed_checkin_enforced (required : list string) (pubkey_hex : string) : M bool :=
  if negb (bool_decide ("dms_checkin" ∈ required)) then ret false
  else
    try_except
      (let! n := redis_ (rcall (EXISTS (signed_checkin_key pubkey_hex)) as_int) in
       ret (negb (n =? 0)%Z))
      (fun _ => ret false).

(** ** deps.py *)

Definition DMS_CHECKIN_THROTTLE_SECONDS : Z := 300.
Definition LAST_SEEN_THROTTLE_SECONDS : Z := 3600.

Definition set_check_in (t : Z) (d : DeadManSwitch) : DeadManSwitch :=
  mkDMS (dms_id d) (dms_creator_pubkey d) (dms_trigger_seconds d) t (dms_payload_encrypted d)
    (dms_label d) (dms_status d) (dms_created_at d) (dms_triggered_at d) (dms_cancelled_at d) (dms_recipients d).

Definition set_last_seen (t : Z) (u : User) : User :=
  mkUser (u_pubkey u) (u_username u) (u_tier u) (u_home_relay u) (u_created_at u) (Some t) (u_deleted_at u)
    (u_username_changed_at u).

(** [DeadManSwitch.creator_pubkey == pubkey, DeadManSwitch.status == DMSStatus.ARMED] *)
Definition armed_of (pubkey : string) (d : DeadManSwitch) : bool :=
  String.eqb (dms_creator_pubkey d) pubkey && bool_decide (dms_status d = ARMED).

(** The statement [UPDATE dead_man_switches SET last_check_in_at = now WHERE ...]. *)
Definition sql_check_in (pubkey : string) (now : Z) : M Z :=
  sql (fun db => let '(n, t) := update_where (armed_of pubkey) (set_check_in now) (t_dms db) in (n, set_dms t db)).

(** [bytes.fromhex]; a [ValueError] otherwise. *)
Definition fromhex_ (s : string) : M string :=
  match bytes_fromhex s with Some b => ret b | None => raise (ValueError "fromhex") end.

Definition _bump_dms_check_in_for_pubkey (pubkey_hex : string) : M unit :=
  try_except
    (let! pubkey := fromhex_ pubkey_hex in
     let! now := now_ in
     let! _ := sql_check_in pubkey now in
     commit)
    (fun _ => rollback).

Definition _bump_last_seen (pubkey_hex : string) : M unit :=
  try_except
    (let! pubkey := fromhex_ pubkey_hex in
     let! now := now_ in
     let! _ := sql (fun db =>
       (tt, set_users (snd (update_where (fun u => String.eqb (u_pubkey u) pubkey) (set_last_seen now) (t_users db))) db)) in
     commit)
    (fun _ => rollback).

(** [s.partition(" ")], without the separator. *)
Fixpoint partition_space (s : string) : string * string :=
  match s with
  | EmptyString => ("", "")
  | String c s' =>
      if Ascii.eqb c " " then ("", s')
      else let '(a, b) := partition_space s' in (String c a, b)
  end.

Definition checkin_throttle_key (pubkey_hex : string) : string := "morok:dms:checkin_throttle:" +:+ pubkey_hex.
Definition last_seen_throttle_key (pubkey_hex : string) : string := "morok:last_seen_throttle:" +:+ pubkey_hex.

(** [SET key 1 NX EX secs]: the first in the window; a failure counts as not the first. *)
Definition first_in_window (key : string) (secs : Z) : M bool :=
  try_except (redis_ (rcall (set_nx_ex key "1" secs) as_set_ok)) (fun _ => ret false).

Definition unauthorized {A} (detail : string) : M A := raise (HTTPException 401 detail).

Definition get_current_session `{Sha256} (required : list string) (authorization : option string) : M Session :=
  match truthy authorization with
  | None => unauthorized "missing_authorization"
  | Some authorization =>
      let '(scheme, token) := partition_space authorization in
      if negb (String.eqb (lower scheme) "bearer") || String.eqb token ""
      then unauthorized "invalid_authorization_scheme"
      else
        let! session := verify_session_token (strip token) in
        match session with
        | None => unauthorized "invalid_or_expired_token"
        | Some session =>
            let pubkey_hex := pubkey_hex session in
            let! enforced := signed_checkin_enforced required pubkey_hex in
            let! should_bump :=
              if negb enforced
              then first_in_window (checkin_throttle_key pubkey_hex) DMS_CHECKIN_THROTTLE_SECONDS
              else ret false in
            let! _ := if should_bump then spawn (TBumpDms pubkey_hex) else ret tt in
            let! should_bump_seen := first_in_window (last_seen_throttle_key pubkey_hex) LAST_SEEN_THROTTLE_SECONDS in
            let! _ := if should_bump_seen then spawn (TBumpSeen pubkey_hex) else ret tt in
            ret session
        end
  end.
