(* ===== verification/Logic.v ===== *)
(** * Reasoning about programs

    Three logics over [prog]: what a program does to the database whatever else happens ([db_run]),
    which background tasks it can start ([spawns]), and symbolic execution of SQL and sessions. *)

From Stdlib Require Import Ascii String.
From stdpp Require Import prelude gmap strings list.
From S2P Require Import Prelude Json RedisStore Models Effects Crypto Sessions RateLimit Deps.

#[local] Open Scope morok_scope.

(** ** The database side of a program

    [db_run P p Q]: started with committed tables and session tables in [P], at any time and with
    whatever Redis answers, the program ends in [Q]. *)

Definition tables : Type := database * database.
Definition tables_of {S} (w : world S) : tables := (w_db w, w_work w).

Definition db_run {A} (now : Z) (P : tables -> Prop) (p : prog A) (Q : A -> tables -> Prop) : Prop :=
  forall w : vworld, w_now w = now -> P (tables_of w) ->
    Q (fst (run_doc p w)) (tables_of (snd (run_doc p w))) /\ w_now (snd (run_doc p w)) = now.

(** Events that leave the database alone. *)
Definition not_sql {X} (e : ev X) : Prop :=
  match e with ESql _ | ECommit | ERollback => False | _ => True end.

Fixpoint no_sql {A} (p : prog A) : Prop :=
  match p with
  | Ret _ => True
  | Vis e k => not_sql e /\ forall x, no_sql (k x)
  end.

Lemma ev_now {X} (e : ev X) (w : vworld) : w_now (snd (ev_doc e w)) = w_now w.
Proof.
  unfold ev_doc, ev_exec, doc_exec, next_fault. destruct e; cbn; try done.
  - destruct (w_faults w) as [|[] ?]; cbn; try done; by destruct (rrun_doc _ _ _).
  - by destruct (w_faults w) as [|[] ?].
  - destruct (w_blobs w !! id); [|done]. by destruct (w_faults w) as [|[] ?].
  - by destruct (f (w_work w)).
Qed.

Lemma ev_tables {X} (e : ev X) (w : vworld) : not_sql e -> tables_of (snd (ev_doc e w)) = tables_of w.
Proof.
  unfold ev_doc, ev_exec, doc_exec, next_fault. destruct e; cbn; try done.
  - intros _. destruct (w_faults w) as [|[] ?]; cbn; try done; by destruct (rrun_doc _ _ _).
  - intros _. by destruct (w_faults w) as [|[] ?].
  - intros _. destruct (w_blobs w !! id); [|done]. by destruct (w_faults w) as [|[] ?].
Qed.

Section Rules.
  Context (now : Z).

Lemma db_ret {A} (P : tables -> Prop) (a : A) : db_run now P (Ret a) (fun x t => x = a /\ P t).
Proof. intros w Hn HP. done. Qed.

Lemma db_weaken {A} P P' (p : prog A) (Q Q' : A -> tables -> Prop) :
  db_run now P p Q -> (forall t, P' t -> P t) -> (forall a t, Q a t -> Q' a t) -> db_run now P' p Q'.
Proof. intros Hp HP HQ w Hn Hw. destruct (Hp w Hn (HP _ Hw)). auto. Qed.

Lemma db_pbind {A B} P (p : prog A) (f : A -> prog B) Q Q' :
  db_run now P p Q -> (forall a, db_run now (Q a) (f a) Q') -> db_run now P (pbind p f) Q'.
Proof.
  intros Hp Hf w Hn Hw. destruct (Hp w Hn Hw) as [HQ Hn'].
  unfold run_doc in *. rewrite run_exec_pbind. destruct (run_exec doc_exec p w) as [a w']. by apply Hf.
Qed.

Lemma db_bind {A B} P (p : M A) (f : A -> M B) Q Q' :
  db_run now P p Q -> (forall a, db_run now (Q (Ok a)) (f a) Q') -> (forall e t, Q (Raise e) t -> Q' (Raise e) t) ->
  db_run now P (bind p f) Q'.
Proof.
  intros Hp Hf He. eapply db_pbind; [done|]. intros [a|e]; [apply Hf|].
  intros w Hn Hw. split; [by apply He|done].
Qed.

Lemma db_try {A} P (p : M A) h Q Q' :
  db_run now P p Q -> (forall a t, Q (Ok a) t -> Q' (Ok a) t) -> (forall e, db_run now (Q (Raise e)) (h e) Q') ->
  db_run now P (try_except p h) Q'.
Proof.
  intros Hp Ha He. eapply db_pbind; [done|]. intros [a|e]; [|apply He].
  intros w Hn Hw. split; [by apply Ha|done].
Qed.

Lemma db_no_sql {A} P (p : prog A) : no_sql p -> db_run now P p (fun _ t => P t).
Proof.
  unfold db_run, run_doc. induction p as [a|X e k IH]; intros Hp w Hn Hw; cbn [run_exec]; [done|].
  destruct Hp as [He Hk]. pose proof (ev_tables e w He) as Ht. pose proof (ev_now e w) as Hnow.
  unfold ev_doc in Ht, Hnow. destruct (ev_exec doc_exec e w) as [x w']. cbn [snd] in *.
  apply IH; [done|congruence|]. by rewrite Ht.
Qed.

Lemma db_now P : db_run now P now_ (fun r t => r = Ok now /\ P t).
Proof. intros w Hn Hw. cbn. by subst. Qed.

Lemma db_sql {A} P (f : database -> A * database) :
  db_run now P (sql f) (fun r t => exists d, r = Ok (fst (f d)) /\ t.2 = snd (f d) /\ P (t.1, d)).
Proof.
  intros w Hn Hw. cbn. destruct (f (w_work w)) as [a d] eqn:E. cbn. split; [|done].
  exists (w_work w). by rewrite E.
Qed.

Lemma db_commit P : db_run now P commit (fun r t => r = Ok tt /\ t.1 = t.2 /\ exists d, P (d, t.2)).
Proof. intros w Hn Hw. cbn. split; [|done]. split_and!; [done|done|]. by exists (w_db w). Qed.

Lemma db_rollback P : db_run now P rollback (fun r t => r = Ok tt /\ t.1 = t.2 /\ exists d, P (t.1, d)).
Proof. intros w Hn Hw. cbn. split; [|done]. split_and!; [done|done|]. by exists (w_work w). Qed.
End Rules.

(** ** Programs without SQL *)

Lemma no_sql_pbind {A B} (p : prog A) (f : A -> prog B) : no_sql p -> (forall a, no_sql (f a)) -> no_sql (pbind p f).
Proof. intros Hp Hf. induction p as [a|X e k IH]; cbn in *; [auto|]. destruct Hp. auto. Qed.
Lemma no_sql_bind {A B} (p : M A) (f : A -> M B) : no_sql p -> (forall a, no_sql (f a)) -> no_sql (bind p f).
Proof. intros Hp Hf. apply no_sql_pbind; [done|]. intros [a|e]; [apply Hf|done]. Qed.
Lemma no_sql_try {A} (p : M A) h : no_sql p -> (forall e, no_sql (h e)) -> no_sql (try_except p h).
Proof. intros Hp Hh. apply no_sql_pbind; [done|]. intros [a|e]; [done|apply Hh]. Qed.
Lemma no_sql_redis {A} (p : rtx A) : no_sql (redis_ p).
Proof. split; [done|]. by intros [a|]. Qed.

Lemma no_sql_pipeline cs : no_sql (pipeline cs).
Proof.
  apply no_sql_bind; [|intros rs; by destruct (existsb is_error rs)].
  induction cs as [|c cs IH]; [done|]. cbn [pipeline_loop]. apply no_sql_bind; [apply no_sql_redis|].
  intros r. by apply no_sql_bind.
Qed.

(** Closes [no_sql p] for the modelled code. *)
Ltac no_sql_step :=
  match goal with
  | |- forall _, _ => intros ?
  | |- no_sql (bind _ _) => apply no_sql_bind
  | |- no_sql (try_except _ _) => apply no_sql_try
  | |- no_sql (redis_ _) => apply no_sql_redis
  | |- no_sql (cmd_ _) => apply no_sql_redis
  | |- no_sql (pipeline _) => apply no_sql_pipeline
  | |- no_sql (Ret _) => exact I
  | |- no_sql (ret _) => exact I
  | |- no_sql (raise _) => exact I
  | |- no_sql (of_res _) => exact I
  | |- no_sql now_ => split; [exact I|intros ?; exact I]
  | |- no_sql token_ => split; [exact I|intros ?; exact I]
  | |- no_sql (Vis _ _) => split; [exact I|]
  | |- no_sql (match ?x with _ => _ end) => destruct x
  | |- no_sql (let '(_, _) := ?x in _) => destruct x
  end.
Ltac no_sql := repeat no_sql_step.

(** ** Programs that leave a part of the tables alone

    [leaves f p]: no statement of [p] changes what [f] reads of the session's tables, and [p] neither
    commits nor rolls back. *)

Fixpoint leaves {T} (f : database -> T) {A} (p : prog A) : Prop :=
  match p with
  | Ret _ => True
  | Vis e k =>
      match e with
      | ESql g => forall d, f (snd (g d)) = f d
      | ECommit | ERollback => False
      | _ => True
      end /\ forall x, leaves f (k x)
  end.

Section Leaves.
  Context {T : Type} (f : database -> T).

Lemma leaves_pbind {A B} (p : prog A) (q : A -> prog B) : leaves f p -> (forall a, leaves f (q a)) -> leaves f (pbind p q).
Proof. intros Hp Hq. induction p as [a|X e k IH]; cbn in *; [auto|]. destruct Hp. auto. Qed.
Lemma leaves_bind {A B} (p : M A) (q : A -> M B) : leaves f p -> (forall a, leaves f (q a)) -> leaves f (bind p q).
Proof. intros Hp Hq. apply leaves_pbind; [done|]. intros [a|e]; [apply Hq|done]. Qed.
Lemma leaves_try {A} (p : M A) h : leaves f p -> (forall e, leaves f (h e)) -> leaves f (try_except p h).
Proof. intros Hp Hh. apply leaves_pbind; [done|]. intros [a|e]; [done|apply Hh]. Qed.
Lemma leaves_sql {A} (g : database -> A * database) : (forall d, f (snd (g d)) = f d) -> leaves f (sql g).
Proof. done. Qed.
Lemma leaves_no_sql {A} (p : prog A) : no_sql p -> leaves f p.
Proof. induction p as [a|X e k IH]; [done|]. intros [He Hk]. split; [|auto]. by destruct e. Qed.

Lemma db_leaves now {A} (p : prog A) (P : tables -> Prop) :
  leaves f p -> (forall c d d', f d = f d' -> P (c, d) -> P (c, d')) -> db_run now P p (fun _ t => P t).
Proof.
  intros Hp HP. unfold db_run, run_doc. revert Hp. induction p as [a|X e k IH]; intros Hp w Hn Hw; cbn [run_exec]; [done|].
  destruct Hp as [He Hk]. pose proof (ev_now e w) as Hnow. unfold ev_doc in Hnow.
  assert (Ht : P (tables_of (snd (ev_exec doc_exec e w)))).
  { destruct e; try (by rewrite (ev_tables _ w : not_sql _ -> _)); try done.
    cbn. specialize (He (w_work w)). destruct (f0 (w_work w)) as [x d]. cbn in *. by apply (HP _ (w_work w)). }
  destruct (ev_exec doc_exec e w) as [x w']. cbn [snd] in *. apply IH; [done|congruence|done].
Qed.
End Leaves.

Ltac leaves_step :=
  match goal with
  | |- forall _, _ => intros ?
  | |- leaves _ (bind _ _) => apply leaves_bind
  | |- leaves _ (try_except _ _) => apply leaves_try
  | |- leaves _ (sql _) => apply leaves_sql
  | |- leaves _ (Ret _) => exact I
  | |- leaves _ (ret _) => exact I
  | |- leaves _ (raise _) => exact I
  | |- leaves _ (of_res _) => exact I
  | |- leaves _ (match ?x with _ => _ end) => destruct x
  | |- leaves _ (let '(_, _) := ?x in _) => destruct x
  | |- leaves _ _ => apply leaves_no_sql; no_sql
  end.
Ltac leaves := repeat leaves_step.

(** ** Programs whose statements keep an invariant of the tables

    Commits and rollbacks are free: both the committed tables and those of the session stay in [L]. *)

Fixpoint sql_keeps (L : database -> Prop) {A} (p : prog A) : Prop :=
  match p with
  | Ret _ => True
  | Vis e k => match e with ESql g => forall d, L d -> L (snd (g d)) | _ => True end /\ forall x, sql_keeps L (k x)
  end.

Section SqlKeeps.
  Context (L : database -> Prop).

Lemma sql_keeps_pbind {A B} (p : prog A) (q : A -> prog B) : sql_keeps L p -> (forall a, sql_keeps L (q a)) -> sql_keeps L (pbind p q).
Proof. intros Hp Hq. induction p as [a|X e k IH]; cbn in *; [auto|]. destruct Hp. auto. Qed.
Lemma sql_keeps_bind {A B} (p : M A) (q : A -> M B) : sql_keeps L p -> (forall a, sql_keeps L (q a)) -> sql_keeps L (bind p q).
Proof. intros Hp Hq. apply sql_keeps_pbind; [done|]. intros [a|e]; [apply Hq|done]. Qed.
Lemma sql_keeps_try {A} (p : M A) h : sql_keeps L p -> (forall e, sql_keeps L (h e)) -> sql_keeps L (try_except p h).
Proof. intros Hp Hh. apply sql_keeps_pbind; [done|]. intros [a|e]; [done|apply Hh]. Qed.
Lemma sql_keeps_own {A} (p : M A) : sql_keeps L p -> sql_keeps L (own_session p).
Proof. intros Hp. apply sql_keeps_bind; [apply sql_keeps_try; [done|by intros e]|by intros a]. Qed.
Lemma sql_keeps_no_sql {A} (p : prog A) : no_sql p -> sql_keeps L p.
Proof. induction p as [a|X e k IH]; [done|]. intros [He Hk]. split; [|auto]. by destruct e. Qed.

Lemma sql_keeps_run {A} (p : prog A) (w : vworld) :
  sql_keeps L p -> L (w_db w) -> L (w_work w) -> let w' := snd (run_doc p w) in L (w_db w') /\ L (w_work w').
Proof.
  unfold run_doc. revert w. induction p as [a|X e k IH]; intros w Hp Hd Hw; cbn [run_exec]; [done|].
  destruct Hp as [He Hk].
  set (P := fun t : tables => L t.1 /\ L t.2). change (P (tables_of (snd (run_exec doc_exec (Vis e k) w)))).
  assert (H : P (tables_of (snd (ev_exec doc_exec e w)))).
  { assert (H0 : P (tables_of w)) by done.
    destruct e; try (by rewrite (ev_tables _ w : not_sql _ -> _)); try done.
    cbn. specialize (He (w_work w) Hw). destruct (f (w_work w)) as [x d]. done. }
  cbn [run_exec]. destruct (ev_exec doc_exec e w) as [x w']. cbn [snd] in *. destruct H. by apply IH.
Qed.
End SqlKeeps.

(** ** Background tasks *)

(** Nothing but the tasks in [T] is started. *)
Fixpoint spawns {A} (T : task -> Prop) (p : prog A) : Prop :=
  match p with
  | Ret _ => True
  | Vis e k => match e with ESpawn t => T t | _ => True end /\ forall x, spawns T (k x)
  end.

Section Spawns.
  Context (T : task -> Prop).

Lemma spawns_pbind {A B} (p : prog A) (f : A -> prog B) : spawns T p -> (forall a, spawns T (f a)) -> spawns T (pbind p f).
Proof. intros Hp Hf. induction p as [a|X e k IH]; cbn in *; [auto|]. destruct Hp. auto. Qed.
Lemma spawns_bind {A B} (p : M A) (f : A -> M B) : spawns T p -> (forall a, spawns T (f a)) -> spawns T (bind p f).
Proof. intros Hp Hf. apply spawns_pbind; [done|]. intros [a|e]; [apply Hf|done]. Qed.
Lemma spawns_try {A} (p : M A) h : spawns T p -> (forall e, spawns T (h e)) -> spawns T (try_except p h).
Proof. intros Hp Hh. apply spawns_pbind; [done|]. intros [a|e]; [done|apply Hh]. Qed.
Lemma spawns_redis {A} (p : rtx A) : spawns T (redis_ p).
Proof. split; [done|]. by intros [a|]. Qed.

Lemma spawns_run {A} (p : prog A) (w : vworld) :
  spawns T p -> exists ts, w_tasks (snd (run_doc p w)) = w_tasks w ++ ts /\ Forall T ts.
Proof.
  unfold run_doc. revert w. induction p as [a|X e k IH]; intros w Hp; cbn [run_exec].
  - exists []. rewrite app_nil_r. split; [done|apply Forall_nil_2].
  - destruct Hp as [He Hk].
    assert (Hev : exists ts, w_tasks (snd (ev_exec doc_exec e w)) = w_tasks w ++ ts /\ Forall T ts).
    { unfold ev_exec, doc_exec. destruct e;
        try (exists []; rewrite app_nil_r; split; [|apply Forall_nil_2]; cbn; repeat case_match; done).
      exists [t]. split; [done|by apply Forall_singleton]. }
    destruct Hev as (ts & E & Hts). destruct (ev_exec doc_exec e w) as [x w']. cbn [snd] in E.
    destruct (IH x w' (Hk x)) as (ts' & E' & Hts'). exists (ts ++ ts'). rewrite E', E, app_assoc.
    split; [done|by apply Forall_app].
Qed.
End Spawns.

Ltac spawns_step :=
  match goal with
  | |- forall _, _ => intros ?
  | |- spawns _ (bind _ _) => apply spawns_bind
  | |- spawns _ (try_except _ _) => apply spawns_try
  | |- spawns _ (redis_ _) => apply spawns_redis
  | |- spawns _ (cmd_ _) => apply spawns_redis
  | |- spawns _ (ret _) => exact I
  | |- spawns _ (raise _) => exact I
  | |- spawns _ now_ => split; [exact I|intros ?; exact I]
  | |- spawns _ (match ?x with _ => _ end) => destruct x
  end.

Lemma calm_run {A} (p : prog A) (w : vworld) : calm w -> calm (snd (run_doc p w)).
Proof.
  unfold run_doc. revert w. induction p as [a|X e k IH]; intros w Hc; cbn [run_exec]; [done|].
  assert (Hev : calm (snd (ev_exec doc_exec e w))).
  { unfold calm, ev_exec, next_fault, pop_fault, doc_exec in *. destruct e; cbn; rewrite ?Hc; try done.
    - by destruct (rrun_doc _ _ _).
    - by destruct (w_blobs w !! id).
    - by destruct (f (w_work w)). }
  destruct (ev_exec doc_exec e w) as [x w']. by apply IH.
Qed.

(** ** SQL and sessions on the view *)

Lemma run_doc_sql {A} (f : database -> A * database) (w : vworld) :
  run_doc (sql f) w = (Ok (fst (f (w_work w))), set_databases (w_db w) (snd (f (w_work w))) w).
Proof. cbn. by destruct (f (w_work w)). Qed.

Lemma run_doc_fromhex s b (w : vworld) : bytes_fromhex s = Some b -> run_doc (fromhex_ s) w = (Ok b, w).
Proof. intros E. unfold fromhex_. by rewrite E. Qed.

Lemma run_bind_assoc {A B C} (p : M A) (f : A -> M B) (g : B -> M C) (w : vworld) :
  run_doc (bind (bind p f) g) w = run_doc (bind p (fun a => bind (f a) g)) w.
Proof. rewrite !run_doc_bind. destruct (run_doc p w) as [[a|e] w']; [by rewrite run_doc_bind|done]. Qed.

(** What a session of its own makes of its program. *)
Lemma run_own_session {A} (p : M A) (w : vworld) :
  run_doc (own_session p) w =
  (fst (run_doc p w), let w' := snd (run_doc p w) in set_databases (w_db w') (w_db w') w').
Proof.
  unfold own_session. rewrite run_doc_bind, run_doc_try. destruct (run_doc p w) as [[a|e] w']; done.
Qed.

(** What a session makes of its handler. *)
Lemma run_with_session {A} (p : M A) (w : vworld) :
  run_doc (with_session p) w =
  (fst (run_doc p w), let w' := snd (run_doc p w) in
     match fst (run_doc p w) with
     | Ok _ => set_databases (w_work w') (w_work w') w'
     | Raise _ => set_databases (w_db w') (w_db w') w'
     end).
Proof.
  unfold with_session. rewrite run_doc_try, run_doc_bind. destruct (run_doc p w) as [[a|e] w']; done.
Qed.

(** A handler that commits nothing itself: its tables when it returns, the old ones when it raises. *)
Lemma db_session {A} now db (p : M A) (Q : database -> Prop) :
  db_run now (fun t => t = (db, db)) p (fun r t => t.1 = db /\ match r with Ok _ => Q t.2 | Raise _ => True end) ->
  db_run now (fun t => t = (db, db)) (with_session p)
    (fun r t => t.1 = t.2 /\ match r with Ok _ => Q t.1 | Raise _ => t.1 = db end).
Proof.
  intros Hp w Hn Hw. destruct (Hp w Hn Hw) as [[Hc HQ] Hn']. rewrite run_with_session. cbn [fst snd].
  destruct (run_doc p w) as [[a|e] w']; cbn in *; [done|]. split; [|done]. split; [done|exact Hc].
Qed.

(** ** Results

    [returns Q p]: whatever the events answer, the program ends with a result in [Q]. *)

Fixpoint returns {A} (Q : A -> Prop) (p : prog A) : Prop :=
  match p with Ret a => Q a | Vis e k => forall x, returns Q (k x) end.

Lemma returns_run {A} (Q : A -> Prop) (p : prog A) (w : vworld) : returns Q p -> Q (fst (run_doc p w)).
Proof.
  unfold run_doc. revert w. induction p as [a|X e k IH]; intros w Hp; cbn [run_exec]; [done|].
  destruct (ev_exec doc_exec e w) as [x w']. apply IH, Hp.
Qed.

Lemma returns_any {A} (Q : A -> Prop) (p : prog A) : (forall a, Q a) -> returns Q p.
Proof. intros HQ. induction p; cbn; auto. Qed.

Lemma returns_bind {A B} (Q : A -> Prop) (Q' : B -> Prop) (p : M A) (f : A -> M B) :
  returns (value_is Q) p -> (forall a, Q a -> returns (value_is Q') (f a)) -> returns (value_is Q') (bind p f).
Proof.
  intros Hp Hf. unfold bind. induction p as [[a|e]|X e k IH]; cbn in *; [by apply Hf|done|]. intros x. apply IH, Hp.
Qed.

(** A step whose value does not matter. *)
Lemma returns_then {A B} (Q' : B -> Prop) (p : M A) (f : A -> M B) :
  (forall a, returns (value_is Q') (f a)) -> returns (value_is Q') (bind p f).
Proof. intros Hf. apply (returns_bind (fun _ => True)); [|auto]. apply returns_any. by intros []. Qed.

(** Reading what a run on the server leaves. *)
Lemma run_later `{R : Redis} {A} (p : prog A) (w : world rstore) t :
  (w_now w <= t)%Z -> w_now (snd (run_doc p (absw w))) = w_now w ->
  absw (set_now t (snd (run p w))) = later t (snd (run_doc p (absw w))).
Proof.
  intros Ht Hn. rewrite absw_later, snd_run_absw; [done|]. by rewrite <- (snd_run_absw p w) in Hn; cbn in Hn; rewrite Hn.
Qed.


(** ** What no run changes *)

Lemma run_now {A} (p : prog A) (w : vworld) : w_now (snd (run_doc p w)) = w_now w.
Proof.
  unfold run_doc. revert w. induction p as [a|X e k IH]; intros w; cbn [run_exec]; [done|].
  pose proof (ev_now e w) as Hn. unfold ev_doc in Hn. destruct (ev_exec doc_exec e w) as [x w']. by rewrite IH.
Qed.

Lemma run_no_sql {A} (p : prog A) (w : vworld) : no_sql p -> tables_of (snd (run_doc p w)) = tables_of w.
Proof. intros Hp. by destruct (db_no_sql (w_now w) (fun t => t = tables_of w) p Hp w eq_refl eq_refl). Qed.

(** Such a program does the same over any tables. *)
Lemma run_no_sql_at {A} (p : prog A) (w : vworld) a b : no_sql p ->
  run_doc p (set_databases a b w) = (fst (run_doc p w), set_databases a b (snd (run_doc p w))).
Proof.
  unfold run_doc. revert w. induction p as [x|X e k IH]; intros w Hp; cbn [run_exec]; [done|]. destruct Hp as [He Hk].
  assert (Hev : ev_exec doc_exec e (set_databases a b w) = (fst (ev_exec doc_exec e w), set_databases a b (snd (ev_exec doc_exec e w)))).
  { destruct e; cbn in He; try done; unfold ev_exec, next_fault, pop_fault; cbn.
    - destruct (w_faults w) as [|[] fs]; cbn; try done; by destruct (doc_exec _ _ _ _).
    - by destruct (w_faults w) as [|[] fs].
    - destruct (w_blobs w !! id); [|done]. by destruct (w_faults w) as [|[] fs]. }
  rewrite Hev. destruct (ev_exec doc_exec e w) as [y w']. cbn [fst snd]. apply IH, Hk.
Qed.

(** The network answers by [N], however many answers were consumed. *)
Definition net_is {S} (N : answer -> Prop) (w : world S) : Prop := forall n, N (w_net w n).

Lemma run_net N {A} (p : prog A) (w : vworld) : net_is N w -> net_is N (snd (run_doc p w)).
Proof.
  unfold run_doc. revert w. induction p as [a|X e k IH]; intros w Hw; cbn [run_exec]; [done|].
  assert (He : net_is N (snd (ev_exec doc_exec e w))).
  { unfold net_is, ev_exec, next_fault, pop_fault, doc_exec in *. destruct e; cbn; try done.
    - destruct (w_faults w) as [|[] ?]; cbn; try done; by destruct (rrun_doc _ _ _).
    - by destruct (w_faults w) as [|[] ?].
    - destruct (w_blobs w !! id); [|done]. by destruct (w_faults w) as [|[] ?].
    - by destruct (f (w_work w)). }
  destruct (ev_exec doc_exec e w) as [x w']. by apply IH.
Qed.

Lemma run_doc_commit (w : vworld) : run_doc commit w = (Ok tt, set_databases (w_work w) (w_work w) w).
Proof. done. Qed.

Lemma run_detached {A} (p : prog A) (w : vworld) : snd (run_doc (detached p) w) = snd (run_doc p w).
Proof. unfold detached, run_doc. rewrite run_exec_pbind. by destruct (run_exec doc_exec p w). Qed.

(** The same on a server. *)
Lemma srv_now `{R : Redis} {A} (p : prog A) (w : world rstore) : w_now (snd (run p w)) = w_now w.
Proof. change (w_now (absw (snd (run p w))) = w_now w). by rewrite snd_run_absw, run_now. Qed.
Lemma srv_calm `{R : Redis} {A} (p : prog A) (w : world rstore) : calm w -> calm (snd (run p w)).
Proof. intros Hc. change (calm (absw (snd (run p w)))). rewrite snd_run_absw. by apply calm_run. Qed.

(** ** Handlers with one change

    [handled p]: started at rest in [db], the handler leaves the committed tables when it raises, and the
    tables of the session when it returns, as they were or in [R], whatever else happens. *)

Section Handled.
  Context (now : Z) (db : database) (R : database -> Prop).

Definition at_db (t : tables) : Prop := t = (db, db).

(** The committed tables of a handler that raises, the tables of one that returns, are a step away. *)
Definition handled {A} (p : M A) : Prop :=
  db_run now at_db p (fun r t => match r with Ok _ => t.2 = db \/ R t.2 | Raise _ => t.1 = db \/ R t.1 end).
(** It reads, and what it returns is as [Q] says. *)
Definition reads {A} (p : M A) (Q : A -> Prop) : Prop :=
  db_run now at_db p (fun r t => at_db t /\ match r with Ok a => Q a | Raise _ => True end).

Lemma handled_ret {A} (a : A) : handled (ret a).
Proof. intros w Hn Hw. split; [|done]. cbn in *. injection Hw as _ ->. by left. Qed.
Lemma handled_raise {A} e : handled (raise (A := A) e).
Proof. intros w Hn Hw. split; [|done]. cbn in *. injection Hw as -> _. by left. Qed.
Lemma handled_reads {A B} (p : M A) Q (f : A -> M B) : reads p Q -> (forall a, Q a -> handled (f a)) -> handled (bind p f).
Proof.
  intros Hp Hf. eapply db_bind; [exact Hp| |].
  - intros a w Hn [Hs Ha]. by apply Hf.
  - intros e t [-> _]. by left.
Qed.
Lemma reads_leaves {A} (p : M A) : leaves (fun d => d) p -> reads p (fun _ => True).
Proof.
  intros Hp. eapply db_weaken; [apply (db_leaves (fun d => d)); [exact Hp|by intros c d d' ->]|done|]. intros [a|e] t; auto.
Qed.
Lemma reads_sql {A} (g : database -> A) : reads (sql (fun d => (g d, d))) (eq (g db)).
Proof.
  eapply db_weaken; [apply db_sql|done|]. intros r [c d] (d0 & -> & E & Hd). cbn in *. subst. injection Hd as -> ->. done.
Qed.
Lemma reads_now : reads now_ (eq now).
Proof. eapply db_weaken; [apply db_now|done|]. by intros r t [-> Ht]. Qed.
Lemma reads_bind {A B} (p : M A) Q (f : A -> M B) Q' :
  reads p Q -> (forall a, Q a -> reads (f a) Q') -> reads (bind p f) Q'.
Proof.
  intros Hp Hf. eapply db_bind; [exact Hp| |].
  - intros a w Hn [Hs Ha]. by apply Hf.
  - by intros e t [-> _].
Qed.
Lemma reads_ret {A} (a : A) (Q : A -> Prop) : Q a -> reads (ret a) Q.
Proof. intros Ha w Hn Hw. done. Qed.
Lemma reads_raise {A} e (Q : A -> Prop) : reads (raise e) Q.
Proof. intros w Hn Hw. done. Qed.
Lemma reads_try {A} (p : M A) h Q : reads p Q -> (forall e, reads (h e) Q) -> reads (try_except p h) Q.
Proof.
  intros Hp Hh. eapply db_try; [exact Hp|done|]. intros e w Hn [Hs _]. by apply Hh.
Qed.
Lemma reads_own_session {A} (p : M A) Q : reads p Q -> reads (own_session p) Q.
Proof.
  intros Hp w Hn Hw. destruct (Hp w Hn Hw) as [[Ht HQ] Hnow]. rewrite run_own_session. cbn [fst snd]. split; [|done]. split; [|done].
  unfold at_db, tables_of in *. cbn. by injection Ht as -> _.
Qed.
Lemma reads_weaken {A} (p : M A) (Q Q' : A -> Prop) : reads p Q -> (forall a, Q a -> Q' a) -> reads p Q'.
Proof. intros Hp HQ. eapply db_weaken; [exact Hp|done|]. intros [a|e] t [Ht Ha]; auto. Qed.

(** A statement that writes, a commit, and nothing after it. *)
Lemma handled_write {A B} (g : database -> A * database) (k : A -> M B) :
  R (snd (g db)) -> no_sql (k (fst (g db))) -> handled (bind (sql g) (fun a => bind commit (fun _ => k a))).
Proof.
  intros Hstep Hk w Hn Hw. rewrite run_doc_bind, run_doc_sql. cbn [fst snd].
  unfold at_db, tables_of in Hw. injection Hw as Hdb Hwk. rewrite Hwk.
  set (w0 := set_databases _ _ w). rewrite run_doc_bind. change (run_doc commit w0) with (@Ok unit tt, snd (run_doc commit w0)).
  set (w1 := snd (run_doc commit w0)).
  pose proof (run_no_sql (k (fst (g db))) w1 Hk) as Ht. pose proof (run_now (k (fst (g db))) w1) as Hnow.
  destruct (run_doc (k (fst (g db))) w1) as [[b|e] w2]; cbn [fst snd] in *; injection Ht as E1 E2; cbn in E1, E2;
    (split; [|by rewrite Hnow]); unfold tables_of; cbn; rewrite ?E1, ?E2; by right.
Qed.

(** Programs that run alike. *)
Lemma handled_run {A} (p q : M A) : (forall w : vworld, run_doc p w = run_doc q w) -> handled q -> handled p.
Proof. intros E Hq w. rewrite E. apply Hq. Qed.
Lemma handled_assoc {A B C} (p : M A) (f : A -> M B) (g : B -> M C) :
  handled (bind p (fun a => bind (f a) g)) -> handled (bind (bind p f) g).
Proof. apply handled_run. intros w. apply run_bind_assoc. Qed.
Lemma handled_last {A} (p : M A) : handled (bind p ret) -> handled p.
Proof. apply handled_run. intros w. rewrite run_doc_bind. by destruct (run_doc p w) as [[a|e] w']. Qed.

(** A statement that writes and nothing after it: the session commits it, or not if this raises. *)
Lemma handled_sql {A B} (g : database -> A * database) (k : A -> M B) :
  snd (g db) = db \/ R (snd (g db)) -> no_sql (k (fst (g db))) -> handled (bind (sql g) k).
Proof.
  intros Hstep Hk w Hn Hw. rewrite run_doc_bind, run_doc_sql. cbn [fst snd].
  unfold at_db, tables_of in Hw. injection Hw as Hdb Hwk. rewrite Hwk. set (w0 := set_databases _ _ w).
  pose proof (run_no_sql (k (fst (g db))) w0 Hk) as Ht. pose proof (run_now (k (fst (g db))) w0) as Hnow.
  destruct (run_doc (k (fst (g db))) w0) as [[b|e] w2]; cbn [fst snd] in *; injection Ht as E1 E2; cbn in E1, E2;
    (split; [|by rewrite Hnow]); unfold tables_of; cbn; rewrite ?E1, ?E2; [done|by left].
Qed.

(** What the session makes of it. *)
Lemma handled_session {A} (p : M A) (w : vworld) :
  handled p -> w_now w = now -> tables_of w = (db, db) ->
  let t := tables_of (snd (run_doc (detached (with_session p)) w)) in t.1 = t.2 /\ (t.1 = db \/ R t.1).
Proof.
  intros Hp Hn Hw. cbv zeta. destruct (Hp w Hn Hw) as [Hq _].
  rewrite run_detached, run_with_session. cbn [fst snd]. destruct (run_doc p w) as [[a|e] w']; cbn in *; done.
Qed.
End Handled.

(** ** Code with a session of its own

    [owned p]: run in a session of its own from rest in [db], the program leaves committed tables that are as
    they were or in [R], whatever else happens; [settles p]: and it ends at rest. *)

Section Owned.
  Context (now : Z) (db : database) (R : database -> Prop).

Definition owned {A} (p : M A) : Prop := db_run now (at_db db) p (fun _ t => t.1 = db \/ R t.1).
Definition settles {A} (p : M A) : Prop := db_run now (at_db db) p (fun _ t => t.1 = t.2 /\ (t.1 = db \/ R t.1)).

Lemma owned_ret {A} (a : A) : owned (ret a).
Proof. intros w Hn Hw. split; [|done]. cbn in *. injection Hw as -> _. by left. Qed.
Lemma owned_raise {A} e : owned (raise (A := A) e).
Proof. intros w Hn Hw. split; [|done]. cbn in *. injection Hw as -> _. by left. Qed.
Lemma owned_reads {A B} (p : M A) Q (f : A -> M B) : reads now db p Q -> (forall a, Q a -> owned (f a)) -> owned (bind p f).
Proof.
  intros Hp Hf. eapply db_bind; [exact Hp| |].
  - intros a w Hn [Hs Ha]. by apply Hf.
  - intros e t [-> _]. by left.
Qed.
(** A statement that writes and a commit. *)
Lemma owned_write {A B} (g : database -> A * database) (b : B) :
  R (snd (g db)) -> owned (bind (sql g) (fun _ => bind commit (fun _ => ret b))).
Proof.
  intros Hstep w Hn Hw. rewrite run_doc_bind, run_doc_sql, run_doc_bind, run_doc_commit. cbn [fst snd].
  unfold at_db, tables_of in *. injection Hw as _ Hwk. rewrite Hwk. split; [by right|done].
Qed.

Lemma settles_ret {A} (a : A) : settles (ret a).
Proof. intros w Hn Hw. split; [|done]. cbn in *. injection Hw as -> ->. by split; [|left]. Qed.
Lemma settles_raise {A} e : settles (raise (A := A) e).
Proof. intros w Hn Hw. split; [|done]. cbn in *. injection Hw as -> ->. by split; [|left]. Qed.
Lemma settles_reads {A B} (p : M A) Q (f : A -> M B) : reads now db p Q -> (forall a, Q a -> settles (f a)) -> settles (bind p f).
Proof.
  intros Hp Hf. eapply db_bind; [exact Hp| |].
  - intros a w Hn [Hs Ha]. by apply Hf.
  - intros e t [-> _]. by split; [|left].
Qed.
Lemma settles_own {A} (p : M A) : owned p -> settles (own_session p).
Proof.
  intros Hp w Hn Hw. destruct (Hp w Hn Hw) as [Hq Hnow]. rewrite run_own_session. cbn [fst snd]. split; [|done]. split; [done|exact Hq].
Qed.
End Owned.
