(* ===== verification/Dms.v ===== *)
(** * Dead man's switches (api/dms.py): the endpoints

    A handler runs inside [with_session].  Row locks and the advisory lock make handlers that touch
    the same switches (or the quota of the same user) run one after the other, so a handler is one
    run; the rate limit in front of two of them is [rate_limit_by_pubkey].  The id of a new row, a
    random UUID, is drawn from the world's random tokens. *)

From Stdlib Require Import Ascii String.
From stdpp Require Import prelude gmap strings list.
From S2P Require Import Prelude Json Codec RedisStore Models Effects Crypto Payloads Sessions RateLimit Deps.

#[local] Open Scope morok_scope.

(** ** Limits and the request body (schemas.py) *)

Definition DMS_TRIGGER_MIN_SECONDS : Z := 3600.
Definition DMS_TRIGGER_MAX_SECONDS : Z := 365 * 86400.
Definition DMS_PAYLOAD_MAX_BYTES : Z := 262144.
Definition DMS_FREE_TIER_MAX_RECIPIENTS : Z := 5.
Definition DMS_PREMIUM_TIER_MAX_RECIPIENTS : Z := 20.
Definition DMS_FREE_TIER_MAX_ACTIVE : Z := 5.
Definition DMS_PREMIUM_TIER_MAX_ACTIVE : Z := 20.
Definition DMS_FREE_TIER_MAX_TOTAL_BYTES : Z := 2 * 1024 * 1024.
Definition DMS_PREMIUM_TIER_MAX_TOTAL_BYTES : Z := 20 * 1024 * 1024.
Definition DMS_LABEL_MAX_LEN : Z := 100.

Record DMSCreate := mkDMSCreate {
  c_trigger_seconds : Z;
  c_payload_encrypted : string;
  c_recipient_pubkeys_hex : list string;
  c_label : option string
}.

Definition payload_is_valid_base64 (v : string) : bool :=
  match b64decode v with
  | None => false
  | Some decoded => (0 <? string_len decoded)%Z && (string_len decoded <=? DMS_PAYLOAD_MAX_BYTES)%Z
  end.

(** [re.match(r"^[0-9a-f]{64}$", pk)] of a stripped text. *)
Definition is_pubkey_hex (s : string) : bool := (string_len s =? 64)%Z && string_forallb is_lower_hex s.

Fixpoint clean_recipients (seen v : list string) : option (list string) :=
  match v with
  | [] => Some []
  | pk :: v' =>
      let pk := strip (lower pk) in
      if negb (is_pubkey_hex pk) || bool_decide (pk ∈ seen) then None
      else match clean_recipients (pk :: seen) v' with Some out => Some (pk :: out) | None => None end
  end.

Definition validate_recipients (v : list string) : option (list string) :=
  match v with
  | [] => None
  | _ =>
      match clean_recipients [] v with
      | Some out => if (DMS_PREMIUM_TIER_MAX_RECIPIENTS <? Z.of_nat (length out))%Z then None else Some out
      | None => None
      end
  end.

(** The body as pydantic hands it to the handler; [None] is a 422. *)
Definition validate_DMSCreate (b : DMSCreate) : option DMSCreate :=
  if (c_trigger_seconds b <? DMS_TRIGGER_MIN_SECONDS)%Z || (DMS_TRIGGER_MAX_SECONDS <? c_trigger_seconds b)%Z
  then None
  else if negb (payload_is_valid_base64 (c_payload_encrypted b)) then None
  else if (DMS_LABEL_MAX_LEN <? string_len (default "" (c_label b)))%Z then None
  else match validate_recipients (c_recipient_pubkeys_hex b) with
       | Some out => Some (mkDMSCreate (c_trigger_seconds b) (c_payload_encrypted b) out (c_label b))
       | None => None
       end.

(** ** Responses *)

Record DMSInfo := mkDMSInfo {
  i_dms_id : string; i_trigger_seconds : Z; i_last_check_in_at : Z; i_fires_at : Z;
  i_label : option string; i_status : string; i_created_at : Z;
  i_triggered_at : option Z; i_cancelled_at : option Z;
  i_recipients : list (string * option Z)
}.

Definition _to_info (d : DeadManSwitch) : DMSInfo :=
  mkDMSInfo (uuid_to_string (dms_id d)) (dms_trigger_seconds d) (dms_last_check_in_at d)
    (dms_last_check_in_at d + dms_trigger_seconds d) (dms_label d) (dms_status_value (dms_status d))
    (dms_created_at d) (dms_triggered_at d) (dms_cancelled_at d)
    (map (fun r => (hex_of_bytes (dr_recipient_pubkey r), dr_delivered_at r)) (dms_recipients d)).

(** ** Rows *)

Definition _get_current_user (relay_name pubkey_hex : string) : M User :=
  let! pubkey := fromhex_ pubkey_hex in
  let! found := sql (fun db => (select_one (fun u => String.eqb (u_pubkey u) pubkey) (t_users db), db)) in
  match found with
  | Some user => ret user
  | None =>
      let! now := now_ in
      let user := mkUser pubkey None FREE relay_name now (Some now) None None in
      let! _ := sql (fun db => (tt, set_users (t_users db ++ [user]) db)) in
      ret user
  end.

Definition _parse_dms_id (dms_id : string) : M string :=
  match uuid_of_string dms_id with Some u => ret u | None => http 400 "malformed_dms_id" end.

Definition by_id (id : string) (d : DeadManSwitch) : bool := String.eqb (dms_id d) id.

Definition _load_dms_for_owner (id owner_pubkey : string) : M DeadManSwitch :=
  let! found := sql (fun db => (select_one (by_id id) (t_dms db), db)) in
  match found with
  | Some d =>
      if negb (String.eqb (dms_creator_pubkey d) owner_pubkey) then http 404 "dms_not_found" else ret d
  | None => http 404 "dms_not_found"
  end.

(** Assigning to a loaded row: its columns at the next flush. *)
Definition store_dms (d : DeadManSwitch) : M unit :=
  sql (fun db => (tt, set_dms (snd (update_where (by_id (dms_id d)) (fun _ => d) (t_dms db))) db)).

(** [INSERT] of a row; the primary key refuses an id in use. *)
Definition insert_row (d : DeadManSwitch) : M bool :=
  sql (fun db => if existsb (by_id (dms_id d)) (t_dms db) then (false, db)
                 else (true, set_dms (t_dms db ++ [d]) db)).

(** ** The endpoints *)

(** The number of rows and the sum of the payload lengths of the armed switches of a user. *)
Definition active_usage (pubkey : string) (t : list DeadManSwitch) : Z * Z :=
  let rows := List.filter (armed_of pubkey) t in
  (Z.of_nat (length rows), foldr (fun d n => (string_len (dms_payload_encrypted d) + n)%Z) 0%Z rows).

(** (max_recipients, max_active, max_bytes) *)
Definition tier_limits (t : UserTier) : Z * Z * Z :=
  match t with
  | PREMIUM | ADMIN =>
      (DMS_PREMIUM_TIER_MAX_RECIPIENTS, DMS_PREMIUM_TIER_MAX_ACTIVE, DMS_PREMIUM_TIER_MAX_TOTAL_BYTES)
  | FREE => (DMS_FREE_TIER_MAX_RECIPIENTS, DMS_FREE_TIER_MAX_ACTIVE, DMS_FREE_TIER_MAX_TOTAL_BYTES)
  end.

Fixpoint fromhex_all (l : list string) : M (list string) :=
  match l with
  | [] => ret []
  | s :: l' => let! b := fromhex_ s in let! bs := fromhex_all l' in ret (b :: bs)
  end.

Definition create_dms (relay_name : string) (body : DMSCreate) (current : Session) : M DMSInfo :=
  let! user := _get_current_user relay_name (pubkey_hex current) in
  let '(max_recipients, max_active, max_bytes) := tier_limits (u_tier user) in
  if (max_recipients <? Z.of_nat (length (c_recipient_pubkeys_hex body)))%Z
  then http 403 ("too_many_recipients_for_tier_max_" +:+ print_Z max_recipients)
  else
    let! creator_pubkey := fromhex_ (pubkey_hex current) in
    let! now := now_ in
    let! payload_bytes :=
      match b64decode (c_payload_encrypted body) with Some b => ret b | None => raise (ValueError "b64decode") end in
    let! (active_count, active_bytes) := sql (fun db => (active_usage creator_pubkey (t_dms db), db)) in
    if (max_active <=? active_count)%Z
    then http 403 ("too_many_active_dms_max_" +:+ print_Z max_active)
    else if (max_bytes <? active_bytes + string_len payload_bytes)%Z
    then http 403 ("dms_storage_quota_exceeded_max_" +:+ print_Z max_bytes +:+ "_bytes")
    else
      let! id := token_ in
      let! recipients := fromhex_all (c_recipient_pubkeys_hex body) in
      let dms := mkDMS id creator_pubkey (c_trigger_seconds body) now payload_bytes (c_label body) ARMED
                   now None None (map (fun pk => mkRecipient pk None) recipients) in
      let! inserted := insert_row dms in
      if (inserted : bool) then ret (_to_info dms) else raise IntegrityError.

(** [ORDER BY created_at DESC] *)
Fixpoint insert_dms (d : DeadManSwitch) (l : list DeadManSwitch) : list DeadManSwitch :=
  match l with
  | [] => [d]
  | d' :: l' => if (dms_created_at d <? dms_created_at d')%Z then d' :: insert_dms d l' else d :: l
  end.

Definition list_my_dms (current : Session) : M (list DMSInfo) :=
  let! pubkey := fromhex_ (pubkey_hex current) in
  let! rows := sql (fun db =>
    (foldr insert_dms [] (List.filter (fun d => String.eqb (dms_creator_pubkey d) pubkey) (t_dms db)), db)) in
  ret (map _to_info rows).

Definition get_dms (dms_id : string) (current : Session) : M DMSInfo :=
  let! did := _parse_dms_id dms_id in
  let! pubkey := fromhex_ (pubkey_hex current) in
  let! dms := _load_dms_for_owner did pubkey in
  ret (_to_info dms).

Definition bump_check_in_for_pubkey (pubkey_hex : string) : M Z :=
  let! pubkey := fromhex_ pubkey_hex in
  let! now := now_ in
  sql_check_in pubkey now.

Record SignedCheckInRequest := mkCheckIn { ci_timestamp : Z; ci_signature_hex : string }.

Definition check_in_signed `{Nacl} (body : SignedCheckInRequest) (current : Session) : M (Z * Z) :=
  let! now := now_ in
  if (300 <? Z.abs (now - ci_timestamp body))%Z then http 401 "stale_timestamp"
  else
    let message := canonical_json (checkin_payload (pubkey_hex current) (ci_timestamp body)) in
    let! pubkey_bytes := fromhex_ (pubkey_hex current) in
    match bytes_fromhex (ci_signature_hex body) with
    | None => http 401 "invalid_signature"
    | Some sig_bytes =>
        if negb (ed25519_verify message sig_bytes pubkey_bytes) then http 401 "invalid_signature"
        else
          let! bumped := bump_check_in_for_pubkey (pubkey_hex current) in
          let! _ := commit in
          let! _ := remember_signed_checkin (pubkey_hex current) in
          ret (bumped, now)
    end.

(** (dms_id, last_check_in_at, fires_at) *)
Definition check_in (required : list string) (dms_id : string) (current : Session) : M (string * Z * Z) :=
  let! enforced := signed_checkin_enforced required (pubkey_hex current) in
  if enforced then http 410 "signed_checkin_required"
  else
    let! did := _parse_dms_id dms_id in
    let! pubkey := fromhex_ (pubkey_hex current) in
    let! dms := _load_dms_for_owner did pubkey in
    if negb (bool_decide (dms_status dms = ARMED))
    then http 409 ("dms_not_armed_status_" +:+ dms_status_value (dms_status dms))
    else
      let! now := now_ in
      let! _ := store_dms (set_check_in now dms) in
      ret (uuid_to_string (Models.dms_id dms), now, (now + dms_trigger_seconds dms)%Z).

(** The row of a cancelled switch: the ciphertext is gone. *)
Definition cancelled (now : Z) (d : DeadManSwitch) : DeadManSwitch :=
  mkDMS (dms_id d) (dms_creator_pubkey d) (dms_trigger_seconds d) (dms_last_check_in_at d) ""
    (dms_label d) CANCELLED (dms_created_at d) (dms_triggered_at d) (Some now) (dms_recipients d).

(** (dms_id, cancelled) *)
Definition cancel_dms `{Nacl} (required : list string) (relay_name dms_id : string) (current : Session)
    (proof : option action_proof) : M (string * bool) :=
  let! did := _parse_dms_id dms_id in
  let! pubkey := fromhex_ (pubkey_hex current) in
  let! dms := _load_dms_for_owner did pubkey in
  match dms_status dms with
  | TRIGGERED => ret (uuid_to_string (Models.dms_id dms), false)
  | CANCELLED => ret (uuid_to_string (Models.dms_id dms), true)
  | ARMED =>
      let! _ := enforce_sensitive_action required relay_name "dms_cancel" (pubkey_hex current)
                  (uuid_to_string did) proof in
      let! now := now_ in
      let! _ := store_dms (cancelled now dms) in
      ret (uuid_to_string (Models.dms_id dms), true)
  end.
