(* ===== verification/BlobStorage.v ===== *)
(** * The blob directory (blob_storage.py)

    A blob is a file under [settings.blob_dir], whose relative path is a function of the envelope
    id; the world's [w_blobs] maps that path to the file.  [write_blob] writes a temporary file and
    renames it into place, so a reader sees the old file or the new one, and a failure leaves no
    file: one event.  [secure_delete_blob] is the existence test and the overwrite-and-unlink of
    the worker thread; an [OSError] in it is reported as [False]. *)

From Stdlib Require Import Ascii String.
From stdpp Require Import prelude gmap strings list.
From S2P Require Import Prelude Json RedisStore Models Effects.

#[local] Open Scope morok_scope.

(** [len(s) >= n] characters all in [0123456789abcdef] *)
Definition lower_hex_at_least (n : Z) (s : string) : bool :=
  (n <=? string_len s)%Z && string_forallb is_lower_hex s.

Definition substring_to (a len : nat) (s : string) : string := String.substring a len s.

(** [_blob_path], relative to [blob_dir]. *)
Definition _blob_path (envelope_id : string) : res string :=
  if lower_hex_at_least 4 envelope_id then
    Ok (substring_to 0 2 envelope_id +:+ "/" +:+ substring_to 2 2 envelope_id +:+ "/" +:+ envelope_id)
  else Raise (ValueError "invalid envelope_id").

Definition write_blob (envelope_id blob : string) : M string :=
  let! path := of_res (_blob_path envelope_id) in
  Vis (EBlobWrite path blob) (fun ok => if ok then ret path else raise OSError).

Definition read_blob (envelope_id : string) : M (option string) :=
  let! path := of_res (_blob_path envelope_id) in
  Vis (EBlobRead path) (fun b => ret b).

Definition secure_delete_blob (envelope_id : string) : M bool :=
  let! path := of_res (_blob_path envelope_id) in
  Vis (EBlobDelete path) (fun r => ret (match r with Some b => b | None => false end)).

Definition blob_exists (envelope_id : string) : M bool :=
  let! path := of_res (_blob_path envelope_id) in
  Vis (EBlobRead path) (fun b => ret (match b with Some _ => true | None => false end)).

(** ** Paths *)

Lemma blob_path_inv id p :
  _blob_path id = Ok p ->
  lower_hex_at_least 4 id = true /\
  p = substring_to 0 2 id +:+ "/" +:+ substring_to 2 2 id +:+ "/" +:+ id.
Proof. unfold _blob_path. case_match; naive_solver. Qed.

Lemma blob_path_prefix id p :
  _blob_path id = Ok p ->
  exists a b c d rest, id = String a (String b (String c (String d rest))) /\
    p = String a (String b (String "/" (String c (String d (String "/" id))))).
Proof.
  intros [Hh ->]%blob_path_inv. apply andb_prop in Hh as [Hlen _]. zify_bool.
  unfold string_len in Hlen.
  destruct id as [|a [|b [|c [|d rest]]]]; cbn [String.length] in Hlen; try lia.
  exists a, b, c, d, rest. split; [done|]. by destruct rest.
Qed.

(** Two envelopes never share a file. *)
Lemma blob_path_inj id1 id2 p : _blob_path id1 = Ok p -> _blob_path id2 = Ok p -> id1 = id2.
Proof.
  intros (a & b & c & d & r & _ & H1)%blob_path_prefix (a' & b' & c' & d' & r' & _ & H2)%blob_path_prefix.
  congruence.
Qed.

(** ** Runs *)

(** The file of an envelope. *)
Definition blob_at {S} (envelope_id : string) (w : world S) : option string :=
  match _blob_path envelope_id with
  | Ok p => f_bytes <$> w_blobs w !! p
  | Raise _ => None
  end.

Definition put_blob {S} (path blob : string) (w : world S) : world S :=
  set_blobs (<[path := File blob (w_now w)]> (w_blobs w)) w.
Definition del_blob {S} (path : string) (w : world S) : world S :=
  set_blobs (delete path (w_blobs w)) w.

Lemma run_write_blob id p blob (w : vworld) :
  calm w -> _blob_path id = Ok p ->
  run_doc (write_blob id blob) w = (Ok p, put_blob p blob w).
Proof.
  intros Hw Hp. destruct (calm_pop w Hw) as [Hn Hpop].
  unfold write_blob. rewrite run_doc_bind, Hp. cbn [of_res run_doc run_exec ev_exec].
  by rewrite Hn, Hpop.
Qed.

Lemma run_write_blob_bad id blob (w : vworld) :
  lower_hex_at_least 4 id = false ->
  run_doc (write_blob id blob) w = (Raise (ValueError "invalid envelope_id"), w).
Proof. intros Hid. unfold write_blob. rewrite run_doc_bind. unfold of_res, _blob_path. by rewrite Hid. Qed.

Lemma run_read_blob id (w : vworld) :
  lower_hex_at_least 4 id = true -> run_doc (read_blob id) w = (Ok (blob_at id w), w).
Proof.
  intros Hid. unfold read_blob, blob_at. rewrite run_doc_bind. unfold of_res, _blob_path.
  by rewrite Hid.
Qed.

(** Without a failure the deletion removes the file and says whether there was one. *)
Lemma run_secure_delete id p (w : vworld) :
  calm w -> _blob_path id = Ok p ->
  run_doc (secure_delete_blob id) w =
  (Ok (match w_blobs w !! p with Some _ => true | None => false end), del_blob p w).
Proof.
  intros Hw Hp. destruct (calm_pop w Hw) as [Hn Hpop].
  unfold secure_delete_blob. rewrite run_doc_bind, Hp. cbn [of_res run_doc run_exec ev_exec].
  unfold del_blob. destruct (w_blobs w !! p) eqn:E.
  - by rewrite Hn, Hpop.
  - rewrite delete_id by done. by destruct w.
Qed.
