(* ===== verification/BlobFiles.v ===== *)
(** * The blob directory below its events (blob_storage.py)

    [BlobStorage] takes a write, a read and a deletion of a blob for one event each.  Here are the functions
    that the worker threads run, one system call at a time: [_write_sync], [_read_sync], [_delete_sync], on a
    file system of directory entries and inodes, where any number of threads take turns, any call can fail and
    a write or read can be short.  A path is the directory and the name in it.  Of [os] and [pathlib] only what
    these functions use is modelled; access rights and what a crash of the machine leaves are not. *)

From Stdlib Require Import Ascii String.
From stdpp Require Import prelude gmap strings list.
From S2P Require Import Prelude Json RedisStore Models Effects BlobStorage.

#[local] Open Scope morok_scope.

(** ** Files *)

Abbreviation bytes := (list ascii).
Definition path : Type := string * string.
Definition parent (p : path) : string := fst p.

Record fs := Fs {
  fs_dirs : gset string;
  fs_names : gmap path nat;
  fs_inodes : gmap nat bytes;
  fs_next : nat                                     (* no inode from here on is in use *)
}.

(** What a file that is opened under the name has in it. *)
Definition content (p : path) (s : fs) : option bytes := fs_names s !! p ≫= (fun ino => fs_inodes s !! ino).

Definition set_names (f : gmap path nat -> gmap path nat) (s : fs) : fs := Fs (fs_dirs s) (f (fs_names s)) (fs_inodes s) (fs_next s).
Definition set_inodes (f : gmap nat bytes -> gmap nat bytes) (s : fs) : fs := Fs (fs_dirs s) (fs_names s) (f (fs_inodes s)) (fs_next s).

(** [write(2)] at an offset; a hole reads as zeros. *)
Definition splice (pos : nat) (data old : bytes) : bytes :=
  take pos old ++ replicate (pos - length old) Ascii.zero ++ data ++ drop (pos + length data) old.

(** ** System calls *)

Inductive call : Type -> Type :=
| CMkdir (d : string) : call bool                          (* mkdir(parents=True, exist_ok=True); false: OSError *)
| CExists (p : path) : call (option bool)                  (* path.exists(); None: an error other than absence *)
| COpenWb (p : path) : call (option nat)                   (* open(p, "wb") *)
| COpen (p : path) : call (option nat)                     (* open(p, "r+b") or "rb" *)
| CStat (p : path) : call (option nat)                     (* st_size *)
| CWrite (ino pos : nat) (data : bytes) : call (nat * bool)  (* how much was written, and whether the call succeeded *)
| CRead (ino pos : nat) : call (option bytes)              (* some of the bytes from there on; empty at the end *)
| CSize (ino : nat) : call nat                             (* fstat *)
| CFsync (ino : nat) : call bool
| CChmod (p : path) : call bool
| CReplace (a b : path) : call bool                        (* os.replace *)
| CUnlink (p : path) : call (option bool).                 (* Some false: FileNotFoundError; None: another OSError *)

(** What the system makes of a call: whether it fails, and how far a write or read gets. *)
Record luck := Luck { lk_ok : bool; lk_len : nat }.

Definition some_of (lk : luck) (data : bytes) : bytes := take (Nat.max 1 (lk_len lk)) data.

Definition exec {X} (c : call X) (lk : luck) (s : fs) : X * fs :=
  match c in call X return X * fs with
  | CMkdir d => if lk_ok lk then (true, Fs ({[ d ]} ∪ fs_dirs s) (fs_names s) (fs_inodes s) (fs_next s)) else (false, s)
  | CExists p => (if lk_ok lk then Some (bool_decide (is_Some (fs_names s !! p))) else None, s)
  | COpenWb p =>
      if lk_ok lk && bool_decide (parent p ∈ fs_dirs s) then
        match fs_names s !! p with
        | Some ino => (Some ino, set_inodes (<[ ino := [] ]>) s)
        | None => (Some (fs_next s),
                   Fs (fs_dirs s) (<[ p := fs_next s ]> (fs_names s)) (<[ fs_next s := [] ]> (fs_inodes s)) (S (fs_next s)))
        end
      else (None, s)
  | COpen p => (if lk_ok lk then fs_names s !! p else None, s)
  | CStat p => (if lk_ok lk then length <$> content p s else None, s)
  | CWrite ino pos data =>
      let done := if lk_ok lk then some_of lk data else take (lk_len lk) data in
      ((length done, lk_ok lk), set_inodes (alter (splice pos done) ino) s)
  | CRead ino pos => (if lk_ok lk then (fun b => some_of lk (drop pos b)) <$> fs_inodes s !! ino else None, s)
  | CSize ino => (default 0 (length <$> fs_inodes s !! ino), s)
  | CFsync _ | CChmod _ => (lk_ok lk, s)
  | CReplace a b =>
      match fs_names s !! a with
      | Some ino => if lk_ok lk then (true, set_names (fun n => <[ b := ino ]> (delete a n)) s) else (false, s)
      | None => (false, s)
      end
  | CUnlink p =>
      if lk_ok lk then
        match fs_names s !! p with Some _ => (Some true, set_names (delete p) s) | None => (Some false, s) end
      else (None, s)
  end.

(** ** Programs of a thread *)

Inductive fprog (A : Type) : Type :=
| FRet (a : A)
| FCall {X : Type} (c : call X) (k : X -> fprog A).
Arguments FRet {A} a.
Arguments FCall {A X} c k.

Fixpoint fbind {A B} (p : fprog A) (f : A -> fprog B) : fprog B :=
  match p with FRet a => f a | FCall c k => FCall c (fun x => fbind (k x) f) end.
Abbreviation F A := (fprog (res A)).
Definition fdo {A B} (p : F A) (f : A -> F B) : F B :=
  fbind p (fun r => match r with Ok a => f a | Raise e => FRet (Raise e) end).
Definition fcatch {A} (p : F A) (h : exn -> F A) : F A :=
  fbind p (fun r => match r with Ok a => FRet (Ok a) | Raise e => h e end).
Definition fret {A} (a : A) : F A := FRet (Ok a).
Definition fraise {A} (e : exn) : F A := FRet (Raise e).
Definition ok_or_raise (ok : bool) : F unit := if ok then fret tt else fraise OSError.
Definition some_or_raise {A} (e : exn) (o : option A) : F A := match o with Some a => fret a | None => fraise e end.

Notation "'let*' x := p 'in' q" := (fdo p (fun x => q))
  (at level 10, x pattern, p at level 100, q at level 200) : morok_scope.
Notation "p ;* q" := (fdo p (fun _ => q)) (at level 199, right associativity) : morok_scope.

(** [f.write(data); f.flush()]: writes until all is written, each of one byte at least. *)
Fixpoint write_from (fuel ino pos : nat) (data : bytes) : F unit :=
  match fuel, data with
  | _, [] | O, _ => fret tt
  | S fuel', _ =>
      FCall (CWrite ino pos data) (fun '(n, ok) =>
        if ok then write_from fuel' ino (pos + n) (drop n data) else fraise OSError)
  end.
Definition write_all (ino : nat) (data : bytes) : F unit := write_from (length data) ino 0 data.

(** [path.read_bytes()] of an open file: reads until one returns nothing. *)
Fixpoint read_from (fuel ino pos : nat) (acc : bytes) : F bytes :=
  match fuel with
  | O => fret acc
  | S fuel' =>
      FCall (CRead ino pos) (fun r =>
        match r with
        | None => fraise OSError
        | Some [] => fret acc
        | Some chunk => read_from fuel' ino (pos + length chunk) (acc ++ chunk)
        end)
  end.
Definition read_all (ino : nat) : F bytes := FCall (CSize ino) (fun size => read_from (S size) ino 0 []).

(** ** The functions of the worker threads *)

(** [_blob_path], relative to [blob_dir]. *)
Definition blob_file (envelope_id : string) : res path :=
  if lower_hex_at_least 4 envelope_id then
    Ok (substring_to 0 2 envelope_id +:+ "/" +:+ substring_to 2 2 envelope_id, envelope_id)
  else Raise (ValueError "invalid envelope_id").

(** [pid] and [token]: [os.getpid()] and [secrets.token_hex(4)]. *)
Definition tmp_file (p : path) (envelope_id pid token : string) : path :=
  (parent p, "." +:+ envelope_id +:+ "." +:+ pid +:+ "." +:+ token +:+ ".tmp").

Definition _write_sync (p tmp_path : path) (blob : bytes) : F unit :=
  let* _ := FCall (CMkdir (parent p)) ok_or_raise in
  fcatch
    (let* f := FCall (COpenWb tmp_path) (some_or_raise OSError) in
     write_all f blob ;*
     FCall (CFsync f) ok_or_raise ;*
     FCall (CChmod tmp_path) ok_or_raise ;*
     FCall (CReplace tmp_path p) ok_or_raise)
    (fun e => FCall (CUnlink tmp_path) (fun _ => fraise e)).

Definition _read_sync (p : path) : F (option bytes) :=
  let* found := FCall (CExists p) (some_or_raise OSError) in
  if negb found then fret None
  else
    let* f := FCall (COpen p) (some_or_raise FileNotFoundError) in
    let* b := read_all f in
    fret (Some b).

Definition _delete_sync (token_bytes : nat -> bytes) (p : path) : F bool :=
  let* found := FCall (CExists p) (some_or_raise OSError) in
  if negb found then fret false
  else
    fcatch
      (let* size := FCall (CStat p) (some_or_raise FileNotFoundError) in
       let* f := FCall (COpen p) (some_or_raise FileNotFoundError) in
       write_all f (token_bytes size) ;*
       FCall (CFsync f) ok_or_raise ;*
       let* _ := FCall (CUnlink p) (fun r => match r with Some true => fret tt | Some false => fraise FileNotFoundError | None => fraise OSError end) in
       fret true)
      (fun _ => fret false).

(** ** Calls of the module *)

Inductive job :=
| JWrite (envelope_id : string) (blob : bytes) (pid token : string)     (* write_blob *)
| JRead (envelope_id : string)                                          (* read_blob *)
| JExists (envelope_id : string)                                        (* blob_exists *)
| JDelete (envelope_id : string).                                       (* secure_delete_blob *)

Inductive answer := Written | Contents (b : option bytes) | Exists (b : bool) | Deleted (b : bool).

Definition at_path {A} (envelope_id : string) (f : path -> F A) : F A :=
  match blob_file envelope_id with Ok p => f p | Raise e => fraise e end.

Definition perform (token_bytes : nat -> bytes) (j : job) : F answer :=
  match j with
  | JWrite id blob pid token =>
      at_path id (fun p => let* _ := _write_sync p (tmp_file p id pid token) blob in fret Written)
  | JRead id => at_path id (fun p => let* b := _read_sync p in fret (Contents b))
  | JExists id => at_path id (fun p => let* b := FCall (CExists p) (some_or_raise OSError) in fret (Exists b))
  | JDelete id => at_path id (fun p => let* b := _delete_sync token_bytes p in fret (Deleted b))
  end.

(** ** Interleavings *)

(** A turn: the thread that makes its next call, and the luck it has. *)
Definition turn (il : nat * luck) (w : list (F answer) * fs) : list (F answer) * fs :=
  match w.1 !! il.1 with
  | Some (FCall c k) => let xs := exec c il.2 w.2 in (<[ il.1 := k xs.1 ]> w.1, xs.2)
  | _ => w
  end.
Definition turns (sched : list (nat * luck)) (w : list (F answer) * fs) : list (F answer) * fs :=
  fold_left (fun w il => turn il w) sched w.
Definition outcome (ts : list (F answer)) (i : nat) : option (res answer) :=
  match ts !! i with Some (FRet r) => Some r | _ => None end.
