(* ===== verification/BlobFilesFacts.v ===== *)
(** * The blob directory: writes are atomic, deletions erase

    A small logic for threads on one file system: [wp] is what a thread needs of the invariant [Inv] at each of
    its calls, whatever the others did in between.  With it: every interleaving of writes and reads is one where
    each write happens at once ([blob_writes_atomic]); the writers' number of calls is bounded; what a deletion
    that runs alone does, whatever fails; and where deletions do not fit that picture. *)

From Stdlib Require Import Ascii String.
From stdpp Require Import prelude gmap strings list.
From S2P Require Import Prelude Json RedisStore Models Effects BlobStorage BlobFiles.

#[local] Open Scope morok_scope.

(** ** Paths *)

Lemma blob_file_path id p : blob_file id = Ok p -> _blob_path id = Ok (parent p +:+ "/" +:+ p.2).
Proof.
  unfold blob_file, _blob_path. case_match; [|done]. intros [= <-]. unfold parent. cbn [fst snd]. by rewrite !string_app_assoc.
Qed.
Lemma tmp_not_blob p id pid token id' : blob_file id' = Ok (tmp_file p id pid token) -> False.
Proof.
  unfold blob_file, lower_hex_at_least. destruct (_ && _) eqn:E; [|done]. intros [= _ ->].
  by apply andb_prop in E as [_ E].
Qed.

(** ** The writers, and the map that they write to *)

Definition file_of (j : job) : option path :=
  match j with JWrite id _ _ _ | JRead id | JExists id | JDelete id => match blob_file id with Ok p => Some p | Raise _ => None end end.
Definition tmp_of (j : job) : option path :=
  match j with
  | JWrite id _ pid token => match blob_file id with Ok p => Some (tmp_file p id pid token) | Raise _ => None end
  | _ => None
  end.
Definition is_delete (j : job) : bool := match j with JDelete _ => true | _ => false end.

Lemma file_not_tmp j j' p : file_of j = Some p -> tmp_of j' = Some p -> False.
Proof.
  unfold file_of, tmp_of. destruct j' as [id' b' pid token| | |]; try done. destruct (blob_file id') eqn:E'; [|done].
  intros Hj [= <-]. destruct j; destruct (blob_file _) eqn:E in Hj; simplify_eq; by eapply tmp_not_blob.
Qed.

(** The abstract blob store after the writes of [log], one after the other. *)
Definition store : Type := path -> option bytes.
Definition put (jobs : list job) (v : store) (i : nat) : store :=
  match jobs !! i with
  | Some (JWrite id blob _ _) =>
      match blob_file id with Ok p => fun q => if bool_decide (q = p) then Some blob else v q | Raise _ => v end
  | _ => v
  end.
Definition replay (jobs : list job) (v : store) (log : list nat) : store := fold_left (put jobs) log v.

(** Names are entries of inodes that are in use. *)
Definition fs_ok (s : fs) : Prop :=
  (forall p ino, fs_names s !! p = Some ino -> is_Some (fs_inodes s !! ino)) /\
  (forall ino, fs_next s <= ino -> fs_inodes s !! ino = None)%nat.

(** ** Threads on one file system *)

(** What a thread knows: nothing; that its directory is there; its temporary file and what is in it; that its
    rename is done; that a file is there; the file it has opened. *)
Inductive ghost :=
| GIdle (made : bool)
| GTmp (ino : nat) (c : bytes)
| GDone
| GSeen
| GRead (ino : nat) (b : bytes).

Section Threads.
Context (jobs : list job) (s0 : fs) (calm : bool).
Context (Hnodel : forall i j, jobs !! i = Some j -> is_delete j = false).
Context (Htmps : forall i j ji jj t, jobs !! i = Some ji -> jobs !! j = Some jj -> tmp_of ji = Some t -> tmp_of jj = Some t -> i = j).

Definition is_tmp (q : path) : Prop := exists i j, jobs !! i = Some j /\ tmp_of j = Some q.

Lemma blob_not_tmp id p : blob_file id = Ok p -> ~ is_tmp p.
Proof. intros Hp (i & j & _ & Ht). eapply (file_not_tmp (JRead id)); [|exact Ht]. cbn. by rewrite Hp. Qed.

(** What holds of the file system for a thread that does [j] and knows [g]. *)
Definition holds (s : fs) (j : job) (g : ghost) : Prop :=
  (forall t, tmp_of j = Some t ->
     match g with
     | GTmp ino c => fs_names s !! t = Some ino /\ fs_inodes s !! ino = Some c /\ (forall q, fs_names s !! q = Some ino -> q = t)
     | _ => fs_names s !! t = None
     end) /\
  match g with
  | GIdle made => made = true -> exists p, file_of j = Some p /\ parent p ∈ fs_dirs s
  | GTmp _ _ | GDone => is_Some (tmp_of j)
  | GSeen => exists p, file_of j = Some p /\ is_Some (fs_names s !! p)
  | GRead ino b => fs_inodes s !! ino = Some b /\ (forall q, fs_names s !! q = Some ino -> ~ is_tmp q)
  end.

Record Inv (s : fs) (G : list ghost) (log : list nat) : Prop := {
  inv_fs : fs_ok s;
  inv_view : forall q, ~ is_tmp q -> content q s = replay jobs (fun q => content q s0) log q;
  inv_holds : forall i j g, jobs !! i = Some j -> G !! i = Some g -> holds s j g;
  inv_log : NoDup log;
  inv_done : forall i, i ∈ log <-> G !! i = Some GDone;
  inv_len : length G = length jobs
}.

(** The calls of thread [i], with what they leave to it. *)
Fixpoint wp {A} (i : nat) (p : fprog A) (Q : A -> ghost -> list nat -> Prop) (g : ghost) (log : list nat) : Prop :=
  match p with
  | FRet a => Q a g log
  | FCall c k =>
      forall s G l lk, Inv s G l -> G !! i = Some g -> log `prefix_of` l -> (calm = true -> lk_ok lk = true) ->
      exists g' l', l `prefix_of` l' /\ Inv (exec c lk s).2 (<[ i := g' ]> G) l' /\ wp i (k (exec c lk s).1) Q g' l'
  end.

Lemma wp_bind {A B} i (p : fprog A) (f : A -> fprog B) Q g log :
  wp i p (fun a => wp i (f a) Q) g log -> wp i (fbind p f) Q g log.
Proof.
  revert g log. induction p as [a|X c k IH]; intros g log; cbn [wp fbind]; [done|].
  intros H s G l lk HI HG Hl Hc. destruct (H s G l lk HI HG Hl Hc) as (g' & l' & ? & ? & ?). exists g', l'. split_and!; [done..|]. by apply IH.
Qed.

(** One thread makes a call: what is left to show. *)
Lemma inv_turn i j g g' s s' G log :
  Inv s G log -> jobs !! i = Some j -> G !! i = Some g -> g <> GDone -> g' <> GDone ->
  fs_ok s' -> (forall q, ~ is_tmp q -> content q s' = content q s) ->
  (forall k jk gk, k <> i -> jobs !! k = Some jk -> holds s jk gk -> holds s' jk gk) ->
  holds s' j g' -> Inv s' (<[ i := g' ]> G) log.
Proof.
  intros HI Hj Hg Hnd Hnd' Hok Hview Hothers Hme. pose proof (lookup_lt_Some _ _ _ Hg) as Hlt.
  split; [done| | |apply HI| |by rewrite length_insert, (inv_len _ _ _ HI)].
  - intros q Hq. rewrite Hview by done. by apply HI.
  - intros k jk gk Hk. destruct (decide (i = k)) as [<-|Hne].
    + rewrite list_lookup_insert_eq by done. intros [= <-]. by simplify_eq.
    + rewrite list_lookup_insert_ne by done. intros Hgk. apply (Hothers k); [done..|]. by eapply inv_holds.
  - intros k. rewrite (inv_done _ _ _ HI). destruct (decide (i = k)) as [<-|Hne]; [|by rewrite list_lookup_insert_ne].
    rewrite list_lookup_insert_eq by done. naive_solver.
Qed.

(** The thread learns something. *)
Lemma inv_learn i j g g' s G log :
  Inv s G log -> jobs !! i = Some j -> G !! i = Some g -> g <> GDone -> g' <> GDone -> holds s j g' -> Inv s (<[ i := g' ]> G) log.
Proof. intros HI **. eapply inv_turn; try done. apply HI. Qed.
Lemma inv_stay i g s G log : Inv s G log -> G !! i = Some g -> Inv s (<[ i := g ]> G) log.
Proof. intros HI HG. by rewrite list_insert_id. Qed.

(** Directories are only added. *)
Lemma holds_dirs d s jk gk : holds s jk gk -> holds (Fs (d ∪ fs_dirs s) (fs_names s) (fs_inodes s) (fs_next s)) jk gk.
Proof. intros [H1 H2]. split; [done|]. destruct gk; try done. intros Hm. destruct (H2 Hm) as (p & ? & ?). exists p. split; [done|]. cbn. set_solver. Qed.

Lemma inv_mkdir i j g s G log p :
  Inv s G log -> jobs !! i = Some j -> G !! i = Some g -> g <> GDone -> file_of j = Some p ->
  (forall t, tmp_of j = Some t -> fs_names s !! t = None) ->
  Inv (Fs ({[ parent p ]} ∪ fs_dirs s) (fs_names s) (fs_inodes s) (fs_next s)) (<[ i := GIdle true ]> G) log.
Proof.
  intros HI Hj Hg Hnd Hp Ht. eapply inv_turn; try done; [apply HI|intros; by apply holds_dirs|].
  split; [done|]. intros _. exists p. split; [done|]. cbn. set_solver.
Qed.

(** The inode of a temporary file is nobody else's. *)
Lemma foreign_name k jk gk i j t ino c s :
  jobs !! i = Some j -> tmp_of j = Some t -> holds s j (GTmp ino c) -> k <> i -> jobs !! k = Some jk -> holds s jk gk ->
  (forall t', tmp_of jk = Some t' -> t' <> t /\ fs_names s !! t' <> Some ino) /\
  match gk with GRead ino' _ => ino' <> ino | _ => True end.
Proof.
  intros Hj Ht [Hme _] Hne Hk [Hk1 Hk2]. destruct (Hme _ Ht) as (Hn & Hc & Hu). split.
  - intros t' Ht'. assert (t' <> t) by (intros ->; apply Hne; by eapply Htmps). split; [done|]. by intros ->%Hu.
  - destruct gk; try done. intros ->. destruct Hk2 as [_ Hk2]. apply (Hk2 t Hn). by exists i, j.
Qed.

Lemma inv_create i j g t s G log :
  Inv s G log -> jobs !! i = Some j -> G !! i = Some g -> g <> GDone -> tmp_of j = Some t -> fs_names s !! t = None ->
  Inv (Fs (fs_dirs s) (<[ t := fs_next s ]> (fs_names s)) (<[ fs_next s := [] ]> (fs_inodes s)) (S (fs_next s)))
      (<[ i := GTmp (fs_next s) [] ]> G) log.
Proof.
  intros HI Hj Hg Hnd Ht Hfree. destruct (inv_fs _ _ _ HI) as [Hf1 Hf2].
  assert (Hused : forall q ino, fs_names s !! q = Some ino -> ino <> fs_next s).
  { intros q ino Hq ->. destruct (Hf1 _ _ Hq) as [? E]. by rewrite Hf2 in E. }
  assert (Hino : forall ino b, fs_inodes s !! ino = Some b -> ino <> fs_next s) by (intros ino b E ->; by rewrite Hf2 in E).
  eapply inv_turn; try done.
  - split; cbn.
    + intros q ino. rewrite lookup_insert_Some. intros [[<- <-]|[_ Hq]]; [by rewrite lookup_insert_eq|].
      rewrite lookup_insert_ne by (intros E; by apply (Hused q ino)). by eapply Hf1.
    + intros ino Hle. rewrite lookup_insert_ne by lia. apply Hf2. lia.
  - intros q Hq. assert (q <> t) by (intros ->; apply Hq; by exists i, j). unfold content. cbn. rewrite lookup_insert_ne by done.
    destruct (fs_names s !! q) as [ino|] eqn:E; [|done]. cbn. rewrite lookup_insert_ne by (intros E'; by apply (Hused q ino)). done.
  - intros k jk gk Hne Hk [Hk1 Hk2].
    assert (Hnt : forall t', tmp_of jk = Some t' -> t <> t') by (intros t' Ht' <-; apply Hne; by eapply Htmps). split.
    + intros t' Ht'. specialize (Hk1 _ Ht'). specialize (Hnt _ Ht'). destruct gk as [m|ino c| | |ino b]; cbn; rewrite lookup_insert_ne by done; try done.
      destruct Hk1 as (Hn & Hc & Hu). split_and!; [done|by rewrite lookup_insert_ne by (by intros E; eapply Hused; [exact Hn|])|].
      intros q. rewrite lookup_insert_Some. intros [[-> E]|[_ Hq]]; [|by apply Hu]. by destruct (Hused _ _ Hn).
    + destruct gk as [m|ino c| | |ino b]; try done.
      * destruct Hk2 as (p & Hp & Hs). exists p. split; [done|]. cbn. destruct (decide (t = p)) as [->|]; [by rewrite lookup_insert_eq|by rewrite lookup_insert_ne].
      * destruct Hk2 as [Hb Hq]. cbn. split; [by rewrite lookup_insert_ne by (by intros E; eapply Hino; [exact Hb|])|].
        intros q. rewrite lookup_insert_Some. intros [[_ E]|[_ Hq']]; [by destruct (Hino _ _ Hb)|by apply Hq].
  - split; [|by exists t]. intros t' Ht'. simplify_eq. cbn. rewrite !lookup_insert_eq. split_and!; [done..|].
    intros q. rewrite lookup_insert_Some. intros [[-> _]|[_ Hq]]; [done|]. by destruct (Hused _ _ Hq).
Qed.

Lemma inv_write i j t ino c f s G log :
  Inv s G log -> jobs !! i = Some j -> G !! i = Some (GTmp ino c) -> tmp_of j = Some t ->
  Inv (set_inodes (alter f ino) s) (<[ i := GTmp ino (f c) ]> G) log.
Proof.
  intros HI Hj Hg Ht. destruct (inv_fs _ _ _ HI) as [Hf1 Hf2]. pose proof (inv_holds _ _ _ HI _ _ _ Hj Hg) as Hme.
  destruct (proj1 Hme _ Ht) as (Hn & Hc & Hu). eapply inv_turn; try done.
  - split; cbn; [intros q ino' Hq|intros ino' Hle].
    + destruct (decide (ino = ino')) as [<-|]; [by rewrite lookup_alter_eq, Hc|]. rewrite lookup_alter_ne by done. by eapply Hf1.
    + destruct (decide (ino = ino')) as [<-|]; [by rewrite Hf2 in Hc|]. rewrite lookup_alter_ne by done. by apply Hf2.
  - intros q Hq. unfold content. cbn. destruct (fs_names s !! q) as [ino'|] eqn:E; [|done]. cbn. apply lookup_alter_ne.
    intros <-. apply Hq. apply Hu in E as ->. by exists i, j.
  - intros k jk gk Hne Hk Hhk. destruct (foreign_name k jk gk i j t ino c s Hj Ht Hme Hne Hk Hhk) as [Hf Hr]. destruct Hhk as [Hk1 Hk2]. split.
    + intros t' Ht'. specialize (Hk1 _ Ht'). destruct (Hf _ Ht') as [_ Hni]. destruct gk as [m|ino' c'| | |ino' b]; try done.
      destruct Hk1 as (Hn' & Hc' & Hu'). split_and!; [done| |done]. cbn. rewrite lookup_alter_ne by congruence. done.
    + destruct gk as [m|ino' c'| | |ino' b]; try done. destruct Hk2 as [Hb Hq]. split; [|done]. cbn. by rewrite lookup_alter_ne.
  - split; [|by exists t]. intros t' Ht'. simplify_eq. cbn. rewrite lookup_alter_eq, Hc. done.
Qed.

Lemma inv_unlink i j t ino c s G log :
  Inv s G log -> jobs !! i = Some j -> G !! i = Some (GTmp ino c) -> tmp_of j = Some t ->
  Inv (set_names (delete t) s) (<[ i := GIdle false ]> G) log.
Proof.
  intros HI Hj Hg Ht. destruct (inv_fs _ _ _ HI) as [Hf1 Hf2]. pose proof (inv_holds _ _ _ HI _ _ _ Hj Hg) as Hme.
  eapply inv_turn; try done.
  - split; cbn; [|done]. intros q ino'. rewrite lookup_delete_Some. intros [_ Hq]. by eapply Hf1.
  - intros q Hq. assert (q <> t) by (intros ->; apply Hq; by exists i, j). unfold content. cbn. by rewrite lookup_delete_ne.
  - intros k jk gk Hne Hk [Hk1 Hk2]. split.
    + intros t' Ht'. specialize (Hk1 _ Ht'). assert (t <> t') by (intros ->; apply Hne; by eapply Htmps).
      destruct gk; cbn; rewrite lookup_delete_ne by done; try done. destruct Hk1 as (? & ? & Hu). split_and!; [done..|].
      intros q. rewrite lookup_delete_Some. intros [_ Hq]. by apply Hu.
    + destruct gk as [m|ino' c'| | |ino' b]; try done.
      * destruct Hk2 as (p & Hp & Hs). exists p. split; [done|]. cbn. rewrite lookup_delete_ne; [done|]. intros <-.
        by eapply (file_not_tmp jk j).
      * destruct Hk2 as [Hb Hq]. split; [done|]. intros q. cbn. rewrite lookup_delete_Some. intros [_ Hq']. by apply Hq.
  - split; [|done]. intros t' Ht'. simplify_eq. cbn. by rewrite lookup_delete_eq.
Qed.

Lemma inv_rename i id blob pid token p ino s G log :
  Inv s G log -> jobs !! i = Some (JWrite id blob pid token) -> G !! i = Some (GTmp ino blob) -> blob_file id = Ok p ->
  Inv (set_names (fun n => <[ p := ino ]> (delete (tmp_file p id pid token) n)) s) (<[ i := GDone ]> G) (log ++ [i]).
Proof.
  intros HI Hj Hg Hp. destruct (inv_fs _ _ _ HI) as [Hf1 Hf2]. pose proof (inv_holds _ _ _ HI _ _ _ Hj Hg) as Hme.
  set (t := tmp_file p id pid token). assert (Ht : tmp_of (JWrite id blob pid token) = Some t) by (cbn; by rewrite Hp).
  destruct (proj1 Hme _ Ht) as (Hn & Hc & Hu). assert (Hpt : ~ is_tmp p) by (by eapply blob_not_tmp).
  assert (Hlt := lookup_lt_Some _ _ _ Hg). assert (Hnl : i ∉ log) by (rewrite (inv_done _ _ _ HI), Hg; naive_solver).
  split.
  - split; cbn; [|done]. intros q ino'. rewrite lookup_insert_Some, lookup_delete_Some. intros [[_ <-]|[_ [_ Hq]]]; [by rewrite Hc|by eapply Hf1].
  - intros q Hq. unfold replay. rewrite fold_left_app. cbn. unfold put at 1. rewrite Hj, Hp. unfold content. cbn.
    assert (t <> q) by (intros <-; apply Hq; by exists i, (JWrite id blob pid token)).
    destruct (decide (p = q)) as [<-|Hne]; [rewrite lookup_insert_eq, bool_decide_true by done; by cbn|].
    rewrite lookup_insert_ne, lookup_delete_ne, bool_decide_false by done. by apply (inv_view _ _ _ HI).
  - intros k jk gk Hk. destruct (decide (i = k)) as [<-|Hne].
    { rewrite list_lookup_insert_eq by done. intros [= <-]. assert (jk = JWrite id blob pid token) as -> by congruence. split; [|by exists t]. intros t' Ht'. assert (t' = t) as -> by congruence. cbn.
      rewrite lookup_insert_ne, lookup_delete_eq by (intros E; apply Hpt; rewrite E; by eexists i, _). done. }
    rewrite list_lookup_insert_ne by done. intros Hgk. pose proof (inv_holds _ _ _ HI _ _ _ Hk Hgk) as Hhk.
    destruct (foreign_name k jk gk i _ t ino blob s Hj Ht Hme (not_eq_sym Hne) Hk Hhk) as [Hf Hr]. destruct Hhk as [Hk1 Hk2]. split.
    + intros t' Ht'. specialize (Hk1 _ Ht'). destruct (Hf _ Ht') as [Hnt Hni].
      assert (p <> t') by (intros ->; apply Hpt; by exists k, jk).
      destruct gk as [m|ino' c'| | |ino' b]; cbn; rewrite lookup_insert_ne, lookup_delete_ne by done; try done.
      destruct Hk1 as (Hn' & Hc' & Hu'). split_and!; [done..|]. intros q. rewrite lookup_insert_Some, lookup_delete_Some.
      intros [[_ E]|[_ [_ Hq]]]; [congruence|by apply Hu'].
    + destruct gk as [m|ino' c'| | |ino' b]; try done.
      * destruct Hk2 as (q & Hq & Hs). exists q. split; [done|]. cbn. destruct (decide (p = q)) as [<-|]; [by rewrite lookup_insert_eq|].
        rewrite lookup_insert_ne, lookup_delete_ne by first [done | intros E; rewrite <- E in Hq; by eapply (file_not_tmp jk); [exact Hq | exact Ht]]. done.
      * destruct Hk2 as [Hb Hq]. split; [done|]. intros q. cbn. rewrite lookup_insert_Some, lookup_delete_Some.
        intros [[<- _]|[_ [_ Hq']]]; [done|by apply Hq].
  - rewrite NoDup_app. split_and!; [apply HI| |apply NoDup_singleton]. intros x Hx Hx'. rewrite list_elem_of_singleton in Hx'. by subst.
  - intros k. rewrite elem_of_app, list_elem_of_singleton. destruct (decide (i = k)) as [<-|Hne].
    + rewrite list_lookup_insert_eq by done. naive_solver.
    + rewrite list_lookup_insert_ne by done. rewrite (inv_done _ _ _ HI). naive_solver.
  - by rewrite length_insert, (inv_len _ _ _ HI).
Qed.

(** ** The calls of the functions *)

(** A call that changes nothing. *)
Lemma wp_quiet {A X} i (c : call X) (k : X -> fprog A) Q g log :
  (forall lk s, (exec c lk s).2 = s) ->
  (forall s G l lk, Inv s G l -> G !! i = Some g -> log `prefix_of` l -> (calm = true -> lk_ok lk = true) ->
     wp i (k (exec c lk s).1) Q g l) ->
  wp i (FCall c k) Q g log.
Proof.
  intros Hq H s G l lk HI HG Hl Hc. exists g, l. rewrite Hq. split_and!; [done|by apply inv_stay|by eapply H].
Qed.

Lemma unlucky : (calm = true -> false = true) -> calm = false.
Proof. destruct calm; [|done]. intros H. by discriminate H. Qed.

Lemma splice_end data c : splice (length c) data c = c ++ data.
Proof. unfold splice. rewrite firstn_all, Nat.sub_diag, drop_ge by lia. cbn. by rewrite app_nil_r. Qed.
Lemma some_of_pos lk data : data <> [] -> (1 <= length (some_of lk data) <= length data)%nat.
Proof. destruct data as [|x data]; [done|]. intros _. unfold some_of. rewrite length_take. cbn. lia. Qed.
Lemma take_length_drop n (l : bytes) : take n l ++ drop (length (take n l)) l = l.
Proof. rewrite length_take. destruct (Nat.min_spec n (length l)) as [[_ ->]|[? ->]]; [apply take_drop|]. rewrite drop_ge, take_ge, app_nil_r by lia. done. Qed.

Section Writer.
Context (i : nat) (j : job) (t : path) (Hj : jobs !! i = Some j) (Ht : tmp_of j = Some t).

Lemma wp_write_from ino fuel data c (Q : res unit -> ghost -> list nat -> Prop) log :
  (length data <= fuel)%nat -> (forall l', Q (Ok tt) (GTmp ino (c ++ data)) l') ->
  (calm = false -> forall c' l', Q (Raise OSError) (GTmp ino c') l') ->
  wp i (write_from fuel ino (length c) data) Q (GTmp ino c) log.
Proof.
  revert data c log. induction fuel as [|fuel IH]; intros data c log Hlen Hok Hfail.
  { destruct data; [|cbn in Hlen; lia]. cbn. by rewrite <- (app_nil_r c). }
  destruct data as [|x data'] eqn:Ed; [cbn; by rewrite <- (app_nil_r c)|]. rewrite <- Ed in *. assert (Hne : data <> []) by (by subst).
  cbn [write_from]. replace (match data with [] => _ | _ :: _ => _ end) with
    (FCall (CWrite ino (length c) data) (fun '(n, ok) => if ok : bool then write_from fuel ino (length c + n) (drop n data) else fraise OSError)) by (by subst).
  clear Ed x data'. intros s G l lk HI HG Hl Hc. eexists (GTmp ino (splice (length c) _ c)), l. split; [done|]. split; [by eapply inv_write|].
  cbn [exec fst snd]. rewrite splice_end. destruct (lk_ok lk) eqn:Elk.
  - destruct (some_of_pos lk data Hne) as [H1 H2]. rewrite <- length_app. apply IH.
    + rewrite length_drop. lia.
    + intros l'. unfold some_of. rewrite <- app_assoc, take_length_drop. apply Hok.
    + done.
  - cbn. apply Hfail. by apply unlucky.
Qed.

(** Cleaning up leaves nothing, or the temporary file. *)
Lemma wp_unlink {A} e ino c (Q : res A -> ghost -> list nat -> Prop) log :
  (forall g' l', g' <> GDone -> Q (Raise e) g' l') -> wp i (FCall (CUnlink t) (fun _ => fraise e)) Q (GTmp ino c) log.
Proof.
  intros HQ s G l lk HI HG Hl Hc. cbn [exec]. pose proof (proj1 (inv_holds _ _ _ HI _ _ _ Hj HG) _ Ht) as (Hn & _ & _). rewrite Hn. cbn [fst snd].
  destruct (lk_ok lk); cbn [fst snd].
  - exists (GIdle false), l. split_and!; [done|by eapply inv_unlink|by apply HQ].
  - exists (GTmp ino c), l. split_and!; [done|by apply inv_stay|by apply HQ].
Qed.
Lemma wp_unlink_nothing {A} e m (Q : res A -> ghost -> list nat -> Prop) log :
  (forall g' l', g' <> GDone -> Q (Raise e) g' l') -> wp i (FCall (CUnlink t) (fun _ => fraise e)) Q (GIdle m) log.
Proof.
  intros HQ s G l lk HI HG Hl Hc. cbn [exec]. pose proof (proj1 (inv_holds _ _ _ HI _ _ _ Hj HG) _ Ht) as Hn. cbn in Hn. rewrite Hn. cbn [fst snd].
  exists (GIdle m), l. split_and!; [done|destruct (lk_ok lk); by apply inv_stay|by apply HQ].
Qed.
End Writer.

(** A failed step of [_write_sync] is cleaned up behind, and never committed. *)
Lemma wp_write_sync i id blob pid token p (Q : res unit -> ghost -> list nat -> Prop) log :
  jobs !! i = Some (JWrite id blob pid token) -> blob_file id = Ok p ->
  (forall l', Q (Ok tt) GDone l') -> (calm = false -> forall g' l', g' <> GDone -> Q (Raise OSError) g' l') ->
  wp i (_write_sync p (tmp_file p id pid token) blob) Q (GIdle false) log.
Proof.
  intros Hj Hp Hok Hfail. set (t := tmp_file p id pid token). assert (Ht : tmp_of (JWrite id blob pid token) = Some t) by (cbn; by rewrite Hp).
  assert (Hf : file_of (JWrite id blob pid token) = Some p) by (cbn; by rewrite Hp).
  intros s G l lk HI HG Hl Hc. cbn [exec]. destruct (lk_ok lk); cbn [fst snd];
    [|exists (GIdle false), l; split_and!; [done|by apply inv_stay|]; cbn; apply Hfail; [by apply unlucky|done]].
  exists (GIdle true), l. split; [done|]. split.
  { eapply inv_mkdir; try done. intros t' Ht'. by apply (inv_holds _ _ _ HI _ _ _ Hj HG). }
  cbn [ok_or_raise fret fbind]. unfold fcatch. apply wp_bind. clear s G lk HI HG Hl Hc.
  intros s G l' lk HI HG Hl Hc. cbn [exec]. pose proof (inv_holds _ _ _ HI _ _ _ Hj HG) as [Hn Hd]. specialize (Hn _ Ht). cbn in Hn.
  destruct (Hd eq_refl) as (p' & Hp' & Hdir). assert (p' = p) as -> by congruence.
  change (parent t) with (parent p). rewrite bool_decide_true, andb_true_r, Hn by done. destruct (lk_ok lk); cbn [fst snd].
  2:{ exists (GIdle true), l'. split_and!; [done|by apply inv_stay|]. cbn [some_or_raise fraise wp fbind]. apply wp_unlink_nothing with (j := JWrite id blob pid token); [done..|].
      intros. apply Hfail; [by apply unlucky|done]. }
  eexists (GTmp _ []), l'. split; [done|]. split; [by eapply inv_create|]. cbn [some_or_raise fret fbind].
  set (ino := fs_next s). clearbody ino. clear s G lk HI HG Hl Hc Hn Hd Hdir Hp'.
  set (HQ := fun (r : res unit) g' l' => wp i (match r with Ok a => FRet (Ok a) | Raise e => FCall (CUnlink t) (fun _ => fraise e) end) Q g' l').
  assert (Hclean : calm = false -> forall c l', HQ (Raise OSError) (GTmp ino c) l').
  { intros Hcalm c l2. apply wp_unlink with (j := JWrite id blob pid token); [done..|]. intros. by apply Hfail. }
  apply wp_bind. apply (wp_write_from i (JWrite id blob pid token) t Hj Ht ino (length blob) blob []); [lia| |done]. intros l2. unfold fdo. cbn [fbind].
  apply wp_quiet; [done|]. intros s G l3 lk HI HG Hl Hc. cbn [exec fst snd]. destruct (lk_ok lk); [|apply Hclean; by apply unlucky].
  cbn [ok_or_raise fret fbind]. apply wp_quiet; [done|]. clear s G lk HI HG Hl Hc.
  intros s G l4 lk HI HG Hl Hc. cbn [exec fst snd]. destruct (lk_ok lk); [|apply Hclean; by apply unlucky].
  cbn [ok_or_raise fret fbind]. clear s G lk HI HG Hl Hc. intros s G l5 lk HI HG Hl Hc. cbn [exec].
  destruct (proj1 (inv_holds _ _ _ HI _ _ _ Hj HG) _ Ht) as (Hn & _ & _). rewrite Hn. destruct (lk_ok lk); cbn [fst snd].
  - exists GDone, (l5 ++ [i]). split; [by apply prefix_app_r|]. split; [by apply (inv_rename i id blob pid token p)|apply Hok].
  - exists (GTmp ino blob), l5. split_and!; [done|by apply inv_stay|]. apply Hclean. by apply unlucky.
Qed.

(** What was in the file at some time from [lo] on. *)
Definition was (lo : list nat) (p : path) (b : option bytes) (log : list nat) : Prop :=
  exists l1, lo `prefix_of` l1 /\ l1 `prefix_of` log /\ replay jobs (fun q => content q s0) l1 p = b.
Lemma was_now lo s G l id p : Inv s G l -> blob_file id = Ok p -> lo `prefix_of` l -> was lo p (content p s) l.
Proof. intros HI Hp Hlo. exists l. split_and!; [done..|]. rewrite (inv_view _ _ _ HI); [done|by eapply blob_not_tmp]. Qed.

(** An open file that nobody writes to is read to its end. *)
Lemma wp_read_from i j ino b fuel pos (Q : res bytes -> ghost -> list nat -> Prop) log :
  jobs !! i = Some j -> (pos <= length b < fuel + pos)%nat ->
  (forall l', log `prefix_of` l' -> Q (Ok b) (GRead ino b) l') ->
  (calm = false -> forall l', Q (Raise OSError) (GRead ino b) l') ->
  wp i (read_from fuel ino pos (take pos b)) Q (GRead ino b) log.
Proof.
  intros Hj. revert pos log. induction fuel as [|fuel IH]; intros pos log Hpos Hok Hfail; [lia|].
  cbn [read_from]. apply wp_quiet; [done|]. intros s G l lk HI HG Hl Hc. cbn [exec fst].
  destruct (inv_holds _ _ _ HI _ _ _ Hj HG) as [_ [Hb _]]. rewrite Hb. destruct (lk_ok lk); cbn [fmap option_fmap option_map]; [|apply Hfail; by apply unlucky].
  destruct (some_of lk (drop pos b)) as [|x chunk] eqn:E.
  - assert (length b <= pos)%nat.
    { destruct (decide (length b <= pos)%nat); [done|]. destruct (some_of_pos lk (drop pos b)) as [H _]; [|rewrite E in H; cbn in H; lia].
      intros E'. apply (f_equal length) in E'. rewrite length_drop in E'. cbn in E'. lia. }
    rewrite firstn_all2 by done. by apply Hok.
  - destruct (some_of_pos lk (drop pos b)) as [H1 H2]; [intros E'; unfold some_of in E; by rewrite E', take_nil in E|].
    rewrite length_drop, E in *. assert (Hnext : take pos b ++ x :: chunk = take (pos + length (x :: chunk)) b).
    { rewrite <- E at 1. rewrite <- (take_drop pos b) at 3. rewrite take_app, length_take, Nat.min_l by lia. rewrite firstn_all2 with (n := (_ + _)%nat) by (rewrite length_take; lia).
      f_equal. rewrite <- E. unfold some_of. rewrite length_take. replace (pos + _ - pos)%nat with (Nat.min (1 `max` lk_len lk) (length (drop pos b))) by lia.
      destruct (Nat.min_spec (1 `max` lk_len lk) (length (drop pos b))) as [[_ ->]|[? ->]]; [done|]. rewrite !take_ge by lia. done. }
    rewrite Hnext. apply IH; [cbn in *; lia| |done]. intros l' Hl'. apply Hok. by etrans.
Qed.

Lemma wp_read_sync i j id p (Q : res (option bytes) -> ghost -> list nat -> Prop) log :
  jobs !! i = Some j -> tmp_of j = None -> file_of j = Some p -> blob_file id = Ok p ->
  (forall b g' l', g' <> GDone -> was log p b l' -> Q (Ok b) g' l') ->
  (calm = false -> forall e g' l', g' <> GDone -> Q (Raise e) g' l') ->
  wp i (_read_sync p) Q (GIdle false) log.
Proof.
  intros Hj Ht Hf Hp Hok Hfail. unfold _read_sync, fdo. cbn [fbind].
  intros s G l lk HI HG Hl Hc. cbn [exec]. destruct (lk_ok lk); cbn [fst snd].
  2:{ exists (GIdle false), l. split_and!; [done|by apply inv_stay|]. apply Hfail; [by apply unlucky|done]. }
  destruct (fs_names s !! p) as [ino|] eqn:En.
  2:{ exists (GIdle false), l. split_and!; [done|by apply inv_stay|]. apply Hok; [done|]. pose proof (was_now _ _ _ _ _ _ HI Hp Hl) as Hw. unfold content in Hw. by rewrite En in Hw. }
  exists GSeen, l. split; [done|]. split.
  { eapply inv_learn; try done. split; [intros ? ?; congruence|]. exists p. by rewrite En. }
  rewrite bool_decide_true by done. cbn [some_or_raise fret fbind negb].
  clear s G lk HI HG Hc ino En. intros s G l2 lk HI HG Hl2 Hc. cbn [exec].
  destruct (inv_holds _ _ _ HI _ _ _ Hj HG) as [_ (p' & Hp' & [ino Hn])]. assert (p' = p) as -> by congruence. rewrite Hn.
  destruct (lk_ok lk); cbn [fst snd].
  2:{ exists GSeen, l2. split_and!; [done|by apply inv_stay|]. apply Hfail; [by apply unlucky|done]. }
  destruct (proj1 (inv_fs _ _ _ HI) _ _ Hn) as [b Hb]. assert (Hw : was log p (Some b) l2).
  { pose proof (was_now log _ _ _ _ _ HI Hp ltac:(by etrans)) as Hw. unfold content in Hw. rewrite Hn in Hw. cbn in Hw. by rewrite Hb in Hw. }
  exists (GRead ino b), l2. split; [done|]. split.
  { eapply inv_learn; try done. split; [intros ? ?; congruence|]. split; [done|]. intros q Hq (k & jk & Hk & Htk). 
    destruct (lookup_lt_is_Some_2 G k) as [gk Hgk]; [rewrite (inv_len _ _ _ HI); by eapply lookup_lt_Some|].
    pose proof (proj1 (inv_holds _ _ _ HI _ _ _ Hk Hgk) _ Htk) as Hown. destruct gk as [|ino' c| | |]; try (rewrite Hown in Hq; done).
    destruct Hown as (Hn' & _ & Hu). assert (ino' = ino) as -> by congruence. apply Hu in Hn. subst. by eapply (file_not_tmp j jk). }
  clear s G lk HI HG Hl Hl2 Hc Hn Hb Hp'. cbn [some_or_raise fret fbind]. unfold read_all. cbn [fbind].
  apply wp_quiet; [done|]. intros s G l3 lk HI HG Hl Hc. destruct (inv_holds _ _ _ HI _ _ _ Hj HG) as [_ [Hb _]].
  cbn [exec fst]. rewrite Hb. cbn [fmap option_fmap option_map default]. apply wp_bind.
  apply (wp_read_from i j ino b (S (length b)) 0); [done|lia| |intros Hcalm l4; by apply Hfail].
  intros l4 Hl4. apply Hok; [done|]. destruct Hw as (l1 & ? & ? & ?). exists l1. split_and!; [done|by do 2 (etrans; [done|])|done].
Qed.

(** What the answer of a call says of the log, when the call began at [lo]. *)
Definition answered (lo : list nat) (j : job) (r : res answer) (g : ghost) (log : list nat) : Prop :=
  match r with
  | Ok a =>
      match j, a with
      | JWrite _ _ _ _, Written => g = GDone
      | JRead id, Contents b => exists p, blob_file id = Ok p /\ was lo p b log
      | JExists id, Exists b => exists p c, blob_file id = Ok p /\ was lo p c log /\ b = bool_decide (is_Some c)
      | _, _ => False
      end
  | Raise _ => g <> GDone /\ (calm = true -> file_of j = None)
  end.

Lemma wp_perform tb i j log :
  jobs !! i = Some j -> wp i (perform tb j) (answered log j) (GIdle false) log.
Proof.
  intros Hj. pose proof (Hnodel _ _ Hj) as Hd. destruct j as [id blob pid token|id|id|id]; [| | |done]; cbn [perform]; unfold at_path;
    (destruct (blob_file id) as [p|e] eqn:Hp; [|cbn; split; [done|by rewrite Hp]]).
  - apply wp_bind, wp_write_sync; [done..|]. intros Hcalm g' l' Hg. split; [done|]. by rewrite Hcalm.
  - apply wp_bind. apply (wp_read_sync i (JRead id) id); [done..|by cbn; rewrite Hp|done| |].
    + intros b g' l' _ Hw. by exists p.
    + intros Hcalm e g' l' Hg. split; [done|]. by rewrite Hcalm.
  - apply wp_quiet; [done|]. intros s G l lk HI HG Hl Hc. cbn [exec fst]. destruct (lk_ok lk); cbn.
    + exists p, (content p s). split; [done|]. split; [by eapply was_now|]. apply bool_decide_ext. unfold content.
      destruct (fs_names s !! p) as [ino|] eqn:En; [|by split; intros [? ?]]. cbn. split; [intros _; by eapply (inv_fs _ _ _ HI)|by eexists].
    + split; [done|]. intros Hcalm. by discriminate Hc.
Qed.

(** ** All threads *)

Record Pool (lo : nat -> list nat) (w : list (F answer) * fs) (G : list ghost) (log : list nat) : Prop := {
  pool_inv : Inv w.2 G log;
  pool_len : length w.1 = length jobs;
  pool_wp : forall i j p g, jobs !! i = Some j -> w.1 !! i = Some p -> G !! i = Some g ->
    exists l, l `prefix_of` log /\ wp i p (answered (lo i) j) g l
}.

Lemma pool_turn lo i lk w G log :
  Pool lo w G log -> (calm = true -> lk_ok lk = true) ->
  exists G' log', log `prefix_of` log' /\ Pool lo (turn (i, lk) w) G' log' /\ (forall k, k <> i -> G' !! k = G !! k /\ (turn (i, lk) w).1 !! k = w.1 !! k).
Proof.
  intros HP Hc. unfold turn. cbn [fst snd]. destruct (w.1 !! i) as [[a|X c k]|] eqn:Ei; [by exists G, log..| |by exists G, log].
  pose proof (lookup_lt_Some _ _ _ Ei) as Hlt. rewrite (pool_len _ _ _ _ HP) in Hlt.
  destruct (lookup_lt_is_Some_2 jobs i Hlt) as [j Hj]. destruct (lookup_lt_is_Some_2 G i) as [g Hg]; [by rewrite (inv_len _ _ _ (pool_inv _ _ _ _ HP))|].
  destruct (pool_wp _ _ _ _ HP _ _ _ _ Hj Ei Hg) as (l & Hl & Hwp).
  destruct (Hwp _ _ _ lk (pool_inv _ _ _ _ HP) Hg Hl Hc) as (g' & l' & Hl' & HI & Hwp').
  exists (<[ i := g' ]> G), l'. split; [done|]. split.
  - split; cbn [fst snd]; [done|by rewrite length_insert; apply HP|]. intros k' jk p gk Hk. destruct (decide (i = k')) as [<-|Hne].
    + rewrite !list_lookup_insert_eq by (rewrite ?(pool_len _ _ _ _ HP), ?(inv_len _ _ _ (pool_inv _ _ _ _ HP)); done).
      intros [= <-] [= <-]. simplify_eq. by exists l'.
    + rewrite !list_lookup_insert_ne by done. intros Hp Hgk. destruct (pool_wp _ _ _ _ HP _ _ _ _ Hk Hp Hgk) as (lk' & ? & ?). exists lk'. split; [by etrans|done].
  - intros k' Hne. cbn [fst]. by rewrite !list_lookup_insert_ne.
Qed.

Lemma pool_turns lo sched w G log :
  Pool lo w G log -> Forall (fun il => calm = true -> lk_ok il.2 = true) sched ->
  exists G' log', log `prefix_of` log' /\ Pool lo (turns sched w) G' log' /\
    (forall k, k ∉ sched.*1 -> G' !! k = G !! k /\ (turns sched w).1 !! k = w.1 !! k).
Proof.
  intros HP Hs. revert w G log HP. induction Hs as [|[i lk] sched Hc _ IH]; intros w G log HP; [by exists G, log|].
  destruct (pool_turn lo i lk w G log HP Hc) as (G1 & l1 & Hl1 & HP1 & Hk1).
  destruct (IH _ _ _ HP1) as (G2 & l2 & Hl2 & HP2 & Hk2). exists G2, l2. split; [by etrans|]. split; [done|].
  intros k Hk. rewrite fmap_cons, not_elem_of_cons in Hk. destruct Hk as [Hki Hks]. destruct (Hk1 k Hki) as [E1 E1']. destruct (Hk2 k Hks) as [E2 E2'].
  split; [by rewrite E2|]. change (turns ((i, lk) :: sched) w) with (turns sched (turn (i, lk) w)). by rewrite E2'.
Qed.
End Threads.

(** ** A write returns *)

(** The program makes so many calls at most, whatever they answer. *)
Fixpoint within {A} (n : nat) (p : fprog A) {struct p} : Prop :=
  match p with
  | FRet _ => True
  | FCall c k => match n with O => False | S n' => forall x, within n' (k x) end
  end.
Lemma within_mono {A} (p : fprog A) : forall n n', (n <= n')%nat -> within n p -> within n' p.
Proof. induction p as [a|X c k IH]; intros [|n] [|n'] Hle; cbn; try done; [lia|]. intros H x. apply (IH x n); [lia|done]. Qed.
Lemma within_bind {A B} (p : fprog A) (f : A -> fprog B) m : (forall a, within m (f a)) -> forall n, within n p -> within (n + m) (fbind p f).
Proof.
  intros Hf. induction p as [a|X c k IH]; intros n; cbn [fbind within].
  - intros _. apply (within_mono _ m); [lia|apply Hf].
  - destruct n as [|n]; [done|]. intros H x. by apply IH.
Qed.
Lemma within_do {A B} (p : F A) (f : A -> F B) n m : within n p -> (forall a, within m (f a)) -> within (n + m) (fdo p f).
Proof. intros Hp Hf. apply within_bind; [|done]. intros [a|e]; [apply Hf|done]. Qed.
Lemma within_call {A X} (c : call X) (k : X -> fprog A) n : (forall x, within n (k x)) -> within (1 + n) (FCall c k).
Proof. done. Qed.

Lemma within_write_from fuel : forall ino pos data, within fuel (write_from fuel ino pos data).
Proof. induction fuel as [|fuel IH]; intros ino pos [|x data]; cbn; try done. intros [n []]; [apply IH|done]. Qed.

Lemma within_write_sync p t blob : within (length blob + 6) (_write_sync p t blob).
Proof.
  assert (Hok : forall ok, within 0 (ok_or_raise ok)) by (by intros []).
  unfold _write_sync. apply (within_mono _ (1 + 0 + (1 + 0 + (length blob + (1 + 0 + (1 + 0 + (1 + 0)))) + 1))); [lia|].
  apply within_do; [by apply within_call|]. intros _. apply within_bind; [intros [|e]; [done|by apply within_call]|].
  apply within_do; [apply within_call; by intros [|]|]. intros f. apply within_do; [apply within_write_from|]. intros _.
  apply within_do; [by apply within_call|]. intros _. apply within_do; [by apply within_call|]. intros _. by apply within_call.
Qed.

Lemma within_perform tb id blob pid token : within (length blob + 6) (perform tb (JWrite id blob pid token)).
Proof.
  cbn [perform]. unfold at_path. destruct (blob_file id) as [p|e]; [|done].
  apply (within_mono _ (length blob + 6 + 0)); [lia|]. apply within_do; [apply within_write_sync|done].
Qed.

Lemma turn_other i k lk w : k <> i -> (turn (k, lk) w).1 !! i = w.1 !! i.
Proof. intros Hne. unfold turn. cbn [fst snd]. destruct (w.1 !! k) as [[a|X c f]|]; [done| |done]. cbn. by rewrite list_lookup_insert_ne. Qed.
Lemma turn_mine i lk w p n : w.1 !! i = Some p -> within (S n) p -> exists p', (turn (i, lk) w).1 !! i = Some p' /\ within n p'.
Proof.
  intros Hp Hn. unfold turn. cbn [fst snd]. rewrite Hp. destruct p as [a|X c f]; [by exists (FRet a)|].
  eexists. cbn. rewrite list_lookup_insert_eq by (by eapply lookup_lt_Some). split; [done|]. by apply Hn.
Qed.

(** So many turns of the thread are enough. *)
Lemma within_turns i sched : forall w n p, w.1 !! i = Some p -> within n p -> (n <= length (filter (fun il => il.1 = i) sched))%nat ->
  is_Some (outcome (turns sched w).1 i).
Proof.
  induction sched as [|[k lk] sched IH]; intros w n p Hp Hn Hle.
  - unfold outcome. cbn. rewrite Hp. cbn in Hle. destruct p as [|X c f]; [done|]. by destruct n; [|lia].
  - change (turns ((k, lk) :: sched) w) with (turns sched (turn (k, lk) w)). rewrite filter_cons in Hle. cbn [fst] in Hle.
    destruct (decide (k = i)) as [->|Hne].
    + destruct n as [|n]; [apply (within_mono _ 0 1) in Hn; [|lia]|];
        destruct (turn_mine _ lk _ _ _ Hp Hn) as (p' & Hp' & Hn'); (eapply IH; [exact Hp'|exact Hn'|cbn in Hle; lia]).
    + eapply IH; [by rewrite turn_other|exact Hn|exact Hle].
Qed.

(** ** Writes and reads, in any interleaving *)

Lemma tmps_distinct jobs : NoDup (omap tmp_of jobs) ->
  forall i j ji jj t, jobs !! i = Some ji -> jobs !! j = Some jj -> tmp_of ji = Some t -> tmp_of jj = Some t -> i = j.
Proof.
  induction jobs as [|k jobs IH]; [done|]. intros Hnd i j ji jj t Hi Hj Hti Htj.
  assert (Hin : forall n jn, jobs !! n = Some jn -> tmp_of jn = Some t -> t ∈ omap tmp_of jobs).
  { intros n jn Hn Htn. apply list_elem_of_omap. exists jn. split; [by eapply list_elem_of_lookup_2|done]. }
  cbn in Hnd. destruct i as [|i], j as [|j]; cbn in Hi, Hj; simplify_eq; [done|rewrite Hti in Hnd|rewrite Htj in Hnd|f_equal].
  - apply NoDup_cons in Hnd as [[] _]. by eapply Hin.
  - apply NoDup_cons in Hnd as [[] _]. by eapply Hin.
  - eapply IH; [|done..]. destruct (tmp_of k); [by apply NoDup_cons in Hnd as [_ ?]|done].
Qed.
Lemma is_tmp_in jobs q : is_tmp jobs q <-> q ∈ omap tmp_of jobs.
Proof.
  rewrite list_elem_of_omap. split.
  - intros (i & j & Hi & Ht). exists j. split; [by eapply list_elem_of_lookup_2|done].
  - intros (j & Hj & Ht). apply list_elem_of_lookup_1 in Hj as [i Hi]. by exists i, j.
Qed.

Lemma pool_start tb jobs s0 calm :
  fs_ok s0 -> Forall (fun j => is_delete j = false) jobs -> NoDup (omap tmp_of jobs) ->
  (forall t, t ∈ omap tmp_of jobs -> fs_names s0 !! t = None) ->
  Pool jobs s0 calm (fun _ => []) (perform tb <$> jobs, s0) (replicate (length jobs) (GIdle false)) [].
Proof.
  intros Hok Hdel Hnd Hfree. assert (Hg : forall i g, replicate (length jobs) (GIdle false) !! i = Some g -> g = GIdle false).
  { intros i g Hi. by apply lookup_replicate_1 in Hi as [-> _]. }
  split; cbn [fst snd].
  - split; [done|done| |by apply NoDup_nil_2| |by rewrite length_replicate].
    + intros i j g Hj ->%Hg. split; [|done]. intros t Ht. apply Hfree, is_tmp_in. by exists i, j.
    + intros i. split; [by rewrite elem_of_nil|]. by intros ?%Hg.
  - by rewrite length_fmap.
  - intros i j p g Hj Hp ->%Hg. exists []. split; [done|]. rewrite list_lookup_fmap, Hj in Hp. cbn in Hp. simplify_eq.
    apply wp_perform; [|by apply tmps_distinct|done]. rewrite Forall_lookup in Hdel. done.
Qed.

(** What an answer means for the serial order [log], of which [lo] was there when the call began. *)
Definition explained (jobs : list job) (v : store) (lo log : list nat) (i : nat) (j : job) (r : res answer) : Prop :=
  let seen p b := exists l, lo `prefix_of` l /\ l `prefix_of` log /\ replay jobs v l p = b in
  match r, j with
  | Ok Written, JWrite _ _ _ _ => i ∈ log
  | Ok (Contents b), JRead id => exists p, blob_file id = Ok p /\ seen p b
  | Ok (Exists b), JExists id => exists p c, blob_file id = Ok p /\ seen p c /\ b = bool_decide (is_Some c)
  | Ok _, _ => False
  | Raise _, _ => i ∉ log
  end.

Section Pools.
Context {jobs : list job} {s0 : fs} {calm : bool} {lo : nat -> list nat} {w : list (F answer) * fs} {G : list ghost} {log : list nat}.
Context (HP : Pool jobs s0 calm lo w G log).

Lemma pool_view q : q ∉ omap tmp_of jobs -> content q w.2 = replay jobs (fun q => content q s0) log q.
Proof. intros Hq. apply (inv_view _ _ _ _ _ (pool_inv _ _ _ _ _ _ _ HP)). by rewrite is_tmp_in. Qed.

Lemma pool_outcome i j r : jobs !! i = Some j -> outcome w.1 i = Some r ->
  exists g l, G !! i = Some g /\ l `prefix_of` log /\ answered jobs s0 calm (lo i) j r g l.
Proof.
  intros Hj Hr. unfold outcome in Hr. destruct (w.1 !! i) as [[r'|]|] eqn:Ep; simplify_eq.
  destruct (lookup_lt_is_Some_2 G i) as [g Hg].
  { rewrite (inv_len _ _ _ _ _ (pool_inv _ _ _ _ _ _ _ HP)). by eapply lookup_lt_Some. }
  destruct (pool_wp _ _ _ _ _ _ _ HP _ _ _ _ Hj Ep Hg) as (l & Hl & H). by exists g, l.
Qed.

Lemma pool_explained i j r : jobs !! i = Some j -> outcome w.1 i = Some r -> explained jobs (fun q => content q s0) (lo i) log i j r.
Proof.
  intros Hj Hr. destruct (pool_outcome i j r Hj Hr) as (g & l & Hg & Hl & H).
  assert (Hseen : forall p b, was jobs s0 (lo i) p b l -> exists l1, lo i `prefix_of` l1 /\ l1 `prefix_of` log /\ replay jobs (fun q => content q s0) l1 p = b).
  { intros p b (l1 & ? & ? & ?). exists l1. split_and!; [done|by etrans|done]. }
  destruct r as [a|e]; cbn in H |- *.
  - destruct a, j; try done.
    + subst. by apply (inv_done _ _ _ _ _ (pool_inv _ _ _ _ _ _ _ HP)).
    + destruct H as (p & ? & ?). exists p. split; [done|]. by apply Hseen.
    + destruct H as (p & c & ? & ? & ?). exists p, c. split_and!; [done|by apply Hseen|done].
  - destruct H as [Hnd _]. rewrite (inv_done _ _ _ _ _ (pool_inv _ _ _ _ _ _ _ HP)), Hg. naive_solver.
Qed.

Lemma pool_clean i j t : jobs !! i = Some j -> tmp_of j = Some t -> outcome w.1 i = Some (Ok Written) -> fs_names w.2 !! t = None.
Proof.
  intros Hj Ht Hr. destruct (pool_outcome i j _ Hj Hr) as (g & l & Hg & _ & H). destruct j; try done. cbn in H. subst.
  by apply (inv_holds _ _ _ _ _ (pool_inv _ _ _ _ _ _ _ HP) _ _ _ Hj Hg).
Qed.
End Pools.

(** The threads after [early], and after [late]: a thread that had no turn before starts from the log between. *)
Lemma two_phases tb jobs s0 calm early late :
  fs_ok s0 -> Forall (fun j => is_delete j = false) jobs -> NoDup (omap tmp_of jobs) ->
  (forall t, t ∈ omap tmp_of jobs -> fs_names s0 !! t = None) ->
  Forall (fun il => calm = true -> lk_ok il.2 = true) (early ++ late) ->
  let w := turns early (perform tb <$> jobs, s0) in
  exists G log G' log', log `prefix_of` log' /\ (forall i, i ∈ log -> i ∈ early.*1) /\
    Pool jobs s0 calm (fun _ => []) w G log /\
    Pool jobs s0 calm (fun i => if bool_decide (i ∈ early.*1) then [] else log) (turns late w) G' log'.
Proof.
  intros Hok Hdel Hnd Hfree [Hc1 Hc2]%Forall_app w. pose proof (tmps_distinct jobs Hnd) as Htmps.
  assert (Hdel' : forall i j, jobs !! i = Some j -> is_delete j = false) by (by rewrite Forall_lookup in Hdel).
  pose proof (pool_start tb jobs s0 calm Hok Hdel Hnd Hfree) as HP0.
  destruct (pool_turns jobs s0 calm _ early _ _ _ HP0 Hc1) as (G & log & _ & HP & Hrest).
  assert (HP' : Pool jobs s0 calm (fun i => if bool_decide (i ∈ early.*1) then [] else log) w G log).
  { split; [apply HP|apply HP|]. intros i j p g Hj Hp Hg. case_bool_decide as Hin; [by eapply (pool_wp _ _ _ _ _ _ _ HP)|].
    destruct (Hrest i Hin) as [Eg Ep]. exists log. split; [done|].
    rewrite Eg, lookup_replicate_2 in Hg by (by eapply lookup_lt_Some). rewrite <- (inj Some _ _ Hg). clear Hg.
    unfold w in Hp. rewrite Ep in Hp. cbn in Hp. rewrite list_lookup_fmap, Hj in Hp. rewrite <- (inj Some _ _ Hp). by apply wp_perform. }
  destruct (pool_turns jobs s0 calm _ late _ _ _ HP' Hc2) as (G' & log' & Hlog & HP2 & _).
  exists G, log, G', log'. split; [done|]. split; [|done].
  intros i Hi. apply (inv_done _ _ _ _ _ (pool_inv _ _ _ _ _ _ _ HP)) in Hi. destruct (decide (i ∈ early.*1)) as [|Hn]; [done|].
  destruct (Hrest i Hn) as [Eg _]. rewrite Eg in Hi. by apply lookup_replicate_1 in Hi as [? _].
Qed.

Definition lucky (sched : list (nat * luck)) : bool := forallb (fun il => lk_ok il.2) sched.
Lemma lucky_turns sched : Forall (fun il => lucky sched = true -> lk_ok il.2 = true) sched.
Proof. apply Forall_forall. intros il Hil. unfold lucky. rewrite forallb_forall. intros H. by apply H, list_elem_of_In. Qed.

(** C12: writing a blob is atomic.  Let any number of writes, reads and existence tests of any blobs take turns
    at their system calls, the calls fail and fall short as they like, and the names of the temporary files
    differ.  Then there is an order of the writes such that, at any time, the files are those of the writes
    of that order so far, done at once: a write that returned is in it, a write that raised is not; a read
    returns what was there, whole, at some time between its first call and its end; a write that returned left
    no temporary file; without failures nothing raises but a bad id; and a write returns after at most as many
    calls as it has bytes and six more. *)
Theorem blob_writes_atomic tb jobs s0 early late :
  fs_ok s0 -> Forall (fun j => is_delete j = false) jobs -> NoDup (omap tmp_of jobs) ->
  (forall t, t ∈ omap tmp_of jobs -> fs_names s0 !! t = None) ->
  let v q := content q s0 in
  let w := turns early (perform tb <$> jobs, s0) in
  let w' := turns late w in
  exists log log', log `prefix_of` log' /\ NoDup log' /\ (forall i, i ∈ log -> i ∈ early.*1) /\
    (forall q, q ∉ omap tmp_of jobs -> content q w.2 = replay jobs v log q /\ content q w'.2 = replay jobs v log' q) /\
    (forall i j r, jobs !! i = Some j -> outcome w.1 i = Some r -> explained jobs v [] log i j r) /\
    (forall i j r, jobs !! i = Some j -> outcome w'.1 i = Some r ->
       explained jobs v (if bool_decide (i ∈ early.*1) then [] else log) log' i j r /\
       (forall t, tmp_of j = Some t -> r = Ok Written -> fs_names w'.2 !! t = None) /\
       (lucky (early ++ late) = true -> forall e, r = Raise e -> file_of j = None)) /\
    (forall i id blob pid token, jobs !! i = Some (JWrite id blob pid token) ->
       (length blob + 6 <= length (filter (fun il => il.1 = i) (early ++ late)))%nat -> is_Some (outcome w'.1 i)).
Proof.
  intros Hok Hdel Hnd Hfree v w w'.
  destruct (two_phases tb jobs s0 _ early late Hok Hdel Hnd Hfree (lucky_turns _)) as (G & log & G' & log' & Hlog & Hearly & HP & HP').
  exists log, log'. split_and!; [done|apply (pool_inv _ _ _ _ _ _ _ HP')|done| | | |].
  - intros q Hq. split; [exact (pool_view HP q Hq)|exact (pool_view HP' q Hq)].
  - intros i j r. exact (pool_explained HP i j r).
  - intros i j r Hj Hr. split_and!; [exact (pool_explained HP' i j r Hj Hr)| |].
    + intros t Ht ->. exact (pool_clean HP' i j t Hj Ht Hr).
    + intros Hall e ->. destruct (pool_outcome HP' i j _ Hj Hr) as (g & l & _ & _ & _ & H). by apply H.
  - intros i id blob pid token Hj Hle. unfold w', w. unfold turns. rewrite <- fold_left_app.
    refine (within_turns i _ _ _ (perform tb (JWrite id blob pid token)) _ (within_perform _ _ _ _ _) Hle).
    cbn. by rewrite list_lookup_fmap, Hj.
Qed.

(** ** Deletions *)

(** A program that runs alone, with the luck of each of its calls. *)
Fixpoint alone {A} (p : fprog A) (lks : nat -> luck) (s : fs) : A * fs :=
  match p with
  | FRet a => (a, s)
  | FCall c k => let xs := exec c (lks 0%nat) s in alone (k xs.1) (fun n => lks (S n)) xs.2
  end.

Lemma alone_assoc {A B C} (p : fprog A) (f : A -> fprog B) (g : B -> fprog C) : forall lks s,
  alone (fbind (fbind p f) g) lks s = alone (fbind p (fun a => fbind (f a) g)) lks s.
Proof. induction p as [a|X c k IH]; intros lks s; [done|]. cbn [fbind alone]. apply IH. Qed.

Lemma splice_inside pos d (b : bytes) : (pos + length d <= length b)%nat ->
  length (splice pos d b) = length b /\ take (pos + length d) (splice pos d b) = take pos b ++ d.
Proof.
  intros Hle. unfold splice. replace (pos - length b)%nat with 0%nat by lia. cbn [replicate app]. split.
  - rewrite !length_app, length_take, length_drop. lia.
  - assert (Hl : length (take pos b) = pos) by (rewrite length_take; lia).
    rewrite app_assoc. rewrite take_app_length' by (rewrite length_app; lia). done.
Qed.
Lemma set_inodes_again ino f b s : is_Some (fs_inodes s !! ino) -> set_inodes (<[ ino := b ]>) (set_inodes (alter f ino) s) = set_inodes (<[ ino := b ]>) s.
Proof.
  intros _. unfold set_inodes. cbn. f_equal. apply map_eq. intros k. destruct (decide (ino = k)) as [<-|]; [by rewrite !lookup_insert_eq|].
  by rewrite !lookup_insert_ne, lookup_alter_ne.
Qed.

(** Overwriting the rest of a file alone: it keeps its length and what is before, and ends with the data or an error. *)
Lemma alone_write_from fuel ino : forall pos data lks s b, fs_inodes s !! ino = Some b -> (pos + length data = length b)%nat ->
  (length data <= fuel)%nat ->
  exists r b' lks', length b' = length b /\ take pos b' = take pos b /\ (r = Ok tt -> drop pos b' = data) /\
    ((forall n, lk_ok (lks n) = true) -> r = Ok tt /\ forall n, lk_ok (lks' n) = true) /\
    (forall A (k : res unit -> fprog A), alone (fbind (write_from fuel ino pos data) k) lks s = alone (k r) lks' (set_inodes (<[ ino := b' ]>) s)).
Proof.
  induction fuel as [|fuel IH]; intros pos data lks s b Hb Hpos Hlen; (destruct (decide (data = [])) as [->|Hne];
    [exists (Ok tt), b, lks; split_and!; [done..|intros _; apply drop_ge; cbn in Hpos; lia|done|];
     intros A k; unfold set_inodes; rewrite insert_id by done; by destruct s|]).
  { destruct data; [done|cbn in Hlen; lia]. }
  assert (Ew : write_from (S fuel) ino pos data = FCall (CWrite ino pos data) (fun '(n, ok) => if ok : bool then write_from fuel ino (pos + n) (drop n data) else fraise OSError)) by (by destruct data).
  rewrite Ew. set (d := if lk_ok (lks 0%nat) then some_of (lks 0%nat) data else take (lk_len (lks 0%nat)) data).
  assert (Hd : (length d <= length data)%nat) by (unfold d, some_of; destruct (lk_ok _); rewrite length_take; lia).
  destruct (splice_inside pos d b) as [Hsl Hst]; [lia|]. set (b1 := splice pos d b) in *.
  assert (Ht1 : take pos b1 = take pos b).
  { rewrite <- (Nat.min_l pos (pos + length d)) at 1 by lia. rewrite <- take_take, Hst, take_app_le, take_take by (rewrite length_take; lia). by rewrite Nat.min_id. }
  destruct (lk_ok (lks 0%nat)) eqn:E0.
  - assert (Hpre : d ++ drop (length d) data = data) by apply take_length_drop.
    destruct (some_of_pos (lks 0%nat) data Hne) as [Hd1 _]. change (some_of _ _) with d in Hd1.
    destruct (IH (pos + length d)%nat (drop (length d) data) (fun n => lks (S n)) (set_inodes (alter (splice pos d) ino) s) b1) as (r & b' & lks' & Hl & Ht & Hr & Hc & Hk);
      [cbn; by rewrite lookup_alter_eq, Hb|rewrite length_drop; lia|rewrite length_drop; lia|].
    assert (Htb : take (pos + length d) b' = take pos b ++ d) by (by rewrite Ht).
    exists r, b', lks'. split_and!; [lia| | | |].
    + rewrite <- Ht1. rewrite <- (Nat.min_l pos (pos + length d)) by lia. by rewrite <- !take_take, Ht.
    + intros Hok. rewrite <- Hpre, <- (Hr Hok). rewrite <- (take_drop (pos + length d) b') at 1. rewrite Htb, <- app_assoc.
      rewrite drop_app_length' by (rewrite length_take; lia). done.
    + intros Hall. apply Hc. intros n. apply Hall.
    + intros A k. cbn [fbind alone exec fst snd]. rewrite E0. change (some_of _ _) with d. rewrite Hk. by rewrite set_inodes_again.
  - exists (Raise OSError), b1, (fun n => lks (S n)). split_and!; [done|done|done| |].
    + intros Hall. by rewrite Hall in E0.
    + intros A k. cbn [fbind alone exec fst snd]. rewrite E0. change (take _ data) with d. f_equal. unfold set_inodes. f_equal.
      apply map_eq. intros k'. destruct (decide (ino = k')) as [<-|]; [by rewrite lookup_alter_eq, lookup_insert_eq, Hb|by rewrite lookup_alter_ne, lookup_insert_ne].
Qed.

(** A deletion that runs alone and says that it deleted has overwritten the bytes of the file with as many
    random ones and removed its name; one that fails leaves the name, and a file of the same size that may be
    overwritten; without failures it deletes. *)
Lemma delete_erases token_bytes id p ino b lks s :
  (forall n, length (token_bytes n) = n) -> blob_file id = Ok p -> fs_names s !! p = Some ino -> fs_inodes s !! ino = Some b ->
  let '(r, s') := alone (perform token_bytes (JDelete id)) lks s in
  ((forall n, lk_ok (lks n) = true) -> r = Ok (Deleted true)) /\
  match r with
  | Ok (Deleted true) => s' = set_names (delete p) (set_inodes (<[ ino := token_bytes (length b) ]>) s)
  | Ok (Deleted false) => exists b', length b' = length b /\ s' = set_inodes (<[ ino := b' ]>) s
  | Ok _ => False
  | Raise _ => s' = s
  end.
Proof.
  intros Htb Hp Hn Hb. assert (Hsame : exists b', length b' = length b /\ s = set_inodes (<[ ino := b' ]>) s).
  { exists b. split; [done|]. unfold set_inodes. rewrite insert_id by done. by destruct s. }
  assert (Hsz : content p s = Some b) by (unfold content; by rewrite Hn).
  cbn [perform]. unfold at_path. rewrite Hp. unfold _delete_sync. cbn [fbind fdo alone exec fst snd]. rewrite Hn.
  destruct (lk_ok (lks 0%nat)) eqn:E0; cbn [some_or_raise fraise fbind alone fret]; [|split; [intros H; by rewrite H in E0|done]].
  rewrite bool_decide_true by done. cbn [negb]. unfold fcatch. cbn [fbind fdo alone exec fst snd]. rewrite Hsz.
  destruct (lk_ok (lks 1%nat)) eqn:E1; cbn [some_or_raise fraise fbind alone fret fmap option_fmap option_map]; [|split; [intros H; by rewrite H in E1|done]].
  cbn [exec fst snd]. rewrite Hn.
  destruct (lk_ok (lks 2%nat)) eqn:E2; cbn [some_or_raise fraise fbind alone fret]; [|split; [intros H; by rewrite H in E2|done]].
  unfold write_all, fdo. rewrite !alone_assoc.
  destruct (alone_write_from (length (token_bytes (length b))) ino 0 (token_bytes (length b)) (fun n => lks (S (S (S n)))) s b Hb) as (w & b' & lks' & Hl & _ & Hw & Hc & Hk);
    [by rewrite Htb|done|]. rewrite Hk. clear Hk. rewrite drop_0 in Hw.
  assert (Hleft : exists b1, length b1 = length b /\ set_inodes (<[ ino := b' ]>) s = set_inodes (<[ ino := b1 ]>) s) by (by exists b').
  assert (Hall : (forall n, lk_ok (lks n) = true) -> w = Ok tt /\ forall n, lk_ok (lks' n) = true) by (intros H; apply Hc; intros n; apply H). clear Hc.
  destruct w as [[]|e]; [|split; [by intros [? _]%Hall|exact Hleft]]. rewrite (Hw eq_refl) in *.
  cbn [fbind alone exec fst snd]. destruct (lk_ok (lks' 0%nat)) eqn:E3; cbn [ok_or_raise fret fraise fbind alone]; [|split; [intros [_ H]%Hall; by rewrite H in E3|exact Hleft]].
  cbn [exec fst snd]. change (fs_names (set_inodes _ s)) with (fs_names s). rewrite Hn.
  destruct (lk_ok (lks' 1%nat)) eqn:E4; cbn [fst snd fret fraise fbind alone]; [done|split; [intros [_ H]%Hall; by rewrite H in E4|exact Hleft]].
Qed.

(** ** Examples *)

Module BlobFilesDemo.
Definition id : string := "ab12cd34".
Definition file : path := ("ab/12", id).
Definition text (s : string) : bytes := list_ascii_of_string s.
Definition noise (n : nat) : bytes := replicate n "#"%char.
Definition empty_fs : fs := Fs ∅ ∅ ∅ 0.
Definition one_file : fs := Fs {[ "ab/12" ]} {[ file := 0%nat ]} {[ 0%nat := text "hello" ]} 1.
Definition good (i : nat) : nat * luck := (i, Luck true 100).
Definition slow (i : nat) : nat * luck := (i, Luck true 1).
Definition bad (i : nat) : nat * luck := (i, Luck false 0).
Definition many (n : nat) (x : nat * luck) : list (nat * luck) := replicate n x.

(** A read of a file that is being erased returns the random bytes. *)
Example read_while_erasing :
  outcome (turns (many 4 (good 0) ++ many 6 (good 1)) (perform noise <$> [JDelete id; JRead id], one_file)).1 1 =
  Some (Ok (Contents (Some (noise 5)))).
Proof. vm_compute. reflexivity. Qed.

(** A deletion whose last calls fail says that nothing was deleted, and what is read then is random. *)
Example failed_deletion_garbles :
  let w := turns (many 4 (good 0) ++ [bad 0] ++ many 6 (good 1)) (perform noise <$> [JDelete id; JRead id], one_file) in
  outcome w.1 0 = Some (Ok (Deleted false)) /\ outcome w.1 1 = Some (Ok (Contents (Some (noise 5)))).
Proof. split; vm_compute; reflexivity. Qed.

(** A deletion that has opened the old file removes the name of the one that was written since. *)
Example deletion_loses_write :
  let w := turns (many 4 (good 0) ++ many 7 (good 1) ++ many 2 (good 0)) (perform noise <$> [JDelete id; JWrite id (text "again") "1" "aa"], one_file) in
  outcome w.1 1 = Some (Ok Written) /\ content file w.2 = None.
Proof. split; vm_compute; reflexivity. Qed.

(** Two writers with the same temporary file install a mixture. *)
Example shared_temporary_mixes :
  content file (turns (many 2 (good 0) ++ many 2 (good 1) ++ [slow 0; slow 0; slow 0] ++ [slow 1] ++ many 5 (good 0))
    (perform noise <$> [JWrite id (text "aaa") "1" "xx"; JWrite id (text "bbb") "1" "xx"], empty_fs)).2 = Some (text "baa").
Proof. vm_compute. reflexivity. Qed.

Definition jobs : list job := [JWrite id (text "one") "7" "0a"; JWrite id (text "two") "7" "0b"; JRead id].
Definition early : list (nat * luck) := many 9 (slow 0) ++ [slow 1; slow 1; slow 1].
Definition late : list (nat * luck) := many 2 (slow 2) ++ many 5 (slow 1) ++ many 6 (slow 2).

Lemma writes_witness : exists log log', log `prefix_of` log' /\ NoDup log' /\
  content file (turns late (turns early (perform noise <$> jobs, empty_fs))).2 =
  replay jobs (fun q => content q empty_fs) log' file /\
  is_Some (outcome (turns late (turns early (perform noise <$> jobs, empty_fs))).1 0).
Proof.
  destruct (blob_writes_atomic noise jobs empty_fs early late) as (log & log' & H1 & H2 & _ & Hq & _ & _ & He).
  - split; [|done]. intros p ino H. by destruct (lookup_empty_Some p ino H).
  - repeat constructor.
  - apply (bool_decide_unpack _). vm_compute. exact I.
  - done.
  - exists log, log'. split; [exact H1|]. split; [exact H2|]. split.
    + apply (Hq file). apply (bool_decide_unpack _). vm_compute. exact I.
    + eapply He; [reflexivity|]. vm_compute. lia.
Defined.
End BlobFilesDemo.
