(* ===== verification/Queue.v ===== *)
(** * The message queue (queue.py): operations

    One definition per function of [queue.py], with its Redis exchanges in the order of the source.
    The properties are in [QueueFacts]. *)

From Stdlib Require Import Ascii String.
From stdpp Require Import prelude gmap strings list.
From S2P Require Import Prelude Json RedisStore Models Effects Crypto BlobStorage.

#[local] Open Scope morok_scope.

Definition MAX_INBOX_QUEUE_DEPTH : Z := 5000.
Definition INBOX_KEY_TTL_SLACK_SECONDS : Z := 3600.
Definition TOMBSTONE_EXTRA_TTL_SECONDS : Z := 7 * 86400.
Definition DELIVERY_TOMBSTONE_TTL_SECONDS : Z := 2 * 86400.
Definition MAIL_SEEN_BATCH_MAX : nat := 200.

(** ** Keys and channels *)

Definition _inbox_key (recipient : string) : string := "morok:inbox:" +:+ recipient.
Definition _envelope_meta_key (envelope_id : string) : string := "morok:envelope:" +:+ envelope_id.
Definition _pending_recipients_key (envelope_id : string) : string :=
  "morok:envelope_pending:" +:+ envelope_id.
Definition _BLOB_EXPIRY_INDEX_KEY : string := "morok:blob_expiry_index".
Definition _sender_tombstone_key (envelope_id : string) : string := "morok:env_tomb:" +:+ envelope_id.
Definition _sender_tombstone_value `{Sha256} (sender recipient : string) : string :=
  sha256_hex (sender +:+ "|" +:+ recipient).
Definition _delivery_tombstone_key (envelope_id reader : string) : string :=
  "morok:delivered:" +:+ envelope_id +:+ ":" +:+ reader.
Definition _inbox_channel (recipient : string) : string := "morok:inbox:channel:" +:+ recipient.

(** ** Lua scripts *)

Definition _INBOX_ENQUEUE_LUA (key : string) (now : Z) (envelope_id : string)
    (expires_at max_depth : Z) : rtx Z :=
  let%r _ := lua_call (ZREMRANGEBYSCORE key 0 now) in
  let%r depth := rcall (ZCARD key) as_int in
  if (max_depth <=? depth)%Z then rret 0%Z
  else
    let%r _ := lua_call (ZADD key expires_at envelope_id) in
    rret 1%Z.

Definition _ACK_PENDING_LUA (pending_key meta_key recipient : string) : rtx Z :=
  let%r e := rcall (EXISTS pending_key) as_int in
  if (e =? 0)%Z then rret (-1)%Z
  else
    let%r _ := lua_call (SREM pending_key [recipient]) in
    let%r remaining := rcall (SCARD pending_key) as_int in
    if (remaining =? 0)%Z then
      let%r _ := lua_call (DEL [pending_key]) in
      let%r _ := lua_call (DEL [meta_key]) in
      rret 1%Z
    else rret 0%Z.

(** ** Events published to the sockets *)

Definition _new_event (envelope_id : string) : string :=
  dumps (JObj [("kind", JStr "new"); ("envelope_id", JStr envelope_id)]).

Definition _deleted_event (envelope_id deleted_by : string) (group_id : option string) : string :=
  dumps (JObj [("kind", JStr "deleted"); ("envelope_id", JStr envelope_id);
               ("by", JStr deleted_by); ("group_id", opt_str group_id)]).

Definition _read_event (envelope_id reader : string) (group_id : option string) : string :=
  dumps (JObj [("kind", JStr "read"); ("envelope_id", JStr envelope_id);
               ("reader", JStr reader); ("group_id", opt_str group_id)]).

Definition _group_gone_event (group_id by_ : string) : string :=
  dumps (JObj [("kind", JStr "group_gone"); ("group_id", JStr group_id); ("by", JStr by_)]).

Definition publish_group_gone (recipients : list string) (group_id by_ : string) : M unit :=
  match recipients with
  | [] => ret tt
  | _ =>
      try_except
        (let! _ := pipeline (map (fun pk =>
           pipe_cmd (PUBLISH (_inbox_channel pk) (_group_gone_event group_id by_))) recipients) in
         ret tt)
        (fun _ => ret tt)
  end.

Definition publish_read_receipt (sender envelope_id reader : string) (group_id : option string)
    : M unit :=
  try_except
    (redis_ (rcall (PUBLISH (_inbox_channel sender) (_read_event envelope_id reader group_id)) as_any))
    (fun _ => ret tt).

(** ** Posting to one inbox *)

(** The keyword arguments of [enqueue_envelope]. *)
Record enqueue_args := EnqueueArgs {
  ea_envelope_id : string;
  ea_sender : string;
  ea_recipient : string;
  ea_timestamp : Z;
  ea_ttl : Z;
  ea_signature : string;
  ea_hard_ceiling : Z;
  ea_sender_username : option string;
  ea_sealed : bool;
  ea_delete_key_hash : option string;
  ea_channel : option string;
  ea_mail_from : option string;
  ea_mail_origin : option string;
  ea_extra_meta : option dict
}.

(** [if o: d[k] = o] *)
Definition set_if (k : string) (o : option string) (d : dict) : dict :=
  match o with
  | Some s => if String.eqb s "" then d else dict_set k (JStr s) d
  | None => d
  end.

(** [for k, v in extra.items(): if k in meta: raise ...; meta[k] = v] *)
Fixpoint add_extra (extra meta : dict) : res dict :=
  match extra with
  | [] => Ok meta
  | (k, v) :: extra' =>
      if dict_mem k meta then Raise (ValueError "extra_meta may not override reserved key")
      else add_extra extra' (dict_set k v meta)
  end.

Definition build_meta (a : enqueue_args) (expires_at : Z) : res dict :=
  let meta := [
    ("envelope_id", JStr (ea_envelope_id a));
    ("from", JStr (ea_sender a));
    ("from_username", opt_str (ea_sender_username a));
    ("to", JStr (ea_recipient a));
    ("ts", JNum (ea_timestamp a));
    ("ttl", JNum (ea_ttl a));
    ("sig", JStr (ea_signature a));
    ("expires_at", JNum expires_at)] in
  let meta :=
    if ea_sealed a
    then set_if "delete_key_hash" (ea_delete_key_hash a) (dict_set "sealed" (JBool true) meta)
    else meta in
  let meta := set_if "channel" (ea_channel a) meta in
  let meta := set_if "mail_origin" (ea_mail_origin a) meta in
  let meta := set_if "mail_from" (ea_mail_from a) meta in
  match ea_extra_meta a with
  | Some extra => add_extra extra meta
  | None => Ok meta
  end.

(** [min(timestamp + ttl_seconds, now + hard_ceiling_seconds)] *)
Definition expiry (timestamp ttl now ceiling : Z) : Z := Z.min (timestamp + ttl) (now + ceiling).

(** [try: await redis.delete(meta) except Exception: pass] *)
Definition drop_meta (envelope_id : string) : M unit :=
  try_except (redis_ (lua_call (DEL [_envelope_meta_key envelope_id]))) (fun _ => ret tt).

Definition inbox_key_ttl (ttl_until_expiry : Z) : Z :=
  (Z.max ttl_until_expiry 60 + INBOX_KEY_TTL_SLACK_SECONDS)%Z.

Definition enqueue_envelope `{Sha256} (a : enqueue_args) : M (option Z) :=
  let id := ea_envelope_id a in
  let! now := now_ in
  let expires_at := expiry (ea_timestamp a) (ea_ttl a) now (ea_hard_ceiling a) in
  let ttl_until_expiry := (expires_at - now)%Z in
  if (ttl_until_expiry <=? 0)%Z then raise (EnqueueRejected 400 "envelope_already_expired")
  else
    let! meta := of_res (build_meta a expires_at) in
    let! written := redis_ (rcall
      (set_nx_ex (_envelope_meta_key id) (dumps (JObj meta)) ttl_until_expiry) as_set_ok) in
    if negb written then ret None
    else
      let! inserted := try_except
        (redis_ (_INBOX_ENQUEUE_LUA (_inbox_key (ea_recipient a)) now id expires_at
                   MAX_INBOX_QUEUE_DEPTH))
        (fun _ =>
           let! _ := drop_meta id in
           raise (EnqueueRejected 503 "queue_backend_unavailable")) in
      if (inserted =? 0)%Z then
        let! _ := drop_meta id in
        raise (EnqueueRejected 429 "recipient_queue_full")
      else
        let! _ := redis_ (rmulti (
          [ EXPIRE (_inbox_key (ea_recipient a)) (inbox_key_ttl ttl_until_expiry);
            PUBLISH (_inbox_channel (ea_recipient a)) (_new_event id);
            SADD (_pending_recipients_key id) [ea_recipient a];
            EXPIRE (_pending_recipients_key id) ttl_until_expiry;
            ZADD _BLOB_EXPIRY_INDEX_KEY expires_at id ] ++
          (if negb (ea_sealed a) && negb (String.eqb (ea_sender a) "")
           then [set_ex (_sender_tombstone_key id)
                   (_sender_tombstone_value (ea_sender a) (ea_recipient a))
                   (ttl_until_expiry + TOMBSTONE_EXTRA_TTL_SECONDS)]
           else []))) in
        ret (Some expires_at).

Definition is_enqueue_rejected (e : exn) : bool :=
  match e with EnqueueRejected _ _ => true | _ => false end.

Definition write_blob_then_enqueue `{Sha256} (a : enqueue_args) (blob_bytes : string)
    : M (option Z) :=
  let! _ := write_blob (ea_envelope_id a) blob_bytes in
  try_except (enqueue_envelope a) (fun e =>
    if is_enqueue_rejected e then
      let! _ := try_except (secure_delete_blob (ea_envelope_id a)) (fun _ => ret false) in
      raise e
    else raise e).

(** ** Fan-out to the inboxes of a group *)

Record fanout_args := FanoutArgs {
  fa_envelope_id : string;
  fa_sender : string;
  fa_recipients : list string;
  fa_timestamp : Z;
  fa_ttl : Z;
  fa_signature : string;
  fa_hard_ceiling : Z;
  fa_group_id : option string;
  fa_sender_username : option string
}.

Definition fanout_meta (a : fanout_args) (expires_at : Z) : dict :=
  let to_value :=
    match fa_group_id a with
    | Some g => if String.eqb g "" then "broadcast" else g
    | None => "broadcast"
    end in
  [ ("envelope_id", JStr (fa_envelope_id a));
    ("from", JStr (fa_sender a));
    ("from_username", opt_str (fa_sender_username a));
    ("to", JStr to_value);
    ("ts", JNum (fa_timestamp a));
    ("ttl", JNum (fa_ttl a));
    ("sig", JStr (fa_signature a));
    ("expires_at", JNum expires_at);
    ("group_id", opt_str (fa_group_id a))].

(** [[r for r, ok in zip(recipients, results) if ok]] *)
Fixpoint accepted (recipients : list string) (results : list reply) : list string :=
  match recipients, results with
  | r :: rs, x :: xs => if reply_truthy x then r :: accepted rs xs else accepted rs xs
  | _, _ => []
  end.

Definition enqueue_envelope_for_recipients (a : fanout_args) : M (Z * Z) :=
  let id := fa_envelope_id a in
  let! now := now_ in
  let expires_at := expiry (fa_timestamp a) (fa_ttl a) now (fa_hard_ceiling a) in
  if (expires_at - now <=? 0)%Z then ret (expires_at, 0%Z)
  else
    let ttl_until_expiry := (expires_at - now)%Z in
    let meta_json := dumps (JObj (fanout_meta a expires_at)) in
    let set_meta := set_ex (_envelope_meta_key id) meta_json ttl_until_expiry in
    let! eligible := try_except
      (let! results := pipeline (pipe_cmd set_meta ::
         map (fun r => pipe_script (_INBOX_ENQUEUE_LUA (_inbox_key r) now id expires_at
                                      MAX_INBOX_QUEUE_DEPTH)) (fa_recipients a)) in
       ret (Some (accepted (fa_recipients a) (tail results))))
      (fun _ => ret None) in
    let! eligible :=
      match eligible with
      | Some l => ret l
      | None =>
          let! _ := redis_ (rmulti (set_meta ::
            map (fun r => ZADD (_inbox_key r) expires_at id) (fa_recipients a))) in
          ret (fa_recipients a)
      end in
    let! _ := redis_ (rmulti (
      flat_map (fun r =>
        [ EXPIRE (_inbox_key r) (inbox_key_ttl ttl_until_expiry);
          PUBLISH (_inbox_channel r) (_new_event id) ]) eligible ++
      (match eligible with
       | [] => []
       | _ => [ SADD (_pending_recipients_key id) eligible;
                EXPIRE (_pending_recipients_key id) (expires_at - now) ]
       end) ++
      [ ZADD _BLOB_EXPIRY_INDEX_KEY expires_at id ])) in
    ret (expires_at, Z.of_nat (length eligible)).

(** ** Reading *)

Definition was_delivered_to (envelope_id reader : string) : M bool :=
  let! n := redis_ (rcall (EXISTS (_delivery_tombstone_key envelope_id reader)) as_int) in
  ret (negb (n =? 0)%Z).

(** [json.loads] of a stored value, when there is one and it parses. *)
Definition load_meta (raw : option string) : option json :=
  match raw with Some s => loads s | None => None end.

Definition get_cmd (k : string) : rtx reply := pipe_cmd (GET k).

Definition list_inbox (recipient : string) (limit : Z) : M (list json) :=
  let! now := now_ in
  let! _ := redis_ (lua_call (ZREMRANGEBYSCORE (_inbox_key recipient) 0 now)) in
  let! ids := redis_ (rcall (ZRANGE (_inbox_key recipient) 0 (limit - 1)) as_list) in
  match ids with
  | [] => ret []
  | _ =>
      let! metas := pipeline (map (fun eid => get_cmd (_envelope_meta_key eid)) ids) in
      ret (omap (fun r => load_meta (bulk_of r)) metas)
  end.

Definition is_envelope_in_inbox (recipient envelope_id : string) : M bool :=
  let! score := redis_ (rcall (ZSCORE (_inbox_key recipient) envelope_id) as_bulk) in
  ret (match score with Some _ => true | None => false end).

Definition get_envelope_meta (envelope_id : string) : M (option json) :=
  let! raw := redis_ (rcall (GET (_envelope_meta_key envelope_id)) as_bulk) in
  ret (load_meta raw).

Definition envelope_exists (envelope_id : string) : M bool :=
  let! n := redis_ (rcall (EXISTS (_envelope_meta_key envelope_id)) as_int) in
  ret (negb (n =? 0)%Z).

(** The fields of a metadata object (the relay stores nothing but objects). *)
Definition fields (j : json) : dict := match j with JObj d => d | _ => [] end.

(** ** Mail: the read flag *)

(** What one envelope of the batch asks for: nothing, already counted, or a write. *)
Inductive seen_action := Skip | AlreadySeen | MarkSeen (value : string).

Definition seen_decision (recipient : string) (score raw : reply) : seen_action :=
  match bulk_of score, load_meta (bulk_of raw) with
  | Some _, Some j =>
      let meta := fields j in
      if negb (get_is_str "channel" "mail" meta) || negb (get_is_str "to" recipient meta) then Skip
      else match dict_get "mail_seen" meta with
           | Some (JBool true) => AlreadySeen
           | _ => MarkSeen (dumps (JObj (dict_set "mail_seen" (JBool true) meta)))
           end
  | _, _ => Skip
  end.

(** [res[2 * i], res[2 * i + 1]] for each id. *)
Fixpoint seen_scan (recipient : string) (ids : list string) (res : list reply)
    : Z * list (string * string) :=
  match ids, res with
  | eid :: ids', score :: raw :: res' =>
      let '(marked, to_set) := seen_scan recipient ids' res' in
      match seen_decision recipient score raw with
      | Skip => (marked, to_set)
      | AlreadySeen => ((marked + 1)%Z, to_set)
      | MarkSeen val => (marked, (eid, val) :: to_set)
      end
  | _, _ => (0%Z, [])
  end.

Definition mark_mail_seen (recipient : string) (envelope_ids : list string) : M Z :=
  let ids := take MAIL_SEEN_BATCH_MAX envelope_ids in
  match ids with
  | [] => ret 0%Z
  | _ =>
      let! res := pipeline (flat_map (fun eid =>
        [ pipe_cmd (ZSCORE (_inbox_key recipient) eid); get_cmd (_envelope_meta_key eid) ]) ids) in
      let '(marked, to_set) := seen_scan recipient ids res in
      match to_set with
      | [] => ret marked
      | _ =>
          let! oks := pipeline (map (fun '(eid, val) =>
            pipe_cmd (SET (_envelope_meta_key eid) val None false true true)) to_set) in
          ret (marked + Z.of_nat (length (List.filter reply_truthy oks)))%Z
      end
  end.

(** ** Acknowledgement *)

Definition acknowledge_envelope (recipient envelope_id : string) : M bool :=
  let! removed := redis_ (rcall (ZREM (_inbox_key recipient) envelope_id) as_int) in
  if (removed <=? 0)%Z then ret false
  else
    let! _ := try_except
      (redis_ (lua_call (set_ex (_delivery_tombstone_key envelope_id recipient) "1"
                           DELIVERY_TOMBSTONE_TTL_SECONDS)))
      (fun _ => ret tt) in
    let! result := try_except
      (let! n := redis_ (_ACK_PENDING_LUA (_pending_recipients_key envelope_id)
                           (_envelope_meta_key envelope_id) recipient) in
       ret (Some n))
      (fun _ => ret None) in
    match result with
    | None => ret true
    | Some n =>
        let! _ := (if (n =? 1)%Z then spawn (TDeleteBlob envelope_id) else ret tt) in
        ret true
    end.

Definition _delete_blob_after_last_ack (envelope_id : string) : M unit :=
  try_except (let! _ := secure_delete_blob envelope_id in ret tt) (fun _ => ret tt).

(** ** Deletion by the sender *)

Record delete_result := DeleteResult {
  del_ok : bool;
  deleted_from_queue : bool;
  meta_existed : bool;
  del_error : option string
}.

Definition refuse (existed : bool) (error : string) : delete_result :=
  DeleteResult false false existed (Some error).

(** The authorization: [None] lets the deletion go on. *)
Definition sender_may_delete `{Sha256} (meta_raw tomb : option string) (caller recipient : string)
    : option delete_result :=
  match meta_raw with
  | Some raw =>
      let meta := match loads raw with Some j => fields j | None => [] end in
      if get_truthy "group_id" meta then Some (refuse true "group_message")
      else if negb (get_is_str "from" caller meta) then Some (refuse true "not_sender")
      else if negb (get_is_str "to" recipient meta) then Some (refuse true "recipient_mismatch")
      else None
  | None =>
      match tomb with
      | None => Some (refuse false "not_found")
      | Some t =>
          if negb (String.eqb t (_sender_tombstone_value caller recipient))
          then Some (refuse false "not_sender")
          else None
      end
  end.

Definition delete_envelope_by_sender `{Sha256} (envelope_id caller recipient : string)
    : M delete_result :=
  let! meta_raw := redis_ (rcall (GET (_envelope_meta_key envelope_id)) as_bulk) in
  let! tomb :=
    match meta_raw with
    | Some _ => ret None
    | None => redis_ (rcall (GET (_sender_tombstone_key envelope_id)) as_bulk)
    end in
  match sender_may_delete meta_raw tomb caller recipient with
  | Some refusal => ret refusal
  | None =>
      let! results := redis_ (rmulti
        [ ZREM (_inbox_key recipient) envelope_id;
          DEL [_envelope_meta_key envelope_id];
          DEL [_sender_tombstone_key envelope_id];
          PUBLISH (_inbox_channel recipient) (_deleted_event envelope_id caller None) ]) in
      ret (DeleteResult true (first_truthy results)
             (match meta_raw with Some _ => true | None => false end) None)
  end.

(** The sealed variant: [inl] a refusal, [inr] the recipient whose inbox holds the envelope. *)
Definition sealed_may_delete `{Sha256} (meta_raw : option string) (delete_key_hex : string)
    : string + string :=
  match load_meta meta_raw with
  | None => inl "not_found"
  | Some j =>
      let meta := fields j in
      if negb (get_truthy "sealed" meta) || negb (get_truthy "delete_key_hash" meta)
      then inl "not_sealed"
      else match bytes_fromhex delete_key_hex with
           | None => inl "wrong_key"
           | Some key =>
               if negb (get_is_str "delete_key_hash" (sha256_hex key) meta) then inl "wrong_key"
               else inr (match dict_get "to" meta with Some (JStr s) => s | _ => "" end)
           end
  end.

Definition delete_sealed_envelope `{Sha256} (envelope_id delete_key_hex : string)
    : M (bool * bool * option string) :=
  let! meta_raw := redis_ (rcall (GET (_envelope_meta_key envelope_id)) as_bulk) in
  match sealed_may_delete meta_raw delete_key_hex with
  | inl err => ret (false, false, Some err)
  | inr recipient =>
      let! results := redis_ (rmulti
        [ ZREM (_inbox_key recipient) envelope_id;
          DEL [_envelope_meta_key envelope_id];
          PUBLISH (_inbox_channel recipient) (_deleted_event envelope_id "" None) ]) in
      ret (true, first_truthy results, None)
  end.

(** [sum(1 for i in range(1, len(results), 2) if results[i])] *)
Fixpoint count_odd (l : list reply) : Z :=
  match l with
  | _ :: r :: l' => ((if reply_truthy r then 1 else 0) + count_odd l')%Z
  | _ => 0%Z
  end.

Definition delete_envelope_for_group (envelope_id group_id : string) (recipients : list string)
    (deleted_by : string) : M (Z * bool * Z) :=
  let! n := redis_ (rcall (EXISTS (_envelope_meta_key envelope_id)) as_int) in
  let event := _deleted_event envelope_id deleted_by (Some group_id) in
  let! results := redis_ (rmulti (
    DEL [_envelope_meta_key envelope_id] ::
    flat_map (fun r => [ ZREM (_inbox_key r) envelope_id; PUBLISH (_inbox_channel r) event ])
      recipients)) in
  ret (count_odd results, negb (n =? 0)%Z, Z.of_nat (length recipients)).
