(* ===== verification/QueueFacts.v ===== *)
(** * The message queue (queue.py): properties

    Posting, acknowledging and deleting envelopes, on any Redis server ([observe] is the run as
    anyone can observe it). *)

From Stdlib Require Import Ascii String.
From stdpp Require Import prelude gmap strings list.
From S2P Require Import Prelude Json RedisStore Models Effects Crypto Logic BlobStorage Queue.

#[local] Open Scope morok_scope.

Section Lua.
  Context (now : Z) (v : rview).

(** The posts of an inbox that are not expired. *)
Definition live (z : gmap string Z) : gmap string Z := filter (fun mz => ~ in_range 0 now mz) z.

Lemma lua_enqueue t k id exp max z : zset_at k v = Some z ->
  rrun_doc t (_INBOX_ENQUEUE_LUA k now id exp max) v =
  (let v1 := put_zset k (live z) v in
   if (max <=? Z.of_nat (size (live z)))%Z then (Some 0%Z, v1)
   else (Some 1%Z, put k (Entry (VZSet (<[id := exp]> (live z))) (deadline_of k v1)) v1)).
Proof.
  intros Hz. unfold _INBOX_ENQUEUE_LUA, lua_call.
  rewrite rrun_rbind, rrun_rcall. cbn [documented]. rewrite Hz. cbn [fst snd as_any].
  rewrite rrun_rbind, rrun_rcall. cbn [documented]. fold (live z). at_simpl. cbn [fst snd as_int].
  case_match; [done|].
  rewrite rrun_rbind, rrun_rcall. erewrite doc_zadd by (at_simpl; done). done.
Qed.
End Lua.

(** ** Posting to one inbox *)

(** What is published, what a key holds. *)
Section Enqueue.
  Context `{Sha256} (a : enqueue_args).

Let id := ea_envelope_id a.
Let inbox := _inbox_key (ea_recipient a).
Let meta_key := _envelope_meta_key id.
Let pending := _pending_recipients_key id.
Let tomb := _sender_tombstone_key id.
Let expires (w : vworld) : Z := expiry (ea_timestamp a) (ea_ttl a) (w_now w) (ea_hard_ceiling a).

Definition leaves_tombstone : bool := negb (ea_sealed a) && negb (String.eqb (ea_sender a) "").

(** The server after a successful post at [now] of an envelope that expires at [exp], when the
    inbox held [z], the recipients [p] were already waiting and the expiry index was [idx]. *)
Record posted (now exp : Z) (meta : dict) (z : gmap string Z) (p : gset string)
    (idx : gmap string Z) (v v' : rview) : Prop := {
  posted_meta :
    rv_keys v' !! meta_key = Some (Entry (VStr (dumps (JObj meta))) (Some exp));
  posted_inbox :
    rv_keys v' !! inbox = Some (Entry (VZSet (<[id := exp]> (live now z)))
                                 (Some (now + inbox_key_ttl (exp - now))%Z));
  posted_pending :
    rv_keys v' !! pending = Some (Entry (VSet (p ∪ {[ea_recipient a]})) (Some exp));
  posted_index : zset_at _BLOB_EXPIRY_INDEX_KEY v' = Some (<[id := exp]> idx);
  posted_tomb :
    rv_keys v' !! tomb =
    if leaves_tombstone
    then Some (Entry (VStr (_sender_tombstone_value (ea_sender a) (ea_recipient a)))
                 (Some (exp + TOMBSTONE_EXTRA_TTL_SECONDS)%Z))
    else rv_keys v !! tomb;
  posted_pub : rv_pub v' = rv_pub v ++ [(_inbox_channel (ea_recipient a), _new_event id)];
  posted_frame k :
    k ∉ [meta_key; inbox; pending; tomb; _BLOB_EXPIRY_INDEX_KEY] ->
    rv_keys v' !! k = rv_keys v !! k
}.

Lemma inbox_ttl_pos t : (0 < inbox_key_ttl t)%Z.
Proof. unfold inbox_key_ttl, INBOX_KEY_TTL_SLACK_SECONDS. lia. Qed.

(** The post is refused, or is a duplicate: each branch of the source, without failures. *)
Lemma run_enqueue_expired (w : vworld) :
  (expires w <= w_now w)%Z ->
  run_doc (enqueue_envelope a) w = (Raise (EnqueueRejected 400 "envelope_already_expired"), w).
Proof.
  intros Hexp. unfold enqueue_envelope. rewrite run_doc_bind, run_doc_now. fold (expires w).
  by rewrite (proj2 (Z.leb_le _ _)) by lia.
Qed.

(** The server takes the metadata and its reply is lost. *)
Lemma run_enqueue_lost_claim (w : vworld) meta :
  w_faults w = [LostReply] -> (w_now w < expires w)%Z -> build_meta a (expires w) = Ok meta ->
  rv_keys (w_redis w) !! meta_key = None ->
  run_doc (enqueue_envelope a) w =
  (Raise RedisError,
   set_faults [] (set_redis (put meta_key (Entry (VStr (dumps (JObj meta))) (Some (expires w)))
                               (w_redis w)) w)).
Proof.
  intros Hf Hexp Hmeta Hk.
  unfold enqueue_envelope. rewrite run_doc_bind, run_doc_now. fold (expires w).
  rewrite (proj2 (Z.leb_gt _ _)) by lia.
  rewrite run_doc_bind. unfold of_res at 1. rewrite Hmeta. cbn [run_doc run_exec].
  rewrite run_doc_bind, (run_doc_redis_fault _ _ _ _ Hf), decide_True by done.
  rewrite rrun_rcall, doc_set_nx_ex by lia. fold id meta_key. rewrite Hk. cbn [fst snd].
  by replace (w_now w + (expires w - w_now w))%Z with (expires w) by lia.
Qed.

(** Up to the claim of the metadata key. *)
Lemma run_enqueue_claim (w : vworld) meta :
  next_fault w = Fine -> (w_now w < expires w)%Z -> build_meta a (expires w) = Ok meta ->
  run_doc (enqueue_envelope a) w =
  match rv_keys (w_redis w) !! meta_key with
  | Some _ => (Ok None, pop_fault w)
  | None =>
      run_doc (
        let! inserted := try_except
          (redis_ (_INBOX_ENQUEUE_LUA inbox (w_now w) id (expires w) MAX_INBOX_QUEUE_DEPTH))
          (fun _ => let! _ := drop_meta id in raise (EnqueueRejected 503 "queue_backend_unavailable")) in
        if (inserted =? 0)%Z then
          let! _ := drop_meta id in raise (EnqueueRejected 429 "recipient_queue_full")
        else
          let! _ := redis_ (rmulti (
            [ EXPIRE inbox (inbox_key_ttl (expires w - w_now w));
              PUBLISH (_inbox_channel (ea_recipient a)) (_new_event id);
              SADD pending [ea_recipient a];
              EXPIRE pending (expires w - w_now w);
              ZADD _BLOB_EXPIRY_INDEX_KEY (expires w) id ] ++
            (if leaves_tombstone
             then [set_ex tomb (_sender_tombstone_value (ea_sender a) (ea_recipient a))
                     (expires w - w_now w + TOMBSTONE_EXTRA_TTL_SECONDS)]
             else []))) in
          ret (Some (expires w)))
        (set_redis (put meta_key (Entry (VStr (dumps (JObj meta))) (Some (expires w))) (w_redis w)) (pop_fault w))
  end.
Proof.
  intros Hc Hexp Hmeta.
  unfold enqueue_envelope. rewrite run_doc_bind, run_doc_now. fold (expires w).
  rewrite (proj2 (Z.leb_gt _ _)) by lia.
  rewrite run_doc_bind. unfold of_res at 1. rewrite Hmeta. cbn [run_doc run_exec].
  rewrite run_doc_bind, run_doc_redis_fine by done. rewrite rrun_rcall, doc_set_nx_ex by lia.
  fold id meta_key. destruct (rv_keys (w_redis w) !! meta_key); cbn [fst snd as_set_ok res_of negb].
  - by destruct w.
  - by replace (w_now w + (expires w - w_now w))%Z with (expires w) by lia.
Qed.


Lemma run_enqueue (w : vworld) meta z p idx :
  calm w ->
  (w_now w < expires w)%Z ->
  build_meta a (expires w) = Ok meta ->
  rv_keys (w_redis w) !! meta_key = None ->
  zset_at inbox (w_redis w) = Some z ->
  (Z.of_nat (size (live (w_now w) z)) < MAX_INBOX_QUEUE_DEPTH)%Z ->
  set_at pending (w_redis w) = Some p ->
  zset_at _BLOB_EXPIRY_INDEX_KEY (w_redis w) = Some idx ->
  exists v', run_doc (enqueue_envelope a) w = (Ok (Some (expires w)), set_redis v' w) /\
    posted (w_now w) (expires w) meta z p idx (w_redis w) v'.
Proof.
  intros Hc Hexp Hmeta Hk Hz Hsz Hp Hidx.
  destruct (calm_pop w Hc) as [Hn Hpop].
  rewrite (run_enqueue_claim w meta), Hk, Hpop by done.
  set (v1 := put meta_key _ _).
  rewrite run_doc_bind, run_doc_try, run_doc_redis by done.
  cbn [w_now w_redis set_redis].
  rewrite (lua_enqueue _ _ _ _ _ _ _ z) by (unfold v1, inbox, meta_key in *; at_simpl; done).
  fold inbox. cbn zeta. rewrite (proj2 (Z.leb_gt _ _) Hsz). cbn [fst snd res_of Z.eqb].
  set (v2 := put_zset inbox _ v1). set (v3 := put inbox _ v2).
  rewrite run_doc_bind.
  assert (Hp3 : set_at pending v3 = Some p)
    by (unfold v3, v2, v1, inbox, meta_key, pending in *; at_simpl; done).
  assert (Hi3 : zset_at _BLOB_EXPIRY_INDEX_KEY v3 = Some idx)
    by (unfold v3, v2, v1, inbox, meta_key in *; at_simpl; done).
  eexists. split.
  { erewrite run_multi; [done|done|].
    eapply multi_cons; [eapply doc_expire; [apply keys_put_eq|apply inbox_ttl_pos]|done|].
    eapply multi_cons; [done|done|].
    eapply multi_cons; [eapply doc_sadd; [at_simpl; exact Hp3|done]|done|].
    eapply multi_cons; [eapply doc_expire; [apply keys_put_eq|lia]|done|].
    eapply multi_cons; [eapply doc_zadd; at_simpl; exact Hi3|done|].
    instantiate (2 := if leaves_tombstone then _ else _).
    instantiate (1 := if leaves_tombstone then _ else _).
    destruct leaves_tombstone; [|apply multi_nil].
    eapply multi_cons; [eapply doc_set_ex; unfold TOMBSTONE_EXTRA_TTL_SECONDS; lia|done|apply multi_nil]. }
  cbn [w_now w_redis set_redis e_val list_to_set foldr].
  rewrite (right_id_L ∅ (∪) {[ea_recipient a]}).
  replace (w_now w + (expires w - w_now w + TOMBSTONE_EXTRA_TTL_SECONDS))%Z
    with (expires w + TOMBSTONE_EXTRA_TTL_SECONDS)%Z by lia.
  replace (w_now w + (expires w - w_now w))%Z with (expires w) by lia.
  clear Hp3 Hi3. subst v3 v2 v1. unfold inbox, meta_key, pending, tomb.
  split; destruct leaves_tombstone; at_simpl; try done.
  all: intros k; rewrite !not_elem_of_cons; intros (? & ? & ? & ? & ? & _); at_simpl; done.
Qed.

(** A full inbox: the metadata is gone again, and of the inbox only expired posts. *)
Lemma run_enqueue_full (w : vworld) meta z :
  calm w -> (w_now w < expires w)%Z -> build_meta a (expires w) = Ok meta ->
  rv_keys (w_redis w) !! meta_key = None ->
  zset_at inbox (w_redis w) = Some z ->
  (MAX_INBOX_QUEUE_DEPTH <= Z.of_nat (size (live (w_now w) z)))%Z ->
  exists v', run_doc (enqueue_envelope a) w =
      (Raise (EnqueueRejected 429 "recipient_queue_full"), set_redis v' w) /\
    rv_keys v' !! inbox = rv_keys (put_zset inbox (live (w_now w) z) (w_redis w)) !! inbox /\ rv_pub v' = rv_pub (w_redis w) /\
    forall k, k <> inbox -> rv_keys v' !! k = rv_keys (w_redis w) !! k.
Proof.
  intros Hc Hexp Hmeta Hk Hz Hsz.
  destruct (calm_pop w Hc) as [Hn Hpop].
  rewrite (run_enqueue_claim w meta), Hk, Hpop by done.
  set (v1 := put meta_key _ _).
  rewrite run_doc_bind, run_doc_try, run_doc_redis by done.
  cbn [w_now w_redis set_redis].
  rewrite (lua_enqueue _ _ _ _ _ _ _ z) by (unfold v1, inbox, meta_key in *; at_simpl; done).
  cbn zeta. rewrite (proj2 (Z.leb_le _ _) Hsz). cbn [fst snd res_of Z.eqb].
  unfold drop_meta. rewrite run_doc_bind, run_doc_try, run_doc_redis by done.
  unfold lua_call. rewrite rrun_rcall. fold meta_key.
  edestruct (documented_del1 (w_now w)) as [n Hd].
  cbn [w_now w_redis set_redis]. rewrite Hd. cbn [fst snd as_any res_of].
  eexists. split; [done|]. subst v1. unfold inbox, meta_key in *. split_and!; at_simpl; try done.
  { rewrite (keys_put_zset _ _ (w_redis w)), keys_put_zset, !(decide_True (P := _inbox_key _ = _inbox_key _)) by done.
    case_decide; [done|]. unfold deadline_of. by at_simpl. }
  intros k Hki. destruct (decide (_envelope_meta_key id = k)) as [<-|Hkm]; at_simpl; congruence.
Qed.

(** A failure strikes the script: the metadata is gone again and nothing was published. *)
Lemma run_enqueue_lua_fault (w : vworld) meta f z :
  w_faults w = [Fine; f] -> f <> Fine ->
  (w_now w < expires w)%Z -> build_meta a (expires w) = Ok meta ->
  rv_keys (w_redis w) !! meta_key = None ->
  zset_at inbox (w_redis w) = Some z ->
  exists v', run_doc (enqueue_envelope a) w =
      (Raise (EnqueueRejected 503 "queue_backend_unavailable"), set_faults [] (set_redis v' w)) /\
    rv_keys v' !! meta_key = None /\ rv_pub v' = rv_pub (w_redis w).
Proof.
  intros Hf Hne Hexp Hmeta Hk Hz.
  rewrite (run_enqueue_claim w meta), Hk by (done || by unfold next_fault; rewrite Hf).
  unfold pop_fault. rewrite Hf. cbn [tail].
  set (v1 := put meta_key _ _).
  rewrite run_doc_bind, run_doc_try, (run_doc_redis_fault _ _ f []) by done.
  cbn [w_now w_redis set_redis set_faults].
  unfold drop_meta. rewrite !run_doc_bind, run_doc_try, run_doc_redis by done.
  unfold lua_call. rewrite rrun_rcall. fold meta_key.
  cbn [w_now w_redis set_redis set_faults].
  edestruct (documented_del1 (w_now w)) as [n Hn]. rewrite Hn. cbn [fst snd as_any res_of].
  rewrite run_doc_raise. set (v2 := if decide _ then _ else _).
  exists (del meta_key v2). split; [done|]. split; [by at_simpl|].
  at_simpl. subst v2. case_decide; [|done].
  fold inbox. rewrite (lua_enqueue _ _ _ _ _ _ _ z) by (unfold v1, inbox, meta_key in *; at_simpl; done).
  cbn zeta. case_match; cbn [snd]; at_simpl; done.
Qed.
End Enqueue.

(** ** Acknowledgement *)

Section Ack.
  Context (r id : string).

Let inbox := _inbox_key r.
Let pending := _pending_recipients_key id.
Let meta_key := _envelope_meta_key id.
Let tomb := _delivery_tombstone_key id r.

Lemma lua_ack now v p : set_at pending v = Some p ->
  rrun_doc now (_ACK_PENDING_LUA pending meta_key r) v =
  match rv_keys v !! pending with
  | None => (Some (-1)%Z, v)
  | Some _ =>
      if decide (p ∖ {[r]} = ∅)
      then (Some 1%Z, del meta_key (del pending (put_set pending (p ∖ {[r]}) v)))
      else (Some 0%Z, put_set pending (p ∖ {[r]}) v)
  end.
Proof.
  intros Hp. unfold _ACK_PENDING_LUA, lua_call.
  rewrite rrun_rbind, rrun_rcall. cbn [documented fst snd as_int].
  destruct (rv_keys v !! pending); [|done]. cbn [Z.eqb].
  rewrite rrun_rbind, rrun_rcall. cbn [documented]. rewrite Hp. cbn [fst snd as_any list_to_set foldr].
  rewrite (right_id_L ∅ (∪) {[r]}).
  rewrite rrun_rbind, rrun_rcall. cbn [documented]. at_simpl. cbn [fst snd as_int].
  case_decide as He.
  - rewrite He, size_empty. change (Z.of_nat 0 =? 0)%Z with true. cbn iota.
    edestruct (documented_del1 now) as [n Hd]. rewrite rrun_rbind, rrun_rcall, Hd. cbn [fst snd as_any].
    edestruct (documented_del1 now) as [m Hd']. rewrite rrun_rbind, rrun_rcall, Hd'. done.
  - rewrite (proj2 (Z.eqb_neq _ _)); [done|]. intros E. apply He. apply leibniz_equiv, size_empty_inv. lia.
Qed.

(** The view once the post and the delivery are recorded. *)
Definition taken (now : Z) (z : gmap string Z) (v : rview) : rview :=
  put tomb (Entry (VStr "1") (Some (now + DELIVERY_TOMBSTONE_TTL_SECONDS)%Z))
    (put_zset inbox (delete id z) v).

(** The view after an acknowledgement: [p] are the recipients the envelope waited for. *)
Definition acked (now : Z) (z : gmap string Z) (p : gset string) (v : rview) : rview :=
  match rv_keys v !! pending with
  | None => taken now z v
  | Some _ =>
      if decide (p ∖ {[r]} = ∅)
      then del meta_key (del pending (put_set pending ∅ (taken now z v)))
      else put_set pending (p ∖ {[r]}) (taken now z v)
  end.

Definition last_ack (p : gset string) (v : rview) : bool :=
  match rv_keys v !! pending with Some _ => bool_decide (p ∖ {[r]} = ∅) | None => false end.

Lemma run_ack_absent (w : vworld) z :
  calm w -> zset_at inbox (w_redis w) = Some z -> z !! id = None ->
  run_doc (acknowledge_envelope r id) w = (Ok false, set_redis (put_zset inbox (delete id z) (w_redis w)) w).
Proof.
  intros Hc Hz Hid. unfold acknowledge_envelope.
  rewrite run_doc_bind, run_doc_redis, rrun_rcall, (doc_zrem _ _ _ _ z) by done.
  by rewrite Hid.
Qed.

Lemma run_ack (w : vworld) z s p :
  calm w -> zset_at inbox (w_redis w) = Some z -> z !! id = Some s ->
  set_at pending (w_redis w) = Some p ->
  run_doc (acknowledge_envelope r id) w =
  (Ok true,
   set_tasks (w_tasks w ++ if last_ack p (w_redis w) then [TDeleteBlob id] else [])
     (set_redis (acked (w_now w) z p (w_redis w)) w)).
Proof.
  intros Hc Hz Hid Hp. unfold acknowledge_envelope.
  rewrite run_doc_bind, run_doc_redis, rrun_rcall, (doc_zrem _ _ _ _ z) by done.
  rewrite Hid. cbn [fst snd as_int res_of Z.leb Z.compare].
  rewrite run_doc_bind, run_doc_try, run_doc_redis by done.
  unfold lua_call. rewrite rrun_rcall. cbn [w_now w_redis set_redis].
  rewrite doc_set_ex by (unfold DELIVERY_TOMBSTONE_TTL_SECONDS; lia). cbn [fst snd as_any res_of].
  fold inbox tomb. fold (taken (w_now w) z (w_redis w)).
  assert (Hp1 : set_at pending (taken (w_now w) z (w_redis w)) = Some p)
    by (unfold taken, pending, tomb, inbox in *; at_simpl; done).
  assert (Hk1 : rv_keys (taken (w_now w) z (w_redis w)) !! pending = rv_keys (w_redis w) !! pending)
    by (unfold taken, pending, tomb, inbox in *; at_simpl; done).
  rewrite run_doc_bind, run_doc_try, run_doc_bind, run_doc_redis by done.
  cbn [w_now w_redis set_redis]. fold pending meta_key.
  rewrite (lua_ack _ _ p Hp1), Hk1. unfold acked, last_ack.
  destruct (rv_keys (w_redis w) !! pending); [|cbn; by rewrite app_nil_r; destruct w].
  case_decide as He.
  - rewrite bool_decide_true, He by done. done.
  - rewrite bool_decide_false by done. cbn. by rewrite app_nil_r; destruct w.
Qed.
End Ack.

Lemma inbox_key_inj r r' : _inbox_key r = _inbox_key r' -> r = r'.
Proof. unfold _inbox_key. cbv [append]. naive_solver. Qed.

(** ** The life of an envelope under acknowledgements *)

Section Lifecycle.
  Context (id : string).

Let pending := _pending_recipients_key id.
Let meta_key := _envelope_meta_key id.

(** The envelope is in no inbox of those outside [p]. *)
Definition in_inbox (r : string) (v : rview) : Prop :=
  exists z s, zset_at (_inbox_key r) v = Some z /\ z !! id = Some s.
Definition not_in_inbox (r : string) (v : rview) : Prop :=
  exists z, zset_at (_inbox_key r) v = Some z /\ z !! id = None.

(** The envelope waits for the recipients [p], at least one, and is in their inboxes. *)
Record waiting (p : gset string) (v : rview) : Prop := {
  waiting_some : p <> ∅;
  waiting_pending : exists d, rv_keys v !! pending = Some (Entry (VSet p) d);
  waiting_meta : exists m, rv_keys v !! meta_key = Some m;
  waiting_in r : r ∈ p -> in_inbox r v;
  waiting_out r : r ∉ p -> not_in_inbox r v
}.

(** Everybody has it: no inbox, no metadata, no pending set. *)
Record settled (v : rview) : Prop := {
  settled_pending : rv_keys v !! pending = None;
  settled_meta : rv_keys v !! meta_key = None;
  settled_out r : not_in_inbox r v
}.

(** Acknowledgements of the recipients [rs], one after the other. *)
Fixpoint acknowledge_all (rs : list string) : M unit :=
  match rs with
  | [] => ret tt
  | r :: rs' => let! _ := acknowledge_envelope r id in acknowledge_all rs'
  end.

(** An update that removes the envelope from the inbox of [r] and spares the other inboxes. *)
Lemma out_after r0 v v' z :
  zset_at (_inbox_key r0) v' = Some (delete id z) ->
  (forall r, r <> r0 -> zset_at (_inbox_key r) v' = zset_at (_inbox_key r) v) ->
  not_in_inbox r0 v' /\
  (forall r, r <> r0 -> in_inbox r v -> in_inbox r v') /\
  (forall r, r <> r0 -> not_in_inbox r v -> not_in_inbox r v').
Proof.
  intros H0 Hr. unfold in_inbox, not_in_inbox. split_and!.
  - eexists. split; [done|]. by rewrite lookup_delete_eq.
  - intros r Hne. by rewrite Hr.
  - intros r Hne. by rewrite Hr.
Qed.

Lemma inbox_key_ne r r' : r <> r' -> _inbox_key r <> _inbox_key r'.
Proof. unfold _inbox_key. cbv [append]. naive_solver. Qed.

Lemma settled_ack r (w : vworld) :
  calm w -> settled (w_redis w) ->
  exists v', run_doc (acknowledge_envelope r id) w = (Ok false, set_redis v' w) /\ settled v'.
Proof.
  intros Hc [Hp Hm Ho]. destruct (Ho r) as (z & Hz & Hid).
  eexists. split; [by apply run_ack_absent|].
  destruct (out_after r (w_redis w) (put_zset (_inbox_key r) (delete id z) (w_redis w)) z) as (H1 & _ & H3).
  - by at_simpl.
  - intros r' Hne. apply not_eq_sym, inbox_key_ne in Hne. by at_simpl.
  - unfold pending, meta_key in *. split; at_simpl; try done.
    intros r'. destruct (decide (r' = r)) as [->|]; auto.
Qed.

Lemma waiting_ack r p (w : vworld) :
  calm w -> waiting p (w_redis w) ->
  exists v',
    run_doc (acknowledge_envelope r id) w =
      (Ok (bool_decide (r ∈ p)),
       set_tasks (w_tasks w ++ if decide (p ∖ {[r]} = ∅) then [TDeleteBlob id] else []) (set_redis v' w)) /\
    (if decide (p ∖ {[r]} = ∅) then settled v' else waiting (p ∖ {[r]}) v').
Proof.
  intros Hc [Hne [d Hp] [m Hm] Hin Hout]. destruct (decide (r ∈ p)) as [Hr|Hr].
  - destruct (Hin r Hr) as (z & s & Hz & Hid).
    assert (Hps : set_at pending (w_redis w) = Some p) by (unfold set_at; by rewrite Hp).
    exists (acked r id (w_now w) z p (w_redis w)).
    rewrite (run_ack r id w z s p), bool_decide_true by done.
    unfold last_ack, acked. fold pending. rewrite Hp. split.
    { do 2 f_equal. case_decide; by rewrite ?bool_decide_true, ?bool_decide_false by done. }
    set (v1 := taken r id (w_now w) z (w_redis w)).
    assert (H1 : zset_at (_inbox_key r) v1 = Some (delete id z)) by (unfold v1, taken; by at_simpl).
    assert (H2 : forall r', r' <> r -> zset_at (_inbox_key r') v1 = zset_at (_inbox_key r') (w_redis w)).
    { intros r' Hr'. apply not_eq_sym, inbox_key_ne in Hr'. unfold v1, taken. by at_simpl. }
    case_decide as He.
    + destruct (out_after r (w_redis w)
        (del (_envelope_meta_key id) (del pending (put_set pending ∅ v1))) z) as (Ho & _ & Hoo).
      * unfold pending in *. by at_simpl.
      * intros r' Hr'. unfold pending in *. at_simpl. auto.
      * split; unfold pending, meta_key in *; at_simpl; try done.
        intros r'. destruct (decide (r' = r)) as [->|]; [done|].
        apply Hoo; [done|]. apply Hout. set_solver.
    + destruct (out_after r (w_redis w) (put_set pending (p ∖ {[r]}) v1) z) as (Ho & Hi & Hoo).
      * unfold pending in *. by at_simpl.
      * intros r' Hr'. unfold pending in *. at_simpl. auto.
      * split; [done| | | |].
        -- eexists. rewrite keys_put_set, decide_True, decide_False by done. done.
        -- exists m. unfold v1, taken, pending, meta_key in *. at_simpl. done.
        -- intros r' Hr'. apply Hi; set_solver.
        -- intros r' Hr'. destruct (decide (r' = r)) as [->|]; [done|]. apply Hoo; set_solver.
  - destruct (Hout r Hr) as (z & Hz & Hid).
    assert (Hsame : p ∖ {[r]} = p) by set_solver. rewrite Hsame, bool_decide_false by done.
    rewrite !decide_False by done. rewrite app_nil_r.
    exists (put_zset (_inbox_key r) (delete id z) (w_redis w)).
    split; [rewrite (run_ack_absent r id w z) by done; by destruct w|].
    destruct (out_after r (w_redis w) (put_zset (_inbox_key r) (delete id z) (w_redis w)) z) as (Ho & Hi & Hoo).
    + by at_simpl.
    + intros r' Hne'. apply not_eq_sym, inbox_key_ne in Hne'. by at_simpl.
    + unfold pending, meta_key in *. rewrite decide_False by done. split; at_simpl; try done; [by eexists|by eexists| |].
      * intros r' Hr'. apply Hi; set_solver.
      * intros r' Hr'. destruct (decide (r' = r)) as [->|]; [done|]. apply Hoo; set_solver.
Qed.

Lemma run_acks_settled rs (w : vworld) :
  calm w -> settled (w_redis w) ->
  exists v', run_doc (acknowledge_all rs) w = (Ok tt, set_redis v' w) /\ settled v'.
Proof.
  revert w. induction rs as [|r rs IH]; intros w Hc Hs.
  - exists (w_redis w). split; [by destruct w|done].
  - destruct (settled_ack r w Hc Hs) as (v1 & H1 & Hs1).
    cbn [acknowledge_all]. rewrite run_doc_bind, H1.
    destruct (IH (set_redis v1 w)) as (v2 & H2 & Hs2); [done|done|].
    exists v2. by rewrite H2.
Qed.

Lemma run_acks_waiting rs p (w : vworld) :
  calm w -> waiting p (w_redis w) ->
  let left := p ∖ list_to_set rs in
  exists v',
    run_doc (acknowledge_all rs) w =
      (Ok tt, set_tasks (w_tasks w ++ if decide (left = ∅) then [TDeleteBlob id] else []) (set_redis v' w)) /\
    (if decide (left = ∅) then settled v' else waiting left v').
Proof.
  cbn zeta. revert p w. induction rs as [|r rs IH]; intros p w Hc Hw; cbn [acknowledge_all list_to_set foldr].
  - exists (w_redis w). rewrite (difference_empty_L p), !decide_False by apply Hw.
    rewrite app_nil_r. split; [by destruct w|done].
  - destruct (waiting_ack r p w Hc Hw) as (v1 & H1 & Hs1). rewrite run_doc_bind, H1.
    rewrite <- (difference_difference_l_L p {[r]} (list_to_set rs)).
    case_decide as He.
    + destruct (run_acks_settled rs
        (set_tasks (w_tasks w ++ [TDeleteBlob id]) (set_redis v1 w))) as (v2 & H2 & Hs2); [done|done|].
      exists v2. rewrite H2, He, !decide_True by set_solver. done.
    + destruct (IH (p ∖ {[r]}) (set_tasks (w_tasks w ++ []) (set_redis v1 w))) as (v2 & H2 & Hs2);
        [done|done|].
      exists v2. rewrite H2. cbn. by rewrite app_nil_r.
Qed.
End Lifecycle.

(** ** Fan-out *)

Section Fanout.
  Context (id : string) (now exp : Z) (zs : string -> gmap string Z).

(** The inbox of the recipient has room. *)
Definition has_room (r : string) : bool :=
  bool_decide (Z.of_nat (size (live now (zs r))) < MAX_INBOX_QUEUE_DEPTH)%Z.

(** The inbox of the recipient after the fan-out's script. *)
Definition fanned (r : string) : gmap string Z :=
  if has_room r then <[id := exp]> (live now (zs r)) else live now (zs r).

Definition enqueue_script (r : string) : rtx reply :=
  pipe_script (_INBOX_ENQUEUE_LUA (_inbox_key r) now id exp MAX_INBOX_QUEUE_DEPTH).

Lemma enqueue_script_run t r v :
  zset_at (_inbox_key r) v = Some (zs r) ->
  exists v', rrun_doc t (enqueue_script r) v = (Some (RInt (if has_room r then 1 else 0)), v') /\
    zset_at (_inbox_key r) v' = Some (fanned r) /\ rv_pub v' = rv_pub v /\
    forall k, k <> _inbox_key r -> rv_keys v' !! k = rv_keys v !! k.
Proof.
  intros Hz. unfold enqueue_script, fanned, has_room.
  rewrite rrun_pipe_script, (lua_enqueue _ _ _ _ _ _ _ (zs r)) by done. cbn zeta.
  destruct (_ <=? _)%Z eqn:E; zify_bool; cbn [fst snd].
  - rewrite bool_decide_false by lia. eexists. split; [done|]. split_and!; [by at_simpl|by at_simpl|].
    intros k Hk. apply not_eq_sym in Hk. by at_simpl.
  - rewrite bool_decide_true by lia. eexists. split; [done|]. split_and!; [by at_simpl|by at_simpl|].
    intros k Hk. apply not_eq_sym in Hk. by at_simpl.
Qed.

(** What a fan-out leaves alone: keys that are none of the inboxes of [rs]. *)
Definition spares_inboxes (rs : list string) (v v' : rview) : Prop :=
  forall k, (forall r, r ∈ rs -> k <> _inbox_key r) -> rv_keys v' !! k = rv_keys v !! k.

Lemma scripts_run t rs v :
  NoDup rs -> (forall r, r ∈ rs -> zset_at (_inbox_key r) v = Some (zs r)) ->
  exists res v', pipe_ok t (map enqueue_script rs) v res v' /\
    accepted rs res = filter (fun r => has_room r = true) rs /\
    (forall r, r ∈ rs -> zset_at (_inbox_key r) v' = Some (fanned r)) /\
    rv_pub v' = rv_pub v /\ spares_inboxes rs v v'.
Proof.
  intros Hnd. revert v. induction Hnd as [|r rs Hr Hnd IH]; intros v Hz.
  - exists [], v. split_and!; try done. by intros r Hr%elem_of_nil.
  - destruct (enqueue_script_run t r v) as (v1 & H1 & Hz1 & Hp1 & Hk1); [apply Hz; by left|].
    destruct (IH v1) as (res & v2 & Hok & Hacc & Hz2 & Hp2 & Hk2).
    { intros r' Hr'. rewrite (zset_at_ext _ v1 v).
      - apply Hz. by right.
      - apply Hk1. apply inbox_key_ne. set_solver. }
    eexists (_ :: res), v2. split_and!.
    + cbn [map]. split; [|exists v1; split; [exact H1|exact Hok]]. done.
    + cbn [accepted]. rewrite Hacc, filter_cons. cbn [reply_truthy].
      destruct (has_room r); by case_decide.
    + intros r' [->|Hr']%elem_of_cons; [|by apply Hz2].
      rewrite (zset_at_ext _ v2 v1); [done|]. apply Hk2. intros r' Hr'. apply inbox_key_ne. set_solver.
    + congruence.
    + intros k Hk. rewrite Hk2, Hk1; [done| |]; intros; apply Hk; [by left|by right].
Qed.

(** The inbox keys get their TTL and the sockets are told. *)
Definition announce_cmds (rs : list string) : list command :=
  flat_map (fun r => [ EXPIRE (_inbox_key r) (inbox_key_ttl (exp - now));
                       PUBLISH (_inbox_channel r) (_new_event id) ]) rs.

Lemma announce_run rs v :
  (forall r, r ∈ rs -> exists z, zset_at (_inbox_key r) v = Some z /\ z <> ∅) ->
  exists res v', multi_ok now (announce_cmds rs) v res v' /\
    (forall r, zset_at (_inbox_key r) v' = zset_at (_inbox_key r) v) /\
    rv_pub v' = rv_pub v ++ map (fun r => (_inbox_channel r, _new_event id)) rs /\
    spares_inboxes rs v v'.
Proof.
  revert v. induction rs as [|r rs IH]; intros v Hz.
  - exists [], v. rewrite app_nil_r. split_and!; try done.
  - destruct (Hz r) as (z & Hzr & Hne); [by left|].
    destruct (zset_at_present _ _ _ Hzr Hne) as [d Hd].
    set (v1 := publish (_inbox_channel r) (_new_event id)
      (put (_inbox_key r) (Entry (VZSet z) (Some (now + inbox_key_ttl (exp - now))%Z)) v)).
    assert (Hs : forall r', zset_at (_inbox_key r') v1 = zset_at (_inbox_key r') v).
    { intros r'. unfold v1. destruct (decide (r = r')) as [<-|Hn]; [by at_simpl|].
      apply inbox_key_ne in Hn. by at_simpl. }
    destruct (IH v1) as (res & v2 & Hok & Hz2 & Hp2 & Hk2).
    { intros r' Hr'. rewrite Hs. apply Hz. by right. }
    eexists (_ :: _ :: res), v2. split_and!.
    + unfold announce_cmds. cbn [flat_map app].
      eapply multi_cons; [eapply doc_expire; [exact Hd|apply inbox_ttl_pos]|done|].
      eapply multi_cons; [done|done|exact Hok].
    + intros r'. by rewrite Hz2, Hs.
    + rewrite Hp2. unfold v1. cbn. by rewrite <- app_assoc.
    + intros k Hk. rewrite Hk2 by (intros; apply Hk; by right). unfold v1.
      assert (_inbox_key r <> k) by (apply not_eq_sym, Hk; by left). by at_simpl.
Qed.
End Fanout.

Section FanoutRun.
  Context (a : fanout_args) (zs : string -> gmap string Z).

Let id := fa_envelope_id a.
Let rs := fa_recipients a.
Let expires (w : vworld) : Z := expiry (fa_timestamp a) (fa_ttl a) (w_now w) (fa_hard_ceiling a).

(** The recipients that get the envelope. *)
Definition eligible (now : Z) : list string := filter (fun r => has_room now zs r = true) rs.

(** The server after a fan-out at [now] of an envelope that expires at [exp]. *)
Record fanned_out (now exp : Z) (p : gset string) (v v' : rview) : Prop := {
  fanned_meta : rv_keys v' !! _envelope_meta_key id =
    Some (Entry (VStr (dumps (JObj (fanout_meta a exp)))) (Some exp));
  fanned_inbox r : r ∈ rs -> zset_at (_inbox_key r) v' = Some (fanned id now exp zs r);
  fanned_pending : rv_keys v' !! _pending_recipients_key id =
    if decide (eligible now = []) then rv_keys v !! _pending_recipients_key id
    else Some (Entry (VSet (p ∪ list_to_set (eligible now))) (Some exp));
  fanned_index : exists idx, zset_at _BLOB_EXPIRY_INDEX_KEY v = Some idx /\
    zset_at _BLOB_EXPIRY_INDEX_KEY v' = Some (<[id := exp]> idx);
  fanned_pub : rv_pub v' = rv_pub v ++ map (fun r => (_inbox_channel r, _new_event id)) (eligible now);
  fanned_frame k :
    k ∉ [_envelope_meta_key id; _pending_recipients_key id; _BLOB_EXPIRY_INDEX_KEY] ->
    (forall r, r ∈ rs -> k <> _inbox_key r) -> rv_keys v' !! k = rv_keys v !! k
}.

(** The pending recipients, if any, and the expiry index are recorded. *)
Lemma record_run now exp el p idx v :
  (now < exp)%Z ->
  zset_at _BLOB_EXPIRY_INDEX_KEY v = Some idx ->
  set_at (_pending_recipients_key id) v = Some p ->
  exists res v', multi_ok now
      (match el with [] => [] | _ => [ SADD (_pending_recipients_key id) el;
           EXPIRE (_pending_recipients_key id) (exp - now) ] end ++
       [ ZADD _BLOB_EXPIRY_INDEX_KEY exp id ]) v res v' /\
    rv_pub v' = rv_pub v /\
    zset_at _BLOB_EXPIRY_INDEX_KEY v' = Some (<[id := exp]> idx) /\
    (rv_keys v' !! _pending_recipients_key id =
      if decide (el = []) then rv_keys v !! _pending_recipients_key id
      else Some (Entry (VSet (p ∪ list_to_set el)) (Some exp))) /\
    forall k, k <> _pending_recipients_key id -> k <> _BLOB_EXPIRY_INDEX_KEY ->
      rv_keys v' !! k = rv_keys v !! k.
Proof.
  intros Hexp Hidx Hp. destruct el as [|r0 el]; eexists _, _; (split; [|split_and!]).
  - cbn [app]. eapply multi_cons; [by eapply doc_zadd|done|apply multi_nil].
  - by at_simpl.
  - by at_simpl.
  - rewrite decide_True by done. by at_simpl.
  - intros k H1 H2. apply not_eq_sym in H1, H2. by at_simpl.
  - cbn [app]. eapply multi_cons; [by eapply doc_sadd|done|].
    eapply multi_cons; [eapply doc_expire; [apply keys_put_eq|lia]|done|].
    eapply multi_cons; [eapply doc_zadd; at_simpl; exact Hidx|done|apply multi_nil].
  - by at_simpl.
  - by at_simpl.
  - rewrite decide_False by done. at_simpl. cbn [e_val].
    by replace (now + (exp - now))%Z with exp by lia.
  - intros k H1 H2. apply not_eq_sym in H1, H2. by at_simpl.
Qed.

Lemma run_fanout (w : vworld) p idx :
  calm w ->
  (w_now w < expires w)%Z ->
  NoDup rs ->
  (forall r, r ∈ rs -> zset_at (_inbox_key r) (w_redis w) = Some (zs r)) ->
  set_at (_pending_recipients_key id) (w_redis w) = Some p ->
  zset_at _BLOB_EXPIRY_INDEX_KEY (w_redis w) = Some idx ->
  exists v', run_doc (enqueue_envelope_for_recipients a) w =
      (Ok (expires w, Z.of_nat (length (eligible (w_now w)))), set_redis v' w) /\
    fanned_out (w_now w) (expires w) p (w_redis w) v'.
Proof.
  intros Hc Hexp Hnd Hz Hp Hidx.
  unfold enqueue_envelope_for_recipients. rewrite run_doc_bind, run_doc_now. fold (expires w).
  rewrite (proj2 (Z.leb_gt _ _)) by lia.
  set (now := w_now w) in *. set (exp := expires w) in *. fold id rs.
  set (v1 := put (_envelope_meta_key id)
               (Entry (VStr (dumps (JObj (fanout_meta a exp)))) (Some exp)) (w_redis w)).
  destruct (scripts_run id now exp zs now rs v1) as (res & v2 & Hok & Hacc & Hz2 & Hp2 & Hk2).
  { done. } { intros r Hr. unfold v1. at_simpl. auto. }
  assert (Hpipe : pipe_ok now (pipe_cmd (set_ex (_envelope_meta_key id)
      (dumps (JObj (fanout_meta a exp))) (exp - now)) :: map (enqueue_script id now exp) rs)
      (w_redis w) (ROk :: res) v2).
  { split; [done|]. exists v1. split; [|exact Hok]. unfold pipe_cmd. cbn [rrun_doc].
    rewrite doc_set_ex by lia. cbn [rret rrun_doc].
    by replace (now + (exp - now))%Z with exp by lia. }
  rewrite run_doc_bind, run_doc_try, run_doc_bind.
  unfold enqueue_script in Hpipe. rewrite (run_pipeline _ _ _ w Hc Hpipe).
  rewrite run_doc_ret. cbn [tail]. rewrite Hacc. fold (eligible now).
  rewrite run_doc_bind, run_doc_ret.
  assert (Hin : forall r, r ∈ eligible now -> r ∈ rs /\ has_room now zs r = true)
    by (intros r; unfold eligible; rewrite list_elem_of_filter; tauto).
  destruct (announce_run id now exp (eligible now) v2) as (res2 & v3 & Hok3 & Hz3 & Hp3 & Hk3).
  { intros r Hr. destruct (Hin r Hr) as [Hrs Hroom]. exists (fanned id now exp zs r).
    split; [by apply Hz2|]. unfold fanned. rewrite Hroom. apply insert_non_empty. }
  assert (Hk : forall k, (forall r, r ∈ rs -> k <> _inbox_key r) -> rv_keys v3 !! k = rv_keys v1 !! k).
  { intros k Hk. rewrite Hk3, Hk2; [done|done|]. intros r Hr. apply Hk. by apply Hin. }
  assert (Hpend : rv_keys v3 !! _pending_recipients_key id = rv_keys (w_redis w) !! _pending_recipients_key id).
  { rewrite Hk by (intros r _; string_ne). unfold v1. by at_simpl. }
  assert (Hidx3 : zset_at _BLOB_EXPIRY_INDEX_KEY v3 = Some idx).
  { rewrite (zset_at_ext _ v3 v1) by (apply Hk; intros r _; string_ne). unfold v1. by at_simpl. }
  assert (Hp3' : set_at (_pending_recipients_key id) v3 = Some p) by by rewrite (set_at_ext _ v3 (w_redis w)).
  destruct (record_run now exp (eligible now) p idx v3 Hexp Hidx3 Hp3') as (res4 & v4 & Hok4 & Hp4 & Hz4 & Hpend4 & Hk4).
  exists v4. split.
  { erewrite run_doc_bind, run_multi; [|done|by eapply multi_app]. done. }
  split; rewrite ?Hpend4, ?Hp4, ?Hp3, ?Hp2, ?Hpend; try done; eauto.
  - rewrite Hk4, Hk by (first [intros r _|idtac]; string_ne). unfold v1. by at_simpl.
  - intros r Hr. rewrite (zset_at_ext _ v4 v3) by (apply Hk4; string_ne). rewrite Hz3. by apply Hz2.
  - intros k Hne Hnr. rewrite !not_elem_of_cons in Hne. destruct Hne as (H1 & H2 & H3 & _).
    rewrite Hk4, Hk by done. unfold v1. apply not_eq_sym in H1. by at_simpl.
Qed.
End FanoutRun.

(** ** From posting to the last acknowledgement *)

Lemma live_absent now z id : z !! id = None -> live now z !! id = None.
Proof. intros Hz. apply map_lookup_filter_None. by left. Qed.

(** After a fan-out of a new envelope it waits for the recipients that got it. *)
Lemma fanned_waiting a zs now exp v v' :
  fanned_out a zs now exp ∅ v v' ->
  (forall r, zset_at (_inbox_key r) v = Some (zs r) /\ zs r !! fa_envelope_id a = None) ->
  eligible a zs now <> [] ->
  waiting (fa_envelope_id a) (list_to_set (eligible a zs now)) v'.
Proof.
  intros [Hm Hi Hp _ _ Hf] Hz Hne. rewrite decide_False, (left_id_L ∅ (∪)) in Hp by done.
  split; eauto.
  - destruct (eligible a zs now); [done|]. set_solver.
  - intros r Hr%elem_of_list_to_set. apply list_elem_of_filter in Hr as [Hroom Hr].
    eexists _, exp. split; [by apply Hi|]. unfold fanned. rewrite Hroom. apply lookup_insert_eq.
  - intros r Hr. rewrite elem_of_list_to_set in Hr. destruct (Hz r) as [Hzr Hid].
    destruct (decide (r ∈ fa_recipients a)) as [Hin|Hin].
    + eexists. split; [by apply Hi|]. unfold fanned. destruct (has_room now zs r) eqn:Hroom.
      * exfalso. apply Hr. by apply list_elem_of_filter.
      * by apply live_absent.
    + exists (zs r). split; [|done]. rewrite (zset_at_ext _ v' v); [done|].
      apply Hf.
      * rewrite !not_elem_of_cons. split_and!; try string_ne. apply not_elem_of_nil.
      * intros r' Hr' Heq%inbox_key_inj. by subst.
Qed.

(** So does an envelope posted to one inbox. *)
Lemma posted_waiting `{Sha256} a now exp meta z idx v v' :
  posted a now exp meta z ∅ idx v v' ->
  (forall r, r <> ea_recipient a -> not_in_inbox (ea_envelope_id a) r v) ->
  waiting (ea_envelope_id a) {[ea_recipient a]} v'.
Proof.
  intros [Hm Hi Hp _ _ _ Hf] Hout. rewrite (left_id_L ∅ (∪)) in Hp. split; eauto.
  - intros r ->%elem_of_singleton. eexists _, exp. unfold zset_at. rewrite Hi.
    split; [done|]. apply lookup_insert_eq.
  - intros r Hr%not_elem_of_singleton. destruct (Hout r Hr) as (zr & Hzr & Hid).
    exists zr. split; [|done]. rewrite (zset_at_ext _ v' v); [done|]. apply Hf.
    rewrite !not_elem_of_cons. split_and!; try string_ne; [by apply inbox_key_ne|apply not_elem_of_nil].
Qed.

(** ** The cap on every inbox *)

(** Every inbox is a sorted set of at most [MAX_INBOX_QUEUE_DEPTH] posts. *)
Definition inboxes_capped (v : rview) : Prop :=
  forall r, exists z, zset_at (_inbox_key r) v = Some z /\
                      (Z.of_nat (size z) <= MAX_INBOX_QUEUE_DEPTH)%Z.

Lemma capped_expire now v : inboxes_capped v -> inboxes_capped (expire now v).
Proof.
  intros Hv r. destruct (Hv r) as (z & Hz & Hsz). unfold zset_at in *. rewrite keys_expire.
  destruct (rv_keys v !! _inbox_key r) as [e|]; [|eauto].
  case_decide; [eauto|]. exists ∅. split; [done|]. by rewrite map_size_empty.
Qed.

(** A command that adds to no inbox. *)
Definition no_post (c : command) : Prop :=
  match adds_to c with
  | Some k => forall r, k <> _inbox_key r
  | None => True
  end.

Lemma capped_no_post c : no_post c -> ckeeps inboxes_capped c.
Proof.
  intros Hc now v Hv r. destruct (Hv r) as (z & Hz & Hsz).
  destruct (documented_shrinks now c (_inbox_key r) v z) as (z' & Hz' & Hsub); [|done|].
  - unfold no_post in Hc. destruct (adds_to c); [|done]. intros [=->]. by eapply Hc.
  - exists z'. split; [done|]. apply map_subseteq_size in Hsub. lia.
Qed.

Lemma capped_enqueue_lua r now id exp :
  rkeeps inboxes_capped (_INBOX_ENQUEUE_LUA (_inbox_key r) now id exp MAX_INBOX_QUEUE_DEPTH).
Proof.
  intros t v Hv r'. destruct (Hv r) as (z & Hz & Hsz). rewrite (lua_enqueue _ _ _ _ _ _ _ z) by done.
  cbn zeta. assert (Hlive : (size (live now z) <= size z)%nat)
    by apply map_subseteq_size, map_filter_subseteq.
  destruct (decide (r = r')) as [<-|Hne].
  - case_match; cbn [snd]; at_simpl; eexists; (split; [done|]); [lia|]. zify_bool.
    rewrite map_size_insert. unfold Datatypes.id. case_match; lia.
  - destruct (Hv r') as (z' & Hz' & Hsz'). exists z'. split; [|done].
    assert (_inbox_key r <> _inbox_key r') by (intros ?%inbox_key_inj; done).
    case_match; cbn [snd]; at_simpl; done.
Qed.

(** What [keeps_reachable] asks of an operation: every exchange keeps every inbox capped. *)
Abbreviation fits := (exchanges_keep inboxes_capped).

Lemma no_post_key c k : adds_to c = Some k -> (forall r, k <> _inbox_key r) -> no_post c.
Proof. unfold no_post. by intros ->. Qed.

Lemma no_post_reads c : adds_to c = None -> no_post c.
Proof. unfold no_post. by intros ->. Qed.

#[local] Instance capped_harmless : Harmless inboxes_capped no_post := capped_no_post.

(** Closes [fits p] for programs made of commands that post nowhere. *)
Ltac no_post :=
  solve [ apply no_post_reads; reflexivity
        | eapply no_post_key; [reflexivity|]; intros ?; string_ne ].
Ltac fits := unfold get_cmd; exchanges ltac:(no_post).

Section Fits.
  Context `{Sha256}.

Lemma fits_ack_lua recipient id :
  rkeeps inboxes_capped
    (_ACK_PENDING_LUA (_pending_recipients_key id) (_envelope_meta_key id) recipient).
Proof.
  unfold _ACK_PENDING_LUA, lua_call.
  repeat first
    [ apply rkeeps_rbind; [apply rkeeps_rcall, capped_no_post; no_post|intros ?]
    | case_match | apply rkeeps_ret ].
Qed.

Lemma fits_enqueue a : fits (enqueue_envelope a).
Proof.
  unfold enqueue_envelope, drop_meta, set_ex, set_nx_ex. fits.
  apply exchanges_redis, capped_enqueue_lua.
Qed.

Lemma fits_ack recipient id : fits (acknowledge_envelope recipient id).
Proof.
  unfold acknowledge_envelope, set_ex. fits. apply exchanges_redis, fits_ack_lua.
Qed.

Lemma fits_write_blob id blob : fits (write_blob id blob).
Proof. unfold write_blob, of_res. fits. Qed.
Lemma fits_secure_delete id : fits (secure_delete_blob id).
Proof. unfold secure_delete_blob, of_res. fits. Qed.

Lemma fits_write_then_enqueue a blob : fits (write_blob_then_enqueue a blob).
Proof.
  unfold write_blob_then_enqueue. fits.
  - apply fits_write_blob.
  - apply fits_enqueue.
  - apply fits_secure_delete.
Qed.
End Fits.

(** The queue does not touch the database. *)
Lemma no_sql_enqueue `{Sha256} a : no_sql (enqueue_envelope a).
Proof. unfold enqueue_envelope, drop_meta. cbv zeta. no_sql. Qed.
Lemma no_sql_write_enqueue `{Sha256} a b : no_sql (write_blob_then_enqueue a b).
Proof.
  unfold write_blob_then_enqueue, write_blob, secure_delete_blob. no_sql; apply no_sql_enqueue.
Qed.

(** A calm post of a message with its file. *)
Lemma run_write_enqueue `{Sha256} a blob path (w : vworld) meta z p idx :
  let exp := expiry (ea_timestamp a) (ea_ttl a) (w_now w) (ea_hard_ceiling a) in
  calm w -> _blob_path (ea_envelope_id a) = Ok path -> (w_now w < exp)%Z -> build_meta a exp = Ok meta ->
  rv_keys (w_redis w) !! _envelope_meta_key (ea_envelope_id a) = None ->
  zset_at (_inbox_key (ea_recipient a)) (w_redis w) = Some z ->
  (Z.of_nat (size (live (w_now w) z)) < MAX_INBOX_QUEUE_DEPTH)%Z ->
  set_at (_pending_recipients_key (ea_envelope_id a)) (w_redis w) = Some p ->
  zset_at _BLOB_EXPIRY_INDEX_KEY (w_redis w) = Some idx ->
  exists v', run_doc (write_blob_then_enqueue a blob) w = (Ok (Some exp), set_redis v' (put_blob path blob w)) /\
    posted a (w_now w) exp meta z p idx (w_redis w) v'.
Proof.
  intros exp Hc Hpath Hexp Hm Hk Hz Hsz Hp Hidx. unfold write_blob_then_enqueue.
  rewrite run_doc_bind, (run_write_blob _ path), run_doc_try by done. set (w1 := put_blob path blob w).
  destruct (run_enqueue a w1 meta z p idx) as (v' & E & Hpost); try done. exists v'. by rewrite E.
Qed.

(** A group fan-out keeps the cap as long as no failure strikes: then the unconditional insertion of
    its error branch is not reached. *)
Lemma keeps_fanout luck a :
  drops luck -> (forall fs, luck fs -> fs = []) ->
  keeps (redis_inv inboxes_capped luck) (enqueue_envelope_for_recipients a) (fun _ => True).
Proof.
  intros Hd Hcalm.
  unfold enqueue_envelope_for_recipients.
  eapply (keeps_bind_res _ _ _ (fun _ => True)); [by apply exchanges_keeps|]. intros [now|] _; [|done].
  set (exp := expiry _ _ _ _). destruct (exp - now <=? 0)%Z eqn:Hexp; [done|]. zify_bool.
  eapply (keeps_bind_res _ _ _ (fun r => exists l, r = Ok (Some l))).
  - eapply (keeps_try_res _ _ _ (fun r => exists l, r = Ok (Some l))).
    + eapply (keeps_bind_res _ _ _ (fun r => exists rs, r = Ok rs)).
      * apply keeps_pipeline_surely; [done| |].
        -- fits. apply rkeeps_pipe_script, capped_enqueue_lua.
        -- constructor.
           ++ intros t v _. eexists. unfold pipe_cmd. cbn [rrun_doc].
              rewrite doc_set_ex by lia. done.
           ++ apply Forall_map, Forall_true. intros r t v Hv.
              destruct (Hv r) as (z & Hz & _).
              rewrite rrun_pipe_script, (lua_enqueue _ _ _ _ _ _ _ z Hz). cbn zeta.
              by destruct (_ <=? _)%Z; eexists.
      * intros ? [rs ->]. by eexists.
    + intros ? [l ->]. by eexists.
  - intros ? [l ->]. cbn [pbind].
    apply exchanges_keeps; [done|]. fits.
Qed.

(** ** Deletion by the sender *)

(** The metadata stored by a post, read back. *)
Lemma set_if_keys k o d : set_if k o d = d \/ exists s, set_if k o d = dict_set k (JStr s) d.
Proof. unfold set_if. destruct o; [|by left]. case_match; eauto. Qed.

Lemma set_if_get k o d k' : k' <> k -> dict_get k' (set_if k o d) = dict_get k' d.
Proof.
  intros Hne. destruct (set_if_keys k o d) as [->|[s ->]]; [done|].
  rewrite dict_get_set. by destruct (String.eqb_spec k' k).
Qed.

Lemma set_if_wf k o d : json_wf (JObj d) -> json_wf (JObj (set_if k o d)).
Proof.
  intros Hd. destruct (set_if_keys k o d) as [->|[s ->]]; [done|].
  apply dict_set_wf; [done|constructor].
Qed.

Lemma add_extra_ok extra d d' :
  add_extra extra d = Ok d' -> json_wf (JObj d) -> Forall (fun kv => json_wf kv.2) extra ->
  json_wf (JObj d') /\ forall k, dict_get k d <> None -> dict_get k d' = dict_get k d.
Proof.
  revert d. induction extra as [|[k v] extra IH]; intros d Hok Hwf Hex; cbn in Hok; [naive_solver|].
  apply Forall_cons in Hex as [Hv Hex]. destruct (dict_mem k d) eqn:Hmem; [done|].
  destruct (IH _ Hok) as [Hwf' Hget]; [by apply dict_set_wf|done|]. split; [done|].
  intros k' Hk'.
  assert (Hne : k' <> k).
  { intros ->. apply Hk'. apply dict_get_None. intros Hin%dict_mem_spec. congruence. }
  assert (dict_get k' (dict_set k v d) = dict_get k' d) as E
    by (rewrite dict_get_set; by destruct (String.eqb_spec k' k)).
  rewrite <- E. apply Hget. by rewrite E.
Qed.

Lemma opt_str_wf o : json_wf (opt_str o).
Proof. destruct o; constructor. Qed.

(** The metadata is an object that reads back, with the sender and the recipient of the post. *)
Lemma build_meta_ok a exp meta :
  build_meta a exp = Ok meta ->
  Forall (fun kv => json_wf kv.2) (default [] (ea_extra_meta a)) ->
  json_wf (JObj meta) /\
  dict_get "from" meta = Some (JStr (ea_sender a)) /\ dict_get "to" meta = Some (JStr (ea_recipient a)).
Proof.
  unfold build_meta. set (base := [_; _; _; _; _; _; _; _]).
  set (m1 := if ea_sealed a then _ else _).
  set (m4 := set_if "mail_from" _ _). intros Hok Hex.
  assert (Hm1 : json_wf (JObj m1) /\ dict_get "from" m1 = Some (JStr (ea_sender a)) /\
                dict_get "to" m1 = Some (JStr (ea_recipient a))).
  { assert (Hb : json_wf (JObj base)).
    { constructor; [apply (bool_decide_unpack _); vm_compute; exact I|].
      repeat (apply Forall_cons_2; [first [apply opt_str_wf|constructor]|]).
      apply Forall_nil_2. }
    unfold m1. destruct (ea_sealed a); [|done].
    rewrite !set_if_get, !dict_get_set by done. split; [|done].
    apply set_if_wf, dict_set_wf; [done|constructor]. }
  assert (Hm4 : json_wf (JObj m4) /\ dict_get "from" m4 = Some (JStr (ea_sender a)) /\
                dict_get "to" m4 = Some (JStr (ea_recipient a))).
  { unfold m4. rewrite !set_if_get by done. split; [|apply Hm1]. apply set_if_wf, set_if_wf, set_if_wf, Hm1. }
  destruct Hm4 as (Hwf & Hf & Ht). destruct (ea_extra_meta a) as [extra|]; [|by simplify_eq].
  destruct (add_extra_ok _ _ _ Hok Hwf Hex) as [Hwf' Hget].
  rewrite !Hget by congruence. done.
Qed.

(** What one of the two authorizations of the source accepts. *)
Definition authorised `{Sha256} (v : rview) (id caller recipient : string) : Prop :=
  (exists raw, str_at (_envelope_meta_key id) v = Some (Some raw) /\
     let d := match loads raw with Some j => fields j | None => [] end in
     get_truthy "group_id" d = false /\
     dict_get "from" d = Some (JStr caller) /\ dict_get "to" d = Some (JStr recipient)) \/
  (str_at (_envelope_meta_key id) v = Some None /\
   str_at (_sender_tombstone_key id) v = Some (Some (_sender_tombstone_value caller recipient))).

Lemma get_is_str_spec k s d : get_is_str k s d = true <-> dict_get k d = Some (JStr s).
Proof.
  unfold get_is_str. destruct (dict_get k d) as [[]|]; try (split; done || congruence).
  rewrite String.eqb_eq. split; congruence.
Qed.

Section SenderDelete.
  Context `{Sha256} (id caller recipient : string) (v : rview) (meta_raw tomb_raw : option string).
  Context (Hmeta : str_at (_envelope_meta_key id) v = Some meta_raw).
  Context (Htomb : str_at (_sender_tombstone_key id) v = Some tomb_raw).

(** The tombstone is read only when there is no metadata. *)
Let tomb := match meta_raw with Some _ => None | None => tomb_raw end.

Lemma may_delete_authorised :
  sender_may_delete meta_raw tomb caller recipient = None <-> authorised v id caller recipient.
Proof.
  unfold authorised, sender_may_delete, tomb. rewrite Hmeta, Htomb. destruct meta_raw as [raw|].
  - set (d := match loads raw with Some j => fields j | None => [] end).
    split.
    + intros Hok. left. exists raw. split; [done|]. cbn zeta. fold d. rewrite <- !get_is_str_spec.
      destruct (get_truthy "group_id" d), (get_is_str "from" caller d), (get_is_str "to" recipient d); done.
    + intros [(raw' & [= <-] & Hg & Hf & Ht)|[? _]]; [|done]. fold d in Hg, Hf, Ht.
      apply get_is_str_spec in Hf, Ht. by rewrite Hg, Hf, Ht.
  - split.
    + intros Hok. right. split; [done|]. destruct tomb_raw as [t|]; [|done].
      destruct (String.eqb_spec t (_sender_tombstone_value caller recipient)) as [->|]; done.
    + intros [(raw' & ? & _)|[_ Ht]]; [done|]. injection Ht as ->. by rewrite String.eqb_refl.
Qed.

Lemma run_delete_by_sender (w : vworld) z :
  w_redis w = v -> calm w -> zset_at (_inbox_key recipient) v = Some z ->
  match sender_may_delete meta_raw tomb caller recipient with
  | Some refusal => run_doc (delete_envelope_by_sender id caller recipient) w = (Ok refusal, w)
  | None =>
      run_doc (delete_envelope_by_sender id caller recipient) w =
      (Ok (DeleteResult true (match z !! id with Some _ => true | None => false end)
             (match meta_raw with Some _ => true | None => false end) None),
       set_redis (publish (_inbox_channel recipient) (_deleted_event id caller None)
         (del (_sender_tombstone_key id) (del (_envelope_meta_key id)
           (put_zset (_inbox_key recipient) (delete id z) v)))) w)
  end.
Proof.
  intros <- Hc Hz. unfold delete_envelope_by_sender.
  assert (Hget : forall k o, str_at k (w_redis w) = Some o ->
            run_doc (redis_ (rcall (GET k) as_bulk)) w = (Ok o, w)).
  { intros k o Ho. rewrite run_doc_redis, rrun_rcall by done. cbn [documented]. rewrite Ho.
    destruct o; by destruct w. }
  rewrite run_doc_bind, (Hget _ _ Hmeta), run_doc_bind.
  assert (Htomb' : run_doc (match meta_raw with
     | Some _ => ret None
     | None => redis_ (rcall (GET (_sender_tombstone_key id)) as_bulk) end) w = (Ok tomb, w)).
  { unfold tomb. destruct meta_raw; [done|]. by apply Hget. }
  rewrite Htomb'. destruct (sender_may_delete meta_raw tomb caller recipient); [done|].
  edestruct (documented_del1 (w_now w)) as [n1 H1]. edestruct (documented_del1 (w_now w)) as [n2 H2].
  rewrite run_doc_bind. erewrite run_multi; [|done|].
  2: { eapply multi_cons; [by apply doc_zrem|done|].
       eapply multi_cons; [exact H1|done|]. eapply multi_cons; [exact H2|done|].
       eapply multi_cons; [done|done|apply multi_nil]. }
  rewrite run_doc_ret. unfold first_truthy. by destruct (z !! id).
Qed.
End SenderDelete.

(** ** The read flag of mail *)

(** Pipelines of reads and of writes. *)
Lemma pipe_cmd_run now c v : rrun_doc now (pipe_cmd c) v = (Some (fst (documented now c v)), snd (documented now c v)).
Proof. unfold pipe_cmd. cbn. by destruct (documented now c v). Qed.

Lemma pipe_ok_app now cs1 cs2 v rs1 v1 rs2 v2 :
  pipe_ok now cs1 v rs1 v1 -> pipe_ok now cs2 v1 rs2 v2 -> pipe_ok now (cs1 ++ cs2) v (rs1 ++ rs2) v2.
Proof.
  revert v rs1. induction cs1 as [|c cs1 IH]; intros v [|r rs1] H1 H2; try done.
  - cbn in *. by subst.
  - destruct H1 as (Hr & v' & Hc & H1). split; [done|]. exists v'. split; [done|]. by apply IH.
Qed.

Section MailSeen.
  Context (recipient : string) (v : rview) (z : gmap string Z) (now : Z).
  Context (Hz : zset_at (_inbox_key recipient) v = Some z).

(** What the source looks at for one envelope. *)
Definition seen_read (id : string) : list (rtx reply) :=
  [ pipe_cmd (ZSCORE (_inbox_key recipient) id); get_cmd (_envelope_meta_key id) ].

(** The envelope is queued mail of the recipient, not marked yet; [d] is its metadata. *)
Definition unseen_mail (id : string) (d : dict) : Prop :=
  is_Some (z !! id) /\
  (exists raw, str_at (_envelope_meta_key id) v = Some (Some raw) /\ d = match loads raw with Some j => fields j | None => [] end) /\
  dict_get "channel" d = Some (JStr "mail") /\ dict_get "to" d = Some (JStr recipient) /\
  dict_get "mail_seen" d <> Some (JBool true).

Definition marked (d : dict) : string := dumps (JObj (dict_set "mail_seen" (JBool true) d)).

Lemma unseen_mail_inj id d d' : unseen_mail id d -> unseen_mail id d' -> d = d'.
Proof.
  intros (_ & (r & Hr & ->) & _) (_ & (r' & Hr' & ->) & _).
  rewrite Hr in Hr'. by simplify_eq.
Qed.

(** The decision for one envelope, on the replies for it. *)
Definition score_reply (id : string) : reply := match z !! id with Some s => RBulk (print_Z s) | None => RNil end.
Definition raw_reply (raw : option string) : reply := match raw with Some s => RBulk s | None => RNil end.

Lemma seen_decision_spec id raw val :
  str_at (_envelope_meta_key id) v = Some raw ->
  seen_decision recipient (score_reply id) (raw_reply raw) = MarkSeen val <->
  exists d, unseen_mail id d /\ val = marked d.
Proof.
  intros Hraw. unfold unseen_mail. rewrite Hraw. unfold seen_decision, score_reply. split.
  - destruct (z !! id) as [s|]; [|done]. destruct raw as [raw|]; [|done]. cbn [bulk_of raw_reply load_meta].
    destruct (loads raw) as [j|] eqn:Ej; [|done].
    destruct (negb _ || negb _) eqn:Eg; [done|].
    apply orb_false_elim in Eg as [Hch%negb_false_iff Hto%negb_false_iff].
    apply get_is_str_spec in Hch, Hto. intros Hd. exists (fields j).
    assert (dict_get "mail_seen" (fields j) <> Some (JBool true)) by (intros E; by rewrite E in Hd).
    split; [split_and!; try done; exists raw; by rewrite Ej|].
    unfold marked. destruct (dict_get "mail_seen" (fields j)) as [[| [] | | | |]|]; congruence.
  - intros (d & ([s Hs] & (raw' & [= ->] & ->) & Hch & Hto & Hns) & ->). rewrite Hs.
    cbn [bulk_of raw_reply load_meta]. destruct (loads raw') as [j|]; [|done].
    apply get_is_str_spec in Hch, Hto. rewrite Hch, Hto. cbn [negb orb].
    unfold marked. destruct (dict_get "mail_seen" (fields j)) as [[| [] | | | |]|]; congruence.
Qed.

Lemma seen_reads_run ids :
  (forall id, id ∈ ids -> str_at (_envelope_meta_key id) v <> None) ->
  exists res, pipe_ok now (flat_map seen_read ids) v res v /\
    forall id val, (id, val) ∈ (seen_scan recipient ids res).2 <->
      id ∈ ids /\ exists d, unseen_mail id d /\ val = marked d.
Proof.
  induction ids as [|id ids IH]; intros Hty.
  - exists []. split; [done|]. cbn. set_solver.
  - destruct IH as (res & Hok & Hin); [intros; apply Hty; by right|].
    destruct (str_at (_envelope_meta_key id) v) as [raw|] eqn:Eraw; [|by destruct (Hty id); [left|]].
    exists (score_reply id :: raw_reply raw :: res). split.
    + cbn [flat_map seen_read app]. unfold score_reply. split; [by destruct (z !! id)|]. exists v. split.
      { rewrite pipe_cmd_run. cbn [documented]. by rewrite Hz. }
      split; [by destruct raw|]. exists v. split; [|done].
      unfold get_cmd. rewrite pipe_cmd_run. cbn [documented]. rewrite Eraw. by destruct raw.
    + intros id' val. cbn [seen_scan].
      pose proof (seen_decision_spec id raw val Eraw) as Hdec.
      destruct (seen_scan recipient ids res) as [n ts]. cbn [snd] in Hin.
      destruct (seen_decision recipient (score_reply id) (raw_reply raw)) as [| |val0] eqn:Ed; cbn [snd].
      * rewrite Hin, elem_of_cons. split; [naive_solver|]. intros [[->|?] Hd]; [by apply Hdec in Hd|naive_solver].
      * rewrite Hin, elem_of_cons. split; [naive_solver|]. intros [[->|?] Hd]; [by apply Hdec in Hd|naive_solver].
      * rewrite !elem_of_cons, Hin. split.
        -- intros [[= -> ->]|[? ?]]; [|naive_solver]. split; [by left|]. by apply Hdec.
        -- intros [[->|?] Hd]; [|naive_solver]. left. apply Hdec in Hd. congruence.
Qed.

(** Writing the flag back. *)
Definition mark_cmd (iv : string * string) : rtx reply :=
  pipe_cmd (SET (_envelope_meta_key iv.1) iv.2 None false true true).

Lemma marks_run ts v0 :
  (forall id val, (id, val) ∈ ts -> exists raw, str_at (_envelope_meta_key id) v0 = Some (Some raw)) ->
  (forall id val val', (id, val) ∈ ts -> (id, val') ∈ ts -> val = val') ->
  exists res v', pipe_ok now (map mark_cmd ts) v0 res v' /\
    length (List.filter reply_truthy res) = length ts /\ rv_pub v' = rv_pub v0 /\
    (forall id val, (id, val) ∈ ts ->
       rv_keys v' !! _envelope_meta_key id = Some (Entry (VStr val) (deadline_of (_envelope_meta_key id) v0))) /\
    (forall k, (forall id val, (id, val) ∈ ts -> k <> _envelope_meta_key id) -> rv_keys v' !! k = rv_keys v0 !! k).
Proof.
  revert v0. induction ts as [|[id val] ts IH]; intros v0 Hex Huniq.
  - exists [], v0. split_and!; try done. by intros ? ? ?%elem_of_nil.
  - set (mk := _envelope_meta_key id).
    set (v1 := put mk (Entry (VStr val) (deadline_of mk v0)) v0).
    destruct (Hex id val) as [raw Hraw]; [by left|].
    assert (Hstr : forall id' val', (id', val') ∈ ts -> exists raw, str_at (_envelope_meta_key id') v1 = Some (Some raw)).
    { intros id' val' Hin. unfold v1. destruct (decide (mk = _envelope_meta_key id')) as [<-|]; at_simpl; [eauto|].
      apply (Hex id' val'). by right. }
    destruct (IH v1 Hstr) as (res & v2 & Hok & Hlen & Hpub & Hset & Hframe); [by intros; eapply Huniq; right|].
    assert (Hd : forall k, deadline_of k v1 = deadline_of k v0).
    { intros k. unfold v1. destruct (decide (mk = k)) as [<-|]; unfold deadline_of; at_simpl; done. }
    exists (ROk :: res), v2. split_and!.
    + split; [done|]. exists v1. split; [|done]. unfold mark_cmd. rewrite pipe_cmd_run. cbn [fst snd documented].
      fold mk. unfold str_at in Hraw. fold mk in Hraw. by destruct (rv_keys v0 !! mk).
    + cbn. by rewrite Hlen.
    + by rewrite Hpub.
    + intros id' val' [[= -> ->]|Hin]%elem_of_cons; [|by rewrite (Hset id' val'), Hd].
      destruct (decide ((id, val) ∈ ts)) as [Hin|Hin]; [by rewrite (Hset id val), Hd|].
      rewrite Hframe; [unfold v1; by at_simpl|].
      intros id' val' Hin' Heq. assert (id' = id) as -> by (unfold _envelope_meta_key in Heq; cbv [append] in Heq; congruence).
      assert (val' = val) as -> by (eapply Huniq; [by right|by left]). done.
    + intros k Hk. rewrite Hframe by (intros; eapply Hk; by right).
      unfold v1. assert (mk <> k) by (apply not_eq_sym, (Hk id val); by left). by at_simpl.
Qed.
End MailSeen.

Lemma mark_cmds ts : map mark_cmd ts = map (fun '(eid, val) =>
  pipe_cmd (SET (_envelope_meta_key eid) val None false true true)) ts.
Proof. apply map_ext. by intros []. Qed.

(** The batch marks the unseen mail of the recipient and touches nothing else. *)
Lemma run_mark_mail_seen recipient ids (w : vworld) z :
  let v := w_redis w in
  let batch := take MAIL_SEEN_BATCH_MAX ids in
  calm w -> zset_at (_inbox_key recipient) v = Some z ->
  (forall id, id ∈ batch -> str_at (_envelope_meta_key id) v <> None) ->
  exists n v', run_doc (mark_mail_seen recipient ids) w = (Ok n, set_redis v' w) /\
    rv_pub v' = rv_pub v /\
    (forall id d, id ∈ batch -> unseen_mail recipient v z id d ->
       rv_keys v' !! _envelope_meta_key id =
       Some (Entry (VStr (marked d)) (deadline_of (_envelope_meta_key id) v))) /\
    (forall k, (forall id d, id ∈ batch -> unseen_mail recipient v z id d -> k <> _envelope_meta_key id) ->
       rv_keys v' !! k = rv_keys v !! k).
Proof.
  intros v batch Hc Hz Hty. unfold mark_mail_seen. fold batch.
  destruct (seen_reads_run recipient v z (w_now w) Hz batch Hty) as (res & Hok & Hscan).
  destruct batch as [|id0 batch'] eqn:Eb.
  { exists 0%Z, v. split_and!; try done; [by destruct w|]. intros ? ? ?%elem_of_nil. done. }
  rewrite <- Eb in *. rewrite run_doc_bind.
  unfold seen_read in Hok. rewrite (run_pipeline _ _ _ w Hc Hok).
  destruct (seen_scan recipient batch res) as [n ts] eqn:Es. cbn [snd] in Hscan.
  destruct (marks_run (w_now w) ts v) as (res' & v' & Hok' & Hlen & Hpub & Hset & Hframe).
  { intros id val Hin%Hscan. destruct Hin as (_ & d & (_ & (raw & Hraw & _) & _) & _). eauto. }
  { intros id val val' (_ & d & Hd & ->)%Hscan (_ & d' & Hd' & ->)%Hscan.
    by rewrite (unseen_mail_inj _ _ _ _ _ _ Hd Hd'). }
  exists (match ts with [] => n | _ => n + Z.of_nat (length ts) end)%Z, v'. split_and!.
  - destruct ts as [|t ts'] eqn:Et.
    { rewrite run_doc_ret. destruct res'; [|done]. cbn in Hok'. rewrite <- Hok'. by destruct w. }
    rewrite <- Et in *. rewrite run_doc_bind, <- mark_cmds.
    rewrite (run_pipeline _ res' v' (set_redis v w)) by done. by rewrite run_doc_ret, Hlen.
  - done.
  - intros id d Hin Hd. apply Hset. apply Hscan. eauto.
  - intros k Hk. apply Hframe. intros id val (Hin & d & Hd & _)%Hscan. eauto.
Qed.

(** ** The programs that touch the queue *)


Section Operations.
  Context `{Sha256}.

(** One constructor per operation of [queue.py] and [blob_storage.py], with any arguments.  A group
    fan-out starts only where [calmly] holds, a post only with arguments that [posts] allows. *)
Inductive queue_op (posts : enqueue_args -> Prop) (calmly : Prop) : prog unit -> Prop :=
| op_enqueue a : posts a -> queue_op posts calmly (detached (enqueue_envelope a))
| op_write_enqueue a b : posts a -> queue_op posts calmly (detached (write_blob_then_enqueue a b))
| op_fanout a : calmly -> queue_op posts calmly (detached (enqueue_envelope_for_recipients a))
| op_list r n : queue_op posts calmly (detached (list_inbox r n))
| op_in_inbox r id : queue_op posts calmly (detached (is_envelope_in_inbox r id))
| op_get_meta id : queue_op posts calmly (detached (get_envelope_meta id))
| op_exists id : queue_op posts calmly (detached (envelope_exists id))
| op_was_delivered id r : queue_op posts calmly (detached (was_delivered_to id r))
| op_mail_seen r ids : queue_op posts calmly (detached (mark_mail_seen r ids))
| op_ack r id : queue_op posts calmly (detached (acknowledge_envelope r id))
| op_delete_blob id : queue_op posts calmly (detached (_delete_blob_after_last_ack id))
| op_delete_by_sender id c r : queue_op posts calmly (detached (delete_envelope_by_sender id c r))
| op_delete_sealed id k : queue_op posts calmly (detached (delete_sealed_envelope id k))
| op_delete_group id g rs c : queue_op posts calmly (detached (delete_envelope_for_group id g rs c))
| op_group_gone rs g c : queue_op posts calmly (detached (publish_group_gone rs g c))
| op_read_receipt s id r g : queue_op posts calmly (detached (publish_read_receipt s id r g)).

Lemma queue_op_keeps posts calmly luck p :
  drops luck -> (calmly -> forall fs, luck fs -> fs = []) -> queue_op posts calmly p ->
  keeps (redis_inv inboxes_capped luck) p (fun _ => True).
Proof.
  intros Hd Hcalm Hop.
  assert (Hfits : forall A (p : prog A), fits p -> keeps (redis_inv inboxes_capped luck) (detached p) (fun _ => True)).
  { intros A q Hq. apply exchanges_keeps; [done|]. by apply exchanges_pbind. }
  destruct Hop;
    match goal with
    | |- keeps _ (detached (enqueue_envelope_for_recipients _)) _ =>
        eapply keeps_pbind; [by apply keeps_fanout; auto|done]
    | _ => apply Hfits
    end; clear Hfits.
  - apply fits_enqueue.
  - apply fits_write_then_enqueue.
  - unfold list_inbox. fits.
  - unfold is_envelope_in_inbox. fits.
  - unfold get_envelope_meta. fits.
  - unfold envelope_exists. fits.
  - unfold was_delivered_to. fits.
  - unfold mark_mail_seen. fits.
  - apply fits_ack.
  - unfold _delete_blob_after_last_ack. fits. apply fits_secure_delete.
  - unfold delete_envelope_by_sender. fits.
  - unfold delete_sealed_envelope. fits.
  - unfold delete_envelope_for_group. fits.
  - unfold publish_group_gone. fits.
  - unfold publish_read_receipt. fits.
Qed.
End Operations.

(** ** Properties *)

Section Properties.
  Context `{R : Redis} `{Sha256}.

(** C1: when the queue accepts an envelope it returns its expiry, the sooner of what the sender
    asked for and the hard ceiling, and exactly the keys of the envelope change: the metadata is
    stored until that expiry, the inbox has one more post and lives at least an hour longer than
    it, the recipient is pending, the reaper's index knows the expiry, the sender's tombstone
    outlives the envelope by a week (not for a sealed envelope), and the sockets of the recipient
    are told. *)
Theorem enqueue_posts (a : enqueue_args) (w : world rstore) meta z p idx :
  let v := w_redis (absw w) in
  let exp := expiry (ea_timestamp a) (ea_ttl a) (w_now w) (ea_hard_ceiling a) in
  calm w ->
  (w_now w < exp)%Z ->
  build_meta a exp = Ok meta ->
  rv_keys v !! _envelope_meta_key (ea_envelope_id a) = None ->
  zset_at (_inbox_key (ea_recipient a)) v = Some z ->
  (Z.of_nat (size (live (w_now w) z)) < MAX_INBOX_QUEUE_DEPTH)%Z ->
  set_at (_pending_recipients_key (ea_envelope_id a)) v = Some p ->
  zset_at _BLOB_EXPIRY_INDEX_KEY v = Some idx ->
  exists v', observe (enqueue_envelope a) w = (Ok (Some exp), set_redis v' (absw w)) /\
    posted a (w_now w) exp meta z p idx v v'.
Proof.
  intros v exp Hc. rewrite observe_doc. exact (run_enqueue a (absw w) meta z p idx Hc).
Qed.

(** Without failures every other outcome leaves no trace: an expired envelope is refused with
    400, one whose metadata key is taken is the duplicate [None] and only then, and a full inbox is
    refused with 429, its metadata gone again and nothing but its expired posts removed. *)
Theorem enqueue_refusals (a : enqueue_args) (w : world rstore) meta z :
  let v := w_redis (absw w) in
  let exp := expiry (ea_timestamp a) (ea_ttl a) (w_now w) (ea_hard_ceiling a) in
  let inbox := _inbox_key (ea_recipient a) in
  let meta_key := _envelope_meta_key (ea_envelope_id a) in
  calm w ->
  build_meta a exp = Ok meta ->
  zset_at inbox v = Some z ->
  ((exp <= w_now w)%Z ->
     observe (enqueue_envelope a) w =
     (Raise (EnqueueRejected 400 "envelope_already_expired"), absw w)) /\
  ((w_now w < exp)%Z -> rv_keys v !! meta_key <> None ->
     observe (enqueue_envelope a) w = (Ok None, absw w)) /\
  ((w_now w < exp)%Z -> rv_keys v !! meta_key = None ->
     (MAX_INBOX_QUEUE_DEPTH <= Z.of_nat (size (live (w_now w) z)))%Z ->
     exists v', observe (enqueue_envelope a) w =
         (Raise (EnqueueRejected 429 "recipient_queue_full"), set_redis v' (absw w)) /\
       zset_at inbox v' = Some (live (w_now w) z) /\ rv_pub v' = rv_pub v /\
       forall k, k <> inbox -> rv_keys v' !! k = rv_keys v !! k).
Proof.
  intros v exp inbox meta_key Hc Hm Hz. rewrite observe_doc. split_and!.
  - apply (run_enqueue_expired a (absw w)).
  - intros He Hk. destruct (calm_pop (absw w) Hc) as [Hn Hp].
    rewrite (run_enqueue_claim a (absw w) meta), Hp by done. fold v meta_key.
    by destruct (rv_keys v !! meta_key).
  - intros He Hk Hfull. destruct (run_enqueue_full a (absw w) meta z) as (v' & E & Hi & Hp & Hf); [done..|].
    exists v'. split_and!; [done| |done..]. erewrite zset_at_ext by exact Hi. by at_simpl.
Qed.

(** A failure of the connection during the posting script, before or after the server ran it,
    refuses the envelope with 503; its metadata is gone again, so a retry is not taken for a
    duplicate, and no socket was told. *)
Theorem enqueue_lua_fault (a : enqueue_args) (w : world rstore) meta z f :
  let v := w_redis (absw w) in
  let exp := expiry (ea_timestamp a) (ea_ttl a) (w_now w) (ea_hard_ceiling a) in
  w_faults w = [Fine; f] -> f <> Fine ->
  (w_now w < exp)%Z ->
  build_meta a exp = Ok meta ->
  rv_keys v !! _envelope_meta_key (ea_envelope_id a) = None ->
  zset_at (_inbox_key (ea_recipient a)) v = Some z ->
  exists v', observe (enqueue_envelope a) w =
      (Raise (EnqueueRejected 503 "queue_backend_unavailable"),
       set_faults [] (set_redis v' (absw w))) /\
    rv_keys v' !! _envelope_meta_key (ea_envelope_id a) = None /\ rv_pub v' = rv_pub v.
Proof.
  intros v exp Hf Hne He Hm Hk Hz. rewrite observe_doc.
  by apply (run_enqueue_lua_fault a (absw w) meta f z).
Qed.

(** C2: the cap of an inbox is hard.  Whatever operations of the queue run, in whatever
    interleaving, with the clock moving and any failures of the connection, no inbox ever holds
    more than [MAX_INBOX_QUEUE_DEPTH] posts.  The exception the source makes, the error branch of
    a group fan-out, is the hypothesis: fan-outs run only where no failures strike. *)
Theorem inbox_cap_interleaved (calmly : Prop) (luck : list fault -> Prop)
    (ps' : list (prog unit)) (w w' : world rstore) :
  drops luck ->
  (calmly -> forall fs, luck fs -> fs = []) ->
  rtc (cstep (queue_op (fun _ => True) calmly) luck) ([], w) (ps', w') ->
  inboxes_capped (w_redis (absw w)) -> luck (w_faults w) ->
  inboxes_capped (w_redis (absw w')).
Proof.
  intros Hd Hcalm Hsteps Hw Hl.
  destruct (keeps_reachable (queue_op (fun _ => True) calmly) luck (redis_inv inboxes_capped luck) ([], w) (ps', w'))
    as [[HJ _] _]; cbn [fst snd]; try done.
  - apply redis_inv_stable. intros now v. apply capped_expire.
  - intros p. by apply queue_op_keeps.
Qed.

(** A group envelope is stored once for everybody.  Every recipient whose inbox has room gets
    the same post, full inboxes are skipped, and the number returned is that of the recipients
    served; they, and they alone, are pending and told. *)
Theorem fanout_delivers (a : fanout_args) zs (w : world rstore) p idx :
  let v := w_redis (absw w) in
  let exp := expiry (fa_timestamp a) (fa_ttl a) (w_now w) (fa_hard_ceiling a) in
  calm w ->
  (w_now w < exp)%Z ->
  NoDup (fa_recipients a) ->
  (forall r, r ∈ fa_recipients a -> zset_at (_inbox_key r) v = Some (zs r)) ->
  set_at (_pending_recipients_key (fa_envelope_id a)) v = Some p ->
  zset_at _BLOB_EXPIRY_INDEX_KEY v = Some idx ->
  exists v', observe (enqueue_envelope_for_recipients a) w =
      (Ok (exp, Z.of_nat (length (eligible a zs (w_now w)))), set_redis v' (absw w)) /\
    fanned_out a zs (w_now w) exp p v v'.
Proof.
  intros v exp Hc. rewrite observe_doc. exact (run_fanout a zs (absw w) p idx Hc).
Qed.

(** C11: the ciphertext of a group message is deleted exactly when the last recipient has it.
    After a fan-out of a new envelope let anybody acknowledge it, in any order and as often as
    they like: as long as a recipient is missing, metadata and file stay and the envelope waits for
    exactly the missing ones; when nobody is missing, no inbox, no metadata and no pending set is
    left, and one deletion of the file was started, not more. *)
Theorem group_lifecycle (a : fanout_args) zs acks (w : world rstore) idx :
  let v := w_redis (absw w) in
  let id := fa_envelope_id a in
  let exp := expiry (fa_timestamp a) (fa_ttl a) (w_now w) (fa_hard_ceiling a) in
  let left := list_to_set (eligible a zs (w_now w)) ∖ list_to_set acks in
  calm w ->
  (w_now w < exp)%Z ->
  NoDup (fa_recipients a) ->
  (forall r, zset_at (_inbox_key r) v = Some (zs r) /\ zs r !! id = None) ->
  rv_keys v !! _pending_recipients_key id = None ->
  zset_at _BLOB_EXPIRY_INDEX_KEY v = Some idx ->
  eligible a zs (w_now w) <> [] ->
  exists v',
    observe (let! _ := enqueue_envelope_for_recipients a in acknowledge_all id acks) w =
      (Ok tt, set_tasks (w_tasks w ++ if decide (left = ∅) then [TDeleteBlob id] else [])
                (set_redis v' (absw w))) /\
    (if decide (left = ∅) then settled id v' else waiting id left v').
Proof.
  intros v id exp left Hc Hexp Hnd Hz Hp Hidx Hne. rewrite observe_doc, run_doc_bind.
  destruct (run_fanout a zs (absw w) ∅ idx) as (v1 & H1 & Hf); try done.
  { intros r _. apply Hz. } { unfold set_at, id in *. subst v. by rewrite Hp. }
  rewrite H1.
  destruct (run_acks_waiting id acks (list_to_set (eligible a zs (w_now w))) (set_redis v1 (absw w)))
    as (v2 & H2 & Hs); [done|by eapply fanned_waiting|].
  exists v2. by rewrite H2.
Qed.

(** Nothing of a delivered direct message stays.  Post an envelope with its file, let the
    recipient acknowledge it and the deletion it starts run: the file is gone, and so are the post,
    the metadata and the pending set. *)
Theorem dm_lifecycle (a : enqueue_args) blob path (w : world rstore) meta z idx :
  let v := w_redis (absw w) in
  let id := ea_envelope_id a in
  let exp := expiry (ea_timestamp a) (ea_ttl a) (w_now w) (ea_hard_ceiling a) in
  calm w ->
  _blob_path id = Ok path ->
  (w_now w < exp)%Z ->
  build_meta a exp = Ok meta ->
  rv_keys v !! _envelope_meta_key id = None ->
  rv_keys v !! _pending_recipients_key id = None ->
  zset_at (_inbox_key (ea_recipient a)) v = Some z ->
  (Z.of_nat (size (live (w_now w) z)) < MAX_INBOX_QUEUE_DEPTH)%Z ->
  (forall r, not_in_inbox id r v) ->
  zset_at _BLOB_EXPIRY_INDEX_KEY v = Some idx ->
  exists v',
    observe (let! posted := write_blob_then_enqueue a blob in
             let! taken := acknowledge_envelope (ea_recipient a) id in
             let! _ := _delete_blob_after_last_ack id in
             ret (posted, taken)) w =
      (Ok (Some exp, true),
       set_redis v' (set_tasks (w_tasks w ++ [TDeleteBlob id])
         (set_blobs (delete path (w_blobs w)) (absw w)))) /\
    settled id v'.
Proof.
  intros v id exp Hc Hpath Hexp Hm Hk Hp Hz Hsz Hout Hidx. rewrite observe_doc.
  set (w0 := absw w) in *. set (w1 := put_blob path blob w0).
  unfold write_blob_then_enqueue. rewrite run_doc_bind, run_doc_bind.
  fold id. rewrite (run_write_blob id path blob w0 Hc Hpath). fold w1.
  destruct (run_enqueue a w1 meta z ∅ idx) as (v1 & H1 & Hpost); try done.
  { unfold set_at. change (w_redis w1) with v. fold id. by rewrite Hp. }
  rewrite run_doc_try, H1, run_doc_bind.
  destruct (waiting_ack id (ea_recipient a) {[ea_recipient a]} (set_redis v1 w1))
    as (v2 & H2 & Hs); [done|by eapply posted_waiting|].
  rewrite H2, bool_decide_true by set_solver. rewrite difference_diag_L, decide_True in * by done.
  unfold _delete_blob_after_last_ack.
  rewrite run_doc_bind, run_doc_try, run_doc_bind, (run_secure_delete _ path) by done.
  exists v2. split; [|done]. rewrite !run_doc_ret. f_equal.
  unfold del_blob, w1, put_blob. cbn. by rewrite delete_insert_eq.
Qed.

(** C20: a caller deletes an envelope by its sender's right only if the metadata names them as
    sender and the given inbox as recipient and is no group message, or, once the metadata is gone,
    if the tombstone is the hash of exactly this pair.  A refusal changes nothing, in particular
    nothing is published; an accepted deletion removes the post, the metadata and the tombstone,
    tells the recipient's sockets, and reports whether the post was still there. *)
Theorem sender_delete_authorization (id caller recipient : string) (w : world rstore) meta tomb z :
  let v := w_redis (absw w) in
  let p := delete_envelope_by_sender id caller recipient in
  calm w ->
  str_at (_envelope_meta_key id) v = Some meta ->
  str_at (_sender_tombstone_key id) v = Some tomb ->
  zset_at (_inbox_key recipient) v = Some z ->
  (authorised v id caller recipient -> exists v',
     observe p w = (Ok (DeleteResult true (bool_decide (is_Some (z !! id)))
                         (bool_decide (is_Some meta)) None), set_redis v' (absw w)) /\
     zset_at (_inbox_key recipient) v' = Some (delete id z) /\
     rv_keys v' !! _envelope_meta_key id = None /\ rv_keys v' !! _sender_tombstone_key id = None /\
     rv_pub v' = rv_pub v ++ [(_inbox_channel recipient, _deleted_event id caller None)] /\
     forall k, k ∉ [_inbox_key recipient; _envelope_meta_key id; _sender_tombstone_key id] ->
       rv_keys v' !! k = rv_keys v !! k) /\
  (~ authorised v id caller recipient -> exists refusal,
     observe p w = (Ok refusal, absw w) /\ del_ok refusal = false).
Proof.
  intros v p Hc Hm Ht Hz.
  pose proof (may_delete_authorised id caller recipient v meta tomb Hm Ht) as Hauth.
  pose proof (run_delete_by_sender id caller recipient v meta tomb Hm Ht (absw w) z eq_refl Hc Hz) as Hrun.
  unfold p. rewrite !observe_doc. rewrite <- Hauth.
  destruct (sender_may_delete meta _ caller recipient) as [refusal|] eqn:E.
  - split; [done|]. intros _. exists refusal. split; [done|].
    unfold sender_may_delete in E. repeat case_match; simplify_eq; done.
  - split; [|done]. intros _. rewrite Hrun. eexists. split.
    { do 3 f_equal; [by destruct (z !! id)|by destruct meta]. }
    split_and!; at_simpl; try done.
    intros k. rewrite !not_elem_of_cons. intros (H1 & H2 & H3 & _).
    apply not_eq_sym in H1, H2, H3. by at_simpl.
Qed.

(** Only the sender of a queued direct message can delete it by that right, and only from the
    inbox it was sent to. *)
Theorem posted_only_sender_deletes (a : enqueue_args) (w : world rstore) now exp meta z p idx v
    caller recipient :
  build_meta a exp = Ok meta ->
  Forall (fun kv => json_wf kv.2) (default [] (ea_extra_meta a)) ->
  posted a now exp meta z p idx v (w_redis (absw w)) ->
  authorised (w_redis (absw w)) (ea_envelope_id a) caller recipient ->
  caller = ea_sender a /\ recipient = ea_recipient a.
Proof.
  intros Hm Hex [Hk _ _ _ _ _ _] Hauth.
  destruct (build_meta_ok a exp meta Hm Hex) as (Hwf & Hf & Ht).
  assert (Hs : str_at (_envelope_meta_key (ea_envelope_id a)) (w_redis (absw w)) =
               Some (Some (dumps (JObj meta)))) by (unfold str_at; by rewrite Hk).
  destruct Hauth as [(raw & Hraw & _ & Hf' & Ht')|[Hnone _]]; [|congruence].
  rewrite Hs in Hraw. injection Hraw as <-. rewrite loads_dumps in Hf', Ht' by done. cbn in *.
  rewrite Hf in Hf'. rewrite Ht in Ht'. by simplify_eq.
Qed.

(** A sealed envelope is deleted exactly by who shows a preimage of the hash that its
    metadata carries, and then from the inbox the metadata names; whoever else asks changes
    nothing. *)
Theorem sealed_delete_needs_preimage (id key_hex : string) (w : world rstore) raw z :
  let v := w_redis (absw w) in
  let meta := match load_meta raw with Some j => fields j | None => [] end in
  let recipient := match dict_get "to" meta with Some (JStr s) => s | _ => "" end in
  let shows_preimage := exists key, bytes_fromhex key_hex = Some key /\
    dict_get "delete_key_hash" meta = Some (JStr (sha256_hex key)) in
  calm w ->
  str_at (_envelope_meta_key id) v = Some raw ->
  zset_at (_inbox_key recipient) v = Some z ->
  (get_truthy "sealed" meta = true /\ get_truthy "delete_key_hash" meta = true /\ shows_preimage ->
   exists v', observe (delete_sealed_envelope id key_hex) w =
       (Ok (true, bool_decide (is_Some (z !! id)), None), set_redis v' (absw w)) /\
     zset_at (_inbox_key recipient) v' = Some (delete id z) /\
     rv_keys v' !! _envelope_meta_key id = None /\
     forall k, k <> _inbox_key recipient -> k <> _envelope_meta_key id -> rv_keys v' !! k = rv_keys v !! k) /\
  (~ (get_truthy "sealed" meta = true /\ get_truthy "delete_key_hash" meta = true /\ shows_preimage) ->
   exists err, observe (delete_sealed_envelope id key_hex) w = (Ok (false, false, Some err), absw w)).
Proof.
  intros v meta recipient shows Hc Hraw Hz. rewrite !observe_doc.
  assert (Hread : run_doc (redis_ (rcall (GET (_envelope_meta_key id)) as_bulk)) (absw w) = (Ok raw, absw w)).
  { rewrite run_doc_redis, rrun_rcall by done. cbn [documented]. fold v. rewrite Hraw. by destruct raw. }
  assert (Hmay : sealed_may_delete raw key_hex = inr recipient /\
      (get_truthy "sealed" meta = true /\ get_truthy "delete_key_hash" meta = true /\ shows) \/
      (exists err, sealed_may_delete raw key_hex = inl err) /\
      ~ (get_truthy "sealed" meta = true /\ get_truthy "delete_key_hash" meta = true /\ shows)).
  { unfold sealed_may_delete, shows, recipient, meta. destruct (load_meta raw) as [j|]; [|right; split; [eauto|by intros [? _]]].
    destruct (get_truthy "sealed" (fields j)); [|right; split; [eauto|by intros [? _]]].
    destruct (get_truthy "delete_key_hash" (fields j)); [|right; split; [eauto|by intros (_ & ? & _)]].
    cbn [negb orb]. destruct (bytes_fromhex key_hex) as [key|]; [|right; split; [eauto|intros (_ & _ & key & ? & _); done]].
    destruct (get_is_str "delete_key_hash" (sha256_hex key) (fields j)) eqn:E; cbn [negb].
    - left. apply get_is_str_spec in E. split_and!; eauto.
    - right. split; [eauto|]. intros (_ & _ & key' & [= <-] & Hk). apply get_is_str_spec in Hk. congruence. }
  unfold delete_sealed_envelope. rewrite run_doc_bind, Hread.
  destruct Hmay as [[-> Hok]|[[err ->] Hno]]; (split; [intros Hyp|intros Hnot]); try done; [|by eexists].
  edestruct (documented_del1 (w_now w)) as [n1 H1].
  rewrite run_doc_bind. erewrite run_multi; [|done|].
  2: { eapply multi_cons; [by apply doc_zrem|done|]. eapply multi_cons; [exact H1|done|].
       eapply multi_cons; [done|done|apply multi_nil]. }
  eexists. split; [rewrite run_doc_ret; unfold first_truthy; by destruct (z !! id)|].
  split_and!; at_simpl; try done. intros k Hk1 Hk2. apply not_eq_sym in Hk1, Hk2. by at_simpl.
Qed.

(** Marking mail as read sets the flag on the recipient's own queued mail, for the first 200
    ids asked, keeps each envelope's lifetime, resurrects nothing, and touches nothing else:
    direct messages, other people's mail and unknown ids are skipped. *)
Theorem mail_seen_own_mail (recipient : string) (ids : list string) (w : world rstore) z :
  let v := w_redis (absw w) in
  let batch := take MAIL_SEEN_BATCH_MAX ids in
  calm w -> zset_at (_inbox_key recipient) v = Some z ->
  (forall id, id ∈ batch -> str_at (_envelope_meta_key id) v <> None) ->
  exists n v', observe (mark_mail_seen recipient ids) w = (Ok n, set_redis v' (absw w)) /\
    rv_pub v' = rv_pub v /\
    (forall id d, id ∈ batch -> unseen_mail recipient v z id d ->
       rv_keys v' !! _envelope_meta_key id =
       Some (Entry (VStr (marked d)) (deadline_of (_envelope_meta_key id) v))) /\
    (forall k, (forall id d, id ∈ batch -> unseen_mail recipient v z id d -> k <> _envelope_meta_key id) ->
       rv_keys v' !! k = rv_keys v !! k).
Proof. intros v batch Hc. rewrite observe_doc. exact (run_mark_mail_seen recipient ids (absw w) z Hc). Qed.

(** The one way to lose an envelope silently.  If the connection breaks after the server took
    the metadata and before its reply arrived, the post fails, and every retry is answered as a
    duplicate, the answer of a delivered envelope; but no inbox has it, nobody is told, and no
    file is pending deletion. *)
Theorem lost_claim_reads_as_duplicate (a : enqueue_args) (w : world rstore) meta :
  let v := w_redis (absw w) in
  let exp := expiry (ea_timestamp a) (ea_ttl a) (w_now w) (ea_hard_ceiling a) in
  w_faults w = [LostReply] ->
  (w_now w < exp)%Z ->
  build_meta a exp = Ok meta ->
  rv_keys v !! _envelope_meta_key (ea_envelope_id a) = None ->
  fst (observe (enqueue_envelope a) w) = Raise RedisError /\
  exists v', observe (try_except (enqueue_envelope a) (fun _ => enqueue_envelope a)) w =
      (Ok None, set_faults [] (set_redis v' (absw w))) /\
    rv_pub v' = rv_pub v /\
    forall k, k <> _envelope_meta_key (ea_envelope_id a) -> rv_keys v' !! k = rv_keys v !! k.
Proof.
  intros v exp Hf Hexp Hm Hk. rewrite !observe_doc.
  pose proof (run_enqueue_lost_claim a (absw w) meta Hf Hexp Hm Hk) as Hlost.
  split; [by rewrite Hlost|]. rewrite run_doc_try, Hlost.
  set (v1 := put _ _ _).
  rewrite (run_enqueue_claim a _ meta); [|done|done|done]. cbn [w_redis set_faults set_redis w_now].
  unfold v1 at 1. at_simpl. exists v1. split; [done|]. split; [done|].
  intros k Hne. apply not_eq_sym in Hne. unfold v1. by at_simpl.
Qed.
End Properties.

(** ** Witnesses: the theorems applied to a small server *)

Module Demo.
#[local] Instance demo_sha : Sha256 := fun s => s.

(** A server at time 1000 with these keys, and no failure to come. *)
Definition server (keys : list (string * entry)) : world (rstore (Redis := Mem_Redis)) :=
  World 1000%Z (View (list_to_map keys) ∅ []) empty_db empty_db ∅ [] (fun _ => "t") [] no_network [].
Definition empty_server := server [].

Definition dm : enqueue_args :=
  EnqueueArgs "abcd" "alice" "bob" 1000 600 "sig" 86400 None false None None None None None.
Definition stale_dm : enqueue_args :=
  EnqueueArgs "abcd" "alice" "bob" 300 600 "sig" 86400 None false None None None None None.
Definition meta_of (a : enqueue_args) (exp : Z) : dict :=
  match build_meta a exp with Ok d => d | Raise _ => [] end.

Definition fan : fanout_args :=
  FanoutArgs "abcd" "alice" ["bob"; "carol"] 1000 600 "sig" 86400 (Some "g") None.

(** Two envelopes queued for bob, one of them mail. *)
Definition mail_meta : dict := [("channel", JStr "mail"); ("to", JStr "bob")].
Definition key_meta : dict :=
  [("sealed", JBool true); ("delete_key_hash", JStr (sha256_hex "x")); ("to", JStr "bob")].
Definition busy_server := server
  [(_inbox_key "bob", Entry (VZSet {["m1" := 1500%Z; "abcd" := 1600%Z]}) None);
   (_envelope_meta_key "m1", Entry (VStr (dumps (JObj mail_meta))) (Some 1500%Z));
   (_envelope_meta_key "s1", Entry (VStr (dumps (JObj key_meta))) (Some 1500%Z));
   (_envelope_meta_key "abcd", Entry (VStr (dumps (JObj (meta_of dm 1600)))) (Some 1600%Z))].

Lemma enqueue_posts_witness : exists v',
  observe (enqueue_envelope dm) empty_server = (Ok (Some 1600%Z), set_redis v' (absw empty_server)) /\
  posted dm 1000 1600 (meta_of dm 1600) ∅ ∅ ∅ (w_redis (absw empty_server)) v'.
Proof. apply (enqueue_posts dm empty_server (meta_of dm 1600) ∅ ∅ ∅); vm_compute; reflexivity. Defined.

Lemma enqueue_refusals_witness :
  observe (enqueue_envelope stale_dm) empty_server =
  (Raise (EnqueueRejected 400 "envelope_already_expired"), absw empty_server).
Proof.
  apply (enqueue_refusals stale_dm empty_server (meta_of stale_dm 900) ∅);
    [reflexivity|vm_compute; reflexivity|vm_compute; reflexivity|vm_compute; discriminate].
Defined.

Definition faulty (fs : list fault) := set_faults fs empty_server.

Lemma enqueue_lua_fault_witness : exists v',
  observe (enqueue_envelope dm) (faulty [Fine; LostReply]) =
    (Raise (EnqueueRejected 503 "queue_backend_unavailable"),
     set_faults [] (set_redis v' (absw (faulty [Fine; LostReply])))) /\
  rv_keys v' !! _envelope_meta_key "abcd" = None /\ rv_pub v' = [].
Proof.
  apply (enqueue_lua_fault dm (faulty [Fine; LostReply]) (meta_of dm 1600) ∅ LostReply);
    [reflexivity|discriminate|vm_compute; reflexivity..].
Defined.

Lemma lost_claim_witness :
  fst (observe (enqueue_envelope dm) (faulty [LostReply])) = Raise RedisError.
Proof.
  apply (lost_claim_reads_as_duplicate dm (faulty [LostReply]) (meta_of dm 1600));
    [reflexivity|vm_compute; reflexivity..].
Defined.

Lemma inbox_cap_witness :
  inboxes_capped (w_redis (absw (set_now 1001 empty_server))).
Proof.
  apply (inbox_cap_interleaved False (fun _ => True) [detached (enqueue_envelope dm)]
           empty_server (set_now 1001 empty_server)).
  - done.
  - done.
  - eapply rtc_l; [apply step_start; by apply (op_enqueue (fun _ => True) False dm)|]. cbn [app].
    eapply rtc_l; [apply (step_time _ _ 1001); vm_compute; discriminate|]. apply rtc_refl.
  - intros r. exists ∅. vm_compute. split; [reflexivity|discriminate].
  - done.
Defined.

Lemma fanout_delivers_witness :
  eligible fan (fun _ => ∅) 1000 = ["bob"; "carol"] /\
  exists v', observe (enqueue_envelope_for_recipients fan) empty_server =
    (Ok (1600%Z, Z.of_nat (length (eligible fan (fun _ => ∅) 1000))), set_redis v' (absw empty_server)) /\
  fanned_out fan (fun _ => ∅) 1000 1600 ∅ (w_redis (absw empty_server)) v'.
Proof.
  split; [vm_compute; reflexivity|].
  apply (fanout_delivers fan (fun _ => ∅) empty_server ∅ ∅);
    [reflexivity|vm_compute; reflexivity| |intros r _; reflexivity|vm_compute; reflexivity..].
  apply (bool_decide_unpack _). vm_compute. exact I.
Defined.

Lemma group_lifecycle_witness : exists v',
  observe (let! _ := enqueue_envelope_for_recipients fan in acknowledge_all "abcd" ["carol"; "carol"; "bob"])
    empty_server = (Ok tt, set_tasks [TDeleteBlob "abcd"] (set_redis v' (absw empty_server))) /\
  settled "abcd" v'.
Proof.
  pose proof (group_lifecycle fan (fun _ => ∅) ["carol"; "carol"; "bob"] empty_server ∅) as H.
  cbn zeta in H. case_decide as E; [|exfalso; apply E; vm_compute; reflexivity].
  apply H; [reflexivity|vm_compute; reflexivity| |intros r; split; reflexivity|vm_compute; reflexivity..|].
  - apply (bool_decide_unpack _). vm_compute. exact I.
  - vm_compute. discriminate.
Defined.

Lemma dm_lifecycle_witness : exists v',
  observe (let! posted := write_blob_then_enqueue dm "cipher" in
           let! taken := acknowledge_envelope "bob" "abcd" in
           let! _ := _delete_blob_after_last_ack "abcd" in ret (posted, taken)) empty_server =
    (Ok (Some 1600%Z, true),
     set_redis v' (set_tasks [TDeleteBlob "abcd"] (set_blobs (delete "ab/cd/abcd" ∅) (absw empty_server)))) /\
  settled "abcd" v'.
Proof.
  apply (dm_lifecycle dm "cipher" "ab/cd/abcd" empty_server (meta_of dm 1600) ∅ ∅);
    [reflexivity|vm_compute; reflexivity..| |vm_compute; reflexivity].
  intros r. exists ∅. split; reflexivity.
Defined.

Lemma sender_delete_witness :
  (exists v', observe (delete_envelope_by_sender "abcd" "alice" "bob") busy_server =
    (Ok (DeleteResult true true true None), set_redis v' (absw busy_server))) /\
  (exists refusal, observe (delete_envelope_by_sender "abcd" "mallory" "bob") busy_server =
    (Ok refusal, absw busy_server) /\ del_ok refusal = false).
Proof.
  split.
  - destruct (sender_delete_authorization "abcd" "alice" "bob" busy_server
      (Some (dumps (JObj (meta_of dm 1600)))) None {["m1" := 1500%Z; "abcd" := 1600%Z]})
      as [(v' & H & _) _]; [reflexivity|vm_compute; reflexivity..| |by exists v'].
    left. exists (dumps (JObj (meta_of dm 1600))). vm_compute. repeat split; reflexivity.
  - apply (sender_delete_authorization "abcd" "mallory" "bob" busy_server
      (Some (dumps (JObj (meta_of dm 1600)))) None {["m1" := 1500%Z; "abcd" := 1600%Z]});
      [reflexivity|vm_compute; reflexivity..|].
    intros [(raw & Hraw & _ & Hf & _)|[Hn _]].
    + vm_compute in Hraw. injection Hraw as <-. vm_compute in Hf. discriminate Hf.
    + vm_compute in Hn. discriminate Hn.
Defined.

(** The server after the post of [dm]. *)
Definition after_dm : world (rstore (Redis := Mem_Redis)) := snd (run (enqueue_envelope dm) empty_server).

Lemma posted_only_sender_witness : "alice" = ea_sender dm /\ "bob" = ea_recipient dm.
Proof.
  destruct (enqueue_posts dm empty_server (meta_of dm 1600) ∅ ∅ ∅) as (v' & Hrun & Hposted);
    try (vm_compute; reflexivity).
  assert (Hv : v' = w_redis (absw after_dm)).
  { unfold after_dm, observe in *. destruct (run (enqueue_envelope dm) empty_server) as [o w'].
    apply (f_equal (fun x => w_redis (snd x))) in Hrun. symmetry. exact Hrun. }
  apply (posted_only_sender_deletes dm after_dm 1000 1600 (meta_of dm 1600) ∅ ∅ ∅ (w_redis (absw empty_server))
           "alice" "bob").
  - reflexivity.
  - constructor.
  - rewrite <- Hv. exact Hposted.
  - left. exists (dumps (JObj (meta_of dm 1600))). vm_compute. repeat split; reflexivity.
Defined.

Lemma sealed_delete_witness :
  (exists v', observe (delete_sealed_envelope "s1" "78") busy_server =
    (Ok (true, false, None), set_redis v' (absw busy_server))) /\
  (exists err, observe (delete_sealed_envelope "s1" "79") busy_server =
    (Ok (false, false, Some err), absw busy_server)).
Proof.
  split.
  - destruct (sealed_delete_needs_preimage "s1" "78" busy_server (Some (dumps (JObj key_meta)))
      {["m1" := 1500%Z; "abcd" := 1600%Z]})
      as [(v' & H & _) _]; [reflexivity|vm_compute; reflexivity|vm_compute; reflexivity| |exists v'; exact H].
    vm_compute. split; [reflexivity|]. split; [reflexivity|]. eexists. split; reflexivity.
  - apply (sealed_delete_needs_preimage "s1" "79" busy_server (Some (dumps (JObj key_meta)))
      {["m1" := 1500%Z; "abcd" := 1600%Z]});
      [reflexivity|vm_compute; reflexivity|vm_compute; reflexivity|].
    intros (_ & _ & key & Hk & Hh). vm_compute in Hk. injection Hk as <-. vm_compute in Hh. discriminate Hh.
Defined.

Lemma mail_seen_witness : exists n v',
  observe (mark_mail_seen "bob" ["m1"; "abcd"]) busy_server = (Ok n, set_redis v' (absw busy_server)) /\
  rv_keys v' !! _envelope_meta_key "m1" = Some (Entry (VStr (marked mail_meta)) (Some 1500%Z)).
Proof.
  destruct (mail_seen_own_mail "bob" ["m1"; "abcd"] busy_server {["m1" := 1500%Z; "abcd" := 1600%Z]})
    as (n & v' & Hrun & _ & Hset & _).
  - reflexivity.
  - vm_compute. reflexivity.
  - intros id [->|[->|[]%elem_of_nil]%elem_of_cons]%elem_of_cons; vm_compute; discriminate.
  - exists n, v'. split; [exact Hrun|].
    rewrite (Hset "m1" mail_meta); [reflexivity|left|].
    unfold unseen_mail. split; [vm_compute; eexists; reflexivity|].
    split; [exists (dumps (JObj mail_meta)); split; vm_compute; reflexivity|].
    vm_compute. repeat split; try reflexivity. discriminate.
Defined.
End Demo.
