(* ===== verification/MailboxFacts.v ===== *)
(** * A mailbox (queue.py): an abstract specification and the queue that implements it

    What the queue promises, without Redis: letters that are posted, listed, taken and that expire
    ([mailbox], [mstep]).  [represents] relates a mailbox to a Redis view, [queue_refines_mailbox] is
    the forward simulation. *)

From Stdlib Require Import Ascii String.
From stdpp Require Import prelude gmap strings list.
From S2P Require Import Prelude Json RedisStore Models Effects Crypto Logic BlobStorage Queue QueueFacts.

#[local] Open Scope morok_scope.

(** ** The specification *)

(** A letter: for whom, until when, its metadata, and until when the box it lies in is open.  A box
    closes at the time the last post into it has set. *)
Record letter := Letter { l_to : string; l_exp : Z; l_meta : dict; l_until : Z }.
Abbreviation mailbox := (gmap string letter).

Definition visible (now : Z) (r : string) (l : letter) : bool :=
  String.eqb (l_to l) r && (now <? l_until l)%Z.

(** The box of a recipient: its letters with their expiry. *)
Definition box (now : Z) (r : string) (A : mailbox) : gmap string Z :=
  l_exp <$> filter (fun kl => visible now r kl.2 = true) A.

(** The letters of the box get the new closing time. *)
Definition reset (now : Z) (r : string) (d : Z) (l : letter) : letter :=
  if visible now r l then Letter (l_to l) (l_exp l) (l_meta l) d else l.

Definition mpost (now : Z) (a : enqueue_args) (A : mailbox) : res (option Z) * mailbox :=
  let id := ea_envelope_id a in
  let r := ea_recipient a in
  let exp := expiry (ea_timestamp a) (ea_ttl a) now (ea_hard_ceiling a) in
  if (exp <=? now)%Z then (Raise (EnqueueRejected 400 "envelope_already_expired"), A)
  else
    match build_meta a exp with
    | Raise e => (Raise e, A)
    | Ok meta =>
        match A !! id with
        | Some _ => (Ok None, A)
        | None =>
            if (MAX_INBOX_QUEUE_DEPTH <=? Z.of_nat (size (box now r A)))%Z
            then (Raise (EnqueueRejected 429 "recipient_queue_full"), A)
            else
              let d := (now + inbox_key_ttl (exp - now))%Z in
              (Ok (Some exp), <[id := Letter r exp meta d]> (reset now r d <$> A))
        end
    end.

(** The oldest letters of the box. *)
Definition mlist (now : Z) (r : string) (limit : nat) (A : mailbox) : list json :=
  omap (fun id => (fun l => JObj (l_meta l)) <$> A !! id) (take limit (by_score (box now r A)).*1).

Inductive mop := MPost (a : enqueue_args) | MList (r : string) (limit : Z) | MAck (r id : string) | MWait (t : Z).
Inductive manswer := AnPost (x : res (option Z)) | AnList (l : list json) | AnAck (b : bool) | AnWait.

(** One operation at a time [now].  Taking a letter that is not in the box does nothing; what it
    answers is left open, since an expired letter may not have been swept yet. *)
Inductive mstep (now : Z) (A : mailbox) : mop -> manswer -> Z -> mailbox -> Prop :=
| mstep_post a : mstep now A (MPost a) (AnPost (fst (mpost now a A))) now (snd (mpost now a A))
| mstep_list r limit : mstep now A (MList r limit) (AnList (mlist now r (Z.to_nat limit) A)) now A
| mstep_take r id l : A !! id = Some l -> visible now r l = true ->
    mstep now A (MAck r id) (AnAck true) now (delete id A)
| mstep_none r id b : match A !! id with Some l => visible now r l = false | None => True end ->
    mstep now A (MAck r id) (AnAck b) now A
| mstep_wait t : (now <= t)%Z ->
    mstep now A (MWait t) AnWait t (filter (fun kl => t < l_exp kl.2)%Z A).

Inductive msteps : Z -> mailbox -> list mop -> list manswer -> Z -> mailbox -> Prop :=
| msteps_nil now A : msteps now A [] [] now A
| msteps_cons now A o x now1 A1 os xs now2 A2 :
    mstep now A o x now1 A1 -> msteps now1 A1 os xs now2 A2 -> msteps now A (o :: os) (x :: xs) now2 A2.

(** ** The implementation *)

Section Implementation.
  Context `{R : Redis} `{Sha256}.

Definition value_or {A} (d : A) (r : res A) : A := match r with Ok a => a | Raise _ => d end.

(** An operation of queue.py on a server. *)
Definition qstep (o : mop) (w : world rstore) : manswer * world rstore :=
  match o with
  | MPost a => let '(x, w') := run (enqueue_envelope a) w in (AnPost x, w')
  | MList r limit => let '(x, w') := run (list_inbox r limit) w in (AnList (value_or [] x), w')
  | MAck r id => let '(x, w') := run (acknowledge_envelope r id) w in (AnAck (value_or false x), w')
  | MWait t => (AnWait, set_now t w)
  end.

Fixpoint qsteps (os : list mop) (w : world rstore) : list manswer * world rstore :=
  match os with
  | [] => ([], w)
  | o :: os' => let '(x, w1) := qstep o w in let '(xs, w2) := qsteps os' w1 in (x :: xs, w2)
  end.
End Implementation.

(** What a sequence of operations may contain: lists of one to 200, metadata that is JSON, waits
    forward. *)
Definition mop_ok (o : mop) : Prop :=
  match o with
  | MPost a => Forall (fun kv => json_wf kv.2) (default [] (ea_extra_meta a))
  | MList _ limit => (1 <= limit)%Z
  | _ => True
  end.
Fixpoint forward (now : Z) (os : list mop) : Prop :=
  match os with
  | [] => True
  | MWait t :: os' => (now <= t)%Z /\ forward t os'
  | _ :: os' => forward now os'
  end.

(** The set at an inbox key: the letters of the box, and posts that have expired. *)
Definition holds (now : Z) (r : string) (A : mailbox) (z : gmap string Z) : Prop :=
  (forall id l, A !! id = Some l -> visible now r l = true -> z !! id = Some (l_exp l)) /\
  (forall id s, z !! id = Some s ->
     (exists l, A !! id = Some l /\ visible now r l = true) \/
     ((0 <= s <= now)%Z /\ forall l, A !! id = Some l -> l_to l <> r)).

Record represents (now : Z) (A : mailbox) (v : rview) : Prop := {
  rep_time : (0 <= now)%Z;
  rep_fresh id l : A !! id = Some l -> (now < l_exp l)%Z /\ json_wf (JObj (l_meta l));
  rep_meta id :
    rv_keys v !! _envelope_meta_key id = (fun l => Entry (VStr (dumps (JObj (l_meta l)))) (Some (l_exp l))) <$> A !! id;
  rep_pending id :
    rv_keys v !! _pending_recipients_key id = (fun l => Entry (VSet {[l_to l]}) (Some (l_exp l))) <$> A !! id;
  rep_inbox r : exists z, zset_at (_inbox_key r) v = Some z /\ holds now r A z;
  rep_until id l : A !! id = Some l -> visible now (l_to l) l = true ->
    deadline_of (_inbox_key (l_to l)) v = Some (l_until l);
  rep_index : exists idx, zset_at _BLOB_EXPIRY_INDEX_KEY v = Some idx
}.

Lemma visible_spec now r l : visible now r l = true <-> l_to l = r /\ (now < l_until l)%Z.
Proof. unfold visible. rewrite andb_true_iff, String.eqb_eq, Z.ltb_lt. done. Qed.

Lemma box_lookup now r A id e :
  box now r A !! id = Some e <-> exists l, A !! id = Some l /\ visible now r l = true /\ l_exp l = e.
Proof.
  unfold box. rewrite lookup_fmap_Some. split.
  - intros (l & <- & [Hl Hv]%map_lookup_filter_Some). eauto.
  - intros (l & Hl & Hv & <-). exists l. split; [done|]. by apply map_lookup_filter_Some.
Qed.

(** What is live of the set is the box. *)
Lemma holds_live now r A v z :
  represents now A v -> holds now r A z -> live now z = box now r A.
Proof.
  intros Hrep [H1 H2]. apply map_eq. intros id. apply option_eq. intros e.
  unfold live. rewrite map_lookup_filter_Some, box_lookup. unfold in_range. cbn. split.
  - intros [Hz Hr]. destruct (H2 _ _ Hz) as [(l & Hl & Hv)|[Hs _]]; [|lia].
    rewrite (H1 _ _ Hl Hv) in Hz. simplify_eq. eauto.
  - intros (l & Hl & Hv & <-). split; [by apply H1|].
    destruct (rep_fresh _ _ _ Hrep _ _ Hl). lia.
Qed.

(** An entry of the set that belongs to no letter of the box is a stale one. *)
Lemma holds_box now r A id s z : holds now r A z -> z !! id = Some s ->
  box now r A !! id = None -> forall l, A !! id = Some l -> l_to l <> r.
Proof.
  intros [_ H2] Hz Hb l Hl. destruct (H2 _ _ Hz) as [(l' & Hl' & Hv)|[_ Hs]]; [|by apply Hs].
  assert (box now r A !! id = Some (l_exp l')) by (apply box_lookup; eauto). congruence.
Qed.

(** ** Each operation *)

Lemma visible_other now r r' l : r' <> r -> visible now r l = true -> visible now r' l = false.
Proof. intros Hne [Hr _]%visible_spec. unfold visible. destruct (String.eqb_spec (l_to l) r'); [congruence|done]. Qed.

Section Post.
  Context (now : Z) (r : string) (d : Z).

Lemma reset_to l : l_to (reset now r d l) = l_to l.
Proof. unfold reset. by case_match. Qed.
Lemma reset_exp l : l_exp (reset now r d l) = l_exp l.
Proof. unfold reset. by case_match. Qed.
Lemma reset_meta l : l_meta (reset now r d l) = l_meta l.
Proof. unfold reset. by case_match. Qed.

Lemma reset_visible r' l : (now < d)%Z -> visible now r' (reset now r d l) = visible now r' l.
Proof.
  intros Hd. unfold reset. destruct (visible now r l) eqn:Hv; [|done].
  apply visible_spec in Hv as [Hr Hl]. unfold visible. cbn. f_equal.
  rewrite !(proj2 (Z.ltb_lt _ _)) by done. done.
Qed.

Lemma reset_until l : visible now r (reset now r d l) = true -> (now < d)%Z -> l_until (reset now r d l) = d.
Proof. intros Hv Hd. rewrite reset_visible in Hv by done. unfold reset. by rewrite Hv. Qed.
End Post.

Section Represented.
  Context `{Sha256} (now : Z) (A : mailbox) (v : rview) (Hrep : represents now A v).

Lemma rep_live r z : zset_at (_inbox_key r) v = Some z -> live now z = box now r A /\ holds now r A z.
Proof.
  intros Hz. destruct (rep_inbox _ _ _ Hrep r) as (z' & Hz' & Hh). simplify_eq.
  split; [by eapply holds_live|done].
Qed.

(** A post into the box. *)
Lemma rep_post a exp meta z idx v' :
  let r := ea_recipient a in
  let d := (now + inbox_key_ttl (exp - now))%Z in
  A !! ea_envelope_id a = None -> (now < exp)%Z -> json_wf (JObj meta) -> zset_at (_inbox_key r) v = Some z ->
  posted a now exp meta z ∅ idx v v' ->
  represents now (<[ea_envelope_id a := Letter r exp meta d]> (reset now r d <$> A)) v'.
Proof.
  intros r d Hid Hexp Hwf Hz Hpost. destruct (rep_live r z Hz) as [Hlive Hh].
  set (id := ea_envelope_id a) in *. set (A' := <[id := _]> _).
  assert (Hd : (now < d)%Z) by (unfold d, inbox_key_ttl, INBOX_KEY_TTL_SLACK_SECONDS; lia).
  assert (Hother : forall id', id' <> id -> A' !! id' = reset now r d <$> A !! id')
    by (intros id' Hne; unfold A'; by rewrite lookup_insert_ne, lookup_fmap by done).
  assert (Hthis : A' !! id = Some (Letter r exp meta d)) by (unfold A'; by rewrite lookup_insert_eq).
  assert (Hinv : forall id' l', A' !! id' = Some l' ->
            id' = id /\ l' = Letter r exp meta d \/ id' <> id /\ exists l, A !! id' = Some l /\ l' = reset now r d l).
  { intros id' l' Hl'. destruct (decide (id' = id)) as [->|Hne]; [left; split; congruence|].
    rewrite Hother in Hl' by done. apply fmap_Some in Hl'. by right. }
  destruct Hpost as [Pm Pi Pp Px Pt _ Pf]. rewrite Hlive in Pi. fold id in Pm, Pp, Px, Pt, Pf, Pi. fold r in Pi, Pf.
  assert (Pf' : forall r', r' <> r -> rv_keys v' !! _inbox_key r' = rv_keys v !! _inbox_key r').
  { intros r' Hne. apply Pf. rewrite !not_elem_of_cons. split_and!; try string_ne; [by apply inbox_key_ne|apply not_elem_of_nil]. }
  split.
  - by apply (rep_time _ _ _ Hrep).
  - intros id' l' [[-> ->]|[_ (l & Hl & ->)]]%Hinv; [done|]. rewrite reset_exp, reset_meta. by eapply (rep_fresh _ _ _ Hrep).
  - intros id'. destruct (decide (id' = id)) as [->|Hne]; [by rewrite Hthis|].
    rewrite Pf, (rep_meta _ _ _ Hrep), Hother by
      (done || (rewrite !not_elem_of_cons; split_and!; try string_ne; [unfold _envelope_meta_key; cbv [append]; naive_solver|apply not_elem_of_nil])).
    destruct (A !! id'); [|done]. cbn. by rewrite reset_meta, reset_exp.
  - intros id'. destruct (decide (id' = id)) as [->|Hne]; [rewrite Hthis; cbn; by rewrite Pp, (left_id_L ∅ (∪))|].
    rewrite Pf, (rep_pending _ _ _ Hrep), Hother by
      (done || (rewrite !not_elem_of_cons; split_and!; try string_ne; [unfold _pending_recipients_key; cbv [append]; naive_solver|apply not_elem_of_nil])).
    destruct (A !! id'); [|done]. cbn. by rewrite reset_to, reset_exp.
  - intros r'. destruct (decide (r' = r)) as [->|Hne].
    + exists (<[id := exp]> (box now r A)). split; [unfold zset_at; by rewrite Pi|]. split.
      * intros id' l' [[-> ->]|[Hne (l & Hl & ->)]]%Hinv Hv; [by rewrite lookup_insert_eq|].
        rewrite lookup_insert_ne by done. rewrite reset_visible in Hv by done. rewrite reset_exp. apply box_lookup; eauto.
      * intros id' s [[<- <-]|[Hne Hb]]%lookup_insert_Some; left.
        -- eexists. split; [exact Hthis|]. by apply visible_spec.
        -- apply box_lookup in Hb as (l & Hl & Hv & <-). exists (reset now r d l).
           rewrite Hother, Hl by done. by rewrite reset_visible.
    + destruct (rep_inbox _ _ _ Hrep r') as (z' & Hz' & H1 & H2). exists z'.
      rewrite (zset_at_ext _ v' v) by auto. split; [done|]. split.
      * intros id' l' [[-> ->]|[_ (l & Hl & ->)]]%Hinv Hv; [apply visible_spec in Hv as [Hv _]; cbn in Hv; congruence|].
        rewrite reset_visible in Hv by done. rewrite reset_exp. auto.
      * intros id' s Hs. destruct (H2 _ _ Hs) as [(l & Hl & Hv)|[Hs0 Hst]].
        -- left. exists (reset now r d l). rewrite Hother, Hl by congruence. by rewrite reset_visible.
        -- right. split; [done|]. intros l' [[-> ->]|[_ (l & Hl & ->)]]%Hinv; [done|]. rewrite reset_to. auto.
  - intros id' l' [[-> ->]|[_ (l & Hl & ->)]]%Hinv Hv; cbn; [unfold deadline_of; by rewrite Pi|].
    rewrite reset_to in *. destruct (decide (l_to l = r)) as [Er|Hne].
    + rewrite Er in *. rewrite reset_until by done. unfold deadline_of. by rewrite Pi.
    + rewrite reset_visible in Hv by done. unfold deadline_of in *. rewrite Pf' by done.
      fold (deadline_of (_inbox_key (l_to l)) v). rewrite (rep_until _ _ _ Hrep _ _ Hl Hv).
      unfold reset. destruct (visible now r l) eqn:E; [apply visible_spec in E as [E _]; congruence|done].
  - by eexists.
Qed.

(** A change that touches the inbox of one recipient only, where it removes expired posts. *)
Lemma rep_sweep r z' v' :
  zset_at (_inbox_key r) v' = Some z' -> (forall z, zset_at (_inbox_key r) v = Some z -> live now z ⊆ z' /\ z' ⊆ z) ->
  deadline_of (_inbox_key r) v' = deadline_of (_inbox_key r) v \/ z' = ∅ ->
  (forall k, k <> _inbox_key r -> (forall id r, k <> _delivery_tombstone_key id r) -> rv_keys v' !! k = rv_keys v !! k) ->
  represents now A v'.
Proof.
  intros Hz' Hsub Hd Hk.
  assert (Hinbox : holds now r A z').
  { destruct (rep_inbox _ _ _ Hrep r) as (z & Hz & Hh). destruct (Hsub z Hz) as [Hs1 Hs2].
    destruct (rep_live r z Hz) as [Hlive _]. rewrite Hlive in Hs1. destruct Hh as [H1 H2]. split.
    - intros id l Hl Hv. eapply lookup_weaken; [|exact Hs1]. apply box_lookup; eauto.
    - intros id s Hs. apply H2. by eapply lookup_weaken. }
  split; [apply (rep_time _ _ _ Hrep)|apply (rep_fresh _ _ _ Hrep)|..].
  - intros id. rewrite Hk by (intros; string_ne). apply (rep_meta _ _ _ Hrep).
  - intros id. rewrite Hk by (intros; string_ne). apply (rep_pending _ _ _ Hrep).
  - intros r'. destruct (decide (r' = r)) as [->|Hne]; [eauto|].
    rewrite (zset_at_ext _ v' v) by (apply Hk; [by apply inbox_key_ne|intros; string_ne]). apply (rep_inbox _ _ _ Hrep).
  - intros id l Hl Hv. destruct (decide (l_to l = r)) as [<-|Hne].
    + destruct Hd as [->| ->]; [by eapply rep_until|]. destruct Hinbox as [Hb _]. by specialize (Hb _ _ Hl Hv).
    + rewrite (deadline_of_ext _ v' v) by (apply Hk; [by apply inbox_key_ne|intros; string_ne]). by eapply rep_until.
  - rewrite (zset_at_ext _ v' v) by (apply Hk; intros; string_ne). apply (rep_index _ _ _ Hrep).
Qed.
End Represented.

(** Taking a letter: the posts of its recipient without it, and its keys gone. *)
Lemma rep_take `{Sha256} now A v r id l z v' :
  represents now A v -> A !! id = Some l -> visible now r l = true -> zset_at (_inbox_key r) v = Some z ->
  zset_at (_inbox_key r) v' = Some (delete id z) ->
  (delete id z = ∅ \/ deadline_of (_inbox_key r) v' = deadline_of (_inbox_key r) v) ->
  rv_keys v' !! _envelope_meta_key id = None -> rv_keys v' !! _pending_recipients_key id = None ->
  (forall k, k ∉ [_inbox_key r; _envelope_meta_key id; _pending_recipients_key id; _delivery_tombstone_key id r] ->
     rv_keys v' !! k = rv_keys v !! k) ->
  represents now (delete id A) v'.
Proof.
  intros Hrep Hl Hv Hz Hz' Hd Hm Hp Hk. pose proof Hv as [Hr Hu]%visible_spec.
  assert (Hkeep : forall k id', id' <> id -> k = _envelope_meta_key id' \/ k = _pending_recipients_key id' ->
            rv_keys v' !! k = rv_keys v !! k).
  { intros k id' Hne [->| ->]; apply Hk; rewrite !not_elem_of_cons; split_and!; try string_ne; try apply not_elem_of_nil;
      unfold _envelope_meta_key, _pending_recipients_key; cbv [append]; naive_solver. }
  assert (Hinbox : forall r', r' <> r -> rv_keys v' !! _inbox_key r' = rv_keys v !! _inbox_key r').
  { intros r' Hne. apply Hk. rewrite !not_elem_of_cons. split_and!; try string_ne; [by apply inbox_key_ne|apply not_elem_of_nil]. }
  destruct (rep_live now A v Hrep r z Hz) as [_ [H1 H2]]. split.
  - apply (rep_time _ _ _ Hrep).
  - intros id' l' [_ Hl']%lookup_delete_Some. by eapply (rep_fresh _ _ _ Hrep).
  - intros id'. rewrite lookup_delete. case_decide as E; [by subst|]. rewrite (Hkeep _ id') by eauto. apply (rep_meta _ _ _ Hrep).
  - intros id'. rewrite lookup_delete. case_decide as E; [by subst|]. rewrite (Hkeep _ id') by eauto. apply (rep_pending _ _ _ Hrep).
  - intros r'. destruct (decide (r' = r)) as [->|Hne].
    + exists (delete id z). split; [done|]. split.
      * intros id' l' [Hne Hl']%lookup_delete_Some Hv'. rewrite lookup_delete_ne by done. auto.
      * intros id' s [Hne Hs]%lookup_delete_Some. rewrite lookup_delete_ne by done.
        destruct (H2 _ _ Hs); [by left|]. by right.
    + destruct (rep_inbox _ _ _ Hrep r') as (z' & Hr' & H1' & H2'). exists z'.
      rewrite (zset_at_ext _ v' v) by auto. split; [done|]. split.
      * intros id' l' [_ Hl']%lookup_delete_Some. auto.
      * intros id' s Hs. destruct (H2' _ _ Hs) as [(l' & Hl' & Hv')|[Hs0 Hst]].
        -- left. exists l'. split; [|done]. rewrite lookup_delete_ne; [done|]. intros <-. simplify_eq.
           by rewrite (visible_other _ _ _ _ Hne Hv) in Hv'.
        -- right. split; [done|]. intros l' [_ Hl']%lookup_delete_Some. auto.
  - intros id' l' [Hne Hl']%lookup_delete_Some Hv'. destruct (decide (l_to l' = r)) as [E|Hne'].
    + rewrite E in *. destruct Hd as [Hd|Hd].
      * assert (delete id z !! id' = Some (l_exp l')) by (rewrite lookup_delete_ne by done; auto). rewrite Hd in *. done.
      * rewrite Hd, <- E. eapply rep_until; [done..|]. by rewrite E.
    + rewrite (deadline_of_ext _ v' v) by auto. by eapply rep_until.
  - rewrite (zset_at_ext _ v' v); [apply (rep_index _ _ _ Hrep)|]. apply Hk.
    rewrite !not_elem_of_cons. split_and!; try string_ne. apply not_elem_of_nil.
Qed.

(** Time passes. *)
Lemma rep_wait now A v t :
  represents now A v -> (now <= t)%Z -> represents t (filter (fun kl => t < l_exp kl.2)%Z A) (expire t v).
Proof.
  intros Hrep Ht. set (A' := filter _ A).
  assert (HA : forall id l, A' !! id = Some l <-> A !! id = Some l /\ (t < l_exp l)%Z)
    by (intros id l; unfold A'; by rewrite map_lookup_filter_Some).
  assert (Hkey : forall (f : letter -> entry) k id, rv_keys v !! k = f <$> A !! id ->
            (forall l, e_deadline (f l) = Some (l_exp l)) -> rv_keys (expire t v) !! k = f <$> A' !! id).
  { intros f k id Hk Hf. rewrite keys_expire, Hk. destruct (A !! id) as [l|] eqn:E; cbn.
    - case_decide as Hlt; unfold live_at in Hlt; cbn in Hlt; rewrite Hf in Hlt.
      + by rewrite (proj2 (HA id l)).
      + destruct (A' !! id) eqn:E'; [|done]. apply HA in E' as [E' ?]. congruence.
    - destruct (A' !! id) eqn:E'; [|done]. apply HA in E' as [E' ?]. congruence. }
  assert (Hvis : forall r l, visible t r l = true -> visible now r l = true).
  { intros r l [Hr Hv]%visible_spec. apply visible_spec. split; [done|lia]. }
  assert (Hin : forall id l, A' !! id = Some l -> visible t (l_to l) l = true ->
            rv_keys (expire t v) !! _inbox_key (l_to l) = rv_keys v !! _inbox_key (l_to l)).
  { intros id l Hl Hv. pose proof (proj1 (HA _ _) Hl) as [Hl0 _].
    pose proof (rep_until _ _ _ Hrep _ _ Hl0 (Hvis _ _ Hv)) as Hd. apply visible_spec in Hv as [_ Hv].
    rewrite keys_expire. unfold deadline_of in Hd. destruct (rv_keys v !! _inbox_key (l_to l)) as [e|]; [|done].
    apply decide_True. unfold live_at. cbn. by rewrite Hd. }
  split.
  - pose proof (rep_time _ _ _ Hrep). lia.
  - intros id l [Hl Hlt]%HA. split; [done|]. by eapply (rep_fresh _ _ _ Hrep).
  - intros id. by apply (Hkey _ _ _ (rep_meta _ _ _ Hrep id)).
  - intros id. by apply (Hkey _ _ _ (rep_pending _ _ _ Hrep id)).
  - intros r. destruct (rep_inbox _ _ _ Hrep r) as (z & Hz & H1 & H2).
    unfold zset_at. rewrite keys_expire. unfold zset_at in Hz.
    assert (Hgone : (forall id l, A' !! id = Some l -> visible t r l = true -> False) -> holds t r A' ∅).
    { intros Hno. split; [|done]. intros id l Hl Hv. exfalso. eauto. }
    assert (Hstill : (forall id l, A !! id = Some l -> visible now r l = true -> (t < l_until l)%Z) -> holds t r A' z).
    { intros Hopen. split.
      - intros id l [Hl _]%HA Hv. auto.
      - intros id s Hs. destruct (H2 _ _ Hs) as [(l & Hl & Hv)|[Hs0 Hst]].
        + rewrite (H1 _ _ Hl Hv) in Hs. simplify_eq. destruct (decide (t < l_exp l)%Z) as [Hlt|Hge].
          * left. exists l. split; [by apply HA|]. apply visible_spec. apply visible_spec in Hv as Hv'. split; [by apply Hv'|eauto].
          * right. destruct (rep_fresh _ _ _ Hrep _ _ Hl). pose proof (rep_time _ _ _ Hrep). split; [lia|].
            intros l' [Hl' ?]%HA. simplify_eq. lia.
        + right. split; [lia|]. intros l [Hl _]%HA. eauto. }
    destruct (rv_keys v !! _inbox_key r) as [[[]]|] eqn:E; simplify_eq.
    + case_decide as Hlv.
      * exists z. split; [done|]. apply Hstill. intros id l Hl Hv. pose proof Hv as [Hr _]%visible_spec. subst r.
        pose proof (rep_until _ _ _ Hrep _ _ Hl Hv) as Hd. unfold deadline_of in Hd. rewrite E in Hd. cbn in Hd. subst.
        exact Hlv.
      * exists ∅. split; [done|]. apply Hgone. intros id l Hl Hv. pose proof Hv as [Hr _]%visible_spec. subst r.
        pose proof (Hin _ _ Hl Hv) as Hk. rewrite keys_expire, E in Hk. by rewrite decide_False in Hk.
    + exists ∅. split; [done|]. apply Hgone. intros id l [Hl _]%HA Hv%Hvis. by specialize (H1 _ _ Hl Hv).
  - intros id l Hl Hv. rewrite (deadline_of_ext _ _ v) by by eapply Hin.
    apply (rep_until _ _ _ Hrep id); [by apply HA|by apply Hvis].
  - destruct (rep_index _ _ _ Hrep) as (idx & Hx). unfold zset_at in *. rewrite keys_expire.
    destruct (rv_keys v !! _BLOB_EXPIRY_INDEX_KEY) as [[[]]|]; simplify_eq; [|by eexists]. case_decide; by eexists.
Qed.

(** Views with the same keys represent the same mailbox. *)
Lemma rep_ext now A v v' :
  represents now A v -> (forall k, rv_keys v' !! k = rv_keys v !! k) -> represents now A v'.
Proof.
  intros [Ht Hf Hm Hp Hi Hu Hx] Hk. split; [done|done|..]; try (intros *; rewrite Hk; done).
  - intros r. destruct (Hi r) as (z & Hz & Hh). exists z. by rewrite (zset_at_ext _ v' v).
  - intros id l Hl Hv. rewrite (deadline_of_ext _ v' v) by done. by eapply Hu.
  - destruct Hx as (idx & Hx). exists idx. by rewrite (zset_at_ext _ v' v).
Qed.

(** ** The operations on a server *)

Lemma slice_take {A} n (l : list A) : (1 <= n)%Z -> slice 0 (n - 1) l = take (Z.to_nat n) l.
Proof.
  intros Hn. unfold slice, rank. rewrite (proj2 (Z.ltb_ge _ _)) by lia.
  replace (Z.max 0 (if (0 <? 0)%Z then _ else 0%Z)) with 0%Z by done. cbn [Z.to_nat drop].
  by replace (n - 1 - 0 + 1)%Z with n by lia.
Qed.

Section Operations.
  Context `{Sha256} (A : mailbox).

(** Reading the metadata of letters. *)
Definition got (ids : list string) : list reply :=
  omap (fun id => (fun l => RBulk (dumps (JObj (l_meta l)))) <$> A !! id) ids.
Lemma gets_run now v (ids : list string) :
  represents now A v -> Forall (fun id => is_Some (A !! id)) ids ->
  let rs := got ids in
  pipe_ok now (map (fun eid => get_cmd (_envelope_meta_key eid)) ids) v rs v /\
  omap (fun r => load_meta (bulk_of r)) rs = omap (fun id => (fun l => JObj (l_meta l)) <$> A !! id) ids.
Proof.
  intros Hrep. induction 1 as [|id ids [l Hl] Hids [IH1 IH2]]; cbn zeta in *; [done|].
  destruct (rep_fresh _ _ _ Hrep _ _ Hl) as [_ Hwf].
  assert (E : got (id :: ids) = RBulk (dumps (JObj (l_meta l))) :: got ids) by (unfold got; cbn; by rewrite Hl).
  rewrite E. cbn [map omap list_omap bulk_of load_meta]. rewrite Hl, (loads_dumps _ Hwf). cbn. split.
  - split; [done|]. exists v. split; [|exact IH1]. unfold str_at. by rewrite (rep_meta _ _ _ Hrep), Hl.
  - by f_equal.
Qed.

Lemma sim_list r limit (w : vworld) :
  calm w -> represents (w_now w) A (w_redis w) -> (1 <= limit)%Z ->
  exists v', run_doc (list_inbox r limit) w = (Ok (mlist (w_now w) r (Z.to_nat limit) A), set_redis v' w) /\
    represents (w_now w) A v'.
Proof.
  intros Hc Hrep Hlim. destruct (rep_inbox _ _ _ Hrep r) as (z & Hz & _).
  destruct (rep_live _ _ _ Hrep r z Hz) as [Hlive _].
  set (v' := put_zset (_inbox_key r) (box (w_now w) r A) (w_redis w)).
  assert (Hrep' : represents (w_now w) A v').
  { eapply (rep_sweep _ _ _ Hrep r (box (w_now w) r A)).
    - unfold v'. by at_simpl.
    - intros z0 Hz0. simplify_eq. rewrite <- Hlive. split; [done|]. apply map_filter_subseteq.
    - unfold v', deadline_of. rewrite keys_put_zset, decide_True by done. case_decide; [by right|by left].
    - intros k Hk _. unfold v'. at_simpl. done. }
  exists v'. split; [|done]. unfold list_inbox. rewrite run_doc_bind, run_doc_now, run_doc_bind, run_doc_redis by done.
  unfold lua_call. rewrite rrun_rcall. cbn [documented]. rewrite Hz. cbn [fst snd as_any res_of].
  fold (live (w_now w) z). rewrite Hlive. fold v'.
  rewrite run_doc_bind, run_doc_redis, rrun_rcall by done. cbn [documented w_redis set_redis].
  unfold v' at 1. at_simpl. cbn [fst snd as_list res_of].
  rewrite slice_take, fmap_take by done. unfold mlist.
  set (ids := take (Z.to_nat limit) (by_score (box (w_now w) r A)).*1).
  assert (Hids : Forall (fun id => is_Some (A !! id)) ids).
  { apply Forall_forall. intros id Hin. unfold ids in Hin. apply elem_of_take in Hin as (i & Hin & _).
    apply list_elem_of_lookup_2, by_score_ids in Hin as [s Hin]. apply box_lookup in Hin as (l & Hl & _). by eexists. }
  destruct (gets_run (w_now w) v' ids Hrep' Hids) as [Hpipe Hres].
  destruct ids as [|i ids]; [done|]. rewrite run_doc_bind.
  erewrite run_pipeline by (try exact Hc; exact Hpipe). by rewrite run_doc_ret, Hres.
Qed.

Lemma sim_post a (w : vworld) :
  calm w -> represents (w_now w) A (w_redis w) -> mop_ok (MPost a) ->
  exists v', run_doc (enqueue_envelope a) w = (fst (mpost (w_now w) a A), set_redis v' w) /\
    represents (w_now w) (snd (mpost (w_now w) a A)) v'.
Proof.
  intros Hc Hrep Hok. unfold mpost. set (exp := expiry _ _ _ _).
  assert (Hsame : w = set_redis (w_redis w) w) by by destruct w.
  destruct (Z.leb_spec exp (w_now w)) as [Hle|Hlt].
  { exists (w_redis w). rewrite <- Hsame. split; [by apply run_enqueue_expired|done]. }
  destruct (build_meta a exp) as [meta|e] eqn:Hm.
  2: { exists (w_redis w). rewrite <- Hsame. split; [|done]. unfold enqueue_envelope. rewrite run_doc_bind, run_doc_now.
       fold exp. rewrite (proj2 (Z.leb_gt _ _)) by lia. rewrite run_doc_bind. unfold of_res at 1. by rewrite Hm. }
  pose proof (rep_meta _ _ _ Hrep (ea_envelope_id a)) as Hkey.
  destruct (A !! ea_envelope_id a) as [l|] eqn:Hid; cbn in Hkey.
  { exists (w_redis w). rewrite <- Hsame. split; [|done]. destruct (calm_pop w Hc) as [Hn Hp].
    rewrite (run_enqueue_claim a w meta), Hkey, Hp by done. done. }
  destruct (rep_inbox _ _ _ Hrep (ea_recipient a)) as (z & Hz & _).
  destruct (rep_live _ _ _ Hrep _ z Hz) as [Hlive _]. rewrite <- Hlive.
  destruct (Z.leb_spec MAX_INBOX_QUEUE_DEPTH (Z.of_nat (size (live (w_now w) z)))) as [Hfull|Hroom].
  - destruct (run_enqueue_full a w meta z) as (v' & E & Hi & _ & Hf); [done..|].
    exists v'. split; [done|]. eapply (rep_sweep _ _ _ Hrep (ea_recipient a) (live (w_now w) z)).
    + rewrite (zset_at_ext _ _ _ Hi). by at_simpl.
    + intros z0 Hz0. simplify_eq. split; [done|]. apply map_filter_subseteq.
    + rewrite (deadline_of_ext _ _ _ Hi). unfold deadline_of. rewrite keys_put_zset, decide_True by done.
      case_decide; [by right|by left].
    + auto.
  - destruct (rep_index _ _ _ Hrep) as (idx & Hx).
    destruct (run_enqueue a w meta z ∅ idx) as (v' & E & Hpost); try done.
    { unfold set_at. by rewrite (rep_pending _ _ _ Hrep), Hid. }
    exists v'. split; [done|]. destruct (build_meta_ok _ _ _ Hm Hok) as [Hwf _].
    by eapply rep_post.
Qed.

Lemma keys_put_set_same k x v k' :
  rv_keys v !! k = Some (Entry (VSet x) (deadline_of k v)) -> x <> ∅ -> rv_keys (put_set k x v) !! k' = rv_keys v !! k'.
Proof. intros Hk Hx. rewrite keys_put_set. case_decide as E; [|done]. subst. by rewrite decide_False. Qed.

Lemma sim_ack r id (w : vworld) :
  calm w -> represents (w_now w) A (w_redis w) ->
  exists b ts v', run_doc (acknowledge_envelope r id) w = (Ok b, set_tasks ts (set_redis v' w)) /\
    exists A', mstep (w_now w) A (MAck r id) (AnAck b) (w_now w) A' /\ represents (w_now w) A' v'.
Proof.
  intros Hc Hrep. set (now := w_now w) in *. set (v := w_redis w) in *.
  destruct (rep_inbox _ _ _ Hrep r) as (z & Hz & Hh). pose proof Hh as [H1 H2].
  pose proof (rep_pending _ _ _ Hrep id) as Hp.
  destruct (z !! id) as [s|] eqn:Hid.
  2: { exists false, (w_tasks w), (put_zset (_inbox_key r) (delete id z) v). split.
       { rewrite (run_ack_absent r id w z) by done. by destruct w. }
       exists A. split.
       - apply mstep_none. destruct (A !! id) as [l|] eqn:Hl; [|done].
         destruct (visible now r l) eqn:Hv; [|done]. by rewrite (H1 _ _ Hl Hv) in Hid.
       - rewrite delete_id by done. eapply (rep_sweep _ _ _ Hrep r z); [by at_simpl|..].
         + intros z0 Hz0. simplify_eq. split; [|done]. apply map_filter_subseteq.
         + unfold deadline_of. rewrite keys_put_zset, decide_True by done. case_decide; [by right|by left].
         + intros k Hk _. by at_simpl. }
  assert (Hset : set_at (_pending_recipients_key id) v = Some (match A !! id with Some l => {[l_to l]} | None => ∅ end))
    by (unfold set_at; rewrite Hp; by destruct (A !! id)).
  assert (Htaken : forall k, k <> _inbox_key r -> (forall id r, k <> _delivery_tombstone_key id r) ->
            rv_keys (taken r id now z v) !! k = rv_keys v !! k)
    by (intros k Hk Ht; unfold taken; specialize (Ht id r); by at_simpl).
  assert (Hzt : zset_at (_inbox_key r) (taken r id now z v) = Some (delete id z)) by (unfold taken; by at_simpl).
  assert (Hdt : delete id z = ∅ \/ deadline_of (_inbox_key r) (taken r id now z v) = deadline_of (_inbox_key r) v).
  { unfold taken, deadline_of. at_simpl. rewrite keys_put_zset, decide_True by done. case_decide; [by left|by right]. }
  exists true. do 2 eexists. split; [by apply (run_ack r id w z s)|]. fold now v. unfold acked. rewrite Hp.
  assert (Hswept : (forall l, A !! id = Some l -> l_to l <> r) -> represents now A (taken r id now z v)).
  { intros Hne. eapply (rep_sweep _ _ _ Hrep r (delete id z)); [done| |by destruct Hdt; [right|left]|done].
    intros z0 Hz0. simplify_eq. split; [|apply delete_subseteq].
    destruct (rep_live _ _ _ Hrep r z Hz) as [Hlive _]. rewrite Hlive.
    apply map_subseteq_spec. intros i e (l & Hl & Hv & <-)%box_lookup.
    pose proof Hv as [Hr _]%visible_spec. rewrite lookup_delete_ne by (intros <-; by apply (Hne l)). auto. }
  destruct (H2 _ _ Hid) as [(l & Hl & Hv)|[Hs Hst]].
  - pose proof Hv as [Hr _]%visible_spec. exists (delete id A). split; [by eapply mstep_take|].
    rewrite Hl in *. cbn [fmap option_fmap option_map]. rewrite Hr. rewrite difference_diag_L, decide_True by done.
    eapply (rep_take now A v r id l z); [done..| | | | |].
    + at_simpl. done.
    + destruct Hdt as [?|Hd]; [by left|right]. unfold deadline_of in *. at_simpl. done.
    + by at_simpl.
    + at_simpl. done.
    + intros k. rewrite !not_elem_of_cons. intros (Hk1 & Hk2 & Hk3 & Hk4 & _).
      assert (rv_keys (taken r id now z v) !! k = rv_keys v !! k) by (unfold taken; by at_simpl).
      by at_simpl.
  - exists A. split.
    { apply mstep_none. destruct (A !! id) as [l|] eqn:Hl; [|done]. unfold visible.
      destruct (String.eqb_spec (l_to l) r) as [E|E]; [by destruct (Hst _ eq_refl)|done]. }
    destruct (A !! id) as [l|] eqn:Hl; cbn [fmap option_fmap option_map]; [|by apply Hswept].
    assert (Hne : l_to l <> r) by by apply Hst.
    assert (E : ({[l_to l]} : gset string) ∖ {[r]} = {[l_to l]}) by set_solver.
    rewrite E, decide_False by set_solver.
    assert (Hsame : forall k, rv_keys (put_set (_pending_recipients_key id) {[l_to l]} (taken r id now z v)) !! k =
                              rv_keys (taken r id now z v) !! k).
    { intros k. apply keys_put_set_same; [|set_solver]. unfold deadline_of.
      rewrite Htaken by (intros; string_ne). by rewrite Hp. }
    eapply (rep_ext now A (taken r id now z v)); [|done]. apply Hswept. intros l' Hl'. congruence.
Qed.
End Operations.

(** ** The simulation *)

Section Simulation.
  Context `{R : Redis} `{Sha256}.

Lemma sim_step A o (w : world rstore) :
  calm w -> represents (w_now w) A (w_redis (absw w)) -> mop_ok o -> forward (w_now w) [o] ->
  let w' := snd (qstep o w) in
  calm w' /\ exists A', mstep (w_now w) A o (fst (qstep o w)) (w_now w') A' /\
    represents (w_now w') A' (w_redis (absw w')).
Proof.
  intros Hc Hrep Hok Hfw.
  pose proof (fun X (p : prog X) => srv_calm p w Hc) as Hcalm. pose proof (fun X (p : prog X) => srv_now p w) as Hnow.
  destruct o as [a|r limit|r id|t]; cbn [qstep].
  - destruct (sim_post A a (absw w) Hc Hrep Hok) as (v' & E & Hr).
    pose proof (run_absw (enqueue_envelope a) w) as Hrun. specialize (Hcalm _ (enqueue_envelope a)).
    specialize (Hnow _ (enqueue_envelope a)). destruct (run (enqueue_envelope a) w) as [x w'].
    specialize (Hrun _ _ eq_refl). rewrite E in Hrun. pose proof (f_equal fst Hrun) as Hx. pose proof (f_equal snd Hrun) as Hw. cbn [fst snd] in *.
    split; [done|]. eexists. rewrite Hnow. split; [rewrite <- Hx; constructor|]. by rewrite <- Hw.
  - destruct (sim_list A r limit (absw w) Hc Hrep Hok) as (v' & E & Hr).
    pose proof (run_absw (list_inbox r limit) w) as Hrun. specialize (Hcalm _ (list_inbox r limit)).
    specialize (Hnow _ (list_inbox r limit)). destruct (run (list_inbox r limit) w) as [x w'].
    specialize (Hrun _ _ eq_refl). rewrite E in Hrun. pose proof (f_equal fst Hrun) as Hx. pose proof (f_equal snd Hrun) as Hw. cbn [fst snd] in *.
    split; [done|]. exists A. rewrite Hnow. split; [rewrite <- Hx; constructor|]. by rewrite <- Hw.
  - destruct (sim_ack A r id (absw w) Hc Hrep) as (b & ts & v' & E & A' & Hstep & Hr).
    pose proof (run_absw (acknowledge_envelope r id) w) as Hrun. specialize (Hcalm _ (acknowledge_envelope r id)).
    specialize (Hnow _ (acknowledge_envelope r id)). destruct (run (acknowledge_envelope r id) w) as [x w'].
    specialize (Hrun _ _ eq_refl). rewrite E in Hrun. pose proof (f_equal fst Hrun) as Hx. pose proof (f_equal snd Hrun) as Hw. cbn [fst snd] in *.
    split; [done|]. exists A'. rewrite Hnow. split; [by rewrite <- Hx|]. by rewrite <- Hw.
  - destruct Hfw as [Ht _]. cbn [fst snd]. split; [done|]. eexists. split; [by constructor|].
    rewrite absw_later by done. by apply rep_wait with (w_now w).
Qed.

Lemma sim_steps A os (w : world rstore) :
  calm w -> represents (w_now w) A (w_redis (absw w)) -> Forall mop_ok os -> forward (w_now w) os ->
  let w' := snd (qsteps os w) in
  exists A', msteps (w_now w) A os (fst (qsteps os w)) (w_now w') A' /\ represents (w_now w') A' (w_redis (absw w')).
Proof.
  revert A w. induction os as [|o os IH]; intros A w Hc Hrep Hok Hfw; cbn [qsteps].
  - exists A. split; [constructor|done].
  - apply Forall_cons in Hok as [Ho Hok].
    assert (Hfw1 : forward (w_now w) [o] /\ forward (w_now (snd (qstep o w))) os).
    { destruct o as [a|r limit|r id|t]; [..|by destruct Hfw]; cbn [qstep forward] in *; (split; [done|]).
      - pose proof (srv_now (enqueue_envelope a) w) as E. destruct (run (enqueue_envelope a) w). cbn in *. by rewrite E.
      - pose proof (srv_now (list_inbox r limit) w) as E. destruct (run (list_inbox r limit) w). cbn in *. by rewrite E.
      - pose proof (srv_now (acknowledge_envelope r id) w) as E. destruct (run (acknowledge_envelope r id) w).
        cbn in *. by rewrite E. }
    destruct Hfw1 as [Hfw1 Hfw2]. destruct (sim_step A o w Hc Hrep Ho Hfw1) as (Hc1 & A1 & Hstep & Hrep1).
    destruct (qstep o w) as [x w1]. cbn [fst snd] in *.
    destruct (IH A1 w1 Hc1 Hrep1 Hok Hfw2) as (A2 & Hsteps & Hrep2).
    destruct (qsteps os w1) as [xs w2]. cbn [fst snd] in *. exists A2. split; [by econstructor|done].
Qed.

(** C3: the Redis queue implements a mailbox.  From a server that represents a mailbox, any sequence
    of posts, listings, acknowledgements and waits gives exactly the answers that the mailbox gives:
    posts are refused when expired or when the box holds 5000 letters, known ids are duplicates, a
    listing shows the oldest letters that are neither taken nor expired and whose box is open, a taken
    letter is gone; and the server represents the resulting mailbox. *)
Theorem queue_refines_mailbox A os (w : world rstore) :
  calm w -> represents (w_now w) A (w_redis (absw w)) -> Forall mop_ok os -> forward (w_now w) os ->
  let w' := snd (qsteps os w) in
  exists A', msteps (w_now w) A os (fst (qsteps os w)) (w_now w') A' /\ represents (w_now w') A' (w_redis (absw w')).
Proof.
  apply sim_steps.
Qed.

Lemma box_closed now r A : (forall id l, A !! id = Some l -> visible now r l = false) -> box now r A = ∅.
Proof.
  intros Hno. apply map_empty. intros id. destruct (box now r A !! id) as [e|] eqn:E; [|done].
  apply box_lookup in E as (l & Hl & Hv & _). by rewrite (Hno _ _ Hl) in Hv.
Qed.

(** A short-lived post closes the box over longer-lived letters.  Each post sets the deadline of
    the inbox key anew, an hour after its own expiry, also backwards.  Once that time has come, a
    letter that was waiting there and has not expired is listed nowhere any more, although its
    metadata is still kept, and posting it again is answered as a duplicate. *)
Theorem short_post_closes_inbox A id l b t limit (w : world rstore) :
  let now := w_now w in
  let exp := expiry (ea_timestamp b) (ea_ttl b) now (ea_hard_ceiling b) in
  calm w -> represents now A (w_redis (absw w)) ->
  A !! id = Some l -> visible now (ea_recipient b) l = true -> (t < l_exp l)%Z ->
  A !! ea_envelope_id b = None -> (now < exp)%Z -> is_Some (match build_meta b exp with Ok m => Some m | Raise _ => None end) ->
  mop_ok (MPost b) -> (Z.of_nat (size (box now (ea_recipient b) A)) < MAX_INBOX_QUEUE_DEPTH)%Z ->
  (now + inbox_key_ttl (exp - now) <= t)%Z -> (1 <= limit)%Z ->
  let w1 := snd (run (enqueue_envelope b) w) in
  let w2 := set_now t w1 in
  fst (run (enqueue_envelope b) w) = Ok (Some exp) /\
  fst (run (list_inbox (l_to l) limit) w2) = Ok [] /\
  fst (run (envelope_exists id) w2) = Ok true /\
  (forall a meta exp', ea_envelope_id a = id -> exp' = expiry (ea_timestamp a) (ea_ttl a) t (ea_hard_ceiling a) ->
     (t < exp')%Z -> build_meta a exp' = Ok meta -> fst (run (enqueue_envelope a) w2) = Ok None).
Proof.
  intros now exp Hc Hrep Hl Hv Hlt Hfresh Hexp [meta Hm] Hok Hroom Ht Hlim w1 w2.
  destruct (build_meta b exp) as [m|] eqn:Em; [|done].
  destruct (sim_post A b (absw w) Hc Hrep Hok) as (v' & E & Hrep1).
  unfold mpost in E, Hrep1. fold now exp in E, Hrep1. change (w_now (absw w)) with now in E, Hrep1. fold exp in E, Hrep1.
  rewrite (proj2 (Z.leb_gt _ _)), Em, Hfresh, (proj2 (Z.leb_gt _ _)) in E, Hrep1 by done. cbn [fst snd] in E, Hrep1.
  pose proof Hv as [Hr Hu]%visible_spec. rewrite Hr.
  set (d := (now + inbox_key_ttl (exp - now))%Z) in *. set (A1 := <[ea_envelope_id b := _]> _) in Hrep1.
  assert (E1 : absw w1 = set_redis v' (absw w)) by (unfold w1; by rewrite snd_run_absw, E).
  assert (Hn1 : w_now w1 = now) by (change (w_now (absw w1) = now); by rewrite E1).
  assert (Hd : (now < d)%Z) by (unfold d, inbox_key_ttl, INBOX_KEY_TTL_SLACK_SECONDS; lia).
  assert (E2 : absw w2 = later t (absw w1)) by (unfold w2; rewrite absw_later; [done|lia]).
  assert (Hc2 : calm (absw w2)) by (rewrite E2, E1; done).
  set (A2 := filter (fun kl : string * letter => t < l_exp kl.2)%Z A1).
  assert (Hrep2 : represents (w_now (absw w2)) A2 (w_redis (absw w2))).
  { rewrite E2, E1. apply (rep_wait now); [done|lia]. }
  assert (Hclosed : box t (ea_recipient b) A2 = ∅).
  { apply box_closed. intros i l' [Hl' _]%map_lookup_filter_Some. apply not_true_is_false. intros [Hr' Hv']%visible_spec.
    unfold A1 in Hl'. apply lookup_insert_Some in Hl' as [[_ <-]|[_ Hl']]; [cbn in *; lia|].
    rewrite lookup_fmap_Some in Hl'. destruct Hl' as (l0 & <- & Hl0). rewrite reset_to in Hr'.
    unfold reset in Hv'. destruct (visible now (ea_recipient b) l0) eqn:E0; [cbn in Hv'; lia|].
    unfold visible in E0. rewrite Hr', String.eqb_refl in E0. cbn in E0. apply Z.ltb_ge in E0. lia. }
  assert (Hl2 : exists l2, A2 !! id = Some l2).
  { exists (reset now (ea_recipient b) d l). apply map_lookup_filter_Some. cbn. rewrite reset_exp. split; [|done].
    unfold A1. rewrite lookup_insert_ne, lookup_fmap, Hl by congruence. done. }
  destruct Hl2 as [l2 Hl2]. change (w_now (absw w2)) with t in Hrep2.
  split_and!.
  - by rewrite fst_run, E.
  - destruct (sim_list A2 (ea_recipient b) limit (absw w2) Hc2 Hrep2 Hlim) as (v2 & El & _).
    rewrite fst_run, El. unfold mlist. change (w_now (absw w2)) with t. rewrite Hclosed.
    unfold by_score. rewrite map_to_list_empty. by destruct (Z.to_nat limit).
  - rewrite fst_run. unfold envelope_exists. rewrite run_doc_bind, run_doc_redis, rrun_rcall by done.
    cbn [documented fst]. by rewrite (rep_meta _ _ _ Hrep2), Hl2.
  - intros a meta' exp' Ha -> Hexp' Hm'. rewrite fst_run. destruct (calm_pop (absw w2) Hc2) as [Hnf Hp].
    rewrite (run_enqueue_claim a (absw w2) meta'), Hp, Ha, (rep_meta _ _ _ Hrep2), Hl2 by done. done.
Qed.
End Simulation.

(** ** The empty mailbox *)

Lemma represents_empty now v :
  (0 <= now)%Z -> (forall k, rv_keys v !! k = None) -> represents now ∅ v.
Proof.
  intros Hn Hk. split; try done; try (intros *; rewrite Hk, lookup_empty; done).
  - intros r. exists ∅. split; [unfold zset_at; by rewrite Hk|]. split; intros *; rewrite lookup_empty; done.
  - exists ∅. unfold zset_at. by rewrite Hk.
Qed.

(** ** Witnesses *)

Module MailboxDemo.
#[local] Instance demo_sha : Sha256 := fun s => s.

Lemma empty_represents : represents 1000 ∅ (w_redis (absw Demo.empty_server)).
Proof. apply represents_empty; [done|]. intros k. by vm_compute. Qed.

Definition history : list mop :=
  [ MPost Demo.dm; MList "bob" 10; MWait 1100; MPost Demo.dm; MAck "bob" "abcd"; MList "bob" 10;
    MPost Demo.stale_dm ].

Lemma refines_witness :
  fst (qsteps history Demo.empty_server) =
    [ AnPost (Ok (Some 1600%Z)); AnList [JObj (Demo.meta_of Demo.dm 1600)]; AnWait; AnPost (Ok None); AnAck true;
      AnList []; AnPost (Raise (EnqueueRejected 400 "envelope_already_expired")) ] /\
  exists A', msteps 1000 ∅ history (fst (qsteps history Demo.empty_server))
    (w_now (snd (qsteps history Demo.empty_server))) A' /\
    represents (w_now (snd (qsteps history Demo.empty_server))) A' (w_redis (absw (snd (qsteps history Demo.empty_server)))).
Proof.
  split; [vm_compute; reflexivity|].
  apply (queue_refines_mailbox ∅ history Demo.empty_server).
  - reflexivity.
  - exact empty_represents.
  - repeat (apply Forall_cons_2; [cbn; (exact I || lia || apply Forall_nil_2)|]). apply Forall_nil_2.
  - cbn. split; [lia|exact I].
Defined.

(** A letter for a day, and one for a minute. *)
Definition day : enqueue_args :=
  EnqueueArgs "long" "alice" "bob" 1000 86400 "sig" 86400 None false None None None None None.
Definition brief : enqueue_args :=
  EnqueueArgs "brief" "carol" "bob" 1000 60 "sig" 86400 None false None None None None None.
Definition after_day : world (rstore (Redis := Mem_Redis)) := snd (run (enqueue_envelope day) Demo.empty_server).
Definition box_day : mailbox := snd (mpost 1000 day ∅).

Lemma day_represents : represents 1000 box_day (w_redis (absw after_day)).
Proof.
  destruct (sim_post ∅ day (absw Demo.empty_server)) as (v' & E & Hr); [done|apply empty_represents|apply Forall_nil_2|].
  unfold after_day. rewrite snd_run_absw, E. exact Hr.
Qed.

Lemma short_post_witness :
  let w2 := set_now 4700 (snd (run (enqueue_envelope brief) after_day)) in
  fst (run (list_inbox "bob" 10) w2) = Ok [] /\ fst (run (envelope_exists "long") w2) = Ok true.
Proof.
  destruct (short_post_closes_inbox box_day "long" (Letter "bob" 87400 (Demo.meta_of day 87400) 91000) brief 4700 10
    after_day) as (_ & Hl & He & _); [reflexivity|apply day_represents|..|by split];
    try (vm_compute; reflexivity); try (vm_compute; intros; discriminate).
  - vm_compute. eexists. reflexivity.
  - apply Forall_nil_2.
Defined.
End MailboxDemo.
