(* ===== verification/QueueTypes.v ===== *)
(** * The queue's keys keep their types (queue.py)

    Redis has no schema: a command on a key that holds another kind of value is refused.  Each family
    of keys of the queue holds one kind of value, and metadata is always the text of an object. *)

From Stdlib Require Import Ascii String.
From stdpp Require Import prelude gmap strings list.
From S2P Require Import Prelude Json RedisStore Models Effects Crypto BlobStorage Queue QueueFacts.

#[local] Open Scope morok_scope.

(** ** The schema *)

Definition string_ok (k s : string) : Prop :=
  (forall r, k <> _inbox_key r) /\ (forall id, k <> _pending_recipients_key id) /\ k <> _BLOB_EXPIRY_INDEX_KEY /\
  forall id, k = _envelope_meta_key id -> exists d, loads s = Some (JObj d).
Definition set_ok (k : string) : Prop :=
  (forall r, k <> _inbox_key r) /\ (forall id, k <> _envelope_meta_key id) /\ k <> _BLOB_EXPIRY_INDEX_KEY /\
  (forall id, k <> _sender_tombstone_key id) /\ forall id r, k <> _delivery_tombstone_key id r.
Definition zset_ok (k : string) : Prop :=
  (forall id, k <> _pending_recipients_key id) /\ (forall id, k <> _envelope_meta_key id) /\
  (forall id, k <> _sender_tombstone_key id) /\ forall id r, k <> _delivery_tombstone_key id r.

Definition value_ok (k : string) (x : rval) : Prop :=
  match x with VStr s => string_ok k s | VSet _ => set_ok k | VZSet _ => zset_ok k end.

Definition typed (v : rview) : Prop := forall k e, rv_keys v !! k = Some e -> value_ok k (e_val e).

Create HintDb typed.

(** What a typed view says of each family. *)
Lemma typed_inbox v r : typed v -> is_Some (zset_at (_inbox_key r) v).
Proof.
  intros Hv. unfold zset_at. destruct (rv_keys v !! _inbox_key r) as [[x d]|] eqn:E; [|done].
  specialize (Hv _ _ E). destruct x; cbn in Hv; [|by destruct Hv as [Hv _]; destruct (Hv r)|done].
  by destruct Hv as [Hv _]; destruct (Hv r).
Qed.
Lemma typed_index v : typed v -> is_Some (zset_at _BLOB_EXPIRY_INDEX_KEY v).
Proof.
  intros Hv. unfold zset_at. destruct (rv_keys v !! _BLOB_EXPIRY_INDEX_KEY) as [[x d]|] eqn:E; [|done].
  specialize (Hv _ _ E). destruct x; cbn in Hv; [by destruct Hv as (_ & _ & [] & _)|by destruct Hv as (_ & _ & [] & _)|done].
Qed.
Lemma typed_pending v id : typed v -> is_Some (set_at (_pending_recipients_key id) v).
Proof.
  intros Hv. unfold set_at. destruct (rv_keys v !! _pending_recipients_key id) as [[x d]|] eqn:E; [|done].
  specialize (Hv _ _ E). destruct x; cbn in Hv; [by destruct Hv as (_ & Hv & _); destruct (Hv id)|done|].
  by destruct Hv as (Hv & _); destruct (Hv id).
Qed.
Lemma typed_meta v id : typed v ->
  exists o, str_at (_envelope_meta_key id) v = Some o /\ forall s, o = Some s -> exists d, loads s = Some (JObj d).
Proof.
  intros Hv. unfold str_at. destruct (rv_keys v !! _envelope_meta_key id) as [[x d]|] eqn:E; [|by eexists].
  specialize (Hv _ _ E). destruct x; cbn in Hv.
  - exists (Some s). split; [done|]. intros s' [= ->]. by apply (proj2 (proj2 (proj2 Hv)) id).
  - by destruct Hv as (_ & Hv & _); destruct (Hv id).
  - by destruct Hv as (_ & Hv & _); destruct (Hv id).
Qed.

(** ** Commands that respect it *)

Definition cmd_ok (c : command) : Prop :=
  match c with
  | SET k s _ _ _ _ => string_ok k s
  | INCR _ | DECR _ => False
  | SADD k _ => set_ok k
  | ZADD k _ _ => zset_ok k
  | _ => True
  end.

Lemma typed_put k e v : typed v -> value_ok k (e_val e) -> typed (put k e v).
Proof. intros Hv He k' e'. rewrite keys_put. case_decide; [by intros [= <-]; subst|apply Hv]. Qed.
Lemma typed_del k v : typed v -> typed (del k v).
Proof. intros Hv k' e'. rewrite keys_del. case_decide; [done|apply Hv]. Qed.
Lemma typed_publish ch m v : typed v -> typed (publish ch m v).
Proof. done. Qed.
Lemma typed_expire now v : typed v -> typed (expire now v).
Proof.
  intros Hv k e. rewrite keys_expire. destruct (rv_keys v !! k) eqn:E; [|done].
  case_decide; [|done]. intros [= <-]. by apply Hv.
Qed.
Lemma typed_put_set k x v : typed v -> (x <> ∅ -> set_ok k) -> typed (put_set k x v).
Proof. intros Hv Hk. unfold put_set. case_decide; [by apply typed_del|]. apply typed_put; [done|]. by apply Hk. Qed.
Lemma typed_put_zset k z v : typed v -> (z <> ∅ -> zset_ok k) -> typed (put_zset k z v).
Proof. intros Hv Hk. unfold put_zset. case_decide; [by apply typed_del|]. apply typed_put; [done|]. by apply Hk. Qed.
#[local] Hint Resolve typed_put typed_del typed_publish typed_put_set typed_put_zset : typed.

(** A set that is there is one by the schema. *)
Lemma typed_set_at k v x : typed v -> set_at k v = Some x -> x <> ∅ -> set_ok k.
Proof.
  intros Hv. unfold set_at. destruct (rv_keys v !! k) as [[[] d]|] eqn:E; intros Hx Hne; simplify_eq.
  by apply (Hv _ _ E).
Qed.
Lemma typed_zset_at k v z : typed v -> zset_at k v = Some z -> z <> ∅ -> zset_ok k.
Proof.
  intros Hv. unfold zset_at. destruct (rv_keys v !! k) as [[[] d]|] eqn:E; intros Hx Hne; simplify_eq.
  by apply (Hv _ _ E).
Qed.

#[local] Instance typed_harmless : Harmless typed cmd_ok.
Proof.
  intros c Hc now v Hv. destruct c; cbn [cmd_ok] in Hc; try done; cbn [documented].
  all: try (repeat case_match; cbn [snd]; auto with typed; fail).
  - (* DEL *)
    intros k e. destruct (documented_del now ks v) as (n & _ & Hd). cbn [documented] in Hd. rewrite Hd.
    case_decide; [done|apply Hv].
  - (* EXPIRE *)
    destruct (rv_keys v !! k) as [e|] eqn:E; [|done]. case_match; cbn [snd]; [by apply typed_del|].
    apply typed_put; [done|]. exact (Hv _ _ E).
  - (* SREM *)
    destruct (set_at k v) as [x|] eqn:E; [|done]. apply typed_put_set; [done|]. intros Hne.
    eapply typed_set_at; [done..|]. intros ->. apply Hne. set_solver.
  - (* ZREM *)
    destruct (zset_at k v) as [z|] eqn:E; [|done]. apply typed_put_zset; [done|]. intros Hne.
    eapply typed_zset_at; [done..|]. intros ->. apply Hne. by rewrite delete_empty.
  - (* ZREMRANGEBYSCORE *)
    destruct (zset_at k v) as [z|] eqn:E; [|done]. apply typed_put_zset; [done|]. intros Hne.
    eapply typed_zset_at; [done..|]. intros ->. apply Hne. by rewrite map_filter_empty.
Qed.

(** ** The operations of the queue *)

Ltac family :=
  unfold string_ok, set_ok, zset_ok; split_and!; intros; first [string_ne | exfalso; revert select (_ = _); string_ne].
Ltac cmd_ok := first [exact I | cbn [cmd_ok set_ex set_nx_ex]; family].
Ltac types := unfold get_cmd; exchanges ltac:(solve [cmd_ok]).

Lemma meta_ok id d : json_wf (JObj d) -> string_ok (_envelope_meta_key id) (dumps (JObj d)).
Proof.
  intros Hd. unfold string_ok. split_and!; try (intros; string_ne). intros _ _. exists d. by apply loads_dumps.
Qed.

Lemma fanout_meta_wf a exp : json_wf (JObj (fanout_meta a exp)).
Proof.
  constructor; [apply (bool_decide_unpack _); vm_compute; exact I|].
  repeat (apply Forall_cons_2; [first [apply opt_str_wf|constructor]|]). apply Forall_nil_2.
Qed.

Lemma types_enqueue_lua r now id exp max : rkeeps typed (_INBOX_ENQUEUE_LUA (_inbox_key r) now id exp max).
Proof.
  unfold _INBOX_ENQUEUE_LUA, lua_call.
  repeat first [ apply rkeeps_rbind; [apply rkeeps_rcall, typed_harmless; cmd_ok|intros ?] | case_match | apply rkeeps_ret ].
Qed.
Lemma types_ack_lua id r : rkeeps typed (_ACK_PENDING_LUA (_pending_recipients_key id) (_envelope_meta_key id) r).
Proof.
  unfold _ACK_PENDING_LUA, lua_call.
  repeat first [ apply rkeeps_rbind; [apply rkeeps_rcall, typed_harmless; cmd_ok|intros ?] | case_match | apply rkeeps_ret ].
Qed.

Section Types.
  Context `{Sha256}.

(** The arguments a post can have: its metadata is JSON. *)
Definition json_args (a : enqueue_args) : Prop := Forall (fun kv => json_wf kv.2) (default [] (ea_extra_meta a)).

Lemma types_enqueue a : json_args a -> exchanges_keep typed (enqueue_envelope a).
Proof.
  intros Ha. unfold enqueue_envelope, drop_meta. apply exchanges_bind; [by types|]. intros now.
  case_match; [done|]. destruct (build_meta a _) as [meta|e] eqn:Em; [|done].
  destruct (build_meta_ok _ _ _ Em Ha) as [Hwf _].
  match goal with |- exchanges_keep _ (bind (of_res (Ok ?m)) ?f) => change (exchanges_keep typed (f m)); cbn beta end.
  apply exchanges_bind; [eapply exchanges_call; [typeclasses eauto|by apply meta_ok]|]. intros written.
  case_match; [done|]. apply exchanges_bind.
  - apply exchanges_try; [apply exchanges_redis, types_enqueue_lua|by types].
  - by types.
Qed.

Lemma types_write_blob id blob : exchanges_keep typed (write_blob id blob).
Proof. unfold write_blob, of_res. by types. Qed.
Lemma types_secure_delete id : exchanges_keep typed (secure_delete_blob id).
Proof. unfold secure_delete_blob, of_res. by types. Qed.

Lemma types_write_enqueue a b : json_args a -> exchanges_keep typed (write_blob_then_enqueue a b).
Proof.
  intros Ha. unfold write_blob_then_enqueue. types.
  - apply types_write_blob.
  - by apply types_enqueue.
  - apply types_secure_delete.
Qed.

Lemma types_fanout a : exchanges_keep typed (enqueue_envelope_for_recipients a).
Proof.
  assert (Hmeta : forall ex exp, cmd_ok (set_ex (_envelope_meta_key (fa_envelope_id a)) (dumps (JObj (fanout_meta a exp))) ex))
    by (intros ex exp; apply meta_ok, fanout_meta_wf).
  unfold enqueue_envelope_for_recipients. apply exchanges_bind; [by types|]. intros now. case_match; [done|].
  apply exchanges_bind; [apply exchanges_try|].
  - apply exchanges_bind; [|by types]. apply exchanges_pipeline. constructor.
    + eapply rkeeps_cmd; [typeclasses eauto|apply Hmeta].
    + apply Forall_map, Forall_true. intros r. apply rkeeps_pipe_script, types_enqueue_lua.
  - by types.
  - intros eligible. apply exchanges_bind; [|by types]. destruct eligible; [by types|].
    apply exchanges_bind; [|by types]. eapply exchanges_multi; [typeclasses eauto|]. constructor; [apply Hmeta|].
    by types.
Qed.

Lemma fields_wf j : json_wf j -> json_wf (JObj (fields j)).
Proof. intros Hj. destruct j; try apply wf_empty. done. Qed.

Lemma seen_scan_ok r ids res :
  Forall (fun iv => exists d, json_wf (JObj d) /\ iv.2 = dumps (JObj d)) (snd (seen_scan r ids res)).
Proof.
  revert res. induction ids as [|eid ids IH]; intros [|score [|raw res]]; cbn [seen_scan]; try apply Forall_nil_2.
  specialize (IH res). destruct (seen_scan r ids res) as [marked to_set]. cbn [snd] in IH.
  unfold seen_decision. destruct (bulk_of score); [|done]. destruct (load_meta (bulk_of raw)) as [j|] eqn:El; [|done].
  assert (Hwf : json_wf (JObj (dict_set "mail_seen" (JBool true) (fields j)))).
  { apply dict_set_wf; [|constructor]. apply fields_wf. unfold load_meta in El. destruct (bulk_of raw); [|done].
    by eapply loads_wf. }
  cbv zeta. repeat case_match; cbn [snd]; try done; simplify_eq; constructor; try done; cbn; eauto.
Qed.

Lemma types_mail_seen r ids : exchanges_keep typed (mark_mail_seen r ids).
Proof.
  unfold mark_mail_seen. destruct (take _ ids) as [|i l]; [done|]. apply exchanges_bind; [by types|]. intros res.
  pose proof (seen_scan_ok r (i :: l) res) as Hok. destruct (seen_scan r (i :: l) res) as [marked to_set]. cbn [snd] in Hok.
  destruct to_set as [|p to_set]; [done|]. apply exchanges_bind; [|by types]. apply exchanges_pipeline, Forall_map.
  eapply Forall_impl; [exact Hok|]. intros [eid val] (d & Hd & Hval). cbn in *. subst val.
  eapply rkeeps_cmd; [typeclasses eauto|by apply meta_ok].
Qed.

Lemma types_ack r id : exchanges_keep typed (acknowledge_envelope r id).
Proof. unfold acknowledge_envelope. types. apply exchanges_redis, types_ack_lua. Qed.

Lemma queue_op_typed p : queue_op json_args True p -> exchanges_keep typed p.
Proof.
  destruct 1; (apply exchanges_pbind; [|done]).
  - by apply types_enqueue.
  - by apply types_write_enqueue.
  - apply types_fanout.
  - unfold list_inbox. by types.
  - unfold is_envelope_in_inbox. by types.
  - unfold get_envelope_meta. by types.
  - unfold envelope_exists. by types.
  - unfold was_delivered_to. by types.
  - apply types_mail_seen.
  - apply types_ack.
  - unfold _delete_blob_after_last_ack. types. apply types_secure_delete.
  - unfold delete_envelope_by_sender. by types.
  - unfold delete_sealed_envelope. by types.
  - unfold delete_envelope_for_group. by types.
  - unfold publish_group_gone. by types.
  - unfold publish_read_receipt. by types.
Qed.
End Types.

(** C39: the queue's keys are typed.  However its operations interleave and whatever fails, inboxes and
    the expiry index are sorted sets, pending recipients are sets, tombstones are text and metadata
    is the text of a JSON object; so no operation is ever refused for the type of a key, and what is
    read as metadata is an object. *)
Theorem queue_keys_typed `{R : Redis} `{Sha256} (luck : list fault -> Prop) ps' (w w' : world rstore) :
  drops luck -> luck (w_faults w) -> typed (w_redis (absw w)) ->
  rtc (cstep (queue_op json_args True) luck) ([], w) (ps', w') ->
  typed (w_redis (absw w')) /\
  forall r id,
    is_Some (zset_at (_inbox_key r) (w_redis (absw w'))) /\
    is_Some (zset_at _BLOB_EXPIRY_INDEX_KEY (w_redis (absw w'))) /\
    is_Some (set_at (_pending_recipients_key id) (w_redis (absw w'))) /\
    exists o, str_at (_envelope_meta_key id) (w_redis (absw w')) = Some o /\
      forall s, o = Some s -> exists d, loads s = Some (JObj d).
Proof.
  intros Hd Hl Hw Hsteps.
  destruct (keeps_reachable (queue_op json_args True) luck (redis_inv typed luck) ([], w) (ps', w'))
    as [[HJ _] _]; cbn [fst snd]; try done.
  - apply redis_inv_stable. intros now v. apply typed_expire.
  - intros p Hp. apply exchanges_keeps; [done|]. by apply queue_op_typed.
  - split; [done|]. intros r id. split_and!; [by apply typed_inbox|by apply typed_index|by apply typed_pending|by apply typed_meta].
Qed.

Module TypesDemo.
#[local] Instance demo_sha : Sha256 := fun s => s.

Definition posted_server : world (rstore (Redis := Mem_Redis)) :=
  snd (run (detached (enqueue_envelope Demo.dm)) Demo.empty_server).

Lemma typed_witness : is_Some (zset_at (_inbox_key "bob") (w_redis (absw posted_server))).
Proof.
  refine (proj1 (proj2 (queue_keys_typed (fun _ => True) [Ret tt] Demo.empty_server posted_server _ _ _ _) "bob" "abcd")).
  - done.
  - exact I.
  - intros k e Hk. vm_compute in Hk. discriminate.
  - eapply rtc_l; [apply step_start; by apply (op_enqueue json_args True Demo.dm), Forall_nil_2|]. cbn [app].
    exact (cstep_run _ _ [detached (enqueue_envelope Demo.dm)] 0 _ Demo.empty_server eq_refl).
Defined.
End TypesDemo.
