(* ===== verification/DmsReaper.v ===== *)
(** * Firing dead man's switches (scripts/dms_reaper.py)

    One run of the script: the due switches are read under row locks, delivered to each recipient
    through the message queue, and written back with one commit.  The connection check at the start
    is an exchange with no effect. *)

From Stdlib Require Import Ascii String.
From stdpp Require Import prelude gmap strings list.
From S2P Require Import Prelude Json Codec RedisStore Models Effects Crypto Payloads Sessions RateLimit Deps Dms.
From S2P Require Import BlobStorage Queue.

#[local] Open Scope morok_scope.

(** The settings the script reads. *)
Record reaper_settings := ReaperSettings {
  rs_relay_privkey_hex : string;
  rs_relay_pubkey_hex : string;
  rs_message_ttl_hard_seconds : Z
}.

Section Reaper.
  Context `{Sha256} `{Nacl} (settings : reaper_settings).

Definition build_dms_attestation_message (envelope_id recipient_pubkey_hex : string) (timestamp : Z)
    (dms_creator_pubkey_hex dms_id : string) : string :=
  canonical_json (dms_trigger_payload envelope_id recipient_pubkey_hex timestamp dms_creator_pubkey_hex dms_id).

(** The id is a function of the switch, the recipient and the ciphertext: a retry has the same. *)
Definition dms_envelope_id (dms : DeadManSwitch) (recipient_pubkey : string) : string :=
  sha256_hex (dms_id dms +:+ recipient_pubkey +:+ dms_payload_encrypted dms).

Definition sign_ (message key : string) : M string := of_res (ed25519_sign message key).

(** The arguments of the enqueue, given both signatures. *)
Definition dms_enqueue_args (dms : DeadManSwitch) (recipient_pubkey : string) (now : Z) (sig attestation_sig : string)
    : enqueue_args :=
  {| ea_envelope_id := dms_envelope_id dms recipient_pubkey;
     ea_sender := rs_relay_pubkey_hex settings;
     ea_recipient := hex_of_bytes recipient_pubkey;
     ea_timestamp := now;
     ea_ttl := rs_message_ttl_hard_seconds settings;
     ea_signature := hex_of_bytes sig;
     ea_hard_ceiling := rs_message_ttl_hard_seconds settings;
     ea_sender_username := None;
     ea_sealed := false;
     ea_delete_key_hash := None;
     ea_channel := None;
     ea_mail_from := None;
     ea_mail_origin := None;
     ea_extra_meta := Some [ ("kind", JStr "dms_trigger");
                             ("dms_creator_pubkey", JStr (hex_of_bytes (dms_creator_pubkey dms)));
                             ("dms_id", JStr (uuid_to_string (dms_id dms)));
                             ("dms_attestation_sig", JStr (hex_of_bytes attestation_sig)) ] |}.

Definition _build_and_deliver_envelope (dms : DeadManSwitch) (recipient_pubkey relay_priv : string) : M string :=
  let! now := now_ in
  let ttl_seconds := rs_message_ttl_hard_seconds settings in
  let envelope_id := dms_envelope_id dms recipient_pubkey in
  let recipient_hex := hex_of_bytes recipient_pubkey in
  let payload_b64 := b64encode (dms_payload_encrypted dms) in
  let! sig := sign_ (canonical_json (envelope_payload (rs_relay_pubkey_hex settings) recipient_hex now ttl_seconds
                                       payload_b64)) relay_priv in
  let! attestation_sig := sign_ (build_dms_attestation_message envelope_id recipient_hex now
                                   (hex_of_bytes (dms_creator_pubkey dms)) (uuid_to_string (dms_id dms))) relay_priv in
  let! _ := write_blob_then_enqueue (dms_enqueue_args dms recipient_pubkey now sig attestation_sig)
              (dms_payload_encrypted dms) in
  ret envelope_id.

Record fire_stats := FireStats {
  dms_scanned : Z; dms_fired : Z; dms_skipped_not_due : Z; envelopes_delivered : Z; fire_errors : Z
}.
Definition no_stats : fire_stats := FireStats 0 0 0 0 0.
Definition add_stats (a b : fire_stats) : fire_stats :=
  FireStats (dms_scanned a + dms_scanned b) (dms_fired a + dms_fired b)
    (dms_skipped_not_due a + dms_skipped_not_due b) (envelopes_delivered a + envelopes_delivered b)
    (fire_errors a + fire_errors b).

(** The loop over the recipients: their rows afterwards, how many were delivered, how many failed. *)
Fixpoint deliver_all (dms : DeadManSwitch) (relay_priv : string) (now : Z) (rs : list DMSRecipient)
    : M (list DMSRecipient * Z * Z) :=
  match rs with
  | [] => ret ([], 0%Z, 0%Z)
  | r :: rs' =>
      match dr_delivered_at r with
      | Some _ =>
          let! (rest, n, e) := deliver_all dms relay_priv now rs' in
          ret (r :: rest, n, e)
      | None =>
          let! ok := try_except
            (let! _ := _build_and_deliver_envelope dms (dr_recipient_pubkey r) relay_priv in ret true)
            (fun _ => ret false) in
          let! (rest, n, e) := deliver_all dms relay_priv now rs' in
          if (ok : bool) then ret (mkRecipient (dr_recipient_pubkey r) (Some now) :: rest, (n + 1)%Z, e)
          else ret (r :: rest, n, (e + 1)%Z)
      end
  end.

Definition with_recipients (rs : list DMSRecipient) (d : DeadManSwitch) : DeadManSwitch :=
  mkDMS (dms_id d) (dms_creator_pubkey d) (dms_trigger_seconds d) (dms_last_check_in_at d) (dms_payload_encrypted d)
    (dms_label d) (dms_status d) (dms_created_at d) (dms_triggered_at d) (dms_cancelled_at d) rs.

(** The row of a switch that has fired: the ciphertext is gone. *)
Definition triggered (now : Z) (d : DeadManSwitch) : DeadManSwitch :=
  mkDMS (dms_id d) (dms_creator_pubkey d) (dms_trigger_seconds d) (dms_last_check_in_at d) ""
    (dms_label d) TRIGGERED (dms_created_at d) (Some now) (dms_cancelled_at d) (dms_recipients d).

(** One switch of the loop: its row afterwards. *)
Definition fire_one (relay_priv : string) (now : Z) (dms : DeadManSwitch) : M (DeadManSwitch * fire_stats) :=
  let age := (now - dms_last_check_in_at dms)%Z in
  if (age <? dms_trigger_seconds dms)%Z then ret (dms, FireStats 1 0 1 0 0)
  else
    let! (rs, n, errors) := deliver_all dms relay_priv now (dms_recipients dms) in
    let dms := with_recipients rs dms in
    if (errors =? 0)%Z then ret (triggered now dms, FireStats 1 1 0 n errors)
    else ret (dms, FireStats 1 0 0 n errors).

Fixpoint fire_all (relay_priv : string) (now : Z) (l : list DeadManSwitch) : M (list DeadManSwitch * fire_stats) :=
  match l with
  | [] => ret ([], no_stats)
  | d :: l' =>
      let! (d', s) := fire_one relay_priv now d in
      let! (ds, s') := fire_all relay_priv now l' in
      ret (d' :: ds, add_stats s s')
  end.

(** [WHERE status = ARMED AND last_check_in_at + trigger_seconds <= now] *)
Definition due (now : Z) (d : DeadManSwitch) : bool :=
  bool_decide (dms_status d = ARMED) && (dms_last_check_in_at d + dms_trigger_seconds d <=? now)%Z.

Fixpoint store_all (l : list DeadManSwitch) : M unit :=
  match l with
  | [] => ret tt
  | d :: l' => let! _ := store_dms d in store_all l'
  end.

Definition one_error : fire_stats := FireStats 0 0 0 0 1.

Definition fire_dms_switches : M fire_stats :=
  let! now := now_ in
  match bytes_fromhex (rs_relay_privkey_hex settings) with
  | None => ret one_error
  | Some relay_priv =>
      if negb (string_len relay_priv =? 32)%Z then ret one_error
      else
        let! up := try_except (let! _ := redis_ (rret tt) in ret true) (fun _ => ret false) in
        if negb up then ret one_error
        else
          let! armed := sql (fun db => (List.filter (due now) (t_dms db), db)) in
          let! (rows, stats) := fire_all relay_priv now armed in
          let! _ := store_all rows in
          let! _ := commit in
          ret stats
  end.
End Reaper.
