(* ===== verification/DmsFacts.v ===== *)
(** * Dead man's switches: properties

    A Hoare logic for the database side of programs ([db_run]) gives the state machine of a switch
    for every operation, whatever fails; symbolic execution gives quotas, signed check-ins and the
    run that loses a secret. *)

From Stdlib Require Import Ascii String.
From stdpp Require Import prelude gmap strings list.
From S2P Require Import Prelude Json Codec RedisStore Models Effects Crypto Payloads Sessions RateLimit Deps Dms.
From S2P Require Import Logic BlobStorage Queue QueueFacts DmsReaper.

#[local] Open Scope morok_scope.

Lemma no_sql_deliver `{Sha256} `{Nacl} s d r k : no_sql (_build_and_deliver_envelope s d r k).
Proof. unfold _build_and_deliver_envelope, sign_. cbv zeta. no_sql. apply no_sql_write_enqueue. Qed.
Lemma no_sql_enforced req pk : no_sql (signed_checkin_enforced req pk).
Proof. unfold signed_checkin_enforced. no_sql. Qed.
Lemma no_sql_remember pk : no_sql (remember_signed_checkin pk).
Proof. unfold remember_signed_checkin. no_sql. Qed.
Lemma no_sql_enforce_action `{Nacl} req relay a pk t p : no_sql (enforce_sensitive_action req relay a pk t p).
Proof. unfold enforce_sensitive_action, verify_sensitive_action. cbv zeta. no_sql. Qed.
Lemma no_sql_fromhex s : no_sql (fromhex_ s).
Proof. unfold fromhex_. no_sql. Qed.
Lemma no_sql_fromhex_all l : no_sql (fromhex_all l).
Proof. induction l; cbn [fromhex_all]; no_sql; auto using no_sql_fromhex. Qed.

(** ** How a switch may change *)

(** A recipient is delivered at most once. *)
Definition progress (now : Z) (r r' : DMSRecipient) : Prop :=
  r' = r \/ dr_delivered_at r = None /\ r' = mkRecipient (dr_recipient_pubkey r) (Some now).

Definition all_delivered (rs : list DMSRecipient) : Prop := Forall (fun r => dr_delivered_at r <> None) rs.

(** One step in the life of a switch: nothing; a check-in or a cancellation by its creator, while
    armed; or deliveries by the relay when it is due, after which it has fired only if every
    recipient is delivered.  [actor] is the caller's key in hexadecimal, [None] the relay. *)
Definition evolves (now : Z) (actor : option string) (d d' : DeadManSwitch) : Prop :=
  d' = d \/
  (exists pk, actor = Some pk /\ bytes_fromhex pk = Some (dms_creator_pubkey d) /\ dms_status d = ARMED /\
     (d' = set_check_in now d \/ d' = cancelled now d)) \/
  (actor = None /\ due now d = true /\ exists rs, Forall2 (progress now) (dms_recipients d) rs /\
     (d' = with_recipients rs d \/ all_delivered rs /\ d' = triggered now (with_recipients rs d))).

(** A new switch is armed, its creator's, and nobody is delivered. *)
Definition new_switch (now : Z) (actor : option string) (d : DeadManSwitch) : Prop :=
  exists pk, actor = Some pk /\ bytes_fromhex pk = Some (dms_creator_pubkey d) /\ dms_status d = ARMED /\
    dms_last_check_in_at d = now /\ Forall (fun r => dr_delivered_at r = None) (dms_recipients d).

Definition unique_ids (db : database) : Prop := NoDup (map dms_id (t_dms db)).

(** The table after an operation: every row one step on, new rows last, ids still unique. *)
Definition advances (now : Z) (actor : option string) (db db' : database) : Prop :=
  exists rows added, t_dms db' = rows ++ added /\ Forall2 (evolves now actor) (t_dms db) rows /\
    Forall (new_switch now actor) added /\ (unique_ids db -> unique_ids db').

Lemma evolves_id now actor d d' : evolves now actor d d' -> dms_id d' = dms_id d.
Proof. by intros [->|[(pk & _ & _ & _ & [->| ->])|(_ & _ & rs & _ & [->|[_ ->]])]]. Qed.

Section Steps.
  Context (now : Z) (actor : option string).

Lemma advances_same db db' : t_dms db' = t_dms db -> advances now actor db db'.
Proof.
  intros E. exists (t_dms db), []. rewrite app_nil_r. split_and!; [done| |apply Forall_nil_2|].
  - apply Forall_Forall2_diag, Forall_true. intros d. by left.
  - unfold unique_ids. by rewrite E.
Qed.

Lemma advances_map f db db' :
  t_dms db' = map f (t_dms db) -> (forall d, d ∈ t_dms db -> evolves now actor d (f d)) -> advances now actor db db'.
Proof.
  intros E Hf. exists (map f (t_dms db)), []. rewrite app_nil_r. split_and!; [done| |apply Forall_nil_2|].
  - clear E. revert Hf. generalize (t_dms db). intros l. induction l as [|d l IH]; intros Hf; cbn; constructor.
    + apply Hf. left.
    + apply IH. intros d' Hd'. apply Hf. by right.
  - unfold unique_ids. rewrite E, map_map. rewrite (map_ext_in (fun x => dms_id (f x)) dms_id); [done|].
    intros d Hd. eapply evolves_id, Hf. by apply list_elem_of_In.
Qed.

(** Storing a row. *)
Lemma unique_row (t : list DeadManSwitch) d r :
  NoDup (map dms_id t) -> d ∈ t -> r ∈ t -> dms_id r = dms_id d -> r = d.
Proof.
  intros Hnd Hd Hr E. apply list_elem_of_lookup in Hd as [i Hi]. apply list_elem_of_lookup in Hr as [j Hj].
  assert (i = j) as ->.
  { eapply NoDup_lookup; [done|..]; rewrite list_lookup_fmap, ?Hi, ?Hj; cbn; [done|by rewrite E]. }
  congruence.
Qed.

Lemma advances_store db db' d d' :
  unique_ids db -> d ∈ t_dms db -> dms_id d' = dms_id d -> evolves now actor d d' ->
  t_dms db' = snd (update_where (by_id (dms_id d')) (fun _ => d') (t_dms db)) -> advances now actor db db'.
Proof.
  intros Hu Hd Hid Hev E. eapply advances_map; [exact E|]. intros r Hr. cbn.
  unfold by_id. destruct (String.eqb_spec (dms_id r) (dms_id d')) as [Heq|]; [|by left].
  rewrite (unique_row (t_dms db) d r) by (done || congruence). done.
Qed.

Lemma advances_check_in pk pk_hex db db' :
  actor = Some pk_hex -> bytes_fromhex pk_hex = Some pk ->
  t_dms db' = snd (update_where (armed_of pk) (set_check_in now) (t_dms db)) -> advances now actor db db'.
Proof.
  intros Ha Hpk E. eapply advances_map; [exact E|]. intros d _. cbn. unfold armed_of.
  destruct (String.eqb_spec (dms_creator_pubkey d) pk) as [Hc|]; [|by left].
  case_bool_decide; [|by left]. right. left. exists pk_hex. rewrite Hpk, Hc. auto.
Qed.
End Steps.

(** ** The endpoints *)

Section Endpoints.
  Context (now : Z) (db : database).
  Hypothesis Hu : unique_ids db.

(** The session sees the committed tables, or tables with the same switches. *)
Definition fresh (t : tables) : Prop := t.1 = db /\ t_dms t.2 = t_dms db.

(** What a handler may leave: nothing committed yet or a good commit, and good tables if it
    returns. *)
Definition handler_post {A} (actor : option string) (r : res A) (t : tables) : Prop :=
  advances now actor db t.1 /\ match r with Ok _ => advances now actor db t.2 | Raise _ => True end.

Lemma handled_fresh {A} actor (r : res A) t : fresh t -> handler_post actor r t.
Proof.
  intros [Hc H]. split; [apply advances_same; by rewrite Hc|]. destruct r; [|done]. by apply advances_same.
Qed.

Lemma session_advances {A} actor (p : M A) :
  db_run now fresh p (handler_post actor) ->
  db_run now (fun t => t = (db, db)) (with_session p) (fun _ t => t.1 = t.2 /\ advances now actor db t.1).
Proof.
  intros Hp. unfold with_session. eapply db_try.
  - eapply db_bind.
    + eapply db_weaken; [exact Hp|intros t ->; done|]. intros r t Hr. exact Hr.
    + intros a. eapply db_bind; [apply db_commit| |].
      * intros []. eapply db_weaken; [apply db_ret|intros t Ht; exact Ht|].
        intros r t [-> Ht]. instantiate (1 := fun r t => match r with
          | Ok _ => t.1 = t.2 /\ advances now actor db t.1
          | Raise _ => advances now actor db t.1 end). cbn.
        destruct Ht as (_ & E & d & [_ Had]). cbn in *. by rewrite E.
      * by intros e t (? & _).
    + intros e t [Had _]. exact Had.
  - intros a t Ht. exact Ht.
  - intros e. eapply db_bind; [apply db_rollback| |by intros ? ? (? & _)].
    intros []. eapply db_weaken; [apply db_ret|intros t Ht; exact Ht|].
    intros r t (_ & _ & E & d & Had). cbn in Had. by rewrite <- E.
Qed.

(** Loading a row for its owner. *)
Lemma db_load id pk (P : tables -> Prop) :
  db_run now (fun t => fresh t /\ P t) (_load_dms_for_owner id pk) (fun r t => fresh t /\ P t /\
    match r with Ok d => d ∈ t_dms db /\ dms_id d = id /\ dms_creator_pubkey d = pk | Raise _ => True end).
Proof.
  unfold _load_dms_for_owner. eapply db_bind; [apply db_sql| |by intros e t (d & ? & _)].
  intros found. destruct found as [d|].
  - destruct (String.eqb_spec (dms_creator_pubkey d) pk) as [Hc|Hc]; cbn [negb].
    + eapply db_weaken; [apply db_ret|intros t Ht; exact Ht|].
      intros r [t1 t2] (-> & d0 & Hd & E2 & [Hf1 Hf2] & HP). cbn in *. subst t2. simplify_eq.
      apply eq_sym, select_in in Hd as [Hin Hid%String.eqb_eq]. rewrite Hf2 in Hin. done.
    + eapply db_weaken; [apply db_ret|intros t Ht; exact Ht|].
      intros r [t1 t2] (-> & d0 & Hd & E2 & Hf & HP). cbn in *. by subst t2.
  - eapply db_weaken; [apply db_ret|intros t Ht; exact Ht|].
    intros r [t1 t2] (-> & d0 & Hd & E2 & Hf & HP). cbn in *. by subst t2.
Qed.

Lemma db_fromhex s (P : tables -> Prop) :
  db_run now P (fromhex_ s) (fun r t => P t /\ match r with Ok b => bytes_fromhex s = Some b | Raise _ => True end).
Proof. unfold fromhex_. destruct (bytes_fromhex s); intros w Hn Hw; done. Qed.

Lemma db_parse_id s (P : tables -> Prop) : db_run now P (_parse_dms_id s) (fun r t => P t).
Proof. unfold _parse_dms_id, http. destruct (uuid_of_string s); intros w Hn Hw; done. Qed.

(** Storing the next state of a loaded row. *)
Lemma db_store actor d d' :
  d ∈ t_dms db -> dms_id d' = dms_id d -> evolves now actor d d' ->
  db_run now fresh (store_dms d') (handler_post actor).
Proof.
  intros Hin Hid Hev. eapply db_weaken; [apply db_sql|done|].
  intros r [t1 t2] (d0 & -> & E2 & [Hf1 Hf2]). cbn in *. subst. split; cbn.
  - by apply advances_same.
  - eapply (advances_store now actor db _ d d'); try done. cbn. by rewrite Hf2.
Qed.

(** A step of a handler that leaves the switches alone, and the rest of the handler. *)
Lemma handler_bind {A B} actor (p : M A) (f : A -> M B) (R : A -> Prop) :
  db_run now (fresh) p (fun r t => fresh t /\ match r with Ok a => R a | Raise _ => True end) ->
  (forall a, R a -> db_run now fresh (f a) (handler_post actor)) ->
  db_run now fresh (bind p f) (handler_post actor).
Proof.
  intros Hp Hf. eapply db_bind; [exact Hp| |].
  - intros a w Hn [Hw HR]. by apply (Hf a).
  - intros e t [Ht _]. by apply handled_fresh.
Qed.

Lemma handler_no_sql {A B} actor (p : M A) (f : A -> M B) :
  no_sql p -> (forall a, db_run now fresh (f a) (handler_post actor)) ->
  db_run now fresh (bind p f) (handler_post actor).
Proof.
  intros Hp Hf. apply (handler_bind actor p f (fun _ => True)); [|auto].
  eapply db_weaken; [by apply db_no_sql|done|]. intros r t Ht. split; [done|by destruct r].
Qed.

Lemma handler_end {A} actor (r : res A) : db_run now fresh (Ret r) (handler_post actor).
Proof. intros w Hn Hw. split; [by apply handled_fresh|done]. Qed.

Lemma handler_fromhex {B} actor s (f : string -> M B) :
  (forall b, bytes_fromhex s = Some b -> db_run now fresh (f b) (handler_post actor)) ->
  db_run now fresh (bind (fromhex_ s) f) (handler_post actor).
Proof. intros Hf. eapply handler_bind; [apply db_fromhex|exact Hf]. Qed.

Lemma handler_now {B} actor (f : Z -> M B) :
  db_run now fresh (f now) (handler_post actor) -> db_run now fresh (bind now_ f) (handler_post actor).
Proof.
  intros Hf. apply (handler_bind actor now_ f (fun t => t = now)); [|by intros ? ->].
  eapply db_weaken; [apply db_now|done|]. by intros r t [-> Ht].
Qed.

Lemma handler_load {B} actor id pk (f : DeadManSwitch -> M B) :
  (forall d, d ∈ t_dms db -> dms_creator_pubkey d = pk -> db_run now fresh (f d) (handler_post actor)) ->
  db_run now fresh (bind (_load_dms_for_owner id pk) f) (handler_post actor).
Proof.
  intros Hf. apply (handler_bind actor _ f (fun d => d ∈ t_dms db /\ dms_creator_pubkey d = pk)).
  - eapply db_weaken; [apply (db_load id pk (fun _ => True))|done|].
    intros r t (Ht & _ & Hr). split; [done|]. by destruct r as [d|]; [destruct Hr as (? & ? & ?)|].
  - intros d [Hin Hc]. by apply Hf.
Qed.

(** A statement that only reads. *)
Lemma handler_read {A B} actor (g : database -> A) (f : A -> M B) :
  (forall a, db_run now fresh (f a) (handler_post actor)) ->
  db_run now fresh (bind (sql (fun d => (g d, d))) f) (handler_post actor).
Proof.
  intros Hf. apply (handler_bind actor _ f (fun _ => True)); [|auto].
  eapply db_weaken; [apply db_sql|done|]. intros r [t1 t2] (d & -> & E & Hd). cbn in *. by subst.
Qed.

Lemma handler_post_end {A B} actor (p : M A) (f : A -> res B) :
  db_run now fresh p (handler_post actor) ->
  db_run now fresh (bind p (fun a => Ret (f a))) (handler_post actor).
Proof.
  intros Hp. eapply db_bind; [exact Hp| |by intros e t [Ht _]].
  intros a w Hn [H1 H2]. split; [|done]. split; [done|]. cbn. by destruct (f a).
Qed.

Lemma user_fresh relay pk :
  db_run now fresh (_get_current_user relay pk) (fun r t => fresh t /\ match r with Ok _ => True | Raise _ => True end).
Proof.
  unfold _get_current_user. eapply db_bind; [apply (db_fromhex pk)| |by intros e t [Ht _]].
  intros b. eapply db_bind.
  - eapply db_weaken; [apply db_sql|intros t [Ht _]; exact Ht|].
    intros r [t1 t2] (d & -> & E & Hd). cbn in *. subst. instantiate (1 := fun _ t => fresh t). done.
  - intros [u|]; [intros w Hn Hw; done|]. eapply db_bind; [by apply (db_no_sql now fresh); no_sql| |done].
    intros t. eapply db_bind; [apply db_sql| |by intros e t' (? & ? & _)].
    intros []. intros w Hn (d & _ & E & Hd). split; [|done]. split; [|done].
    destruct Hd as [H1 H2]. split; [done|]. cbn in *. rewrite E. done.
  - done.
Qed.

Lemma db_insert actor d :
  new_switch now actor d -> db_run now fresh (insert_row d) (handler_post actor).
Proof.
  intros Hd. eapply db_weaken; [apply db_sql|done|]. intros r [t1 t2] (d0 & -> & E & [H1 H2]). cbn in *. subst.
  split; cbn; [by apply advances_same|]. destruct (existsb _ _) eqn:Ex; [by apply advances_same|].
  exists (t_dms db), [d]. cbn. rewrite H2. split_and!; [done| | |].
  - apply Forall_Forall2_diag, Forall_true. intros x. by left.
  - by apply Forall_singleton.
  - unfold unique_ids. cbn. rewrite map_app. intros Hnd. apply NoDup_app. split_and!; [done| |apply NoDup_singleton].
    intros x (y & -> & Hy)%list_elem_of_fmap Eid%list_elem_of_singleton. apply not_true_iff_false in Ex.
    apply Ex, existsb_exists. exists y. rewrite H2. split; [by apply list_elem_of_In|]. by apply String.eqb_eq.
Qed.

Lemma create_handled relay body s :
  db_run now fresh (create_dms relay body s) (handler_post (Some (pubkey_hex s))).
Proof.
  unfold create_dms. eapply handler_bind; [apply user_fresh|]. intros user _.
  destruct (tier_limits (u_tier user)) as [[mr ma] mb].
  destruct (_ <? _)%Z; [apply handler_end|].
  apply handler_fromhex. intros creator Hcr. apply handler_now.
  apply handler_no_sql; [no_sql|]. intros payload. apply handler_read. intros [cnt bytes].
  destruct (_ <=? _)%Z; [apply handler_end|]. destruct (_ <? _)%Z; [apply handler_end|].
  apply handler_no_sql; [no_sql|]. intros id. apply handler_no_sql; [apply no_sql_fromhex_all|]. intros rs.
  cbv zeta. eapply db_bind; [apply (db_insert (Some (pubkey_hex s)))| |].
  - exists (pubkey_hex s). cbn. split_and!; try done. apply Forall_forall. by intros r (pk & -> & _)%list_elem_of_fmap.
  - intros b w Hn [H1 H2]. by destruct b.
  - by intros e t [? _].
Qed.

Lemma list_handled s : db_run now fresh (list_my_dms s) (handler_post (Some (pubkey_hex s))).
Proof.
  unfold list_my_dms. apply handler_fromhex. intros b _. apply handler_read. intros rows. apply handler_end.
Qed.

Lemma get_handled id s : db_run now fresh (get_dms id s) (handler_post (Some (pubkey_hex s))).
Proof.
  unfold get_dms. apply handler_no_sql; [unfold _parse_dms_id, http; no_sql|]. intros did.
  apply handler_fromhex. intros b _. apply handler_load. intros d _ _. apply handler_end.
Qed.

Lemma check_in_handled req id s : db_run now fresh (check_in req id s) (handler_post (Some (pubkey_hex s))).
Proof.
  unfold check_in. apply handler_no_sql; [apply no_sql_enforced|]. intros [|]; [apply handler_end|].
  apply handler_no_sql; [unfold _parse_dms_id, http; no_sql|]. intros did.
  apply handler_fromhex. intros b Hb. apply handler_load. intros d Hin Hc.
  case_bool_decide as Harm; [|apply handler_end]. cbn [negb]. apply handler_now.
  apply handler_post_end. apply (db_store _ d); [done|done|]. right. left. exists (pubkey_hex s).
  rewrite Hc. auto.
Qed.

Lemma cancel_handled `{Nacl} req relay id s proof :
  db_run now fresh (cancel_dms req relay id s proof) (handler_post (Some (pubkey_hex s))).
Proof.
  unfold cancel_dms. apply handler_no_sql; [unfold _parse_dms_id, http; no_sql|]. intros did.
  apply handler_fromhex. intros b Hb. apply handler_load. intros d Hin Hc.
  destruct (dms_status d) eqn:Es; [|apply handler_end..].
  apply handler_no_sql; [apply no_sql_enforce_action|]. intros _. apply handler_now.
  apply handler_post_end. apply (db_store _ d); [done|done|]. right. left. exists (pubkey_hex s).
  rewrite Hc. auto.
Qed.

(** The statement of a check-in. *)
Lemma check_in_sql pk pk_hex (P : tables -> Prop) :
  bytes_fromhex pk_hex = Some pk -> (forall t, P t -> fresh t) ->
  db_run now P (sql_check_in pk now)
    (fun r t => t.1 = db /\ advances now (Some pk_hex) db t.2 /\ exists n, r = Ok n).
Proof.
  intros Hpk HP. eapply db_weaken; [apply (db_sql now P)|done|]. intros r [t1 t2] (d & -> & E & Hd).
  apply HP in Hd as [H1 H2]. cbn in *. subst. split_and!; [done| |eauto].
  eapply advances_check_in; [done|done|]. cbn. by rewrite H2.
Qed.

Lemma signed_handled `{Nacl} body s : db_run now fresh (check_in_signed body s) (handler_post (Some (pubkey_hex s))).
Proof.
  unfold check_in_signed. apply handler_now. destruct (_ <? _)%Z; [apply handler_end|]. cbv zeta.
  apply handler_fromhex. intros b Hb. destruct (bytes_fromhex (ci_signature_hex body)) as [sig|]; [|apply handler_end].
  destruct (negb _); [apply handler_end|].
  assert (Hbump : db_run now fresh (bump_check_in_for_pubkey (pubkey_hex s))
            (fun r t => t.1 = db /\ advances now (Some (pubkey_hex s)) db t.2)).
  { unfold bump_check_in_for_pubkey, fromhex_. rewrite Hb.
    eapply db_bind; [apply (db_ret now fresh)| |by intros e t [? _]]. intros b'.
    eapply db_bind; [apply db_now| |by intros e t [? _]]. intros t'.
    intros w Hn ([= ->] & [= ->] & Hf). destruct (check_in_sql b (pubkey_hex s) fresh Hb ltac:(done) w Hn Hf) as [(H1 & H2 & _) H3].
    done. }
  eapply db_bind; [exact Hbump| |].
  - intros n. eapply db_bind; [apply db_commit| |by intros e t [? _]].
    intros []. eapply db_bind.
    + eapply db_weaken.
      * apply (db_no_sql now (fun t => advances now (Some (pubkey_hex s)) db t.1 /\ advances now (Some (pubkey_hex s)) db t.2)),
          no_sql_remember.
      * intros t (_ & E & d & _ & Had). cbn in Had. by rewrite E.
      * intros r t Ht. exact Ht.
    + intros [] w Hn Hw. split; [exact Hw|done].
    + by intros e t [? ?].
  - intros e t [E _]. split; [|done]. apply advances_same. by rewrite E.
Qed.

Lemma bump_task_advances pk_hex :
  db_run now (fun t => t = (db, db)) (_bump_dms_check_in_for_pubkey pk_hex)
    (fun _ t => t.1 = t.2 /\ advances now (Some pk_hex) db t.1).
Proof.
  unfold _bump_dms_check_in_for_pubkey.
  set (Q := fun (r : res unit) (t : tables) => match r with
    | Ok _ => t.1 = t.2 /\ advances now (Some pk_hex) db t.1 | Raise _ => t.1 = db end).
  apply (db_try now _ _ _ Q).
  - eapply db_bind; [apply (db_fromhex pk_hex)| |by intros e t [-> _]].
    intros b. eapply db_bind; [apply db_now| |by intros e t (? & _)].
    intros t'. apply (db_bind now _ _ _ (fun (_ : res Z) t => t.1 = db /\ advances now (Some pk_hex) db t.2)).
    + intros w Hn ([= ->] & Ht & Hb).
      destruct (check_in_sql b pk_hex (fun t => t = (db, db)) Hb ltac:(by intros t ->) w Hn Ht) as [(H1 & H2 & _) H3]. done.
    + intros n. eapply db_weaken; [apply db_commit|intros t Ht; exact Ht|].
      intros r t (-> & E & d & _ & Had). cbn in Had. unfold Q. by rewrite E.
    + by intros e t [? _].
  - done.
  - intros e. eapply db_weaken; [apply db_rollback|intros t Ht; exact Ht|].
    intros r t (_ & E & d & Hd). cbn in Hd. split; [done|]. apply advances_same. by rewrite Hd.
Qed.
End Endpoints.

(** ** The reaper *)

Section Reaper.
  Context `{Sha256} `{Nacl} (settings : reaper_settings) (now : Z) (key : string).

(** Deliveries never raise, and mark recipients as delivered one by one. *)
Lemma deliver_all_returns d rs (P : tables -> Prop) :
  db_run now P (deliver_all settings d key now rs)
    (fun r t => P t /\ exists rs' n e, r = Ok (rs', n, e) /\ Forall2 (progress now) rs rs' /\ (0 <= e)%Z /\
       (e = 0%Z -> all_delivered rs')).
Proof.
  induction rs as [|x rs IH]; cbn [deliver_all].
  - intros w Hn Hw. split; [|done]. split; [done|]. exists [], 0%Z, 0%Z.
    split_and!; try done. intros _. apply Forall_nil_2.
  - destruct (dr_delivered_at x) as [t0|] eqn:Ex.
    + eapply db_bind; [exact IH| |by intros e t (_ & ? & ? & ? & ? & _)].
      intros [[rs' n] e] w Hn (Hw & ? & ? & ? & [= <- <- <-] & H1 & H2 & H3). split; [|done]. split; [done|].
      exists (x :: rs'), n, e. split_and!; try done.
      * constructor; [by left|done].
      * intros He. apply Forall_cons_2; [by rewrite Ex|by apply H3].
    + apply (db_bind now _ _ _ (fun r t => P t /\ exists b, r = Ok b)).
      * eapply (db_try now _ _ _ (fun _ t => P t)).
        -- apply db_no_sql. no_sql. apply no_sql_deliver.
        -- eauto.
        -- intros e. eapply db_weaken; [apply (db_ret now P)|done|]. intros r t [-> Ht]. eauto.
      * intros ok. eapply db_bind; [eapply db_weaken; [exact IH|by intros t [Ht _]|done]| |].
        2: by intros e t (_ & ? & ? & ? & ? & _).
        intros [[rs' n] e] w Hn (Hw & ? & ? & ? & [= <- <- <-] & H1 & H2 & H3).
        destruct ok; (split; [|done]); (split; [done|]).
        -- eexists _, _, _. split; [done|]. split_and!; [constructor; [by right|done]|done|].
           intros He. apply Forall_cons_2; [done|by apply H3].
        -- eexists _, _, _. split; [done|]. split_and!; [constructor; [by left|done]|lia|lia].
      * by intros e t (_ & b & ?).
Qed.

Lemma fire_one_returns d (P : tables -> Prop) :
  due now d = true ->
  db_run now P (fire_one settings key now d)
    (fun r t => P t /\ exists d' s, r = Ok (d', s) /\ dms_id d' = dms_id d /\ evolves now None d d').
Proof.
  intros Hdue. unfold fire_one. destruct (_ <? _)%Z.
  - intros w Hn Hw. split; [|done]. split; [done|]. eexists _, _. split; [done|]. split; [done|by left].
  - eapply db_bind; [apply (deliver_all_returns d (dms_recipients d) P)| |by intros e t (_ & ? & ? & ? & ? & _)].
    intros [[rs n] e] w Hn (Hw & ? & ? & ? & [= <- <- <-] & H1 & H2 & H3). cbv zeta.
    destruct (Z.eqb_spec e 0) as [->|]; (split; [|done]); (split; [done|]); (eexists _, _; split; [done|]); (split; [done|]);
      right; right; (split; [done|]); (split; [done|]); exists rs; (split; [done|]); [right; auto|by left].
Qed.

Lemma fire_all_returns l (P : tables -> Prop) :
  Forall (fun d => due now d = true) l ->
  db_run now P (fire_all settings key now l)
    (fun r t => P t /\ exists rows s, r = Ok (rows, s) /\
       Forall2 (fun d d' => dms_id d' = dms_id d /\ evolves now None d d') l rows).
Proof.
  revert P. induction l as [|d l IH]; intros P Hl; cbn [fire_all].
  - intros w Hn Hw. split; [|done]. split; [done|]. eexists _, _. split; [done|constructor].
  - apply Forall_cons in Hl as [Hd Hl].
    eapply db_bind; [apply (fire_one_returns d P Hd)| |by intros e t (_ & ? & ? & ? & _)].
    intros [d' s]. eapply db_bind.
    + eapply db_weaken; [apply (IH (fun t => P t /\ dms_id d' = dms_id d /\ evolves now None d d') Hl)| |].
      * by intros t (Ht & ? & ? & [= <- <-] & ? & ?).
      * intros r t Ht. exact Ht.
    + intros [rows s'] w Hn ((Hw & Hid & Hev) & ? & ? & [= <- <-] & Hrows). split; [|done]. split; [done|].
      eexists _, _. split; [done|]. by constructor.
    + by intros e t (_ & ? & ? & ? & _).
Qed.

Lemma filter_due l : Forall (fun d => due now d = true) (List.filter (due now) l).
Proof. apply Forall_forall. intros d Hd. rewrite list_elem_of_In in Hd. by apply List.filter_In in Hd as [_ Hd]. Qed.

(** Storing all rows. *)
Definition stored (rows : list DeadManSwitch) (d : DeadManSwitch) : DeadManSwitch :=
  foldl (fun acc d' => if by_id (dms_id d') acc then d' else acc) d rows.

Lemma store_all_stored rows (db : database) :
  db_run now (fun t => t.1 = db /\ t.2 = db) (store_all rows)
    (fun r t => t.1 = db /\ t_dms t.2 = map (stored rows) (t_dms db) /\ r = Ok tt).
Proof.
  enough (Hgen : forall f, db_run now (fun t => t.1 = db /\ t_dms t.2 = map f (t_dms db)) (store_all rows)
    (fun r t => t.1 = db /\ t_dms t.2 = map (fun d => stored rows (f d)) (t_dms db) /\ r = Ok tt)).
  { eapply db_weaken; [apply (Hgen (fun d => d))| |done]. intros t [H1 H2]. rewrite H2. split; [done|].
    symmetry. apply map_id. }
  induction rows as [|d' rows IH]; intros f; cbn [store_all].
  - intros w Hn [H1 H2]. split; [|done]. done.
  - eapply db_bind; [apply db_sql| |by intros e t (? & ? & _)].
    intros []. eapply db_weaken; [apply (IH (fun d => if by_id (dms_id d') (f d) then d' else f d))| |done].
    intros [t1 t2] (d0 & _ & E & H1 & H2). cbn in *. subst. split; [done|]. rewrite H2, map_map. done.
Qed.

Lemma stored_other rows d : (forall d', d' ∈ rows -> dms_id d' <> dms_id d) -> stored rows d = d.
Proof.
  unfold stored. induction rows as [|d' rows IH]; intros Hne; cbn [foldl]; [done|].
  unfold by_id at 2. destruct (String.eqb_spec (dms_id d) (dms_id d')) as [E|].
  - exfalso. apply (Hne d'); [left|done].
  - apply IH. intros d0 Hd0. apply Hne. by right.
Qed.

Lemma stored_hit rows d d' :
  NoDup (map dms_id rows) -> d' ∈ rows -> dms_id d' = dms_id d -> stored rows d = d'.
Proof.
  unfold stored. induction rows as [|d0 rows IH]; intros Hnd Hin Hid; [by apply elem_of_nil in Hin|].
  cbn [map] in Hnd. apply NoDup_cons in Hnd as [Hd0 Hnd]. cbn [foldl]. unfold by_id at 2.
  apply elem_of_cons in Hin as [->|Hin].
  - rewrite Hid, String.eqb_refl. apply (stored_other rows d0).
    intros d1 Hd1 E. apply Hd0. rewrite <- E. apply list_elem_of_fmap. by exists d1.
  - destruct (String.eqb_spec (dms_id d) (dms_id d0)) as [E|]; [|by apply IH].
    exfalso. apply Hd0. rewrite <- E, <- Hid. apply list_elem_of_fmap. by exists d'.
Qed.

Lemma due_rows (t rows : list DeadManSwitch) :
  NoDup (map dms_id t) ->
  Forall2 (fun d d' => dms_id d' = dms_id d /\ evolves now None d d') (List.filter (due now) t) rows ->
  forall d, d ∈ t -> evolves now None d (stored rows d).
Proof.
  intros Hnd Hf d Hd.
  assert (Hids : map dms_id rows = map dms_id (List.filter (due now) t)).
  { clear Hd. induction Hf as [|x y l l' [Hid _] _ IH]; cbn; [done|]. by rewrite Hid, IH. }
  assert (Hin : forall x, x ∈ List.filter (due now) t <-> x ∈ t /\ due now x = true).
  { intros x. rewrite !list_elem_of_In. apply List.filter_In. }
  assert (Hndr : NoDup (map dms_id rows)).
  { rewrite Hids. clear -Hnd. induction t as [|x t IH]; cbn [List.filter map] in *; [done|].
    apply NoDup_cons in Hnd as [Hx Hnd]. destruct (due now x); [|auto]. cbn [map]. apply NoDup_cons. split; [|auto].
    intros (y & E & Hy)%list_elem_of_fmap. apply Hx. rewrite E. apply list_elem_of_fmap. exists y. split; [done|].
    rewrite list_elem_of_In in Hy. apply List.filter_In in Hy as [Hy _]. by apply list_elem_of_In. }
  destruct (due now d) eqn:Edue.
  - assert (Hfd : d ∈ List.filter (due now) t) by by apply Hin.
    apply list_elem_of_lookup in Hfd as [i Hi]. destruct (Forall2_lookup_l _ _ _ _ _ Hf Hi) as (d' & Hi' & Hid & Hev).
    rewrite (stored_hit rows d d'); try done. by eapply list_elem_of_lookup_2.
  - rewrite stored_other; [by left|]. intros d' Hd' E.
    apply list_elem_of_lookup in Hd' as [i Hi]. destruct (Forall2_lookup_r _ _ _ _ _ Hf Hi) as (x & Hix & Hid & _).
    apply list_elem_of_lookup_2, Hin in Hix as [Hx Hxd].
    rewrite (unique_row t d x) in Hxd by (done || congruence). congruence.
Qed.
End Reaper.

Lemma reaper_advances `{Sha256} `{Nacl} settings now db :
  unique_ids db ->
  db_run now (fun t => t = (db, db)) (fire_dms_switches settings) (fun _ t => t.1 = t.2 /\ advances now None db t.1).
Proof.
  intros Hu. assert (Hsame : forall t : tables, t = (db, db) -> t.1 = t.2 /\ advances now None db t.1)
    by (intros t ->; split; [done|by apply advances_same]).
  unfold fire_dms_switches. eapply db_bind; [apply db_now| |by intros e t [? _]].
  intros t0. destruct (bytes_fromhex (rs_relay_privkey_hex settings)) as [key|];
    [|intros w Hn [_ Hw]; split; [by apply Hsame|done]].
  destruct (negb _); [intros w Hn [_ Hw]; split; [by apply Hsame|done]|].
  apply (db_bind now _ _ _ (fun (_ : res bool) t => t0 = now /\ t = (db, db))).
  { eapply db_weaken; [apply (db_no_sql now (fun t => t0 = now /\ t = (db, db))); no_sql| |auto].
    by intros t [[= ->] Ht]. }
  2: { intros e t [_ Ht]. by apply Hsame. }
  intros [|]; cbn [negb]; [|intros w Hn [_ Hw]; split; [by apply Hsame|done]].
  apply (db_bind now _ _ _ (fun r t => r = Ok (List.filter (due now) (t_dms db)) /\ t0 = now /\ t = (db, db))).
  { eapply db_weaken; [apply db_sql|intros t Ht; exact Ht|].
    intros r [t1 t2] (d & -> & E & -> & [= -> ->]). cbn in *. by subst. }
  2: by intros e t [? _].
  intros armed w Hn ([= ->] & -> & Hw). revert w Hn Hw.
  change (db_run now (fun t => t = (db, db)) (let! (rows, stats) := fire_all settings key now
    (List.filter (due now) (t_dms db)) in let! _ := store_all rows in let! _ := commit in ret stats)
    (fun _ t => t.1 = t.2 /\ advances now None db t.1)).
  eapply db_bind; [apply fire_all_returns, filter_due| |by intros e t (_ & ? & ? & ? & _)].
  intros [rows s] w Hn (Hw & ? & ? & [= <- <-] & Hrows). revert w Hn Hw.
  change (db_run now (fun t => t = (db, db)) (let! _ := store_all rows in let! _ := commit in ret s)
    (fun _ t => t.1 = t.2 /\ advances now None db t.1)).
  eapply db_bind.
  { eapply db_weaken; [apply (store_all_stored now rows db)|by intros t ->|]. intros r t Ht. exact Ht. }
  2: by intros e t (_ & _ & ?).
  intros []. eapply db_bind; [apply db_commit| |by intros e t [? _]].
  intros [] w Hn (_ & E & d & _ & Hd & _). split; [|done]. split; [exact E|]. change (advances now None db (tables_of w).1). rewrite E.
  eapply advances_map; [exact Hd|]. by apply due_rows.
Qed.

(** ** Operations, one after the other *)

Inductive dms_op :=
| OCreate (relay : string) (body : DMSCreate) (s : Session)
| OList (s : Session)
| OGet (id : string) (s : Session)
| OSignedCheckIn (body : SignedCheckInRequest) (s : Session)
| OCheckIn (required : list string) (id : string) (s : Session)
| OCancel (required : list string) (relay id : string) (s : Session) (proof : option action_proof)
| OBump (pubkey_hex : string)
| OReap (settings : reaper_settings).

(** On whose behalf; [None] is the relay itself. *)
Definition op_actor (o : dms_op) : option string :=
  match o with
  | OCreate _ _ s | OList s | OGet _ s | OSignedCheckIn _ s | OCheckIn _ _ s | OCancel _ _ _ s _ =>
      Some (pubkey_hex s)
  | OBump pk => Some pk
  | OReap _ => None
  end.

Definition op_prog `{Sha256} `{Nacl} (o : dms_op) : prog unit :=
  match o with
  | OCreate relay body s => detached (with_session (create_dms relay body s))
  | OList s => detached (with_session (list_my_dms s))
  | OGet id s => detached (with_session (get_dms id s))
  | OSignedCheckIn body s => detached (with_session (check_in_signed body s))
  | OCheckIn req id s => detached (with_session (check_in req id s))
  | OCancel req relay id s proof => detached (with_session (cancel_dms req relay id s proof))
  | OBump pk => detached (_bump_dms_check_in_for_pubkey pk)
  | OReap settings => detached (fire_dms_switches settings)
  end.

Lemma db_detached {A} now P (p : prog A) Q :
  db_run now P p (fun _ t => Q t) -> db_run now P (detached p) (fun _ t => Q t).
Proof.
  intros Hp. eapply db_pbind; [exact Hp|]. intros a w Hn Hw. done.
Qed.

Lemma op_advances `{Sha256} `{Nacl} o now db :
  unique_ids db ->
  db_run now (fun t => t = (db, db)) (op_prog o) (fun _ t => t.1 = t.2 /\ advances now (op_actor o) db t.1).
Proof.
  intros Hu. destruct o; cbn [op_prog op_actor];
    (apply (db_detached now _ _ (fun t => t.1 = t.2 /\ advances now _ db t.1)));
    first [apply session_advances | apply bump_task_advances | by apply reaper_advances];
    auto using create_handled, list_handled, get_handled, signed_handled, check_in_handled, cancel_handled.
Qed.

(** ** The life of a switch *)

(** A fired switch was delivered to everybody, and no ciphertext outlives the armed state. *)
Definition switch_wf (d : DeadManSwitch) : Prop :=
  match dms_status d with
  | ARMED => True
  | TRIGGERED => all_delivered (dms_recipients d) /\ dms_payload_encrypted d = ""
  | CANCELLED => dms_payload_encrypted d = ""
  end.

(** The same person, and a delivery is never undone. *)
Definition keeps_recipient (r r' : DMSRecipient) : Prop :=
  dr_recipient_pubkey r' = dr_recipient_pubkey r /\ (dr_delivered_at r <> None -> r' = r).

#[export] Instance keeps_recipient_preorder : PreOrder keeps_recipient.
Proof.
  split; [done|]. intros a b c [E1 K1] [E2 K2]. split; [congruence|]. intros Hd.
  rewrite K2; [auto|]. by rewrite K1.
Qed.

(** From one moment to any later one. *)
Record lifecycle (d d' : DeadManSwitch) : Prop := {
  life_id : dms_id d' = dms_id d;
  life_creator : dms_creator_pubkey d' = dms_creator_pubkey d;
  life_trigger : dms_trigger_seconds d' = dms_trigger_seconds d;
  life_final : dms_status d <> ARMED -> d' = d;
  life_payload : dms_status d' = ARMED -> dms_payload_encrypted d' = dms_payload_encrypted d;
  life_recipients : Forall2 keeps_recipient (dms_recipients d) (dms_recipients d');
  life_wf : switch_wf d -> switch_wf d'
}.

Lemma progress_recipients now rs rs' :
  Forall2 (progress now) rs rs' ->
  Forall2 keeps_recipient rs rs'.
Proof. intros Hp. eapply Forall2_impl; [exact Hp|]. intros r r' [->|[Hr ->]]; [done|]. split; [done|]. by rewrite Hr. Qed.

#[export] Instance lifecycle_preorder : PreOrder lifecycle.
Proof.
  split.
  - by intros d.
  - intros d1 d2 d3 H12 H23. destruct H12 as [i1 c1 t1 f1 p1 r1 w1], H23 as [i2 c2 t2 f2 p2 r2 w2].
    split; try congruence; try tauto.
    + intros Hd. pose proof (f1 Hd) as E. rewrite E in f2. by apply f2.
    + intros Hd. destruct (decide (dms_status d2 = ARMED)) as [Ha|Ha]; [by rewrite p2, p1|].
      rewrite (f2 Ha) in Hd. done.
    + by etrans.
Qed.

Lemma evolves_lifecycle now actor d d' : evolves now actor d d' -> lifecycle d d'.
Proof.
  intros [->|[(pk & _ & _ & Ha & [->| ->])|(_ & Hdue & rs & Hrs & Hd')]]; [done| | |].
  - by split.
  - by split.
  - apply andb_true_iff in Hdue as [Ha%bool_decide_eq_true _]. apply progress_recipients in Hrs.
    destruct Hd' as [->|[Hall ->]]; (split; try done); unfold switch_wf; cbn; by rewrite ?Ha.
Qed.

Lemma new_switch_wf now actor d : new_switch now actor d -> switch_wf d.
Proof. intros (pk & _ & _ & Ha & _). unfold switch_wf. by rewrite Ha. Qed.

Section Histories.
  Context `{R : Redis} `{Sha256} `{Nacl}.

(** Requests, background tasks and runs of the script one after the other, with time, failures and
    everything outside the database changing in between. *)
Inductive dms_step (w : world rstore) : world rstore -> Prop :=
| step_op o : dms_step w (snd (run (op_prog o) w))
| step_elsewhere w' : tables_of w' = tables_of w -> dms_step w w'.

(** The state between two operations. *)
Definition at_rest (w : world rstore) : Prop := w_work w = w_db w /\ unique_ids (w_db w).

Lemma run_tables {A} (p : prog A) (w : world rstore) :
  tables_of (snd (run p w)) = tables_of (snd (run_doc p (absw w))).
Proof. rewrite <- snd_run_absw. done. Qed.

Lemma op_run_advances o (w : world rstore) :
  at_rest w ->
  w_work (snd (run (op_prog o) w)) = w_db (snd (run (op_prog o) w)) /\
  advances (w_now w) (op_actor o) (w_db w) (w_db (snd (run (op_prog o) w))).
Proof.
  intros [Hw Hu]. destruct (op_advances o (w_now w) (w_db w) Hu (absw w)) as [[Hc Ha] _].
  - done.
  - unfold tables_of. cbn. by rewrite Hw.
  - rewrite <- run_tables in Hc, Ha. split; [symmetry; exact Hc|exact Ha].
Qed.

Lemma op_at_rest o (w : world rstore) : at_rest w -> at_rest (snd (run (op_prog o) w)).
Proof.
  intros Hw. destruct (op_run_advances o w Hw) as (Hc & rows & added & _ & _ & _ & Hu).
  split; [done|]. apply Hu, Hw.
Qed.

Lemma advances_life now actor db db' :
  advances now actor db db' ->
  (Forall switch_wf (t_dms db) -> Forall switch_wf (t_dms db')) /\
  forall i d, t_dms db !! i = Some d -> exists d', t_dms db' !! i = Some d' /\ lifecycle d d'.
Proof.
  intros (rows & added & -> & Hrows & Hnew & _). split.
  - intros Hwf. apply Forall_app. split; [|by eapply Forall_impl; [exact Hnew|]; apply new_switch_wf].
    clear Hnew. induction Hrows as [|d d' l l' Hev _ IH]; [done|]. apply Forall_cons in Hwf as [Hd Hl].
    apply Forall_cons_2; [|auto]. by eapply life_wf; [eapply evolves_lifecycle|].
  - intros i d Hi. destruct (Forall2_lookup_l _ _ _ _ _ Hrows Hi) as (d' & Hi' & Hev). exists d'.
    split; [by apply lookup_app_l_Some|by eapply evolves_lifecycle].
Qed.

(** What a history may do to the table. *)
Definition table_life (w w' : world rstore) : Prop :=
  at_rest w' /\ Forall switch_wf (t_dms (w_db w')) /\
  forall i d, t_dms (w_db w) !! i = Some d -> exists d', t_dms (w_db w') !! i = Some d' /\ lifecycle d d'.

Lemma step_life w w' : at_rest w -> Forall switch_wf (t_dms (w_db w)) -> dms_step w w' -> table_life w w'.
Proof.
  intros Hr Hwf [o|w'' E].
  - destruct (op_run_advances o w Hr) as [_ Ha]. destruct (advances_life _ _ _ _ Ha) as [Hwf' Hlife].
    split; [by apply op_at_rest|]. auto.
  - injection E as Edb Ework. unfold table_life, at_rest. rewrite Edb, Ework. split; [done|]. split; [done|].
    intros i d Hi. by exists d.
Qed.


(** Along any history of operations a switch keeps its id, creator, trigger time and
    recipients; a fired or cancelled switch never changes again; the ciphertext of an armed switch
    is never touched; a delivery is never undone; and a fired switch has been delivered to
    everybody and, like a cancelled one, holds no ciphertext. *)
Theorem dms_history (w w' : world rstore) :
  at_rest w -> Forall switch_wf (t_dms (w_db w)) -> rtc dms_step w w' ->
  table_life w w'.
Proof.
  intros Hr Hwf Hsteps. revert Hr Hwf. induction Hsteps as [w|w1 w2 w3 Hs _ IH]; intros Hr Hwf.
  - split; [done|]. split; [done|]. intros i d Hi. by exists d.
  - destruct (step_life _ _ Hr Hwf Hs) as (Hr2 & Hwf2 & H12). destruct (IH Hr2 Hwf2) as (Hr3 & Hwf3 & H23).
    split; [done|]. split; [done|]. intros i d Hi. destruct (H12 i d Hi) as (d2 & Hi2 & L12).
    destruct (H23 i d2 Hi2) as (d3 & Hi3 & L23). exists d3. split; [done|by etrans].
Qed.
End Histories.

(** ** Quotas *)

(** The caller's tier; an unknown caller gets a free account. *)
Definition tier_of (pubkey : string) (db : database) : UserTier :=
  match select_one (fun u => String.eqb (u_pubkey u) pubkey) (t_users db) with Some u => u_tier u | None => FREE end.

Lemma usage_app pk t d :
  armed_of pk d = true ->
  active_usage pk (t ++ [d]) =
  (fst (active_usage pk t) + 1, snd (active_usage pk t) + string_len (dms_payload_encrypted d))%Z.
Proof.
  intros Hd. unfold active_usage. cbv zeta. rewrite List.filter_app. cbn [List.filter]. rewrite Hd.
  rewrite length_app, foldr_app. cbn [length foldr fst snd]. f_equal; [lia|].
  rewrite Z.add_0_r. generalize (List.filter (armed_of pk) t). intros l. induction l as [|x l IH]; cbn [foldr]; lia.
Qed.

Lemma run_fromhex_all l (w : vworld) :
  snd (run_doc (fromhex_all l) w) = w /\
  match fst (run_doc (fromhex_all l) w) with Ok bs => length bs = length l | Raise _ => True end.
Proof.
  induction l as [|s l IH]; cbn [fromhex_all]; [done|]. rewrite run_doc_bind.
  destruct (bytes_fromhex s) as [b|] eqn:E; [|unfold fromhex_; by rewrite E].
  rewrite (run_doc_fromhex _ _ _ E), run_doc_bind. destruct IH as [IH1 IH2]. destruct (run_doc (fromhex_all l) w) as [[bs|e] w'];
    cbn in *; subst; [|done]. split; [done|]. cbn. by rewrite IH2.
Qed.

(** The user row, present or new; the switches are untouched. *)
Lemma run_get_user relay pk_hex pk (w : vworld) :
  bytes_fromhex pk_hex = Some pk ->
  exists u us, run_doc (_get_current_user relay pk_hex) w =
    (Ok u, set_databases (w_db w) (set_users us (w_work w)) w) /\ u_tier u = tier_of pk (w_work w).
Proof.
  intros Hpk. unfold _get_current_user, tier_of. rewrite run_doc_bind, (run_doc_fromhex _ _ _ Hpk).
  rewrite run_doc_bind, run_doc_sql. cbn [fst snd]. destruct (select_one _ _) as [u|] eqn:E.
  - exists u, (t_users (w_work w)). split; [|done]. destruct w as [? ? ? [] ? ? ? ? ? ?]. done.
  - rewrite run_doc_bind, run_doc_now, run_doc_bind, run_doc_sql. cbn. eauto.
Qed.

(** Within the limits of the tier. *)
Definition within_limits (limits : Z * Z * Z) (pk : string) (d : DeadManSwitch) (t : list DeadManSwitch) : Prop :=
  let '(max_recipients, max_active, max_bytes) := limits in
  (Z.of_nat (length (dms_recipients d)) <= max_recipients)%Z /\
  (fst (active_usage pk t) <= max_active)%Z /\ (snd (active_usage pk t) <= max_bytes)%Z.

Lemma run_create_dms relay body s (w : vworld) :
  let w' := snd (run_doc (create_dms relay body s) w) in
  w_db w' = w_db w /\
  match fst (run_doc (create_dms relay body s) w) with
  | Ok info => exists pk d, bytes_fromhex (pubkey_hex s) = Some pk /\ dms_creator_pubkey d = pk /\ info = _to_info d /\
      t_dms (w_work w') = t_dms (w_work w) ++ [d] /\
      within_limits (tier_limits (tier_of pk (w_work w))) pk d (t_dms (w_work w'))
  | Raise _ => True
  end.
Proof.
  cbv zeta. unfold create_dms. destruct (bytes_fromhex (pubkey_hex s)) as [pk|] eqn:Hpk.
  2: { rewrite run_doc_bind. unfold _get_current_user, fromhex_. rewrite Hpk. done. }
  destruct (run_get_user relay _ _ w Hpk) as (u & us & Hrun & Htier). rewrite run_doc_bind, Hrun, Htier.
  destruct (tier_limits _) as [[mr ma] mb] eqn:El. cbv beta iota zeta.
  destruct (Z.ltb_spec mr (Z.of_nat (length (c_recipient_pubkeys_hex body)))) as [|Hmr]; [done|].
  rewrite run_doc_bind, (run_doc_fromhex _ _ _ Hpk), run_doc_bind, run_doc_now, run_doc_bind.
  destruct (b64decode _) as [payload|]; [|done]. rewrite run_doc_ret, run_doc_bind, run_doc_sql. cbn [fst snd].
  destruct (active_usage pk _) as [cnt bytes] eqn:Eu. cbv beta iota zeta. cbn [w_work set_databases set_users t_dms] in Eu.
  destruct (Z.leb_spec ma cnt) as [|Hma]; [done|].
  destruct (Z.ltb_spec mb (bytes + string_len payload)) as [|Hmb]; [done|].
  rewrite run_doc_bind, run_doc_token, run_doc_bind.
  match goal with |- context [run_doc (fromhex_all ?l) ?x] =>
    destruct (run_fromhex_all l x) as [E1 E2]; destruct (run_doc (fromhex_all l) x) as [[bs|e] w1] end;
    cbn [fst snd] in E1, E2; subst w1; [|done].
  rewrite run_doc_bind. unfold insert_row. rewrite run_doc_sql. cbn [w_work set_tokens set_databases set_users t_dms].
  destruct (existsb _ _); [done|]. cbn [fst snd]. cbv beta iota. rewrite run_doc_ret. cbn [fst snd]. split; [done|].
  match goal with |- context [_to_info ?x = _to_info _] => exists pk, x end. cbn [w_work set_databases t_dms set_dms].
  split_and!; try done.
  unfold within_limits. rewrite El, usage_app, Eu by (unfold armed_of; cbn; by rewrite String.eqb_refl).
  cbn. rewrite length_map. lia.
Qed.

(** Creating a switch either adds exactly one row, with which the caller's armed switches,
    their bytes and the recipients are within the limits of the caller's tier, or changes nothing
    at all. *)
Theorem create_within_quota `{R : Redis} relay body s (w : world rstore) :
  w_work w = w_db w ->
  let '(r, w') := observe (with_session (create_dms relay body s)) w in
  w_work w' = w_db w' /\
  match r with
  | Ok info => exists pk d, bytes_fromhex (pubkey_hex s) = Some pk /\ dms_creator_pubkey d = pk /\ info = _to_info d /\
      t_dms (w_db w') = t_dms (w_db w) ++ [d] /\
      within_limits (tier_limits (tier_of pk (w_db w))) pk d (t_dms (w_db w'))
  | Raise _ => w_db w' = w_db w
  end.
Proof.
  intros Hw. rewrite observe_doc, run_with_session. pose proof (run_create_dms relay body s (absw w)) as [Hdb Hr].
  destruct (run_doc (create_dms relay body s) (absw w)) as [[info|e] w1]; cbn [fst snd] in *.
  - split; [done|]. cbn. change (w_work (absw w)) with (w_work w) in Hr. by rewrite Hw in Hr.
  - done.
Qed.

(** ** Signed check-ins *)

(** The marker of a key that has signed. *)
Definition marked_until (pk_hex : string) (t : Z) (v : rview) : Prop :=
  rv_keys v !! signed_checkin_key pk_hex = Some (Entry (VStr "1") (Some t)).

Lemma marked_ckeeps pk t c : signed_checkin_key pk ∉ writes c -> ckeeps (marked_until pk t) c.
Proof. intros Hc now v Hv. unfold marked_until. by rewrite documented_frame. Qed.

Lemma marked_enforced req pk t (w : vworld) :
  calm w -> "dms_checkin" ∈ req -> marked_until pk t (w_redis w) ->
  run_doc (signed_checkin_enforced req pk) w = (Ok true, w).
Proof.
  intros Hc Hreq Hm. unfold signed_checkin_enforced. rewrite bool_decide_eq_true_2 by done. cbn [negb].
  rewrite run_doc_try, run_doc_bind, run_doc_redis by done. unfold marked_until in Hm.
  rewrite rrun_rcall. cbn [documented fst snd]. rewrite Hm. cbn. f_equal. by destruct w.
Qed.

Lemma session_keys_marker `{Sha256} pk d pk' :
  signed_checkin_key pk <> _session_key d /\ signed_checkin_key pk <> _user_sessions_key pk'.
Proof. split; string_ne. Qed.

Lemma marked_call {A} pk t c (dec : reply -> option A) :
  signed_checkin_key pk ∉ writes c -> exchanges_keep (marked_until pk t) (redis_ (rcall c dec)).
Proof. intros Hc. apply exchanges_redis. refine (rkeeps_rcall _ _ _ _). by apply marked_ckeeps. Qed.

Lemma marked_multi pk t cs :
  Forall (fun c => signed_checkin_key pk ∉ writes c) cs -> exchanges_keep (marked_until pk t) (redis_ (rmulti cs)).
Proof.
  intros Hcs. apply exchanges_redis. refine (rkeeps_rmulti _ _ _). eapply Forall_impl; [exact Hcs|].
  intros c. apply marked_ckeeps.
Qed.

Ltac not_session_key := cbn [writes set_ex]; rewrite ?elem_of_cons, ?elem_of_nil; intros ?; destruct_or?;
  match goal with
  | E : signed_checkin_key ?p = _session_key ?d |- _ => exact (proj1 (session_keys_marker p d p) E)
  | E : signed_checkin_key ?p = _user_sessions_key ?d |- _ => exact (proj2 (session_keys_marker p d d) E)
  | _ => done
  end.

Lemma marked_accept `{Sha256} pk t tok now value : exchanges_keep (marked_until pk t) (accept_session tok now value).
Proof.
  unfold accept_session. cbv zeta. destruct (partition_bar value) as [p c]. destruct (over_ceiling now c).
  - apply exchanges_bind; [apply marked_call; not_session_key|]. intros ?.
    apply exchanges_bind; [apply marked_call; not_session_key|]. done.
  - apply exchanges_bind; [apply marked_call; not_session_key|]. intros ?.
    apply exchanges_bind; [apply marked_call; not_session_key|]. intros ?. by split.
Qed.

Lemma marked_verify `{Sha256} pk t tok : exchanges_keep (marked_until pk t) (verify_session_token tok).
Proof.
  unfold verify_session_token. destruct (String.eqb tok ""); [done|]. split; [done|]. intros now. cbn [ret pbind].
  cbv zeta. apply exchanges_bind; [apply marked_call; not_session_key|]. intros [value|]; [apply marked_accept|].
  apply exchanges_bind; [apply marked_call; not_session_key|]. intros [value|]; [|done].
  apply exchanges_bind; [|intros _; apply marked_accept].
  apply marked_multi. repeat (apply Forall_cons_2; [not_session_key|]). apply Forall_nil_2.
Qed.

Lemma spawns_verify `{Sha256} tok : spawns (fun _ => False) (verify_session_token tok).
Proof. unfold verify_session_token, accept_session. cbv zeta. repeat spawns_step. Qed.

(** While the marker is there, being seen is no sign of life. *)
Lemma marked_no_bump `{Sha256} req pk t auth (w : vworld) :
  calm w -> "dms_checkin" ∈ req -> marked_until pk t (w_redis w) ->
  exists ts, w_tasks (snd (run_doc (get_current_session req auth) w)) = w_tasks w ++ ts /\ TBumpDms pk ∉ ts.
Proof.
  intros Hc Hreq Hm.
  assert (Hnone : exists ts : list task, w_tasks w = w_tasks w ++ ts /\ TBumpDms pk ∉ ts)
    by (exists []; rewrite app_nil_r; split; [done|apply not_elem_of_nil]).
  unfold get_current_session. destruct (truthy auth) as [a|]; [|done].
  destruct (partition_space a) as [scheme token]. destruct (_ || _); [done|].
  rewrite run_doc_bind. set (tok := strip token).
  pose proof (exchanges_run _ _ w (marked_verify pk t tok) Hm) as Hm1. pose proof (calm_run (verify_session_token tok) w Hc) as Hc1.
  destruct (spawns_run _ _ w (spawns_verify tok)) as (ts & E & Hts).
  assert (ts = []) as -> by (destruct ts as [|x ts]; [done|]; by apply Forall_cons in Hts as [[] _]).
  rewrite app_nil_r in E. destruct (run_doc (verify_session_token tok) w) as [[[s|]|e] w1]; cbn [snd] in *;
    [|cbn; by rewrite E..].
  cbv zeta. rewrite <- E. destruct (decide (pubkey_hex s = pk)) as [->|Hne].
  - rewrite run_doc_bind, (marked_enforced req pk t w1) by done. cbn [negb].
    rewrite run_doc_bind, run_doc_ret, run_doc_bind, run_doc_ret.
    match goal with |- context [run_doc ?p w1] =>
      destruct (spawns_run (fun t => exists x, t = TBumpSeen x) p w1) as (ts & E1 & H1) end.
    { unfold first_in_window, spawn. repeat spawns_step. split; [eauto|]. by intros. }
    exists ts. split; [done|]. by intros [x Hx]%(proj1 (Forall_forall _ _) H1).
  - match goal with |- context [run_doc ?p w1] =>
      destruct (spawns_run (fun t => t <> TBumpDms pk) p w1) as (ts & E1 & H1) end.
    { unfold signed_checkin_enforced, first_in_window, spawn. repeat spawns_step; (split; [congruence|]); by intros. }
    exists ts. split; [done|]. intros Hin. by apply (proj1 (Forall_forall _ _) H1 _ Hin).
Qed.

(** A signed check-in in time. *)
Lemma run_check_in_signed `{Nacl} body s pk sig (w : vworld) :
  calm w -> (Z.abs (w_now w - ci_timestamp body) <= 300)%Z ->
  bytes_fromhex (pubkey_hex s) = Some pk -> bytes_fromhex (ci_signature_hex body) = Some sig ->
  ed25519_verify (canonical_json (checkin_payload (pubkey_hex s) (ci_timestamp body))) sig pk = true ->
  let '(n, t) := update_where (armed_of pk) (set_check_in (w_now w)) (t_dms (w_work w)) in
  let db := set_dms t (w_work w) in
  run_doc (with_session (check_in_signed body s)) w =
  (Ok (n, w_now w), set_redis (put (signed_checkin_key (pubkey_hex s)) (Entry (VStr "1") (Some (w_now w + _TTL_SECONDS)%Z))
                       (w_redis w)) (set_databases db db w)).
Proof.
  intros Hc Hts Hpk Hsig Hver. destruct (update_where _ _ _) as [n t] eqn:Eu. cbv zeta. rewrite run_with_session.
  unfold check_in_signed. rewrite run_doc_bind, run_doc_now, (proj2 (Z.ltb_ge _ _)) by lia.
  cbv zeta. rewrite run_doc_bind, (run_doc_fromhex _ _ _ Hpk), Hsig, Hver. cbn [negb].
  unfold bump_check_in_for_pubkey. rewrite run_doc_bind.
  rewrite run_doc_bind, (run_doc_fromhex _ _ _ Hpk), run_doc_bind, run_doc_now.
  unfold sql_check_in. rewrite run_doc_sql, Eu. cbn [fst snd].
  rewrite run_doc_bind. cbn [commit run_doc run_exec ev_exec ret]. fold (@run_doc).
  rewrite run_doc_bind. unfold remember_signed_checkin. rewrite run_doc_try.
  rewrite run_set_ex by done. done.
Qed.

Lemma marked_later pk d t v : (t < d)%Z -> marked_until pk d v -> marked_until pk d (expire t v).
Proof.
  unfold marked_until. intros Ht Hm. rewrite keys_expire, Hm. cbn. unfold live_at. cbn. by rewrite decide_True.
Qed.

(** A signed check-in counts for every armed switch of its key, and from then on, for 400 days,
    a bearer token is no sign of life where signatures are required: the unsigned check-in answers
    410, and no authenticated request starts the task that would move the timer. *)
Theorem signed_checkin_sticks `{R : Redis} `{Sha256} `{Nacl} body s pk sig (w : world rstore) required id auth t :
  calm w -> w_work w = w_db w ->
  (Z.abs (w_now w - ci_timestamp body) <= 300)%Z ->
  bytes_fromhex (pubkey_hex s) = Some pk -> bytes_fromhex (ci_signature_hex body) = Some sig ->
  ed25519_verify (canonical_json (checkin_payload (pubkey_hex s) (ci_timestamp body))) sig pk = true ->
  "dms_checkin" ∈ required -> (w_now w <= t < w_now w + _TTL_SECONDS)%Z ->
  let first := run (with_session (check_in_signed body s)) w in
  let w1 := set_now t (snd first) in
  fst first = Ok (Z.of_nat (length (List.filter (armed_of pk) (t_dms (w_db w)))), w_now w) /\
  t_dms (w_db w1) = map (fun d => if armed_of pk d then set_check_in (w_now w) d else d) (t_dms (w_db w)) /\
  fst (run (with_session (check_in required id s)) w1) = Raise (HTTPException 410 "signed_checkin_required") /\
  exists ts, w_tasks (snd (run (get_current_session required auth) w1)) = w_tasks w1 ++ ts /\
    TBumpDms (pubkey_hex s) ∉ ts.
Proof.
  intros Hc Hw Hts Hpk Hsig Hver Hreq Ht first w1.
  pose proof (run_check_in_signed body s pk sig (absw w) Hc Hts Hpk Hsig Hver) as Hrun. cbn [update_where] in Hrun.
  change (w_work (absw w)) with (w_work w) in Hrun. rewrite Hw in Hrun. cbv zeta in Hrun.
  assert (E1 : absw w1 = later t (snd (run_doc (with_session (check_in_signed body s)) (absw w))))
    by (apply run_later; [lia|by rewrite Hrun]).
  rewrite Hrun in E1. cbn [snd] in E1.
  assert (Hm : marked_until (pubkey_hex s) (w_now w + _TTL_SECONDS) (w_redis (absw w1))).
  { rewrite E1. apply marked_later; [lia|]. apply keys_put_eq. }
  assert (Hc1 : calm (absw w1)) by (rewrite E1; exact Hc).
  split_and!.
  - unfold first. rewrite fst_run, Hrun. done.
  - change (w_db w1) with (w_db (absw w1)). by rewrite E1.
  - rewrite fst_run, run_with_session. unfold check_in. rewrite run_doc_bind.
    by rewrite (marked_enforced required (pubkey_hex s) _ (absw w1) Hc1 Hreq Hm).
  - destruct (marked_no_bump required (pubkey_hex s) _ auth (absw w1) Hc1 Hreq Hm) as (ts & E & Hts').
    exists ts. split; [|done]. change (w_tasks (absw (snd (run (get_current_session required auth) w1))) = w_tasks (absw w1) ++ ts).
    by rewrite snd_run_absw.
Qed.

(** ** A secret that is lost *)

Section Lost.
  Context `{Sha256} `{Nacl} (settings : reaper_settings) (key : string) (d : DeadManSwitch) (pk path : string).
  Hypothesis Hkey : bytes_fromhex (rs_relay_privkey_hex settings) = Some key.
  Hypothesis Hlen : string_len key = 32%Z.
  Hypothesis Hpath : _blob_path (dms_envelope_id d pk) = Ok path.
  Hypothesis Httl : (0 < rs_message_ttl_hard_seconds settings)%Z.
Let r := mkRecipient pk None.
  Hypothesis Hrs : dms_recipients d = [r].
Let meta_key := _envelope_meta_key (dms_envelope_id d pk).

(** A delivery is a post of the switch's ciphertext, with two signatures. *)
Lemma run_build_args (w : vworld) :
  exists sig attestation, run_doc (_build_and_deliver_envelope settings d pk key) w =
    run_doc (let! _ := write_blob_then_enqueue (dms_enqueue_args settings d pk (w_now w) sig attestation)
                         (dms_payload_encrypted d) in ret (dms_envelope_id d pk)) w.
Proof.
  unfold _build_and_deliver_envelope, sign_, ed25519_sign. rewrite Hlen. cbn [Z.eqb Pos.eqb negb].
  eexists _, _. rewrite run_doc_bind, run_doc_now. cbv zeta. rewrite run_doc_bind. cbn [of_res run_doc run_exec]. done.
Qed.

(** The arguments of the enqueue at a time, and the metadata they make. *)
Lemma run_build (w : vworld) :
  exists a meta, ea_envelope_id a = dms_envelope_id d pk /\
    expiry (ea_timestamp a) (ea_ttl a) (w_now w) (ea_hard_ceiling a) = (w_now w + rs_message_ttl_hard_seconds settings)%Z /\
    build_meta a (w_now w + rs_message_ttl_hard_seconds settings) = Ok meta /\
    run_doc (_build_and_deliver_envelope settings d pk key) w =
    run_doc (let! _ := write_blob_then_enqueue a (dms_payload_encrypted d) in ret (dms_envelope_id d pk)) w.
Proof.
  destruct (run_build_args w) as (sig & attestation & E).
  eexists (dms_enqueue_args settings d pk (w_now w) sig attestation), _. split; [done|]. split; [|by split].
  unfold expiry. cbn. lia.
Qed.

(** The one delivery of a run, with its outcome. *)
Lemma run_fire_single (w w1 : vworld) (o : res string) :
  next_fault w = Fine -> w_work w = w_db w -> t_dms (w_db w) = [d] -> due (w_now w) d = true ->
  run_doc (_build_and_deliver_envelope settings d pk key) (pop_fault w) = (o, w1) ->
  w_db w1 = w_db w -> w_work w1 = w_db w ->
  let d' := match o with Ok _ => triggered (w_now w) (with_recipients [mkRecipient pk (Some (w_now w))] d) | Raise _ => d end in
  snd (run_doc (fire_dms_switches settings) w) =
  set_databases (set_dms [d'] (w_db w)) (set_dms [d'] (w_db w)) w1.
Proof.
  intros Hf Hwork Ht Hdue Hrun Hdb1 Hwork1. cbv zeta.
  assert (Hage : (w_now w - dms_last_check_in_at d <? dms_trigger_seconds d)%Z = false).
  { unfold due in Hdue. apply andb_true_iff in Hdue as [_ Hd%Z.leb_le]. apply Z.ltb_ge. lia. }
  assert (Hup : run_doc (try_except (let! _ := redis_ (rret tt) in ret true) (fun _ => ret false)) w = (Ok true, pop_fault w)).
  { rewrite run_doc_try, run_doc_bind, run_doc_redis_fine by done. cbn. by destruct w. }
  assert (Hone : run_doc (fire_one settings key (w_now w) d) (pop_fault w) =
    (Ok (match o with Ok _ => triggered (w_now w) (with_recipients [mkRecipient pk (Some (w_now w))] d) | Raise _ => d end,
         match o with Ok _ => FireStats 1 1 0 1 0 | Raise _ => FireStats 1 0 0 0 1 end), w1)).
  { unfold fire_one. cbv zeta. rewrite Hage, Hrs. cbn [deliver_all dr_delivered_at r dr_recipient_pubkey].
    rewrite run_doc_bind, run_doc_bind, run_doc_try, run_doc_bind, Hrun.
    destruct o; [done|]. cbn. unfold with_recipients. do 3 f_equal. destruct d; cbn in *. by rewrite Hrs. }
  unfold fire_dms_switches. rewrite run_doc_bind, run_doc_now, Hkey, Hlen. cbn [Z.eqb Pos.eqb negb].
  rewrite run_doc_bind, Hup. cbn [negb]. rewrite run_doc_bind, run_doc_sql. cbn [fst snd].
  change (w_work (pop_fault w)) with (w_work w). rewrite Hwork, Ht. cbn [List.filter]. rewrite Hdue. cbn [fire_all].
  replace (set_databases (w_db (pop_fault w)) (w_db w) (pop_fault w)) with (pop_fault w)
    by (destruct w; cbn in *; by subst).
  rewrite run_doc_bind, run_doc_bind, Hone, run_doc_bind, run_doc_ret, run_doc_ret, run_doc_bind.
  cbn [store_all]. rewrite run_doc_bind. unfold store_dms. rewrite run_doc_sql. cbn [snd].
  rewrite Hdb1, Hwork1, Ht. cbn [update_where snd map].
  assert (Hid : by_id (dms_id (match o with Ok _ => triggered (w_now w) (with_recipients [mkRecipient pk (Some (w_now w))] d)
                          | Raise _ => d end)) d = true) by (destruct o; apply String.eqb_refl).
  rewrite Hid, run_doc_ret. done.
Qed.

(** The reply of the claim is lost: the metadata stays, and the delivery fails. *)
Lemma run_deliver_lost (w : vworld) :
  w_faults w = [Fine; LostReply] -> rv_keys (w_redis w) !! meta_key = None ->
  exists m b, run_doc (_build_and_deliver_envelope settings d pk key) w =
    (Raise RedisError, set_faults [] (set_blobs b (set_redis
       (put meta_key (Entry (VStr m) (Some (w_now w + rs_message_ttl_hard_seconds settings)%Z)) (w_redis w)) w))).
Proof.
  intros Hf Hk. destruct (run_build w) as (a & meta & Hid & Hexp & Hmeta & Hrun).
  exists (dumps (JObj meta)), (<[path := File (dms_payload_encrypted d) (w_now w)]> (w_blobs w)).
  rewrite Hrun, run_doc_bind. unfold write_blob_then_enqueue. rewrite run_doc_bind, Hid.
  unfold write_blob. rewrite run_doc_bind, Hpath. cbn [of_res run_doc run_exec ev_exec].
  unfold next_fault. rewrite Hf. cbn [run_exec ret]. fold (@run_doc). rewrite run_doc_try.
  rewrite (run_enqueue_lost_claim a _ meta).
  - cbn [is_enqueue_rejected]. rewrite Hid, run_doc_raise. cbn [w_redis w_now set_blobs pop_fault set_faults].
    rewrite Hexp. done.
  - cbn. by rewrite Hf.
  - cbn. rewrite Hexp. lia.
  - cbn. by rewrite Hexp.
  - rewrite Hid. exact Hk.
Qed.

(** The metadata is there: the delivery succeeds, and does nothing. *)
Lemma run_deliver_again (w : vworld) e :
  calm w -> rv_keys (w_redis w) !! meta_key = Some e ->
  exists b, run_doc (_build_and_deliver_envelope settings d pk key) w = (Ok (dms_envelope_id d pk), set_blobs b w).
Proof.
  intros Hc Hk. destruct (run_build w) as (a & meta & Hid & Hexp & Hmeta & Hrun).
  exists (<[path := File (dms_payload_encrypted d) (w_now w)]> (w_blobs w)).
  rewrite Hrun, run_doc_bind. unfold write_blob_then_enqueue. rewrite run_doc_bind, Hid.
  rewrite (run_write_blob _ path) by done. rewrite run_doc_try.
  destruct (calm_pop (put_blob path (dms_payload_encrypted d) w) Hc) as [Hn Hp].
  rewrite (run_enqueue_claim a _ meta); [|done|cbn; rewrite Hexp; lia|cbn; by rewrite Hexp].
  rewrite Hid. change (w_redis (put_blob path (dms_payload_encrypted d) w)) with (w_redis w).
  fold meta_key. rewrite Hk, Hp. done.
Qed.
End Lost.

(** A switch can fire and deliver nothing.  If the reply to the claim of the metadata is lost in
    one run of the reaper, the switch stays armed as intended; but the next run takes the claim it
    left behind for a delivered duplicate: it marks the recipient as delivered, fires the switch
    and erases the ciphertext, and no key of Redis other than the metadata has changed, so the
    envelope is in no inbox. *)
Theorem dms_secret_lost `{R : Redis} `{Sha256} `{Nacl} settings key d pk path (w : world rstore) t :
  let meta_key := _envelope_meta_key (dms_envelope_id d pk) in
  bytes_fromhex (rs_relay_privkey_hex settings) = Some key -> string_len key = 32%Z ->
  _blob_path (dms_envelope_id d pk) = Ok path ->
  w_work w = w_db w -> t_dms (w_db w) = [d] -> dms_recipients d = [mkRecipient pk None] ->
  due (w_now w) d = true ->
  rv_keys (w_redis (absw w)) !! meta_key = None ->
  w_faults w = [Fine; Fine; LostReply] ->
  (w_now w <= t < w_now w + rs_message_ttl_hard_seconds settings)%Z ->
  let w1 := snd (run (fire_dms_switches settings) w) in
  let w2 := snd (run (fire_dms_switches settings) (set_now t w1)) in
  t_dms (w_db w1) = [d] /\
  t_dms (w_db w2) = [triggered t (with_recipients [mkRecipient pk (Some t)] d)] /\
  forall k, k <> meta_key -> rv_keys (w_redis (absw w2)) !! k = rv_keys (expire t (w_redis (absw w))) !! k.
Proof.
  intros meta_key Hkey Hlen Hpath Hw Ht Hrs Hdue Hk Hf Ht2 w1 w2.
  destruct (run_deliver_lost settings key d pk path Hlen Hpath ltac:(lia) (pop_fault (absw w))) as (m & b & H1);
    [cbn; by rewrite Hf|exact Hk|].
  assert (E1 : absw w1 = set_databases (set_dms [d] (w_db w)) (set_dms [d] (w_db w)) (set_faults [] (set_blobs b (set_redis
    (put meta_key (Entry (VStr m) (Some (w_now w + rs_message_ttl_hard_seconds settings)%Z)) (w_redis (absw w))) (absw w))))).
  { unfold w1. rewrite snd_run_absw.
    assert (Hn : next_fault (absw w) = Fine) by (unfold next_fault; cbn; by rewrite Hf).
    rewrite (run_fire_single settings key d pk path Hkey Hlen Hpath Hrs (absw w) _ _ Hn Hw Ht Hdue H1 eq_refl Hw). done. }
  assert (E2 : absw (set_now t w1) = later t (absw w1)).
  { apply absw_later. change (w_now w1) with (w_now (absw w1)). rewrite E1. cbn. lia. }
  rewrite E1 in E2.
  destruct (run_deliver_again settings key d pk path Hlen Hpath ltac:(lia) (absw (set_now t w1))
    (Entry (VStr m) (Some (w_now w + rs_message_ttl_hard_seconds settings)%Z))) as [b2 H2].
  { rewrite E2. done. }
  { rewrite E2. cbn [w_redis later set_databases set_redis set_blobs set_faults]. rewrite keys_expire, keys_put_eq. cbn.
    unfold live_at. cbn. rewrite decide_True by lia. done. }
  assert (E3 : absw w2 = set_databases (set_dms [triggered t (with_recipients [mkRecipient pk (Some t)] d)] (w_db (absw (set_now t w1))))
    (set_dms [triggered t (with_recipients [mkRecipient pk (Some t)] d)] (w_db (absw (set_now t w1)))) (set_blobs b2 (absw (set_now t w1)))).
  { unfold w2. rewrite snd_run_absw.
    assert (Hc : calm (absw (set_now t w1))) by by rewrite E2.
    destruct (calm_pop _ Hc) as [Hn Hp]. rewrite <- Hp in H2 at 1.
    assert (Hw' : w_work (absw (set_now t w1)) = w_db (absw (set_now t w1))) by by rewrite E2.
    assert (Ht' : t_dms (w_db (absw (set_now t w1))) = [d]) by by rewrite E2.
    assert (Hdue' : due (w_now (absw (set_now t w1))) d = true).
    { cbn. unfold due in *. apply andb_true_iff in Hdue as [-> Hd%Z.leb_le]. apply Z.leb_le. lia. }
    rewrite (run_fire_single settings key d pk path Hkey Hlen Hpath Hrs _ _ _ Hn Hw' Ht' Hdue' H2 eq_refl Hw'). done. }
  rewrite E2 in E3. split_and!.
  - change (w_db w1) with (w_db (absw w1)). by rewrite E1.
  - change (w_db w2) with (w_db (absw w2)). by rewrite E3.
  - intros k Hne. rewrite E3. cbn [w_redis later set_databases set_redis set_blobs set_faults]. rewrite !keys_expire.
    by rewrite keys_put_ne by congruence.
Qed.

(** ** Witnesses *)

Module DmsDemo.
#[local] Instance demo_sha : Sha256 := fun s => s.
#[local] Instance demo_nacl : Nacl :=
  {| nacl_verify := fun _ _ _ => true; nacl_sign := fun _ _ => "s"; nacl_public := fun k => k;
     nacl_to_curve25519 := fun k => Ok k |}.

Definition alice_hex : string := "aa".
Definition alice : string := default "" (bytes_fromhex alice_hex).
Definition bob : string := default "" (bytes_fromhex "bb").
Definition session : Session := mkSession "token" alice_hex 5000.
(** Armed at 1000, fires at 4600. *)
Definition switch : DeadManSwitch :=
  mkDMS "id" alice 3600 1000 "secret" None ARMED 1000 None None [mkRecipient bob None].
Definition db : database := set_dms [switch] empty_db.
Definition relay (now : Z) (fs : list fault) : world (rstore (Redis := Mem_Redis)) :=
  World now (View ∅ ∅ []) db db ∅ [] (fun _ => "fresh") fs no_network [].
Definition settings : reaper_settings :=
  ReaperSettings "0000000000000000000000000000000000000000000000000000000000000000" "relay" 86400.

Lemma at_rest_relay now fs : at_rest (relay now fs).
Proof. split; [reflexivity|]. apply NoDup_singleton. Qed.


Lemma history_witness :
  table_life (relay 5000 []) (snd (run (op_prog (OReap settings)) (relay 5000 []))).
Proof.
  apply (dms_history (relay 5000 []));
    [apply at_rest_relay|apply Forall_singleton; exact I|eapply rtc_once, step_op].
Defined.

Definition body : DMSCreate := mkDMSCreate 3600 "AAAA" ["bb"] None.

Lemma quota_witness :
  w_work (snd (observe (with_session (create_dms "relay" body session)) (relay 2000 []))) =
  w_db (snd (observe (with_session (create_dms "relay" body session)) (relay 2000 []))).
Proof. pose proof (create_within_quota "relay" body session (relay 2000 []) eq_refl) as Hq. exact (proj1 Hq). Defined.

Definition zeros (n : nat) : string := string_of_list_ascii (repeat "0"%char n).
Definition carol_hex : string := zeros 64.
Definition carol_session : Session := mkSession "token" carol_hex 5000.
Definition signed : SignedCheckInRequest := mkCheckIn 2000 (zeros 128).

Lemma checkin_witness :
  fst (run (with_session (check_in ["dms_checkin"] "x" carol_session))
         (set_now 3000 (snd (run (with_session (check_in_signed signed carol_session)) (relay 2000 []))))) =
  Raise (HTTPException 410 "signed_checkin_required").
Proof.
  apply (signed_checkin_sticks signed carol_session (default "" (bytes_fromhex carol_hex))
           (default "" (bytes_fromhex (zeros 128))) (relay 2000 []) ["dms_checkin"] "x" None 3000);
    try (vm_compute; reflexivity).
  - vm_compute. discriminate.
  - left.
  - split; [vm_compute; discriminate|vm_compute; reflexivity].
Defined.

Lemma secret_lost_witness :
  let w1 := snd (run (fire_dms_switches settings) (relay 5000 [Fine; Fine; LostReply])) in
  let w2 := snd (run (fire_dms_switches settings) (set_now 9000 w1)) in
  t_dms (w_db w2) = [triggered 9000 (with_recipients [mkRecipient bob (Some 9000%Z)] switch)] /\
  rv_keys (w_redis (absw w2)) !! _inbox_key "bb" = None.
Proof.
  destruct (dms_secret_lost settings (default "" (bytes_fromhex (rs_relay_privkey_hex settings))) switch bob
    (match _blob_path (dms_envelope_id switch bob) with Ok p => p | Raise _ => "" end)
    (relay 5000 [Fine; Fine; LostReply]) 9000) as (_ & Hfired & Hkeys);
    try (vm_compute; reflexivity); [split; [vm_compute; discriminate|vm_compute; reflexivity]|].
  split; [exact Hfired|]. rewrite Hkeys; [vm_compute; reflexivity|vm_compute; discriminate].
Defined.
End DmsDemo.
