(* ===== verification/DueFacts.v ===== *)
(** * Due switches fire (scripts/dms_reaper.py)

    A run of the reaper that no failure strikes leaves no due switch armed, as long as the inboxes of
    the recipients have room for what is due. *)

From Stdlib Require Import Ascii String.
From stdpp Require Import prelude gmap strings list.
From S2P Require Import Prelude Json Codec CodecFacts RedisStore Models Effects Crypto Payloads Sessions RateLimit Deps Logic Dms.
From S2P Require Import BlobStorage Queue QueueFacts QueueTypes DmsReaper DmsFacts.

#[local] Open Scope morok_scope.

(** ** Inboxes *)

Definition inbox_of (r : string) (v : rview) : gmap string Z := default ∅ (zset_at (_inbox_key r) v).

(** The recipient finds the envelope, until the time [now] passes. *)
Definition queued (now : Z) (id r : string) (v : rview) : Prop := exists s, inbox_of r v !! id = Some s /\ (now < s)%Z.

Definition times (r : string) (rs : list string) : Z := Z.of_nat (length (List.filter (String.eqb r) rs)).

(** Every inbox has room for what the list adds to it. *)
Definition room (now : Z) (rs : list string) (v : rview) : Prop :=
  forall r, (Z.of_nat (size (live now (inbox_of r v))) + times r rs <= MAX_INBOX_QUEUE_DEPTH)%Z.

Lemma times_app r rs rs' : times r (rs ++ rs') = (times r rs + times r rs')%Z.
Proof. unfold times. rewrite List.filter_app, length_app. lia. Qed.

Lemma times_cons r r' rs : times r (r' :: rs) = ((if String.eqb r r' then 1 else 0) + times r rs)%Z.
Proof. unfold times. cbn. destruct (String.eqb r r'); cbn [length]; lia. Qed.

(** A post that expires later is live, and so are those that were. *)
Lemma size_live_insert now id exp z :
  (Z.of_nat (size (live now (<[id := exp]> (live now z)))) <= Z.of_nat (size (live now z)) + 1)%Z.
Proof.
  assert (size (live now (<[id := exp]> (live now z))) <= size (<[id := exp]> (live now z))) as Hle
    by (apply map_subseteq_size, map_filter_subseteq).
  rewrite map_size_insert in Hle. destruct (live now z !! id); cbn in Hle; lia.
Qed.

Lemma live_later now z id s : z !! id = Some s -> (now < s)%Z -> live now z !! id = Some s.
Proof. intros Hz Hs. unfold live. apply map_lookup_filter_Some. split; [done|]. unfold in_range. cbn. lia. Qed.

(** ** Deliveries *)

Section Fire.
  Context `{Sha256} `{Nacl} (settings : reaper_settings) (key : string).
  Hypothesis Hlen : string_len key = 32%Z.
  Hypothesis Httl : (0 < rs_message_ttl_hard_seconds settings)%Z.
  Hypothesis Hsha : forall x, string_len (sha256 x) = 32%Z.

(** What a switch has still to deliver: envelope and recipient. *)
Definition deliveries (d : DeadManSwitch) (rs : list DMSRecipient) : list (string * string) :=
  omap (fun r => match dr_delivered_at r with
                 | None => Some (dms_envelope_id d (dr_recipient_pubkey r), hex_of_bytes (dr_recipient_pubkey r))
                 | Some _ => None end) rs.

(** From [w] to [w1] these deliveries were made: each envelope had been claimed before or is in its
    recipient's inbox, nothing that was in an inbox is lost, and there is room for [rs] left. *)
Record delivered (D : list (string * string)) (rs : list string) (w w1 : vworld) : Prop := {
  dl_calm : calm w1;
  dl_typed : typed (w_redis w1);
  dl_now : w_now w1 = w_now w;
  dl_tables : tables_of w1 = tables_of w;
  dl_room : room (w_now w) rs (w_redis w1);
  dl_keep id r : queued (w_now w) id r (w_redis w) -> queued (w_now w) id r (w_redis w1);
  dl_frame id : id ∉ D.*1 -> rv_keys (w_redis w1) !! _envelope_meta_key id = rv_keys (w_redis w) !! _envelope_meta_key id;
  dl_done id r : (id, r) ∈ D -> is_Some (rv_keys (w_redis w) !! _envelope_meta_key id) \/ queued (w_now w) id r (w_redis w1)
}.

Lemma delivered_nil rs (w : vworld) : calm w -> typed (w_redis w) -> room (w_now w) rs (w_redis w) -> delivered [] rs w w.
Proof. intros. split; try done. intros id r Hin. by apply elem_of_nil in Hin. Qed.

Lemma delivered_app D1 D2 rs (w w1 w2 : vworld) :
  NoDup (D1 ++ D2).*1 -> delivered D1 (D2.*2 ++ rs) w w1 -> delivered D2 rs w1 w2 -> delivered (D1 ++ D2) rs w w2.
Proof.
  rewrite fmap_app. intros (_ & Hdis & _)%NoDup_app [] [C2 T2 N2 B2 R2 K2 F2 D2']. rewrite dl_now0 in *. split; try done; try congruence.
  - auto.
  - intros id. rewrite fmap_app, not_elem_of_app. intros [H1 H2]. rewrite F2, dl_frame0; done.
  - intros id r [Hin|Hin]%elem_of_app.
    + destruct (dl_done0 id r Hin) as [?|?]; auto.
    + destruct (D2' id r Hin) as [Hm|?]; [|auto]. left. rewrite <- dl_frame0; [done|]. intros Hid. apply (Hdis id Hid).
      apply list_elem_of_fmap. by exists (id, r).
Qed.

Lemma good_path x : exists path, _blob_path (sha256_hex x) = Ok path.
Proof.
  unfold _blob_path, lower_hex_at_least, sha256_hex. pose proof (hex_of_bytes_len (sha256 x)) as Hx.
  apply andb_true_iff in Hx as [Hl%Z.eqb_eq Hx]. rewrite Hsha in Hl. rewrite Hx, Hl. by eexists.
Qed.

Lemma meta_key_inj id id' : _envelope_meta_key id = _envelope_meta_key id' -> id = id'.
Proof. unfold _envelope_meta_key. cbv [append]. naive_solver. Qed.

(** The inboxes after a post. *)
Lemma posted_inboxes a now exp meta z p idx v v' :
  posted a now exp meta z p idx v v' -> zset_at (_inbox_key (ea_recipient a)) v = Some z ->
  forall r, inbox_of r v' = if String.eqb r (ea_recipient a) then <[ea_envelope_id a := exp]> (live now z) else inbox_of r v.
Proof.
  intros Hp Hz r. unfold inbox_of. destruct (String.eqb_spec r (ea_recipient a)) as [->|Hne].
  - unfold zset_at. by rewrite (posted_inbox _ _ _ _ _ _ _ _ _ Hp).
  - unfold zset_at. rewrite (posted_frame _ _ _ _ _ _ _ _ _ Hp); [done|].
    rewrite !not_elem_of_cons. repeat split; try apply not_elem_of_nil; try solve [string_ne].
    intros E. by apply inbox_key_inj in E.
Qed.

Lemma run_deliver_one d pk rs (w : vworld) :
  let id := dms_envelope_id d pk in
  calm w -> typed (w_redis w) -> room (w_now w) (hex_of_bytes pk :: rs) (w_redis w) ->
  exists w1, run_doc (_build_and_deliver_envelope settings d pk key) w = (Ok id, w1) /\
    delivered [(id, hex_of_bytes pk)] rs w w1.
Proof.
  intros id Hc Ht Hroom. destruct (run_build_args settings key d pk Hlen w) as (sig & att & E).
  set (a := dms_enqueue_args settings d pk (w_now w) sig att) in *.
  destruct (good_path (dms_id d +:+ pk +:+ dms_payload_encrypted d)) as [path Hpath].
  set (w0 := put_blob path (dms_payload_encrypted d) w).
  assert (Hexp : expiry (ea_timestamp a) (ea_ttl a) (w_now w0) (ea_hard_ceiling a) = (w_now w + rs_message_ttl_hard_seconds settings)%Z)
    by (unfold expiry; cbn; lia).
  assert (Hmeta : exists meta, build_meta a (w_now w + rs_message_ttl_hard_seconds settings) = Ok meta) by (by eexists).
  destruct Hmeta as [meta Hmeta].
  assert (Hrun : forall o w1, run_doc (enqueue_envelope a) w0 = (Ok o, w1) -> run_doc (_build_and_deliver_envelope settings d pk key) w = (Ok id, w1)).
  { intros o w1 Ho. rewrite E, run_doc_bind. unfold write_blob_then_enqueue. rewrite run_doc_bind, (run_write_blob _ path) by done.
    rewrite run_doc_try. fold w0. by rewrite Ho. }
  destruct (rv_keys (w_redis w0) !! _envelope_meta_key id) as [en|] eqn:Hk.
  - assert (Hdup : run_doc (enqueue_envelope a) w0 = (Ok None, w0)).
    { rewrite (run_enqueue_claim a w0 meta); [|by apply calm_pop|rewrite Hexp; cbn; lia|by rewrite Hexp].
      change (ea_envelope_id a) with id. by rewrite Hk, (proj2 (calm_pop w0 Hc)). }
    exists w0. split; [by eapply Hrun|].
    split; try done.
    + intros r. specialize (Hroom r). rewrite times_cons in Hroom. cbn. destruct (String.eqb _ _); lia.
    + intros id' r E0%list_elem_of_singleton. injection E0 as -> ->. left. by exists en.
  - destruct (typed_inbox (w_redis w0) (hex_of_bytes pk) Ht) as [z Hz].
    destruct (typed_pending (w_redis w0) id Ht) as [p Hp]. destruct (typed_index (w_redis w0) Ht) as [idx Hidx].
    assert (Hz' : inbox_of (hex_of_bytes pk) (w_redis w) = z) by (unfold inbox_of; cbn in Hz; by rewrite Hz).
    pose proof (Hroom (hex_of_bytes pk)) as Hr. rewrite times_cons, String.eqb_refl, Hz' in Hr.
    assert (0 <= times (hex_of_bytes pk) rs)%Z by (unfold times; lia).
    destruct (run_enqueue a w0 meta z p idx) as (v' & Hv & Hposted); try done; [rewrite Hexp; cbn; lia|by rewrite Hexp|cbn; lia|].
    rewrite Hexp in Hposted. exists (set_redis v' w0). split; [by eapply Hrun|].
    pose proof (posted_inboxes _ _ _ _ _ _ _ _ _ Hposted Hz) as Hin. cbn [a ea_recipient dms_enqueue_args ea_envelope_id] in Hin.
    split; try done.
    + change v' with (w_redis (snd (Ok (A := option Z) (Some 0%Z), set_redis v' w0))).
      pose proof (exchanges_run typed (enqueue_envelope a) w0) as Hx. rewrite Hv in Hx. apply Hx; [|exact Ht].
      apply types_enqueue. unfold json_args. cbn. repeat constructor.
    + intros r. cbn. rewrite Hin. specialize (Hroom r). rewrite times_cons in Hroom. revert Hroom.
      destruct (String.eqb_spec r (hex_of_bytes pk)) as [Er|Er]; intros Hroom; [rewrite Er, Hz' in Hroom|cbn; lia].
     
      rewrite Er. pose proof (size_live_insert (w_now w) (dms_envelope_id d pk) (w_now w + rs_message_ttl_hard_seconds settings) z).
      change (w_now w0) with (w_now w). lia.
    + intros id' r (s & Hs & Hl). unfold queued. cbn. rewrite Hin. destruct (String.eqb_spec r (hex_of_bytes pk)) as [->|]; [|by exists s].
      rewrite Hz' in Hs. destruct (decide (dms_envelope_id d pk = id')) as [->|Hne].
      * eexists. rewrite lookup_insert_eq. split; [done|lia].
      * exists s. rewrite lookup_insert_ne by done. split; [|done]. by apply live_later.
    + intros id' Hid. cbn in *. apply (posted_frame _ _ _ _ _ _ _ _ _ Hposted).
      rewrite !not_elem_of_cons. repeat split; try apply not_elem_of_nil; try solve [string_ne].
      intros Eq. apply Hid. apply list_elem_of_singleton. by apply meta_key_inj in Eq.
    + intros id' r E0%list_elem_of_singleton. injection E0 as -> ->. right. eexists. unfold queued. cbn. rewrite Hin, String.eqb_refl, lookup_insert_eq.
      split; [done|lia].
Qed.

(** ** A run *)

Definition marked_delivered (now : Z) (r : DMSRecipient) : DMSRecipient :=
  match dr_delivered_at r with Some _ => r | None => mkRecipient (dr_recipient_pubkey r) (Some now) end.

(** The row of a switch that fired: everybody is delivered, and the ciphertext is gone. *)
Definition fired (now : Z) (d : DeadManSwitch) : DeadManSwitch :=
  triggered now (with_recipients (map (marked_delivered now) (dms_recipients d)) d).

Lemma run_deliver_all d now recipients rs (w : vworld) :
  calm w -> typed (w_redis w) -> room (w_now w) ((deliveries d recipients).*2 ++ rs) (w_redis w) ->
  NoDup (deliveries d recipients).*1 ->
  exists w1 n, run_doc (deliver_all settings d key now recipients) w = (Ok (map (marked_delivered now) recipients, n, 0%Z), w1) /\
    delivered (deliveries d recipients) rs w w1.
Proof.
  revert w. induction recipients as [|r recipients IH]; intros w Hc Ht Hroom Hnd.
  { exists w, 0%Z. split; [done|]. by apply delivered_nil. }
  unfold deliveries in *. cbn [omap list_omap deliver_all map] in *. unfold marked_delivered at 1.
  destruct (dr_delivered_at r) as [t|] eqn:Er.
  - destruct (IH w Hc Ht Hroom Hnd) as (w1 & n & E & Hd). exists w1, n. split; [|done]. by rewrite run_doc_bind, E.
  - cbn [fmap list_fmap] in Hroom. pose proof Hnd as Hnd0. cbn [fmap list_fmap fst] in Hnd. apply NoDup_cons in Hnd as [_ Hnd].
    destruct (run_deliver_one d (dr_recipient_pubkey r) _ w Hc Ht Hroom) as (w1 & E1 & H1).
    destruct (IH w1) as (w2 & n & E2 & H2); [apply H1|apply H1| |done|].
    { destruct H1. by rewrite dl_now0. }
    exists w2, (n + 1)%Z. split.
    + rewrite run_doc_bind, run_doc_try, run_doc_bind, E1, run_doc_ret, run_doc_bind, E2. done.
    + by apply (delivered_app [_] _ rs w w1 w2).
Qed.

Lemma run_fire_one d rs (w : vworld) :
  due (w_now w) d = true -> calm w -> typed (w_redis w) ->
  room (w_now w) ((deliveries d (dms_recipients d)).*2 ++ rs) (w_redis w) -> NoDup (deliveries d (dms_recipients d)).*1 ->
  exists w1 n, run_doc (fire_one settings key (w_now w) d) w = (Ok (fired (w_now w) d, FireStats 1 1 0 n 0), w1) /\
    delivered (deliveries d (dms_recipients d)) rs w w1.
Proof.
  intros Hdue Hc Ht Hroom Hnd. destruct (run_deliver_all d (w_now w) _ _ w Hc Ht Hroom Hnd) as (w1 & n & E & Hd).
  exists w1, n. split; [|done]. unfold fire_one. cbv zeta.
  assert (Hage : (w_now w - dms_last_check_in_at d <? dms_trigger_seconds d)%Z = false).
  { unfold due in Hdue. apply andb_true_iff in Hdue as [_ Hd'%Z.leb_le]. apply Z.ltb_ge. lia. }
  by rewrite Hage, run_doc_bind, E.
Qed.

Definition all_deliveries (l : list DeadManSwitch) : list (string * string) :=
  flat_map (fun d => deliveries d (dms_recipients d)) l.

Lemma run_fire_all l rs (w : vworld) :
  Forall (fun d => due (w_now w) d = true) l -> calm w -> typed (w_redis w) ->
  room (w_now w) ((all_deliveries l).*2 ++ rs) (w_redis w) -> NoDup (all_deliveries l).*1 ->
  exists w1 st, run_doc (fire_all settings key (w_now w) l) w = (Ok (map (fired (w_now w)) l, st), w1) /\
    dms_fired st = Z.of_nat (length l) /\ fire_errors st = 0%Z /\ delivered (all_deliveries l) rs w w1.
Proof.
  revert w. induction l as [|d l IH]; intros w Hdue Hc Ht Hroom Hnd.
  { exists w, no_stats. split_and!; try done. by apply delivered_nil. }
  unfold all_deliveries in *. cbn [flat_map] in *. rewrite fmap_app, <- app_assoc in Hroom.
  apply Forall_cons in Hdue as [Hd Hl]. pose proof Hnd as Hnd0. rewrite fmap_app in Hnd0. apply NoDup_app in Hnd0 as (Hnd1 & _ & Hnd2).
  destruct (run_fire_one d _ w Hd Hc Ht Hroom Hnd1) as (w1 & n & E1 & H1).
  pose proof (dl_now _ _ _ _ H1) as Hnow.
  destruct (IH w1) as (w2 & st & E2 & Hf & He & H2); [by rewrite Hnow|by apply H1|by apply H1|rewrite Hnow; by apply H1|done|].
  exists w2, (add_stats (FireStats 1 1 0 n 0) st). cbn [fire_all map]. rewrite run_doc_bind, E1, run_doc_bind.
  rewrite Hnow in E2. rewrite E2. split; [done|]. cbn [add_stats dms_fired fire_errors length].
  split; [lia|]. split; [lia|]. by apply (delivered_app _ _ rs w w1 w2).
Qed.

Lemma run_store_all rows (w : vworld) :
  run_doc (store_all rows) w =
  (Ok tt, set_databases (w_db w) (set_dms (map (stored rows) (t_dms (w_work w))) (w_work w)) w).
Proof.
  revert w. induction rows as [|d rows IH]; intros w.
  - cbn [store_all]. rewrite run_doc_ret. unfold stored. cbn [foldl]. rewrite map_id. by destruct w as [? ? ? []].
  - cbn [store_all]. rewrite run_doc_bind. unfold store_dms. rewrite run_doc_sql, IH. cbn. by rewrite map_map.
Qed.
End Fire.

Lemma run_ping (w : vworld) :
  calm w -> run_doc (try_except (let! _ := redis_ (rret tt) in ret true) (fun _ => ret false)) w = (Ok true, w).
Proof. intros Hc. rewrite run_doc_try, run_doc_bind, run_doc_redis by done. cbn. by destruct w. Qed.

(** What the loop wrote back, row by row. *)
Lemma stored_fired now (t : list DeadManSwitch) :
  NoDup (map dms_id t) ->
  map (stored (map (fired now) (List.filter (due now) t))) t = map (fun d => if due now d then fired now d else d) t.
Proof.
  intros Hnd. apply map_ext_in. intros d Hd%list_elem_of_In.
  assert (Hndr : NoDup (map dms_id (map (fired now) (List.filter (due now) t)))).
  { rewrite map_map. change (NoDup (map dms_id (List.filter (due now) t))).
    eapply (unique_sublist dms_id), Hnd. apply filter_sublist. }
  destruct (due now d) eqn:Ed.
  - apply (stored_hit _ d (fired now d) Hndr); [|done]. apply list_elem_of_fmap. exists d. split; [done|].
    apply list_elem_of_In, List.filter_In. by split; [apply list_elem_of_In|].
  - apply stored_other. intros d' (d0 & -> & Hd0%list_elem_of_In%List.filter_In)%list_elem_of_fmap E.
    destruct Hd0 as [Hd0%list_elem_of_In Hdue]. change (dms_id (fired now d0)) with (dms_id d0) in E.
    rewrite (unique_row t d d0 Hnd Hd Hd0 E) in Hdue. congruence.
Qed.

(** C24: a due switch fires.  Whatever happened before, a run of the reaper that no failure strikes leaves
    no due switch armed: exactly the switches that were due have fired, with every recipient marked and
    the ciphertext erased, the others are as they were; and each envelope that was still to be
    delivered is in its recipient's inbox, or had been claimed by an earlier run.  It is enough that
    the relay's key is a key, that envelopes live for a time, and that the inboxes have room. *)
Theorem due_switches_fire `{R : Redis} `{Sha256} `{Nacl} settings key (w : world rstore) :
  bytes_fromhex (rs_relay_privkey_hex settings) = Some key -> string_len key = 32%Z ->
  (0 < rs_message_ttl_hard_seconds settings)%Z -> (forall x, string_len (sha256 x) = 32%Z) ->
  calm w -> at_rest w -> typed (w_redis (absw w)) ->
  let late := List.filter (due (w_now w)) (t_dms (w_db w)) in
  NoDup (all_deliveries late).*1 -> room (w_now w) (all_deliveries late).*2 (w_redis (absw w)) ->
  let x := run (fire_dms_switches settings) w in
  (exists st, fst x = Ok st /\ dms_fired st = Z.of_nat (length late) /\ fire_errors st = 0%Z) /\
  t_dms (w_db (snd x)) = map (fun d => if due (w_now w) d then fired (w_now w) d else d) (t_dms (w_db w)) /\
  Forall (fun d => due (w_now w) d = false) (t_dms (w_db (snd x))) /\
  forall d r, d ∈ late -> r ∈ dms_recipients d -> dr_delivered_at r = None ->
    let id := dms_envelope_id d (dr_recipient_pubkey r) in
    is_Some (rv_keys (w_redis (absw w)) !! _envelope_meta_key id) \/
    queued (w_now w) id (hex_of_bytes (dr_recipient_pubkey r)) (w_redis (absw (snd x))).
Proof.
  intros Hkey Hlen Httl Hsha Hc [Hw Hu] Ht late Hnd Hroom x.
  destruct (run_fire_all settings key Hlen Httl Hsha late [] (absw w)) as (w1 & st & E & Hf & He & Hd); try done.
  { apply filter_due. }
  { by rewrite app_nil_r. }
  assert (Hrun : run_doc (fire_dms_switches settings) (absw w) =
    (Ok st, set_databases (set_dms (map (stored (map (fired (w_now w)) late)) (t_dms (w_db w))) (w_db w))
              (set_dms (map (stored (map (fired (w_now w)) late)) (t_dms (w_db w))) (w_db w)) w1)).
  { unfold fire_dms_switches. rewrite run_doc_bind, run_doc_now, Hkey, Hlen. cbn [Z.eqb Pos.eqb negb].
    rewrite run_doc_bind, run_ping by done. cbn [negb]. rewrite run_doc_bind, run_doc_sql. cbn [fst snd].
    change (w_work (absw w)) with (w_work w). rewrite Hw.
    change (w_now (absw w)) with (w_now w) in *. fold late.
    replace (set_databases (w_db (absw w)) (w_db w) (absw w)) with (absw w) by (rewrite <- Hw; by destruct w).
    rewrite run_doc_bind, E, run_doc_bind, run_store_all, run_doc_bind, run_doc_commit, run_doc_ret.
    injection (dl_tables _ _ _ _ Hd) as Hdb Hwork. change (w_work (absw w)) with (w_work w) in Hwork. rewrite Hw in Hwork.
    cbn. by rewrite Hwork. }
  unfold x. rewrite fst_run, Hrun. split; [by exists st|].
  assert (Hrows : t_dms (w_db (snd (run (fire_dms_switches settings) w))) =
    map (fun d => if due (w_now w) d then fired (w_now w) d else d) (t_dms (w_db w))).
  { change (t_dms (w_db (absw (snd (run (fire_dms_switches settings) w)))) = map (fun d => if due (w_now w) d then fired (w_now w) d else d) (t_dms (w_db w))).
    rewrite snd_run_absw, Hrun. cbn. by apply stored_fired. }
  split; [exact Hrows|]. split.
  - rewrite Hrows. apply Forall_map, Forall_true. intros d. destruct (due (w_now w) d) eqn:Ed; [done|exact Ed].
  - intros d r Hin Hr Hn. rewrite snd_run_absw, Hrun. apply (dl_done _ _ _ _ Hd).
    apply list_elem_of_In, in_flat_map. exists d. split; [by apply list_elem_of_In|]. apply list_elem_of_In, list_elem_of_omap.
    exists r. split; [done|]. by rewrite Hn.
Qed.

Module DueDemo.
#[local] Instance demo_sha : Sha256 := fun s => substring 0 32 (s +:+ DmsDemo.zeros 32).
#[local] Instance demo_nacl : Nacl :=
  {| nacl_verify := fun _ _ _ => true; nacl_sign := fun _ _ => "s"; nacl_public := fun k => k;
     nacl_to_curve25519 := fun k => Ok k |}.

(** Two switches, of which one is due, and one recipient of it is delivered already. *)
Definition carol : string := default "" (bytes_fromhex "cc").
Definition late_switch : DeadManSwitch :=
  with_recipients [mkRecipient DmsDemo.bob None; mkRecipient carol (Some 4700%Z); mkRecipient DmsDemo.alice None] DmsDemo.switch.
Definition young_switch : DeadManSwitch :=
  mkDMS "young" carol 3600 4000 "later" None ARMED 4000 None None [mkRecipient DmsDemo.bob None].
Definition two_switches : world (rstore (Redis := Mem_Redis)) :=
  set_databases (set_dms [late_switch; young_switch] empty_db) (set_dms [late_switch; young_switch] empty_db) (DmsDemo.relay 5000 []).


Lemma demo_sha_length x : string_len (demo_sha x) = 32%Z.
Proof.
  unfold demo_sha, string_len. rewrite substring_length; [done|]. rewrite string_length_app.
  change (String.length (DmsDemo.zeros 32)) with 32%nat. lia.
Qed.

Lemma times_length r rs : (times r rs <= Z.of_nat (length rs))%Z.
Proof. unfold times. pose proof (List.filter_length_le (String.eqb r) rs). lia. Qed.

Lemma due_witness :
  t_dms (w_db (snd (run (fire_dms_switches DmsDemo.settings) two_switches))) = [fired 5000 late_switch; young_switch].
Proof.
  refine (proj1 (proj2 (due_switches_fire DmsDemo.settings (default "" (bytes_fromhex (rs_relay_privkey_hex DmsDemo.settings)))
    two_switches _ _ _ demo_sha_length _ _ _ _ _))).
  - reflexivity.
  - reflexivity.
  - reflexivity.
  - reflexivity.
  - split; [reflexivity|]. apply (bool_decide_unpack _). vm_compute. exact I.
  - intros k e Hk. vm_compute in Hk. discriminate.
  - apply (bool_decide_unpack _). vm_compute. exact I.
  - intros r. pose proof (times_length r (all_deliveries [late_switch]).*2) as Hle.
    change (Z.of_nat (size (live 5000 ∅)) + times r (all_deliveries [late_switch]).*2 <= MAX_INBOX_QUEUE_DEPTH)%Z.
    change (Z.of_nat (length (all_deliveries [late_switch]).*2)) with 2%Z in Hle.
    change (Z.of_nat (size (live 5000 ∅))) with 0%Z. unfold MAX_INBOX_QUEUE_DEPTH. lia.
Defined.
End DueDemo.
