(* ===== verification/TokenSets.v ===== *)
(** * Sets of live tokens

    Burner links and group invites keep the same shape in Redis: a key per token, which holds a JSON
    object and expires, and a set per owner (a user, a group) that enumerates them.  Here is the loop
    that both creation scripts run, and the invariant of such a pair: the tokens in an owner's set
    that are alive and name that owner never exceed a cap.  [Token_Family] is what the two have to
    provide. *)

From Stdlib Require Import Ascii String.
From stdpp Require Import prelude gmap strings list.
From S2P Require Import Prelude Json Codec RedisStore Models Effects.

#[local] Open Scope morok_scope.

(** The loop over the members of the set: count those with a key, remove the others. *)
Fixpoint count_alive (token_prefix set_key : string) (members : list string) (alive : Z) : rtx Z :=
  match members with
  | [] => rret alive
  | m :: members' =>
      let%r e := rcall (EXISTS (token_prefix +:+ m)) as_int in
      if (e =? 1)%Z then count_alive token_prefix set_key members' (alive + 1)
      else
        let%r _ := lua_call (SREM set_key [m]) in
        count_alive token_prefix set_key members' alive
  end.

(** ** Families of tokens *)

Class Token_Family := {
  token_prefix : string;
  set_prefix : string;
  owner_field : string;                     (* the member of the token's object that names its owner *)
  cap : nat;
  prefixes_apart : forall t o, token_prefix +:+ t <> set_prefix +:+ o
}.

Section Family.
  Context `{Token_Family}.

Definition token_at (t : string) : string := token_prefix +:+ t.
Definition set_of (o : string) : string := set_prefix +:+ o.

(** The object of a token names this owner. *)
Definition names_owner (o raw : string) : bool :=
  match loads raw with Some (JObj d) => get_is_str owner_field o d | _ => false end.

Definition owned (o : string) (v : rview) (t : string) : Prop :=
  match rv_keys v !! token_at t with
  | Some (Entry (VStr raw) _) => names_owner o raw = true
  | _ => False
  end.
#[export] Instance owned_dec o v t : Decision (owned o v t).
Proof. unfold owned. repeat case_match; apply _. Defined.

(** The live tokens of an owner. *)
Definition live_tokens (o : string) (v : rview) : gset string :=
  match set_at (set_of o) v with
  | Some x => filter (owned o v) x
  | None => ∅
  end.

(** No owner has more live tokens than the cap. *)
Definition tokens_capped (v : rview) : Prop :=
  forall o, size (live_tokens o v) <= cap.

Lemma token_at_inj t t' : token_at t = token_at t' -> t = t'.
Proof. apply (inj (String.append _)). Qed.
Lemma set_of_inj o o' : set_of o = set_of o' -> o = o'.
Proof. apply (inj (String.append _)). Qed.
Lemma token_set_ne t o : token_at t <> set_of o.
Proof. apply prefixes_apart. Qed.

Lemma live_tokens_in o v t :
  t ∈ live_tokens o v <-> exists x, set_at (set_of o) v = Some x /\ t ∈ x /\ owned o v t.
Proof.
  unfold live_tokens. destruct (set_at (set_of o) v) as [x|]; [rewrite elem_of_filter|set_solver]. naive_solver.
Qed.

(** Fewer live tokens. *)
Lemma capped_le v v' :
  tokens_capped v -> (forall o t, t ∈ live_tokens o v' -> t ∈ live_tokens o v) -> tokens_capped v'.
Proof. intros Hv Hsub o. etrans; [|apply (Hv o)]. apply subseteq_size. intros t. apply Hsub. Qed.

(** Sets that only lose members, and tokens that are gone or keep their owners. *)
Lemma capped_shrink v v' :
  tokens_capped v ->
  (forall o t x', set_at (set_of o) v' = Some x' -> t ∈ x' -> exists x, set_at (set_of o) v = Some x /\ t ∈ x) ->
  (forall o t, owned o v' t -> owned o v t) ->
  tokens_capped v'.
Proof.
  intros Hv Hset How. eapply capped_le; [done|]. intros o t. rewrite !live_tokens_in.
  intros (x' & Hx' & Ht & Ho). destruct (Hset o t x' Hx' Ht) as (x & Hx & Hin).
  exists x. split_and!; [done|done|by apply How].
Qed.

(** The keys of the family hold what they held, or less, or nothing. *)
Lemma capped_keys v v' :
  tokens_capped v ->
  (forall o x' d', rv_keys v' !! set_of o = Some (Entry (VSet x') d') ->
     exists x d, rv_keys v !! set_of o = Some (Entry (VSet x) d) /\ x' ⊆ x) ->
  (forall t raw d', rv_keys v' !! token_at t = Some (Entry (VStr raw) d') ->
     exists raw0 d, rv_keys v !! token_at t = Some (Entry (VStr raw0) d) /\
       forall o, names_owner o raw = true -> names_owner o raw0 = true) ->
  tokens_capped v'.
Proof.
  intros Hv Hset Htok. apply (capped_shrink v); [done| |].
  - intros o t x'. unfold set_at. destruct (rv_keys v' !! set_of o) as [[[|y|] ?]|] eqn:E;
      intros [= <-] Ht; [|set_solver].
    destruct (Hset _ _ _ E) as (x & d & -> & Hsub). exists x. split; [done|by apply Hsub].
  - intros o t. unfold owned. destruct (rv_keys v' !! token_at t) as [[[raw| |] ?]|] eqn:E; try done.
    destruct (Htok _ _ _ E) as (raw0 & d & -> & Ho). apply Ho.
Qed.

Lemma tokens_expire now v : tokens_capped v -> tokens_capped (expire now v).
Proof.
  intros Hv. apply (capped_keys v); [done| |]; intros ? ? ?; rewrite keys_expire;
    case_match; try done; case_decide; try done; intros [= ->]; eauto.
Qed.

(** Commands that cannot add a token. *)
Lemma capped_del ks : ckeeps tokens_capped (DEL ks).
Proof.
  intros now v Hv. destruct (documented_del now ks v) as (n & _ & Hk).
  apply (capped_keys v); [done| |]; intros a b d; rewrite Hk; case_decide; try done; eauto.
Qed.

Lemma capped_del1 k v : tokens_capped v -> tokens_capped (del k v).
Proof.
  intros Hv. apply (capped_keys v); [done| |]; intros a b d; rewrite keys_del; case_decide; try done; eauto.
Qed.

Lemma capped_getdel k : ckeeps tokens_capped (GETDEL k).
Proof.
  intros now v Hv. cbn [documented]. destruct (str_at k v) as [[s|]|]; cbn [snd]; auto using capped_del1.
Qed.

Lemma capped_srem k ms : (forall t, k <> token_at t) -> ckeeps tokens_capped (SREM k ms).
Proof.
  intros Hk now v Hv. cbn [documented]. destruct (set_at k v) as [x|] eqn:Ex; [|done]. cbn [snd].
  apply (capped_keys v); [done| |]; intros a b d; rewrite keys_put_set; case_decide as Ha.
  - case_decide; [done|]. intros [= <- _]. subst k. unfold set_at in Ex.
    destruct (rv_keys v !! set_of a) as [[[]]|]; simplify_eq.
    + eexists _, _. split; [done|]. apply subseteq_difference_l. done.
    + set_solver.
  - eauto.
  - by apply Hk in Ha.
  - eauto.
Qed.

Lemma capped_reads c : (forall now v, snd (documented now c v) = v) -> ckeeps tokens_capped c.
Proof. intros Hc now v Hv. by rewrite Hc. Qed.

(** Overwriting the object of a live token with one that names no other owner. *)
Lemma capped_rewrite t raw raw' d v :
  str_at (token_at t) v = Some (Some raw) -> (forall o, names_owner o raw' = true -> names_owner o raw = true) ->
  tokens_capped v -> tokens_capped (put (token_at t) (Entry (VStr raw') d) v).
Proof.
  intros Hs Ho Hv. apply (capped_keys v); [done| |].
  - intros o x' d'. rewrite keys_put_ne by apply token_set_ne. eauto.
  - intros t' r' d'. rewrite keys_put. case_decide as Ht; [|eauto].
    apply token_at_inj in Ht as ->. intros [= <- _]. unfold str_at in Hs.
    destruct (rv_keys v !! token_at t') as [[[] ?]|]; simplify_eq. eauto.
Qed.

(** ** The loop of the creation scripts *)

Lemma run_count_alive now o members n v x :
  set_at (set_of o) v = Some x -> NoDup members ->
  exists v' x', rrun_doc now (count_alive token_prefix (set_of o) members n) v =
      (Some (n + Z.of_nat (length (filter (fun m => is_Some (rv_keys v !! token_at m)) members)))%Z, v') /\
    set_at (set_of o) v' = Some x' /\
    (forall m, m ∈ x' <-> m ∈ x /\ (m ∈ members -> is_Some (rv_keys v !! token_at m))) /\
    (forall k, k <> set_of o -> rv_keys v' !! k = rv_keys v !! k).
Proof.
  revert n v x. induction members as [|m members IH]; intros n v x Hx Hnd.
  - exists v, x. cbn. rewrite Z.add_0_r. split_and!; try done. set_solver.
  - apply NoDup_cons in Hnd as [Hm Hnd]. cbn [count_alive]. rewrite rrun_rbind, rrun_rcall.
    cbn [documented fst snd as_int]. fold (token_at m).
    destruct (rv_keys v !! token_at m) as [e|] eqn:E.
    + change (1 =? 1)%Z with true. cbv beta iota.
      destruct (IH (n + 1)%Z v x Hx Hnd) as (v' & x' & Hrun & Hx' & Hin & Hk).
      exists v', x'. rewrite Hrun. split_and!; try done.
      * rewrite filter_cons_True by eauto. cbn [length]. f_equal. f_equal. lia.
      * intros m'. rewrite Hin. split; [|set_solver]. intros [H1 H2]. split; [done|].
        intros [->|Hm']%elem_of_cons; [by rewrite E|auto].
    + change (0 =? 1)%Z with false. cbv beta iota. rewrite rrun_rbind. unfold lua_call. rewrite rrun_rcall.
      rewrite (doc_srem _ _ _ x) by done. cbn [fst snd as_any].
      destruct (IH n (put_set (set_of o) (x ∖ list_to_set [m]) v) (x ∖ list_to_set [m]))
        as (v' & x' & Hrun & Hx' & Hin & Hk); [by at_simpl|done|].
      assert (Htk : forall t, rv_keys (put_set (set_of o) (x ∖ list_to_set [m]) v) !! token_at t = rv_keys v !! token_at t)
        by (intros t; apply keys_put_set_ne, not_eq_sym, token_set_ne).
      exists v', x'. rewrite Hrun. split_and!; try done.
      * rewrite filter_cons_False by (rewrite E; by intros [? ?]). f_equal. f_equal. f_equal. f_equal. f_equal.
        apply list_filter_iff. intros t. by rewrite Htk.
      * intros m'. rewrite Hin, Htk. cbn [list_to_set foldr]. set_unfold. destruct (decide (m' = m)) as [->|]; [|naive_solver].
        rewrite E. split; [naive_solver|]. intros [_ Hs]. destruct Hs as [? ?]; [by left|done].
      * intros k Hk'. rewrite Hk by done. by apply keys_put_set_ne, not_eq_sym.
Qed.

(** After the loop over the whole set, its members are the tokens counted. *)
Lemma run_count_set now o v x :
  set_at (set_of o) v = Some x ->
  exists n v' x', rrun_doc now (count_alive token_prefix (set_of o) (elements x) 0) v = (Some (Z.of_nat n), v') /\
    set_at (set_of o) v' = Some x' /\ size x' = n /\ x' ⊆ x /\
    (forall m, m ∈ x -> rv_keys v !! token_at m = None \/ m ∈ x') /\
    (forall k, k <> set_of o -> rv_keys v' !! k = rv_keys v !! k).
Proof.
  intros Hx. destruct (run_count_alive now o (elements x) 0 v x Hx (NoDup_elements x)) as (v' & x' & Hrun & Hx' & Hin & Hk).
  exists (length (filter (fun m => is_Some (rv_keys v !! token_at m)) (elements x))), v', x'.
  split_and!; try done.
  - assert (x' = list_to_set (filter (fun m => is_Some (rv_keys v !! token_at m)) (elements x))) as ->.
    { apply set_eq. intros m. rewrite Hin, elem_of_list_to_set, list_elem_of_filter, elem_of_elements. tauto. }
    apply size_list_to_set, NoDup_filter, NoDup_elements.
  - intros m. rewrite Hin. tauto.
  - intros m Hm. destruct (rv_keys v !! token_at m) eqn:E; [right|by left]. rewrite Hin. rewrite E. eauto.
Qed.

(** A new token in a set with room. *)
Lemma capped_add o t raw d d' x v :
  set_at (set_of o) v = Some x -> S (size x) <= cap ->
  (forall o', names_owner o' raw = true -> o' = o) ->
  tokens_capped v ->
  tokens_capped (put (set_of o) (Entry (VSet (x ∪ {[t]})) d') (put (token_at t) (Entry (VStr raw) d) v)).
Proof.
  intros Hx Hcap Hraw Hv o'. destruct (decide (o' = o)) as [->|Hne].
  - etrans; [|exact Hcap]. trans (size (x ∪ {[t]})).
    + apply subseteq_size. intros m. rewrite live_tokens_in, set_at_put_val. intros (y & [= <-] & Hm & _). done.
    + pose proof (size_union_alt x ({[t]} : gset string)).
      assert (size (({[t]} : gset string) ∖ x) <= 1) by (rewrite <- (size_singleton (C := gset string) t); apply subseteq_size; set_solver).
      lia.
  - etrans; [|apply (Hv o')]. apply subseteq_size. intros m. rewrite !live_tokens_in.
    intros (y & Hy & Hm & Ho). exists y.
    assert (set_of o <> set_of o') by (intros ?%set_of_inj; congruence).
    rewrite set_at_put_ne, set_at_put_ne in Hy by (done || apply token_set_ne). split_and!; [done..|].
    unfold owned in *. rewrite keys_put_ne, keys_put in Ho by apply not_eq_sym, token_set_ne.
    case_decide; [|done]. by apply Hraw in Ho.
Qed.
End Family.
