(* ===== verification/BurnerTokens.v ===== *)
(** * Burner links (burner_tokens.py): operations

    A token is a key with a JSON object; the owner's set enumerates the tokens.  The JSON codec of
    Redis scripts is part of the Redis service: a parameter, [Cjson]. *)

From Stdlib Require Import Ascii String DecimalString.
From stdpp Require Import prelude gmap strings list sorting.
From S2P Require Import Prelude Json Codec RedisStore Models Effects TokenSets.

#[local] Open Scope morok_scope.

(** [cjson.encode] of an object gives an object with the same members, in some order: texts, null and
    booleans as they are, numbers with 14 digits; and nothing else becomes text. *)
Definition cjson_exact (o : option json) : bool :=
  match o with
  | Some (JNum n) => (Z.abs n <? 10 ^ 14)%Z
  | Some (JArr _) | Some (JObj _) => false
  | _ => true
  end.
Class Cjson := {
  cjson_encode : dict -> string;
  cjson_encode_law : forall d, json_wf (JObj d) ->
    exists d', loads (cjson_encode d) = Some (JObj d') /\
      (forall k, cjson_exact (dict_get k d) = true -> dict_get k d' = dict_get k d) /\
      (forall k s, dict_get k d' = Some (JStr s) -> dict_get k d = Some (JStr s))
}.

Definition MIN_TTL_SECONDS : Z := 60 * 60.
Definition MAX_TTL_SECONDS : Z := 30 * 86400.
Definition DEFAULT_TTL_SECONDS : Z := 24 * 3600.
Definition MAX_ACTIVE_TOKENS_PER_OWNER : Z := 10.
Definition MAX_MESSAGES_PER_TOKEN : Z := 100.

Definition _token_key (token : string) : string := "morok:burner_token:" +:+ token.
Definition _OWNER_KEY_PREFIX : string := "morok:burner_owner:".
Definition _owner_key (pubkey_hex : string) : string := _OWNER_KEY_PREFIX +:+ pubkey_hex.

(** ** Creation *)

Definition _CREATE_LUA (owner_key token_key : string) (max_active : Z) (token payload : string) (ttl : Z)
    (token_prefix : string) : rtx (bool * Z) :=
  let%r members := rcall (SMEMBERS owner_key) as_members in
  let%r alive := count_alive token_prefix owner_key (elements members) 0 in
  if (max_active <=? alive)%Z then rret (false, alive)
  else
    let%r _ := lua_call (set_ex token_key payload ttl) in
    let%r _ := lua_call (SADD owner_key [token]) in
    rret (true, (alive + 1)%Z).

Definition token_ttl (ttl_seconds : Z) : Z := Z.max MIN_TTL_SECONDS (Z.min ttl_seconds MAX_TTL_SECONDS).

Definition token_payload (owner_pubkey_hex : string) (label : option string) (now expires_at : Z) : dict :=
  [ ("owner_pubkey", JStr owner_pubkey_hex); ("label", opt_str label); ("created_at", JNum now);
    ("expires_at", JNum expires_at); ("message_count", JNum 0) ].

Definition create_token (owner_pubkey_hex : string) (ttl_seconds : Z) (label : option string)
    : M (option dict) :=
  let ttl := token_ttl ttl_seconds in
  let! now := now_ in
  let expires_at := (now + ttl)%Z in
  let! token := token_ in
  let payload := dumps (JObj (token_payload owner_pubkey_hex label now expires_at)) in
  let! (allowed, _) := redis_ (_CREATE_LUA (_owner_key owner_pubkey_hex) (_token_key token)
    MAX_ACTIVE_TOKENS_PER_OWNER token payload ttl (_token_key "")) in
  if negb allowed then ret None
  else ret (Some [ ("token", JStr token); ("owner_pubkey_hex", JStr owner_pubkey_hex);
                   ("label", opt_str label); ("created_at", JNum now);
                   ("expires_at", JNum expires_at); ("message_count", JNum 0) ]).

Definition get_token (token : string) : M (option json) :=
  let! raw := redis_ (rcall (GET (_token_key token)) as_bulk) in
  ret (match raw with Some s => loads s | None => None end).

(** ** Counting messages *)

(** [tonumber(v) or 0], for the integers and texts of integers that are stored. *)
Definition lua_number (o : option json) : Z :=
  match o with
  | Some (JNum n) => n
  | Some (JStr s) => match NilZero.int_of_string s with Some i => Z.of_int i | None => 0 end
  | _ => 0
  end.

(** [if meta['owner_pubkey'] then redis.call('SREM', prefix .. meta['owner_pubkey'], token)]: only
    [nil] and [false] are false in Lua, and only text and numbers can be concatenated. *)
Definition lua_unlist (owner_prefix token : string) (o : option json) : rtx unit :=
  match o with
  | None | Some (JBool false) => rret tt
  | Some (JStr s) => lua_call (SREM (owner_prefix +:+ s) [token])
  | Some (JNum n) => lua_call (SREM (owner_prefix +:+ print_Z n) [token])
  | Some _ => RRet None
  end.

(** What is stored is an object; a script that indexes anything else fails. *)
Definition _INCR_LUA `{Cjson} (token_key : string) (max_messages : Z) (token owner_prefix : string)
    : rtx (bool * Z) :=
  let%r raw := rcall (GET token_key) as_bulk in
  match raw with
  | None => rret (false, 0%Z)
  | Some raw =>
      match loads raw with
      | None => rret (false, 0%Z)
      | Some (JObj meta) =>
          let count := (lua_number (dict_get "message_count" meta) + 1)%Z in
          if (max_messages <? count)%Z then
            let%r _ := lua_call (DEL [token_key]) in
            let%r _ := lua_unlist owner_prefix token (dict_get "owner_pubkey" meta) in
            rret (false, count)
          else
            let%r _ := lua_call (SET token_key (cjson_encode (dict_set "message_count" (JNum count) meta))
                                   None false false true) in
            rret (true, count)
      | Some _ => RRet None
      end
  end.

Definition increment_message_count `{Cjson} (token : string) : M (bool * Z) :=
  redis_ (_INCR_LUA (_token_key token) MAX_MESSAGES_PER_TOKEN token _OWNER_KEY_PREFIX).

(** ** Revocation and listing *)

Definition revoke_token (owner_pubkey_hex token : string) : M bool :=
  let! results := redis_ (rmulti [ DEL [_token_key token]; SREM (_owner_key owner_pubkey_hex) [token] ]) in
  ret (first_truthy results).

(** [d.get(k)] and [d.get(k, default)] as a JSON value. *)
Definition get_or (dflt : json) (k : string) (d : dict) : json := default dflt (dict_get k d).

(** One member of the set and the reply of its GET: an entry of the list, or stale. *)
Definition list_entry (token : string) (meta : dict) : dict :=
  [ ("token", JStr token); ("owner_pubkey_hex", get_or JNull "owner_pubkey" meta);
    ("label", get_or JNull "label" meta); ("created_at", get_or JNull "created_at" meta);
    ("expires_at", get_or JNull "expires_at" meta); ("message_count", get_or (JNum 0) "message_count" meta) ].

Fixpoint list_scan (entry : string -> dict -> dict) (tokens : list string) (raws : list reply)
    : res (list dict * list string) :=
  match tokens, raws with
  | t :: tokens', raw :: raws' =>
      match list_scan entry tokens' raws' with
      | Raise e => Raise e
      | Ok (out, stale) =>
          match bulk_of raw with
          | None => Ok (out, t :: stale)
          | Some s =>
              match loads s with
              | None => Ok (out, t :: stale)
              | Some (JObj meta) => Ok (entry t meta :: out, stale)
              | Some _ => Raise AttributeError
              end
          end
      end
  | _, _ => Ok ([], [])
  end.

(** [out.sort(key=lambda x: x.get("created_at", 0), reverse=True)]: newest first, equal times in
    their order; times that are not numbers cannot be compared. *)
Definition created_of (d : dict) : option Z :=
  match dict_get "created_at" d with
  | Some (JNum n) => Some n
  | Some (JBool b) => Some (if b then 1 else 0)%Z
  | None => Some 0%Z
  | _ => None
  end.
Fixpoint insert_newest (d : dict) (l : list dict) : list dict :=
  match l with
  | [] => [d]
  | d' :: l' => if (default 0%Z (created_of d) <? default 0%Z (created_of d'))%Z
                then d' :: insert_newest d l' else d :: l
  end.
Definition newest_first (l : list dict) : res (list dict) :=
  if (2 <=? length l)%nat && existsb (fun d => match created_of d with None => true | _ => false end) l
  then Raise TypeError
  else Ok (foldr insert_newest [] l).

Definition list_tokens_for_owner (owner_pubkey_hex : string) : M (list dict) :=
  let! members := redis_ (rcall (SMEMBERS (_owner_key owner_pubkey_hex)) as_members) in
  if decide (members = ∅) then ret []
  else
    let decoded := elements members in
    let! raw_list := pipeline (map (fun t => pipe_cmd (GET (_token_key t))) decoded) in
    let! (out, stale) := Ret (list_scan list_entry decoded raw_list) in
    let! _ :=
      match stale with
      | [] => ret tt
      | _ => try_except (cmd_ (SREM (_owner_key owner_pubkey_hex) stale)) (fun _ => ret tt)
      end in
    Ret (newest_first out).

Definition count_active_tokens (owner_pubkey_hex : string) : M Z :=
  let! tokens := list_tokens_for_owner owner_pubkey_hex in
  ret (Z.of_nat (length tokens)).
