(* ===== verification/InviteTokens.v ===== *)
(** * Group invites (invite_tokens.py): operations

    One-time tokens: [consume_token] reads and deletes in one command. *)

From Stdlib Require Import Ascii String.
From stdpp Require Import prelude gmap strings list.
From S2P Require Import Prelude Json Codec RedisStore Models Effects TokenSets BurnerTokens.

#[local] Open Scope morok_scope.

Definition MIN_TTL_SECONDS : Z := 60 * 60.
Definition MAX_TTL_SECONDS : Z := 30 * 86400.
Definition DEFAULT_TTL_SECONDS : Z := 7 * 86400.
Definition MAX_ACTIVE_TOKENS_PER_GROUP : Z := 20.

Definition _token_key (token : string) : string := "morok:invite_token:" +:+ token.
Definition _group_invites_key (group_id : string) : string := "morok:group_invites:" +:+ group_id.

Definition _CREATE_LUA (group_key token_key : string) (max_active : Z) (token payload : string)
    (ttl set_ttl : Z) (token_prefix : string) : rtx (bool * Z) :=
  let%r members := rcall (SMEMBERS group_key) as_members in
  let%r alive := count_alive token_prefix group_key (elements members) 0 in
  if (max_active <=? alive)%Z then rret (false, alive)
  else
    let%r _ := lua_call (set_ex token_key payload ttl) in
    let%r _ := lua_call (SADD group_key [token]) in
    let%r _ := lua_call (EXPIRE group_key set_ttl) in
    rret (true, (alive + 1)%Z).

Definition token_payload (group_id created_by : string) (now expires_at : Z) : dict :=
  [ ("group_id", JStr group_id); ("created_by", JStr created_by); ("created_at", JNum now);
    ("expires_at", JNum expires_at) ].

Definition create_token (group_id created_by_pubkey_hex : string) (ttl_seconds : Z) : M (option dict) :=
  let ttl := Z.max MIN_TTL_SECONDS (Z.min ttl_seconds MAX_TTL_SECONDS) in
  let! now := now_ in
  let expires_at := (now + ttl)%Z in
  let! token := token_ in
  let payload := dumps (JObj (token_payload group_id created_by_pubkey_hex now expires_at)) in
  let! (allowed, _) := redis_ (_CREATE_LUA (_group_invites_key group_id) (_token_key token)
    MAX_ACTIVE_TOKENS_PER_GROUP token payload ttl (MAX_TTL_SECONDS + 86400) (_token_key "")) in
  if negb allowed then ret None
  else ret (Some [("token", JStr token); ("expires_at", JNum expires_at); ("created_at", JNum now)]).

Definition get_token (token : string) : M (option json) :=
  let! raw := redis_ (rcall (GET (_token_key token)) as_bulk) in
  ret (match raw with Some s => loads s | None => None end).

(** [f"...{group_id}"] of a JSON value that is text; other values do not occur. *)
Definition consume_token (token : string) : M (option dict) :=
  let! raw := redis_ (rcall (GETDEL (_token_key token)) as_bulk) in
  match raw with
  | None => ret None
  | Some s =>
      match loads s with
      | None => ret None
      | Some (JObj meta) =>
          let! _ :=
            match dict_get "group_id" meta with
            | Some (JStr g) =>
                if String.eqb g "" then ret tt
                else try_except (cmd_ (SREM (_group_invites_key g) [token])) (fun _ => ret tt)
            | _ => ret tt
            end in
          ret (Some meta)
      | Some _ => raise AttributeError
      end
  end.

Definition revoke_token (group_id token : string) : M bool :=
  let! results := redis_ (rmulti [ DEL [_token_key token]; SREM (_group_invites_key group_id) [token] ]) in
  ret (first_truthy results).

Definition list_entry (token : string) (meta : dict) : dict :=
  [ ("token", JStr token); ("group_id", get_or JNull "group_id" meta);
    ("created_by", get_or JNull "created_by" meta); ("created_at", get_or JNull "created_at" meta);
    ("expires_at", get_or JNull "expires_at" meta) ].

Definition list_tokens (group_id : string) : M (list dict) :=
  let! members := redis_ (rcall (SMEMBERS (_group_invites_key group_id)) as_members) in
  if decide (members = ∅) then ret []
  else
    let decoded := elements members in
    let! raw_list := pipeline (map (fun t => pipe_cmd (GET (_token_key t))) decoded) in
    let! (out, stale) := Ret (list_scan list_entry decoded raw_list) in
    let! _ :=
      match stale with
      | [] => ret tt
      | _ => try_except (cmd_ (SREM (_group_invites_key group_id) stale)) (fun _ => ret tt)
      end in
    ret out.

Definition count_active_tokens (group_id : string) : M Z :=
  let! tokens := list_tokens group_id in
  ret (Z.of_nat (length tokens)).
