(* ===== verification/TokenFacts.v ===== *)
(** * Burner links and group invites: properties *)

From Stdlib Require Import Ascii String.
From stdpp Require Import prelude gmap strings list sorting.
From S2P Require Import Prelude Json Codec RedisStore Models Effects TokenSets.
From S2P Require BurnerTokens InviteTokens.

#[local] Open Scope morok_scope.

(** ** The two families *)

#[local] Program Instance Burner_Family : Token_Family := {|
  token_prefix := "morok:burner_token:";
  set_prefix := "morok:burner_owner:";
  owner_field := "owner_pubkey";
  cap := 10
|}.
Next Obligation. intros t o. string_ne. Qed.

#[local] Program Definition Invite_Family : Token_Family := {|
  token_prefix := "morok:invite_token:";
  set_prefix := "morok:group_invites:";
  owner_field := "group_id";
  cap := 20
|}.
Next Obligation. intros t o. string_ne. Qed.

(** An object that was written names its owner and nobody else. *)
Lemma names_owner_dumps `{Token_Family} o o' d :
  json_wf (JObj d) -> dict_get owner_field d = Some (JStr o) ->
  names_owner o' (dumps (JObj d)) = true -> o' = o.
Proof.
  intros Hwf Ho. unfold names_owner. rewrite loads_dumps by done. unfold get_is_str. rewrite Ho.
  by intros ->%String.eqb_eq.
Qed.

Lemma rkeeps_lua_call J c : ckeeps J c -> rkeeps J (lua_call c).
Proof. apply rkeeps_rcall. Qed.

(** What both creation scripts do, with the commands after the loop left open: [last] are those
    after [SADD]. *)
Section Create.
  Context `{Token_Family}.

Lemma capped_count now o v x :
  set_at (set_of o) v = Some x -> tokens_capped v ->
  exists n v' x', rrun_doc now (count_alive token_prefix (set_of o) (elements x) 0) v = (Some (Z.of_nat n), v') /\
    set_at (set_of o) v' = Some x' /\ size x' = n /\ tokens_capped v'.
Proof.
  intros Hx Hv. destruct (run_count_set now o v x Hx) as (n & v' & x' & Hrun & Hx' & Hn & Hsub & _ & Hk).
  exists n, v', x'. split_and!; try done. apply (capped_shrink v); [done| |].
  - intros o' t y Hy Ht. destruct (decide (o' = o)) as [->|Hne].
    + exists x. split; [done|]. rewrite Hx' in Hy. simplify_eq. by apply Hsub.
    + exists y. split; [|done]. rewrite <- Hy. symmetry. apply set_at_ext, Hk. intros ?%set_of_inj. done.
  - intros o' t. unfold owned. by rewrite Hk by apply token_set_ne.
Qed.

Lemma capped_create (last : rtx unit) o t payload ttl :
  (forall o', names_owner o' payload = true -> o' = o) -> (0 < ttl)%Z -> rkeeps tokens_capped last ->
  rkeeps tokens_capped
    (let%r members := rcall (SMEMBERS (set_of o)) as_members in
     let%r alive := count_alive token_prefix (set_of o) (elements members) 0 in
     if (Z.of_nat cap <=? alive)%Z then rret (false, alive)
     else
       let%r _ := lua_call (set_ex (token_at t) payload ttl) in
       let%r _ := lua_call (SADD (set_of o) [t]) in
       let%r _ := last in
       rret (true, (alive + 1)%Z)).
Proof.
  intros Hp Httl Hlast now v Hv. rewrite rrun_rbind, rrun_rcall. cbn [documented fst snd].
  destruct (set_at (set_of o) v) as [x|] eqn:Ex; [|done]. cbn [as_members].
  destruct (capped_count now o v x Ex Hv) as (n & v' & x' & Hrun & Hx' & Hn & Hv').
  rewrite rrun_rbind, Hrun. destruct (Z.leb_spec (Z.of_nat cap) (Z.of_nat n)) as [Hfull|Hroom]; [done|].
  rewrite rrun_rbind. unfold lua_call. rewrite rrun_rcall, doc_set_ex by done. cbn [fst snd as_any].
  rewrite rrun_rbind, rrun_rcall.
  erewrite doc_sadd; [|by rewrite set_at_put_ne by apply token_set_ne|done]. cbn [fst snd as_any].
  set (v2 := put (set_of o) _ _).
  assert (Hv2 : tokens_capped v2).
  { unfold v2. cbn [list_to_set foldr]. rewrite (right_id_L ∅ (∪)). apply capped_add; try done. lia. }
  rewrite rrun_rbind. specialize (Hlast now v2 Hv2). by destruct (rrun_doc now last v2) as [[[]|] v3].
Qed.

Lemma capped_expire_cmd k secs : ckeeps tokens_capped (EXPIRE k secs).
Proof.
  intros now v Hv. cbn [documented]. destruct (rv_keys v !! k) as [e|] eqn:E; [|done].
  destruct (secs <=? 0)%Z; cbn [snd]; [by apply capped_del1|].
  apply (capped_keys v); [done| |]; intros a b d; rewrite keys_put; case_decide; subst; eauto;
    destruct e as [[]]; intros [= <- _]; eauto.
Qed.
End Create.

(** ** Burner links *)

Module Burner.
Import BurnerTokens.

Abbreviation fits := (exchanges_keep (tokens_capped (H := Burner_Family))).

Lemma burner_payload_wf o label now exp : json_wf (JObj (token_payload o label now exp)).
Proof.
  constructor.
  - apply (bool_decide_unpack _). vm_compute. exact I.
  - repeat (apply Forall_cons_2; [destruct label; by constructor|]). apply Forall_nil_2.
Qed.

Lemma burner_fits_create o ttl label : fits (create_token o ttl label).
Proof.
  unfold create_token. apply exchanges_bind; [done|]. intros now. apply exchanges_bind; [done|]. intros t.
  apply exchanges_bind; [|intros [[] ?]; done]. apply exchanges_redis.
  refine (capped_create (rret tt) o t (dumps (JObj (token_payload o label now (now + token_ttl ttl)))) (token_ttl ttl) _ _ _).
  - intros o'. apply names_owner_dumps; [apply burner_payload_wf|done].
  - unfold token_ttl, MIN_TTL_SECONDS. lia.
  - apply rkeeps_ret.
Qed.
Section Increment.
  Context `{Cjson}.

Lemma token_not_owner t o : _token_key t <> _owner_key o.
Proof. unfold _token_key, _owner_key, _OWNER_KEY_PREFIX. string_ne. Qed.

(** The object after one more message. *)
Lemma counted meta n :
  json_wf (JObj meta) -> (Z.abs n < 10 ^ 14)%Z ->
  exists meta', loads (cjson_encode (dict_set "message_count" (JNum n) meta)) = Some (JObj meta') /\
    dict_get "message_count" meta' = Some (JNum n) /\
    (forall k, k <> "message_count" -> cjson_exact (dict_get k meta) = true -> dict_get k meta' = dict_get k meta) /\
    (forall k s, k <> "message_count" -> dict_get k meta' = Some (JStr s) -> dict_get k meta = Some (JStr s)).
Proof.
  intros Hwf Hn.
  destruct (cjson_encode_law (dict_set "message_count" (JNum n) meta)) as (meta' & Hl & Hex & Htxt);
    [by apply dict_set_wf; [|constructor]|].
  exists meta'. split_and!; [done| | |].
  - rewrite Hex; rewrite dict_get_set, String.eqb_refl; [done|]. cbn [cjson_exact]. by apply Z.ltb_lt.
  - intros k Hk He. rewrite Hex; rewrite dict_get_set; destruct (String.eqb_spec k "message_count"); done.
  - intros k s Hk Hs. apply Htxt in Hs. rewrite dict_get_set in Hs. by destruct (String.eqb_spec k "message_count").
Qed.

Lemma counted_owner meta n raw o :
  loads raw = Some (JObj meta) ->
  names_owner o (cjson_encode (dict_set "message_count" (JNum n) meta)) = true -> names_owner o raw = true.
Proof.
  intros Hl. unfold names_owner. rewrite Hl.
  destruct (cjson_encode_law (dict_set "message_count" (JNum n) meta)) as (meta' & -> & _ & Htxt);
    [apply dict_set_wf; [by eapply loads_wf|constructor]|].
  unfold get_is_str. change owner_field with "owner_pubkey".
  destruct (dict_get "owner_pubkey" meta') as [[]|] eqn:E; try done.
  apply Htxt in E. rewrite dict_get_set in E. cbn in E. by rewrite E.
Qed.

(** The script on a live token, and on none. *)
Lemma lua_incr_dead now max t v :
  str_at (_token_key t) v = Some None ->
  rrun_doc now (_INCR_LUA (_token_key t) max t _OWNER_KEY_PREFIX) v = (Some (false, 0%Z), v).
Proof. intros Hs. unfold _INCR_LUA. rewrite rrun_rbind, rrun_rcall. cbn [documented fst snd]. by rewrite Hs. Qed.

Lemma lua_incr now max t v raw meta :
  str_at (_token_key t) v = Some (Some raw) -> loads raw = Some (JObj meta) ->
  let count := (lua_number (dict_get "message_count" meta) + 1)%Z in
  rrun_doc now (_INCR_LUA (_token_key t) max t _OWNER_KEY_PREFIX) v =
  if (max <? count)%Z
  then rrun_doc now (let%r _ := lua_unlist _OWNER_KEY_PREFIX t (dict_get "owner_pubkey" meta) in rret (false, count))
         (del (_token_key t) v)
  else (Some (true, count),
        put (_token_key t) (Entry (VStr (cjson_encode (dict_set "message_count" (JNum count) meta)))
                              (deadline_of (_token_key t) v)) v).
Proof.
  intros Hs Hl count. unfold _INCR_LUA. rewrite rrun_rbind, rrun_rcall. cbn [documented fst snd].
  rewrite Hs. cbn [as_bulk]. rewrite Hl. cbv zeta. fold count. destruct (max <? count)%Z.
  - destruct (documented_del1 now (_token_key t) v) as [n Hn].
    rewrite rrun_rbind. unfold lua_call. by rewrite rrun_rcall, Hn.
  - rewrite rrun_rbind. unfold lua_call. rewrite rrun_rcall. cbn [documented andb orb]. done.
Qed.

Lemma capped_unlist t o : rkeeps (tokens_capped (H := Burner_Family)) (lua_unlist _OWNER_KEY_PREFIX t o).
Proof.
  destruct o as [[|[]| | | |]|]; try apply rkeeps_ret; apply rkeeps_lua_call, capped_srem; intros t' Heq;
    exact (token_set_ne t' _ (eq_sym Heq)).
Qed.

Lemma fits_increment t : fits (increment_message_count t).
Proof.
  apply exchanges_redis. intros now v Hv.
  destruct (str_at (_token_key t) v) as [[raw|]|] eqn:Es.
  - destruct (loads raw) as [[| | | | |meta]|] eqn:El.
    6: { rewrite (lua_incr _ _ _ _ raw meta) by done. destruct (_ <? _)%Z.
         - pose proof (capped_unlist t (dict_get "owner_pubkey" meta) now _ (capped_del1 (_token_key t) v Hv)) as Hu.
           rewrite rrun_rbind. by destruct (rrun_doc now _ (del (_token_key t) v)) as [[?|] v'].
         - cbn [snd]. refine (capped_rewrite (H := Burner_Family) t raw _ _ v Es _ Hv). intros o. by apply counted_owner. }
    all: unfold _INCR_LUA; rewrite rrun_rbind, rrun_rcall; cbn [documented fst snd]; rewrite Es; cbn [as_bulk];
      by rewrite El.
  - by rewrite lua_incr_dead.
  - unfold _INCR_LUA. rewrite rrun_rbind, rrun_rcall. cbn [documented fst snd]. by rewrite Es.
Qed.
End Increment.

Lemma burner_fits_read {A} c (dec : reply -> option A) :
  (forall now v, snd (documented now c v) = v) -> fits (redis_ (rcall c dec)).
Proof. intros Hc. apply exchanges_redis, rkeeps_rcall, capped_reads, Hc. Qed.

Lemma capped_owner_srem o ms : ckeeps (tokens_capped (H := Burner_Family)) (SREM (_owner_key o) ms).
Proof. apply capped_srem. intros t Heq. exact (token_set_ne t _ (eq_sym Heq)). Qed.

Lemma burner_fits_revoke o t : fits (revoke_token o t).
Proof.
  apply exchanges_bind; [|done]. apply exchanges_redis, rkeeps_rmulti.
  apply Forall_cons_2; [apply capped_del|]. apply Forall_cons_2; [apply capped_owner_srem|]. apply Forall_nil_2.
Qed.

Lemma burner_fits_list o : fits (list_tokens_for_owner o).
Proof.
  apply exchanges_bind; [by apply burner_fits_read|]. intros x. case_decide; [done|].
  apply exchanges_bind.
  - apply exchanges_pipeline, Forall_forall. intros c (t & -> & _)%list_elem_of_fmap.
    apply rkeeps_do; [by apply capped_reads|]. intros. apply rkeeps_ret.
  - intros raws. apply exchanges_bind; [done|]. intros [out stale]. apply exchanges_bind; [|done].
    destruct stale; [done|]. apply exchanges_try; [|done].
    apply exchanges_redis, rkeeps_rcall, capped_owner_srem.
Qed.

(** Every operation of the module, with any arguments. *)
Inductive burner_op `{Cjson} : prog unit -> Prop :=
| op_create o ttl label : burner_op (detached (create_token o ttl label))
| op_get t : burner_op (detached (get_token t))
| op_increment t : burner_op (detached (increment_message_count t))
| op_revoke o t : burner_op (detached (revoke_token o t))
| op_list o : burner_op (detached (list_tokens_for_owner o))
| op_count o : burner_op (detached (count_active_tokens o)).

Lemma burner_op_fits `{Cjson} p : burner_op p -> fits p.
Proof.
  intros Hop. destruct Hop; (apply exchanges_pbind; [|done]).
  - apply burner_fits_create.
  - apply exchanges_bind; [by apply burner_fits_read|done].
  - apply fits_increment.
  - apply burner_fits_revoke.
  - apply burner_fits_list.
  - apply exchanges_bind; [apply burner_fits_list|done].
Qed.
End Burner.

(** ** Group invites *)

Module Invite.
Import InviteTokens.
#[local] Existing Instance Invite_Family | 0.

Abbreviation fits := (exchanges_keep (tokens_capped (H := Invite_Family))).

Lemma invite_payload_wf g by_ now exp : json_wf (JObj (token_payload g by_ now exp)).
Proof.
  constructor.
  - apply (bool_decide_unpack _). vm_compute. exact I.
  - repeat (apply Forall_cons_2; [by constructor|]). apply Forall_nil_2.
Qed.

Lemma invite_fits_create g by_ ttl : fits (create_token g by_ ttl).
Proof.
  unfold create_token. apply exchanges_bind; [done|]. intros now. apply exchanges_bind; [done|]. intros t.
  apply exchanges_bind; [|intros [[] ?]; done]. apply exchanges_redis.
  set (life := Z.max MIN_TTL_SECONDS (Z.min ttl MAX_TTL_SECONDS)).
  refine (capped_create (H := Invite_Family) (lua_call (EXPIRE (_group_invites_key g) (MAX_TTL_SECONDS + 86400)))
            g t (dumps (JObj (token_payload g by_ now (now + life)))) life _ _ _).
  - intros o'. apply (names_owner_dumps (H := Invite_Family)); [apply invite_payload_wf|done].
  - unfold life, MIN_TTL_SECONDS. lia.
  - apply rkeeps_lua_call, capped_expire_cmd.
Qed.

Lemma invite_fits_read {A} c (dec : reply -> option A) :
  (forall now v, snd (documented now c v) = v) -> fits (redis_ (rcall c dec)).
Proof. intros Hc. apply exchanges_redis, rkeeps_rcall, capped_reads, Hc. Qed.

Lemma capped_group_srem g ms : ckeeps (tokens_capped (H := Invite_Family)) (SREM (_group_invites_key g) ms).
Proof. apply capped_srem. intros t Heq. exact (token_set_ne (H := Invite_Family) t _ (eq_sym Heq)). Qed.

Lemma fits_group_srem g ms : fits (try_except (cmd_ (SREM (_group_invites_key g) ms)) (fun _ => ret tt)).
Proof. apply exchanges_try; [|done]. apply exchanges_redis, rkeeps_rcall, capped_group_srem. Qed.

Lemma fits_consume t : fits (consume_token t).
Proof.
  apply exchanges_bind; [apply exchanges_redis, rkeeps_rcall, capped_getdel|]. intros [s|]; [|done].
  destruct (loads s) as [[| | | | |meta]|]; try done.
  apply exchanges_bind; [|done]. destruct (dict_get "group_id" meta) as [[| | |g| |]|]; try done.
  destruct (String.eqb g ""); [done|apply fits_group_srem].
Qed.

Lemma invite_fits_revoke g t : fits (revoke_token g t).
Proof.
  apply exchanges_bind; [|done]. apply exchanges_redis, rkeeps_rmulti.
  apply Forall_cons_2; [apply capped_del|]. apply Forall_cons_2; [apply capped_group_srem|]. apply Forall_nil_2.
Qed.

Lemma invite_fits_list g : fits (list_tokens g).
Proof.
  apply exchanges_bind; [by apply invite_fits_read|]. intros x. case_decide; [done|].
  apply exchanges_bind.
  - apply exchanges_pipeline, Forall_forall. intros c (t & -> & _)%list_elem_of_fmap.
    apply rkeeps_do; [by apply capped_reads|]. intros. apply rkeeps_ret.
  - intros raws. apply exchanges_bind; [done|]. intros [out stale]. apply exchanges_bind; [|done].
    destruct stale; [done|apply fits_group_srem].
Qed.

Inductive invite_op : prog unit -> Prop :=
| op_create g by_ ttl : invite_op (detached (create_token g by_ ttl))
| op_get t : invite_op (detached (get_token t))
| op_consume t : invite_op (detached (consume_token t))
| op_revoke g t : invite_op (detached (revoke_token g t))
| op_list g : invite_op (detached (list_tokens g))
| op_count g : invite_op (detached (count_active_tokens g)).

Lemma invite_op_fits p : invite_op p -> fits p.
Proof.
  intros Hop. destruct Hop; (apply exchanges_pbind; [|done]).
  - apply invite_fits_create.
  - apply exchanges_bind; [by apply invite_fits_read|done].
  - apply fits_consume.
  - apply invite_fits_revoke.
  - apply invite_fits_list.
  - apply exchanges_bind; [apply invite_fits_list|done].
Qed.
End Invite.

(** ** Properties *)

Section Properties.
  Context `{R : Redis} `{BurnerTokens.Cjson}.

Lemma capped_reachable (F : Token_Family) (starts : prog unit -> Prop) ps' (w w' : world rstore) :
  (forall p, starts p -> exchanges_keep (tokens_capped (H := F)) p) ->
  rtc (cstep starts (fun _ => True)) ([], w) (ps', w') ->
  tokens_capped (w_redis (absw w)) -> tokens_capped (w_redis (absw w')).
Proof.
  intros Hop Hsteps Hw.
  destruct (keeps_reachable starts (fun _ => True) (redis_inv tokens_capped (fun _ => True)) ([], w) (ps', w'))
    as [[HJ _] _]; cbn [fst snd]; try done.
  - apply redis_inv_stable. intros now v. apply tokens_expire.
  - intros p Hp. apply exchanges_keeps; [done|auto].
Qed.

(** The number of live links is bounded, however requests interleave.  In any interleaving of
    the operations of burner links, with the clock moving and any failures of Redis, no owner ever
    has more than ten live tokens; and in any interleaving of those of invites, no group more than
    twenty. *)
Theorem token_caps_interleaved ps' (w w' : world rstore) :
  (rtc (cstep Burner.burner_op (fun _ => True)) ([], w) (ps', w') ->
   tokens_capped (H := Burner_Family) (w_redis (absw w)) -> tokens_capped (H := Burner_Family) (w_redis (absw w'))) /\
  (rtc (cstep Invite.invite_op (fun _ => True)) ([], w) (ps', w') ->
   tokens_capped (H := Invite_Family) (w_redis (absw w)) -> tokens_capped (H := Invite_Family) (w_redis (absw w'))).
Proof.
  split; apply capped_reachable; [apply Burner.burner_op_fits|apply Invite.invite_op_fits].
Qed.

(** A burner link carries a hundred messages.  Counting a message on a token that has
    carried [n] allows it and keeps the token's owner and time of expiry while [n < 100]; from then
    on the message is refused and the token deleted and unlisted; on a token that is not there every
    message is refused.  No other key changes. *)
Theorem burner_counts_messages t raw meta n o x (w : world rstore) dl :
  let v := w_redis (absw w) in
  let key := BurnerTokens._token_key t in
  let idx := BurnerTokens._owner_key o in
  calm w -> rv_keys v !! key = Some (Entry (VStr raw) dl) -> loads raw = Some (JObj meta) ->
  dict_get "message_count" meta = Some (JNum n) -> (0 <= n)%Z ->
  dict_get "owner_pubkey" meta = Some (JStr o) -> set_at idx v = Some x ->
  exists w1, observe (BurnerTokens.increment_message_count t) w = (Ok ((n <? 100)%Z, (n + 1)%Z), w1) /\
    (forall k, k <> key -> k <> idx -> rv_keys (w_redis w1) !! k = rv_keys v !! k) /\
    if (n <? 100)%Z
    then exists raw' meta', rv_keys (w_redis w1) !! key = Some (Entry (VStr raw') dl) /\
         loads raw' = Some (JObj meta') /\ dict_get "message_count" meta' = Some (JNum (n + 1)) /\
         dict_get "owner_pubkey" meta' = Some (JStr o) /\ rv_keys (w_redis w1) !! idx = rv_keys v !! idx
    else rv_keys (w_redis w1) !! key = None /\ set_at idx (w_redis w1) = Some (x ∖ {[t]}) /\
         fst (run_doc (BurnerTokens.increment_message_count t) w1) = Ok (false, 0%Z).
Proof.
  intros v key idx Hc Hk Hl Hn Hpos Ho Hx.
  assert (Hs : str_at key v = Some (Some raw)) by (unfold str_at; by rewrite Hk).
  assert (Hne : key <> idx) by apply Burner.token_not_owner.
  rewrite observe_doc. unfold BurnerTokens.increment_message_count at 1. rewrite run_doc_redis by exact Hc.
  fold v. rewrite (Burner.lua_incr _ _ _ _ raw meta) by done. rewrite Hn. cbn [BurnerTokens.lua_number].
  destruct (Z.ltb_spec n 100) as [Hlt|Hge].
  - rewrite (proj2 (Z.ltb_ge BurnerTokens.MAX_MESSAGES_PER_TOKEN (n + 1))) by (unfold BurnerTokens.MAX_MESSAGES_PER_TOKEN; lia).
    destruct (Burner.counted meta (n + 1)) as (meta' & Hl' & Hn' & Hex & _); [by eapply loads_wf|lia|].
    eexists. split; [done|]. cbn [w_redis set_redis fst snd]. split; [intros k H1 H2; by apply keys_put_ne, not_eq_sym|].
    eexists _, meta'. split_and!; [rewrite keys_put_eq; unfold deadline_of; fold key; by rewrite Hk|done|done| |by apply keys_put_ne].
    rewrite (Hex "owner_pubkey"); [done|done|by rewrite Ho].
  - rewrite (proj2 (Z.ltb_lt BurnerTokens.MAX_MESSAGES_PER_TOKEN (n + 1))) by (unfold BurnerTokens.MAX_MESSAGES_PER_TOKEN; lia).
    rewrite Ho. cbn [BurnerTokens.lua_unlist]. fold idx. rewrite rrun_rbind. unfold lua_call. rewrite rrun_rcall.
    rewrite (doc_srem _ _ _ x) by by rewrite set_at_del_ne. cbn [fst snd as_any rrun_doc res_of rret].
    eexists. split; [done|]. cbn [w_redis set_redis]. cbn [list_to_set foldr]. rewrite (right_id_L ∅ (∪)).
    fold key. split; [intros k H1 H2; rewrite keys_put_set_ne, keys_del_ne; [done|..]; by apply not_eq_sym|].
    assert (Hgone : rv_keys (put_set idx (x ∖ {[t]}) (del key v)) !! key = None) by (rewrite keys_put_set_ne, keys_del_eq; done).
    assert (Hdead : str_at key (put_set idx (x ∖ {[t]}) (del key v)) = Some None) by (unfold str_at; by rewrite Hgone).
    split_and!; [done|by at_simpl|].
    unfold BurnerTokens.increment_message_count. rewrite run_doc_redis by exact Hc. cbn [w_redis set_redis].
    rewrite Burner.lua_incr_dead; [done|exact Hdead].
Qed.

(** An invite admits one.  Consuming a live invite gives its object, and it is then gone from
    its key and from the list of its group; every later attempt, at whatever time, gets nothing. *)
Theorem invite_consumed_once t raw meta g x (w : world rstore) dl t' :
  let v := w_redis (absw w) in
  let key := InviteTokens._token_key t in
  let idx := InviteTokens._group_invites_key g in
  calm w -> rv_keys v !! key = Some (Entry (VStr raw) dl) -> loads raw = Some (JObj meta) ->
  dict_get "group_id" meta = Some (JStr g) -> g <> "" -> set_at idx v = Some x -> (w_now w <= t')%Z ->
  let '(r, w1) := run (InviteTokens.consume_token t) w in
  r = Ok (Some meta) /\ rv_keys (w_redis (absw w1)) !! key = None /\
  set_at idx (w_redis (absw w1)) = Some (x ∖ {[t]}) /\
  (forall k, k <> key -> k <> idx -> rv_keys (w_redis (absw w1)) !! k = rv_keys v !! k) /\
  fst (observe (InviteTokens.consume_token t) (set_now t' w1)) = Ok None.
Proof.
  intros v key idx Hc Hk Hl Hg Hne Hx Ht.
  assert (Hkne : key <> idx) by (unfold key, idx, InviteTokens._token_key, InviteTokens._group_invites_key; string_ne).
  assert (Hrun : run_doc (InviteTokens.consume_token t) (absw w) =
            (Ok (Some meta), set_redis (put_set idx (x ∖ {[t]}) (del key v)) (absw w))).
  { unfold InviteTokens.consume_token. rewrite run_doc_bind, run_doc_redis, rrun_rcall by exact Hc.
    cbn [documented]. unfold str_at. fold key v. rewrite Hk. cbn [fst snd as_bulk res_of]. rewrite Hl, Hg.
    destruct (String.eqb_spec g ""); [done|]. rewrite run_doc_bind, run_doc_try. fold idx.
    rewrite (run_srem _ _ x); [|exact Hc|cbn [w_redis set_redis]; by rewrite set_at_del_ne].
    cbn [list_to_set foldr]. by rewrite (right_id_L ∅ (∪)). }
  destruct (run (InviteTokens.consume_token t) w) as [r w1] eqn:Er. apply run_absw in Er. rewrite Hrun in Er.
  pose proof (f_equal fst Er) as Hr. pose proof (f_equal snd Er) as Hw1. cbn [fst snd] in Hr, Hw1. clear Er.
  assert (Hgone : rv_keys (put_set idx (x ∖ {[t]}) (del key v)) !! key = None) by (rewrite keys_put_set_ne, keys_del_eq; done).
  rewrite <- Hw1. cbn [w_redis set_redis]. split_and!; [done|done|by at_simpl| |].
  - intros k H1 H2. by rewrite keys_put_set_ne, keys_del_ne by congruence.
  - assert (Hnow : w_now w1 = w_now w) by exact (f_equal w_now (eq_sym Hw1)).
    rewrite observe_doc, absw_later by lia. unfold InviteTokens.consume_token.
    rewrite run_doc_bind, run_doc_redis, rrun_rcall by (rewrite <- Hw1; exact Hc). cbn [documented].
    unfold str_at. fold key. cbn [later w_redis set_redis]. rewrite keys_expire, <- Hw1. cbn [w_redis set_redis].
    by rewrite Hgone.
Qed.
End Properties.

(** ** Witnesses *)

Module TokenDemo.
#[local] Program Instance demo_cjson : BurnerTokens.Cjson := {| BurnerTokens.cjson_encode d := dumps (JObj d) |}.
Next Obligation. intros d Hd. exists d. split_and!; [by apply loads_dumps|done..]. Qed.

Definition start : world (rstore (Redis := Mem_Redis)) :=
  World 1000%Z (View ∅ ∅ []) empty_db empty_db ∅ [] (fun _ => "tok") [] no_network [].
Definition linked : world (rstore (Redis := Mem_Redis)) := snd (run (BurnerTokens.create_token "alice" 3600 None) start).
Definition invited : world (rstore (Redis := Mem_Redis)) := snd (run (InviteTokens.create_token "g" "alice" 3600) start).

Lemma token_caps_witness : tokens_capped (H := Burner_Family) (w_redis (absw (set_now 1001 start))).
Proof.
  apply (token_caps_interleaved [detached (BurnerTokens.create_token "alice" 3600 None)] start (set_now 1001 start)).
  - eapply rtc_l; [apply step_start; apply Burner.op_create|]. cbn [app].
    eapply rtc_l; [apply (step_time _ _ 1001); vm_compute; discriminate|]. apply rtc_refl.
  - intros o. vm_compute. repeat constructor.
Defined.

Lemma burner_counts_witness : exists w1,
  observe (BurnerTokens.increment_message_count "tok") linked = (Ok (true, 1%Z), w1).
Proof.
  destruct (burner_counts_messages "tok" (dumps (JObj (BurnerTokens.token_payload "alice" None 1000 4600)))
              (BurnerTokens.token_payload "alice" None 1000 4600) 0 "alice" {["tok"]} linked (Some 4600%Z))
    as (w1 & Hw1 & _).
  - reflexivity.
  - vm_compute. reflexivity.
  - vm_compute. reflexivity.
  - reflexivity.
  - vm_compute. discriminate.
  - reflexivity.
  - vm_compute. reflexivity.
  - exists w1. exact Hw1.
Defined.

Lemma invite_once_witness :
  fst (run (InviteTokens.consume_token "tok") invited) = Ok (Some (InviteTokens.token_payload "g" "alice" 1000 4600)).
Proof.
  pose proof (invite_consumed_once "tok" (dumps (JObj (InviteTokens.token_payload "g" "alice" 1000 4600)))
    (InviteTokens.token_payload "g" "alice" 1000 4600) "g" {["tok"]} invited (Some 4600%Z) 2000) as H1.
  destruct (run (InviteTokens.consume_token "tok") invited) as [r w1].
  destruct H1 as [H1 _]; [reflexivity|vm_compute; reflexivity..|discriminate|vm_compute; reflexivity|vm_compute; discriminate|].
  exact H1.
Defined.
End TokenDemo.
