(* ===== verification/Reaper.v ===== *)
(** * The blob and group reaper (scripts/reaper.py)

    The indexed pass over the expired candidates in Redis, the rare scan over all files, and the
    soft deletion of expired groups.  A path is relative to the blob directory; [unlink] is the
    deletion event of a path.  The times and counts that are only logged are the fields of the
    statistics. *)

From Stdlib Require Import Ascii String.
From stdpp Require Import prelude gmap strings list.
From S2P Require Import Prelude Json Codec RedisStore Models Effects Crypto Config BlobStorage Queue.

#[local] Open Scope morok_scope.

(** ** Files *)

(** [path.name] *)
Definition base_name (path : string) : string := List.last (split_on "/" path) "".

(** [len(name) == 64 and all(c in "0123456789abcdef" for c in name)] *)
Definition is_envelope_id (name : string) : bool := (string_len name =? 64)%Z && string_forallb is_lower_hex name.

Definition list_files : M (list string) := Vis EBlobList (fun l => ret l).
(** [path.stat().st_mtime] *)
Definition stat_mtime (path : string) : M Z :=
  Vis (EBlobStat path) (fun t => match t with Some t => ret t | None => raise FileNotFoundError end).
Definition unlink (path : string) : M unit :=
  Vis (EBlobDelete path) (fun r => match r with
    | Some true => ret tt
    | Some false => raise FileNotFoundError
    | None => raise OSError
    end).

(** A name of sixty-four hexadecimal digits has no suffix. *)
Definition _iter_blob_paths : M (list string) :=
  let! paths := list_files in
  ret (List.filter (fun p => negb (ends_with ".tmp" (base_name p)) && is_envelope_id (base_name p)) paths).

Definition STALE_TMP_AGE_SECONDS : Z := 3600.

Record tmp_stats := TmpStats { tmp_scanned : Z; tmp_deleted : Z; tmp_errors : Z }.

Fixpoint reap_temp_loop (now : Z) (paths : list string) (stats : tmp_stats) : M tmp_stats :=
  match paths with
  | [] => ret stats
  | path :: paths' =>
      let seen := TmpStats (tmp_scanned stats + 1) (tmp_deleted stats) (tmp_errors stats) in
      let! stats := try_except
        (let! mtime := stat_mtime path in
         if (now - mtime <? STALE_TMP_AGE_SECONDS)%Z then ret seen
         else
           let! _ := unlink path in
           ret (TmpStats (tmp_scanned seen) (tmp_deleted seen + 1) (tmp_errors seen)))
        (fun e => match e with
           | FileNotFoundError => ret seen
           | OSError => ret (TmpStats (tmp_scanned seen) (tmp_deleted seen) (tmp_errors seen + 1))
           | e => raise e
           end) in
      reap_temp_loop now paths' stats
  end.

Definition reap_stale_temp_files (now : Z) : M tmp_stats :=
  let! paths := list_files in
  reap_temp_loop now (List.filter (fun p => ends_with ".tmp" (base_name p)) paths) (TmpStats 0 0 0).

(** ** The indexed pass *)

Record indexed_stats := IndexedStats {
  indexed_candidates : Z; indexed_deleted : Z; indexed_still_queued : Z; indexed_errors : Z
}.

Definition meta_exists (envelope_id : string) : M bool :=
  let! n := redis_ (rcall (EXISTS (_envelope_meta_key envelope_id)) as_int) in
  ret (negb (n =? 0)%Z).

(** One candidate; its index entry is removed whatever happens ([finally]). *)
Definition reap_candidate (stats : indexed_stats) (envelope_id : string) : M indexed_stats :=
  let! stats := try_except
    (let! queued := meta_exists envelope_id in
     if (queued : bool)
     then ret (IndexedStats (indexed_candidates stats) (indexed_deleted stats)
                 (indexed_still_queued stats + 1) (indexed_errors stats))
     else
       let! deleted := secure_delete_blob envelope_id in
       ret (if deleted : bool
            then IndexedStats (indexed_candidates stats) (indexed_deleted stats + 1)
                   (indexed_still_queued stats) (indexed_errors stats)
            else stats))
    (fun _ => ret (IndexedStats (indexed_candidates stats) (indexed_deleted stats)
                     (indexed_still_queued stats) (indexed_errors stats + 1))) in
  let! _ := try_except (redis_ (lua_call (ZREM _BLOB_EXPIRY_INDEX_KEY envelope_id))) (fun _ => ret tt) in
  ret stats.

Fixpoint reap_candidates (ids : list string) (stats : indexed_stats) : M indexed_stats :=
  match ids with
  | [] => ret stats
  | id :: ids' => let! stats := reap_candidate stats id in reap_candidates ids' stats
  end.

Definition reap_blobs_indexed : M indexed_stats :=
  let! now := now_ in
  let! ids := redis_ (rcall (ZRANGEBYSCORE _BLOB_EXPIRY_INDEX_KEY 0 now) as_list) in
  reap_candidates ids (IndexedStats (Z.of_nat (length ids)) 0 0 0).

(** ** The full scan *)

Record scan_stats := ScanStats {
  blobs_scanned : Z; blobs_still_queued : Z; blobs_deleted_delivered : Z; blobs_deleted_aged_out : Z;
  blob_errors : Z
}.

Definition hard_age_limit (s : Settings) : Z :=
  (Z.max (message_ttl_hard_seconds s) (mail_ttl_seconds s) + 86400)%Z.

Definition scan_one (limit now : Z) (stats : scan_stats) (path : string) : M scan_stats :=
  let envelope_id := base_name path in
  let '(ScanStats scanned queued delivered aged errors) := stats in
  let scanned := (scanned + 1)%Z in
  try_except
    (let! exists_ := meta_exists envelope_id in
     if (exists_ : bool) then ret (ScanStats scanned (queued + 1) delivered aged errors)
     else
       let! mtime := stat_mtime path in
       if (now - mtime <=? limit)%Z then
         let! deleted := secure_delete_blob envelope_id in
         ret (ScanStats scanned queued (if deleted : bool then delivered + 1 else delivered) aged errors)%Z
       else
         let! deleted := secure_delete_blob envelope_id in
         ret (ScanStats scanned queued delivered (if deleted : bool then aged + 1 else aged) errors)%Z)
    (fun _ => ret (ScanStats scanned queued delivered aged (errors + 1)%Z)).

Fixpoint scan_all (limit now : Z) (paths : list string) (stats : scan_stats) : M scan_stats :=
  match paths with
  | [] => ret stats
  | path :: paths' => let! stats := scan_one limit now stats path in scan_all limit now paths' stats
  end.

Definition reap_blobs_full_scan (s : Settings) : M (tmp_stats * scan_stats) :=
  let! now := now_ in
  let! tmp := reap_stale_temp_files now in
  let! paths := _iter_blob_paths in
  let! stats := scan_all (hard_age_limit s) now paths (ScanStats 0 0 0 0 0) in
  ret (tmp, stats).

(** ** Groups *)

Definition group_expired (now : Z) (g : Group) : bool :=
  match g_expires_at g with Some t => (t <=? now)%Z | None => false end && negb (bool_decide (is_Some (g_deleted_at g))).

Definition set_deleted (now : Z) (g : Group) : Group :=
  mkGroup (g_id g) (g_creator_pubkey g) (g_name_encrypted g) (g_is_channel g) (g_default_ttl_seconds g) (g_slug g)
    (g_expires_at g) (g_anonymous_senders g) (g_max_members g) (g_home_relay g) (g_created_at g) (Some now).

(** (groups_expired, group_errors) *)
Definition reap_expired_groups : M (Z * Z) :=
  let! now := now_ in
  try_except
    (let! expired := sql (fun db => (List.filter (group_expired now) (t_groups db), db)) in
     match expired with
     | [] => ret (0, 0)%Z
     | _ =>
         let! n := sql (fun db =>
           let '(n, t) := update_where (group_expired now) (set_deleted now) (t_groups db) in (n, set_groups t db)) in
         let! _ := commit in
         ret (n, 0%Z)
     end)
    (fun _ => let! _ := rollback in ret (0, 1)%Z).

(** ** One run *)

(** [redis.ping()] *)
Definition ping : M unit := redis_ (rret tt).

Record reaper_run := ReaperRun {
  run_indexed : indexed_stats; run_scan : option (tmp_stats * scan_stats); run_groups : Z * Z
}.

(** [None] when Redis cannot be reached. *)
Definition reap_once (s : Settings) (full_scan : bool) : M (option reaper_run) :=
  let! alive := try_except (let! _ := ping in ret true) (fun _ => ret false) in
  if negb alive then ret None
  else
    let! blob_stats := reap_blobs_indexed in
    let! full := (if full_scan then let! x := reap_blobs_full_scan s in ret (Some x) else ret None) in
    let! group_stats := reap_expired_groups in
    ret (Some (ReaperRun blob_stats full group_stats)).
