(* ===== verification/ReaperFacts.v ===== *)
(** * The blob reaper: properties

    Exactly which files and index entries the two passes remove, that neither removes the file of an
    envelope that is still in Redis, and two ways in which the passes do not do what their comments
    say. *)

From Stdlib Require Import Ascii String.
From stdpp Require Import prelude gmap strings list sorting.
From S2P Require Import Prelude Json Codec RedisStore Models Effects Crypto Config Logic BlobStorage Queue QueueFacts.
From S2P Require Import Reaper.

#[local] Open Scope morok_scope.

(** [morok:envelope:id] is there. *)
Definition queued (id : string) (v : rview) : bool :=
  match rv_keys v !! _envelope_meta_key id with Some _ => true | None => false end.

(** The file of one of these envelopes, and it is not queued. *)
Definition collects (ids : list string) (v : rview) (p : string) : bool :=
  existsb (fun id => match _blob_path id with Ok q => String.eqb q p | Raise _ => false end && negb (queued id v)) ids.

Definition without_files (gone : string -> bool) (b : gmap string file) : gmap string file :=
  filter (fun pf => gone pf.1 = false) b.

Lemma without_lookup gone b p : without_files gone b !! p = if gone p then None else b !! p.
Proof.
  unfold without_files. rewrite map_lookup_filter. destruct (b !! p) as [f|]; cbn; [|by destruct (gone p)].
  destruct (gone p) eqn:E; cbn; by rewrite ?option_guard_True, ?option_guard_False by (cbn; congruence).
Qed.

Section Indexed.
#[local] Abbreviation index := _BLOB_EXPIRY_INDEX_KEY.

Lemma run_meta_exists id (w : vworld) : calm w -> run_doc (meta_exists id) w = (Ok (queued id (w_redis w)), w).
Proof.
  intros Hc. unfold meta_exists, queued. rewrite run_doc_bind, run_doc_redis, rrun_rcall by done. cbn.
  destruct w as [n r]; cbn. by destruct (rv_keys r !! _).
Qed.

(** The file of a candidate is gone unless it is queued; its index entry is gone. *)
Record swept (ids : list string) (w w' : vworld) : Prop := {
  sw_calm : calm w';
  sw_now : w_now w' = w_now w;
  sw_keys k : k <> index -> rv_keys (w_redis w') !! k = rv_keys (w_redis w) !! k;
  sw_index z : zset_at index (w_redis w) = Some z ->
    exists z', zset_at index (w_redis w') = Some z' /\ forall id, z' !! id = if decide (id ∈ ids) then None else z !! id;
  sw_blobs p : w_blobs w' !! p = if collects ids (w_redis w) p then None else w_blobs w !! p
}.

Lemma queued_frame id v v' :
  (forall k, k <> index -> rv_keys v' !! k = rv_keys v !! k) -> queued id v' = queued id v.
Proof. intros Hk. unfold queued. rewrite Hk; [done|]. unfold index. string_ne. Qed.

Lemma collects_frame ids v v' p :
  (forall k, k <> index -> rv_keys v' !! k = rv_keys v !! k) -> collects ids v' p = collects ids v p.
Proof.
  intros Hk. unfold collects. induction ids as [|id l IH]; [done|]. cbn. rewrite (queued_frame id _ _ Hk). by rewrite IH.
Qed.

Lemma collects_app ids1 ids2 v p : collects (ids1 ++ ids2) v p = collects ids1 v p || collects ids2 v p.
Proof. apply existsb_app. Qed.

Lemma swept_trans ids1 ids2 w w1 w2 : swept ids1 w w1 -> swept ids2 w1 w2 -> swept (ids1 ++ ids2) w w2.
Proof.
  intros [c1 n1 k1 i1 b1] [c2 n2 k2 i2 b2]. split; [done|congruence| | |].
  - intros k Hk. by rewrite k2, k1.
  - intros z Hz. destruct (i1 z Hz) as (z1 & Hz1 & E1). destruct (i2 z1 Hz1) as (z2 & Hz2 & E2).
    exists z2. split; [done|]. intros id. rewrite E2, E1. repeat case_decide; set_solver.
  - intros p. rewrite b2, b1, collects_app, (collects_frame ids2 _ _ p k1).
    by destruct (collects ids1 _ p), (collects ids2 _ p).
Qed.

(** One candidate. *)
Lemma run_candidate stats id (w : vworld) z :
  calm w -> zset_at index (w_redis w) = Some z ->
  exists stats' w', run_doc (reap_candidate stats id) w = (Ok stats', w') /\ swept [id] w w'.
Proof.
  intros Hc Hz. unfold reap_candidate. rewrite run_doc_bind, run_doc_try, run_doc_bind, run_meta_exists by done.
  assert (Hend : forall (s : indexed_stats) (w1 : vworld), calm w1 -> w_redis w1 = w_redis w -> w_now w1 = w_now w ->
    (forall p, w_blobs w1 !! p = if collects [id] (w_redis w) p then None else w_blobs w !! p) ->
    exists stats' w', (let '(r, w') := run_doc (try_except (redis_ (lua_call (ZREM _BLOB_EXPIRY_INDEX_KEY id))) (fun _ => ret tt)) w1 in
       match r with Ok _ => run_doc (ret s) w' | Raise e => (Raise e, w') end) = (Ok stats', w') /\ swept [id] w w').
  { intros s w1 Hc1 Hr1 Hn1 Hb1. rewrite run_doc_try, run_doc_redis by done. unfold lua_call.
    rewrite rrun_rcall, Hr1, (doc_zrem _ _ _ _ z Hz). cbn [fst snd as_any res_of]. rewrite run_doc_ret.
    eexists _, _. split; [done|]. split; [done|done| | |done].
    - intros k Hk. cbn. by rewrite keys_put_zset_ne.
    - intros z0 Hz0. rewrite Hz in Hz0. injection Hz0 as <-. exists (delete id z). split; [cbn; by at_simpl|].
      intros id'. case_decide as Hin.
      + apply list_elem_of_singleton in Hin as ->. apply lookup_delete_eq.
      + apply lookup_delete_ne. set_solver. }
  destruct (queued id (w_redis w)) eqn:Hq.
  - rewrite run_doc_ret, run_doc_bind. apply Hend; try done. intros p. unfold collects. cbn. rewrite Hq.
    cbn. by rewrite andb_false_r.
  - destruct (_blob_path id) as [q|e] eqn:Hp.
    + rewrite run_doc_bind, (run_secure_delete id q) by done. rewrite run_doc_ret, run_doc_bind. apply Hend; try done.
      intros p. unfold collects. cbn. rewrite Hp, Hq. cbn. rewrite andb_true_r, orb_false_r.
      destruct (String.eqb_spec q p) as [->|Hne]; [apply lookup_delete_eq|by apply lookup_delete_ne].
    + unfold secure_delete_blob. rewrite !run_doc_bind, Hp. cbn [of_res run_doc run_exec]. rewrite run_doc_ret, run_doc_bind.
      apply Hend; try done. intros p. unfold collects. cbn. by rewrite Hp.
Qed.

Lemma run_candidates ids stats (w : vworld) z :
  calm w -> zset_at index (w_redis w) = Some z ->
  exists stats' w', run_doc (reap_candidates ids stats) w = (Ok stats', w') /\ swept ids w w'.
Proof.
  revert stats w z. induction ids as [|id ids IH]; intros stats w z Hc Hz; cbn [reap_candidates].
  - exists stats, w. split; [done|]. split; try done. intros z0 Hz0. exists z0. split; [done|]. done.
  - destruct (run_candidate stats id w z Hc Hz) as (s1 & w1 & E1 & Hs1). rewrite run_doc_bind, E1.
    destruct (sw_index _ _ _ Hs1 z Hz) as (z1 & Hz1 & _).
    destruct (IH s1 w1 z1 (sw_calm _ _ _ Hs1) Hz1) as (s2 & w2 & E2 & Hs2).
    exists s2, w2. split; [done|]. by apply (swept_trans [id] ids w w1).
Qed.
End Indexed.

(** ** The indexed pass *)

(** The candidates of a pass now. *)
Definition candidate (now : Z) (z : gmap string Z) (id : string) : Prop :=
  exists t, z !! id = Some t /\ (0 <= t <= now)%Z.

Lemma candidates_list now z id :
  id ∈ (by_score (filter (in_range 0 now) z)).*1 <-> candidate now z id.
Proof.
  rewrite by_score_ids. unfold candidate. split.
  - intros [t [Hz [H0 Ht]]%map_lookup_filter_Some]. by exists t.
  - intros (t & Hz & H0 & Ht). exists t. by apply map_lookup_filter_Some.
Qed.

(** The file at [p] is a candidate's whose envelope is not queued. *)
Definition collected (now : Z) (z : gmap string Z) (v : rview) (p : string) : Prop :=
  exists id, candidate now z id /\ _blob_path id = Ok p /\ queued id v = false.

Lemma collects_true ids v p :
  collects ids v p = true <-> exists id, id ∈ ids /\ _blob_path id = Ok p /\ queued id v = false.
Proof.
  unfold collects. rewrite existsb_exists. split.
  - intros (id & Hin & [Hp Hq]%andb_true_iff). exists id. split; [by apply list_elem_of_In|].
    destruct (_blob_path id); [|done]. apply String.eqb_eq in Hp as ->. by apply negb_true_iff in Hq.
  - intros (id & Hin & Hp & Hq). exists id. split; [by apply list_elem_of_In|]. by rewrite Hp, Hq, String.eqb_refl.
Qed.

Record indexed_pass (z : gmap string Z) (w w' : vworld) : Prop := {
  ip_calm : calm w';
  ip_now : w_now w' = w_now w;
  ip_keys k : k <> _BLOB_EXPIRY_INDEX_KEY -> rv_keys (w_redis w') !! k = rv_keys (w_redis w) !! k;
  ip_gone p : collected (w_now w) z (w_redis w) p -> w_blobs w' !! p = None;
  ip_kept p : ~ collected (w_now w) z (w_redis w) p -> w_blobs w' !! p = w_blobs w !! p;
  ip_index : exists z', zset_at _BLOB_EXPIRY_INDEX_KEY (w_redis w') = Some z' /\
    forall id, (candidate (w_now w) z id -> z' !! id = None) /\ (~ candidate (w_now w) z id -> z' !! id = z !! id)
}.

Lemma run_indexed (w : vworld) z :
  calm w -> zset_at _BLOB_EXPIRY_INDEX_KEY (w_redis w) = Some z ->
  indexed_pass z w (snd (run_doc reap_blobs_indexed w)).
Proof.
  intros Hc Hz. unfold reap_blobs_indexed. rewrite run_doc_bind, run_doc_now, run_doc_bind, run_doc_redis, rrun_rcall by done.
  cbn [documented]. rewrite Hz. cbn [fst snd as_list res_of].
  assert (E : set_redis (w_redis w) w = w) by by destruct w. rewrite E. clear E.
  edestruct (run_candidates (by_score (filter (in_range 0 (w_now w)) z)).*1) as (s' & w' & E & [c n k i b]); [done|done|].
  rewrite E. cbn [snd]. destruct (i z Hz) as (z' & Hz' & Hi). split; [done|done|done| | |].
  - intros p (id & Hcand & Hp & Hq). rewrite b. assert (collects _ (w_redis w) p = true) as ->; [|done].
    apply collects_true. exists id. split; [by apply candidates_list|done].
  - intros p Hn. rewrite b. destruct (collects _ (w_redis w) p) eqn:Ec; [|done]. exfalso. apply Hn.
    apply collects_true in Ec as (id & Hin & Hp & Hq). exists id. split; [by apply candidates_list|done].
  - exists z'. split; [done|]. intros id. rewrite Hi, <- candidates_list. split; intros Hcand; by case_decide.
Qed.

Lemma zset_at_expire k t v z :
  zset_at k v = Some z -> exists z', zset_at k (expire t v) = Some z' /\ (z' = z \/ z' = ∅).
Proof.
  unfold zset_at. rewrite keys_expire. intros Hz. destruct (rv_keys v !! k) as [e|] eqn:E.
  - case_decide; [exists z|exists ∅]; (split; [done|]); (by left) || by right.
  - exists ∅. split; [done|by right].
Qed.

Section IndexedServer.
  Context `{R : Redis}.

(** The frequent pass of the reaper.  Without failures it deletes exactly the files of the
    expired candidates whose envelope is no longer in Redis, takes exactly the candidates out of the
    index, and changes no other key. *)
Theorem indexed_pass_exact (w : world rstore) z :
  calm w -> zset_at _BLOB_EXPIRY_INDEX_KEY (w_redis (absw w)) = Some z ->
  indexed_pass z (absw w) (snd (observe reap_blobs_indexed w)).
Proof. intros Hc Hz. rewrite observe_doc. by apply run_indexed. Qed.

(** A candidate that is still queued is not merely skipped for one pass, as the comment says:
    its index entry is removed all the same, so no later indexed pass, whenever it runs and
    whatever has expired by then, deletes its file. *)
Theorem skipped_candidate_forgotten (w : world rstore) z id p f t :
  calm w -> zset_at _BLOB_EXPIRY_INDEX_KEY (w_redis (absw w)) = Some z ->
  candidate (w_now w) z id -> queued id (w_redis (absw w)) = true ->
  _blob_path id = Ok p -> w_blobs w !! p = Some f -> (w_now w <= t)%Z ->
  let w1 := snd (run reap_blobs_indexed w) in
  let w2 := snd (run reap_blobs_indexed (set_now t w1)) in
  w_blobs w1 !! p = Some f /\ w_blobs w2 !! p = Some f.
Proof.
  intros Hc Hz Hcand Hq Hp Hf Ht w1 w2. pose proof (run_indexed (absw w) z Hc Hz) as H1.
  assert (E1 : absw w1 = snd (run_doc reap_blobs_indexed (absw w))) by apply snd_run_absw.
  rewrite <- E1 in H1. destruct H1 as [c1 n1 k1 g1 b1 (z1 & Hz1 & i1)].
  assert (Hb1 : w_blobs w1 !! p = Some f).
  { change (w_blobs (absw w1) !! p = Some f). rewrite b1; [done|]. intros (id' & _ & Hp' & Hq').
    rewrite (blob_path_inj id' id p) in Hq' by done. congruence. }
  split; [done|].
  assert (E2 : absw w2 = snd (run_doc reap_blobs_indexed (later t (absw w1)))).
  { unfold w2. rewrite snd_run_absw, absw_later; [done|]. change (w_now (absw w1) <= t)%Z. by rewrite n1. }
  destruct (zset_at_expire _ t _ _ Hz1) as (z2 & Hz2 & Hsub).
  pose proof (run_indexed (later t (absw w1)) z2) as H2. rewrite <- E2 in H2.
  destruct H2 as [_ _ _ _ b2 _]; [done|done|].
  change (w_blobs (absw w2) !! p = Some f). rewrite b2; [done|]. intros (id' & (s & Hs & _) & Hp' & _).
  rewrite (blob_path_inj id' id p) in Hs by done.
  destruct Hsub as [->| ->]; [|by rewrite lookup_empty in Hs]. destruct (i1 id) as [Hnone _].
  by rewrite Hnone in Hs.
Qed.
End IndexedServer.

(** ** The full scan *)

(** Deleting, of these paths, those that [c] selects. *)
Definition purge (c : string -> bool) (paths : list string) (w : vworld) : vworld :=
  foldl (fun w p => if c p then del_blob p w else w) w paths.

Lemma purge_spec c paths (w : vworld) :
  purge c paths w = set_blobs (w_blobs (purge c paths w)) w /\
  forall p, w_blobs (purge c paths w) !! p = if bool_decide (p ∈ paths) && c p then None else w_blobs w !! p.
Proof.
  revert w. induction paths as [|q paths IH]; intros w; cbn [purge foldl].
  - split; [by destruct w|]. intros p. by rewrite bool_decide_eq_false_2 by set_solver.
  - destruct (IH (if c q then del_blob q w else w)) as [E Hb]. unfold purge in E, Hb. split.
    + rewrite E at 1. by destruct (c q).
    + intros p. rewrite Hb. destruct (c q) eqn:Hq.
      * cbn. destruct (decide (p = q)) as [->|Hne].
        { rewrite lookup_delete_eq, Hq, (bool_decide_eq_true_2 (q ∈ q :: paths)) by set_solver. by case_match. }
        rewrite lookup_delete_ne by done. by rewrite (bool_decide_ext (p ∈ q :: paths) (p ∈ paths)) by set_solver.
      * destruct (decide (p = q)) as [->|Hne].
        { by rewrite Hq, !andb_false_r. }
        by rewrite (bool_decide_ext (p ∈ q :: paths) (p ∈ paths)) by set_solver.
Qed.

Definition is_temp (p : string) : bool := ends_with ".tmp" (base_name p).
Definition is_blob (p : string) : bool := negb (is_temp p) && is_envelope_id (base_name p).

(** The blobs are where [_blob_path] puts them. *)
Definition well_placed (b : gmap string file) : Prop :=
  forall p f, b !! p = Some f -> is_blob p = true -> _blob_path (base_name p) = Ok p.

Lemma run_stat p f (w : vworld) : w_blobs w !! p = Some f -> run_doc (stat_mtime p) w = (Ok (f_mtime f), w).
Proof. intros Hf. unfold stat_mtime. cbn. by rewrite Hf. Qed.

Lemma run_unlink p f (w : vworld) : calm w -> w_blobs w !! p = Some f -> run_doc (unlink p) w = (Ok tt, del_blob p w).
Proof.
  intros Hc Hf. destruct (calm_pop w Hc) as [Hn Hp]. unfold unlink. cbn. rewrite Hf, Hn. cbn. by rewrite Hp.
Qed.

(** The age at which a temporary file is abandoned. *)
Definition stale (now : Z) (b : gmap string file) (p : string) : bool :=
  match b !! p with Some f => (STALE_TMP_AGE_SECONDS <=? now - f_mtime f)%Z | None => false end.

Lemma run_temp_loop now b paths stats (w : vworld) :
  calm w -> NoDup paths -> (forall p, p ∈ paths -> w_blobs w !! p = b !! p) -> (forall p, p ∈ paths -> is_Some (b !! p)) ->
  exists stats', run_doc (reap_temp_loop now paths stats) w = (Ok stats', purge (stale now b) paths w).
Proof.
  revert stats w. induction paths as [|p paths IH]; intros stats w Hc Hnd Hb Hsome; cbn [reap_temp_loop purge foldl].
  - by exists stats.
  - apply NoDup_cons in Hnd as [Hp Hnd]. destruct (Hsome p) as [f Hf]; [left|].
    assert (Hwf : w_blobs w !! p = Some f) by (rewrite Hb; [done|left]).
    rewrite run_doc_bind, run_doc_try, run_doc_bind, (run_stat p f) by done.
    unfold stale at 2. rewrite Hf. rewrite Z.ltb_antisym.
    destruct (STALE_TMP_AGE_SECONDS <=? now - f_mtime f)%Z; cbn [negb].
    + rewrite run_doc_bind, (run_unlink p f), run_doc_ret by done. apply IH; [done|done| |].
      * intros p' Hp'. cbn. rewrite lookup_delete_ne by set_solver. apply Hb. by right.
      * intros p' Hp'. apply Hsome. by right.
    + rewrite run_doc_ret. apply IH; [done|done| |]; intros p' Hp'; [apply Hb|apply Hsome]; by right.
Qed.

Lemma run_scan_one limit now stats p f (w : vworld) :
  calm w -> w_blobs w !! p = Some f -> _blob_path (base_name p) = Ok p ->
  exists stats', run_doc (scan_one limit now stats p) w =
    (Ok stats', if negb (queued (base_name p) (w_redis w)) then del_blob p w else w).
Proof.
  intros Hc Hf Hp. destruct stats as [a b c d e]. unfold scan_one.
  rewrite run_doc_try, run_doc_bind, run_meta_exists by done.
  destruct (queued (base_name p) (w_redis w)); cbn [negb]; [by eexists|].
  rewrite run_doc_bind, (run_stat p f) by done.
  destruct (now - f_mtime f <=? limit)%Z; rewrite run_doc_bind, (run_secure_delete _ p) by done; rewrite run_doc_ret; by eexists.
Qed.

Lemma run_scan_all limit now v paths stats (w : vworld) :
  calm w -> NoDup paths -> w_redis w = v ->
  (forall p, p ∈ paths -> is_Some (w_blobs w !! p) /\ _blob_path (base_name p) = Ok p) ->
  exists stats', run_doc (scan_all limit now paths stats) w =
    (Ok stats', purge (fun p => negb (queued (base_name p) v)) paths w).
Proof.
  revert stats w. induction paths as [|p paths IH]; intros stats w Hc Hnd Hv Hall; cbn [scan_all purge foldl].
  - by exists stats.
  - apply NoDup_cons in Hnd as [Hp Hnd]. destruct (Hall p) as [[f Hf] Hpath]; [left|].
    destruct (run_scan_one limit now stats p f w Hc Hf Hpath) as [s1 E]. rewrite run_doc_bind, E, Hv.
    destruct (queued (base_name p) v); cbn [negb]; (apply IH; [done|done|done|]); intros p' Hp'.
    + apply Hall. by right.
    + cbn. rewrite lookup_delete_ne by set_solver. apply Hall. by right.
Qed.

(** What the scan deletes: abandoned temporary files, and every blob whose envelope is not queued,
    whatever its age. *)
Definition scan_gone (now : Z) (v : rview) (b : gmap string file) (p : string) : bool :=
  match b !! p with
  | Some f => if is_temp p then (STALE_TMP_AGE_SECONDS <=? now - f_mtime f)%Z else is_blob p && negb (queued (base_name p) v)
  | None => false
  end.

Lemma paths_elem (b : gmap string file) (c : string -> bool) p :
  p ∈ List.filter c (map_to_list b).*1 <-> is_Some (b !! p) /\ c p = true.
Proof.
  rewrite list_elem_of_In, List.filter_In, <- list_elem_of_In, list_elem_of_fmap. split.
  - intros [([q f] & -> & Hin) Hc]. apply elem_of_map_to_list in Hin. by split; [exists f|].
  - intros [[f Hf] Hc]. split; [|done]. exists (p, f). split; [done|by apply elem_of_map_to_list].
Qed.

Lemma paths_nodup (b : gmap string file) c : NoDup (List.filter c (map_to_list b).*1).
Proof.
  eapply sublist_NoDup; [apply (NoDup_fst_map_to_list b)|]. apply filter_sublist.
Qed.

Lemma run_list (w : vworld) : run_doc list_files w = (Ok (map_to_list (w_blobs w)).*1, w).
Proof. done. Qed.

Lemma run_full_scan s (w : vworld) :
  calm w -> well_placed (w_blobs w) ->
  exists st b', run_doc (reap_blobs_full_scan s) w = (Ok st, set_blobs b' w) /\
    forall p, b' !! p = if scan_gone (w_now w) (w_redis w) (w_blobs w) p then None else w_blobs w !! p.
Proof.
  intros Hc Hplaced. unfold reap_blobs_full_scan. rewrite run_doc_bind, run_doc_now, run_doc_bind.
  unfold reap_stale_temp_files. rewrite run_doc_bind, run_list.
  set (temps := List.filter (A := string) _ _).
  destruct (run_temp_loop (w_now w) (w_blobs w) temps (TmpStats 0 0 0) w) as [st1 E1]; [done|apply paths_nodup|done| |].
  { intros p Hp. by apply paths_elem in Hp as [? _]. }
  rewrite E1. destruct (purge_spec (stale (w_now w) (w_blobs w)) temps w) as [Ew1 Hb1].
  set (w1 := purge _ temps w) in *. assert (Hc1 : calm w1) by by rewrite Ew1.
  assert (Hr1 : w_redis w1 = w_redis w) by by rewrite Ew1.
  rewrite run_doc_bind. unfold _iter_blob_paths. rewrite run_doc_bind, run_list, run_doc_ret.
  change (fun p => negb (ends_with ".tmp" (base_name p)) && is_envelope_id (base_name p)) with is_blob.
  set (blobs := List.filter (A := string) _ _).
  assert (Hin : forall p, p ∈ blobs <-> is_Some (w_blobs w1 !! p) /\ is_blob p = true) by (intros p; apply paths_elem).
  destruct (run_scan_all (hard_age_limit s) (w_now w) (w_redis w) blobs (ScanStats 0 0 0 0 0) w1) as [st2 E2];
    [done|apply paths_nodup|done| |].
  { intros p [[f Hf] Hp]%Hin. split; [by exists f|]. rewrite Hb1 in Hf. case_match; [done|]. by eapply Hplaced. }
  rewrite run_doc_bind, E2, run_doc_ret.
  destruct (purge_spec (fun p => negb (queued (base_name p) (w_redis w))) blobs w1) as [Ew2 Hb2].
  eexists _, (w_blobs (purge (fun p => negb (queued (base_name p) (w_redis w))) blobs w1)). split.
  { f_equal. etrans; [exact Ew2|]. generalize (w_blobs (purge (fun p => negb (queued (base_name p) (w_redis w))) blobs w1)).
    intros b. exact (f_equal (set_blobs b) Ew1). }
  intros p. rewrite Hb2, Hb1.
  unfold scan_gone, stale. destruct (w_blobs w !! p) as [f|] eqn:Hf; [|by repeat case_match].
  assert (Ht : bool_decide (p ∈ temps) = is_temp p).
  { apply eq_bool_prop_intro. rewrite bool_decide_spec. unfold temps. rewrite paths_elem, Hf. unfold is_temp.
    split; [by intros [_ ->]|]. intros Htmp. split; [done|by apply Is_true_true]. }
  rewrite Ht. destruct (is_temp p) eqn:Htmp; cbn [andb].
  - assert (bool_decide (p ∈ blobs) = false) as ->.
    { apply bool_decide_eq_false. intros [_ Hb]%Hin. unfold is_blob in Hb. by rewrite Htmp in Hb. }
    cbn [andb]. by case_match.
  - assert (bool_decide (p ∈ blobs) = is_blob p) as ->; [|done].
    apply eq_bool_prop_intro. rewrite bool_decide_spec, Hin, Hb1, Hf, Ht. cbn [andb].
    split; [by intros [_ ->]|]. intros Hb. split; [done|by apply Is_true_true].
Qed.

(** ** Names of blobs *)

Lemma split_none sep s : string_forallb (fun c => negb (Ascii.eqb c sep)) s = true -> split_on sep s = [s].
Proof.
  induction s as [|c s IH]; [done|]. cbn. intros [Hc Hs]%andb_true_iff. apply negb_true_iff in Hc.
  by rewrite Hc, (IH Hs).
Qed.

Lemma hex_not_slash c : is_lower_hex c = true -> Ascii.eqb c "/" = false.
Proof. intros Hc. destruct (Ascii.eqb_spec c "/") as [->|]; [discriminate Hc|done]. Qed.

Lemma hex_no_slash s :
  string_forallb is_lower_hex s = true -> string_forallb (fun c => negb (Ascii.eqb c "/")) s = true.
Proof.
  induction s as [|c s IH]; [done|]. cbn. intros [Hc Hs]%andb_true_iff. by rewrite hex_not_slash, IH.
Qed.

Lemma hex_not_temp s : string_forallb is_lower_hex s = true -> ends_with ".tmp" s = false.
Proof.
  induction s as [|c s IH]; intros Hs; [done|]. pose proof Hs as Hs'. cbn in Hs. apply andb_true_iff in Hs as [_ Hs].
  cbn [ends_with]. rewrite (IH Hs), orb_false_r. destruct (String.eqb_spec (String c s) ".tmp") as [E|]; [|done].
  by rewrite E in Hs'.
Qed.

Lemma blob_base_name id p : _blob_path id = Ok p -> base_name p = id.
Proof.
  intros Hp. pose proof (blob_path_inv _ _ Hp) as [[_ Hhex]%andb_true_iff _].
  apply blob_path_prefix in Hp as (a & b & c & d & rest & Hid & ->). unfold base_name.
  rewrite Hid in Hhex. cbn [string_forallb] in Hhex. repeat (apply andb_true_iff in Hhex as [? Hhex]).
  cbn [split_on]. rewrite (hex_not_slash a), (hex_not_slash b), (hex_not_slash c), (hex_not_slash d) by done.
  cbn [Ascii.eqb Bool.eqb]. rewrite split_none; [done|]. rewrite Hid. apply hex_no_slash. cbn. by repeat (apply andb_true_iff; split).
Qed.

Lemma envelope_file id p : is_envelope_id id = true -> _blob_path id = Ok p -> is_blob p = true.
Proof.
  intros Hid Hp. unfold is_blob, is_temp. rewrite (blob_base_name _ _ Hp), Hid, hex_not_temp; [done|].
  by apply andb_true_iff in Hid as [_ ?].
Qed.

Lemma envelope_path id : is_envelope_id id = true -> exists p, _blob_path id = Ok p.
Proof.
  intros [Hlen Hhex]%andb_true_iff. unfold _blob_path, lower_hex_at_least.
  assert ((4 <=? string_len id)%Z = true) as -> by (zify_bool; lia). rewrite Hhex. by eexists.
Qed.

Section Scan.
  Context `{R : Redis}.

(** The rare full scan.  Without failures, and with every blob where the relay puts it, the scan
    deletes the temporary files that are an hour old and every blob whose envelope is not in Redis;
    it keeps every other file, so every file of a queued envelope, and changes nothing else. *)
Theorem full_scan_exact s (w : world rstore) :
  calm w -> well_placed (w_blobs w) ->
  exists b', snd (observe (reap_blobs_full_scan s) w) = set_blobs b' (absw w) /\
    forall p, b' !! p = if scan_gone (w_now w) (w_redis (absw w)) (w_blobs w) p then None else w_blobs w !! p.
Proof.
  intros Hc Hp. rewrite observe_doc. destruct (run_full_scan s (absw w) Hc Hp) as (st & b' & E & Hb). exists b'. by rewrite E.
Qed.

Lemma split_write `{Sha256} a blob path :
  _blob_path (ea_envelope_id a) = Ok path ->
  exists k, detached (write_blob_then_enqueue a blob) = Vis (EBlobWrite path blob) k /\
    forall w : vworld, snd (run_doc (k true) w) =
      snd (run_doc (try_except (enqueue_envelope a) (fun e =>
             if is_enqueue_rejected e then
               let! _ := try_except (secure_delete_blob (ea_envelope_id a)) (fun _ => ret false) in raise e
             else raise e)) w).
Proof.
  intros Hp. unfold detached, write_blob_then_enqueue, write_blob, bind at 1 2. rewrite Hp. cbn [of_res pbind].
  eexists. split; [done|]. intros w. cbn [ret pbind]. apply run_detached.
Qed.

(** The full scan can take the file of a message that is just being posted.  The post writes the
    file first and the metadata after it; a scan that falls between the two finds a file, however
    young, without metadata, and deletes it, although a comment says that a fresh blob is left
    alone.  The post then succeeds: the recipient has the message in the inbox, and its ciphertext
    is gone. *)
Theorem full_scan_takes_fresh_blob `{Sha256} s (a : enqueue_args) blob path (w : world rstore) meta z p idx :
  let v := w_redis (absw w) in
  let id := ea_envelope_id a in
  let exp := expiry (ea_timestamp a) (ea_ttl a) (w_now w) (ea_hard_ceiling a) in
  calm w -> well_placed (w_blobs w) -> is_envelope_id id = true -> _blob_path id = Ok path ->
  (w_now w < exp)%Z -> build_meta a exp = Ok meta -> rv_keys v !! _envelope_meta_key id = None ->
  zset_at (_inbox_key (ea_recipient a)) v = Some z ->
  (Z.of_nat (size (live (w_now w) z)) < MAX_INBOX_QUEUE_DEPTH)%Z ->
  set_at (_pending_recipients_key id) v = Some p -> zset_at _BLOB_EXPIRY_INDEX_KEY v = Some idx ->
  exists w', rtc (cstep (fun _ => False) (fun _ => False))
      ([detached (write_blob_then_enqueue a blob); detached (reap_blobs_full_scan s)], w) ([Ret tt; Ret tt], w') /\
    posted a (w_now w) exp meta z p idx v (w_redis (absw w')) /\ w_blobs w' !! path = None.
Proof.
  intros v id exp Hc Hplaced Hid Hpath Hexp Hm Hk Hz Hsz Hp Hidx.
  destruct (split_write a blob path Hpath) as (k & Ek & Hrun).
  set (w1 := put_blob path blob w).
  assert (E1 : ev_run (EBlobWrite path blob) w = (true, w1)).
  { unfold ev_run, ev_exec. unfold next_fault. rewrite Hc. unfold pop_fault. rewrite Hc. unfold w1, put_blob.
    f_equal. unfold set_blobs, set_faults. cbn. by rewrite Hc. }
  assert (Hplaced1 : well_placed (w_blobs w1)).
  { intros q f Hf Hblob. cbn in Hf. apply lookup_insert_Some in Hf as [[<- _]|[_ Hf]]; [|by eapply Hplaced].
    by rewrite (blob_base_name id). }
  set (w2 := snd (run (detached (reap_blobs_full_scan s)) w1)).
  destruct (run_full_scan s (absw w1)) as (st & b' & E2 & Hb'); [done|done|].
  assert (Ew2 : absw w2 = set_blobs b' (absw w1)) by (unfold w2; by rewrite snd_run_absw, run_detached, E2).
  set (w3 := snd (run (k true) w2)). exists w3.
  assert (Hsteps : rtc (cstep (fun _ => False) (fun _ => False))
      ([detached (write_blob_then_enqueue a blob); detached (reap_blobs_full_scan s)], w) ([Ret tt; Ret tt], w3)).
  { eapply rtc_l; [by apply (step_event _ _ 0 bool (EBlobWrite path blob) k); rewrite Ek|].
    rewrite E1. cbn [fst snd list_insert]. etrans; [by eapply (cstep_run _ _ _ 1)|]. cbn [list_insert].
    exact (cstep_run _ _ [k true; Ret tt] 0 (k true) w2 eq_refl). }
  split; [exact Hsteps|].
  assert (E3 : absw w3 = snd (run_doc (k true) (absw w2))) by apply snd_run_absw.
  rewrite Hrun, Ew2, run_doc_try in E3.
  destruct (run_enqueue a (set_blobs b' (absw w1)) meta z p idx) as (v' & He & Hpost); [done..|].
  rewrite He in E3. cbn [snd] in E3. split; [by rewrite E3|].
  change (w_blobs (absw w3) !! path = None). rewrite E3. cbn [w_blobs set_redis set_blobs]. rewrite Hb'.
  unfold scan_gone. cbn [w_blobs absw set_redis]. cbn. rewrite lookup_insert_eq.
  pose proof (envelope_file _ _ Hid Hpath) as Hblob. unfold is_blob in Hblob.
  apply andb_true_iff in Hblob as [Ht%negb_true_iff Hbn]. unfold is_blob. rewrite Ht, Hbn. cbn [negb andb].
  rewrite (blob_base_name id) by done. unfold queued. change (rv_keys (rview_at (w_now w) (w_redis w))) with (rv_keys v).
  by rewrite Hk.
Qed.
End Scan.

(** ** Witnesses *)

Module ReaperDemo.
#[local] Instance demo_sha : Sha256 := fun s => s.

Definition settings : Settings := mkSettings "relay" "" "" 86400 1000 30 0 604800 true "" 10 "".
Definition server (keys : list (string * entry)) (blobs : gmap string file) : world (rstore (Redis := Mem_Redis)) :=
  World 1000 (View (list_to_map keys) ∅ []) empty_db empty_db blobs [] (fun _ => "t") [] no_network [].

(** Two expired candidates, one of them still queued. *)
Definition index : gmap string Z := {["abcd" := 900%Z; "abce" := 900%Z]}.
Definition busy : world (rstore (Redis := Mem_Redis)) :=
  server [(_BLOB_EXPIRY_INDEX_KEY, Entry (VZSet index) None); (_envelope_meta_key "abcd", Entry (VStr "{}") (Some 1001%Z))]
    {["ab/cd/abcd" := File "x" 900; "ab/ce/abce" := File "y" 900]}.

Lemma indexed_witness : indexed_pass index (absw busy) (snd (observe reap_blobs_indexed busy)).
Proof. apply (indexed_pass_exact busy index); [reflexivity|vm_compute; reflexivity]. Defined.

Lemma forgotten_witness :
  let w1 := snd (run reap_blobs_indexed busy) in
  w_blobs w1 !! "ab/cd/abcd" = Some (File "x" 900) /\
  w_blobs (snd (run reap_blobs_indexed (set_now 5000 w1))) !! "ab/cd/abcd" = Some (File "x" 900).
Proof.
  apply (skipped_candidate_forgotten busy index "abcd" "ab/cd/abcd" (File "x" 900) 5000);
    [reflexivity|vm_compute; reflexivity| |vm_compute; reflexivity..|vm_compute; discriminate].
  exists 900%Z. split; [vm_compute; reflexivity|split; vm_compute; discriminate].
Defined.

Definition id : string := string_of_list_ascii (repeat "a"%char 64).
Definition path : string := match _blob_path id with Ok p => p | Raise _ => "" end.
Definition post : enqueue_args :=
  EnqueueArgs id "alice" "bob" 1000 600 "sig" 86400 None false None None None None None.
Definition meta : dict := match build_meta post 1600 with Ok d => d | Raise _ => [] end.
Definition quiet : world (rstore (Redis := Mem_Redis)) := server [] ∅.

Lemma placed : well_placed (w_blobs quiet).
Proof. intros p f Hf. change ((∅ : gmap string file) !! p = Some f) in Hf. by rewrite lookup_empty in Hf. Qed.

Lemma scan_witness :
  exists b', snd (observe (reap_blobs_full_scan settings) quiet) = set_blobs b' (absw quiet) /\
    forall p, b' !! p = if scan_gone 1000 (w_redis (absw quiet)) ∅ p then None else (∅ : gmap string file) !! p.
Proof. apply (full_scan_exact settings quiet); [reflexivity|apply placed]. Defined.

Lemma fresh_witness :
  exists w', rtc (cstep (fun _ => False) (fun _ => False))
      ([detached (write_blob_then_enqueue post "cipher"); detached (reap_blobs_full_scan settings)], quiet)
      ([Ret tt; Ret tt], w') /\
    posted post 1000 1600 meta ∅ ∅ ∅ (w_redis (absw quiet)) (w_redis (absw w')) /\ w_blobs w' !! path = None.
Proof.
  apply (full_scan_takes_fresh_blob settings post "cipher" path quiet meta ∅ ∅ ∅);
    try (vm_compute; reflexivity). apply placed.
Defined.
End ReaperDemo.
