(* ===== verification/Messages.v ===== *)
(** * Direct messages (api/messages.py)

    The endpoints for messages from one person to one other: posting here or queueing for the
    recipient's relay, reading, acknowledging, read receipts and deletion by the sender.  A handler
    runs inside [with_session]; the rate limits in front are [rate_limit_by_pubkey].  A request body
    is what pydantic hands over when its [valid_] test is passed. *)

From Stdlib Require Import Ascii String.
From stdpp Require Import prelude gmap strings list.
From S2P Require Import Prelude Json Codec RedisStore Models Effects Crypto Payloads Config Sessions RateLimit Deps.
From S2P Require Import BlobStorage Queue.

#[local] Open Scope morok_scope.

(** ** Shared by the endpoints *)

Definition hex_of_len (n : Z) (s : string) : bool := (string_len s =? n)%Z && string_forallb is_lower_hex s.
Definition is_any_hex (c : ascii) : bool := bool_decide (is_Some (hex_val c)).
Definition any_hex_of_len (n : Z) (s : string) : bool := (string_len s =? n)%Z && string_forallb is_any_hex s.

(** [len(envelope_id) != 64 or not all(c in "0123456789abcdef" ...)] *)
Definition well_formed_id (envelope_id : string) : bool := hex_of_len 64 envelope_id.

(** [select(User).where(User.pubkey == pubkey).where(User.deleted_at.is_(None))] *)
Definition active_user (pubkey : string) (u : User) : bool :=
  String.eqb (u_pubkey u) pubkey && negb (bool_decide (is_Some (u_deleted_at u))).
Definition find_user (pubkey : string) : M (option User) :=
  sql (fun db => (select_one (active_user pubkey) (t_users db), db)).

(** Adding a pending row to the outbound queue; its id is a random UUID. *)
Definition new_fed_row (id envelope_id : string) (data : dict) (target : string) (now : Z) : FederationOutboundQueue :=
  mkFed id envelope_id data target PENDING 0 now None now None.
Definition add_fed_row (envelope_id : string) (data : dict) (target : string) (now : Z) : M unit :=
  let! id := token_ in
  sql (fun db => (tt, set_fedqueue (t_fedqueue db ++ [new_fed_row id envelope_id data target now]) db)).

(** [_synthetic_queue_id(prefix, *parts)] (api/groups.py) *)
Definition _synthetic_queue_id `{Sha256} (prefix : string) (parts : list string) : string :=
  let digest := sha256_hex (String.concat "" (map (fun p => p +:+ String "000" "") parts)) in
  let max_hash_len := (64 - string_len prefix - 1)%Z in
  if (max_hash_len <=? 0)%Z then substring 0 64 digest
  else prefix +:+ "-" +:+ substring 0 (Z.to_nat max_hash_len) digest.

(** A control message for another relay, once. *)
Definition same_target (envelope_id target : string) (r : FederationOutboundQueue) : bool :=
  String.eqb (fq_envelope_id r) envelope_id && String.eqb (fq_target_relay r) target.
Definition queue_control (envelope_id : string) (data : dict) (target : string) : M unit :=
  let! existing := sql (fun db => (select_one (same_target envelope_id target) (t_fedqueue db), db)) in
  match existing with
  | Some _ => ret tt
  | None =>
      let! now := now_ in
      add_fed_row envelope_id data target now
  end.

(** ** Posting *)

Record EnvelopeIn := mkEnvelopeIn {
  e_from : string; e_to : string; e_ts : Z; e_ttl : Z; e_blob : string; e_sig : string
}.
Definition valid_EnvelopeIn (b : EnvelopeIn) : bool :=
  hex_of_len 64 (e_from b) && hex_of_len 64 (e_to b) && (0 <=? e_ts b)%Z && (1 <=? e_ttl b)%Z && (e_ttl b <=? 86400)%Z
  && hex_of_len 128 (e_sig b).

Record EnvelopeAck := mkAck { ack_envelope_id : string; ack_queued : bool; ack_expires_at : Z }.

Definition envelope_too_large (s : Settings) : string :=
  "blob_too_large_max_" +:+ print_Z (max_blob_bytes s) +:+ "_bytes".

(** The part of the handler up to the routing: the keys, the ciphertext and the envelope id. *)
Definition admit_envelope `{Sha256} `{Nacl} (s : Settings) (body : EnvelopeIn) (current : Session)
    : M (string * string * string * string * Z) :=
  if negb (String.eqb (e_from body) (pubkey_hex current)) then http 403 "from_field_must_match_authenticated_pubkey"
  else
    let! sender_pubkey := fromhex_ (pubkey_hex current) in
    let! recipient_pubkey := fromhex_ (e_to body) in
    let canonical := canonical_json (envelope_payload (e_from body) (e_to body) (e_ts body) (e_ttl body) (e_blob body)) in
    match bytes_fromhex (e_sig body) with
    | None => http 400 "malformed_sig_hex"
    | Some sig_bytes =>
        if negb (ed25519_verify canonical sig_bytes sender_pubkey) then http 400 "signature_invalid"
        else
          let! now := now_ in
          if (e_ts body <? now - 300)%Z then http 400 "envelope_too_old"
          else if (now + 60 <? e_ts body)%Z then http 400 "envelope_from_the_future"
          else
            match b64decode (e_blob body) with
            | None => http 400 "blob_not_base64"
            | Some blob_bytes =>
                if (max_blob_bytes s <? string_len blob_bytes)%Z then http 413 (envelope_too_large s)
                else
                  match envelope_id (mkEnvelope sender_pubkey recipient_pubkey (e_ts body) (e_ttl body) blob_bytes) with
                  | None => raise OverflowError
                  | Some id => ret (sender_pubkey, recipient_pubkey, blob_bytes, id, now)
                  end
            end
    end.

Definition dm_args (s : Settings) (body : EnvelopeIn) (id : string) (sender_username : option string) : enqueue_args :=
  EnqueueArgs id (e_from body) (e_to body) (e_ts body) (e_ttl body) (e_sig body) (message_ttl_hard_seconds s)
    sender_username false None None None None None.

Definition deliver_locally `{Sha256} (s : Settings) (body : EnvelopeIn) (id blob_bytes : string)
    (sender_username : option string) : M EnvelopeAck :=
  let! dup := envelope_exists id in
  if (dup : bool) then ret (mkAck id false 0)
  else
    let! expires_at := write_blob_then_enqueue (dm_args s body id sender_username) blob_bytes in
    match expires_at with
    | None => ret (mkAck id false 0)
    | Some t =>
        let! _ := spawn (TPush [e_to body]) in
        ret (mkAck id true t)
    end.

Definition envelope_dict (body : EnvelopeIn) (sender_username : option string) : dict :=
  [("from", JStr (e_from body)); ("to", JStr (e_to body)); ("ts", JNum (e_ts body)); ("ttl", JNum (e_ttl body));
   ("blob", JStr (e_blob body)); ("sig", JStr (e_sig body)); ("from_username", opt_str sender_username)].

Definition deliver_federated (s : Settings) (body : EnvelopeIn) (id target : string) (now : Z)
    (sender_username : option string) : M EnvelopeAck :=
  let! existing := sql (fun db =>
    (select_one (fun r => String.eqb (fq_envelope_id r) id) (t_fedqueue db), db)) in
  match existing with
  | Some _ => ret (mkAck id false 0)
  | None =>
      let expires_at := expiry (e_ts body) (e_ttl body) now (message_ttl_hard_seconds s) in
      let! _ := add_fed_row id (envelope_dict body sender_username) target now in
      ret (mkAck id true expires_at)
  end.

Definition send_envelope `{Sha256} `{Nacl} (s : Settings) (body : EnvelopeIn) (current : Session) : M EnvelopeAck :=
  let! (sender_pubkey, recipient_pubkey, blob_bytes, id, now) := admit_envelope s body current in
  let! sender_user := find_user sender_pubkey in
  let sender_username := sender_user ≫= u_username in
  let! recipient := find_user recipient_pubkey in
  match recipient with
  | None => http 404 "recipient_unknown_call_lookup_first"
  | Some recipient =>
      if String.eqb (u_home_relay recipient) (relay_name s) then deliver_locally s body id blob_bytes sender_username
      else deliver_federated s body id (u_home_relay recipient) now sender_username
  end.

(** ** Reading and acknowledging *)

(** The envelopes; their count is its length. *)
Definition list_my_inbox (current : Session) (limit : Z) : M (list json) :=
  if (limit <? 1)%Z || (200 <? limit)%Z then http 400 "limit_must_be_1_to_200"
  else list_inbox (pubkey_hex current) limit.

Definition get_envelope_blob (envelope_id : string) (current : Session) : M string :=
  if negb (well_formed_id envelope_id) then http 400 "malformed_envelope_id"
  else
    let! mine := is_envelope_in_inbox (pubkey_hex current) envelope_id in
    if negb mine then http 404 "envelope_not_in_your_inbox"
    else
      let! blob := read_blob envelope_id in
      match blob with
      | None => http 404 "blob_not_found"
      | Some b => ret b
      end.

Definition ack_envelope (envelope_id : string) (current : Session) : M unit :=
  if negb (well_formed_id envelope_id) then http 400 "malformed_envelope_id"
  else
    let! _ := acknowledge_envelope (pubkey_hex current) envelope_id in
    ret tt.

(** [list(dict.fromkeys(out))] of well-formed ids; [None] is a 422. *)
Fixpoint unique_ids (seen l : list string) : list string :=
  match l with
  | [] => []
  | x :: l' => if bool_decide (x ∈ seen) then unique_ids seen l' else x :: unique_ids (x :: seen) l'
  end.
Definition validate_MailSeenRequest (envelope_ids : list string) : option (list string) :=
  if (1 <=? length envelope_ids)%nat && (length envelope_ids <=? 200)%nat && forallb well_formed_id envelope_ids
  then Some (unique_ids [] envelope_ids) else None.

Definition mail_seen (envelope_ids : list string) (current : Session) : M Z :=
  mark_mail_seen (pubkey_hex current) envelope_ids.

(** ** Read receipts *)

Record ReadReceiptItem := mkReceipt {
  r_envelope_id : string; r_sender_pubkey_hex : string; r_group_id : option string;
  r_reader_signature_hex : option string; r_signed_at : option Z
}.
Definition valid_ReadReceiptItem (r : ReadReceiptItem) : bool :=
  any_hex_of_len 64 (r_envelope_id r) && any_hex_of_len 64 (r_sender_pubkey_hex r)
  && (string_len (default "" (r_group_id r)) <=? 64)%Z
  && match r_reader_signature_hex r with Some g => hex_of_len 128 g | None => true end
  && match r_signed_at r with Some t => (0 <=? t)%Z | None => true end.

Definition _READ_RECEIPT_SIG_WINDOW_SECONDS : Z := 300.

Definition _verify_read_receipt_signature `{Nacl} (envelope_id sender_pubkey_hex reader_pubkey_hex : string)
    (group_id : option string) (signed_at : Z) (signature_hex : string) : M bool :=
  let! now := now_ in
  if (_READ_RECEIPT_SIG_WINDOW_SECONDS <? Z.abs (now - signed_at))%Z then ret false
  else
    let message := canonical_json (read_receipt_payload envelope_id sender_pubkey_hex reader_pubkey_hex group_id signed_at) in
    match bytes_fromhex signature_hex, bytes_fromhex reader_pubkey_hex with
    | Some sig_bytes, Some pubkey_bytes => ret (ed25519_verify message sig_bytes pubkey_bytes)
    | _, _ => ret false
    end.

(** The payload for the sender's relay; the signature goes along when both of its parts are there. *)
Definition receipt_payload (r : ReadReceiptItem) (reader : string) : dict :=
  [("kind", JStr "read_receipt"); ("envelope_id", JStr (r_envelope_id r));
   ("sender_pubkey_hex", JStr (r_sender_pubkey_hex r)); ("reader_pubkey_hex", JStr reader);
   ("group_id", opt_str (r_group_id r))] ++
  match r_reader_signature_hex r, r_signed_at r with
  | Some sig, Some t => [("reader_signature_hex", JStr sig); ("signed_at", JNum t)]
  | _, _ => []
  end.

Inductive receipt_outcome := Sent | Federated | Skipped.

Definition post_read_receipt `{Sha256} `{Nacl} (s : Settings) (reader : string) (r : ReadReceiptItem)
    : M receipt_outcome :=
  if String.eqb (r_sender_pubkey_hex r) reader then ret Skipped
  else
    let! valid :=
      match r_reader_signature_hex r, r_signed_at r with
      | Some sig, Some t =>
          _verify_read_receipt_signature (r_envelope_id r) (r_sender_pubkey_hex r) reader (r_group_id r) t sig
      | _, _ => ret true
      end in
    if negb valid then ret Skipped
    else
      match bytes_fromhex (r_sender_pubkey_hex r) with
      | None => ret Skipped
      | Some sender_pubkey =>
          let! delivered := was_delivered_to (r_envelope_id r) reader in
          if negb delivered then ret Skipped
          else
            let! sender_user := find_user sender_pubkey in
            match sender_user with
            | None => ret Skipped
            | Some u =>
                if String.eqb (u_home_relay u) (relay_name s) then
                  let! _ := publish_read_receipt (r_sender_pubkey_hex r) (r_envelope_id r) reader (r_group_id r) in
                  ret Sent
                else if String.eqb (u_home_relay u) "" then ret Skipped
                else
                  let! _ := queue_control
                    (_synthetic_queue_id "read" [r_envelope_id r; reader; u_home_relay u])
                    (receipt_payload r reader) (u_home_relay u) in
                  ret Federated
            end
      end.

(** (sent, federated, skipped) *)
Fixpoint post_all_receipts `{Sha256} `{Nacl} (s : Settings) (reader : string) (reads : list ReadReceiptItem)
    (counts : Z * Z * Z) : M (Z * Z * Z) :=
  match reads with
  | [] => ret counts
  | r :: reads' =>
      let! o := post_read_receipt s reader r in
      let '(sent, federated, skipped) := counts in
      post_all_receipts s reader reads'
        match o with
        | Sent => (sent + 1, federated, skipped)
        | Federated => (sent, federated + 1, skipped)
        | Skipped => (sent, federated, skipped + 1)
        end%Z
  end.

Definition post_read_receipts `{Sha256} `{Nacl} (s : Settings) (reads : list ReadReceiptItem) (current : Session)
    : M (Z * Z * Z) :=
  post_all_receipts s (pubkey_hex current) reads (0, 0, 0)%Z.

(** ** Deletion by the sender *)

Record DMDeleteRequest := mkDMDelete { d_recipient_pubkey_hex : string; d_signature_hex : string; d_delete_ts : Z }.
Definition valid_DMDeleteRequest (b : DMDeleteRequest) : bool :=
  any_hex_of_len 64 (d_recipient_pubkey_hex b) && any_hex_of_len 128 (d_signature_hex b) && (0 <=? d_delete_ts b)%Z.

Definition dm_delete_data (envelope_id : string) (body : DMDeleteRequest) (caller : string) : dict :=
  [("kind", JStr "dm_delete"); ("envelope_id", JStr envelope_id);
   ("recipient_pubkey_hex", JStr (d_recipient_pubkey_hex body)); ("deleted_by_pubkey_hex", JStr caller);
   ("deleter_signature_hex", JStr (d_signature_hex body)); ("deleter_ts", JNum (d_delete_ts body))].

Record dm_deleted := DmDeleted {
  dd_deleted_from_queue : bool; dd_recipient_already_acked : bool; dd_federated_to_relay : option string
}.

Definition delete_dm_message `{Sha256} `{Nacl} (s : Settings) (envelope_id : string) (body : DMDeleteRequest)
    (current : Session) : M dm_deleted :=
  if negb (well_formed_id envelope_id) then http 400 "malformed_envelope_id"
  else
    let! now := now_ in
    if (7 * 86400 <? Z.abs (now - d_delete_ts body))%Z then http 400 "delete_ts_out_of_window"
    else
      let sig_message := canonical_json (delete_payload "dm_delete" envelope_id (d_delete_ts body) None) in
      match bytes_fromhex (d_signature_hex body), bytes_fromhex (pubkey_hex current) with
      | Some sig_bytes, Some sender_pubkey =>
          if negb (ed25519_verify sig_message sig_bytes sender_pubkey) then http 401 "invalid_delete_signature"
          else
            let! result := delete_envelope_by_sender envelope_id (pubkey_hex current) (d_recipient_pubkey_hex body) in
            let err := default "" (del_error result) in
            if String.eqb err "not_sender" then http 403 "not_message_sender"
            else if String.eqb err "group_message" then http 400 "use_group_delete_endpoint"
            else if String.eqb err "recipient_mismatch" then http 400 "recipient_mismatch"
            else
              let! federated_to :=
                match bytes_fromhex (d_recipient_pubkey_hex body) with
                | None => ret None
                | Some recipient_pubkey =>
                    let! recipient_user := find_user recipient_pubkey in
                    match recipient_user with
                    | None => ret None
                    | Some u =>
                        if String.eqb (u_home_relay u) "" || String.eqb (u_home_relay u) (relay_name s) then ret None
                        else
                          let! _ := queue_control (_synthetic_queue_id "dmdel" [envelope_id; u_home_relay u])
                                      (dm_delete_data envelope_id body (pubkey_hex current)) (u_home_relay u) in
                          ret (Some (u_home_relay u))
                    end
                end in
              if String.eqb err "not_found" && negb (bool_decide (is_Some federated_to))
              then http 404 "envelope_not_found"
              else ret (DmDeleted (deleted_from_queue result) (negb (meta_existed result)) federated_to)
      | _, _ => http 400 "malformed_signature_or_pubkey"
      end.
