(* ===== verification/MessagesFacts.v ===== *)
(** * Direct messages: properties

    Who may post what; what a post changes; that a message reaches its recipient and nobody else;
    which read receipts are passed on; what a sender must sign to delete. *)

From Stdlib Require Import Ascii String.
From stdpp Require Import prelude gmap strings list.
From S2P Require Import Prelude Json Codec RedisStore Models Effects Crypto Payloads Config Sessions RateLimit Deps Logic.
From S2P Require Import BlobStorage Queue QueueFacts MailboxFacts Messages.

#[local] Open Scope morok_scope.

(** ** Admission *)

Lemma run_fromhex s (w : vworld) :
  run_doc (fromhex_ s) w = (match bytes_fromhex s with Some b => Ok b | None => Raise (ValueError "fromhex") end, w).
Proof. unfold fromhex_. by destruct (bytes_fromhex s). Qed.

Section Post.
  Context `{Sha256} `{Nacl} (s : Settings) (body : EnvelopeIn) (current : Session).

(** The caller [sk] signed this envelope for [rk] lately; [blob] is its ciphertext, [id] its name. *)
Record admitted (now : Z) (sk rk blob id : string) : Prop := {
  adm_from : e_from body = pubkey_hex current;
  adm_sender : bytes_fromhex (pubkey_hex current) = Some sk;
  adm_recipient : bytes_fromhex (e_to body) = Some rk;
  adm_sig : exists sig, bytes_fromhex (e_sig body) = Some sig /\
    ed25519_verify (canonical_json (envelope_payload (e_from body) (e_to body) (e_ts body) (e_ttl body) (e_blob body)))
      sig sk = true;
  adm_fresh : (now - 300 <= e_ts body <= now + 60)%Z;
  adm_blob : b64decode (e_blob body) = Some blob /\ (string_len blob <= max_blob_bytes s)%Z;
  adm_id : envelope_id (mkEnvelope sk rk (e_ts body) (e_ttl body) blob) = Some id
}.

Lemma run_admit (w : vworld) :
  (exists sk rk blob id, admitted (w_now w) sk rk blob id /\
     run_doc (admit_envelope s body current) w = (Ok (sk, rk, blob, id, w_now w), w)) \/
  (exists e, run_doc (admit_envelope s body current) w = (Raise e, w) /\
     forall sk rk blob id, ~ admitted (w_now w) sk rk blob id).
Proof.
  unfold admit_envelope.
  destruct (String.eqb_spec (e_from body) (pubkey_hex current)) as [Ef|Ef]; cbn [negb];
    [|right; eexists; split; [done|]; intros ???? []; done].
  rewrite run_doc_bind, run_fromhex. destruct (bytes_fromhex (pubkey_hex current)) as [sk|] eqn:Es;
    [|right; eexists; split; [done|]; intros ???? []; congruence].
  rewrite run_doc_bind, run_fromhex. destruct (bytes_fromhex (e_to body)) as [rk|] eqn:Er;
    [|right; eexists; split; [done|]; intros ???? []; congruence].
  cbv zeta. destruct (bytes_fromhex (e_sig body)) as [sig|] eqn:Eg;
    [|right; eexists; split; [done|]; intros ???? [? ? ? (? & ? & ?)]; congruence].
  destruct (ed25519_verify _ sig sk) eqn:Ev; cbn [negb];
    [|right; eexists; split; [done|]; intros ???? [? ? ? (? & ? & ?)]; congruence].
  rewrite run_doc_bind, run_doc_now.
  destruct (Z.ltb_spec (e_ts body) (w_now w - 300)); [right; eexists; split; [done|]; intros ???? []; lia|].
  destruct (Z.ltb_spec (w_now w + 60) (e_ts body)); [right; eexists; split; [done|]; intros ???? []; lia|].
  destruct (b64decode (e_blob body)) as [blob|] eqn:Eb;
    [|right; eexists; split; [done|]; intros ???? [? ? ? ? ? [? ?]]; congruence].
  destruct (Z.ltb_spec (max_blob_bytes s) (string_len blob));
    [right; eexists; split; [done|]; intros ???? [? ? ? ? ? [? ?]]; simplify_eq; lia|].
  destruct (envelope_id _) as [id|] eqn:Ei;
    [|right; eexists; split; [done|]; intros ???? [? ? ? ? ? [? ?] ?]; congruence].
  left. exists sk, rk, blob, id. split; [|done]. split; eauto; lia.
Qed.

Lemma admitted_fun now sk rk blob id sk' rk' blob' id' :
  admitted now sk rk blob id -> admitted now sk' rk' blob' id' -> sk = sk' /\ rk = rk' /\ blob = blob' /\ id = id'.
Proof. intros [? ? ? _ _ [? _] ?] [? ? ? _ _ [? _] ?]. simplify_eq. done. Qed.

Definition user_of (key : string) (db : database) : option User := select_one (active_user key) (t_users db).
Definition name_of (key : string) (db : database) : option string := user_of key db ≫= u_username.

Lemma run_find_user key (w : vworld) : run_doc (find_user key) w = (Ok (user_of key (w_work w)), w).
Proof. unfold find_user. rewrite run_doc_sql. by destruct w. Qed.

(** After admission: the two lookups. *)
Lemma run_send (w : vworld) sk rk blob id :
  admitted (w_now w) sk rk blob id ->
  run_doc (send_envelope s body current) w =
  match user_of rk (w_work w) with
  | None => (Raise (HTTPException 404 "recipient_unknown_call_lookup_first"), w)
  | Some u =>
      if String.eqb (u_home_relay u) (relay_name s)
      then run_doc (deliver_locally s body id blob (name_of sk (w_work w))) w
      else run_doc (deliver_federated s body id (u_home_relay u) (w_now w) (name_of sk (w_work w))) w
  end.
Proof.
  intros Ha. unfold send_envelope. rewrite run_doc_bind.
  destruct (run_admit w) as [(sk' & rk' & blob' & id' & Ha' & ->)|(e & _ & Hno)]; [|by destruct (Hno sk rk blob id)].
  destruct (admitted_fun _ _ _ _ _ _ _ _ _ Ha Ha') as (-> & -> & -> & ->).
  rewrite run_doc_bind, run_find_user. cbv zeta. rewrite run_doc_bind, run_find_user.
  destruct (user_of rk' (w_work w)); [|done]. by case_match.
Qed.

(** What an accepted message for another relay adds to the outbound queue: nothing if its id is there. *)
Definition knows (id : string) (db : database) : bool :=
  bool_decide (is_Some (select_one (fun r => String.eqb (fq_envelope_id r) id) (t_fedqueue db))).

Lemma run_federated id target now name (w : vworld) :
  run_doc (deliver_federated s body id target now name) w =
  if knows id (w_work w) then (Ok (mkAck id false 0), w)
  else
    (Ok (mkAck id true (expiry (e_ts body) (e_ttl body) now (message_ttl_hard_seconds s))),
     let w1 := set_tokens (fun n => w_tokens w (S n)) w in
     set_databases (w_db w)
       (set_fedqueue (t_fedqueue (w_work w) ++ [new_fed_row (w_tokens w 0) id (envelope_dict body name) target now])
          (w_work w)) w1).
Proof.
  unfold deliver_federated, knows. rewrite run_doc_bind, run_doc_sql. cbn [fst snd].
  assert (E : set_databases (w_db w) (w_work w) w = w) by by destruct w. rewrite E.
  destruct (select_one _ _) as [r|]; [by rewrite bool_decide_true by by eexists|].
  rewrite bool_decide_false by by intros [? ?]. cbv zeta. rewrite run_doc_bind.
  unfold add_fed_row. rewrite run_doc_bind, run_doc_token, run_doc_sql. done.
Qed.

Lemma no_sql_locally id blob name : no_sql (deliver_locally s body id blob name).
Proof. unfold deliver_locally, envelope_exists, spawn. no_sql. apply no_sql_write_enqueue. Qed.

Lemma ack_names id blob name (w : vworld) a :
  fst (run_doc (deliver_locally s body id blob name) w) = Ok a -> ack_envelope_id a = id.
Proof.
  unfold deliver_locally. rewrite run_doc_bind. destruct (run_doc (envelope_exists id) w) as [[[]|] w1]; cbn [fst snd]; [by intros [= <-]| |done].
  rewrite run_doc_bind. destruct (run_doc (write_blob_then_enqueue _ _) w1) as [[[t|]|] w2]; [|by intros [= <-]|done].
  rewrite run_doc_bind, run_doc_spawn. by intros [= <-].
Qed.

(** What a posting handler leaves when it answers [a]. *)
Definition routed (now : Z) (token : string) (db db' : database) (a : EnvelopeAck) : Prop :=
  exists sk rk blob u, admitted now sk rk blob (ack_envelope_id a) /\
    user_of rk db = Some u /\
    if String.eqb (u_home_relay u) (relay_name s) then db' = db
    else if knows (ack_envelope_id a) db then db' = db /\ ack_queued a = false
    else ack_queued a = true /\
         db' = set_fedqueue (t_fedqueue db ++
           [new_fed_row token (ack_envelope_id a) (envelope_dict body (name_of sk db)) (u_home_relay u) now]) db.

Lemma run_post_message (w : vworld) :
  w_work w = w_db w ->
  let r := fst (run_doc (with_session (send_envelope s body current)) w) in
  let w' := snd (run_doc (with_session (send_envelope s body current)) w) in
  w_work w' = w_db w' /\
  match r with
  | Ok a => routed (w_now w) (w_tokens w 0) (w_db w) (w_db w') a
  | Raise _ => w_db w' = w_db w
  end /\
  ((forall sk rk blob id, ~ admitted (w_now w) sk rk blob id) -> (exists e, r = Raise e) /\ w' = w).
Proof.
  intros Hw. cbv zeta. rewrite run_with_session. cbn [fst snd].
  destruct (run_admit w) as [(sk & rk & blob & id & Ha & _)|(e & E & Hno)].
  2: { assert (E' : run_doc (send_envelope s body current) w = (Raise e, w)).
       { unfold send_envelope. by rewrite run_doc_bind, E. }
       rewrite E'. cbn. split_and!; [done|done|]. intros _. split; [by eexists|]. destruct w. cbn in *. by subst. }
  rewrite (run_send w sk rk blob id Ha), Hw.
  split; [destruct (user_of rk (w_db w)); [|done]; by repeat case_match|].
  split; [|intros Hno; by destruct (Hno _ _ _ _ Ha)].
  destruct (user_of rk (w_db w)) as [u|] eqn:Eu; [|done].
  destruct (String.eqb_spec (u_home_relay u) (relay_name s)) as [Eh|Eh].
  - pose proof (run_no_sql _ w (no_sql_locally id blob (name_of sk (w_db w)))) as Ht.
    destruct (run_doc (deliver_locally _ _ _ _ _) w) as [r w'] eqn:Er. cbn [fst snd] in *.
    unfold tables_of in Ht. injection Ht as Hd Hk. destruct r as [a|e]; cbn; [|done].
    pose proof (ack_names id blob (name_of sk (w_db w)) w a) as Hid. rewrite Er in Hid. specialize (Hid eq_refl). subst id.
    exists sk, rk, blob, u. split; [done|]. split; [done|]. rewrite (proj2 (String.eqb_eq _ _) Eh). congruence.
  - rewrite run_federated, Hw. destruct (knows id (w_db w)) eqn:Ek; cbn [fst snd w_db w_work set_databases].
    + exists sk, rk, blob, u. split; [done|]. split; [done|]. rewrite (proj2 (String.eqb_neq _ _) Eh). cbn. by rewrite Ek.
    + exists sk, rk, blob, u. split; [done|]. split; [done|]. rewrite (proj2 (String.eqb_neq _ _) Eh). cbn. by rewrite Ek.
Qed.

(** ** Delivery here *)

Lemma dm_meta id name exp : exists meta, build_meta (dm_args s body id name) exp = Ok meta.
Proof. unfold build_meta. by eexists. Qed.

Lemma run_exists id A (w : vworld) :
  calm w -> represents (w_now w) A (w_redis w) ->
  run_doc (envelope_exists id) w = (Ok (bool_decide (is_Some (A !! id))), w).
Proof.
  intros Hc Hrep. unfold envelope_exists. rewrite run_doc_bind, run_doc_redis, rrun_rcall by done.
  cbn [documented fst snd as_int res_of]. rewrite (rep_meta _ _ _ Hrep). by destruct (A !! id), w.
Qed.

(** Storing the file and queueing a new, unexpired message whose recipient has room. *)
Lemma run_write_dm A (w : vworld) id blob name path :
  let a := dm_args s body id name in
  let now := w_now w in
  let exp := expiry (e_ts body) (e_ttl body) now (message_ttl_hard_seconds s) in
  calm w -> represents now A (w_redis w) -> A !! id = None -> _blob_path id = Ok path -> (now < exp)%Z ->
  (Z.of_nat (size (box now (e_to body) A)) < MAX_INBOX_QUEUE_DEPTH)%Z ->
  exists meta v' z idx, build_meta a exp = Ok meta /\
    run_doc (write_blob_then_enqueue a blob) w = (Ok (Some exp), set_redis v' (put_blob path blob w)) /\
    posted a now exp meta z ∅ idx (w_redis w) v' /\ represents now (snd (mpost now a A)) v'.
Proof.
  intros a now exp Hc Hrep Hid Hpath Hexp Hroom. destruct (dm_meta id name exp) as [meta Hm].
  destruct (rep_inbox _ _ _ Hrep (e_to body)) as (z & Hz & _). destruct (rep_index _ _ _ Hrep) as (idx & Hx).
  destruct (rep_live _ _ _ Hrep _ z Hz) as [Hlive _].
  set (w1 := put_blob path blob w).
  fold a in Hm.
  destruct (run_enqueue a w1 meta z ∅ idx) as (v' & E & Hpost); try done.
  { pose proof (rep_meta _ _ _ Hrep id) as Hk. by rewrite Hid in Hk. }
  { change (Z.of_nat (size (live now z)) < MAX_INBOX_QUEUE_DEPTH)%Z. by rewrite Hlive. }
  { unfold set_at. change (rv_keys (w_redis w1)) with (rv_keys (w_redis w)).
    change (ea_envelope_id a) with id. by rewrite (rep_pending _ _ _ Hrep), Hid. }
  exists meta, v', z, idx. split; [done|].
  change (ea_timestamp a) with (e_ts body) in *. change (ea_ttl a) with (e_ttl body) in *.
  change (ea_hard_ceiling a) with (message_ttl_hard_seconds s) in *. change (w_now w1) with now in *. fold exp in E, Hpost.
  split.
  - unfold write_blob_then_enqueue. rewrite run_doc_bind, (run_write_blob id path) by done. fold a w1. by rewrite run_doc_try, E.
  - split; [done|]. unfold mpost. change (expiry (ea_timestamp a) (ea_ttl a) now (ea_hard_ceiling a)) with exp.
    change (ea_envelope_id a) with id. change (ea_recipient a) with (e_to body).
    rewrite (proj2 (Z.leb_gt _ _)), Hm, Hid, (proj2 (Z.leb_gt _ _)) by done. cbn [snd].
    destruct (build_meta_ok _ _ _ Hm) as [Hwf _]; [apply Forall_nil_2|].
    by apply (rep_post now A (w_redis w) Hrep a exp meta z idx v').
Qed.

Lemma run_locally A (w : vworld) id blob name path :
  let a := dm_args s body id name in
  let now := w_now w in
  let exp := expiry (e_ts body) (e_ttl body) now (message_ttl_hard_seconds s) in
  calm w -> represents now A (w_redis w) -> A !! id = None -> _blob_path id = Ok path -> (now < exp)%Z ->
  (Z.of_nat (size (box now (e_to body) A)) < MAX_INBOX_QUEUE_DEPTH)%Z ->
  exists meta v' z idx, build_meta a exp = Ok meta /\
    run_doc (deliver_locally s body id blob name) w =
      (Ok (mkAck id true exp), set_tasks (w_tasks w ++ [TPush [e_to body]]) (set_redis v' (put_blob path blob w))) /\
    posted a now exp meta z ∅ idx (w_redis w) v' /\ represents now (snd (mpost now a A)) v'.
Proof.
  intros a now exp Hc Hrep Hid Hpath Hexp Hroom.
  destruct (run_write_dm A w id blob name path Hc Hrep Hid Hpath Hexp Hroom) as (meta & v' & z & idx & Hm & E & Hp).
  exists meta, v', z, idx. split; [done|]. split; [|exact Hp]. unfold deliver_locally.
  rewrite run_doc_bind, (run_exists _ A), Hid by done. rewrite bool_decide_false by by intros [? ?].
  by rewrite run_doc_bind, E.
Qed.

(** Fetching and acknowledging, for whoever has the envelope or not. *)
Lemma run_fetch id r z (w : vworld) :
  calm w -> well_formed_id id = true -> zset_at (_inbox_key (pubkey_hex r)) (w_redis w) = Some z ->
  run_doc (get_envelope_blob id r) w =
  (match z !! id with
   | None => Raise (HTTPException 404 "envelope_not_in_your_inbox")
   | Some _ => match blob_at id w with Some b => Ok b | None => Raise (HTTPException 404 "blob_not_found") end
   end, w).
Proof.
  intros Hc Hid Hz. unfold get_envelope_blob. rewrite Hid. cbn [negb].
  rewrite run_doc_bind. unfold is_envelope_in_inbox. rewrite run_doc_bind, run_doc_redis, rrun_rcall by done.
  cbn [documented]. rewrite Hz. assert (Ew : set_redis (w_redis w) w = w) by by destruct w.
  destruct (z !! id); cbn [fst snd as_bulk res_of]; rewrite Ew; [|done].
  rewrite run_doc_ret. cbn [negb]. rewrite run_doc_bind, run_read_blob.
  - by destruct (blob_at id w).
  - apply andb_true_iff in Hid as [Hl Hh]. zify_bool. unfold lower_hex_at_least. rewrite Hh, andb_true_r.
    apply Z.leb_le. lia.
Qed.
End Post.

Lemma well_formed_path id : well_formed_id id = true -> exists p, _blob_path id = Ok p.
Proof.
  unfold well_formed_id, hex_of_len. intros [Hl Hh]%andb_true_iff. zify_bool. unfold _blob_path, lower_hex_at_least.
  rewrite Hh, andb_true_r, (proj2 (Z.leb_le _ _)) by lia. by eexists.
Qed.

Lemma run_acknowledge id r (w : vworld) z t :
  calm w -> well_formed_id id = true -> zset_at (_inbox_key (pubkey_hex r)) (w_redis w) = Some z -> z !! id = Some t ->
  rv_keys (w_redis w) !! _pending_recipients_key id = Some (Entry (VSet {[pubkey_hex r]}) (Some t)) ->
  exists v', run_doc (ack_envelope id r) w = (Ok tt, set_tasks (w_tasks w ++ [TDeleteBlob id]) (set_redis v' w)) /\
    zset_at (_inbox_key (pubkey_hex r)) v' = Some (delete id z).
Proof.
  intros Hc Hid Hz Ht Hp. unfold ack_envelope. rewrite Hid. cbn [negb].
  assert (Hset : set_at (_pending_recipients_key id) (w_redis w) = Some {[pubkey_hex r]}) by (unfold set_at; by rewrite Hp).
  rewrite run_doc_bind, (run_ack (pubkey_hex r) id w z t _ Hc Hz Ht Hset), run_doc_ret. unfold last_ack, acked. rewrite Hp.
  rewrite difference_diag_L, bool_decide_true, decide_True by done. eexists. split; [done|].
  unfold taken. by at_simpl.
Qed.

(** ** Read receipts *)

Section Receipts.
  Context `{Sha256} `{Nacl} (s : Settings) (now : Z) (keys : gmap string entry) (users : list User) (reader : string).

(** The reader may say that it has read [r]: somebody else sent it, it was delivered to the reader,
    and where it is signed the signature is the reader's and fresh.  [u] is the sender. *)
Record entitled (r : ReadReceiptItem) (u : User) : Prop := {
  ent_other : r_sender_pubkey_hex r <> reader;
  ent_delivered : is_Some (keys !! _delivery_tombstone_key (r_envelope_id r) reader);
  ent_sender : exists key, bytes_fromhex (r_sender_pubkey_hex r) = Some key /\ select_one (active_user key) users = Some u;
  ent_signed sig t : r_reader_signature_hex r = Some sig -> r_signed_at r = Some t ->
    (Z.abs (now - t) <= _READ_RECEIPT_SIG_WINDOW_SECONDS)%Z /\
    exists sig_bytes pk, bytes_fromhex sig = Some sig_bytes /\ bytes_fromhex reader = Some pk /\
      ed25519_verify (canonical_json
        (read_receipt_payload (r_envelope_id r) (r_sender_pubkey_hex r) reader (r_group_id r) t)) sig_bytes pk = true
}.

Definition told (r : ReadReceiptItem) : string * string :=
  (_inbox_channel (r_sender_pubkey_hex r), _read_event (r_envelope_id r) reader (r_group_id r)).
Definition forwarded_row (r : ReadReceiptItem) (u : User) (q : FederationOutboundQueue) : Prop :=
  exists id, q = new_fed_row id (_synthetic_queue_id "read" [r_envelope_id r; reader; u_home_relay u])
    (receipt_payload r reader) (u_home_relay u) now.

(** What the receipts [reads] made of a world: publications to senders here, rows for senders
    elsewhere, and nothing else. *)
Record passed_on (reads : list ReadReceiptItem) (w w' : vworld) : Prop := {
  pass_now : w_now w' = w_now w;
  pass_keys : rv_keys (w_redis w') = rv_keys (w_redis w);
  pass_pub : exists pubs, rv_pub (w_redis w') = rv_pub (w_redis w) ++ pubs /\
    forall p, p ∈ pubs -> exists r u, r ∈ reads /\ entitled r u /\ u_home_relay u = relay_name s /\ p = told r;
  pass_rows : w_db w' = w_db w /\ exists rows,
    w_work w' = set_fedqueue (t_fedqueue (w_work w) ++ rows) (w_work w) /\
    forall q, q ∈ rows -> exists r u, r ∈ reads /\ entitled r u /\ u_home_relay u <> relay_name s /\ forwarded_row r u q
}.

Definition known (w : vworld) : Prop :=
  w_now w = now /\ rv_keys (w_redis w) = keys /\ t_users (w_work w) = users.

Lemma set_fedqueue_same db : set_fedqueue (t_fedqueue db ++ []) db = db.
Proof. destruct db. unfold set_fedqueue. cbn. by rewrite app_nil_r. Qed.

Lemma passed_none reads w w' :
  w_now w' = w_now w -> rv_keys (w_redis w') = rv_keys (w_redis w) -> rv_pub (w_redis w') = rv_pub (w_redis w) ->
  tables_of w' = tables_of w -> passed_on reads w w'.
Proof.
  intros Hn Hk Hp [= Hd Hw]. split; [done|done|..].
  - exists []. rewrite app_nil_r. split; [done|]. intros p Hin. by apply not_elem_of_nil in Hin.
  - split; [done|]. exists []. rewrite set_fedqueue_same. split; [done|]. intros q Hin. by apply not_elem_of_nil in Hin.
Qed.
Lemma passed_refl reads w : passed_on reads w w.
Proof. by apply passed_none. Qed.

Lemma passed_trans reads1 reads2 w w1 w2 :
  passed_on reads1 w w1 -> passed_on reads2 w1 w2 -> passed_on (reads1 ++ reads2) w w2.
Proof.
  intros [n1 k1 (p1 & Hp1 & P1) [d1 (q1 & Hq1 & Q1)]] [n2 k2 (p2 & Hp2 & P2) [d2 (q2 & Hq2 & Q2)]].
  split; [congruence|congruence|..].
  - exists (p1 ++ p2). rewrite Hp2, Hp1, app_assoc. split; [done|].
    intros p [Hin|Hin]%elem_of_app; [destruct (P1 p Hin) as (r & u & ? & ?)|destruct (P2 p Hin) as (r & u & ? & ?)];
      exists r, u; (split; [|done]); apply elem_of_app; auto.
  - split; [congruence|]. exists (q1 ++ q2). rewrite Hq2, Hq1. split; [by rewrite app_assoc|].
    intros q [Hin|Hin]%elem_of_app; [destruct (Q1 q Hin) as (r & u & ? & ?)|destruct (Q2 q Hin) as (r & u & ? & ?)];
      exists r, u; (split; [|done]); apply elem_of_app; auto.
Qed.

Lemma known_passed reads w w' : known w -> passed_on reads w w' -> known w'.
Proof.
  intros (Hn & Hk & Hu) [n k _ [_ (rows & Hr & _)]]. split_and!; [congruence|congruence|]. by rewrite Hr.
Qed.

Lemma run_verify r sig t (w : vworld) :
  w_now w = now ->
  exists b, run_doc (_verify_read_receipt_signature (r_envelope_id r) (r_sender_pubkey_hex r) reader (r_group_id r) t sig) w =
    (Ok b, w) /\ (b = true -> (Z.abs (now - t) <= _READ_RECEIPT_SIG_WINDOW_SECONDS)%Z /\
    exists sig_bytes pk, bytes_fromhex sig = Some sig_bytes /\ bytes_fromhex reader = Some pk /\
      ed25519_verify (canonical_json
        (read_receipt_payload (r_envelope_id r) (r_sender_pubkey_hex r) reader (r_group_id r) t)) sig_bytes pk = true).
Proof.
  intros Hn. unfold _verify_read_receipt_signature. rewrite run_doc_bind, run_doc_now, Hn.
  destruct (Z.ltb_spec _READ_RECEIPT_SIG_WINDOW_SECONDS (Z.abs (now - t))); [by exists false|]. cbv zeta.
  destruct (bytes_fromhex sig) as [b|]; [|by exists false]. destruct (bytes_fromhex reader) as [pk|]; [|by exists false].
  eexists. split; [done|]. intros Hv. split; [lia|]. by exists b, pk.
Qed.

(** A query to the server that changes nothing there. *)
Lemma run_was_delivered id (w : vworld) :
  let w' := snd (run_doc (was_delivered_to id reader) w) in
  w_redis w' = w_redis w /\ w_now w' = w_now w /\ tables_of w' = tables_of w /\
  (fst (run_doc (was_delivered_to id reader) w) = Ok true ->
   is_Some (rv_keys (w_redis w) !! _delivery_tombstone_key id reader)).
Proof.
  unfold was_delivered_to. rewrite run_doc_bind.
  destruct (run_doc_redis_any (rcall (EXISTS (_delivery_tombstone_key id reader)) as_int) w) as (r & v' & E & Hv & Ha).
  rewrite E. rewrite rrun_rcall in Hv, Ha. cbn [documented fst snd as_int] in Hv, Ha.
  assert (Hv' : v' = w_redis w) by by destruct Hv. subst v'.
  destruct r as [a|e]; cbn; (split_and!; [done..|]); [|done].
  destruct (Ha a eq_refl) as [[= <-] _]. destruct (rv_keys (w_redis w) !! _); [eauto|done].
Qed.

Lemma run_receipt r (w : vworld) :
  known w -> passed_on [r] w (snd (run_doc (post_read_receipt s reader r) w)).
Proof.
  intros Hk. pose proof Hk as (Hn & Hkeys & Husers). unfold post_read_receipt.
  destruct (String.eqb_spec (r_sender_pubkey_hex r) reader) as [E|Hother]; [apply passed_refl|].
  rewrite run_doc_bind.
  assert (Hval : exists b, run_doc (match r_reader_signature_hex r, r_signed_at r with
      | Some sig, Some t => _verify_read_receipt_signature (r_envelope_id r) (r_sender_pubkey_hex r) reader (r_group_id r) t sig
      | _, _ => ret true end) w = (Ok b, w) /\
    (b = true -> forall sig t, r_reader_signature_hex r = Some sig -> r_signed_at r = Some t ->
      (Z.abs (now - t) <= _READ_RECEIPT_SIG_WINDOW_SECONDS)%Z /\
      exists sig_bytes pk, bytes_fromhex sig = Some sig_bytes /\ bytes_fromhex reader = Some pk /\
        ed25519_verify (canonical_json
          (read_receipt_payload (r_envelope_id r) (r_sender_pubkey_hex r) reader (r_group_id r) t)) sig_bytes pk = true)).
  { destruct (r_reader_signature_hex r) as [sig|]; [|by exists true]. destruct (r_signed_at r) as [t|]; [|by exists true].
    destruct (run_verify r sig t w Hn) as (b & E & Hb). exists b. split; [done|].
    intros Hb' sig' t' [= <-] [= <-]. auto. }
  destruct Hval as (b & -> & Hsig). destruct b; cbn [negb]; [|apply passed_refl]. specialize (Hsig eq_refl).
  destruct (bytes_fromhex (r_sender_pubkey_hex r)) as [key|] eqn:Ekey; [|apply passed_refl].
  rewrite run_doc_bind. pose proof (run_was_delivered (r_envelope_id r) w) as (Hr1 & Hn1 & Ht1 & Hd).
  destruct (run_doc (was_delivered_to (r_envelope_id r) reader) w) as [[d|e] w1]; cbn [fst snd] in *;
    [|by apply passed_none; rewrite ?Hr1].
  assert (H1 : passed_on [r] w w1) by (apply passed_none; by rewrite ?Hr1). 
  destruct d; cbn [negb]; [|done]. specialize (Hd eq_refl).
  rewrite run_doc_bind, run_find_user. unfold user_of.
  assert (Hw1 : w_work w1 = w_work w) by (unfold tables_of in Ht1; congruence). rewrite Hw1, Husers.
  destruct (select_one (active_user key) users) as [u|] eqn:Eu; [|done].
  assert (Hent : entitled r u) by (split; [done|by rewrite <- Hkeys|eauto|done]).
  destruct (String.eqb_spec (u_home_relay u) (relay_name s)) as [Eh|Eh].
  - rewrite run_doc_bind. unfold publish_read_receipt. rewrite run_doc_try.
    destruct (run_doc_redis_any (rcall (PUBLISH (told r).1 (told r).2) as_any) w1) as (x & v' & E & Hv & _).
    unfold told in E. cbn [fst snd] in E. rewrite E. rewrite rrun_rcall in Hv. cbn [documented fst snd] in Hv.
    assert (Hpub : forall w', w_now w' = w_now w1 -> tables_of w' = tables_of w1 ->
       (w_redis w' = w_redis w1 \/ w_redis w' = publish (told r).1 (told r).2 (w_redis w1)) -> passed_on [r] w w').
    { intros w' Hn' Ht' Hred. split; [congruence|by destruct Hred as [-> | ->]; rewrite Hr1|..].
      - destruct Hred as [-> | ->]; rewrite Hr1; [exists []|exists [told r]]; cbn.
        + rewrite app_nil_r. split; [done|]. intros p Hin. by apply not_elem_of_nil in Hin.
        + split; [done|]. intros p ->%list_elem_of_singleton. exists r, u. split; [by apply list_elem_of_singleton|done].
      - unfold tables_of in *. split; [congruence|]. exists []. rewrite set_fedqueue_same. split; [congruence|].
        intros q Hin. by apply not_elem_of_nil in Hin. }
    destruct x; cbn; by apply Hpub.
  - destruct (String.eqb_spec (u_home_relay u) "") as [E0|E0]; [done|].
    rewrite run_doc_bind. unfold queue_control. rewrite run_doc_bind, run_doc_sql. cbn [fst snd].
    assert (Ew1 : set_databases (w_db w1) (w_work w1) w1 = w1) by by destruct w1. rewrite Ew1.
    destruct (select_one (same_target _ _) _) as [q|]; [by rewrite !run_doc_ret|].
    rewrite run_doc_bind, run_doc_now. unfold add_fed_row. rewrite run_doc_bind, run_doc_token, run_doc_sql.
    rewrite run_doc_ret. cbn [fst snd]. split; cbn; [congruence|by rewrite Hr1|..].
    + exists []. rewrite app_nil_r, Hr1. split; [done|]. intros p Hin. by apply not_elem_of_nil in Hin.
    + split; [unfold tables_of in Ht1; congruence|]. eexists [_]. rewrite Hw1. split; [done|].
      intros q ->%list_elem_of_singleton. exists r, u. split; [by apply list_elem_of_singleton|].
      split; [done|]. split; [done|]. eexists. f_equal. congruence.
Qed.

Lemma run_receipts reads counts (w : vworld) :
  known w ->
  let x := run_doc (post_all_receipts s reader reads counts) w in
  passed_on reads w (snd x) /\
  match fst x with
  | Ok (a, b, c) => let '(a0, b0, c0) := counts in (a + b + c = a0 + b0 + c0 + Z.of_nat (length reads))%Z
  | Raise _ => True
  end.
Proof.
  revert counts w. induction reads as [|r reads IH]; intros counts w Hk x; subst x; cbn [post_all_receipts].
  - rewrite run_doc_ret. split; [apply passed_refl|]. destruct counts as [[a b] c]. cbn. lia.
  - rewrite run_doc_bind. pose proof (run_receipt r w Hk) as H1.
    destruct (run_doc (post_read_receipt s reader r) w) as [[o|e] w1]; cbn [fst snd] in *.
    + destruct counts as [[a b] c].
      match goal with |- context [post_all_receipts s reader reads ?cs] => set (cs' := cs) end.
      destruct (IH cs' w1 (known_passed _ _ _ Hk H1)) as [H2 Hc].
      split; [exact (passed_trans [r] reads _ _ _ H1 H2)|].
      destruct (fst _) as [[[a' b'] c']|e]; [|done]. unfold cs' in Hc. cbn [length]. destruct o; lia.
    + split; [|done]. apply (passed_trans [r] reads w w1 w1 H1), passed_refl.
Qed.
End Receipts.

(** ** Deletion *)

Section Delete.
  Context `{Sha256} `{Nacl} (s : Settings) (id : string) (body : DMDeleteRequest) (current : Session).

(** The caller signed the deletion of this envelope within a week. *)
Definition signed_delete (now : Z) : Prop :=
  well_formed_id id = true /\ (Z.abs (now - d_delete_ts body) <= 7 * 86400)%Z /\
  exists sig pk, bytes_fromhex (d_signature_hex body) = Some sig /\ bytes_fromhex (pubkey_hex current) = Some pk /\
    ed25519_verify (canonical_json (delete_payload "dm_delete" id (d_delete_ts body) None)) sig pk = true.

(** The control message for the recipient's relay. *)
Definition delete_row (now : Z) (db : database) (q : FederationOutboundQueue) : Prop :=
  exists key u token, bytes_fromhex (d_recipient_pubkey_hex body) = Some key /\ user_of key db = Some u /\
    u_home_relay u <> "" /\ u_home_relay u <> relay_name s /\
    q = new_fed_row token (_synthetic_queue_id "dmdel" [id; u_home_relay u])
          (dm_delete_data id body (pubkey_hex current)) (u_home_relay u) now.

Lemma no_sql_delete : no_sql (delete_envelope_by_sender id (pubkey_hex current) (d_recipient_pubkey_hex body)).
Proof. unfold delete_envelope_by_sender. no_sql. Qed.

Lemma run_delete_handler (w : vworld) :
  w_work w = w_db w ->
  let x := run_doc (delete_dm_message s id body current) w in
  (~ signed_delete (w_now w) -> exists e, x = (Raise e, w)) /\ w_db (snd x) = w_db w /\
  (w_work (snd x) = w_db w \/ exists q, delete_row (w_now w) (w_db w) q /\
     w_work (snd x) = set_fedqueue (t_fedqueue (w_db w) ++ [q]) (w_db w)).
Proof.
  intros Hw. cbv zeta. unfold delete_dm_message.
  destruct (well_formed_id id) eqn:Hid; cbn [negb]; [|split_and!; [by eexists|done|by left]].
  rewrite run_doc_bind, run_doc_now.
  destruct (Z.ltb_spec (7 * 86400) (Z.abs (w_now w - d_delete_ts body))) as [Hlt|Hts]; [split_and!; [by eexists|done|by left]|].
  destruct (bytes_fromhex (d_signature_hex body)) as [sig|] eqn:Es; [|split_and!; [by eexists|done|by left]].
  destruct (bytes_fromhex (pubkey_hex current)) as [pk|] eqn:Ep; [|split_and!; [by eexists|done|by left]].
  cbv zeta. destruct (ed25519_verify _ sig pk) eqn:Ev; cbn [negb]; [|split_and!; [by eexists|done|by left]].
  assert (Hsigned : signed_delete (w_now w)) by (split; [done|]; split; [lia|]; eauto).
  split; [by intros []|]. rewrite run_doc_bind.
  pose proof (run_no_sql _ w no_sql_delete) as Ht. pose proof (run_now (delete_envelope_by_sender id (pubkey_hex current) (d_recipient_pubkey_hex body)) w) as Hn.
  destruct (run_doc (delete_envelope_by_sender _ _ _) w) as [[result|e] w1]; unfold tables_of in Ht; injection Ht as Hd1 Hk1;
    cbn [fst snd] in *; [|split; [done|left; congruence]].
  cbv zeta. repeat (case_match; [split; [done|left; cbn; congruence]|]).
  rewrite run_doc_bind. destruct (bytes_fromhex (d_recipient_pubkey_hex body)) as [key|] eqn:Ekey.
  2: { rewrite run_doc_ret. case_match; (split; [done|left; cbn; congruence]). }
  rewrite run_doc_bind, run_find_user. rewrite Hk1, Hw. destruct (user_of key (w_db w)) as [u|] eqn:Eu.
  2: { rewrite run_doc_ret. case_match; (split; [done|left; cbn; congruence]). }
  destruct (String.eqb_spec (u_home_relay u) "") as [E0|E0]; cbn [orb];
    [rewrite run_doc_ret; case_match; (split; [done|left; cbn; congruence])|].
  destruct (String.eqb_spec (u_home_relay u) (relay_name s)) as [E1|E1];
    [rewrite run_doc_ret; case_match; (split; [done|left; cbn; congruence])|].
  rewrite run_doc_bind. unfold queue_control. rewrite run_doc_bind, run_doc_sql. cbn [fst snd].
  assert (Ew1 : set_databases (w_db w1) (w_work w1) w1 = w1) by by destruct w1. rewrite Ew1.
  destruct (select_one (same_target _ _) _) as [q|].
  { rewrite !run_doc_ret. case_match; (split; [done|left; cbn; congruence]). }
  rewrite run_doc_bind, run_doc_now. unfold add_fed_row. rewrite run_doc_bind, run_doc_token, run_doc_sql.
  rewrite run_doc_ret. cbn [fst snd]. rewrite Hn.
  assert (Hrow : delete_row (w_now w) (w_db w) (new_fed_row (w_tokens w1 0) (_synthetic_queue_id "dmdel" [id; u_home_relay u])
          (dm_delete_data id body (pubkey_hex current)) (u_home_relay u) (w_now w))) by (do 3 eexists; eauto).
  case_match; (split; [done|]); right; eexists; (split; [exact Hrow|]); cbn; by rewrite Hk1, Hw.
Qed.
End Delete.

Section Properties.
  Context `{R : Redis} `{Sha256} `{Nacl} (s : Settings).

(** Who may post, and where it goes.  Whatever fails, a post is answered with a receipt only if
    the caller signed this envelope with the session's key, dated within five minutes back and one
    ahead, the ciphertext decodes and is not too large, the receipt names it, and the recipient is a
    known user.  A message for another relay then adds exactly one pending row addressed to the
    recipient's relay, or none if its id is already there; a local one, a refusal and a failure
    leave the tables as they were; and a post that is not admitted changes nothing anywhere. *)
Theorem send_admission (body : EnvelopeIn) (current : Session) (w : world rstore) :
  w_work w = w_db w ->
  let r := fst (run (with_session (send_envelope s body current)) w) in
  let w' := snd (run (with_session (send_envelope s body current)) w) in
  w_work w' = w_db w' /\
  match r with
  | Ok a => routed s body current (w_now w) (w_tokens w 0) (w_db w) (w_db w') a
  | Raise _ => w_db w' = w_db w
  end /\
  ((forall sk rk blob id, ~ admitted s body current (w_now w) sk rk blob id) -> (exists e, r = Raise e) /\ absw w' = absw w).
Proof.
  intros Hw. cbv zeta. rewrite fst_run. pose proof (run_post_message s body current (absw w) Hw) as H1. cbv zeta in H1.
  rewrite <- snd_run_absw in H1. exact H1.
Qed.

(** C19: a message reaches its recipient, and only its recipient.  On a calm server whose queue is a
    mailbox, an admitted message to a user of this relay that is new, unexpired and finds room is
    queued, its recipient gets a push and can fetch exactly the ciphertext that was posted, while
    another session that does not hold an envelope of that name is refused.  Once the recipient has
    acknowledged it, the file is to be deleted and a second fetch is refused. *)
Theorem dm_reaches_recipient (body : EnvelopeIn) (current reader : Session) A sk rk blob id u (w : world rstore) :
  let exp := expiry (e_ts body) (e_ttl body) (w_now w) (message_ttl_hard_seconds s) in
  calm w -> w_work w = w_db w -> represents (w_now w) A (w_redis (absw w)) ->
  admitted s body current (w_now w) sk rk blob id -> user_of rk (w_db w) = Some u -> u_home_relay u = relay_name s ->
  well_formed_id id = true -> A !! id = None -> (w_now w < exp)%Z ->
  (Z.of_nat (size (box (w_now w) (e_to body) A)) < MAX_INBOX_QUEUE_DEPTH)%Z -> pubkey_hex reader = e_to body ->
  let w1 := snd (run (with_session (send_envelope s body current)) w) in
  let w2 := snd (run (ack_envelope id reader) w1) in
  fst (run (with_session (send_envelope s body current)) w) = Ok (mkAck id true exp) /\
  w_tasks w1 = w_tasks w ++ [TPush [e_to body]] /\
  fst (run (get_envelope_blob id reader) w1) = Ok blob /\
  (forall other, pubkey_hex other <> e_to body -> not_in_inbox id (pubkey_hex other) (w_redis (absw w)) ->
     fst (run (get_envelope_blob id other) w1) = Raise (HTTPException 404 "envelope_not_in_your_inbox")) /\
  fst (run (ack_envelope id reader) w1) = Ok tt /\ w_tasks w2 = w_tasks w1 ++ [TDeleteBlob id] /\
  fst (run (get_envelope_blob id reader) w2) = Raise (HTTPException 404 "envelope_not_in_your_inbox").
Proof.
  intros exp Hc Hw Hrep Ha Hu Hhome Hid Hfresh Hexp Hroom Hreader w1 w2.
  destruct (well_formed_path id Hid) as [path Hpath].
  destruct (run_locally s body A (absw w) id blob (name_of sk (w_db w)) path) as (meta & v' & z & idx & Hm & E & Hpost & Hrep1);
    [done..|].
  assert (Erun : run_doc (with_session (send_envelope s body current)) (absw w) =
    (Ok (mkAck id true exp), set_tasks (w_tasks w ++ [TPush [e_to body]]) (set_redis v' (put_blob path blob (absw w))))).
  { rewrite run_with_session, (run_send s body current (absw w) sk rk blob id Ha).
    change (w_work (absw w)) with (w_work w). rewrite Hw, Hu, Hhome, String.eqb_refl, E. cbn [fst snd]. f_equal.
    unfold set_databases, set_tasks, set_redis, put_blob, set_blobs, absw, set_redis. cbn. by rewrite Hw. }
  set (u1 := set_tasks _ _) in Erun.
  assert (E1 : absw w1 = u1) by (unfold w1; by rewrite snd_run_absw, Erun).
  assert (Hc1 : calm (absw w1)) by (rewrite E1; done).
  destruct Hpost as [_ Pi Pp _ _ _ Pf]. cbn [ea_recipient ea_envelope_id dm_args] in Pi, Pp, Pf.
  set (z1 := <[id := exp]> (live (w_now (absw w)) z)) in *.
  assert (Hz1 : zset_at (_inbox_key (pubkey_hex reader)) (w_redis (absw w1)) = Some z1)
    by (rewrite E1, Hreader; unfold zset_at; change (w_redis u1) with v'; by rewrite Pi).
  assert (Hin : z1 !! id = Some exp) by (unfold z1; by rewrite lookup_insert_eq).
  assert (Hblob : blob_at id (absw w1) = Some blob).
  { rewrite E1. unfold blob_at. rewrite Hpath. cbn. by rewrite lookup_insert_eq. }
  destruct (run_acknowledge id reader (absw w1) z1 exp) as (v2 & Eack & Hz2); [done|done|done|done| |].
  { rewrite E1, Hreader. change (w_redis u1) with v'. rewrite Pp. by rewrite (left_id_L ∅ (∪)). }
  assert (E2 : absw w2 = set_tasks (w_tasks (absw w1) ++ [TDeleteBlob id]) (set_redis v2 (absw w1)))
    by (unfold w2; by rewrite snd_run_absw, Eack).
  split_and!.
  - by rewrite fst_run, Erun.
  - change (w_tasks (absw w1) = w_tasks w ++ [TPush [e_to body]]). by rewrite E1.
  - rewrite fst_run, (run_fetch id reader z1), Hin, Hblob by done. done.
  - intros other Hne (zo & Hzo & Hno). rewrite fst_run, (run_fetch id other zo), Hno; [done|done|done|].
    rewrite E1. change (w_redis u1) with v'. rewrite (zset_at_ext _ v' (w_redis (absw w))); [done|].
    apply Pf. rewrite !not_elem_of_cons. split_and!; try string_ne; [by apply inbox_key_ne|apply not_elem_of_nil].
  - by rewrite fst_run, Eack.
  - change (w_tasks (absw w2) = w_tasks (absw w1) ++ [TDeleteBlob id]). by rewrite E2.
  - rewrite fst_run, (run_fetch id reader (delete id z1)), lookup_delete_eq; [done| |done|by rewrite E2].
    rewrite E2. done.
Qed.

(** A read receipt is passed on only where it is due.  Whatever fails, each publication and each
    outbound row of a batch comes from one of its receipts, whose envelope was delivered to the
    reader (the tombstone of the acknowledgement is there), whose sender is another, known user, and
    whose signature, where both its parts are given, is the reader's on exactly this receipt and at
    most five minutes old; senders of this relay are told directly, the others through their relay.
    No key changes, and the three counts of the answer add up to the batch. *)
Theorem read_receipts_due reads current (w : world rstore) :
  w_work w = w_db w ->
  let x := run (with_session (post_read_receipts s reads current)) w in
  let v := w_redis (absw w) in
  let v' := w_redis (absw (snd x)) in
  let due r u := r ∈ reads /\ entitled (w_now w) (rv_keys v) (t_users (w_db w)) (pubkey_hex current) r u in
  rv_keys v' = rv_keys v /\
  (exists pubs, rv_pub v' = rv_pub v ++ pubs /\
     forall p, p ∈ pubs -> exists r u, due r u /\ u_home_relay u = relay_name s /\ p = told (pubkey_hex current) r) /\
  (exists rows, w_db (snd x) = set_fedqueue (t_fedqueue (w_db w) ++ rows) (w_db w) /\
     forall q, q ∈ rows -> exists r u, due r u /\ u_home_relay u <> relay_name s /\
       forwarded_row (w_now w) (pubkey_hex current) r u q) /\
  (forall a b c, fst x = Ok (a, b, c) -> (a + b + c = Z.of_nat (length reads))%Z).
Proof.
  intros Hw x v v' due. subst x v v'.
  destruct (run_receipts s (w_now w) (rv_keys (w_redis (absw w))) (t_users (w_db w)) (pubkey_hex current) reads (0, 0, 0)%Z (absw w))
    as [Hpass Hcount]; [split_and!; [done|done|]; change (w_work (absw w)) with (w_work w); by rewrite Hw|].
  change (post_all_receipts s (pubkey_hex current) reads (0, 0, 0)%Z) with (post_read_receipts s reads current) in *.
  rewrite fst_run, snd_run_absw, run_with_session. cbn [fst snd].
  change (w_db (snd (run (with_session (post_read_receipts s reads current)) w)))
    with (w_db (absw (snd (run (with_session (post_read_receipts s reads current)) w)))).
  rewrite snd_run_absw, run_with_session. cbn [snd].
  destruct (run_doc (post_read_receipts s reads current) (absw w)) as [r w1]. cbn [fst snd] in *.
  destruct Hpass as [_ Hk (pubs & Hp & P) (Hd & rows & Hrows & Q)].
  change (w_work (absw w)) with (w_work w) in Hrows. change (w_db (absw w)) with (w_db w) in Hd. rewrite Hw in Hrows.
  split_and!.
  - by destruct r.
  - exists pubs. split; [by destruct r|]. intros p Hin. destruct (P p Hin) as (r' & u & ? & ? & ? & ?). by exists r', u.
  - destruct r as [o|e]; cbn.
    + exists rows. split; [done|]. intros q Hin. destruct (Q q Hin) as (r' & u & ? & ? & ? & ?). by exists r', u.
    + exists []. rewrite set_fedqueue_same. split; [done|]. intros q Hin. by apply not_elem_of_nil in Hin.
  - intros a b c ->. lia.
Qed.

(** Only who signs can delete.  Whatever fails, a deletion without a signature of the session's
    key on this envelope and a time within a week changes nothing and is refused; and the tables
    change at most by one pending row that carries the signed deletion to the recipient's relay, and
    only if the request is answered. *)
Theorem dm_delete_signed id body current (w : world rstore) :
  w_work w = w_db w ->
  let r := fst (run (with_session (delete_dm_message s id body current)) w) in
  let w' := snd (run (with_session (delete_dm_message s id body current)) w) in
  (~ signed_delete id body current (w_now w) -> (exists e, r = Raise e) /\ absw w' = absw w) /\
  (w_db w' = w_db w \/ (exists a, r = Ok a) /\ exists q, delete_row s id body current (w_now w) (w_db w) q /\
     w_db w' = set_fedqueue (t_fedqueue (w_db w) ++ [q]) (w_db w)).
Proof.
  intros Hw. cbv zeta. rewrite fst_run.
  change (w_db (snd (run (with_session (delete_dm_message s id body current)) w)))
    with (w_db (absw (snd (run (with_session (delete_dm_message s id body current)) w)))).
  rewrite snd_run_absw, run_with_session. cbn [fst snd].
  destruct (run_delete_handler s id body current (absw w) Hw) as (Hno & Hd & Hk). cbv zeta in *. split.
  - intros Hn. destruct (Hno Hn) as [e E]. rewrite E. cbn [fst snd]. split; [by eexists|].
    unfold set_databases, absw, set_redis. cbn. rewrite <- Hw at 2. done.
  - destruct (run_doc (delete_dm_message s id body current) (absw w)) as [[a|e] w1]; cbn [fst snd] in *; [|by left].
    destruct Hk as [Hk|(q & Hq & Hk)]; [by left|]. right. split; [by eexists|]. by exists q.
Qed.
End Properties.

(** ** Witnesses *)

Module MessagesDemo.
Definition zeros (n : nat) : string := string_of_list_ascii (repeat "0"%char n).
Fixpoint twice (n : nat) (s : string) : string := match n with O => "" | S n' => s +:+ twice n' s end.
#[local] Instance demo_sha : Sha256 := fun s => substring 0 32 (s +:+ zeros 32).
#[local] Instance demo_nacl : Nacl :=
  {| nacl_verify := fun _ _ _ => true; nacl_sign := fun _ _ => "s"; nacl_public := fun k => k;
     nacl_to_curve25519 := fun k => Ok k |}.

Definition settings : Settings := mkSettings "relay" (zeros 64) (zeros 64) 86400 1000 30 0 0 true "" 10 "".
Definition alice : string := twice 32 "aa".
Definition bob : string := twice 32 "bb".
Definition carol : string := twice 32 "cc".
Definition key_of (hex : string) : string := default "" (bytes_fromhex hex).
Definition session (key : string) : Session := mkSession "token" key 2000.
Definition user (key home : string) : User := mkUser (key_of key) None FREE home 0 None None None.
Definition people : database := set_users [user alice "relay"; user bob "relay"; user carol "elsewhere"] empty_db.

Definition relay (keys : list (string * entry)) : world (rstore (Redis := Mem_Redis)) :=
  World 1000%Z (View (list_to_map keys) ∅ []) people people ∅ [] (fun _ => "fresh") [] no_network [].

Definition letter_to (to_ : string) : EnvelopeIn := mkEnvelopeIn alice to_ 1000 600 "QUJD" (twice 64 "dd").
Definition name_to (to_ : string) : string :=
  default "" (envelope_id (mkEnvelope (key_of alice) (key_of to_) 1000 600 "ABC")).

Lemma admission_witness :
  let x := run (with_session (send_envelope settings (letter_to carol) (session alice))) (relay []) in
  fst x = Ok (mkAck (name_to carol) true 1600) /\
  routed settings (letter_to carol) (session alice) 1000 "fresh" people (w_db (snd x)) (mkAck (name_to carol) true 1600).
Proof.
  destruct (send_admission settings (letter_to carol) (session alice) (relay []) eq_refl) as (_ & Hr & _).
  split; [vm_compute; reflexivity|].
  match type of Hr with match ?r with _ => _ end => assert (E : r = Ok (mkAck (name_to carol) true 1600)) by (vm_compute; reflexivity) end.
  rewrite E in Hr. exact Hr.
Defined.

Definition settled_relay := relay [].
Definition id_bob : string := name_to bob.

Lemma reaches_witness :
  let w1 := snd (run (with_session (send_envelope settings (letter_to bob) (session alice))) settled_relay) in
  fst (run (with_session (send_envelope settings (letter_to bob) (session alice))) settled_relay) = Ok (mkAck id_bob true 1600) /\
  fst (run (get_envelope_blob id_bob (session bob)) w1) = Ok "ABC".
Proof.
  destruct (dm_reaches_recipient settings (letter_to bob) (session alice) (session bob) ∅ (key_of alice) (key_of bob) "ABC"
    id_bob (user bob "relay") settled_relay) as (H1 & _ & H2 & _); [..|exact (conj H1 H2)].
  - reflexivity.
  - reflexivity.
  - apply represents_empty; [vm_compute; discriminate|]. intros k. vm_compute. reflexivity.
  - split; try (vm_compute; reflexivity).
    + eexists. split; vm_compute; reflexivity.
    + vm_compute. split; discriminate.
    + vm_compute. split; [reflexivity|discriminate].
  - vm_compute. reflexivity.
  - reflexivity.
  - vm_compute. reflexivity.
  - reflexivity.
  - vm_compute. reflexivity.
  - vm_compute. reflexivity.
  - reflexivity.
Defined.

(** bob has taken an envelope of alice; carol's was not delivered to him. *)
Definition delivered_relay := relay [(_delivery_tombstone_key (zeros 64) bob, Entry (VStr "1") (Some 5000%Z))].
Definition receipts : list ReadReceiptItem :=
  [mkReceipt (zeros 64) alice None None None; mkReceipt (twice 32 "11") carol None None None].

Lemma receipts_witness :
  let x := run (with_session (post_read_receipts settings receipts (session bob))) delivered_relay in
  fst x = Ok (1, 0, 1)%Z /\ rv_keys (w_redis (absw (snd x))) = rv_keys (w_redis (absw delivered_relay)) /\
  rv_pub (w_redis (absw (snd x))) = [(_inbox_channel alice, _read_event (zeros 64) bob None)].
Proof.
  destruct (read_receipts_due settings receipts (session bob) delivered_relay eq_refl) as (Hk & _).
  split; [vm_compute; reflexivity|]. split; [exact Hk|]. vm_compute. reflexivity.
Defined.

Definition unsigned : DMDeleteRequest := mkDMDelete bob "" 1000.
Lemma delete_witness :
  exists e, fst (run (with_session (delete_dm_message settings (zeros 64) unsigned (session alice))) settled_relay) = Raise e.
Proof.
  destruct (dm_delete_signed settings (zeros 64) unsigned (session alice) settled_relay eq_refl) as [Hno _].
  apply Hno. intros (_ & _ & sig & pk & Hs & _ & Hv). vm_compute in Hs. injection Hs as <-. vm_compute in Hv. discriminate.
Defined.
End MessagesDemo.
