(* ===== verification/Sealed.v ===== *)
(** * Sealed sender (api/sealed.py)

    Envelopes that do not say who sent them.  The recipient registers hashes of delivery tokens; a
    sealed envelope is taken from anybody who shows one of the tokens, and deleted by whoever shows
    the key whose hash it carries.  Sending and deleting run without authentication, behind a limit
    per address ([rate_limit_by_ip]). *)

From Stdlib Require Import Ascii String.
From stdpp Require Import prelude gmap strings list.
From S2P Require Import Prelude Json Codec RedisStore Models Effects Crypto Payloads Config Sessions RateLimit Deps.
From S2P Require Import BlobStorage Queue Messages.

#[local] Open Scope morok_scope.

Definition MAX_TOKENS_PER_PUBKEY : nat := 64.

(** ** Delivery tokens *)

(** The body of a registration or a revocation. *)
Definition valid_InboxTokenRequest (token_hash : string) : bool := hex_of_len 64 token_hash.

Definition owned_by (pubkey : string) (r : InboxToken) : bool := String.eqb (it_pubkey r) pubkey.
Definition token_is (pubkey token_hash : string) (r : InboxToken) : bool :=
  owned_by pubkey r && String.eqb (it_token_hash r) token_hash.

(** Newest first. *)
Definition _fetch_inbox_tokens_for_pubkey (pubkey : string) : M (list InboxToken) :=
  sql (fun db => (order_by (fun r => - it_created_at r)%Z (List.filter (owned_by pubkey) (t_inbox_tokens db)), db)).

(** [db.delete(row)] for each row; a row is known by its key and hash. *)
Definition delete_tokens (rows : list InboxToken) : M unit :=
  sql (fun db => (tt, set_inbox_tokens
    (List.filter (fun r => negb (existsb (fun x => token_is (it_pubkey x) (it_token_hash x) r) rows)) (t_inbox_tokens db)) db)).

(** (registered, rotated) *)
Definition register_inbox_token (token_hash : string) (current : Session) : M (bool * bool) :=
  let! pubkey := fromhex_ (pubkey_hex current) in
  let! now := now_ in
  let! rows := _fetch_inbox_tokens_for_pubkey pubkey in
  if existsb (fun r => String.eqb (it_token_hash r) token_hash) rows then ret (true, false)
  else
    let! _ := delete_tokens (drop (MAX_TOKENS_PER_PUBKEY - 1) rows) in
    let! _ := sql (fun db =>
      (tt, set_inbox_tokens (t_inbox_tokens db ++ [mkInboxToken pubkey token_hash now]) db)) in
    ret (true, match rows with [] => false | _ => true end).

Definition revoke_inbox_token (token_hash : string) (current : Session) : M bool :=
  let! pubkey := fromhex_ (pubkey_hex current) in
  let! _ := sql (fun db =>
    (tt, set_inbox_tokens (snd (delete_where (token_is pubkey token_hash) (t_inbox_tokens db))) db)) in
  ret true.

(** ** Sending *)

Record SealedEnvelopeIn := mkSealed {
  s_to : string; s_ts : Z; s_ttl : Z; s_blob : string; s_delivery_token : string; s_delete_key_hash : option string
}.
Definition valid_SealedEnvelopeIn (b : SealedEnvelopeIn) : bool :=
  hex_of_len 64 (s_to b) && (60 <=? s_ttl b)%Z && (s_ttl b <=? 60 * 60 * 24 * 30)%Z && (1 <=? string_len (s_blob b))%Z
  && hex_of_len 64 (s_delivery_token b)
  && match s_delete_key_hash b with Some h => hex_of_len 64 h | None => true end.

Definition sealed_limit_key (token_hash : string) : string := "morok:rl:sealed:" +:+ token_hash.

Definition _check_token_rate_limit (token_hash : string) (limit : Z) : M unit :=
  let key := sealed_limit_key token_hash in
  try_except
    (let! count := redis_ (rcall (INCR key) as_int) in
     let! _ := (if (count =? 1)%Z then cmd_ (EXPIRE key 60) else ret tt) in
     if (limit <? count)%Z then http 429 "sealed_rate_limit_exceeded" else ret tt)
    (fun e => match e with HTTPException _ _ => raise e | _ => ret tt end).

Definition sealed_id `{Sha256} (recipient_pubkey : string) (ts : Z) (blob_bytes : string) : option string :=
  t ← to_bytes_8 ts;
  Some (sha256_hex ("sealed.v1" +:+ recipient_pubkey +:+ t +:+ sha256 blob_bytes)).

Definition sealed_args (s : Settings) (body : SealedEnvelopeIn) (id : string) : enqueue_args :=
  EnqueueArgs id "" (s_to body) (s_ts body) (s_ttl body) "" (message_ttl_hard_seconds s) None true
    (s_delete_key_hash body) None None None None.

(** The checks of time, ciphertext, recipient and token: the recipient's key, the ciphertext and the
    hash of the token. *)
Definition admit_sealed `{Sha256} (s : Settings) (body : SealedEnvelopeIn) : M (string * string * string) :=
  let! now := now_ in
  if (s_ts body <? now - 300)%Z then http 400 "envelope_too_old"
  else if (now + 60 <? s_ts body)%Z then http 400 "envelope_from_the_future"
  else
    match b64decode (s_blob body) with
    | None => http 400 "blob_not_base64"
    | Some blob_bytes =>
        if (max_blob_bytes s <? string_len blob_bytes)%Z then http 413 (envelope_too_large s)
        else
          let! recipient_pubkey := fromhex_ (s_to body) in
          let! recipient := find_user recipient_pubkey in
          match recipient with
          | None => http 404 "recipient_unknown"
          | Some recipient =>
              if negb (String.eqb (u_home_relay recipient) (relay_name s))
              then http 421 "recipient_not_local_post_to_home_relay"
              else
                let! token := fromhex_ (s_delivery_token body) in
                let presented_hash := sha256_hex token in
                let! token_row := sql (fun db =>
                  (select_one (token_is recipient_pubkey presented_hash) (t_inbox_tokens db), db)) in
                match token_row with
                | None => http 403 "invalid_delivery_token"
                | Some _ => ret (recipient_pubkey, blob_bytes, presented_hash)
                end
          end
    end.

Definition send_sealed_envelope `{Sha256} (s : Settings) (body : SealedEnvelopeIn) : M EnvelopeAck :=
  let! (recipient_pubkey, blob_bytes, presented_hash) := admit_sealed s body in
  let! _ := _check_token_rate_limit presented_hash (rate_limit_sealed_per_minute s) in
  match sealed_id recipient_pubkey (s_ts body) blob_bytes with
  | None => raise OverflowError
  | Some id =>
      let! dup := envelope_exists id in
      if (dup : bool) then ret (mkAck id false 0)
      else
        let! expires_at := write_blob_then_enqueue (sealed_args s body id) blob_bytes in
        match expires_at with
        | None => ret (mkAck id false 0)
        | Some t =>
            let! _ := spawn (TPush [s_to body]) in
            ret (mkAck id true t)
        end
  end.

(** ** Deleting *)

Definition valid_SealedDeleteRequest (delete_key : string) : bool := hex_of_len 64 delete_key.

Definition delete_sealed `{Sha256} (envelope_id delete_key : string) : M unit :=
  if negb (well_formed_id envelope_id) then http 400 "malformed_envelope_id"
  else
    let! (_, _, err) := delete_sealed_envelope envelope_id delete_key in
    match err with
    | Some _ => http 403 "delete_not_authorized"
    | None => ret tt
    end.
