(* ===== verification/SealedFacts.v ===== *)
(** * Sealed sender: properties

    Who is let in, how many delivery tokens a key has and which of them are given up, and what
    becomes of the limit of a token when the server does not set its time to live. *)

From Stdlib Require Import Ascii String Sorted.
From stdpp Require Import prelude gmap strings list.
From S2P Require Import Prelude Json Codec RedisStore Models Effects Crypto Payloads Config Sessions RateLimit Deps Logic.
From S2P Require Import RateLimitFacts BlobStorage Queue QueueFacts MailboxFacts Messages MessagesFacts Sealed.

#[local] Open Scope morok_scope.

(** ** Admission *)

Section Send.
  Context `{Sha256} (s : Settings) (body : SealedEnvelopeIn).

(** The envelope is dated now, its ciphertext fits, and it is for a user of this relay who gave out
    the token it shows. *)
Record let_in (now : Z) (db : database) (rk blob h : string) : Prop := {
  in_fresh : (now - 300 <= s_ts body <= now + 60)%Z;
  in_blob : b64decode (s_blob body) = Some blob /\ (string_len blob <= max_blob_bytes s)%Z;
  in_recipient : bytes_fromhex (s_to body) = Some rk;
  in_local : exists u, user_of rk db = Some u /\ u_home_relay u = relay_name s;
  in_token : exists token row, bytes_fromhex (s_delivery_token body) = Some token /\ h = sha256_hex token /\
    row ∈ t_inbox_tokens db /\ it_pubkey row = rk /\ it_token_hash row = h
}.

Lemma token_is_spec rk h r : token_is rk h r = true <-> it_pubkey r = rk /\ it_token_hash r = h.
Proof. unfold token_is, owned_by. by rewrite andb_true_iff, !String.eqb_eq. Qed.

Lemma run_admit_sealed (w : vworld) :
  (exists rk blob h, let_in (w_now w) (w_work w) rk blob h /\ run_doc (admit_sealed s body) w = (Ok (rk, blob, h), w)) \/
  (exists e, run_doc (admit_sealed s body) w = (Raise e, w) /\ forall rk blob h, ~ let_in (w_now w) (w_work w) rk blob h).
Proof.
  unfold admit_sealed. rewrite run_doc_bind, run_doc_now.
  destruct (Z.ltb_spec (s_ts body) (w_now w - 300)); [right; eexists; split; [done|]; intros ??? []; lia|].
  destruct (Z.ltb_spec (w_now w + 60) (s_ts body)); [right; eexists; split; [done|]; intros ??? []; lia|].
  destruct (b64decode (s_blob body)) as [blob|] eqn:Eb;
    [|right; eexists; split; [done|]; intros ??? [_ [? _]]; congruence].
  destruct (Z.ltb_spec (max_blob_bytes s) (string_len blob));
    [right; eexists; split; [done|]; intros ??? [_ [? ?]]; simplify_eq; lia|].
  rewrite run_doc_bind, run_fromhex. destruct (bytes_fromhex (s_to body)) as [rk|] eqn:Er;
    [|right; eexists; split; [done|]; intros ??? []; congruence].
  rewrite run_doc_bind, run_find_user. destruct (user_of rk (w_work w)) as [u|] eqn:Eu;
    [|right; eexists; split; [done|]; intros ??? [_ _ ? (? & ? & _) _]; congruence].
  destruct (String.eqb_spec (u_home_relay u) (relay_name s)) as [Eh|Eh]; cbn [negb];
    [|right; eexists; split; [done|]; intros ??? [_ _ ? (? & ? & ?) _]; congruence].
  rewrite run_doc_bind, run_fromhex. destruct (bytes_fromhex (s_delivery_token body)) as [token|] eqn:Et;
    [|right; eexists; split; [done|]; intros ??? [_ _ _ _ (? & ? & ? & _)]; congruence].
  cbv zeta. rewrite run_doc_bind, run_doc_sql. cbn [fst snd].
  assert (Ew : set_databases (w_db w) (w_work w) w = w) by by destruct w. rewrite Ew.
  destruct (select_one _ (t_inbox_tokens (w_work w))) as [row|] eqn:Es.
  - left. apply select_in in Es as [Hin [Hk Hh]%token_is_spec]. do 3 eexists. split; [|done]. split; eauto.
    exists token, row. done.
  - right. eexists. split; [done|]. intros rk' blob' h [_ _ Hr _ (token' & row & Ht & Hh & Hin & Hk & Hth)]. simplify_eq.
    apply list_elem_of_In in Hin. pose proof (List.find_none _ _ Es row Hin) as Hno. cbn in Hno.
    assert (Hyes : token_is (it_pubkey row) (sha256_hex token) row = true) by by apply token_is_spec. congruence.
Qed.

(** The rest of the handler. *)
Definition after_admission (rk blob h : string) : M EnvelopeAck :=
  let! _ := _check_token_rate_limit h (rate_limit_sealed_per_minute s) in
  match sealed_id rk (s_ts body) blob with
  | None => raise OverflowError
  | Some id =>
      let! dup := envelope_exists id in
      if (dup : bool) then ret (mkAck id false 0)
      else
        let! expires_at := write_blob_then_enqueue (sealed_args s body id) blob in
        match expires_at with
        | None => ret (mkAck id false 0)
        | Some t =>
            let! _ := spawn (TPush [s_to body]) in
            ret (mkAck id true t)
        end
  end.

Lemma no_sql_limit h n : no_sql (_check_token_rate_limit h n).
Proof. unfold _check_token_rate_limit, http. no_sql. Qed.

Lemma no_sql_after rk blob h : no_sql (after_admission rk blob h).
Proof.
  unfold after_admission. apply no_sql_bind; [apply no_sql_limit|]. intros _.
  unfold envelope_exists, spawn. no_sql. apply no_sql_write_enqueue.
Qed.

Lemma sealed_names rk blob h (w : vworld) a :
  fst (run_doc (after_admission rk blob h) w) = Ok a -> sealed_id rk (s_ts body) blob = Some (ack_envelope_id a).
Proof.
  unfold after_admission. rewrite run_doc_bind. destruct (run_doc (_check_token_rate_limit _ _) w) as [[[]|] w1]; [|done].
  destruct (sealed_id rk (s_ts body) blob) as [id|]; [|done].
  rewrite run_doc_bind. destruct (run_doc (envelope_exists id) w1) as [[[]|] w2]; cbn [fst snd]; [by intros [= <-]| |done].
  rewrite run_doc_bind. destruct (run_doc (write_blob_then_enqueue _ _) w2) as [[[t|]|] w3]; [|by intros [= <-]|done].
  rewrite run_doc_bind, run_doc_spawn. by intros [= <-].
Qed.

Lemma run_send_sealed (w : vworld) :
  w_work w = w_db w ->
  let x := run_doc (with_session (send_sealed_envelope s body)) w in
  tables_of (snd x) = tables_of w /\
  (forall a, fst x = Ok a -> exists rk blob h, let_in (w_now w) (w_db w) rk blob h /\
     sealed_id rk (s_ts body) blob = Some (ack_envelope_id a)) /\
  ((forall rk blob h, ~ let_in (w_now w) (w_db w) rk blob h) -> (exists e, fst x = Raise e) /\ snd x = w).
Proof.
  intros Hw. cbv zeta. rewrite run_with_session. cbn [fst snd].
  destruct (run_admit_sealed w) as [(rk & blob & h & Hin & E)|(e & E & Hno)]; rewrite Hw in *.
  - assert (Er : run_doc (send_sealed_envelope s body) w = run_doc (after_admission rk blob h) w).
    { unfold send_sealed_envelope. by rewrite run_doc_bind, E. }
    rewrite Er. pose proof (run_no_sql _ w (no_sql_after rk blob h)) as Ht.
    pose proof (sealed_names rk blob h w) as Hn.
    destruct (run_doc (after_admission rk blob h) w) as [r w']. cbn [fst snd] in *. unfold tables_of in *.
    injection Ht as Hd Hk. split_and!.
    + destruct r; cbn; congruence.
    + intros a Ha. exists rk, blob, h. auto.
    + intros Hno. by destruct (Hno _ _ _ Hin).
  - assert (Er : run_doc (send_sealed_envelope s body) w = (Raise e, w)).
    { unfold send_sealed_envelope. by rewrite run_doc_bind, E. }
    rewrite Er. cbn. unfold tables_of. cbn. split_and!; [by rewrite Hw|done|]. intros _. split; [by eexists|].
    destruct w. cbn in *. by subst.
Qed.
End Send.

(** ** The tokens of a key *)

Definition token_key (r : InboxToken) : string * string := (it_pubkey r, it_token_hash r).

(** The primary key of [inbox_tokens]. *)
Definition distinct_tokens (db : database) : Prop := NoDup (map token_key (t_inbox_tokens db)).

Lemma filter_perm {A} (p : A -> bool) l l' : l ≡ₚ l' -> List.filter p l ≡ₚ List.filter p l'.
Proof.
  induction 1; cbn; [done|by case_match; rewrite IHPermutation| |by etrans].
  do 2 case_match; try done. apply Permutation_swap.
Qed.

Lemma filter_all {A} (p : A -> bool) l : (forall x, x ∈ l -> p x = true) -> List.filter p l = l.
Proof.
  induction l as [|x l IH]; intros Hp; [done|]. cbn. rewrite Hp by by left. f_equal. apply IH. intros y Hy. apply Hp. by right.
Qed.
Lemma filter_none {A} (p : A -> bool) l : (forall x, x ∈ l -> p x = false) -> List.filter p l = [].
Proof.
  induction l as [|x l IH]; intros Hp; [done|]. cbn. rewrite Hp by by left. apply IH. intros y Hy. apply Hp. by right.
Qed.
Lemma filter_filter_comm {A} (p q : A -> bool) l : List.filter p (List.filter q l) = List.filter q (List.filter p l).
Proof.
  induction l as [|x l IH]; [done|]. cbn. destruct (p x) eqn:Hp, (q x) eqn:Hq; cbn; rewrite ?Hp, ?Hq, IH; done.
Qed.

(** Not one of [gone]. *)
Definition survives (gone : list InboxToken) (r : InboxToken) : bool :=
  negb (existsb (fun x => token_is (it_pubkey x) (it_token_hash x) r) gone).

Lemma survives_spec gone r : survives gone r = true <-> token_key r ∉ map token_key gone.
Proof.
  unfold survives. rewrite negb_true_iff, <- not_true_iff_false, existsb_exists, list_elem_of_fmap. split.
  - intros Hn (x & Hk & Hx). apply Hn. exists x. rewrite <- list_elem_of_In. split; [done|].
    unfold token_key in Hk. apply token_is_spec. by injection Hk.
  - intros Hn (x & Hx & [Hk Hh]%token_is_spec). apply Hn. exists x. rewrite list_elem_of_In. split; [|done].
    unfold token_key. congruence.
Qed.

(** Of rows with distinct keys, those outside a part are the others. *)
Lemma survivors rows kept gone :
  NoDup (map token_key rows) -> rows ≡ₚ kept ++ gone -> List.filter (survives gone) rows ≡ₚ kept.
Proof.
  intros Hd Hp. rewrite (filter_perm _ _ _ Hp), List.filter_app.
  assert (Hn : NoDup (map token_key kept ++ map token_key gone)).
  { rewrite <- map_app. unfold map. by rewrite <- (fmap_Permutation token_key _ _ Hp). }
  apply NoDup_app in Hn as (_ & Hdis & _).
  rewrite (filter_all _ kept), (filter_none _ gone), app_nil_r; [done|..].
  - intros x Hx. apply not_true_iff_false. rewrite survives_spec. intros Hno. apply Hno. by apply list_elem_of_fmap_2.
  - intros x Hx. apply survives_spec. apply Hdis. by apply list_elem_of_fmap_2.
Qed.

Section Tokens.
  Context (h : string) (current : Session) (pk : string).
  Hypothesis Hpk : bytes_fromhex (pubkey_hex current) = Some pk.

Definition mine (db : database) : list InboxToken := List.filter (owned_by pk) (t_inbox_tokens db).
Definition others (db : database) : list InboxToken := List.filter (fun r => negb (owned_by pk r)) (t_inbox_tokens db).
Definition newest (db : database) : list InboxToken := order_by (fun r => - it_created_at r)%Z (mine db).

Lemma run_register (w : vworld) :
  run_doc (register_inbox_token h current) w =
  (if existsb (fun r => String.eqb (it_token_hash r) h) (newest (w_work w)) then (Ok (true, false), w)
   else (Ok (true, match newest (w_work w) with [] => false | _ => true end),
         set_databases (w_db w)
           (set_inbox_tokens
              (List.filter (survives (drop (MAX_TOKENS_PER_PUBKEY - 1) (newest (w_work w)))) (t_inbox_tokens (w_work w)) ++
               [mkInboxToken pk h (w_now w)]) (w_work w)) w)).
Proof.
  unfold register_inbox_token. rewrite run_doc_bind, (run_doc_fromhex _ _ w Hpk), run_doc_bind, run_doc_now.
  unfold _fetch_inbox_tokens_for_pubkey. rewrite run_doc_bind, run_doc_sql. cbn [fst snd]. fold (mine (w_work w)).
  fold (newest (w_work w)).
  assert (Ew : set_databases (w_db w) (w_work w) w = w) by by destruct w. rewrite Ew.
  destruct (existsb _ _); [done|]. unfold delete_tokens. by rewrite run_doc_bind, run_doc_sql, run_doc_bind, run_doc_sql.
Qed.
End Tokens.

(** Registration on the tables. *)
Definition registered (h pk : string) (now : Z) (db db' : database) : Prop :=
  db' = set_inbox_tokens (t_inbox_tokens db') db /\ distinct_tokens db' /\ others pk db' = others pk db /\
  if bool_decide ((pk, h) ∈ map token_key (t_inbox_tokens db)) then db' = db
  else mine pk db' ≡ₚ mkInboxToken pk h now :: take (MAX_TOKENS_PER_PUBKEY - 1) (newest pk db) /\
       (length (mine pk db') <= MAX_TOKENS_PER_PUBKEY)%nat /\
       (forall lost kept, lost ∈ mine pk db -> lost ∉ mine pk db' -> kept ∈ mine pk db' -> kept ∈ mine pk db ->
          (it_created_at lost <= it_created_at kept)%Z).

Lemma mine_in pk db r : r ∈ mine pk db <-> r ∈ t_inbox_tokens db /\ it_pubkey r = pk.
Proof. unfold mine, owned_by. by rewrite list_elem_of_In, List.filter_In, <- list_elem_of_In, String.eqb_eq. Qed.

Lemma newest_perm pk db : newest pk db ≡ₚ mine pk db.
Proof. apply order_by_perm. Qed.

Lemma newest_has h pk db :
  existsb (fun r => String.eqb (it_token_hash r) h) (newest pk db) =
  bool_decide ((pk, h) ∈ map token_key (t_inbox_tokens db)).
Proof.
  apply eq_true_iff_eq. rewrite existsb_exists, bool_decide_eq_true, list_elem_of_fmap. split.
  - intros (r & Hr & Hh%String.eqb_eq). rewrite <- list_elem_of_In, (newest_perm pk db), mine_in in Hr.
    destruct Hr as [Hr Hp]. exists r. split; [|done]. unfold token_key. congruence.
  - intros (r & [= -> ->] & Hr). exists r. rewrite <- list_elem_of_In, (newest_perm _ db), mine_in.
    split; [done|]. by apply String.eqb_eq.
Qed.

Lemma newest_distinct pk db : distinct_tokens db -> NoDup (map token_key (newest pk db)).
Proof.
  intros Hd. unfold map. rewrite (fmap_Permutation token_key _ _ (newest_perm pk db)).
  eapply sublist_NoDup; [exact Hd|]. apply (fmap_sublist token_key), (filter_sublist (A := InboxToken)).
Qed.

Lemma register_tables h pk now db :
  distinct_tokens db -> (pk, h) ∉ map token_key (t_inbox_tokens db) ->
  let gone := drop (MAX_TOKENS_PER_PUBKEY - 1) (newest pk db) in
  let new := mkInboxToken pk h now in
  registered h pk now db
    (set_inbox_tokens (List.filter (survives gone) (t_inbox_tokens db) ++ [new]) db).
Proof.
  intros Hd Hnew gone new.
  assert (Hgone : forall r, r ∈ gone -> it_pubkey r = pk).
  { intros r Hr. assert (Hin : r ∈ newest pk db) by (rewrite <- (take_drop (MAX_TOKENS_PER_PUBKEY - 1) (newest pk db)); by apply elem_of_app; right).
    rewrite (newest_perm pk db), mine_in in Hin. apply Hin. }
  assert (Hmine : List.filter (survives gone) (mine pk db) ≡ₚ take (MAX_TOKENS_PER_PUBKEY - 1) (newest pk db)).
  { rewrite <- (filter_perm _ _ _ (newest_perm pk db)). apply survivors; [by apply newest_distinct|]. subst gone. by rewrite take_drop. }
  assert (Hm' : mine pk (set_inbox_tokens (List.filter (survives gone) (t_inbox_tokens db) ++ [new]) db)
                ≡ₚ new :: take (MAX_TOKENS_PER_PUBKEY - 1) (newest pk db)).
  { unfold mine at 1. cbn [t_inbox_tokens set_inbox_tokens]. rewrite List.filter_app. cbn [List.filter]. unfold owned_by at 2.
    cbn [it_pubkey new]. rewrite String.eqb_refl, filter_filter_comm. fold (mine pk db). rewrite Hmine.
    by rewrite Permutation_app_comm. }
  split; [done|]. split; [|split].
  - unfold distinct_tokens. cbn [t_inbox_tokens set_inbox_tokens]. rewrite map_app. apply NoDup_app. split_and!.
    + eapply sublist_NoDup; [exact Hd|]. apply (fmap_sublist token_key), (filter_sublist (A := InboxToken)).
    + intros k Hk Hk'. apply list_elem_of_singleton in Hk' as ->. apply Hnew. apply list_elem_of_fmap in Hk as (r & Hk & Hr).
      apply list_elem_of_fmap. exists r. split; [done|]. apply list_elem_of_In. apply list_elem_of_In, List.filter_In in Hr. apply Hr.
    + apply NoDup_singleton.
  - unfold others. cbn [t_inbox_tokens set_inbox_tokens]. rewrite List.filter_app. cbn [List.filter]. unfold owned_by at 2.
    cbn [it_pubkey new]. rewrite String.eqb_refl, filter_filter_comm. cbn [negb]. rewrite app_nil_r.
    apply filter_all. intros r Hr. apply list_elem_of_In, List.filter_In in Hr as [_ Hr]. apply survives_spec.
    intros (x & Hk & Hx%Hgone)%list_elem_of_fmap. unfold token_key in Hk. injection Hk as Hk _.
    unfold owned_by in Hr. rewrite Hk, Hx, String.eqb_refl in Hr. done.
  - rewrite bool_decide_false by done. split; [done|]. split.
    + rewrite Hm'. cbn [length]. rewrite length_take. unfold MAX_TOKENS_PER_PUBKEY. lia.
    + intros lost kept Hl Hnl Hk Hk0. rewrite Hm' in Hnl, Hk.
      assert (Hkt : kept ∈ take (MAX_TOKENS_PER_PUBKEY - 1) (newest pk db)).
      { apply elem_of_cons in Hk as [->|Hk]; [|done]. exfalso. apply Hnew. apply mine_in in Hk0 as [Hk0 _].
        by apply (list_elem_of_fmap_2 token_key) in Hk0. }
      assert (Hld : lost ∈ gone).
      { rewrite <- (newest_perm pk db) in Hl. rewrite <- (take_drop (MAX_TOKENS_PER_PUBKEY - 1) (newest pk db)) in Hl.
        apply elem_of_app in Hl as [Hl|Hl]; [|done]. exfalso. apply Hnl. by right. }
      pose proof (sorted_take (fun a b => (- it_created_at a <= - it_created_at b)%Z) (MAX_TOKENS_PER_PUBKEY - 1)
        (newest pk db) kept lost (order_by_sorted _ _) Hkt Hld) as Hle. cbn in Hle. lia.
Qed.

Lemma run_revoke_token h current pk (w : vworld) :
  bytes_fromhex (pubkey_hex current) = Some pk ->
  run_doc (revoke_inbox_token h current) w =
  (Ok true, set_databases (w_db w)
     (set_inbox_tokens (List.filter (fun r => negb (token_is pk h r)) (t_inbox_tokens (w_work w))) (w_work w)) w).
Proof.
  intros Hpk. unfold revoke_inbox_token. by rewrite run_doc_bind, (run_doc_fromhex _ _ w Hpk), run_doc_bind, run_doc_sql.
Qed.

(** ** The limit of a token *)

(** The counter is at [n] and stays for ever. *)
Definition for_ever (key : string) (n : Z) (v : rview) : Prop :=
  (0 < n)%Z /\ rv_keys v !! key = Some (Entry (VStr (print_Z n)) None).

Lemma for_ever_later key n t (w : vworld) : for_ever key n (w_redis w) -> for_ever key n (w_redis (later t w)).
Proof. intros [Hn Hk]. split; [done|]. cbn. apply map_lookup_filter_Some. by split. Qed.

Section Limit.
  Context (h : string) (limit : Z).

Definition over (n : Z) : res unit :=
  if (limit <? n)%Z then Raise (HTTPException 429 "sealed_rate_limit_exceeded") else Ok tt.

Lemma run_stuck n (w : vworld) :
  calm w -> for_ever (sealed_limit_key h) n (w_redis w) ->
  exists v', run_doc (_check_token_rate_limit h limit) w = (over (n + 1), set_redis v' w) /\
    for_ever (sealed_limit_key h) (n + 1) v'.
Proof.
  intros Hc [Hn Hk].
  assert (Hcount : counts (sealed_limit_key h) n (w_redis w)) by (right; split; [done|by eexists]).
  exists (put (sealed_limit_key h) (Entry (VStr (print_Z (n + 1))) (deadline_of (sealed_limit_key h) (w_redis w))) (w_redis w)).
  split; [|split; [lia|rewrite keys_put_eq; unfold deadline_of; by rewrite Hk]].
  unfold _check_token_rate_limit. rewrite run_doc_try, run_doc_bind, run_doc_redis, rrun_rcall by done.
  rewrite (doc_incr _ _ n _ Hcount). cbn [fst snd as_int res_of]. rewrite (proj2 (Z.eqb_neq (n + 1) 1)) by lia.
  rewrite run_doc_bind, run_doc_ret. unfold over. by destruct (limit <? n + 1)%Z.
Qed.

Lemma run_doc_lost {A} (p : rtx A) (w : vworld) :
  next_fault w = LostRequest -> run_doc (redis_ p) w = (Raise RedisError, pop_fault w).
Proof. intros Hn. unfold run_doc, redis_. cbn [run_exec ev_exec]. by rewrite Hn. Qed.

(** The first post of a token whose [EXPIRE] does not reach the server. *)
Lemma run_lost_expire (w : vworld) rest :
  w_faults w = Fine :: LostRequest :: rest -> rv_keys (w_redis w) !! sealed_limit_key h = None ->
  exists v', run_doc (_check_token_rate_limit h limit) w = (Ok tt, set_faults rest (set_redis v' w)) /\
    for_ever (sealed_limit_key h) 1 v'.
Proof.
  intros Hf Hk. assert (Hcount : counts (sealed_limit_key h) 0 (w_redis w)) by by left.
  exists (put (sealed_limit_key h) (Entry (VStr (print_Z 1)) None) (w_redis w)).
  split; [|split; [done|by rewrite keys_put_eq]].
  unfold _check_token_rate_limit. rewrite run_doc_try, run_doc_bind, run_doc_redis_fine, rrun_rcall
    by (unfold next_fault; by rewrite Hf).
  rewrite (doc_incr _ _ 0 _ Hcount). unfold deadline_of. rewrite Hk. cbn [fst snd as_int res_of].
  change (0 + 1 =? 1)%Z with true. cbv iota.
  unfold pop_fault, set_redis, cmd_. destruct w as [? ? ? ? ? ? ? fs ? ?]. cbn in Hf. subst fs.
  rewrite run_doc_bind, run_doc_lost by done. done.
Qed.
End Limit.

Section Properties.
  Context `{R : Redis} `{Sha256} (s : Settings).

(** The answers of the limit to posts at the given times. *)
Fixpoint posts_at (h : string) (limit : Z) (times : list Z) (w : world rstore) : list (res unit) :=
  match times with
  | [] => []
  | t :: times' =>
      let '(r, w') := run (_check_token_rate_limit h limit) (set_now t w) in
      r :: posts_at h limit times' w'
  end.

Lemma stuck_posts h limit times n (w : world rstore) :
  calm w -> Sorted.StronglySorted Z.le (w_now w :: times) -> for_ever (sealed_limit_key h) n (w_redis (absw w)) ->
  posts_at h limit times w = map (fun i => over limit (n + Z.of_nat i)) (seq 1 (length times)).
Proof.
  revert n w. induction times as [|t times IH]; intros n w Hc Hs Hn; [done|]. cbn [posts_at].
  inv Hs. match goal with Hf : Forall (Z.le _) (t :: _) |- _ => apply Forall_cons in Hf as [Ht _] end.
  destruct (run_stuck h limit n (absw (set_now t w))) as (v' & E & Hv').
  { done. }
  { rewrite absw_later by done. by apply for_ever_later. }
  destruct (run (_check_token_rate_limit h limit) (set_now t w)) as [r w'] eqn:Er.
  pose proof (run_absw _ _ _ _ Er) as Ea. rewrite E in Ea. pose proof (f_equal fst Ea) as Er'. pose proof (f_equal snd Ea) as Ew. cbn [fst snd] in Er', Ew. subst r.
  assert (Hw : w_now w' = t).
  { change (w_now w') with (w_now (absw w')). by rewrite <- Ew. }
  cbn [length seq map]. f_equal. rewrite (IH (n + 1)%Z w').
  - rewrite <- (seq_shift _ 1), map_map. apply map_ext. intros i. f_equal. lia.
  - change (calm (absw w')). by rewrite <- Ew.
  - by rewrite Hw.
  - by rewrite <- Ew.
Qed.

(** Who may post without a name.  Whatever fails, a sealed post is answered with a receipt only
    if it is dated within five minutes back and one ahead, its ciphertext decodes and is not too
    large, and it is for a user of this relay who has registered the hash of the token it shows; the
    receipt names the envelope after the recipient, the time and the ciphertext alone.  The tables
    never change, and a post that is not let in changes nothing anywhere, the token's limit included. *)
Theorem sealed_admission (body : SealedEnvelopeIn) (w : world rstore) :
  w_work w = w_db w ->
  let x := run (with_session (send_sealed_envelope s body)) w in
  tables_of (snd x) = tables_of w /\
  (forall a, fst x = Ok a -> exists rk blob h, let_in s body (w_now w) (w_db w) rk blob h /\
     sealed_id rk (s_ts body) blob = Some (ack_envelope_id a)) /\
  ((forall rk blob h, ~ let_in s body (w_now w) (w_db w) rk blob h) ->
     (exists e, fst x = Raise e) /\ absw (snd x) = absw w).
Proof.
  intros Hw x. subst x. destruct (run_send_sealed s body (absw w) Hw) as (Ht & Hok & Hno). cbv zeta in *.
  rewrite <- fst_run in Hok, Hno. rewrite <- snd_run_absw in Ht, Hno. done.
Qed.

(** Registering a token.  The answer is positive and only the tokens of the caller change: a
    known hash changes nothing, a new one is added and of the old ones the 63 newest stay, so that a
    key that registers never has more than 64 afterwards and none that was given up is newer than
    one that was kept.  No two rows share key and hash. *)
Theorem token_quota (h : string) (current : Session) (pk : string) (w : world rstore) :
  bytes_fromhex (pubkey_hex current) = Some pk -> w_work w = w_db w -> distinct_tokens (w_db w) ->
  let x := run (with_session (register_inbox_token h current)) w in
  (exists rotated, fst x = Ok (true, rotated)) /\ registered h pk (w_now w) (w_db w) (w_db (snd x)).
Proof.
  intros Hpk Hw Hd x. subst x.
  change (w_db (snd (run (with_session (register_inbox_token h current)) w)))
    with (w_db (absw (snd (run (with_session (register_inbox_token h current)) w)))).
  rewrite fst_run, snd_run_absw, run_with_session, (run_register h current pk Hpk), newest_has.
  change (w_work (absw w)) with (w_work w). rewrite Hw. case_bool_decide as Hin; cbn [fst snd w_db w_work set_databases absw set_redis].
  - split; [by eexists|]. rewrite Hw. unfold registered. rewrite bool_decide_true by done. split_and!; try done.
    by destruct (w_db w).
  - split; [by eexists|]. by apply register_tables.
Qed.

(** A revoked token lets nobody in.  After a revocation, whatever fails later, a sealed post to
    the caller that shows the token is refused and changes nothing; posts that show another token,
    or are for somebody else, are let in exactly when they were before. *)
Theorem revoked_token_shut_out (h : string) (current : Session) (pk : string) (body : SealedEnvelopeIn) (w : world rstore) :
  bytes_fromhex (pubkey_hex current) = Some pk -> w_work w = w_db w ->
  let w1 := snd (run (with_session (revoke_inbox_token h current)) w) in
  let x := run (with_session (send_sealed_envelope s body)) w1 in
  fst (run (with_session (revoke_inbox_token h current)) w) = Ok true /\
  (bytes_fromhex (s_to body) = Some pk -> (forall t, bytes_fromhex (s_delivery_token body) = Some t -> sha256_hex t = h) ->
     (exists e, fst x = Raise e) /\ absw (snd x) = absw w1) /\
  (forall rk blob h', (rk, h') <> (pk, h) ->
     let_in s body (w_now w1) (w_db w1) rk blob h' <-> let_in s body (w_now w) (w_db w) rk blob h').
Proof.
  intros Hpk Hw w1 x. pose proof (run_with_session (revoke_inbox_token h current) (absw w)) as E.
  rewrite (run_revoke_token h current pk _ Hpk) in E. cbn [fst snd] in E.
  assert (Ew1 : w_work w1 = w_db w1 /\ w_now w1 = w_now w /\
    w_db w1 = set_inbox_tokens (List.filter (fun r => negb (token_is pk h r)) (t_inbox_tokens (w_db w))) (w_db w)).
  { pose proof (f_equal snd E) as E1. rewrite <- snd_run_absw in E1. fold w1 in E1.
    change (w_work w1) with (w_work (absw w1)). change (w_db w1) with (w_db (absw w1)).
    change (w_now w1) with (w_now (absw w1)). rewrite E1. cbn. by rewrite Hw. }
  destruct Ew1 as (Hw1 & Hn1 & Hd1). split_and!.
  - by rewrite fst_run, E.
  - intros Hto Htok. destruct (run_send_sealed s body (absw w1) Hw1) as (_ & _ & Hno). cbv zeta in Hno.
    rewrite <- fst_run, <- snd_run_absw in Hno. apply Hno. intros rk blob h' [_ _ Hr _ (t & row & Ht & Hh & Hin & Hk & Hh')].
    change (w_db (absw w1)) with (w_db w1) in Hin. rewrite Hd1 in Hin. apply list_elem_of_In, List.filter_In in Hin as [_ Hin].
    assert (Hyes : token_is pk h row = true) by (apply token_is_spec; rewrite (Htok t Ht) in Hh; split; congruence).
    by rewrite Hyes in Hin.
  - intros rk blob h' Hne. rewrite Hn1, Hd1.
    split; intros [? ? ? ? (t & row & Ht & Hh & Hin & Hk & Hh')]; split; try done; exists t, row; split_and!; try done.
    + cbn in Hin. apply list_elem_of_In, List.filter_In in Hin as [Hin _]. by apply list_elem_of_In.
    + cbn. apply list_elem_of_In, List.filter_In. split; [by apply list_elem_of_In|].
      apply negb_true_iff, not_true_iff_false. intros [? ?]%token_is_spec. congruence.
Qed.

(** One lost [EXPIRE] shuts a token out for good.  The limit is a counter that is given a minute
    to live when it is created; when that second request does not reach the server, the post is let
    through and the counter stays for ever, so that of the later posts, however far apart, only the
    first [limit - 1] are let through: every one after them is refused, on a server where nothing
    fails any more. *)
Theorem lost_expire_blocks_token (h : string) (limit : Z) (times : list Z) (w : world rstore) :
  w_faults w = [Fine; LostRequest] -> rv_keys (w_redis (absw w)) !! sealed_limit_key h = None ->
  Sorted.StronglySorted Z.le (w_now w :: times) ->
  let '(r, w1) := run (_check_token_rate_limit h limit) w in
  r = Ok tt /\ posts_at h limit times w1 = map (fun i => over limit (1 + Z.of_nat i)) (seq 1 (length times)).
Proof.
  intros Hf Hk Hs. destruct (run_lost_expire h limit (absw w) [] Hf Hk) as (v' & E & Hv').
  destruct (run (_check_token_rate_limit h limit) w) as [r w1] eqn:Er.
  pose proof (run_absw _ _ _ _ Er) as Ea. rewrite E in Ea. pose proof (f_equal fst Ea) as Er'. pose proof (f_equal snd Ea) as Ew. cbn [fst snd] in Er', Ew. subst r. split; [done|].
  apply stuck_posts.
  - change (calm (absw w1)). by rewrite <- Ew.
  - change (w_now w1) with (w_now (absw w1)). by rewrite <- Ew.
  - by rewrite <- Ew.
Qed.
End Properties.

(** ** Witnesses *)

Module SealedDemo.
Import MessagesDemo.
#[local] Instance sealed_sha : Sha256 := demo_sha.

Definition token : string := twice 32 "77".
Definition hash_of (hex : string) : string := sha256_hex (key_of hex).
Definition people_with (rows : list InboxToken) : database := set_inbox_tokens rows people.
Definition sealed_relay (rows : list InboxToken) : world (rstore (Redis := Mem_Redis)) :=
  set_databases (people_with rows) (people_with rows) (relay []).
Definition bobs : InboxToken := mkInboxToken (key_of bob) (hash_of token) 500.
Definition sealed_letter (tok : string) : SealedEnvelopeIn := mkSealed bob 1000 600 "QUJD" tok None.

Lemma sealed_witness :
  let x := run (with_session (send_sealed_envelope settings (sealed_letter token))) (sealed_relay [bobs]) in
  (exists a, fst x = Ok a /\ sealed_id (key_of bob) 1000 "ABC" = Some (ack_envelope_id a)) /\
  exists e, fst (run (with_session (send_sealed_envelope settings (sealed_letter alice))) (sealed_relay [bobs])) = Raise e.
Proof.
  destruct (sealed_admission settings (sealed_letter token) (sealed_relay [bobs]) eq_refl) as (_ & Hok & _).
  destruct (sealed_admission settings (sealed_letter alice) (sealed_relay [bobs]) eq_refl) as (_ & _ & Hno).
  split.
  - match type of Hok with forall a, ?r = _ -> _ => destruct r as [a|e] eqn:E end; [|vm_compute in E; discriminate].
    exists a. split; [reflexivity|]. destruct (Hok a eq_refl) as (rk & blob & h & Hin & Hid).
    rewrite <- Hid. destruct Hin as [_ [Hb _] Hr _ _]. vm_compute in Hb, Hr. injection Hb as <-. injection Hr as <-.
    vm_compute. reflexivity.
  - apply Hno. intros rk blob h [_ _ _ _ (t & row & Ht & Hh & Hin & _ & Hrow)].
    change (row ∈ [bobs]) in Hin. apply list_elem_of_singleton in Hin. subst row. vm_compute in Ht. injection Ht as <-.
    rewrite Hh in Hrow. vm_compute in Hrow. discriminate.
Defined.

(** Seventy old tokens. *)
Definition crowd : list InboxToken :=
  map (fun i => mkInboxToken (key_of bob) (print_Z (Z.of_nat i)) (Z.of_nat i)) (seq 0 70).

Lemma token_quota_witness :
  length (mine (key_of bob) (w_db (snd (run (with_session (register_inbox_token (hash_of token) (session bob)))
    (sealed_relay crowd))))) = 64%nat.
Proof.
  assert (Hd : distinct_tokens (people_with crowd)).
  { apply (bool_decide_unpack _). vm_compute. reflexivity. }
  destruct (token_quota (hash_of token) (session bob) (key_of bob) (sealed_relay crowd) eq_refl eq_refl Hd) as (_ & _ & _ & _ & Hreg).
  rewrite bool_decide_false in Hreg by (apply (bool_decide_unpack _); vm_compute; reflexivity).
  destruct Hreg as (_ & Hle & _). apply Nat.le_antisymm; [exact Hle|]. apply Nat.leb_le. vm_compute. reflexivity.
Defined.

Lemma revoked_witness :
  let w1 := snd (run (with_session (revoke_inbox_token (hash_of token) (session bob))) (sealed_relay [bobs])) in
  exists e, fst (run (with_session (send_sealed_envelope settings (sealed_letter token))) w1) = Raise e.
Proof.
  destruct (revoked_token_shut_out settings (hash_of token) (session bob) (key_of bob) (sealed_letter token)
    (sealed_relay [bobs]) eq_refl eq_refl) as (_ & Hno & _).
  apply Hno; [reflexivity|]. intros t Ht. vm_compute in Ht. injection Ht as <-. reflexivity.
Defined.

Definition unlucky : world (rstore (Redis := Mem_Redis)) := set_faults [Fine; LostRequest] (sealed_relay [bobs]).

(** With a limit of two, a post a day. *)
Lemma blocked_witness :
  posts_at (hash_of token) 2 [87400; 173800; 260200]%Z (snd (run (_check_token_rate_limit (hash_of token) 2) unlucky)) =
  [Ok tt; over 2 3; over 2 4].
Proof.
  pose proof (lost_expire_blocks_token (hash_of token) 2 [87400; 173800; 260200]%Z unlucky) as Hb.
  destruct (run (_check_token_rate_limit (hash_of token) 2) unlucky) as [r w1].
  destruct Hb as [_ Hb]; [reflexivity|vm_compute; reflexivity| |exact Hb].
  repeat constructor; vm_compute; discriminate.
Defined.
End SealedDemo.
