(* ===== verification/Groups.v ===== *)
(** * Groups and channels (api/groups.py): rows, members and invites

    A handler runs inside [with_session]; the rate limits in front are [rate_limit_by_pubkey].  A
    loaded group is the row and its members, as [selectinload] gives them; the row lock of
    [add_member] makes it one run.  New ids, random UUIDs, are drawn from the world's random tokens.
    The messages of groups are in [GroupMessages], the copies of groups that other relays host in
    [GroupSync]. *)

From Stdlib Require Import Ascii String.
From stdpp Require Import prelude gmap strings list.
From S2P Require Import Prelude Json Codec RedisStore Models Effects Crypto Payloads Config Sessions RateLimit Deps.
From S2P Require Import Queue TokenSets BurnerTokens InviteTokens.
From S2P Require Dms.
From S2P Require Import Messages.

#[local] Open Scope morok_scope.

(** ** Request bodies (schemas.py) *)

Definition GROUP_NAME_MAX_BYTES : Z := 2048.
Definition GROUP_DEFAULT_TTL_MIN : Z := 60.
Definition GROUP_DEFAULT_TTL_MAX : Z := 86400.
Definition SLUG_MIN_LEN : Z := 3.
Definition SLUG_MAX_LEN : Z := 20.
Definition RESERVED_SLUGS : list string :=
  [ "admin"; "support"; "official"; "morok"; "settings"; "dashboard"; "channel"; "group"; "channels"; "groups";
    "api"; "docs"; "help"; "about"; "terms"; "privacy"; "discover"; "trending"; "popular"; "verified" ].

(** [s.lstrip(c)] *)
Fixpoint lstrip_char (c : ascii) (s : string) : string :=
  match s with
  | String d s' => if Ascii.eqb d c then lstrip_char c s' else s
  | EmptyString => EmptyString
  end.
Definition normalize_slug (raw : string) : string := lower (lstrip_char "@" (lstrip_char "/" (strip raw))).

Definition is_slug_char (c : ascii) : bool :=
  let n := N_of_ascii c in
  ((97 <=? n) && (n <=? 122) || (48 <=? n) && (n <=? 57) || (n =? 95))%N.
Definition starts_badly (s : string) : bool :=
  match s with
  | String c _ => let n := N_of_ascii c in ((48 <=? n) && (n <=? 57) || (n =? 95))%N
  | EmptyString => false
  end.

(** [None] is its [ValueError]. *)
Definition validate_slug (slug : string) : option string :=
  let s := normalize_slug slug in
  if String.eqb s "" || negb (string_forallb is_slug_char s) || starts_badly s
     || (string_len s <? SLUG_MIN_LEN)%Z || (SLUG_MAX_LEN <? string_len s)%Z || bool_decide (s ∈ RESERVED_SLUGS)
  then None else Some s.

Record GroupCreate := mkGroupCreate {
  gc_name_encrypted : string; gc_is_channel : bool; gc_default_ttl_seconds : Z; gc_anonymous_senders : bool;
  gc_expires_at : option Z; gc_slug : option string
}.
Definition name_is_valid_base64 (v : string) : bool :=
  match b64decode v with
  | Some decoded => negb (String.eqb decoded "") && (string_len decoded <=? GROUP_NAME_MAX_BYTES)%Z
  | None => false
  end.
Definition validate_GroupCreate (b : GroupCreate) : option GroupCreate :=
  if name_is_valid_base64 (gc_name_encrypted b)
     && (GROUP_DEFAULT_TTL_MIN <=? gc_default_ttl_seconds b)%Z && (gc_default_ttl_seconds b <=? GROUP_DEFAULT_TTL_MAX)%Z
     && match gc_expires_at b with Some t => (0 <=? t)%Z | None => true end
  then
    match gc_slug b with
    | None => Some b
    | Some v =>
        slug ← validate_slug v;
        Some (mkGroupCreate (gc_name_encrypted b) (gc_is_channel b) (gc_default_ttl_seconds b) (gc_anonymous_senders b)
                (gc_expires_at b) (Some slug))
    end
  else None.

(** The body of [add_member] is a key in hexadecimal. *)
Definition valid_GroupAddMemberRequest (pubkey_hex : string) : bool := hex_of_len 64 pubkey_hex.
Definition valid_InviteTokenCreate (ttl_seconds : option Z) : bool :=
  match ttl_seconds with Some n => (3600 <=? n)%Z && (n <=? 30 * 86400)%Z | None => true end.

(** [INVITE_TOKEN_PATTERN.match(token)]: [$] also matches before a final newline. *)
Definition is_token_char (c : ascii) : bool :=
  let n := N_of_ascii c in
  ((65 <=? n) && (n <=? 90) || (97 <=? n) && (n <=? 122) || (48 <=? n) && (n <=? 57) || (n =? 95) || (n =? 45))%N.
Fixpoint drop_newline (s : string) : string :=
  match s with
  | String c EmptyString => if (N_of_ascii c =? 10)%N then EmptyString else s
  | String c s' => String c (drop_newline s')
  | EmptyString => EmptyString
  end.
Definition invite_pattern (token : string) : bool :=
  let t := drop_newline token in
  string_forallb is_token_char t && (20 <=? string_len t)%Z && (string_len t <=? 40)%Z.

(** ** Loaded groups *)

Definition FREE_TIER_MAX_MEMBERS : Z := 50.
Definition PREMIUM_TIER_MAX_MEMBERS : Z := 200.

Definition _get_current_user (s : Settings) (pubkey_hex : string) : M User :=
  Dms._get_current_user (relay_name s) pubkey_hex.

Definition _parse_group_id (group_id : string) : M string :=
  match uuid_of_string group_id with Some u => ret u | None => http 400 "malformed_group_id" end.

Record loaded := Loaded { l_group : Group; l_members : list GroupMember }.

Definition in_group (id : string) (m : GroupMember) : bool := String.eqb (gm_group_id m) id.
Definition members_of (id : string) (db : database) : list GroupMember := List.filter (in_group id) (t_members db).
Definition has_group_id (id : string) (g : Group) : bool := String.eqb (g_id g) id.
Definition live_group (id : string) (g : Group) : bool :=
  has_group_id id g && negb (bool_decide (is_Some (g_deleted_at g))).

Definition _load_group (group_id : string) : M loaded :=
  let! found := sql (fun db =>
    ((g ← select_one (live_group group_id) (t_groups db); Some (Loaded g (members_of group_id db))) : option loaded, db)) in
  match found with Some l => ret l | None => http 404 "group_not_found" end.

(** [db.refresh(group, attribute_names=["members"])] *)
Definition refresh_members (g : Group) : M loaded := sql (fun db => (Loaded g (members_of (g_id g) db), db)).

Definition _is_member (l : loaded) (pubkey : string) : bool := existsb (fun m => String.eqb (gm_pubkey m) pubkey) (l_members l).
Definition _find_admin (l : loaded) : option GroupMember := List.find gm_is_admin (l_members l).
Definition _is_admin (l : loaded) (caller_pubkey : string) : bool :=
  existsb (fun m => gm_is_admin m && String.eqb (gm_pubkey m) caller_pubkey) (l_members l).

Definition member_count (l : loaded) : Z := Z.of_nat (length (l_members l)).

(** ** Responses *)

Record GroupInfo := mkGroupInfo {
  gi_group_id : string; gi_creator_pubkey_hex : string; gi_name_encrypted : string; gi_is_channel : bool;
  gi_default_ttl_seconds : Z; gi_anonymous_senders : bool; gi_expires_at : option Z; gi_slug : option string;
  gi_max_members : Z; gi_created_at : Z; gi_member_count : Z
}.
Definition _to_group_info (l : loaded) : GroupInfo :=
  let g := l_group l in
  mkGroupInfo (uuid_to_string (g_id g)) (hex_of_bytes (g_creator_pubkey g)) (b64encode (g_name_encrypted g))
    (g_is_channel g) (g_default_ttl_seconds g) (g_anonymous_senders g) (g_expires_at g) (g_slug g) (g_max_members g)
    (g_created_at g) (member_count l).

(** Key, name, role and time of each member. *)
Record GroupInfoDetailed := mkGroupInfoDetailed {
  gd_info : GroupInfo; gd_members : list (string * option string * bool * Z)
}.

(** The active users with one of the keys, and what [f] reads of each. *)
Definition active_in (keys : list string) (u : User) : bool :=
  bool_decide (u_pubkey u ∈ keys) && negb (bool_decide (is_Some (u_deleted_at u))).
Definition users_in {A} (f : User -> A) (keys : list string) : M (list (string * A)) :=
  match keys with
  | [] => ret []
  | _ => sql (fun db => (map (fun u => (u_pubkey u, f u)) (List.filter (active_in keys) (t_users db)), db))
  end.
(** [dict.get(key)] of the dictionary filled row by row. *)
Definition row_value {A} (rows : list (string * A)) (key : string) : option A :=
  snd <$> List.find (fun r => String.eqb r.1 key) (rev rows).

Definition _to_group_info_detailed (l : loaded) : M GroupInfoDetailed :=
  let! usernames := users_in u_username (map gm_pubkey (l_members l)) in
  ret (mkGroupInfoDetailed (_to_group_info l)
    (map (fun m => (hex_of_bytes (gm_pubkey m), mjoin (row_value usernames (gm_pubkey m)), gm_is_admin m, gm_joined_at m))
       (l_members l))).

(** ** Creation *)

(** [db.add] and [flush]: the primary key and the unique index on the slug, which the rows of deleted
    groups stay in. *)
Definition slug_is (slug : string) (g : Group) : bool :=
  match g_slug g with Some s => String.eqb s slug | None => false end.
Definition clashes (g : Group) (g' : Group) : bool :=
  has_group_id (g_id g) g' || match g_slug g with Some slug => slug_is slug g' | None => false end.
Definition insert_group (g : Group) : M unit :=
  let! ok := sql (fun db => if existsb (clashes g) (t_groups db) then (false, db)
                            else (true, set_groups (t_groups db ++ [g]) db)) in
  if (ok : bool) then ret tt else raise IntegrityError.
Definition insert_member (m : GroupMember) : M unit :=
  let! ok := sql (fun db =>
    if existsb (fun m' => in_group (gm_group_id m) m' && String.eqb (gm_pubkey m') (gm_pubkey m)) (t_members db)
    then (false, db) else (true, set_members (t_members db ++ [m]) db)) in
  if (ok : bool) then ret tt else raise IntegrityError.

Definition max_members_for (t : UserTier) : Z :=
  match t with PREMIUM | ADMIN => PREMIUM_TIER_MAX_MEMBERS | FREE => FREE_TIER_MAX_MEMBERS end.

Definition create_group (s : Settings) (body : GroupCreate) (current : Session) : M GroupInfoDetailed :=
  let! user := _get_current_user s (pubkey_hex current) in
  let! now := now_ in
  let max_members := max_members_for (u_tier user) in
  if bool_decide (is_Some (gc_slug body)) && bool_decide (u_tier user = FREE) then http 403 "slug_requires_premium"
  else
    let! existing :=
      match gc_slug body with
      | None => ret None
      | Some slug => sql (fun db =>
          (select_one (fun g => slug_is slug g && negb (bool_decide (is_Some (g_deleted_at g)))) (t_groups db), db))
      end in
    if bool_decide (is_Some existing) then http 409 "slug_taken"
    else
      let bad_expiry := match gc_expires_at body with
        | Some t => if (t <=? now)%Z then Some "expires_at_must_be_in_future"
                    else if (now + 365 * 86400 <? t)%Z then Some "expires_at_too_far_in_future" else None
        | None => None end in
      match bad_expiry with
      | Some detail => http 400 detail
      | None =>
          let! name_bytes :=
            match b64decode (gc_name_encrypted body) with Some b => ret b | None => raise (ValueError "b64decode") end in
          let! creator_pubkey := fromhex_ (pubkey_hex current) in
          let! id := token_ in
          let group := mkGroup id creator_pubkey name_bytes (gc_is_channel body) (gc_default_ttl_seconds body)
            (gc_slug body) (gc_expires_at body) (gc_anonymous_senders body) max_members (Some (relay_name s)) now None in
          let! _ := insert_group group in
          let! _ := insert_member (mkMember id creator_pubkey true now) in
          let! l := refresh_members group in
          _to_group_info_detailed l
      end.

(** ** Reading *)

Definition live_group_of (db : database) (pubkey : string) (g : Group) : bool :=
  negb (bool_decide (is_Some (g_deleted_at g)))
  && existsb (fun m => String.eqb (gm_pubkey m) pubkey) (members_of (g_id g) db).

Definition list_my_groups (current : Session) : M (list GroupInfo) :=
  let! pubkey := fromhex_ (pubkey_hex current) in
  let! groups := sql (fun db =>
    (map (fun g => Loaded g (members_of (g_id g) db))
       (order_by (fun g => - g_created_at g)%Z (List.filter (live_group_of db pubkey) (t_groups db))), db)) in
  ret (map _to_group_info groups).

Definition get_group (group_id : string) (current : Session) : M GroupInfoDetailed :=
  let! gid := _parse_group_id group_id in
  let! group := _load_group gid in
  let! pubkey := fromhex_ (pubkey_hex current) in
  if negb (_is_member group pubkey) then http 403 "not_a_member" else _to_group_info_detailed group.

Definition lookup_by_slug (slug : string) : M GroupInfo :=
  let normalized := normalize_slug slug in
  let! found := sql (fun db =>
    ((g ← select_one (fun g => slug_is normalized g && negb (bool_decide (is_Some (g_deleted_at g)))) (t_groups db);
      Some (Loaded g (members_of (g_id g) db))) : option loaded, db)) in
  match found with Some l => ret (_to_group_info l) | None => http 404 "slug_not_found" end.

Definition _group_home_relay (s : Settings) (g : Group) : string :=
  match g_home_relay g with Some h => if String.eqb h "" then relay_name s else h | None => relay_name s end.

(** ** Where the members are *)

(** Keys of this relay's users and of unknown ones, and the others by their relay, in the order of
    first mention. *)
Fixpoint add_remote (relay pk : string) (l : list (string * list string)) : list (string * list string) :=
  match l with
  | [] => [(relay, [pk])]
  | (r, pks) :: l' => if String.eqb r relay then (r, pks ++ [pk]) :: l' else (r, pks) :: add_remote relay pk l'
  end.
Fixpoint split_by_relay (own : string) (homes : list (string * string)) (keys : list string)
    (local : list string) (remote : list (string * list string)) : list string * list (string * list string) :=
  match keys with
  | [] => (local, remote)
  | pk :: keys' =>
      match row_value homes pk with
      | Some h => if String.eqb h own then split_by_relay own homes keys' (local ++ [hex_of_bytes pk]) remote
                  else split_by_relay own homes keys' local (add_remote h (hex_of_bytes pk) remote)
      | None => split_by_relay own homes keys' (local ++ [hex_of_bytes pk]) remote
      end
  end.
Definition split_members (s : Settings) (keys : list string) : M (list string * list (string * list string)) :=
  let! homes := users_in u_home_relay keys in
  ret (split_by_relay (relay_name s) homes keys [] []).

(** A row for another relay unless it is there, and one for each relay. *)
Definition queue_once (envelope_id : string) (data : dict) (target : string) (now : Z) : M unit :=
  let! existing := sql (fun db => (select_one (same_target envelope_id target) (t_fedqueue db), db)) in
  match existing with Some _ => ret tt | None => add_fed_row envelope_id data target now end.
Fixpoint queue_to_relays (row : string -> list string -> string * dict) (remote : list (string * list string)) (now : Z)
    : M unit :=
  match remote with
  | [] => ret tt
  | (target, members) :: remote' =>
      let '(envelope_id, data) := row target members in
      let! _ := queue_once envelope_id data target now in
      queue_to_relays row remote' now
  end.

(** ** Deletion *)

Definition gone_payload (group_id caller sig : string) (ts : Z) (members : list string) : dict :=
  [("kind", JStr "group_gone"); ("group_id", JStr group_id); ("by_pubkey_hex", JStr caller);
   ("deliver_to_pubkeys", JArr (map JStr members)); ("gone_signature_hex", JStr sig); ("gone_ts", JNum ts)].

Definition with_deleted_at (t : Z) (g : Group) : Group :=
  mkGroup (g_id g) (g_creator_pubkey g) (g_name_encrypted g) (g_is_channel g) (g_default_ttl_seconds g) (g_slug g)
    (g_expires_at g) (g_anonymous_senders g) (g_max_members g) (g_home_relay g) (g_created_at g) (Some t).
Definition store_group (g : Group) : M unit :=
  sql (fun db => (tt, set_groups (snd (update_where (has_group_id (g_id g)) (fun _ => g) (t_groups db))) db)).

Definition delete_group `{Sha256} (s : Settings) (group_id : string) (current : Session)
    (gone_signature_hex : option string) (gone_ts : option Z) : M string :=
  let! gid := _parse_group_id group_id in
  let! group := _load_group gid in
  let! pubkey := fromhex_ (pubkey_hex current) in
  if negb (String.eqb (g_creator_pubkey (l_group group)) pubkey) then http 403 "only_creator_can_delete"
  else
    let id := uuid_to_string (g_id (l_group group)) in
    let! (local, remote) :=
      split_members s (List.filter (fun pk => negb (String.eqb pk pubkey)) (map gm_pubkey (l_members group))) in
    let! now := now_ in
    let! _ := store_group (with_deleted_at now (l_group group)) in
    let! _ := try_except (publish_group_gone local id (pubkey_hex current)) (fun _ => ret tt) in
    let! _ :=
      match remote, gone_signature_hex, gone_ts with
      | _ :: _, Some sig, Some ts =>
          if String.eqb sig "" then ret tt
          else
            let! now := now_ in
            queue_to_relays (fun target members =>
              (_synthetic_queue_id "gone" [id; target], gone_payload id (pubkey_hex current) sig ts members)) remote now
      | _, _, _ => ret tt
      end in
    ret id.

(** ** Snapshots for the relays of members *)

Definition _peer_relays_for_members (s : Settings) (keys : list string) : M (gset string) :=
  let! homes := users_in u_home_relay keys in
  ret (list_to_set (List.filter (fun h => negb (String.eqb h "") && negb (String.eqb h (relay_name s))) homes.*2)).

Definition opt_num (o : option Z) : json := match o with Some n => JNum n | None => JNull end.

Definition member_dict (m : GroupMember) : json :=
  JObj [("pubkey_hex", JStr (hex_of_bytes (gm_pubkey m))); ("is_admin", JBool (gm_is_admin m));
        ("joined_at", JNum (gm_joined_at m))].
Definition _serialize_group_for_snapshot (s : Settings) (l : loaded) (now : Z) : dict :=
  let g := l_group l in
  [("kind", JStr "group_snapshot"); ("group_id", JStr (uuid_to_string (g_id g)));
   ("creator_pubkey_hex", JStr (hex_of_bytes (g_creator_pubkey g)));
   ("name_encrypted_b64", JStr (b64encode (g_name_encrypted g))); ("is_channel", JBool (g_is_channel g));
   ("default_ttl_seconds", JNum (g_default_ttl_seconds g)); ("slug", opt_str (g_slug g));
   ("expires_at", opt_num (g_expires_at g)); ("anonymous_senders", JBool (g_anonymous_senders g));
   ("max_members", JNum (g_max_members g)); ("home_relay", JStr (_group_home_relay s g));
   ("members", JArr (map member_dict (l_members l))); ("snapshotted_at", JNum now)].

Fixpoint push_snapshots `{Sha256} (s : Settings) (id : string) (payload : dict) (now : Z) (targets : list string) (pushed : Z)
    : M Z :=
  match targets with
  | [] => ret pushed
  | target :: targets' =>
      if String.eqb target (relay_name s) then push_snapshots s id payload now targets' pushed
      else
        let! _ := add_fed_row (_synthetic_queue_id "snap" [id; print_Z now; target]) payload target now in
        push_snapshots s id payload now targets' (pushed + 1)%Z
  end.
Definition enqueue_snapshot_to_relays `{Sha256} (s : Settings) (l : loaded) (target_relays : gset string) : M Z :=
  if decide (target_relays = ∅) then ret 0%Z
  else
    let! snapshotted_at := now_ in
    let payload := _serialize_group_for_snapshot s l snapshotted_at in
    let! now := now_ in
    push_snapshots s (uuid_to_string (g_id (l_group l))) payload now (elements target_relays) 0.

(** ** Members *)

Definition group_full (g : Group) : string := "group_full_max_" +:+ print_Z (g_max_members g) +:+ "_members".

(** The new number of members. *)
Definition add_member `{Sha256} (s : Settings) (group_id body_pubkey_hex : string) (current : Session) : M Z :=
  let! gid := _parse_group_id group_id in
  let! group := _load_group gid in
  let! caller := fromhex_ (pubkey_hex current) in
  if negb (_is_admin group caller) then http 403 "only_admin_can_add_members"
  else
    let! new_member_pubkey := fromhex_ body_pubkey_hex in
    if _is_member group new_member_pubkey then ret (member_count group)
    else
      let! current_count := sql (fun db => (Z.of_nat (length (members_of gid db)), db)) in
      if (g_max_members (l_group group) <=? current_count)%Z then http 409 (group_full (l_group group))
      else
        let! now := now_ in
        let! _ := insert_member (mkMember (g_id (l_group group)) new_member_pubkey false now) in
        let! group := refresh_members (l_group group) in
        let! peer_relays := _peer_relays_for_members s (map gm_pubkey (l_members group)) in
        let! _ := enqueue_snapshot_to_relays s group peer_relays in
        ret (member_count group).

(** [await db.delete(target_member)] *)
Definition delete_member (id pubkey : string) : M unit :=
  sql (fun db => (tt, set_members
    (snd (delete_where (fun m => in_group id m && String.eqb (gm_pubkey m) pubkey) (t_members db))) db)).

Definition remove_member `{Sha256} (s : Settings) (group_id target_hex : string) (current : Session) : M Z :=
  let! gid := _parse_group_id group_id in
  let! group := _load_group gid in
  if negb (well_formed_id target_hex) then http 400 "malformed_pubkey"
  else
    let! caller := fromhex_ (pubkey_hex current) in
    let! target := fromhex_ target_hex in
    if negb (String.eqb caller target || _is_admin group caller) then http 403 "must_be_self_or_admin"
    else if String.eqb target (g_creator_pubkey (l_group group))
    then http 409 "creator_cannot_leave_must_delete_group"
    else if negb (_is_member group target) then http 404 "not_a_member"
    else
      let! peer_relays := _peer_relays_for_members s (map gm_pubkey (l_members group)) in
      let! _ := delete_member (g_id (l_group group)) target in
      let! group := refresh_members (l_group group) in
      let! _ := enqueue_snapshot_to_relays s group peer_relays in
      ret (member_count group).

(** ** Invites *)

(** [body.ttl_seconds or DEFAULT_TTL_SECONDS] *)
Definition or_default (o : option Z) (d : Z) : Z := match o with Some n => if (n =? 0)%Z then d else n | None => d end.

Definition create_invite_token (group_id : string) (ttl_seconds : option Z) (current : Session) : M dict :=
  let! gid := _parse_group_id group_id in
  let! group := _load_group gid in
  let! caller := fromhex_ (pubkey_hex current) in
  if negb (_is_admin group caller) then http 403 "only_admin_can_create_invites"
  else
    let! info := InviteTokens.create_token (uuid_to_string (g_id (l_group group))) (pubkey_hex current)
                   (or_default ttl_seconds InviteTokens.DEFAULT_TTL_SECONDS) in
    match info with
    | None => http 409 ("too_many_active_invites_max_" +:+ print_Z MAX_ACTIVE_TOKENS_PER_GROUP)
    | Some info => ret info
    end.

Definition list_invite_tokens (group_id : string) (current : Session) : M (list dict) :=
  let! gid := _parse_group_id group_id in
  let! group := _load_group gid in
  let! caller := fromhex_ (pubkey_hex current) in
  if negb (_is_admin group caller) then http 403 "only_admin_can_list_invites"
  else list_tokens (uuid_to_string (g_id (l_group group))).

Definition revoke_invite_token (group_id token : string) (current : Session) : M bool :=
  if negb (invite_pattern token) then http 400 "malformed_token"
  else
    let! gid := _parse_group_id group_id in
    let! group := _load_group gid in
    let! caller := fromhex_ (pubkey_hex current) in
    if negb (_is_admin group caller) then http 403 "only_admin_can_revoke_invites"
    else InviteTokens.revoke_token (uuid_to_string (g_id (l_group group))) token.

(** The group's id as text and its number of members. *)
Definition join_via_token (token : string) (current : Session) : M (string * Z) :=
  if (string_len token <? 20)%Z || (40 <? string_len token)%Z then http 422 "token"
  else if negb (invite_pattern token) then http 400 "malformed_token"
  else
    let! meta := consume_token token in
    match meta with
    | None => http 404 "invite_token_invalid_or_expired"
    | Some meta =>
        let! group_id_str :=
          match dict_get "group_id" meta with
          | Some (JStr g) => ret g
          | Some _ => raise AttributeError
          | None => raise KeyError
          end in
        let! gid := _parse_group_id group_id_str in
        let! group := _load_group gid in
        let! caller := fromhex_ (pubkey_hex current) in
        if _is_member group caller then ret (group_id_str, member_count group)
        else if (g_max_members (l_group group) <=? member_count group)%Z then http 409 (group_full (l_group group))
        else
          let! now := now_ in
          let! _ := insert_member (mkMember (g_id (l_group group)) caller false now) in
          let! group := refresh_members (l_group group) in
          ret (group_id_str, member_count group)
    end.
