(* ===== verification/GroupMessages.v ===== *)
(** * Messages of groups (api/groups.py)

    A group lives on one relay, its host.  The host stores a message once, puts it into the inboxes
    of the members it knows, and queues one row for each other relay with members; any other relay
    hands the message to the host.  Deletion takes the same way. *)

From Stdlib Require Import Ascii String.
From stdpp Require Import prelude gmap strings list.
From S2P Require Import Prelude Json Codec RedisStore Models Effects Crypto Payloads Config Sessions RateLimit Deps.
From S2P Require Import BlobStorage Queue Messages Groups.

#[local] Open Scope morok_scope.

(** ** Bodies and answers *)

(** The body of a group message has the fields of [EnvelopeIn]; [e_to] is the group's id as text. *)
Definition valid_GroupEnvelopeIn (b : EnvelopeIn) : bool :=
  hex_of_len 64 (e_from b) && (string_len (e_to b) =? 36)%Z && (0 <=? e_ts b)%Z && (1 <=? e_ttl b)%Z
  && (e_ttl b <=? 86400)%Z && hex_of_len 128 (e_sig b).

Record GroupEnvelopeAck := mkGroupAck {
  ga_envelope_id : string; ga_queued : bool; ga_recipient_count : Z; ga_some_skipped : bool; ga_expires_at : Z
}.

Definition compute_group_envelope_id `{Sha256} (sender_pubkey group_id_bytes : string) (timestamp : Z) (blob_bytes : string)
    : option string :=
  ts ← to_bytes_8 timestamp;
  Some (sha256_hex (sender_pubkey +:+ group_id_bytes +:+ ts +:+ sha256 blob_bytes)).

(** ** Fan-out by the host *)

Definition group_fanout_args (s : Settings) (gid : string) (envelope : EnvelopeIn) (sender_username : option string)
    (envelope_id : string) (local : list string) : fanout_args :=
  FanoutArgs envelope_id (e_from envelope) local (e_ts envelope) (e_ttl envelope) (e_sig envelope)
    (message_ttl_hard_seconds s) (Some (uuid_to_string gid)) sender_username.

(** The payload that makes another relay deliver to its members. *)
Definition deliver_dict (gid : string) (envelope : EnvelopeIn) (sender_username : option string) (members : list string) : dict :=
  envelope_dict envelope sender_username ++
  [("group_id", JStr (uuid_to_string gid)); ("group_forward_mode", JStr "deliver");
   ("deliver_to_pubkeys", JArr (map JStr members))].

Definition recipients_of (l : loaded) (sender_pubkey : string) : list string :=
  List.filter (fun pk => negb (String.eqb pk sender_pubkey)) (map gm_pubkey (l_members l)).

(** (delivered here, other relays, recipients there, whether a full inbox here was skipped) *)
Definition do_group_fanout (s : Settings) (group : loaded) (envelope : EnvelopeIn) (sender_username : option string)
    (envelope_id : string) : M (Z * Z * Z * bool) :=
  let gid := g_id (l_group group) in
  let! sender_pubkey := fromhex_ (e_from envelope) in
  let! (local, remote) := split_members s (recipients_of group sender_pubkey) in
  let! local_delivered_count :=
    match local with
    | [] => ret 0%Z
    | _ =>
        let! (_, count) := enqueue_envelope_for_recipients
          (group_fanout_args s gid envelope sender_username envelope_id local) in
        let! _ := spawn (TPush local) in
        ret count
    end in
  let! now := now_ in
  let! _ := queue_to_relays (fun _ members => (envelope_id, deliver_dict gid envelope sender_username members)) remote now in
  ret (local_delivered_count, Z.of_nat (length remote), Z.of_nat (length (concat remote.*2)),
       (local_delivered_count <? Z.of_nat (length local))%Z).

(** ** Posting *)

(** The checks of the handler before routing: the group, the ciphertext and the envelope's id. *)
Definition admit_group_message `{Sha256} `{Nacl} (s : Settings) (group_id : string) (body : EnvelopeIn) (current : Session)
    : M (loaded * string * string * string) :=
  let! gid := _parse_group_id group_id in
  let! group := _load_group gid in
  let g := l_group group in
  if negb (String.eqb (e_to body) (uuid_to_string (g_id g))) then http 400 "envelope_to_must_match_url_group_id"
  else if negb (String.eqb (e_from body) (pubkey_hex current)) then http 403 "from_field_must_match_authenticated_pubkey"
  else
    let! sender_pubkey := fromhex_ (pubkey_hex current) in
    if negb (_is_member group sender_pubkey) then http 403 "not_a_member"
    else if g_is_channel g && negb (_is_admin group sender_pubkey) then http 403 "channel_admin_only_post"
    else
      let canonical := canonical_json (envelope_payload (e_from body) (e_to body) (e_ts body) (e_ttl body) (e_blob body)) in
      match bytes_fromhex (e_sig body) with
      | None => http 400 "malformed_sig_hex"
      | Some sig_bytes =>
          if negb (ed25519_verify canonical sig_bytes sender_pubkey) then http 400 "signature_invalid"
          else
            let! now := now_ in
            if (e_ts body <? now - 300)%Z then http 400 "envelope_too_old"
            else if (now + 60 <? e_ts body)%Z then http 400 "envelope_from_the_future"
            else
              match b64decode (e_blob body) with
              | None => http 400 "blob_not_base64"
              | Some blob_bytes =>
                  if (max_blob_bytes s <? string_len blob_bytes)%Z then http 413 (envelope_too_large s)
                  else
                    match compute_group_envelope_id sender_pubkey (g_id g) (e_ts body) blob_bytes with
                    | None => raise OverflowError
                    | Some id => ret (group, sender_pubkey, blob_bytes, id)
                    end
              end
      end.

Definition to_host_dict (gid : string) (body : EnvelopeIn) (sender_username : option string) : dict :=
  envelope_dict body sender_username ++
  [("group_id", JStr (uuid_to_string gid)); ("group_forward_mode", JStr "to_host")].

Definition send_group_message `{Sha256} `{Nacl} (s : Settings) (group_id : string) (body : EnvelopeIn) (current : Session)
    : M GroupEnvelopeAck :=
  let! (group, sender_pubkey, blob_bytes, id) := admit_group_message s group_id body current in
  let g := l_group group in
  let! dup := envelope_exists id in
  if (dup : bool) then ret (mkGroupAck id false 0 false 0)
  else
    let! sender_user := find_user sender_pubkey in
    let sender_username := if g_anonymous_senders g then None else sender_user ≫= u_username in
    let home := _group_home_relay s g in
    let expires_at := (e_ts body + e_ttl body)%Z in
    let! now := now_ in
    if negb (String.eqb home (relay_name s)) then
      let! _ := queue_once id (to_host_dict (g_id g) body sender_username) home now in
      ret (mkGroupAck id true (Z.max 0 (member_count group - 1)) false expires_at)
    else
      let! _ := write_blob id blob_bytes in
      let! (local_delivered_count, _, remote_recipient_count, some_local_skipped) :=
        do_group_fanout s group body sender_username id in
      ret (mkGroupAck id true (local_delivered_count + remote_recipient_count) some_local_skipped expires_at).

(** ** Deletion by the sender or an admin *)

Record GroupDeleteRequest := mkGroupDelete { gdr_signature_hex : string; gdr_ts : Z }.
Definition valid_GroupDeleteRequest (b : GroupDeleteRequest) : bool :=
  any_hex_of_len 128 (gdr_signature_hex b) && (0 <=? gdr_ts b)%Z.

Definition group_delete_dict (kind gid envelope_id caller : string) (members : option (list string)) (body : GroupDeleteRequest)
    : dict :=
  [("kind", JStr kind); ("group_id", JStr (uuid_to_string gid)); ("envelope_id", JStr envelope_id);
   ("deleted_by_pubkey_hex", JStr caller)] ++
  match members with Some l => [("deliver_to_pubkeys", JArr (map JStr l))] | None => [] end ++
  [("deleter_signature_hex", JStr (gdr_signature_hex body)); ("deleter_ts", JNum (gdr_ts body))].

Inductive group_deleted :=
| ForwardedToHost (host : string)
| DeletedHere (deleted_from_count : Z) (broadcast_to : Z) (meta_existed : bool) (federated_to_relays : Z).

(** The caller's signed intent, and membership. *)
Definition admit_group_delete `{Nacl} (group_id envelope_id : string) (body : GroupDeleteRequest) (current : Session)
    : M (loaded * string) :=
  if negb (well_formed_id envelope_id) then http 400 "malformed_envelope_id"
  else
    let! gid := _parse_group_id group_id in
    let! group := _load_group gid in
    let! caller := fromhex_ (pubkey_hex current) in
    let! now := now_ in
    if (7 * 86400 <? Z.abs (now - gdr_ts body))%Z then http 400 "delete_ts_out_of_window"
    else
      let sig_message := canonical_json (delete_payload "group_delete" envelope_id (gdr_ts body) (Some (uuid_to_string gid))) in
      match bytes_fromhex (gdr_signature_hex body) with
      | None => http 400 "malformed_signature"
      | Some sig_bytes =>
          if negb (ed25519_verify sig_message sig_bytes caller) then http 401 "invalid_delete_signature"
          else if negb (_is_member group caller) then http 403 "not_a_member"
          else ret (group, caller)
      end.

(** On the host: the sender of the envelope, or an admin of its group. *)
Definition authorise_group_delete (group : loaded) (envelope_id caller_hex caller : string) : M unit :=
  let! meta := get_envelope_meta envelope_id in
  let! sender :=
    match meta with
    | None => ret None
    | Some (JObj meta) =>
        if negb (get_is_str "group_id" (uuid_to_string (g_id (l_group group))) meta)
        then http 400 "envelope_not_in_this_group"
        else ret (dict_get "from" meta)
    | Some _ => raise AttributeError
    end in
  let is_sender := match sender with Some (JStr f) => String.eqb f caller_hex | _ => false end in
  if is_sender || _is_admin group caller then ret tt else http 403 "must_be_sender_or_admin".

Definition delete_group_message `{Sha256} `{Nacl} (s : Settings) (group_id envelope_id : string) (body : GroupDeleteRequest)
    (current : Session) : M group_deleted :=
  let! (group, caller) := admit_group_delete group_id envelope_id body current in
  let gid := g_id (l_group group) in
  let home := _group_home_relay s (l_group group) in
  if negb (String.eqb home (relay_name s)) then
    let! _ := queue_control (_synthetic_queue_id "del" [envelope_id; home])
      (group_delete_dict "group_delete_to_host" gid envelope_id (pubkey_hex current) None body) home in
    ret (ForwardedToHost home)
  else
    let! _ := authorise_group_delete group envelope_id (pubkey_hex current) caller in
    let! (local, remote) := split_members s (map gm_pubkey (l_members group)) in
    let! (deleted_from_count, meta_existed, broadcast_to) :=
      delete_envelope_for_group envelope_id (uuid_to_string gid) local (pubkey_hex current) in
    let! now := now_ in
    let! _ := queue_to_relays (fun target members =>
      (_synthetic_queue_id "deldlv" [envelope_id; target],
       group_delete_dict "group_delete_deliver" gid envelope_id (pubkey_hex current) (Some members) body)) remote now in
    ret (DeletedHere deleted_from_count broadcast_to meta_existed (Z.of_nat (length remote))).
