(* ===== verification/FederationClient.v ===== *)
(** * Calls to other relays (federation_client.py)

    DNS and the HTTP transport are the network of the world: a question to either consumes its next
    answer, and every request made is recorded in [w_sent].  The classification of an IP address is
    the ipaddress module's, whose tables follow the IANA registries and change with the release of
    Python: a parameter ([Ipaddress]).  A response is its status and its body as JSON, if it is
    JSON. *)

From Stdlib Require Import Ascii String.
From stdpp Require Import prelude gmap strings list.
From S2P Require Import Prelude Json Codec RedisStore Models Effects Crypto Payloads Config.

#[local] Open Scope morok_scope.

(** ** Which hosts may be called *)

(** The properties of [ipaddress.ip_address(s)]; [None] is its [ValueError]. *)
Record ip_flags := IpFlags {
  is_private : bool; is_loopback : bool; is_link_local : bool;
  is_multicast : bool; is_reserved : bool; is_unspecified : bool
}.
Class Ipaddress := ip_address : string -> option ip_flags.

Fixpoint last_char (s : string) : option ascii :=
  match s with
  | EmptyString => None
  | String c EmptyString => Some c
  | String _ s' => last_char s'
  end.

(** [[a-zA-Z0-9](?:[a-zA-Z0-9-]{0,61}[a-zA-Z0-9])?] *)
Definition is_label (s : string) : bool :=
  match s, last_char s with
  | String c _, Some d =>
      is_alnum c && is_alnum d && string_forallb (fun x => is_alnum x || Ascii.eqb x "-") s
      && (string_len s <=? 63)%Z
  | _, _ => false
  end.

(** [[a-zA-Z]{2,63}] *)
Definition is_tld (s : string) : bool :=
  string_forallb is_alpha s && (2 <=? string_len s)%Z && (string_len s <=? 63)%Z.

Fixpoint labels_ok (l : list string) : bool :=
  match l with
  | [] => false
  | [tld] => is_tld tld
  | a :: l' => is_label a && labels_ok l'
  end.

(** The dollar sign of the pattern also matches before a line feed at the end. *)
Fixpoint drop_final_newline (s : string) : string :=
  match s with
  | EmptyString => ""
  | String c EmptyString => if Ascii.eqb c "010" then "" else s
  | String c s' => String c (drop_final_newline s')
  end.

(** [_HOSTNAME_RE.match(hostname)] *)
Definition _HOSTNAME_RE (hostname : string) : bool :=
  let s := drop_final_newline hostname in
  (string_len s <=? 253)%Z && (1 <? Z.of_nat (length (split_on "." s)))%Z && labels_ok (split_on "." s).

Section Client.
  Context `{Ipaddress}.

Definition _is_public_ip (ip_str : string) : bool :=
  match ip_address ip_str with
  | None => false
  | Some ip =>
      negb (is_private ip || is_loopback ip || is_link_local ip || is_multicast ip || is_reserved ip
            || is_unspecified ip)
  end.

Definition resolve_ (hostname : string) : M (option (list string)) := Vis (EResolve hostname) (fun a => ret a).

Definition resolve_pinned_peer (hostname : string) : M (option string) :=
  if String.eqb hostname "" || negb (_HOSTNAME_RE hostname) then ret None
  else
    let! infos := resolve_ hostname in
    match infos with
    | None => ret None
    | Some ips => if forallb _is_public_ip ips then ret (head ips) else ret None
    end.

(** The synchronous check of the name alone. *)
Definition is_safe_peer_hostname (hostname : string) : M bool :=
  if String.eqb hostname "" || negb (_HOSTNAME_RE hostname) then ret false
  else
    let! infos := resolve_ hostname in
    match infos with
    | None | Some [] => ret false
    | Some ips => ret (forallb _is_public_ip ips)
    end.

(** ** Requests *)

(** A response: its status, and its body when that is JSON. *)
Definition response : Type := Z * option json.

Definition http_ (r : request) : M response :=
  Vis (EHttp r) (fun a => match a with Some x => ret x | None => raise HTTPError end).

Definition _pinned_post (hostname path : string) (payload : json) : M (option response) :=
  let! ip := resolve_pinned_peer hostname in
  match ip with
  | None => ret None
  | Some ip => let! r := http_ (Request ip hostname path (Some payload)) in ret (Some r)
  end.

Definition _pinned_get (hostname path : string) : M (option response) :=
  let! ip := resolve_pinned_peer hostname in
  match ip with
  | None => ret None
  | Some ip => let! r := http_ (Request ip hostname path None) in ret (Some r)
  end.

(** [response.raise_for_status()] *)
Definition raise_for_status (r : response) : M unit :=
  if (200 <=? fst r)%Z && (fst r <? 300)%Z then ret tt else raise HTTPError.

(** [response.json()] *)
Definition json_of (r : response) : M json :=
  match snd r with Some j => ret j | None => raise (ValueError "json") end.

(** [except httpx.HTTPError]: other exceptions go on. *)
Definition catch_http {A} (p : M A) (a : A) : M A :=
  try_except p (fun e => match e with HTTPError => ret a | _ => raise e end).

(** [except (ValueError, TypeError): return None] around the signature, and the rest. *)
Definition signed_ {A} `{Nacl} (s : Settings) (message : string) (k : string -> M (option A)) : M (option A) :=
  match bytes_fromhex (relay_privkey_hex s) with
  | None => ret None
  | Some privkey =>
      match ed25519_sign message privkey with
      | Ok signature => k signature
      | Raise _ => ret None
      end
  end.

(** The answer to a POST: [None] for a refused host, or when [missing] and the status is 404. *)
Definition answer_of (missing : bool) (r : option response) : M (option json) :=
  match r with
  | None => ret None
  | Some r =>
      if missing && (fst r =? 404)%Z then ret None
      else
        let! _ := raise_for_status r in
        let! j := json_of r in
        ret (Some j)
  end.

Definition remote_handshake `{Nacl} (s : Settings) (peer_hostname : string) : M (option json) :=
  let! timestamp := now_ in
  let message := canonical_json (handshake_payload (relay_name s) (relay_pubkey_hex s) timestamp) in
  signed_ s message (fun signature =>
    let payload := JObj [("peer_hostname", JStr (relay_name s)); ("peer_pubkey_hex", JStr (relay_pubkey_hex s));
                         ("timestamp", JNum timestamp); ("signature_hex", JStr (hex_of_bytes signature))] in
    catch_http
      (let! response := _pinned_post peer_hostname "/api/v1/federation/handshake" payload in
       answer_of false response) None).

Definition remote_forward `{Nacl} (s : Settings) (peer_hostname : string) (envelope : dict) : M (option json) :=
  let! forwarded_at := now_ in
  let message := canonical_json (forward_payload envelope (relay_pubkey_hex s) forwarded_at) in
  signed_ s message (fun signature =>
    let payload := JObj [("envelope", JObj envelope); ("relay_pubkey_hex", JStr (relay_pubkey_hex s));
                         ("relay_signature_hex", JStr (hex_of_bytes signature)); ("forwarded_at", JNum forwarded_at)] in
    catch_http
      (let! response := _pinned_post peer_hostname "/api/v1/federation/forward" payload in
       answer_of false response) None).

Inductive LookupOutcome := FOUND | NOT_FOUND | TRANSIENT_ERROR.

Definition remote_lookup (peer_hostname username : string) : M (LookupOutcome * option json) :=
  catch_http
    (let! response := _pinned_get peer_hostname ("/api/v1/federation/users/lookup/" +:+ username) in
     match response with
     | None => ret (TRANSIENT_ERROR, None)
     | Some r =>
         if (fst r =? 404)%Z then ret (NOT_FOUND, None)
         else
           let! _ := raise_for_status r in
           let! j := json_of r in
           ret (FOUND, Some j)
     end) (TRANSIENT_ERROR, None).

Definition remote_pull_group_snapshot `{Nacl} (s : Settings) (peer_hostname group_id caller_pubkey_hex : string)
    : M (option json) :=
  let! timestamp := now_ in
  let message := canonical_json (pull_snapshot_payload group_id caller_pubkey_hex (relay_pubkey_hex s) timestamp) in
  signed_ s message (fun signature =>
    let payload := JObj [("group_id", JStr group_id); ("caller_pubkey_hex", JStr caller_pubkey_hex);
                         ("relay_pubkey_hex", JStr (relay_pubkey_hex s));
                         ("relay_signature_hex", JStr (hex_of_bytes signature)); ("timestamp", JNum timestamp)] in
    catch_http
      (let! response := _pinned_post peer_hostname "/api/v1/federation/group_snapshot/pull" payload in
       answer_of true response) None).
End Client.
