(* ===== verification/FederationWorker.v ===== *)
(** * The federation delivery worker (scripts/federation_worker.py)

    One run: rows stuck in flight go back to pending, up to fifty due rows are read, and each is
    claimed, forwarded and marked.  Every statement is its own transaction ([tx]).  The texts
    Python gives for an exception or a JSON value, which only [last_error] shows, are parameters
    ([PyText]). *)

From Stdlib Require Import Ascii String.
From stdpp Require Import prelude gmap strings list.
From S2P Require Import Prelude Json Codec RedisStore Models Effects Crypto Payloads Config FederationClient.

#[local] Open Scope morok_scope.

Definition BATCH_SIZE : nat := 50.
Definition MAX_ATTEMPTS : Z := 11.
Definition IN_FLIGHT_TIMEOUT_SECONDS : Z := 300.

Definition BACKOFF_SCHEDULE : list (Z * Z) :=
  [(1, 30); (2, 60); (3, 120); (4, 300); (5, 900); (6, 1800); (7, 3600); (8, 7200); (9, 14400); (10, 28800)]%Z.

Fixpoint schedule_get (k : Z) (l : list (Z * Z)) : option Z :=
  match l with [] => None | (a, b) :: l' => if (a =? k)%Z then Some b else schedule_get k l' end.

Definition backoff_seconds (attempts : Z) : Z :=
  match schedule_get attempts BACKOFF_SCHEDULE with
  | Some s => s
  | None => default 0%Z (schedule_get (foldr Z.max 0%Z BACKOFF_SCHEDULE.*1) BACKOFF_SCHEDULE)
  end.

(** [f"exception: {type(e).__name__}: {e}"] and [f"{v}"] *)
Class PyText := { text_of_exn : exn -> string; text_of_json : json -> string }.

(** A statement and its commit. *)
Definition tx {A} (f : database -> A * database) : M A :=
  let! a := sql f in
  let! _ := commit in
  ret a.

(** [UPDATE federation_outbound_queue SET f WHERE p] *)
Definition update_fed (p : FederationOutboundQueue -> bool) (f : FederationOutboundQueue -> FederationOutboundQueue)
    (db : database) : Z * database :=
  let '(n, t) := update_where p f (t_fedqueue db) in (n, set_fedqueue t db).

Definition with_status (st : FedQueueStatus) (r : FederationOutboundQueue) : FederationOutboundQueue :=
  mkFed (fq_id r) (fq_envelope_id r) (fq_envelope_data r) (fq_target_relay r) st (fq_attempts r)
    (fq_next_attempt_at r) (fq_last_error r) (fq_created_at r) (fq_delivered_at r).

Definition stuck (cutoff : Z) (r : FederationOutboundQueue) : bool :=
  bool_decide (fq_status r = IN_FLIGHT) && (fq_next_attempt_at r <? cutoff)%Z.

Definition recover_stuck_in_flight : M Z :=
  let! now := now_ in
  tx (update_fed (stuck (now - IN_FLIGHT_TIMEOUT_SECONDS)) (with_status PENDING)).

Definition ready (now : Z) (r : FederationOutboundQueue) : bool :=
  bool_decide (fq_status r = PENDING) && (fq_next_attempt_at r <=? now)%Z.

Definition fetch_pending_batch : M (list FederationOutboundQueue) :=
  let! now := now_ in
  sql (fun db => (take BATCH_SIZE (order_by fq_next_attempt_at (List.filter (ready now) (t_fedqueue db))), db)).

Definition has_id (id : string) (r : FederationOutboundQueue) : bool := String.eqb (fq_id r) id.

Definition in_flight (now : Z) (r : FederationOutboundQueue) : FederationOutboundQueue :=
  mkFed (fq_id r) (fq_envelope_id r) (fq_envelope_data r) (fq_target_relay r) IN_FLIGHT (fq_attempts r)
    now (fq_last_error r) (fq_created_at r) (fq_delivered_at r).

Definition mark_in_flight (row : FederationOutboundQueue) : M bool :=
  let! now := now_ in
  let! n := tx (update_fed (fun r => has_id (fq_id row) r && bool_decide (fq_status r = PENDING)) (in_flight now)) in
  ret (0 <? n)%Z.

(** The payload is gone once it is delivered. *)
Definition succeeded (now : Z) (r : FederationOutboundQueue) : FederationOutboundQueue :=
  mkFed (fq_id r) (fq_envelope_id r) [] (fq_target_relay r) SUCCEEDED (fq_attempts r)
    (fq_next_attempt_at r) None (fq_created_at r) (Some now).

Definition mark_succeeded (row : FederationOutboundQueue) : M unit :=
  let! now := now_ in
  let! _ := tx (update_fed (has_id (fq_id row)) (succeeded now)) in
  ret tt.

Definition dead (attempts : Z) (error : string) (r : FederationOutboundQueue) : FederationOutboundQueue :=
  mkFed (fq_id r) (fq_envelope_id r) (fq_envelope_data r) (fq_target_relay r) DEAD_LETTER attempts
    (fq_next_attempt_at r) (Some error) (fq_created_at r) (fq_delivered_at r).

Definition retry_at (attempts next : Z) (error : string) (r : FederationOutboundQueue) : FederationOutboundQueue :=
  mkFed (fq_id r) (fq_envelope_id r) (fq_envelope_data r) (fq_target_relay r) PENDING attempts
    next (Some error) (fq_created_at r) (fq_delivered_at r).

Definition mark_retry_or_dead (row : FederationOutboundQueue) (error : string) : M unit :=
  let new_attempts := (fq_attempts row + 1)%Z in
  let! now := now_ in
  let error := substring 0 500 error in
  if (MAX_ATTEMPTS <=? new_attempts)%Z then
    let! _ := tx (update_fed (has_id (fq_id row)) (dead new_attempts error)) in
    ret tt
  else
    let! _ := tx (update_fed (has_id (fq_id row)) (retry_at new_attempts (now + backoff_seconds new_attempts) error)) in
    ret tt.

Section Worker.
  Context `{Ipaddress} `{Nacl} `{PyText} (s : Settings).

(** [result.get(...)] of something that is no dict is an [AttributeError]. *)
Definition process_row (row : FederationOutboundQueue) : M unit :=
  let! mine := mark_in_flight row in
  if negb mine then ret tt
  else
    let! result := try_except
      (let! r := remote_forward s (fq_target_relay row) (fq_envelope_data row) in ret (inl r))
      (fun e => ret (inr e)) in
    match result with
    | inr e => mark_retry_or_dead row ("exception: " +:+ text_of_exn e)
    | inl None | inl (Some JNull) => mark_retry_or_dead row "remote_forward_returned_none"
    | inl (Some (JObj d)) =>
        if negb (get_truthy "accepted" d) then
          let reason := match dict_get "reason" d with
                        | Some j => if json_truthy j then text_of_json j else "remote_rejected"
                        | None => "remote_rejected" end in
          mark_retry_or_dead row ("rejected: " +:+ reason)
        else mark_succeeded row
    | inl (Some _) => raise AttributeError
    end.

Record worker_stats := WorkerStats { st_recovered : Z; st_processed : Z; st_succeeded : Z; st_failed : Z }.
Definition count_row (ok : bool) (t : worker_stats) : worker_stats :=
  if ok then WorkerStats (st_recovered t) (st_processed t + 1) (st_succeeded t + 1) (st_failed t)
  else WorkerStats (st_recovered t) (st_processed t + 1) (st_succeeded t) (st_failed t + 1).

(** [check_db.get(FederationOutboundQueue, row.id)] *)
Definition refreshed (row : FederationOutboundQueue) : M bool :=
  let! r := sql (fun db => (select_one (has_id (fq_id row)) (t_fedqueue db), db)) in
  ret (match r with Some r => bool_decide (fq_status r = SUCCEEDED) | None => false end).

Fixpoint process_batch (rows : list FederationOutboundQueue) (stats : worker_stats) : M worker_stats :=
  match rows with
  | [] => ret stats
  | row :: rows' =>
      let! ok := try_except
        (let! _ := process_row row in refreshed row)
        (fun _ => let! _ := rollback in ret false) in
      process_batch rows' (count_row ok stats)
  end.

Definition run_once : M worker_stats :=
  let! recovered := recover_stuck_in_flight in
  let! batch := fetch_pending_batch in
  process_batch batch (WorkerStats recovered 0 0 0).
End Worker.
