(* ===== verification/Cleanup.v ===== *)
(** * Daily clean-up (cleanup.py)

    Rows that have outlived their retention are deleted; [cleanup_once] is one turn of
    [cleanup_task_loop], which sleeps a day between two turns. *)

From Stdlib Require Import Ascii String.
From stdpp Require Import prelude gmap strings list.
From S2P Require Import Prelude Json Codec RedisStore Models Effects.

#[local] Open Scope morok_scope.

Definition ANON_INACTIVE_SECONDS : Z := 7 * 86400.
Definition CLEANUP_INTERVAL_SECONDS : Z := 24 * 3600.
Definition ACCOUNT_MIN_AGE_SECONDS : Z := 3600.
Definition OUTBOUND_META_RETENTION_SECONDS : Z := 7 * 86400.
Definition FED_SUCCEEDED_RETENTION_SECONDS : Z := 86400.
Definition FED_DEAD_LETTER_RETENTION_SECONDS : Z := 72 * 3600.
Definition DMS_TERMINAL_RETENTION_SECONDS : Z := 30 * 86400.

(** An anonymous account of this relay that nobody has used for a week.  [home_relay] is never null. *)
Definition idle_anonymous (own_relay : string) (now : Z) (u : User) : bool :=
  negb (bool_decide (is_Some (u_username u))) && negb (bool_decide (is_Some (u_deleted_at u)))
  && String.eqb (u_home_relay u) own_relay
  && (u_created_at u <? now - ACCOUNT_MIN_AGE_SECONDS)%Z
  && match u_last_seen_at u with None => true | Some t => (t <? now - ANON_INACTIVE_SECONDS)%Z end.

Definition reap_user (u : User) : M unit :=
  let! _ := sql (fun db =>
    (tt, set_members (snd (delete_where (fun m => String.eqb (gm_pubkey m) (u_pubkey u)) (t_members db))) db)) in
  let! _ := sql (fun db =>
    (tt, set_backups (snd (delete_where (fun b => String.eqb (eb_pubkey b) (u_pubkey u)) (t_backups db))) db)) in
  let! _ := sql (fun db =>
    (tt, set_dms (snd (delete_where (fun d => String.eqb (dms_creator_pubkey d) (u_pubkey u)) (t_dms db))) db)) in
  sql (fun db => (tt, set_users (snd (delete_where (fun v => String.eqb (u_pubkey v) (u_pubkey u)) (t_users db))) db)).

Fixpoint reap_users (candidates : list User) : M Z :=
  match candidates with
  | [] => ret 0%Z
  | u :: l =>
      let! ok := try_except (let! _ := reap_user u in ret true) (fun _ => ret false) in
      let! n := reap_users l in
      ret (if (ok : bool) then n + 1 else n)%Z
  end.

Definition reap_anonymous_users (own_relay : string) : M Z :=
  let! now := now_ in
  let! candidates := sql (fun db => (List.filter (idle_anonymous own_relay now) (t_users db), db)) in
  reap_users candidates.

Definition finished_outbound (threshold : Z) (m : MailOutbound) : bool :=
  bool_decide (mo_status m = DELIVERED \/ mo_status m = FAILED) && (mo_updated_at m <? threshold)%Z.

Definition reap_delivered_outbound : M Z :=
  let! now := now_ in
  sql (fun db =>
    let '(n, t) := delete_where (finished_outbound (now - OUTBOUND_META_RETENTION_SECONDS)) (t_outbound db) in
    (n, set_outbound t db)).

(** [coalesce(cancelled_at, triggered_at) < threshold]: a null is not less than anything. *)
Definition terminal_dms (threshold : Z) (d : DeadManSwitch) : bool :=
  bool_decide (dms_status d = CANCELLED \/ dms_status d = TRIGGERED) &&
  match dms_cancelled_at d, dms_triggered_at d with
  | Some t, _ | None, Some t => (t <? threshold)%Z
  | None, None => false
  end.

Definition reap_terminal_dms : M Z :=
  let! now := now_ in
  sql (fun db =>
    let '(n, t) := delete_where (terminal_dms (now - DMS_TERMINAL_RETENTION_SECONDS)) (t_dms db) in
    (n, set_dms t db)).

Definition old_succeeded (now : Z) (r : FederationOutboundQueue) : bool :=
  bool_decide (fq_status r = SUCCEEDED) &&
  match fq_delivered_at r with Some t => (t <? now - FED_SUCCEEDED_RETENTION_SECONDS)%Z | None => false end.

Definition old_dead_letter (now : Z) (r : FederationOutboundQueue) : bool :=
  bool_decide (fq_status r = DEAD_LETTER) && (fq_next_attempt_at r <? now - FED_DEAD_LETTER_RETENTION_SECONDS)%Z.

Definition delete_fed (p : FederationOutboundQueue -> bool) (db : database) : Z * database :=
  let '(n, t) := delete_where p (t_fedqueue db) in (n, set_fedqueue t db).

Definition reap_federation_queue : M Z :=
  let! now := now_ in
  let! n := sql (delete_fed (old_succeeded now)) in
  let! m := sql (delete_fed (old_dead_letter now)) in
  ret (n + m)%Z.

(** The four counts; an exception rolls everything back, and is logged by the loop. *)
Definition cleanup_once (own_relay : string) : M (option (Z * Z * Z * Z)) :=
  try_except
    (let! count := reap_anonymous_users own_relay in
     let! mail_count := reap_delivered_outbound in
     let! fed_count := reap_federation_queue in
     let! dms_count := reap_terminal_dms in
     let! _ := commit in
     ret (Some (count, mail_count, fed_count, dms_count)))
    (fun _ => let! _ := rollback in ret None).
