(* ===== verification/FederationFacts.v ===== *)
(** * Calls to other relays: properties

    What a call makes of the answers of the network, and which addresses are ever called. *)

From Stdlib Require Import Ascii String.
From stdpp Require Import prelude gmap strings list.
From S2P Require Import Prelude Json Codec RedisStore Models Effects Crypto Payloads Config Sessions Deps Logic.
From S2P Require Import FederationClient.

#[local] Open Scope morok_scope.

(** ** One call to a peer *)

Section Calls.
  Context `{Ipaddress}.

(** The address a name is pinned to, given the answer of the resolver. *)
Definition pinned (hostname : string) (a : answer) : option string :=
  match an_addresses a with
  | Some ips => if forallb _is_public_ip ips then head ips else None
  | None => None
  end.

Definition name_ok (hostname : string) : bool := negb (String.eqb hostname "") && _HOSTNAME_RE hostname.

(** [n] answers were consumed and [sent] was sent. *)
Definition net_used (n : nat) (sent : list request) (w : vworld) : vworld :=
  set_net (fun m => w_net w (n + m)) (w_sent w ++ sent) w.

Lemma run_resolve h (w : vworld) :
  run_doc (resolve_pinned_peer h) w =
  if name_ok h then (Ok (pinned h (w_net w 0)), net_used 1 [] w) else (Ok None, w).
Proof.
  unfold resolve_pinned_peer, name_ok, pinned, net_used. rewrite app_nil_r.
  destruct (String.eqb h ""); [done|]. cbn [orb negb andb]. destruct (_HOSTNAME_RE h); [|done]. cbn [negb].
  cbn. destruct (an_addresses (w_net w 0)) as [ips|]; [|done]. by destruct (forallb _is_public_ip ips).
Qed.

(** What the caller makes of the response. *)
Definition read_response (missing : bool) (r : option response) : res (option json) :=
  match r with
  | None => Ok None
  | Some (status, body) =>
      if missing && (status =? 404)%Z then Ok None
      else if (200 <=? status)%Z && (status <? 300)%Z
      then match body with Some j => Ok (Some j) | None => Raise (ValueError "json") end
      else Ok None
  end.

Lemma run_post missing h path payload (w : vworld) :
  run_doc (catch_http (let! r := _pinned_post h path payload in answer_of missing r) None) w =
  if name_ok h then
    match pinned h (w_net w 0) with
    | None => (Ok None, net_used 1 [] w)
    | Some ip => (read_response missing (an_response (w_net w 1)),
                  net_used 2 [Request ip h path (Some payload)] w)
    end
  else (Ok None, w).
Proof.
  unfold catch_http. rewrite run_doc_try, run_doc_bind. unfold _pinned_post. rewrite run_doc_bind, run_resolve.
  destruct (name_ok h); [|done]. destruct (pinned h (w_net w 0)) as [ip|]; [|done].
  rewrite run_doc_bind. unfold http_, net_used. cbn. rewrite app_nil_r.
  destruct (an_response (w_net w 1)) as [[status body]|]; [|done]. cbn.
  destruct (missing && _); [done|]. unfold raise_for_status. cbn.
  destruct ((200 <=? status)%Z && (status <? 300)%Z); [|done]. cbn. by destruct body.
Qed.

Lemma snd_run_lookup h username (w : vworld) :
  snd (run_doc (remote_lookup h username) w) =
  (if name_ok h then
    match pinned h (w_net w 0) with
    | None => net_used 1 [] w
    | Some ip => net_used 2 [Request ip h ("/api/v1/federation/users/lookup/" +:+ username) None] w
    end
  else w).
Proof.
  unfold remote_lookup, catch_http. rewrite run_doc_try, run_doc_bind. unfold _pinned_get.
  rewrite run_doc_bind, run_resolve. destruct (name_ok h); [|done]. destruct (pinned h (w_net w 0)) as [ip|]; [|done].
  rewrite run_doc_bind. unfold http_, net_used. cbn. rewrite app_nil_r.
  destruct (an_response (w_net w 1)) as [[status body]|]; [|done]. cbn.
  destruct (status =? 404)%Z; [done|]. unfold raise_for_status. cbn.
  destruct ((200 <=? status)%Z && (status <? 300)%Z); [|done]. cbn. by destruct body.
Qed.

(** The coroutines that call a peer. *)
Inductive peer_call `{Nacl} (s : Settings) (h : string) : prog unit -> Prop :=
| call_handshake : peer_call s h (detached (remote_handshake s h))
| call_forward envelope : peer_call s h (detached (remote_forward s h envelope))
| call_lookup username : peer_call s h (detached (remote_lookup h username))
| call_pull group_id caller : peer_call s h (detached (remote_pull_group_snapshot s h group_id caller)).

(** What may have been sent: nothing, or one request to a public address of the host. *)
Definition sent_safely (h : string) (w w' : vworld) : Prop :=
  w_sent w' = w_sent w \/
  exists r ips, w_sent w' = w_sent w ++ [r] /\ rq_host r = h /\ _HOSTNAME_RE h = true /\
    an_addresses (w_net w 0) = Some ips /\ head ips = Some (rq_ip r) /\ Forall (fun ip => _is_public_ip ip = true) ips.

Lemma used_safely h path payload (w : vworld) :
  sent_safely h w (if name_ok h then
    match pinned h (w_net w 0) with
    | None => net_used 1 [] w
    | Some ip => net_used 2 [Request ip h path payload] w
    end
  else w).
Proof.
  unfold name_ok. destruct (negb _ && _HOSTNAME_RE h) eqn:Hh; [|by left]. apply andb_true_iff in Hh as [_ Hre].
  destruct (pinned h (w_net w 0)) as [ip|] eqn:Hp; [|left; cbn; by rewrite app_nil_r].
  unfold pinned in Hp. destruct (an_addresses (w_net w 0)) as [ips|] eqn:Ha; [|done].
  destruct (forallb _is_public_ip ips) eqn:Hpub; [|done].
  right. exists (Request ip h path payload), ips. split_and!; try done.
  apply Forall_forall. intros x Hx. rewrite forallb_forall in Hpub. apply Hpub. by apply list_elem_of_In.
Qed.

Lemma run_signed {A} `{Nacl} s message (k : string -> M (option A)) (w : vworld) :
  run_doc (signed_ s message k) w =
  match bytes_fromhex (relay_privkey_hex s) with
  | Some key => match ed25519_sign message key with Ok sg => run_doc (k sg) w | Raise _ => (Ok None, w) end
  | None => (Ok None, w)
  end.
Proof.
  unfold signed_. destruct (bytes_fromhex _); [|done]. by destruct (ed25519_sign _ _).
Qed.

Lemma post_safely {A} `{Nacl} s h message (k : string -> M (option A)) (w : vworld) :
  (forall sg, sent_safely h w (snd (run_doc (k sg) w))) -> sent_safely h w (snd (run_doc (signed_ s message k) w)).
Proof.
  intros Hk. rewrite run_signed. destruct (bytes_fromhex _); [|by left]. destruct (ed25519_sign _ _); [apply Hk|by left].
Qed.

Lemma snd_run_post missing h path payload (w : vworld) :
  sent_safely h w (snd (run_doc (catch_http (let! r := _pinned_post h path payload in answer_of missing r) None) w)).
Proof.
  rewrite run_post. pose proof (used_safely h path (Some payload) w) as Hs. destruct (name_ok h); [|done].
  by destruct (pinned h (w_net w 0)).
Qed.

(** No request of the relay to a peer reaches an address that is not public.  A call makes at
    most one request; the name has the form of a public host name, the resolver was asked once, all
    its addresses are public, and the connection goes to the first of them, so an answer that
    changes between the check and the use has no effect. *)
Theorem only_public_addresses `{R : Redis} `{Nacl} s h p (w : world rstore) :
  peer_call s h p -> sent_safely h (absw w) (snd (observe p w)).
Proof.
  intros Hp. rewrite observe_doc. generalize (absw w). clear w. intros w. destruct Hp; rewrite run_detached.
  - unfold remote_handshake. rewrite run_doc_bind, run_doc_now. cbv zeta. apply post_safely. intros sg. apply snd_run_post.
  - unfold remote_forward. rewrite run_doc_bind, run_doc_now. cbv zeta. apply post_safely. intros sg. apply snd_run_post.
  - rewrite snd_run_lookup. apply used_safely.
  - unfold remote_pull_group_snapshot. rewrite run_doc_bind, run_doc_now. cbv zeta. apply post_safely. intros sg.
    apply snd_run_post.
Qed.
End Calls.

(** ** Witnesses *)

Module FederationDemo.
#[local] Instance demo_nacl : Nacl :=
  {| nacl_verify := fun _ _ _ => true; nacl_sign := fun _ _ => "s"; nacl_public := fun k => k;
     nacl_to_curve25519 := fun k => Ok k |}.
#[local] Instance demo_ip : Ipaddress := fun _ => Some (IpFlags false false false false false false).

Definition zeros (n : nat) : string := string_of_list_ascii (repeat "0"%char n).
Definition settings : Settings := mkSettings "relay" (zeros 64) (zeros 64) 86400 1000 30 0 0 true "" 10 "".
Definition relay : world (rstore (Redis := Mem_Redis)) :=
  World 1000 (View ∅ ∅ []) empty_db empty_db ∅ [] (fun _ => "fresh") []
    (fun _ => Answer (Some ["192.0.2.1"; "192.0.2.2"]) (Some (200%Z, Some (JObj [])))) [].

Lemma addresses_witness :
  sent_safely "peer.example" (absw relay) (snd (observe (detached (remote_handshake settings "peer.example")) relay)).
Proof. apply (only_public_addresses settings "peer.example"). constructor. Defined.

Example one_request : map rq_ip (w_sent (snd (run (detached (remote_handshake settings "peer.example")) relay))) = ["192.0.2.1"].
Proof. vm_compute. reflexivity. Qed.
End FederationDemo.
