(* ===== verification/WorkerFacts.v ===== *)
(** * The federation queue: properties

    What one run of the worker makes of each row; the life of a row over any history of worker
    runs, new rows and clean-ups; that every row is settled after eleven runs; and the answer of a
    peer that keeps a row in flight for ever. *)

From Stdlib Require Import Ascii String Sorted.
From stdpp Require Import prelude gmap strings list.
From S2P Require Import Prelude Json Codec RedisStore Models Effects Crypto Payloads Config Sessions Deps Logic.
From S2P Require Import FederationClient FederationWorker Cleanup FederationFacts.

#[local] Open Scope morok_scope.

(** ** Rows of the queue *)

Definition fed (id : string) (db : database) : option FederationOutboundQueue := row fq_id id (t_fedqueue db).
Definition unique_fed (db : database) : Prop := unique_keys fq_id (t_fedqueue db).

(** The session sees the committed tables. *)
Definition rested (db : database) (w : vworld) : Prop := tables_of w = (db, db).

(** [UPDATE ... WHERE p] as a function on the database. *)
Definition put_fed (p : FederationOutboundQueue -> bool) f (db : database) : database := snd (update_fed p f db).

(** What an update of [id] makes of the row with key [k]. *)
Lemma fed_put p f k db :
  (forall r, fq_id (f r) = fq_id r) -> fed k (put_fed p f db) = (fun r => if p r then f r else r) <$> fed k db.
Proof.
  intros Hf. unfold fed, put_fed, update_fed. cbn. apply row_map. intros r. by destruct (p r).
Qed.

Lemma unique_put p f db : (forall r, fq_id (f r) = fq_id r) -> unique_fed (put_fed p f db) <-> unique_fed db.
Proof. intros Hf. unfold unique_fed, put_fed. cbn. apply unique_map. intros r. by destruct (p r). Qed.

Lemma rested_tables db (w : vworld) : rested db w -> w_db w = db /\ w_work w = db.
Proof. by intros [= ? ?]. Qed.

(** An update that concerns one row. *)
Lemma fed_put_one p f k r db :
  (forall r, fq_id (f r) = fq_id r) -> fed (fq_id r) db = Some r -> p r = true ->
  (forall r', p r' = true -> fq_id r' = fq_id r) ->
  fed k (put_fed p f db) = if String.eqb k (fq_id r) then Some (f r) else fed k db.
Proof.
  intros Hf Hr Hp Hone. rewrite fed_put by done. destruct (String.eqb_spec k (fq_id r)) as [->|Hne].
  - rewrite Hr. cbn. by rewrite Hp.
  - destruct (fed k db) as [r'|] eqn:E; [|done]. cbn. destruct (p r') eqn:Hp'; [|done].
    apply row_some in E as [_ E]. destruct Hne. rewrite <- E. by apply Hone.
Qed.

(** [w'] has the tables of [w] with [r] replaced by [r']. *)
Definition replaced (db : database) (r r' : FederationOutboundQueue) (w' : vworld) : Prop :=
  exists db', rested db' w' /\ (unique_fed db' <-> unique_fed db) /\
    forall k, fed k db' = if String.eqb k (fq_id r) then Some r' else fed k db.

Lemma replaced_put p f db r (w : vworld) :
  (forall r, fq_id (f r) = fq_id r) -> fed (fq_id r) db = Some r -> p r = true ->
  (forall r', p r' = true -> fq_id r' = fq_id r) -> w_work w = db ->
  replaced db r (f r) (set_databases (put_fed p f db) (put_fed p f db) w).
Proof.
  intros Hf Hr Hp Hone Hw. exists (put_fed p f db). split; [done|]. split; [by apply unique_put|].
  intros k. by apply fed_put_one.
Qed.

Lemma replaced_trans db db1 r r1 r2 (w' : vworld) :
  fq_id r1 = fq_id r -> (unique_fed db1 <-> unique_fed db) ->
  (forall k, fed k db1 = if String.eqb k (fq_id r) then Some r1 else fed k db) ->
  replaced db1 r1 r2 w' -> replaced db r r2 w'.
Proof.
  intros Hid Hu1 Hf1 (db2 & Hr2 & Hu2 & Hf2).
  exists db2. split; [done|]. split; [tauto|]. intros k. rewrite Hf2, Hf1, Hid. by destruct (String.eqb k (fq_id r)).
Qed.

Lemma run_tx {A} (f : database -> A * database) (w : vworld) :
  run_doc (tx f) w = (Ok (fst (f (w_work w))), let d := snd (f (w_work w)) in set_databases d d w).
Proof. unfold tx. rewrite run_doc_bind, run_doc_sql. done. Qed.

(** ** One attempt *)

Definition failed (now : Z) (r : FederationOutboundQueue) (e : string) : FederationOutboundQueue :=
  let n := (fq_attempts r + 1)%Z in
  if (MAX_ATTEMPTS <=? n)%Z then dead n (substring 0 500 e) r
  else retry_at n (now + backoff_seconds n) (substring 0 500 e) r.

Section Worker.
  Context `{Ipaddress} `{Nacl} `{PyText} (s : Settings).

(** The key of the relay is one. *)
Definition can_sign : bool :=
  match bytes_fromhex (relay_privkey_hex s) with Some k => (string_len k =? 32)%Z | None => false end.

(** What [remote_forward] makes of the answers of the resolver and of the peer. *)
Definition forwarded (h : string) (a1 a2 : answer) : res (option json) :=
  if can_sign && name_ok h then
    match pinned h a1 with Some _ => read_response false (an_response a2) | None => Ok None end
  else Ok None.

(** What an attempt with these answers makes of a pending row. *)
Definition attempt (now : Z) (r : FederationOutboundQueue) (a1 a2 : answer) : FederationOutboundQueue :=
  let r1 := in_flight now r in
  match forwarded (fq_target_relay r) a1 a2 with
  | Raise e => failed now r1 ("exception: " +:+ text_of_exn e)
  | Ok None | Ok (Some JNull) => failed now r1 "remote_forward_returned_none"
  | Ok (Some (JObj d)) =>
      if get_truthy "accepted" d then succeeded now r1
      else failed now r1 ("rejected: " +:+ match dict_get "reason" d with
                                           | Some j => if json_truthy j then text_of_json j else "remote_rejected"
                                           | None => "remote_rejected" end)
  | Ok (Some _) => r1
  end.

(** With some answers of the network that are in [N]. *)
Definition attempted (N : answer -> Prop) (now : Z) (r r' : FederationOutboundQueue) : Prop :=
  exists a1 a2, N a1 /\ N a2 /\ r' = attempt now r a1 a2.

Lemma failed_id now r e : fq_id (failed now r e) = fq_id r.
Proof. unfold failed. by case_match. Qed.

Lemma attempt_id now r a1 a2 : fq_id (attempt now r a1 a2) = fq_id r.
Proof. unfold attempt. cbv zeta. repeat case_match; try done; apply (failed_id now (in_flight now r)). Qed.

Lemma no_sql_post missing h path payload :
  no_sql (catch_http (let! r := _pinned_post h path payload in answer_of missing r) None).
Proof.
  unfold catch_http, _pinned_post, resolve_pinned_peer, answer_of, raise_for_status, json_of, resolve_, http_.
  cbv zeta. no_sql.
Qed.

Lemma no_sql_forward h envelope : no_sql (remote_forward s h envelope).
Proof. unfold remote_forward, signed_. cbv zeta. no_sql; apply no_sql_post. Qed.

Lemma run_forward h envelope (w : vworld) :
  fst (run_doc (remote_forward s h envelope) w) = forwarded h (w_net w 0) (w_net w 1).
Proof.
  unfold remote_forward, forwarded, can_sign. rewrite run_doc_bind, run_doc_now. cbv zeta. rewrite run_signed.
  destruct (bytes_fromhex _) as [key|]; [|done]. unfold ed25519_sign.
  destruct (string_len key =? 32)%Z; [|done]. cbn [negb andb]. rewrite run_post.
  destruct (name_ok h); [|done]. by destruct (pinned h (w_net w 0)).
Qed.

Lemma run_mark_retry row e (w : vworld) :
  run_doc (mark_retry_or_dead row e) w =
  (Ok tt, let d := put_fed (has_id (fq_id row))
                     (fun r => mkFed (fq_id r) (fq_envelope_id r) (fq_envelope_data r) (fq_target_relay r)
                        (if (MAX_ATTEMPTS <=? fq_attempts row + 1)%Z then DEAD_LETTER else PENDING) (fq_attempts row + 1)
                        (if (MAX_ATTEMPTS <=? fq_attempts row + 1)%Z then fq_next_attempt_at r
                         else w_now w + backoff_seconds (fq_attempts row + 1))
                        (Some (substring 0 500 e)) (fq_created_at r) (fq_delivered_at r)) (w_work w) in
          set_databases d d w).
Proof.
  unfold mark_retry_or_dead. cbv zeta. rewrite run_doc_bind, run_doc_now.
  destruct (MAX_ATTEMPTS <=? fq_attempts row + 1)%Z; rewrite run_doc_bind, run_tx; done.
Qed.

Lemma run_mark_succeeded row (w : vworld) :
  run_doc (mark_succeeded row) w =
  (Ok tt, let d := put_fed (has_id (fq_id row)) (succeeded (w_now w)) (w_work w) in set_databases d d w).
Proof. unfold mark_succeeded. rewrite run_doc_bind, run_doc_now. done. Qed.

Lemma has_id_self r : has_id (fq_id r) r = true.
Proof. apply String.eqb_refl. Qed.

Lemma failed_replaced row e (w : vworld) r :
  let w' := snd (run_doc (mark_retry_or_dead row e) w) in
  fq_id r = fq_id row -> fq_attempts r = fq_attempts row -> fed (fq_id r) (w_work w) = Some r ->
  replaced (w_work w) r (failed (w_now w) r e) w'.
Proof.
  cbv zeta. rewrite run_mark_retry. intros Hid Ha Hr. cbn [snd].
  match goal with |- replaced _ _ _ (set_databases (put_fed _ ?f _) _ _) =>
    assert (failed (w_now w) r e = f r) as -> end.
  { unfold failed. rewrite Ha. by destruct (MAX_ATTEMPTS <=? fq_attempts row + 1)%Z. }
  rewrite <- Hid. apply replaced_put; try done.
  - apply has_id_self.
  - by intros r' E%String.eqb_eq.
Qed.

Lemma run_mark_in_flight row (w : vworld) :
  fed (fq_id row) (w_work w) = Some row -> fq_status row = PENDING ->
  exists d, run_doc (mark_in_flight row) w = (Ok true, set_databases d d w) /\
    replaced (w_work w) row (in_flight (w_now w) row) (set_databases d d w).
Proof.
  intros Hr Hp. unfold mark_in_flight. rewrite run_doc_bind, run_doc_now, run_doc_bind, run_tx. cbn -[in_flight].
  assert (Hsel : has_id (fq_id row) row && bool_decide (fq_status row = PENDING) = true).
  { by rewrite has_id_self, bool_decide_eq_true_2. }
  eexists. split.
  - do 2 f_equal. apply Z.ltb_lt. apply row_some in Hr as [Hin _].
    assert (row ∈ List.filter (fun r => has_id (fq_id row) r && bool_decide (fq_status r = PENDING)) (t_fedqueue (w_work w))) as Hf.
    { rewrite list_elem_of_In. apply List.filter_In. by rewrite <- list_elem_of_In. }
    destruct (List.filter _ _); [by apply elem_of_nil in Hf|cbn; lia].
  - apply replaced_put; try done. by intros r' [E%String.eqb_eq _]%andb_true_iff.
Qed.

(** What [process_row] does with the outcome of a call. *)
Definition settle (row : FederationOutboundQueue) (o : res (option json)) : M unit :=
  match o with
  | Raise e => mark_retry_or_dead row ("exception: " +:+ text_of_exn e)
  | Ok None | Ok (Some JNull) => mark_retry_or_dead row "remote_forward_returned_none"
  | Ok (Some (JObj d)) =>
      if negb (get_truthy "accepted" d) then
        let reason := match dict_get "reason" d with
                      | Some j => if json_truthy j then text_of_json j else "remote_rejected"
                      | None => "remote_rejected" end in
        mark_retry_or_dead row ("rejected: " +:+ reason)
      else mark_succeeded row
  | Ok (Some _) => raise AttributeError
  end.

Lemma settle_replaced row now a1 a2 (w : vworld) :
  now = w_now w -> fed (fq_id row) (w_work w) = Some (in_flight now row) -> w_db w = w_work w ->
  replaced (w_work w) (in_flight now row) (attempt now row a1 a2)
    (snd (run_doc (settle row (forwarded (fq_target_relay row) a1 a2)) w)).
Proof.
  intros -> Hr Hc. set (r1 := in_flight (w_now w) row) in *.
  assert (Hretry : forall e, replaced (w_work w) r1 (failed (w_now w) r1 e) (snd (run_doc (mark_retry_or_dead row e) w))).
  { intros e. by apply failed_replaced. }
  assert (Hodd : replaced (w_work w) r1 r1 w).
  { exists (w_work w). split; [unfold rested, tables_of; by rewrite Hc|]. split; [done|].
    intros k. by destruct (String.eqb_spec k (fq_id r1)) as [->|]. }
  assert (Hdone : replaced (w_work w) r1 (succeeded (w_now w) r1) (snd (run_doc (mark_succeeded row) w))).
  { rewrite run_mark_succeeded. cbn [snd].
    apply (replaced_put (has_id (fq_id row)) (succeeded (w_now w)) (w_work w) r1); try done; [apply String.eqb_refl|].
    by intros r' E%String.eqb_eq. }
  unfold attempt, settle. cbv zeta. fold r1.
  destruct (forwarded _ a1 a2) as [[[]|]|e]; auto. destruct (get_truthy _ _); cbn [negb]; auto.
Qed.

(** One row: claimed, tried and marked. *)
Lemma run_process_row row (w : vworld) db :
  rested db w -> fed (fq_id row) db = Some row -> fq_status row = PENDING ->
  replaced db row (attempt (w_now w) row (w_net w 0) (w_net w 1)) (snd (run_doc (process_row s row) w)).
Proof.
  intros Ht Hr Hp. destruct (rested_tables _ _ Ht) as [_ Hw]. rewrite <- Hw in Hr.
  destruct (run_mark_in_flight row w Hr Hp) as (db1 & Hm1 & d & Hr1 & Hu1 & Hf1). rewrite Hw in Hu1, Hf1.
  assert (d = db1) as -> by (apply rested_tables in Hr1 as [<- _]; done). clear Hr1.
  unfold process_row. rewrite run_doc_bind, Hm1. set (w1 := set_databases db1 db1 w) in *. cbn [negb].
  rewrite run_doc_bind, run_doc_try, run_doc_bind.
  pose proof (run_no_sql _ w1 (no_sql_forward (fq_target_relay row) (fq_envelope_data row))) as Ht2.
  pose proof (run_now (remote_forward s (fq_target_relay row) (fq_envelope_data row)) w1) as Hn2.
  pose proof (run_forward (fq_target_relay row) (fq_envelope_data row) w1) as Hf.
  destruct (run_doc (remote_forward s (fq_target_relay row) (fq_envelope_data row)) w1) as [o w2]. cbn [fst snd] in *.
  change (w_net w1) with (w_net w) in Hf. change (w_now w1) with (w_now w) in Hn2.
  match goal with |- context [snd ?x] => assert (x = run_doc (settle row o) w2) as -> end.
  { by destruct o as [[[]|]|e]. }
  destruct (rested_tables db1 w2) as [Hd2 Hw2]; [exact Ht2|]. rewrite Hf.
  apply (replaced_trans db db1 row (in_flight (w_now w) row)); [done|done|done|].
  rewrite <- Hw2. apply settle_replaced; [done| |by rewrite Hd2].
  rewrite Hw2, Hf1. by rewrite String.eqb_refl.
Qed.

(** ** One run *)

Definition batch_step (r : FederationOutboundQueue) : M bool :=
  try_except (let! _ := process_row s r in refreshed r) (fun _ => let! _ := rollback in ret false).

Lemma run_batch_step r (w : vworld) db :
  rested db w -> fed (fq_id r) db = Some r -> fq_status r = PENDING ->
  (exists ok, fst (run_doc (batch_step r) w) = Ok ok) /\
  replaced db r (attempt (w_now w) r (w_net w 0) (w_net w 1)) (snd (run_doc (batch_step r) w)).
Proof.
  intros Ht Hr Hp. destruct (run_process_row r w db Ht Hr Hp) as (db' & Ht' & Hrep).
  unfold batch_step. rewrite run_doc_try, run_doc_bind.
  destruct (run_doc (process_row s r) w) as [[[]|e] w']; cbn [fst snd] in *.
  - unfold refreshed. rewrite run_doc_bind, run_doc_sql. cbn. split; [by eexists|]. exists db'. split; [|done]. unfold rested, tables_of in *. by destruct w'.
  - cbn. split; [by eexists|]. exists db'. split; [|done].
    apply rested_tables in Ht' as [E _]. unfold rested, tables_of. cbn. by rewrite E.
Qed.

Lemma run_batch N rows stats (w : vworld) db :
  net_is N w -> rested db w -> unique_keys fq_id rows -> Forall (fun r => fed (fq_id r) db = Some r /\ fq_status r = PENDING) rows ->
  let w' := snd (run_doc (process_batch s rows stats) w) in
  exists db', rested db' w' /\ (unique_fed db' <-> unique_fed db) /\
    forall k, match row fq_id k rows with
              | Some r => exists r', fed k db' = Some r' /\ attempted N (w_now w) r r'
              | None => fed k db' = fed k db
              end.
Proof.
  cbv zeta. revert stats w db. induction rows as [|r rows IH]; intros stats w db HN Ht Hu Hrows.
  { by exists db. }
  apply Forall_cons in Hrows as [[Hr Hp] Hrows]. apply NoDup_cons in Hu as [Hnin Hu].
  destruct (run_batch_step r w db Ht Hr Hp) as ([ok Hok] & db1 & Ht1 & Hu1 & Hf1).
  cbn [process_batch]. rewrite run_doc_bind. fold (batch_step r).
  pose proof (run_now (batch_step r) w) as Hn. pose proof (run_net N (batch_step r) w HN) as Hnet.
  destruct (run_doc (batch_step r) w) as [o w1]. cbn [fst snd] in *. subst o.
  assert (Hne : forall r0, r0 ∈ rows -> fq_id r0 <> fq_id r).
  { intros r0 Hin E. apply Hnin. rewrite <- E. by apply (list_elem_of_fmap_2 fq_id). }
  destruct (IH (count_row ok stats) w1 db1 Hnet Ht1 Hu) as (db' & Ht' & Hu' & Hf').
  { rewrite Forall_forall in Hrows |- *. intros r0 Hin. destruct (Hrows r0 Hin) as [E1 E2]. split; [|done].
    rewrite Hf1, E1. destruct (String.eqb_spec (fq_id r0) (fq_id r)) as [E|]; [|done]. by destruct (Hne r0 Hin). }
  exists db'. split; [done|]. split; [tauto|]. intros k. specialize (Hf' k). unfold row. cbn [List.find].
  unfold has_key at 1. destruct (String.eqb_spec (fq_id r) k) as [<-|Hk].
  - assert (row fq_id (fq_id r) rows = None) as E by by apply row_none. rewrite E in Hf'.
    eexists. rewrite Hf', Hf1, String.eqb_refl. split; [done|]. by exists (w_net w 0), (w_net w 1).
  - fold (row fq_id k rows). destruct (row fq_id k rows) as [r0|].
    + destruct Hf' as (r0' & E1 & E2). exists r0'. by rewrite <- Hn.
    + rewrite Hf', Hf1. destruct (String.eqb_spec k (fq_id r)); [|done]. by destruct Hk.
Qed.
End Worker.

(** ** The batch *)


(** ** One run of the worker *)

(** A row stuck in flight is pending again. *)
Definition recovered (now : Z) (r : FederationOutboundQueue) : FederationOutboundQueue :=
  if stuck (now - IN_FLIGHT_TIMEOUT_SECONDS) r then with_status PENDING r else r.

(** A full batch of other due rows that have waited at least as long. *)
Definition overtaken (now : Z) (db : database) (r : FederationOutboundQueue) : Prop :=
  exists batch, length batch = BATCH_SIZE /\ unique_keys fq_id batch /\
    Forall (fun b => (exists b0, b0 ∈ t_fedqueue db /\ b = recovered now b0) /\ ready now b = true /\
              fq_id b <> fq_id r /\ (fq_next_attempt_at b <= fq_next_attempt_at r)%Z) batch.

Section Batch.
  Context (now : Z) (t : list FederationOutboundQueue).
  Hypothesis Hu : unique_keys fq_id t.

Definition due_batch : list FederationOutboundQueue :=
  take BATCH_SIZE (order_by fq_next_attempt_at (List.filter (ready now) t)).

Lemma batch_unique : unique_keys fq_id (order_by fq_next_attempt_at (List.filter (ready now) t)).
Proof.
  unfold unique_keys. rewrite (fmap_Permutation fq_id _ _ (order_by_perm fq_next_attempt_at _)).
  by eapply unique_sublist, Hu; apply filter_sublist.
Qed.

Lemma batch_in r : r ∈ due_batch -> r ∈ t /\ ready now r = true.
Proof.
  intros Hin. apply elem_of_take in Hin as (i & Hi & _). apply list_elem_of_lookup_2 in Hi.
  rewrite order_by_perm in Hi. apply list_elem_of_In, List.filter_In in Hi as [Hi Hr].
  by apply list_elem_of_In in Hi.
Qed.

Lemma due_batch_unique : unique_keys fq_id due_batch.
Proof. eapply unique_sublist, batch_unique. apply sublist_take. Qed.

Lemma not_in_batch r :
  r ∈ t -> ready now r = true -> row fq_id (fq_id r) due_batch = None ->
  length due_batch = BATCH_SIZE /\
  Forall (fun b => fq_id b <> fq_id r /\ (fq_next_attempt_at b <= fq_next_attempt_at r)%Z) due_batch.
Proof.
  intros Hr Hready Hnone.
  set (l := order_by fq_next_attempt_at (List.filter (ready now) t)).
  assert (Hl : r ∈ l).
  { unfold l. rewrite order_by_perm, list_elem_of_In. apply List.filter_In. by rewrite <- list_elem_of_In. }
  assert (Hd : r ∈ drop BATCH_SIZE l).
  { rewrite <- (take_drop BATCH_SIZE l) in Hl. apply elem_of_app in Hl as [Hl|Hl]; [|done].
    by destruct (proj1 (row_none _ _ _) Hnone r Hl). }
  split.
  - unfold due_batch. fold l. rewrite length_take. destruct (decide (length l <= BATCH_SIZE)) as [Hle|]; [|lia].
    rewrite drop_ge in Hd by done. by apply elem_of_nil in Hd.
  - apply Forall_forall. intros b Hb. split; [by apply (proj1 (row_none _ _ _) Hnone)|].
    by apply (sorted_take (fun a b => (fq_next_attempt_at a <= fq_next_attempt_at b)%Z) BATCH_SIZE l b r);
      [apply order_by_sorted|..].
Qed.
End Batch.

Lemma recovered_id now r : fq_id (recovered now r) = fq_id r.
Proof. unfold recovered. by destruct (stuck _ r). Qed.

Lemma ready_pending now r : ready now r = true -> fq_status r = PENDING.
Proof. unfold ready. intros [H _]%andb_true_iff. by apply bool_decide_eq_true in H. Qed.

Section Run.
  Context `{Ipaddress} `{Nacl} `{PyText} (s : Settings).

Definition after_run (N : answer -> Prop) (now : Z) (db db' : database) : Prop :=
  (unique_fed db' <-> unique_fed db) /\
  forall k, match fed k db with
            | None => fed k db' = None
            | Some r => let r0 := recovered now r in
                exists r', fed k db' = Some r' /\
                  (ready now r0 = true /\ attempted s N now r0 r' \/
                   r' = r0 /\ (ready now r0 = true -> overtaken now db r0))
            end.

Lemma run_once_rows N (w : vworld) db :
  net_is N w -> rested db w -> unique_fed db ->
  exists db', rested db' (snd (run_doc (run_once s) w)) /\ after_run N (w_now w) db db'.
Proof.
  intros HN Ht Hu. apply rested_tables in Ht as [_ Hw].
  unfold run_once. rewrite run_doc_bind. unfold recover_stuck_in_flight. rewrite run_doc_bind, run_doc_now, run_tx, Hw.
  cbv zeta. set (db1 := snd (update_fed _ _ db)). set (w1 := set_databases db1 db1 w).
  assert (Ht1 : t_fedqueue db1 = map (recovered (w_now w)) (t_fedqueue db)) by done.
  remember (fst (update_fed _ _ db)) as count eqn:Hcount. clear Hcount. clearbody db1.
  assert (Hu1 : unique_fed db1) by (unfold unique_fed; rewrite Ht1; by apply unique_map; [apply recovered_id|]).
  rewrite run_doc_bind. unfold fetch_pending_batch. rewrite run_doc_bind, run_doc_now, run_doc_sql.
  cbn [fst snd]. change (w_work w1) with db1. change (w_now w1) with (w_now w).
  fold (due_batch (w_now w) (t_fedqueue db1)). set (batch := due_batch _ _).
  assert (Hw2 : set_databases (w_db w1) db1 w1 = w1) by done. rewrite Hw2.
  destruct (run_batch s N batch (WorkerStats count 0 0 0) w1 db1) as (db' & Ht' & Hu' & Hf').
  { exact HN. }
  { done. }
  { by apply due_batch_unique. }
  { apply Forall_forall. intros r [Hin Hr]%batch_in. split; [by apply row_unique|by eapply ready_pending]. }
  exists db'. split; [exact Ht'|]. split.
  { rewrite Hu'. split; intros _; done. }
  intros k. specialize (Hf' k). change (w_now w1) with (w_now w) in Hf'. 
  assert (Hk1 : fed k db1 = recovered (w_now w) <$> fed k db).
  { unfold fed. rewrite Ht1. apply row_map. apply recovered_id. }
  destruct (row fq_id k batch) as [r|] eqn:Er.
  - destruct Hf' as (r' & Hf' & Ha). apply row_some in Er as [Hin Hk]. apply batch_in in Hin as [Hin Hr].
    assert (E : fed k db1 = Some r) by (rewrite <- Hk; by apply row_unique).
    rewrite Hk1 in E. destruct (fed k db) as [r0|]; [|done]. injection E as <-.
    exists r'. split; [done|]. by left.
  - rewrite Hk1 in Hf'. destruct (fed k db) as [r0|] eqn:E0; [|done]. cbn in *. eexists. split; [exact Hf'|]. right.
    split; [done|]. intros Hr. apply row_some in E0 as [Hin Hk].
    assert (Hin1 : recovered (w_now w) r0 ∈ t_fedqueue db1) by (rewrite Ht1; by apply list_elem_of_fmap_2).
    rewrite <- Hk, <- (recovered_id (w_now w)) in Er.
    destruct (not_in_batch (w_now w) (t_fedqueue db1) _ Hin1 Hr Er) as [Hlen Hall].
    exists batch. split; [done|]. split; [by apply due_batch_unique|].
    rewrite Forall_forall in Hall |- *. intros b Hb. destruct (Hall b Hb) as [Hne Hle].
    apply batch_in in Hb as [Hb Hready]. split; [|done]. rewrite Ht1 in Hb.
    apply list_elem_of_fmap in Hb as (b0 & -> & Hb0). by exists b0.
Qed.
End Run.
