(* ===== verification/CleanupFacts.v ===== *)
(** * The daily clean-up: properties

    Exactly what one turn of the clean-up deletes, and what that does to the switches of an idle
    anonymous account. *)

From Stdlib Require Import Ascii String.
From stdpp Require Import prelude gmap strings list.
From S2P Require Import Prelude Json Codec RedisStore Models Effects Crypto Sessions Deps Logic.
From S2P Require Import BlobStorage Queue DmsReaper Cleanup.

#[local] Open Scope morok_scope.

(** Membership as the deletions test it. *)
Definition among (keys : list string) (k : string) : bool := existsb (String.eqb k) keys.

Lemma among_true keys k : among keys k = true <-> k ∈ keys.
Proof.
  unfold among. rewrite existsb_exists. split.
  - intros (x & Hx & ->%String.eqb_eq). by apply list_elem_of_In.
  - intros Hk. exists k. rewrite String.eqb_refl. split; [by apply list_elem_of_In|done].
Qed.

Definition without {A} (key : A -> string) (keys : list string) (t : list A) : list A :=
  List.filter (fun r => negb (among keys (key r))) t.

(** The database without the accounts [keys] and what they own. *)
Definition without_users (keys : list string) (db : database) : database :=
  set_users (without u_pubkey keys (t_users db))
    (set_dms (without dms_creator_pubkey keys (t_dms db))
      (set_backups (without eb_pubkey keys (t_backups db))
        (set_members (without gm_pubkey keys (t_members db)) db))).

Definition idle_keys (own_relay : string) (now : Z) (db : database) : list string :=
  map u_pubkey (List.filter (idle_anonymous own_relay now) (t_users db)).

(** The database after a turn. *)
Definition cleaned (own_relay : string) (now : Z) (db : database) : database :=
  let d := without_users (idle_keys own_relay now db) db in
  set_dms (List.filter (fun x => negb (terminal_dms (now - DMS_TERMINAL_RETENTION_SECONDS) x)) (t_dms d))
    (set_fedqueue (List.filter (fun r => negb (old_succeeded now r || old_dead_letter now r)) (t_fedqueue d))
      (set_outbound (List.filter (fun m => negb (finished_outbound (now - OUTBOUND_META_RETENTION_SECONDS) m))
                       (t_outbound d)) d)).

Lemma filter_filter {A} (p q : A -> bool) l : List.filter p (List.filter q l) = List.filter (fun x => q x && p x) l.
Proof. induction l as [|x l IH]; [done|]. cbn. destruct (q x); cbn; [destruct (p x)|]; by rewrite ?IH. Qed.

Lemma filter_same {A} (p q : A -> bool) l : (forall x, p x = q x) -> List.filter p l = List.filter q l.
Proof. intros E. induction l as [|x l IH]; [done|]. cbn. by rewrite E, IH. Qed.

Lemma without_one {A} (key : A -> string) k t :
  List.filter (fun r => negb (String.eqb (key r) k)) t = without key [k] t.
Proof. apply filter_same. intros x. unfold among. cbn. by rewrite orb_false_r. Qed.

Lemma without_cons {A} (key : A -> string) k keys t : without key keys (without key [k] t) = without key (k :: keys) t.
Proof.
  unfold without. rewrite filter_filter. apply filter_same. intros x. unfold among. cbn.
  by rewrite orb_false_r, negb_orb.
Qed.

Lemma without_nil {A} (key : A -> string) t : without key [] t = t.
Proof. unfold without. induction t as [|x t IH]; [done|]. cbn in *. by rewrite IH. Qed.

Lemma set_work_same (w : vworld) : set_databases (w_db w) (w_work w) w = w.
Proof. by destruct w. Qed.

Lemma run_reap_user u (w : vworld) :
  run_doc (reap_user u) w = (Ok tt, set_databases (w_db w) (without_users [u_pubkey u] (w_work w)) w).
Proof.
  unfold reap_user. do 3 (rewrite run_doc_bind, run_doc_sql; cbn [fst snd]). rewrite run_doc_sql. cbn [fst snd].
  f_equal. unfold set_databases, without_users. cbn. by rewrite !without_one.
Qed.

Lemma without_users_cons k keys db : without_users keys (without_users [k] db) = without_users (k :: keys) db.
Proof. unfold without_users. cbn -[without]. by rewrite !without_cons. Qed.

Lemma without_users_nil db : without_users [] db = db.
Proof. unfold without_users. rewrite !without_nil. by destruct db. Qed.

Lemma run_reap_users l (w : vworld) :
  run_doc (reap_users l) w =
  (Ok (Z.of_nat (length l)), set_databases (w_db w) (without_users (map u_pubkey l) (w_work w)) w).
Proof.
  revert w. induction l as [|u l IH]; intros w.
  - cbn [reap_users map]. rewrite without_users_nil, set_work_same. done.
  - cbn [reap_users]. rewrite run_doc_bind, run_doc_try, run_doc_bind, run_reap_user, run_doc_ret, run_doc_bind, IH.
    cbn [w_db w_work set_databases]. rewrite without_users_cons. rewrite run_doc_ret. f_equal. f_equal.
    cbn [length]. lia.
Qed.

(** One turn, without what it counts. *)
Lemma run_cleanup own_relay (w : vworld) :
  w_work w = w_db w ->
  exists n, run_doc (cleanup_once own_relay) w =
    (Ok (Some n), let d := cleaned own_relay (w_now w) (w_db w) in set_databases d d w).
Proof.
  intros Hw. unfold cleanup_once. rewrite run_doc_try, run_doc_bind.
  unfold reap_anonymous_users. rewrite run_doc_bind, run_doc_now, run_doc_bind, run_doc_sql. cbn [fst snd].
  rewrite set_work_same, run_reap_users. cbv beta iota.
  rewrite run_doc_bind. unfold reap_delivered_outbound. rewrite run_doc_bind, run_doc_now, run_doc_sql. cbn [fst snd].
  rewrite run_doc_bind. unfold reap_federation_queue. rewrite run_doc_bind, run_doc_now, run_doc_bind, run_doc_sql.
  cbn [fst snd]. rewrite run_doc_bind, run_doc_sql. cbn [fst snd]. rewrite run_doc_ret.
  rewrite run_doc_bind. unfold reap_terminal_dms. rewrite run_doc_bind, run_doc_now, run_doc_sql. cbn [fst snd].
  rewrite run_doc_bind, run_doc_commit, run_doc_ret. eexists. f_equal.
  cbn [w_db w_work w_now set_databases]. rewrite Hw. fold (idle_keys own_relay (w_now w) (w_db w)).
  set (d := without_users _ _). 
  assert (E : forall a b, a = b -> set_databases a a w = set_databases b b w) by (by intros ? ? ->).
  apply E. unfold cleaned. fold d. unfold delete_fed. cbn.
  rewrite filter_filter.
  rewrite (filter_same (fun x => negb (old_succeeded (w_now w) x) && negb (old_dead_letter (w_now w) x))
             (fun r => negb (old_succeeded (w_now w) r || old_dead_letter (w_now w) r))) by (intros x; by rewrite negb_orb).
  done.
Qed.

Lemma elem_without {A} (key : A -> string) keys t (r : A) : r ∈ without key keys t <-> r ∈ t /\ key r ∉ keys.
Proof.
  unfold without. rewrite !list_elem_of_In, List.filter_In. rewrite negb_true_iff, <- not_true_iff_false, among_true. by rewrite !list_elem_of_In.
Qed.

Lemma elem_kept {A} (p : A -> bool) t r : r ∈ List.filter (fun x => negb (p x)) t <-> r ∈ t /\ p r = false.
Proof. by rewrite !list_elem_of_In, List.filter_In, negb_true_iff. Qed.

Lemma idle_keys_in own now db k :
  k ∈ idle_keys own now db <-> exists u, u ∈ t_users db /\ u_pubkey u = k /\ idle_anonymous own now u = true.
Proof.
  unfold idle_keys. rewrite list_elem_of_fmap. split.
  - intros (u & -> & [Hu Hi]%list_elem_of_In%List.filter_In). exists u. by rewrite list_elem_of_In.
  - intros (u & Hu & <- & Hi). exists u. split; [done|]. apply list_elem_of_In, List.filter_In. by rewrite <- list_elem_of_In.
Qed.

(** Whose account is reaped by a turn now. *)
Definition reaped (own_relay : string) (now : Z) (db : database) (k : string) : Prop :=
  exists u, u ∈ t_users db /\ u_pubkey u = k /\ idle_anonymous own_relay now u = true.

Section Turn.
  Context `{R : Redis}.

Lemma cleanup_server own_relay (w : world rstore) :
  w_work w = w_db w ->
  let w' := snd (run (detached (cleanup_once own_relay)) w) in
  w_db w' = cleaned own_relay (w_now w) (w_db w) /\ w_work w' = w_db w' /\ w_now w' = w_now w.
Proof.
  intros Hw. cbv zeta. destruct (run_cleanup own_relay (absw w) Hw) as [n E].
  pose proof (snd_run_absw (detached (cleanup_once own_relay)) w) as Hv. rewrite run_detached, E in Hv.
  destruct (run (detached (cleanup_once own_relay)) w) as [[] w']. cbn [snd] in *.
  change (w_db w') with (w_db (absw w')). change (w_work w') with (w_work (absw w')).
  change (w_now w') with (w_now (absw w')). by rewrite Hv.
Qed.

(** A turn of the clean-up deletes exactly what has outlived its retention.  An account goes when
    one with its key is anonymous, of this relay, older than an hour and unused for a week, and its
    memberships, backup and switches go with it; other switches go a month after they fired or were
    cancelled; outbound mail goes a week after it was delivered or failed; delivered rows of the
    federation queue go after a day and dead ones after three.  So nothing that is still armed,
    queued or pending goes, except the switches of an idle account. *)
Theorem cleanup_exact own_relay (w : world rstore) :
  w_work w = w_db w ->
  let w' := snd (run (detached (cleanup_once own_relay)) w) in
  let now := w_now w in
  let idle := reaped own_relay now (w_db w) in
  w_work w' = w_db w' /\
  (forall u, u ∈ t_users (w_db w') <-> u ∈ t_users (w_db w) /\ ~ idle (u_pubkey u)) /\
  (forall m, m ∈ t_members (w_db w') <-> m ∈ t_members (w_db w) /\ ~ idle (gm_pubkey m)) /\
  (forall b, b ∈ t_backups (w_db w') <-> b ∈ t_backups (w_db w) /\ ~ idle (eb_pubkey b)) /\
  (forall d, d ∈ t_dms (w_db w') <->
     (d ∈ t_dms (w_db w) /\ ~ idle (dms_creator_pubkey d)) /\
     terminal_dms (now - DMS_TERMINAL_RETENTION_SECONDS) d = false) /\
  (forall m, m ∈ t_outbound (w_db w') <->
     m ∈ t_outbound (w_db w) /\ finished_outbound (now - OUTBOUND_META_RETENTION_SECONDS) m = false) /\
  (forall r, r ∈ t_fedqueue (w_db w') <->
     r ∈ t_fedqueue (w_db w) /\ (old_succeeded now r || old_dead_letter now r) = false).
Proof.
  intros Hw w' now idle. destruct (cleanup_server own_relay w Hw) as (E & Hw' & _). subst w'. rewrite Hw', E.
  split; [done|]. unfold idle, reaped. setoid_rewrite <- idle_keys_in. unfold cleaned, without_users. cbn.
  repeat match goal with |- _ /\ _ => split end; intros ?; rewrite ?elem_kept, ?elem_without; done.
Qed.

(** An armed switch of an idle anonymous account is deleted before its time.  The clean-up says
    that an armed switch is a guarantee in force and never touched; yet its owner, who is silent
    just as the switch expects, counts as idle after a week, while triggers of up to a year can be
    chosen.  After the clean-up no switch of the owner is left to fire. *)
Theorem idle_owner_loses_switch own_relay u d (w : world rstore) :
  w_work w = w_db w -> u ∈ t_users (w_db w) -> idle_anonymous own_relay (w_now w) u = true ->
  d ∈ t_dms (w_db w) -> dms_creator_pubkey d = u_pubkey u -> dms_status d = ARMED ->
  let fires := (dms_last_check_in_at d + dms_trigger_seconds d)%Z in
  (w_now w < fires)%Z ->
  let w' := snd (run (detached (cleanup_once own_relay)) w) in
  due fires d = true /\ due (w_now w) d = false /\
  Forall (fun d' => dms_creator_pubkey d' <> u_pubkey u) (t_dms (w_db w')).
Proof.
  intros Hw Hu Hidle _ _ Ha fires Hf w'. unfold due. rewrite bool_decide_eq_true_2 by done. cbn [andb].
  split_and!; [unfold fires; zify_bool; lia|unfold fires in *; zify_bool; lia|].
  destruct (cleanup_server own_relay w Hw) as (E & _). subst w'. rewrite E.
  apply Forall_forall. intros d' [[_ Hn]%elem_without _]%elem_kept Hk.
  apply Hn, idle_keys_in. by exists u.
Qed.
End Turn.

(** ** Witnesses *)

Module CleanupDemo.
(** Silent since 0, with a switch for day 30. *)
Definition owner : User := mkUser "aa" None FREE "relay" 0 (Some 0%Z) None None.
Definition switch : DeadManSwitch :=
  mkDMS "id" "aa" (30 * 86400) 0 "secret" None ARMED 0 None None [mkRecipient "bb" None].
Definition relay : world (rstore (Redis := Mem_Redis)) :=
  let db := set_users [owner] (set_dms [switch] empty_db) in
  World (8 * 86400) (View ∅ ∅ []) db db ∅ [] (fun _ => "fresh") [] no_network [].

Lemma cleanup_witness :
  w_work (snd (run (detached (cleanup_once "relay")) relay)) = w_db (snd (run (detached (cleanup_once "relay")) relay)).
Proof. pose proof (cleanup_exact "relay" relay eq_refl) as Hc. exact (proj1 Hc). Defined.

Lemma idle_witness :
  due (30 * 86400) switch = true /\ due (8 * 86400) switch = false /\
  Forall (fun d => dms_creator_pubkey d <> "aa") (t_dms (w_db (snd (run (detached (cleanup_once "relay")) relay)))).
Proof. apply (idle_owner_loses_switch "relay" owner switch relay); try reflexivity; left. Defined.
End CleanupDemo.
