(* ===== verification/FedQueueFacts.v ===== *)
(** * The life of the federation queue: properties

    One run of the worker on a server; the life of a row over any history of worker runs, new rows
    and clean-ups; that every row is settled after eleven runs; and the answer of a peer that keeps
    a row in flight for ever. *)

From Stdlib Require Import Ascii String.
From stdpp Require Import prelude gmap strings list.
From S2P Require Import Prelude Json Codec RedisStore Models Effects Crypto Payloads Config Sessions Deps Logic.
From S2P Require Import FederationClient FederationWorker Cleanup FederationFacts WorkerFacts CleanupFacts.

#[local] Open Scope morok_scope.

(** ** Rows that make sense *)

Definition fed_wf (r : FederationOutboundQueue) : Prop :=
  (0 <= fq_attempts r)%Z /\
  match fq_status r with
  | PENDING | IN_FLIGHT => (fq_attempts r < MAX_ATTEMPTS)%Z /\ fq_delivered_at r = None
  | SUCCEEDED => fq_envelope_data r = [] /\ is_Some (fq_delivered_at r)
  | DEAD_LETTER => fq_attempts r = MAX_ATTEMPTS /\ fq_delivered_at r = None
  end.

Definition final (r : FederationOutboundQueue) : Prop := fq_status r = SUCCEEDED \/ fq_status r = DEAD_LETTER.

(** From one moment to a later one. *)
Record fed_life (r r' : FederationOutboundQueue) : Prop := {
  fl_id : fq_id r' = fq_id r;
  fl_envelope : fq_envelope_id r' = fq_envelope_id r;
  fl_target : fq_target_relay r' = fq_target_relay r;
  fl_created : fq_created_at r' = fq_created_at r;
  fl_final : final r -> r' = r;
  fl_attempts : (fq_attempts r <= fq_attempts r')%Z;
  fl_payload : fq_status r' <> SUCCEEDED -> fq_envelope_data r' = fq_envelope_data r;
  fl_wf : fed_wf r -> fed_wf r'
}.

#[export] Instance fed_life_preorder : PreOrder fed_life.
Proof.
  split.
  - by intros r.
  - intros r1 r2 r3 [i1 e1 t1 c1 f1 a1 p1 w1] [i2 e2 t2 c2 f2 a2 p2 w2]. split; try congruence; try lia; try tauto.
    + intros Hf. pose proof (f1 Hf) as ->. auto.
    + intros Hne. rewrite p2 by done. apply p1. intros Hs. rewrite f2 in Hne; [done|by left].
Qed.

(** JSON answers are objects or null. *)
Definition polite_answer (a : answer) : Prop :=
  match an_response a with Some (_, Some (JObj _ | JNull)) | Some (_, None) | None => True | _ => False end.

(** The name resolves to a public address, and the answer is 200 with a text, number, list or boolean. *)
Definition odd_answer `{Ipaddress} (a : answer) : Prop :=
  (exists ip, an_addresses a = Some [ip] /\ _is_public_ip ip = true) /\
  match an_response a with Some (200%Z, Some (JBool _ | JNum _ | JStr _ | JArr _)) => True | _ => False end.

Lemma backoff_bounds n : (0 <= backoff_seconds n <= 28800)%Z.
Proof. unfold backoff_seconds. cbn. repeat case_match; simplify_eq; cbn; lia. Qed.

Section Attempt.
  Context `{Ipaddress} `{Nacl} `{PyText} (s : Settings).

Lemma recovered_life now r : fed_life r (recovered now r).
Proof.
  unfold recovered. destruct (stuck _ r) eqn:Hs; [|done]. apply andb_true_iff in Hs as [Hs%bool_decide_eq_true _].
  split; try done; unfold final, fed_wf; cbn; rewrite Hs; [naive_solver|done].
Qed.

Lemma failed_life now r e : fq_status r = PENDING -> fed_life r (failed now (in_flight now r) e).
Proof.
  intros Hp. unfold failed. cbn. destruct (MAX_ATTEMPTS <=? fq_attempts r + 1)%Z eqn:Hm; zify_bool;
    (split; unfold final, fed_wf; cbn; rewrite ?Hp; try done; try lia; [naive_solver|]); intros (? & ? & ?);
    split_and!; done || lia.
Qed.

Lemma attempt_life now r a1 a2 : ready now r = true -> fed_life r (attempt s now r a1 a2).
Proof.
  intros Hp%ready_pending. unfold attempt. cbv zeta.
  assert (Hin : fed_life r (in_flight now r)).
  { split; unfold final, fed_wf; cbn; rewrite ?Hp; try done. naive_solver. }
  assert (Hs : fed_life r (succeeded now (in_flight now r))).
  { split; unfold final, fed_wf; cbn; rewrite ?Hp; try done; naive_solver. }
  repeat case_match; auto using failed_life.
Qed.

(** An attempt that is answered by a polite peer, or not at all, settles the row or counts. *)
Lemma attempt_counts now r a1 a2 :
  polite_answer a2 ->
  let r' := attempt s now r a1 a2 in
  final r' \/
  (fq_status r' = PENDING /\ fq_attempts r' = fq_attempts r + 1 /\ fq_attempts r' < MAX_ATTEMPTS /\
   fq_next_attempt_at r' <= now + 28800)%Z.
Proof.
  intros Hpol. cbv zeta. unfold attempt. cbv zeta.
  assert (Hfail : forall e, let r' := failed now (in_flight now r) e in final r' \/
     (fq_status r' = PENDING /\ fq_attempts r' = fq_attempts r + 1 /\ fq_attempts r' < MAX_ATTEMPTS /\
      fq_next_attempt_at r' <= now + 28800)%Z).
  { intros e. unfold failed. cbn. destruct (MAX_ATTEMPTS <=? fq_attempts r + 1)%Z eqn:Hm; zify_bool; [by left; right|].
    right. split_and!; [done|done|done|]. cbn. pose proof (backoff_bounds (fq_attempts r + 1)). lia. }
  cbv zeta in Hfail. destruct (forwarded s (fq_target_relay r) a1 a2) as [o|e] eqn:Ef; [|apply Hfail].
  destruct o as [j|]; [|apply Hfail].
  assert (Hj : match j with JObj _ | JNull => True | _ => False end).
  { unfold forwarded, read_response, polite_answer in *. cbn [andb] in Ef. repeat case_match; simplify_eq; done. }
  destruct j; try done. case_match; [by left; left|apply Hfail].
Qed.

(** An odd answer settles nothing and counts nothing. *)
Lemma attempt_odd now r a1 a2 :
  can_sign s = true -> name_ok (fq_target_relay r) = true -> odd_answer a1 -> odd_answer a2 ->
  attempt s now r a1 a2 = in_flight now r.
Proof.
  intros Hk Hh [(ip & Ha & Hip) _] [_ Hr]. unfold attempt, forwarded, pinned. rewrite Hk, Hh, Ha. cbn [andb forallb head].
  rewrite Hip. cbn [andb]. unfold read_response. repeat case_match; simplify_eq; try done.
Qed.
End Attempt.

(** ** Histories *)

Definition fed_rest {S} (w : world S) : Prop := w_work w = w_db w /\ unique_fed (w_db w).

(** The row has been deleted by the clean-up, at the earliest. *)
Definition outlived (now : Z) (r : FederationOutboundQueue) : Prop := old_succeeded now r || old_dead_letter now r = true.

Section History.
  Context `{R : Redis} `{Ipaddress} `{Nacl} `{PyText} (s : Settings).

Definition worker : prog unit := detached (run_once s).

Lemma worker_run_rows N (w : world rstore) :
  net_is N w -> fed_rest w ->
  fed_rest (snd (run worker w)) /\ after_run s N (w_now w) (w_db w) (w_db (snd (run worker w))).
Proof.
  intros HN [Hw Hu]. set (w' := snd (run worker w)). destruct (run_once_rows s N (absw w) (w_db w)) as (db' & Ht & Ha).
  - exact HN.
  - unfold rested, tables_of. cbn. by rewrite Hw.
  - done.
  - assert (Ht' : tables_of w' = (db', db')).
    { unfold w', worker. change (tables_of (snd (run (detached (run_once s)) w))) with
        (tables_of (absw (snd (run (detached (run_once s)) w)))). by rewrite snd_run_absw, run_detached. }
    injection Ht' as E1 E2. unfold fed_rest. rewrite E1, E2. split; [|done]. split; [done|]. by apply (proj1 Ha).
Qed.

(** One run of the worker, row by row.  A row that has been in flight for five minutes is
    pending again; a pending row that is due is attempted, or a full batch of other due rows that
    have waited at least as long is; every other row stays as it is.  An attempt leaves what
    [attempt] computes from the answers of the resolver and the peer: delivered and without its
    payload if the peer accepted, else counted and put off, or dead at the eleventh failure. *)
Theorem worker_run N (w : world rstore) :
  net_is N w -> fed_rest w ->
  let w' := snd (run worker w) in
  fed_rest w' /\ after_run s N (w_now w) (w_db w) (w_db w').
Proof.
  apply worker_run_rows.
Qed.

Lemma worker_now (w : world rstore) : w_now (snd (run worker w)) = w_now w.
Proof.
  change (w_now (absw (snd (run worker w))) = w_now (absw w)). rewrite snd_run_absw. apply run_now.
Qed.

Lemma after_run_life N now db db' k r :
  after_run s N now db db' -> fed k db = Some r -> exists r', fed k db' = Some r' /\ fed_life r r'.
Proof.
  intros [_ Ha] Hr. specialize (Ha k). rewrite Hr in Ha. destruct Ha as (r' & Hr' & Ha). exists r'. split; [done|].
  destruct Ha as [[Hready (a1 & a2 & _ & _ & ->)]|[-> _]]; [|apply recovered_life].
  etrans; [apply recovered_life|]. by apply attempt_life.
Qed.

(** A worker run; a turn of the clean-up; a new row; or time passing and anything happening
    elsewhere. *)
Inductive fed_step (w : world rstore) : world rstore -> Prop :=
| step_worker : fed_step w (snd (run worker w))
| step_cleanup own_relay : fed_step w (snd (run (detached (cleanup_once own_relay)) w))
| step_new w' r :
    t_fedqueue (w_db w') = t_fedqueue (w_db w) ++ [r] -> fed (fq_id r) (w_db w) = None ->
    fq_status r = PENDING -> fq_attempts r = 0%Z -> fq_delivered_at r = None ->
    w_work w' = w_db w' -> (w_now w <= w_now w')%Z -> fed_step w w'
| step_other w' :
    t_fedqueue (w_db w') = t_fedqueue (w_db w) -> w_work w' = w_db w' -> (w_now w <= w_now w')%Z -> fed_step w w'.

Definition all_wf (db : database) : Prop := forall k r, fed k db = Some r -> fed_wf r.

(** What a history may do to the queue. *)
Record fed_history (w w' : world rstore) : Prop := {
  fh_rest : fed_rest w';
  fh_wf : all_wf (w_db w');
  fh_now : (w_now w <= w_now w')%Z;
  fh_rows k r : fed k (w_db w) = Some r ->
    exists r', fed_life r r' /\ (fed k (w_db w') = Some r' \/ outlived (w_now w') r')
}.

Lemma fed_cleaned own now db k :
  unique_fed db ->
  unique_fed (cleaned own now db) /\
  fed k (cleaned own now db) = r ← fed k db; if old_succeeded now r || old_dead_letter now r then None else Some r.
Proof.
  intros Hu. unfold unique_fed, fed, cleaned, without_users. cbn -[row]. split.
  - eapply unique_sublist, Hu. apply filter_sublist.
  - rewrite row_filter by done. destruct (row fq_id k (t_fedqueue db)); [|done]. cbn. by destruct (_ || _).
Qed.

Lemma outlived_later t t' r : (t <= t')%Z -> outlived t r -> outlived t' r.
Proof.
  intros Ht. unfold outlived, old_succeeded, old_dead_letter. rewrite !orb_true_iff, !andb_true_iff.
  intros [[Hs Hd]|[Hs Hd]]; [left|right]; (split; [done|]); zify_bool; [|lia].
  destruct (fq_delivered_at r); [|done]. zify_bool. lia.
Qed.

Lemma outlived_final t r : outlived t r -> final r.
Proof.
  unfold outlived, old_succeeded, old_dead_letter. rewrite orb_true_iff, !andb_true_iff, !bool_decide_eq_true.
  unfold final. tauto.
Qed.

Lemma step_history (w w' : world rstore) : fed_rest w -> all_wf (w_db w) -> fed_step w w' -> fed_history w w'.
Proof.
  intros Hr Hwf [|own|w'' r E Hnew Hp Ha Hd Hw' Hn|w'' E Hw' Hn].
  - destruct (worker_run_rows (fun _ => True) w) as [Hr' Ha]; [done|done|]. split; [done| |by rewrite worker_now|].
    + intros k r' Hr''. destruct (fed k (w_db w)) as [r|] eqn:E.
      * destruct (after_run_life _ _ _ _ k r Ha E) as (r1 & E1 & Hlife). rewrite E1 in Hr''. injection Hr'' as ->.
        by eapply fl_wf, Hwf.
      * destruct Ha as [_ Ha]. specialize (Ha k). rewrite E in Ha. congruence.
    + intros k r E. destruct (after_run_life _ _ _ _ k r Ha E) as (r1 & E1 & Hlife). exists r1. auto.
  - destruct (cleanup_server own w) as (Edb & Ew & En); [apply Hr|]. set (v := snd _) in *.
    assert (Hf : forall k, unique_fed (w_db v) /\ fed k (w_db v) = _) by (intros k; rewrite Edb; apply fed_cleaned, Hr).
    split.
    + split; [done|]. by apply (Hf "").
    + intros k r' Hr'. destruct (Hf k) as [_ Hk]. rewrite Hk in Hr'. destruct (fed k (w_db w)) as [r|] eqn:E; [|done].
      cbn in Hr'. destruct (_ || _); [done|]. injection Hr' as ->. by eapply Hwf.
    + by rewrite En.
    + intros k r E. exists r. split; [done|]. destruct (Hf k) as [_ Hk]. rewrite E in Hk. cbn in Hk.
      rewrite En. unfold outlived. destruct (_ || _); auto.
  - assert (Hrow : forall k, fed k (w_db w'') = match fed k (w_db w) with Some r0 => Some r0 | None => row fq_id k [r] end).
    { intros k. unfold fed. rewrite E. apply row_app. }
    split; [|..|done|].
    + split; [done|]. unfold unique_fed, unique_keys. rewrite E, map_app. apply NoDup_app. split; [apply Hr|]. split.
      * intros k Hk Hk2. apply list_elem_of_singleton in Hk2. subst k.
        apply list_elem_of_fmap in Hk as (r0 & Hid & Hin). by destruct (proj1 (row_none _ _ _) Hnew r0 Hin).
      * apply NoDup_singleton.
    + intros k r0 Hr0. rewrite Hrow in Hr0. destruct (fed k (w_db w)) eqn:Ek; [injection Hr0 as <-; by eapply Hwf|].
      apply row_some in Hr0 as [Hin _]. apply list_elem_of_singleton in Hin as ->. unfold fed_wf. rewrite Hp, Ha. done.
    + intros k r0 Er. exists r0. split; [done|]. left. by rewrite Hrow, Er.
  - split; [|..|done|].
    + split; [done|]. unfold unique_fed. rewrite E. apply Hr.
    + intros k r. unfold fed. rewrite E. apply Hwf.
    + intros k r Er. exists r. split; [done|]. left. unfold fed. by rewrite E.
Qed.

(** C16: along any history of worker runs, clean-ups and new rows, whatever the network answers:
    a row keeps its envelope, target and creation time; its attempts only grow and are fewer than
    eleven until it is dead at exactly eleven; its payload is kept until it is delivered and then
    gone; once delivered or dead it never changes again, and only such a row, after its retention,
    is deleted. *)
Theorem fed_queue_history (w w' : world rstore) :
  fed_rest w -> all_wf (w_db w) -> rtc fed_step w w' -> fed_history w w'.
Proof.
  intros Hr Hwf Hs. revert Hr Hwf. induction Hs as [w|w1 w2 w3 Hs _ IH]; intros Hr Hwf.
  - split; [done|done|done|]. intros k r E. exists r. split; [done|by left].
  - destruct (step_history _ _ Hr Hwf Hs) as [Hr2 Hwf2 Hn2 H12]. destruct (IH Hr2 Hwf2) as [Hr3 Hwf3 Hn3 H23].
    split; [done|done|lia|]. intros k r E. destruct (H12 k r E) as (r2 & L12 & [E2|Hout]).
    + destruct (H23 k r2 E2) as (r3 & L23 & Hr3'). exists r3. split; [by etrans|done].
    + exists r2. split; [done|]. right. by eapply outlived_later.
Qed.

(** ** The queue drains *)

Definition unsettled (r : FederationOutboundQueue) : bool :=
  bool_decide (fq_status r = PENDING \/ fq_status r = IN_FLIGHT).

Lemma unsettled_final r : unsettled r = true \/ final r.
Proof. unfold unsettled, final. rewrite bool_decide_eq_true. destruct (fq_status r); auto. Qed.

Lemma not_overtaken now db r :
  r ∈ t_fedqueue db -> unsettled r = true ->
  length (List.filter unsettled (t_fedqueue db)) <= BATCH_SIZE -> overtaken now db (recovered now r) -> False.
Proof.
  intros Hr Hun Hload (batch & Hlen & Hu & Hall). rewrite Forall_forall in Hall.
  assert (Hle : length (map fq_id (r :: batch)) <= length (map fq_id (List.filter unsettled (t_fedqueue db)))).
  { apply List.NoDup_incl_length.
    - apply NoDup_ListNoDup. cbn. apply NoDup_cons. split; [|exact Hu].
      intros (b & E & Hb)%list_elem_of_fmap. destruct (Hall b Hb) as (_ & _ & Hne & _).
      rewrite recovered_id in Hne. by destruct Hne.
    - intros k Hk. cbn in Hk. apply List.in_map_iff. destruct Hk as [<-|(b & <- & Hb)%List.in_map_iff].
      + exists r. split; [done|]. apply List.filter_In. by rewrite <- list_elem_of_In.
      + apply list_elem_of_In in Hb. destruct (Hall b Hb) as ((b0 & Hb0 & ->) & Hready & _).
        exists b0. rewrite recovered_id. split; [done|]. apply List.filter_In. rewrite <- list_elem_of_In. split; [done|].
        unfold unsettled. apply bool_decide_eq_true. apply ready_pending in Hready. unfold recovered in Hready.
        destruct (stuck _ b0) eqn:Es; [|by left]. apply andb_true_iff in Es as [Es%bool_decide_eq_true _]. by right. }
  rewrite !length_map in Hle. cbn [length] in Hle. rewrite Hlen in Hle. unfold BATCH_SIZE in *. lia.
Qed.

Lemma due_when now r :
  unsettled r = true -> (fq_next_attempt_at r < now - IN_FLIGHT_TIMEOUT_SECONDS)%Z -> ready now (recovered now r) = true.
Proof.
  intros Hun%bool_decide_eq_true Ht. unfold recovered, stuck.
  assert ((fq_next_attempt_at r <? now - IN_FLIGHT_TIMEOUT_SECONDS)%Z = true) as -> by by apply Z.ltb_lt.
  rewrite andb_true_r. unfold ready. unfold IN_FLIGHT_TIMEOUT_SECONDS in Ht.
  destruct (bool_decide (fq_status r = IN_FLIGHT)) eqn:Hf; apply andb_true_iff;
    (split; [apply bool_decide_eq_true|cbn; zify_bool; lia]); [done|].
  apply bool_decide_eq_false in Hf. by destruct Hun.
Qed.

(** Between two runs: long enough for every delay; no unsettled row is touched, and with the new
    ones they fit in a batch. *)
Record between (N : answer -> Prop) (w w1 : world rstore) : Prop := {
  bt_rest : fed_rest w1;
  bt_time : (w_now w + 28800 + IN_FLIGHT_TIMEOUT_SECONDS < w_now w1)%Z;
  bt_rows k r : fed k (w_db w) = Some r -> unsettled r = true -> fed k (w_db w1) = Some r;
  bt_load : length (List.filter unsettled (t_fedqueue (w_db w1))) <= BATCH_SIZE;
  bt_net : net_is N w1
}.

Inductive worker_rounds (N : answer -> Prop) : nat -> world rstore -> world rstore -> Prop :=
| rounds_O w : worker_rounds N 0 w w
| rounds_S n w w1 w2 :
    between N w w1 -> worker_rounds N n (snd (run worker w1)) w2 -> worker_rounds N (S n) w w2.

(** One such round: the row is attempted. *)
Lemma round_attempts N w w1 k r :
  between N w w1 -> fed k (w_db w) = Some r -> unsettled r = true ->
  (fq_next_attempt_at r <= w_now w + 28800)%Z ->
  exists r', fed k (w_db (snd (run worker w1))) = Some r' /\
    attempted s N (w_now w1) (recovered (w_now w1) r) r'.
Proof.
  intros [Hrest Htime Hrows Hload Hnet] Hr Hun Hnext. specialize (Hrows k r Hr Hun).
  destruct (worker_run_rows N w1 Hnet Hrest) as [_ [_ Ha]]. specialize (Ha k). rewrite Hrows in Ha.
  destruct Ha as (r' & Hr' & [[_ Ha]|[_ Hov]]); exists r'; (split; [done|]); [done|].
  exfalso. apply row_some in Hrows as [Hin _]. eapply not_overtaken; [exact Hin|done|done|]. apply Hov.
  apply due_when; [done|]. lia.
Qed.

Lemma recovered_same now r :
  fq_attempts (recovered now r) = fq_attempts r /\ fq_target_relay (recovered now r) = fq_target_relay r.
Proof. unfold recovered. by destruct (stuck _ r). Qed.


(** A peer can keep a row in the queue for ever.  If it answers each forward with status 200 and
    a JSON text, number, list or boolean, [result.get] raises outside the handler of the call, so
    the row stays in flight with its attempts uncounted: after any number of runs it is neither
    delivered nor dead, against the eleven attempts of the retry schedule. *)
Theorem odd_answer_never_settles n (w w' : world rstore) k r :
  can_sign s = true -> name_ok (fq_target_relay r) = true ->
  worker_rounds odd_answer n w w' -> fed k (w_db w) = Some r -> unsettled r = true ->
  (fq_next_attempt_at r <= w_now w + 28800)%Z ->
  exists r', fed k (w_db w') = Some r' /\ unsettled r' = true /\ fq_attempts r' = fq_attempts r.
Proof.
  intros Hk Hh Hrounds. revert r Hh. induction Hrounds as [w|n w w1 w2 Hb Hrounds IH]; intros r Hh Hr Hun Hnext; [by exists r|].
  destruct (round_attempts _ _ _ _ _ Hb Hr Hun Hnext) as (r' & Hr' & a1 & a2 & Ho1 & Ho2 & ->).
  destruct (recovered_same (w_now w1) r) as [Eatt Etar].
  rewrite attempt_odd in Hr'; [|done|by rewrite Etar|done|done].
  destruct (IH (in_flight (w_now w1) (recovered (w_now w1) r))) as (r' & E1 & E2 & E3); try done.
  - cbn. by rewrite Etar.
  - rewrite worker_now. cbn. lia.
  - exists r'. split_and!; [done|done|]. by rewrite E3, <- Eatt.
Qed.
End History.

(** ** Witnesses *)

Module FedDemo.
#[local] Instance demo_nacl : Nacl :=
  {| nacl_verify := fun _ _ _ => true; nacl_sign := fun _ _ => "s"; nacl_public := fun k => k;
     nacl_to_curve25519 := fun k => Ok k |}.
#[local] Instance demo_ip : Ipaddress := fun _ => Some (IpFlags false false false false false false).
#[local] Instance demo_text : PyText := {| text_of_exn := fun _ => "e"; text_of_json := fun _ => "j" |}.

Definition zeros (n : nat) : string := string_of_list_ascii (repeat "0"%char n).
Definition settings : Settings := mkSettings "relay" (zeros 64) (zeros 64) 86400 1000 30 0 0 true "" 10 "".
Definition pending : FederationOutboundQueue :=
  mkFed "row" "envelope" [("to", JStr "bb")] "peer.example" PENDING 0 1000 None 1000 None.
Definition relay (net : answer) : world (rstore (Redis := Mem_Redis)) :=
  let db := set_fedqueue [pending] empty_db in
  World 1000 (View ∅ ∅ []) db db ∅ [] (fun _ => "fresh") [] (fun _ => net) [].

(** A peer that answers true instead of an object. *)
Definition odd : answer := Answer (Some ["192.0.2.1"]) (Some (200%Z, Some (JBool true))).

Lemma rest_relay net : fed_rest (relay net).
Proof. split; [reflexivity|]. apply NoDup_singleton. Qed.

Lemma wf_relay net : all_wf (w_db (relay net)).
Proof.
  intros k r Hr. apply row_some in Hr as [Hin _]. apply list_elem_of_singleton in Hin as ->.
  split; [vm_compute; discriminate|]. by split.
Qed.

Lemma worker_run_witness :
  fed_rest (snd (run (worker settings) (relay odd))) /\
  after_run settings (fun a => a = odd) 1000 (w_db (relay odd)) (w_db (snd (run (worker settings) (relay odd)))).
Proof. apply (worker_run settings (fun a => a = odd) (relay odd)); [intros n; reflexivity|apply rest_relay]. Defined.

Lemma fed_history_witness : fed_history (relay odd) (snd (run (worker settings) (relay odd))).
Proof.
  apply (fed_queue_history settings); [apply rest_relay|apply wf_relay|]. eapply rtc_once, step_worker.
Defined.

(** A run every 29102 seconds. *)
Definition wait (w : world (rstore (Redis := Mem_Redis))) : world (rstore (Redis := Mem_Redis)) :=
  set_now (w_now w + 29102) w.
Definition round (w : world (rstore (Redis := Mem_Redis))) : world (rstore (Redis := Mem_Redis)) :=
  snd (run (worker settings) (wait w)).

Lemma rounds_iter N n w :
  (forall i, i < n -> between N (Nat.iter i round w) (wait (Nat.iter i round w))) ->
  worker_rounds settings N n w (Nat.iter n round w).
Proof.
  revert w. induction n as [|n IH]; intros w Hb; [constructor|].
  rewrite Nat.iter_succ_r. eapply (rounds_S settings N n w (wait w)); [apply (Hb 0); lia|].
  apply (IH (round w)). intros i Hi. rewrite <- Nat.iter_succ_r. apply Hb. lia.
Qed.

Lemma wait_between N w :
  fed_rest w -> length (List.filter unsettled (t_fedqueue (w_db w))) <= BATCH_SIZE -> net_is N w -> between N w (wait w).
Proof.
  intros Hr Hl Hn. split; [exact Hr| |by intros k r Hk _|exact Hl|exact Hn].
  cbn. unfold IN_FLIGHT_TIMEOUT_SECONDS. lia.
Qed.

Ltac round_ok :=
  apply wait_between; [split; [vm_compute; reflexivity|vm_compute; apply NoDup_singleton]|vm_compute; lia|
                       intros m; vm_compute; repeat split; eauto].

Lemma silent_rounds : worker_rounds settings polite_answer 11 (relay (no_network 0)) (Nat.iter 11 round (relay (no_network 0))).
Proof. apply rounds_iter. intros i Hi. do 11 (destruct i as [|i]; [round_ok|]). lia. Qed.

Lemma odd_rounds : worker_rounds settings odd_answer 3 (relay odd) (Nat.iter 3 round (relay odd)).
Proof. apply rounds_iter. intros i Hi. do 3 (destruct i as [|i]; [round_ok|]). lia. Qed.


Lemma odd_witness :
  exists r', fed "row" (w_db (Nat.iter 3 round (relay odd))) = Some r' /\ unsettled r' = true /\ fq_attempts r' = 0%Z.
Proof.
  apply (odd_answer_never_settles settings 3 (relay odd) _ "row" pending);
    [vm_compute; reflexivity|vm_compute; reflexivity|exact odd_rounds|reflexivity|reflexivity|vm_compute; discriminate].
Defined.
End FedDemo.
