(* ===== verification/GroupSync.v ===== *)
(** * Copies of groups that other relays host (api/groups.py: apply_group_snapshot, sync_group_from_host)

    A relay with members of a group that another relay hosts keeps a copy of it, which it takes from
    snapshots: pushed by the host or pulled from it.  A snapshot is whatever JSON the host sent. *)

From Stdlib Require Import Ascii String.
From stdpp Require Import prelude gmap strings list.
From S2P Require Import Prelude Json Codec RedisStore Models Effects Crypto Payloads Config Sessions RateLimit Deps.
From S2P Require Import FederationClient Messages Groups.

#[local] Open Scope morok_scope.

(** ** Python conversions of JSON values *)

(** [int(j)]; floats do not occur. *)
Definition int_of (j : json) : res Z :=
  match j with
  | JNum n => Ok n
  | JBool b => Ok (if b then 1 else 0)%Z
  | JStr s => match py_int s with Some n => Ok n | None => Raise (ValueError "int") end
  | JNull | JArr _ | JObj _ => Raise TypeError
  end.

(** [uuid.UUID(j)] *)
Definition uuid_of (j : json) : res string :=
  match j with
  | JStr s => match uuid_of_string s with Some u => Ok u | None => Raise (ValueError "badly formed hexadecimal UUID string") end
  | JNull => Raise TypeError
  | _ => Raise AttributeError
  end.

(** [uuid.UUID(str(j))]: the text of other values than text and numbers is no UUID. *)
Definition uuid_of_str (j : json) : res string :=
  match j with
  | JNum n => match uuid_of_string (print_Z n) with Some u => Ok u | None => Raise (ValueError "badly formed hexadecimal UUID string") end
  | JStr s => match uuid_of_string s with Some u => Ok u | None => Raise (ValueError "badly formed hexadecimal UUID string") end
  | _ => Raise (ValueError "badly formed hexadecimal UUID string")
  end.

Definition key_of_hex64 (j : option json) : option string :=
  match j with Some (JStr h) => if (string_len h =? 64)%Z then bytes_fromhex h else None | _ => None end.

Definition rbind_res {A B} (r : res A) (f : A -> res B) : res B := match r with Ok a => f a | Raise e => Raise e end.
#[local] Notation "'let?' x := p 'in' q" := (rbind_res p (fun x => q)) (at level 10, x pattern, p at level 100, q at level 200).

(** [snapshot[key]] *)
Definition item (key : string) (d : dict) : res json :=
  match dict_get key d with Some j => Ok j | None => Raise KeyError end.
Definition get_with (dflt : json) (key : string) (d : dict) : json := default dflt (dict_get key d).

(** ** The limits of the protocol *)

Record snapshot_head := mkHead {
  sh_gid : string; sh_creator : string; sh_name : string; sh_max_members : Z; sh_members : list json; sh_ttl : Z
}.

Definition check_snapshot (snapshot : dict) : res snapshot_head :=
  let? j := item "group_id" snapshot in
  let? gid := uuid_of j in
  let? j := item "creator_pubkey_hex" snapshot in
  let? creator_bytes :=
    match j with
    | JStr h => if negb (string_len h =? 64)%Z then Raise (ValueError "creator_pubkey_hex must be exactly 64 hex chars")
                else match bytes_fromhex h with Some b => Ok b | None => Raise (ValueError "fromhex") end
    | _ => Raise (ValueError "creator_pubkey_hex must be exactly 64 hex chars")
    end in
  let? j := item "name_encrypted_b64" snapshot in
  let? name_bytes :=
    match j with
    | JStr b64 => match b64decode b64 with
                  | Some b => if (GROUP_NAME_MAX_BYTES <? string_len b)%Z then Raise (ValueError "name_encrypted too large") else Ok b
                  | None => Raise (ValueError "b64decode")
                  end
    | _ => Raise (ValueError "name_encrypted_b64 must be a string")
    end in
  let? snap_max_members := int_of (get_with (JNum 50) "max_members" snapshot) in
  if negb ((1 <=? snap_max_members)%Z && (snap_max_members <=? PREMIUM_TIER_MAX_MEMBERS)%Z)
  then Raise (ValueError "max_members out of protocol range")
  else
    match get_with (JArr []) "members" snapshot with
    | JArr raw_members =>
        if (PREMIUM_TIER_MAX_MEMBERS <? Z.of_nat (length raw_members))%Z
        then Raise (ValueError "members list exceeds protocol max")
        else
          let? snap_ttl := int_of (get_with (JNum 86400) "default_ttl_seconds" snapshot) in
          if negb ((0 <? snap_ttl)%Z && (snap_ttl <=? 30 * 86400)%Z)
          then Raise (ValueError "default_ttl_seconds out of range")
          else Ok (mkHead gid creator_bytes name_bytes snap_max_members raw_members snap_ttl)
    | _ => Raise (ValueError "members must be a list")
    end.

(** [except (KeyError, ValueError, TypeError)]; the reason is left out of the detail. *)
Definition checked_snapshot (snapshot : dict) : M snapshot_head :=
  match check_snapshot snapshot with
  | Ok h => ret h
  | Raise (KeyError | ValueError _ | TypeError) => http 400 "malformed_snapshot"
  | Raise e => raise e
  end.

(** ** The row of the group *)

(** A value for the slug and for the expiry column. *)
Definition slug_column (j : json) : res (option string) :=
  match j with
  | JNull => Ok None
  | JStr v => if (30 <? string_len v)%Z then Raise DataError else Ok (Some v)
  | _ => Raise DataError
  end.
Definition bigint_column (j : json) : res (option Z) :=
  match j with
  | JNull => Ok None
  | JNum n => if ((- 2 ^ 63 <=? n) && (n <? 2 ^ 63))%Z then Ok (Some n) else Raise DataError
  | JBool b => Ok (Some (if b then 1 else 0)%Z)
  | _ => Raise DataError
  end.

Definition bool_of (dflt : bool) (key : string) (d : dict) : bool := json_truthy (get_with (JBool dflt) key d).

(** [existing.home_relay and existing.home_relay != expected] *)
Definition hosted_elsewhere (expected : string) (g : Group) : option string :=
  match g_home_relay g with
  | Some h => if String.eqb h "" || String.eqb h expected then None else Some h
  | None => None
  end.
Definition adopted_by (expected : string) (g : Group) : option string :=
  match g_home_relay g with
  | Some h => if String.eqb h "" then Some expected else Some h
  | None => Some expected
  end.

(** The mutable fields of an existing row. *)
Definition refreshed (expected : string) (snapshot : dict) (ttl max : Z) (g : Group) : Group :=
  mkGroup (g_id g) (g_creator_pubkey g) (g_name_encrypted g) (bool_of (g_is_channel g) "is_channel" snapshot) ttl
    (g_slug g) (g_expires_at g) (bool_of (g_anonymous_senders g) "anonymous_senders" snapshot) max
    (adopted_by expected g) (g_created_at g) (g_deleted_at g).

Definition wrong_host (existing expected : string) : string :=
  "snapshot_from_wrong_host: group hosted on '" +:+ existing +:+ "', push came from '" +:+ expected +:+ "'".

Definition upsert_group (snapshot : dict) (h : snapshot_head) (expected : string) : M Group :=
  let! existing := sql (fun db => (select_one (has_group_id (sh_gid h)) (t_groups db), db)) in
  match existing with
  | None =>
      let! now := now_ in
      let! slug := of_res (slug_column (get_with JNull "slug" snapshot)) in
      let! expires_at := of_res (bigint_column (get_with JNull "expires_at" snapshot)) in
      let group := mkGroup (sh_gid h) (sh_creator h) (sh_name h) (bool_of false "is_channel" snapshot) (sh_ttl h) slug
        expires_at (bool_of false "anonymous_senders" snapshot) (sh_max_members h) (Some expected) now None in
      let! _ := insert_group group in
      ret group
  | Some g =>
      match hosted_elsewhere expected g with
      | Some home => http 403 (wrong_host home expected)
      | None =>
          let! ttl := of_res (int_of (get_with (JNum (g_default_ttl_seconds g)) "default_ttl_seconds" snapshot)) in
          let! max := of_res (int_of (get_with (JNum (g_max_members g)) "max_members" snapshot)) in
          let group := refreshed expected snapshot ttl max g in
          let! _ := store_group group in
          ret group
      end
  end.

(** ** The members *)

(** [snap_pubkeys]: a later entry of a key replaces the value of an earlier one. *)
Fixpoint put_pubkey (pk : string) (m : dict) (l : list (string * dict)) : list (string * dict) :=
  match l with
  | [] => [(pk, m)]
  | (k, v) :: l' => if String.eqb k pk then (k, m) :: l' else (k, v) :: put_pubkey pk m l'
  end.
Definition snap_pubkeys (raw_members : list json) : list (string * dict) :=
  fold_left (fun l j =>
    match j with
    | JObj m => match key_of_hex64 (dict_get "pubkey_hex" m) with Some pk => put_pubkey pk m l | None => l end
    | _ => l
    end) raw_members [].

Fixpoint remove_members (id : string) (gone : list GroupMember) : M unit :=
  match gone with
  | [] => ret tt
  | m :: gone' => let! _ := delete_member id (gm_pubkey m) in remove_members id gone'
  end.

Definition with_role (is_admin : bool) (m : GroupMember) : GroupMember :=
  mkMember (gm_group_id m) (gm_pubkey m) is_admin (gm_joined_at m).
Definition store_member (m : GroupMember) : M unit :=
  sql (fun db => (tt, set_members (snd (update_where
    (fun m' => in_group (gm_group_id m) m' && String.eqb (gm_pubkey m') (gm_pubkey m)) (fun _ => m) (t_members db))) db)).

Fixpoint store_members (id : string) (existing : list GroupMember) (snap : list (string * dict)) : M unit :=
  match snap with
  | [] => ret tt
  | (pk, m) :: snap' =>
      let! _ :=
        match List.find (fun e => String.eqb (gm_pubkey e) pk) existing with
        | Some e => store_member (with_role (bool_of (gm_is_admin e) "is_admin" m) e)
        | None =>
            let! now := now_ in
            let! joined_at := of_res (int_of (get_with (JNum now) "joined_at" m)) in
            let! _ := of_res (bigint_column (JNum joined_at)) in
            insert_member (mkMember id pk (bool_of false "is_admin" m) joined_at)
        end in
      store_members id existing snap'
  end.

Definition apply_group_snapshot (snapshot : dict) (expected_home_relay : string) : M loaded :=
  if String.eqb expected_home_relay "" then http 400 "snapshot_missing_expected_home_relay"
  else
    let! h := checked_snapshot snapshot in
    let! group := upsert_group snapshot h expected_home_relay in
    let snap := snap_pubkeys (sh_members h) in
    let! existing_members := sql (fun db => (members_of (g_id group) db, db)) in
    let! _ := remove_members (g_id group)
      (List.filter (fun m => negb (bool_decide (gm_pubkey m ∈ snap.*1))) existing_members) in
    let! _ := store_members (g_id group) existing_members snap in
    refresh_members group.

(** ** Pulling from the host *)

(** The group's id as text and the number of members the snapshot lists. *)
Definition sync_group_from_host `{Ipaddress} `{Nacl} (s : Settings) (l : LocalFallbackLimiter) (group_id host_relay : string)
    (current : Session) : M (string * Z * LocalFallbackLimiter) :=
  if (string_len host_relay <? 3)%Z || (255 <? string_len host_relay)%Z then http 422 "host_relay"
  else
    let! (v, l) := check_rate_limit (rate_limit_enabled s) l "group_sync" (pubkey_hex current) 10 in
    if negb (v_allowed v) then http 429 "rate_limited"
    else if String.eqb host_relay (relay_name s) then http 400 "host_is_self_no_sync_needed"
    else
      let! peer := sql (fun db => (select_one (fun p => String.eqb (fp_hostname p) host_relay) (t_peers db), db)) in
      if negb (match peer with Some p => fp_is_trusted p | None => false end)
      then http 403 "host_relay_not_a_trusted_peer"
      else
        let! gid := _parse_group_id group_id in
        let! snapshot := remote_pull_group_snapshot s host_relay (uuid_to_string gid) (pubkey_hex current) in
        match snapshot with
        | None | Some JNull => http 404 "snapshot_unavailable_from_host"
        | Some (JObj snapshot) =>
            match uuid_of_str (get_with (JStr "") "group_id" snapshot) with
            | Raise _ => http 502 "host_returned_malformed_group_id"
            | Ok snapshot_gid =>
                if negb (String.eqb snapshot_gid gid) then http 502 "host_returned_snapshot_for_different_group"
                else
                  let! _ := apply_group_snapshot snapshot host_relay in
                  let members := match get_with (JArr []) "members" snapshot with JArr m => Z.of_nat (length m) | _ => 0%Z end in
                  ret (uuid_to_string gid, members, l)
            end
        | Some _ => raise AttributeError
        end.
