(* ===== verification/Users.v ===== *)
(** * Users and usernames (api/users.py)

    The profile, claiming and releasing a name, and the public lookup, which asks trusted relays when
    the name is not known here.  The rate limits in front are those of [RateLimit]; the pauses
    between the attempts of a lookup take no time here. *)

From Stdlib Require Import Ascii String.
From stdpp Require Import prelude gmap strings list.
From S2P Require Import Prelude Json Codec RedisStore Models Effects Crypto Payloads Config Sessions RateLimit Deps.
From S2P Require Import FederationClient.

#[local] Open Scope morok_scope.

(** ** Names (schemas.py) *)

Definition USERNAME_MAX_LEN : Z := 20.
Definition TIER_MIN_LENGTH (t : UserTier) : Z := match t with FREE => 5 | PREMIUM => 3 | ADMIN => 1 end.
Definition RESERVED_USERNAMES : list string :=
  [ "admin"; "administrator"; "root"; "system"; "morok"; "morok_app";
    "support"; "help"; "abuse"; "security"; "official"; "team";
    "anonymous"; "anon"; "null"; "undefined"; "me"; "self";
    "channel"; "group"; "user"; "users" ].

(** [s.lstrip("@")] *)
Fixpoint lstrip_at (s : string) : string :=
  match s with
  | String c s' => if Ascii.eqb c "@" then lstrip_at s' else s
  | EmptyString => EmptyString
  end.
Definition normalize_username (raw : string) : string := lower (lstrip_at (strip raw)).

Definition is_name_char (c : ascii) : bool :=
  let n := N_of_ascii c in
  ((97 <=? n) && (n <=? 122) || (48 <=? n) && (n <=? 57) || (n =? 95))%N.
(** [s[0].isdigit() or s[0] == "_"] *)
Definition bad_start (s : string) : bool :=
  match s with
  | String c _ => let n := N_of_ascii c in ((48 <=? n) && (n <=? 57) || (n =? 95))%N
  | EmptyString => false
  end.

Definition validate_username_for_tier (username : string) (tier : UserTier) : res string :=
  let normalized := normalize_username username in
  if String.eqb normalized "" || negb (string_forallb is_name_char normalized)
  then Raise (ValueError "Username may only contain lowercase letters, digits, and underscores")
  else if bad_start normalized then Raise (ValueError "Username cannot start with digit or underscore")
  else if (USERNAME_MAX_LEN <? string_len normalized)%Z then Raise (ValueError "Username too long (max 20 chars)")
  else if (string_len normalized <? TIER_MIN_LENGTH tier)%Z then Raise (ValueError "Username too short")
  else if bool_decide (normalized ∈ RESERVED_USERNAMES) then Raise (ValueError "This username is reserved")
  else Ok normalized.

(** [UsernameClaim]: the name as the handler gets it; [None] is a 422. *)
Definition validate_UsernameClaim (v : string) : option string :=
  let normalized := normalize_username v in
  if String.eqb normalized "" || negb (string_forallb is_name_char normalized) || bad_start normalized
     || (USERNAME_MAX_LEN <? string_len normalized)%Z || bool_decide (normalized ∈ RESERVED_USERNAMES)
  then None else Some normalized.

Record MeInfo := mkMeInfo {
  me_pubkey_hex : string; me_username : option string; me_home_relay : string; me_tier : UserTier;
  me_created_at : Z; me_is_home_relay : bool
}.
Record UserInfo := mkUserInfo { ui_pubkey_hex : string; ui_username : option string; ui_home_relay : string }.

(** ** Rows *)

Definition has_key (pubkey : string) (u : User) : bool := String.eqb (u_pubkey u) pubkey.
Definition is_named (name : string) (u : User) : bool :=
  match u_username u with Some n => String.eqb n name | None => false end.
Definition select_user (p : User -> bool) : M (option User) := sql (fun db => (select_one p (t_users db), db)).

Definition with_last_seen (t : Z) (u : User) : User :=
  mkUser (u_pubkey u) (u_username u) (u_tier u) (u_home_relay u) (u_created_at u) (Some t) (u_deleted_at u)
    (u_username_changed_at u).
Definition with_name (name : option string) (changed : option Z) (u : User) : User :=
  mkUser (u_pubkey u) name (u_tier u) (u_home_relay u) (u_created_at u) (u_last_seen_at u) (u_deleted_at u) changed.
Definition with_home (home : string) (u : User) : User :=
  mkUser (u_pubkey u) (u_username u) (u_tier u) home (u_created_at u) (u_last_seen_at u) (u_deleted_at u)
    (u_username_changed_at u).

(** Another row with the name of [u]: the unique index refuses it. *)
Definition name_clash (u u' : User) : bool :=
  negb (has_key (u_pubkey u) u') && match u_username u with Some n => is_named n u' | None => false end.

(** The changed columns of a loaded row at the next flush. *)
Definition store_user (u : User) : M unit :=
  let! ok := sql (fun db =>
    if existsb (name_clash u) (t_users db) then (false, db)
    else (true, set_users (snd (update_where (has_key (u_pubkey u)) (fun _ => u) (t_users db))) db)) in
  if (ok : bool) then ret tt else raise IntegrityError.
Definition insert_user (u : User) : M unit :=
  let! ok := sql (fun db =>
    if existsb (fun u' => has_key (u_pubkey u) u' || name_clash u u') (t_users db) then (false, db)
    else (true, set_users (t_users db ++ [u]) db)) in
  if (ok : bool) then ret tt else raise IntegrityError.

Definition _is_home (s : Settings) (u : User) : bool := String.eqb (u_home_relay u) (relay_name s).

Definition _get_or_create_user (s : Settings) (pubkey_hex : string) : M User :=
  let! pubkey_bytes := fromhex_ pubkey_hex in
  let! found := select_user (has_key pubkey_bytes) in
  let! now := now_ in
  match found with
  | Some user =>
      let user := with_last_seen now user in
      let! _ := store_user user in
      ret user
  | None =>
      let user := mkUser pubkey_bytes None FREE (relay_name s) now (Some now) None None in
      let! _ := insert_user user in
      ret user
  end.

(** A value for the column of names. *)
Definition username_column (j : json) : res (option string) :=
  match j with
  | JNull => Ok None
  | JStr v => if (USERNAME_MAX_LEN <? string_len v)%Z then Raise DataError else Ok (Some v)
  | _ => Raise DataError
  end.
Definition nonempty (o : option string) : bool := match o with Some s => negb (String.eqb s "") | None => false end.

Definition _cache_remote_user (s : Settings) (pubkey_hex : string) (username : json) (home_relay : string)
    : M (option User) :=
  let! pubkey_bytes := fromhex_ pubkey_hex in
  let! found := select_user (has_key pubkey_bytes) in
  match found with
  | Some existing =>
      if _is_home s existing then ret (Some existing)
      else
        let moved := negb (String.eqb (u_home_relay existing) home_relay) in
        let named := json_truthy username && negb (nonempty (u_username existing)) in
        let u := with_home home_relay existing in
        if moved || named then
          let! u :=
            if named then
              let! name := of_res (username_column username) in
              ret (with_name name (u_username_changed_at u) u)
            else ret u in
          let! _ := store_user u in
          ret (Some u)
        else ret (Some existing)
  | None =>
      let! now := now_ in
      let! name := of_res (username_column username) in
      let u := mkUser pubkey_bytes name FREE home_relay now None None None in
      try_except
        (let! _ := insert_user u in ret (Some u))
        (fun e => match e with
          | IntegrityError => let! _ := rollback in select_user (has_key pubkey_bytes)
          | _ => raise e
          end)
  end.

(** ** The profile and its name *)

Definition me_info (s : Settings) (current : Session) (user : User) : MeInfo :=
  mkMeInfo (pubkey_hex current) (u_username user) (u_home_relay user) (u_tier user) (u_created_at user) (_is_home s user).

Definition get_me (s : Settings) (current : Session) : M MeInfo :=
  let! user := _get_or_create_user s (pubkey_hex current) in
  ret (me_info s current user).

Definition add_history (h : UsernameHistory) : M unit := sql (fun db => (tt, set_history (t_history db ++ [h]) db)).
Definition released (pubkey : string) (user : User) (name : string) (now : Z) : UsernameHistory :=
  mkHistory name pubkey (u_created_at user) now.

(** The latest release of the name since [cutoff]. *)
Definition last_release (name : string) (cutoff : Z) (db : database) : option UsernameHistory :=
  head (order_by (fun h => - uh_released_at h)%Z
    (List.filter (fun h => String.eqb (uh_username h) name && (cutoff <=? uh_released_at h)%Z) (t_history db))).

Definition claim_username (s : Settings) (body_username : string) (current : Session) : M MeInfo :=
  let! user := _get_or_create_user s (pubkey_hex current) in
  match validate_username_for_tier body_username (u_tier user) with
  | Raise (ValueError detail) => http 400 detail
  | Raise e => raise e
  | Ok username =>
      let! pubkey_bytes := fromhex_ (pubkey_hex current) in
      let! now := now_ in
      if is_named username user then ret (me_info s current user)
      else
        let! other := select_user (is_named username) in
        if match other with Some o => negb (has_key pubkey_bytes o) | None => false end then http 409 "username_taken"
        else if match u_username_changed_at user with
                | Some t => (now - t <? username_change_min_interval_seconds s)%Z | None => false end
        then http 429 "username_changed_too_recently"
        else
          let cooldown_cutoff := (now - username_cooldown_days s * 86400)%Z in
          let! last := sql (fun db => (last_release username cooldown_cutoff db, db)) in
          if match last with Some h => negb (String.eqb (uh_pubkey h) pubkey_bytes) | None => false end
          then http 409 "username_in_cooldown"
          else
            let! _ := match u_username user with
                      | Some old => add_history (released pubkey_bytes user old now)
                      | None => ret tt
                      end in
            let user := with_name (Some username) (Some now) user in
            let! _ := try_except (store_user user) (fun e =>
              match e with
              | IntegrityError => let! _ := rollback in http 409 "username_taken"
              | _ => raise e
              end) in
            ret (me_info s current user)
  end.

(** [Some] is the end of the cooldown; [None]: there was no name. *)
Definition release_username (s : Settings) (current : Session) : M (option Z) :=
  let! pubkey_bytes := fromhex_ (pubkey_hex current) in
  let! now := now_ in
  let! user := _get_or_create_user s (pubkey_hex current) in
  match u_username user with
  | None => ret None
  | Some name =>
      let! _ := add_history (released pubkey_bytes user name now) in
      let! _ := store_user (with_name None (u_username_changed_at user) user) in
      ret (Some (now + username_cooldown_days s * 86400)%Z)
  end.

(** ** Looking a name up *)

Definition FED_LOOKUP_CACHE_TTL_SECONDS : Z := 24 * 3600.
Definition NEG_LOOKUP_CACHE_TTL_SECONDS : Z := 300.
(** One attempt at once and one after each delay. *)
Definition lookup_attempts : nat := 4.

Definition _lookup_cache_key (relay username : string) : string := "morok:fed_lookup:" +:+ relay +:+ ":" +:+ username.
Definition _negative_lookup_key (username : string) : string := "morok:fed_lookup_miss:" +:+ username.

Definition _get_lookup_cache (relay username : string) : M (option json) :=
  try_except
    (let! raw := redis_ (rcall (GET (_lookup_cache_key relay username)) as_bulk) in
     match raw with
     | None => ret None
     | Some raw => match loads raw with
                   | Some JNull => ret None
                   | Some j => ret (Some j)
                   | None => raise (ValueError "json")
                   end
     end)
    (fun _ => ret None).
Definition _get_negative_lookup_cache (username : string) : M bool :=
  try_except
    (let! raw := redis_ (rcall (GET (_negative_lookup_key username)) as_bulk) in ret (bool_decide (is_Some raw)))
    (fun _ => ret false).
Definition _set_negative_lookup_cache (username : string) : M unit :=
  try_except (cmd_ (set_ex (_negative_lookup_key username) "1" NEG_LOOKUP_CACHE_TTL_SECONDS)) (fun _ => ret tt).
Definition _set_lookup_cache (relay username : string) (data : dict) : M unit :=
  try_except (cmd_ (set_ex (_lookup_cache_key relay username) (dumps (JObj data)) FED_LOOKUP_CACHE_TTL_SECONDS))
    (fun _ => ret tt).

(** [None]: nobody answered; an answer says so itself when there is no such user. *)
Definition not_found_mark : json := JObj [("__not_found", JBool true)].
Fixpoint _remote_lookup_with_retry `{Ipaddress} (n : nat) (relay username : string) : M (option json) :=
  match n with
  | O => ret None
  | S n' =>
      let! outcome := try_except
        (let! (outcome, data) := remote_lookup relay username in
         match outcome with
         | FOUND => ret (Some data)
         | NOT_FOUND => ret (Some (Some not_found_mark))
         | TRANSIENT_ERROR => ret None
         end)
        (fun _ => ret None) in
      match outcome with
      | Some (Some JNull) => ret None
      | Some data => ret data
      | None => _remote_lookup_with_retry n' relay username
      end
  end.

(** [d[key]] of what should be an object, and a text for the answer. *)
Definition field_of (key : string) (j : json) : M json :=
  match j with
  | JObj d => match dict_get key d with Some v => ret v | None => raise KeyError end
  | _ => raise TypeError
  end.
Definition user_info_of (j : json) : M UserInfo :=
  let! pubkey := field_of "pubkey_hex" j in
  let! name := field_of "username" j in
  let! home := field_of "home_relay" j in
  match pubkey, name, home with
  | JStr pubkey, JStr name, JStr home => ret (mkUserInfo pubkey (Some name) home)
  | JStr pubkey, JNull, JStr home => ret (mkUserInfo pubkey None home)
  | _, _, _ => raise (ValueError "validation")
  end.

(** [fromhex] and [home_relay] of JSON values, for the row. *)
Definition cache_found (s : Settings) (pubkey name home : json) : M (option User) :=
  match pubkey with
  | JStr pubkey =>
      match home with
      | JStr home => if (255 <? string_len home)%Z then raise DataError else _cache_remote_user s pubkey name home
      | _ => raise DataError
      end
  | _ => raise TypeError
  end.

(** [Some r]: the peer knows the user. *)
Definition ask_peer `{Ipaddress} (s : Settings) (relay_host username : string) : M (option UserInfo * bool) :=
  let! cached := _get_lookup_cache relay_host username in
  match cached with
  | Some cached => let! info := user_info_of cached in ret (Some info, false)
  | None =>
      let! result := _remote_lookup_with_retry lookup_attempts relay_host username in
      match result with
      | None => ret (None, true)
      | Some (JObj d) =>
          if get_truthy "__not_found" d then ret (None, false)
          else
            let! pubkey := field_of "pubkey_hex" (JObj d) in
            let! name := field_of "username" (JObj d) in
            let! home := field_of "home_relay" (JObj d) in
            let! _ := _set_lookup_cache relay_host username
              [("pubkey_hex", pubkey); ("username", name); ("home_relay", home);
               ("last_seen_at", default JNull (dict_get "last_seen_at" d))] in
            let! _ := cache_found s pubkey name home in
            let! info := user_info_of (JObj d) in
            ret (Some info, false)
      | Some _ => raise AttributeError
      end
  end.
Fixpoint ask_peers `{Ipaddress} (s : Settings) (username : string) (hosts : list string) (unreachable : bool) : M UserInfo :=
  match hosts with
  | [] =>
      if unreachable then http 503 "remote_relay_unreachable_try_later"
      else
        let! _ := _set_negative_lookup_cache username in
        http 404 "username_not_found"
  | host :: hosts' =>
      let! (found, failed) := ask_peer s host username in
      match found with
      | Some info => ret info
      | None => ask_peers s username hosts' (unreachable || failed)
      end
  end.

(** Trusted peers, the latest handshake first. *)
Definition trusted_hosts (s : Settings) (db : database) : list string :=
  List.filter (fun h => negb (String.eqb h (relay_name s)))
    (map fp_hostname (order_by (fun p => match fp_last_handshake_at p with Some t => - t | None => 2 ^ 63 end)%Z
       (List.filter fp_is_trusted (t_peers db)))).
Definition candidate_relays (s : Settings) (relay : option string) (trusted : list string) : list string :=
  match relay with
  | Some r =>
      if negb (String.eqb r (relay_name s)) && bool_decide (r ∈ trusted)
      then r :: List.filter (fun h => negb (String.eqb h r)) trusted
      else trusted
  | None => trusted
  end.

Definition named_active (name : string) (u : User) : bool :=
  is_named name u && negb (bool_decide (is_Some (u_deleted_at u))).

Definition lookup_username `{Ipaddress} (s : Settings) (username : string) (relay : option string) : M UserInfo :=
  let normalized := normalize_username username in
  let! user := select_user (named_active normalized) in
  match user with
  | Some user => ret (mkUserInfo (hex_of_bytes (u_pubkey user)) (u_username user) (u_home_relay user))
  | None =>
      let! trusted := sql (fun db => (trusted_hosts s db, db)) in
      match candidate_relays s relay trusted with
      | [] => http 404 "username_not_found"
      | hosts =>
          let! missing := _get_negative_lookup_cache normalized in
          if (missing : bool) then http 404 "username_not_found" else ask_peers s normalized hosts false
      end
  end.
