(* ===== verification/Federation.v ===== *)
(** * What other relays may ask (api/federation.py)

    The handshake, the forwarding of messages and of control messages, the lookup of a name and the
    pull of a group.  A request body is what pydantic hands over when its [valid_] test is passed;
    the envelope inside is any JSON object.  Where the code uses a field of it as text without
    testing its type, a value that is no text raises [TypeError] at once ([text_of]); the reasons
    that the code appends to its details are left out. *)

From Stdlib Require Import Ascii String.
From stdpp Require Import prelude gmap strings list.
From S2P Require Import Prelude Json Codec RedisStore Models Effects Crypto Payloads Config Sessions RateLimit Deps.
From S2P Require Import BlobStorage Queue Messages Groups GroupMessages GroupSync Users.

#[local] Open Scope morok_scope.

(** ** Bodies and answers *)

Record HandshakeRequest := mkHandshake {
  hs_peer_hostname : string; hs_peer_pubkey_hex : string; hs_timestamp : Z; hs_signature_hex : string
}.
Definition valid_HandshakeRequest (b : HandshakeRequest) : bool :=
  (string_len (hs_peer_hostname b) <=? 255)%Z && hex_of_len 64 (hs_peer_pubkey_hex b) && (0 <=? hs_timestamp b)%Z
  && hex_of_len 128 (hs_signature_hex b).

Record HandshakeResponse := mkHandshakeResponse {
  hr_accepted : bool; hr_our_pubkey_hex : string; hr_our_relay_name : string
}.

Record ForwardRequest := mkForward {
  fw_envelope : dict; fw_relay_pubkey_hex : string; fw_relay_signature_hex : string; fw_forwarded_at : Z
}.
Definition valid_ForwardRequest (b : ForwardRequest) : bool :=
  hex_of_len 64 (fw_relay_pubkey_hex b) && hex_of_len 128 (fw_relay_signature_hex b) && (0 <=? fw_forwarded_at b)%Z.

Record ForwardResponse := mkForwarded { fr_accepted : bool; fr_envelope_id : string; fr_reason : option string }.

Record PullSnapshotRequest := mkPull {
  pl_group_id : string; pl_caller_pubkey_hex : string; pl_relay_pubkey_hex : string; pl_relay_signature_hex : string;
  pl_timestamp : Z
}.
Definition valid_PullSnapshotRequest (b : PullSnapshotRequest) : bool :=
  (string_len (pl_group_id b) =? 36)%Z && hex_of_len 64 (pl_caller_pubkey_hex b) && hex_of_len 64 (pl_relay_pubkey_hex b)
  && hex_of_len 128 (pl_relay_signature_hex b) && (0 <=? pl_timestamp b)%Z.

(** ** Reading the envelope *)

Definition text_of (j : json) : res string := match j with JStr s => Ok s | _ => Raise TypeError end.
(** [envelope.get(key)] *)
Definition got (key : string) (envelope : dict) : json := default JNull (dict_get key envelope).
(** [str(j)], of what [int] took. *)
Definition str_of (j : json) : string :=
  match j with
  | JNum n => print_Z n
  | JStr s => s
  | JBool b => if b then "True" else "False"
  | _ => ""
  end.
Definition is_none (j : json) : bool := match j with JNull => true | _ => false end.
(** A text or nothing. *)
Definition opt_text_of (j : json) : res (option string) :=
  match j with JNull => Ok None | JStr s => Ok (Some s) | _ => Raise TypeError end.

(** What a loop over the value sees. *)
Fixpoint characters (s : string) : list json :=
  match s with EmptyString => [] | String c s' => JStr (String c "") :: characters s' end.
Definition iter_of (j : json) : res (list json) :=
  match j with
  | JArr l => Ok l
  | JStr s => Ok (characters s)
  | JObj d => Ok (map JStr (dict_keys d))
  | _ => Raise TypeError
  end.

(** ** Signed deletions *)

Definition DELETE_SIG_WINDOW_SECONDS : Z := 7 * 86400.
Definition CONTROL_SIG_WINDOW_SECONDS : Z := 3600.

Definition _verify_delete_sig `{Nacl} (kind envelope_id : string) (ts sig_hex : json) (signer_pubkey_hex : string)
    (group_id : option string) (ts_window_seconds : Z) : M bool :=
  match int_of ts with
  | Raise _ => ret false
  | Ok ts_int =>
      let! now := now_ in
      if (ts_window_seconds <? Z.abs (now - ts_int))%Z then ret false
      else
        let message := canonical_json (delete_payload kind envelope_id ts_int group_id) in
        match fromhex_of sig_hex, bytes_fromhex signer_pubkey_hex with
        | Some sig_bytes, Some pubkey_bytes =>
            if negb (string_len sig_bytes =? 64)%Z || negb (string_len pubkey_bytes =? 32)%Z then ret false
            else ret (ed25519_verify message sig_bytes pubkey_bytes)
        | _, _ => ret false
        end
  end.

Definition fed_seen_key `{Sha256} (kind signer : string) (ts : json) (envelope_id : string) (group_id : option string) : string :=
  "morok:fed_seen:" +:+ sha256_hex (join "|" [kind; signer; str_of ts; envelope_id; default "" group_id]).

Definition _claim_federated_event `{Sha256} (kind signer : string) (ts : json) (envelope_id : string)
    (group_id : option string) (window_seconds : Z) : M bool :=
  try_except
    (redis_ (rcall (set_nx_ex (fed_seen_key kind signer ts envelope_id group_id) "1" (Z.max window_seconds 60)) as_set_ok))
    (fun _ => ret true).

(** ** Peers *)

Definition hosted_at (hostname : string) (p : FederationPeer) : bool := String.eqb (fp_hostname p) hostname.
Definition has_peer_key (pubkey : string) (p : FederationPeer) : bool := String.eqb (fp_pubkey p) pubkey.
Definition greeted (t : Z) (p : FederationPeer) : FederationPeer :=
  mkPeer (fp_hostname p) (fp_pubkey p) (fp_is_trusted p) (Some t) (fp_created_at p).

Definition insert_peer (p : FederationPeer) : M unit :=
  let! ok := sql (fun db =>
    if existsb (hosted_at (fp_hostname p)) (t_peers db) then (false, db) else (true, set_peers (t_peers db ++ [p]) db)) in
  if (ok : bool) then ret tt else raise IntegrityError.
Definition store_peer (p : FederationPeer) : M unit :=
  sql (fun db => (tt, set_peers (snd (update_where (hosted_at (fp_hostname p)) (fun _ => p) (t_peers db))) db)).

Definition _get_or_create_peer (hostname pubkey_bytes : string) : M FederationPeer :=
  let! peer := sql (fun db => (select_one (hosted_at hostname) (t_peers db), db)) in
  match peer with
  | Some peer =>
      if negb (String.eqb (fp_pubkey peer) pubkey_bytes)
      then http 409 "peer_pubkey_changed_manual_intervention_required"
      else
        let! now := now_ in
        let! _ := store_peer (greeted now peer) in
        ret (greeted now peer)
  | None =>
      let! now := now_ in
      let peer := mkPeer hostname pubkey_bytes false (Some now) now in
      let! _ := insert_peer peer in
      ret peer
  end.

Definition handshake `{Nacl} (s : Settings) (body : HandshakeRequest) : M HandshakeResponse :=
  let! now := now_ in
  if (300 <? Z.abs (now - hs_timestamp body))%Z then http 400 "handshake_timestamp_out_of_window"
  else
    match bytes_fromhex (hs_peer_pubkey_hex body), bytes_fromhex (hs_signature_hex body) with
    | Some peer_pubkey, Some signature =>
        let message := canonical_json
          (handshake_payload (hs_peer_hostname body) (hs_peer_pubkey_hex body) (hs_timestamp body)) in
        if negb (ed25519_verify message signature peer_pubkey) then http 401 "handshake_signature_invalid"
        else
          let! _ := _get_or_create_peer (hs_peer_hostname body) peer_pubkey in
          ret (mkHandshakeResponse true (relay_pubkey_hex s) (relay_name s))
    | _, _ => http 400 "malformed_hex"
    end.

(** [scalar_one_or_none()] of the peers with a key, and their trust. *)
Definition trusted_peer (pubkey unknown untrusted : string) : M FederationPeer :=
  let! peer := sql (fun db => (select_sole (has_peer_key pubkey) (t_peers db), db)) in
  match peer with
  | None => raise MultipleResultsFound
  | Some None => http 403 unknown
  | Some (Some peer) => if negb (fp_is_trusted peer) then http 403 untrusted else ret peer
  end.

(** ** Messages of groups *)

(** The fields of a forwarded group message. *)
Record forwarded_message := mkForwardedMessage {
  fm_gid : string; fm_sender : string; fm_envelope : EnvelopeIn; fm_username : option string; fm_blob : string; fm_id : string
}.

Definition read_group_message `{Sha256} (s : Settings) (envelope : dict) : M forwarded_message :=
  match uuid_of (got "group_id" envelope) with
  | Raise (ValueError _ | TypeError) => http 400 "malformed_group_id"
  | Raise e => raise e
  | Ok gid =>
      match dict_get "from" envelope with
      | None => http 400 "malformed_envelope_from"
      | Some from_ =>
          let! from_hex := of_res (text_of from_) in
          match bytes_fromhex from_hex with
          | None => http 400 "malformed_envelope_from"
          | Some sender_pubkey =>
              match dict_get "ts" envelope ≫= Crypto.int_of, dict_get "ttl" envelope ≫= Crypto.int_of,
                    dict_get "blob" envelope, dict_get "sig" envelope with
              | Some ts, Some ttl, Some blob_b64, Some sig =>
                  match b64_of blob_b64 with
                  | None => http 400 "blob_not_base64"
                  | Some blob_bytes =>
                      if (max_blob_bytes s <? string_len blob_bytes)%Z then http 413 "blob_too_large"
                      else
                        match compute_group_envelope_id sender_pubkey gid ts blob_bytes with
                        | None => raise OverflowError
                        | Some id =>
                            let! blob := of_res (text_of blob_b64) in
                            let! sig_hex := of_res (text_of sig) in
                            let! username := of_res (opt_text_of (got "from_username" envelope)) in
                            ret (mkForwardedMessage gid sender_pubkey
                                   (mkEnvelopeIn from_hex (uuid_to_string gid) ts ttl blob sig_hex) username blob_bytes id)
                        end
                  end
              | _, _, _, _ => http 400 "malformed_envelope_fields"
              end
          end
      end
  end.

(** The group, with its members, when it is not deleted. *)
Definition fetch_group (gid : string) : M (option loaded) :=
  sql (fun db =>
    ((g ← select_one (live_group gid) (t_groups db); Some (Loaded g (members_of gid db))) : option loaded, db)).

Definition forward_to_host (s : Settings) (m : forwarded_message) : M ForwardResponse :=
  let! group := fetch_group (fm_gid m) in
  match group with
  | None => http 404 "group_not_found"
  | Some group =>
      if negb (String.eqb (_group_home_relay s (l_group group)) (relay_name s)) then http 400 "not_group_host"
      else if negb (_is_member group (fm_sender m)) then http 403 "sender_not_a_member"
      else
        let! _ := write_blob (fm_id m) (fm_blob m) in
        let! _ := do_group_fanout s group (fm_envelope m) (fm_username m) (fm_id m) in
        ret (mkForwarded true (fm_id m) None)
  end.

(** The keys of the list, each 64 hex characters. *)
Fixpoint recipient_keys (raw : list json) : M (list string) :=
  match raw with
  | [] => ret []
  | pk :: raw' =>
      match key_of_hex64 (Some pk) with
      | None => http 400 "malformed_deliver_pubkey"
      | Some k => let! ks := recipient_keys raw' in ret (k :: ks)
      end
  end.

(** Of the rows, those at home here whose key passes, as text. *)
Definition local_keys (s : Settings) (p : string -> bool) (rows : list (string * string)) : list string :=
  map (fun r => hex_of_bytes r.1) (List.filter (fun r => String.eqb r.2 (relay_name s) && p r.1) rows).

Definition forward_deliver (s : Settings) (envelope : dict) (peer : FederationPeer) (m : forwarded_message)
    : M ForwardResponse :=
  match got "deliver_to_pubkeys" envelope with
  | JArr (_ :: _ as raw_recipients) =>
      let! group := fetch_group (fm_gid m) in
      match group with
      | None => http 404 "group_not_found_for_deliver"
      | Some group =>
          let group_home := _group_home_relay s (l_group group) in
          if String.eqb group_home (relay_name s) then http 403 "deliver_for_locally_hosted_group"
          else if negb (String.eqb group_home (fp_hostname peer)) then http 403 "deliver_from_non_host_relay"
          else if negb (_is_member group (fm_sender m)) then http 403 "deliver_sender_not_a_member"
          else
            let! recipient_bytes := recipient_keys raw_recipients in
            let! rows := users_in u_home_relay recipient_bytes in
            match local_keys s (_is_member group) rows with
            | [] => http 400 "no_local_recipients_in_deliver_list"
            | known_local =>
                let! _ := write_blob (fm_id m) (fm_blob m) in
                let e := fm_envelope m in
                let! _ := enqueue_envelope_for_recipients
                  (FanoutArgs (fm_id m) (e_from e) known_local (e_ts e) (e_ttl e) (e_sig e) (message_ttl_hard_seconds s)
                     (Some (uuid_to_string (fm_gid m))) (fm_username m)) in
                let! _ := spawn (TPush known_local) in
                ret (mkForwarded true (fm_id m) None)
            end
      end
  | _ => http 400 "missing_deliver_to_pubkeys"
  end.

Definition _handle_group_forward `{Sha256} (s : Settings) (envelope : dict) (peer : FederationPeer) : M ForwardResponse :=
  let to_host := get_is_str "group_forward_mode" "to_host" envelope in
  let deliver := get_is_str "group_forward_mode" "deliver" envelope in
  if negb (to_host || deliver) then http 400 "unknown_or_missing_group_forward_mode"
  else
    let! m := read_group_message s envelope in
    let! dup := envelope_exists (fm_id m) in
    if (dup : bool) then ret (mkForwarded true (fm_id m) (Some "duplicate_already_processed"))
    else if to_host then forward_to_host s m else forward_deliver s envelope peer m.

(** ** Snapshots *)

Definition _handle_group_snapshot_push (envelope : dict) (peer : FederationPeer) : M ForwardResponse :=
  let! _ := try_except (let! _ := apply_group_snapshot envelope (fp_hostname peer) in ret tt)
    (fun e => match e with
      | HTTPException _ _ => raise e
      | _ => http 500 "snapshot_apply_failed"
      end) in
  let! id := of_res (text_of (get_with (JStr "") "group_id" envelope)) in
  ret (mkForwarded true id (Some "snapshot_applied")).

(** ** Deletion of a direct message *)

Definition duplicate (id : string) : ForwardResponse := mkForwarded true id (Some "duplicate_replay_noop").

Definition _handle_dm_delete_forward `{Sha256} `{Nacl} (envelope : dict) : M ForwardResponse :=
  if negb (get_truthy "envelope_id" envelope && get_truthy "recipient_pubkey_hex" envelope
           && get_truthy "deleted_by_pubkey_hex" envelope)
  then http 400 "dm_delete_missing_fields"
  else if negb (get_truthy "deleter_signature_hex" envelope) || is_none (got "deleter_ts" envelope)
  then http 400 "dm_delete_missing_signature"
  else
    let! id := of_res (text_of (got "envelope_id" envelope)) in
    let! recipient := of_res (text_of (got "recipient_pubkey_hex" envelope)) in
    let! caller := of_res (text_of (got "deleted_by_pubkey_hex" envelope)) in
    let deleter_ts := got "deleter_ts" envelope in
    let! valid := _verify_delete_sig "dm_delete" id deleter_ts (got "deleter_signature_hex" envelope) caller None
                    DELETE_SIG_WINDOW_SECONDS in
    if negb valid then http 401 "invalid_delete_signature"
    else
      let! first := _claim_federated_event "dm_delete" caller deleter_ts id None DELETE_SIG_WINDOW_SECONDS in
      if negb first then ret (duplicate id)
      else
        let! result := delete_envelope_by_sender id caller recipient in
        ret (mkForwarded true id
               (Some (match truthy (del_error result) with Some e => e | None => "dm_delete_done" end))).

(** ** Read receipts *)

Definition _verify_read_receipt_signature_independently `{Nacl} (envelope_id sender_pubkey_hex reader_pubkey_hex : string)
    (group_id : option string) (signed_at : Z) (signature_hex : json) : M bool :=
  let! now := now_ in
  if (_READ_RECEIPT_SIG_WINDOW_SECONDS <? Z.abs (now - signed_at))%Z then ret false
  else
    let message := canonical_json (read_receipt_payload envelope_id sender_pubkey_hex reader_pubkey_hex group_id signed_at) in
    let! signature_hex := of_res (text_of signature_hex) in
    match bytes_fromhex signature_hex, bytes_fromhex reader_pubkey_hex with
    | Some sig_bytes, Some pubkey_bytes => ret (ed25519_verify message sig_bytes pubkey_bytes)
    | _, _ => ret false
    end.

Definition _handle_read_receipt `{Nacl} (s : Settings) (envelope : dict) : M ForwardResponse :=
  if negb (get_truthy "envelope_id" envelope && get_truthy "sender_pubkey_hex" envelope
           && get_truthy "reader_pubkey_hex" envelope)
  then http 400 "read_receipt_missing_fields"
  else
    let! id := of_res (text_of (got "envelope_id" envelope)) in
    let! sender_hex := of_res (text_of (got "sender_pubkey_hex" envelope)) in
    let! reader := of_res (text_of (got "reader_pubkey_hex" envelope)) in
    let! group_id := of_res (opt_text_of (got "group_id" envelope)) in
    let signature := got "reader_signature_hex" envelope in
    let! valid :=
      if negb (is_none signature) && negb (is_none (got "signed_at" envelope)) then
        let! signed_at := of_res (int_of (got "signed_at" envelope)) in
        _verify_read_receipt_signature_independently id sender_hex reader group_id signed_at signature
      else ret true in
    if negb valid then http 400 "read_receipt_invalid_signature"
    else
      match bytes_fromhex sender_hex with
      | None => http 400 "bad_sender_pubkey_hex"
      | Some sender_pubkey =>
          let! sender_user := find_user sender_pubkey in
          if match sender_user with Some u => String.eqb (u_home_relay u) (relay_name s) | None => false end then
            let! _ := publish_read_receipt sender_hex id reader group_id in
            ret (mkForwarded true id (Some "read_receipt_delivered"))
          else ret (mkForwarded false id (Some "sender_not_on_this_relay"))
      end.

(** ** Deletion of a group's message *)

(** The payload for the relays of the members, with the signature as it came. *)
Definition relayed_delete (gid envelope_id caller : string) (sig ts : json) (members : list string) : dict :=
  [("kind", JStr "group_delete_deliver"); ("group_id", JStr (uuid_to_string gid)); ("envelope_id", JStr envelope_id);
   ("deleted_by_pubkey_hex", JStr caller); ("deliver_to_pubkeys", JArr (map JStr members));
   ("deleter_signature_hex", sig); ("deleter_ts", ts)].

(** What the host does once the request is known to be signed and new. *)
Definition host_delete `{Sha256} (s : Settings) (gid id caller_hex caller : string) (sig ts : json) : M ForwardResponse :=
  let! group := _load_group gid in
  if negb (String.eqb (_group_home_relay s (l_group group)) (relay_name s)) then http 400 "not_group_host"
  else if negb (_is_member group caller) then http 403 "caller_not_a_member"
  else
    let! _ := authorise_group_delete group id caller_hex caller in
    let! (local, remote) := split_members s (map gm_pubkey (l_members group)) in
    let! _ := delete_envelope_for_group id (uuid_to_string (g_id (l_group group))) local caller_hex in
    let! now := now_ in
    let! _ := queue_to_relays (fun target members =>
      (_synthetic_queue_id "deldlv" [id; target],
       relayed_delete (g_id (l_group group)) id caller_hex sig ts members)) remote now in
    ret (mkForwarded true id None).

Definition _handle_group_delete_to_host `{Sha256} `{Nacl} (s : Settings) (envelope : dict) : M ForwardResponse :=
  if negb (get_truthy "envelope_id" envelope && get_truthy "group_id" envelope && get_truthy "deleted_by_pubkey_hex" envelope)
  then http 400 "group_delete_to_host_missing_fields"
  else
    let sig := got "deleter_signature_hex" envelope in
    let deleter_ts := got "deleter_ts" envelope in
    if negb (json_truthy sig) || is_none deleter_ts then http 400 "group_delete_missing_signature"
    else
      match uuid_of (got "group_id" envelope), fromhex_of (got "deleted_by_pubkey_hex" envelope) with
      | Raise AttributeError, _ => raise AttributeError
      | Raise _, _ | _, None => http 400 "malformed_id_or_pubkey"
      | Ok gid, Some caller =>
          let! id := of_res (text_of (got "envelope_id" envelope)) in
          let! caller_hex := of_res (text_of (got "deleted_by_pubkey_hex" envelope)) in
          let group_id := Some (uuid_to_string gid) in
          let! valid := _verify_delete_sig "group_delete" id deleter_ts sig caller_hex group_id DELETE_SIG_WINDOW_SECONDS in
          if negb valid then http 401 "invalid_delete_signature"
          else
            let! first := _claim_federated_event "group_delete" caller_hex deleter_ts id group_id DELETE_SIG_WINDOW_SECONDS in
            if negb first then ret (duplicate id)
            else host_delete s gid id caller_hex caller sig deleter_ts
      end.

(** The 32 bytes of a key; other values are a 400. *)
Definition key32 (j : json) : option string :=
  k ← fromhex_of j; if (string_len k =? 32)%Z then Some k else None.

(** The two layers of [_handle_group_delete_deliver]. *)
Definition authorise_delete_deliver (s : Settings) (peer : FederationPeer) (group : option Group) (caller_hex caller : string)
    (meta : dict) : M unit :=
  let signer_is_sender := get_is_str "from" caller_hex meta in
  match group with
  | None => if negb signer_is_sender then http 403 "group_delete_unknown_group_signer_not_sender" else ret tt
  | Some group =>
      let home := _group_home_relay s group in
      if String.eqb home (relay_name s) then http 403 "group_delete_deliver_for_locally_hosted_group"
      else if negb (String.eqb home (fp_hostname peer)) then http 403 "group_delete_deliver_from_wrong_host"
      else if signer_is_sender then ret tt
      else
        let! signer_is_admin := sql (fun db => (existsb (fun m => String.eqb (gm_pubkey m) caller && gm_is_admin m)
                                                  (members_of (g_id group) db), db)) in
        if negb (String.eqb (g_creator_pubkey group) caller || signer_is_admin)
        then http 403 "group_delete_signer_not_authorized"
        else ret tt
  end.

(** What follows the signature and the claim. *)
Definition deliver_delete (s : Settings) (peer : FederationPeer) (gid group_id id caller_hex caller : string)
    (raw_recipients : json) : M ForwardResponse :=
  let! group := sql (fun db => (select_one (has_group_id gid) (t_groups db), db)) in
  let! meta := get_envelope_meta id in
  match meta with
  | None => ret (mkForwarded true id (Some "envelope_already_gone"))
  | Some (JObj meta) =>
      let! _ := authorise_delete_deliver s peer group caller_hex caller meta in
      let! raw := of_res (iter_of raw_recipients) in
      let! recipient_bytes := recipient_keys raw in
      let! rows := users_in u_home_relay recipient_bytes in
      match local_keys s (fun _ => true) rows with
      | [] => ret (mkForwarded true id (Some "no_local_recipients"))
      | known_local =>
          let! _ := delete_envelope_for_group id group_id known_local caller_hex in
          ret (mkForwarded true id None)
      end
  | Some _ => raise AttributeError
  end.

Definition _handle_group_delete_deliver `{Sha256} `{Nacl} (s : Settings) (envelope : dict) (peer : FederationPeer)
    : M ForwardResponse :=
  if negb (get_truthy "envelope_id" envelope && get_truthy "group_id" envelope && get_truthy "deleted_by_pubkey_hex" envelope
           && get_truthy "deliver_to_pubkeys" envelope)
  then http 400 "group_delete_deliver_missing_fields"
  else
    let sig := got "deleter_signature_hex" envelope in
    let deleter_ts := got "deleter_ts" envelope in
    if negb (json_truthy sig) || is_none deleter_ts then http 400 "group_delete_missing_signature"
    else
      match uuid_of_str (got "group_id" envelope), key32 (got "deleted_by_pubkey_hex" envelope) with
      | Ok gid, Some caller =>
          let! id := of_res (text_of (got "envelope_id" envelope)) in
          let! group_id := of_res (text_of (got "group_id" envelope)) in
          let! caller_hex := of_res (text_of (got "deleted_by_pubkey_hex" envelope)) in
          let! valid := _verify_delete_sig "group_delete" id deleter_ts sig caller_hex (Some group_id)
                          DELETE_SIG_WINDOW_SECONDS in
          if negb valid then http 401 "invalid_delete_signature"
          else
            let! first := _claim_federated_event "group_delete_deliver" caller_hex deleter_ts id (Some group_id)
                            DELETE_SIG_WINDOW_SECONDS in
            if negb first then ret (duplicate id)
            else deliver_delete s peer gid group_id id caller_hex caller (got "deliver_to_pubkeys" envelope)
      | _, _ => http 400 "group_delete_malformed_ids"
      end.

(** ** The end of a group *)

(** Of the values, the texts that are members' keys. *)
Definition gone_recipients (members : list string) (raw : list json) : list string :=
  omap (fun j => match j with
    | JStr pk => if (string_len pk =? 64)%Z && bool_decide (is_Some (bytes_fromhex pk)) && bool_decide (pk ∈ members)
                 then Some pk else None
    | _ => None
    end) raw.

Definition announce_gone (s : Settings) (peer : FederationPeer) (gid group_id by_hex by_ : string) (raw_recipients : json)
    : M ForwardResponse :=
  let! group := sql (fun db => (select_one (has_group_id gid) (t_groups db), db)) in
  match group with
  | None => ret (mkForwarded true group_id (Some "unknown_group_noop"))
  | Some group =>
      let home := _group_home_relay s group in
      if String.eqb home (relay_name s) then http 403 "group_gone_for_locally_hosted_group"
      else if negb (String.eqb home (fp_hostname peer)) then http 403 "group_gone_from_wrong_host"
      else if negb (String.eqb (g_creator_pubkey group) by_) then http 403 "group_gone_signer_not_creator"
      else
        let! members := sql (fun db => (map (fun m => hex_of_bytes (gm_pubkey m)) (members_of gid db), db)) in
        let! raw := of_res (iter_of raw_recipients) in
        let! _ := try_except (publish_group_gone (gone_recipients members raw) group_id by_hex) (fun _ => ret tt) in
        ret (mkForwarded true group_id (Some "group_gone_delivered"))
  end.

Definition _handle_group_gone `{Sha256} `{Nacl} (s : Settings) (envelope : dict) (peer : FederationPeer) : M ForwardResponse :=
  if negb (get_truthy "group_id" envelope && get_truthy "by_pubkey_hex" envelope && get_truthy "deliver_to_pubkeys" envelope)
  then http 400 "group_gone_missing_fields"
  else
    let sig := got "gone_signature_hex" envelope in
    let gone_ts := got "gone_ts" envelope in
    if negb (json_truthy sig) || is_none gone_ts then http 400 "group_gone_missing_signature"
    else
      match uuid_of_str (got "group_id" envelope), key32 (got "by_pubkey_hex" envelope) with
      | Ok gid, Some by_ =>
          let! group_id := of_res (text_of (got "group_id" envelope)) in
          let! by_hex := of_res (text_of (got "by_pubkey_hex" envelope)) in
          let! valid := _verify_delete_sig "group_gone" "" gone_ts sig by_hex (Some group_id) CONTROL_SIG_WINDOW_SECONDS in
          if negb valid then http 401 "invalid_group_gone_signature"
          else
            let! first := _claim_federated_event "group_gone" by_hex gone_ts "" (Some group_id) CONTROL_SIG_WINDOW_SECONDS in
            if negb first then ret (duplicate group_id)
            else announce_gone s peer gid group_id by_hex by_ (got "deliver_to_pubkeys" envelope)
      | _, _ => http 400 "group_gone_malformed_ids"
      end.

(** ** Forwarding *)

(** The inner signature of a group message. *)
Definition check_group_envelope `{Nacl} (envelope : dict) (now : Z) : M unit :=
  match dict_get "from" envelope ≫= fromhex_of, dict_get "sig" envelope ≫= fromhex_of with
  | Some inner_sender, Some inner_sig =>
      if negb (string_len inner_sender =? 32)%Z || negb (string_len inner_sig =? 64)%Z
      then http 400 "bad_inner_pubkey_or_sig_length"
      else
        match dict_get "ts" envelope ≫= Crypto.int_of with
        | None => http 400 "malformed_ts"
        | Some inner_ts =>
            if (inner_ts <? now - 300)%Z || (now + 60 <? inner_ts)%Z then http 400 "inner_envelope_timestamp_out_of_window"
            else if negb (ed25519_verify (canonical_json (JObj (unsigned_of envelope))) inner_sig inner_sender)
            then http 400 "inner_envelope_invalid: signature_invalid"
            else ret tt
        end
  | _, _ => http 400 "malformed_envelope_fields"
  end.

(** The sender's row, best effort: [true] when a failed flush leaves the session unusable, so that
    its commit will raise. *)
Definition refresh_sender (s : Settings) (peer : FederationPeer) (envelope : dict) (from_hex : string) : M bool :=
  let username := got "from_username" envelope in
  try_except
    (let! _ := _cache_remote_user s from_hex (if json_truthy username then username else JNull) (fp_hostname peer) in
     ret false)
    (fun e => ret (match e with DataError | IntegrityError => true | _ => false end)).

Definition at_home_here (s : Settings) (u : User) : bool :=
  String.eqb (u_home_relay u) (relay_name s) && negb (bool_decide (is_Some (u_deleted_at u))).

Definition forward_args (s : Settings) (envelope : dict) (d : decoded) (id from_hex to_hex sig_hex : string) : enqueue_args :=
  EnqueueArgs id from_hex to_hex (d_ts d) (d_ttl d) sig_hex (message_ttl_hard_seconds s) None false None None None None None.

Definition forward_dm `{Sha256} `{Nacl} (s : Settings) (envelope : dict) (peer : FederationPeer) : M ForwardResponse :=
  let! now := now_ in
  let '(ok, _) := verify_envelope_signature envelope 300 60 now in
  if negb ok then http 400 "inner_envelope_invalid"
  else
    match decode_envelope envelope with
    | None => http 400 "malformed_recipient_in_envelope"
    | Some d =>
        let! recipient := select_user (Users.has_key (d_recipient d)) in
        if negb (match recipient with Some u => at_home_here s u | None => false end)
        then http 404 "recipient_not_on_this_relay"
        else if (max_blob_bytes s <? string_len (d_blob d))%Z then http 413 "blob_too_large"
        else
          match envelope_id (mkEnvelope (d_sender d) (d_recipient d) (d_ts d) (d_ttl d) (d_blob d)) with
          | None => raise OverflowError
          | Some id =>
              let! dup := envelope_exists id in
              if (dup : bool) then ret (mkForwarded true id (Some "duplicate_already_queued"))
              else
                let! from_hex := of_res (text_of (got "from" envelope)) in
                let! to_hex := of_res (text_of (got "to" envelope)) in
                let! sig_hex := of_res (text_of (got "sig" envelope)) in
                let! _ := write_blob_then_enqueue (forward_args s envelope d id from_hex to_hex sig_hex) (d_blob d) in
                let! broken := refresh_sender s peer envelope from_hex in
                let! _ := spawn (TPush [to_hex]) in
                if (broken : bool) then raise PendingRollbackError else ret (mkForwarded true id None)
          end
    end.

(** What the envelope asks for. *)
Definition dispatch `{Sha256} `{Nacl} (s : Settings) (envelope : dict) (peer : FederationPeer) (now : Z) : M ForwardResponse :=
  let kind := fun k => get_is_str "kind" k envelope in
  if kind "group_snapshot" then _handle_group_snapshot_push envelope peer
  else if kind "dm_delete" then _handle_dm_delete_forward envelope
  else if kind "group_delete_to_host" then _handle_group_delete_to_host s envelope
  else if kind "group_delete_deliver" then _handle_group_delete_deliver s envelope peer
  else if kind "group_gone" then _handle_group_gone s envelope peer
  else if kind "read_receipt" then _handle_read_receipt s envelope
  else if get_truthy "group_id" envelope then
    let! _ := check_group_envelope envelope now in
    _handle_group_forward s envelope peer
  else forward_dm s envelope peer.

(** The request is fresh and signed by a known, trusted relay. *)
Definition authenticate_relay `{Nacl} (body : ForwardRequest) (now : Z) : M FederationPeer :=
  match bytes_fromhex (fw_relay_pubkey_hex body), bytes_fromhex (fw_relay_signature_hex body) with
  | Some relay_pubkey, Some relay_sig =>
      if (300 <? Z.abs (now - fw_forwarded_at body))%Z then http 400 "forward_timestamp_out_of_window"
      else
        let msg := canonical_json (forward_payload (fw_envelope body) (fw_relay_pubkey_hex body) (fw_forwarded_at body)) in
        if negb (ed25519_verify msg relay_sig relay_pubkey) then http 401 "forwarding_relay_signature_invalid"
        else trusted_peer relay_pubkey "forwarding_relay_unknown_handshake_first" "forwarding_relay_untrusted"
  | _, _ => http 400 "malformed_hex"
  end.

Definition _forward_impl `{Sha256} `{Nacl} (s : Settings) (body : ForwardRequest) : M ForwardResponse :=
  let! now := now_ in
  let! peer := authenticate_relay body now in
  dispatch s (fw_envelope body) peer now.

(** The rejection is logged and goes on. *)
Definition forward `{Sha256} `{Nacl} (s : Settings) (body : ForwardRequest) : M ForwardResponse :=
  try_except (_forward_impl s body) raise.

(** ** Lookups *)

Definition federation_lookup (username : string) : M dict :=
  let! user := select_user (named_active (normalize_username username)) in
  match user with
  | None => http 404 "username_not_found"
  | Some u => ret [("pubkey_hex", JStr (hex_of_bytes (u_pubkey u))); ("username", opt_str (u_username u));
                   ("home_relay", JStr (u_home_relay u))]
  end.

Definition pull_group_snapshot `{Nacl} (s : Settings) (body : PullSnapshotRequest) : M dict :=
  let! now := now_ in
  if (300 <? Z.abs (now - pl_timestamp body))%Z then http 400 "timestamp_out_of_window"
  else
    match bytes_fromhex (pl_relay_pubkey_hex body), bytes_fromhex (pl_relay_signature_hex body),
          uuid_of_string (pl_group_id body), bytes_fromhex (pl_caller_pubkey_hex body) with
    | Some relay_pubkey, Some relay_sig, Some gid, Some caller =>
        let message := canonical_json (pull_snapshot_payload (pl_group_id body) (pl_caller_pubkey_hex body)
                                         (pl_relay_pubkey_hex body) (pl_timestamp body)) in
        if negb (ed25519_verify message relay_sig relay_pubkey) then http 401 "relay_signature_invalid"
        else
          let! _ := trusted_peer relay_pubkey "relay_unknown_handshake_first" "relay_untrusted" in
          let! group := fetch_group gid in
          match group with
          | None => http 404 "group_not_found"
          | Some group =>
              if negb (String.eqb (_group_home_relay s (l_group group)) (relay_name s)) then http 404 "group_not_hosted_here"
              else if negb (_is_member group caller) then http 404 "group_not_found"
              else
                let! now := now_ in
                ret (_serialize_group_for_snapshot s group now)
          end
    | _, _, _, _ => http 400 "malformed_hex_or_uuid"
    end.
