(* ===== verification/Auth.v ===== *)
(** * Logging in (api/auth.py)

    The challenge, its signed answer, the login journal with its daily salt, and the ends of sessions.
    The rate limits in front are those of [RateLimit]; [secrets.token_bytes] draws from the world's
    random tokens. *)

From Stdlib Require Import Ascii String.
From stdpp Require Import prelude gmap strings list.
From S2P Require Import Prelude Json Codec RedisStore Models Effects Crypto Config Sessions RateLimit Deps.
From S2P Require Import BlobStorage Queue Messages Users.

#[local] Open Scope morok_scope.

(** ** Bodies (schemas.py) *)

Record ChallengeResponse := mkChallenge { ch_challenge_hex : string; ch_expires_at : Z }.
Record AuthRequest := mkAuthRequest {
  au_pubkey_hex : string; au_challenge_hex : string; au_timestamp : Z; au_signature_hex : string
}.
Definition valid_AuthRequest (b : AuthRequest) : bool :=
  hex_of_len 64 (au_pubkey_hex b) && hex_of_len 64 (au_challenge_hex b) && (0 <=? au_timestamp b)%Z
  && hex_of_len 128 (au_signature_hex b).
Record AuthResponse := mkAuthResponse {
  ar_session_token : string; ar_expires_at : Z; ar_pubkey_hex : string; ar_home_relay : option string; ar_is_home_relay : bool
}.

Definition get_ws_ticket (current : Session) : M (string * Z) :=
  let! ticket := issue_ws_ticket (pubkey_hex current) in
  ret (ticket, WS_TICKET_TTL_SECONDS).

(** ** The journal of logins *)

Definition two_digits (n : Z) : string := (if (n <? 10)%Z then "0" else "") +:+ print_Z n.
(** [strftime("%Y-%m-%d")] of a time in UTC, in the Gregorian calendar; the year has four digits. *)
Definition utc_date (t : Z) : string :=
  let z := (t / 86400 + 719468)%Z in
  let era := (z / 146097)%Z in
  let doe := (z mod 146097)%Z in
  let yoe := ((doe - doe / 1460 + doe / 36524 - doe / 146096) / 365)%Z in
  let doy := (doe - (365 * yoe + yoe / 4 - yoe / 100))%Z in
  let mp := ((5 * doy + 2) / 153)%Z in
  let day := (doy - (153 * mp + 2) / 5 + 1)%Z in
  let month := (if mp <? 10 then mp + 3 else mp - 9)%Z in
  let year := (yoe + era * 400 + (if month <=? 2 then 1 else 0))%Z in
  print_Z year +:+ "-" +:+ two_digits month +:+ "-" +:+ two_digits day.

Definition login_salt_key (date_str : string) : string := "morok:login_salt:" +:+ date_str.

Section Auth.
  Context `{Sha256} `{Nacl} (s : Settings).

(** The salt of the day, when Redis cannot say it. *)
Definition fallback_salt (date_str : string) : string :=
  sha256 (default "" (bytes_fromhex (relay_privkey_hex s)) +:+ date_str).

Definition _daily_ip_hash (ip : string) : M string :=
  let! now := now_ in
  let date_str := utc_date now in
  let! salt := try_except
    (let! candidate := token_ in
     let! was_set := redis_ (rcall (set_nx_ex (login_salt_key date_str) candidate (48 * 3600)) as_set_ok) in
     if (was_set : bool) then ret (Some candidate) else redis_ (rcall (GET (login_salt_key date_str)) as_bulk))
    (fun _ => ret None) in
  ret (sha256_hex (default (fallback_salt date_str) (truthy salt) +:+ ip)).

Definition reactivated (now : Z) (u : User) : User :=
  mkUser (u_pubkey u) (u_username u) (u_tier u) (u_home_relay u) (u_created_at u) (Some now) None (u_username_changed_at u).
Definition deleted_row (pubkey : string) (u : User) : bool :=
  Users.has_key pubkey u && bool_decide (is_Some (u_deleted_at u)).

Definition _reactivate_if_deleted (pubkey_hex : string) : M bool :=
  try_except
    (let! pubkey_bytes := fromhex_ pubkey_hex in
     let! now := now_ in
     let! rowcount := sql (fun db =>
       let '(n, users) := update_where (deleted_row pubkey_bytes) (reactivated now) (t_users db) in (n, set_users users db)) in
     ret (negb (rowcount =? 0)%Z))
    (fun _ => ret false).

Definition login_of (pubkey : string) (l : LoginLog) : bool := String.eqb (ll_pubkey l) pubkey.
(** The ids of the thirty latest rows of the key. *)
Definition keep_ids (pubkey : string) (db : database) : list string :=
  map ll_id (take 30 (order_by (fun l => - ll_created_at l)%Z (List.filter (login_of pubkey) (t_logins db)))).
Definition prune_logins (pubkey : string) (keep : list string) (db : database) : database :=
  set_logins (snd (delete_where (fun l => login_of pubkey l && negb (bool_decide (ll_id l ∈ keep))) (t_logins db))) db.
Definition insert_login (l : LoginLog) : M unit :=
  let! ok := sql (fun db => if existsb (fun l' => String.eqb (ll_id l') (ll_id l)) (t_logins db) then (false, db)
                            else (true, set_logins (t_logins db ++ [l]) db)) in
  if (ok : bool) then ret tt else raise IntegrityError.

Definition user_agent_column (user_agent : option string) : option string :=
  truthy (Some (substring 0 255 (default "" user_agent))).

(** Best effort: [true] when a failed flush leaves the session unusable, so that its commit will
    raise. *)
Definition _record_login (pubkey_hex ip : string) (user_agent : option string) : M bool :=
  try_except
    (let! pubkey_bytes := fromhex_ pubkey_hex in
     let! now := now_ in
     let! ip_hash := _daily_ip_hash ip in
     let! id := token_ in
     let! _ := insert_login (mkLogin id pubkey_bytes now ip_hash (user_agent_column user_agent)) in
     let! keep := sql (fun db => (keep_ids pubkey_bytes db, db)) in
     let! _ := match keep with
               | [] => ret tt
               | _ => sql (fun db => (tt, prune_logins pubkey_bytes keep db))
               end in
     ret false)
    (fun e => ret (match e with IntegrityError => true | _ => false end)).

(** ** The endpoints *)

Definition request_challenge (body_pubkey_hex : string) : M ChallengeResponse :=
  let! challenge := token_ in
  let challenge_hex := hex_of_bytes challenge in
  let! now := now_ in
  let! _ := store_challenge challenge_hex body_pubkey_hex in
  ret (mkChallenge challenge_hex (now + 60)).

(** From the verified signature on. *)
Definition open_session (body : AuthRequest) (pubkey_bytes : string) (request : Request) : M AuthResponse :=
  let! _ := _reactivate_if_deleted (au_pubkey_hex body) in
  let! row := select_user (Users.has_key pubkey_bytes) in
  let account_home := row ≫= fun u => truthy (Some (u_home_relay u)) in
  let is_home := match account_home with Some home => String.eqb home (relay_name s) | None => true end in
  let! session := create_session (au_pubkey_hex body) in
  let client_ip := get_ip_from_request (trusted_proxy_ips s) request in
  let! broken := _record_login (au_pubkey_hex body) client_ip (headers request !! "user-agent") in
  if (broken : bool) then raise PendingRollbackError
  else ret (mkAuthResponse (token session) (expires_at session) (pubkey_hex session) account_home is_home).

Definition verify_challenge (body : AuthRequest) (request : Request) : M AuthResponse :=
  let! expected_pubkey_hex := consume_challenge (au_challenge_hex body) in
  match expected_pubkey_hex with
  | None => http 401 "challenge_not_found_or_expired"
  | Some expected =>
      if negb (String.eqb expected (au_pubkey_hex body)) then http 401 "pubkey_mismatch"
      else
        let! now := now_ in
        if (120 <? Z.abs (now - au_timestamp body))%Z then http 401 "invalid_signature_or_stale_timestamp"
        else
          let msg := canonical_json (auth_payload (au_challenge_hex body) (au_pubkey_hex body) (au_timestamp body)) in
          let! pubkey_bytes := fromhex_ (au_pubkey_hex body) in
          let! sig_bytes := fromhex_ (au_signature_hex body) in
          if negb (ed25519_verify msg sig_bytes pubkey_bytes) then http 401 "invalid_signature_or_stale_timestamp"
          else
            open_session body pubkey_bytes request
  end.

Definition logout (current : Session) : M bool := revoke_session (token current).
Definition revoke_all (current : Session) : M bool :=
  let! count := revoke_all_sessions (pubkey_hex current) in
  ret (0 <? count)%Z.
End Auth.
