(* ===== verification/Account.v ===== *)
(** * The account (api/account.py)

    Deleting an account and its traces, and the journal of its logins. *)

From Stdlib Require Import Ascii String.
From stdpp Require Import prelude gmap strings list.
From S2P Require Import Prelude Json Codec RedisStore Models Effects Crypto Config Sessions RateLimit Deps.
From S2P Require Import BlobStorage Queue Messages Users Auth.

#[local] Open Scope morok_scope.

(** The row of an account that is deleted: the name is released, with the time it was claimed. *)
Definition erased (now : Z) (u : User) : User :=
  mkUser (u_pubkey u) None (u_tier u) (u_home_relay u) (u_created_at u) (u_last_seen_at u)
    (match u_deleted_at u with None => Some now | Some t => Some t end)
    (match u_username u with None => u_username_changed_at u | Some _ => None end).

Definition erase_user (pubkey_bytes : string) (now : Z) : M unit :=
  let! found := select_user (Users.has_key pubkey_bytes) in
  match found with
  | None => ret tt
  | Some user =>
      let! _ := match u_username user with
                | Some name => add_history (released pubkey_bytes user name now)
                | None => ret tt
                end in
      store_user (erased now user)
  end.

(** The rows of the key in four tables; the recipients of its switches go with them. *)
Definition erase_rows (pubkey : string) (db : database) : database :=
  set_logins (snd (delete_where (login_of pubkey) (t_logins db)))
    (set_dms (snd (delete_where (fun d => String.eqb (dms_creator_pubkey d) pubkey) (t_dms db)))
      (set_backups (snd (delete_where (fun b => String.eqb (eb_pubkey b) pubkey) (t_backups db)))
        (set_push (snd (delete_where (fun p => String.eqb (ps_pubkey p) pubkey) (t_push db))) db))).

Definition ws_active_key (pubkey_hex : string) : string := "morok:ws:active:" +:+ pubkey_hex.

Section Account.
  Context `{Sha256} `{Nacl} (s : Settings).

(** [for attempt in range(n)]: did one attempt succeed? *)
Fixpoint revoke_attempts (n : nat) (pubkey_hex : string) : M bool :=
  match n with
  | O => ret false
  | S n' => try_except (let! _ := revoke_all_sessions pubkey_hex in ret true) (fun _ => revoke_attempts n' pubkey_hex)
  end.

(** [sessions_revoked] of the answer; [deleted] is always true. *)
Definition delete_me (current : Session) (proof : option action_proof) : M bool :=
  let! _ := enforce_sensitive_action (action_proof_required_set s) (relay_name s) "account_delete" (pubkey_hex current)
              (pubkey_hex current) proof in
  let! pubkey_bytes := fromhex_ (pubkey_hex current) in
  let! now := now_ in
  let! _ := erase_user pubkey_bytes now in
  let! _ := sql (fun db => (tt, erase_rows pubkey_bytes db)) in
  let! _ := try_except
    (let! _ := cmd_ (DEL [_inbox_key (pubkey_hex current)]) in
     cmd_ (DEL [ws_active_key (pubkey_hex current)]))
    (fun _ => ret tt) in
  revoke_attempts 3 (pubkey_hex current).
End Account.

(** The journal, the latest first. *)
Definition get_sessions (current : Session) : M (list (Z * string * option string)) :=
  let! pubkey_bytes := fromhex_ (pubkey_hex current) in
  sql (fun db => (map (fun l => (ll_created_at l, ll_ip_hash l, ll_user_agent l))
                    (take 30 (order_by (fun l => - ll_created_at l)%Z (List.filter (login_of pubkey_bytes) (t_logins db)))), db)).

(** How many rows were cleared. *)
Definition clear_sessions (current : Session) : M Z :=
  let! pubkey_bytes := fromhex_ (pubkey_hex current) in
  sql (fun db => let '(n, logins) := delete_where (login_of pubkey_bytes) (t_logins db) in (n, set_logins logins db)).
