(* ===== verification/BurnerApi.v ===== *)
(** * Burner links (api/burner.py)

    The owner's endpoints over the tokens of [BurnerTokens], and the public ones: whoever has a link
    learns the owner's key and may post to the owner's inbox without an account. *)

From Stdlib Require Import Ascii String.
From stdpp Require Import prelude gmap strings list.
From S2P Require Import Prelude Json Codec RedisStore Models Effects Crypto Config Sessions RateLimit Deps.
From S2P Require Import BlobStorage Queue BurnerTokens Messages Groups.

#[local] Open Scope morok_scope.

(** ** Bodies and answers (schemas.py) *)

Definition BURNER_LABEL_MAX_LEN : Z := 64.
Definition BURNER_SENDER_LABEL_MAX_LEN : Z := 64.
Definition MAX_SENDER_LABEL_LEN : nat := 64.
Definition label_within (n : Z) (o : option string) : bool := match o with Some l => (string_len l <=? n)%Z | None => true end.

Record BurnerCreate := mkBurnerCreate { bc_ttl_seconds : option Z; bc_label : option string }.
Definition valid_BurnerCreate (b : BurnerCreate) : bool :=
  match bc_ttl_seconds b with Some t => (3600 <=? t)%Z && (t <=? 30 * 86400)%Z | None => true end
  && label_within BURNER_LABEL_MAX_LEN (bc_label b).

Record BurnerInfo := mkBurnerInfo {
  bi_token : string; bi_owner_pubkey_hex : string; bi_label : option string;
  bi_created_at : Z; bi_expires_at : Z; bi_message_count : Z
}.
Record BurnerPublicInfo := mkPublicInfo { bp_owner_pubkey_hex : string; bp_label : option string; bp_expires_at : Z }.

Record BurnerSend := mkBurnerSend { bs_ephemeral_pubkey_hex : string; bs_blob_b64 : string; bs_sender_label : option string }.
Definition valid_BurnerSend (b : BurnerSend) : bool :=
  hex_of_len 64 (bs_ephemeral_pubkey_hex b) && label_within BURNER_SENDER_LABEL_MAX_LEN (bs_sender_label b).
Record BurnerSendAck := mkSendAck {
  sa_envelope_id : string; sa_queued : bool; sa_expires_at : option Z; sa_message_count : option Z
}.

(** The fields of a model built from stored values; a value of another type is refused. *)
Definition text_field (j : json) : M string := match j with JStr s => ret s | _ => raise (ValueError "str") end.
Definition text_or_none_field (j : json) : M (option string) :=
  match j with JStr s => ret (Some s) | JNull => ret None | _ => raise (ValueError "str | None") end.
Definition int_field (j : json) : M Z :=
  match int_of j with Some n => ret n | None => raise (ValueError "int") end.

(** [BurnerInfo( **t)] *)
Definition burner_info (t : dict) : M BurnerInfo :=
  let field k := default JNull (dict_get k t) in
  let! token := text_field (field "token") in
  let! owner := text_field (field "owner_pubkey_hex") in
  let! label := text_or_none_field (field "label") in
  let! created_at := int_field (field "created_at") in
  let! expires_at := int_field (field "expires_at") in
  let! message_count := int_field (field "message_count") in
  ret (mkBurnerInfo token owner label created_at expires_at message_count).
Fixpoint burner_infos (l : list dict) : M (list BurnerInfo) :=
  match l with
  | [] => ret []
  | t :: l' => let! i := burner_info t in let! is_ := burner_infos l' in ret (i :: is_)
  end.

(** [BURNER_TOKEN_PATTERN]: that of invites. *)
Definition burner_pattern (token : string) : bool := invite_pattern token.

(** What [get_token] found: [None], or a value that the callers index as an object. *)
Definition token_meta (o : option json) : option (res dict) :=
  match o with
  | None | Some JNull => None
  | Some (JObj meta) => Some (Ok meta)
  | Some _ => Some (Raise TypeError)
  end.
(** [meta[key]] *)
Definition meta_item (key : string) (meta : dict) : M json :=
  match dict_get key meta with Some v => ret v | None => raise KeyError end.

(** ** The owner's endpoints *)

Definition create_burner_token (body : BurnerCreate) (current : Session) : M BurnerInfo :=
  let ttl := or_default (bc_ttl_seconds body) DEFAULT_TTL_SECONDS in
  let! info := create_token (pubkey_hex current) ttl (bc_label body) in
  match info with
  | None => http 409 ("too_many_active_burner_links_max_" +:+ print_Z MAX_ACTIVE_TOKENS_PER_OWNER)
  | Some info => burner_info info
  end.

Definition list_burner_tokens (current : Session) : M (list BurnerInfo) :=
  let! raw := list_tokens_for_owner (pubkey_hex current) in
  burner_infos raw.

Definition revoke_burner_token (token : string) (current : Session) : M bool :=
  if negb (burner_pattern token) then http 400 "malformed_token"
  else
    let! found := get_token token in
    match token_meta found with
    | None => ret false
    | Some (Raise _) => raise AttributeError
    | Some (Ok meta) =>
        if negb (get_is_str "owner_pubkey" (pubkey_hex current) meta) then http 403 "not_your_token"
        else revoke_token (pubkey_hex current) token
    end.

(** ** The public endpoints *)

Definition public_burner_info (token : string) : M BurnerPublicInfo :=
  if negb (burner_pattern token) then http 400 "malformed_token"
  else
    let! found := get_token token in
    match token_meta found with
    | None => http 404 "burner_link_invalid_or_expired"
    | Some (Raise e) => raise e
    | Some (Ok meta) =>
        let! owner := meta_item "owner_pubkey" meta in
        let! expires_at := meta_item "expires_at" meta in
        let! owner := text_field owner in
        let! label := text_or_none_field (default JNull (dict_get "label" meta)) in
        let! expires_at := int_field expires_at in
        ret (mkPublicInfo owner label expires_at)
    end.

Definition SEND_RATE_LIMIT_PER_MINUTE : Z := 10.
Definition _send_rl_key (token_hash ip : string) : string := "morok:burner_send_rl:" +:+ token_hash +:+ ":" +:+ ip.

Section Endpoints.
  Context `{Sha256} `{Nacl} `{Cjson} (s : Settings).

Definition send_bucket (token ip : string) (now : Z) : string :=
  _send_rl_key (substring 0 32 (sha256_hex token)) ip +:+ ":" +:+ print_Z (now / 60).
Definition _enforce_public_send_rate_limit (request : RateLimit.Request) (token : string) : M unit :=
  let ip := get_ip_from_request (trusted_proxy_ips s) request in
  let! now := now_ in
  let bucket := send_bucket token ip now in
  let! count := redis_ (rcall (INCR bucket) as_int) in
  let! _ := (if (count =? 1)%Z then cmd_ (EXPIRE bucket 90) else ret tt) in
  if (SEND_RATE_LIMIT_PER_MINUTE <? count)%Z then http 429 "too_many_send_attempts_try_later" else ret tt.

Definition flame : string := String "240" (String "159" (String "148" (String "165" ""))).
Definition sender_meta (sender_label : option string) : string :=
  let label := substring 0 MAX_SENDER_LABEL_LEN (strip (default "" sender_label)) in
  if String.eqb label "" then flame +:+ "burner" else flame +:+ "burner::" +:+ label.

Definition placeholder_sig : string := string_of_list_ascii (repeat "0"%char 128).
Definition BURNER_MESSAGE_TTL : Z := 7 * 86400.
Definition burner_args (body : BurnerSend) (owner id : string) (now : Z) : enqueue_args :=
  EnqueueArgs id (bs_ephemeral_pubkey_hex body) owner now BURNER_MESSAGE_TTL placeholder_sig (message_ttl_hard_seconds s)
    (Some (sender_meta (bs_sender_label body))) false None None None None None.

(** From the decoded owner's key on. *)
Definition burner_post (token : string) (body : BurnerSend) (owner owner_bytes : string) : M BurnerSendAck :=
  let! recipient := find_user owner_bytes in
  match recipient with
  | None => http 404 "recipient_not_found"
  | Some _ =>
      match b64decode (bs_blob_b64 body) with
      | None => http 400 "blob_not_base64"
      | Some blob_bytes =>
          if (string_len blob_bytes =? 0)%Z || (max_blob_bytes s <? string_len blob_bytes)%Z then http 413 "blob_size_invalid"
          else
            let! (allowed, count) := increment_message_count token in
            if negb allowed then http 429 "burner_link_message_limit_reached"
            else
              let! now := now_ in
              let! ephemeral := fromhex_ (bs_ephemeral_pubkey_hex body) in
              match envelope_id (mkEnvelope ephemeral owner_bytes now BURNER_MESSAGE_TTL blob_bytes) with
              | None => raise OverflowError
              | Some id =>
                  let! dup := envelope_exists id in
                  if (dup : bool) then ret (mkSendAck id false None None)
                  else
                    let! expires_at := write_blob_then_enqueue (burner_args body owner id now) blob_bytes in
                    ret (mkSendAck id true expires_at (Some count))
              end
      end
  end.

Definition public_burner_send (token : string) (body : BurnerSend) (request : RateLimit.Request) : M BurnerSendAck :=
  if negb (burner_pattern token) then http 400 "malformed_token"
  else
    let! _ := _enforce_public_send_rate_limit request token in
    let! found := get_token token in
    match token_meta found with
    | None => http 404 "burner_link_invalid_or_expired"
    | Some (Raise e) => raise e
    | Some (Ok meta) =>
        let! owner := meta_item "owner_pubkey" meta in
        if negb (hex_of_len 64 (bs_ephemeral_pubkey_hex body)) then http 400 "malformed_ephemeral_pubkey"
        else
          match owner with
          | JStr owner => let! owner_bytes := fromhex_ owner in burner_post token body owner owner_bytes
          | _ => raise TypeError
          end
    end.
End Endpoints.
