(* ===== verification/Inbox.v ===== *)
(** * The inbox socket (api/inbox.py)

    A socket is a state machine: the handshake ([open_socket]) ends in a refusal with its close code
    or in a connection with its first frame; then each thing that happens to the connection, a
    message on the inbox channel ([on_message], the reader), a text from the client ([on_text], the
    writer) or thirty seconds ([on_tick], the pinger), has a [reaction]; and when one of the three
    tasks ends, the socket is torn down ([close_socket]).  [inbox_socket] is the whole life of a
    socket for a sequence of inputs, after which the client is gone; a frame that cannot be sent
    because the client is gone is the end of the inputs.  Each input is handled to its end before the
    next.  Numbers in JSON are integers. *)

From Stdlib Require Import Ascii String.
From stdpp Require Import prelude gmap strings list.
From S2P Require Import Prelude Json Codec RedisStore Models Effects Crypto Config Sessions RateLimit Deps.
From S2P Require Import BlobStorage Queue.

#[local] Open Scope morok_scope.

(** ** What an f-string shows of a JSON value *)

Definition single_quote : ascii := "039"%char.
Fixpoint has_char (c : ascii) (s : string) : bool :=
  match s with EmptyString => false | String c' s' => Ascii.eqb c c' || has_char c s' end.
Definition repr_char (quote c : ascii) : string :=
  let n := N_of_ascii c in
  if Ascii.eqb c quote || Ascii.eqb c backslash then String backslash (String c "")
  else if (n =? 9)%N then String backslash "t"
  else if (n =? 10)%N then String backslash "n"
  else if (n =? 13)%N then String backslash "r"
  else if (n <? 32)%N || (n =? 127)%N then String backslash ("x" +:+ hex_of_bytes (String c ""))
  else String c "".
Fixpoint repr_chars (quote : ascii) (s : string) : string :=
  match s with EmptyString => "" | String c s' => repr_char quote c +:+ repr_chars quote s' end.
(** In single quotes, unless the text has one of them and no double quote. *)
Definition repr_text (s : string) : string :=
  let quote := if has_char single_quote s && negb (has_char dquote s) then dquote else single_quote in
  String quote (repr_chars quote s +:+ String quote "").
Fixpoint py_repr (j : json) : string :=
  match j with
  | JNull => "None"
  | JBool b => if b then "True" else "False"
  | JNum n => print_Z n
  | JStr s => repr_text s
  | JArr l => "[" +:+ join ", " (map py_repr l) +:+ "]"
  | JObj d => "{" +:+ join ", " (map (fun kv => repr_text kv.1 +:+ ": " +:+ py_repr kv.2) d) +:+ "}"
  end.
Definition py_str (j : json) : string := match j with JStr s => s | _ => py_repr j end.

(** ** Connections *)

Definition WS_CLOSE_AUTH_FAILED : Z := 4001.
Definition WS_CLOSE_TOO_MANY_CONNECTIONS : Z := 4002.
Definition PING_INTERVAL_SECONDS : Z := 30.

(** The bounds on the query parameters. *)
Definition valid_query (token ticket : option string) : bool :=
  match token with Some t => (string_len t =? 64)%Z | None => true end
  && match ticket with Some t => (16 <=? string_len t)%Z && (string_len t <=? 64)%Z | None => true end.

Record Conn := mkConn { cn_pubkey_hex : string; cn_id : string; cn_token : option string; cn_via_ticket : bool }.

Inductive opening :=
| Closed (frames : list json) (code : Z) (reason : string)
| Opened (c : Conn) (catchup : json).

Inductive reaction :=
| Quiet
| Send (frame : json)
| CloseWith (code : Z) (reason : string)
| Stop.                                   (* the task is over *)

(** What comes in: on the channel, from the client, from the clock. *)
Inductive input := Published (raw : string) | Received (raw : string) | Tick.

Definition frame (type : string) (fields : dict) : json := JObj (("type", JStr type) :: fields).
Definition event_field (e : dict) (key : string) : string * json := (key, default JNull (dict_get key e)).
Definition text_is (t : string) (j : json) : bool := match j with JStr s => String.eqb s t | _ => false end.
Definition ws_active (pubkey_hex : string) : string := "morok:ws:active:" +:+ pubkey_hex.

(** What redis-py takes as a member: texts and numbers. *)
Definition member_of (j : json) : option string :=
  match j with JStr s => Some s | JNum n => Some (print_Z n) | _ => None end.

Section Inbox.
  Context `{Sha256} (rate_limit_enabled : bool) (ws_connections_per_pubkey : Z).

Definition _my_token_hash (c : Conn) : option string :=
  if cn_via_ticket c then None else sha256_hex <$> truthy (cn_token c).

(** ** The handshake *)

(** The key, and whether a ticket gave it. *)
Definition authenticate (token ticket : option string) : M (option (string * bool)) :=
  let! by_ticket := match truthy ticket with Some t => consume_ws_ticket t | None => ret None end in
  match by_ticket with
  | Some pubkey => ret (Some (pubkey, true))
  | None =>
      match truthy token with
      | Some t => let! session := verify_session_token t in ret ((fun s => (pubkey_hex s, false)) <$> session)
      | None => ret None
      end
  end.

(** Subscribing changes nothing that is modelled, and can fail. *)
Definition subscribe : M unit := redis_ (rret tt).

Definition mark_online (pubkey : string) : M unit :=
  try_except (let! _ := cmd_ (INCR (ws_active pubkey)) in cmd_ (EXPIRE (ws_active pubkey) 90)) (fun _ => ret tt).

Definition catchup_frame (envelopes : list json) : json :=
  frame "catchup" [("envelopes", JArr envelopes); ("count", JNum (Z.of_nat (length envelopes)))].

(** From the authenticated key on. *)
Definition greet (token : option string) (pubkey : string) (via_ticket : bool) : M opening :=
  let! connection_id := token_ in
  let! slot_ok := reserve_ws_slot rate_limit_enabled pubkey connection_id ws_connections_per_pubkey in
  if negb slot_ok then ret (Closed [] WS_CLOSE_TOO_MANY_CONNECTIONS "too_many_connections")
  else
    let! _ := mark_online pubkey in
    let! listed := try_except (let! envelopes := list_inbox pubkey 200 in ret (Some envelopes)) (fun _ => ret None) in
    match listed with
    | None => let! _ := release_ws_slot pubkey connection_id in ret (Closed [] 1011 "")
    | Some envelopes =>
        let catchup := catchup_frame envelopes in
        let! subscribed := try_except (let! _ := subscribe in ret true) (fun _ => ret false) in
        if negb subscribed then let! _ := release_ws_slot pubkey connection_id in ret (Closed [catchup] 1011 "")
        else ret (Opened (mkConn pubkey connection_id token via_ticket) catchup)
    end.

Definition open_socket (token ticket : option string) : M opening :=
  let! who := authenticate token ticket in
  match who with
  | None => ret (Closed [] WS_CLOSE_AUTH_FAILED "auth_failed")
  | Some (pubkey, via_ticket) => greet token pubkey via_ticket
  end.

(** ** The reader *)

(** The metadata of an envelope that is announced, when it is still there. *)
Definition announce (envelope_id : json) : M reaction :=
  let! env := get_envelope_meta (py_str envelope_id) in
  ret (match env with None | Some JNull => Quiet | Some env => Send (frame "new" [("envelope", env)]) end).

Definition on_event (c : Conn) (event : dict) (kind : json) : M reaction :=
  let field := event_field event in
  if text_is "new" kind then
    let envelope_id := default JNull (dict_get "envelope_id" event) in
    if negb (json_truthy envelope_id) then ret Quiet else announce envelope_id
  else if text_is "deleted" kind then ret (Send (frame "deleted" [field "envelope_id"; field "by"; field "group_id"]))
  else if text_is "read" kind then ret (Send (frame "read" [field "envelope_id"; field "reader"; field "group_id"]))
  else if text_is "group_gone" kind then ret (Send (frame "group_gone" [field "group_id"; field "by"]))
  else if text_is "session_revoked" kind then
    match default JNull (dict_get "token_hash" event) with
    | JNull => ret (CloseWith 4001 "session_revoked")
    | th => if match _my_token_hash c with Some h => text_is h th | None => false end
            then ret (CloseWith 4001 "session_revoked") else ret Quiet
    end
  else ret Quiet.

(** A message on the channel; an error ends the task. *)
Definition on_message (c : Conn) (raw : string) : M reaction :=
  try_except
    (match (if String.eqb (substring 0 1 raw) "{" then loads raw else None) with
     | Some (JObj ((_ :: _) as event)) =>
         match dict_get "kind" event with
         | Some kind => on_event c event kind
         | None => announce (JStr raw)
         end
     | _ => announce (JStr raw)
     end)
    (fun _ => ret Stop).

(** ** The writer *)

Definition error_frame (detail : string) : json := frame "error" [("detail", JStr detail)].

Definition on_text (c : Conn) (raw : string) : M reaction :=
  match loads raw with
  | None => ret (Send (error_frame "invalid_json"))
  | Some (JObj msg) =>
      let msg_type := default JNull (dict_get "type" msg) in
      if text_is "ack" msg_type then
        let envelope_id := default JNull (dict_get "envelope_id" msg) in
        if json_truthy envelope_id then
          match member_of envelope_id with
          | Some id => let! _ := acknowledge_envelope (cn_pubkey_hex c) id in ret Quiet
          | None => raise RedisError
          end
        else ret Quiet
      else if text_is "pong" msg_type then ret Quiet
      else ret (Send (error_frame ("unknown_message_type: " +:+ py_str msg_type)))
  | Some _ => raise AttributeError
  end.

(** ** The pinger *)

Definition on_tick (c : Conn) : M reaction :=
  let! still_alive :=
    if cn_via_ticket c then has_any_live_session (cn_pubkey_hex c) else is_session_alive (default "" (cn_token c)) in
  if negb still_alive then ret (CloseWith WS_CLOSE_AUTH_FAILED "session_expired")
  else
    let! _ := try_except (cmd_ (EXPIRE (ws_active (cn_pubkey_hex c)) 90)) (fun _ => ret tt) in
    let! _ := try_except (refresh_ws_slot (cn_pubkey_hex c) (cn_id c)) (fun _ => ret tt) in
    ret (Send (frame "ping" [])).

(** ** The life of a socket *)

(** An exception of a task ends it, and nobody sees the exception. *)
Definition react (c : Conn) (i : input) : M reaction :=
  try_except
    (match i with Published raw => on_message c raw | Received raw => on_text c raw | Tick => on_tick c end)
    (fun _ => ret Stop).

(** The frames, and the code with which a task closed the socket, if one did. *)
Fixpoint serve (c : Conn) (inputs : list input) : M (list json * option (Z * string)) :=
  match inputs with
  | [] => ret ([], None)
  | i :: inputs' =>
      let! r := react c i in
      match r with
      | Quiet => serve c inputs'
      | Send f => let! (fs, closed) := serve c inputs' in ret (f :: fs, closed)
      | CloseWith code reason => ret ([], Some (code, reason))
      | Stop => ret ([], None)
      end
  end.

Definition close_socket (c : Conn) : M unit :=
  let! _ := try_except subscribe (fun _ => ret tt) in
  let! _ := try_except
    (let! new_count := redis_ (rcall (DECR (ws_active (cn_pubkey_hex c))) as_int) in
     if (new_count <=? 0)%Z then cmd_ (DEL [ws_active (cn_pubkey_hex c)]) else ret tt)
    (fun _ => ret tt) in
  release_ws_slot (cn_pubkey_hex c) (cn_id c).

(** What the client gets: frames, and the close code when the server closed for a reason. *)
Definition inbox_socket (token ticket : option string) (inputs : list input) : M (list json * option (Z * string)) :=
  if negb (valid_query token ticket) then ret ([], Some (1008, "")%Z)
  else
    let! opened := open_socket token ticket in
    match opened with
    | Closed frames code reason => ret (frames, Some (code, reason))
    | Opened c catchup =>
        let! (frames, closed) := serve c inputs in
        let! _ := close_socket c in
        ret (catchup :: frames, closed)
    end.
End Inbox.
