(* ===== verification/Mail.v ===== *)
(** * Mail addresses and outgoing mail (api/mail.py)

    The addresses of an account ([create_alias] and what follows), mail between accounts, which is
    put into the inbox of the owner of an address ([send_internal]), and the queue of mail to the
    outside ([_queue_external]), which a worker on another host claims and reports on.  A body is a
    JSON object, and what it has is turned into text by [str].  The advisory lock of the daily limit
    and the row locks of a claim make a handler one run; texts have no zero byte, which PostgreSQL
    refuses. *)

From Stdlib Require Import Ascii String.
From stdpp Require Import prelude gmap strings list.
From S2P Require Import Prelude Json Codec RedisStore Models Effects Crypto Config Sessions RateLimit Deps.
From S2P Require Import BlobStorage Queue Messages Users Inbox.

#[local] Open Scope morok_scope.

(** The settings for mail (config.py). *)
Record MailSettings := mkMailSettings {
  mail_domain : string;
  mail_max_bytes : Z;
  mail_rl_per_ip : Z;
  mail_alias_start : Z;
  mail_alias_per_month : Z;
  mail_alias_cap : Z;
  mail_admin_pubkey_hex : string;
  mail_out_token : string;
  mail_out_user_daily : Z
}.

(** ** Addresses *)

Definition alias_edge (c : ascii) : bool :=
  let n := N_of_ascii c in (97 <=? n)%N && (n <=? 122)%N || (48 <=? n)%N && (n <=? 57)%N.
Definition alias_inner (c : ascii) : bool := alias_edge c || Ascii.eqb c "." || Ascii.eqb c "-".
Definition edge_at (i : nat) (s : string) : bool :=
  match String.get i s with Some c => alias_edge c | None => false end.
(** [_ALIAS_RE.fullmatch] *)
Definition _ALIAS_RE (s : string) : bool :=
  (3 <=? string_len s)%Z && (string_len s <=? 64)%Z && string_forallb alias_inner s
  && edge_at 0 s && edge_at (String.length s - 1) s.
Definition has_double_dot (s : string) : bool :=
  match String.index 0 ".." s with Some _ => true | None => false end.

Definition RESERVED : list string :=
  ["postmaster"; "abuse"; "admin"; "administrator"; "hostmaster"; "webmaster"; "root"; "security"; "noc"; "support";
   "info"; "no-reply"; "noreply"; "mailer-daemon"; "help"; "billing"; "morok"; "mail"; "smtp"; "mx"].
Definition _WORDS : list string := split_on " "
  ("amber ash aspen birch brook cedar cliff cloud coral crane dawn dune " +:+
   "ember fern flint fog frost glade grove hazel heron iris ivy lark " +:+
   "lichen lily lotus maple marsh mist moss oak onyx opal otter pine " +:+
   "quail raven reef sable sage slate sparrow spruce stone swan thorn " +:+
   "tide vale willow wren").

(** [secrets.randbelow(n)]: a random text, read as a number below [n]. *)
Fixpoint number_of (s : string) : N :=
  match s with EmptyString => 0 | String c s' => (N_of_ascii c + 256 * number_of s')%N end.
Definition randbelow (n : nat) : M nat :=
  let! t := token_ in ret (N.to_nat (number_of t mod N.of_nat n)).
Definition choice (l : list string) : M string := let! i := randbelow (length l) in ret (nth i l "").
(** [f"{n:03d}"] of a number below a thousand. *)
Definition pad3 (n : nat) : string :=
  (if (n <? 10)%nat then "00" else if (n <? 100)%nat then "0" else "") +:+ print_Z (Z.of_nat n).
Definition _random_alias : M string :=
  let! a := choice _WORDS in
  let! b := choice _WORDS in
  let! n := randbelow 1000 in
  ret (a +:+ "-" +:+ b +:+ "-" +:+ pad3 n).

Definition has_alias (alias : string) (a : MailAlias) : bool := String.eqb (ma_alias a) alias.
Definition owned_by (pubkey : string) (a : MailAlias) : bool := String.eqb (ma_owner_pubkey a) pubkey.
Definition alive (a : MailAlias) : bool := bool_decide (ma_status a <> DEAD).
Definition counts_for_quota (a : MailAlias) : bool := negb (ma_is_primary a) && alive a.
Definition select_alias (p : MailAlias -> bool) : M (option MailAlias) :=
  sql (fun db => (select_one p (t_aliases db), db)).
Definition insert_alias (a : MailAlias) : M bool :=
  sql (fun db => if existsb (has_alias (ma_alias a)) (t_aliases db) then (false, db)
                 else (true, set_aliases (t_aliases db ++ [a]) db)).
Definition update_alias (alias : string) (f : MailAlias -> MailAlias) : M unit :=
  sql (fun db => (tt, set_aliases (snd (update_where (has_alias alias) f (t_aliases db))) db)).

Definition with_status (st : AliasStatus) (a : MailAlias) : MailAlias :=
  mkAlias (ma_alias a) (ma_owner_pubkey a) st (ma_is_primary a) (ma_label a) (ma_created_at a) (ma_received_count a).
Definition with_label (l : option string) (a : MailAlias) : MailAlias :=
  mkAlias (ma_alias a) (ma_owner_pubkey a) (ma_status a) (ma_is_primary a) l (ma_created_at a) (ma_received_count a).
Definition received (a : MailAlias) : MailAlias :=
  mkAlias (ma_alias a) (ma_owner_pubkey a) (ma_status a) (ma_is_primary a) (ma_label a) (ma_created_at a) (ma_received_count a + 1).

(** [str(body.get(key) or dflt)] *)
Definition field_or (key dflt : string) (body : dict) : string :=
  match dict_get key body with Some j => if json_truthy j then py_str j else dflt | None => dflt end.
(** [s.strip()[:n] or None] *)
Definition cut (n : nat) (s : string) : option string := truthy (Some (substring 0 n (strip s))).

Definition address (alias domain : string) : string := alias +:+ "@" +:+ domain.
Record AliasCreated := mkAliasCreated { al_alias : string; al_address : string; al_primary : bool; al_label : option string }.
Record AliasInfo := mkAliasInfo {
  ai_alias : string; ai_address : string; ai_status : AliasStatus; ai_primary : bool; ai_label : option string;
  ai_received : Z; ai_created_at : Z
}.

Section Mail.
  Context `{Sha256} (s : Settings) (ms : MailSettings).

Definition alias_quota (account_created_at now : Z) : Z :=
  let months := Z.max 0 ((now - account_created_at) / (30 * 86400)) in
  Z.min (mail_alias_cap ms) (mail_alias_start ms + months * mail_alias_per_month ms).

(** The name that is asked for. *)
Definition wanted_alias (want_primary : bool) (raw : json) (pubkey : string) : M string :=
  if want_primary then
    let! acc := select_user (Users.has_key pubkey) in
    match truthy (acc ≫= u_username) with
    | None => http 409 "Спершу займіть @username у месенджері — він стане вашою адресою"
    | Some acc_username =>
        let alias := lower acc_username in
        if negb (_ALIAS_RE alias) then http 409 "Ваш username не підходить для email-адреси" else ret alias
    end
  else
    match raw with
    | JNull => _random_alias
    | raw =>
        let alias := lower (strip (py_str raw)) in
        if negb (_ALIAS_RE alias) || has_double_dot alias then
          http 422 "Аліас: 3–64 символи, малі латинські, цифри, дефіс, крапка"
        else if bool_decide (alias ∈ RESERVED) then http 409 "Цей аліас зарезервовано"
        else
          let! owner_of_name := select_user (fun u => bool_decide (u_username u = Some alias)) in
          match owner_of_name with
          | Some u => if String.eqb (u_pubkey u) pubkey then ret alias
                      else http 409 "Це ім'я належить іншому користувачу в Morok"
          | None => ret alias
          end
    end.

(** Whether the account may have one more. *)
Definition alias_allowed (want_primary : bool) (pubkey : string) : M unit :=
  let! mine := sql (fun db => (List.filter (owned_by pubkey) (t_aliases db), db)) in
  let has_primary := existsb (fun a => ma_is_primary a && alive a) mine in
  let non_primary_alive := Z.of_nat (length (List.filter counts_for_quota mine)) in
  if want_primary && has_primary then http 409 "Основна адреса вже існує"
  else if want_primary then ret tt
  else
    let! acc := select_user (Users.has_key pubkey) in
    match acc with
    | None => http 403 "Акаунт не знайдено"
    | Some acc =>
        let! now := now_ in
        let quota := alias_quota (u_created_at acc) now in
        if (quota <=? non_primary_alive)%Z
        then http 429 ("Ліміт аліасів: " +:+ print_Z quota +:+ ". Новий слот — з часом (+1/місяць) або з преміумом.")
        else ret tt
    end.

(** One more try when the name was not asked for. *)
Definition free_alias (raw : json) (alias : string) : M string :=
  let! exists_ := select_alias (has_alias alias) in
  match exists_ with
  | None => ret alias
  | Some _ =>
      match raw with
      | JNull =>
          let! alias := _random_alias in
          let! exists_ := select_alias (has_alias alias) in
          match exists_ with None => ret alias | Some _ => http 409 "Адреса зайнята" end
      | _ => http 409 "Адреса зайнята"
      end
  end.

Definition create_alias (body : dict) (session : Session) : M AliasCreated :=
  let! pubkey := fromhex_ (pubkey_hex session) in
  let want_primary := json_truthy (default (JBool false) (dict_get "primary" body)) in
  let raw := default JNull (dict_get "alias" body) in
  let! alias := wanted_alias want_primary raw pubkey in
  let! _ := alias_allowed want_primary pubkey in
  let! alias := free_alias raw alias in
  let label := cut 64 (field_or "label" "" body) in
  let! now := now_ in                                 (* the default of the column *)
  let! inserted := insert_alias (mkAlias alias pubkey ACTIVE want_primary label now 0) in
  if negb inserted then let! _ := rollback in http 409 "Адреса зайнята"
  else let! _ := commit in ret (mkAliasCreated alias (address alias (mail_domain ms)) want_primary label).

(** The quota, how much of it is used, and the addresses. *)
Definition list_aliases (session : Session) : M (Z * Z * list AliasInfo) :=
  let! pubkey := fromhex_ (pubkey_hex session) in
  let! rows := sql (fun db =>
    (order_by (fun a => if ma_is_primary a then 0 else 1)%Z
       (order_by ma_created_at (List.filter (owned_by pubkey) (t_aliases db))), db)) in
  let! acc := select_user (Users.has_key pubkey) in
  let! quota :=
    match acc with
    | Some acc => if (u_created_at acc =? 0)%Z then ret 0%Z else let! now := now_ in ret (alias_quota (u_created_at acc) now)
    | None => ret 0%Z
    end in
  ret (quota, Z.of_nat (length (List.filter counts_for_quota rows)),
       map (fun a => mkAliasInfo (ma_alias a) (address (ma_alias a) (mail_domain ms)) (ma_status a) (ma_is_primary a) (ma_label a)
                       (ma_received_count a) (ma_created_at a)) rows).

Definition _get_own_alias (pubkey alias : string) : M MailAlias :=
  let! row := select_alias (fun a => has_alias (lower alias) a && owned_by pubkey a) in
  match row with None => http 404 "Аліас не знайдено" | Some row => ret row end.

Definition pause_alias (alias : string) (session : Session) : M string :=
  let! pubkey := fromhex_ (pubkey_hex session) in
  let! row := _get_own_alias pubkey alias in
  if bool_decide (ma_status row = DEAD) then http 409 "Аліас уже вбито"
  else
    let! _ := update_alias (ma_alias row) (with_status PAUSED) in
    let! _ := commit in
    ret (ma_alias row).

Definition resume_alias (alias : string) (session : Session) : M string :=
  let! pubkey := fromhex_ (pubkey_hex session) in
  let! row := _get_own_alias pubkey alias in
  if bool_decide (ma_status row = DEAD) then http 409 "Мертвий аліас не відновлюється"
  else
    let! _ := update_alias (ma_alias row) (with_status ACTIVE) in
    let! _ := commit in
    ret (ma_alias row).

Definition set_alias_label (alias : string) (body : dict) (session : Session) : M (string * option string) :=
  let! pubkey := fromhex_ (pubkey_hex session) in
  let! row := _get_own_alias pubkey alias in
  let label := cut 64 (field_or "label" "" body) in
  let! _ := update_alias (ma_alias row) (with_label label) in
  let! _ := commit in
  ret (ma_alias row, label).

Definition kill_alias (alias : string) (session : Session) : M string :=
  let! pubkey := fromhex_ (pubkey_hex session) in
  let! row := _get_own_alias pubkey alias in
  if ma_is_primary row then http 409 "Основну адресу не можна вбити"
  else
    let! _ := update_alias (ma_alias row) (with_status DEAD) in
    let! _ := commit in
    ret (ma_alias row).

(** ** Mail between accounts *)

Definition active_alias (alias : string) (a : MailAlias) : bool := has_alias alias a && bool_decide (ma_status a = ACTIVE).
Definition own_active (alias pubkey : string) (a : MailAlias) : bool := active_alias alias a && owned_by pubkey a.

(** The name and the owner's key. *)
Definition resolve_alias (alias : string) : M (string * string) :=
  let a := lower (strip alias) in
  let! row := select_alias (has_alias a) in
  match row with
  | None => http 404 "Адресу не знайдено або вона не приймає пошту"
  | Some row =>
      if negb (bool_decide (ma_status row = ACTIVE)) then http 404 "Адресу не знайдено або вона не приймає пошту"
      else ret (a, hex_of_bytes (ma_owner_pubkey row))
  end.

Inductive MailSent := SentMail | DuplicateMail | QueuedMail (ref : string).

(** [s.rsplit("@", 1)], of a text with an [@]. *)
Definition rsplit_at (t : string) : string * string :=
  let parts := split_on "@" t in (join "@" (removelast parts), List.last parts "").
Definition has_at (t : string) : bool := match String.index 0 "@" t with Some _ => true | None => false end.

Definition mail_args (envelope_id recipient from_alias : string) (now : Z) : enqueue_args :=
  EnqueueArgs envelope_id "" recipient now (mail_ttl_seconds s) "" (mail_ttl_seconds s) None false None
    (Some "mail") (truthy (Some from_alias)) (Some "internal") None.

(** From the name of this relay on. *)
Definition deliver_internal (body : dict) (pubkey to_alias : string) : M MailSent :=
  let blob_b64 := default JNull (dict_get "blob_b64" body) in
  let from_alias := lower (strip (field_or "from_alias" "" body)) in
  if String.eqb to_alias "" || negb (json_truthy blob_b64) then http 422 "to_alias і blob_b64 обовʼязкові"
  else
    let! row := select_alias (has_alias to_alias) in
    match row with
    | None => http 404 "Адресу не знайдено або вона не приймає пошту"
    | Some row =>
        if negb (bool_decide (ma_status row = ACTIVE)) then http 404 "Адресу не знайдено або вона не приймає пошту"
        else
          let! own := if String.eqb from_alias "" then ret true
                      else let! own := select_alias (own_active from_alias pubkey) in
                           ret (match own with Some _ => true | None => false end) in
          if negb own then http 403 "Адреса «від» не належить вам або неактивна"
          else
            match b64_of blob_b64 with
            | None => http 422 "blob_b64 не є валідним base64"
            | Some blob =>
                if (mail_max_bytes ms <? string_len blob)%Z then http 413 "Лист завеликий"
                else
                  let! id := token_ in
                  let! now := now_ in
                  let recipient := hex_of_bytes (ma_owner_pubkey row) in
                  let! expires := write_blob_then_enqueue (mail_args (hex_of_bytes id) recipient from_alias now) blob in
                  let! _ := update_alias to_alias received in
                  let! _ := commit in
                  match expires with
                  | None => ret DuplicateMail
                  | Some _ => let! _ := spawn (TPush [recipient]) in ret SentMail
                  end
            end
    end.

(** ** Mail to the outside *)

Definition address_char (c : ascii) : bool := negb (Ascii.eqb c "@") && negb (is_py_space c).
(** [_EXT_ADDR_RE.fullmatch] *)
Definition _EXT_ADDR_RE (addr : string) : bool :=
  match split_on "@" addr with
  | [local; dom] =>
      string_forallb address_char local && string_forallb address_char dom && negb (String.eqb local "")
      && match String.index 1 "." dom with Some i => (S i <? String.length dom)%nat | None => false end
  | _ => false
  end.

(** The attachments as they are kept; [total] counts their base64 characters. *)
Fixpoint clean_attachments (total : Z) (atts : list json) : M (list json) :=
  match atts with
  | [] => ret []
  | JObj a :: atts' =>
      let b64 := field_or "b64" "" a in
      let fn := substring 0 255 (field_or "filename" "file" a) in
      let ct := substring 0 100 (field_or "content_type" "application/octet-stream" a) in
      let total := (total + string_len b64)%Z in
      if (6 * 1024 * 1024 <? total)%Z then http 413 "Вкладення завеликі (сумарно до ~4.5MB)"
      else
        let! clean := clean_attachments total atts' in
        ret (JObj [("filename", JStr fn); ("content_type", JStr ct); ("b64", JStr b64)] :: clean)
  | _ :: _ => raise AttributeError
  end.

Definition sent_since (pubkey : string) (threshold : Z) (r : MailOutbound) : bool :=
  String.eqb (mo_owner_pubkey r) pubkey && (threshold <? mo_created_at r)%Z.
Definition count_sent (pubkey : string) (threshold : Z) : M Z :=
  sql (fun db => (Z.of_nat (length (List.filter (sent_since pubkey threshold) (t_outbound db))), db)).

(** The id is the primary key. *)
Definition insert_outbound (r : MailOutbound) : M unit :=
  let! ok := sql (fun db => if existsb (fun r' => String.eqb (mo_id r') (mo_id r)) (t_outbound db) then (false, db)
                            else (true, set_outbound (t_outbound db ++ [r]) db)) in
  if (ok : bool) then ret tt else raise IntegrityError.

Definition _queue_external (body : dict) (pubkey to_addr : string) : M MailSent :=
  if negb (_EXT_ADDR_RE to_addr) || (255 <? string_len to_addr)%Z then http 422 "Некоректна адреса отримувача"
  else
    let from_alias := lower (strip (field_or "from_alias" "" body)) in
    if String.eqb from_alias "" then http 422 "Для зовнішніх листів потрібна адреса «від»"
    else
      let! own := select_alias (own_active from_alias pubkey) in
      match own with
      | None => http 403 "Адреса «від» не належить вам або неактивна"
      | Some _ =>
          let subject := cut 998 (field_or "subject" "" body) in
          let text := field_or "text" "" body in
          if String.eqb (strip text) "" then http 422 "Порожній лист"
          else if (mail_max_bytes ms <? string_len text)%Z then http 413 "Лист завеликий"
          else
            match (match dict_get "attachments" body with Some j => if json_truthy j then j else JArr [] | None => JArr [] end) with
            | JArr atts =>
                if (5 <? length atts)%nat then http 422 "Забагато вкладень (максимум 5)"
                else
                  let! clean_atts := clean_attachments 0 atts in
                  let! now := now_ in
                  let! sent_today := count_sent pubkey (now - 86400) in
                  if (mail_out_user_daily ms <=? sent_today)%Z then http 429 "Добовий ліміт вихідних листів вичерпано"
                  else
                    let! id := token_ in
                    let row := mkOutbound id pubkey from_alias to_addr subject (Some text)
                                 (match clean_atts with [] => None | _ => Some (dumps (JArr clean_atts)) end)
                                 (cut 256 (field_or "in_reply_to" "" body)) (cut 2048 (field_or "references" "" body))
                                 QUEUED 0 None now now in
                    let! _ := insert_outbound row in
                    let! _ := commit in
                    ret (QueuedMail (uuid_to_string id))
            | _ => http 422 "Забагато вкладень (максимум 5)"
            end
      end.

Definition send_internal (body : dict) (session : Session) : M MailSent :=
  let! pubkey := fromhex_ (pubkey_hex session) in
  let to_alias := lower (strip (py_str (default (JStr "") (dict_get "to_alias" body)))) in
  if has_at to_alias then
    let (local, dom) := rsplit_at to_alias in
    if negb (String.eqb dom (mail_domain ms)) then _queue_external body pubkey to_alias
    else deliver_internal body pubkey local
  else deliver_internal body pubkey to_alias.

(** ** The worker's endpoints *)

Definition _check_worker_token (x_mailout_token : option string) : M unit :=
  if String.eqb (mail_out_token ms) "" || negb (bool_decide (x_mailout_token = Some (mail_out_token ms)))
  then http 401 "bad worker token" else ret tt.

(** [int(j)] *)
Definition int_ (j : json) : M Z :=
  match j with
  | JNull | JArr _ | JObj _ => raise TypeError
  | _ => match int_of j with Some n => ret n | None => raise (ValueError "int") end
  end.

(** A mail whose text is gone. *)
Definition erased_mail (st : OutboundStatus) (err : option string) (now : Z) (r : MailOutbound) : MailOutbound :=
  mkOutbound (mo_id r) (mo_owner_pubkey r) (mo_from_alias r) (mo_to_addr r) None None None (mo_in_reply_to r)
    (mo_references_hdr r) st (mo_attempts r) err (mo_created_at r) now.
Definition sending (now : Z) (r : MailOutbound) : MailOutbound :=
  mkOutbound (mo_id r) (mo_owner_pubkey r) (mo_from_alias r) (mo_to_addr r) (mo_subject r) (mo_body_text r)
    (mo_attachments_json r) (mo_in_reply_to r) (mo_references_hdr r) SENDING (mo_attempts r + 1) (mo_last_error r)
    (mo_created_at r) now.
Definition requeued (err : string) (now : Z) (r : MailOutbound) : MailOutbound :=
  mkOutbound (mo_id r) (mo_owner_pubkey r) (mo_from_alias r) (mo_to_addr r) (mo_subject r) (mo_body_text r)
    (mo_attachments_json r) (mo_in_reply_to r) (mo_references_hdr r) QUEUED (mo_attempts r) (Some err)
    (mo_created_at r) now.

Record MailJob := mkMailJob {
  mj_id : string; mj_from_addr : string; mj_to_addr : string; mj_subject : string; mj_text : string; mj_attachments : json;
  mj_in_reply_to : string; mj_references : string
}.
Definition mail_job (r : MailOutbound) : M MailJob :=
  let! attachments :=
    match truthy (mo_attachments_json r) with
    | None => ret (JArr [])
    | Some t => match loads t with Some j => ret j | None => raise (ValueError "json") end
    end in
  ret (mkMailJob (uuid_to_string (mo_id r)) (address (mo_from_alias r) (mail_domain ms)) (mo_to_addr r)
         (default "" (mo_subject r)) (default "" (mo_body_text r)) attachments (default "" (mo_in_reply_to r))
         (default "" (mo_references_hdr r))).
Fixpoint mail_jobs (rows : list MailOutbound) : M (list MailJob) :=
  match rows with [] => ret [] | r :: rows' => let! j := mail_job r in let! js := mail_jobs rows' in ret (j :: js) end.

Definition is_queued (r : MailOutbound) : bool := bool_decide (mo_status r = QUEUED).
Definition stale (now : Z) (r : MailOutbound) : bool := is_queued r && (mo_created_at r <? now - 172800)%Z.
Definition one_of (rows : list MailOutbound) (r : MailOutbound) : bool := bool_decide (mo_id r ∈ map mo_id rows).
Definition update_outbound (p : MailOutbound -> bool) (f : MailOutbound -> MailOutbound) : M unit :=
  sql (fun db => (tt, set_outbound (snd (update_where p f (t_outbound db))) db)).

Definition outbound_claim (body : dict) (x_mailout_token : option string) : M (list MailJob) :=
  let! _ := _check_worker_token x_mailout_token in
  let! n := int_ (default (JNum 5) (dict_get "limit" body)) in
  let limit := Z.min n 20 in
  let! now := now_ in
  let! expired := sql (fun db => (List.filter (stale now) (t_outbound db), db)) in
  let! _ := update_outbound (one_of expired) (erased_mail FAILED (Some "expired in queue") now) in
  if (limit <? 0)%Z then raise DataError                (* LIMIT must not be negative *)
  else
    let! rows := sql (fun db =>
      (take (Z.to_nat limit) (order_by mo_created_at (List.filter is_queued (t_outbound db))), db)) in
    let! out := mail_jobs rows in
    let! _ := update_outbound (one_of rows) (sending now) in
    let! _ := commit in
    ret out.

(** What a report makes of a row; [again]: it is to be tried again. *)
Definition reported (ok again : bool) (err : string) (now : Z) (r : MailOutbound) : MailOutbound :=
  if ok then erased_mail DELIVERED (mo_last_error r) now r
  else if again then requeued err now r
  else erased_mail FAILED (Some err) now r.

Definition outbound_report (body : dict) (x_mailout_token : option string) : M bool :=
  let! _ := _check_worker_token x_mailout_token in
  let ok := json_truthy (default JNull (dict_get "ok" body)) in
  let err := substring 0 500 (field_or "error" "" body) in
  let retry := json_truthy (default JNull (dict_get "retry" body)) in
  match uuid_of_string (field_or "id" "" body) with
  | None => raise (ValueError "uuid")
  | Some job_id =>
      let! row := sql (fun db => (select_one (fun r => String.eqb (mo_id r) job_id) (t_outbound db), db)) in
      match row with
      | None => http 404 "job not found"
      | Some row =>
          let! now := now_ in
          let! _ := update_outbound (fun r => String.eqb (mo_id r) (mo_id row))
                         (reported ok (retry && (mo_attempts row <? 5)%Z) err now) in
          let! _ := commit in
          ret true
      end
  end.

Record OutboundInfo := mkOutboundInfo {
  oi_ref : string; oi_to : string; oi_status : OutboundStatus; oi_error : option string; oi_ts : Z
}.
Definition outbound_status (session : Session) : M (list OutboundInfo) :=
  let! pubkey := fromhex_ (pubkey_hex session) in
  let! rows := sql (fun db =>
    (take 50 (order_by (fun r => - mo_created_at r)%Z
       (List.filter (fun r => String.eqb (mo_owner_pubkey r) pubkey) (t_outbound db))), db)) in
  ret (map (fun r => mkOutboundInfo (uuid_to_string (mo_id r)) (mo_to_addr r) (mo_status r) (mo_last_error r) (mo_created_at r)) rows).
End Mail.
