(* ===== verification/Push.v ===== *)
(** * Push notifications (api/push.py, push_sender.py)

    The subscriptions of an account, and what becomes of a notification: who gets one, which
    subscriptions it goes to, and which of them are given up.  What the push services answer is an
    argument ([Transport]), as is the check of hosts in brackets, which the standard library makes
    with its ipaddress module; text of addresses is ASCII. *)

From Stdlib Require Import Ascii String.
From stdpp Require Import prelude gmap strings list.
From S2P Require Import Prelude Json Codec RedisStore Models Effects Crypto Config Sessions RateLimit Deps.
From S2P Require Import BlobStorage Account.

#[local] Open Scope morok_scope.

(** ** The address of a subscription *)

Definition scheme_char (c : ascii) : bool := is_alnum c || char_in "+-." c.
Definition c0_or_space (c : ascii) : bool := (N_of_ascii c <=? 32)%N.
Definition unsafe_char (c : ascii) : bool := let n := N_of_ascii c in (n =? 9)%N || (n =? 10)%N || (n =? 13)%N.

(** [urlsplit(v)] as far as scheme and host; [None]: a ValueError. *)
Definition urlsplit (bracketed_ok : string -> bool) (v : string) : option (string * string) :=
  let url := filter_chars (fun c => negb (unsafe_char c)) (lstrip_chars c0_or_space v) in
  let head := before (is_char ":") url in
  let has_scheme := char_in url ":" && match head with String c _ => is_alpha c | EmptyString => false end
                    && string_forallb scheme_char head in
  let scheme := if has_scheme then lower head else "" in
  let rest := if has_scheme then after (is_char ":") url else url in
  if String.eqb (substring 0 2 rest) "//" then
    let netloc := before (char_in "/?#") (substring 2 (String.length rest) rest) in
    let open_ := char_in netloc "[" in
    let close := char_in netloc "]" in
    if xorb open_ close then None
    else if open_ && negb (bracketed_ok netloc) then None
    else
      let hostinfo := List.last (split_on "@" netloc) "" in
      let hostname := if char_in hostinfo "[" then before (is_char "]") (after (is_char "[") hostinfo)
                      else before (is_char ":") hostinfo in
      Some (scheme, hostname)
  else Some (scheme, "").

Definition _ALLOWED_PUSH_HOST_SUFFIXES : list string :=
  [".push.services.mozilla.com"; ".notify.windows.com"; "fcm.googleapis.com"; "android.googleapis.com"; "web.push.apple.com"].
Definition _endpoint_must_be_known_push_provider (bracketed_ok : string -> bool) (v : string) : bool :=
  match urlsplit bracketed_ok v with
  | None => false
  | Some (scheme, hostname) =>
      String.eqb scheme "https" && negb (String.eqb hostname "")
      && existsb (fun suf => String.eqb (lower hostname) (lstrip_chars (is_char ".") suf) || ends_with suf (lower hostname))
           _ALLOWED_PUSH_HOST_SUFFIXES
  end.

Record PushSubscribeRequest := mkPushSubscribe {
  pr_endpoint : string; pr_p256dh : string; pr_auth : string; pr_user_agent : option string
}.
Definition len_between (lo hi : Z) (s : string) : bool := (lo <=? string_len s)%Z && (string_len s <=? hi)%Z.
Definition valid_PushSubscribeRequest (bracketed_ok : string -> bool) (b : PushSubscribeRequest) : bool :=
  len_between 1 4096 (pr_endpoint b) && _endpoint_must_be_known_push_provider bracketed_ok (pr_endpoint b)
  && len_between 1 255 (pr_p256dh b) && len_between 1 255 (pr_auth b)
  && match pr_user_agent b with Some u => len_between 0 255 u | None => true end.

(** Of both requests with a device token. *)
Definition valid_native (token : string) (user_agent : option string) : bool :=
  len_between 10 4096 token && match user_agent with Some u => len_between 0 255 u | None => true end.

(** ** Subscriptions *)

Definition MAX_PUSH_SUBSCRIPTIONS_PER_ACCOUNT : Z := 10.

Definition push_of (pubkey endpoint : string) (p : PushSubscription) : bool :=
  String.eqb (ps_pubkey p) pubkey && String.eqb (ps_endpoint p) endpoint.
Definition _count_push_subscriptions (pubkey : string) : M Z :=
  sql (fun db => (Z.of_nat (length (List.filter (fun p => String.eqb (ps_pubkey p) pubkey) (t_push db))), db)).
Definition select_push (pubkey endpoint : string) : M (option PushSubscription) :=
  sql (fun db => (select_one (push_of pubkey endpoint) (t_push db), db)).
Definition update_push (p : PushSubscription -> bool) (f : PushSubscription -> PushSubscription) : M unit :=
  sql (fun db => (tt, set_push (snd (update_where p f (t_push db))) db)).
(** The pair of key and address is unique. *)
Definition insert_push (r : PushSubscription) : M unit :=
  let! ok := sql (fun db => if existsb (push_of (ps_pubkey r) (ps_endpoint r)) (t_push db) then (false, db)
                            else (true, set_push (t_push db ++ [r]) db)) in
  if (ok : bool) then ret tt else raise IntegrityError.
Definition delete_push (pubkey endpoint : string) : M Z :=
  sql (fun db => let '(n, t) := delete_where (push_of pubkey endpoint) (t_push db) in (n, set_push t db)).

Definition refreshed_push (body : PushSubscribeRequest) (now : Z) (p : PushSubscription) : PushSubscription :=
  mkPush (ps_pubkey p) (ps_endpoint p) (pr_p256dh body) (pr_auth body) (ps_platform p)
    (match truthy (pr_user_agent body) with Some u => Some (substring 0 255 u) | None => ps_user_agent p end)
    (ps_created_at p) now (ps_last_used_at p).
Definition as_native (user_agent : option string) (now : Z) (p : PushSubscription) : PushSubscription :=
  mkPush (ps_pubkey p) (ps_endpoint p) (ps_p256dh p) (ps_auth p) "fcm" user_agent (ps_created_at p) now (ps_last_used_at p).

(** One more for the account, if it may have one more. *)
Definition add_subscription (pubkey : string) (row : PushSubscription) : M unit :=
  let! count := _count_push_subscriptions pubkey in
  if (MAX_PUSH_SUBSCRIPTIONS_PER_ACCOUNT <=? count)%Z then http 409 "too_many_push_subscriptions" else insert_push row.

Section Endpoints.
  Context (vapid_public_key_b64 : string) (enabled : bool) (l : LocalFallbackLimiter).

Definition get_vapid_public_key : M string :=
  if String.eqb vapid_public_key_b64 "" then http 503 "push_not_configured" else ret vapid_public_key_b64.

(** The buckets are not critical, so the reserve in the process stays as it is. *)
Definition limited (bucket identifier : string) : M unit :=
  let! (v, _) := check_rate_limit enabled l bucket identifier 10 in
  if negb (v_allowed v) then http 429 "rate_limited" else ret tt.

(** Whether it is a new one. *)
Definition post_subscribe (body : PushSubscribeRequest) (current : Session) : M bool :=
  if String.eqb vapid_public_key_b64 "" then http 503 "push_not_configured"
  else
    let! _ := limited "push_subscribe" (pubkey_hex current) in
    let! pubkey := fromhex_ (pubkey_hex current) in
    let! now := now_ in
    let! existing := select_push pubkey (pr_endpoint body) in
    match existing with
    | Some _ => let! _ := update_push (push_of pubkey (pr_endpoint body)) (refreshed_push body now) in ret false
    | None =>
        let user_agent := substring 0 255 <$> truthy (pr_user_agent body) in
        let! _ := add_subscription pubkey
          (mkPush pubkey (pr_endpoint body) (pr_p256dh body) (pr_auth body) "webpush" user_agent now now None) in
        ret true
    end.

Definition post_unsubscribe (endpoint : string) (current : Session) : M Z :=
  let! pubkey := fromhex_ (pubkey_hex current) in
  delete_push pubkey endpoint.

(** The times of a new row are those of the database. *)
Definition post_subscribe_native (token : string) (user_agent : option string) (current : Session) : M unit :=
  let! _ := limited "push_subscribe_native" (pubkey_hex current) in
  let! pubkey := fromhex_ (pubkey_hex current) in
  let! now := now_ in
  let! existing := select_push pubkey token in
  match existing with
  | Some _ => update_push (push_of pubkey token) (as_native user_agent now)
  | None => add_subscription pubkey (mkPush pubkey token "" "" "fcm" user_agent now now None)
  end.

Definition post_unsubscribe_native (token : string) (current : Session) : M unit :=
  let! pubkey := fromhex_ (pubkey_hex current) in
  let! _ := delete_push pubkey token in
  ret tt.
End Endpoints.

(** ** Sending *)

Inductive sent := SentOk | SentGone | SentError.

(** What comes of a request to a push service: a status with a text, or an error without one. *)
Inductive outcome := Status (code : Z) (text : string) | NoResponse.

Class Transport := {
  webpush : string -> string -> string -> string -> outcome;   (* endpoint, p256dh, auth, payload *)
  fcm_send : string -> outcome                                  (* device token *)
}.

Section Sending.
  Context `{Transport}.

(** pywebpush raises on every status above 202.  The response of the exception is one of the requests
    package, which counts as false from status 400 on, so its status is then not looked at. *)
Definition status_of_error (code : Z) : option Z := if (code <? 400)%Z then Some code else None.
Definition _send_blocking (row : PushSubscription) (payload : string) : sent :=
  match webpush (ps_endpoint row) (ps_p256dh row) (ps_auth row) payload with
  | Status code _ =>
      if (code <=? 202)%Z then SentOk
      else if bool_decide (status_of_error code = Some 404%Z) || bool_decide (status_of_error code = Some 410%Z) then SentGone
      else SentError
  | NoResponse => SentError
  end.
Definition _send_fcm_blocking (fcm_ready : bool) (token : string) : sent :=
  if negb fcm_ready then SentError
  else
    match fcm_send token with
    | Status code body =>
        if (code =? 200)%Z then SentOk
        else if ((code =? 400)%Z || (code =? 404)%Z)
                && (contains "UNREGISTERED" body || contains "INVALID_ARGUMENT" body || (code =? 404)%Z) then SentGone
        else SentError
    | NoResponse => SentError
    end.

(** What is done with a subscription; [None]: its way of sending is switched off. *)
Definition send_one (webpush_ready fcm_ready : bool) (payload : string) (row : PushSubscription) : option sent :=
  if String.eqb (ps_platform row) "fcm" then
    if fcm_ready then Some (_send_fcm_blocking fcm_ready (ps_endpoint row)) else None
  else if webpush_ready then Some (_send_blocking row payload) else None.

(** Who has no socket open, as far as the counter says. *)
Definition is_offline (pubkey_hex : string) : M bool :=
  let! count_raw := try_except (redis_ (rcall (GET (ws_active_key pubkey_hex)) as_bulk)) (fun _ => ret None) in
  ret (match count_raw with
       | None => true
       | Some raw => match py_int raw with Some n => (n <=? 0)%Z | None => true end
       end).
Fixpoint offline_of (pubkeys : list string) : M (list string) :=
  match pubkeys with
  | [] => ret []
  | pk :: pubkeys' =>
      let! off := is_offline pk in
      let! rest := offline_of pubkeys' in
      ret (if off then pk :: rest else rest)
  end.
Fixpoint fromhex_each (l : list string) : M (list string) :=
  match l with [] => ret [] | h :: l' => let! b := fromhex_ h in let! bs := fromhex_each l' in ret (b :: bs) end.

Definition used_at (now : Z) (p : PushSubscription) : PushSubscription :=
  mkPush (ps_pubkey p) (ps_endpoint p) (ps_p256dh p) (ps_auth p) (ps_platform p) (ps_user_agent p) (ps_created_at p)
    (ps_updated_at p) (Some now).
Definition same_push (p q : PushSubscription) : bool := push_of (ps_pubkey p) (ps_endpoint p) q.
Fixpoint delete_all (gone : list PushSubscription) : M unit :=
  match gone with
  | [] => ret tt
  | p :: gone' => let! _ := delete_push (ps_pubkey p) (ps_endpoint p) in delete_all gone'
  end.

Definition push_payload (sender_username group_id kind : option string) (ts : Z) : string :=
  dumps (JObj [("from_username", opt_str sender_username); ("group_id", opt_str group_id); ("kind", opt_str kind); ("ts", JNum ts)]).

Definition trigger_push (webpush_ready fcm_ready : bool) (recipients : list string)
    (sender_username group_id kind : option string) : M unit :=
  if negb webpush_ready && negb fcm_ready then ret tt
  else
    let! offline := offline_of recipients in
    match offline with
    | [] => ret tt
    | _ =>
        let! pubkeys := fromhex_each offline in
        let! rows := sql (fun db => (List.filter (fun p => bool_decide (ps_pubkey p ∈ pubkeys)) (t_push db), db)) in
        match rows with
        | [] => ret tt
        | _ =>
            let! ts := now_ in
            let payload := push_payload sender_username group_id kind ts in
            let! now := now_ in
            let result r := send_one webpush_ready fcm_ready payload r in
            let gone := List.filter (fun r => match result r with Some SentGone => true | _ => false end) rows in
            let ok := List.filter (fun r => match result r with Some SentOk => true | _ => false end) rows in
            let! _ := update_push (fun q => existsb (fun p => same_push p q) ok) (used_at now) in
            delete_all gone
        end
    end.

(** The background task. *)
Definition _run_push_in_own_session (webpush_ready fcm_ready : bool) (recipients : list string)
    (sender_username group_id kind : option string) : M unit :=
  own_session (trigger_push webpush_ready fcm_ready recipients sender_username group_id kind).
End Sending.
