(* ===== verification/Smtp.v ===== *)
(** * The mail receiver (mail_smtp.py, mail_convert.py)

    What the SMTP server's handler answers to RCPT and DATA, and the way of a letter from outside into
    the inbox of the owner of the address: parsed, sealed for the owner, queued.

    The MIME parser is the email package of the standard library, with all its policies; here it is an
    argument that says what a letter's parts are, or that reading them raises.  X25519, HKDF and XChaCha20
    are arguments too, and so is the answer of the SPF check.  The server (aiosmtpd) starts each message
    with an empty list of recipients and keeps the session for the connection.  Text is ASCII for case,
    slices and patterns. *)

From Stdlib Require Import Ascii String.
From stdpp Require Import prelude gmap strings list.
From S2P Require Import Prelude Json Codec RedisStore Models Effects Crypto Config Sessions RateLimit Deps.
From S2P Require Import BlobStorage Queue Account Mail Push.

#[local] Open Scope morok_scope.

(** ** The letter *)

Record attachment := mkAttachment { at_filename : option string; at_content_type : string; at_payload : string }.
Record letter := mkLetter {
  le_from : option string; le_subject : option string; le_date : option string;
  le_message_id : option string; le_references : option string;
  le_plain : option string; le_html : option string;
  le_attachments : list attachment
}.
(** [BytesParser(policy=policy.default).parsebytes(raw)] and what is read of it. *)
Class Email := parsebytes : string -> res letter.

Definition MAX_TEXT_CHARS : nat := Z.to_nat 200000.
Definition MAX_HTML_CHARS : nat := Z.to_nat 300000.
Definition MAX_ATTACH_TOTAL : Z := 8 * 1024 * 1024.

(** [re.sub(r"<[^>]+>", " ", s)]: the number of characters from behind a [<] up to its [>]. *)
Fixpoint to_close (s : string) : option nat :=
  match s with EmptyString => None | String c s' => if Ascii.eqb c ">" then Some 1%nat else S <$> to_close s' end.
Fixpoint strip_tags (skip : nat) (s : string) : string :=
  match s with
  | EmptyString => ""
  | String c s' =>
      match skip with
      | S k => strip_tags k s'
      | O =>
          if Ascii.eqb c "<" then
            match to_close s' with
            | Some (S (S k)) => String " " (strip_tags (S (S k)) s')
            | _ => String c (strip_tags 0 s')
            end
          else String c (strip_tags 0 s')
      end
  end.
(** [re.sub(r"\s+", " ", s)]; [inside]: in a run of white space. *)
Fixpoint squeeze (inside : bool) (s : string) : string :=
  match s with
  | EmptyString => ""
  | String c s' =>
      if is_py_space c then if inside then squeeze true s' else String " " (squeeze true s')
      else String c (squeeze false s')
  end.

Definition _extract_bodies (msg : letter) : string * option string :=
  let text := default "" (le_plain msg) in
  let html := le_html msg in
  let text := match truthy html with
              | Some h => if String.eqb text "" then strip (squeeze false (strip_tags 0 h)) else text
              | None => text
              end in
  (substring 0 MAX_TEXT_CHARS text, substring 0 MAX_HTML_CHARS <$> truthy html).

(** Attachments from the first that takes the sum over the limit on are left out. *)
Fixpoint _extract_attachments (total : Z) (parts : list attachment) : list json :=
  match parts with
  | [] => []
  | part :: parts' =>
      let payload := at_payload part in
      if String.eqb payload "" then _extract_attachments total parts'
      else
        let total := (total + string_len payload)%Z in
        if (MAX_ATTACH_TOTAL <? total)%Z then []
        else
          JObj [("filename", JStr (default "attachment" (truthy (at_filename part)))); ("content_type", JStr (at_content_type part));
                ("b64", JStr (b64encode payload))] :: _extract_attachments total parts'
  end.

Definition header (h : option string) : string := default "" h.
Definition email_payload (msg : letter) (to_alias spf_result : string) (now : Z) : json :=
  let '(text, html) := _extract_bodies msg in
  JObj [("kind", JStr "email"); ("v", JNum 1); ("to_alias", JStr to_alias);
        ("from", JStr (substring 0 512 (header (le_from msg)))); ("subject", JStr (substring 0 998 (header (le_subject msg))));
        ("date", JStr (substring 0 64 (header (le_date msg)))); ("text", JStr text); ("html", opt_str html);
        ("attachments", JArr (_extract_attachments 0 (le_attachments msg))); ("spf", JStr spf_result); ("received_at", JNum now);
        ("message_id", JStr (substring 0 256 (strip (header (le_message_id msg)))));
        ("references", JStr (substring 0 2048 (strip (header (le_references msg)))))].

(** ** Sealing: morok-mail-v1 *)

(** The bindings of libsodium and the HKDF of the cryptography package. *)
Class MailCrypto := {
  scalarmult_base : string -> string;
  scalarmult : string -> string -> res string;
  ed25519_pk_to_curve25519 : string -> res string;
  hkdf_sha256 : string -> string -> string -> string;      (* ikm, salt, info *)
  xchacha_encrypt : string -> string -> string -> string   (* plaintext, nonce, key *)
}.

Definition _MAIL_INFO : string := "morok-mail-v1".
Definition randombytes (n : nat) : M string := let! t := token_ in ret (substring 0 n t).

Definition seal_mail `{MailCrypto} (owner_ed_pubkey : string) (payload : json) : M string :=
  let! eph_priv := randombytes 32 in
  let eph_pub := scalarmult_base eph_priv in
  let! recip_x_pub := of_res (ed25519_pk_to_curve25519 owner_ed_pubkey) in
  let! shared := of_res (scalarmult eph_priv recip_x_pub) in
  let key := hkdf_sha256 shared eph_pub _MAIL_INFO in
  let! nonce := randombytes 24 in
  ret (eph_pub +:+ nonce +:+ xchacha_encrypt (dumps payload) nonce key).

(** ** Delivery *)

Section Delivery.
  Context `{Sha256} `{Email} `{MailCrypto} (s : Settings).

Definition external_args (envelope_id recipient : string) (now : Z) : enqueue_args :=
  EnqueueArgs envelope_id "" recipient now (mail_ttl_seconds s) "" (mail_ttl_seconds s) None false None
    (Some "mail") None (Some "external") None.

(** [None]: the queue has it already. *)
Definition deliver_email (raw_bytes to_alias owner_pubkey spf_result : string) : M (option string) :=
  let! msg := of_res (parsebytes raw_bytes) in
  let! now := now_ in
  let! blob := seal_mail owner_pubkey (email_payload msg to_alias spf_result now) in
  let! t := token_ in
  let envelope_id := hex_of_bytes t in
  let! _ := write_blob envelope_id blob in
  let! now := now_ in
  let! expires := enqueue_envelope (external_args envelope_id (hex_of_bytes owner_pubkey) now) in
  ret (match expires with None => None | Some _ => Some envelope_id end).
End Delivery.

(** ** The handler of the SMTP server *)

(** A connection: who calls, what it said and the routes of its session. *)
Record smtp_session := mkSmtp {
  sm_peer : option string;
  sm_host_name : option string;
  sm_routes : gmap string (string * string)      (* recipient: state of the address and its owner *)
}.
Record smtp_envelope := mkSmtpEnvelope { en_mail_from : option string; en_rcpt_tos : list string; en_content : string }.

Definition mail_rl_key (ip : string) : string := "morok:mail_rl:" +:+ ip.
Definition status_value (st : AliasStatus) : string :=
  match st with ACTIVE => "active" | PAUSED => "paused" | DEAD => "dead" end.

Section Smtp.
  Context `{Sha256} `{Email} `{MailCrypto} `{Transport}.
  Context (s : Settings) (ms : MailSettings) (_check_spf : string -> string -> string -> string) (webpush_ready fcm_ready : bool).

Definition peer_of (session : smtp_session) : string := default "?" (sm_peer session).

Definition _ip_allowed (ip : string) : M bool :=
  let key := mail_rl_key ip in
  let! n := redis_ (rcall (INCR key) as_int) in
  let! _ := if (n =? 1)%Z then cmd_ (EXPIRE key 60) else ret tt in
  ret (n <=? mail_rl_per_ip ms)%Z.

(** The recipient is taken: it is on the list of the message, its route in the session. *)
Definition route (addr st owner : string) (session : smtp_session) (envelope : smtp_envelope)
    : string * smtp_session * smtp_envelope :=
  ("250 OK", mkSmtp (sm_peer session) (sm_host_name session) (<[addr := (st, owner)]> (sm_routes session)),
   mkSmtpEnvelope (en_mail_from envelope) (en_rcpt_tos envelope ++ [addr]) (en_content envelope)).

Definition handle_RCPT (session : smtp_session) (envelope : smtp_envelope) (address : string)
    : M (string * smtp_session * smtp_envelope) :=
  let addr := strip (lower address) in
  let refuse answer := ret (answer, session, envelope) in
  if negb (char_in addr "@") then refuse "550 5.1.3 Bad address"
  else
    let local := before (is_char "@") addr in
    let dom := after (is_char "@") addr in
    if negb (String.eqb dom (lower (mail_domain ms))) then refuse "550 5.7.1 Relaying denied"
    else
      let! allowed := _ip_allowed (peer_of session) in
      if negb allowed then refuse "450 4.7.1 Rate limit, try later"
      else if bool_decide (local ∈ ["postmaster"; "abuse"]) && negb (String.eqb (mail_admin_pubkey_hex ms) "") then
        let! owner := fromhex_ (mail_admin_pubkey_hex ms) in
        ret (route addr "system" owner session envelope)
      else
        let! row := own_session (select_alias (has_alias local)) in
        match row with
        | None => refuse "550 5.1.1 No such user"
        | Some row =>
            if bool_decide (ma_status row = DEAD) then refuse "550 5.1.1 No such user"
            else ret (route addr (status_value (ma_status row)) (ma_owner_pubkey row) session envelope)
        end.

(** What is done after a delivery never makes the sender try again. *)
Definition after_delivery (st local owner_pubkey : string) : M unit :=
  let! _ := try_except
    (own_session (let! _ := trigger_push webpush_ready fcm_ready [hex_of_bytes owner_pubkey] None None (Some "mail") in commit))
    (fun _ => ret tt) in
  if String.eqb st "active" then
    try_except (own_session (let! _ := update_alias local received in commit)) (fun _ => ret tt)
  else ret tt.

(** The recipients of a message in turn; [false]: a delivery failed. *)
Fixpoint deliver_to (routes : gmap string (string * string)) (raw spf_result : string) (rcpt_tos : list string) : M bool :=
  match rcpt_tos with
  | [] => ret true
  | rcpt :: rcpt_tos' =>
      match routes !! rcpt with
      | None => deliver_to routes raw spf_result rcpt_tos'
      | Some (st, owner_pubkey) =>
          if String.eqb st "paused" then deliver_to routes raw spf_result rcpt_tos'
          else
            let local := before (is_char "@") rcpt in
            let! ok := try_except (let! _ := deliver_email s raw local owner_pubkey spf_result in ret true) (fun _ => ret false) in
            if negb (ok : bool) then ret false
            else
              let! _ := after_delivery st local owner_pubkey in
              deliver_to routes raw spf_result rcpt_tos'
      end
  end.

Definition handle_DATA (session : smtp_session) (envelope : smtp_envelope) : M string :=
  let raw := en_content envelope in
  if (mail_max_bytes ms <? string_len raw)%Z then ret "552 5.3.4 Message too big"
  else
    let spf_result := _check_spf (peer_of session) (default "" (en_mail_from envelope)) (default "" (sm_host_name session)) in
    let! ok := deliver_to (sm_routes session) raw spf_result (en_rcpt_tos envelope) in
    ret (if (ok : bool) then "250 OK" else "451 4.3.0 Temporary processing error").

(** One message of a connection: its recipients, then its text if one of them was taken.  When the handler
    raises, the server answers 500 and goes on. *)
Fixpoint handle_RCPTs (session : smtp_session) (envelope : smtp_envelope) (addresses : list string)
    : M (smtp_session * smtp_envelope) :=
  match addresses with
  | [] => ret (session, envelope)
  | address :: addresses' =>
      let! (session, envelope) := try_except
        (let! (_, session, envelope) := handle_RCPT session envelope address in ret (session, envelope))
        (fun _ => ret (session, envelope)) in
      handle_RCPTs session envelope addresses'
  end.
Definition smtp_message (session : smtp_session) (mail_from : option string) (addresses : list string) (content : string)
    : M (option string * smtp_session) :=
  let! (session, envelope) := handle_RCPTs session (mkSmtpEnvelope mail_from [] content) addresses in
  match en_rcpt_tos envelope with
  | [] => ret (None, session)
  | _ => let! answer := handle_DATA session envelope in ret (Some answer, session)
  end.
End Smtp.
