(* ===== verification/Database.v ===== *)
(** * The clients of Postgres and Redis (db.py, the lifespan of main.py)

    The module's three variables, what opens and closes them, the lifespan that the application runs in, and
    what is logged of the addresses.  The clients themselves are SQLAlchemy's and redis-py's: of them there is
    which are open, and whether each call that may raise does ([answers], one after the other).  Then: no
    password of an address is logged, there are never two clients of a kind, and all are closed at the end. *)

From Stdlib Require Import Ascii String.
From stdpp Require Import prelude strings list.
From S2P Require Import Prelude Json Codec.

#[local] Open Scope morok_scope.

(** ** Addresses in the log *)

(** [s.split(sep, 1)] where [sep] is in [s]. *)
Fixpoint split_first (sep s : string) : option (string * string) :=
  if String.prefix sep s then Some ("", String.substring (String.length sep) (String.length s - String.length sep) s)
  else match s with "" => None | String c s' => (fun ab => (String c ab.1, ab.2)) <$> split_first sep s' end.
(** [s.rsplit(c, 1)] where [c] is in [s]. *)
Fixpoint split_last (c : ascii) (s : string) : option (string * string) :=
  match s with
  | "" => None
  | String x s' =>
      match split_last c s' with
      | Some (a, b) => Some (String x a, b)
      | None => if Ascii.eqb x c then Some ("", s') else None
      end
  end.

Definition _redact_dsn (dsn : string) : string :=
  if negb (contains "@" dsn) || negb (contains "://" dsn) then dsn
  else
    match split_first "://" dsn with
    | Some (proto, rest) =>
        match split_last "@" rest with
        | Some (creds, host) =>
            match split_first ":" creds with
            | Some (user, _) => proto +:+ "://" +:+ user +:+ ":***@" +:+ host
            | None => dsn
            end
        | None => dsn
        end
    | None => dsn
    end.

(** ** The module's variables *)

Inductive db_exn := RuntimeError (msg : string) | ClientError | CancelledError | Other.
Inductive result (A : Type) := Done (a : A) | Raised (e : db_exn).
Arguments Done {A} a.
Arguments Raised {A} e.

Record Connections := mkConnections {
  _engine : option nat;
  _session_factory : option nat;                 (* the engine that its sessions use *)
  _redis : option nat;
  open_engines : list nat;                       (* created and not disposed of *)
  open_clients : list nat;
  cn_next : nat;
  cn_cleanup : bool;                             (* the background clean-up runs *)
  cn_log : list string;
  answers : nat -> bool                          (* whether the next calls of the clients succeed *)
}.

Definition C (A : Type) : Type := Connections -> result A * Connections.
Definition cret {A} (a : A) : C A := fun c => (Done a, c).
Definition craise {A} (e : db_exn) : C A := fun c => (Raised e, c).
Definition cbind {A B} (p : C A) (f : A -> C B) : C B :=
  fun c => match p c with (Done a, c') => f a c' | (Raised e, c') => (Raised e, c') end.
Notation "p ;; q" := (cbind p (fun _ => q)) (at level 100, q at level 200, right associativity) : morok_scope.
(** [try: p finally: q] *)
Definition try_finally {A} (p : C A) (q : C unit) : C A :=
  fun c => let '(r, c1) := p c in match q c1 with (Done _, c2) => (r, c2) | (Raised e, c2) => (Raised e, c2) end.
Definition update (f : Connections -> Connections) : C unit := fun c => (Done tt, f c).
(** A call of a client, which does [f] if it succeeds. *)
Definition client_call (f : Connections -> Connections) : C unit := fun c =>
  let c' := mkConnections (_engine c) (_session_factory c) (_redis c) (open_engines c) (open_clients c) (cn_next c) (cn_cleanup c) (cn_log c)
    (fun n => answers c (S n)) in
  if answers c 0 then (Done tt, f c') else (Raised ClientError, c').

Definition logger_info (line : string) : C unit := update (fun c =>
  mkConnections (_engine c) (_session_factory c) (_redis c) (open_engines c) (open_clients c) (cn_next c) (cn_cleanup c) (line :: cn_log c) (answers c)).
Definition set_engine (e f : option nat) (es : list nat) (c : Connections) : Connections :=
  mkConnections e f (_redis c) es (open_clients c) (cn_next c) (cn_cleanup c) (cn_log c) (answers c).
Definition set_redis (r : option nat) (rs : list nat) (c : Connections) : Connections :=
  mkConnections (_engine c) (_session_factory c) r (open_engines c) rs (cn_next c) (cn_cleanup c) (cn_log c) (answers c).
Definition take_name (c : Connections) : Connections :=
  mkConnections (_engine c) (_session_factory c) (_redis c) (open_engines c) (open_clients c) (S (cn_next c)) (cn_cleanup c) (cn_log c) (answers c).
Definition set_cleanup (b : bool) (c : Connections) : Connections :=
  mkConnections (_engine c) (_session_factory c) (_redis c) (open_engines c) (open_clients c) (cn_next c) b (cn_log c) (answers c).

(** ** Opening and closing *)

Definition init_db (db_dsn : string) : C unit := fun c =>
  match _engine c with
  | Some _ => (Done tt, c)
  | None =>
      (client_call (fun c => take_name (set_engine (Some (cn_next c)) (_session_factory c) (cn_next c :: open_engines c) c)) ;;
       update (fun c => set_engine (_engine c) (_engine c) (open_engines c) c) ;;
       logger_info ("Database engine initialized: " +:+ _redact_dsn db_dsn)) c
  end.

Definition init_redis (redis_url : string) : C unit := fun c =>
  match _redis c with
  | Some _ => (Done tt, c)
  | None =>
      (client_call (fun c => take_name (set_redis (Some (cn_next c)) (cn_next c :: open_clients c) c)) ;;
       client_call (fun c => c) ;;                                             (* ping *)
       logger_info ("Redis connected: " +:+ _redact_dsn redis_url)) c
  end.

Definition close_db : C unit := fun c =>
  match _engine c with
  | None => (Done tt, c)
  | Some e =>
      (client_call (fun c => set_engine (_engine c) (_session_factory c) (List.filter (fun x => negb (Nat.eqb x e)) (open_engines c)) c) ;;
       update (fun c => set_engine None None (open_engines c) c) ;;
       logger_info "Database engine closed") c
  end.

Definition close_redis : C unit := fun c =>
  match _redis c with
  | None => (Done tt, c)
  | Some r =>
      (client_call (fun c => set_redis (_redis c) (List.filter (fun x => negb (Nat.eqb x r)) (open_clients c)) c) ;;
       update (fun c => set_redis None (open_clients c) c) ;;
       logger_info "Redis connection closed") c
  end.

Definition get_redis : C nat := fun c =>
  match _redis c with None => (Raised (RuntimeError "Redis not initialized. Call init_redis() first."), c) | Some r => (Done r, c) end.

(** ** The lifespan *)

(** [db.lifespan], around what the application does in between. *)
Definition db_lifespan {A} (db_dsn redis_url : string) (body : C A) : C A :=
  init_db db_dsn ;;
  init_redis redis_url ;;
  try_finally body (close_redis ;; close_db).

(** [main.lifespan]; [cleanup_ends]: how the cancelled clean-up task ends. *)
Definition lifespan {A} (db_dsn redis_url : string) (cleanup_ends : result unit) (body : C A) : C A :=
  db_lifespan db_dsn redis_url
    (update (set_cleanup true) ;;
     logger_info "Background cleanup task started" ;;
     try_finally body
       (update (set_cleanup false) ;;
        match cleanup_ends with Done _ | Raised CancelledError => cret tt | Raised e => craise e end ;;
        logger_info "Background cleanup task stopped")).

(** ** Passwords *)

Definition lacks (c : ascii) (s : string) : Prop := string_forallb (fun x => negb (Ascii.eqb x c)) s = true.
Lemma lacks_cons c x s : lacks c (String x s) -> x <> c /\ lacks c s.
Proof. unfold lacks. cbn. intros [H ?]%andb_prop. split; [|done]. intros ->. by rewrite Ascii.eqb_refl in H. Qed.

Lemma substring_rest (a s : string) n : String.length s = n -> String.substring (String.length a) n (a +:+ s) = s.
Proof.
  revert n. induction a as [|x a IH]; intros n; [|by apply IH]. rewrite string_app_nil_l. cbn [String.length]. intros <-.
  induction s as [|y s IHs]; [done|]. cbn. by rewrite IHs.
Qed.
Lemma prefix_app p s : String.prefix p (p +:+ s) = true.
Proof. induction p as [|x p IH]; [by destruct s|]. rewrite string_app_cons. cbn. by destruct (ascii_dec x x). Qed.

(** The first separator is where the part before it ends. *)
Lemma split_first_app c sep a b : lacks c a -> split_first (String c sep) (a +:+ String c sep +:+ b) = Some (a, b).
Proof.
  induction a as [|x a IH]; intros Ha.
  - rewrite string_app_nil_l. change (String c sep +:+ b) with (String c sep +:+ b).
    assert (E : split_first (String c sep) (String c sep +:+ b) = if String.prefix (String c sep) (String c sep +:+ b) then
      Some ("", String.substring (String.length (String c sep)) (String.length (String c sep +:+ b) - String.length (String c sep)) (String c sep +:+ b))
      else (fun ab => (String c ab.1, ab.2)) <$> split_first (String c sep) (sep +:+ b)) by done.
    rewrite E, prefix_app. do 2 f_equal. apply substring_rest. rewrite string_length_app. cbn. lia.
  - apply lacks_cons in Ha as [Hx Ha]. rewrite string_app_cons. cbn [split_first]. rewrite IH by done.
    assert (Hp : String.prefix (String c sep) (String x (a +:+ String c sep +:+ b)) = false) by (cbn; by destruct (ascii_dec c x)).
    by rewrite Hp.
Qed.

Lemma split_last_app c a b : exists a' b', split_last c (a +:+ String c b) = Some (a +:+ a', b') /\ forall a2, exists a2', split_last c (a2 +:+ String c b) = Some (a2 +:+ a2', b').
Proof.
  assert (Hb : exists b' y, split_last c (String c b) = Some (y, b')).
  { cbn. destruct (split_last c b) as [[y b']|]; [by eexists _, _|]. rewrite Ascii.eqb_refl. by eexists _, _. }
  destruct Hb as (b' & y & Hb). assert (H : forall a, split_last c (a +:+ String c b) = Some (a +:+ y, b')).
  { clear a. intros a. induction a as [|x a IH]; [done|]. rewrite !string_app_cons. cbn [split_last]. by rewrite IH. }
  exists y, b'. split; [apply H|]. intros a2. exists y. apply H.
Qed.
Lemma substring_inside (a n b : string) : String.substring (String.length a) (String.length n) (a +:+ n +:+ b) = n.
Proof.
  induction a as [|x a IH]; [|exact IH]. rewrite string_app_nil_l. cbn [String.length].
  induction n as [|y n IHn]; [by destruct b|]. rewrite string_app_cons. cbn. by rewrite IHn.
Qed.
Lemma contains_app n a b : n <> "" -> contains n (a +:+ n +:+ b) = true.
Proof.
  intros Hn. unfold contains. destruct (String.index 0 n (a +:+ n +:+ b)) eqn:E; [done|]. exfalso.
  apply (index_correct3 0 (String.length a) _ _ E Hn); [lia|apply substring_inside].
Qed.

(** An address with a user and a password, and what is logged of it. *)
Definition dsn (proto user password host : string) : string :=
  proto +:+ "://" +:+ user +:+ ":" +:+ password +:+ "@" +:+ host.

Lemma redact_password proto user host : lacks ":" proto -> lacks ":" user ->
  exists host', forall password, _redact_dsn (dsn proto user password host) = proto +:+ "://" +:+ user +:+ ":***@" +:+ host'.
Proof.
  intros Hp Hu. destruct (split_last_app "@" "" host) as (_ & host' & _ & Hall). exists host'. intros pw. unfold _redact_dsn, dsn.
  assert (E : proto +:+ "://" +:+ user +:+ ":" +:+ pw +:+ "@" +:+ host = (proto +:+ "://" +:+ user +:+ ":" +:+ pw) +:+ "@" +:+ host) by (by rewrite !string_app_assoc).
  rewrite E at 1. rewrite (contains_app "@"), (contains_app "://") by done. cbn [negb orb].
  change "://" with (String ":" "//"). rewrite split_first_app by done.
  assert (E2 : user +:+ ":" +:+ pw +:+ "@" +:+ host = (user +:+ ":" +:+ pw) +:+ String "@" host) by (by rewrite !string_app_assoc).
  destruct (Hall (user +:+ ":" +:+ pw)) as (a & Ha). rewrite E2, Ha. rewrite !string_app_assoc.
  change (":" +:+ pw +:+ a) with (String ":" "" +:+ (pw +:+ a)). by rewrite split_first_app.
Qed.

(** Opening the clients logs the same whatever the passwords are. *)
Lemma startup_logs_hide_passwords proto user pw pw' host c : lacks ":" proto -> lacks ":" user ->
  init_db (dsn proto user pw host) c = init_db (dsn proto user pw' host) c /\
  init_redis (dsn proto user pw host) c = init_redis (dsn proto user pw' host) c.
Proof.
  intros Hp Hu. destruct (redact_password proto user host Hp Hu) as (h & Hh). unfold init_db, init_redis. by rewrite !Hh.
Qed.

(** ** At most one client of each kind *)

(** What is open is what the variables hold, and a session has the engine's factory. *)
Record tidy (c : Connections) : Prop := {
  tidy_engines : open_engines c = option_list (_engine c);
  tidy_clients : open_clients c = option_list (_redis c);
  tidy_factory : _session_factory c = _engine c
}.

Definition keeps_tidy {A} (p : C A) : Prop := forall c, tidy c -> tidy (p c).2.

Lemma tidy_ret {A} (a : A) : keeps_tidy (cret a).
Proof. by intros c. Qed.
Lemma tidy_bind {A B} (p : C A) (f : A -> C B) : keeps_tidy p -> (forall a, keeps_tidy (f a)) -> keeps_tidy (cbind p f).
Proof. intros Hp Hf c Hc. specialize (Hp c Hc). unfold cbind. destruct (p c) as [[a|e] c']; [by apply Hf|done]. Qed.
Lemma tidy_finally {A} (p : C A) q : keeps_tidy p -> keeps_tidy q -> keeps_tidy (try_finally p q).
Proof. intros Hp Hq c Hc. unfold try_finally. specialize (Hp c Hc). destruct (p c) as [r c1]. specialize (Hq c1 Hp). by destruct (q c1) as [[]]. Qed.
Lemma tidy_log line : keeps_tidy (logger_info line).
Proof. intros c [? ? ?]. by split. Qed.
Lemma tidy_cleanup b : keeps_tidy (update (set_cleanup b)).
Proof. intros c [? ? ?]. by split. Qed.
Lemma tidy_raise {A} e : keeps_tidy (craise (A := A) e).
Proof. by intros c. Qed.

Lemma keeps_init_db d : keeps_tidy (init_db d).
Proof.
  intros c [H1 H2 H3]. unfold init_db. destruct (_engine c) as [e|] eqn:E; [split; cbn; congruence|].
  unfold cbind, client_call. destruct (answers c 0); split; cbn; by rewrite ?H1, ?H2, ?H3, ?E.
Qed.
Lemma keeps_init_redis d : keeps_tidy (init_redis d).
Proof.
  intros c [H1 H2 H3]. unfold init_redis. destruct (_redis c) as [e|] eqn:E; [split; cbn; congruence|].
  unfold cbind, client_call. destruct (answers c 0); cbn; [destruct (answers c 1); cbn|]; split; cbn; by rewrite ?H1, ?H2, ?H3, ?E.
Qed.
Lemma keeps_close_db : keeps_tidy close_db.
Proof.
  intros c [H1 H2 H3]. unfold close_db. destruct (_engine c) as [e|] eqn:E; [|split; cbn; congruence].
  unfold cbind, client_call. destruct (answers c 0); split; cbn; rewrite ?H1, ?H2, ?H3, ?E; cbn; by rewrite ?Nat.eqb_refl.
Qed.
Lemma keeps_close_redis : keeps_tidy close_redis.
Proof.
  intros c [H1 H2 H3]. unfold close_redis. destruct (_redis c) as [e|] eqn:E; [|split; cbn; congruence].
  unfold cbind, client_call. destruct (answers c 0); split; cbn; rewrite ?H1, ?H2, ?H3, ?E; cbn; by rewrite ?Nat.eqb_refl.
Qed.

Create HintDb tidy_db.
#[local] Hint Resolve tidy_ret tidy_bind tidy_finally tidy_log tidy_cleanup tidy_raise keeps_init_db keeps_init_redis keeps_close_db keeps_close_redis : tidy_db.

(** Whatever raises, no second engine or client is ever opened beside one that is not closed. *)
Lemma lifespan_tidy {A} (d r : string) e (body : C A) : keeps_tidy body -> keeps_tidy (lifespan d r e body).
Proof.
  intros Hb. unfold lifespan, db_lifespan. repeat (apply tidy_bind || apply tidy_finally || intros _); auto with tidy_db.
  destruct e as [|[]]; auto with tidy_db.
Qed.

(** If opening and closing succeed, the application runs with both clients and the clean-up; whatever it
    answers or raises, and however the clean-up ends, nothing is open or runs afterwards. *)
Lemma lifespan_closes {A} (d r : string) e (body : C A) c :
  tidy c -> _engine c = None -> _redis c = None -> (forall n, answers c n = true) -> (forall c1, (body c1).2 = c1) ->
  exists c1, is_Some (_engine c1) /\ is_Some (_redis c1) /\ cn_cleanup c1 = true /\
    let '(res, c') := lifespan d r e body c in
    open_engines c' = [] /\ open_clients c' = [] /\ cn_cleanup c' = false /\
    (e = Done tt \/ e = Raised CancelledError -> res = (body c1).1).
Proof.
  intros [H1 H2 H3] He Hr Hall Hbody. rewrite He in H1. rewrite Hr in H2. unfold lifespan, db_lifespan, init_db, cbind, client_call, update. rewrite He, Hall. cbn.
  unfold init_redis, cbind, client_call, update. cbn. rewrite Hr. do 3 (rewrite ?Hall; cbn). unfold try_finally, cbind, update. cbn.
  match goal with |- context [body ?c0] => exists c0; destruct (body c0) as [res c'] eqn:Eb; pose proof (Hbody c0) as Hb; rewrite Eb in Hb; cbn in Hb; subst c' end.
  split_and!; [done..|]. cbn. destruct e as [[]|[]]; cbn; unfold close_redis, close_db, cbind, client_call, update; cbn; do 3 (rewrite ?Hall; cbn);
    rewrite H1, H2; cbn; rewrite !Nat.eqb_refl; cbn; split_and!; try done; intros [|]; done.
Qed.

(** ** Examples *)

Definition fresh_start (ok : list bool) : Connections := mkConnections None None None [] [] 0 false [] (fun n => nth n ok true).

(** If Redis does not answer, the start fails with the engine left open, and a second start takes the Redis client
    that never answered without asking again. *)
Example failed_start_stays_open :
  let w := lifespan "d" "r" (Raised CancelledError) get_redis (fresh_start [true; true; false]) in
  w.1 = Raised ClientError /\ open_engines w.2 = [0] /\ open_clients w.2 = [1] /\
  (lifespan "d" "r" (Raised CancelledError) get_redis w.2).1 = Done 1.
Proof. split_and!; vm_compute; reflexivity. Qed.

(** A password in the query of an address is logged. *)
Example query_password_logged :
  _redact_dsn "postgresql+asyncpg:///morok?user=morok&password=secret" = "postgresql+asyncpg:///morok?user=morok&password=secret".
Proof. vm_compute. reflexivity. Qed.
