(* ===== verification/Web.v ===== *)
(** * The application's edge (main.py)

    What the logs show of a request: the filter that takes the credentials of a socket out of uvicorn's
    lines, and the masking of paths whose segments are credentials; and the answers to exceptions and to
    /health.  Routes, middleware and the start of the background task are wiring and not modelled.  Text is
    ASCII for white space and words. *)

From Stdlib Require Import Ascii String.
From stdpp Require Import prelude gmap strings list.
From S2P Require Import Prelude Json Codec Models Effects Config RateLimit.

#[local] Open Scope morok_scope.

(** ** Credentials in the query of a socket *)

(** [[^\s&\x22]], the double quote written by its code. *)
Definition value_char (c : ascii) : bool := negb (is_py_space c || Ascii.eqb c "&" || Ascii.eqb c "034").
Fixpoint starts_with (p s : string) : bool :=
  match p, s with
  | EmptyString, _ => true
  | String a p', String b s' => Ascii.eqb a b && starts_with p' s'
  | _, EmptyString => false
  end.
Definition value_follows (n : nat) (s : string) : bool :=
  match String.get n s with Some c => value_char c | None => false end.

(** [(?:token|ticket)=] with a value after it: the length of the name. *)
Definition credential_name (s : string) : option nat :=
  if starts_with "token=" s && value_follows 6 s then Some 6%nat
  else if starts_with "ticket=" s && value_follows 7 s then Some 7%nat
  else None.

(** Where the substitution is: outside of a match, so many characters before the value, or in it. *)
Inductive place := Outside | InName (left : nat) | InValue.

(** [_TOKEN_QUERY_RE.sub(r"\1[redacted]", s)] *)
Fixpoint _TOKEN_QUERY_RE (st : place) (s : string) : string :=
  match s with
  | EmptyString => ""
  | String c s' =>
      let outside :=
        match (if Ascii.eqb c "?" || Ascii.eqb c "&" then credential_name s' else None) with
        | Some n => String c (_TOKEN_QUERY_RE (InName n) s')
        | None => String c (_TOKEN_QUERY_RE Outside s')
        end in
      match st with
      | Outside => outside
      | InName (S (S k)) => String c (_TOKEN_QUERY_RE (InName (S k)) s')
      | InName _ => String c ("[redacted]" +:+ _TOKEN_QUERY_RE InValue s')
      | InValue => if value_char c then _TOKEN_QUERY_RE InValue s' else outside
      end
  end.
Definition redact (s : string) : string := _TOKEN_QUERY_RE Outside s.

(** A record of a log: its text and the values to be put into it; formatting it is the logging module's. *)
Record LogRecord := mkRecord { lr_msg : string; lr_args : list string }.
Definition filter (getMessage : LogRecord -> option string) (record : LogRecord) : LogRecord :=
  match getMessage record with
  | None => record
  | Some full_message =>
      let redacted := redact full_message in
      if negb (String.eqb redacted full_message) then mkRecord redacted [] else record
  end.

(** ** Credentials in the path of a request *)

Definition join_slash (l : list string) : string := String.concat "/" l.

(** What [$] leaves behind a segment that is [name]: nothing, or a line feed at the end of the text. *)
Definition final_is (name seg : string) : option string :=
  if String.eqb seg name then Some "" else if String.eqb seg (name +:+ String "010" "") then Some (String "010" "") else None.
(** [\w] *)
Definition word_char (c : ascii) : bool := is_alnum c || Ascii.eqb c "_".
(** [\w+$] *)
Definition final_word (seg : string) : option (string * string) :=
  let w := before (fun c => negb (word_char c)) seg in
  if String.eqb w "" then None
  else if String.eqb seg w then Some (w, "")
  else if String.eqb seg (w +:+ String "010" "") then Some (w, String "010" "") else None.

(** The rest of the path behind the fixed part of a pattern, in segments; the result is what replaces it. *)
Definition secret_then_send (segs : list string) : option string :=
  match segs with
  | [tok] => if negb (String.eqb tok "") then Some "/***" else None
  | [tok; last] =>
      if negb (String.eqb tok "") then (fun rest => "/***/send" +:+ rest) <$> final_is "send" last else None
  | _ => None
  end.
Definition burner_rest (segs : list string) : option string :=
  match segs with
  | pub :: segs' =>
      if String.eqb pub "public" then
        match secret_then_send segs' with Some r => Some ("/public" +:+ r) | None => secret_then_send segs end
      else secret_then_send segs
  | [] => None
  end.
Definition alias_rest (segs : list string) : option string :=
  match segs with
  | [tok] => if negb (String.eqb tok "") then Some "/***" else None
  | [tok; last] =>
      if negb (String.eqb tok "") then (fun w => "/***/" +:+ fst w +:+ snd w) <$> final_word last else None
  | _ => None
  end.
Definition slug_rest (segs : list string) : option string :=
  match segs with [tok] => if negb (String.eqb tok "") then Some "/***" else None | _ => None end.

(** The segments of the fixed part, one after the other. *)
Fixpoint behind (fixed segs : list string) : option (list string) :=
  match fixed, segs with
  | [], _ => Some segs
  | f :: fixed', x :: segs' => if String.eqb x f then behind fixed' segs' else None
  | _, [] => None
  end.

(** The fixed parts that a pattern allows, and what it makes of the rest. *)
Record pattern := mkPattern { pa_fixed : list (list string); pa_rest : list string -> option string }.
Definition _SENSITIVE_PATH_PATTERNS : list pattern :=
  [ mkPattern [["api"; "v1"; "burner"]] burner_rest;
    mkPattern [["api"; "v1"; "mail"; "aliases"]; ["api"; "v1"; "mail"; "resolve"]] alias_rest;
    mkPattern [["api"; "v1"; "groups"; "by-slug"]] slug_rest ].

(** The pattern matches the segments from here to the end. *)
Fixpoint match_here (rest : list string -> option string) (fixed : list (list string)) (segs : list string) : option string :=
  match fixed with
  | [] => None
  | f :: fixed' =>
      match match behind f segs with Some r => rest r | None => None end with
      | Some r => Some ("/" +:+ join_slash f +:+ r)
      | None => match_here rest fixed' segs
      end
  end.
(** [pattern.sub(repl, path)]: the leftmost place where the pattern matches up to the end; [seen]: the
    segments before it. *)
Fixpoint sub_from (p : pattern) (seen segs : list string) : option string :=
  match segs with
  | [] => None
  | seg :: segs' =>
      match match_here (pa_rest p) (pa_fixed p) segs' with
      | Some r => Some (join_slash (seen ++ [seg]) +:+ r)
      | None => sub_from p (seen ++ [seg]) segs'
      end
  end.
Definition sub (p : pattern) (path : string) : string := default path (sub_from p [] (split_on "/" path)).

Fixpoint first_masked (ps : list pattern) (path : string) : string :=
  match ps with
  | [] => path
  | p :: ps' => let new := sub p path in if negb (String.eqb new path) then new else first_masked ps' path
  end.
Definition _sanitize_path (path : string) : string := first_masked _SENSITIVE_PATH_PATTERNS path.

(** The line of a request, without the time it took. *)
Definition log_line (method path : string) (status : Z) : string :=
  method +:+ " " +:+ _sanitize_path path +:+ " -> " +:+ print_Z status.

(** ** Answers *)

(** [ErrorResponse(...).model_dump(exclude_none=True)] *)
Definition ErrorResponse (error : string) (detail : option string) : json :=
  JObj (("error", JStr error) :: match detail with Some d => [("detail", JStr d)] | None => [] end).
Definition http_exception_handler (status : Z) (detail : string) : Z * json := (status, ErrorResponse detail None).
(** What is logged, and the answer; [described]: the type and text of the exception. *)
Definition unhandled_exception_handler (debug : bool) (method path described : string) : string * (Z * json) :=
  ("Unhandled exception on " +:+ method +:+ " " +:+ _sanitize_path path,
   (500%Z, ErrorResponse "internal_server_error" (if debug then Some described else None))).

Definition health (relay_name version tor_onion_address : string) : M json :=
  let! now := now_ in
  let onion := truthy (Some tor_onion_address) in
  ret (JObj [("status", JStr "ok"); ("relay_name", JStr relay_name); ("version", JStr version); ("onion", opt_str onion);
             ("onion_supported", JBool (match onion with Some _ => true | None => false end)); ("server_time", JNum now)]).
