(* ===== verification/Admin.v ===== *)
(** * The administrator's API (api/admin.py)

    Tokens of the administrator: login, the check in front of every other endpoint, logout; and the
    statistics.  Argon2 is libsodium's, an argument.  How long a ping took is not modelled; the number of
    envelopes in flight, which a bounded SCAN of Redis estimates, is an argument of the statistics. *)

From Stdlib Require Import Ascii String.
From stdpp Require Import prelude gmap strings list.
From S2P Require Import Prelude Json Codec RedisStore Models Effects Crypto Config Sessions RateLimit Deps FederationClient.

#[local] Open Scope morok_scope.

(** [nacl.pwhash.verify(stored_hash, password)]: false also when it raises. *)
Class Pwhash := pwhash_verify : string -> string -> bool.

Record AdminSettings := mkAdminSettings {
  admin_username : string;
  admin_password_hash : string;
  admin_session_ttl_seconds : Z
}.

Definition _ADMIN_TOKEN_PREFIX : string := "morok:admin_session:".

Section Tokens.
  Context `{Sha256} `{Pwhash} (ad : AdminSettings).

Definition _verify_password (password stored_hash : string) : bool :=
  if String.eqb stored_hash "" then false else pwhash_verify stored_hash password.

Definition _admin_token_digest (token : string) : string := sha256_hex token.
Definition admin_key (token : string) : string := _ADMIN_TOKEN_PREFIX +:+ _admin_token_digest token.

Definition _create_admin_token (ttl_seconds : Z) : M string :=
  let! token := token_ in
  let! _ := cmd_ (set_ex (admin_key token) "1" ttl_seconds) in
  ret token.

Definition _verify_admin_token (token : string) : M bool :=
  if String.eqb token "" then ret false
  else try_except (let! n := redis_ (rcall (EXISTS (admin_key token)) as_int) in ret (negb (n =? 0)%Z)) (fun _ => ret false).

Definition require_admin (authorization : option string) : M unit :=
  match truthy authorization with
  | None => http 401 "missing_authorization"
  | Some authorization =>
      let '(scheme, token) := partition_space authorization in
      if negb (String.eqb (lower scheme) "bearer") || String.eqb token "" then http 401 "invalid_authorization_scheme"
      else
        let! ok := _verify_admin_token (strip token) in
        if negb ok then http 401 "invalid_or_expired_admin_token" else ret tt
  end.

Record AdminLoginRequest := mkAdminLogin { al_username : string; al_password : string }.
Definition valid_AdminLoginRequest (b : AdminLoginRequest) : bool :=
  (string_len (al_username b) <=? 100)%Z && (string_len (al_password b) <=? 200)%Z.

(** Both are right. *)
Definition credentials_ok (b : AdminLoginRequest) : bool :=
  String.eqb (al_username b) (admin_username ad) && _verify_password (al_password b) (admin_password_hash ad).

(** The token, and how long it lives. *)
Definition admin_login (body : AdminLoginRequest) : M (string * Z) :=
  if String.eqb (admin_username ad) "" || String.eqb (admin_password_hash ad) "" then http 503 "admin_panel_not_configured"
  else if negb (credentials_ok body) then http 401 "invalid_credentials"
  else
    let! token := _create_admin_token (admin_session_ttl_seconds ad) in
    ret (token, admin_session_ttl_seconds ad).

Definition admin_logout (authorization : option string) : M unit :=
  let! _ := require_admin authorization in
  match truthy authorization with
  | None => ret tt
  | Some authorization =>
      let token := snd (partition_space authorization) in
      if String.eqb token "" then ret tt else cmd_ (DEL [admin_key (strip token)])
  end.
End Tokens.

(** ** Statistics *)

Section Stats.
  Context `{Ipaddress} (relay_name : string).

(** [{"hostname", "up", "version"}] *)
Definition _ping_relay (hostname : string) : M (bool * json) :=
  try_except
    (let! r := _pinned_get hostname "/health" in
     match r with
     | Some r =>
         if (fst r =? 200)%Z then
           let! data := json_of r in
           match data with JObj d => ret (true, default JNull (dict_get "version" d)) | _ => raise AttributeError end
         else ret (false, JNull)
     | None => ret (false, JNull)
     end)
    (fun _ => ret (false, JNull)).

Definition count_rows {A} (p : A -> bool) (l : list A) : Z := Z.of_nat (length (List.filter p l)).
Definition user_live (u : User) : bool := bool_decide (u_deleted_at u = None).
Definition seen_after (t : Z) (u : User) : bool := match u_last_seen_at u with Some s => (t <? s)%Z | None => false end.

(** [GROUP BY created_at / 86400 ORDER BY 1] with counts.  The division of SQLAlchemy 2 is exact, so the
    groups are the seconds. *)
Fixpoint group_count (ts : list Z) : list (Z * Z) :=
  match ts with
  | [] => []
  | t :: ts' =>
      match group_count ts' with
      | (t', c) :: g => if (t =? t')%Z then (t', (c + 1)%Z) :: g else (t, 1%Z) :: (t', c) :: g
      | [] => [(t, 1%Z)]
      end
  end.
Definition series_rows (week_ago : Z) (us : list User) : list (Z * Z) :=
  group_count (order_by (fun t => t) (map u_created_at (List.filter (fun u => user_live u && (week_ago <? u_created_at u)%Z) us))).
(** [{int(d): int(c) for d, c in series_rows}] *)
Definition by_bucket (rows : list (Z * Z)) : gmap Z Z :=
  fold_left (fun m '(t, c) => <[ Z.quot t 86400 := c ]> m) rows ∅.
Definition reg_series (now : Z) (us : list User) : list (Z * Z) :=
  let today_bucket := (now / 86400)%Z in
  let buckets := by_bucket (series_rows (now - 7 * 86400) us) in
  map (fun i => let b := (today_bucket - 6 + Z.of_nat i)%Z in (- (today_bucket - b), default 0%Z (buckets !! b))%Z) (seq 0 7).

Definition fed_status_value (st : FedQueueStatus) : string :=
  match st with PENDING => "pending" | IN_FLIGHT => "in_flight" | SUCCEEDED => "succeeded" | DEAD_LETTER => "dead_letter" end.
Definition by_status (q : list FederationOutboundQueue) : list (string * Z) :=
  List.filter (fun sc => (0 <? snd sc)%Z)
    (map (fun st => (fed_status_value st, count_rows (fun r => bool_decide (fq_status r = st)) q)) [PENDING; IN_FLIGHT; SUCCEEDED; DEAD_LETTER]).
Definition minimum (l : list Z) : option Z := match l with [] => None | x :: l' => Some (fold_left Z.min l' x) end.
(** [if oldest_pending]: not for a time of zero. *)
Definition oldest_pending_age (now : Z) (q : list FederationOutboundQueue) : option Z :=
  match minimum (map fq_created_at (List.filter (fun r => bool_decide (fq_status r = PENDING)) q)) with
  | Some t => if (t =? 0)%Z then None else Some (now - t)%Z
  | None => None
  end.

Record relay_info := mkRelayInfo { ri_hostname : string; ri_up : bool; ri_version : json; ri_self : bool; ri_trusted : option bool }.
Record stats := mkStats {
  sa_generated_at : Z; sa_total : Z; sa_local : Z; sa_last_24h : Z; sa_series : list (Z * Z); sa_dau : Z; sa_mau : Z;
  sa_by_status : list (string * Z); sa_oldest_pending_age : option Z; sa_groups : Z; sa_local_groups : Z;
  sa_envelopes : option Z; sa_relays : list relay_info
}.

Fixpoint ping_all (peers : list FederationPeer) : M (list relay_info) :=
  match peers with
  | [] => ret []
  | p :: peers' =>
      let! (up, version) := _ping_relay (fp_hostname p) in
      let! rest := ping_all peers' in
      ret (mkRelayInfo (fp_hostname p) up version false (Some (fp_is_trusted p)) :: rest)
  end.

(** What the tables say at [now]; the pings are still to come. *)
Definition table_stats (now : Z) (envelopes_in_flight : option Z) (db : database) : list relay_info -> stats :=
  let us := t_users db in
  let q := t_fedqueue db in
  let day_ago := (now - 86400)%Z in
  let live_groups := List.filter (fun g => bool_decide (g_deleted_at g = None)) (t_groups db) in
  mkStats now (count_rows user_live us)
    (count_rows (fun u => user_live u && String.eqb (u_home_relay u) relay_name) us)
    (count_rows (fun u => user_live u && (day_ago <? u_created_at u)%Z) us)
    (reg_series now us) (count_rows (seen_after day_ago) us) (count_rows (seen_after (now - 30 * 86400)) us)
    (by_status q) (oldest_pending_age now q) (count_rows (fun _ => true) live_groups)
    (count_rows (fun g => bool_decide (g_home_relay g = Some relay_name)) live_groups) envelopes_in_flight.

Definition admin_stats (envelopes_in_flight : option Z) : M stats :=
  let! now := now_ in
  let! info := sql (fun db => (table_stats now envelopes_in_flight db, db)) in
  let! peers := sql (fun db => (t_peers db, db)) in
  let! relays := ping_all peers in
  ret (info (mkRelayInfo relay_name true JNull true None :: relays)).
End Stats.
