(* ===== verification/Operator.v ===== *)
(** * The operator's commands (scripts/federate.py, scripts/set_user_tier.py)

    What an operator does at the shell of the relay: greet another relay, compare fingerprints, give and
    take back trust, accept a new key, set the tier of an account.  A command ends with its exit code and
    what it has printed; the texts are the constructors of [line].  Arguments are as argparse leaves them,
    and what the operator answers to a question is an argument too.  The tables are opened before. *)

From Stdlib Require Import Ascii String.
From stdpp Require Import prelude gmap strings list.
From S2P Require Import Prelude Json Codec RedisStore Models Effects Crypto Payloads Config Sessions RateLimit Deps.
From S2P Require Import FederationClient Federation.

#[local] Open Scope morok_scope.

(** What is printed. *)
Inductive line :=
| Card (hostname : string) (trusted : bool) (fp key : string) (last_handshake : option Z)
| NoPeers
| NoPeer (hostname : string)
| NoRelayKeys
| HandshakeFailed
| BadKey
| BadKeyLength (n : Z)
| KeyChanged (was was_fp is_now is_now_fp : string)
| AlreadyKnown
| Recorded (their_name : json)
| ConfirmTrust (hostname : string)
| Unchanged (hostname : string) (trusted : bool)
| NowTrusted (hostname fp : string)
| TrustRevoked (hostname : string)
| Cancelled
| KeyReplaced (hostname fp : string)
| Usage
| BadPubkey (pubkey_hex : string)
| BadTier
| NoUser (start : string)
| TierSet (start : string) (username : string) (was is_now : string).

(** ** federate.py *)

(** [int.from_bytes(b, "big")] *)
Fixpoint from_bytes_big (acc : Z) (b : string) : Z :=
  match b with EmptyString => acc | String c b' => from_bytes_big (acc * 256 + Z.of_N (N_of_ascii c)) b' end.
(** [s.zfill(n)] of a text without a sign. *)
Definition zfill (n : nat) (s : string) : string := string_of_list_ascii (repeat "0"%char (n - String.length s)) +:+ s.

Definition fingerprint `{Sha256} (pubkey : string) : string :=
  let digest := sha256 pubkey in
  String.concat " "
    (map (fun i => zfill 4 (print_Z (from_bytes_big 0 (substring i 2 digest) mod 10000))) [0; 2; 4; 6; 8; 10; 12; 14]%nat).

Definition trusting (value : bool) (p : FederationPeer) : FederationPeer :=
  mkPeer (fp_hostname p) (fp_pubkey p) value (fp_last_handshake_at p) (fp_created_at p).
Definition rekeyed (key : string) (t : Z) (p : FederationPeer) : FederationPeer :=
  mkPeer (fp_hostname p) key false (Some t) (fp_created_at p).
Definition select_peer (hostname : string) : M (option FederationPeer) :=
  sql (fun db => (select_one (hosted_at hostname) (t_peers db), db)).

(** [ORDER BY hostname], in the order of the database. *)
Fixpoint insert_named (before : string -> string -> bool) (p : FederationPeer) (l : list FederationPeer) : list FederationPeer :=
  match l with
  | [] => [p]
  | q :: l' => if before (fp_hostname p) (fp_hostname q) then p :: l else q :: insert_named before p l'
  end.
Definition by_hostname (before : string -> string -> bool) (l : list FederationPeer) : list FederationPeer :=
  foldr (insert_named before) [] l.

Section Federate.
  Context `{Sha256} `{Nacl} `{Ipaddress} (s : Settings) (before : string -> string -> bool).

Definition _print_peer (peer : FederationPeer) : line :=
  Card (fp_hostname peer) (fp_is_trusted peer) (fingerprint (fp_pubkey peer)) (hex_of_bytes (fp_pubkey peer))
    (match fp_last_handshake_at peer with Some t => if (t =? 0)%Z then None else Some t | None => None end).

Definition cmd_list : M (Z * list line) :=
  let! peers := own_session (sql (fun db => (by_hostname before (t_peers db), db))) in
  match peers with [] => ret (0%Z, [NoPeers]) | _ => ret (0%Z, map _print_peer peers) end.

Definition cmd_show (hostname : string) : M (Z * list line) :=
  let! peer := own_session (select_peer hostname) in
  match peer with None => ret (1%Z, [NoPeer hostname]) | Some peer => ret (0%Z, [_print_peer peer]) end.

(** The answer of the other relay, if it accepts; [result.get] of something that is no object raises. *)
Definition accepted_answer (hostname : string) : M (option dict) :=
  let! result := remote_handshake s hostname in
  match result with
  | None => ret None
  | Some j =>
      if negb (json_truthy j) then ret None
      else match j with
           | JObj d => if get_truthy "accepted" d then ret (Some d) else ret None
           | _ => raise AttributeError
           end
  end.
(** [bytes.fromhex(result.get("our_pubkey_hex") or "")]; [None]: its ValueError. *)
Definition answered_key (d : dict) : M (option string) :=
  let v := default JNull (dict_get "our_pubkey_hex" d) in
  if negb (json_truthy v) then ret (Some "")
  else match v with JStr h => ret (bytes_fromhex h) | _ => raise TypeError end.

(** The operator has still to confirm. *)
Definition to_confirm (hostname : string) (trusted : bool) : list line := if trusted then [] else [ConfirmTrust hostname].

Definition cmd_add (hostname : string) : M (Z * list line) :=
  if String.eqb (relay_privkey_hex s) "" || String.eqb (relay_pubkey_hex s) "" then ret (1%Z, [NoRelayKeys])
  else
    let! result := accepted_answer hostname in
    match result with
    | None => ret (1%Z, [HandshakeFailed])
    | Some result =>
        let! their_pubkey := answered_key result in
        let their_name := let v := default JNull (dict_get "our_relay_name" result) in if json_truthy v then v else JStr hostname in
        match their_pubkey with
        | None => ret (1%Z, [BadKey])
        | Some their_pubkey =>
            if negb (string_len their_pubkey =? 32)%Z then ret (1%Z, [BadKeyLength (string_len their_pubkey)])
            else
              own_session
                (let! peer := select_peer hostname in
                 match peer with
                 | Some peer =>
                     if negb (String.eqb (fp_pubkey peer) their_pubkey) then
                       ret (1%Z, [KeyChanged (hex_of_bytes (fp_pubkey peer)) (fingerprint (fp_pubkey peer))
                                    (hex_of_bytes their_pubkey) (fingerprint their_pubkey)])
                     else
                       let! now := now_ in
                       let! _ := store_peer (greeted now peer) in
                       let! _ := commit in
                       ret (0%Z, AlreadyKnown :: _print_peer (greeted now peer) :: to_confirm hostname (fp_is_trusted peer))
                 | None =>
                     let! now := now_ in
                     let peer := mkPeer hostname their_pubkey false (Some now) now in
                     let! _ := insert_peer peer in
                     let! _ := commit in
                     ret (0%Z, Recorded their_name :: _print_peer peer :: to_confirm hostname false)
                 end)
        end
    end.

Definition _set_trust (hostname : string) (value : bool) : M (Z * list line) :=
  own_session
    (let! peer := select_peer hostname in
     match peer with
     | None => ret (1%Z, [NoPeer hostname])
     | Some peer =>
         if Bool.eqb (fp_is_trusted peer) value then ret (0%Z, [Unchanged hostname value])
         else
           let! _ := store_peer (trusting value peer) in
           let! _ := commit in
           ret (0%Z, [if value then NowTrusted hostname (fingerprint (fp_pubkey peer)) else TrustRevoked hostname])
     end).

(** [answer]: to the question whether to go on. *)
Definition cmd_replace_key (hostname answer : string) : M (Z * list line) :=
  if negb (String.eqb (lower (strip answer)) "y") then ret (1%Z, [Cancelled])
  else
    let! result := accepted_answer hostname in
    match result with
    | None => ret (1%Z, [HandshakeFailed])
    | Some result =>
        let! new_pubkey := answered_key result in
        match new_pubkey with
        | None => ret (1%Z, [BadKey])
        | Some new_pubkey =>
            if negb (string_len new_pubkey =? 32)%Z then ret (1%Z, [BadKeyLength (string_len new_pubkey)])
            else
              own_session
                (let! peer := select_peer hostname in
                 match peer with
                 | None => ret (1%Z, [NoPeer hostname])
                 | Some peer =>
                     let! now := now_ in
                     let! _ := store_peer (rekeyed new_pubkey now peer) in
                     let! _ := commit in
                     ret (0%Z, [KeyReplaced hostname (fingerprint new_pubkey)])
                 end)
        end
    end.

Record Args := mkArgs {
  ar_hostname : option string; ar_list : bool; ar_trust : option string; ar_untrust : option string;
  ar_show : option string; ar_replace_key : option string
}.
Definition main (args : Args) (answer : string) : M (Z * list line) :=
  if ar_list args then cmd_list
  else match truthy (ar_trust args) with
       | Some h => _set_trust h true
       | None =>
           match truthy (ar_untrust args) with
           | Some h => _set_trust h false
           | None =>
               match truthy (ar_show args) with
               | Some h => cmd_show h
               | None =>
                   match truthy (ar_replace_key args) with
                   | Some h => cmd_replace_key h answer
                   | None => match truthy (ar_hostname args) with Some h => cmd_add h | None => ret (1%Z, [Usage]) end
                   end
               end
           end
       end.
End Federate.

(** ** set_user_tier.py *)

Definition tier_value (t : UserTier) : string := match t with FREE => "free" | PREMIUM => "premium" | ADMIN => "admin" end.
Definition tier_of (s : string) : option UserTier :=
  if String.eqb s "free" then Some FREE else if String.eqb s "premium" then Some PREMIUM
  else if String.eqb s "admin" then Some ADMIN else None.
Definition with_tier (t : UserTier) (u : User) : User :=
  mkUser (u_pubkey u) (u_username u) t (u_home_relay u) (u_created_at u) (u_last_seen_at u) (u_deleted_at u)
    (u_username_changed_at u).

Definition set_user_tier (pubkey_hex tier_str : string) : M (Z * list line) :=
  if negb (string_len pubkey_hex =? 64)%Z || negb (string_forallb (char_in "0123456789abcdef") pubkey_hex)
  then ret (1%Z, [BadPubkey pubkey_hex])
  else
    match tier_of tier_str with
    | None => ret (1%Z, [BadTier])
    | Some tier =>
        let! pubkey_bytes := fromhex_ pubkey_hex in
        own_session
          (let! user := sql (fun db => (select_one (fun u => String.eqb (u_pubkey u) pubkey_bytes) (t_users db), db)) in
           match user with
           | None => ret (2%Z, [NoUser (substring 0 16 pubkey_hex)])
           | Some user =>
               let! _ := sql (fun db =>
                 (tt, set_users (snd (update_where (fun u => String.eqb (u_pubkey u) (u_pubkey user)) (with_tier tier) (t_users db))) db)) in
               let! _ := commit in
               ret (0%Z, [TierSet (substring 0 16 pubkey_hex) (default "no-username" (truthy (u_username user)))
                            (tier_value (u_tier user)) (tier_value tier)])
           end)
    end.
