(* ===== verification/MailOut.v ===== *)
(** * Mail to the outside (mail_out.py, scripts/mailout_worker.py)

    The node that sends: it takes mails from the relay (api/mail.py), finds the servers of the recipient's
    domain, hands each mail to one of them, and reports.  It runs alone, apart from the relay.

    Everything the node asks the world is a [question]: names, connections, commands of SMTP, the date, its
    counter file, the relay.  What comes back is a [reply]; it may depend on everything that was asked and
    answered before ([env]), so names may resolve differently each time.  The conversation so far is the
    trace of the node.  Of smtplib and the email package the model has what the source uses of them; the
    text of a message ([Serialize]) is the email package's, DKIM and the resolver of DNS are other packages'.
    Text is ASCII; texts of refusals are as Python prints them if they hold no quotes. *)

From Stdlib Require Import Ascii String.
From stdpp Require Import prelude gmap strings list.
From S2P Require Import Prelude Json Codec RedisStore Models Effects Crypto Config Sessions RateLimit Deps.
From S2P Require Import FederationClient Account Mail.

#[local] Open Scope morok_scope.

(** ** The node *)

(** What is said on a connection. *)
Inductive verb :=
| Greeting                                            (* the server speaks first *)
| Ehlo (name : string)
| Starttls
| Tls (server_name : string)                          (* the TLS handshake *)
| MailFrom (addr : string)
| RcptTo (addr : string)
| DataVerb
| Content (raw : string)
| Rset
| Quit.

Inductive question :=
| QMx (domain : string)                               (* dns.resolver.resolve(domain, "MX") *)
| QAddresses (host : string)                          (* the resolver of the system, IPv4 *)
| QConnect (source : option string) (host ip : string)  (* TCP to port 25 of this host at this address *)
| QSay (host ip : string) (v : verb)
| QDate                                               (* formatdate() *)
| QMsgid                                              (* make_msgid() *)
| QSign (message : string)                            (* the DKIM signature *)
| QToday                                              (* time.strftime("%Y-%m-%d") *)
| QSave (text : string)                               (* writing the counter file *)
| QClaim (limit : Z)
| QReport (id : string) (ok : bool) (error : string) (again : bool)
| QSleep (seconds : Z).
Inductive reply :=
| RDone
| RFailed (text : string)                             (* an exception *)
| RMx (l : list (Z * string))
| RAddresses (l : list string)
| RCode (code : Z) (text : string)
| RText (text : string)
| RJobs (l : list MailJob).
Abbreviation trace := (list (question * reply)).

Record node := Node {
  nd_trace : trace;
  nd_patch : option (string * string);                (* socket.getaddrinfo is replaced for this host *)
  nd_counter : option string                          (* the counter file *)
}.

(** An exception is its text. *)
Inductive tried (A : Type) := Done (a : A) | Failed (text : string).
Arguments Done {A} a.
Arguments Failed {A} text.
Abbreviation X A := (node -> tried A * node).

Definition xret {A} (a : A) : X A := fun n => (Done a, n).
Definition xfail {A} (text : string) : X A := fun n => (Failed text, n).
Definition xbind {A B} (p : X A) (f : A -> X B) : X B :=
  fun n => match p n with (Done a, n') => f a n' | (Failed t, n') => (Failed t, n') end.
Definition xtry {A} (p : X A) (h : string -> X A) : X A :=
  fun n => match p n with (Failed t, n') => h t n' | r => r end.
Notation "'do!' x := p 'in' q" := (xbind p (fun x => q))
  (at level 10, x pattern, p at level 100, q at level 200) : morok_scope.
(** [try: p finally: q], where q does not raise. *)
Definition xfinally {A} (p : X A) (q : node -> node) : X A := fun n => let '(r, n') := p n in (r, q n').

(** ** The message *)

Record message := mkMessage {
  ms_headers : list (string * string); ms_text : string; ms_html : option string;
  ms_attachments : list (string * string * string * string)   (* data, main type, subtype, file name *)
}.
(** [msg.as_bytes()] *)
Class Serialize := as_bytes : message -> string.

(** A line that goes on behind a line break: the email package refuses it in a header. *)
Definition line_break (c : ascii) : bool :=
  let n := N_of_ascii c in ((10 <=? n)%N && (n <=? 13)%N) || ((28 <=? n)%N && (n <=? 30)%N).
Fixpoint two_lines (s : string) : bool :=
  match s with
  | EmptyString => false
  | String c s' =>
      if line_break c then
        match s' with
        | String d s'' => negb (Ascii.eqb c "013" && Ascii.eqb d "010" && String.eqb s'' "")
        | EmptyString => false
        end
      else two_lines s'
  end.

(** [b64decode(s)], which skips what is no base64: [None] is its error. *)
Fixpoint b64_skipping (quad_pos : nat) (left : N) (pads : nat) (s : string) : option string :=
  match s with
  | EmptyString => if (quad_pos =? 0)%nat then Some EmptyString else None
  | String c s' =>
      if Ascii.eqb c "=" then
        if (2 <=? quad_pos)%nat then
          if (4 <=? quad_pos + S pads)%nat then Some EmptyString else b64_skipping quad_pos left (S pads) s'
        else b64_skipping quad_pos left pads s'
      else
        match b64_val c with
        | None => b64_skipping quad_pos left pads s'
        | Some v =>
            match quad_pos with
            | 0 => b64_skipping 1 v 0 s'
            | 1 => String (ascii_of_N (left * 4 + v / 16)) <$> b64_skipping 2 (v mod 16) 0 s'
            | 2 => String (ascii_of_N (left * 16 + v / 4)) <$> b64_skipping 3 (v mod 4) 0 s'
            | _ => String (ascii_of_N (left * 64 + v)) <$> b64_skipping 0 0 0 s'
            end
        end
  end.

(** [a.get(k) or default]; [None]: something that is no text. *)
Definition text_or (k default_ : string) (a : dict) : option string :=
  match dict_get k a with
  | None => Some default_
  | Some v => if negb (json_truthy v) then Some default_ else match v with JStr s => Some s | _ => None end
  end.

(** One attachment; [None]: it is skipped. *)
Definition attachment_of (a : json) : option (string * string * string * string) :=
  match a with
  | JObj a =>
      b64 ← text_or "b64" "" a; data ← b64_skipping 0 0 0 b64; ct ← text_or "content_type" "application/octet-stream" a;
      filename ← text_or "filename" "file" a;
      let maintype := before (is_char "/") ct in
      let subtype := after (is_char "/") ct in
      if two_lines ct || two_lines filename then None
      else Some (data, (if String.eqb maintype "" then "application" else maintype),
                 (if String.eqb subtype "" then "octet-stream" else subtype), filename)
  | _ => None
  end.

Section Node.
  Context `{Ipaddress} `{Serialize} (env : trace -> question -> reply).
  Context (SOURCE_IP HELO_NAME : string).

Definition ask (q : question) : X reply :=
  fun n => let r := env (nd_trace n) q in (Done r, Node (nd_trace n ++ [(q, r)]) (nd_patch n) (nd_counter n)).
(** An answer that cannot be. *)
Definition odd {A} (r : reply) : X A := xfail (match r with RFailed t => t | _ => "" end).
Definition ask_text (q : question) : X string := do! r := ask q in match r with RText t => xret t | _ => odd r end.

(** ** Names *)

(** [socket.getaddrinfo(host, 25)], which may be replaced. *)
Definition getaddrinfo (host : string) : X (list string) :=
  fun n => match nd_patch n with
           | Some (hostname, pinned_ip) =>
               if String.eqb host hostname then (Done [pinned_ip], n)
               else (do! r := ask (QAddresses host) in match r with RAddresses l => xret l | _ => odd r end) n
           | None => (do! r := ask (QAddresses host) in match r with RAddresses l => xret l | _ => odd r end) n
           end.

Definition _resolve_pinned_mx (hostname : string) : X (option string) :=
  xtry
    (do! infos := getaddrinfo hostname in
     xret (if forallb _is_public_ip infos then head infos else None))
    (fun _ => xret None).

Definition patch (p : option (string * string)) (n : node) : node := Node (nd_trace n) p (nd_counter n).
Definition _pinned_dns {A} (hostname pinned_ip : string) (body : X A) : X A :=
  fun n => let real_getaddrinfo := nd_patch n in
           xfinally body (patch real_getaddrinfo) (patch (Some (hostname, pinned_ip)) n).

(** ** smtplib *)

(** [create_connection]: the addresses in turn; the error of the last. *)
Fixpoint create_connection (host last : string) (addresses : list string) : X string :=
  match addresses with
  | [] => xfail last
  | ip :: addresses' =>
      do! r := ask (QConnect (truthy (Some SOURCE_IP)) host ip) in
      match r with RDone => xret ip | RFailed t => create_connection host t addresses' | _ => create_connection host "" addresses' end
  end.

(** A command and its answer; the other end may hang up. *)
Definition say (host ip : string) (v : verb) : X (Z * string) :=
  do! r := ask (QSay host ip v) in match r with RCode code text => xret (code, text) | _ => odd r end.

Definition print_refusal (code : Z) (text : string) : string := "(" +:+ print_Z code +:+ ", b'" +:+ text +:+ "'".

(** [smtplib.SMTP(host=mx, port=25)]: connected to this address. *)
Definition smtp_connect (mx : string) : X string :=
  do! addresses := getaddrinfo mx in
  do! ip := create_connection mx "getaddrinfo returns an empty list" addresses in
  do! (code, text) := say mx ip Greeting in
  if (code =? 220)%Z then xret ip else xfail (print_refusal code text +:+ ")").

(** The name of an extension at the start of a line of the answer to EHLO. *)
Definition extension (line : string) : string := lower (before (fun c => negb (is_alnum c || Ascii.eqb c "-")) line).
(** [smtp.ehlo(HELO_NAME); smtp.has_extn("starttls")] *)
Definition ehlo (mx ip : string) : X bool :=
  do! (code, text) := say mx ip (Ehlo HELO_NAME) in
  xret ((code =? 250)%Z && bool_decide ("starttls" ∈ map extension (tail (split_on "010" text)))).

Definition starttls (mx ip : string) : X unit :=
  do! (code, text) := say mx ip Starttls in
  if (code =? 220)%Z then
    do! r := ask (QSay mx ip (Tls mx)) in match r with RDone => xret tt | _ => odd r end
  else xfail (print_refusal code text +:+ ")").

(** A refusal within a transaction: it is reset, or the connection is closed, and the error raised. *)
Definition refused {A} (mx ip : string) (code : Z) (error : string) : X A :=
  do! _ := (if (code =? 421)%Z then xret tt
            else xtry (do! _ := say mx ip Rset in xret tt) (fun _ => xret tt)) in
  xfail error.

(** [smtp.sendmail(from_addr, [to_addr], raw)] *)
Definition sendmail (mx ip from_addr to_addr raw : string) : X unit :=
  do! (code, text) := say mx ip (MailFrom from_addr) in
  if negb (code =? 250)%Z then refused mx ip code (print_refusal code text +:+ ", '" +:+ from_addr +:+ "')")
  else
    do! (code, text) := say mx ip (RcptTo to_addr) in
    if negb (code =? 250)%Z && negb (code =? 251)%Z
    then refused mx ip code ("{'" +:+ to_addr +:+ "': " +:+ print_refusal code text +:+ ")}")
    else
      do! (code, text) := say mx ip DataVerb in
      if negb (code =? 354)%Z then xfail (print_refusal code text +:+ ")")
      else
        do! (code, text) := say mx ip (Content raw) in
        if negb (code =? 250)%Z then refused mx ip code (print_refusal code text +:+ ")") else xret tt.

(** ** mail_out.py *)

Definition set_header (name value : string) (msg : list (string * string)) : X (list (string * string)) :=
  if two_lines value then xfail "Header values may not contain linefeed or carriage return characters"
  else xret (msg ++ [(name, value)]).

Definition threading (in_reply_to references : option string) (msg : list (string * string)) : X (list (string * string)) :=
  match truthy in_reply_to with
  | None => xret msg
  | Some r =>
      do! msg := set_header "In-Reply-To" r msg in
      set_header "References" (match truthy references with Some refs => strip (refs +:+ " " +:+ r) | None => r end) msg
  end.

(** [for a in (attachments or [])]; text and keys of an object have no [get] and are skipped. *)
Definition attachment_list (j : json) : X (list json) :=
  if negb (json_truthy j) then xret []
  else match j with JArr l => xret l | JStr _ | JObj _ => xret [] | _ => xfail "object is not iterable" end.

Definition build_message (from_addr to_addr subject body_text : string) (body_html : option string) (attachments : json)
    (in_reply_to references : option string) : X message :=
  do! msg := set_header "From" from_addr [] in
  do! msg := set_header "To" to_addr msg in
  do! msg := set_header "Subject" subject msg in
  do! date := ask_text QDate in
  do! msg := set_header "Date" date msg in
  do! id := ask_text QMsgid in
  do! msg := set_header "Message-ID" id msg in
  do! msg := threading in_reply_to references msg in
  do! attachments := attachment_list attachments in
  xret (mkMessage msg body_text (truthy body_html) (omap attachment_of attachments)).

Definition dkim_sign (msg_bytes : string) : X string :=
  do! sig := ask_text (QSign msg_bytes) in
  xret (sig +:+ msg_bytes).

(** [sorted((r.preference, str(r.exchange).rstrip(".")) for r in answers)], by preference and name. *)
Fixpoint rstrip_dots (s : string) : string :=
  match s with
  | EmptyString => ""
  | String c s' => match rstrip_dots s' with EmptyString => if Ascii.eqb c "." then "" else String c "" | r => String c r end
  end.
Definition mx_before (a b : Z * string) : bool := (fst a <? fst b)%Z || ((fst a =? fst b)%Z && String.leb (snd a) (snd b)).
Fixpoint insert_mx (x : Z * string) (l : list (Z * string)) : list (Z * string) :=
  match l with [] => [x] | y :: l' => if mx_before x y then x :: l else y :: insert_mx x l' end.
Definition lookup_mx (domain : string) : X (list string) :=
  do! r := ask (QMx domain) in
  match r with
  | RMx l => xret (map snd (foldr insert_mx [] (map (fun pe => (fst pe, rstrip_dots (snd pe))) l)))
  | _ => odd r
  end.

(** One server: connected, greeted, and the message handed over. *)
Definition deliver_via (mx pinned_ip from_addr to_addr raw : string) : X (bool * string) :=
  _pinned_dns mx pinned_ip
    (do! ip := smtp_connect mx in
     do! tls := ehlo mx ip in
     do! _ := (if (tls : bool) then do! _ := starttls mx ip in do! _ := ehlo mx ip in xret tt else xret tt) in
     do! _ := sendmail mx ip from_addr to_addr raw in
     do! _ := say mx ip Quit in
     xret (true, "delivered via " +:+ mx)).

(** The servers in turn. *)
Fixpoint try_servers (from_addr to_addr raw last_err : string) (mxs : list string) : X (bool * string) :=
  match mxs with
  | [] => xret (false, "all MX failed (" +:+ last_err +:+ ")")
  | mx :: mxs' =>
      do! pinned_ip := _resolve_pinned_mx mx in
      match pinned_ip with
      | None => try_servers from_addr to_addr raw (mx +:+ ": resolves to non-public address or DNS failure") mxs'
      | Some pinned_ip =>
          do! r := xtry (do! ok := deliver_via mx pinned_ip from_addr to_addr raw in xret (inl ok)) (fun e => xret (inr e)) in
          match r with
          | inl ok => xret ok
          | inr e => try_servers from_addr to_addr raw (mx +:+ ": " +:+ e) mxs'
          end
      end
  end.

Definition send_external (from_addr to_addr subject body_text : string) (body_html : option string) (attachments : json)
    (in_reply_to references : option string) : X (bool * string) :=
  if negb (char_in to_addr "@") then xret (false, "bad recipient address")
  else
    let domain := lower (after (is_char "@") to_addr) in
    do! mxs := xtry (do! l := lookup_mx domain in xret (inl l)) (fun e => xret (inr e)) in
    match mxs with
    | inr e => xret (false, "MX lookup failed: " +:+ e)
    | inl [] => xret (false, "no MX records")
    | inl mxs =>
        do! msg := build_message from_addr to_addr subject body_text body_html attachments in_reply_to references in
        do! raw := dkim_sign (as_bytes msg) in
        try_servers from_addr to_addr raw "unknown" mxs
    end.

(** ** mailout_worker.py *)

(** [c.get(today, 0)] of the counter file. *)
Definition _load_counter : X json := fun n => (Done (default (JObj []) (nd_counter n ≫= loads)), n).
Definition count_of (c : json) (today : string) : option Z :=
  match c with JObj d => match dict_get today d with None => Some 0%Z | Some v => int_of v end | _ => None end.
Definition int_count (c : json) (today : string) : X Z :=
  match count_of c today with Some z => xret z | None => xfail "int() argument" end.
Definition today_ : X string := do! r := ask QToday in xret (match r with RText t => t | _ => "" end).

Definition _sent_today : X Z :=
  do! c := _load_counter in
  do! today := today_ in
  int_count c today.

(** The file is emptied and written; a failure may leave a part of the text. *)
Definition _save_counter (c : json) : X unit :=
  let text := dumps c in
  do! r := ask (QSave text) in
  fun n => match r with
           | RDone => (Done tt, Node (nd_trace n) (nd_patch n) (Some text))
           | RText part => (Failed "write", Node (nd_trace n) (nd_patch n) (Some part))
           | _ => odd r n
           end.
Definition _bump_today : X unit :=
  do! c := _load_counter in
  do! today := today_ in
  do! sent := int_count c today in
  _save_counter (JObj [(today, JNum (sent + 1))]).

Definition _is_permanent (err : string) : bool :=
  existsb (fun code => contains code (lower err)) ["550"; "551"; "553"; "554"; "no mx"; "bad recipient"].

Definition claim (limit : Z) : X (list MailJob) := do! r := ask (QClaim limit) in match r with RJobs l => xret l | _ => odd r end.
Definition report (id : string) (ok : bool) (error : string) (again : bool) : X unit :=
  do! r := ask (QReport id ok error again) in match r with RDone => xret tt | _ => odd r end.

Definition or_none (s : string) : option string := truthy (Some s).
Definition do_job (j : MailJob) : X unit :=
  do! (ok, info) := send_external (mj_from_addr j) (mj_to_addr j)
      (default "(без теми)" (or_none (mj_subject j))) (mj_text j) None (mj_attachments j)
      (or_none (mj_in_reply_to j)) (or_none (mj_references j)) in
  if (ok : bool) then
    do! _ := _bump_today in
    report (mj_id j) true "" false
  else report (mj_id j) false info (negb (_is_permanent info)).
Fixpoint do_jobs (jobs : list MailJob) : X unit :=
  match jobs with [] => xret tt | j :: jobs' => do! _ := do_job j in do_jobs jobs' end.

Definition sleep (seconds : Z) : X unit := do! _ := ask (QSleep seconds) in xret tt.

(** One round of the loop. *)
Definition turn (DAILY_CAP POLL_SECONDS : Z) : X unit :=
  xtry
    (do! sent := _sent_today in
     let left := (DAILY_CAP - sent)%Z in
     if (left <=? 0)%Z then sleep 3600
     else
       do! jobs := claim (Z.min left 5) in
       match jobs with [] => sleep POLL_SECONDS | _ => do_jobs jobs end)
    (fun _ => sleep 30).

(** The loop, which ends with the process: here after so many rounds. *)
Fixpoint turns (DAILY_CAP POLL_SECONDS : Z) (rounds : nat) : X unit :=
  match rounds with
  | O => xret tt
  | S rounds' => do! _ := turn DAILY_CAP POLL_SECONDS in turns DAILY_CAP POLL_SECONDS rounds'
  end.
Definition worker_main (TOKEN : string) (DAILY_CAP POLL_SECONDS : Z) (rounds : nat) : X unit :=
  if String.eqb TOKEN "" then xfail "MAILOUT_TOKEN не задано" else turns DAILY_CAP POLL_SECONDS rounds.
End Node.
