(* ===== verification/GroupFacts.v ===== *)
(** * Groups: properties

    What each endpoint may do to the groups and their members, as a step relation; what that keeps
    true of the groups this relay hosts; and what joining takes. *)

From Stdlib Require Import Ascii String.
From stdpp Require Import prelude gmap strings list.
From S2P Require Import Prelude Json Codec RedisStore Models Effects Crypto Payloads Config Sessions RateLimit Deps Logic.
From S2P Require Import FederationClient WorkerFacts BlobStorage Queue QueueFacts Messages MessagesFacts Groups GroupMessages GroupSync.
From S2P Require Dms.

#[local] Open Scope morok_scope.

(** ** Steps of the groups and their members *)

Definition gstate : Type := list Group * list GroupMember.
Definition gs (db : database) : gstate := (t_groups db, t_members db).
Definition within (id : string) (ms : list GroupMember) : list GroupMember := List.filter (in_group id) ms.
Definition outside (id : string) (ms : list GroupMember) : list GroupMember :=
  List.filter (fun m => negb (in_group id m)) ms.
Definition member_key (m : GroupMember) : string * string := (gm_group_id m, gm_pubkey m).
Definition distinct_members (ms : list GroupMember) : Prop := NoDup (map member_key ms).

(** Who acts: a user with a key, or another relay as the host of a group. *)
Inductive actor := AsUser (pubkey : string) | AsHost (hostname : string).

Definition is_live (g : Group) : Prop := g_deleted_at g = None.
Definition has_room (g : Group) (ms : list GroupMember) : Prop :=
  (Z.of_nat (length (within (g_id g) ms)) < g_max_members g)%Z.
Definition is_in (id pk : string) (ms : list GroupMember) : Prop := (id, pk) ∈ map member_key ms.
Definition admin_in (id pk : string) (ms : list GroupMember) : Prop :=
  exists m, m ∈ ms /\ gm_group_id m = id /\ gm_pubkey m = pk /\ gm_is_admin m = true.
Definition put_group (g : Group) (gl : list Group) : list Group :=
  map (fun r => if has_group_id (g_id g) r then g else r) gl.

(** The row that a snapshot of the host [h] leaves: new, or a copy that [h] hosts already or nobody
    claims, of which only the mutable fields change. *)
Inductive copied (h : string) (gid : string) (gl : list Group) : list Group -> Prop :=
| copied_new g :
    g_id g = gid -> g_home_relay g = Some h -> (forall g', g' ∈ gl -> clashes g g' = false) -> copied h gid gl (gl ++ [g])
| copied_again g snapshot ttl max :
    g ∈ gl -> g_id g = gid -> hosted_elsewhere h g = None -> copied h gid gl (put_group (refreshed h snapshot ttl max g) gl).

Section Steps.
  Context (own : string) (now : Z).

Inductive group_step : actor -> gstate -> gstate -> Prop :=
| step_create pk g gl ms :
    (forall g', g' ∈ gl -> clashes g g' = false) -> g_creator_pubkey g = pk -> g_home_relay g = Some own -> is_live g ->
    (1 <= g_max_members g <= PREMIUM_TIER_MAX_MEMBERS)%Z -> ~ is_in (g_id g) pk ms ->
    group_step (AsUser pk) (gl, ms) (gl ++ [g], ms ++ [mkMember (g_id g) pk true now])
| step_delete pk g gl ms :
    g ∈ gl -> is_live g -> g_creator_pubkey g = pk ->
    group_step (AsUser pk) (gl, ms) (put_group (with_deleted_at now g) gl, ms)
| step_add pk target g gl ms :
    g ∈ gl -> is_live g -> admin_in (g_id g) pk ms -> ~ is_in (g_id g) target ms -> has_room g ms ->
    group_step (AsUser pk) (gl, ms) (gl, ms ++ [mkMember (g_id g) target false now])
| step_join pk g gl ms :
    g ∈ gl -> is_live g -> ~ is_in (g_id g) pk ms -> has_room g ms ->
    group_step (AsUser pk) (gl, ms) (gl, ms ++ [mkMember (g_id g) pk false now])
| step_remove pk target g gl ms :
    g ∈ gl -> is_live g -> target = pk \/ admin_in (g_id g) pk ms -> target <> g_creator_pubkey g ->
    group_step (AsUser pk) (gl, ms)
      (gl, List.filter (fun m => negb (in_group (g_id g) m && String.eqb (gm_pubkey m) target)) ms)
| step_snapshot h gid gl gl' ms ms' :
    copied h gid gl gl' -> outside gid ms' = outside gid ms -> (distinct_members ms -> distinct_members ms') ->
    group_step (AsHost h) (gl, ms) (gl', ms').

(** ** What a handler may leave *)

Section Handler.
  Context (db : database).

Definition same (t : tables) : Prop := t.1 = db /\ gs t.2 = gs db.
Definition post (who : actor) {A} (r : res A) (t : tables) : Prop :=
  t.1 = db /\ match r with Ok _ => gs t.2 = gs db \/ group_step who (gs db) (gs t.2) | Raise _ => True end.

Lemma post_same {A} who (r : res A) t : same t -> post who r t.
Proof. intros [Hc Hg]. split; [done|]. destruct r; auto. Qed.

Lemma h_end {A} who (r : res A) : db_run now same (Ret r) (post who).
Proof. intros w Hn Hw. split; [by apply post_same|done]. Qed.

Lemma h_bind {A B} who (p : M A) (f : A -> M B) (R : A -> Prop) :
  db_run now same p (fun r t => same t /\ match r with Ok a => R a | Raise _ => True end) ->
  (forall a, R a -> db_run now same (f a) (post who)) -> db_run now same (bind p f) (post who).
Proof.
  intros Hp Hf. eapply db_bind; [exact Hp| |].
  - intros a w Hn [Hw HR]. by apply (Hf a).
  - intros e t [Ht _]. by apply post_same.
Qed.

Lemma same_leaves {A} (p : prog A) : leaves gs p -> db_run now same p (fun _ t => same t).
Proof. intros Hp. apply (db_leaves gs); [done|]. intros c d d' E [H1 H2]. split; [done|]. cbn in *. congruence. Qed.

Lemma h_leaves {A B} who (p : M A) (f : A -> M B) :
  leaves gs p -> (forall a, db_run now same (f a) (post who)) -> db_run now same (bind p f) (post who).
Proof.
  intros Hp Hf. apply (h_bind who p f (fun _ => True)); [|auto].
  eapply db_weaken; [by apply same_leaves|done|]. intros r t Ht. split; [done|by destruct r].
Qed.

Lemma h_quiet {A} who (p : M A) : leaves gs p -> db_run now same p (post who).
Proof. intros Hp. eapply db_weaken; [by apply same_leaves|done|]. intros r t Ht. by apply post_same. Qed.

Lemma h_fromhex {B} who x (f : string -> M B) :
  (forall b, bytes_fromhex x = Some b -> db_run now same (f b) (post who)) ->
  db_run now same (bind (fromhex_ x) f) (post who).
Proof.
  intros Hf. apply (h_bind who _ f (fun b => bytes_fromhex x = Some b)); [|auto].
  unfold fromhex_. destruct (bytes_fromhex x); intros w Hn Hw; done.
Qed.

Lemma h_now {B} who (f : Z -> M B) : db_run now same (f now) (post who) -> db_run now same (bind now_ f) (post who).
Proof.
  intros Hf. apply (h_bind who now_ f (fun t => t = now)); [|by intros ? ->].
  eapply db_weaken; [apply db_now|done|]. by intros r t [-> Ht].
Qed.

(** A statement on the groups and members alone reads them as they were. *)
Lemma h_sql {A B} who (q : gstate -> A) (g : database -> A) (f : A -> M B) :
  (forall d, g d = q (gs d)) -> db_run now same (f (q (gs db))) (post who) ->
  db_run now same (bind (sql (fun d => (g d, d))) f) (post who).
Proof.
  intros Hq Hf. apply (h_bind who _ f (fun a => a = q (gs db))); [|by intros ? ->].
  eapply db_weaken; [apply db_sql|done|]. intros r [t1 t2] (d & -> & E & [H1 H2]). cbn in *. subst.
  split; [done|]. by rewrite Hq, H2.
Qed.

Lemma h_load {B} who gid (f : loaded -> M B) :
  (forall g, g ∈ t_groups db -> g_id g = gid -> is_live g ->
     db_run now same (f (Loaded g (within gid (t_members db)))) (post who)) ->
  db_run now same (bind (_load_group gid) f) (post who).
Proof.
  intros Hf. eapply h_bind with (R := fun l => exists g, l = Loaded g (within gid (t_members db)) /\
    g ∈ t_groups db /\ g_id g = gid /\ is_live g); [|by intros ? (g & -> & ? & ? & ?); apply Hf].
  unfold _load_group. eapply db_bind; [apply db_sql| |by intros e t (d & ? & _)].
  intros found w Hn (d & Ed & E2 & Hw). split; [|by destruct found].
  destruct (tables_of w) as [t1 t2] eqn:Et. cbn in E2. subst t2.
  assert (Hs : same (t1, d)) by done. injection Ed as ->.
  assert (Ew : tables_of w = (t1, d)) by done.
  destruct Hs as [H1 H2]. cbn in H2. unfold gs in H2. injection H2 as Hg Hm.
  destruct (select_one (live_group gid) (t_groups d)) as [g|] eqn:Es; cbn.
  - rewrite Ew. split; [split; [done|]; cbn; unfold gs; congruence|]. exists g. apply select_in in Es as [Hin Hl].
    unfold live_group, has_group_id in Hl. apply andb_true_iff in Hl as [Hid%String.eqb_eq Hd%negb_true_iff%bool_decide_eq_false].
    rewrite Hg in Hin. unfold members_of, within. rewrite Hm. split_and!; [done|done|done|]. unfold is_live.
    destruct (g_deleted_at g); [|done]. by destruct Hd.
  - rewrite Ew. split; [split; [done|]; cbn; unfold gs; congruence|done].
Qed.

(** Reaching another state of the groups, and what follows leaves it. *)
Definition reached (x : gstate) (t : tables) : Prop := t.1 = db /\ gs t.2 = x.

Lemma h_reached {A} who x (p : M A) : leaves gs p -> group_step who (gs db) x -> db_run now (reached x) p (post who).
Proof.
  intros Hp Hx. eapply db_weaken; [apply (db_leaves gs now p (reached x) Hp)|done|].
  - intros c d d' E [H1 H2]. split; [done|]. cbn in *. congruence.
  - intros r t [H1 H2]. split; [done|]. destruct r; [|done]. right. by rewrite H2.
Qed.

(** From one state of the groups to another. *)
Lemma r_bind {A B} who x y (p : M A) (f : A -> M B) (Q : Prop) :
  db_run now (reached x) p (fun r t => t.1 = db /\ match r with Ok _ => reached y t /\ Q | Raise _ => True end) ->
  (Q -> forall a, db_run now (reached y) (f a) (post who)) -> db_run now (reached x) (bind p f) (post who).
Proof.
  intros Hp Hf. eapply db_bind; [exact Hp| |by intros e t [H1 _]; split]. intros a w Hn (_ & Hw & HQ). by apply (Hf HQ a).
Qed.

Lemma r_insert_member gl ms m :
  db_run now (reached (gl, ms)) (insert_member m) (fun r t => t.1 = db /\ match r with
    | Ok _ => reached (gl, ms ++ [m]) t /\ ~ is_in (gm_group_id m) (gm_pubkey m) ms
    | Raise _ => True end).
Proof.
  unfold insert_member. eapply db_bind; [apply db_sql| |by intros e t (d & ? & _)].
  intros ok w Hn (d & Eok & E2 & [H1 H2]). unfold gs in H2. cbn [fst snd] in *. injection H2 as Hg Hm. subst gl ms.
  injection Eok as ->. destruct (existsb _ (t_members d)) eqn:Ex; cbn [snd] in E2; (split; [|done]); cbn.
  - done.
  - split; [done|]. split; [split; [done|]; by rewrite E2|]. intros (m' & Hk & Hin)%list_elem_of_fmap.
    apply not_true_iff_false in Ex. apply Ex, existsb_exists. exists m'. split; [by apply list_elem_of_In|].
    unfold member_key in Hk. injection Hk as Hk1 Hk2. unfold in_group. by rewrite Hk1, Hk2, !String.eqb_refl.
Qed.

Lemma r_insert_group gl ms g :
  db_run now (reached (gl, ms)) (insert_group g) (fun r t => t.1 = db /\ match r with
    | Ok _ => reached (gl ++ [g], ms) t /\ (forall g', g' ∈ gl -> clashes g g' = false)
    | Raise _ => True end).
Proof.
  unfold insert_group. eapply db_bind; [apply db_sql| |by intros e t (d & ? & _)].
  intros ok w Hn (d & Eok & E2 & [H1 H2]). unfold gs in H2. cbn [fst snd] in *. injection H2 as Hg Hm. subst gl ms.
  injection Eok as ->. destruct (existsb _ (t_groups d)) eqn:Ex; cbn [snd] in E2; (split; [|done]); cbn.
  - done.
  - split; [done|]. split; [split; [done|]; by rewrite E2|]. intros g' Hin. apply not_true_iff_false. intros Hc.
    apply not_true_iff_false in Ex. apply Ex, existsb_exists. exists g'. split; [by apply list_elem_of_In|done].
Qed.

Lemma r_store_group gl ms g :
  db_run now (reached (gl, ms)) (store_group g) (fun r t => t.1 = db /\ match r with
    | Ok _ => reached (put_group g gl, ms) t /\ True | Raise _ => True end).
Proof.
  eapply db_weaken; [apply db_sql|done|]. intros r [t1 t2] (d & -> & E & [H1 H2]). cbn in *. subst.
  unfold gs in H2. injection H2 as <- <-. done.
Qed.

Lemma r_delete_member gl ms id pk :
  db_run now (reached (gl, ms)) (delete_member id pk) (fun r t => t.1 = db /\ match r with
    | Ok _ => reached (gl, List.filter (fun m => negb (in_group id m && String.eqb (gm_pubkey m) pk)) ms) t /\ True
    | Raise _ => True end).
Proof.
  eapply db_weaken; [apply db_sql|done|]. intros r [t1 t2] (d & -> & E & [H1 H2]). cbn in *. subst.
  unfold gs in H2. injection H2 as <- <-. done.
Qed.
End Handler.
End Steps.

(** ** Helpers that leave the groups alone *)

Section Quiet.
  Context `{Sha256} `{Nacl} `{Ipaddress} (s : Settings).

Lemma leaves_user k : leaves gs (_get_current_user s k).
Proof.
  unfold _get_current_user, Dms._get_current_user, fromhex_. leaves; done.
Qed.
Lemma leaves_users_in {A} (f : User -> A) keys : leaves gs (users_in f keys).
Proof. unfold users_in. leaves; done. Qed.
Lemma leaves_detailed l : leaves gs (_to_group_info_detailed l).
Proof. unfold _to_group_info_detailed. apply leaves_bind; [apply leaves_users_in|done]. Qed.
Lemma leaves_split keys : leaves gs (split_members s keys).
Proof. unfold split_members. apply leaves_bind; [apply leaves_users_in|done]. Qed.
Lemma leaves_add_fed id data target now : leaves gs (add_fed_row id data target now).
Proof. unfold add_fed_row. leaves; done. Qed.
Lemma leaves_queue_once id data target now : leaves gs (queue_once id data target now).
Proof. unfold queue_once. apply leaves_bind; [done|]. intros [r|]; [done|apply leaves_add_fed]. Qed.
Lemma leaves_queue_control id data target : leaves gs (queue_control id data target).
Proof.
  unfold queue_control. apply leaves_bind; [done|]. intros [r|]; [done|].
  apply leaves_bind; [leaves|]. intros t. apply leaves_add_fed.
Qed.
Lemma leaves_queue_to row remote now : leaves gs (queue_to_relays row remote now).
Proof.
  induction remote as [|[t ms] remote IH]; [done|]. cbn [queue_to_relays]. destruct (row t ms).
  apply leaves_bind; [apply leaves_queue_once|done].
Qed.
Lemma leaves_peers keys : leaves gs (_peer_relays_for_members s keys).
Proof. unfold _peer_relays_for_members. apply leaves_bind; [apply leaves_users_in|done]. Qed.
Lemma leaves_push id payload now targets n : leaves gs (push_snapshots s id payload now targets n).
Proof.
  revert n. induction targets as [|t targets IH]; intros n; [done|]. cbn [push_snapshots].
  destruct (String.eqb t (relay_name s)); [apply IH|]. apply leaves_bind; [apply leaves_add_fed|intros; apply IH].
Qed.
Lemma leaves_snapshots l targets : leaves gs (enqueue_snapshot_to_relays s l targets).
Proof.
  unfold enqueue_snapshot_to_relays. destruct (decide _); [done|]. apply leaves_bind; [leaves|]. intros t.
  cbv zeta. apply leaves_bind; [leaves|]. intros now. apply leaves_push.
Qed.
Lemma leaves_refresh g : leaves gs (refresh_members g).
Proof. done. Qed.
Lemma leaves_parse x : leaves gs (_parse_group_id x).
Proof. unfold _parse_group_id, http. leaves. Qed.
Lemma leaves_fanout group e u id : leaves gs (do_group_fanout s group e u id).
Proof.
  unfold do_group_fanout. apply leaves_bind; [unfold fromhex_; leaves|]. intros pk.
  apply leaves_bind; [apply leaves_split|]. intros [local remote].
  apply leaves_bind; [destruct local; [done|]; unfold enqueue_envelope_for_recipients, spawn; leaves|]. intros c.
  apply leaves_bind; [leaves|]. intros now. apply leaves_bind; [apply leaves_queue_to|done].
Qed.
End Quiet.

(** ** Membership of a loaded group *)

Lemma is_member_in g id ms pk : _is_member (Loaded g (within id ms)) pk = true <-> is_in id pk ms.
Proof.
  unfold _is_member, is_in. cbn [l_members]. rewrite existsb_exists, list_elem_of_fmap. split.
  - intros (m & [Hin Hg]%List.filter_In & Hk%String.eqb_eq). apply String.eqb_eq in Hg.
    exists m. split; [unfold member_key; congruence|by apply list_elem_of_In].
  - intros (m & [= -> ->] & Hin). exists m. split; [|by apply String.eqb_eq].
    apply List.filter_In. split; [by apply list_elem_of_In|]. by apply String.eqb_eq.
Qed.

Lemma is_admin_in g id ms pk : _is_admin (Loaded g (within id ms)) pk = true <-> admin_in id pk ms.
Proof.
  unfold _is_admin, admin_in. cbn [l_members]. rewrite existsb_exists. split.
  - intros (m & [Hin Hg]%List.filter_In & [Ha Hk%String.eqb_eq]%andb_true_iff). apply String.eqb_eq in Hg.
    exists m. by rewrite list_elem_of_In.
  - intros (m & Hin & <- & <- & Ha). exists m. rewrite Ha, String.eqb_refl. split; [|done].
    apply List.filter_In. split; [by apply list_elem_of_In|]. by apply String.eqb_eq.
Qed.

Lemma max_members_range t : (1 <= max_members_for t <= PREMIUM_TIER_MAX_MEMBERS)%Z.
Proof. by destruct t. Qed.

(** ** The endpoints *)

Section Endpoints.
  Context `{Sha256} `{Nacl} `{Ipaddress} (s : Settings) (now : Z) (db : database).
Abbreviation own := (relay_name s).
Abbreviation state := (gs db).
Abbreviation leaves_post who p := (db_run now (same db) p (post own now db who)).

Lemma create_post body c pk :
  bytes_fromhex (pubkey_hex c) = Some pk -> leaves_post (AsUser pk) (create_group s body c).
Proof.
  intros Hpk. unfold create_group. apply h_leaves; [apply leaves_user|]. intros user. apply h_now. cbv zeta.
  destruct (_ && _); [apply h_end|]. apply h_leaves; [destruct (gc_slug body); [done|leaves]|]. intros existing.
  case_bool_decide; [apply h_end|]. destruct (match gc_expires_at body with Some _ => _ | None => _ end); [apply h_end|].
  apply h_leaves; [leaves|]. intros name. apply h_fromhex. intros b Hb. rewrite Hpk in Hb. injection Hb as <-.
  apply h_leaves; [leaves|]. intros id.
  eapply (r_bind own now db _ state); [apply r_insert_group|]. intros Hfree _.
  eapply (r_bind own now db); [apply r_insert_member|]. cbn [gm_group_id gm_pubkey]. intros Hno _.
  apply (h_reached own now db).
  - apply leaves_bind; [done|]. intros l. apply leaves_detailed.
  - unfold state, gs. match goal with |- group_step _ _ _ _ (_ ++ [?g], _) => apply (step_create own now pk g) end; try done. apply max_members_range.
Qed.

Lemma add_post gid target c pk :
  bytes_fromhex (pubkey_hex c) = Some pk -> leaves_post (AsUser pk) (add_member s gid target c).
Proof.
  intros Hpk. unfold add_member. apply h_leaves; [apply leaves_parse|]. intros id.
  apply h_load. intros g Hin Hid Hl. apply h_fromhex. intros b Hb. rewrite Hpk in Hb. injection Hb as <-.
  destruct (_is_admin _ pk) eqn:Ea; cbn [negb]; [|apply h_end]. apply h_fromhex. intros b Hb.
  destruct (_is_member _ b); [apply h_end|].
  apply (h_sql own now db _ (fun x => Z.of_nat (length (within id x.2)))); [done|]. cbn [l_group].
  destruct (Z.leb_spec (g_max_members g) (Z.of_nat (length (within id (snd (gs db)))))) as [|Hroom]; [apply h_end|].
  apply h_now. eapply (r_bind own now db _ state); [apply r_insert_member|]. cbn [gm_group_id gm_pubkey]. intros Hno _.
  apply (h_reached own now db).
  - apply leaves_bind; [done|]. intros l. apply leaves_bind; [apply leaves_peers|]. intros ps.
    apply leaves_bind; [apply leaves_snapshots|done].
  - apply is_admin_in in Ea. subst id. unfold state, gs. by apply (step_add own now pk b g).
Qed.

Lemma remove_post gid target c pk :
  bytes_fromhex (pubkey_hex c) = Some pk -> leaves_post (AsUser pk) (remove_member s gid target c).
Proof.
  intros Hpk. unfold remove_member. apply h_leaves; [apply leaves_parse|]. intros id.
  apply h_load. intros g Hin Hid Hl. destruct (well_formed_id target); cbn [negb]; [|apply h_end].
  apply h_fromhex. intros b Hb. rewrite Hpk in Hb. injection Hb as <-. apply h_fromhex. intros b Hb.
  destruct (_ || _) eqn:Eauth; cbn [negb]; [|apply h_end].
  destruct (String.eqb_spec b (g_creator_pubkey (l_group (Loaded g (within id (t_members db)))))) as [|Hc]; [apply h_end|].
  destruct (_is_member _ b); cbn [negb]; [|apply h_end].
  apply h_leaves; [apply leaves_peers|]. intros ps.
  eapply (r_bind own now db _ state); [apply r_delete_member|]. intros _ _.
  apply (h_reached own now db).
  - apply leaves_bind; [done|]. intros l. apply leaves_bind; [apply leaves_snapshots|done].
  - cbn [l_group] in *. unfold state, gs. apply (step_remove own now pk b g); try done.
    apply orb_true_iff in Eauth as [E%String.eqb_eq|E]; [by left|]. right. subst id. by apply is_admin_in in E.
Qed.

Lemma delete_post gid c sig ts pk :
  bytes_fromhex (pubkey_hex c) = Some pk -> leaves_post (AsUser pk) (delete_group s gid c sig ts).
Proof.
  intros Hpk. unfold delete_group. apply h_leaves; [apply leaves_parse|]. intros id.
  apply h_load. intros g Hin Hid Hl. apply h_fromhex. intros b Hb. rewrite Hpk in Hb. injection Hb as <-. cbn [l_group].
  destruct (String.eqb_spec (g_creator_pubkey g) pk) as [Hc|]; cbn [negb]; [|apply h_end].
  apply h_leaves; [apply leaves_split|]. intros [local remote]. apply h_now.
  eapply (r_bind own now db _ state); [apply r_store_group|]. intros _ _.
  apply (h_reached own now db).
  - apply leaves_bind; [unfold publish_group_gone; leaves|]. intros _. apply leaves_bind; [|done].
    destruct remote as [|r remote]; [done|]. destruct sig as [sg|]; [|done]. destruct ts as [t|]; [|done].
    destruct (String.eqb sg ""); [done|]. apply leaves_bind; [leaves|]. intros t'. apply leaves_queue_to.
  - unfold state, gs. by apply (step_delete own now pk g).
Qed.

Lemma join_post token c pk :
  bytes_fromhex (pubkey_hex c) = Some pk -> leaves_post (AsUser pk) (join_via_token token c).
Proof.
  intros Hpk. unfold join_via_token. destruct (_ || _); [apply h_end|]. destruct (invite_pattern token); cbn [negb]; [|apply h_end].
  apply h_leaves; [unfold InviteTokens.consume_token; leaves|]. intros [meta|]; [|apply h_end].
  apply h_leaves; [leaves|]. intros g0. apply h_leaves; [apply leaves_parse|]. intros id.
  apply h_load. intros g Hin Hid Hl. apply h_fromhex. intros b Hb. rewrite Hpk in Hb. injection Hb as <-.
  destruct (_is_member _ pk); [apply h_end|]. unfold member_count. cbn [l_group l_members].
  destruct (Z.leb_spec (g_max_members g) (Z.of_nat (length (within id (t_members db))))) as [|Hroom]; [apply h_end|].
  apply h_now. eapply (r_bind own now db _ state); [apply r_insert_member|]. cbn [gm_group_id gm_pubkey]. intros Hno _.
  apply (h_reached own now db).
  - apply leaves_bind; done.
  - subst id. unfold state, gs. by apply (step_join own now pk g).
Qed.
End Endpoints.

(** ** Snapshots *)

Section Snapshot.
  Context (own : string) (now : Z) (db : database) (h gid : string).

(** Any members of the group, those of others as before. *)
Definition remixed (gl : list Group) (t : tables) : Prop :=
  t.1 = db /\ t_groups t.2 = gl /\ outside gid (t_members t.2) = outside gid (t_members db) /\
  (distinct_members (t_members db) -> distinct_members (t_members t.2)).

Lemma remixed_sql gl {A} (f : database -> A * database) (Q : A -> Prop) :
  (forall d, t_groups (snd (f d)) = t_groups d /\ outside gid (t_members (snd (f d))) = outside gid (t_members d) /\
     (distinct_members (t_members d) -> distinct_members (t_members (snd (f d)))) /\ Q (fst (f d))) ->
  db_run now (remixed gl) (sql f) (fun r t => remixed gl t /\ match r with Ok a => Q a | Raise _ => True end).
Proof.
  intros Hf. eapply db_weaken; [apply db_sql|done|]. intros r [t1 t2] (d & -> & E & (H1 & H2 & H3 & H4)). cbn in *. subst.
  destruct (Hf d) as (F1 & F2 & F3 & F4). split; [|done]. split_and!; cbn; [done|done|congruence|auto].
Qed.

Lemma filter_outside_comm (p : GroupMember -> bool) ms :
  (forall m, p m = false -> in_group gid m = true) -> outside gid (List.filter p ms) = outside gid ms.
Proof.
  intros Hp. unfold outside. induction ms as [|m ms IH]; [done|]. cbn. destruct (p m) eqn:E; cbn.
  - by rewrite IH.
  - by rewrite (Hp _ E).
Qed.

Lemma distinct_filter p ms : distinct_members ms -> distinct_members (List.filter p ms).
Proof. intros Hd. eapply sublist_NoDup; [exact Hd|]. apply (fmap_sublist member_key), (filter_sublist (A := GroupMember)). Qed.

Lemma remixed_delete gl pk :
  db_run now (remixed gl) (delete_member gid pk) (fun r t => remixed gl t).
Proof.
  eapply db_weaken; [apply (remixed_sql gl _ (fun _ => True))|done|by intros ? ? [? _]]. intros d. cbn. split_and!; try done.
  - apply filter_outside_comm. intros m Hm%negb_false_iff. by apply andb_true_iff in Hm as [? _].
  - apply distinct_filter.
Qed.

Lemma remixed_store gl m :
  gm_group_id m = gid -> db_run now (remixed gl) (store_member m) (fun r t => remixed gl t).
Proof.
  intros Hm. eapply db_weaken; [apply (remixed_sql gl _ (fun _ => True))|done|by intros ? ? [? _]]. intros d. cbn.
  split_and!; try done.
  - unfold outside. induction (t_members d) as [|x ms IH]; [done|]. cbn.
    destruct (in_group (gm_group_id m) x && String.eqb (gm_pubkey x) (gm_pubkey m)) eqn:E; cbn; [|by rewrite IH].
    apply andb_true_iff in E as [E _]. rewrite Hm in E. rewrite E, IH. unfold in_group at 1. by rewrite Hm, String.eqb_refl.
  - unfold distinct_members. intros Hd. erewrite map_map, map_ext; [exact Hd|]. intros x. cbn.
    destruct (_ && _) eqn:E; [|done]. apply andb_true_iff in E as [E1%String.eqb_eq E2%String.eqb_eq].
    unfold member_key. congruence.
Qed.

Lemma remixed_insert gl m :
  gm_group_id m = gid -> db_run now (remixed gl) (insert_member m) (fun r t => remixed gl t).
Proof.
  intros Hm. unfold insert_member. eapply db_bind.
  - apply (remixed_sql gl _ (fun _ => True)). intros d. cbn. destruct (existsb _ _) eqn:Ex; [done|]. cbn. split_and!; try done.
    + unfold outside. rewrite List.filter_app. cbn. unfold in_group at 2. by rewrite Hm, String.eqb_refl, app_nil_r.
    + unfold distinct_members. rewrite map_app. intros Hd. apply NoDup_app. split_and!; [done| |apply NoDup_singleton].
      intros k (x & -> & Hx)%list_elem_of_fmap Hk. apply list_elem_of_singleton in Hk.
      apply not_true_iff_false in Ex. apply Ex, existsb_exists. exists x. split; [by apply list_elem_of_In|].
      unfold member_key in Hk. injection Hk as H1 H2. unfold in_group. by rewrite H1, H2, !String.eqb_refl.
  - intros [|] w Hn [Hw _]; done.
  - by intros e t [? _].
Qed.

Lemma remixed_no_sql gl {A} (p : prog A) : no_sql p -> db_run now (remixed gl) p (fun _ t => remixed gl t).
Proof. apply db_no_sql. Qed.

Lemma remixed_bind gl {A B} (p : M A) (f : A -> M B) :
  db_run now (remixed gl) p (fun _ t => remixed gl t) -> (forall a, db_run now (remixed gl) (f a) (fun _ t => remixed gl t)) ->
  db_run now (remixed gl) (bind p f) (fun _ t => remixed gl t).
Proof. intros Hp Hf. eapply db_bind; [exact Hp|exact Hf|done]. Qed.

Lemma remixed_remove gl gone : db_run now (remixed gl) (remove_members gid gone) (fun _ t => remixed gl t).
Proof.
  induction gone as [|m gone IH]; cbn [remove_members]; [by apply remixed_no_sql|].
  apply remixed_bind; [apply remixed_delete|done].
Qed.

Lemma remixed_store_all gl existing snap :
  Forall (fun e => gm_group_id e = gid) existing ->
  db_run now (remixed gl) (store_members gid existing snap) (fun _ t => remixed gl t).
Proof.
  intros He. induction snap as [|[pk m] snap IH]; cbn [store_members]; [by apply remixed_no_sql|].
  apply remixed_bind; [|done]. destruct (List.find _ existing) as [e|] eqn:Ef.
  - apply remixed_store. cbn. apply List.find_some in Ef as [Hin _]. rewrite Forall_forall in He. apply He. by apply list_elem_of_In.
  - apply remixed_bind; [apply remixed_no_sql; no_sql|]. intros t. apply remixed_bind; [apply remixed_no_sql; no_sql|].
    intros j. apply remixed_bind; [apply remixed_no_sql; no_sql|]. intros _. by apply remixed_insert.
Qed.

Lemma upsert_post snapshot hd :
  sh_gid hd = gid ->
  db_run now (same db) (upsert_group snapshot hd h) (fun r t => t.1 = db /\ match r with
    | Ok g => g_id g = gid /\ exists gl', copied h gid (t_groups db) gl' /\ reached db (gl', t_members db) t
    | Raise _ => True end).
Proof.
  intros Hgid. unfold upsert_group. eapply db_bind.
  - eapply db_weaken; [apply db_sql|done|]. intros r [t1 t2] (d & -> & E & [H1 H2]). cbn in *. subst.
    instantiate (1 := fun r t => same db t /\ match r with
      | Ok (Some g) => g ∈ t_groups db /\ g_id g = gid | _ => True end). split; [done|].
    unfold gs in H2. injection H2 as <- _. destruct (select_one _ (t_groups d)) as [g|] eqn:Es; [|done].
    by apply select_in in Es as [Hin Hid%String.eqb_eq].
  - intros [g|].
    + destruct (hosted_elsewhere h g) as [home|] eqn:Eh; [intros w Hn [[H1 H2] _]; done|].
      eapply db_bind; [apply db_no_sql; no_sql| |by intros e t [[H1 _] _]]. intros ttl.
      eapply db_bind; [apply db_no_sql; no_sql| |by intros e t [[H1 _] _]]. intros mx.
      intros w Hn [[H1 H2] [Hin Hid]]. unfold store_group. rewrite run_doc_bind, run_doc_sql. cbn. split; [|done].
      unfold gs in H2. injection H2 as Hg Hm. split; [done|]. split; [done|]. eexists. split; [by eapply copied_again|].
      split; [done|]. cbn. unfold gs. cbn. by rewrite Hg, Hm.
    + eapply db_bind; [apply db_no_sql; no_sql| |by intros e t [[H1 _] _]]. intros t0.
      eapply db_bind; [apply db_no_sql; no_sql| |by intros e t [[H1 _] _]]. intros slug.
      eapply db_bind; [apply db_no_sql; no_sql| |by intros e t [[H1 _] _]]. intros exp.
      cbv zeta. eapply db_bind.
      * eapply db_weaken; [apply (r_insert_group now db (t_groups db) (t_members db))|intros t [Ht _]; exact Ht|]. intros r t Ht. exact Ht.
      * intros [] w Hn (H1 & H2 & H3). split; [|done]. split; [done|]. split; [done|]. eexists. split; [|exact H2].
        by apply copied_new.
      * by intros e t [H1 _].
  - by intros e t [[H1 _] _].
Qed.

Lemma snapshot_post snapshot :
  (forall hd, check_snapshot snapshot = Ok hd -> sh_gid hd = gid) ->
  db_run now (same db) (apply_group_snapshot snapshot h) (post own now db (AsHost h)).
Proof.
  intros Hgid. unfold apply_group_snapshot. destruct (String.eqb h ""); [apply h_end|].
  eapply h_bind with (R := fun hd => sh_gid hd = gid).
  { unfold checked_snapshot. destruct (check_snapshot snapshot) as [hd|e] eqn:E; [|destruct e; by intros w Hn Hw].
    intros w Hn Hw. split; [|done]. split; [done|]. by apply Hgid. }
  intros hd Hhd. eapply db_bind; [by apply upsert_post| |by intros e t [H1 _]; split].
  intros g. cbv zeta. intros w Hn (H1 & Hg & gl' & Hcopy & Hr). revert w Hn Hr H1. intros w Hn Hr _.
  enough (Hrun : db_run now (remixed gl') (
    let! existing_members := sql (fun db => (members_of (g_id g) db, db)) in
    let! _ := remove_members (g_id g) (List.filter (fun m => negb (bool_decide (gm_pubkey m ∈ (snap_pubkeys (sh_members hd)).*1))) existing_members) in
    let! _ := store_members (g_id g) existing_members (snap_pubkeys (sh_members hd)) in
    refresh_members g) (fun _ t => remixed gl' t)).
  { destruct (Hrun w Hn) as [(R1 & R2 & R3 & R4) Hn'].
    - destruct Hr as [Hr1 Hr2]. unfold gs in Hr2. injection Hr2 as Hr2 Hr3. unfold tables_of in *. cbn in *. split_and!; cbn [fst snd]; rewrite ?Hr3; done.
    - split; [|done]. split; [done|]. destruct (fst (run_doc _ w)); [|done]. right. unfold gs at 2. rewrite R2.
      by apply (step_snapshot own now h gid). }
  rewrite Hg. eapply db_bind.
  - apply (remixed_sql gl' _ (Forall (fun e => gm_group_id e = gid))). intros d. cbn. split_and!; try done.
    apply Forall_forall. intros m Hm. apply list_elem_of_In, List.filter_In in Hm as [_ Hm]. by apply String.eqb_eq in Hm.
  - intros existing w' Hn' [Hw' He]. revert w' Hn' Hw'. apply remixed_bind; [apply remixed_remove|]. intros _.
    apply remixed_bind; [by apply remixed_store_all|]. intros _. intros w' Hn' Hw'. unfold refresh_members. rewrite run_doc_sql. done.
  - by intros e t [Ht _].
Qed.
End Snapshot.

(** ** Every endpoint *)

Section Ops.
  Context `{Sha256} `{Nacl} `{Ipaddress} (s : Settings).

Definition trusted (h : string) (db : database) : Prop :=
  exists p, p ∈ t_peers db /\ fp_hostname p = h /\ fp_is_trusted p = true.

(** What a request did to the groups: nothing, or one step its actor may take. *)
Definition stepped (now : Z) (who : actor) (db db' : database) : Prop :=
  gs db' = gs db \/
  group_step (relay_name s) now who (gs db) (gs db') /\
  match who with AsUser _ => True | AsHost h => h <> relay_name s /\ trusted h db end.

Inductive group_op : actor -> prog unit -> Prop :=
| op_create body c pk : bytes_fromhex (pubkey_hex c) = Some pk ->
    group_op (AsUser pk) (detached (with_session (create_group s body c)))
| op_delete gid c sig ts pk : bytes_fromhex (pubkey_hex c) = Some pk ->
    group_op (AsUser pk) (detached (with_session (delete_group s gid c sig ts)))
| op_add gid target c pk : bytes_fromhex (pubkey_hex c) = Some pk ->
    group_op (AsUser pk) (detached (with_session (add_member s gid target c)))
| op_remove gid target c pk : bytes_fromhex (pubkey_hex c) = Some pk ->
    group_op (AsUser pk) (detached (with_session (remove_member s gid target c)))
| op_join token c pk : bytes_fromhex (pubkey_hex c) = Some pk ->
    group_op (AsUser pk) (detached (with_session (join_via_token token c)))
| op_sync l gid host c : group_op (AsHost host) (detached (with_session (sync_group_from_host s l gid host c)))
| op_list c who : group_op who (detached (with_session (list_my_groups c)))
| op_get gid c who : group_op who (detached (with_session (get_group gid c)))
| op_slug slug who : group_op who (detached (with_session (lookup_by_slug slug)))
| op_post gid body c who : group_op who (detached (with_session (send_group_message s gid body c)))
| op_delete_message gid id body c who : group_op who (detached (with_session (delete_group_message s gid id body c)))
| op_invite gid ttl c who : group_op who (detached (with_session (create_invite_token gid ttl c)))
| op_invites gid c who : group_op who (detached (with_session (list_invite_tokens gid c)))
| op_uninvite gid token c who : group_op who (detached (with_session (revoke_invite_token gid token c))).

Lemma no_sql_pull h gid k : no_sql (remote_pull_group_snapshot s h gid k).
Proof. unfold remote_pull_group_snapshot, signed_. cbv zeta. no_sql; apply no_sql_post. Qed.

Lemma sync_post now db l gid host c :
  db_run now (fun t => t = (db, db)) (sync_group_from_host s l gid host c) (fun r t => t.1 = db /\ match r with
    | Ok _ => stepped now (AsHost host) db t.2 | Raise _ => True end).
Proof.
  unfold sync_group_from_host. assert (Hend : forall A (r : res A), db_run now (fun t => t = (db, db)) (Ret r)
    (fun r t => t.1 = db /\ match r with Ok _ => stepped now (AsHost host) db t.2 | Raise _ => True end)).
  { intros A r w Hn Hw. change (run_doc (Ret r) w) with (r, w). cbn [fst snd]. rewrite Hw. split; [|done].
    split; [done|]. destruct r; [by left|done]. }
  assert (Hno : forall A B (p : M A) (f : A -> M B), no_sql p ->
    (forall a, db_run now (fun t => t = (db, db)) (f a) (fun r t => t.1 = db /\ match r with
      | Ok _ => stepped now (AsHost host) db t.2 | Raise _ => True end)) ->
    db_run now (fun t => t = (db, db)) (bind p f) (fun r t => t.1 = db /\ match r with
      | Ok _ => stepped now (AsHost host) db t.2 | Raise _ => True end)).
  { intros A B p f Hp Hf. eapply db_bind; [by apply db_no_sql|done|]. by intros e t ->. }
  destruct (_ || _); [apply Hend|]. apply Hno; [unfold check_rate_limit; no_sql|]. intros [v l'].
  destruct (v_allowed v); cbn [negb]; [|apply Hend].
  destruct (String.eqb_spec host (relay_name s)) as [|Hself]; [apply Hend|].
  eapply db_bind.
  { eapply db_weaken; [apply db_sql|intros t Ht; exact Ht|]. intros r [t1 t2] (d & -> & E & Ht). cbn in *.
    injection Ht as -> ->. subst t2. instantiate (1 := fun r t => t = (db, db) /\
      r = Ok (select_one (fun p => String.eqb (fp_hostname p) host) (t_peers db))). done. }
  2: by intros e t [-> _].
  intros peer w Hn [Hw [= ->]]. revert w Hn Hw.
  destruct (select_one _ (t_peers db)) as [p|] eqn:Ep; [|apply Hend].
  destruct (fp_is_trusted p) eqn:Etr; cbn [negb]; [|apply Hend].
  apply select_in in Ep as [Hin Hhost%String.eqb_eq].
  apply Hno; [unfold _parse_group_id, http; no_sql|]. intros id.
  apply Hno; [apply no_sql_pull|]. intros [[| | | | |snapshot]|]; try apply Hend.
  destruct (uuid_of_str _) as [sid|]; [|apply Hend]. destruct (String.eqb sid id); cbn [negb]; [|apply Hend].
  eapply db_bind.
  - eapply db_weaken; [apply (snapshot_post (relay_name s) now db host
      (match check_snapshot snapshot with Ok hd => sh_gid hd | Raise _ => "" end) snapshot)|by intros t ->|].
    { by intros hd ->. }
    intros r t Hr. exact Hr.
  - intros g w Hn [Hc Hg]. split; [|done]. split; [done|]. destruct Hg as [Hg|Hg]; [by left|]. right.
    split; [done|]. split; [done|]. by exists p.
  - by intros e t [? _].
Qed.
End Ops.

(** ** Requests and histories *)

Section Requests.
  Context `{Sha256} `{Nacl} `{Ipaddress} (s : Settings).

Lemma leaves_load gid : leaves gs (_load_group gid).
Proof. unfold _load_group, http. leaves; done. Qed.
Lemma leaves_send gid body c : leaves gs (send_group_message s gid body c).
Proof.
  unfold send_group_message. apply leaves_bind.
  - unfold admit_group_message. apply leaves_bind; [apply leaves_parse|]. intros id.
    apply leaves_bind; [apply leaves_load|]. intros group. unfold http, fromhex_. leaves.
  - intros [[[group pk] blob] id]. unfold envelope_exists. apply leaves_bind; [leaves|]. intros [|]; [done|].
    apply leaves_bind; [done|]. intros u. cbv zeta. apply leaves_bind; [leaves|]. intros now. destruct (String.eqb _ _); cbn [negb].
    + apply leaves_bind; [unfold write_blob; leaves|]. intros path. apply leaves_bind; [apply leaves_fanout|].
      by intros [[[? ?] ?] ?].
    + apply leaves_bind; [apply leaves_queue_once|done].
Qed.
Lemma leaves_delete_message gid id body c : leaves gs (delete_group_message s gid id body c).
Proof.
  unfold delete_group_message. apply leaves_bind.
  - unfold admit_group_delete. destruct (well_formed_id id); cbn [negb]; [|done]. apply leaves_bind; [apply leaves_parse|].
    intros g. apply leaves_bind; [apply leaves_load|]. intros group. unfold http, fromhex_. leaves.
  - intros [group caller]. cbv zeta. destruct (String.eqb _ _); cbn [negb].
    + apply leaves_bind; [unfold authorise_group_delete, get_envelope_meta, http; leaves|]. intros _.
      apply leaves_bind; [apply leaves_split|]. intros [local remote].
      apply leaves_bind; [unfold delete_envelope_for_group; leaves|]. intros [[? ?] ?].
      apply leaves_bind; [leaves|]. intros now. apply leaves_bind; [apply leaves_queue_to|done].
    + apply leaves_bind; [apply leaves_queue_control|done].
Qed.

Ltac user_post tac :=
  eapply db_weaken; [tac|intros t ->; done|];
  intros r t [Hc Hp]; (split; [exact Hc|]); destruct r; [|done]; destruct Hp as [Hp|Hp]; [by left|right; by split].

(** A handler that leaves the groups alone. *)
Lemma quiet_stepped now who db {A} (p : M A) :
  leaves gs p ->
  db_run now (fun t => t = (db, db)) p (fun r t => t.1 = db /\ match r with
    | Ok _ => stepped s now who db t.2 | Raise _ => True end).
Proof.
  intros Hp. eapply db_weaken; [apply (same_leaves now db p Hp)|by intros t ->|].
  intros r t [Hc Hg]. split; [done|]. destruct r; [by left|done].
Qed.

Lemma op_stepped now db who p :
  group_op s who p -> db_run now (fun t => t = (db, db)) p (fun _ t => t.1 = t.2 /\ stepped s now who db t.1).
Proof.
  assert (Hdet : forall A (h : M A),
    db_run now (fun t => t = (db, db)) h (fun r t => t.1 = db /\ match r with Ok _ => stepped s now who db t.2 | Raise _ => True end) ->
    db_run now (fun t => t = (db, db)) (detached (with_session h)) (fun _ t => t.1 = t.2 /\ stepped s now who db t.1)).
  { intros A h Hh. unfold detached. eapply db_pbind; [by apply db_session|]. intros [a|e] w Hn [E Hw]; (split; [|done]); split; try done.
    left. change (run_doc (Ret tt) w) with (tt, w). cbn [snd]. by rewrite Hw. }
  intros Hop. destruct Hop; apply Hdet.
  - user_post ltac:(by apply create_post).
  - user_post ltac:(by apply delete_post).
  - user_post ltac:(by apply add_post).
  - user_post ltac:(by apply remove_post).
  - user_post ltac:(by apply join_post).
  - apply sync_post.
  - apply quiet_stepped. unfold list_my_groups, fromhex_; leaves; done.
  - apply quiet_stepped. unfold get_group, fromhex_, http; apply leaves_bind; [apply leaves_parse|]; intros ?;
      apply leaves_bind; [apply leaves_load|]; intros ?; apply leaves_bind; [leaves|]; intros ?; destruct (negb _); [done|apply leaves_detailed].
  - apply quiet_stepped. unfold lookup_by_slug, http; cbv zeta; leaves; done.
  - apply quiet_stepped. apply leaves_send.
  - apply quiet_stepped. apply leaves_delete_message.
  - apply quiet_stepped. unfold create_invite_token, InviteTokens.create_token, fromhex_, http; apply leaves_bind; [apply leaves_parse|]; intros ?;
      apply leaves_bind; [apply leaves_load|]; leaves.
  - apply quiet_stepped. unfold list_invite_tokens, InviteTokens.list_tokens, fromhex_, http; apply leaves_bind; [apply leaves_parse|]; intros ?;
      apply leaves_bind; [apply leaves_load|]; leaves.
  - apply quiet_stepped. unfold revoke_invite_token, InviteTokens.revoke_token, fromhex_, http; destruct (negb _); [done|];
      apply leaves_bind; [apply leaves_parse|]; intros ?; apply leaves_bind; [apply leaves_load|]; leaves.
Qed.
End Requests.

(** ** What the steps keep true of the groups hosted here *)

Section Hosted.
  Context (own : string) (now : Z).
  Hypothesis Hown : own <> "".

Definition hosted (g : Group) : Prop := g_home_relay g = Some own.

(** The creator is an admin of the group, and the group within its limit and the protocol's. *)
Definition group_ok (ms : list GroupMember) (g : Group) : Prop :=
  admin_in (g_id g) (g_creator_pubkey g) ms /\
  (Z.of_nat (length (within (g_id g) ms)) <= g_max_members g <= PREMIUM_TIER_MAX_MEMBERS)%Z.

Record groups_ok (x : gstate) : Prop := {
  ok_ids : NoDup (map g_id x.1);
  ok_distinct : distinct_members x.2;
  ok_known : forall m, m ∈ x.2 -> exists g, g ∈ x.1 /\ g_id g = gm_group_id m;
  ok_hosted : forall g, g ∈ x.1 -> hosted g -> group_ok x.2 g
}.

(** What becomes of a group hosted here: nothing but its members changes until it is deleted, and
    then nothing. *)
Definition group_life (x x' : gstate) : Prop :=
  forall g, g ∈ x.1 -> hosted g -> exists g', g' ∈ x'.1 /\ g_id g' = g_id g /\
    (g' = g \/ is_live g /\ exists t, g' = with_deleted_at t g) /\
    (~ is_live g -> within (g_id g) x'.2 = within (g_id g) x.2).

Lemma within_app id ms ms' : within id (ms ++ ms') = within id ms ++ within id ms'.
Proof. apply List.filter_app. Qed.
Lemma within_new id gid pk a t :
  within id [mkMember gid pk a t] = if String.eqb gid id then [mkMember gid pk a t] else [].
Proof. done. Qed.

Lemma admin_in_app id pk ms ms' : admin_in id pk ms -> admin_in id pk (ms ++ ms').
Proof. intros (m & Hin & ?). exists m. split; [|done]. by apply elem_of_app; left. Qed.

Lemma distinct_app ms m : distinct_members ms -> ~ is_in (gm_group_id m) (gm_pubkey m) ms -> distinct_members (ms ++ [m]).
Proof.
  intros Hd Hn. unfold distinct_members. rewrite map_app. apply NoDup_app. split_and!; [done| |apply NoDup_singleton].
  intros k Hk Hk'. by apply list_elem_of_singleton in Hk' as ->.
Qed.

Lemma find_group gl g g' : NoDup (map g_id gl) -> g ∈ gl -> g' ∈ gl -> g_id g = g_id g' -> g = g'.
Proof.
  intros Hu Hg Hg' E. pose proof (row_unique g_id gl g Hu Hg) as H1. pose proof (row_unique g_id gl g' Hu Hg') as H2.
  rewrite E in H1. congruence.
Qed.

(** One more member, of a group with room. *)
Lemma ok_add gl ms g pk a :
  groups_ok (gl, ms) -> g ∈ gl -> is_live g -> ~ is_in (g_id g) pk ms -> has_room g ms ->
  groups_ok (gl, ms ++ [mkMember (g_id g) pk a now]) /\ group_life (gl, ms) (gl, ms ++ [mkMember (g_id g) pk a now]).
Proof.
  intros [Hu Hd Hk Hh] Hg Hl Hno Hroom. cbn in *. split; [split; cbn|].
  - done.
  - by apply distinct_app.
  - intros m [Hm| ->%list_elem_of_singleton]%elem_of_app; [by apply Hk|]. by exists g.
  - intros g' Hg' Hho. destruct (Hh g' Hg' Hho) as [Ha Hle]. split; [by apply admin_in_app|].
    rewrite within_app, within_new, length_app. destruct (String.eqb_spec (g_id g) (g_id g')) as [E|E]; cbn [length]; [|lia].
    rewrite (find_group gl g g' Hu Hg Hg' E) in Hroom. unfold has_room in Hroom. lia.
  - intros g' Hg' Hho. exists g'. split_and!; [done|done|by left|]. intros Hdead. cbn [snd].
    rewrite within_app, within_new. destruct (String.eqb_spec (g_id g) (g_id g')) as [E|E]; [|by rewrite app_nil_r].
    by rewrite <- (find_group gl g g' Hu Hg Hg' E) in Hdead.
Qed.

Lemma put_group_ids g gl : map g_id (put_group g gl) = map g_id gl.
Proof.
  unfold put_group. rewrite map_map. apply map_ext. intros r. destruct (has_group_id (g_id g) r) eqn:E; [|done].
  by apply String.eqb_eq in E.
Qed.
Lemma put_group_in g gl r : r ∈ gl -> exists r', r' ∈ put_group g gl /\ g_id r' = g_id r /\ (r' = r \/ r' = g /\ g_id r = g_id g).
Proof.
  intros Hr. unfold put_group. exists (if has_group_id (g_id g) r then g else r). split.
  - apply list_elem_of_fmap. by exists r.
  - destruct (has_group_id (g_id g) r) eqn:E; [|by auto]. apply String.eqb_eq in E. auto.
Qed.
Lemma put_group_out g gl r' : r' ∈ put_group g gl -> (r' ∈ gl /\ g_id r' <> g_id g) \/ r' = g /\ exists r, r ∈ gl /\ g_id r = g_id g.
Proof.
  intros (r & -> & Hr)%list_elem_of_fmap. destruct (has_group_id (g_id g) r) eqn:E; apply String.eqb_eq in E || apply String.eqb_neq in E; eauto.
Qed.

Lemma ok_create gl ms pk g :
  groups_ok (gl, ms) -> (forall g', g' ∈ gl -> clashes g g' = false) -> g_creator_pubkey g = pk ->
  (1 <= g_max_members g <= PREMIUM_TIER_MAX_MEMBERS)%Z ->
  groups_ok (gl ++ [g], ms ++ [mkMember (g_id g) pk true now]) /\
  group_life (gl, ms) (gl ++ [g], ms ++ [mkMember (g_id g) pk true now]).
Proof.
  intros [Hu Hd Hk Hh] Hfree Hc Hmax. cbn in *.
  assert (Hne : forall g', g' ∈ gl -> g_id g' <> g_id g).
  { intros g' Hg' E. specialize (Hfree g' Hg'). unfold clashes, has_group_id in Hfree. rewrite E, String.eqb_refl in Hfree. done. }
  assert (Hnone : within (g_id g) ms = []).
  { unfold within. destruct (List.filter (in_group (g_id g)) ms) as [|m l] eqn:E; [done|]. exfalso.
    assert (Hm : m ∈ m :: l) by by left. rewrite <- E, list_elem_of_In in Hm. apply List.filter_In in Hm as [Hm Hg%String.eqb_eq].
    apply list_elem_of_In in Hm. destruct (Hk m Hm) as (g' & Hg' & E'). apply (Hne g' Hg'). congruence. }
  split; [split; cbn|].
  - rewrite map_app. apply NoDup_app. split_and!; [done| |apply NoDup_singleton].
    intros id (g' & -> & Hg')%list_elem_of_fmap E. apply list_elem_of_singleton in E. by apply (Hne g').
  - apply distinct_app; [done|]. intros (m & [= E _] & Hm)%list_elem_of_fmap. cbn in E.
    destruct (Hk m Hm) as (g' & Hg' & E'). apply (Hne g' Hg'). congruence.
  - intros m [Hm| ->%list_elem_of_singleton]%elem_of_app.
    + destruct (Hk m Hm) as (g' & Hg' & E'). exists g'. split; [|done]. by apply elem_of_app; left.
    + exists g. split; [|done]. apply elem_of_app. right. by apply list_elem_of_singleton.
  - intros g' [Hg'| ->%list_elem_of_singleton]%elem_of_app Hho.
    + destruct (Hh g' Hg' Hho) as [Ha Hle]. split; [by apply admin_in_app|].
      rewrite within_app, within_new, length_app. rewrite (proj2 (String.eqb_neq (g_id g) (g_id g'))); [cbn; lia|].
      intros E. by apply (Hne g').
    + split.
      * exists (mkMember (g_id g) pk true now). split; [|done]. apply elem_of_app. right. by apply list_elem_of_singleton.
      * rewrite within_app, within_new, Hnone, String.eqb_refl. cbn. lia.
  - intros g' Hg' Hho. exists g'. split_and!; [by apply elem_of_app; left|done|by left|]. intros _. cbn [snd].
    rewrite within_app, within_new, (proj2 (String.eqb_neq (g_id g) (g_id g'))), app_nil_r; [done|].
    intros E. by apply (Hne g').
Qed.

Lemma ok_delete gl ms g :
  groups_ok (gl, ms) -> g ∈ gl -> is_live g ->
  groups_ok (put_group (with_deleted_at now g) gl, ms) /\ group_life (gl, ms) (put_group (with_deleted_at now g) gl, ms).
Proof.
  intros [Hu Hd Hk Hh] Hg Hl. cbn in *. split; [split; cbn|].
  - by rewrite put_group_ids.
  - done.
  - intros m Hm. destruct (Hk m Hm) as (g' & Hg' & E). destruct (put_group_in (with_deleted_at now g) gl g' Hg') as (r & Hr & Hid & _).
    exists r. split; [done|congruence].
  - intros g' [[Hg' _]|[-> _]]%put_group_out Hho; [by apply Hh|]. destruct (Hh g Hg Hho) as [Ha Hle]. done.
  - intros g' Hg' Hho. destruct (put_group_in (with_deleted_at now g) gl g' Hg') as (r & Hr & Hid & [->|[-> E]]).
    + exists g'. split_and!; [done|done|by left|done].
    + exists (with_deleted_at now g). split_and!; [done|done| |done]. right. cbn in E.
      rewrite (find_group gl g' g Hu Hg' Hg E). split; [done|]. by eexists.
Qed.

Lemma within_filter_other id id' (p : GroupMember -> bool) ms :
  (forall m, p m = false -> in_group id' m = true) -> id <> id' -> within id (List.filter p ms) = within id ms.
Proof.
  intros Hp Hne. unfold within. induction ms as [|m ms IH]; [done|]. cbn. destruct (p m) eqn:E; cbn; [by rewrite IH|].
  apply Hp, String.eqb_eq in E. unfold in_group at 2. by rewrite E, (proj2 (String.eqb_neq id' id)) by done.
Qed.
Lemma within_filter_length id (p : GroupMember -> bool) ms : (length (within id (List.filter p ms)) <= length (within id ms))%nat.
Proof. unfold within. induction ms as [|m ms IH]; [done|]. cbn. destruct (p m); cbn; destruct (in_group id m); cbn; lia. Qed.

Lemma ok_remove gl ms g target :
  groups_ok (gl, ms) -> g ∈ gl -> is_live g -> target <> g_creator_pubkey g ->
  let ms' := List.filter (fun m => negb (in_group (g_id g) m && String.eqb (gm_pubkey m) target)) ms in
  groups_ok (gl, ms') /\ group_life (gl, ms) (gl, ms').
Proof.
  intros [Hu Hd Hk Hh] Hg Hl Ht ms'. cbn in *.
  assert (Hp : forall m, negb (in_group (g_id g) m && String.eqb (gm_pubkey m) target) = false -> in_group (g_id g) m = true).
  { intros m Hm%negb_false_iff. by apply andb_true_iff in Hm as [? _]. }
  split; [split; cbn|].
  - done.
  - by apply distinct_filter.
  - intros m Hm. apply list_elem_of_In, List.filter_In in Hm as [Hm _]. apply Hk. by apply list_elem_of_In.
  - intros g' Hg' Hho. destruct (Hh g' Hg' Hho) as [(m & Hm & Hmg & Hmk & Hma) Hle]. split.
    + exists m. split; [|done]. apply list_elem_of_In, List.filter_In. split; [by apply list_elem_of_In|].
      apply negb_true_iff, not_true_iff_false. intros [E1%String.eqb_eq E2%String.eqb_eq]%andb_true_iff. apply Ht.
      rewrite Hmg in E1. rewrite (find_group gl g' g Hu Hg' Hg E1) in Hmk. congruence.
    + pose proof (within_filter_length (g_id g') (fun m => negb (in_group (g_id g) m && String.eqb (gm_pubkey m) target)) ms) as Hlen.
      fold ms' in Hlen. lia.
  - intros g' Hg' Hho. exists g'. split_and!; [done|done|by left|]. intros Hdead.
    apply (within_filter_other _ (g_id g)); [done|]. intros E. rewrite (find_group gl g' g Hu Hg' Hg E) in Hdead. done.
Qed.

Lemma within_outside id gid ms ms' : outside gid ms' = outside gid ms -> id <> gid -> within id ms' = within id ms.
Proof.
  intros E Hne. assert (Hf : forall l, within id (outside gid l) = within id l).
  { intros l. apply (within_filter_other id gid); [|done]. intros m Hm. by apply negb_false_iff in Hm. }
  by rewrite <- (Hf ms'), E, Hf.
Qed.

Lemma admin_within id pk ms : admin_in id pk ms <-> exists m, m ∈ within id ms /\ gm_pubkey m = pk /\ gm_is_admin m = true.
Proof.
  unfold admin_in, within. split.
  - intros (m & Hin & Hg & Hk & Ha). exists m. split; [|done]. apply list_elem_of_In, List.filter_In.
    split; [by apply list_elem_of_In|]. by apply String.eqb_eq.
  - intros (m & Hin & Hk & Ha). apply list_elem_of_In, List.filter_In in Hin as [Hin Hg]. exists m. rewrite list_elem_of_In.
    apply String.eqb_eq in Hg. done.
Qed.

Lemma group_ok_within ms ms' g : within (g_id g) ms' = within (g_id g) ms -> group_ok ms g -> group_ok ms' g.
Proof. intros E [Ha Hle]. split; [by rewrite admin_within, E, <- admin_within|by rewrite E]. Qed.

(** A snapshot of another relay is about a group that is not hosted here. *)
Lemma copied_other h gid gl gl' :
  copied h gid gl gl' -> h <> own -> NoDup (map g_id gl) ->
  NoDup (map g_id gl') /\ (exists g, g ∈ gl' /\ g_id g = gid) /\
  (forall id, id ∈ map g_id gl -> id ∈ map g_id gl') /\
  (forall g, hosted g -> g ∈ gl -> g_id g <> gid /\ g ∈ gl') /\ (forall g, hosted g -> g ∈ gl' -> g_id g <> gid /\ g ∈ gl).
Proof.
  intros Hc Hh Hu. destruct Hc as [g Hid Hho Hfree|g snapshot ttl mx Hg Hid He].
  - assert (Hne : forall g', g' ∈ gl -> g_id g' <> gid).
    { intros g' Hg' E. specialize (Hfree g' Hg'). unfold clashes, has_group_id in Hfree. rewrite E, Hid, String.eqb_refl in Hfree. done. }
    split_and!.
    + rewrite map_app. apply NoDup_app. split_and!; [done| |apply NoDup_singleton].
      intros id (g' & -> & Hg')%list_elem_of_fmap E. apply list_elem_of_singleton in E. apply (Hne g'); [done|congruence].
    + exists g. split; [|done]. apply elem_of_app. right. by apply list_elem_of_singleton.
    + intros id Hin. rewrite map_app. by apply elem_of_app; left.
    + intros g' Hho' Hg'. split; [by apply Hne|]. by apply elem_of_app; left.
    + intros g' Hho' [Hg'| ->%list_elem_of_singleton]%elem_of_app; [split; [by apply Hne|done]|].
      unfold hosted in Hho'. rewrite Hho in Hho'. congruence.
  - assert (Hnh : forall g', hosted g' -> g' ∈ gl -> g_id g' <> gid).
    { intros g' Hho' Hg' E. rewrite (find_group gl g' g Hu Hg' Hg) in Hho' by congruence.
      unfold hosted_elsewhere in He. rewrite Hho' in He.
      destruct (String.eqb_spec own ""); [done|]. by destruct (String.eqb_spec own h). }
    assert (Hnr : ~ hosted (refreshed h snapshot ttl mx g)).
    { intros Hr. unfold hosted, refreshed, adopted_by in Hr. cbn in Hr. unfold hosted_elsewhere in He.
      destruct (g_home_relay g) as [h0|]; [|congruence].
      destruct (String.eqb_spec h0 ""); [congruence|]. injection Hr as ->.
      destruct (String.eqb_spec own h); [congruence|]. by destruct (String.eqb_spec own ""). }
    split_and!.
    + by rewrite put_group_ids.
    + destruct (put_group_in (refreshed h snapshot ttl mx g) gl g Hg) as (r & Hr & E & _). exists r. split; [done|congruence].
    + intros id. by rewrite put_group_ids.
    + intros g' Hho' Hg'. split; [by apply Hnh|].
      destruct (put_group_in (refreshed h snapshot ttl mx g) gl g' Hg') as (r & Hr & E & [->|[_ E2]]); [done|].
      destruct (Hnh g' Hho' Hg'). cbn in E2. congruence.
    + intros g' Hho' [[Hg' _]|[-> _]]%put_group_out; [by auto|done].
Qed.

Lemma ok_snapshot h gid gl gl' ms ms' :
  groups_ok (gl, ms) -> h <> own -> copied h gid gl gl' -> outside gid ms' = outside gid ms ->
  (distinct_members ms -> distinct_members ms') -> groups_ok (gl', ms') /\ group_life (gl, ms) (gl', ms').
Proof.
  intros [Hu Hd Hk Hh] Hne Hc Hout Hdis. cbn in *.
  destruct (copied_other h gid gl gl' Hc Hne Hu) as (Hu' & (g0 & Hg0 & Hid0) & Hids & Hto & Hfrom).
  split; [split; cbn|].
  - done.
  - auto.
  - intros m Hm. destruct (String.eqb_spec (gm_group_id m) gid) as [E|E]; [exists g0; split; [done|congruence]|].
    assert (Hm' : m ∈ outside gid ms').
    { apply list_elem_of_In, List.filter_In. split; [by apply list_elem_of_In|]. unfold in_group. by rewrite (proj2 (String.eqb_neq _ _)). }
    rewrite Hout in Hm'. apply list_elem_of_In, List.filter_In in Hm' as [Hm' _]. apply list_elem_of_In in Hm'.
    destruct (Hk m Hm') as (g & Hg & Eg). assert (Hi : g_id g ∈ map g_id gl') by (apply Hids; by apply list_elem_of_fmap_2).
    apply list_elem_of_fmap in Hi as (g' & E' & Hg'). exists g'. split; [done|congruence].
  - intros g Hg Hho. destruct (Hfrom g Hho Hg) as [Hid Hold]. eapply group_ok_within; [by eapply within_outside|]. by apply Hh.
  - intros g Hg Hho. destruct (Hto g Hho Hg) as [Hid Hnew]. exists g. split_and!; [done|done|by left|].
    intros _. by eapply within_outside.
Qed.

Lemma step_ok who x x' :
  groups_ok x -> group_step own now who x x' -> match who with AsHost h => h <> own | AsUser _ => True end ->
  groups_ok x' /\ group_life x x'.
Proof.
  intros Hok Hs Hwho. destruct Hs.
  - by apply ok_create.
  - by apply ok_delete.
  - by apply ok_add.
  - by apply ok_add.
  - by apply ok_remove.
  - by eapply ok_snapshot.
Qed.

Lemma life_refl x : group_life x x.
Proof. intros g Hg Hho. exists g. split_and!; [done|done|by left|done]. Qed.

Lemma life_trans x y z : group_life x y -> group_life y z -> group_life x z.
Proof.
  intros Hxy Hyz g Hg Hho. destruct (Hxy g Hg Hho) as (g1 & Hg1 & Hid1 & H1 & Hm1).
  assert (Hho1 : hosted g1) by (destruct H1 as [->|[_ [t ->]]]; done).
  destruct (Hyz g1 Hg1 Hho1) as (g2 & Hg2 & Hid2 & H2 & Hm2). exists g2. split_and!; [done|congruence|..].
  - destruct H1 as [->|[Hl [t ->]]]; [done|]. right. split; [done|]. destruct H2 as [->|[Hl2 _]]; [by eexists|done].
  - intros Hdead. rewrite <- Hid1, Hm2, Hid1; [by apply Hm1|]. destruct H1 as [->|[Hl _]]; [done|by destruct Hdead].
Qed.
End Hosted.

(** ** Joining *)

(** The stored invite that a successful consumption read, and that is then gone. *)
Lemma run_consume_invite token (w : vworld) :
  let x := run_doc (InviteTokens.consume_token token) w in
  tables_of (snd x) = tables_of w /\ w_now (snd x) = w_now w /\
  (forall meta, fst x = Ok (Some meta) -> exists raw,
     str_at (InviteTokens._token_key token) (w_redis w) = Some (Some raw) /\ loads raw = Some (JObj meta) /\
     rv_keys (w_redis (snd x)) !! InviteTokens._token_key token = None).
Proof.
  intros x. subst x. split; [apply run_no_sql; unfold InviteTokens.consume_token; no_sql|].
  split; [apply run_now|]. unfold InviteTokens.consume_token. rewrite run_doc_bind.
  destruct (run_doc_redis_any (rcall (GETDEL (InviteTokens._token_key token)) as_bulk) w) as (r & v' & -> & _ & Ha).
  destruct r as [raw|e]; [|done]. destruct (Ha raw eq_refl) as [Hr Hv]. rewrite rrun_rcall in Hr, Hv. cbn [documented fst snd] in Hr, Hv.
  destruct (str_at (InviteTokens._token_key token) (w_redis w)) as [[s|]|] eqn:Es; cbn [as_bulk fst snd] in Hr, Hv; simplify_eq; [|done].
  destruct (loads s) as [[| | | | |meta0]|] eqn:El; try done.
  intros meta Hm. rewrite run_doc_bind in Hm |- *. set (u := match dict_get "group_id" meta0 with Some _ => _ | None => _ end) in *.
  set (w1 := set_redis _ _) in *. assert (Hgone : rv_keys (w_redis (snd (run_doc u w1))) !! InviteTokens._token_key token = None).
  { apply (exchanges_run (fun v => rv_keys v !! InviteTokens._token_key token = None)); [|apply keys_del_eq].
    unfold u. assert (Hg : forall g, exchanges_keep (fun v => rv_keys v !! InviteTokens._token_key token = None)
      (try_except (cmd_ (SREM (InviteTokens._group_invites_key g) [token])) (fun _ => ret tt))).
    { intros g. apply exchanges_try; [|done]. apply exchanges_redis, rkeeps_rcall. intros now v Hv. rewrite documented_frame; [done|].
      cbn. rewrite list_elem_of_singleton. unfold InviteTokens._token_key, InviteTokens._group_invites_key. string_ne. }
    destruct (dict_get "group_id" meta0) as [[]|]; try done. destruct (String.eqb _ ""); [done|apply Hg]. }
  destruct (run_doc u w1) as [[[]|e] w2]; [|done]. cbn in *. injection Hm as <-. by exists s.
Qed.

Lemma run_load gid (w : vworld) :
  run_doc (_load_group gid) w =
  (match select_one (live_group gid) (t_groups (w_work w)) with
   | Some g => Ok (Loaded g (members_of gid (w_work w)))
   | None => Raise (HTTPException 404 "group_not_found") end, w).
Proof.
  unfold _load_group. rewrite run_doc_bind, run_doc_sql. cbn [fst snd].
  assert (Ew : set_databases (w_db w) (w_work w) w = w) by by destruct w. rewrite Ew.
  by destruct (select_one _ _).
Qed.

(** After the invite was read. *)
Lemma run_join_group gstr meta c pk (w : vworld) :
  bytes_fromhex (pubkey_hex c) = Some pk -> dict_get "group_id" meta = Some (JStr gstr) ->
  let x := run_doc (let! gid := _parse_group_id gstr in
        let! group := _load_group gid in
        let! caller := fromhex_ (pubkey_hex c) in
        if _is_member group caller then ret (gstr, member_count group)
        else if (g_max_members (l_group group) <=? member_count group)%Z then http 409 (group_full (l_group group))
        else
          let! now := now_ in
          let! _ := insert_member (mkMember (g_id (l_group group)) caller false now) in
          let! group := refresh_members (l_group group) in
          ret (gstr, member_count group)) w in
  w_redis (snd x) = w_redis w /\ w_db (snd x) = w_db w /\
  (w_work (snd x) = w_work w \/ exists gid, uuid_of_string gstr = Some gid /\
     w_work (snd x) = set_members (t_members (w_work w) ++ [mkMember gid pk false (w_now w)]) (w_work w)).
Proof.
  intros Hpk _. unfold _parse_group_id. rewrite run_doc_bind. destruct (uuid_of_string gstr) as [gid|]; [|cbn; auto].
  rewrite run_doc_ret, run_doc_bind, run_load. destruct (select_one _ _) as [g|] eqn:Es; [|cbn; auto].
  rewrite run_doc_bind, (run_doc_fromhex _ _ w Hpk). destruct (_is_member _ pk); [cbn; auto|].
  destruct (_ <=? _)%Z; [cbn; auto|]. rewrite run_doc_bind, run_doc_now, run_doc_bind. unfold insert_member.
  rewrite run_doc_bind, run_doc_sql. apply select_in in Es as [_ Hl]. cbn [l_group].
  apply andb_true_iff in Hl as [Hid%String.eqb_eq _]. subst gid.
  destruct (existsb _ _); cbn; [auto|]. split; [done|]. split; [done|]. right. by exists (g_id g).
Qed.

Section Properties.
  Context `{R : Redis} `{Sha256} `{Nacl} `{Ipaddress} (s : Settings).

(** C14: what a request can do to the groups.  Whatever fails, a request of the groups API leaves the
    groups and their members as they were, or takes one step that its actor may take: a user
    creates a group it is the admin of, deletes one it created, joins one that has room, adds to one
    it is an admin of and that has room, leaves or removes another than the creator as an admin; a
    trusted other relay replaces the members and the mutable fields of its own group.  Everything
    is committed when the request ends. *)
Theorem group_requests_step who p (w : world rstore) :
  group_op s who p -> w_work w = w_db w ->
  let w' := snd (run p w) in
  w_work w' = w_db w' /\ stepped s (w_now w) who (w_db w) (w_db w').
Proof.
  intros Hop Hw w'. subst w'.
  destruct (op_stepped s (w_now w) (w_db w) who p Hop (absw w)) as [[E Hs] _].
  - done.
  - unfold tables_of. cbn. by rewrite Hw.
  - rewrite <- snd_run_absw in E, Hs. by split.
Qed.

(** Requests, one after the other, and whatever else leaves the groups alone. *)
Inductive group_run : world rstore -> world rstore -> Prop :=
| run_request who p w : group_op s who p -> group_run w (snd (run p w))
| run_else w w' : w_work w' = w_db w' -> gs (w_db w') = gs (w_db w) -> group_run w w'.


(** Joining takes an invite, and uses it up.  Whatever fails, if a request to join changes the
    members then the token's key held an invite, the change is that the caller is a new ordinary
    member of the group the invite names, and the key is gone, so nobody joins by it again. *)
Theorem join_uses_invite (token : string) (c : Session) (pk : string) (w : world rstore) :
  bytes_fromhex (pubkey_hex c) = Some pk -> w_work w = w_db w ->
  let w' := snd (run (with_session (join_via_token token c)) w) in
  let key := InviteTokens._token_key token in
  w_db w' = w_db w \/ exists raw meta gstr gid,
    str_at key (w_redis (absw w)) = Some (Some raw) /\ loads raw = Some (JObj meta) /\
    dict_get "group_id" meta = Some (JStr gstr) /\ uuid_of_string gstr = Some gid /\
    w_db w' = set_members (t_members (w_db w) ++ [mkMember gid pk false (w_now w)]) (w_db w) /\
    rv_keys (w_redis (absw w')) !! key = None.
Proof.
  intros Hpk Hw w' key. change (w_db w') with (w_db (absw w')). subst w'. rewrite snd_run_absw.
  change (w_db w) with (w_db (absw w)) in *. change (w_work w) with (w_work (absw w)) in Hw. change (w_now w) with (w_now (absw w)).
  generalize dependent (absw w). clear w. intros w Hw. rewrite run_with_session. unfold join_via_token.
  destruct (_ || _); [by left|]. destruct (invite_pattern token); cbn [negb]; [|by left].
  rewrite run_doc_bind. destruct (run_consume_invite token w) as (Ht & Hn & Hm).
  destruct (run_doc (InviteTokens.consume_token token) w) as [[[meta|]|e] w1]; cbn [fst snd] in *;
    unfold tables_of in Ht; injection Ht as Hd Hk; [|by left..].
  destruct (Hm meta eq_refl) as (raw & Hraw & Hload & Hgone). rewrite run_doc_bind.
  destruct (dict_get "group_id" meta) as [[| | |gstr| |]|] eqn:Eg; try by left. rewrite run_doc_ret.
  destruct (run_join_group gstr meta c pk w1 Hpk Eg) as (Hr & Hd1 & Hk1).
  match type of Hr with w_redis (snd ?x) = _ => destruct x as [[a|e] w2] end; cbn [fst snd] in *; [|by left; cbn; congruence].
  destruct Hk1 as [Hk1|(gid & Hgid & Hk1)]; [left; cbn; congruence|]. right.
  exists raw, meta, gstr, gid. split_and!; try done; cbn; [|by rewrite Hr]. rewrite Hk1, Hk, Hn. congruence.
Qed.

(** The slug of a deleted group stays taken.  The endpoint asks whether a live group has the
    slug, but the rows of deleted groups stay in the unique index: the answer to a premium user who
    asks for a slug that only a deleted group has is a server error, now and at any later time. *)
Theorem deleted_slug_stays_taken (body : GroupCreate) (c : Session) (pk : string) (u : User) (g : Group) (slug name : string)
    (w : world rstore) :
  bytes_fromhex (pubkey_hex c) = Some pk -> w_work w = w_db w ->
  select_one (fun u => String.eqb (u_pubkey u) pk) (t_users (w_db w)) = Some u -> u_tier u <> FREE ->
  gc_slug body = Some slug -> gc_expires_at body = None -> b64decode (gc_name_encrypted body) = Some name ->
  g ∈ t_groups (w_db w) -> g_slug g = Some slug ->
  (forall g', g' ∈ t_groups (w_db w) -> g_slug g' = Some slug -> g_deleted_at g' <> None) ->
  fst (run (with_session (create_group s body c)) w) = Raise IntegrityError /\
  w_db (snd (run (with_session (create_group s body c)) w)) = w_db w.
Proof.
  intros Hpk Hw Hu Ht Hslug Hexp Hname Hg Hgs Hdead.
  change (w_db (snd (run (with_session (create_group s body c)) w))) with (w_db (absw (snd (run (with_session (create_group s body c)) w)))).
  rewrite fst_run, snd_run_absw, run_with_session. cbn [fst snd].
  assert (Hrun : exists w1, run_doc (create_group s body c) (absw w) = (Raise IntegrityError, w1) /\ w_db w1 = w_db w).
  { unfold create_group. rewrite run_doc_bind. unfold _get_current_user, Dms._get_current_user.
    rewrite run_doc_bind, (run_doc_fromhex _ _ _ Hpk), run_doc_bind, run_doc_sql. cbn [fst snd].
    change (w_work (absw w)) with (w_work w). rewrite Hw, Hu, run_doc_ret, run_doc_bind, run_doc_now. cbv zeta.
    rewrite Hslug, (bool_decide_eq_false_2 (u_tier u = FREE)), andb_false_r by done. rewrite run_doc_bind, run_doc_sql. cbn [fst snd].
    cbn [w_work set_databases]. destruct (select_one _ (t_groups (w_db w))) as [g'|] eqn:Es.
    { exfalso. apply select_in in Es as [Hin [Hsl Hl]%andb_true_iff]. unfold slug_is in Hsl.
      destruct (g_slug g') as [s'|] eqn:Es; [|done]. apply String.eqb_eq in Hsl as ->.
      apply negb_true_iff, bool_decide_eq_false in Hl. apply (Hdead g' Hin Es). by destruct (g_deleted_at g'); [destruct Hl|]. }
    rewrite bool_decide_eq_false_2 by by intros [? ?]. rewrite Hexp, run_doc_bind, Hname, run_doc_ret, run_doc_bind.
    rewrite (run_doc_fromhex _ _ _ Hpk), run_doc_bind, run_doc_token, run_doc_bind. unfold insert_group.
    rewrite run_doc_bind, run_doc_sql. cbn [w_work set_databases set_tokens].
    eexists. split.
    - match goal with |- context [existsb ?p ?l] => assert (E : existsb p l = true) by (apply existsb_exists; exists g;
        split; [by apply list_elem_of_In|]; unfold clashes; cbn [g_slug]; unfold slug_is; by rewrite Hgs, String.eqb_refl, orb_true_r);
        rewrite E end.
      reflexivity.
    - done. }
  destruct Hrun as (w1 & -> & Hd1). done.
Qed.
End Properties.

(** ** Witnesses *)

Module GroupDemo.
Import MessagesDemo.
#[local] Instance group_sha : Sha256 := demo_sha.
#[local] Instance group_nacl : Nacl := demo_nacl.
#[local] Instance group_ip : Ipaddress := fun _ => None.

Definition gid : string := twice 16 "a".
Definition gtext : string := uuid_to_string gid.
Definition slugged (deleted : option Z) : Group :=
  mkGroup gid (key_of alice) "name" false 86400 (Some "club") None false 50 (Some "relay") 900 deleted.
Definition premium : User := mkUser (key_of alice) None PREMIUM "relay" 0 None None None.
Definition with_groups (gl : list Group) (ms : list GroupMember) : database :=
  set_members ms (set_groups gl (set_users [premium; user bob "relay"; user carol "elsewhere"] empty_db)).
Definition group_relay (keys : list (string * entry)) (db : database) : world (rstore (Redis := Mem_Redis)) :=
  set_databases db db (relay keys).
Definition founder : GroupMember := mkMember gid (key_of alice) true 900.
Definition club : database := with_groups [slugged None] [founder].
Definition joined : GroupMember := mkMember gid (key_of bob) false 1000.

Lemma step_witness :
  let w' := snd (run (detached (with_session (add_member settings gtext bob (session alice)))) (group_relay [] club)) in
  t_members (w_db w') = [founder; joined] /\ stepped settings 1000 (AsUser (key_of alice)) club (w_db w').
Proof.
  destruct (group_requests_step settings (AsUser (key_of alice))
    (detached (with_session (add_member settings gtext bob (session alice)))) (group_relay [] club)) as [_ Hs].
  - apply op_add. reflexivity.
  - reflexivity.
  - split; [vm_compute; reflexivity|exact Hs].
Defined.

Lemma club_ok : groups_ok "relay" (gs club).
Proof.
  split; cbn.
  - apply NoDup_singleton.
  - apply NoDup_singleton.
  - intros m ->%list_elem_of_singleton. exists (slugged None). split; [by apply list_elem_of_singleton|done].
  - intros g ->%list_elem_of_singleton _. split; [exists founder; split; [by apply list_elem_of_singleton|done]|].
    vm_compute. split; discriminate.
Qed.


Definition invite : string := "abcdefghijklmnopqrstuvwx".
Definition invited := group_relay
  [(InviteTokens._token_key invite, Entry (VStr (dumps (JObj (InviteTokens.token_payload gtext alice 900 5000)))) (Some 5000%Z))] club.

Lemma join_witness :
  let w' := snd (run (with_session (join_via_token invite (session bob))) invited) in
  rv_keys (w_redis (absw w')) !! InviteTokens._token_key invite = None /\ t_members (w_db w') = [founder; joined].
Proof.
  destruct (join_uses_invite invite (session bob) (key_of bob) invited eq_refl eq_refl)
    as [Hsame|(raw & meta & gstr & g & _ & _ & _ & _ & _ & Hgone)].
  - exfalso. apply (f_equal (fun d => length (t_members d))) in Hsame. vm_compute in Hsame. discriminate.
  - split; [exact Hgone|]. vm_compute. reflexivity.
Defined.

Definition reopening : GroupCreate := mkGroupCreate "QUJD" false 86400 false None (Some "club").
Lemma slug_witness :
  fst (run (with_session (create_group settings reopening (session alice)))
         (group_relay [] (with_groups [slugged (Some 950%Z)] [founder]))) = Raise IntegrityError.
Proof.
  destruct (deleted_slug_stays_taken settings reopening (session alice) (key_of alice) premium (slugged (Some 950%Z)) "club" "ABC"
    (group_relay [] (with_groups [slugged (Some 950%Z)] [founder]))) as [Hr _];
    [reflexivity|reflexivity|reflexivity|discriminate|reflexivity|reflexivity|reflexivity| |reflexivity| |exact Hr].
  - by apply list_elem_of_singleton.
  - intros g' Hg' _. change (g' ∈ [slugged (Some 950%Z)]) in Hg'. apply list_elem_of_singleton in Hg' as ->. discriminate.
Defined.
End GroupDemo.
