(* ===== verification/GroupMessageFacts.v ===== *)
(** * Messages of groups: properties

    How the members are split over relays; who may post to a group and what a post changes; that a
    message reaches the members of this relay and one row leaves for each other relay. *)

From Stdlib Require Import Ascii String.
From stdpp Require Import prelude gmap strings list.
From S2P Require Import Prelude Json Codec RedisStore Models Effects Crypto Payloads Config Sessions RateLimit Deps Logic.
From S2P Require Import BlobStorage Queue QueueFacts MailboxFacts Messages MessagesFacts Groups GroupMessages.
From S2P Require FederationClient GroupSync GroupFacts.

#[local] Open Scope morok_scope.

(** ** Splitting keys over relays *)

Section Split.
  Context (own : string) (homes : list (string * string)).

(** A key of this relay, or of nobody we know. *)
Definition here (pk : string) : bool :=
  match row_value homes pk with Some h => String.eqb h own | None => true end.
Definition lives_at (relay pk : string) : bool :=
  match row_value homes pk with Some h => String.eqb h relay | None => false end.

(** The keys here, and for each other relay with one of the keys, all of its keys. *)
Record partition (keys local : list string) (remote : list (string * list string)) : Prop := {
  part_local : local = map hex_of_bytes (List.filter here keys);
  part_nodup : NoDup remote.*1;
  part_remote r pks : (r, pks) ∈ remote ->
    pks = map hex_of_bytes (List.filter (lives_at r) keys) /\ pks <> [] /\ r <> own;
  part_all pk : pk ∈ keys -> here pk = false -> exists r, lives_at r pk = true /\ r ∈ remote.*1
}.

Lemma add_remote_fst r x l : (add_remote r x l).*1 = if decide (r ∈ l.*1) then l.*1 else l.*1 ++ [r].
Proof.
  induction l as [|[r' pks] l IH]; cbn [add_remote fmap list_fmap].
  - by rewrite decide_False by apply not_elem_of_nil.
  - destruct (String.eqb_spec r' r) as [->|Hne]; cbn.
    + by rewrite decide_True by apply list_elem_of_here.
    + rewrite IH. destruct (decide (r ∈ l.*1)) as [Hin|Hno].
      * by rewrite decide_True by by apply list_elem_of_further.
      * rewrite decide_False; [done|]. by intros [->|Hin]%elem_of_cons.
Qed.

Lemma add_remote_in r x l r' pks :
  NoDup l.*1 -> (r', pks) ∈ add_remote r x l ->
  (r' <> r /\ (r', pks) ∈ l) \/
  (r' = r /\ ((exists pks0, (r, pks0) ∈ l /\ pks = pks0 ++ [x]) \/ (r ∉ l.*1 /\ pks = [x]))).
Proof.
  induction l as [|[r0 pks0] l IH]; cbn [add_remote fmap list_fmap].
  - intros _ [= -> ->]%list_elem_of_singleton. right. split; [done|]. right. split; [apply not_elem_of_nil|done].
  - intros [Hr0 Hnd]%NoDup_cons. destruct (String.eqb_spec r0 r) as [->|Hne].
    + intros [[= -> ->]|Hin]%elem_of_cons.
      * right. split; [done|]. left. exists pks0. split; [apply list_elem_of_here|done].
      * left. split; [|by apply list_elem_of_further]. intros ->. apply Hr0. apply list_elem_of_fmap. by exists (r, pks).
    + intros [[= -> ->]|Hin]%elem_of_cons; [left; split; [done|apply list_elem_of_here]|].
      destruct (IH Hnd Hin) as [[Hn Hin']|(-> & [(p & Hp & ->)|[Hno ->]])].
      * left. split; [done|by apply list_elem_of_further].
      * right. split; [done|]. left. exists p. split; [by apply list_elem_of_further|done].
      * right. split; [done|]. right. split; [|done]. by intros [->|?]%elem_of_cons.
Qed.

Lemma split_app ks1 ks2 l rs :
  split_by_relay own homes (ks1 ++ ks2) l rs =
  let '(l', rs') := split_by_relay own homes ks1 l rs in split_by_relay own homes ks2 l' rs'.
Proof.
  revert l rs. induction ks1 as [|pk ks IH]; intros l rs; [done|]. cbn [app split_by_relay].
  destruct (row_value homes pk) as [h|]; [destruct (String.eqb h own)|]; apply IH.
Qed.

Lemma filter_last (p : string -> bool) l x : List.filter p (l ++ [x]) = List.filter p l ++ (if p x then [x] else []).
Proof. rewrite List.filter_app. cbn. by destruct (p x). Qed.

Lemma split_partition keys :
  let '(local, remote) := split_by_relay own homes keys [] [] in partition keys local remote.
Proof.
  induction keys as [|pk keys IH] using rev_ind.
  - cbn. split; [done|apply NoDup_nil_2|intros r pks Hin|intros pk Hin]; by apply not_elem_of_nil in Hin.
  - rewrite split_app. destruct (split_by_relay own homes keys [] []) as [local remote].
    destruct IH as [Hl Hnd Hr Hall]. cbn [split_by_relay].
    assert (Hhere : here pk = true -> partition (keys ++ [pk]) (local ++ [hex_of_bytes pk]) remote).
    { intros Hh. assert (Hno : forall r, r <> own -> lives_at r pk = false).
      { intros r Hne. unfold here, lives_at in *. destruct (row_value homes pk) as [h|]; [|done].
        apply String.eqb_eq in Hh as ->. by apply String.eqb_neq, not_eq_sym. }
      split; [|done|..].
      - by rewrite filter_last, Hh, map_app, Hl.
      - intros r pks Hin. destruct (Hr r pks Hin) as (-> & Hne & Ho). split; [|done].
        by rewrite filter_last, Hno, app_nil_r.
      - intros pk' [Hin| ->%list_elem_of_singleton]%elem_of_app Hf; [auto|congruence]. }
    destruct (row_value homes pk) as [h|] eqn:Ev; [destruct (String.eqb_spec h own) as [->|Hne]|].
    + apply Hhere. unfold here. by rewrite Ev, String.eqb_refl.
    + assert (Hf : here pk = false) by (unfold here; rewrite Ev; by apply String.eqb_neq).
      assert (Hat : forall r, lives_at r pk = String.eqb h r) by (intros r; unfold lives_at; by rewrite Ev).
      split.
      * by rewrite filter_last, Hf, app_nil_r.
      * rewrite add_remote_fst. destruct (decide (h ∈ remote.*1)) as [|Hn]; [done|].
        apply NoDup_app. split_and!; [done| |apply NoDup_singleton].
        intros x Hx ->%list_elem_of_singleton. done.
      * intros r pks Hin. rewrite filter_last, Hat.
        destruct (add_remote_in _ _ _ _ _ Hnd Hin) as [[Hn Hin']|(-> & [(p & Hp & ->)|[Hno ->]])].
        -- destruct (Hr r pks Hin') as (-> & ? & ?). rewrite (proj2 (String.eqb_neq h r)) by congruence.
           by rewrite app_nil_r.
        -- destruct (Hr h p Hp) as (-> & ? & ?). rewrite String.eqb_refl, map_app. split_and!; [done| |done].
           by intros [_ ?]%app_eq_nil.
        -- rewrite String.eqb_refl, map_app. split_and!; [|done|done].
           enough (List.filter (lives_at h) keys = []) as -> by done.
           destruct (List.filter (lives_at h) keys) as [|k ks] eqn:Ek; [done|]. exfalso.
           assert (Hk : In k (List.filter (lives_at h) keys)) by (rewrite Ek; by left).
           apply List.filter_In in Hk as [Hk Hlk].
           destruct (Hall k) as (r & Hlr & Hr'); [by apply list_elem_of_In| |].
           { unfold here, lives_at in *. destruct (row_value homes k) as [h'|]; [|done]. apply String.eqb_eq in Hlk as ->.
             by apply String.eqb_neq. }
           apply Hno. unfold lives_at in *. destruct (row_value homes k); [|done].
           apply String.eqb_eq in Hlk as ->. by apply String.eqb_eq in Hlr as ->.
      * intros pk' Hin Hf'. rewrite add_remote_fst.
        apply elem_of_app in Hin as [Hin| ->%list_elem_of_singleton].
        -- destruct (Hall pk' Hin Hf') as (r & Hlr & Hr'). exists r. split; [done|].
           destruct (decide (h ∈ remote.*1)); [done|]. apply elem_of_app. by left.
        -- exists h. rewrite Hat, String.eqb_refl. split; [done|].
           destruct (decide (h ∈ remote.*1)); [done|]. apply elem_of_app. right. by apply list_elem_of_singleton.
    + apply Hhere. unfold here. by rewrite Ev.
Qed.
End Split.

(** ** Rows for other relays *)

Definition queued_row (row : string -> list string -> string * dict) (now : Z) (remote : list (string * list string))
    (q : FederationOutboundQueue) : Prop :=
  exists target members tok, (target, members) ∈ remote /\
    q = new_fed_row tok (row target members).1 (row target members).2 target now.

Lemma new_row_same tok id data target now : same_target id target (new_fed_row tok id data target now) = true.
Proof. unfold same_target. cbn. by rewrite !String.eqb_refl. Qed.

(** The rows that a pass over the relays adds: at most one for each, in their order, and then every
    relay has one. *)
Lemma run_queue_rows row now remote (w : vworld) :
  exists rows tk,
    run_doc (queue_to_relays row remote now) w =
      (Ok tt, set_databases (w_db w) (set_fedqueue (t_fedqueue (w_work w) ++ rows) (w_work w))
                (set_tokens tk w)) /\
    (forall q, q ∈ rows -> queued_row row now remote q) /\
    sublist (map fq_target_relay rows) remote.*1 /\
    (forall target members, (target, members) ∈ remote ->
       existsb (same_target (row target members).1 target) (t_fedqueue (w_work w) ++ rows) = true).
Proof.
  revert w. induction remote as [|[target members] remote IH]; intros w.
  - exists [], (w_tokens w). cbn [queue_to_relays]. split_and!.
    + rewrite run_doc_ret. f_equal. destruct w. unfold set_databases, set_tokens, set_fedqueue. cbn. rewrite app_nil_r.
      by destruct w_work.
    + intros q Hq. by apply not_elem_of_nil in Hq.
    + constructor.
    + intros t ms Hin. by apply not_elem_of_nil in Hin.
  - cbn [queue_to_relays]. destruct (row target members) as [id data] eqn:Erow.
    assert (Hone : exists r1 tk1, run_doc (queue_once id data target now) w =
      (Ok tt, set_databases (w_db w) (set_fedqueue (t_fedqueue (w_work w) ++ r1) (w_work w))
                (set_tokens tk1 w)) /\
      (r1 = [] \/ exists tok, r1 = [new_fed_row tok id data target now]) /\
      existsb (same_target id target) (t_fedqueue (w_work w) ++ r1) = true).
    { unfold queue_once. rewrite run_doc_bind, run_doc_sql. cbn [fst snd].
      assert (Ew : set_databases (w_db w) (w_work w) w = w) by by destruct w. rewrite Ew.
      destruct (select_one _ (t_fedqueue (w_work w))) as [r|] eqn:Es.
      - exists [], (w_tokens w). split_and!; [|by left|].
        + rewrite run_doc_ret. f_equal. destruct w. unfold set_databases, set_tokens, set_fedqueue. cbn. rewrite app_nil_r.
          by destruct w_work.
        + apply select_in in Es as [Hin Hs]. rewrite app_nil_r. apply existsb_exists. exists r.
          by rewrite <- list_elem_of_In.
      - unfold add_fed_row. rewrite run_doc_bind, run_doc_token, run_doc_sql. cbn [fst snd].
        exists [new_fed_row (w_tokens w 0) id data target now], (fun n => w_tokens w (S n)). split_and!; [by destruct w|right; by eexists|].
        rewrite existsb_app. apply orb_true_iff. right. cbn [existsb]. by rewrite new_row_same. }
    destruct Hone as (r1 & tk1 & E1 & Hr1 & Hs1). rewrite run_doc_bind, E1.
    set (w1 := set_databases _ _ _). destruct (IH w1) as (rows & tk & E2 & Hq & Hsub & Hall).
    exists (r1 ++ rows), tk. rewrite E2. split_and!.
    + subst w1. f_equal. destruct w. unfold set_databases, set_tokens, set_fedqueue. cbn.
      by rewrite <- app_assoc.
    + intros q [Hin|Hin]%elem_of_app.
      * destruct Hr1 as [->|[tok ->]]; [by apply not_elem_of_nil in Hin|]. apply list_elem_of_singleton in Hin as ->.
        exists target, members, tok. rewrite Erow. split; [apply list_elem_of_here|done].
      * destruct (Hq q Hin) as (t & ms & tok & Hin' & ->). exists t, ms, tok.
        split; [by apply list_elem_of_further|done].
    + rewrite map_app. destruct Hr1 as [->|[tok ->]]; cbn; by constructor.
    + intros t ms Hin. rewrite existsb_app in Hs1. rewrite app_assoc, existsb_app. apply orb_true_iff.
      apply elem_of_cons in Hin as [[= -> ->]|Hin].
      * left. rewrite Erow. cbn. by rewrite existsb_app.
      * specialize (Hall t ms Hin). subst w1. cbn in Hall. rewrite existsb_app in Hall. by apply orb_true_iff in Hall.
Qed.

(** ** Reading the users *)

Definition homes (keys : list string) (db : database) : list (string * string) :=
  map (fun u => (u_pubkey u, u_home_relay u)) (List.filter (active_in keys) (t_users db)).

Lemma run_users_in {A} (f : User -> A) keys (w : vworld) :
  run_doc (users_in f keys) w =
  (Ok (map (fun u => (u_pubkey u, f u)) (List.filter (active_in keys) (t_users (w_work w)))), w).
Proof.
  assert (Ew : set_databases (w_db w) (w_work w) w = w) by by destruct w.
  unfold users_in. destruct keys as [|k keys]; [|rewrite run_doc_sql; cbn [fst snd]; by rewrite Ew].
  rewrite run_doc_ret. f_equal. f_equal. induction (t_users (w_work w)) as [|u us IH]; [done|]. cbn.
  unfold active_in at 1. rewrite bool_decide_eq_false_2 by apply not_elem_of_nil. cbn. exact IH.
Qed.

Lemma run_split s keys (w : vworld) :
  run_doc (split_members s keys) w = (Ok (split_by_relay (relay_name s) (homes keys (w_work w)) keys [] []), w).
Proof. unfold split_members. by rewrite run_doc_bind, run_users_in, run_doc_ret. Qed.

(** ** Posting *)

Section Post.
  Context `{Sha256} `{Nacl} (s : Settings) (group_id : string) (body : EnvelopeIn) (current : Session).
Abbreviation own := (relay_name s).

(** The caller [sk] signed this message lately for the live group [l], is a member of it, and in a
    channel an admin; [blob] is the ciphertext, [id] its name. *)
Record may_post (now : Z) (db : database) (l : loaded) (sk blob id : string) : Prop := {
  mp_group : exists gid, uuid_of_string group_id = Some gid /\
    select_one (live_group gid) (t_groups db) = Some (l_group l) /\ l_members l = members_of gid db;
  mp_to : e_to body = uuid_to_string (g_id (l_group l));
  mp_from : e_from body = pubkey_hex current;
  mp_sender : bytes_fromhex (pubkey_hex current) = Some sk;
  mp_member : _is_member l sk = true;
  mp_channel : g_is_channel (l_group l) = true -> _is_admin l sk = true;
  mp_sig : exists sig, bytes_fromhex (e_sig body) = Some sig /\
    ed25519_verify (canonical_json (envelope_payload (e_from body) (e_to body) (e_ts body) (e_ttl body) (e_blob body)))
      sig sk = true;
  mp_fresh : (now - 300 <= e_ts body <= now + 60)%Z;
  mp_blob : b64decode (e_blob body) = Some blob /\ (string_len blob <= max_blob_bytes s)%Z;
  mp_id : compute_group_envelope_id sk (g_id (l_group l)) (e_ts body) blob = Some id
}.

Lemma run_admit_group (w : vworld) :
  (exists l sk blob id, may_post (w_now w) (w_work w) l sk blob id /\
     run_doc (admit_group_message s group_id body current) w = (Ok (l, sk, blob, id), w)) \/
  (exists e, run_doc (admit_group_message s group_id body current) w = (Raise e, w) /\
     forall l sk blob id, ~ may_post (w_now w) (w_work w) l sk blob id).
Proof.
  unfold admit_group_message, _parse_group_id. rewrite run_doc_bind.
  destruct (uuid_of_string group_id) as [gid|] eqn:Eg;
    [|right; eexists; split; [done|]; intros ???? [(? & ? & _)]; congruence].
  rewrite run_doc_ret, run_doc_bind, GroupFacts.run_load. destruct (select_one (live_group gid) _) as [g|] eqn:El;
    [|right; eexists; split; [done|]; intros ???? [(? & ? & ? & _)]; congruence].
  cbn [l_group l_members].
  assert (Hl : forall l sk blob id, may_post (w_now w) (w_work w) l sk blob id -> l = Loaded g (members_of gid (w_work w))).
  { intros [g' ms'] sk blob id [(gid' & Hg' & Hs & Hm) _ _ _ _ _ _ _ _ _]. cbn in *. by simplify_eq. }
  set (l := Loaded g (members_of gid (w_work w))) in *. cbv zeta.
  destruct (String.eqb_spec (e_to body) (uuid_to_string (g_id g))) as [Et|Et]; cbn [negb];
    [|right; eexists; split; [done|]; intros ???? Hm; pose proof (Hl _ _ _ _ Hm); subst; by destruct Hm].
  destruct (String.eqb_spec (e_from body) (pubkey_hex current)) as [Ef|Ef]; cbn [negb];
    [|right; eexists; split; [done|]; intros ???? []; done].
  rewrite run_doc_bind, run_fromhex. destruct (bytes_fromhex (pubkey_hex current)) as [sk|] eqn:Es;
    [|right; eexists; split; [done|]; intros ???? []; congruence].
  destruct (_is_member l sk) eqn:Em; cbn [negb];
    [|right; eexists; split; [done|]; intros ???? Hm; pose proof (Hl _ _ _ _ Hm); subst; destruct Hm; congruence].
  destruct (g_is_channel g && negb (_is_admin l sk)) eqn:Ec.
  { right; eexists; split; [done|]; intros ???? Hm; pose proof (Hl _ _ _ _ Hm); subst; destruct Hm as [_ _ _ Hsk _ Hc].
    simplify_eq. apply andb_true_iff in Ec as [Ec Ha%negb_true_iff]. specialize (Hc Ec). congruence. }
  destruct (bytes_fromhex (e_sig body)) as [sig|] eqn:Eg';
    [|right; eexists; split; [done|]; intros ???? [? ? ? ? ? ? (? & ? & ?)]; congruence].
  destruct (ed25519_verify _ sig sk) eqn:Ev; cbn [negb];
    [|right; eexists; split; [done|]; intros ???? [? ? ? ? ? ? (? & ? & ?)]; congruence].
  rewrite run_doc_bind, run_doc_now.
  destruct (Z.ltb_spec (e_ts body) (w_now w - 300)); [right; eexists; split; [done|]; intros ???? []; lia|].
  destruct (Z.ltb_spec (w_now w + 60) (e_ts body)); [right; eexists; split; [done|]; intros ???? []; lia|].
  destruct (b64decode (e_blob body)) as [blob|] eqn:Eb;
    [|right; eexists; split; [done|]; intros ???? [? ? ? ? ? ? ? ? [? ?]]; congruence].
  destruct (Z.ltb_spec (max_blob_bytes s) (string_len blob));
    [right; eexists; split; [done|]; intros ???? [? ? ? ? ? ? ? ? [? ?]]; simplify_eq; lia|].
  destruct (compute_group_envelope_id _ _ _ _) as [id|] eqn:Ei.
  - left. exists l, sk, blob, id. split; [|done]. split; try done; [by exists gid|..].
    + intros Hc. change (g_is_channel g = true) in Hc. rewrite Hc in Ec. by apply negb_false_iff in Ec.
    + by exists sig.
  - right. eexists. split; [done|]. intros ???? Hm. pose proof (Hl _ _ _ _ Hm) as ->.
    destruct Hm as [_ _ _ Hsk _ _ _ _ [Hb _] Hid]. simplify_eq. cbn in Hid. congruence.
Qed.

Lemma may_post_fun now db l sk blob id l' sk' blob' id' :
  may_post now db l sk blob id -> may_post now db l' sk' blob' id' -> l = l' /\ sk = sk' /\ blob = blob' /\ id = id'.
Proof.
  destruct l as [g ms], l' as [g' ms']. intros [(gid & Hg & Hs & Hm) _ _ ? _ _ _ _ [? _] Hi] [(gid' & Hg' & Hs' & Hm') _ _ ? _ _ _ _ [? _] Hi'].
  cbn in *. by simplify_eq.
Qed.

(** The name that recipients see. *)
Definition shown_name (db : database) (l : loaded) (sk : string) : option string :=
  if g_anonymous_senders (l_group l) then None else name_of sk db.

(** A row that a post to [l] may add: the message for the host, or, on the host, the message for
    another relay with its members, without the sender. *)
Definition group_row (now : Z) (db : database) (l : loaded) (sk id : string) (q : FederationOutboundQueue) : Prop :=
  let home := _group_home_relay s (l_group l) in
  let name := shown_name db l sk in
  let keys := recipients_of l sk in
  exists target data tok, q = new_fed_row tok id data target now /\ target <> own /\
    if String.eqb home own
    then exists members, members = map hex_of_bytes (List.filter (lives_at (homes keys db) target) keys) /\
           members <> [] /\ data = deliver_dict (g_id (l_group l)) body name members
    else target = home /\ data = to_host_dict (g_id (l_group l)) body name.

(** What a fan-out leaves of the tables, whatever fails. *)
Lemma run_group_fanout l name id sk (w : vworld) :
  bytes_fromhex (e_from body) = Some sk ->
  let keys := recipients_of l sk in
  let db := w_work w in
  let w' := snd (run_doc (do_group_fanout s l body name id) w) in
  w_db w' = w_db w /\
  match fst (run_doc (do_group_fanout s l body name id) w) with
  | Raise _ => True
  | Ok _ => exists rows, w_work w' = set_fedqueue (t_fedqueue db ++ rows) db /\ NoDup (map fq_target_relay rows) /\
      forall q, q ∈ rows -> exists target tok members, q = new_fed_row tok id (deliver_dict (g_id (l_group l)) body name members) target (w_now w) /\
        target <> own /\ members <> [] /\ members = map hex_of_bytes (List.filter (lives_at (homes keys db) target) keys)
  end.
Proof.
  intros Hsk keys db w'. subst w'. unfold do_group_fanout. rewrite run_doc_bind, run_fromhex, Hsk, run_doc_bind, run_split.
  fold keys db. pose proof (split_partition own (homes keys db) keys) as Hpart.
  destruct (split_by_relay own (homes keys db) keys [] []) as [local remote]. rewrite run_doc_bind.
  match goal with |- context [run_doc ?p w] => assert (Hq : no_sql p) by (destruct local; [done|];
    unfold enqueue_envelope_for_recipients, spawn; no_sql); pose proof (run_no_sql p w Hq) as Ht; pose proof (run_now p w) as Hn;
    destruct (run_doc p w) as [[c|e] w1] end; cbn [fst snd] in *; unfold tables_of in Ht; injection Ht as Hd Hk; [|done].
  rewrite run_doc_bind, run_doc_now, Hn, run_doc_bind.
  destruct (run_queue_rows (fun _ members => (id, deliver_dict (g_id (l_group l)) body name members)) (w_now w) remote w1)
    as (rows & tk & E & Hrows & Hsub & _).
  rewrite E, run_doc_ret. cbn. rewrite Hk. split; [done|]. exists rows. split; [done|]. destruct Hpart as [_ Hnd Hr _]. split.
  - by eapply sublist_NoDup.
  - intros q Hq'. destruct (Hrows q Hq') as (t & ms & tok & Hin & ->). cbn. exists t, tok, ms.
    destruct (Hr t ms Hin) as (Hms & Hne & Ho). done.
Qed.

Definition posted_rows (now : Z) (db db' : database) (a : GroupEnvelopeAck) : Prop :=
  exists l sk blob rows, may_post now db l sk blob (ga_envelope_id a) /\
    db' = set_fedqueue (t_fedqueue db ++ rows) db /\ NoDup (map fq_target_relay rows) /\
    forall q, q ∈ rows -> group_row now db l sk (ga_envelope_id a) q.

Lemma posted_none now db l sk blob a : may_post now db l sk blob (ga_envelope_id a) -> posted_rows now db db a.
Proof.
  intros Hm. exists l, sk, blob, []. split; [done|]. rewrite set_fedqueue_same. split; [done|].
  split; [apply NoDup_nil_2|]. intros q Hq. by apply not_elem_of_nil in Hq.
Qed.

Lemma run_send_group (w : vworld) :
  w_work w = w_db w ->
  let r := fst (run_doc (with_session (send_group_message s group_id body current)) w) in
  let w' := snd (run_doc (with_session (send_group_message s group_id body current)) w) in
  w_work w' = w_db w' /\
  match r with
  | Ok a => posted_rows (w_now w) (w_db w) (w_db w') a
  | Raise _ => w_db w' = w_db w
  end /\
  ((forall l sk blob id, ~ may_post (w_now w) (w_db w) l sk blob id) -> (exists e, r = Raise e) /\ w' = w).
Proof.
  intros Hw. cbv zeta. rewrite run_with_session. cbn [fst snd].
  destruct (run_admit_group w) as [(l & sk & blob & id & Ha & E)|(e & E & Hno)].
  2: { assert (E' : run_doc (send_group_message s group_id body current) w = (Raise e, w)).
       { unfold send_group_message. by rewrite run_doc_bind, E. }
       rewrite E'. cbn. split_and!; [done|done|]. intros _. split; [by eexists|]. destruct w. cbn in *. by subst. }
  assert (Ha' := Ha). rewrite Hw in Ha'.
  enough (Hrun : w_db (snd (run_doc (send_group_message s group_id body current) w)) = w_db w /\
    match fst (run_doc (send_group_message s group_id body current) w) with
    | Ok a => posted_rows (w_now w) (w_db w) (w_work (snd (run_doc (send_group_message s group_id body current) w))) a
    | Raise _ => True end).
  { destruct (run_doc (send_group_message s group_id body current) w) as [[a|e] w']; cbn in *; destruct Hrun as [Hd Hr];
      (split; [done|]); (split; [done|]); intros Hno; by destruct (Hno _ _ _ _ Ha'). }
  unfold send_group_message. rewrite run_doc_bind, E, run_doc_bind.
  assert (Hx : no_sql (envelope_exists id)) by (unfold envelope_exists; no_sql).
  pose proof (run_no_sql (envelope_exists id) w Hx) as Ht. pose proof (run_now (envelope_exists id) w) as Hn.
  destruct (run_doc (envelope_exists id) w) as [[[]|e] w1]; cbn [fst snd] in *;
    unfold tables_of in Ht; injection Ht as Hd Hk; [| |done].
  { cbn. split; [done|]. rewrite Hk, Hw. by eapply posted_none. }
  rewrite run_doc_bind, run_find_user. cbv zeta. rewrite run_doc_bind, run_doc_now, Hn.
  replace (if g_anonymous_senders (l_group l) then None else user_of sk (w_work w1) ≫= u_username)
    with (shown_name (w_db w) l sk) by (unfold shown_name, name_of; by rewrite Hk, Hw).
  destruct (String.eqb_spec (_group_home_relay s (l_group l)) own) as [Eh|Eh]; cbn [negb].
  - rewrite run_doc_bind.
    assert (Hb : no_sql (write_blob id blob)) by (unfold write_blob; no_sql).
    pose proof (run_no_sql _ w1 Hb) as Ht. pose proof (run_now (write_blob id blob) w1) as Hn2.
    destruct (run_doc (write_blob id blob) w1) as [[p|e] w2]; cbn [fst snd] in *;
      unfold tables_of in Ht; injection Ht as Hd2 Hk2; [|cbn; split; [congruence|done]].
    assert (Hfrom : bytes_fromhex (e_from body) = Some sk) by (rewrite (mp_from _ _ _ _ _ _ Ha); by apply (mp_sender _ _ _ _ _ _ Ha)).
    pose proof (run_group_fanout l (shown_name (w_db w) l sk) id sk w2 Hfrom) as Hf. cbv zeta in Hf.
    rewrite run_doc_bind. destruct (run_doc (do_group_fanout _ _ _ _ _) w2) as [[[[[c n] rc] sk']|e] w3]; cbn [fst snd] in *;
      destruct Hf as [Hd3 Hf]; (split; [cbn; congruence|]); [|done].
    destruct Hf as (rows & Hr & Hnd & Hq). cbn. exists l, sk, blob, rows. split; [done|].
    rewrite Hr, Hk2, Hk, Hw. split; [done|]. split; [done|]. intros q Hin.
    destruct (Hq q Hin) as (t & tok & ms & -> & Ho & Hne & Hms). unfold group_row. rewrite Eh, String.eqb_refl.
    exists t, (deliver_dict (g_id (l_group l)) body (shown_name (w_db w) l sk) ms), tok.
    split; [by rewrite Hn2, Hn|]. split; [done|]. exists ms. rewrite Hk2, Hk, Hw in Hms. done.
  - rewrite run_doc_bind.
    destruct (run_queue_rows (fun _ _ => (id, to_host_dict (g_id (l_group l)) body (shown_name (w_db w) l sk))) (w_now w)
      [(_group_home_relay s (l_group l), [])] w1) as (rows & tk & Eq & Hrows & Hsub & _).
    cbn [queue_to_relays] in Eq. rewrite run_doc_bind in Eq.
    destruct (run_doc (queue_once _ _ _ _) w1) as [[[]|e] w2]; [|done]. rewrite run_doc_ret in Eq. injection Eq as ->.
    rewrite run_doc_ret. cbn. split; [done|]. exists l, sk, blob, rows. rewrite Hk, Hw. split; [done|]. split; [done|]. split.
    { eapply sublist_NoDup; [apply NoDup_singleton|exact Hsub]. }
    intros q Hin. destruct (Hrows q Hin) as (t & ms & tok & [= -> ->]%list_elem_of_singleton & ->).
    unfold group_row. rewrite (proj2 (String.eqb_neq _ _) Eh). by eexists _, _, tok.
Qed.
End Post.

(** ** Delivery by the host *)

Lemma add_remote_count r x l : length (concat (add_remote r x l).*2) = S (length (concat l.*2)).
Proof.
  induction l as [|[r' pks] l IH]; [done|]. cbn [add_remote]. destruct (String.eqb r' r); cbn; rewrite ?length_app, ?IH; cbn; lia.
Qed.
Lemma split_count own hs keys local remote :
  let '(local', remote') := split_by_relay own hs keys local remote in
  (length local' + length (concat remote'.*2) = length local + length (concat remote.*2) + length keys)%nat.
Proof.
  revert local remote. induction keys as [|pk keys IH]; intros local remote; cbn [split_by_relay]; [cbn; lia|].
  assert (Hhere : let '(local', remote') := split_by_relay own hs keys (local ++ [hex_of_bytes pk]) remote in
    (length local' + length (concat remote'.*2) = length local + length (concat remote.*2) + length (pk :: keys))%nat).
  { specialize (IH (local ++ [hex_of_bytes pk]) remote). destruct (split_by_relay own hs keys _ _).
    rewrite length_app in IH. cbn in *. lia. }
  destruct (row_value hs pk) as [h|]; [destruct (String.eqb h own); [exact Hhere|]|exact Hhere].
  specialize (IH local (add_remote h (hex_of_bytes pk) remote)). destruct (split_by_relay own hs keys _ _).
  rewrite add_remote_count in IH. cbn in *. lia.
Qed.

Section Host.
  Context `{Sha256} `{Nacl} (s : Settings) (group_id : string) (body : EnvelopeIn) (current : Session).
Abbreviation own := (relay_name s).

(** The fan-out on the host, when nothing fails. *)
Lemma run_fanout_host (w : vworld) l name id sk zs p idx :
  let db := w_work w in
  let keys := recipients_of l sk in
  let members_here := map hex_of_bytes (List.filter (here own (homes keys db)) keys) in
  let a := group_fanout_args s (g_id (l_group l)) body name id members_here in
  let exp := expiry (e_ts body) (e_ttl body) (w_now w) (message_ttl_hard_seconds s) in
  let served := length (eligible a zs (w_now w)) in
  calm w -> bytes_fromhex (e_from body) = Some sk -> NoDup keys -> members_here <> [] -> (w_now w < exp)%Z ->
  (forall r, r ∈ members_here -> zset_at (_inbox_key r) (w_redis w) = Some (zs r)) ->
  set_at (_pending_recipients_key id) (w_redis w) = Some p -> zset_at _BLOB_EXPIRY_INDEX_KEY (w_redis w) = Some idx ->
  exists v' rows tk m,
    run_doc (do_group_fanout s l body name id) w =
      (Ok (Z.of_nat served, m, Z.of_nat (length keys - length members_here), (Z.of_nat served <? Z.of_nat (length members_here))%Z),
       set_databases (w_db w) (set_fedqueue (t_fedqueue db ++ rows) db)
         (set_tokens tk (set_tasks (w_tasks w ++ [TPush members_here]) (set_redis v' w)))) /\
    fanned_out a zs (w_now w) exp p (w_redis w) v' /\
    forall target pk, pk ∈ keys -> lives_at (homes keys db) target pk = true -> target <> own ->
      existsb (same_target id target) (t_fedqueue db ++ rows) = true.
Proof.
  intros db keys members_here a exp served Hc Hfrom Hnd Hne Hexp Hz Hp Hidx.
  unfold do_group_fanout. rewrite run_doc_bind, run_fromhex, Hfrom, run_doc_bind, run_split.
  fold keys db. pose proof (split_partition own (homes keys db) keys) as Hpart.
  pose proof (split_count own (homes keys db) keys [] []) as Hcount.
  destruct (split_by_relay own (homes keys db) keys [] []) as [local remote].
  assert (El : local = members_here) by apply Hpart. rewrite El in *. cbn [length concat fmap list_fmap] in Hcount.
  destruct (run_fanout a zs w p idx) as (v' & E & Hf); try done.
  { change (fa_recipients a) with members_here. unfold members_here. apply NoDup_fmap_2_strong.
    - intros x y _ _. apply hex_of_bytes_inj.
    - apply base.NoDup_ListNoDup, List.NoDup_filter, base.NoDup_ListNoDup. done. }
  set (local_part := match members_here with [] => ret 0%Z | _ :: _ =>
      let! (_, count) := enqueue_envelope_for_recipients a in let! _ := spawn (TPush members_here) in ret count end).
  assert (Elocal : run_doc local_part w =
    (Ok (Z.of_nat served), set_tasks (w_tasks w ++ [TPush members_here]) (set_redis v' w))).
  { unfold local_part. clear -E Hne. destruct members_here; [done|]. rewrite run_doc_bind, E, run_doc_bind, run_doc_spawn, run_doc_ret. done. }
  fold a. rewrite run_doc_bind. match goal with |- context [run_doc ?q w] => change (run_doc q w) with (run_doc local_part w) end.
  rewrite Elocal, run_doc_bind, run_doc_now, run_doc_bind.
  set (w2 := set_tasks _ _).
  destruct (run_queue_rows (fun _ members => (id, deliver_dict (g_id (l_group l)) body name members)) (w_now w2) remote w2)
    as (rows & tk & Eq & _ & _ & Hall).
  rewrite Eq, run_doc_ret. exists v', rows, tk, (Z.of_nat (length remote)). split; [|split; [exact Hf|]].
  - f_equal. f_equal. f_equal. f_equal. lia.
  - intros target pk Hin Hat Ho. destruct (part_all _ _ _ _ _ Hpart pk Hin) as (r & Hr & Hrem).
    { unfold here. unfold lives_at in Hat. destruct (row_value _ pk) as [h|]; [|done]. apply String.eqb_eq in Hat as ->.
      by apply String.eqb_neq. }
    assert (r = target) as ->.
    { unfold lives_at in *. destruct (row_value _ pk) as [h|]; [|done]. apply String.eqb_eq in Hat as <-.
      by apply String.eqb_eq in Hr. }
    apply list_elem_of_fmap in Hrem as ([t ms] & -> & Hin'). exact (Hall t ms Hin').
Qed.

Lemma run_host_post (w : vworld) l sk blob id path zs p idx :
  let db := w_work w in
  let keys := recipients_of l sk in
  let members_here := map hex_of_bytes (List.filter (here own (homes keys db)) keys) in
  let a := group_fanout_args s (g_id (l_group l)) body (shown_name db l sk) id members_here in
  let exp := expiry (e_ts body) (e_ttl body) (w_now w) (message_ttl_hard_seconds s) in
  let served := length (eligible a zs (w_now w)) in
  calm w -> may_post s group_id body current (w_now w) db l sk blob id -> _group_home_relay s (l_group l) = own ->
  _blob_path id = Ok path -> rv_keys (w_redis w) !! _envelope_meta_key id = None -> NoDup keys -> members_here <> [] ->
  (w_now w < exp)%Z -> (forall r, r ∈ members_here -> zset_at (_inbox_key r) (w_redis w) = Some (zs r)) ->
  set_at (_pending_recipients_key id) (w_redis w) = Some p -> zset_at _BLOB_EXPIRY_INDEX_KEY (w_redis w) = Some idx ->
  exists v' rows tk,
    run_doc (send_group_message s group_id body current) w =
      (Ok (mkGroupAck id true (Z.of_nat served + Z.of_nat (length keys - length members_here))
             (Z.of_nat served <? Z.of_nat (length members_here))%Z (e_ts body + e_ttl body)),
       set_databases (w_db w) (set_fedqueue (t_fedqueue db ++ rows) db)
         (set_tokens tk (set_tasks (w_tasks w ++ [TPush members_here]) (set_redis v' (put_blob path blob w))))) /\
    fanned_out a zs (w_now w) exp p (w_redis w) v' /\
    forall target pk, pk ∈ keys -> lives_at (homes keys db) target pk = true -> target <> own ->
      existsb (same_target id target) (t_fedqueue db ++ rows) = true.
Proof.
  intros db keys members_here a exp served Hc Hm Hhome Hpath Hnew Hnd Hne Hexp Hz Hp Hidx.
  assert (Ew : set_databases (w_db w) (w_work w) w = w) by by destruct w.
  unfold send_group_message. rewrite run_doc_bind.
  destruct (run_admit_group s group_id body current w) as [(l' & sk' & blob' & id' & Hm' & ->)|(e & _ & Hno)];
    [|by destruct (Hno l sk blob id)].
  destruct (may_post_fun _ _ _ _ _ _ _ _ _ _ _ _ _ _ Hm Hm') as (<- & <- & <- & <-). clear Hm'.
  rewrite run_doc_bind. unfold envelope_exists. rewrite run_doc_bind, run_doc_redis, rrun_rcall by done.
  cbn [documented fst snd as_int res_of]. rewrite Hnew.
  rewrite run_doc_ret. cbn [Z.eqb negb]. assert (Er : set_redis (w_redis w) w = w) by by destruct w. rewrite Er.
  rewrite run_doc_bind, run_find_user. cbv zeta. rewrite run_doc_bind, run_doc_now, Hhome, String.eqb_refl. cbn [negb].
  change (if g_anonymous_senders (l_group l) then None else user_of sk (w_work w) ≫= u_username) with (shown_name db l sk).
  rewrite run_doc_bind, (run_write_blob id path) by done. set (w1 := put_blob path blob w).
  assert (Hfrom : bytes_fromhex (e_from body) = Some sk) by (rewrite (mp_from _ _ _ _ _ _ _ _ _ _ Hm); by apply (mp_sender _ _ _ _ _ _ _ _ _ _ Hm)).
  destruct (run_fanout_host w1 l (shown_name db l sk) id sk zs p idx) as (v' & rows & tk & m & E & Hf & Hrows); try done.
  rewrite run_doc_bind, E, run_doc_ret. exists v', rows, tk. split; [done|]. split; [exact Hf|exact Hrows].
Qed.
End Host.

(** ** Properties *)

Section Properties.
  Context `{R : Redis} `{Sha256} `{Nacl} (s : Settings) (group_id : string) (body : EnvelopeIn) (current : Session).

(** Who may post to a group, and what a post changes.  Whatever fails, a post is answered with a
    receipt only if the group of the address is live, the caller is a member of it, and an admin if
    it is a channel, and has signed this message for this group lately.  The tables gain at most one
    row for each other relay: on the host, the message with exactly the members that live there,
    without the sender; elsewhere, the message for the host.  A refusal and a failure leave the
    tables as they were, and a post that may not be made changes nothing anywhere. *)
Theorem group_post_admission (w : world rstore) :
  w_work w = w_db w ->
  let r := fst (run (with_session (send_group_message s group_id body current)) w) in
  let w' := snd (run (with_session (send_group_message s group_id body current)) w) in
  w_work w' = w_db w' /\
  match r with
  | Ok a => posted_rows s group_id body current (w_now w) (w_db w) (w_db w') a
  | Raise _ => w_db w' = w_db w
  end /\
  ((forall l sk blob id, ~ may_post s group_id body current (w_now w) (w_db w) l sk blob id) ->
   (exists e, r = Raise e) /\ absw w' = absw w).
Proof.
  intros Hw. cbv zeta. rewrite fst_run. pose proof (run_send_group s group_id body current (absw w) Hw) as H1. cbv zeta in H1.
  rewrite <- snd_run_absw in H1. exact H1.
Qed.

(** C15: a message reaches the members.  On a calm server that hosts the group, an admitted new message
    is put into the inbox of every member of this relay with room, each of whom can then fetch
    exactly the ciphertext; all of them get a push; every other relay with members has a row for the
    message; and the answer counts those served and those elsewhere, and says whether somebody here
    was skipped. *)
Theorem group_message_reaches_members (w : world rstore) l sk blob id path zs p idx :
  let db := w_db w in
  let v := w_redis (absw w) in
  let keys := recipients_of l sk in
  let members_here := map hex_of_bytes (List.filter (here (relay_name s) (homes keys db)) keys) in
  let a := group_fanout_args s (g_id (l_group l)) body (shown_name db l sk) id members_here in
  let exp := expiry (e_ts body) (e_ttl body) (w_now w) (message_ttl_hard_seconds s) in
  let served := eligible a zs (w_now w) in
  calm w -> w_work w = db -> may_post s group_id body current (w_now w) db l sk blob id ->
  _group_home_relay s (l_group l) = relay_name s -> well_formed_id id = true -> _blob_path id = Ok path ->
  rv_keys v !! _envelope_meta_key id = None -> NoDup keys -> members_here <> [] -> (w_now w < exp)%Z ->
  (forall r, r ∈ members_here -> zset_at (_inbox_key r) v = Some (zs r)) ->
  set_at (_pending_recipients_key id) v = Some p -> zset_at _BLOB_EXPIRY_INDEX_KEY v = Some idx ->
  let w1 := snd (run (with_session (send_group_message s group_id body current)) w) in
  fst (run (with_session (send_group_message s group_id body current)) w) =
    Ok (mkGroupAck id true (Z.of_nat (length served) + Z.of_nat (length keys - length members_here))
          (Z.of_nat (length served) <? Z.of_nat (length members_here))%Z (e_ts body + e_ttl body)) /\
  fanned_out a zs (w_now w) exp p v (w_redis (absw w1)) /\
  w_tasks w1 = w_tasks w ++ [TPush members_here] /\
  (forall reader, pubkey_hex reader ∈ served -> fst (run (get_envelope_blob id reader) w1) = Ok blob) /\
  (forall target pk, pk ∈ keys -> lives_at (homes keys db) target pk = true -> target <> relay_name s ->
     existsb (same_target id target) (t_fedqueue (w_db w1)) = true).
Proof.
  intros db v keys members_here a exp served Hc Hw Hm Hhome Hid Hpath Hnew Hnd Hne Hexp Hz Hp Hidx w1.
  destruct (run_host_post s group_id body current (absw w) l sk blob id path zs p idx) as (v' & rows & tk & E & Hf & Hrows);
    try done; change (w_work (absw w)) with (w_work w) in *; rewrite ?Hw; try done.
  rewrite Hw in E, Hf, Hrows. fold db keys members_here a exp in E, Hf, Hrows. change (w_now (absw w)) with (w_now w) in *.
  assert (E1 : run_doc (with_session (send_group_message s group_id body current)) (absw w) =
    (Ok (mkGroupAck id true (Z.of_nat (length served) + Z.of_nat (length keys - length members_here))
          (Z.of_nat (length served) <? Z.of_nat (length members_here))%Z (e_ts body + e_ttl body)),
     set_databases (set_fedqueue (t_fedqueue db ++ rows) db) (set_fedqueue (t_fedqueue db ++ rows) db)
       (set_tokens tk (set_tasks (w_tasks w ++ [TPush members_here]) (set_redis v' (put_blob path blob (absw w))))))).
  { by rewrite run_with_session, E. }
  assert (Ew1 : absw w1 = snd (run_doc (with_session (send_group_message s group_id body current)) (absw w)))
    by (unfold w1; by rewrite snd_run_absw).
  rewrite E1 in Ew1. cbn [snd] in Ew1. rewrite fst_run, E1. split; [done|]. split; [|split_and!].
  - rewrite Ew1. exact Hf.
  - change (w_tasks w1) with (w_tasks (absw w1)). by rewrite Ew1.
  - intros reader Hin. rewrite fst_run.
    assert (Hroom : has_room (w_now w) zs (pubkey_hex reader) = true /\ pubkey_hex reader ∈ fa_recipients a)
      by (by apply list_elem_of_filter in Hin).
    destruct Hroom as [Hroom Hrs].
    rewrite (run_fetch id reader (fanned id (w_now w) exp zs (pubkey_hex reader)) (absw w1)).
    + unfold fanned. rewrite Hroom, lookup_insert_eq, Ew1. unfold blob_at. rewrite Hpath. cbn. by rewrite lookup_insert_eq.
    + by rewrite Ew1.
    + done.
    + rewrite Ew1. by apply (fanned_inbox _ _ _ _ _ _ _ Hf).
  - intros target pk Hin Hat Ho. change (w_db w1) with (w_db (absw w1)). rewrite Ew1. by eapply Hrows.
Qed.
End Properties.

(** ** Witnesses *)

Module GroupMessageDemo.
Import MessagesDemo.
#[local] Instance post_sha : Sha256 := demo_sha.
#[local] Instance post_nacl : Nacl := demo_nacl.

(** alice's group, with bob here and carol on another relay. *)
Definition gid : string := GroupFacts.GroupDemo.gid.
Definition gtext : string := GroupFacts.GroupDemo.gtext.
Definition group : Group := GroupFacts.GroupDemo.slugged None.
Definition trio : list GroupMember :=
  [mkMember gid (key_of alice) true 900; mkMember gid (key_of bob) false 910; mkMember gid (key_of carol) false 920].
Definition circle : database := GroupFacts.GroupDemo.with_groups [group] trio.
Definition circle_relay := GroupFacts.GroupDemo.group_relay [] circle.
Definition letter : EnvelopeIn := mkEnvelopeIn alice gtext 1000 600 "QUJD" (twice 64 "dd").
Definition letter_id : string := default "" (compute_group_envelope_id (key_of alice) gid 1000 "ABC").
Definition answer : GroupEnvelopeAck := mkGroupAck letter_id true 2 false 1600.

Lemma group_post_witness :
  let x := run (with_session (send_group_message settings gtext letter (session alice))) circle_relay in
  fst x = Ok answer /\ posted_rows settings gtext letter (session alice) 1000 circle (w_db (snd x)) answer.
Proof.
  destruct (group_post_admission settings gtext letter (session alice) circle_relay eq_refl) as (_ & Hr & _).
  split; [vm_compute; reflexivity|].
  match type of Hr with match ?r with _ => _ end => assert (E : r = Ok answer) by (vm_compute; reflexivity) end.
  rewrite E in Hr. exact Hr.
Defined.

Lemma may_post_letter : may_post settings gtext letter (session alice) 1000 circle (Loaded group trio) (key_of alice) "ABC" letter_id.
Proof.
  split; try (vm_compute; reflexivity).
  - exists gid. split_and!; vm_compute; reflexivity.
  - eexists. split; vm_compute; reflexivity.
  - vm_compute. split; discriminate.
  - vm_compute. split; [reflexivity|discriminate].
Qed.

Lemma group_reaches_witness :
  let w1 := snd (run (with_session (send_group_message settings gtext letter (session alice))) circle_relay) in
  fst (run (get_envelope_blob letter_id (session bob)) w1) = Ok "ABC" /\
  existsb (same_target letter_id "elsewhere") (t_fedqueue (w_db w1)) = true.
Proof.
  destruct (group_message_reaches_members settings gtext letter (session alice) circle_relay (Loaded group trio) (key_of alice)
    "ABC" letter_id (match _blob_path letter_id with Ok p => p | Raise _ => "" end) (fun _ => ∅) ∅ ∅)
    as (_ & _ & _ & Hfetch & Hrows); [..|split].
  - reflexivity.
  - reflexivity.
  - exact may_post_letter.
  - reflexivity.
  - vm_compute. reflexivity.
  - vm_compute. reflexivity.
  - vm_compute. reflexivity.
  - vm_compute. repeat constructor; intros Hin; repeat (apply elem_of_cons in Hin as [Hin|Hin]; [discriminate|]);
      by apply not_elem_of_nil in Hin.
  - vm_compute. discriminate.
  - vm_compute. reflexivity.
  - intros r _. unfold circle_relay. vm_compute. reflexivity.
  - vm_compute. reflexivity.
  - vm_compute. reflexivity.
  - apply Hfetch. vm_compute. constructor.
  - apply (Hrows _ (key_of carol)); [vm_compute; repeat constructor|vm_compute; reflexivity|vm_compute; discriminate].
Defined.
End GroupMessageDemo.
