(* ===== verification/SnapshotFacts.v ===== *)
(** * Copies of groups: properties

    After a snapshot of the host was applied, the copy has exactly the members and the admins that
    the snapshot lists; a key in it need not have thirty-two bytes. *)

From Stdlib Require Import Ascii String.
From stdpp Require Import prelude gmap strings list.
From S2P Require Import Prelude Json Codec RedisStore Models Effects Crypto Payloads Config Sessions RateLimit Deps Logic.
From S2P Require Import Messages Groups GroupSync GroupFacts.
From S2P Require MessagesFacts.

#[local] Open Scope morok_scope.

(** ** Roles *)

(** A member of the group [id] with the key [pk] and the role [a]. *)
Definition role_in (id pk : string) (a : bool) (ms : list GroupMember) : Prop :=
  exists m, m ∈ ms /\ gm_group_id m = id /\ gm_pubkey m = pk /\ gm_is_admin m = a.

Lemma role_in_key id pk a ms : role_in id pk a ms -> is_in id pk ms.
Proof. intros (m & Hin & <- & <- & _). apply list_elem_of_fmap. by exists m. Qed.
Lemma key_role_in id pk ms : is_in id pk ms -> exists a, role_in id pk a ms.
Proof. intros (m & [= -> ->] & Hin)%list_elem_of_fmap. by exists (gm_is_admin m), m. Qed.

Definition of_member (id pk : string) (m : GroupMember) : bool := in_group id m && String.eqb (gm_pubkey m) pk.

Lemma of_member_key id pk m : of_member id pk m = true <-> member_key m = (id, pk).
Proof.
  unfold of_member, in_group, member_key. rewrite andb_true_iff, !String.eqb_eq. split; [by intros [-> ->]|by intros [= -> ->]].
Qed.

Lemma role_delete id pk ms id' pk' a :
  role_in id' pk' a (List.filter (fun m => negb (of_member id pk m)) ms) <-> role_in id' pk' a ms /\ (id', pk') <> (id, pk).
Proof.
  split.
  - intros (m & Hm & <- & <- & Ha). apply list_elem_of_In, List.filter_In in Hm as [Hm Hn%negb_true_iff%not_true_iff_false].
    split; [exists m; by rewrite list_elem_of_In|]. intros E. apply Hn, of_member_key. exact E.
  - intros [(m & Hm & <- & <- & Ha) Hne]. exists m. split; [|done]. apply list_elem_of_In, List.filter_In.
    split; [by apply list_elem_of_In|]. apply negb_true_iff, not_true_iff_false. intros E%of_member_key. done.
Qed.

Lemma role_add ms m id pk a :
  role_in id pk a (ms ++ [m]) <-> role_in id pk a ms \/ (member_key m = (id, pk) /\ gm_is_admin m = a).
Proof.
  unfold role_in. split.
  - intros (x & [Hx| ->%list_elem_of_singleton]%elem_of_app & <- & <- & Ha); [left; by exists x|by right].
  - intros [(x & Hx & H)|[[= <- <-] Ha]]; [exists x|exists m]; (split; [|done]); apply elem_of_app; [by left|right].
    by apply list_elem_of_singleton.
Qed.

Lemma role_update m ms id pk a :
  role_in id pk a (map (fun x => if of_member (gm_group_id m) (gm_pubkey m) x then m else x) ms) <->
  if decide (member_key m = (id, pk)) then gm_is_admin m = a /\ is_in id pk ms else role_in id pk a ms.
Proof.
  unfold role_in. split.
  - intros (y & (x & -> & Hx)%list_elem_of_fmap & Hid & Hpk & Ha).
    destruct (of_member (gm_group_id m) (gm_pubkey m) x) eqn:E.
    + rewrite decide_True by by rewrite <- Hid, <- Hpk. split; [done|]. apply of_member_key in E.
      apply list_elem_of_fmap. exists x. split; [|done]. rewrite E. congruence.
    + rewrite decide_False; [by exists x|]. intros Hk. apply not_true_iff_false in E. apply E, of_member_key.
      unfold member_key in *. simplify_eq. congruence.
  - case_decide as Hk.
    + intros [Ha (x & E & Hx)%list_elem_of_fmap]. exists m. unfold member_key in Hk. simplify_eq. split_and!; try done.
      apply list_elem_of_fmap. exists x. split; [|done]. by rewrite (proj2 (of_member_key _ _ x)).
    + intros (x & Hx & <- & <- & Ha). exists x. split_and!; try done. apply list_elem_of_fmap. exists x. split; [|done].
      destruct (of_member _ _ x) eqn:E; [|done]. apply of_member_key in E. unfold member_key in *. congruence.
Qed.

(** ** Runs *)

Lemma run_doc_of_res {A} (r : res A) (w : vworld) : run_doc (of_res r) w = (r, w).
Proof. done. Qed.

Lemma run_remove id gone (w : vworld) :
  exists ms', run_doc (remove_members id gone) w = (Ok tt, set_databases (w_db w) (set_members ms' (w_work w)) w) /\
    forall id' pk a, role_in id' pk a ms' <-> role_in id' pk a (t_members (w_work w)) /\ ~ (id' = id /\ pk ∈ map gm_pubkey gone).
Proof.
  revert w. induction gone as [|m gone IH]; intros w.
  - exists (t_members (w_work w)). split.
    + cbn [remove_members]. rewrite run_doc_ret. f_equal. destruct w as [? ? ? k]. by destruct k.
    + intros. split; [|by intros [? _]]. intros Hr. split; [done|]. intros [_ Hin]. by apply not_elem_of_nil in Hin.
  - cbn [remove_members]. rewrite run_doc_bind. unfold delete_member at 1. rewrite run_doc_sql. cbn [fst snd delete_where].
    set (w1 := set_databases _ _ w). destruct (IH w1) as (ms' & E & Hr). exists ms'. rewrite E. split; [done|].
    intros id' pk a. rewrite Hr. unfold w1. cbn [t_members w_work set_databases set_members].
    change (fun r => negb (in_group id r && String.eqb (gm_pubkey r) (gm_pubkey m)))
      with (fun r => negb (of_member id (gm_pubkey m) r)).
    rewrite role_delete. cbn [map]. rewrite elem_of_cons.
    split; [intros [[H1 H2] H3]|intros [H1 H2]]; (split; [try done|]).
    + intros [-> [->|Hin]]; [by apply H2|by apply H3].
    + split; [done|]. intros [= -> ->]. apply H2. split; [done|by left].
    + intros [-> Hin]. apply H2. split; [done|by right].
Qed.

(** The role that a snapshot gives to a key that it lists. *)
Definition old_role (existing : list GroupMember) (pk : string) : bool :=
  match List.find (fun e => String.eqb (gm_pubkey e) pk) existing with Some e => gm_is_admin e | None => false end.
Definition gives (existing : list GroupMember) (snap : list (string * dict)) (pk : string) (a : bool) : Prop :=
  exists m, (pk, m) ∈ snap /\ a = bool_of (old_role existing pk) "is_admin" m.

(** One entry of the snapshot. *)
Lemma run_store_one id existing pk (m : dict) (w : vworld) :
  Forall (fun e => gm_group_id e = id) existing ->
  (forall e, e ∈ existing -> gm_pubkey e = pk -> is_in id pk (t_members (w_work w))) ->
  let p := match List.find (fun e => String.eqb (gm_pubkey e) pk) existing with
           | Some e => store_member (with_role (bool_of (gm_is_admin e) "is_admin" m) e)
           | None =>
               let! now := now_ in
               let! joined_at := of_res (int_of (get_with (JNum now) "joined_at" m)) in
               let! _ := of_res (bigint_column (JNum joined_at)) in
               insert_member (mkMember id pk (bool_of false "is_admin" m) joined_at)
           end in
  w_db (snd (run_doc p w)) = w_db w /\
  match fst (run_doc p w) with
  | Raise _ => True
  | Ok _ => exists ms', w_work (snd (run_doc p w)) = set_members ms' (w_work w) /\
      forall id' pk' a, role_in id' pk' a ms' <->
        if decide ((id', pk') = (id, pk)) then a = bool_of (old_role existing pk) "is_admin" m
        else role_in id' pk' a (t_members (w_work w))
  end.
Proof.
  intros Hex Hpres p. subst p. unfold old_role. destruct (List.find _ existing) as [e|] eqn:Ef.
  - apply List.find_some in Ef as [Hin Hk%String.eqb_eq]. apply list_elem_of_In in Hin.
    assert (He : gm_group_id e = id) by (rewrite Forall_forall in Hex; by apply Hex).
    unfold store_member. rewrite run_doc_sql. cbn [fst snd update_where]. split; [done|]. eexists. split; [done|].
    intros id' pk' a. set (e' := with_role _ e).
    change (fun m' => in_group (gm_group_id e') m' && String.eqb (gm_pubkey m') (gm_pubkey e'))
      with (of_member (gm_group_id e') (gm_pubkey e')).
    rewrite (role_update e'). change (member_key e') with (gm_group_id e, gm_pubkey e). rewrite He, Hk.
    destruct (decide ((id, pk) = (id', pk'))) as [[= <- <-]|Hne].
    + rewrite decide_True by done. cbn. split; [by intros [<- _]|]. intros ->. split; [done|by apply (Hpres e)].
    + by rewrite decide_False by congruence.
  - rewrite run_doc_bind, run_doc_now, run_doc_bind, run_doc_of_res.
    destruct (int_of _) as [j|x]; [|by split]. rewrite run_doc_bind, run_doc_of_res.
    destruct (bigint_column _) as [o|x]; [|by split]. unfold insert_member.
    rewrite run_doc_bind, run_doc_sql. cbn [gm_group_id gm_pubkey].
    destruct (existsb _ (t_members (w_work w))) eqn:Ex; cbn [fst snd]; [by split|]. rewrite run_doc_ret. cbn [fst snd].
    split; [done|]. eexists. split; [done|]. intros id' pk' a. rewrite role_add. unfold member_key at 1. cbn [gm_group_id gm_pubkey gm_is_admin].
    change (existsb (of_member id pk) (t_members (w_work w)) = false) in Ex.
    case_decide as Hd; [|split; [intros [?|[? _]]; [done|congruence]|by left]].
    injection Hd as -> ->. split; [intros [(x & Hx & Hg & Hp & _)|[_ ?]]; [|done]|by right].
    exfalso. apply not_true_iff_false in Ex. apply Ex, existsb_exists. exists x. split; [by apply list_elem_of_In|].
    apply of_member_key. unfold member_key. congruence.
Qed.

Lemma run_store_members id existing snap (w : vworld) :
  Forall (fun e => gm_group_id e = id) existing -> NoDup snap.*1 ->
  (forall e, e ∈ existing -> gm_pubkey e ∈ snap.*1 -> is_in id (gm_pubkey e) (t_members (w_work w))) ->
  w_db (snd (run_doc (store_members id existing snap) w)) = w_db w /\
  match fst (run_doc (store_members id existing snap) w) with
  | Raise _ => True
  | Ok _ => exists ms', w_work (snd (run_doc (store_members id existing snap) w)) = set_members ms' (w_work w) /\
      forall id' pk a, role_in id' pk a ms' <->
        if decide (id' = id /\ pk ∈ snap.*1) then gives existing snap pk a else role_in id' pk a (t_members (w_work w))
  end.
Proof.
  intros Hex. revert w. induction snap as [|[pk m] snap IH]; intros w Hnd Hpres.
  - cbn [store_members]. rewrite run_doc_ret. split; [done|]. exists (t_members (w_work w)). split; [cbn; by destruct (w_work w)|].
    intros. rewrite decide_False; [done|]. intros [_ Hin]. by apply not_elem_of_nil in Hin.
  - cbn [fmap list_fmap fst] in *. apply NoDup_cons in Hnd as [Hpk Hnd]. cbn [store_members]. rewrite run_doc_bind.
    destruct (run_store_one id existing pk m w Hex) as [Hd Hone].
    { intros e He <-. apply Hpres; [done|apply list_elem_of_here]. }
    match type of Hone with match fst ?x with _ => _ end => destruct x as [[[]|e] w1] end; cbn [fst snd] in *; [|done].
    destruct Hone as (ms1 & Hw1 & Hr1). destruct (IH w1 Hnd) as [Hd2 Hrest].
    { intros e He Hin. rewrite Hw1. cbn. destruct (key_role_in id (gm_pubkey e) (t_members (w_work w))) as [b Hb].
      - apply Hpres; [done|by apply list_elem_of_further].
      - apply (role_in_key _ _ b), Hr1. rewrite decide_False; [done|]. intros [= E]. by rewrite <- E in Hpk. }
    split; [congruence|]. destruct (fst (run_doc (store_members id existing snap) w1)) as [u|e]; [|done].
    destruct Hrest as (ms' & -> & Hr). exists ms'. rewrite Hw1. split; [done|]. intros id' pk' a. rewrite Hr, Hw1. cbn [t_members set_members].
    destruct (decide (id' = id /\ pk' ∈ snap.*1)) as [[-> Hin]|Hno].
    + rewrite decide_True by (split; [done|by apply list_elem_of_further]). unfold gives.
      split; intros (m' & Hm' & ->); exists m'; (split; [|done]); [by apply list_elem_of_further|].
      apply elem_of_cons in Hm' as [[= -> ->]|]; [by destruct Hpk|done].
    + rewrite Hr1. destruct (decide ((id', pk') = (id, pk))) as [[= -> ->]|Hne].
      * rewrite decide_True by (split; [done|apply list_elem_of_here]). unfold gives. split.
        -- intros ->. exists m. split; [apply list_elem_of_here|done].
        -- intros (m' & [[= ->]|Hin]%elem_of_cons & ->); [done|]. destruct Hpk. apply list_elem_of_fmap. by exists (pk, m').
      * rewrite decide_False; [done|]. intros [-> [->|Hin]%elem_of_cons]; [done|by apply Hno].
Qed.

(** ** The members a snapshot lists *)

Definition listed (raw_members : list json) (pk : string) : Prop :=
  exists m, JObj m ∈ raw_members /\ key_of_hex64 (dict_get "pubkey_hex" m) = Some pk.

Lemma put_pubkey_keys pk m l k : k ∈ (put_pubkey pk m l).*1 <-> k = pk \/ k ∈ l.*1.
Proof.
  induction l as [|[k0 v] l IH]; cbn [put_pubkey fmap list_fmap].
  - cbn. rewrite list_elem_of_singleton. split; [by left|]. intros [->|Hin]; [done|by apply not_elem_of_nil in Hin].
  - destruct (String.eqb_spec k0 pk) as [->|]; cbn; rewrite !elem_of_cons; [tauto|]. rewrite IH. tauto.
Qed.
Lemma put_pubkey_nodup pk m l : NoDup l.*1 -> NoDup (put_pubkey pk m l).*1.
Proof.
  induction l as [|[k v] l IH]; cbn [put_pubkey fmap list_fmap]; intros Hnd; [apply NoDup_singleton|].
  apply NoDup_cons in Hnd as [Hk Hnd]. destruct (String.eqb_spec k pk) as [->|]; cbn; apply NoDup_cons; [done|].
  split; [|auto]. rewrite put_pubkey_keys. tauto.
Qed.

Lemma snap_pubkeys_spec raw : NoDup (snap_pubkeys raw).*1 /\ forall pk, pk ∈ (snap_pubkeys raw).*1 <-> listed raw pk.
Proof.
  unfold snap_pubkeys. induction raw as [|j raw [IHn IHk]] using rev_ind.
  - split; [apply NoDup_nil_2|]. intros pk. split; [intros Hin; by apply not_elem_of_nil in Hin|].
    intros (m & Hin & _). by apply not_elem_of_nil in Hin.
  - rewrite fold_left_app. cbn [fold_left]. set (l := fold_left _ raw []) in *.
    assert (Hsplit : forall pk, listed (raw ++ [j]) pk <-> listed raw pk \/ exists m, j = JObj m /\ key_of_hex64 (dict_get "pubkey_hex" m) = Some pk).
    { intros pk. unfold listed. split.
      - intros (m & [Hin|Hin%list_elem_of_singleton]%elem_of_app & Hm); [left|right]; by exists m.
      - intros [(m & Hin & Hm)|(m & -> & Hm)]; exists m; (split; [|done]); apply elem_of_app; [by left|right].
        by apply list_elem_of_singleton. }
    destruct j as [| | | | |m]; try (split; [done|]; intros pk; rewrite IHk, Hsplit; split; [by left|];
      by intros [?|(? & ? & _)]).
    destruct (key_of_hex64 (dict_get "pubkey_hex" m)) as [k|] eqn:Ek.
    + split; [by apply put_pubkey_nodup|]. intros pk. rewrite put_pubkey_keys, IHk, Hsplit.
      split; [intros [->|?]; [right; by exists m|by left]|intros [?|(m' & [= <-] & E)]; [by right|left; congruence]].
    + split; [done|]. intros pk. rewrite IHk, Hsplit. split; [by left|]. intros [?|(m' & [= <-] & E)]; [done|congruence].
Qed.

(** ** Applying a snapshot *)

Section Apply.
  Context (snapshot : dict) (h : string).

(** The copy of the group [hd] after the snapshot: a row that [h] hosts, exactly the listed members
    with the roles it gives, and the members of other groups as before. *)
Record installed (hd : snapshot_head) (db db' : database) : Prop := {
  ins_row : copied h (sh_gid hd) (t_groups db) (t_groups db');
  ins_members pk : is_in (sh_gid hd) pk (t_members db') <-> listed (sh_members hd) pk;
  ins_roles pk a : role_in (sh_gid hd) pk a (t_members db') <->
    gives (members_of (sh_gid hd) db) (snap_pubkeys (sh_members hd)) pk a;
  ins_others id pk a : id <> sh_gid hd -> role_in id pk a (t_members db') <-> role_in id pk a (t_members db)
}.

Lemma gives_key existing snap pk : (exists a, gives existing snap pk a) <-> pk ∈ snap.*1.
Proof.
  split.
  - intros (a & m & Hin & _). apply list_elem_of_fmap. by exists (pk, m).
  - intros ([k m] & -> & Hin)%list_elem_of_fmap. by eexists _, m.
Qed.

Lemma run_apply (w : vworld) :
  w_work w = w_db w ->
  let x := run_doc (apply_group_snapshot snapshot h) w in
  w_db (snd x) = w_db w /\
  match fst x with
  | Ok _ => exists hd, check_snapshot snapshot = Ok hd /\ installed hd (w_db w) (w_work (snd x))
  | Raise _ => True
  end.
Proof.
  intros Hw. cbv zeta. unfold apply_group_snapshot. destruct (String.eqb h ""); [by split|].
  rewrite run_doc_bind. unfold checked_snapshot. destruct (check_snapshot snapshot) as [hd|e]; [|by destruct e].
  rewrite run_doc_ret, run_doc_bind. set (snap := snap_pubkeys (sh_members hd)).
  destruct (snap_pubkeys_spec (sh_members hd)) as [Hnd Hlisted]. fold snap in Hnd, Hlisted.
  destruct (upsert_post (w_now w) (w_db w) h (sh_gid hd) snapshot hd eq_refl w eq_refl) as [[Hd Hup] Hn].
  { split; [done|]. unfold tables_of. cbn. by rewrite Hw. }
  destruct (run_doc (upsert_group snapshot hd h) w) as [[g|e] w1]; cbn [fst snd tables_of] in *; [|done].
  destruct Hup as (Hg & gl' & Hcopy & [_ Hgs]). unfold gs in Hgs. cbn in Hgs. injection Hgs as Hgl Hms.
  cbv zeta. rewrite run_doc_bind, run_doc_sql. cbn [fst snd]. assert (Ew : set_databases (w_db w1) (w_work w1) w1 = w1) by by destruct w1.
  rewrite Ew, Hg. set (existing := members_of (sh_gid hd) (w_work w1)).
  assert (Eex : existing = members_of (sh_gid hd) (w_db w)) by (unfold existing, members_of; by rewrite Hms).
  set (gone := List.filter _ existing). rewrite run_doc_bind.
  destruct (run_remove (sh_gid hd) gone w1) as (ms1 & E1 & Hr1). rewrite E1, run_doc_bind.
  set (w2 := set_databases _ _ w1).
  assert (Hgone : forall pk, pk ∈ map gm_pubkey gone <-> pk ∉ snap.*1 /\ is_in (sh_gid hd) pk (t_members (w_work w1))).
  { intros pk. split.
    - intros (m & -> & Hin)%list_elem_of_fmap. apply list_elem_of_In, List.filter_In in Hin as [Hin Hs%negb_true_iff%bool_decide_eq_false].
      split; [done|]. apply List.filter_In in Hin as [Hin Hid%String.eqb_eq]. apply list_elem_of_fmap. exists m.
      split; [unfold member_key; by rewrite Hid|by apply list_elem_of_In].
    - intros [Hs (m & [= Hid ->] & Hin)%list_elem_of_fmap]. apply list_elem_of_fmap. exists m. split; [done|].
      apply list_elem_of_In, List.filter_In. split; [|by apply negb_true_iff, bool_decide_eq_false].
      apply List.filter_In. split; [by apply list_elem_of_In|]. by apply String.eqb_eq. }
  destruct (run_store_members (sh_gid hd) existing snap w2) as [Hd3 Hst]; [|done|..].
  { apply Forall_forall. intros m Hm. apply list_elem_of_In, List.filter_In in Hm as [_ Hm]. by apply String.eqb_eq in Hm. }
  { intros e He Hk. apply list_elem_of_In, List.filter_In in He as [He Hid%String.eqb_eq].
    apply (role_in_key _ _ (gm_is_admin e)), Hr1. split; [exists e; by rewrite list_elem_of_In|].
    intros [_ Hin%Hgone]. by destruct Hin. }
  destruct (run_doc (store_members (sh_gid hd) existing snap) w2) as [[[]|e] w3]; cbn [fst snd] in *; [|split; [exact (eq_trans Hd3 Hd)|done]].
  destruct Hst as (ms' & Hw3 & Hr). unfold refresh_members. rewrite run_doc_sql. cbn [fst snd w_db w_work set_databases].
  split; [exact (eq_trans Hd3 Hd)|]. exists hd. split; [done|].
  assert (Hroles : forall pk a, role_in (sh_gid hd) pk a ms' <-> gives existing snap pk a).
  { intros pk a. rewrite Hr. destruct (decide (sh_gid hd = sh_gid hd /\ pk ∈ snap.*1)) as [_|Hno]; [done|].
    unfold w2. cbn [w_work set_databases t_members set_members]. rewrite Hr1. split.
    - intros [Hin Hn']. destruct Hn'. split; [done|]. apply Hgone. split; [tauto|by eapply role_in_key].
    - intros Hgv. destruct Hno. split; [done|]. apply (gives_key existing). by exists a. }
  rewrite Hw3. split; cbn [t_members set_members t_groups].
  - unfold w2. cbn. by rewrite Hgl.
  - intros pk. rewrite <- Hlisted, <- (gives_key existing). split.
    + intros [a Ha]%key_role_in. exists a. by apply Hroles.
    + intros [a Ha]. by apply (role_in_key _ _ a), Hroles.
  - intros pk a. rewrite Hroles, Eex. done.
  - intros id pk a Hne. rewrite Hr, decide_False by by intros [? _]. unfold w2. cbn [w_work set_databases t_members set_members].
    rewrite Hr1, Hms. split; [by intros [? _]|]. intros ?. split; [done|]. by intros [? _].
Qed.
End Apply.

(** ** Properties *)

(** A snapshot with one member, whose key is written as thirty-one bytes and two blanks. *)
Definition short_text : string := String.concat "" (repeat "bb" 31) +:+ "  ".
Definition short_member : dict := [("pubkey_hex", JStr short_text); ("joined_at", JNum 0)].
Definition short_key : string := default "" (bytes_fromhex short_text).
Definition short_gid : string := uuid_to_string (String.concat "" (repeat "g" 16)).
Definition short_snapshot : dict :=
  [("group_id", JStr short_gid); ("creator_pubkey_hex", JStr (String.concat "" (repeat "aa" 32)));
   ("name_encrypted_b64", JStr "QUJD"); ("members", JArr [JObj short_member])].
Definition short_head : snapshot_head :=
  mkHead (String.concat "" (repeat "g" 16)) (default "" (bytes_fromhex (String.concat "" (repeat "aa" 32)))) "ABC" 50
    [JObj short_member] 86400.

Section Properties.
  Context `{R : Redis}.

(** What a snapshot of a host does.  Whatever fails, applying a snapshot that [h] sent either leaves
    the tables as they were or makes the copy of the group what the snapshot says: the row is new, or
    was hosted by [h] or by nobody, and is hosted by [h] now; its members are exactly the listed
    keys, each with the role the snapshot gives, or that it had where the snapshot is silent; and
    the members of other groups are as before. *)
Theorem snapshot_installs_members (snapshot : dict) (h : string) (w : world rstore) :
  w_work w = w_db w ->
  let x := run (with_session (apply_group_snapshot snapshot h)) w in
  match fst x with
  | Ok _ => exists hd, check_snapshot snapshot = Ok hd /\ installed h hd (w_db w) (w_db (snd x))
  | Raise _ => w_db (snd x) = w_db w
  end.
Proof.
  intros Hw x. change (w_db (snd x)) with (w_db (absw (snd x))). subst x. rewrite fst_run, snd_run_absw, run_with_session.
  destruct (run_apply snapshot h (absw w) Hw) as [Hd Hr].
  destruct (run_doc (apply_group_snapshot snapshot h) (absw w)) as [[l|e] w1]; cbn [fst snd w_db set_databases] in *; [exact Hr|exact Hd].
Qed.

(** A key that is too short becomes a member.  The text of a key is checked for sixty-four characters
    and decoded by a function that skips blanks, so a snapshot can add a member with a key of
    thirty-one bytes, although the comment says that every key is held to exactly thirty-two. *)
Theorem short_member_key (h : string) (w : world rstore) :
  h <> "" -> w_work w = w_db w ->
  (forall g, g ∈ t_groups (w_db w) -> g_id g <> sh_gid short_head) ->
  (forall m, m ∈ t_members (w_db w) -> gm_group_id m <> sh_gid short_head) ->
  let x := run (with_session (apply_group_snapshot short_snapshot h)) w in
  (exists l, fst x = Ok l) /\ is_in (sh_gid short_head) short_key (t_members (w_db (snd x))) /\ string_len short_key = 31%Z.
Proof.
  intros Hh Hw Hg Hm x. change (w_db (snd x)) with (w_db (absw (snd x))). subst x. rewrite fst_run, snd_run_absw, run_with_session.
  set (db := w_db w) in *. set (id := sh_gid short_head) in *.
  assert (Hc : check_snapshot short_snapshot = Ok short_head) by (vm_compute; reflexivity).
  destruct (run_apply short_snapshot h (absw w) Hw) as [_ Hr].
  assert (Hok : exists l, fst (run_doc (apply_group_snapshot short_snapshot h) (absw w)) = Ok l).
  { assert (Hnone : select_one (has_group_id id) (t_groups (w_work w)) = None).
    { destruct (select_one _ _) as [g|] eqn:Es; [|done]. apply select_in in Es as [Hin Hid%String.eqb_eq].
      rewrite Hw in Hin. by destruct (Hg g Hin). }
    unfold apply_group_snapshot. rewrite (proj2 (String.eqb_neq _ _) Hh), run_doc_bind. unfold checked_snapshot.
    rewrite Hc, run_doc_ret, run_doc_bind. unfold upsert_group. rewrite run_doc_bind, run_doc_sql. cbn [fst snd].
    fold id. change (w_work (absw w)) with (w_work w). rewrite Hnone, run_doc_bind, run_doc_now, run_doc_bind.
    rewrite run_doc_of_res. change (slug_column _) with (@Ok (option string) None). cbn iota.
    rewrite run_doc_bind, run_doc_of_res. change (bigint_column _) with (@Ok (option Z) None). cbn iota zeta.
    rewrite run_doc_bind. unfold insert_group. rewrite run_doc_bind, run_doc_sql. cbn [w_work set_databases fst snd].
    destruct (existsb _ (t_groups (w_work w))) eqn:Ex; cbn [fst snd].
    { exfalso. apply existsb_exists in Ex as (g & Hin & Hcl). apply list_elem_of_In in Hin. rewrite Hw in Hin.
      unfold clashes in Hcl. cbn [g_slug g_id] in Hcl. rewrite orb_false_r in Hcl. apply String.eqb_eq in Hcl. by destruct (Hg g Hin). }
    rewrite run_doc_ret, run_doc_ret. cbn [g_id]. cbv zeta. rewrite run_doc_bind, run_doc_sql. cbn [fst snd w_work set_databases].
    assert (Hempty : forall gl, members_of id (set_groups gl (w_work w)) = []).
    { intros gl. unfold members_of. cbn [t_members set_groups]. rewrite Hw. destruct (List.filter _ _) as [|m l] eqn:Ef; [done|]. exfalso.
      assert (Hin : In m (m :: l)) by by left. rewrite <- Ef in Hin. apply List.filter_In in Hin as [Hin Hid%String.eqb_eq].
      apply list_elem_of_In in Hin. by destruct (Hm m Hin). }
    rewrite Hempty. cbn [List.filter remove_members]. rewrite run_doc_bind, run_doc_ret, run_doc_bind.
    assert (Hsnap : snap_pubkeys (sh_members short_head) = [(short_key, short_member)]) by (vm_compute; reflexivity).
    rewrite Hsnap. cbn [store_members List.find]. rewrite run_doc_bind, run_doc_bind, run_doc_now, run_doc_bind, run_doc_of_res.
    change (int_of _) with (@Ok Z 0%Z). cbn iota. rewrite run_doc_bind, run_doc_of_res.
    change (bigint_column _) with (@Ok (option Z) (Some 0%Z)). cbn iota. unfold insert_member. rewrite run_doc_bind, run_doc_sql.
    cbn [fst snd w_work set_databases t_members set_groups gm_group_id gm_pubkey].
    destruct (existsb _ (t_members (w_work w))) eqn:Ex2; cbn [fst snd].
    { exfalso. apply existsb_exists in Ex2 as (m & Hin & [Hid%String.eqb_eq _]%andb_true_iff). apply list_elem_of_In in Hin.
      rewrite Hw in Hin. by destruct (Hm m Hin). }
    rewrite run_doc_ret, run_doc_ret. unfold refresh_members. rewrite run_doc_sql. by eexists. }
  destruct Hok as [l Hok]. rewrite Hok in *. cbn [fst snd w_db set_databases].
  destruct Hr as (hd & Ehd & Hins). rewrite Hc in Ehd. injection Ehd as <-. split; [by eexists|]. split; [|vm_compute; reflexivity].
  apply (ins_members _ _ _ _ Hins). exists short_member. split; [apply list_elem_of_here|vm_compute; reflexivity].
Qed.
End Properties.

(** ** Witnesses *)

Module SnapshotDemo.
Import MessagesFacts.MessagesDemo.

Definition blank := relay [].

Lemma installs_witness :
  let x := run (with_session (apply_group_snapshot short_snapshot "host.example")) blank in
  exists hd, check_snapshot short_snapshot = Ok hd /\ installed "host.example" hd (w_db blank) (w_db (snd x)).
Proof.
  pose proof (snapshot_installs_members short_snapshot "host.example" blank eq_refl) as H.
  match type of H with let x := ?p in _ => assert (E : exists l, fst p = Ok l) by (vm_compute; eexists; reflexivity) end.
  destruct E as [l E]. cbv zeta in *. rewrite E in H. exact H.
Defined.

Lemma short_key_witness :
  let x := run (with_session (apply_group_snapshot short_snapshot "host.example")) blank in
  (exists l, fst x = Ok l) /\ is_in (sh_gid short_head) short_key (t_members (w_db (snd x))) /\ string_len short_key = 31%Z.
Proof.
  apply (short_member_key "host.example" blank).
  - discriminate.
  - reflexivity.
  - intros g Hg. by apply not_elem_of_nil in Hg.
  - intros m Hm. by apply not_elem_of_nil in Hm.
Defined.
End SnapshotDemo.
