(* ===== verification/FederationApiFacts.v ===== *)
(** * What other relays may ask: properties

    Whose requests are heard; what a control message must carry, and that it acts once; what becomes
    of a message that another relay forwards. *)

From Stdlib Require Import Ascii String.
From stdpp Require Import prelude gmap strings list.
From S2P Require Import Prelude Json Codec RedisStore Models Effects Crypto Payloads Config Sessions RateLimit Deps Logic.
From S2P Require Import BlobStorage Queue QueueFacts MailboxFacts Messages MessagesFacts Groups GroupMessages GroupSync Users.
From S2P Require Import Federation.

#[local] Open Scope morok_scope.

(** ** Who is heard *)

Lemma run_reraise {A} (p : M A) (w : vworld) : run_doc (try_except p raise) w = run_doc p w.
Proof. rewrite run_doc_try. by destruct (run_doc p w) as [[a|e] w']. Qed.

(** A handler that changes nothing changes nothing in its session. *)
Lemma session_same {A} (p : M A) r (w : vworld) :
  w_work w = w_db w -> run_doc p w = (r, w) -> run_doc (with_session p) w = (r, w).
Proof. intros Hw E. rewrite run_with_session, E. cbn [fst snd]. destruct w; cbn in *. subst. by destruct r. Qed.

Lemma session_settled {A} (p : M A) (w : vworld) :
  w_work (snd (run_doc (with_session p) w)) = w_db (snd (run_doc (with_session p) w)).
Proof. rewrite run_with_session. cbn [snd]. by destruct (fst (run_doc p w)). Qed.

(** The entry of one key, which no command but those on the key changes. *)
Definition holds (k : string) (x : entry) (v : rview) : Prop := rv_keys v !! k = Some x.
Definition elsewhere (k : string) (c : command) : Prop := k ∉ writes c.
#[export] Instance holds_harmless k x : Harmless (holds k x) (elsewhere k).
Proof. intros c Hc now v Hv. unfold holds. by rewrite documented_frame. Qed.

Lemma holds_later k s d t v : (t < d)%Z -> holds k (Entry (VStr s) (Some d)) v -> holds k (Entry (VStr s) (Some d)) (expire t v).
Proof. unfold holds. intros Ht Hm. rewrite keys_expire, Hm. cbn. unfold live_at. cbn. by rewrite decide_True. Qed.

Section Heard.
  Context `{Sha256} `{Nacl} (s : Settings) (body : ForwardRequest).

(** The request carries the signature of [peer]'s key on exactly this envelope and time, is at most
    five minutes off, and [peer] is the only row with the key and trusted. *)
Record authentic (now : Z) (db : database) (peer : FederationPeer) : Prop := {
  au_signed : exists key sig,
    bytes_fromhex (fw_relay_pubkey_hex body) = Some key /\ bytes_fromhex (fw_relay_signature_hex body) = Some sig /\
    ed25519_verify (canonical_json (forward_payload (fw_envelope body) (fw_relay_pubkey_hex body) (fw_forwarded_at body)))
      sig key = true /\
    select_sole (has_peer_key key) (t_peers db) = Some (Some peer);
  au_fresh : (Z.abs (now - fw_forwarded_at body) <= 300)%Z;
  au_trusted : fp_is_trusted peer = true
}.

Lemma run_trusted_peer key u u' (w : vworld) :
  run_doc (trusted_peer key u u') w =
  (match select_sole (has_peer_key key) (t_peers (w_work w)) with
   | None => Raise MultipleResultsFound
   | Some None => Raise (HTTPException 403 u)
   | Some (Some p) => if fp_is_trusted p then Ok p else Raise (HTTPException 403 u')
   end, w).
Proof.
  unfold trusted_peer. rewrite run_doc_bind, run_doc_sql. cbn [fst snd].
  assert (E : set_databases (w_db w) (w_work w) w = w) by by destruct w. rewrite E.
  destruct (select_sole _ _) as [[p|]|]; [|done..]. by destruct (fp_is_trusted p).
Qed.

Lemma run_authenticate (w : vworld) :
  (exists peer, authentic (w_now w) (w_work w) peer /\ run_doc (authenticate_relay body (w_now w)) w = (Ok peer, w)) \/
  (exists e, run_doc (authenticate_relay body (w_now w)) w = (Raise e, w) /\
     forall peer, ~ authentic (w_now w) (w_work w) peer).
Proof.
  unfold authenticate_relay.
  destruct (bytes_fromhex (fw_relay_pubkey_hex body)) as [key|] eqn:Ek;
    [|right; eexists; split; [done|]; intros p [(? & ? & ? & _) _ _]; congruence].
  destruct (bytes_fromhex (fw_relay_signature_hex body)) as [sig|] eqn:Es;
    [|right; eexists; split; [done|]; intros p [(? & ? & ? & ? & _) _ _]; congruence].
  destruct (Z.ltb_spec 300 (Z.abs (w_now w - fw_forwarded_at body)));
    [right; eexists; split; [done|]; intros p [_ ? _]; lia|].
  cbv zeta. destruct (ed25519_verify _ sig key) eqn:Ev; cbn [negb];
    [|right; eexists; split; [done|]; intros p [(? & ? & ? & ? & ? & _) _ _]; congruence].
  rewrite run_trusted_peer. destruct (select_sole _ _) as [[p|]|] eqn:Ep.
  - destruct (fp_is_trusted p) eqn:Et.
    + left. exists p. split; [|done]. split; [by exists key, sig|done|done].
    + right. eexists. split; [done|]. intros p' [(? & ? & ? & ? & _ & ?) _ ?]. congruence.
  - right. eexists. split; [done|]. intros p' [(? & ? & ? & ? & _ & ?) _ _]. congruence.
  - right. eexists. split; [done|]. intros p' [(? & ? & ? & ? & _ & ?) _ _]. congruence.
Qed.

Lemma authentic_fun now db p p' : authentic now db p -> authentic now db p' -> p = p'.
Proof. intros [(? & ? & ? & ? & _ & ?) _ _] [(? & ? & ? & ? & _ & ?) _ _]. congruence. Qed.

Lemma run_forward_cases (w : vworld) :
  (exists peer, authentic (w_now w) (w_work w) peer /\
     run_doc (forward s body) w = run_doc (dispatch s (fw_envelope body) peer (w_now w)) w) \/
  (exists e, run_doc (forward s body) w = (Raise e, w) /\ forall peer, ~ authentic (w_now w) (w_work w) peer).
Proof.
  unfold forward. rewrite run_reraise. unfold _forward_impl. rewrite run_doc_bind, run_doc_now, run_doc_bind.
  destruct (run_authenticate w) as [(peer & Ha & ->)|(e & -> & Hno)]; [left; by exists peer|right; by exists e].
Qed.

Lemma run_forward_from peer (w : vworld) :
  authentic (w_now w) (w_work w) peer ->
  run_doc (forward s body) w = run_doc (dispatch s (fw_envelope body) peer (w_now w)) w.
Proof.
  intros Ha. destruct (run_forward_cases w) as [(p & Ha' & E)|(e & _ & Hno)]; [|by destruct (Hno peer)].
  by rewrite (authentic_fun _ _ _ _ Ha Ha').
Qed.
End Heard.

(** ** Control messages *)

(** The signed part of a control message, and the name its claim gives it. *)
Record event := Event {
  ev_kind : string;                                   (* in the signed payload *)
  ev_claim : string;                                  (* in the claim *)
  ev_envelope_id : string;
  ev_group : option string;
  ev_ts : json;
  ev_sig : json;
  ev_signer : string;
  ev_window : Z;
  ev_answer : string                                  (* the id in the answer *)
}.

Definition text_at (k : string) (e : dict) : option string := match dict_get k e with Some (JStr s) => Some s | _ => None end.

Definition event_of (e : dict) : option event :=
  let sig := got "deleter_signature_hex" e in
  let ts := got "deleter_ts" e in
  kind ← text_at "kind" e;
  if String.eqb kind "dm_delete" then
    id ← text_at "envelope_id" e; signer ← text_at "deleted_by_pubkey_hex" e;
    Some (Event "dm_delete" "dm_delete" id None ts sig signer DELETE_SIG_WINDOW_SECONDS id)
  else if String.eqb kind "group_delete_to_host" then
    id ← text_at "envelope_id" e; signer ← text_at "deleted_by_pubkey_hex" e; g ← text_at "group_id" e;
    gid ← uuid_of_string g;
    Some (Event "group_delete" "group_delete" id (Some (uuid_to_string gid)) ts sig signer DELETE_SIG_WINDOW_SECONDS id)
  else if String.eqb kind "group_delete_deliver" then
    id ← text_at "envelope_id" e; signer ← text_at "deleted_by_pubkey_hex" e; g ← text_at "group_id" e;
    Some (Event "group_delete" "group_delete_deliver" id (Some g) ts sig signer DELETE_SIG_WINDOW_SECONDS id)
  else if String.eqb kind "group_gone" then
    signer ← text_at "by_pubkey_hex" e; g ← text_at "group_id" e;
    Some (Event "group_gone" "group_gone" "" (Some g) (got "gone_ts" e) (got "gone_signature_hex" e) signer
            CONTROL_SIG_WINDOW_SECONDS g)
  else None.

Definition control_kinds : list string := ["dm_delete"; "group_delete_to_host"; "group_delete_deliver"; "group_gone"].
(** The envelope is a control message that its signer must have signed. *)
Definition is_control (e : dict) : bool := existsb (fun k => get_is_str "kind" k e) control_kinds.

Section Control.
  Context `{Sha256} `{Nacl}.

(** The signer signed the event, for a time within the window. *)
Record signed_event (now : Z) (ev : event) : Prop := {
  se_ts : exists n, int_of (ev_ts ev) = Ok n /\ (Z.abs (now - n) <= ev_window ev)%Z /\
    exists sig key, fromhex_of (ev_sig ev) = Some sig /\ bytes_fromhex (ev_signer ev) = Some key /\
      ed25519_verify (canonical_json (delete_payload (ev_kind ev) (ev_envelope_id ev) n (ev_group ev))) sig key = true
}.

Definition claim_key (ev : event) : string :=
  fed_seen_key (ev_claim ev) (ev_signer ev) (ev_ts ev) (ev_envelope_id ev) (ev_group ev).

(** Every handler of a control message: the signature, the claim, and the rest. *)
Definition gate (ev : event) (detail : string) (rest : M ForwardResponse) : M ForwardResponse :=
  let! valid := _verify_delete_sig (ev_kind ev) (ev_envelope_id ev) (ev_ts ev) (ev_sig ev) (ev_signer ev) (ev_group ev)
                  (ev_window ev) in
  if negb valid then http 401 detail
  else
    let! first := _claim_federated_event (ev_claim ev) (ev_signer ev) (ev_ts ev) (ev_envelope_id ev) (ev_group ev)
                    (ev_window ev) in
    if negb first then ret (duplicate (ev_answer ev)) else rest.

Lemma ed25519_lengths msg sig key : ed25519_verify msg sig key = true -> string_len sig = 64%Z /\ string_len key = 32%Z.
Proof.
  unfold ed25519_verify. destruct (_ || _); [done|]. destruct (Z.eqb_spec (string_len sig) 64); [|done].
  by destruct (Z.eqb_spec (string_len key) 32).
Qed.

Lemma run_verify_event ev (w : vworld) :
  exists b, run_doc (_verify_delete_sig (ev_kind ev) (ev_envelope_id ev) (ev_ts ev) (ev_sig ev) (ev_signer ev) (ev_group ev)
    (ev_window ev)) w = (Ok b, w) /\ (b = true <-> signed_event (w_now w) ev).
Proof.
  unfold _verify_delete_sig. destruct (int_of (ev_ts ev)) as [n|e] eqn:En.
  2: { exists false. split; [done|]. split; [done|]. intros [(n & ? & _)]. congruence. }
  rewrite run_doc_bind, run_doc_now.
  destruct (Z.ltb_spec (ev_window ev) (Z.abs (w_now w - n))) as [Hl|Hl].
  { exists false. split; [done|]. split; [done|]. intros [(n' & ? & ? & _)]. assert (n' = n) as -> by congruence. lia. }
  cbv zeta. destruct (fromhex_of (ev_sig ev)) as [sig|] eqn:Es;
    [|exists false; split; [done|]; split; [done|]; intros [(? & _ & _ & ? & ? & ? & _)]; congruence].
  destruct (bytes_fromhex (ev_signer ev)) as [key|] eqn:Ek;
    [|exists false; split; [done|]; split; [done|]; intros [(? & _ & _ & ? & ? & _ & ? & _)]; congruence].
  set (msg := canonical_json _).
  exists (ed25519_verify msg sig key). split.
  - destruct (negb _ || negb _) eqn:El; [|done]. rewrite run_doc_ret. f_equal. f_equal.
    destruct (ed25519_verify msg sig key) eqn:Ev; [|done]. apply ed25519_lengths in Ev as [H1 H2].
    by rewrite H1, H2 in El.
  - split.
    + intros Hv. split. exists n. split; [done|]. split; [done|]. by exists sig, key.
    + intros [(n' & ? & _ & sig' & key' & ? & ? & Hv)]. assert (n' = n) as -> by congruence. simplify_eq. done.
Qed.

Lemma text_at_got k e : match text_of (got k e) with Ok x => text_at k e = Some x | Raise x => text_at k e = None end.
Proof. unfold got, text_at. by destruct (dict_get k e) as [[]|]. Qed.

Lemma kind_is k e : get_is_str "kind" k e = true -> dict_get "kind" e = Some (JStr k).
Proof. unfold get_is_str. destruct (dict_get "kind" e) as [[]|]; try done. by intros ->%String.eqb_eq. Qed.

Lemma text_kind k e : dict_get "kind" e = Some (JStr k) -> text_at "kind" e = Some k.
Proof. intros Hk. unfold text_at. by rewrite Hk. Qed.

Definition gated (s : Settings) (e : dict) (p : M ForwardResponse) : Prop :=
  (exists ev detail rest, event_of e = Some ev /\ p = gate ev detail rest /\
     forall x, exchanges_keep (holds (claim_key ev) x) rest) \/
  (exists x, p = raise x).

(** Nothing that follows a claim touches a claim. *)
Ltac no_claim := unfold elsewhere, claim_key, fed_seen_key; cbn [writes set_ex set_nx_ex];
  rewrite ?not_elem_of_cons; split_and?; try string_ne; try apply not_elem_of_nil.

Lemma keep_queue_to J row remote now : exchanges_keep J (queue_to_relays row remote now).
Proof.
  induction remote as [|[t ms] r IH]; [done|]. cbn [queue_to_relays]. destruct (row t ms).
  apply exchanges_bind; [|by intros]. unfold queue_once, add_fed_row. exchanges idtac.
Qed.
Lemma keep_users_in {A} J (f : User -> A) ks : exchanges_keep J (users_in f ks).
Proof. by destruct ks. Qed.
Lemma keep_recipient_keys J raw : exchanges_keep J (recipient_keys raw).
Proof. induction raw as [|j raw IH]; [done|]. cbn [recipient_keys]. case_match; [|done]. by apply exchanges_bind. Qed.

Section Keep.
  Context (ev : event) (x : entry).
Abbreviation J := (holds (claim_key ev) x).

Lemma keep_dm id caller recipient : exchanges_keep J (delete_envelope_by_sender id caller recipient).
Proof. unfold delete_envelope_by_sender. exchanges no_claim. Qed.
Lemma keep_meta id : exchanges_keep J (get_envelope_meta id).
Proof. unfold get_envelope_meta. exchanges no_claim. Qed.
Lemma keep_group id g rs caller : exchanges_keep J (delete_envelope_for_group id g rs caller).
Proof. unfold delete_envelope_for_group. exchanges no_claim. Qed.

Lemma keep_host s gid id caller_hex caller sig ts : exchanges_keep J (host_delete s gid id caller_hex caller sig ts).
Proof.
  unfold host_delete, _load_group, split_members. exchanges idtac; auto using keep_users_in, keep_group, keep_queue_to.
  unfold authorise_group_delete. cbv zeta. exchanges idtac; apply keep_meta.
Qed.
Lemma keep_deliver s peer gid g id caller_hex caller raw : exchanges_keep J (deliver_delete s peer gid g id caller_hex caller raw).
Proof.
  unfold deliver_delete, authorise_delete_deliver. cbv zeta.
  exchanges idtac; auto using keep_users_in, keep_group, keep_recipient_keys, keep_meta.
Qed.
Lemma keep_gone s peer gid g by_hex by_ raw : exchanges_keep J (announce_gone s peer gid g by_hex by_ raw).
Proof. unfold announce_gone, publish_group_gone. cbv zeta. exchanges no_claim. Qed.
End Keep.

(** A text field: there, or the handler raises. *)
Lemma gated_text s e k (f : string -> M ForwardResponse) :
  (forall x, text_at k e = Some x -> gated s e (f x)) -> gated s e (bind (of_res (text_of (got k e))) f).
Proof.
  intros Hf. pose proof (text_at_got k e) as Hk. destruct (text_of (got k e)) as [x|x]; [by apply Hf|]. right. by exists x.
Qed.

Ltac keep_rest := intros ?; exchanges idtac; auto using keep_dm, keep_host, keep_deliver, keep_gone.
Ltac gated_step :=
  match goal with
  | |- gated _ _ (http _ _) => right; by eexists
  | |- gated _ _ (raise _) => right; by eexists
  | |- gated _ _ (if ?b then _ else _) => destruct b
  | |- gated _ _ (bind (of_res (text_of (got _ _))) _) => apply gated_text; intros ? ?
  end.

Lemma gated_dm s e : get_is_str "kind" "dm_delete" e = true -> gated s e (_handle_dm_delete_forward e).
Proof.
  intros Hk%kind_is. unfold _handle_dm_delete_forward. repeat gated_step. left. do 3 eexists. split.
  { unfold event_of. rewrite (text_kind _ _ Hk). cbn. by simplify_option_eq. }
  split; [reflexivity|]. keep_rest.
Qed.

Lemma gated_to_host s e : get_is_str "kind" "group_delete_to_host" e = true -> gated s e (_handle_group_delete_to_host s e).
Proof.
  intros Hk%kind_is. unfold _handle_group_delete_to_host. cbv zeta. repeat gated_step.
  destruct (uuid_of (got "group_id" e)) as [gid|x] eqn:Eg; [|destruct x; gated_step].
  destruct (fromhex_of _); [|gated_step]. repeat gated_step. left. do 3 eexists. split.
  { unfold event_of. rewrite (text_kind _ _ Hk). cbn. simplify_option_eq.
  unfold got in Eg. unfold text_at. destruct (dict_get "group_id" e) as [[]|]; try done. cbn in Eg.
  cbn. destruct (uuid_of_string _); [|done]. by injection Eg as ->. }
  split; [reflexivity|]. keep_rest.
Qed.

Lemma gated_deliver s peer e :
  get_is_str "kind" "group_delete_deliver" e = true -> gated s e (_handle_group_delete_deliver s e peer).
Proof.
  intros Hk%kind_is. unfold _handle_group_delete_deliver. cbv zeta. repeat gated_step.
  destruct (uuid_of_str _) as [gid|x]; [|gated_step]. destruct (key32 _); [|gated_step].
  repeat gated_step. left. do 3 eexists. split.
  { unfold event_of. rewrite (text_kind _ _ Hk). cbn. by simplify_option_eq. }
  split; [reflexivity|]. keep_rest.
Qed.

Lemma gated_gone s peer e : get_is_str "kind" "group_gone" e = true -> gated s e (_handle_group_gone s e peer).
Proof.
  intros Hk%kind_is. unfold _handle_group_gone. cbv zeta. repeat gated_step.
  destruct (uuid_of_str _) as [gid|x]; [|gated_step]. destruct (key32 _); [|gated_step].
  repeat gated_step. left. do 3 eexists. split.
  { unfold event_of. rewrite (text_kind _ _ Hk). cbn. by simplify_option_eq. }
  split; [reflexivity|]. keep_rest.
Qed.

Lemma kind_only k e k' : get_is_str "kind" k e = true -> get_is_str "kind" k' e = String.eqb k k'.
Proof. intros Hk%kind_is. unfold get_is_str. by rewrite Hk. Qed.

Lemma dispatch_control s e peer now : is_control e = true -> gated s e (dispatch s e peer now).
Proof.
  unfold is_control. intros (k & Hin & Hk)%existsb_exists. unfold dispatch. cbv zeta.
  rewrite !(kind_only k e _ Hk). repeat (destruct Hin as [<-|Hin]; [cbn [String.eqb Ascii.eqb Bool.eqb]|]);
    auto using gated_dm, gated_to_host, gated_deliver, gated_gone. destruct Hin.
Qed.

(** ** What the gate does *)

Lemma gate_unsigned ev detail rest (w : vworld) :
  ~ signed_event (w_now w) ev -> run_doc (gate ev detail rest) w = (Raise (HTTPException 401 detail), w).
Proof.
  intros Hn. unfold gate. rewrite run_doc_bind. destruct (run_verify_event ev w) as (b & -> & Hb).
  destruct b; [by destruct Hn; apply Hb|]. done.
Qed.

(** The claim is there. *)
Lemma gate_claimed ev detail rest e (w : vworld) :
  calm w -> signed_event (w_now w) ev -> rv_keys (w_redis w) !! claim_key ev = Some e ->
  run_doc (gate ev detail rest) w = (Ok (duplicate (ev_answer ev)), w).
Proof.
  intros Hc Hs Hk. unfold gate. rewrite run_doc_bind. destruct (run_verify_event ev w) as (b & -> & Hb).
  rewrite (proj2 Hb Hs). cbn [negb]. unfold _claim_federated_event. rewrite run_doc_bind, run_doc_try, run_doc_redis by done.
  rewrite rrun_rcall, doc_set_nx_ex by lia. fold (claim_key ev). rewrite Hk. cbn [fst snd as_set_ok res_of].
  assert (E : set_redis (w_redis w) w = w) by by destruct w. by rewrite E.
Qed.

(** The view with the claim. *)
Definition with_claim (ev : event) (w : vworld) : vworld :=
  set_redis (put (claim_key ev) (Entry (VStr "1") (Some (w_now w + Z.max (ev_window ev) 60)%Z)) (w_redis w)) w.

Lemma gate_first ev detail rest (w : vworld) :
  calm w -> signed_event (w_now w) ev -> rv_keys (w_redis w) !! claim_key ev = None ->
  run_doc (gate ev detail rest) w = run_doc rest (with_claim ev w).
Proof.
  intros Hc Hs Hk. unfold gate. rewrite run_doc_bind. destruct (run_verify_event ev w) as (b & -> & Hb).
  rewrite (proj2 Hb Hs). cbn [negb]. unfold _claim_federated_event. rewrite run_doc_bind, run_doc_try, run_doc_redis by done.
  rewrite rrun_rcall, doc_set_nx_ex by lia. fold (claim_key ev). rewrite Hk. done.
Qed.
End Control.

(** ** The handshake *)

Section Handshake.
  Context `{Nacl} (s : Settings) (body : HandshakeRequest).

(** The peer signed its name, its key and a time within five minutes. *)
Definition introduced (now : Z) (key : string) : Prop :=
  bytes_fromhex (hs_peer_pubkey_hex body) = Some key /\ (Z.abs (now - hs_timestamp body) <= 300)%Z /\
  exists sig, bytes_fromhex (hs_signature_hex body) = Some sig /\
    ed25519_verify (canonical_json (handshake_payload (hs_peer_hostname body) (hs_peer_pubkey_hex body) (hs_timestamp body))) sig key = true.

(** A known name with the same key, or a new name, which is not trusted. *)
Definition greeted_peers (now : Z) (key : string) (l l' : list FederationPeer) : Prop :=
  (exists p, p ∈ l /\ fp_hostname p = hs_peer_hostname body /\ fp_pubkey p = key /\
     l' = map (fun q => if hosted_at (hs_peer_hostname body) q then greeted now p else q) l) \/
  ((forall p, p ∈ l -> fp_hostname p <> hs_peer_hostname body) /\
   l' = l ++ [mkPeer (hs_peer_hostname body) key false (Some now) now]).

Lemma run_get_or_create key (w : vworld) :
  let x := run_doc (_get_or_create_peer (hs_peer_hostname body) key) w in
  match fst x with
  | Ok _ => exists l', greeted_peers (w_now w) key (t_peers (w_work w)) l' /\
      snd x = set_databases (w_db w) (set_peers l' (w_work w)) w
  | Raise _ => snd x = w
  end.
Proof.
  cbv zeta. assert (Ew : set_databases (w_db w) (w_work w) w = w) by by destruct w.
  unfold _get_or_create_peer. rewrite run_doc_bind, run_doc_sql. cbn [fst snd]. rewrite Ew.
  destruct (select_one _ _) as [p|] eqn:Es.
  - apply select_in in Es as [Hin Hh%String.eqb_eq]. destruct (String.eqb_spec (fp_pubkey p) key) as [Hk|Hk]; cbn [negb]; [|done].
    rewrite run_doc_bind, run_doc_now, run_doc_bind. unfold store_peer. rewrite run_doc_sql. cbn [fst snd update_where fp_hostname greeted].
    rewrite run_doc_ret. cbn [fst snd]. eexists. split; [left; exists p; split_and!; try done; by rewrite Hh|by rewrite Hh].
  - rewrite run_doc_bind, run_doc_now. cbv zeta. rewrite run_doc_bind. unfold insert_peer. rewrite run_doc_bind, run_doc_sql. cbn [fp_hostname].
    destruct (existsb _ _) eqn:Ex; cbn [fst snd]; [by rewrite Ew|]. rewrite !run_doc_ret. cbn [fst snd].
    eexists. split; [right; split; [|done]|done]. intros p Hp E. apply list_elem_of_In in Hp.
    pose proof (List.find_none _ _ Es p Hp) as Hn. unfold hosted_at in Hn. by rewrite E, String.eqb_refl in Hn.
Qed.

Lemma run_handshake (w : vworld) :
  (exists e, run_doc (handshake s body) w = (Raise e, w)) \/
  exists key l', introduced (w_now w) key /\ greeted_peers (w_now w) key (t_peers (w_work w)) l' /\
    run_doc (handshake s body) w =
    (Ok (mkHandshakeResponse true (relay_pubkey_hex s) (relay_name s)), set_databases (w_db w) (set_peers l' (w_work w)) w).
Proof.
  unfold handshake. rewrite run_doc_bind, run_doc_now.
  destruct (Z.ltb_spec 300 (Z.abs (w_now w - hs_timestamp body))); [left; by eexists|].
  destruct (bytes_fromhex (hs_peer_pubkey_hex body)) as [key|] eqn:Ek; [|left; by eexists].
  destruct (bytes_fromhex (hs_signature_hex body)) as [sig|] eqn:Es; [|left; by eexists].
  cbv zeta. destruct (ed25519_verify _ sig key) eqn:Ev; cbn [negb]; [|left; by eexists].
  rewrite run_doc_bind. pose proof (run_get_or_create key w) as Hg. cbv zeta in Hg.
  destruct (run_doc _ w) as [[p|e] w']; cbn [fst snd] in Hg; [|subst; left; by eexists].
  destruct Hg as (l' & Hg & ->). right. exists key, l'. split; [split_and!; [done|lia|by exists sig]|done].
Qed.
End Handshake.

(** ** One request *)

Section Request.
  Context `{Sha256} `{Nacl} (s : Settings) (body : ForwardRequest).

(** A control message that is refused, forged or spent changes nothing; any other leaves its claim. *)
Lemma run_control (w : vworld) :
  calm w -> w_work w = w_db w -> is_control (fw_envelope body) = true ->
  let x := run_doc (with_session (forward s body)) w in
  (snd x = w /\ (forall r, fst x = Ok r -> exists ev, event_of (fw_envelope body) = Some ev /\ r = duplicate (ev_answer ev))) \/
  exists ev, event_of (fw_envelope body) = Some ev /\ rv_keys (w_redis w) !! claim_key ev = None /\
    holds (claim_key ev) (Entry (VStr "1") (Some (w_now w + Z.max (ev_window ev) 60)%Z)) (w_redis (snd x)).
Proof.
  intros Hc Hw Hk x.
  destruct (run_forward_cases s body w) as [(peer & _ & E)|(e & E & _)];
    [|left; unfold x; by rewrite (session_same _ _ w Hw E)].
  destruct (dispatch_control s (fw_envelope body) peer (w_now w) Hk) as [(ev & d & rest & Hev & Ed & Hrest)|(e & Ed)]; rewrite Ed in E;
    [|left; unfold x; by rewrite (session_same _ _ w Hw E)].
  destruct (run_verify_event ev w) as (b & _ & Hb). destruct b.
  2: { left. rewrite gate_unsigned in E by by intros ?%Hb. unfold x. by rewrite (session_same _ _ w Hw E). }
  assert (Hs : signed_event (w_now w) ev) by by apply Hb.
  destruct (rv_keys (w_redis w) !! claim_key ev) as [en|] eqn:Ek.
  { left. rewrite (gate_claimed _ _ _ en) in E by done. unfold x. rewrite (session_same _ _ w Hw E). split; [done|].
    intros r [= <-]. by exists ev. }
  right. exists ev. split; [done|]. split; [done|]. unfold x. rewrite run_with_session. cbn [snd].
  rewrite gate_first in E by done. rewrite E.
  pose proof (exchanges_run _ rest (with_claim ev w) (Hrest (Entry (VStr "1") (Some (w_now w + Z.max (ev_window ev) 60)%Z)))) as Hkeep.
  destruct (run_doc rest (with_claim ev w)) as [[r|e] w']; cbn [fst snd w_redis set_databases] in *;
    apply Hkeep; unfold holds; cbn; by rewrite lookup_insert_eq.
Qed.

(** The claim of its event is there: nothing happens. *)
Lemma run_spent ev en (w : vworld) :
  calm w -> w_work w = w_db w -> is_control (fw_envelope body) = true ->
  (forall ev', event_of (fw_envelope body) = Some ev' -> claim_key ev' = claim_key ev) -> holds (claim_key ev) en (w_redis w) ->
  let x := run_doc (with_session (forward s body)) w in
  snd x = w /\ forall r, fst x = Ok r -> exists ev', event_of (fw_envelope body) = Some ev' /\ r = duplicate (ev_answer ev').
Proof.
  intros Hc Hw Hk Hsame Hholds x. destruct (run_control w Hc Hw Hk) as [Hx|(ev' & Hev & Hno & _)]; [exact Hx|].
  unfold holds in Hholds. rewrite (Hsame ev' Hev) in Hno. congruence.
Qed.
End Request.

(** The shape of a group_gone message. *)
Record gone_message (e : dict) (gid g by_hex by_ : string) (raw : list json) : Prop := {
  gn_kind : dict_get "kind" e = Some (JStr "group_gone");
  gn_group : dict_get "group_id" e = Some (JStr g) /\ uuid_of_string g = Some gid;
  gn_by : dict_get "by_pubkey_hex" e = Some (JStr by_hex) /\ bytes_fromhex by_hex = Some by_ /\ string_len by_ = 32%Z;
  gn_to : dict_get "deliver_to_pubkeys" e = Some (JArr raw) /\ raw <> [];
  gn_sig : exists sig, dict_get "gone_signature_hex" e = Some (JStr sig) /\ sig <> "";
  gn_ts : exists ts, dict_get "gone_ts" e = Some (JNum ts)
}.

Definition gone_event (e : dict) (g by_hex : string) : event :=
  Event "group_gone" "group_gone" "" (Some g) (got "gone_ts" e) (got "gone_signature_hex" e) by_hex CONTROL_SIG_WINDOW_SECONDS g.

Section Gone.
  Context `{Sha256} `{Nacl} (s : Settings).

Lemma gone_control e gid g by_hex by_ raw : gone_message e gid g by_hex by_ raw -> is_control e = true.
Proof. intros [Hk _ _ _ _ _]. unfold is_control, control_kinds, get_is_str. cbn [existsb]. by rewrite Hk. Qed.

Lemma gone_event_of e gid g by_hex by_ raw : gone_message e gid g by_hex by_ raw -> event_of e = Some (gone_event e g by_hex).
Proof.
  intros [Hk [Hg _] [Hb _] _ _ _]. unfold event_of. rewrite (text_kind _ _ Hk). cbn. unfold text_at. by rewrite Hg, Hb.
Qed.

Lemma dispatch_gone e gid g by_hex by_ raw peer now :
  gone_message e gid g by_hex by_ raw ->
  dispatch s e peer now =
  gate (gone_event e g by_hex) "invalid_group_gone_signature" (announce_gone s peer gid g by_hex by_ (JArr raw)).
Proof.
  intros [Hk [Hg Hu] (Hb & Hx & Hl) [Hr Hne] (sig & Hs & Hsne) (ts & Ht)].
  assert (Hgne : g <> "") by (intros ->; vm_compute in Hu; discriminate).
  assert (Hbne : by_hex <> "") by (intros ->; injection Hx as <-; discriminate).
  unfold dispatch, get_is_str. rewrite Hk. cbn [String.eqb Ascii.eqb Bool.eqb]. unfold _handle_group_gone, get_truthy, got.
  rewrite Hg, Hb, Hr, Hs, Ht. cbn [default from_option id json_truthy is_none].
  rewrite (proj2 (String.eqb_neq _ _) Hgne), (proj2 (String.eqb_neq _ _) Hbne), (proj2 (String.eqb_neq _ _) Hsne).
  destruct raw as [|j raw]; [done|]. cbn [negb andb orb uuid_of_str]. rewrite Hu.
  unfold key32. cbn [fromhex_of]. rewrite Hx. cbn [mbind option_bind]. rewrite Hl. cbn [Z.eqb Pos.eqb].
  unfold gone_event, gate, got. by rewrite Hs, Ht.
Qed.

Definition group_of (gid : string) (db : database) : option Group := select_one (has_group_id gid) (t_groups db).

(** A peer that is not the host is told so. *)
Lemma run_announce_wrong g peer gid gtext by_hex by_ raw (w : vworld) :
  group_of gid (w_work w) = Some g -> _group_home_relay s g <> relay_name s -> _group_home_relay s g <> fp_hostname peer ->
  run_doc (announce_gone s peer gid gtext by_hex by_ (JArr raw)) w = (Raise (HTTPException 403 "group_gone_from_wrong_host"), w).
Proof.
  intros Hg H1 H2. unfold announce_gone. rewrite run_doc_bind, run_doc_sql. cbn [fst snd].
  fold (group_of gid (w_work w)). rewrite Hg. cbv zeta.
  rewrite (proj2 (String.eqb_neq _ _) H1), (proj2 (String.eqb_neq _ _) H2). cbn [negb].
  assert (E : set_databases (w_db w) (w_work w) w = w) by by destruct w. by rewrite E.
Qed.

(** The host, for the creator, is believed. *)
Lemma run_announce_host g peer gid gtext by_hex by_ raw (w : vworld) :
  group_of gid (w_work w) = Some g -> _group_home_relay s g <> relay_name s -> _group_home_relay s g = fp_hostname peer ->
  g_creator_pubkey g = by_ ->
  fst (run_doc (announce_gone s peer gid gtext by_hex by_ (JArr raw)) w) = Ok (mkForwarded true gtext (Some "group_gone_delivered")).
Proof.
  intros Hg H1 H2 H3. unfold announce_gone. rewrite run_doc_bind, run_doc_sql. cbn [fst snd].
  fold (group_of gid (w_work w)). rewrite Hg. cbv zeta.
  rewrite (proj2 (String.eqb_neq _ _) H1), (proj2 (String.eqb_eq _ _) H2), (proj2 (String.eqb_eq _ _) H3). cbn [negb].
  rewrite run_doc_bind, run_doc_sql, run_doc_bind. cbn [iter_of of_res]. cbn [fst snd].
  change (of_res (Ok raw)) with (ret raw). rewrite run_doc_ret, run_doc_bind, run_doc_try.
  destruct (run_doc (publish_group_gone _ _ _) _) as [[[]|e] w']; done.
Qed.
End Gone.

(** ** Properties *)

Section Properties.
  Context `{R : Redis} `{Sha256} `{Nacl} (s : Settings).

(** A handshake grants nothing.  Whatever fails, a handshake changes nothing, or its sender signed its
    name and key lately and the only change is in the table of peers: the time of the peer of that
    name and key, or a new, untrusted peer of a name that was not there.  No key of a known name and
    no trust ever changes. *)
Theorem handshake_grants_nothing (body : HandshakeRequest) (w : world rstore) :
  w_work w = w_db w ->
  let x := run (with_session (handshake s body)) w in
  ((exists e, fst x = Raise e) /\ absw (snd x) = absw w) \/
  exists key l', introduced body (w_now w) key /\ greeted_peers body (w_now w) key (t_peers (w_db w)) l' /\
    absw (snd x) = set_databases (set_peers l' (w_db w)) (set_peers l' (w_db w)) (absw w).
Proof.
  intros Hw x. unfold x. rewrite fst_run, snd_run_absw. destruct (run_handshake s body (absw w)) as [[e E]|(key & l' & Hi & Hg & E)].
  - left. rewrite (session_same _ _ (absw w) Hw E). split; [by exists e|done].
  - right. exists key, l'. change (w_work (absw w)) with (w_work w) in *. rewrite Hw in *. split; [done|]. split; [done|].
    by rewrite run_with_session, E.
Qed.


(** A control message acts once.  On a calm server a control message either changes nothing, or for
    the whole window every message with the same signed event, from whichever relay and in whichever
    envelope, changes nothing, and is answered, if at all, as a replay. *)
Theorem control_acts_once (body : ForwardRequest) (w : world rstore) :
  calm w -> w_work w = w_db w -> is_control (fw_envelope body) = true ->
  let w1 := snd (run (with_session (forward s body)) w) in
  absw w1 = absw w \/
  exists ev, event_of (fw_envelope body) = Some ev /\
    forall body' t, (w_now w <= t < w_now w + ev_window ev)%Z -> is_control (fw_envelope body') = true ->
      (forall ev', event_of (fw_envelope body') = Some ev' -> claim_key ev' = claim_key ev) ->
      let x := run (with_session (forward s body')) (set_now t w1) in
      absw (snd x) = absw (set_now t w1) /\
      forall r, fst x = Ok r -> exists ev', event_of (fw_envelope body') = Some ev' /\ r = duplicate (ev_answer ev').
Proof.
  intros Hc Hw Hk w1. subst w1. rewrite snd_run_absw.
  destruct (run_control s body (absw w) Hc Hw Hk) as [[E _]|(ev & Hev & _ & Hh)]; [by left|right].
  exists ev. split; [done|]. intros body' t Ht Hk' Hsame x. unfold x. rewrite fst_run, snd_run_absw.
  rewrite run_later by (try apply run_now; lia).
  set (p := with_session (forward s body)) in *. set (u := snd (run_doc p (absw w))) in *.
  apply (run_spent s body' ev (Entry (VStr "1") (Some (w_now w + Z.max (ev_window ev) 60)%Z)) (later t u)); try done.
  - exact (calm_run p (absw w) Hc).
  - exact (session_settled (forward s body) (absw w)).
  - apply holds_later; [lia|exact Hh].
Qed.

(** A refused message uses the event up.  The claim of an event is made before the group's host is
    looked at, so the end of a group, sent first by a trusted peer that is not the host and refused
    for it, is afterwards taken for a replay when the host sends it; without that the host would
    have been believed and the members told. *)
Theorem refused_event_is_spent (body body' : ForwardRequest) peer host (g : Group) gid gtext by_hex by_ raw t (w : world rstore) :
  calm w -> w_work w = w_db w -> gone_message (fw_envelope body) gid gtext by_hex by_ raw ->
  fw_envelope body' = fw_envelope body ->
  authentic body (w_now w) (w_db w) peer -> authentic body' t (w_db w) host ->
  group_of gid (w_db w) = Some g -> g_creator_pubkey g = by_ -> _group_home_relay s g <> relay_name s ->
  _group_home_relay s g <> fp_hostname peer -> _group_home_relay s g = fp_hostname host ->
  let ev := gone_event (fw_envelope body) gtext by_hex in
  signed_event (w_now w) ev -> signed_event t ev -> (w_now w <= t < w_now w + ev_window ev)%Z ->
  rv_keys (w_redis (absw w)) !! claim_key ev = None ->
  let x := run (with_session (forward s body)) w in
  let x' := run (with_session (forward s body')) (set_now t (snd x)) in
  fst x = Raise (HTTPException 403 "group_gone_from_wrong_host") /\
  fst x' = Ok (duplicate gtext) /\ rv_pub (w_redis (absw (snd x'))) = rv_pub (w_redis (absw w)) /\
  fst (run (with_session (forward s body')) (set_now t w)) = Ok (mkForwarded true gtext (Some "group_gone_delivered")).
Proof.
  intros Hc Hw Hm He Hp Hh Hg Hcr Hne1 Hne2 Heq ev Hs Hs' Ht Hk x x'.
  assert (Hw' : w_work (absw w) = w_db w) by exact Hw.
  assert (E1 : run_doc (with_session (forward s body)) (absw w) =
    (Raise (HTTPException 403 "group_gone_from_wrong_host"), with_claim ev (absw w))).
  { rewrite run_with_session, (run_forward_from s body peer) by (rewrite Hw'; done).
    rewrite (dispatch_gone _ _ _ _ _ _ _ _ _ Hm). fold ev. rewrite gate_first by done.
    rewrite (run_announce_wrong s g) by (try change (w_work (with_claim ev (absw w))) with (w_work w); rewrite ?Hw; done).
    cbn [fst snd]. f_equal. unfold set_databases, with_claim, set_redis. cbn. by rewrite Hw. }
  assert (E2 : absw (set_now t (snd x)) = later t (with_claim ev (absw w))).
  { unfold x. by rewrite run_later by (try apply run_now; lia); rewrite E1. }
  assert (Hclaim : holds (claim_key ev) (Entry (VStr "1") (Some (w_now w + Z.max (ev_window ev) 60)%Z))
                     (w_redis (later t (with_claim ev (absw w))))).
  { apply holds_later; [lia|]. unfold holds. cbn. by rewrite lookup_insert_eq. }
  assert (E3 : run_doc (with_session (forward s body')) (later t (with_claim ev (absw w))) =
    (Ok (duplicate gtext), later t (with_claim ev (absw w)))).
  { apply session_same; [exact Hw|]. rewrite (run_forward_from s body' host); [|rewrite <- Hw in Hh; exact Hh].
    rewrite He, (dispatch_gone _ _ _ _ _ _ _ _ _ Hm). fold ev. by rewrite (gate_claimed ev _ _ _ (later t (with_claim ev (absw w))) Hc Hs' Hclaim). }
  split_and!.
  - unfold x. by rewrite fst_run, E1.
  - unfold x'. by rewrite fst_run, E2, E3.
  - unfold x'. by rewrite snd_run_absw, E2, E3.
  - rewrite fst_run, (absw_later t w), run_with_session by lia.
    rewrite (run_forward_from s body' host (later t (absw w))) by (rewrite <- Hw in Hh; exact Hh).
    rewrite He, (dispatch_gone _ _ _ _ _ _ _ _ _ Hm). fold ev. set (u := later t (absw w)).
    assert (Hk' : rv_keys (w_redis u) !! claim_key ev = None) by (unfold u; cbn [later w_redis set_redis]; rewrite keys_expire, Hk; done).
    rewrite (gate_first ev _ _ u Hc Hs' Hk').
    pose proof (run_announce_host s g host gid gtext by_hex by_ raw (with_claim ev u)) as Ha.
    destruct (run_doc _ (with_claim ev u)) as [r u']. cbn [fst snd] in *. rewrite Ha; try done.
    unfold u. cbn. by rewrite Hw.
Qed.
End Properties.

(** ** Witnesses *)

Module FederationApiDemo.
Import MessagesDemo.
#[local] Instance api_sha : Sha256 := demo_sha.
#[local] Instance api_nacl : Nacl := demo_nacl.

(** A copy of alice's group, which the host keeps; and another relay that is trusted too. *)
Definition gone_gid : string := twice 16 "a".
Definition copy : Group :=
  mkGroup gone_gid (key_of alice) "ABC" false 86400 None None false 50 (Some "host.example") 0 None.
Definition peer (name key : string) : FederationPeer := mkPeer name (key_of key) true None 0.
Definition host_key : string := twice 32 "11".
Definition other_key : string := twice 32 "22".
Definition mirror : database :=
  set_groups [copy] (set_members [mkMember gone_gid (key_of bob) false 0]
    (set_peers [peer "host.example" host_key; peer "other.example" other_key] people)).
Definition mirror_relay : world (rstore (Redis := Mem_Redis)) :=
  World 1000%Z (View ∅ ∅ []) mirror mirror ∅ [] (fun _ => "fresh") [] no_network [].

Definition obituary : dict :=
  [("kind", JStr "group_gone"); ("group_id", JStr (uuid_to_string gone_gid)); ("by_pubkey_hex", JStr alice);
   ("deliver_to_pubkeys", JArr [JStr bob]); ("gone_signature_hex", JStr (twice 64 "dd")); ("gone_ts", JNum 1000)].
Definition from_relay (key : string) (t : Z) (e : dict) : ForwardRequest := mkForward e key (twice 64 "ee") t.

Lemma authentic_from key name t :
  (key, name) ∈ [(host_key, "host.example"); (other_key, "other.example")] ->
  authentic (from_relay key t obituary) t mirror (peer name key).
Proof.
  intros Hin. split; [|cbn; lia|done].
  apply elem_of_cons in Hin as [[= -> ->]|Hin]; [|apply list_elem_of_singleton in Hin as [= -> ->]];
    (do 2 eexists; split_and!; vm_compute; reflexivity).
Qed.

Lemma obituary_signed t : (Z.abs (t - 1000) <= 3600)%Z -> signed_event t (gone_event obituary (uuid_to_string gone_gid) alice).
Proof.
  intros Ht. split. exists 1000%Z. split; [reflexivity|]. split; [exact Ht|].
  eexists. eexists. split; [vm_compute; reflexivity|]. split; vm_compute; reflexivity.
Qed.

Lemma obituary_shape : gone_message obituary gone_gid (uuid_to_string gone_gid) alice (key_of alice) [JStr bob].
Proof.
  split; try (vm_compute; reflexivity).
  - split; vm_compute; reflexivity.
  - split_and!; vm_compute; reflexivity.
  - split; [reflexivity|discriminate].
  - exists (twice 64 "dd"). split; [reflexivity|discriminate].
  - by eexists.
Qed.

Definition greeting : HandshakeRequest := mkHandshake "new.example" (twice 32 "33") 1000 (twice 64 "dd").
Lemma handshake_witness :
  exists key l', introduced greeting 1000 key /\
    t_peers (w_db (snd (run (with_session (handshake settings greeting)) mirror_relay))) = l' /\ length l' = 3.
Proof.
  destruct (handshake_grants_nothing settings greeting mirror_relay eq_refl) as [[[e E] _]|(key & l' & Hi & Hg & E)].
  - vm_compute in E. discriminate.
  - exists key, l'. split; [exact Hi|]. split.
    + change (w_db (snd ?x)) with (w_db (absw (snd x))). rewrite E. reflexivity.
    + destruct Hg as [(p & Hp & Hn & _)|[_ ->]]; [|reflexivity]. exfalso. unfold mirror_relay, mirror in Hp. cbn in Hp.
      do 2 (apply elem_of_cons in Hp as [->|Hp]; [discriminate Hn|]). by apply not_elem_of_nil in Hp.
Defined.


Lemma once_witness :
  let w1 := snd (run (with_session (forward settings (from_relay host_key 1000 obituary))) mirror_relay) in
  absw w1 = absw mirror_relay \/ exists ev, event_of obituary = Some ev.
Proof.
  destruct (control_acts_once settings (from_relay host_key 1000 obituary) mirror_relay eq_refl eq_refl eq_refl)
    as [E|(ev & Hev & _)]; [by left|right; by exists ev].
Defined.

Lemma spent_witness :
  let x := run (with_session (forward settings (from_relay other_key 1000 obituary))) mirror_relay in
  let x' := run (with_session (forward settings (from_relay host_key 1010 obituary))) (set_now 1010 (snd x)) in
  fst x = Raise (HTTPException 403 "group_gone_from_wrong_host") /\
  fst x' = Ok (duplicate (uuid_to_string gone_gid)).
Proof.
  destruct (refused_event_is_spent settings (from_relay other_key 1000 obituary) (from_relay host_key 1010 obituary)
    (peer "other.example" other_key) (peer "host.example" host_key) copy gone_gid (uuid_to_string gone_gid) alice (key_of alice)
    [JStr bob] 1010 mirror_relay) as (H1 & H2 & _); [..|exact (conj H1 H2)].
  - reflexivity.
  - reflexivity.
  - exact obituary_shape.
  - reflexivity.
  - apply authentic_from. do 2 constructor.
  - apply authentic_from. constructor.
  - vm_compute. reflexivity.
  - reflexivity.
  - vm_compute. discriminate.
  - vm_compute. discriminate.
  - vm_compute. reflexivity.
  - apply obituary_signed. vm_compute. discriminate.
  - apply obituary_signed. vm_compute. discriminate.
  - vm_compute. split; [discriminate|reflexivity].
  - vm_compute. reflexivity.
Defined.
End FederationApiDemo.
