(* ===== verification/AuthFacts.v ===== *)
(** * Who is logged in (api/auth.py) *)

From Stdlib Require Import Ascii String.
From stdpp Require Import prelude gmap strings list.
From S2P Require Import Prelude Json Codec RedisStore Models Effects Crypto Config Sessions SessionFacts RateLimit Deps Logic.
From S2P Require Import BlobStorage Queue Messages Users Federation FederationApiFacts Auth.

#[local] Open Scope morok_scope.

(** ** A key that is gone stays gone *)

Definition absent (k : string) (v : rview) : Prop := rv_keys v !! k = None.
#[export] Instance absent_harmless k : Harmless (absent k) (elsewhere k).
Proof. intros c Hc now v Hv. unfold absent. by rewrite documented_frame. Qed.

Ltac other_keys := unfold elsewhere; cbn [writes set_ex set_nx_ex]; rewrite ?not_elem_of_cons; repeat split;
  first [apply not_elem_of_nil|string_ne].

Lemma run_fromhex_none x (w : vworld) : bytes_fromhex x = None -> run_doc (fromhex_ x) w = (Raise (ValueError "fromhex"), w).
Proof. intros E. unfold fromhex_. by rewrite E. Qed.

(** ** The challenge *)

Lemma run_consume_any ch o (w : vworld) :
  str_at (_challenge_key ch) (w_redis w) = Some o ->
  exists r v', run_doc (consume_challenge ch) w = (r, set_redis v' (pop_fault w)) /\
    (v' = w_redis w \/ v' = del (_challenge_key ch) (w_redis w)) /\
    forall o', r = Ok o' -> o' = o /\ v' = del (_challenge_key ch) (w_redis w).
Proof.
  intros Ho. unfold consume_challenge. rewrite run_doc_bind.
  destruct (documented_del1 (w_now w) (_challenge_key ch) (w_redis w)) as [n Hn].
  assert (Hm : multi_ok (w_now w) [GET (_challenge_key ch); DEL [_challenge_key ch]] (w_redis w)
    [match o with Some s => RBulk s | None => RNil end; RInt n] (del (_challenge_key ch) (w_redis w))).
  { eapply multi_cons; [cbn [documented]; by rewrite Ho; destruct o|by destruct o|].
    eapply multi_cons; [exact Hn|done|apply multi_nil]. }
  destruct (run_doc_redis_any (rmulti [GET (_challenge_key ch); DEL [_challenge_key ch]]) w) as (r & v' & -> & Hv & Hr).
  rewrite (rrun_multi_ok _ _ _ _ _ Hm) in Hv, Hr. cbn [fst snd] in *.
  destruct r as [rs|e].
  - destruct (Hr rs eq_refl) as [[= <-] ->]. rewrite run_doc_ret. eexists _, _. split; [done|]. split; [by right|].
    intros o' [= <-]. by destruct o.
  - eexists _, _. by split.
Qed.

Section Login.
  Context `{Sha256} `{Nacl} (s : Settings) (body : AuthRequest) (request : Request).
Let ch := _challenge_key (au_challenge_hex body).

(** The body answers a challenge that is waiting for its key: lately, and signed with that key. *)
Record answered (now : Z) (v : rview) (key : string) : Prop := {
  an_waiting : str_at ch v = Some (Some (au_pubkey_hex body));
  an_fresh : (Z.abs (now - au_timestamp body) <= 120)%Z;
  an_key : bytes_fromhex (au_pubkey_hex body) = Some key;
  an_signed : exists sig, bytes_fromhex (au_signature_hex body) = Some sig /\
    ed25519_verify (canonical_json (auth_payload (au_challenge_hex body) (au_pubkey_hex body) (au_timestamp body))) sig key = true
}.

#[local] Ltac refused := eexists _, _; split; [by rewrite ?run_doc_raise|by auto].

(** The challenge is used up first; then the session is opened, or the answer is refused. *)
Lemma run_verify_cases (w : vworld) :
  is_Some (str_at ch (w_redis w)) ->
  let burnt v' := set_redis v' (pop_fault w) in
  (exists key, answered (w_now w) (w_redis w) key /\
     run_doc (verify_challenge s body request) w = run_doc (open_session s body key request) (burnt (del ch (w_redis w)))) \/
  (exists e v', run_doc (verify_challenge s body request) w = (Raise e, burnt v') /\ (v' = w_redis w \/ v' = del ch (w_redis w))).
Proof.
  intros [o Ho] burnt. destruct (run_consume_any _ o w Ho) as (r & v' & E & Hv & Hr). fold ch in Hv, Hr.
  unfold verify_challenge. rewrite run_doc_bind, E. fold (burnt v').
  destruct r as [o'|e]; [|right; by refused]. destruct (Hr o' eq_refl) as [-> ->].
  destruct o as [expected|]; [|right; by refused].
  destruct (String.eqb_spec expected (au_pubkey_hex body)) as [->|]; cbn [negb]; [|right; by refused].
  rewrite run_doc_bind, run_doc_now. change (w_now (burnt (del ch (w_redis w)))) with (w_now w).
  destruct (Z.ltb_spec 120 (Z.abs (w_now w - au_timestamp body))); [right; eauto|].
  cbv zeta. rewrite run_doc_bind.
  destruct (bytes_fromhex (au_pubkey_hex body)) as [key|] eqn:Ek; [|right; rewrite (run_fromhex_none _ _ Ek); by refused].
  rewrite (run_doc_fromhex _ key), run_doc_bind by done.
  destruct (bytes_fromhex (au_signature_hex body)) as [sig|] eqn:Es; [|right; rewrite (run_fromhex_none _ _ Es); by refused].
  rewrite (run_doc_fromhex _ sig) by done. destruct (ed25519_verify _ sig key) eqn:Ev; cbn [negb]; [|right; by refused].
  left. exists key. split; [|done]. split; try done. by exists sig.
Qed.

Lemma run_verify_ok key (w : vworld) :
  calm w -> answered (w_now w) (w_redis w) key ->
  run_doc (verify_challenge s body request) w = run_doc (open_session s body key request) (set_redis (del ch (w_redis w)) w).
Proof.
  intros Hc [Hch Hts Hk (sig & Hs & Hv)]. unfold verify_challenge.
  rewrite run_doc_bind, (run_consume_challenge _ _ _ Hc Hch), String.eqb_refl. cbn [negb].
  rewrite run_doc_bind, run_doc_now. cbn [w_now set_redis].
  destruct (Z.ltb_spec 120 (Z.abs (w_now w - au_timestamp body))) as [Hlt|_]; [lia|].
  cbv zeta. rewrite run_doc_bind, (run_doc_fromhex _ key), run_doc_bind, (run_doc_fromhex _ sig) by done.
  by rewrite Hv.
Qed.

(** What follows does not bring a challenge back. *)
Lemma keep_open key : exchanges_keep (absent ch) (open_session s body key request).
Proof.
  unfold open_session, _reactivate_if_deleted, create_session, _record_login, _daily_ip_hash, insert_login, select_user, cmd_, fromhex_. cbv zeta.
  exchanges other_keys.
Qed.

Lemma open_pubkey key : returns (value_is (fun r => ar_pubkey_hex r = au_pubkey_hex body)) (open_session s body key request).
Proof.
  unfold open_session. do 2 (apply returns_then; intros ?). cbv zeta.
  apply (returns_bind (fun session => pubkey_hex session = au_pubkey_hex body)).
  - unfold create_session. cbv zeta. repeat (apply returns_then; intros ?). done.
  - intros session Hs. apply returns_then. intros broken. by destruct broken.
Qed.

(** ** A login on a calm server *)

Lemma set_at_later now k v : is_Some (set_at k v) -> is_Some (set_at k (expire now v)).
Proof.
  unfold set_at. rewrite keys_expire. destruct (rv_keys v !! k) as [e|]; [|done]. by case_decide.
Qed.

Lemma run_reactivate key (w : vworld) :
  bytes_fromhex (au_pubkey_hex body) = Some key ->
  exists b, run_doc (_reactivate_if_deleted (au_pubkey_hex body)) w =
    (Ok b, set_databases (w_db w)
       (set_users (map (fun u => if deleted_row key u then reactivated (w_now w) u else u) (t_users (w_work w))) (w_work w)) w).
Proof.
  intros Hk. unfold _reactivate_if_deleted. rewrite run_doc_try, run_doc_bind, (run_doc_fromhex _ key), run_doc_bind, run_doc_now by done.
  rewrite run_doc_bind, run_doc_sql, run_doc_ret. by eexists.
Qed.

(** The salt: whatever its key holds, the hash is computed, and no other key changes. *)
Lemma run_ip_hash ip (w : vworld) :
  calm w -> exists h v', run_doc (_daily_ip_hash s ip) w =
    (Ok h, set_redis v' (set_tokens (fun n => w_tokens w (S n)) w)) /\
    forall k, k <> login_salt_key (utc_date (w_now w)) -> rv_keys v' !! k = rv_keys (w_redis w) !! k.
Proof.
  intros Hc. unfold _daily_ip_hash. rewrite run_doc_bind, run_doc_now. cbv zeta.
  rewrite run_doc_bind, run_doc_try, run_doc_bind, run_doc_token. set (w1 := set_tokens _ w).
  rewrite run_doc_bind, run_doc_redis, rrun_rcall, doc_set_nx_ex by done.
  change (w_redis w1) with (w_redis w). set (k0 := login_salt_key _).
  destruct (rv_keys (w_redis w) !! k0) as [en|] eqn:Ek; cbn [fst snd as_set_ok res_of].
  - rewrite run_doc_redis, rrun_rcall by done. cbn [w_now w_redis set_redis].
    assert (Hsame : snd (documented (w_now w1) (GET k0) (w_redis w)) = w_redis w)
      by (cbn [documented]; by destruct (str_at k0 (w_redis w)) as [[]|]).
    rewrite Hsame. destruct (as_bulk _) as [o|]; cbn [res_of]; rewrite ?run_doc_ret; eexists _, (w_redis w); (split; [|done]);
      by rewrite ?run_doc_ret.
  - rewrite !run_doc_ret. eexists _, _. split; [done|]. intros k Hne. by rewrite keys_put_ne by congruence.
Qed.

(** The journal after a row was added and the old ones were dropped. *)
Definition journalled (key : string) (row : LoginLog) (db : database) : database :=
  let db := set_logins (t_logins db ++ [row]) db in prune_logins key (keep_ids key db) db.

Lemma keep_ids_row key row db : ll_pubkey row = key -> keep_ids key (set_logins (t_logins db ++ [row]) db) <> [].
Proof.
  intros Hk Hnil. unfold keep_ids in Hnil. cbn [t_logins set_logins] in Hnil.
  apply (f_equal (@length _)) in Hnil. rewrite length_map, length_take, order_by_perm, List.filter_app, length_app in Hnil.
  assert (E : login_of key row = true) by (unfold login_of; by rewrite Hk, String.eqb_refl).
  cbn [List.filter] in Hnil. rewrite E in Hnil. cbn [length] in Hnil. lia.
Qed.

Lemma run_record key ip ua (w : vworld) :
  calm w -> bytes_fromhex (au_pubkey_hex body) = Some key -> w_tokens w 1 ∉ map ll_id (t_logins (w_work w)) ->
  exists h v', run_doc (_record_login s (au_pubkey_hex body) ip ua) w =
    (Ok false, set_databases (w_db w) (journalled key (mkLogin (w_tokens w 1) key (w_now w) h (user_agent_column ua)) (w_work w))
                 (set_redis v' (set_tokens (fun n => w_tokens w (S (S n))) w))) /\
    forall k, k <> login_salt_key (utc_date (w_now w)) -> rv_keys v' !! k = rv_keys (w_redis w) !! k.
Proof.
  intros Hc Hk Hfresh. destruct (run_ip_hash ip w Hc) as (h & v' & Eh & Hv).
  exists h, v'. split; [|done]. unfold _record_login.
  rewrite run_doc_try, run_doc_bind, (run_doc_fromhex _ key), run_doc_bind, run_doc_now, run_doc_bind, Eh by done.
  rewrite run_doc_bind, run_doc_token, run_doc_bind. unfold insert_login. rewrite run_doc_bind, run_doc_sql.
  cbn [w_tokens set_tokens set_redis w_work].
  set (row := mkLogin _ _ _ _ _).
  assert (Hno : existsb (fun l' => String.eqb (ll_id l') (ll_id row)) (t_logins (w_work w)) = false).
  { apply not_true_is_false. intros (l & Hl & El%String.eqb_eq)%existsb_exists. apply Hfresh.
    apply list_elem_of_fmap. exists l. split; [by rewrite El|by apply list_elem_of_In]. }
  rewrite Hno. cbn [fst snd]. rewrite run_doc_ret, run_doc_bind, run_doc_sql, run_doc_bind. cbn [fst snd w_work set_databases].
  pose proof (keep_ids_row key row (w_work w) eq_refl) as Hkeep.
  destruct (keep_ids key _) as [|i ids] eqn:Ekeep; [done|].
  rewrite run_doc_sql, run_doc_ret. cbn [fst snd w_work w_db set_databases].
  unfold journalled. by rewrite Ekeep.
Qed.

Definition live_users (key : string) (now : Z) (db : database) : database :=
  set_users (map (fun u => if deleted_row key u then reactivated now u else u) (t_users db)) db.

Lemma run_open key x (w : vworld) :
  calm w -> bytes_fromhex (au_pubkey_hex body) = Some key ->
  set_at (_user_sessions_key (au_pubkey_hex body)) (w_redis w) = Some x -> w_tokens w 2 ∉ map ll_id (t_logins (w_work w)) ->
  exists r h v', run_doc (open_session s body key request) w =
    (Ok r, set_databases (w_db w)
       (journalled key (mkLogin (w_tokens w 2) key (w_now w) h (user_agent_column (headers request !! "user-agent")))
          (live_users key (w_now w) (w_work w)))
       (set_redis v' (set_tokens (fun n => w_tokens w (S (S (S n)))) w))) /\
    ar_session_token r = w_tokens w 0 /\ ar_pubkey_hex r = au_pubkey_hex body /\ ar_expires_at r = (w_now w + SESSION_TTL_SECONDS)%Z /\
    forall k, k <> login_salt_key (utc_date (w_now w)) ->
      rv_keys v' !! k = rv_keys (issued (w_now w) (au_pubkey_hex body) (_token_digest (w_tokens w 0)) x (w_redis w)) !! k.
Proof.
  intros Hc Hk Hx Hfresh. destruct (run_reactivate key w Hk) as [b Er]. unfold open_session.
  rewrite run_doc_bind, Er, run_doc_bind. unfold select_user. rewrite run_doc_sql. cbv zeta. cbn [fst snd].
  set (w1 := set_databases _ _ (set_databases _ _ w)).
  rewrite run_doc_bind, (run_create w1 _ x) by done. rewrite run_doc_bind.
  set (w2 := set_redis _ (set_tokens _ w1)).
  destruct (run_record key (get_ip_from_request (trusted_proxy_ips s) request) (headers request !! "user-agent") w2)
    as (h & v' & E & Hv); [done..|].
  rewrite E, run_doc_ret. eexists _, h, v'. split; [done|]. by split_and!.
Qed.

Lemma run_request_challenge pk_hex (w : vworld) :
  calm w -> run_doc (request_challenge pk_hex) w =
  (Ok (mkChallenge (hex_of_bytes (w_tokens w 0)) (w_now w + 60)),
   set_redis (put (_challenge_key (hex_of_bytes (w_tokens w 0))) (Entry (VStr pk_hex) (Some (w_now w + CHALLENGE_TTL_SECONDS)%Z)) (w_redis w))
     (set_tokens (fun n => w_tokens w (S n)) w)).
Proof.
  intros Hc. unfold request_challenge. rewrite run_doc_bind, run_doc_token. cbv zeta. rewrite run_doc_bind, run_doc_now, run_doc_bind.
  unfold store_challenge. by rewrite run_set_ex.
Qed.
End Login.

#[local] Ltac keys_ne :=
  unfold _session_key, SESSION_KEY_PREFIX, _user_sessions_key, USER_SESSIONS_KEY_PREFIX, _challenge_key, CHALLENGE_KEY_PREFIX, login_salt_key;
  string_ne.

(** The journal keeps at most thirty rows of a key, and all of the others. *)
Lemma journalled_rows key row db :
  NoDup (map ll_id (t_logins db ++ [row])) -> ll_pubkey row = key ->
  (length (List.filter (login_of key) (t_logins (journalled key row db))) <= 30)%nat /\
  List.filter (fun l => negb (login_of key l)) (t_logins (journalled key row db)) =
  List.filter (fun l => negb (login_of key l)) (t_logins db).
Proof.
  intros Hnd Hrow. unfold journalled, prune_logins, delete_where. cbn [t_logins set_logins snd].
  set (keep := keep_ids key _). set (rows := t_logins db ++ [row]) in *. split.
  - set (kept := List.filter (login_of key) _).
    assert (Hsub : forall i, i ∈ map ll_id kept -> i ∈ keep).
    { intros i (l & -> & Hl)%list_elem_of_fmap. apply list_elem_of_In, List.filter_In in Hl as [Hl Hkey].
      apply List.filter_In in Hl as [_ Hl]. rewrite Hkey in Hl. by case_bool_decide. }
    assert (Hndk : NoDup (map ll_id kept)).
    { apply (unique_sublist ll_id rows); [|exact Hnd]. unfold kept. etrans; apply filter_sublist. }
    pose proof (submseteq_length _ _ (NoDup_submseteq _ _ Hndk Hsub)) as Hle. rewrite length_map in Hle.
    etrans; [exact Hle|]. unfold keep, keep_ids. rewrite length_map, length_take. lia.
  - assert (E : forall L, List.filter (fun l => negb (login_of key l))
      (List.filter (fun r => negb (login_of key r && negb (bool_decide (ll_id r ∈ keep)))) L) =
      List.filter (fun l => negb (login_of key l)) L).
    { intros L. induction L as [|l L IH]; [done|]. cbn [List.filter]. destruct (login_of key l) eqn:El; cbn [andb negb].
      - destruct (negb _); cbn [List.filter]; rewrite ?El; exact IH.
      - cbn [List.filter]. rewrite El. cbn [negb]. by rewrite IH. }
    rewrite E. unfold rows. rewrite List.filter_app. cbn [List.filter].
    assert (Ek : login_of key row = true) by (unfold login_of; by rewrite Hrow, String.eqb_refl).
    rewrite Ek. cbn [negb]. by rewrite app_nil_r.
Qed.

Section Properties.
  Context `{R : Redis} `{Sha256} `{Nacl} (s : Settings).

(** C22: only the holder of a key logs in with it.  Whatever fails, a session is opened only for a body that
    answers a challenge waiting for its key, dated within two minutes and signed with that key, and it is
    that key's session; the challenge is used up with it.  Any other body is refused, and nothing else
    changes: no row, and of Redis at most the challenge. *)
Theorem login_needs_signature (body : AuthRequest) (request : Request) (w : world rstore) :
  let ch := _challenge_key (au_challenge_hex body) in
  w_work w = w_db w -> is_Some (str_at ch (w_redis (absw w))) ->
  let x := run (with_session (verify_challenge s body request)) w in
  (exists key, answered body (w_now w) (w_redis (absw w)) key /\ rv_keys (w_redis (absw (snd x))) !! ch = None /\
     forall r, fst x = Ok r -> ar_pubkey_hex r = au_pubkey_hex body) \/
  (exists e v', fst x = Raise e /\ absw (snd x) = set_redis v' (pop_fault (absw w)) /\
     (v' = w_redis (absw w) \/ v' = del ch (w_redis (absw w)))).
Proof.
  intros ch Hw Hch x. unfold x. rewrite fst_run, snd_run_absw, run_with_session. cbn [fst snd].
  destruct (run_verify_cases s body request (absw w) Hch) as [(key & Ha & E)|(e & v' & E & Hv)]; rewrite E; cbn [fst snd].
  - left. exists key. split; [exact Ha|]. fold ch. set (w1 := set_redis _ _).
    pose proof (exchanges_run (absent ch) _ w1 (keep_open s body request key)) as Hgone.
    pose proof (returns_run _ _ w1 (open_pubkey s body request key)) as Hpk.
    split.
    + destruct (fst (run_doc _ w1)); apply Hgone; unfold w1, absent; cbn [w_redis set_redis]; apply keys_del_eq.
    + intros r Hr. by rewrite Hr in Hpk.
  - right. exists e, v'. split; [done|]. split; [|exact Hv]. cbn. by destruct w; cbn in *; subst.
Qed.

(** C23: logging in works.  On a calm server a key that asks for a challenge and signs it within the minute gets
    a session: the token that comes back is accepted as that key's, a deleted account is live again, the
    login is in the journal with at most thirty rows of the key, and the same answer given again is
    refused. *)
Theorem login_works pk_hex key sig ts request (w : world rstore) (t : Z) :
  let c := hex_of_bytes (w_tokens w 0) in
  let tok := w_tokens w 1 in
  let body := mkAuthRequest pk_hex c ts sig in
  calm w -> w_work w = w_db w -> bytes_fromhex pk_hex = Some key -> no_bar pk_hex = true -> tok <> "" ->
  (exists sb, bytes_fromhex sig = Some sb /\ ed25519_verify (canonical_json (auth_payload c pk_hex ts)) sb key = true) ->
  (Z.abs (t - ts) <= 120)%Z -> (w_now w <= t < w_now w + CHALLENGE_TTL_SECONDS)%Z ->
  is_Some (set_at (_user_sessions_key pk_hex) (w_redis (absw w))) ->
  NoDup (map ll_id (t_logins (w_db w))) -> w_tokens w 3 ∉ map ll_id (t_logins (w_db w)) ->
  let x0 := run (request_challenge pk_hex) w in
  let x1 := run (with_session (verify_challenge s body request)) (set_now t (snd x0)) in
  fst x0 = Ok (mkChallenge c (w_now w + 60)) /\
  (exists r, fst x1 = Ok r /\ ar_session_token r = tok /\ ar_pubkey_hex r = pk_hex) /\
  fst (run (verify_session_token tok) (snd x1)) = Ok (Some (mkSession tok pk_hex (t + SESSION_TTL_SECONDS))) /\
  t_users (w_db (snd x1)) = map (fun u => if deleted_row key u then reactivated t u else u) (t_users (w_db w)) /\
  (length (List.filter (login_of key) (t_logins (w_db (snd x1)))) <= 30)%nat /\
  List.filter (fun l => negb (login_of key l)) (t_logins (w_db (snd x1))) =
    List.filter (fun l => negb (login_of key l)) (t_logins (w_db w)) /\
  fst (run (with_session (verify_challenge s body request)) (snd x1)) = Raise (HTTPException 401 "challenge_not_found_or_expired").
Proof.
  intros c tok body Hc Hw Hk Hbar Htok Hsig Hts Ht Hidx Hnd Hfresh x0 x1.
  pose proof (run_request_challenge pk_hex (absw w) Hc) as E0.
  assert (A0 : absw (snd x0) = snd (run_doc (request_challenge pk_hex) (absw w))) by apply snd_run_absw.
  rewrite E0 in A0. cbn [snd] in A0.
  set (v0 := put (_challenge_key c) (Entry (VStr pk_hex) (Some (w_now w + CHALLENGE_TTL_SECONDS)%Z)) (w_redis (absw w))) in A0.
  change (w_now (absw w)) with (w_now w) in A0. fold c v0 in A0.
  assert (Hn0 : w_now (snd x0) = w_now w) by exact (f_equal w_now A0).
  set (w1 := set_now t (snd x0)) in *.
  assert (A1 : absw w1 = later t (absw (snd x0))) by (apply absw_later; lia).
  rewrite A0 in A1.
  assert (Hc1 : calm (absw w1)) by by rewrite A1.
  assert (Ha : answered body (w_now (absw w1)) (w_redis (absw w1)) key).
  { rewrite A1. split; try done. cbn [later w_redis set_redis]. erewrite str_at_until by apply keys_put_eq.
    by rewrite (proj2 (Z.ltb_lt _ _)) by lia. }
  pose proof (run_verify_ok s body request key (absw w1) Hc1 Ha) as E1.
  set (w2 := set_redis (del (_challenge_key c) (w_redis (absw w1))) (absw w1)).
  change (set_redis _ (absw w1)) with w2 in E1.
  assert (Hdb : w_db w1 = w_db w) by exact (f_equal w_db A1).
  assert (Hwk : w_work w1 = w_db w) by (rewrite <- Hw; exact (f_equal w_work A1)).
  assert (Htoks : forall n, w_tokens w1 n = w_tokens w (S n)) by (intros n; exact (f_equal (fun v => w_tokens v n) A1)).
  assert (Hx : is_Some (set_at (_user_sessions_key pk_hex) (w_redis w2))).
  { unfold w2. cbn [w_redis set_redis]. unfold _challenge_key, CHALLENGE_KEY_PREFIX, _user_sessions_key, USER_SESSIONS_KEY_PREFIX in *.
    at_simpl. rewrite A1. cbn [later w_redis set_redis]. apply set_at_later. unfold v0. by at_simpl. }
  destruct Hx as [x Hx].
  destruct (run_open s body request key x w2) as (r & h & v' & E2 & Htk & Hpk & _ & Hkeys); try done.
  { change (w_tokens w1 2 ∉ map ll_id (t_logins (w_work w1))). by rewrite Hwk, Htoks. }
  change (w_tokens w2 0) with (w_tokens w1 0) in *. rewrite Htoks in Htk, Hkeys. fold tok in Htk, Hkeys.
  change (w_now w2) with t in *. change (w_tokens w2 2) with (w_tokens w1 2) in E2. rewrite Htoks in E2.
  change (w_db w2) with (w_db w1) in E2. change (w_work w2) with (w_work w1) in E2. rewrite Hdb, Hwk in E2.
  set (row := mkLogin (w_tokens w 3) key t h _) in E2.
  assert (A2 : absw (snd x1) = snd (run_doc (with_session (verify_challenge s body request)) (absw w1))) by apply snd_run_absw.
  rewrite run_with_session, E1, E2 in A2. cbn [fst snd] in A2.
  split; [unfold x0; by rewrite fst_run, E0|]. split.
  { exists r. split; [|done]. unfold x1. by rewrite fst_run, run_with_session, E1, E2. }
  assert (Hdb3 : w_db (snd x1) = journalled key row (live_users key t (w_db w))) by exact (f_equal w_db A2).
  assert (Hr3 : w_redis (absw (snd x1)) = v') by (by rewrite A2).
  assert (Hn3 : w_now (absw (snd x1)) = t) by (by rewrite A2).
  assert (Hc3 : calm (absw (snd x1))) by (rewrite A2; exact Hc1).
  assert (Hsk : str_at (_session_key (_token_digest tok)) v' = Some (Some (session_value pk_hex t))).
  { rewrite (str_at_ext (_session_key (_token_digest tok)) v' _ (Hkeys (_session_key (_token_digest tok)) ltac:(keys_ne))). unfold issued. rewrite str_at_touch, str_at_put_ne by apply index_session_ne.
    apply str_at_put. }
  assert (Hik : set_at (_user_sessions_key pk_hex) v' = Some (x ∪ list_to_set [_token_digest tok])).
  { rewrite (set_at_ext (_user_sessions_key pk_hex) v' _ (Hkeys (_user_sessions_key pk_hex) ltac:(keys_ne))). unfold issued. rewrite set_at_touch. apply set_at_put_val. }
  assert (Hnd3 : NoDup (map ll_id (t_logins (live_users key t (w_db w)) ++ [row]))).
  { rewrite map_app. cbn [t_logins live_users set_users map]. apply NoDup_app. split_and!; [done| |by apply NoDup_singleton].
    intros i Hi ->%list_elem_of_singleton. done. }
  split; [|split; [|split; [|split]]].
  - rewrite fst_run, (run_verify_hit tok Htok _ _ Hc3) by (rewrite Hr3; exact Hsk).
    rewrite (run_accept tok _ _ pk_hex t (x ∪ list_to_set [_token_digest tok])) by (rewrite ?Hr3; done).
    rewrite Hn3, (proj2 (Z.ltb_ge _ _)) by (unfold SESSION_ABSOLUTE_MAX_SECONDS; lia). done.
  - by rewrite Hdb3.
  - rewrite Hdb3. apply journalled_rows; [exact Hnd3|done].
  - rewrite Hdb3. exact (proj2 (journalled_rows key row _ Hnd3 eq_refl)).
  - rewrite fst_run, run_with_session. cbn [fst]. unfold verify_challenge.
    rewrite run_doc_bind, (run_consume_challenge _ _ None); [done|done|].
    rewrite Hr3. apply str_at_none. cbn [body au_challenge_hex]. rewrite Hkeys by keys_ne.
    unfold issued. rewrite keys_touch_ne, keys_put_ne, keys_put_ne by keys_ne.
    exact (keys_del_eq (_challenge_key c) (w_redis (absw w1))).
Qed.
End Properties.

(** ** Witnesses *)

Module AuthDemo.
#[local] Instance demo_sha : Sha256 := fun s => s.
#[local] Instance demo_nacl : Nacl :=
  {| nacl_verify := fun _ _ _ => true; nacl_sign := fun _ _ => "s"; nacl_public := fun k => k;
     nacl_to_curve25519 := fun k => Ok k |}.

Definition settings : Settings := mkSettings "relay" "" "" 86400 1000 30 0 604800 true "" 10 "".
Definition zeros (n : nat) : string := string_of_list_ascii (repeat "0"%char n).
Definition alice : string := zeros 64.
Definition alice_key : string := default "" (bytes_fromhex alice).
(** Alice deleted her account at 900, and logs in again at 1000. *)
Definition db : database := set_users [mkUser alice_key None FREE "relay" 100 None (Some 900%Z) None] empty_db.
Definition relay : world (rstore (Redis := Mem_Redis)) :=
  World 1000 (View ∅ ∅ []) db db ∅ [] (fun n => String (ascii_of_nat n) "random") [] no_network [].
Definition nobody : Request := mkRequest (Some "1.2.3.4") ∅ ∅ None.
Definition challenge : string := hex_of_bytes (w_tokens relay 0).
Definition answer : AuthRequest := mkAuthRequest alice challenge 1030 (zeros 128).
Definition challenged : world (rstore (Redis := Mem_Redis)) := snd (run (request_challenge alice) relay).

Lemma needs_signature_witness :
  exists key, answered answer 1030 (w_redis (absw (set_now 1030 challenged))) key.
Proof.
  destruct (login_needs_signature settings answer nobody (set_now 1030 challenged)) as [(key & Ha & _)|(e & v' & E & _)].
  - reflexivity.
  - vm_compute. by eexists.
  - by exists key.
  - exfalso. vm_compute in E. discriminate.
Defined.

Lemma login_works_witness :
  t_users (w_db (snd (run (with_session (verify_challenge settings answer nobody)) (set_now 1030 challenged)))) =
  [mkUser alice_key None FREE "relay" 100 (Some 1030%Z) None None].
Proof.
  refine (proj1 (proj2 (proj2 (proj2 (login_works settings alice alice_key (zeros 128) 1030 nobody relay 1030 _ _ _ _ _ _ _ _ _ _ _))))).
  - reflexivity.
  - reflexivity.
  - vm_compute. reflexivity.
  - vm_compute. reflexivity.
  - vm_compute. discriminate.
  - eexists. split; vm_compute; reflexivity.
  - vm_compute. discriminate.
  - split; vm_compute; [discriminate|reflexivity].
  - vm_compute. by eexists.
  - constructor.
  - apply not_elem_of_nil.
Defined.
End AuthDemo.
