(* ===== verification/InboxFacts.v ===== *)
(** * What an inbox socket shows and does (api/inbox.py) *)

From Stdlib Require Import Ascii String.
From stdpp Require Import prelude gmap strings list.
From S2P Require Import Prelude Json Codec RedisStore Models Effects Crypto Config Sessions SessionFacts RateLimit Deps Logic.
From S2P Require Import BlobStorage Queue QueueFacts FederationApiFacts AuthFacts Inbox.

#[local] Open Scope morok_scope.

(** ** A key whose value stays *)

Definition stays (k : string) (o : option entry) (v : rview) : Prop := rv_keys v !! k = o.
#[export] Instance stays_harmless k o : Harmless (stays k o) (elsewhere k).
Proof. intros c Hc now v Hv. unfold stays. by rewrite documented_frame. Qed.

Lemma run_get_any k (w : vworld) :
  exists r, run_doc (redis_ (rcall (GET k) as_bulk)) w = (r, pop_fault w) /\
    forall o, r = Ok o -> str_at k (w_redis w) = Some o.
Proof.
  destruct (run_doc_redis_any (rcall (GET k) as_bulk) w) as (r & v' & -> & Hv & Hr).
  rewrite rrun_rcall in Hv, Hr. cbn [documented fst snd] in *.
  assert (v' = w_redis w) as -> by tauto. exists r. split; [by destruct w|].
  intros o Ho. destruct (Hr o Ho) as [E _]. destruct (str_at k (w_redis w)) as [[s|]|]; cbn in E; congruence.
Qed.

Lemma fst_partition_session raw now : fst (partition_bar (session_value (fst (partition_bar raw)) now)) = fst (partition_bar raw).
Proof.
  unfold session_value. rewrite partition_value; [done|].
  induction raw as [|c raw IH]; [done|]. cbn [partition_bar]. destruct (Ascii.eqb c "|") eqn:E; [done|].
  destruct (partition_bar raw) as [a b]. cbn [fst] in *. unfold no_bar in *. cbn [string_forallb]. by rewrite E, IH.
Qed.

(** ** Who a socket is for *)

Section Owner.
  Context `{Sha256} (enabled : bool) (limit : Z).

(** The credentials speak for the key: a ticket issued for it, or the token of one of its sessions. *)
Definition vouched (token ticket : option string) (v : rview) (pk : string) (via_ticket : bool) : Prop :=
  if via_ticket then exists t, ticket = Some t /\ str_at (ws_ticket_key t) v = Some (Some pk)
  else exists t raw, token = Some t /\ fst (partition_bar raw) = pk /\
    (str_at (_session_key (_token_digest t)) v = Some (Some raw) \/ str_at (_session_key t) v = Some (Some raw)).

Lemma truthy_some o t : truthy o = Some t -> o = Some t.
Proof. unfold truthy. destruct o as [s|]; [|done]. by destruct (String.eqb s ""). Qed.

Lemma accept_pubkey tok now raw :
  returns (value_is (fun o => forall s, o = Some s -> pubkey_hex s = fst (partition_bar raw))) (accept_session tok now raw).
Proof.
  unfold accept_session. destruct (partition_bar raw) as [pk created]. destruct (over_ceiling now created).
  - do 2 (apply returns_then; intros ?). done.
  - do 3 (apply returns_then; intros ?). cbn. intros s [= <-]. done.
Qed.

(** A token verifies only as the key that the session store has for it. *)
Lemma run_verify_owner t (w w' : vworld) session :
  run_doc (verify_session_token t) w = (Ok (Some session), w') -> vouched (Some t) None (w_redis w) (pubkey_hex session) false.
Proof.
  unfold verify_session_token, vouched. destruct (String.eqb t ""); [done|].
  rewrite run_doc_bind, run_doc_now. cbv zeta. rewrite run_doc_bind.
  destruct (run_get_any (_session_key (_token_digest t)) w) as (r & -> & Hr).
  destruct r as [[raw|]|e]; [| |done]; specialize (Hr _ eq_refl).
  - intros Hrun. pose proof (returns_run _ _ (pop_fault w) (accept_pubkey t (w_now w) raw)) as Hpk.
    rewrite Hrun in Hpk. cbn in Hpk. exists t, raw. rewrite (Hpk session) by done. by auto.
  - rewrite run_doc_bind. destruct (run_get_any (_session_key t) (pop_fault w)) as (r & -> & Hr').
    destruct r as [[raw|]|e]; [|done|done]. specialize (Hr' _ eq_refl). cbv zeta.
    intros Hrun. exists t, raw. split_and!; [done| |by right].
    match type of Hrun with run_doc (bind ?p ?f) ?w1 = _ =>
      assert (Hret : returns (value_is (fun o => forall s, o = Some s -> pubkey_hex s = fst (partition_bar raw))) (bind p f)) end.
    { apply returns_then. intros ?. pose proof (accept_pubkey t (w_now w) (session_value (fst (partition_bar raw)) (w_now w))) as Ha.
      by rewrite fst_partition_session in Ha. }
    pose proof (returns_run _ _ (pop_fault (pop_fault w)) Hret) as Hpk. rewrite Hrun in Hpk. by rewrite (Hpk session).
Qed.

Lemma run_ticket_any t (w : vworld) :
  exists r v', run_doc (consume_ws_ticket t) w = (r, set_redis v' (pop_fault w)) /\
    (forall pk, r = Ok (Some pk) -> str_at (ws_ticket_key t) (w_redis w) = Some (Some pk) /\ rv_keys v' !! ws_ticket_key t = None) /\
    (r = Ok None -> v' = w_redis w).
Proof.
  destruct (run_doc_redis_any (rcall (GETDEL (ws_ticket_key t)) as_bulk) w) as (r & v' & E & _ & Hr).
  exists r, v'. split; [exact E|]. rewrite rrun_rcall in Hr. cbn [documented] in Hr.
  split; [intros pk ->|intros ->]; destruct (Hr _ eq_refl) as [E1 ->];
    destruct (str_at (ws_ticket_key t) (w_redis w)) as [[x|]|]; cbn in E1; try congruence; [|done].
  injection E1 as ->. split; [done|apply keys_del_eq].
Qed.

Lemma run_authenticate_cases token ticket (w : vworld) pk via w' :
  run_doc (authenticate token ticket) w = (Ok (Some (pk, via)), w') ->
  vouched token ticket (w_redis w) pk via /\
  (via = true -> forall t, ticket = Some t -> rv_keys (w_redis w') !! ws_ticket_key t = None).
Proof.
  unfold authenticate. rewrite run_doc_bind.
  assert (Htok : forall w0 : vworld, w_redis w0 = w_redis w ->
    run_doc (match truthy token with
             | Some t => let! session := verify_session_token t in ret ((fun s => (pubkey_hex s, false)) <$> session)
             | None => ret None end) w0 = (Ok (Some (pk, via)), w') ->
    vouched token ticket (w_redis w) pk via /\
    (via = true -> forall t, ticket = Some t -> rv_keys (w_redis w') !! ws_ticket_key t = None)).
  { intros w0 Hw0. destruct (truthy token) as [t|] eqn:Et; [|done]. apply truthy_some in Et as ->.
    rewrite run_doc_bind. destruct (run_doc (verify_session_token t) w0) as [[[session|]|e] w1] eqn:E; [|done|done].
    rewrite run_doc_ret. cbn. intros [= <- <- <-]. apply run_verify_owner in E. rewrite Hw0 in E. by split. }
  destruct (truthy ticket) as [t|] eqn:Et.
  - apply truthy_some in Et as ->. destruct (run_ticket_any t w) as (r & v' & -> & Hsome & Hnone).
    destruct r as [[pk'|]|e]; [| |done].
    + rewrite run_doc_ret. intros [= <- <- <-]. destruct (Hsome _ eq_refl) as [Hs Hg]. split.
      * by exists t.
      * by intros _ t' [= <-].
    + apply Htok. cbn. by apply Hnone.
  - rewrite run_doc_ret. by apply Htok.
Qed.

(** ** A socket touches its own keys only *)

#[local] Ltac unfold_socket :=
  unfold _session_key, SESSION_KEY_PREFIX, _user_sessions_key, USER_SESSIONS_KEY_PREFIX, ws_ticket_key, ws_active, _ws_connections_key in *.

(** A key that none of the socket's commands writes. *)
Definition foreign (pk k : string) : Prop :=
  (exists r, r <> pk /\ k = _inbox_key r) \/ (exists t, k = ws_ticket_key t).

(** Inboxes and metadata, which only the list of the inbox reads. *)
Definition mail_key (k : string) : Prop := (exists r, k = _inbox_key r) \/ (exists id, k = _envelope_meta_key id).

Section Handshake.
  Context (k : string) (o : option entry) (Hk : mail_key k).

#[local] Ltac own_keys :=
  unfold elsewhere; cbn [writes set_ex set_nx_ex]; rewrite ?not_elem_of_cons; repeat split;
  first [apply not_elem_of_nil|destruct Hk as [[? ->]|[? ->]]; unfold_socket; string_ne].

Lemma keep_authenticate token ticket : exchanges_keep (stays k o) (authenticate token ticket).
Proof.
  unfold authenticate, consume_ws_ticket, verify_session_token, accept_session, cmd_. cbv zeta. exchanges own_keys.
Qed.
Lemma keep_reserve pk id : exchanges_keep (stays k o) (reserve_ws_slot enabled pk id limit).
Proof. unfold reserve_ws_slot, cmd_. cbv zeta. exchanges own_keys. Qed.
Lemma keep_online pk : exchanges_keep (stays k o) (mark_online pk).
Proof. unfold mark_online, cmd_. exchanges own_keys. Qed.
End Handshake.

Section Foreign.
  Context (pk k : string) (o : option entry) (Hk : foreign pk k).

Lemma foreign_own c : Forall (fun k' => k' <> k) (writes c) -> elsewhere k c.
Proof. unfold elsewhere. intros Hw Hin. rewrite Forall_forall in Hw. by eapply Hw. Qed.

#[local] Ltac own :=
  apply foreign_own; cbn [writes set_ex set_nx_ex]; repeat constructor;
  destruct Hk as [(? & ? & ->)|(? & ->)]; unfold_socket; first [by apply inbox_key_ne|string_ne].

Lemma keep_release id : exchanges_keep (stays k o) (release_ws_slot pk id).
Proof. unfold release_ws_slot, cmd_. exchanges own. Qed.
Lemma keep_greet token via : exchanges_keep (stays k o) (greet enabled limit token pk via).
Proof.
  unfold greet, reserve_ws_slot, mark_online, list_inbox, subscribe, release_ws_slot, cmd_. cbv zeta. unfold get_cmd.
  exchanges own. apply exchanges_redis, rkeeps_ret.
Qed.

Lemma keep_ack_lua id : rkeeps (stays k o) (_ACK_PENDING_LUA (_pending_recipients_key id) (_envelope_meta_key id) pk).
Proof.
  unfold _ACK_PENDING_LUA, lua_call.
  repeat first [ apply rkeeps_rbind; [apply rkeeps_rcall, stays_harmless; own|intros ?] | case_match | apply rkeeps_ret ].
Qed.

Lemma keep_react c i : cn_pubkey_hex c = pk -> exchanges_keep (stays k o) (react c i).
Proof.
  intros Hc. unfold react. destruct i as [raw|raw|].
  - unfold on_message, on_event, announce, get_envelope_meta. cbv zeta. exchanges own.
  - unfold on_text, acknowledge_envelope. cbv zeta. rewrite Hc. exchanges own.
    apply exchanges_redis, keep_ack_lua.
  - unfold on_tick, has_any_live_session, is_session_alive, refresh_ws_slot, cmd_. cbv zeta. rewrite Hc. exchanges own.
Qed.

Lemma keep_serve c inputs : cn_pubkey_hex c = pk -> exchanges_keep (stays k o) (serve c inputs).
Proof.
  intros Hc. induction inputs as [|i inputs IH]; cbn [serve]; [done|].
  apply exchanges_bind; [by apply keep_react|]. intros []; try done.
  apply exchanges_bind; [done|]. by intros [].
Qed.

Lemma keep_close c : cn_pubkey_hex c = pk -> exchanges_keep (stays k o) (close_socket c).
Proof.
  intros Hc. unfold close_socket, subscribe, release_ws_slot, cmd_. rewrite Hc. exchanges own. apply exchanges_redis, rkeeps_ret.
Qed.
Lemma keep_session c inputs catchup : cn_pubkey_hex c = pk ->
  exchanges_keep (stays k o)
    (let! (frames, closed) := serve c inputs in
     let! _ := close_socket c in
     ret (catchup :: frames, closed)).
Proof.
  intros Hc. apply exchanges_bind; [by apply keep_serve|]. intros [frames closed].
  apply exchanges_bind; [by apply keep_close|]. by intros [].
Qed.
End Foreign.

Lemma greet_pubkey token pk via :
  returns (value_is (fun o => match o with Opened c _ => cn_pubkey_hex c = pk | Closed _ _ _ => True end)) (greet enabled limit token pk via).
Proof.
  unfold greet. apply returns_then. intros id. apply returns_then. intros ok. destruct (negb ok); [done|].
  do 2 (apply returns_then; intros ?). destruct a0 as [l|]; cbv zeta.
  - apply returns_then. intros sub. destruct (negb sub); [|done]. by apply returns_then.
  - by apply returns_then.
Qed.

(** ** What the first frame shows *)

(** The metadata of an envelope that is in the inbox of the key. *)
Definition in_mail (pk : string) (v : rview) (j : json) : Prop :=
  exists z id raw, zset_at (_inbox_key pk) v = Some z /\ is_Some (z !! id) /\
    str_at (_envelope_meta_key id) v = Some (Some raw) /\ loads raw = Some j.

Lemma run_gets_any ids (w : vworld) :
  exists r w', run_doc (pipeline_loop (map (fun id => get_cmd (_envelope_meta_key id)) ids)) w = (r, w') /\
    forall rs, r = Ok rs -> rs = map (fun id => fst (documented 0 (GET (_envelope_meta_key id)) (w_redis w))) ids.
Proof.
  revert w. induction ids as [|id ids IH]; intros w; cbn [map pipeline_loop]; [do 2 eexists; split; [done|by intros rs [= <-]]|].
  rewrite run_doc_bind. destruct (run_doc_redis_any (get_cmd (_envelope_meta_key id)) w) as (r & v' & -> & Hv & Hr).
  unfold get_cmd in Hv, Hr. rewrite pipe_cmd_run in Hv, Hr. cbn [fst snd documented] in Hv, Hr.
  assert (v' = w_redis w) as -> by tauto. destruct r as [a|e]; [|do 2 eexists; split; [done|by intros rs]].
  destruct (Hr a eq_refl) as [[= <-] _]. rewrite run_doc_bind.
  destruct (IH (set_redis (w_redis w) (pop_fault w))) as (r & w' & -> & Hrs).
  destruct r as [rs|e]; [|do 2 eexists; split; [done|by intros rs]].
  do 2 eexists. split; [done|]. intros rs' [= <-]. by rewrite (Hrs rs eq_refl).
Qed.

Lemma metas_in_mail pk z ids v :
  zset_at (_inbox_key pk) v = Some z -> Forall (fun id => is_Some (z !! id)) ids ->
  Forall (in_mail pk v) (omap (fun r => load_meta (bulk_of r))
    (map (fun id => fst (documented 0 (GET (_envelope_meta_key id)) v)) ids)).
Proof.
  intros Hz Hids. induction Hids as [|id ids Hid Hids IH]; [constructor|]. cbn [map omap list_omap].
  destruct (load_meta _) as [j|] eqn:E; [|exact IH]. constructor; [|exact IH].
  cbn [documented fst] in E. destruct (str_at (_envelope_meta_key id) v) as [[raw|]|] eqn:Es; cbn in E; try done.
  by exists z, id, raw.
Qed.

Lemma run_list_any pk n (w w' : vworld) l :
  run_doc (list_inbox pk n) w = (Ok l, w') -> Forall (in_mail pk (w_redis w)) l.
Proof.
  unfold list_inbox. rewrite run_doc_bind, run_doc_now, run_doc_bind.
  destruct (run_doc_redis_any (lua_call (ZREMRANGEBYSCORE (_inbox_key pk) 0 (w_now w))) w) as (r & v1 & -> & _ & Hr).
  destruct r as [a|e]; [|done]. destruct (Hr a eq_refl) as [Ha ->]. clear Hr. unfold lua_call in *. rewrite rrun_rcall in *. cbn [documented] in *.
  destruct (zset_at (_inbox_key pk) (w_redis w)) as [z|] eqn:Hz; [|done]. cbn [fst snd]. set (z1 := filter _ z). set (v1 := put_zset (_inbox_key pk) z1 (w_redis w)).
  assert (Hz1 : zset_at (_inbox_key pk) v1 = Some z1) by apply zset_at_put_zset.
  rewrite run_doc_bind. set (w1 := set_redis v1 _).
  destruct (run_doc_redis_any (rcall (ZRANGE (_inbox_key pk) 0 (n - 1)) as_list) w1) as (r & v2 & -> & Hv & Hr).
  rewrite rrun_rcall in Hv, Hr. cbn [documented] in Hv, Hr. change (w_redis w1) with v1 in Hv, Hr. rewrite Hz1 in Hv, Hr.
  cbn [fst snd as_list] in Hv, Hr. assert (v2 = v1) as -> by tauto.
  destruct r as [ids|e]; [|done]. destruct (Hr ids eq_refl) as [[= Hids] _].
  assert (Hin : Forall (fun id => is_Some (z !! id)) ids).
  { rewrite <- Hids. apply Forall_forall. intros id (p & -> & Hp)%list_elem_of_fmap. unfold slice in Hp.
    apply elem_of_take in Hp as (i & Hp & _). rewrite lookup_drop in Hp. apply list_elem_of_lookup_2 in Hp.
    destruct p as [id s]. apply by_score_elem in Hp.
    apply map_lookup_filter_Some in Hp as [Hp _]. by eexists. }
  destruct ids as [|id ids]; [by intros [= <- _]|]. cbn zeta. revert Hin. generalize (id :: ids). clear Hids. intros all Hin.
  unfold pipeline. rewrite run_bind_assoc, run_doc_bind.
  destruct (run_gets_any all (set_redis v1 (pop_fault w1))) as (r & w2 & -> & Hrs).
  destruct r as [rs|e]; [|done]. specialize (Hrs rs eq_refl). cbn [w_redis set_redis] in Hrs.
  destruct (existsb is_error rs); [done|]. cbn. intros [= <- _].
  assert (Hsame : rs = map (fun id => fst (documented 0 (GET (_envelope_meta_key id)) (w_redis w))) all).
  { rewrite Hrs. apply map_ext. intros i. cbn [documented fst]. unfold v1. by rewrite str_at_put_zset_ne by string_ne. }
  rewrite Hsame. by apply (metas_in_mail pk z).
Qed.

Lemma in_mail_ext pk v v' j : (forall k, mail_key k -> rv_keys v' !! k = rv_keys v !! k) -> in_mail pk v' j -> in_mail pk v j.
Proof.
  intros Hv (z & id & raw & Hz & Hid & Hs & Hj). exists z, id, raw. split_and!; try done.
  - rewrite <- Hz. apply zset_at_ext. symmetry. apply Hv. left. by exists pk.
  - rewrite <- Hs. apply str_at_ext. symmetry. apply Hv. right. by exists id.
Qed.

(** The frames of a greeting begin with the list of the inbox. *)
Definition first_of (P : json -> Prop) (frames : list json) : Prop :=
  match frames with [] => True | f :: _ => exists l, f = catchup_frame l /\ Forall P l end.
Lemma run_greet_first token pk via (w w' : vworld) o :
  run_doc (greet enabled limit token pk via) w = (Ok o, w') ->
  first_of (in_mail pk (w_redis w)) (match o with Closed frames _ _ => frames | Opened _ f => [f] end).
Proof.
  unfold greet. rewrite run_doc_bind, run_doc_token, run_doc_bind. set (w0 := set_tokens _ w). set (id := w_tokens w 0).
  pose proof (fun k Hk => exchanges_run _ _ w0 (keep_reserve k _ Hk pk id) eq_refl) as H1.
  destruct (run_doc (reserve_ws_slot enabled pk id limit) w0) as [[ok|e] w1]; [|done]. cbn [snd] in H1.
  destruct (negb ok); [rewrite run_doc_ret; by intros [= <- <-]|]. rewrite run_doc_bind.
  pose proof (fun k Hk => exchanges_run _ _ w1 (keep_online k _ Hk pk) eq_refl) as H2.
  destruct (run_doc (mark_online pk) w1) as [[[]|e] w2]; [|done]. cbn [snd] in H2.
  assert (H12 : forall k, mail_key k -> rv_keys (w_redis w2) !! k = rv_keys (w_redis w) !! k).
  { intros k Hk. rewrite (H2 k Hk). exact (H1 k Hk). }
  rewrite run_doc_bind, run_doc_try, run_doc_bind.
  destruct (run_doc (list_inbox pk 200) w2) as [[l|e] w3] eqn:El; rewrite !run_doc_ret.
  - apply run_list_any in El. assert (Hl : Forall (in_mail pk (w_redis w)) l).
    { eapply Forall_impl; [exact El|]. intros j. by apply in_mail_ext. }
    cbv zeta. rewrite run_doc_bind. destruct (run_doc (try_except _ _) w3) as [[sub|e] w4]; [|done].
    destruct (negb sub); [|rewrite run_doc_ret; intros [= <- <-]; by exists l].
    rewrite run_doc_bind. destruct (run_doc (release_ws_slot pk id) w4) as [[[]|e] w5]; [|done].
    rewrite run_doc_ret. intros [= <- <-]. by exists l.
  - rewrite run_doc_bind. destruct (run_doc (release_ws_slot pk id) w3) as [[[]|e'] w5]; [|done].
    rewrite run_doc_ret. by intros [= <- <-].
Qed.

(** What follows the authentication leaves foreign keys as they are. *)
Lemma run_after_auth token pk via inputs k o (w : vworld) :
  foreign pk k -> stays k o (w_redis w) ->
  stays k o (w_redis (snd (run_doc
    (let! opened := greet enabled limit token pk via in
     match opened with
     | Closed frames code reason => ret (frames, Some (code, reason))
     | Opened c catchup =>
         let! (frames, closed) := serve c inputs in
         let! _ := close_socket c in
         ret (catchup :: frames, closed)
     end) w))).
Proof.
  intros Hk Hs. rewrite run_doc_bind.
  pose proof (exchanges_run _ _ w (keep_greet pk k o Hk token via) Hs) as Hs1.
  pose proof (returns_run _ _ w (greet_pubkey token pk via)) as Hpk.
  destruct (run_doc (greet enabled limit token pk via) w) as [[[frames code reason|c catchup]|e] w1]; try exact Hs1.
  cbn in Hpk. apply (exchanges_run (stays k o)); [|exact Hs1]. by apply (keep_session pk k o Hk c).
Qed.
End Owner.

(** ** Events and frames *)

Ltac wf_text :=
  repeat first [constructor | apply (bool_decide_unpack _); vm_compute; exact I].

Section Events.
  Context `{Sha256}.

Lemma run_react_event c kind fields (w : vworld) :
  json_wf (JObj (("kind", kind) :: fields)) ->
  run_doc (react c (Published (dumps (JObj (("kind", kind) :: fields))))) w =
  run_doc (try_except (try_except (on_event c (("kind", kind) :: fields) kind) (fun _ => ret Stop)) (fun _ => ret Stop)) w.
Proof.
  intros Hwf. unfold react, on_message.
  assert (E : String.eqb (substring 0 1 (dumps (JObj (("kind", kind) :: fields)))) "{" = true).
  { unfold dumps. cbn [print]. change ("{" +:+ ?s) with (String "{" s). cbn [substring].
    match goal with |- context [substring 0 0 ?s] => by destruct s end. }
  rewrite E, loads_dumps by done. cbn [dict_get]. by rewrite String.eqb_refl.
Qed.

(** A new envelope is shown with its metadata. *)
Lemma run_react_new c id meta (w : vworld) :
  calm w -> id <> "" -> json_wf (JObj meta) ->
  str_at (_envelope_meta_key id) (w_redis w) = Some (Some (dumps (JObj meta))) ->
  run_doc (react c (Published (_new_event id))) w = (Ok (Send (frame "new" [("envelope", JObj meta)])), w).
Proof.
  intros Hc Hid Hwf Hs. unfold _new_event. rewrite run_react_event by wf_text.
  assert (E : on_event c [("kind", JStr "new"); ("envelope_id", JStr id)] (JStr "new") = announce (JStr id)).
  { unfold on_event. cbn. by destruct (String.eqb_spec id ""). }
  rewrite E, !run_doc_try. unfold announce, get_envelope_meta.
  change (py_str (JStr id)) with id. rewrite !run_doc_bind, (run_get _ _ _ Hc Hs), !run_doc_ret. unfold load_meta. by rewrite loads_dumps.
Qed.

(** An acknowledgement from the client is the queue's. *)
Definition ack_text (id : string) : string := dumps (JObj [("type", JStr "ack"); ("envelope_id", JStr id)]).
Lemma run_react_ack c id (w w' : vworld) b :
  id <> "" -> run_doc (acknowledge_envelope (cn_pubkey_hex c) id) w = (Ok b, w') ->
  run_doc (react c (Received (ack_text id))) w = (Ok Quiet, w').
Proof.
  intros Hid Ha.
  assert (E : on_text c (ack_text id) = (let! _ := acknowledge_envelope (cn_pubkey_hex c) id in ret Quiet)).
  { unfold on_text, ack_text. rewrite loads_dumps by wf_text. cbn. by destruct (String.eqb_spec id ""). }
  unfold react. by rewrite E, run_doc_try, run_doc_bind, Ha, run_doc_ret.
Qed.

(** The end of sessions: of all of the key's, or of one. *)
Definition told_to_close (c : Conn) (tok : option string) : bool :=
  match truthy tok with Some t => bool_decide (_my_token_hash c = Some (sha256_hex t)) | None => true end.
Lemma run_react_revoked c tok (w : vworld) :
  run_doc (react c (Published (session_revoked_event tok))) w =
  (Ok (if told_to_close c tok then CloseWith 4001 "session_revoked" else Quiet), w).
Proof.
  unfold session_revoked_event, told_to_close, truthy.
  rewrite run_react_event by (destruct tok as [t|]; [destruct (String.eqb t "")|]; wf_text).
  rewrite !run_doc_try. unfold on_event. cbv zeta.
  destruct tok as [t|]; [destruct (String.eqb t "")|]; cbn; try done.
  destruct (_my_token_hash c) as [h|]; cbn [text_is].
  - destruct (String.eqb_spec (sha256_hex t) h) as [->|Hne].
    + by rewrite bool_decide_true.
    + rewrite bool_decide_false by congruence. done.
  - by rewrite bool_decide_false.
Qed.

(** A tick of a socket whose sessions are gone. *)
Lemma run_react_tick_gone c (w : vworld) :
  calm w ->
  (if cn_via_ticket c then set_at (_user_sessions_key (cn_pubkey_hex c)) (w_redis w) = Some ∅
   else forall t, cn_token c = Some t -> str_at (_session_key (_token_digest t)) (w_redis w) = Some None /\
                                     str_at (_session_key t) (w_redis w) = Some None) ->
  run_doc (react c Tick) w = (Ok (CloseWith 4001 "session_expired"), w).
Proof.
  intros Hc Hs. unfold react, on_tick. rewrite run_doc_try, run_doc_bind. destruct (cn_via_ticket c).
  - unfold has_any_live_session. rewrite run_doc_bind, run_doc_redis, rrun_rcall by done. cbn [documented]. rewrite Hs.
    cbn [fst snd as_int res_of]. rewrite run_doc_ret. cbn. by destruct w.
  - destruct (cn_token c) as [t|]; [|done]. change (default "" (Some t)) with t. destruct (Hs t eq_refl) as [H1 H2].
    destruct (decide (t = "")) as [->|Ht]; [done|]. by rewrite (run_alive t w None Ht Hc H1).
Qed.
End Events.

Lemma absw_tasks `{R : Redis} (w : world rstore) : w_tasks (absw w) = w_tasks w.
Proof. done. Qed.

Section Properties.
  Context `{R : Redis} `{Sha256} (enabled : bool) (limit : Z).

(** C8: a message reaches the socket and is acknowledged through it.  When the queue accepts an envelope
    for a key, one message is published, on that key's channel; given it while the envelope lives, a
    socket of the key shows the client the metadata of the envelope and changes nothing; and when the
    client acknowledges, the envelope leaves the inbox, is known as delivered, and, as the key was its
    only recipient, its metadata go and the deletion of its file is started. *)
Theorem socket_delivers (a : enqueue_args) (c : Conn) (w : world rstore) meta z idx t :
  let v := w_redis (absw w) in
  let id := ea_envelope_id a in
  let r := ea_recipient a in
  let exp := expiry (ea_timestamp a) (ea_ttl a) (w_now w) (ea_hard_ceiling a) in
  calm w -> (w_now w <= t < exp)%Z -> build_meta a exp = Ok meta ->
  Forall (fun kv => json_wf kv.2) (default [] (ea_extra_meta a)) -> id <> "" ->
  rv_keys v !! _envelope_meta_key id = None ->
  zset_at (_inbox_key r) v = Some z -> (Z.of_nat (size (live (w_now w) z)) < MAX_INBOX_QUEUE_DEPTH)%Z ->
  set_at (_pending_recipients_key id) v = Some ∅ ->
  zset_at _BLOB_EXPIRY_INDEX_KEY v = Some idx ->
  cn_pubkey_hex c = r ->
  let x := run (enqueue_envelope a) w in
  exists event, rv_pub (w_redis (absw (snd x))) = rv_pub v ++ [(_inbox_channel r, event)] /\
  let w1 := set_now t (snd x) in
  observe (react c (Published event)) w1 = (Ok (Send (frame "new" [("envelope", JObj meta)])), absw w1) /\
  let y := run (react c (Received (ack_text id))) w1 in
  fst y = Ok Quiet /\
  not_in_inbox id r (w_redis (absw (snd y))) /\
  rv_keys (w_redis (absw (snd y))) !! _envelope_meta_key id = None /\
  is_Some (rv_keys (w_redis (absw (snd y))) !! _delivery_tombstone_key id r) /\
  w_tasks (snd y) = w_tasks w ++ [TDeleteBlob id].
Proof.
  intros v id r exp Hc Ht Hmeta Hextra Hid Hk Hz Hsz Hp Hidx Hcr x.
  destruct (run_enqueue a (absw w) meta z ∅ idx) as (v1 & E & Hpost); [done|cbn; lia|done..|].
  assert (A1 : absw (snd x) = set_redis v1 (absw w)) by (unfold x; by rewrite snd_run_absw, E).
  pose proof Hpost as [Hm Hi Hpend _ _ Hpub _]. fold id r exp in Hm, Hi, Hpend, Hpub.
  change (w_now (absw w)) with (w_now w) in *.
  exists (_new_event id). split; [by rewrite A1|]. cbv zeta. set (w1 := set_now t (snd x)).
  assert (Hn : w_now (snd x) = w_now w) by exact (f_equal w_now A1).
  assert (A2 : absw w1 = later t (set_redis v1 (absw w))) by (unfold w1; rewrite absw_later, A1 by lia; done).
  destruct (build_meta_ok a exp meta Hmeta Hextra) as (Hwf & _ & _).
  assert (Hlive : forall k x d, rv_keys v1 !! k = Some (Entry x (Some d)) -> (t < d)%Z -> rv_keys (expire t v1) !! k = Some (Entry x (Some d))).
  { intros k y d Hy Hd. rewrite keys_expire, Hy, decide_True; done. }
  apply Hlive in Hm; [|unfold exp in *; lia]. apply Hlive in Hpend; [|unfold exp in *; lia].
  apply Hlive in Hi; [|pose proof (inbox_ttl_pos (exp - w_now w)); unfold inbox_key_ttl in *; unfold INBOX_KEY_TTL_SLACK_SECONDS in *; unfold exp in *; lia].
  split.
  { rewrite observe_doc, A2. apply run_react_new; [exact Hc|done|done|]. unfold str_at. cbn [later w_redis set_redis]. by rewrite Hm. }
  set (w2 := set_tasks (w_tasks (absw w1) ++ [TDeleteBlob id]) (set_redis (acked r id t (<[id := exp]> (live (w_now w) z)) {[r]} (w_redis (absw w1))) (absw w1))).
  assert (Hack : run_doc (acknowledge_envelope (cn_pubkey_hex c) id) (absw w1) = (Ok true, w2)).
  { rewrite Hcr, (run_ack r id (absw w1) (<[id := exp]> (live (w_now w) z)) exp {[r]}).
    - unfold last_ack. rewrite A2. cbn [later w_redis set_redis]. rewrite Hpend, bool_decide_true by set_solver.
      unfold w2. by rewrite A2.
    - by rewrite A2.
    - rewrite A2. unfold zset_at. cbn [later w_redis set_redis]. by rewrite Hi.
    - apply lookup_insert_eq.
    - rewrite A2. unfold set_at. cbn [later w_redis set_redis]. rewrite Hpend. by rewrite (left_id_L ∅ (∪)). }
  assert (Hpend' : rv_keys (w_redis (absw w1)) !! _pending_recipients_key id = Some (Entry (VSet {[r]}) (Some exp))).
  { rewrite A2. cbn [later w_redis set_redis]. by rewrite Hpend, (left_id_L ∅ (∪)). }
  pose proof (run_react_ack c id (absw w1) w2 true Hid Hack) as Er.
  assert (A3 : absw (snd (run (react c (Received (ack_text id))) w1)) = w2) by (by rewrite snd_run_absw, Er).
  rewrite fst_run, Er, A3. unfold w2. cbn [w_redis set_tasks set_redis].
  unfold acked. rewrite Hpend', decide_True by set_solver. unfold taken.
  split_and!; [done| | | |].
  - eexists. split; [at_simpl; reflexivity|apply lookup_delete_eq].
  - by rewrite keys_del_eq.
  - at_simpl. by eexists.
  - rewrite <- absw_tasks, A3. unfold w2. cbn [w_tasks set_tasks]. by rewrite A2.
Qed.

(** The socket was opened for a session of its key: by a ticket, or by a token that is stored as one of
    the key's sessions and under no other name. *)
Definition backed (c : Conn) (v : rview) : Prop :=
  cn_via_ticket c = true \/
  exists tok created d, cn_token c = Some tok /\ tok <> "" /\
    rv_keys v !! _session_key (_token_digest tok) = Some (Entry (VStr (session_value (cn_pubkey_hex c) created)) d) /\
    rv_keys v !! _session_key tok = None.

End Properties.

(** ** Witnesses *)

Module InboxDemo.
#[local] Instance demo_sha : Sha256 := fun s => "#" +:+ s.

Definition start : world (rstore (Redis := Mem_Redis)) :=
  World 1000 (View ∅ ∅ []) empty_db empty_db ∅ [] (fun _ => "0123456789abcdef") [] no_network [].
Definition ticketed : world (rstore (Redis := Mem_Redis)) := snd (run (issue_ws_ticket "alice") start).
Definition logged_in : world (rstore (Redis := Mem_Redis)) := snd (run (create_session "alice") start).
Definition conn : Conn := mkConn "alice" "c1" (Some "0123456789abcdef") false.
Definition mail : enqueue_args :=
  EnqueueArgs "abcd" "bob" "alice" 1000 600 "sig" 86400 None false None None None None None.
Definition mail_meta : dict := match build_meta mail 1600 with Ok d => d | Raise _ => [] end.


Lemma socket_delivers_witness :
  exists event, observe (react conn (Published event)) (set_now 1010 (snd (run (enqueue_envelope mail) start))) =
    (Ok (Send (frame "new" [("envelope", JObj mail_meta)])), absw (set_now 1010 (snd (run (enqueue_envelope mail) start)))).
Proof.
  destruct (socket_delivers mail conn start mail_meta ∅ ∅ 1010) as (event & _ & H & _).
  - reflexivity.
  - split; vm_compute; [discriminate|reflexivity].
  - vm_compute. reflexivity.
  - constructor.
  - discriminate.
  - vm_compute. reflexivity.
  - vm_compute. reflexivity.
  - vm_compute. reflexivity.
  - vm_compute. reflexivity.
  - vm_compute. reflexivity.
  - reflexivity.
  - exists event. exact H.
Defined.

End InboxDemo.
