(* ===== verification/AccountFacts.v ===== *)
(** * What deleting an account leaves (api/account.py) *)

From Stdlib Require Import Ascii String.
From stdpp Require Import prelude gmap strings list.
From S2P Require Import Prelude Json Codec RedisStore Models Effects Crypto Config Sessions SessionFacts RateLimit Deps Logic.
From S2P Require Import BlobStorage Queue QueueFacts Messages Users FederationApiFacts Auth AuthFacts Account DmsFacts.

#[local] Open Scope morok_scope.

(** ** Revoking the sessions, whatever fails *)

(** Every session of the key is in the key's index; none is left. *)
Record listed (pk : string) (v : rview) : Prop := {
  listed_index : exists x, set_at (_user_sessions_key pk) v = Some x;
  listed_all d created dl x : rv_keys v !! _session_key d = Some (Entry (VStr (session_value pk created)) dl) ->
    set_at (_user_sessions_key pk) v = Some x -> d ∈ x
}.
Definition logged_out (pk : string) (v : rview) : Prop :=
  forall d created dl, rv_keys v !! _session_key d <> Some (Entry (VStr (session_value pk created)) dl).

Definition off_sessions (c : command) : Prop :=
  (forall d, _session_key d ∉ writes c) /\ (forall pk, _user_sessions_key pk ∉ writes c).

Section Revoke.
  Context `{Sha256} (pk : string).

Lemma listed_same v v' :
  (forall d, rv_keys v' !! _session_key d = rv_keys v !! _session_key d) ->
  rv_keys v' !! _user_sessions_key pk = rv_keys v !! _user_sessions_key pk -> listed pk v -> listed pk v'.
Proof.
  intros Hd Hi [[x Hx] Hall]. split.
  - exists x. by rewrite <- Hx; apply set_at_ext.
  - intros d created dl y. rewrite Hd, (set_at_ext _ v' v) by done. apply Hall.
Qed.
#[export] Instance listed_harmless : Harmless (listed pk) off_sessions.
Proof.
  intros c [Hs Hi] now v Hv. apply (listed_same v); [|by apply documented_frame|done]. intros d. by apply documented_frame.
Qed.

Lemma logged_out_listed v x : logged_out pk v -> set_at (_user_sessions_key pk) v = Some x -> listed pk v.
Proof. intros Hl Hx. split; [by exists x|]. intros d created dl y Hd. by destruct (Hl d created dl). Qed.

Lemma run_note_any o (w : vworld) :
  exists v' fs, run_doc (_publish_session_revoked pk o) w = (Ok tt, set_redis v' (set_faults fs w)) /\ rv_keys v' = rv_keys (w_redis w).
Proof.
  unfold _publish_session_revoked, cmd_. rewrite run_doc_try.
  destruct (run_doc_redis_any (rcall (PUBLISH ("morok:inbox:channel:" +:+ pk) (session_revoked_event o)) as_any) w) as (r & v' & -> & Hv & _).
  rewrite rrun_rcall in Hv. cbn [documented snd] in Hv.
  exists v', (tail (w_faults w)). split; [by destruct r as [[]|e]|]. by destruct Hv as [->| ->].
Qed.

(** Forgetting sessions that are in the index. *)
Lemma documented_del_sessions now (x : gset string) v :
  let v1 := snd (documented now (DEL (map _session_key (elements x))) v) in
  (forall d, rv_keys v1 !! _session_key d = if decide (d ∈ x) then None else rv_keys v !! _session_key d) /\
  set_at (_user_sessions_key pk) v1 = set_at (_user_sessions_key pk) v.
Proof.
  destruct (documented_del now (map _session_key (elements x)) v) as (n & _ & Hk). split.
  - intros d. rewrite Hk. apply decide_ext. rewrite list_elem_of_fmap. split.
    + intros (d' & Hd & Hin). apply session_key_inj in Hd as ->. set_solver.
    + intros Hin. exists d. set_solver.
  - apply set_at_ext. rewrite Hk, decide_False; [done|]. intros (d & Hd & _)%list_elem_of_fmap. by apply index_session_ne in Hd.
Qed.

(** One attempt keeps the index complete; if it returns, no session is left. *)
Lemma run_revoke_any (w : vworld) :
  listed pk (w_redis w) ->
  let x := run_doc (revoke_all_sessions pk) w in
  listed pk (w_redis (snd x)) /\ forall n, fst x = Ok n -> logged_out pk (w_redis (snd x)).
Proof.
  intros Hl. unfold revoke_all_sessions. cbv zeta. rewrite run_doc_bind.
  destruct (run_doc_redis_any (rcall (SMEMBERS (_user_sessions_key pk)) as_members) w) as (r & v0 & -> & Hv & Hr).
  rewrite rrun_rcall in Hv, Hr. cbn [documented fst snd] in Hv, Hr. assert (v0 = w_redis w) as -> by tauto.
  destruct r as [x|e]; [|split; [exact Hl|done]]. destruct (Hr x eq_refl) as [Hx _]. clear Hv Hr.
  pose proof Hl as [[x' Hx'] Hall]. rewrite Hx' in Hx. cbn in Hx. injection Hx as ->.
  assert (Hdone : forall (w1 : vworld) (m : Z), logged_out pk (w_redis w1) -> (exists y, set_at (_user_sessions_key pk) (w_redis w1) = Some y) ->
    let x := run_doc (let! _ := _publish_session_revoked pk None in ret m) w1 in
    listed pk (w_redis (snd x)) /\ forall n, fst x = Ok n -> logged_out pk (w_redis (snd x))).
  { intros w1 m Hout [y Hy]. rewrite run_doc_bind. destruct (run_note_any None w1) as (v' & fs & -> & Hkeys).
    rewrite run_doc_ret. cbn [fst snd w_redis set_redis set_faults].
    assert (Hout' : logged_out pk v') by (intros d created dl; rewrite Hkeys; apply Hout).
    split; [|by intros _ _]. apply (logged_out_listed _ y Hout'). rewrite <- Hy. apply set_at_ext. by rewrite Hkeys. }
  destruct (decide (x = ∅)) as [->|Hne].
  { apply Hdone; [|by exists ∅]. intros d created dl Hd. pose proof (Hall d created dl ∅ Hd Hx'). set_solver. }
  unfold pipeline. rewrite run_bind_assoc, run_doc_bind. cbn [pipeline_loop]. rewrite run_doc_bind.
  destruct (documented_del_sessions (w_now w) x (w_redis w)) as [Hs Hi].
  set (v1 := snd (documented (w_now w) (DEL (map _session_key (elements x))) (w_redis w))) in *.
  assert (Hout1 : logged_out pk v1).
  { intros d created dl. rewrite Hs. case_decide as Hd; [done|]. intros Hk. destruct Hd. by apply (Hall d created dl x). }
  assert (Hl1 : listed pk v1) by (apply (logged_out_listed _ x Hout1); by rewrite Hi).
  set (w1 := set_redis (w_redis w) (pop_fault w)).
  destruct (run_doc_redis_any (pipe_cmd (DEL (map _session_key (elements x)))) w1) as (r & v' & -> & Hv & Hr).
  rewrite pipe_cmd_run in Hv, Hr. change (w_now w1) with (w_now w) in *. change (w_redis w1) with (w_redis w) in *.
  fold v1 in Hv, Hr. cbn [fst snd] in Hv, Hr.
  destruct r as [a|e]; [|split; [by destruct Hv as [->| ->]|done]]. destruct (Hr a eq_refl) as [_ ->]. clear Hv Hr.
  rewrite run_doc_bind, run_doc_bind. set (w2 := set_redis v1 (pop_fault w1)).
  destruct (run_doc_redis_any (pipe_cmd (DEL [_user_sessions_key pk])) w2) as (r & v' & -> & Hv & _).
  rewrite pipe_cmd_run in Hv. destruct (documented_del1 (w_now w2) (_user_sessions_key pk) v1) as [n Hn].
  change (w_redis w2) with v1 in Hv. rewrite Hn in Hv. cbn [snd] in Hv.
  assert (Hout2 : logged_out pk v').
  { destruct Hv as [->| ->]; [done|]. intros d created dl. rewrite keys_del_ne by apply index_session_ne. apply Hout1. }
  assert (Hset2 : exists y, set_at (_user_sessions_key pk) v' = Some y).
  { destruct Hv as [->| ->]; [rewrite Hi; by exists x|]. exists ∅. by rewrite set_at_del. }
  assert (Hl2 : listed pk v') by (destruct Hset2 as [y Hy]; by apply (logged_out_listed _ y)).
  destruct r as [b|e]; [|split; [exact Hl2|done]]. rewrite run_doc_bind, !run_doc_ret, run_doc_bind.
  destruct (existsb is_error [a; b]); [split; [exact Hl2|done]|]. by apply Hdone.
Qed.

Lemma run_attempts n (w : vworld) :
  listed pk (w_redis w) ->
  let x := run_doc (revoke_attempts n pk) w in
  exists b, fst x = Ok b /\ (b = true -> logged_out pk (w_redis (snd x))).
Proof.
  revert w. induction n as [|n IH]; intros w Hl; cbn [revoke_attempts]; [rewrite run_doc_ret; by exists false|].
  rewrite run_doc_try, run_doc_bind. destruct (run_revoke_any w Hl) as [Hl1 Hout].
  destruct (run_doc (revoke_all_sessions pk) w) as [[k|e] w1].
  - rewrite run_doc_ret. exists true. split; [done|]. intros _. by apply (Hout k).
  - by apply IH.
Qed.
End Revoke.

(** ** The proof of an irreversible action *)

Section Deletion.
  Context `{Sha256} `{Nacl} (s : Settings).

(** The proof is fresh and signed with the key, for this relay, action and account. *)
Definition proved (now : Z) (action pk key : string) (proof : option action_proof) : Prop :=
  exists p sig sb, proof = Some p /\ action_signature_hex p = Some sig /\ bytes_fromhex sig = Some sb /\
    let ts := default 0%Z (action_timestamp p) in
    (Z.abs (now - ts) <= ACTION_SIG_WINDOW_SECONDS)%Z /\
    ed25519_verify (canonical_json (action_payload action (relay_name s) ts (default "" (action_nonce p)) pk)) sb key = true.

Lemma run_enforce action pk key proof (w w' : vworld) :
  bytes_fromhex pk = Some key ->
  run_doc (enforce_sensitive_action (action_proof_required_set s) (relay_name s) action pk pk proof) w = (Ok tt, w') ->
  action ∈ action_proof_required_set s -> proved (w_now w) action pk key proof.
Proof.
  intros Hkey. unfold enforce_sensitive_action. destruct (proof ≫= action_signature_hex) as [sig|] eqn:Ep.
  - destruct proof as [p|]; [|done]. cbn in Ep. cbn [mbind option_bind]. rewrite run_doc_bind. unfold verify_sensitive_action.
    rewrite run_doc_bind, run_doc_now. destruct (Z.ltb_spec ACTION_SIG_WINDOW_SECONDS (Z.abs (w_now w - default 0%Z (action_timestamp p)))); [done|].
    cbv zeta. rewrite Hkey. destruct (bytes_fromhex sig) as [sb|] eqn:Es; [|done].
    destruct (ed25519_verify _ sb key) eqn:Ev; cbn [negb]; [|done]. intros _ _. by exists p, sig, sb.
  - case_bool_decide; [done|]. intros _ Hin. done.
Qed.

(** What the deletion of the account of [key] makes of the tables: its row has no name and is marked, the
    name is in the history, and nothing of the key is left in the four tables; everything else is as it
    was, the delivery tokens of the key too. *)
Record gone (now : Z) (key : string) (db db' : database) : Prop := {
  gone_user u : u ∈ t_users db' -> u_pubkey u = key -> u_username u = None /\ is_Some (u_deleted_at u);
  gone_users : List.filter (fun u => negb (Users.has_key key u)) (t_users db') = List.filter (fun u => negb (Users.has_key key u)) (t_users db);
  gone_history : t_history db' = t_history db ++
    match select_one (Users.has_key key) (t_users db) with
    | Some u => match u_username u with Some name => [released key u name now] | None => [] end
    | None => []
    end;
  gone_logins : t_logins db' = List.filter (fun l => negb (String.eqb (ll_pubkey l) key)) (t_logins db);
  gone_dms : t_dms db' = List.filter (fun d => negb (String.eqb (dms_creator_pubkey d) key)) (t_dms db);
  gone_backups : t_backups db' = List.filter (fun b => negb (String.eqb (eb_pubkey b) key)) (t_backups db);
  gone_push : t_push db' = List.filter (fun p => negb (String.eqb (ps_pubkey p) key)) (t_push db);
  gone_others : t_groups db' = t_groups db /\ t_members db' = t_members db /\ t_peers db' = t_peers db /\
    t_fedqueue db' = t_fedqueue db /\ t_inbox_tokens db' = t_inbox_tokens db /\ t_outbound db' = t_outbound db
}.

Definition erased_db (now : Z) (key : string) (db : database) : database :=
  match select_one (Users.has_key key) (t_users db) with
  | None => db
  | Some u =>
      set_users (snd (update_where (Users.has_key key) (fun _ => erased now u) (t_users db)))
        (match u_username u with
         | Some name => set_history (t_history db ++ [released key u name now]) db
         | None => db
         end)
  end.

Lemma run_erase_user key now (w : vworld) :
  run_doc (erase_user key now) w = (Ok tt, set_databases (w_db w) (erased_db now key (w_work w)) w).
Proof.
  unfold erase_user, select_user, erased_db. rewrite run_doc_bind, run_doc_sql. cbn [fst snd].
  destruct (select_one _ _) as [u|] eqn:Eu; [|rewrite run_doc_ret; by destruct w].
  apply find_some in Eu as [_ Hu%String.eqb_eq].
  assert (Hclash : forall l, existsb (name_clash (erased now u)) l = false).
  { induction l as [|u' l IH]; [done|]. cbn [existsb]. rewrite IH. unfold name_clash. cbn. by rewrite andb_false_r. }
  rewrite run_doc_bind. destruct (u_username u) as [name|].
  - unfold add_history. rewrite run_doc_sql. cbn [fst snd]. unfold store_user. rewrite run_doc_bind, run_doc_sql, Hclash.
    cbn [fst snd]. rewrite run_doc_ret. cbn [u_pubkey erased]. rewrite Hu. by destruct w.
  - rewrite run_doc_ret. unfold store_user. rewrite run_doc_bind, run_doc_sql, Hclash.
    cbn [fst snd]. rewrite run_doc_ret. cbn [u_pubkey erased]. rewrite Hu. by destruct w.
Qed.

Lemma gone_erased now key db : gone now key db (erase_rows key (erased_db now key db)).
Proof.
  unfold erase_rows, erased_db. destruct (select_one _ _) as [u|] eqn:Eu.
  - pose proof (find_some _ _ Eu) as [_ Hu%String.eqb_eq].
    split; try (destruct (u_username u); by rewrite ?app_nil_r).
    + intros u' Hin Hk. assert (Hin' : u' ∈ map (fun r => if Users.has_key key r then erased now u else r) (t_users db)) by (by destruct (u_username u)).
      apply list_elem_of_fmap in Hin' as (u0 & -> & _). destruct (Users.has_key key u0) eqn:E.
      * cbn. split; [done|]. by destruct (u_deleted_at u); eexists.
      * apply String.eqb_neq in E. by destruct E.
    + assert (E : forall l, List.filter (fun u' => negb (Users.has_key key u')) (map (fun r => if Users.has_key key r then erased now u else r) l) =
                List.filter (fun u' => negb (Users.has_key key u')) l).
      { induction l as [|u' l IH]; [done|]. cbn [map List.filter]. destruct (Users.has_key key u') eqn:E; cbn [negb].
        - unfold Users.has_key at 1. cbn. by rewrite Hu, String.eqb_refl.
        - rewrite E. cbn. by rewrite IH. }
      destruct (u_username u); apply E.
    + rewrite Eu. by destruct (u_username u); rewrite ?app_nil_r.
  - split; try done; [|by rewrite Eu, app_nil_r]. intros u' Hin Hk. exfalso.
    pose proof (find_none _ _ Eu u' (proj1 (list_elem_of_In _ _) Hin)) as Hn. unfold Users.has_key in Hn. by rewrite Hk, String.eqb_refl in Hn.
Qed.
#[local] Ltac off :=
  unfold off_sessions; cbn [writes set_ex set_nx_ex]; split; intros ?; rewrite ?not_elem_of_cons; repeat split;
  first [apply not_elem_of_nil|unfold _session_key, SESSION_KEY_PREFIX, _user_sessions_key, USER_SESSIONS_KEY_PREFIX,
           action_nonce_key, _inbox_key, ws_active_key; string_ne].
Lemma keep_enforce pk req relay action target proof : exchanges_keep (listed pk) (enforce_sensitive_action req relay action pk target proof).
Proof. unfold enforce_sensitive_action, verify_sensitive_action. cbv zeta. exchanges off. Qed.
Lemma keep_redis_cleanup pk :
  exchanges_keep (listed pk)
    (try_except (let! _ := cmd_ (DEL [_inbox_key pk]) in cmd_ (DEL [ws_active_key pk])) (fun _ => ret tt)).
Proof. unfold cmd_. exchanges off. Qed.
End Deletion.

Section Properties.
  Context `{R : Redis} `{Sha256} `{Nacl} (s : Settings).

(** C10: a deleted account is gone.  Whatever fails, a request to delete the account changes no table, or it
    answers, and then it showed a fresh signature of the key if the settings ask for one; the account's
    row has no name and is marked, the name is in the history, its journal, switches, backup and push
    subscriptions are gone, and nothing of anybody else changed; and if the answer says that the sessions
    were revoked, no session of the key is left.  (Its delivery tokens stay.) *)
Theorem deleted_account_is_gone (current : Session) proof key (w : world rstore) :
  let pk := pubkey_hex current in
  w_work w = w_db w -> bytes_fromhex pk = Some key -> no_bar pk = true -> indexed (w_now w) (w_redis (absw w)) ->
  let x := run (with_session (delete_me s current proof)) w in
  (exists e, fst x = Raise e /\ w_db (snd x) = w_db w) \/
  (exists revoked, fst x = Ok revoked /\
     ("account_delete" ∈ action_proof_required_set s -> proved s (w_now w) "account_delete" pk key proof) /\
     gone (w_now w) key (w_db w) (w_db (snd x)) /\
     (revoked = true -> logged_out pk (w_redis (absw (snd x))))).
Proof.
  intros pk Hw Hkey Hbar Hi x. unfold x. rewrite fst_run.
  assert (Hdb : w_db (snd (run (with_session (delete_me s current proof)) w)) =
    w_db (snd (run_doc (with_session (delete_me s current proof)) (absw w)))) by (by rewrite <- snd_run_absw).
  rewrite Hdb, snd_run_absw, run_with_session. cbn [fst snd]. clear Hdb x. unfold delete_me. fold pk.
  assert (Hl : listed pk (w_redis (absw w))).
  { destruct (ix_index _ _ Hi pk) as [y Hy]. split; [by exists y|]. intros d created dl y' Hd Hy'.
    by apply (session_indexed _ _ _ _ _ _ Hi Hbar _ Hy' Hd). }
  rewrite run_doc_bind.
  pose proof (exchanges_run _ _ (absw w) (keep_enforce pk (action_proof_required_set s) (relay_name s) "account_delete" pk proof) Hl) as Hl1.
  pose proof (run_no_sql (enforce_sensitive_action (action_proof_required_set s) (relay_name s) "account_delete" pk pk proof) (absw w)
    (DmsFacts.no_sql_enforce_action _ _ _ _ _ _)) as Ht1.
  pose proof (run_now (enforce_sensitive_action (action_proof_required_set s) (relay_name s) "account_delete" pk pk proof) (absw w)) as Hn1.
  pose proof (run_enforce s "account_delete" pk key proof (absw w)) as Hproof.
  destruct (run_doc (enforce_sensitive_action _ _ _ pk pk proof) (absw w)) as [[[]|e] w1]; cbn [fst snd] in *; injection Ht1 as Hdb1 Hwk1.
  2: { left. by exists e. }
  right. rewrite run_doc_bind, (run_doc_fromhex _ key), run_doc_bind, run_doc_now, run_doc_bind, run_erase_user, run_doc_bind, run_doc_sql by done.
  cbn [fst snd w_work w_db set_databases]. rewrite Hn1. cbn [w_now absw set_redis]. rewrite Hwk1, Hdb1. cbn [w_work w_db absw set_redis].
  rewrite Hw. set (w2 := set_databases _ _ _). rewrite run_doc_bind.
  pose proof (exchanges_run _ _ w2 (keep_redis_cleanup pk) Hl1) as Hl2.
  pose proof (run_no_sql (try_except (let! _ := cmd_ (DEL [_inbox_key pk]) in cmd_ (DEL [ws_active_key pk])) (fun _ => ret tt)) w2 ltac:(no_sql)) as Ht2.
  assert (Hok : fst (run_doc (try_except (let! _ := cmd_ (DEL [_inbox_key pk]) in cmd_ (DEL [ws_active_key pk])) (fun _ => ret tt)) w2) = Ok tt).
  { rewrite run_doc_try. destruct (run_doc (let! _ := _ in _) w2) as [[[]|e] w']; reflexivity. }
  destruct (run_doc (try_except _ _) w2) as [r w3]. cbn [fst snd] in *. subst r. injection Ht2 as Hdb3 Hwk3.
  destruct (run_attempts pk 3 w3 Hl2) as (b & Hb & Hout).
  pose proof (run_no_sql (revoke_attempts 3 pk) w3 ltac:(unfold revoke_attempts, revoke_all_sessions, _publish_session_revoked; cbv zeta; no_sql)) as Ht4.
  destruct (run_doc (revoke_attempts 3 pk) w3) as [r w4]. cbn [fst snd] in *. subst r. injection Ht4 as Hdb4 Hwk4.
  exists b. cbn [w_db set_databases w_redis]. split; [done|]. split; [intros Hin; by apply (Hproof w1)|]. split; [|exact Hout].
  rewrite Hwk4, Hwk3. apply gone_erased.
Qed.
End Properties.

Module AccountDemo.
#[local] Instance demo_sha : Sha256 := fun s => s.
#[local] Instance demo_nacl : Nacl :=
  {| nacl_verify := fun _ _ _ => true; nacl_sign := fun _ _ => "s"; nacl_public := fun k => k;
     nacl_to_curve25519 := fun k => Ok k |}.

Definition zeros (n : nat) : string := string_of_list_ascii (repeat "0"%char n).
Definition settings : Settings := mkSettings "relay" "" "" 86400 1000 30 0 604800 true "" 10 "".
Definition alice : string := zeros 64.
Definition alice_key : string := default "" (bytes_fromhex alice).
Definition db : database := set_users [mkUser alice_key (Some "alice") FREE "relay" 100 None None None] empty_db.
Definition relay : world (rstore (Redis := Mem_Redis)) :=
  World 1000 (View ∅ ∅ []) db db ∅ [] (fun _ => "tok") [] no_network [].
Definition session : Session := mkSession "tok" alice 2000.
Definition proof : action_proof := ActionProof (Some (zeros 128)) (Some "nonce") (Some 1000%Z).

Lemma gone_witness : gone 1000 alice_key db (w_db (snd (run (with_session (delete_me settings session (Some proof))) relay))).
Proof.
  destruct (deleted_account_is_gone settings session (Some proof) alice_key relay) as [(e & E & _)|(b & _ & _ & H & _)].
  - reflexivity.
  - vm_compute. reflexivity.
  - vm_compute. reflexivity.
  - split; [|intros pk; by exists ∅|]; intros d e; [|intros D]; intros H; discriminate H.
  - exfalso. vm_compute in E. discriminate.
  - exact H.
Defined.
End AccountDemo.
