(* ===== verification/Backup.v ===== *)
(** * Encrypted backups (api/backup.py)

    One row per key, replaced and deleted by its owner with a proof where the settings ask for it; the
    public lookup is switched off.  Then what becomes of a backup, whatever fails. *)

From Stdlib Require Import Ascii String.
From stdpp Require Import prelude gmap strings list.
From S2P Require Import Prelude Json Codec RedisStore Models Effects Crypto Config Sessions SessionFacts RateLimit Deps Logic.
From S2P Require Import BlobStorage Queue Messages Users DmsFacts FederationApiFacts Auth Account AccountFacts.

#[local] Open Scope morok_scope.

(** ** Bodies (schemas.py) *)

Definition BACKUP_MAX_BYTES : Z := 1024.
Definition BACKUP_KDF_SALT_BYTES : Z := 16.

Definition valid_SensitiveActionProof (p : action_proof) : bool :=
  match action_signature_hex p with Some x => hex_of_len 128 x | None => true end
  && match action_nonce p with Some n => (8 <=? string_len n)%Z && (string_len n <=? 64)%Z | None => true end
  && match action_timestamp p with Some t => (0 <=? t)%Z | None => true end.

Record BackupCreateRequest := mkBackupCreate {
  br_proof : action_proof;
  br_encrypted_seed_b64 : string;
  br_kdf_salt_b64 : string;
  br_kdf_params : dict;
  br_schema_version : Z
}.

(** [v.get(k1, v.get(k2, ... default))] *)
Fixpoint first_of (keys : list string) (dflt : json) (v : dict) : json :=
  match keys with
  | [] => dflt
  | k :: keys' => match dict_get k v with Some j => j | None => first_of keys' dflt v end
  end.
(** [int] of a value; whatever it does not take is an error of the request. *)
Definition at_least (n : Z) (j : json) : bool := match int_of j with Some m => (n <=? m)%Z | None => false end.
(** Of the algorithm only a text can be one of the accepted ones. *)
Definition _kdf_floor (v : dict) : bool :=
  match first_of ["alg"; "algorithm"] (JStr "") v with
  | JStr alg => bool_decide (lower alg ∈ ["argon2id"; "argon2"])
  | _ => false
  end
  && at_least (64 * 1024) (first_of ["m"; "memory_kib"; "memory"] (JNum 0) v)
  && at_least 2 (first_of ["t"; "iterations"; "time"] (JNum 0) v)
  && at_least 1 (first_of ["p"; "parallelism"] (JNum 1) v).
Definition _enc_size (v : string) : bool :=
  match b64decode v with Some d => negb (string_len d =? 0)%Z && (string_len d <=? BACKUP_MAX_BYTES)%Z | None => false end.
Definition _salt_size (v : string) : bool :=
  match b64decode v with Some d => (string_len d =? BACKUP_KDF_SALT_BYTES)%Z | None => false end.
Definition valid_BackupCreateRequest (b : BackupCreateRequest) : bool :=
  valid_SensitiveActionProof (br_proof b) && _enc_size (br_encrypted_seed_b64 b) && _salt_size (br_kdf_salt_b64 b)
  && _kdf_floor (br_kdf_params b) && (1 <=? br_schema_version b)%Z && (br_schema_version b <=? 10)%Z.

Record BackupInfo := mkBackupInfo {
  bk_encrypted_seed_b64 : string; bk_kdf_salt_b64 : string; bk_kdf_params : dict; bk_schema_version : Z;
  bk_created_at : Z; bk_updated_at : Z
}.
Definition _to_info (b : EncryptedBackup) : BackupInfo :=
  mkBackupInfo (b64encode (eb_encrypted_seed b)) (b64encode (eb_kdf_salt b)) (eb_kdf_params b) (eb_schema_version b)
    (eb_created_at b) (eb_updated_at b).

(** ** Endpoints *)

Definition backup_of (pubkey : string) (b : EncryptedBackup) : bool := String.eqb (eb_pubkey b) pubkey.
Definition select_backup (pubkey : string) : M (option EncryptedBackup) :=
  sql (fun db => (select_one (backup_of pubkey) (t_backups db), db)).
Definition store_backup (b : EncryptedBackup) : M unit :=
  sql (fun db => (tt, set_backups (map (fun b' => if backup_of (eb_pubkey b) b' then b else b') (t_backups db)) db)).
Definition insert_backup (b : EncryptedBackup) : M unit :=
  let! ok := sql (fun db => if existsb (backup_of (eb_pubkey b)) (t_backups db) then (false, db)
                            else (true, set_backups (t_backups db ++ [b]) db)) in
  if (ok : bool) then ret tt else raise IntegrityError.
Definition b64_ (v : string) : M string := match b64decode v with Some d => ret d | None => raise (ValueError "base64") end.

Section Backup.
  Context `{Nacl} (s : Settings).

Definition enforce (action : string) (current : Session) (proof : option action_proof) : M unit :=
  enforce_sensitive_action (action_proof_required_set s) (relay_name s) action (pubkey_hex current) (pubkey_hex current) proof.

Definition create_or_replace_backup (body : BackupCreateRequest) (current : Session) : M BackupInfo :=
  let! pubkey_bytes := fromhex_ (pubkey_hex current) in
  let! found := select_user (Users.has_key pubkey_bytes) in
  match found with
  | None => http 404 "user_not_found_call_me_first"
  | Some user =>
      if bool_decide (u_tier user = FREE) then http 403 "backup_requires_premium"
      else
        let! encrypted_seed := b64_ (br_encrypted_seed_b64 body) in
        let! kdf_salt := b64_ (br_kdf_salt_b64 body) in
        let! now := now_ in
        let! backup := select_backup pubkey_bytes in
        let! _ := enforce "backup_replace" current (Some (br_proof body)) in
        let stored created_at := mkBackup pubkey_bytes (u_username user) encrypted_seed kdf_salt (br_kdf_params body)
                                   (br_schema_version body) created_at now in
        match backup with
        | Some b => let! _ := store_backup (stored (eb_created_at b)) in ret (_to_info (stored (eb_created_at b)))
        | None => let! _ := insert_backup (stored now) in ret (_to_info (stored now))
        end
  end.

Definition get_my_backup (current : Session) : M BackupInfo :=
  let! pubkey_bytes := fromhex_ (pubkey_hex current) in
  let! backup := select_backup pubkey_bytes in
  match backup with Some b => ret (_to_info b) | None => http 404 "no_backup" end.

Definition delete_my_backup (current : Session) (proof : option action_proof) : M bool :=
  let! pubkey_bytes := fromhex_ (pubkey_hex current) in
  let! backup := select_backup pubkey_bytes in
  match backup with
  | None => ret false
  | Some b =>
      let! _ := enforce "backup_delete" current proof in
      let! _ := sql (fun db => (tt, set_backups (snd (delete_where (backup_of (eb_pubkey b)) (t_backups db))) db)) in
      ret true
  end.

(** Nothing after the first statement is ever run. *)
Definition restore_by_username (username : string) : M BackupInfo := http 410 "public_backup_restore_disabled".
End Backup.

Section Backups.
  Context `{Sha256} `{Nacl} (s : Settings).

Definition others (key : string) (db : database) : list EncryptedBackup :=
  List.filter (fun b => negb (backup_of key b)) (t_backups db).
Definition owned (key : string) (db : database) : list EncryptedBackup := List.filter (backup_of key) (t_backups db).

(** At most one backup for a key, as the unique index has it. *)
Definition one_each (db : database) : Prop := NoDup (map eb_pubkey (t_backups db)).

Lemma owned_one key db b : one_each db -> select_one (backup_of key) (t_backups db) = Some b -> owned key db = [b].
Proof.
  unfold one_each, owned. induction (t_backups db) as [|b' l IH]; [done|]. cbn [map List.find select_one List.filter].
  rewrite NoDup_cons. intros [Hnin Hnd]. unfold select_one in *. cbn [List.find]. destruct (backup_of key b') eqn:E.
  - intros [= ->]. f_equal. apply String.eqb_eq in E.
    assert (Hnone : forall b0, b0 ∈ l -> backup_of key b0 = false).
    { intros b0 Hin. apply String.eqb_neq. intros E0. apply Hnin. rewrite E, <- E0. by apply list_elem_of_fmap_2. }
    clear -Hnone. induction l as [|b0 l IH]; [done|]. cbn [List.filter]. rewrite Hnone by left. apply IH. intros b1 Hb1. apply Hnone. by right.
  - by apply IH.
Qed.
Lemma owned_none key db : select_one (backup_of key) (t_backups db) = None -> owned key db = [].
Proof.
  unfold owned, select_one. intros Hn.
  induction (t_backups db) as [|b l IH]; [done|]. cbn [List.find List.filter] in *. by destruct (backup_of key b); [|apply IH].
Qed.

(** Writing the row of a key replaces its backup and no other. *)
Lemma stored_backup key db b b0 :
  one_each db -> select_one (backup_of key) (t_backups db) = Some b0 -> eb_pubkey b = key ->
  let db' := set_backups (map (fun b' => if backup_of (eb_pubkey b) b' then b else b') (t_backups db)) db in
  owned key db' = [b] /\ others key db' = others key db /\ one_each db'.
Proof.
  intros Hone Hsel Hb. cbv zeta. rewrite Hb. unfold owned, others, one_each in *. cbn [t_backups set_backups].
  assert (Hkey : backup_of key b = true) by (unfold backup_of; rewrite Hb; apply String.eqb_refl).
  pose proof (owned_one key db b0 Hone Hsel) as Ho. unfold owned in Ho. clear Hsel. revert b0 Ho Hone.
  induction (t_backups db) as [|b' l IH]; intros b0; [done|]. cbn [map List.filter]. destruct (backup_of key b') eqn:E.
  - intros [= -> Hl] [Hnin Hnd]%NoDup_cons. rewrite Hkey. cbn [negb].
    assert (Hsame : map (fun b' => if backup_of key b' then b else b') l = l).
    { clear -Hl. induction l as [|c l IH]; [done|]. cbn [List.filter map] in *. destruct (backup_of key c); [done|]. by rewrite IH. }
    rewrite Hsame, Hl. split_and!; try done. apply NoDup_cons. split; [|done]. by rewrite Hb, <- (proj1 (String.eqb_eq _ _) E).
  - intros Hl [Hnin Hnd]%NoDup_cons. rewrite E. cbn [negb]. destruct (IH b0 Hl Hnd) as (H1 & H2 & H3).
    split_and!; [done|by rewrite H2|]. apply NoDup_cons. split; [|done].
    intros (c & Ec & Hc)%list_elem_of_fmap. apply list_elem_of_fmap in Hc as (c' & -> & Hc').
    apply Hnin. destruct (backup_of key c') eqn:Ec'; [|rewrite Ec; by apply list_elem_of_fmap_2].
    rewrite Ec, Hb. unfold backup_of in E. rewrite Ec, Hb, String.eqb_refl in E. done.
Qed.
Lemma inserted_backup key db b :
  select_one (backup_of key) (t_backups db) = None -> eb_pubkey b = key ->
  existsb (backup_of (eb_pubkey b)) (t_backups db) = false /\
  let db' := set_backups (t_backups db ++ [b]) db in owned key db' = [b] /\ others key db' = others key db /\ (one_each db -> one_each db').
Proof.
  intros Hsel Hb. pose proof (owned_none key db Hsel) as Ho. rewrite Hb. unfold owned, others, one_each in *. cbn [t_backups set_backups].
  assert (Hkey : backup_of key b = true) by (unfold backup_of; rewrite Hb; apply String.eqb_refl).
  assert (Hnone : forall b0, b0 ∈ t_backups db -> backup_of key b0 = false).
  { intros b0 Hin. apply (find_none _ _ Hsel). by apply list_elem_of_In. }
  split.
  - apply not_true_iff_false. intros (b0 & Hin & E)%existsb_exists. by rewrite Hnone in E by (by apply list_elem_of_In).
  - rewrite !List.filter_app, Ho. cbn [List.filter]. rewrite Hkey. cbn [negb]. rewrite app_nil_r. split_and!; [done|done|].
    intros Hnd. rewrite map_app. cbn [map]. apply NoDup_app. split_and!; [done| |by apply NoDup_singleton].
    intros x (b0 & -> & Hin)%list_elem_of_fmap Hx%list_elem_of_singleton. specialize (Hnone b0 Hin).
    unfold backup_of in Hnone. by rewrite Hx, Hb, String.eqb_refl in Hnone.
Qed.
Lemma run_b64 v (w : vworld) :
  run_doc (b64_ v) w = (match b64decode v with Some d => Ok d | None => Raise (ValueError "base64") end, w).
Proof. unfold b64_. by destruct (b64decode v). Qed.

(** The proof, when it is asked for; the tables stay. *)
Lemma run_enforce_backup action current key proof (w : vworld) :
  bytes_fromhex (pubkey_hex current) = Some key ->
  let x := run_doc (enforce s action current proof) w in
  tables_of (snd x) = tables_of w /\ w_now (snd x) = w_now w /\
  (fst x = Ok tt -> action ∈ action_proof_required_set s -> proved s (w_now w) action (pubkey_hex current) key proof).
Proof.
  intros Hkey x. unfold x, enforce. split_and!.
  - apply run_no_sql, no_sql_enforce_action.
  - apply run_now.
  - intros Hok. destruct (run_doc _ w) as [r w'] eqn:E. cbn [fst] in Hok. subst r. by apply (run_enforce s _ _ _ _ _ _ Hkey E).
Qed.

(** What an answered request stored. *)
Record kept (body : BackupCreateRequest) (current : Session) (key : string) (now : Z) (db db' : database) (info : BackupInfo) : Prop := {
  kp_proof : "backup_replace" ∈ action_proof_required_set s -> proved s now "backup_replace" (pubkey_hex current) key (Some (br_proof body));
  kp_premium : exists user, select_one (Users.has_key key) (t_users db) = Some user /\ u_tier user <> FREE;
  kp_info : exists seed salt created, b64decode (br_encrypted_seed_b64 body) = Some seed /\ b64decode (br_kdf_salt_b64 body) = Some salt /\
    info = mkBackupInfo (b64encode seed) (b64encode salt) (br_kdf_params body) (br_schema_version body) created now;
  kp_row : exists b, owned key db' = [b] /\ _to_info b = info;
  kp_others : others key db' = others key db;
  kp_one : one_each db'
}.

Lemma run_create_backup body current key (w : vworld) :
  bytes_fromhex (pubkey_hex current) = Some key -> one_each (w_work w) ->
  let x := run_doc (create_or_replace_backup s body current) w in
  w_db (snd x) = w_db w /\ forall info, fst x = Ok info -> kept body current key (w_now w) (w_work w) (w_work (snd x)) info.
Proof.
  intros Hkey Hone. cbv zeta. unfold create_or_replace_backup. rewrite run_doc_bind, (run_doc_fromhex _ key) by done.
  unfold select_user. rewrite run_doc_bind, run_doc_sql. cbn [fst snd]. set (w0 := set_databases _ _ w).
  assert (Ew0 : w0 = w) by (by destruct w). rewrite Ew0. clear w0 Ew0.
  destruct (select_one (Users.has_key key) (t_users (w_work w))) as [user|] eqn:Euser; [|done].
  case_bool_decide as Hfree; [done|]. rewrite run_doc_bind. rewrite run_b64.
  destruct (b64decode (br_encrypted_seed_b64 body)) as [seed|] eqn:Eseed; [|done]. rewrite run_doc_bind, run_b64.
  destruct (b64decode (br_kdf_salt_b64 body)) as [salt|] eqn:Esalt; [|done]. rewrite run_doc_bind, run_doc_now.
  unfold select_backup. rewrite run_doc_bind, run_doc_sql. cbn [fst snd]. set (w0 := set_databases _ _ w).
  assert (Ew0 : w0 = w) by (by destruct w). rewrite Ew0. clear w0 Ew0.
  destruct (run_enforce_backup "backup_replace" current key (Some (br_proof body)) w Hkey) as (Ht & Hn & Hproof).
  rewrite run_doc_bind. destruct (run_doc (enforce s _ current _) w) as [[[]|e] w1]; cbn [fst snd] in *; injection Ht as Hdb Hwk; [|done].
  specialize (Hproof eq_refl). cbv zeta.
  destruct (select_one (backup_of key) (t_backups (w_work w))) as [b0|] eqn:Eb.
  - unfold store_backup. rewrite run_doc_bind, run_doc_sql, run_doc_ret. cbn [fst snd w_db w_work set_databases eb_pubkey].
    split; [exact Hdb|]. intros info [= <-]. rewrite Hwk.
    destruct (stored_backup key (w_work w) (mkBackup key (u_username user) seed salt (br_kdf_params body) (br_schema_version body) (eb_created_at b0) (w_now w)) b0 Hone Eb eq_refl) as (H1 & H2 & H3).
    split; try done; [by exists user|by exists seed, salt, (eb_created_at b0)|]. eexists. split; [exact H1|done].
  - unfold insert_backup. rewrite run_doc_bind, run_doc_bind, run_doc_sql, Hwk.
    destruct (inserted_backup key (w_work w) (mkBackup key (u_username user) seed salt (br_kdf_params body) (br_schema_version body) (w_now w) (w_now w)) Eb eq_refl) as (Hno & H1 & H2 & H3).
    cbn [eb_pubkey] in Hno |- *. rewrite Hno. cbn [fst snd]. rewrite !run_doc_ret. cbn [fst snd w_db w_work set_databases].
    split; [exact Hdb|]. intros info [= <-].
    split; try done; [by exists user|by exists seed, salt, (w_now w)| |by apply H3]. eexists. split; [exact H1|done].
Qed.

Lemma run_get_backup current key b (w : vworld) :
  bytes_fromhex (pubkey_hex current) = Some key -> owned key (w_work w) = [b] -> fst (run_doc (get_my_backup current) w) = Ok (_to_info b).
Proof.
  intros Hkey Ho. unfold get_my_backup. rewrite run_doc_bind, (run_doc_fromhex _ key) by done.
  unfold select_backup. rewrite run_doc_bind, run_doc_sql. cbn [fst snd].
  assert (E : select_one (backup_of key) (t_backups (w_work w)) = Some b).
  { unfold owned, select_one in *. induction (t_backups (w_work w)) as [|c l IH]; [done|]. cbn [List.filter List.find] in *.
    destruct (backup_of key c); [by injection Ho as ->|by apply IH]. }
  by rewrite E.
Qed.

Lemma run_delete_backup current key proof (w : vworld) :
  bytes_fromhex (pubkey_hex current) = Some key ->
  let x := run_doc (delete_my_backup s current proof) w in
  w_db (snd x) = w_db w /\ forall b, fst x = Ok b ->
    owned key (w_work (snd x)) = [] /\ others key (w_work (snd x)) = others key (w_work w) /\
    (b = true -> "backup_delete" ∈ action_proof_required_set s -> proved s (w_now w) "backup_delete" (pubkey_hex current) key proof).
Proof.
  intros Hkey. cbv zeta. unfold delete_my_backup. rewrite run_doc_bind, (run_doc_fromhex _ key) by done.
  unfold select_backup. rewrite run_doc_bind, run_doc_sql. cbn [fst snd]. set (w0 := set_databases _ _ w).
  assert (Ew0 : w0 = w) by (by destruct w). rewrite Ew0. clear w0 Ew0.
  destruct (select_one (backup_of key) (t_backups (w_work w))) as [b0|] eqn:Eb.
  - destruct (run_enforce_backup "backup_delete" current key proof w Hkey) as (Ht & Hn & Hproof).
    rewrite run_doc_bind. destruct (run_doc (enforce s _ current _) w) as [[[]|e] w1]; cbn [fst snd] in *; injection Ht as Hdb Hwk; [|done].
    rewrite run_doc_bind, run_doc_sql, run_doc_ret. cbn [fst snd w_db w_work set_databases]. rewrite Hwk.
    split; [exact Hdb|]. intros b [= <-]. unfold owned, others, delete_where. cbn [t_backups set_backups snd].
    pose proof (find_some _ _ Eb) as [_ Hb0%String.eqb_eq]. rewrite Hb0.
    split_and!; [| |by intros _; apply Hproof].
    + clear. induction (t_backups (w_work w)) as [|c l IH]; [done|]. cbn [List.filter]. destruct (backup_of key c) eqn:E; cbn [negb]; [done|].
      cbn [List.filter]. by rewrite E.
    + clear. induction (t_backups (w_work w)) as [|c l IH]; [done|]. cbn [List.filter]. destruct (backup_of key c) eqn:E; cbn [negb]; [done|].
      cbn [List.filter]. rewrite E. cbn [negb]. by rewrite IH.
  - rewrite run_doc_ret. split; [done|]. intros b [= <-]. by split; [apply owned_none|].
Qed.
End Backups.

Section Properties.
  Context `{R : Redis} `{Sha256} `{Nacl} (s : Settings).

(** A backup is its owner's, whole, and the only one.  Whatever fails, a request to store a backup changes no
    table, or it answers, and then its key is a premium account that showed a fresh signature of the key if
    the settings ask for one; there is one row for the key, which holds exactly what was sent, and the rows of
    other keys are as they were.  The owner then reads back what the answer said; and to make it go needs a
    fresh signature again, and takes nobody else's. *)
Theorem backup_is_the_owners body (current : Session) key (w : world rstore) :
  bytes_fromhex (pubkey_hex current) = Some key -> w_work w = w_db w -> one_each (w_db w) ->
  let x := run (with_session (create_or_replace_backup s body current)) w in
  let db := w_db (snd x) in
  (exists e, fst x = Raise e /\ db = w_db w) \/
  (exists info, fst x = Ok info /\ kept s body current key (w_now w) (w_db w) db info /\
     forall (w' : world rstore), w_work w' = db ->
       fst (run (get_my_backup current) w') = Ok info /\
       forall proof b, let y := run (with_session (delete_my_backup s current proof)) w' in
         fst y = Ok b -> owned key (w_db (snd y)) = [] /\ others key (w_db (snd y)) = others key db /\
           (b = true -> "backup_delete" ∈ action_proof_required_set s -> proved s (w_now w') "backup_delete" (pubkey_hex current) key proof)).
Proof.
  intros Hkey Hw Hone x db.
  destruct (run_create_backup s body current key (absw w) Hkey) as [Hdb Hok]; [by cbn; rewrite Hw|].
  assert (Ex : fst x = fst (run_doc (create_or_replace_backup s body current) (absw w)) /\
    db = w_db (snd (run_doc (with_session (create_or_replace_backup s body current)) (absw w)))).
  { unfold db, x. split; [by rewrite fst_run, run_with_session; destruct (run_doc _ (absw w)) as [[]]|by rewrite <- snd_run_absw]. }
  destruct Ex as [-> Edb]. rewrite run_with_session in Edb. cbn [fst snd] in Edb.
  destruct (run_doc (create_or_replace_backup s body current) (absw w)) as [[info|e] w1]; cbn [fst snd w_db set_databases w_work absw set_redis] in *.
  - right. exists info. split; [done|]. pose proof (Hok info eq_refl) as Hk. rewrite Hw in Hk. rewrite Edb. split; [done|]. intros w' Hw'.
    destruct (kp_row _ _ _ _ _ _ _ _ Hk) as (b & Hb & Hi). split; [rewrite fst_run, <- Hi; apply (run_get_backup _ key); [done|by cbn; rewrite Hw']|].
    intros proof b'. cbv zeta. rewrite fst_run, run_with_session. intros Eb.
    destruct (run_delete_backup s current key proof (absw w') Hkey) as [_ Hdel].
    assert (Ey : w_db (snd (run (with_session (delete_my_backup s current proof)) w')) =
      w_db (snd (run_doc (with_session (delete_my_backup s current proof)) (absw w')))) by (by rewrite <- snd_run_absw).
    rewrite Ey, run_with_session. destruct (run_doc (delete_my_backup s current proof) (absw w')) as [r w2]. cbn [fst snd] in *. subst r.
    destruct (Hdel b' eq_refl) as (H1 & H2 & H3). cbn [w_db w_work set_databases absw set_redis] in *. by rewrite <- Hw'.
  - left. exists e. split; [done|]. by rewrite Edb.
Qed.
End Properties.

Module BackupDemo.
#[local] Instance demo_sha : Sha256 := fun s => s.
#[local] Instance demo_nacl : Nacl :=
  {| nacl_verify := fun _ _ _ => true; nacl_sign := fun _ _ => "s"; nacl_public := fun k => k;
     nacl_to_curve25519 := fun k => Ok k |}.

Definition zeros (n : nat) : string := string_of_list_ascii (repeat "0"%char n).
Definition settings : Settings := mkSettings "relay" "" "" 86400 1000 30 0 604800 true "" 10 "".
Definition alice : string := zeros 64.
Definition alice_key : string := default "" (bytes_fromhex alice).
Definition old : EncryptedBackup := mkBackup alice_key None "old" "salt" [] 1 100 100.
Definition other : EncryptedBackup := mkBackup "bob" None "his" "salt" [] 1 200 200.
Definition db : database :=
  set_backups [old; other] (set_users [mkUser alice_key None PREMIUM "relay" 100 None None None] empty_db).
Definition relay : world (rstore (Redis := Mem_Redis)) :=
  World 1000 (View ∅ ∅ []) db db ∅ [] (fun _ => "tok") [] no_network [].
Definition session : Session := mkSession "tok" alice 2000.
Definition proof : action_proof := ActionProof (Some (zeros 128)) (Some "nonce") (Some 1000%Z).
Definition body : BackupCreateRequest := mkBackupCreate proof "QUJD" "QUJD" [("alg", JStr "argon2id")] 2.

Lemma backup_witness :
  let x := run (with_session (create_or_replace_backup settings body session)) relay in
  exists info, fst x = Ok info /\ fst (run (get_my_backup session) (snd x)) = Ok info /\ others alice_key (w_db (snd x)) = [other].
Proof.
  intros x. destruct (backup_is_the_owners settings body session alice_key relay) as [(e & E & _)|(info & E & Hk & Hget)].
  - vm_compute. reflexivity.
  - reflexivity.
  - apply (bool_decide_unpack _). vm_compute. exact I.
  - exfalso. vm_compute in E. discriminate.
  - exists info. split; [exact E|]. split; [apply Hget; vm_compute; reflexivity|exact (kp_others _ _ _ _ _ _ _ _ Hk)].
Defined.
End BackupDemo.
