(* ===== verification/BurnerFacts.v ===== *)
(** * A message through a burner link (api/burner.py) *)

From Stdlib Require Import Ascii String.
From stdpp Require Import prelude gmap strings list.
From S2P Require Import Prelude Json Codec RedisStore Models Effects Crypto Config Sessions RateLimit RateLimitFacts Deps Logic.
From S2P Require Import BlobStorage Queue QueueFacts MailboxFacts BurnerTokens TokenFacts Messages MessagesFacts Groups BurnerApi.

#[local] Open Scope morok_scope.

Section Send.
  Context `{Sha256} `{Nacl} `{Cjson} (s : Settings).
  Context (token : string) (body : BurnerSend) (request : RateLimit.Request).

Let bucket (now : Z) : string := send_bucket token (get_ip_from_request (trusted_proxy_ips s) request) now.

(** The counter of the address goes up, and nothing else changes. *)
Lemma run_public_limit n (w : vworld) :
  calm w -> counts (bucket (w_now w)) n (w_redis w) -> (n < SEND_RATE_LIMIT_PER_MINUTE)%Z ->
  exists v', run_doc (_enforce_public_send_rate_limit s request token) w = (Ok tt, set_redis v' w) /\
    forall k, k <> bucket (w_now w) -> rv_keys v' !! k = rv_keys (w_redis w) !! k.
Proof.
  intros Hc Hn Hlt. unfold _enforce_public_send_rate_limit. cbv zeta. rewrite run_doc_bind, run_doc_now. fold (bucket (w_now w)).
  set (k0 := bucket (w_now w)) in *.
  rewrite run_doc_bind, run_doc_redis, rrun_rcall, (doc_incr _ _ n _ Hn) by done. cbn [fst snd as_int res_of].
  set (v1 := put k0 _ _). pose proof (counts_nonneg _ _ _ Hn).
  assert (Hlim : (SEND_RATE_LIMIT_PER_MINUTE <? n + 1)%Z = false) by (apply Z.ltb_ge; lia).
  assert (Hv1 : forall k, k <> k0 -> rv_keys v1 !! k = rv_keys (w_redis w) !! k) by (intros k Hk; unfold v1; by rewrite keys_put_ne by congruence).
  rewrite run_doc_bind. destruct (n + 1 =? 1)%Z.
  - erewrite run_cmd; [|exact Hc|eapply doc_expire; [apply keys_put_eq|lia]|done]. rewrite Hlim, run_doc_ret.
    eexists. split; [done|]. intros k Hk. rewrite keys_put_ne by congruence. by apply Hv1.
  - rewrite run_doc_ret, Hlim, run_doc_ret. by exists v1.
Qed.
(** The link is live, with room for a message; its owner [ob] has an account here. *)
Record usable (v : rview) (db : database) (owner ob raw : string) (d : dict) (n : Z) : Prop := {
  us_stored : str_at (_token_key token) v = Some (Some raw);
  us_meta : loads raw = Some (JObj d);
  us_owner : dict_get "owner_pubkey" d = Some (JStr owner);
  us_key : bytes_fromhex owner = Some ob;
  us_count : lua_number (dict_get "message_count" d) = n;
  us_room : (0 <= n < MAX_MESSAGES_PER_TOKEN)%Z;
  us_user : is_Some (user_of ob db)
}.

(** The envelope that the message becomes at [now]. *)
Record message (now : Z) (ob blob id : string) : Prop := {
  me_blob : b64decode (bs_blob_b64 body) = Some blob;
  me_size : (0 < string_len blob <= max_blob_bytes s)%Z;
  me_id : exists eph, bytes_fromhex (bs_ephemeral_pubkey_hex body) = Some eph /\
    envelope_id (mkEnvelope eph ob now BURNER_MESSAGE_TTL blob) = Some id;
  me_named : well_formed_id id = true
}.

(** The stored link after one more message. *)
Definition counted (n : Z) (d : dict) : string := cjson_encode (dict_set "message_count" (JNum (n + 1)) d).

Definition burner_meta (owner id : string) (now exp : Z) : dict :=
  match build_meta (burner_args s body owner id now) exp with Ok m => m | Raise _ => [] end.

Lemma run_burner_post owner ob raw d n blob id z idx (w : vworld) :
  let now := w_now w in
  let exp := expiry now BURNER_MESSAGE_TTL now (message_ttl_hard_seconds s) in
  calm w -> usable (w_redis w) (w_work w) owner ob raw d n -> message now ob blob id ->
  (0 < message_ttl_hard_seconds s)%Z ->
  rv_keys (w_redis w) !! _envelope_meta_key id = None -> set_at (_pending_recipients_key id) (w_redis w) = Some ∅ ->
  zset_at (_inbox_key owner) (w_redis w) = Some z -> (Z.of_nat (size (live now z)) < MAX_INBOX_QUEUE_DEPTH)%Z ->
  zset_at _BLOB_EXPIRY_INDEX_KEY (w_redis w) = Some idx ->
  exists path v', _blob_path id = Ok path /\
    run_doc (burner_post s token body owner ob) w = (Ok (mkSendAck id true (Some exp) (Some (n + 1)%Z)), set_redis v' (put_blob path blob w)) /\
    posted (burner_args s body owner id now) now exp (burner_meta owner id now exp) z ∅ idx
      (put (_token_key token) (Entry (VStr (counted n d)) (deadline_of (_token_key token) (w_redis w))) (w_redis w)) v'.
Proof.
  intros now exp Hc [Hraw Hmeta Howner Hkey Hn Hroom [u Hu]] [Hblob Hsize (eph & Heph & Hid) Hwf] Hhard Hk Hp Hz Hsz Hidx.
  destruct (well_formed_path id Hwf) as [path Hpath]. exists path.
  assert (Hexp : (now < exp)%Z) by (unfold exp, expiry, BURNER_MESSAGE_TTL; lia).
  unfold burner_post. rewrite run_doc_bind, run_find_user, Hu, Hblob.
  rewrite (proj2 (Z.eqb_neq _ _)), (proj2 (Z.ltb_ge _ _)) by lia. cbn [orb].
  rewrite run_doc_bind. unfold increment_message_count.
  rewrite run_doc_redis, (Burner.lua_incr _ MAX_MESSAGES_PER_TOKEN token _ raw d Hraw Hmeta) by done. cbv zeta. rewrite Hn.
  rewrite (proj2 (Z.ltb_ge _ _)) by lia. cbn [fst snd res_of negb]. fold (counted n d).
  set (v1 := put (_token_key token) _ _). set (w1 := set_redis v1 w).
  rewrite run_doc_bind, run_doc_now. change (w_now w1) with now. rewrite run_doc_bind, (run_doc_fromhex _ eph), Hid by done.
  assert (Hk1 : rv_keys v1 !! _envelope_meta_key id = None) by (unfold v1, _token_key; rewrite keys_put_ne by string_ne; exact Hk).
  rewrite run_doc_bind. unfold envelope_exists. rewrite run_doc_bind, run_doc_redis, rrun_rcall by done.
  cbn [documented]. change (w_redis w1) with v1. rewrite Hk1. cbn [fst snd as_int res_of Z.eqb negb]. rewrite run_doc_ret.
  rewrite run_doc_bind. match goal with |- context [run_doc (write_blob_then_enqueue _ _) ?w0] => change w0 with w1 end.
  destruct (run_write_enqueue (burner_args s body owner id now) blob path w1 (burner_meta owner id now exp) z ∅ idx) as (v' & E & Hpost);
    try done; try (change (w_redis w1) with v1; unfold v1, _token_key; cbn [ea_recipient ea_envelope_id burner_args]; by at_simpl).
  exists v'. split; [done|]. rewrite E, run_doc_ret. split; [done|exact Hpost].
Qed.
End Send.

Section Properties.
  Context `{R : Redis} `{Sha256} `{Nacl} `{Cjson} (s : Settings).

(** A message through a burner link reaches the link's owner.  On a calm server, whoever posts a
    ciphertext that fits to a live link with room, whose owner has an account here, from an address that
    did not use up its minute, is told that it is queued: its metadata names the ephemeral key as sender
    and the owner as recipient, the owner can fetch exactly the ciphertext, the link has counted one more
    message and is still its owner's, and no table changed. *)
Theorem burner_message_arrives token body request owner ob raw d n c blob id z idx (w : world rstore) :
  let now := w_now w in
  let v := w_redis (absw w) in
  let exp := expiry now BURNER_MESSAGE_TTL now (message_ttl_hard_seconds s) in
  calm w -> burner_pattern token = true -> hex_of_len 64 (bs_ephemeral_pubkey_hex body) = true ->
  usable token v (w_work w) owner ob raw d n -> message s body now ob blob id -> (0 < message_ttl_hard_seconds s)%Z ->
  counts (send_bucket token (get_ip_from_request (trusted_proxy_ips s) request) now) c v -> (c < SEND_RATE_LIMIT_PER_MINUTE)%Z ->
  rv_keys v !! _envelope_meta_key id = None -> set_at (_pending_recipients_key id) v = Some ∅ ->
  zset_at (_inbox_key owner) v = Some z -> (Z.of_nat (size (live now z)) < MAX_INBOX_QUEUE_DEPTH)%Z ->
  zset_at _BLOB_EXPIRY_INDEX_KEY v = Some idx ->
  let x := run (public_burner_send s token body request) w in
  let v' := w_redis (absw (snd x)) in
  fst x = Ok (mkSendAck id true (Some exp) (Some (n + 1)%Z)) /\
  (exists m meta, str_at (_envelope_meta_key id) v' = Some (Some m) /\ loads m = Some (JObj meta) /\
     dict_get "from" meta = Some (JStr (bs_ephemeral_pubkey_hex body)) /\ dict_get "to" meta = Some (JStr owner)) /\
  (forall reader, pubkey_hex reader = owner -> fst (run (get_envelope_blob id reader) (snd x)) = Ok blob) /\
  (exists raw' d', str_at (_token_key token) v' = Some (Some raw') /\ loads raw' = Some (JObj d') /\
     dict_get "message_count" d' = Some (JNum (n + 1)) /\ dict_get "owner_pubkey" d' = Some (JStr owner)) /\
  tables_of (snd x) = tables_of w.
Proof.
  intros now v exp Hc Hpat Heph Hu Hm Hhard Hcnt Hlt Hk Hp Hz Hsz Hidx x v'.
  destruct (run_public_limit s token request c (absw w) Hc Hcnt Hlt) as (v1 & E1 & Hv1).
  set (k0 := send_bucket _ _ _) in Hv1. set (w1 := set_redis v1 (absw w)) in E1.
  assert (Hu1 : usable token v1 (w_work w) owner ob raw d n).
  { destruct Hu as [Hst ? ? ? ? ? ?]. split; try done. rewrite <- Hst. apply str_at_ext, Hv1.
    unfold k0, send_bucket, _send_rl_key, _token_key. string_ne. }
  destruct (run_burner_post s token body owner ob raw d n blob id z idx w1) as (path & v2 & Hpath & E2 & Hpost); try done;
    try (first [rewrite <- Hk; apply Hv1 | rewrite <- Hp; apply set_at_ext, Hv1 | rewrite <- Hz; apply zset_at_ext, Hv1 | rewrite <- Hidx; apply zset_at_ext, Hv1];
         unfold k0, send_bucket, _send_rl_key; string_ne).
  set (w2 := set_redis v2 _) in E2.
  assert (Erun : run_doc (public_burner_send s token body request) (absw w) = (Ok (mkSendAck id true (Some exp) (Some (n + 1)%Z)), w2)).
  { unfold public_burner_send. rewrite Hpat. cbn [negb]. rewrite run_doc_bind, E1, run_doc_bind. unfold get_token.
    pose proof (us_stored _ _ _ _ _ _ _ _ Hu1) as Hst. rewrite run_doc_bind, (run_get _ _ w1 Hc Hst), run_doc_ret, (us_meta _ _ _ _ _ _ _ _ Hu1).
    cbn [token_meta]. unfold meta_item. rewrite (us_owner _ _ _ _ _ _ _ _ Hu1), run_doc_bind, run_doc_ret, Heph. cbn [negb].
    rewrite run_doc_bind, (run_doc_fromhex _ ob) by exact (us_key _ _ _ _ _ _ _ _ Hu1). exact E2. }
  assert (A2 : absw (snd x) = w2) by (unfold x; by rewrite snd_run_absw, Erun).
  destruct Hpost as [Pm Pi Pp _ _ _ Pf]. cbn [ea_recipient ea_envelope_id burner_args] in Pm, Pi, Pf.
  assert (Hv' : v' = v2) by (unfold v'; by rewrite A2).
  split; [unfold x; by rewrite fst_run, Erun|]. split; [|split; [|split]].
  - destruct (build_meta_ok (burner_args s body owner id now) exp (burner_meta s body owner id now exp) eq_refl) as (Hwf & Hf & Ht);
      [apply Forall_nil_2|].
    exists (dumps (JObj (burner_meta s body owner id now exp))), (burner_meta s body owner id now exp).
    split; [|by rewrite loads_dumps]. rewrite Hv'. unfold str_at. by rewrite Pm.
  - intros reader Hr. rewrite fst_run, A2, (run_fetch id reader (<[id := exp]> (live now z))); [|exact Hc|exact (me_named _ _ _ _ _ _ Hm)|].
    + rewrite lookup_insert_eq. unfold blob_at. rewrite Hpath. unfold w2. cbn. by rewrite lookup_insert_eq.
    + rewrite Hr. unfold w2, zset_at. cbn [w_redis set_redis]. by rewrite Pi.
  - destruct (us_room _ _ _ _ _ _ _ _ Hu1) as [Hn0 Hn1].
    destruct (cjson_encode_law (dict_set "message_count" (JNum (n + 1)) d)) as (d' & Hl & Hex & _).
    { apply dict_set_wf; [eapply loads_wf; exact (us_meta _ _ _ _ _ _ _ _ Hu1)|constructor]. }
    exists (counted n d), d'. split; [|split; [exact Hl|]].
    + rewrite Hv'. unfold str_at. rewrite Pf; [by rewrite keys_put_eq|].
      rewrite !not_elem_of_cons. unfold _token_key. split_and!; try string_ne. apply not_elem_of_nil.
    + split; (rewrite Hex; [by rewrite dict_get_set; cbn; try apply (us_owner _ _ _ _ _ _ _ _ Hu1)|]); rewrite dict_get_set; cbn.
      * unfold MAX_MESSAGES_PER_TOKEN in *. apply Z.ltb_lt. lia.
      * by rewrite (us_owner _ _ _ _ _ _ _ _ Hu1).
  - change (tables_of (absw (snd x)) = tables_of (absw w)). by rewrite A2.
Qed.
End Properties.

Module BurnerDemo.
#[local] Program Instance demo_cjson : Cjson := {| cjson_encode d := dumps (JObj d) |}.
Next Obligation. intros d Hd. exists d. split_and!; [by apply loads_dumps|done..]. Qed.
Definition zeros (n : nat) : string := string_of_list_ascii (repeat "0"%char n).
#[local] Instance demo_sha : Sha256 := fun s => substring 0 32 (s +:+ zeros 32).
#[local] Instance demo_nacl : Nacl :=
  {| nacl_verify := fun _ _ _ => true; nacl_sign := fun _ _ => "s"; nacl_public := fun k => k;
     nacl_to_curve25519 := fun k => Ok k |}.

Definition settings : Settings := mkSettings "relay" (zeros 64) (zeros 64) 86400 1000 30 0 0 true "" 10 "".
Definition alice : string := string_of_list_ascii (repeat "a"%char 64).
Definition alice_key : string := default "" (bytes_fromhex alice).
Definition people : database := set_users [mkUser alice_key None FREE "relay" 0 None None None] empty_db.
Definition link : string := zeros 32.
Definition start : world (rstore (Redis := Mem_Redis)) :=
  World 1000 (View ∅ ∅ []) people people ∅ [] (fun _ => link) [] no_network [].
Definition linked : world (rstore (Redis := Mem_Redis)) := snd (run (create_token alice 3600 None) start).
Definition stored : dict := token_payload alice None 1000 4600.
Definition letter : BurnerSend := mkBurnerSend (zeros 64) "QUJD" (Some "a friend").
Definition anyone : RateLimit.Request := mkRequest (Some "1.2.3.4") ∅ ∅ None.
Definition name : string :=
  default "" (envelope_id (mkEnvelope (default "" (bytes_fromhex (zeros 64))) alice_key 1000 BURNER_MESSAGE_TTL "ABC")).

Lemma burner_arrives_witness :
  let x := run (public_burner_send settings link letter anyone) linked in
  fst x = Ok (mkSendAck name true (Some 87400%Z) (Some 1%Z)) /\
  fst (run (get_envelope_blob name (mkSession "tok" alice 2000)) (snd x)) = Ok "ABC".
Proof.
  destruct (burner_message_arrives settings link letter anyone alice alice_key (dumps (JObj stored)) stored 0 0 "ABC" name ∅ ∅ linked)
    as (H1 & _ & H2 & _); [..|split; [exact H1|by apply H2]].
  - reflexivity.
  - vm_compute. reflexivity.
  - vm_compute. reflexivity.
  - split; try (vm_compute; reflexivity); [vm_compute; split; [discriminate|reflexivity]|vm_compute; by eexists].
  - split; try (vm_compute; reflexivity); [vm_compute; split; [reflexivity|discriminate]|].
    eexists. split; vm_compute; reflexivity.
  - reflexivity.
  - left. split; vm_compute; reflexivity.
  - reflexivity.
  - vm_compute. reflexivity.
  - vm_compute. reflexivity.
  - vm_compute. reflexivity.
  - reflexivity.
  - vm_compute. reflexivity.
Defined.
End BurnerDemo.
