(* ===== verification/FederatedMessageFacts.v ===== *)
(** * Messages between relays: properties

    A message posted on one relay, the request its worker makes of the row, and what the relay of the
    recipient makes of the request. *)

From Stdlib Require Import Ascii String.
From stdpp Require Import prelude gmap strings list.
From S2P Require Import Prelude Json Codec CodecFacts RedisStore Models Effects Crypto Payloads Config Sessions RateLimit Deps Logic.
From S2P Require Import BlobStorage Queue QueueFacts MailboxFacts Messages MessagesFacts Groups GroupMessages GroupSync Users.
From S2P Require Import FederationClient FederationWorker FederationFacts WorkerFacts.
From S2P Require Import Federation FederationApiFacts GroupMessageFacts.

#[local] Open Scope morok_scope.

Lemma key_len h b : hex_of_len 64 h = true -> bytes_fromhex h = Some b -> string_len b = 32%Z.
Proof. intros [Hl Hh]%andb_true_iff Hb. apply Z.eqb_eq in Hl. pose proof (fromhex_len h b Hh Hb). lia. Qed.

(** ** The request of the sending relay *)

(** The body of a forward, as a relay sends it and pydantic reads it. *)
Definition read_forward (j : json) : option ForwardRequest :=
  match j with
  | JObj d =>
      match dict_get "envelope" d, dict_get "relay_pubkey_hex" d, dict_get "relay_signature_hex" d, dict_get "forwarded_at" d with
      | Some (JObj e), Some (JStr k), Some (JStr g), Some (JNum t) =>
          if valid_ForwardRequest (mkForward e k g t) then Some (mkForward e k g t) else None
      | _, _, _, _ => None
      end
  | _ => None
  end.

(** What PyNaCl promises of a signing key. *)
Class SoundNacl `{Nacl} : Prop := {
  sound_sign seed msg : string_len seed = 32%Z -> nacl_verify (nacl_public seed) msg (nacl_sign seed msg) = true;
  sound_sig seed msg : string_len seed = 32%Z -> string_len (nacl_sign seed msg) = 64%Z;
  sound_public seed : string_len seed = 32%Z -> string_len (nacl_public seed) = 32%Z
}.

Lemma sound_verify `{SoundNacl} seed msg :
  string_len seed = 32%Z -> ed25519_verify msg (nacl_sign seed msg) (nacl_public seed) = true.
Proof.
  intros Hs. pose proof (sound_sig seed msg Hs) as H1. pose proof (sound_public seed Hs) as H2. unfold ed25519_verify.
  destruct (String.eqb_spec (nacl_sign seed msg) "") as [E|_]; [by rewrite E in H1|].
  destruct (String.eqb_spec (nacl_public seed) "") as [E|_]; [by rewrite E in H2|].
  cbn [orb]. rewrite H1, H2. cbn. by apply sound_sign.
Qed.

(** The keys of a relay belong together. *)
Definition own_keys `{Nacl} (s : Settings) (seed : string) : Prop :=
  bytes_fromhex (relay_privkey_hex s) = Some seed /\ string_len seed = 32%Z /\ relay_pubkey_hex s = hex_of_bytes (nacl_public seed).

Section Sender.
  Context `{SoundNacl} `{Ipaddress} (s : Settings).

(** The forward that the relay makes of an envelope now. *)
Definition request_for (seed : string) (now : Z) (e : dict) : ForwardRequest :=
  mkForward e (relay_pubkey_hex s)
    (hex_of_bytes (nacl_sign seed (canonical_json (forward_payload e (relay_pubkey_hex s) now)))) now.

Lemma run_remote_forward seed h e ip (w : vworld) :
  own_keys s seed -> name_ok h = true -> pinned h (w_net w 0) = Some ip -> (0 <= w_now w)%Z ->
  exists rq, w_sent (snd (run_doc (remote_forward s h e) w)) = w_sent w ++ [rq] /\ rq_host rq = h /\
    rq_body rq ≫= read_forward = Some (request_for seed (w_now w) e).
Proof.
  intros (Hp & Hs & Hk) Hh Hip Hn. unfold remote_forward. rewrite run_doc_bind, run_doc_now. cbv zeta. rewrite run_signed, Hp.
  unfold ed25519_sign. rewrite Hs. cbn [Z.eqb Pos.eqb negb]. rewrite run_post, Hh, Hip. cbn [snd].
  eexists. split; [done|]. split; [done|]. cbn [rq_body mbind option_bind read_forward dict_get String.eqb Ascii.eqb Bool.eqb].
  fold (request_for seed (w_now w) e). unfold valid_ForwardRequest, hex_of_len.
  cbn [fw_relay_pubkey_hex fw_relay_signature_hex fw_forwarded_at request_for].
  pose proof (hex_of_bytes_len (nacl_public seed)) as Hl1. rewrite (sound_public seed Hs) in Hl1.
  set (sg := nacl_sign seed _). pose proof (hex_of_bytes_len sg) as Hl2. unfold sg in Hl2. rewrite (sound_sig seed _ Hs) in Hl2.
  fold sg in Hl2. rewrite <- Hk in Hl1. change (2 * 32)%Z with 64%Z in Hl1. change (2 * 64)%Z with 128%Z in Hl2.
  rewrite Hl1, Hl2, (proj2 (Z.leb_le _ _) Hn). done.
Qed.

(** A relay that trusts the key hears it. *)
Lemma request_authentic seed e t now db peer :
  own_keys s seed -> (Z.abs (now - t) <= 300)%Z ->
  select_sole (has_peer_key (nacl_public seed)) (t_peers db) = Some (Some peer) -> fp_is_trusted peer = true ->
  authentic (request_for seed t e) now db peer.
Proof.
  intros (Hp & Hs & Hk) Ht Hsel Htr. split; [|done|done]. exists (nacl_public seed). eexists.
  cbn [request_for fw_relay_pubkey_hex fw_relay_signature_hex]. rewrite bytes_fromhex_hex. split; [by rewrite Hk, bytes_fromhex_hex|].
  split; [done|]. split; [by apply sound_verify|done].
Qed.
End Sender.

(** ** The sender's row *)

(** No two users have one name. *)
Definition names_unique (l : list User) : Prop :=
  forall u u' n, u ∈ l -> u' ∈ l -> u_pubkey u <> u_pubkey u' -> u_username u = Some n -> u_username u' <> Some n.

(** The name fits, and is nobody else's here. *)
Definition welcome (sk : string) (name : option string) (db : database) : Prop :=
  names_unique (t_users db) /\
  forall n, name = Some n -> (string_len n <= USERNAME_MAX_LEN)%Z /\
    forall u, u ∈ t_users db -> u_pubkey u <> sk -> u_username u <> Some n.

Section Sender_row.
  Context (s : Settings) (peer : FederationPeer).

Lemma run_select_user p (w : vworld) : run_doc (select_user p) w = (Ok (select_one p (t_users (w_work w))), w).
Proof. unfold select_user. rewrite run_doc_sql. by destruct w. Qed.

Lemma has_key_eq k u : Users.has_key k u = true <-> u_pubkey u = k.
Proof. apply String.eqb_eq. Qed.

(** A name that no other row has meets no other row. *)
Lemma no_clash u l :
  (forall n u', u_username u = Some n -> u' ∈ l -> u_pubkey u' <> u_pubkey u -> u_username u' <> Some n) ->
  existsb (name_clash u) l = false.
Proof.
  intros Hn. apply not_true_is_false. intros (u' & Hin & [Hk Hc]%andb_true_iff)%existsb_exists.
  apply list_elem_of_In in Hin. destruct (u_username u) as [n|] eqn:Eu; [|done].
  unfold is_named in Hc. destruct (u_username u') as [n'|] eqn:Eu'; [|done]. apply String.eqb_eq in Hc as ->.
  apply (Hn n u'); [done|done| |done]. intros Ek. apply negb_true_iff in Hk. unfold Users.has_key in Hk.
  by rewrite Ek, String.eqb_refl in Hk.
Qed.

Lemma run_store_user u (w : vworld) :
  existsb (name_clash u) (t_users (w_work w)) = false ->
  exists db', run_doc (store_user u) w = (Ok tt, set_databases (w_db w) db' w).
Proof. intros Hc. unfold store_user. rewrite run_doc_bind, run_doc_sql, Hc. cbn [fst snd]. by eexists. Qed.

Lemma run_insert_user u (w : vworld) :
  select_one (Users.has_key (u_pubkey u)) (t_users (w_work w)) = None -> existsb (name_clash u) (t_users (w_work w)) = false ->
  exists db', run_doc (insert_user u) w = (Ok tt, set_databases (w_db w) db' w).
Proof.
  intros Hk Hc. unfold insert_user. rewrite run_doc_bind, run_doc_sql.
  assert (E : existsb (fun u' => Users.has_key (u_pubkey u) u' || name_clash u u') (t_users (w_work w)) = false).
  { apply not_true_is_false. intros (u' & Hin & [Hu|Hu]%orb_true_iff)%existsb_exists.
    - pose proof (List.find_none _ _ Hk u' Hin) as E. congruence.
    - assert (Ex : existsb (name_clash u) (t_users (w_work w)) = true) by (apply existsb_exists; by exists u'). congruence. }
  rewrite E. cbn [fst snd]. by eexists.
Qed.

Lemma column_of name : (forall n, name = Some n -> (string_len n <= USERNAME_MAX_LEN)%Z) ->
  let j := opt_str name in
  username_column (if json_truthy j then j else JNull) = Ok (if json_truthy j then name else None).
Proof.
  intros Hl. destruct name as [n|]; [|done]. cbn. destruct (String.eqb n ""); [done|]. cbn.
  rewrite (proj2 (Z.ltb_ge _ _)); [done|by apply Hl].
Qed.

Lemma run_refresh_sender e from_hex sk name (w : vworld) :
  bytes_fromhex from_hex = Some sk -> got "from_username" e = opt_str name -> welcome sk name (w_work w) ->
  exists db', run_doc (refresh_sender s peer e from_hex) w = (Ok false, set_databases (w_db w) db' w).
Proof.
  intros Hsk Hname [Huniq Hnew]. assert (Ew : set_databases (w_db w) (w_work w) w = w) by by destruct w.
  unfold refresh_sender. cbv zeta. rewrite Hname, run_doc_try, run_doc_bind. unfold _cache_remote_user.
  rewrite run_doc_bind, (run_doc_fromhex _ _ _ Hsk), run_doc_bind, run_select_user.
  set (j := if json_truthy (opt_str name) then opt_str name else JNull).
  assert (Hcol : username_column j = Ok (if json_truthy (opt_str name) then name else None)) by (apply column_of; intros n Hn; by apply Hnew).
  assert (Hj : json_truthy j = json_truthy (opt_str name)) by (unfold j; by destruct (json_truthy (opt_str name)) eqn:?).
  destruct (select_one _ _) as [u|] eqn:Es.
  - pose proof (select_in _ _ _ Es) as [Hin Hkey%has_key_eq]. destruct (_is_home s u); [exists (w_work w); by rewrite Ew|].
    rewrite Hj. destruct (json_truthy (opt_str name)) eqn:Et; cbn [andb].
    + destruct (negb (nonempty (u_username u))) eqn:En; cbn [andb].
      * rewrite orb_true_r. rewrite run_doc_bind, run_doc_bind. rewrite Hcol. change (of_res (Ok name)) with (ret name).
        rewrite run_doc_ret, run_doc_ret, run_doc_bind.
        destruct (run_store_user (with_name name (u_username_changed_at (with_home (fp_hostname peer) u)) (with_home (fp_hostname peer) u)) w)
          as [db' Eq]; [|rewrite Eq; by exists db'].
        apply no_clash. cbn. intros n u' -> Hu' Hne. apply (Hnew n); [done|done|]. congruence.
      * rewrite orb_false_r. destruct (negb (String.eqb _ _)); [|exists (w_work w); by rewrite Ew].
        rewrite run_doc_bind, run_doc_ret, run_doc_bind.
        destruct (run_store_user (with_home (fp_hostname peer) u) w) as [db' Eq]; [|rewrite Eq; by exists db'].
        apply no_clash. cbn. intros n u' Hu Hu' Hne. by apply (Huniq u u').
    + rewrite orb_false_r. destruct (negb (String.eqb _ _)); [|exists (w_work w); by rewrite Ew].
      rewrite run_doc_bind, run_doc_ret, run_doc_bind.
      destruct (run_store_user (with_home (fp_hostname peer) u) w) as [db' Eq]; [|rewrite Eq; by exists db'].
      apply no_clash. cbn. intros n u' Hu Hu' Hne. by apply (Huniq u u').
  - rewrite run_doc_bind, run_doc_now, run_doc_bind, Hcol. change (of_res (Ok ?x)) with (ret x). rewrite run_doc_ret.
    cbv zeta. rewrite run_doc_try, run_doc_bind.
    set (u := mkUser _ _ _ _ _ _ _ _). destruct (run_insert_user u w) as [db' Eq]; [exact Es| |rewrite Eq; by exists db'].
    apply no_clash. intros n u' Hu Hu' Hne. unfold u in Hu, Hne. cbn in Hu, Hne.
    destruct (json_truthy (opt_str name)); [|done]. by apply (Hnew n).
Qed.
End Sender_row.

(** ** A direct message at the recipient's relay *)

Section Arrival.
  Context `{Sha256} `{Nacl} (s : Settings) (body : EnvelopeIn) (name : option string).

(** The envelope as its sender signed it: the keys, the ciphertext, the signature and the id. *)
Record signed_body (sk rk blob sig id : string) : Prop := {
  sb_sender : bytes_fromhex (e_from body) = Some sk;
  sb_recipient : bytes_fromhex (e_to body) = Some rk /\ string_len rk = 32%Z;
  sb_sig : bytes_fromhex (e_sig body) = Some sig;
  sb_signed : ed25519_verify (canonical_json (envelope_payload (e_from body) (e_to body) (e_ts body) (e_ttl body) (e_blob body)))
      sig sk = true;
  sb_ttl : (1 <= e_ttl body)%Z;
  sb_blob : b64decode (e_blob body) = Some blob;
  sb_id : envelope_id (mkEnvelope sk rk (e_ts body) (e_ttl body) blob) = Some id
}.

Lemma decode_body sk rk blob sig id :
  signed_body sk rk blob sig id ->
  decode_envelope (envelope_dict body name) = Some (Decoded sk rk (e_ts body) (e_ttl body) blob sig).
Proof.
  intros [Hs [Hr _] Hg _ _ Hb _]. unfold decode_envelope, envelope_dict.
  cbn [dict_get String.eqb Ascii.eqb Bool.eqb mbind option_bind fromhex_of Crypto.int_of b64_of]. by rewrite Hs, Hr, Hb, Hg.
Qed.

(** The signature is checked, and the time. *)
Lemma verify_body sk rk blob sig id now :
  signed_body sk rk blob sig id ->
  fst (verify_envelope_signature (envelope_dict body name) 300 60 now) =
  ((now - 300 <=? e_ts body) && (e_ts body <=? now + 60))%Z.
Proof.
  intros Hb. pose proof (decode_body _ _ _ _ _ Hb) as Hd. destruct Hb as [_ [_ Hrl] _ Hv Ht _ _].
  unfold verify_envelope_signature. change (missing_fields (envelope_dict body name)) with (@nil string). cbv iota.
  rewrite Hd. cbn [d_sender d_recipient d_sig d_ttl d_ts]. destruct (ed25519_lengths _ _ _ Hv) as [H1 H2].
  rewrite H1, H2, Hrl. cbn [Z.eqb Pos.eqb negb orb]. rewrite (proj2 (Z.leb_gt _ _)) by lia.
  destruct (Z.ltb_spec (e_ts body) (now - 300)); [rewrite (proj2 (Z.leb_gt _ _)) by lia; done|].
  rewrite (proj2 (Z.leb_le _ _)) by lia. destruct (Z.ltb_spec (now + 60) (e_ts body)); [rewrite (proj2 (Z.leb_gt _ _)) by lia; done|].
  rewrite (proj2 (Z.leb_le _ _)) by lia.
  change (unsigned_of (envelope_dict body name)) with
    [("from", JStr (e_from body)); ("to", JStr (e_to body)); ("ts", JNum (e_ts body)); ("ttl", JNum (e_ttl body)); ("blob", JStr (e_blob body))].
  fold (envelope_payload (e_from body) (e_to body) (e_ts body) (e_ttl body) (e_blob body)). by rewrite Hv.
Qed.

(** The recipient lives here. *)
Definition resident (rk : string) (db : database) : Prop :=
  exists u, select_one (Users.has_key rk) (t_users db) = Some u /\ at_home_here s u = true.

Lemma dispatch_dm peer now : dispatch s (envelope_dict body name) peer now = forward_dm s (envelope_dict body name) peer.
Proof. reflexivity. Qed.

(** Too late, or too early. *)
Lemma run_forward_stale peer sk rk blob sig id (w : vworld) :
  signed_body sk rk blob sig id -> (e_ts body < w_now w - 300 \/ w_now w + 60 < e_ts body)%Z ->
  run_doc (forward_dm s (envelope_dict body name) peer) w = (Raise (HTTPException 400 "inner_envelope_invalid"), w).
Proof.
  intros Hb Ht. unfold forward_dm. rewrite run_doc_bind, run_doc_now. pose proof (verify_body _ _ _ _ _ (w_now w) Hb) as Hv.
  destruct (verify_envelope_signature _ _ _ _) as [ok err]. cbn [fst] in Hv. subst ok.
  destruct (Z.leb_spec (w_now w - 300) (e_ts body)); [|done]. rewrite (proj2 (Z.leb_gt _ _)) by lia. done.
Qed.

Lemma run_forward_dm A peer sk rk blob sig id path (w : vworld) :
  let now := w_now w in
  let a := dm_args s body id None in
  let exp := expiry (e_ts body) (e_ttl body) now (message_ttl_hard_seconds s) in
  calm w -> represents now A (w_redis w) -> signed_body sk rk blob sig id -> (now - 300 <= e_ts body <= now + 60)%Z ->
  resident rk (w_work w) -> welcome sk name (w_work w) -> (string_len blob <= max_blob_bytes s)%Z ->
  A !! id = None -> _blob_path id = Ok path -> (now < exp)%Z -> (Z.of_nat (size (box now (e_to body) A)) < MAX_INBOX_QUEUE_DEPTH)%Z ->
  exists meta v' z idx db', build_meta a exp = Ok meta /\
    run_doc (forward_dm s (envelope_dict body name) peer) w =
      (Ok (mkForwarded true id None),
       set_tasks (w_tasks w ++ [TPush [e_to body]]) (set_databases (w_db w) db' (set_redis v' (put_blob path blob w)))) /\
    posted a now exp meta z ∅ idx (w_redis w) v' /\ represents now (snd (mpost now a A)) v'.
Proof.
  intros now a exp Hc Hrep Hb Hts (u & Hu & Hhome) Hwel Hsize Hid Hpath Hexp Hroom.
  unfold forward_dm. rewrite run_doc_bind, run_doc_now. pose proof (verify_body _ _ _ _ _ now Hb) as Hv.
  fold now. destruct (verify_envelope_signature _ _ _ _) as [ok err]. cbn [fst] in Hv. subst ok.
  rewrite !(proj2 (Z.leb_le _ _)) by lia. cbn [andb negb]. rewrite (decode_body _ _ _ _ _ Hb). cbn [d_recipient d_sender d_ts d_ttl d_blob].
  rewrite run_doc_bind, run_select_user, Hu, Hhome. cbn [negb]. rewrite (proj2 (Z.ltb_ge _ _)) by done.
  rewrite (sb_id _ _ _ _ _ Hb), run_doc_bind, (run_exists _ A), Hid by done. rewrite bool_decide_false by by intros [? ?].
  change (got "from" (envelope_dict body name)) with (JStr (e_from body)).
  change (got "to" (envelope_dict body name)) with (JStr (e_to body)).
  change (got "sig" (envelope_dict body name)) with (JStr (e_sig body)). cbn [text_of]. change (of_res (Ok ?x)) with (ret x).
  rewrite run_doc_bind, run_doc_ret, run_doc_bind, run_doc_ret, run_doc_bind, run_doc_ret.
  rewrite run_doc_bind.
  change (forward_args s _ _ _ _ _ _) with a.
  destruct (run_write_dm s body A w id blob None path Hc Hrep Hid Hpath Hexp Hroom) as (meta & v' & z & idx & Hm & E & Hp & Hrep').
  fold a in E. rewrite E, run_doc_bind.
  destruct (run_refresh_sender s peer (envelope_dict body name) (e_from body) sk name (set_redis v' (put_blob path blob w)))
    as [db' Er]; [exact (sb_sender _ _ _ _ _ Hb)|done|exact Hwel|].
  rewrite Er, run_doc_bind, run_doc_spawn, run_doc_ret. exists meta, v', z, idx, db'. done.
Qed.
End Arrival.

(** ** A message handed to a group's host *)

Section Retarget.
  Context `{Sha256} `{Nacl} (s : Settings) (body : EnvelopeIn) (name : option string) (gid : string).
Abbreviation own := (relay_name s).
Abbreviation gtext := (uuid_to_string gid).
Abbreviation e := (to_host_dict gid body name).

(** The message as the host reads it. *)
Definition retargeted : EnvelopeIn := mkEnvelopeIn (e_from body) gtext (e_ts body) (e_ttl body) (e_blob body) (e_sig body).

Lemma gtext_nonempty : uuid_of_string gtext = Some gid -> gtext <> "".
Proof. intros Hu E. rewrite E in Hu. by vm_compute in Hu. Qed.

Lemma dispatch_to_host peer now :
  uuid_of_string gtext = Some gid ->
  dispatch s e peer now = (let! _ := check_group_envelope e now in _handle_group_forward s e peer).
Proof.
  intros Hu. unfold dispatch. cbv zeta.
  change (get_truthy "group_id" e) with (negb (String.eqb gtext "")). by rewrite (proj2 (String.eqb_neq _ _) (gtext_nonempty Hu)).
Qed.

Lemma run_check_group sk rk blob sig id (w : vworld) :
  signed_body body sk rk blob sig id -> (w_now w - 300 <= e_ts body <= w_now w + 60)%Z ->
  run_doc (check_group_envelope e (w_now w)) w = (Ok tt, w).
Proof.
  intros [Hs _ Hg Hv _ _ _] Ht. unfold check_group_envelope.
  change (dict_get "from" e ≫= fromhex_of) with (bytes_fromhex (e_from body)).
  change (dict_get "sig" e ≫= fromhex_of) with (bytes_fromhex (e_sig body)).
  change (dict_get "ts" e ≫= Crypto.int_of) with (Some (e_ts body)).
  rewrite Hs, Hg. destruct (ed25519_lengths _ _ _ Hv) as [-> ->]. cbn [Z.eqb Pos.eqb negb orb].
  rewrite !(proj2 (Z.ltb_ge _ _)) by lia. cbn [orb].
  change (unsigned_of e) with
    [("from", JStr (e_from body)); ("to", JStr (e_to body)); ("ts", JNum (e_ts body)); ("ttl", JNum (e_ttl body)); ("blob", JStr (e_blob body))].
  fold (envelope_payload (e_from body) (e_to body) (e_ts body) (e_ttl body) (e_blob body)). by rewrite Hv.
Qed.

Lemma run_read_group sk rk blob sig id gmid (w : vworld) :
  signed_body body sk rk blob sig id -> uuid_of_string gtext = Some gid -> (string_len blob <= max_blob_bytes s)%Z ->
  compute_group_envelope_id sk gid (e_ts body) blob = Some gmid ->
  run_doc (read_group_message s e) w = (Ok (mkForwardedMessage gid sk retargeted name blob gmid), w).
Proof.
  intros [Hs _ Hg _ _ Hb _] Hu Hsz Hid. unfold read_group_message.
  change (got "group_id" e) with (JStr gtext). cbn [uuid_of]. rewrite Hu.
  change (dict_get "from" e) with (Some (JStr (e_from body))). cbn [text_of]. change (of_res (Ok ?x)) with (ret x).
  rewrite run_doc_bind, run_doc_ret, Hs.
  change (dict_get "ts" e ≫= Crypto.int_of) with (Some (e_ts body)).
  change (dict_get "ttl" e ≫= Crypto.int_of) with (Some (e_ttl body)).
  change (dict_get "blob" e) with (Some (JStr (e_blob body))). change (dict_get "sig" e) with (Some (JStr (e_sig body))).
  cbn [b64_of text_of]. rewrite Hb, (proj2 (Z.ltb_ge _ _)), Hid by done. change (of_res (Ok ?x)) with (ret x).
  rewrite run_doc_bind, run_doc_ret, run_doc_bind, run_doc_ret, run_doc_bind.
  change (got "from_username" e) with (opt_str name). by destruct name.
Qed.

Lemma run_to_host g peer sk rk blob sig id gmid path zs p idx (w : vworld) :
  let db := w_work w in
  let l := Loaded g (members_of gid db) in
  let keys := recipients_of l sk in
  let members_here := map hex_of_bytes (List.filter (here own (homes keys db)) keys) in
  let a := group_fanout_args s (g_id g) retargeted name gmid members_here in
  let exp := expiry (e_ts body) (e_ttl body) (w_now w) (message_ttl_hard_seconds s) in
  calm w -> signed_body body sk rk blob sig id -> uuid_of_string gtext = Some gid ->
  (w_now w - 300 <= e_ts body <= w_now w + 60)%Z -> (string_len blob <= max_blob_bytes s)%Z ->
  compute_group_envelope_id sk gid (e_ts body) blob = Some gmid -> _blob_path gmid = Ok path ->
  select_one (live_group gid) (t_groups db) = Some g -> _group_home_relay s g = own -> _is_member l sk = true ->
  rv_keys (w_redis w) !! _envelope_meta_key gmid = None -> NoDup keys -> members_here <> [] -> (w_now w < exp)%Z ->
  (forall r, r ∈ members_here -> zset_at (_inbox_key r) (w_redis w) = Some (zs r)) ->
  set_at (_pending_recipients_key gmid) (w_redis w) = Some p -> zset_at _BLOB_EXPIRY_INDEX_KEY (w_redis w) = Some idx ->
  exists v' db' tk,
    run_doc (dispatch s e peer (w_now w)) w =
      (Ok (mkForwarded true gmid None),
       set_databases (w_db w) db' (set_tokens tk (set_tasks (w_tasks w ++ [TPush members_here]) (set_redis v' (put_blob path blob w))))) /\
    fanned_out a zs (w_now w) exp p (w_redis w) v'.
Proof.
  intros db l keys members_here a exp Hc Hb Hu Ht Hsz Hid Hpath Hg Hhome Hmem Hnew Hnd Hne Hexp Hz Hp Hidx.
  assert (Ew : set_databases (w_db w) (w_work w) w = w) by by destruct w.
  rewrite (dispatch_to_host peer _ Hu), run_doc_bind, (run_check_group _ _ _ _ _ w Hb Ht).
  unfold _handle_group_forward. cbv zeta. change (get_is_str "group_forward_mode" "to_host" e) with true. cbn [orb negb].
  rewrite run_doc_bind, (run_read_group _ _ _ _ _ gmid w Hb Hu Hsz Hid). cbn [fm_id fm_gid fm_sender fm_envelope fm_username fm_blob].
  rewrite run_doc_bind. unfold envelope_exists. rewrite run_doc_bind, run_doc_redis, rrun_rcall by done.
  cbn [documented fst snd as_int res_of]. rewrite Hnew, run_doc_ret. cbn [Z.eqb negb].
  assert (Er : set_redis (w_redis w) w = w) by by destruct w. rewrite Er.
  unfold forward_to_host. rewrite run_doc_bind. unfold fetch_group. rewrite run_doc_sql. cbn [fst snd fm_gid]. rewrite Ew. fold db. rewrite Hg.
  cbn [mbind option_bind]. fold l. cbn [l_group]. change (l_group l) with g. rewrite Hhome, String.eqb_refl. cbn [negb fm_sender].
  rewrite Hmem. cbn [negb fm_id fm_blob]. rewrite run_doc_bind, (run_write_blob gmid path) by done. set (w1 := put_blob path blob w).
  destruct (run_fanout_host s retargeted w1 l name gmid sk zs p idx) as (v' & rows & tk & m & E & Hf & _); try done.
  { exact (sb_sender _ _ _ _ _ _ Hb). }
  cbn [fm_envelope fm_username]. rewrite run_doc_bind, E, run_doc_ret. by exists v', (set_fedqueue (t_fedqueue db ++ rows) db), tk.
Qed.
End Retarget.

(** ** Retries *)

(** The time between the row and the attempt after [n] failures. *)
Fixpoint waited (n : nat) : Z := match n with O => 0 | S n' => waited n' + backoff_seconds (Z.of_nat n) end.

Lemma backoff_nonneg k : (0 <= backoff_seconds k)%Z.
Proof.
  unfold backoff_seconds, BACKOFF_SCHEDULE. cbn [schedule_get].
  repeat match goal with |- context [if ?b then _ else _] => destruct b; [lia|] end. by vm_compute.
Qed.

Lemma waited_four n : (4 <= n)%nat -> (510 <= waited n)%Z.
Proof.
  induction n as [|n IH]; [lia|]. intros Hn. destruct (decide (n = 3)%nat) as [->|Hne]; [by vm_compute|].
  cbn [waited]. pose proof (backoff_nonneg (Z.of_nat (S n))). specialize (IH ltac:(lia)). lia.
Qed.

(** ** Properties *)

(** What relay B needs to take a message of relay A. *)
Record ready `{Redis} `{Sha256} `{Nacl} (sB : Settings) (body : EnvelopeIn) (sk rk blob id : string) (name : option string)
    (key : string) (t : Z) (peer : FederationPeer) (A : mailbox) (w : world rstore) : Prop := {
  rd_calm : calm w /\ w_work w = w_db w;
  rd_peer : select_sole (has_peer_key key) (t_peers (w_db w)) = Some (Some peer) /\ fp_is_trusted peer = true;
  rd_lately : (Z.abs (w_now w - t) <= 300)%Z;
  rd_fresh : (w_now w - 300 <= e_ts body <= w_now w + 60)%Z;
  rd_resident : resident sB rk (w_db w);
  rd_welcome : welcome sk name (w_db w);
  rd_size : (string_len blob <= max_blob_bytes sB)%Z;
  rd_box : represents (w_now w) A (w_redis (absw w)) /\ A !! id = None;
  rd_room : (Z.of_nat (size (box (w_now w) (e_to body) A)) < MAX_INBOX_QUEUE_DEPTH)%Z;
  rd_unexpired : (w_now w < expiry (e_ts body) (e_ttl body) (w_now w) (message_ttl_hard_seconds sB))%Z
}.

Lemma admitted_signed `{Sha256} `{Nacl} s body current now sk rk blob id :
  valid_EnvelopeIn body = true -> admitted s body current now sk rk blob id -> exists sig, signed_body body sk rk blob sig id.
Proof.
  intros Hv [Hf Hs Hr (sig & Hg & Hver) _ [Hb _] Hid]. exists sig. unfold valid_EnvelopeIn in Hv.
  repeat (apply andb_true_iff in Hv as [Hv ?]). zify_bool. split; try done.
  - by rewrite Hf.
  - split; [done|]. by eapply key_len.
Qed.

Section Properties.
  Context `{R : Redis} `{Sha256} `{Hn : SoundNacl} `{Ipaddress} (sA sB : Settings).

Lemma run_arrival (body : EnvelopeIn) (reader : Session) sk rk blob sig id name key t peer fb A (w : world rstore) :
  signed_body body sk rk blob sig id -> ready sB body sk rk blob id name key t peer A w -> well_formed_id id = true ->
  authentic fb (w_now w) (w_db w) peer -> fw_envelope fb = envelope_dict body name -> pubkey_hex reader = e_to body ->
  let x := run (with_session (forward sB fb)) w in
  fst x = Ok (mkForwarded true id None) /\ w_tasks (snd x) = w_tasks w ++ [TPush [e_to body]] /\
  fst (run (get_envelope_blob id reader) (snd x)) = Ok blob.
Proof.
  intros Hb [[Hc Hw] _ _ Hf Hres Hwel Hsz [Hrep Hid] Hroom Hexp] Hwf Ha He Hreader x.
  destruct (well_formed_path id Hwf) as [path Hpath].
  assert (Hw' : w_work (absw w) = w_db w) by exact Hw.
  destruct (run_forward_dm sB body name A peer sk rk blob sig id path (absw w)) as (meta & v' & z & idx & db' & Hm & E & Hpost & _);
    try done; rewrite ?Hw'; try done.
  assert (E1 : run_doc (with_session (forward sB fb)) (absw w) =
    (Ok (mkForwarded true id None), set_tasks (w_tasks w ++ [TPush [e_to body]]) (set_databases db' db' (set_redis v' (put_blob path blob (absw w)))))).
  { rewrite run_with_session, (run_forward_from sB fb peer) by (rewrite Hw'; exact Ha).
    rewrite He, dispatch_dm, E. done. }
  assert (E2 : absw (snd x) = snd (run_doc (with_session (forward sB fb)) (absw w))) by (unfold x; by rewrite snd_run_absw).
  rewrite E1 in E2. cbn [snd] in E2. split_and!.
  - unfold x. by rewrite fst_run, E1.
  - change (w_tasks (absw (snd x)) = w_tasks w ++ [TPush [e_to body]]). by rewrite E2.
  - destruct Hpost as [_ Pi _ _ _ _ _]. cbn [ea_recipient ea_envelope_id dm_args] in Pi.
    rewrite fst_run, (run_fetch id reader (<[id := expiry (e_ts body) (e_ttl body) (w_now w) (message_ttl_hard_seconds sB)]> (live (w_now (absw w)) z)) (absw (snd x))).
    + rewrite lookup_insert_eq, E2. unfold blob_at. rewrite Hpath. cbn. by rewrite lookup_insert_eq.
    + by rewrite E2.
    + done.
    + rewrite E2, Hreader. unfold zset_at. cbn [w_redis set_redis set_databases set_tasks]. by rewrite Pi.
Qed.


(** Late retries are for nothing.  The relay of the recipient takes a message for five minutes after
    the time its sender signed.  A message dated no later than a minute after its row was made, whose
    first four attempts failed, is refused at the next attempt and every later one, up to the
    eleventh; the refusal changes nothing at the recipient's relay. *)
Theorem late_retries_refused (body : EnvelopeIn) sk rk blob sig id name peer fb created n (w : world rstore) :
  w_work w = w_db w -> signed_body body sk rk blob sig id -> (e_ts body <= created + 60)%Z ->
  (4 <= n)%nat -> (created + waited n <= w_now w)%Z ->
  authentic fb (w_now w) (w_db w) peer -> fw_envelope fb = envelope_dict body name ->
  let x := run (with_session (forward sB fb)) w in
  fst x = Raise (HTTPException 400 "inner_envelope_invalid") /\ absw (snd x) = absw w.
Proof.
  intros Hw Hb Hts Hn4 Hwait Ha He x. pose proof (waited_four n Hn4) as H510.
  assert (E : run_doc (with_session (forward sB fb)) (absw w) = (Raise (HTTPException 400 "inner_envelope_invalid"), absw w)).
  { apply session_same; [exact Hw|]. rewrite (run_forward_from sB fb peer) by (rewrite <- Hw in Ha; exact Ha).
    rewrite He, dispatch_dm. apply (run_forward_stale sB body name peer sk rk blob sig id (absw w) Hb). left.
    change (w_now (absw w)) with (w_now w). lia. }
  unfold x. by rewrite fst_run, snd_run_absw, E.
Qed.

(** A forwarded message is bound neither to its group nor to the group's rules.  The relay that
    forwards names the group in fields that nobody signs, and the host compares the receiver that was
    signed with nothing, nor asks whether a channel's sender is an admin.  So a message that a member
    signed for one person, or for another group, is taken for the group that the relay names: the
    members here get it, and can fetch the ciphertext. *)
Theorem message_retargeted (body : EnvelopeIn) sk rk blob sig id name gid g gmid path zs p idx peer fb (w : world rstore) :
  let db := w_db w in
  let v := w_redis (absw w) in
  let l := Loaded g (members_of gid db) in
  let keys := recipients_of l sk in
  let members_here := map hex_of_bytes (List.filter (here (relay_name sB) (homes keys db)) keys) in
  let a := group_fanout_args sB (g_id g) (retargeted body gid) name gmid members_here in
  calm w -> w_work w = db -> signed_body body sk rk blob sig id -> string_len gid = 16%Z ->
  (w_now w - 300 <= e_ts body <= w_now w + 60)%Z -> (string_len blob <= max_blob_bytes sB)%Z ->
  compute_group_envelope_id sk gid (e_ts body) blob = Some gmid -> well_formed_id gmid = true -> _blob_path gmid = Ok path ->
  select_one (live_group gid) (t_groups db) = Some g -> _group_home_relay sB g = relay_name sB -> _is_member l sk = true ->
  rv_keys v !! _envelope_meta_key gmid = None -> NoDup keys -> members_here <> [] ->
  (w_now w < expiry (e_ts body) (e_ttl body) (w_now w) (message_ttl_hard_seconds sB))%Z ->
  (forall r, r ∈ members_here -> zset_at (_inbox_key r) v = Some (zs r)) ->
  set_at (_pending_recipients_key gmid) v = Some p -> zset_at _BLOB_EXPIRY_INDEX_KEY v = Some idx ->
  authentic fb (w_now w) db peer -> fw_envelope fb = to_host_dict gid body name ->
  let x := run (with_session (forward sB fb)) w in
  fst x = Ok (mkForwarded true gmid None) /\ w_tasks (snd x) = w_tasks w ++ [TPush members_here] /\
  forall reader, pubkey_hex reader ∈ eligible a zs (w_now w) -> fst (run (get_envelope_blob gmid reader) (snd x)) = Ok blob.
Proof.
  intros db v l keys members_here a Hc Hw Hb Hu%uuid_text_parse Ht Hsz Hid Hwf Hpath Hg Hhome Hmem Hnew Hnd Hne Hexp Hz Hp Hidx Ha He x.
  assert (Hw' : w_work (absw w) = db) by exact Hw.
  destruct (run_to_host sB body name gid g peer sk rk blob sig id gmid path zs p idx (absw w)) as (v' & db' & tk & E & Hf);
    try done; rewrite ?Hw'; try done.
  rewrite Hw' in E, Hf. fold db l keys members_here a in E, Hf. change (w_now (absw w)) with (w_now w) in *.
  assert (E1 : run_doc (with_session (forward sB fb)) (absw w) =
    (Ok (mkForwarded true gmid None),
     set_databases db' db' (set_tokens tk (set_tasks (w_tasks w ++ [TPush members_here]) (set_redis v' (put_blob path blob (absw w))))))).
  { rewrite run_with_session, (run_forward_from sB fb peer) by (rewrite Hw'; exact Ha). rewrite He.
    change (w_now (absw w)) with (w_now w). by rewrite E. }
  assert (E2 : absw (snd x) = snd (run_doc (with_session (forward sB fb)) (absw w))) by (unfold x; by rewrite snd_run_absw).
  rewrite E1 in E2. cbn [snd] in E2. split_and!.
  - unfold x. by rewrite fst_run, E1.
  - change (w_tasks (absw (snd x)) = w_tasks w ++ [TPush members_here]). by rewrite E2.
  - intros reader Hin. assert (Hroom : has_room (w_now w) zs (pubkey_hex reader) = true /\ pubkey_hex reader ∈ fa_recipients a)
      by (by apply list_elem_of_filter in Hin).
    destruct Hroom as [Hroom Hrs].
    rewrite fst_run, (run_fetch gmid reader (fanned gmid (w_now w) (expiry (e_ts body) (e_ttl body) (w_now w) (message_ttl_hard_seconds sB))
      zs (pubkey_hex reader)) (absw (snd x))).
    + unfold fanned. rewrite Hroom, lookup_insert_eq, E2. unfold blob_at. rewrite Hpath. cbn. by rewrite lookup_insert_eq.
    + by rewrite E2.
    + done.
    + rewrite E2. by apply (fanned_inbox _ _ _ _ _ _ _ Hf).
Qed.
End Properties.

(** ** Witnesses *)

Module FederatedDemo.
Import MessagesDemo.
#[local] Instance fed_sha : Sha256 := demo_sha.
#[local] Instance fed_nacl : Nacl :=
  {| nacl_verify := fun _ _ _ => true; nacl_sign := fun _ _ => zeros 64; nacl_public := fun k => k;
     nacl_to_curve25519 := fun k => Ok k |}.
#[local] Instance fed_sound : SoundNacl.
Proof. by split; intros. Qed.
#[local] Instance fed_ip : Ipaddress := fun _ => Some (IpFlags false false false false false false).

(** alice's relay knows that dora lives at relay B, which trusts the key of alice's relay. *)
Definition dora : string := twice 32 "ee".
Definition seed : string := zeros 32.
Definition settings_a : Settings := mkSettings "relay" (hex_of_bytes seed) (hex_of_bytes seed) 86400 1000 30 0 0 true "" 10 "".
Definition settings_b : Settings := mkSettings "b.example" (zeros 64) (zeros 64) 86400 1000 30 0 0 true "" 10 "".
Definition people_a : database := set_users [user alice "relay"; user dora "b.example"] empty_db.
Definition relay_a : world (rstore (Redis := Mem_Redis)) :=
  World 1000%Z (View ∅ ∅ []) people_a people_a ∅ [] (fun _ => "fresh") [] (fun _ => Answer (Some ["192.0.2.1"]) None) [].
Definition peer_a : FederationPeer := mkPeer "relay" seed true None 0.

Definition circle_gid : string := twice 16 "a".
Definition frank : string := twice 32 "ff".
Definition channel : Group :=
  mkGroup circle_gid (key_of frank) "ABC" true 86400 None None false 50 None 0 None.
Definition people_b : database :=
  set_groups [channel] (set_members [mkMember circle_gid (key_of frank) true 0; mkMember circle_gid (key_of alice) false 0]
    (set_peers [peer_a] (set_users [user dora "b.example"; user frank "b.example"] empty_db))).
Definition relay_b : world (rstore (Redis := Mem_Redis)) :=
  World 1010%Z (View ∅ ∅ []) people_b people_b ∅ [] (fun _ => "fresh") [] no_network [].

Definition note : EnvelopeIn := letter_to dora.
Definition note_id : string := name_to dora.

Lemma note_signed : signed_body note (key_of alice) (key_of dora) "ABC" (default "" (bytes_fromhex (e_sig note))) note_id.
Proof. split; try (vm_compute; reflexivity). - split; vm_compute; reflexivity. - vm_compute; discriminate. Qed.

Lemma note_admitted : admitted settings_a note (session alice) 1000 (key_of alice) (key_of dora) "ABC" note_id.
Proof.
  split; try (vm_compute; reflexivity).
  - eexists. split; vm_compute; reflexivity.
  - vm_compute. split; discriminate.
  - vm_compute. split; [reflexivity|discriminate].
Qed.


Lemma note_authentic e t : (Z.abs (w_now relay_b - t) <= 300)%Z -> authentic (request_for settings_a seed t e) (w_now relay_b) people_b peer_a.
Proof. intros Ht. apply request_authentic; [split_and!; vm_compute; reflexivity|exact Ht|vm_compute; reflexivity|reflexivity]. Qed.

Definition much_later : world (rstore (Redis := Mem_Redis)) := set_now 1600 relay_b.
Lemma late_witness :
  let fb := request_for settings_a seed 1600 (envelope_dict note None) in
  let x := run (with_session (forward settings_b fb)) much_later in
  fst x = Raise (HTTPException 400 "inner_envelope_invalid") /\ absw (snd x) = absw much_later.
Proof.
  apply (late_retries_refused settings_b note (key_of alice) (key_of dora) "ABC" (default "" (bytes_fromhex (e_sig note))) note_id None
    peer_a (request_for settings_a seed 1600 (envelope_dict note None)) 1000 4 much_later).
  - reflexivity.
  - exact note_signed.
  - vm_compute. discriminate.
  - reflexivity.
  - vm_compute. discriminate.
  - apply request_authentic; [split_and!; vm_compute; reflexivity|vm_compute; discriminate|vm_compute; reflexivity|reflexivity].
  - reflexivity.
Defined.

(** alice's note to dora, handed to the channel of frank, in which alice may only read. *)
Definition post_id : string := default "" (compute_group_envelope_id (key_of alice) circle_gid 1000 "ABC").
Lemma retargeted_witness :
  let fb := request_for settings_a seed 1010 (to_host_dict circle_gid note None) in
  let x := run (with_session (forward settings_b fb)) relay_b in
  fst x = Ok (mkForwarded true post_id None) /\ fst (run (get_envelope_blob post_id (session frank)) (snd x)) = Ok "ABC".
Proof.
  destruct (message_retargeted settings_b note (key_of alice) (key_of dora) "ABC" (default "" (bytes_fromhex (e_sig note))) note_id None
    circle_gid channel post_id (match _blob_path post_id with Ok p => p | Raise _ => "" end) (fun _ => ∅) ∅ ∅ peer_a
    (request_for settings_a seed 1010 (to_host_dict circle_gid note None)) relay_b) as (H1 & _ & H2); [..|split; [exact H1|apply H2]].
  - reflexivity.
  - reflexivity.
  - exact note_signed.
  - vm_compute. reflexivity.
  - vm_compute. split; discriminate.
  - vm_compute. discriminate.
  - vm_compute. reflexivity.
  - vm_compute. reflexivity.
  - vm_compute. reflexivity.
  - vm_compute. reflexivity.
  - reflexivity.
  - vm_compute. reflexivity.
  - vm_compute. reflexivity.
  - vm_compute. repeat constructor; intros Hin; by apply not_elem_of_nil in Hin.
  - vm_compute. discriminate.
  - vm_compute. reflexivity.
  - intros r _. vm_compute. reflexivity.
  - vm_compute. reflexivity.
  - vm_compute. reflexivity.
  - apply note_authentic. vm_compute. discriminate.
  - reflexivity.
  - vm_compute. constructor.
Defined.
End FederatedDemo.
