(* ===== verification/PullFacts.v ===== *)
(** * Copies of groups between relays: properties

    What the host gives to a relay that asks for a group, and that the copy made of it is the group. *)

From Stdlib Require Import Ascii String.
From stdpp Require Import prelude gmap strings list.
From S2P Require Import Prelude Json Codec CodecFacts RedisStore Models Effects Crypto Payloads Config Sessions RateLimit Deps Logic.
From S2P Require Import MessagesFacts SealedFacts Groups GroupSync Federation FederationApiFacts SnapshotFacts.

#[local] Open Scope morok_scope.

(** ** What the host gives *)

Section Pull.
  Context `{Nacl} (s : Settings) (body : PullSnapshotRequest).

(** The request is fresh, signed with the key of the one trusted peer of that key, and for a live
    group of this relay and a member of it. *)
Record may_pull (now : Z) (db : database) (l : loaded) : Prop := {
  pu_fresh : (Z.abs (now - pl_timestamp body) <= 300)%Z;
  pu_signed : exists key sig peer,
    bytes_fromhex (pl_relay_pubkey_hex body) = Some key /\ bytes_fromhex (pl_relay_signature_hex body) = Some sig /\
    ed25519_verify (canonical_json (pull_snapshot_payload (pl_group_id body) (pl_caller_pubkey_hex body)
                      (pl_relay_pubkey_hex body) (pl_timestamp body))) sig key = true /\
    select_sole (has_peer_key key) (t_peers db) = Some (Some peer) /\ fp_is_trusted peer = true;
  pu_group : exists gid g, uuid_of_string (pl_group_id body) = Some gid /\ select_one (live_group gid) (t_groups db) = Some g /\
    l = Loaded g (members_of gid db) /\ _group_home_relay s g = relay_name s;
  pu_member : exists caller, bytes_fromhex (pl_caller_pubkey_hex body) = Some caller /\ _is_member l caller = true
}.

Lemma run_fetch_group gid (w : vworld) :
  run_doc (fetch_group gid) w = (Ok (g ← select_one (live_group gid) (t_groups (w_work w)); Some (Loaded g (members_of gid (w_work w)))), w).
Proof. unfold fetch_group. rewrite run_doc_sql. cbn [fst snd]. by destruct w. Qed.

Lemma run_pull (w : vworld) :
  (exists l, may_pull (w_now w) (w_work w) l /\
     run_doc (pull_group_snapshot s body) w = (Ok (_serialize_group_for_snapshot s l (w_now w)), w)) \/
  (exists e, run_doc (pull_group_snapshot s body) w = (Raise e, w) /\ forall l, ~ may_pull (w_now w) (w_work w) l).
Proof.
  unfold pull_group_snapshot. rewrite run_doc_bind, run_doc_now.
  destruct (Z.ltb_spec 300 (Z.abs (w_now w - pl_timestamp body))); [right; eexists; split; [done|]; intros l []; lia|].
  destruct (bytes_fromhex (pl_relay_pubkey_hex body)) as [key|] eqn:Ek;
    [|right; eexists; split; [done|]; intros l [_ (? & ? & ? & ? & _) _ _]; congruence].
  destruct (bytes_fromhex (pl_relay_signature_hex body)) as [sig|] eqn:Es;
    [|right; eexists; split; [done|]; intros l [_ (? & ? & ? & ? & ? & _) _ _]; congruence].
  destruct (uuid_of_string (pl_group_id body)) as [gid|] eqn:Eg;
    [|right; eexists; split; [done|]; intros l [_ _ (? & ? & ? & _) _]; congruence].
  destruct (bytes_fromhex (pl_caller_pubkey_hex body)) as [caller|] eqn:Ec;
    [|right; eexists; split; [done|]; intros l [_ _ _ (? & ? & _)]; congruence].
  cbv zeta. destruct (ed25519_verify _ sig key) eqn:Ev; cbn [negb];
    [|right; eexists; split; [done|]; intros l [_ (? & ? & ? & ? & ? & ? & _) _ _]; congruence].
  rewrite run_doc_bind, run_trusted_peer. destruct (select_sole _ _) as [[p|]|] eqn:Ep;
    [|right; eexists; split; [done|]; intros l [_ (? & ? & ? & ? & ? & _ & ? & _) _ _]; congruence..].
  destruct (fp_is_trusted p) eqn:Et; [|right; eexists; split; [done|]; intros l [_ (? & ? & ? & ? & ? & _ & ? & ?) _ _]; congruence].
  rewrite run_doc_bind, run_fetch_group.
  destruct (select_one (live_group gid) _) as [g|] eqn:Esel; cbn [mbind option_bind];
    [|right; eexists; split; [done|]; intros l [_ _ (? & ? & ? & ? & _) _]; congruence].
  cbn [l_group]. destruct (String.eqb_spec (_group_home_relay s g) (relay_name s)) as [Eh|Eh]; cbn [negb].
  2: { right. eexists. split; [done|]. intros l [_ _ (gid' & g' & ? & ? & _ & ?) _]. congruence. }
  set (l := Loaded g _). destruct (_is_member l caller) eqn:Em; cbn [negb].
  - left. exists l. split; [|done]. split; [done|by exists key, sig, p|by exists gid, g|by exists caller].
  - right. eexists. split; [done|]. intros l' [_ _ (gid' & g' & ? & ? & -> & _) (c & ? & Hm)].
    assert (gid' = gid) as -> by congruence. assert (g' = g) as -> by congruence. assert (c = caller) as -> by congruence.
    unfold l in Em. congruence.
Qed.

Lemma may_pull_fun now db l l' : may_pull now db l -> may_pull now db l' -> l = l'.
Proof.
  intros [_ _ (gid & g & ? & ? & -> & _) _] [_ _ (gid' & g' & ? & ? & -> & _) _].
  assert (gid' = gid) as -> by congruence. by assert (g' = g) as -> by congruence.
Qed.
End Pull.

(** ** Reading back what the host wrote *)

(** The group and its members are within the limits of the protocol and of the columns. *)
Record sendable (g : Group) (ms : list GroupMember) : Prop := {
  sn_id : string_len (g_id g) = 16%Z;
  sn_creator : string_len (g_creator_pubkey g) = 32%Z;
  sn_name : (string_len (g_name_encrypted g) <= GROUP_NAME_MAX_BYTES)%Z;
  sn_max : (1 <= g_max_members g <= PREMIUM_TIER_MAX_MEMBERS)%Z;
  sn_ttl : (0 < g_default_ttl_seconds g <= 30 * 86400)%Z;
  sn_slug : forall x, g_slug g = Some x -> (string_len x <= 30)%Z;
  sn_expires : forall x, g_expires_at g = Some x -> (- 2 ^ 63 <= x < 2 ^ 63)%Z;
  sn_count : (Z.of_nat (length ms) <= PREMIUM_TIER_MAX_MEMBERS)%Z;
  sn_members : forall m, m ∈ ms -> gm_group_id m = g_id g /\ string_len (gm_pubkey m) = 32%Z /\ (- 2 ^ 63 <= gm_joined_at m < 2 ^ 63)%Z;
  sn_distinct : NoDup (map gm_pubkey ms)
}.

(** The copy of [g] that [host] hosts, made at [now]. *)
Definition copy_of (host : string) (now : Z) (g : Group) : Group :=
  mkGroup (g_id g) (g_creator_pubkey g) (g_name_encrypted g) (g_is_channel g) (g_default_ttl_seconds g) (g_slug g) (g_expires_at g)
    (g_anonymous_senders g) (g_max_members g) (Some host) now None.

Definition member_fields (m : GroupMember) : dict :=
  [("pubkey_hex", JStr (hex_of_bytes (gm_pubkey m))); ("is_admin", JBool (gm_is_admin m)); ("joined_at", JNum (gm_joined_at m))].

Lemma hex_64 b : string_len b = 32%Z -> string_len (hex_of_bytes b) = 64%Z.
Proof. intros Hb. pose proof (hex_of_bytes_len b) as H. apply andb_true_iff in H as [H _]. apply Z.eqb_eq in H. lia. Qed.

Lemma put_pubkey_new pk m l : pk ∉ l.*1 -> put_pubkey pk m l = l ++ [(pk, m)].
Proof.
  induction l as [|[k v] l IH]; [done|]. cbn. intros [Hk Hl]%not_elem_of_cons.
  rewrite (proj2 (String.eqb_neq _ _)) by done. by rewrite IH.
Qed.

Lemma snap_pubkeys_members ms :
  (forall m, m ∈ ms -> string_len (gm_pubkey m) = 32%Z) -> NoDup (map gm_pubkey ms) ->
  snap_pubkeys (map member_dict ms) = map (fun m => (gm_pubkey m, member_fields m)) ms.
Proof.
  intros Hlen Hnd. unfold snap_pubkeys.
  match goal with |- fold_left ?f _ _ = _ => set (step := f) end.
  assert (Hgen : forall l, (forall m, m ∈ ms -> gm_pubkey m ∉ l.*1) ->
    fold_left step (map member_dict ms) l = l ++ map (fun m => (gm_pubkey m, member_fields m)) ms); [|by rewrite Hgen by (intros; apply not_elem_of_nil)].
  induction ms as [|m ms IH]; intros l Hl; [by rewrite app_nil_r|]. cbn [map fold_left]. apply NoDup_cons in Hnd as [Hm Hnd].
  assert (Hs : step l (member_dict m) = l ++ [(gm_pubkey m, member_fields m)]).
  { unfold step. cbn [member_dict dict_get String.eqb Ascii.eqb Bool.eqb key_of_hex64].
    rewrite hex_64 by (apply Hlen; by left). cbn [Z.eqb Pos.eqb]. rewrite bytes_fromhex_hex. apply put_pubkey_new, Hl. by left. }
  rewrite Hs, IH.
  - by rewrite <- app_assoc.
  - intros m' Hm'. apply Hlen. by right.
  - done.
  - intros m' Hm'. rewrite fmap_app, not_elem_of_app. split; [apply Hl; by right|]. cbn. rewrite list_elem_of_singleton.
    intros E. apply Hm. apply list_elem_of_fmap. by exists m'.
Qed.

Lemma check_serialized s g ms t :
  sendable g ms ->
  check_snapshot (_serialize_group_for_snapshot s (Loaded g ms) t) =
  Ok (mkHead (g_id g) (g_creator_pubkey g) (g_name_encrypted g) (g_max_members g) (map member_dict ms) (g_default_ttl_seconds g)).
Proof.
  intros [Hid Hcr Hname [Hm1 Hm2] [Ht1 Ht2] _ _ Hcount _ _]. unfold check_snapshot, item, get_with.
  cbn [_serialize_group_for_snapshot l_group l_members dict_get String.eqb Ascii.eqb Bool.eqb default from_option id rbind_res uuid_of].
  rewrite (uuid_text_parse _ Hid). cbn [rbind_res]. rewrite (hex_64 _ Hcr). cbn [Z.eqb Pos.eqb negb].
  rewrite bytes_fromhex_hex. cbn [rbind_res]. rewrite b64decode_encode, (proj2 (Z.ltb_ge _ _)) by done. cbn [rbind_res int_of].
  rewrite !(proj2 (Z.leb_le _ _)) by done. cbn [andb negb].
  rewrite length_map, (proj2 (Z.ltb_ge _ _)) by done. cbn [rbind_res int_of].
  by rewrite (proj2 (Z.ltb_lt _ _)) by done.
Qed.

(** Members that are all new are stored as they are listed. *)
Lemma run_store_new id ms (w : vworld) :
  (forall m, m ∈ ms -> gm_group_id m = id /\ (- 2 ^ 63 <= gm_joined_at m < 2 ^ 63)%Z) -> NoDup (map gm_pubkey ms) ->
  (forall m m', m ∈ ms -> m' ∈ t_members (w_work w) -> gm_group_id m' = id -> gm_pubkey m' <> gm_pubkey m) ->
  run_doc (store_members id [] (map (fun m => (gm_pubkey m, member_fields m)) ms)) w =
  (Ok tt, set_databases (w_db w) (set_members (t_members (w_work w) ++ ms) (w_work w)) w).
Proof.
  revert w. induction ms as [|m ms IH]; intros w Hms Hnd Hnew.
  - cbn [map store_members]. rewrite run_doc_ret, app_nil_r. by destruct w as [? ? ? []].
  - cbn [map store_members List.find]. destruct (Hms m) as [Hid Hj]; [by left|]. apply NoDup_cons in Hnd as [Hm Hnd].
    rewrite run_doc_bind, run_doc_bind, run_doc_now, run_doc_bind.
    change (of_res (int_of (get_with (JNum (w_now w)) "joined_at" (member_fields m)))) with (ret (gm_joined_at m)).
    rewrite run_doc_ret, run_doc_bind. unfold bigint_column. rewrite (proj2 (Z.leb_le _ _)), (proj2 (Z.ltb_lt _ _)) by tauto.
    cbn [andb]. change (of_res (Ok ?x)) with (ret x). rewrite run_doc_ret.
    unfold insert_member. rewrite run_doc_bind, run_doc_sql. cbn [gm_group_id gm_pubkey].
    destruct (existsb _ (t_members (w_work w))) eqn:Ex.
    { exfalso. apply existsb_exists in Ex as (m' & Hin & [Hg Hk]%andb_true_iff). apply list_elem_of_In in Hin.
      apply String.eqb_eq in Hg, Hk. apply (Hnew m m'); [by left|done|by rewrite <- Hg|done]. }
    cbn [fst snd]. rewrite run_doc_ret.
    assert (Emem : mkMember id (gm_pubkey m) (bool_of false "is_admin" (member_fields m)) (gm_joined_at m) = m)
      by (destruct m; cbn in Hid |- *; by rewrite Hid).
    rewrite Emem, IH.
    + cbn [w_work w_db set_databases t_members set_members]. rewrite <- app_assoc. done.
    + intros m' Hm'. apply Hms. by right.
    + done.
    + intros m1 m2 H1 H2 Hg. cbn [w_work set_databases t_members set_members] in H2.
      apply elem_of_app in H2 as [H2|H2]; [apply Hnew; [by right|done|done]|].
      apply list_elem_of_singleton in H2 as ->. intros E. apply Hm. rewrite E. apply list_elem_of_fmap. by exists m1.
Qed.

(** No trace of the group, and nobody has its slug. *)
Definition unknown_group (g : Group) (db : database) : Prop :=
  (forall g', g' ∈ t_groups db -> clashes g g' = false) /\ forall m, m ∈ t_members db -> gm_group_id m <> g_id g.

Lemma clashes_host host now g g' : clashes (copy_of host now g) g' = clashes g g'.
Proof. done. Qed.

Lemma run_copy s g ms t host (w : vworld) :
  sendable g ms -> unknown_group g (w_work w) -> host <> "" ->
  run_doc (apply_group_snapshot (_serialize_group_for_snapshot s (Loaded g ms) t) host) w =
  (Ok (Loaded (copy_of host (w_now w) g) ms),
   set_databases (w_db w) (set_members (t_members (w_work w) ++ ms) (set_groups (t_groups (w_work w) ++ [copy_of host (w_now w) g]) (w_work w))) w).
Proof.
  intros Hs [Hcl Hmem] Hhost. unfold apply_group_snapshot. rewrite (proj2 (String.eqb_neq _ _) Hhost), run_doc_bind.
  unfold checked_snapshot. rewrite (check_serialized s g ms t Hs), run_doc_ret, run_doc_bind. cbn [sh_gid sh_members].
  set (snap := _serialize_group_for_snapshot s (Loaded g ms) t).
  assert (Eup : run_doc (upsert_group snap (mkHead (g_id g) (g_creator_pubkey g) (g_name_encrypted g) (g_max_members g) (map member_dict ms)
      (g_default_ttl_seconds g)) host) w =
    (Ok (copy_of host (w_now w) g), set_databases (w_db w) (set_groups (t_groups (w_work w) ++ [copy_of host (w_now w) g]) (w_work w)) w)).
  { unfold upsert_group. rewrite run_doc_bind, run_doc_sql. cbn [fst snd sh_gid].
    assert (Ew : set_databases (w_db w) (w_work w) w = w) by by destruct w. rewrite Ew.
    destruct (select_one _ _) as [g'|] eqn:Eg.
    { apply select_in in Eg as [Hin Hid%String.eqb_eq]. pose proof (Hcl g' Hin) as Hc. unfold clashes, has_group_id in Hc.
      rewrite Hid, String.eqb_refl in Hc. discriminate. }
    rewrite run_doc_bind, run_doc_now, run_doc_bind.
    assert (Eslug : slug_column (get_with JNull "slug" snap) = Ok (g_slug g)).
    { unfold snap, get_with. cbn [_serialize_group_for_snapshot l_group dict_get String.eqb Ascii.eqb Bool.eqb default from_option id].
      pose proof (sn_slug _ _ Hs) as Hsl. destruct (g_slug g) as [x|]; [|done]. cbn. rewrite (proj2 (Z.ltb_ge _ _)); [done|by apply Hsl]. }
    assert (Eexp : bigint_column (get_with JNull "expires_at" snap) = Ok (g_expires_at g)).
    { unfold snap, get_with. cbn [_serialize_group_for_snapshot l_group dict_get String.eqb Ascii.eqb Bool.eqb default from_option id].
      pose proof (sn_expires _ _ Hs) as Hsx. destruct (g_expires_at g) as [x|]; [|done]. cbn [opt_num bigint_column].
      destruct (Hsx x eq_refl). by rewrite (proj2 (Z.leb_le _ _)), (proj2 (Z.ltb_lt _ _)) by done. }
    rewrite Eslug, Eexp. change (of_res (Ok ?x)) with (ret x). rewrite run_doc_ret, run_doc_bind, run_doc_ret. cbv zeta.
    change (mkGroup _ _ _ _ _ _ _ _ _ _ _ _) with (copy_of host (w_now w) g).
    rewrite run_doc_bind. unfold insert_group. rewrite run_doc_bind, run_doc_sql.
    destruct (existsb _ (t_groups (w_work w))) eqn:Ex; [|cbn [fst snd]; by rewrite !run_doc_ret].
    exfalso. apply existsb_exists in Ex as (g' & Hin & Hc). apply list_elem_of_In in Hin.
    rewrite clashes_host, (Hcl g' Hin) in Hc. done. }
  rewrite Eup. cbv zeta. rewrite run_doc_bind, run_doc_sql. cbn [fst snd g_id copy_of w_work w_db set_databases].
  assert (Hnone : members_of (g_id g) (set_groups (t_groups (w_work w) ++ [copy_of host (w_now w) g]) (w_work w)) = []).
  { unfold members_of. cbn [t_members set_groups]. destruct (List.filter _ _) as [|m l] eqn:Ef; [done|]. exfalso.
    assert (Hin : In m (m :: l)) by by left. rewrite <- Ef in Hin. apply List.filter_In in Hin as [Hin Hid%String.eqb_eq].
    apply list_elem_of_In in Hin. by destruct (Hmem m Hin). }
  rewrite Hnone. cbn [List.filter remove_members]. rewrite run_doc_bind, run_doc_ret, run_doc_bind.
  rewrite snap_pubkeys_members by (try apply (sn_distinct _ _ Hs); intros m Hm; apply (sn_members _ _ Hs m Hm)).
  rewrite run_store_new.
  - unfold refresh_members. rewrite run_doc_sql. cbn [fst snd w_work w_db set_databases g_id copy_of]. f_equal. f_equal.
    unfold members_of. cbn [t_members set_members set_groups]. unfold members_of in Hnone. cbn [t_members set_groups] in Hnone.
    rewrite List.filter_app, Hnone. cbn [app]. rewrite (filter_all (in_group (g_id g)) ms); [done|].
    intros m Hm. unfold in_group. apply String.eqb_eq, (sn_members _ _ Hs m Hm).
  - intros m Hm. destruct (sn_members _ _ Hs m Hm) as (? & ? & ?). done.
  - exact (sn_distinct _ _ Hs).
  - intros m m' _ Hm' Hid. by destruct (Hmem m' Hm').
Qed.

(** ** Properties *)

Section Properties.
  Context `{R : Redis} `{Nacl} (sA : Settings).

(** Who gets a group.  Whatever fails, a pull is answered only to the one trusted peer whose key signed
    it within five minutes, for a live group that this relay hosts and a member of it, and the answer
    is that group as it is now; any other is refused.  Nothing changes either way. *)
Theorem pull_needs_membership (body : PullSnapshotRequest) (w : world rstore) :
  w_work w = w_db w ->
  let x := run (with_session (pull_group_snapshot sA body)) w in
  absw (snd x) = absw w /\
  ((exists l, may_pull sA body (w_now w) (w_db w) l /\ fst x = Ok (_serialize_group_for_snapshot sA l (w_now w))) \/
   (exists e, fst x = Raise e) /\ forall l, ~ may_pull sA body (w_now w) (w_db w) l).
Proof.
  intros Hw x. unfold x. rewrite fst_run, snd_run_absw. pose proof (run_pull sA body (absw w)) as Hp.
  change (w_work (absw w)) with (w_work w) in Hp. rewrite Hw in Hp.
  destruct Hp as [(l & Hl & E)|(e & E & Hno)]; rewrite (session_same _ _ (absw w) Hw E); (split; [done|]).
  - left. by exists l.
  - right. split; [by exists e|done].
Qed.

End Properties.

(** ** Witnesses *)

Module PullDemo.
Import MessagesFacts.MessagesDemo.
#[local] Instance pull_nacl : Nacl := demo_nacl.

Definition club_gid : string := twice 16 "a".
Definition club : Group := mkGroup club_gid (key_of alice) "ABC" false 86400 (Some "club") None false 50 None 900 None.
Definition club_members : list GroupMember := [mkMember club_gid (key_of alice) true 900; mkMember club_gid (key_of bob) false 950].
Definition asking : string := twice 32 "33".
Definition host_db : database :=
  set_groups [club] (set_members club_members (set_peers [mkPeer "b.example" (key_of asking) true None 0] people)).
Definition host_relay : world (rstore (Redis := Mem_Redis)) := set_databases host_db host_db (relay []).
Definition request : PullSnapshotRequest := mkPull (uuid_to_string club_gid) bob asking (twice 64 "dd") 1000.

Lemma request_allowed : may_pull settings request 1000 host_db (Loaded club club_members).
Proof.
  split.
  - vm_compute. discriminate.
  - do 3 eexists. split_and!; vm_compute; reflexivity.
  - do 2 eexists. split_and!; vm_compute; reflexivity.
  - eexists. split; vm_compute; reflexivity.
Qed.

Lemma pull_witness :
  exists l, may_pull settings request 1000 host_db l /\
    fst (run (with_session (pull_group_snapshot settings request)) host_relay) = Ok (_serialize_group_for_snapshot settings l 1000).
Proof.
  destruct (pull_needs_membership settings request host_relay eq_refl) as [_ [H|[_ Hno]]]; [exact H|].
  exfalso. exact (Hno _ request_allowed).
Defined.

End PullDemo.
