(* ===== verification/MailFacts.v ===== *)
(** * Mail addresses and outgoing mail: properties

    What any request of api/mail.py does to the addresses and to the queue of outgoing mail, as a
    relation between tables ([mail_step]); what that keeps over any history; and that mail between
    accounts arrives. *)

From Stdlib Require Import Ascii String.
From stdpp Require Import prelude gmap strings list.
From S2P Require Import Prelude Json Codec RedisStore Models Effects Crypto Config Sessions RateLimit Deps Logic.
From S2P Require Import CodecFacts BlobStorage Queue QueueFacts MailboxFacts DmsFacts Messages MessagesFacts Users Inbox Mail.

#[local] Open Scope morok_scope.

(** ** The life of an address *)

(** It keeps its name, its owner and its kind; what is dead stays dead, and a main address does not die. *)
Record alias_evolves (a a' : MailAlias) : Prop := {
  av_alias : ma_alias a' = ma_alias a;
  av_owner : ma_owner_pubkey a' = ma_owner_pubkey a;
  av_primary : ma_is_primary a' = ma_is_primary a;
  av_created : ma_created_at a' = ma_created_at a;
  av_dead : ma_status a = DEAD -> ma_status a' = DEAD;
  av_main : ma_is_primary a = true -> ma_status a' = DEAD -> ma_status a = DEAD;
  av_received : (ma_received_count a <= ma_received_count a')%Z
}.

#[export] Instance alias_evolves_preorder : PreOrder alias_evolves.
Proof.
  split; [intros a; by split|]. intros a b c [A1 A2 A3 A4 A5 A6 A7] [B1 B2 B3 B4 B5 B6 B7].
  split; try congruence; [auto| |lia]. intros Hp Hd. apply A6; [done|]. apply B6; [congruence|done].
Qed.

Definition main_alive (pubkey : string) (a : MailAlias) : bool := owned_by pubkey a && (ma_is_primary a && alive a).
Definition extra_alive (pubkey : string) (a : MailAlias) : bool := owned_by pubkey a && counts_for_quota a.
Section Steps.
  Context (ms : MailSettings).

(** A new address of [pubkey] at [now]. *)
Record new_alias (now : Z) (db : database) (a : MailAlias) : Prop := {
  na_free : ma_alias a ∉ map ma_alias (t_aliases db);
  na_status : ma_status a = ACTIVE;
  na_created : ma_created_at a = now;
  na_main : ma_is_primary a = true -> count (main_alive (ma_owner_pubkey a)) (t_aliases db) = 0%Z;
  na_extra : ma_is_primary a = false -> exists u, u ∈ t_users db /\ u_pubkey u = ma_owner_pubkey a /\
    (count (extra_alive (ma_owner_pubkey a)) (t_aliases db) < alias_quota ms (u_created_at u) now)%Z
}.

Inductive alias_step (now : Z) (db : database) : list MailAlias -> Prop :=
| alias_keeps l : Forall2 alias_evolves (t_aliases db) l -> alias_step now db l
| alias_new a : new_alias now db a -> alias_step now db (t_aliases db ++ [a]).

(** ** The life of an outgoing mail *)

Definition settled (r : MailOutbound) : Prop := mo_status r = DELIVERED \/ mo_status r = FAILED.
Definition erased_content (r : MailOutbound) : Prop := mo_subject r = None /\ mo_body_text r = None /\ mo_attachments_json r = None.
Definition same_content (r r' : MailOutbound) : Prop :=
  mo_subject r' = mo_subject r /\ mo_body_text r' = mo_body_text r /\ mo_attachments_json r' = mo_attachments_json r.

Inductive mail_event (now : Z) (r : MailOutbound) : MailOutbound -> Prop :=
| mail_same : mail_event now r r
| mail_expired : mo_status r = QUEUED -> (mo_created_at r < now - 172800)%Z ->
    mail_event now r (erased_mail FAILED (Some "expired in queue") now r)
| mail_claimed : mo_status r = QUEUED -> mail_event now r (sending now r)
| mail_delivered : mail_event now r (erased_mail DELIVERED (mo_last_error r) now r)
| mail_failed err : mail_event now r (erased_mail FAILED (Some err) now r)
| mail_again err : (mo_attempts r < 5)%Z -> mail_event now r (requeued err now r).

(** A mail that the account of [pubkey] puts into the queue at [now]. *)
Record new_mail (now : Z) (db : database) (r : MailOutbound) : Prop := {
  nm_free : mo_id r ∉ map mo_id (t_outbound db);
  nm_status : mo_status r = QUEUED;
  nm_attempts : mo_attempts r = 0%Z;
  nm_created : mo_created_at r = now;
  nm_from : exists a, a ∈ t_aliases db /\ own_active (mo_from_alias r) (mo_owner_pubkey r) a = true;
  nm_outside : _EXT_ADDR_RE (mo_to_addr r) = true /\ (string_len (mo_to_addr r) <= 255)%Z;
  nm_daily : (count (sent_since (mo_owner_pubkey r) (now - 86400)) (t_outbound db) < mail_out_user_daily ms)%Z
}.

Inductive outbound_step (now : Z) (db : database) : list MailOutbound -> Prop :=
| outbound_keeps l : Forall2 (mail_event now) (t_outbound db) l -> outbound_step now db l
| outbound_new r : new_mail now db r -> outbound_step now db (t_outbound db ++ [r]).

(** What a request may leave. *)
Record mail_step (now : Z) (db db' : database) : Prop := {
  ms_aliases : alias_step now db (t_aliases db');
  ms_outbound : outbound_step now db (t_outbound db');
  ms_rest : db' = set_outbound (t_outbound db') (set_aliases (t_aliases db') db)
}.

Lemma alias_same now db : alias_step now db (t_aliases db).
Proof. apply alias_keeps, Forall2_same_length_lookup_2; [done|]. intros i a b Ha Hb. by simplify_eq. Qed.
Lemma outbound_same now db : outbound_step now db (t_outbound db).
Proof. apply outbound_keeps, Forall2_same_length_lookup_2; [done|]. intros i a b Ha Hb. simplify_eq. apply mail_same. Qed.
Lemma step_same now db : mail_step now db db.
Proof. split; [apply alias_same|apply outbound_same|by destruct db]. Qed.

Lemma step_aliases now db l : alias_step now db l -> mail_step now db (set_aliases l db).
Proof. intros Hl. split; [exact Hl|exact (outbound_same now db)|by destruct db]. Qed.
Lemma step_outbound now db l : outbound_step now db l -> mail_step now db (set_outbound l db).
Proof. intros Hl. split; [exact (alias_same now db)|exact Hl|by destruct db]. Qed.

End Steps.

(** ** What a handler may leave *)

Section Handlers.
  Context `{Sha256} (s : Settings) (ms : MailSettings) (now : Z) (db : database).

#[local] Abbreviation handled := (Logic.handled now db (mail_step ms now db)).
#[local] Abbreviation reads := (Logic.reads now db).

(** Read-only helpers. *)
Lemma leaves_random : leaves (fun d : database => d) _random_alias.
Proof. unfold _random_alias, choice, randbelow. leaves; done. Qed.
Lemma leaves_wanted b raw pk : leaves (fun d : database => d) (wanted_alias b raw pk).
Proof. unfold wanted_alias, select_user, _random_alias, choice, randbelow. leaves; done. Qed.
Lemma leaves_free raw a : leaves (fun d : database => d) (free_alias raw a).
Proof. unfold free_alias, select_alias, _random_alias, choice, randbelow. leaves; done. Qed.

(** ** Addresses *)

Context (Hnames : NoDup (map ma_alias (t_aliases db))).

Lemma count_split pk (q : MailAlias -> bool) :
  count (fun a => owned_by pk a && q a) (t_aliases db) = Z.of_nat (length (List.filter q (List.filter (owned_by pk) (t_aliases db)))).
Proof.
  unfold count. do 2 f_equal. clear Hnames. induction (t_aliases db) as [|a l IH]; [done|]. cbn [List.filter].
  destruct (owned_by pk a); cbn [List.filter andb]; by rewrite IH.
Qed.

Lemma reads_allowed b pk :
  reads (alias_allowed ms b pk) (fun _ =>
    if b then count (main_alive pk) (t_aliases db) = 0%Z
    else exists u, u ∈ t_users db /\ u_pubkey u = pk /\ (count (extra_alive pk) (t_aliases db) < alias_quota ms (u_created_at u) now)%Z).
Proof.
  unfold alias_allowed. eapply reads_bind; [apply reads_sql|]. intros mine <-. cbv zeta.
  destruct b; cbn [andb].
  - destruct (existsb _ _) eqn:E; [apply reads_raise|]. apply reads_ret. unfold main_alive. rewrite count_split.
    by rewrite (existsb_none _ _ E).
  - unfold select_user. eapply reads_bind; [apply reads_sql|]. intros acc <-.
    destruct (select_one (Users.has_key pk) (t_users db)) as [u|] eqn:Eu; [|apply reads_raise].
    eapply reads_bind; [apply reads_now|]. intros n <-.
    destruct (Z.leb_spec (alias_quota ms (u_created_at u) now)
      (Z.of_nat (length (List.filter counts_for_quota (List.filter (owned_by pk) (t_aliases db)))))) as [|Hlt]; [apply reads_raise|].
    apply reads_ret. apply select_in in Eu as [Hin Hk%String.eqb_eq]. exists u. split_and!; [done|done|].
    unfold extra_alive. by rewrite count_split.
Qed.

Lemma handled_create body session : handled (create_alias ms body session).
Proof.
  unfold create_alias. eapply handled_reads; [apply reads_leaves; unfold fromhex_; leaves|]. intros pk _.
  eapply handled_reads; [apply reads_leaves, leaves_wanted|]. intros alias0 _.
  eapply handled_reads; [apply reads_allowed|]. intros [] Hok.
  eapply handled_reads; [apply reads_leaves, leaves_free|]. intros alias _. cbv zeta.
  eapply handled_reads; [apply reads_now|]. intros n <-.
  set (prim := json_truthy _) in *. set (a := mkAlias alias pk _ _ _ _ _).
  unfold insert_alias. intros w Hn Hw. rewrite run_doc_bind, run_doc_sql. cbn [fst snd].
  pose proof Hw as Hw0. unfold at_db, tables_of in Hw0. injection Hw0 as Hdb Hwk. rewrite Hwk.
  destruct (existsb (has_alias (ma_alias a)) (t_aliases db)) eqn:E; cbn [fst snd negb].
  - apply handled_raise; [done|]. unfold at_db, tables_of. cbn. by rewrite Hdb.
  - assert (Hstep : mail_step ms now db (set_aliases (t_aliases db ++ [a]) db)).
    { apply step_aliases. apply alias_new. split; try done.
      - intros (a0 & Ea & Hin)%list_elem_of_fmap. assert (Ht : existsb (has_alias (ma_alias a)) (t_aliases db) = true); [|congruence].
        apply existsb_exists. exists a0. split; [by apply list_elem_of_In|]. unfold has_alias. by rewrite Ea, String.eqb_refl.
      - cbn. intros Hp. by rewrite Hp in Hok.
      - cbn. intros Hp. by rewrite Hp in Hok. }
    rewrite run_doc_bind. cbn. split; [by right|done].
Qed.

(** The updates of an own address. *)
Lemma reads_own pk alias :
  reads (_get_own_alias pk alias) (fun row => select_one (fun a => has_alias (lower alias) a && owned_by pk a) (t_aliases db) = Some row).
Proof.
  unfold _get_own_alias, select_alias. eapply reads_bind; [apply reads_sql|]. intros o <-.
  destruct (select_one _ _) as [row|]; [by apply reads_ret|apply reads_raise].
Qed.
Lemma step_update alias q row f :
  select_one q (t_aliases db) = Some row -> alias = ma_alias row -> alias_evolves row (f row) ->
  mail_step ms now db (set_aliases (snd (update_where (has_alias alias) f (t_aliases db))) db).
Proof.
  intros Hq -> Hf. apply step_aliases, alias_keeps, update_related; [done|]. intros a Hin Ha.
  by rewrite (found_only ma_alias q _ _ Hnames Hq a Hin Ha).
Qed.
#[local] Ltac own := eapply handled_reads; [apply reads_leaves; unfold fromhex_; leaves|]; intros pk _;
  eapply handled_reads; [apply reads_own|]; intros row Hrow; cbn beta in Hrow.

Lemma handled_pause alias session : handled (pause_alias alias session).
Proof.
  unfold pause_alias. own. case_bool_decide as Hd; [apply handled_raise|].
  apply handled_write; [|done]. eapply step_update; [exact Hrow|done|]. by split.
Qed.
Lemma handled_resume alias session : handled (resume_alias alias session).
Proof.
  unfold resume_alias. own. case_bool_decide as Hd; [apply handled_raise|].
  apply handled_write; [|done]. eapply step_update; [exact Hrow|done|]. by split.
Qed.
Lemma handled_label alias body session : handled (set_alias_label alias body session).
Proof.
  unfold set_alias_label. own. cbv zeta. apply handled_write; [|done]. eapply step_update; [exact Hrow|done|]. by split.
Qed.
Lemma handled_kill alias session : handled (kill_alias alias session).
Proof.
  unfold kill_alias. own. destruct (ma_is_primary row) eqn:Ep; [apply handled_raise|].
  apply handled_write; [|done]. eapply step_update; [exact Hrow|done|]. split; cbn; try done. congruence.
Qed.

(** ** Mail *)

Lemma handled_deliver body pk to_alias : handled (deliver_internal s ms body pk to_alias).
Proof.
  unfold deliver_internal. cbv zeta. destruct (_ || _); [apply handled_raise|].
  unfold select_alias. eapply handled_reads; [apply reads_sql|]. intros o _. destruct o as [row|]; [|apply handled_raise].
  destruct (negb _); [apply handled_raise|].
  eapply handled_reads; [apply reads_leaves; destruct (String.eqb _ ""); leaves; done|]. intros own _.
  destruct (negb own); [apply handled_raise|]. destruct (b64_of _) as [blob|]; [|apply handled_raise].
  destruct (mail_max_bytes ms <? string_len blob)%Z; [apply handled_raise|].
  eapply handled_reads; [apply reads_leaves; leaves|]. intros id _.
  eapply handled_reads; [apply reads_leaves; leaves|]. intros n _.
  eapply handled_reads; [apply reads_leaves, leaves_no_sql, no_sql_write_enqueue|]. intros expires _.
  apply handled_write.
  - apply step_aliases, alias_keeps, update_related; [done|]. intros a _ _. split; cbn; try done. lia.
  - destruct expires; [|done]. split; [exact I|]. by intros [].
Qed.

Lemma reads_attachments total atts : leaves (fun d : database => d) (clean_attachments total atts).
Proof.
  revert total. induction atts as [|a atts IH]; intros total; cbn [clean_attachments]; [done|]. cbv zeta.
  destruct a; try done. destruct (_ <? _)%Z; [done|]. apply leaves_bind; [apply IH|done].
Qed.

Lemma handled_external body pk to_addr : handled (_queue_external ms body pk to_addr).
Proof.
  unfold _queue_external. destruct (_EXT_ADDR_RE to_addr) eqn:Ere; cbn [negb orb]; [|apply handled_raise].
  destruct (Z.ltb_spec 255 (string_len to_addr)) as [|Hlen]; [apply handled_raise|]. cbv zeta.
  set (from := lower _). destruct (String.eqb from ""); [apply handled_raise|].
  unfold select_alias. eapply handled_reads; [apply reads_sql|]. intros o <-.
  destruct (select_one (own_active from pk) (t_aliases db)) as [a|] eqn:Ea; [|apply handled_raise].
  apply select_in in Ea as [Hain Ha].
  destruct (String.eqb (strip _) ""); [apply handled_raise|]. destruct (mail_max_bytes ms <? _)%Z; [apply handled_raise|].
  destruct (match dict_get "attachments" body with Some j => _ | None => _ end) as [| | | |atts|]; try apply handled_raise.
  destruct (5 <? length atts)%nat; [apply handled_raise|].
  eapply handled_reads; [apply reads_leaves, reads_attachments|]. intros clean _.
  eapply handled_reads; [apply reads_now|]. intros n <-.
  unfold count_sent. eapply handled_reads; [apply reads_sql|]. intros c <-.
  destruct (Z.leb_spec (mail_out_user_daily ms) (Z.of_nat (length (List.filter (sent_since pk (now - 86400)) (t_outbound db)))))
    as [|Hdaily]; [apply handled_raise|].
  eapply handled_reads; [apply reads_leaves; leaves|]. intros id _. set (r := mkOutbound id _ _ _ _ _ _ _ _ _ _ _ _ _).
  intros w Hn Hw. rewrite run_doc_bind. unfold insert_outbound. rewrite run_doc_bind, run_doc_sql. cbn [fst snd].
  pose proof Hw as Hw0. unfold at_db, tables_of in Hw0. injection Hw0 as Hdb Hwk. rewrite Hwk.
  destruct (existsb (fun r' => String.eqb (mo_id r') (mo_id r)) (t_outbound db)) eqn:E; cbn [fst snd].
  - apply handled_raise; [done|]. unfold at_db, tables_of. cbn. by rewrite Hdb.
  - assert (Hstep : mail_step ms now db (set_outbound (t_outbound db ++ [r]) db)).
    { apply step_outbound, outbound_new. split; try done; [|by exists a].
      intros (r0 & Er & Hin)%list_elem_of_fmap. assert (Ht : existsb (fun r' => String.eqb (mo_id r') (mo_id r)) (t_outbound db) = true); [|congruence].
      apply existsb_exists. exists r0. split; [by apply list_elem_of_In|]. by rewrite Er, String.eqb_refl. }
    rewrite run_doc_ret, run_doc_bind. cbn. split; [by right|done].
Qed.

Lemma handled_send body session : handled (send_internal s ms body session).
Proof.
  unfold send_internal. eapply handled_reads; [apply reads_leaves; unfold fromhex_; leaves|]. intros pk _. cbv zeta.
  destruct (has_at _); [|apply handled_deliver]. destruct (rsplit_at _) as [local dom].
  destruct (negb _); [apply handled_external|apply handled_deliver].
Qed.

(** ** The worker *)

Context (Hids : NoDup (map mo_id (t_outbound db))).

Lemma same_id (r r' : MailOutbound) : r ∈ t_outbound db -> r' ∈ t_outbound db -> mo_id r = mo_id r' -> r = r'.
Proof.
  intros [i Hi]%list_elem_of_lookup [j Hj]%list_elem_of_lookup E. assert (i = j) as ->; [|congruence].
  eapply NoDup_lookup; [exact Hids|..]; rewrite list_lookup_fmap, ?Hi, ?Hj; cbn; [done|by rewrite E].
Qed.

(** What a claim makes of each row. *)
Lemma claimed_rows limit :
  let expired := List.filter (stale now) (t_outbound db) in
  let l1 := snd (update_where (one_of expired) (erased_mail FAILED (Some "expired in queue") now) (t_outbound db)) in
  let rows := take limit (order_by mo_created_at (List.filter is_queued l1)) in
  Forall2 (mail_event now) (t_outbound db) (snd (update_where (one_of rows) (sending now) l1)).
Proof.
  intros expired l1 rows. cbn [snd update_where]. subst l1. cbn [snd update_where] in *. rewrite map_map.
  apply Forall2_fmap_r, Forall_Forall2_diag, Forall_forall. intros r Hr. cbv [compose].
  assert (Hrows : forall r', r' ∈ rows -> exists r0, r0 ∈ t_outbound db /\ mo_id r0 = mo_id r' /\ stale now r0 = false /\ r' = r0 /\ is_queued r0 = true).
  { intros r' Hin. unfold rows in Hin. apply elem_of_take in Hin as (i & Hi & _). apply list_elem_of_lookup_2 in Hi.
    rewrite order_by_perm in Hi. apply list_elem_of_In, List.filter_In in Hi as [Hi Hq]. apply list_elem_of_In, list_elem_of_fmap in Hi as (r0 & -> & H0).
    exists r0. destruct (one_of expired r0) eqn:E0; [done|]. split_and!; try done.
    destruct (stale now r0) eqn:Es; [|done]. unfold one_of in E0. rewrite bool_decide_eq_false in E0. destruct E0.
    apply list_elem_of_fmap_2. apply list_elem_of_In, List.filter_In. by rewrite <- list_elem_of_In. }
  assert (Hst : one_of expired r = true -> stale now r = true).
  { unfold one_of. rewrite bool_decide_eq_true. intros (r0 & E0 & Hin)%list_elem_of_fmap.
    apply list_elem_of_In, List.filter_In in Hin as [Hin Hs]. rewrite <- list_elem_of_In in Hin. by rewrite (same_id r r0). }
  assert (Hone : forall r1, mo_id r1 = mo_id r -> one_of rows r1 = true -> stale now r = false /\ is_queued r = true).
  { intros r1 E1. unfold one_of. rewrite bool_decide_eq_true. intros (r0 & E0 & Hin)%list_elem_of_fmap.
    destruct (Hrows r0 Hin) as (r2 & H2 & _ & Hs & -> & Hq). rewrite (same_id r r2); [done|done|done|congruence]. }
  destruct (one_of expired r) eqn:E1.
  - specialize (Hst eq_refl). destruct (one_of rows (erased_mail FAILED (Some "expired in queue") now r)) eqn:E2; [apply Hone in E2 as [? _]; [congruence|done]|].
    unfold stale, is_queued in Hst. apply andb_true_iff in Hst as [Hq%bool_decide_eq_true Hlt%Z.ltb_lt]. by apply mail_expired.
  - destruct (one_of rows r) eqn:E2; [|apply mail_same]. destruct (Hone r eq_refl E2) as [_ Hq%bool_decide_eq_true]. by apply mail_claimed.
Qed.

Lemma no_sql_jobs rows : no_sql (mail_jobs ms rows).
Proof. induction rows as [|r rows IH]; cbn [mail_jobs]; [exact I|]. unfold mail_job. no_sql; try exact IH; done. Qed.

Lemma run_update_outbound p f (w : vworld) :
  run_doc (update_outbound p f) w = (Ok tt, set_databases (w_db w) (set_outbound (snd (update_where p f (t_outbound (w_work w)))) (w_work w)) w).
Proof. unfold update_outbound. by rewrite run_doc_sql. Qed.

Lemma handled_claim body token : handled (outbound_claim ms body token).
Proof.
  unfold outbound_claim. eapply handled_reads; [apply reads_leaves; unfold _check_worker_token; leaves; done|]. intros [] _.
  eapply handled_reads; [apply reads_leaves; unfold int_; leaves|]. intros n _. cbv zeta.
  eapply handled_reads; [apply reads_now|]. intros n' <-.
  eapply handled_reads; [apply reads_sql|]. intros expired <-.
  intros w Hn Hw. rewrite run_doc_bind. rewrite run_update_outbound.
  pose proof Hw as Hw0. unfold at_db, tables_of in Hw0. injection Hw0 as Hdb Hwk. rewrite Hwk.
  set (db1 := set_outbound _ db). set (w1 := set_databases _ _ w).
  destruct (Z.min n 20 <? 0)%Z.
  { split; [|exact Hn]. cbn. by left. }
  rewrite run_doc_bind, run_doc_sql. cbn [fst snd]. change (w_work w1) with db1. set (rows := take _ _).
  set (w2 := set_databases _ _ w1). rewrite run_doc_bind.
  pose proof (run_no_sql (mail_jobs ms rows) w2 (no_sql_jobs rows)) as Ht. pose proof (run_now (mail_jobs ms rows) w2) as Hn2.
  destruct (run_doc (mail_jobs ms rows) w2) as [[out|e] w3]; cbn [fst snd] in *; unfold tables_of in Ht; injection Ht as E1 E2.
  2: { split; [|cbn [snd] in *; rewrite Hn2; exact Hn]. cbn. rewrite E1. cbn. by left. }
  rewrite run_doc_bind. rewrite run_update_outbound. rewrite run_doc_bind, E2. cbn.
  split; [|cbn [snd] in *; rewrite Hn2; exact Hn]. right. change (w_work w2) with db1. unfold db1. split; cbn.
  - exact (alias_same ms now db).
  - apply outbound_keeps, (claimed_rows (Z.to_nat (Z.min n 20))).
  - by destruct db.
Qed.

Lemma handled_report body token : handled (outbound_report ms body token).
Proof.
  unfold outbound_report. eapply handled_reads; [apply reads_leaves; unfold _check_worker_token; leaves; done|]. intros [] _. cbv zeta.
  destruct (uuid_of_string _) as [id|]; [|apply handled_raise].
  eapply handled_reads; [apply reads_sql|]. intros o <-.
  destruct (select_one _ (t_outbound db)) as [row|] eqn:Er; [|apply handled_raise].
  eapply handled_reads; [apply reads_now|]. intros n <-. unfold update_outbound. apply handled_write; [|done].
  apply step_outbound, outbound_keeps, update_related; [by constructor|]. intros r Hr Hk.
  rewrite (found_only mo_id _ _ _ Hids Er r Hr Hk). unfold reported. destruct (json_truthy _); [apply mail_delivered|].
  destruct (_ && _) eqn:Ea; [|apply mail_failed]. apply andb_true_iff in Ea as [_ Ha%Z.ltb_lt]. by apply mail_again.
Qed.
End Handlers.

(** ** Requests *)

Inductive mail_request :=
| RCreate (body : dict) (c : Session)
| RList (c : Session)
| RPause (alias : string) (c : Session)
| RResume (alias : string) (c : Session)
| RLabel (alias : string) (body : dict) (c : Session)
| RKill (alias : string) (c : Session)
| RResolve (alias : string)
| RSend (body : dict) (c : Session)
| RClaim (body : dict) (x_mailout_token : option string)
| RReport (body : dict) (x_mailout_token : option string)
| RStatus (c : Session).

Section Requests.
  Context `{Sha256} (s : Settings) (ms : MailSettings).

Definition mail_prog (o : mail_request) : prog unit :=
  match o with
  | RCreate body c => detached (with_session (create_alias ms body c))
  | RList c => detached (with_session (list_aliases ms c))
  | RPause alias c => detached (with_session (pause_alias alias c))
  | RResume alias c => detached (with_session (resume_alias alias c))
  | RLabel alias body c => detached (with_session (set_alias_label alias body c))
  | RKill alias c => detached (with_session (kill_alias alias c))
  | RResolve alias => detached (with_session (resolve_alias alias))
  | RSend body c => detached (with_session (send_internal s ms body c))
  | RClaim body token => detached (with_session (outbound_claim ms body token))
  | RReport body token => detached (with_session (outbound_report ms body token))
  | RStatus c => detached (with_session (outbound_status c))
  end.

Lemma session_step {A} now db (p : M A) (w : vworld) :
  Logic.handled now db (mail_step ms now db) p -> w_now w = now -> tables_of w = (db, db) ->
  let t := tables_of (snd (run_doc (detached (with_session p)) w)) in t.1 = t.2 /\ mail_step ms now db t.1.
Proof.
  intros Hp Hn Hw. destruct (handled_session now db _ p w Hp Hn Hw) as [Ht [Hs|Hs]]; (split; [done|]); [|done].
  rewrite Hs. apply step_same.
Qed.

Lemma request_step o (w : vworld) :
  tables_of w = (w_db w, w_db w) -> NoDup (map ma_alias (t_aliases (w_db w))) -> NoDup (map mo_id (t_outbound (w_db w))) ->
  let t := tables_of (snd (run_doc (mail_prog o) w)) in t.1 = t.2 /\ mail_step ms (w_now w) (w_db w) t.1.
Proof.
  intros Hw Hna Hid. destruct o; cbn [mail_prog]; apply (session_step (w_now w) (w_db w)); try done.
  - by apply handled_create.
  - eapply handled_reads; [apply reads_leaves; unfold fromhex_; leaves|]. intros pk _.
    eapply handled_reads; [apply reads_leaves; leaves; done|]. intros rows _.
    unfold select_user. eapply handled_reads; [apply reads_leaves; leaves; done|]. intros acc _.
    eapply handled_reads; [apply reads_leaves; leaves|]. intros q _. apply handled_ret.
  - by apply handled_pause.
  - by apply handled_resume.
  - by apply handled_label.
  - by apply handled_kill.
  - unfold resolve_alias, select_alias. eapply handled_reads; [apply reads_leaves; leaves; done|]. intros o _.
    destruct o as [row|]; [|apply handled_raise]. destruct (negb _); [apply handled_raise|apply handled_ret].
  - by apply handled_send.
  - by apply handled_claim.
  - by apply handled_report.
  - unfold outbound_status. eapply handled_reads; [apply reads_leaves; unfold fromhex_; leaves|]. intros pk _.
    eapply handled_reads; [apply reads_leaves; leaves; done|]. intros rows _. apply handled_ret.
Qed.
End Requests.

(** ** What any history keeps *)

(** The sum of an account's addresses in use is bounded, and so is its mail of any 24 hours. *)
Definition within_day (pubkey : string) (t : Z) (r : MailOutbound) : bool :=
  String.eqb (mo_owner_pubkey r) pubkey && (t - 86400 <? mo_created_at r)%Z && (mo_created_at r <=? t)%Z.

Record mail_wf (now : Z) (r : MailOutbound) : Prop := {
  mw_attempts : (0 <= mo_attempts r <= 5)%Z;
  mw_queued : mo_status r = QUEUED -> (mo_attempts r <= 4)%Z;
  mw_settled : settled r -> erased_content r;
  mw_created : (mo_created_at r <= now)%Z
}.

Section Invariant.
  Context (ms : MailSettings).

Record mail_ok (now : Z) (db : database) : Prop := {
  mk_names : NoDup (map ma_alias (t_aliases db));
  mk_main pk : (count (main_alive pk) (t_aliases db) <= 1)%Z;
  mk_extra pk : (count (extra_alive pk) (t_aliases db) <= Z.max 0 (mail_alias_cap ms))%Z;
  mk_ids : NoDup (map mo_id (t_outbound db));
  mk_rows : Forall (mail_wf now) (t_outbound db);
  mk_daily pk t : (count (within_day pk t) (t_outbound db) <= Z.max 0 (mail_out_user_daily ms))%Z
}.

Lemma still_alive a a' : alias_evolves a a' -> alive a' = true -> alive a = true.
Proof. unfold alive. intros Hv. rewrite !bool_decide_eq_true. intros Ha Hd. by apply Ha, (av_dead _ _ Hv). Qed.
Lemma main_back pk a a' : alias_evolves a a' -> main_alive pk a' = true -> main_alive pk a = true.
Proof.
  unfold main_alive, owned_by. intros Hv. rewrite (av_owner _ _ Hv), (av_primary _ _ Hv), !andb_true_iff.
  intros (? & ? & ?). split_and!; [done|done|by eapply still_alive].
Qed.
Lemma extra_back pk a a' : alias_evolves a a' -> extra_alive pk a' = true -> extra_alive pk a = true.
Proof.
  unfold extra_alive, counts_for_quota, owned_by. intros Hv. rewrite (av_owner _ _ Hv), (av_primary _ _ Hv), !andb_true_iff.
  intros (? & ? & ?). split_and!; [done|done|by eapply still_alive].
Qed.

Lemma quota_capped created now : (alias_quota ms created now <= mail_alias_cap ms)%Z.
Proof. unfold alias_quota. lia. Qed.

Lemma aliases_ok now db l : alias_step ms now db l -> NoDup (map ma_alias (t_aliases db)) ->
  (forall pk, (count (main_alive pk) (t_aliases db) <= 1)%Z) ->
  (forall pk, (count (extra_alive pk) (t_aliases db) <= Z.max 0 (mail_alias_cap ms))%Z) ->
  NoDup (map ma_alias l) /\ (forall pk, (count (main_alive pk) l <= 1)%Z) /\
  (forall pk, (count (extra_alive pk) l <= Z.max 0 (mail_alias_cap ms))%Z).
Proof.
  intros Hstep Hnd Hmain Hextra. destruct Hstep as [l Hl|a [Hfree Hst _ Hm He]].
  - split_and!.
    + by rewrite (related_keys alias_evolves ma_alias _ _ (fun x y H => av_alias x y H) Hl).
    + intros pk. etrans; [by eapply count_related, Hl; apply main_back|apply Hmain].
    + intros pk. etrans; [by eapply count_related, Hl; apply extra_back|apply Hextra].
  - split_and!.
    + rewrite map_app. apply NoDup_app. split_and!; [done| |by apply NoDup_singleton].
      intros x Hx Hx'%list_elem_of_singleton. by subst.
    + intros pk. rewrite count_app. destruct (main_alive pk a) eqn:E; [|specialize (Hmain pk); lia].
      unfold main_alive, owned_by in E. apply andb_true_iff in E as [<-%String.eqb_eq [Hp _]%andb_true_iff]. rewrite Hm by done. lia.
    + intros pk. rewrite count_app. destruct (extra_alive pk a) eqn:E; [|specialize (Hextra pk); lia].
      unfold extra_alive, owned_by, counts_for_quota in E.
      apply andb_true_iff in E as [<-%String.eqb_eq [Hp%negb_true_iff _]%andb_true_iff].
      destruct (He Hp) as (u & _ & _ & Hlt). pose proof (quota_capped (u_created_at u) now). lia.
Qed.

Lemma event_wf now r r' : mail_event now r r' -> mail_wf now r -> mail_wf now r'.
Proof.
  intros He [Ha Hq Hs Hc]. destruct He as [|Hst _|Hst| |err|err Hlt]; split; cbn; try done; try lia; try (by intros [?|?]).
  - specialize (Hq Hst). lia.
Qed.
Lemma event_keys now r r' : mail_event now r r' ->
  mo_id r' = mo_id r /\ mo_owner_pubkey r' = mo_owner_pubkey r /\ mo_created_at r' = mo_created_at r.
Proof. by intros []. Qed.
Lemma wf_later now now' r : (now <= now')%Z -> mail_wf now r -> mail_wf now' r.
Proof. intros Hle [Ha Hq Hs Hc]. split; [done|done|done|lia]. Qed.

Lemma outbound_ok now db l : outbound_step ms now db l -> NoDup (map mo_id (t_outbound db)) ->
  Forall (mail_wf now) (t_outbound db) ->
  (forall pk t, (count (within_day pk t) (t_outbound db) <= Z.max 0 (mail_out_user_daily ms))%Z) ->
  NoDup (map mo_id l) /\ Forall (mail_wf now) l /\
  (forall pk t, (count (within_day pk t) l <= Z.max 0 (mail_out_user_daily ms))%Z).
Proof.
  intros Hstep Hnd Hwf Hday. destruct Hstep as [l Hl|r [Hfree Hst Hat Hcr _ _ Hlt]].
  - split_and!.
    + by rewrite (related_keys (mail_event now) mo_id _ _ (fun x y H => proj1 (event_keys now x y H)) Hl).
    + clear Hnd Hday. induction Hl as [|r r' l l' He _ IH]; [done|]. apply Forall_cons in Hwf as [Hr Hwf].
      constructor; [by eapply event_wf|auto].
    + intros pk t. etrans; [eapply count_related, Hl|apply Hday]. intros x y (_ & Eo & Ec)%event_keys. unfold within_day. by rewrite Eo, Ec.
  - split_and!.
    + rewrite map_app. apply NoDup_app. split_and!; [done| |by apply NoDup_singleton].
      intros x Hx Hx'%list_elem_of_singleton. by subst.
    + apply Forall_app. split; [done|]. apply Forall_singleton. unfold settled. split; rewrite ?Hat, ?Hst, ?Hcr; try lia. intros [?|?]; congruence.
    + intros pk t. rewrite count_app. destruct (within_day pk t r) eqn:E; [|specialize (Hday pk t); lia].
      unfold within_day in E. rewrite !andb_true_iff in E. destruct E as [[<-%String.eqb_eq H1%Z.ltb_lt] H2%Z.leb_le].
      assert (Hle : (count (within_day (mo_owner_pubkey r) t) (t_outbound db) <=
        count (sent_since (mo_owner_pubkey r) (now - 86400)) (t_outbound db))%Z).
      { apply count_weaken. intros x _. unfold within_day, sent_since. rewrite !andb_true_iff, !Z.ltb_lt. intros [[? ?] _]. split; [done|lia]. }
      lia.
Qed.

Lemma mail_step_ok now db db' : mail_step ms now db db' -> mail_ok now db -> mail_ok now db'.
Proof.
  intros [Ha Ho _] [H1 H2 H3 H4 H5 H6]. destruct (aliases_ok _ _ _ Ha H1 H2 H3) as (? & ? & ?).
  destruct (outbound_ok _ _ _ Ho H4 H5 H6) as (? & ? & ?). by split.
Qed.
End Invariant.

(** ** Histories *)

(** The same mail later: its text as it was or gone. *)
Record mail_life (r r' : MailOutbound) : Prop := {
  ml_id : mo_id r' = mo_id r;
  ml_owner : mo_owner_pubkey r' = mo_owner_pubkey r;
  ml_from : mo_from_alias r' = mo_from_alias r;
  ml_to : mo_to_addr r' = mo_to_addr r;
  ml_created : mo_created_at r' = mo_created_at r;
  ml_content : same_content r r' \/ erased_content r';
  ml_attempts : (mo_attempts r <= mo_attempts r')%Z
}.
#[export] Instance mail_life_preorder : PreOrder mail_life.
Proof.
  split; [intros r; by split; try done; left|]. intros a b c [A1 A2 A3 A4 A5 A6 A7] [B1 B2 B3 B4 B5 B6 B7].
  split; try congruence; [|lia]. destruct B6 as [(?&?&?)|]; [|by right].
  destruct A6 as [(?&?&?)|(?&?&?)]; [left|right]; split_and!; congruence.
Qed.
Lemma event_life now r r' : mail_event now r r' -> mail_life r r'.
Proof. intros []; split; cbn; try done; try lia; try (by left); by right. Qed.

Definition addresses_later (db db' : database) : Prop :=
  forall i a, t_aliases db !! i = Some a -> exists a', t_aliases db' !! i = Some a' /\ alias_evolves a a'.
(** A mail is removed only when it is settled. *)
Definition mails_later (db db' : database) : Prop :=
  forall r, r ∈ t_outbound db -> exists r', mail_life r r' /\ (r' ∈ t_outbound db' \/ settled r').

Section History.
  Context `{R : Redis} `{Sha256} (s : Settings) (ms : MailSettings).

(** A request; or time passes and other code runs, which does not touch the addresses and removes settled
    mails at most. *)
Inductive mail_run (w : world rstore) : world rstore -> Prop :=
| run_request o : mail_run w (snd (run (mail_prog s ms o) w))
| run_elsewhere w' (keep : MailOutbound -> bool) :
    w_work w' = w_db w' -> t_aliases (w_db w') = t_aliases (w_db w) ->
    t_outbound (w_db w') = List.filter keep (t_outbound (w_db w)) ->
    (forall r, keep r = false -> settled r) -> (w_now w <= w_now w')%Z -> mail_run w w'.

Lemma step_addresses now db db' : mail_step ms now db db' -> addresses_later db db'.
Proof.
  intros [Ha _ _] i a Hi. destruct Ha as [l Hl|a' _].
  - destruct (Forall2_lookup_l _ _ _ _ _ Hl Hi) as (a' & Hi' & Hv). by exists a'.
  - exists a. split; [by apply lookup_app_l_Some|done].
Qed.
Lemma step_mails now db db' : mail_step ms now db db' -> mails_later db db'.
Proof.
  intros [_ Ho _] r Hr. destruct Ho as [l Hl|r' _].
  - apply list_elem_of_lookup in Hr as [i Hi]. destruct (Forall2_lookup_l _ _ _ _ _ Hl Hi) as (r' & Hi' & He).
    exists r'. split; [by eapply event_life|]. left. by eapply list_elem_of_lookup_2.
  - exists r. split; [done|]. left. apply elem_of_app. by left.
Qed.

Lemma one_run (w w' : world rstore) :
  w_work w = w_db w -> mail_ok ms (w_now w) (w_db w) -> mail_run w w' ->
  w_work w' = w_db w' /\ mail_ok ms (w_now w') (w_db w') /\ (w_now w <= w_now w')%Z /\
  addresses_later (w_db w) (w_db w') /\ mails_later (w_db w) (w_db w').
Proof.
  intros Hw Hok [o|w'' keep Hrest Ha Ho Hkeep Hnow].
  - destruct (request_step s ms o (absw w)) as [E Hstep]; [unfold tables_of; cbn; by rewrite Hw|apply Hok|apply Hok|].
    rewrite <- snd_run_absw in E, Hstep. cbn in E, Hstep.
    assert (En : w_now (snd (run (mail_prog s ms o) w)) = w_now w).
    { change (w_now (absw (snd (run (mail_prog s ms o) w))) = w_now w). rewrite snd_run_absw. apply run_now. }
    rewrite En. split_and!; [done|by eapply mail_step_ok|lia|by eapply step_addresses|by eapply step_mails].
  - split_and!; [done| |done|intros i a Hi; exists a; by rewrite Ha|].
    + destruct Hok as [H1 H2 H3 H4 H5 H6]. split; rewrite ?Ha, ?Ho; try done.
      * eapply sublist_NoDup; [exact H4|]. apply (fmap_sublist mo_id), filter_sublist.
      * apply Forall_forall. intros r Hr. apply list_elem_of_In, List.filter_In in Hr as [Hr _]. apply list_elem_of_In in Hr.
        eapply wf_later; [exact Hnow|]. by eapply Forall_forall in H5.
      * intros pk t. etrans; [apply count_filter|apply H6].
    + intros r Hr. exists r. split; [done|]. destruct (keep r) eqn:E; [left|right; by apply Hkeep].
      rewrite Ho. apply list_elem_of_In, List.filter_In. by rewrite <- list_elem_of_In.
Qed.

Lemma run_history (w w' : world rstore) :
  w_work w = w_db w -> mail_ok ms (w_now w) (w_db w) -> rtc mail_run w w' ->
  mail_ok ms (w_now w') (w_db w') /\ addresses_later (w_db w) (w_db w') /\ mails_later (w_db w) (w_db w').
Proof.
  intros Hw Hok Hrun. revert Hw Hok. induction Hrun as [w|w w1 w2 Hs _ IH]; intros Hw Hok.
  - split_and!; [done|intros i a Hi; by exists a|intros r Hr; exists r; split; [done|by left]].
  - destruct (one_run w w1 Hw Hok Hs) as (Hw1 & Hok1 & _ & Ha1 & Hm1). destruct (IH Hw1 Hok1) as (Hok2 & Ha2 & Hm2).
    split_and!; [done| |].
    + intros i a Hi. destruct (Ha1 i a Hi) as (a1 & Hi1 & Hv1). destruct (Ha2 i a1 Hi1) as (a2 & Hi2 & Hv2).
      exists a2. split; [done|by etrans].
    + intros r Hr. destruct (Hm1 r Hr) as (r1 & L1 & [Hr1|Hs1]); [|exists r1; auto].
      destruct (Hm2 r1 Hr1) as (r2 & L2 & Hr2). exists r2. split; [by etrans|done].
Qed.


End History.

(** ** Mail between accounts *)

Section Delivery.
  Context `{R : Redis} `{Sha256} (s : Settings) (ms : MailSettings).

(** What the sender asks for is fit to be delivered to the address [row]. *)
Record deliverable (db : database) (body : dict) (pk to_alias from blob : string) (row : MailAlias) : Prop := {
  de_to : lower (strip (py_str (default (JStr "") (dict_get "to_alias" body)))) = to_alias;
  de_name : has_at to_alias = false /\ to_alias <> "";
  de_row : select_one (has_alias to_alias) (t_aliases db) = Some row;
  de_active : ma_status row = ACTIVE;
  de_from : lower (strip (field_or "from_alias" "" body)) = from;
  de_own : from = "" \/ is_Some (select_one (own_active from pk) (t_aliases db));
  de_blob : b64_of (default JNull (dict_get "blob_b64" body)) = Some blob;
  de_size : (0 < string_len blob <= mail_max_bytes ms)%Z
}.

Lemma b64_truthy j blob : b64_of j = Some blob -> (0 < string_len blob)%Z -> json_truthy j = true.
Proof. destruct j as [| | |t| |]; try done. cbn. destruct t; [|done]. intros E Hl. vm_compute in E. injection E as <-. done. Qed.

Lemma run_deliver body pk to_alias from blob row z idx (w : vworld) :
  let now := w_now w in
  let exp := (now + mail_ttl_seconds s)%Z in
  let id := hex_of_bytes (w_tokens w 0) in
  let owner := hex_of_bytes (ma_owner_pubkey row) in
  let a := mail_args s id owner from now in
  calm w -> string_len (w_tokens w 0) = 32%Z -> (0 < mail_ttl_seconds s)%Z -> deliverable (w_work w) body pk to_alias from blob row ->
  rv_keys (w_redis w) !! _envelope_meta_key id = None -> set_at (_pending_recipients_key id) (w_redis w) = Some ∅ ->
  zset_at (_inbox_key owner) (w_redis w) = Some z -> (Z.of_nat (size (live now z)) < MAX_INBOX_QUEUE_DEPTH)%Z ->
  zset_at _BLOB_EXPIRY_INDEX_KEY (w_redis w) = Some idx ->
  let db' := set_aliases (snd (update_where (has_alias to_alias) received (t_aliases (w_work w)))) (w_work w) in
  exists path meta v', _blob_path id = Ok path /\ build_meta a exp = Ok meta /\
    run_doc (deliver_internal s ms body pk to_alias) w =
      (Ok SentMail, set_tasks (w_tasks w ++ [TPush [owner]])
         (set_databases db' db' (set_redis v' (put_blob path blob (set_tokens (fun n => w_tokens w (S n)) w))))) /\
    posted a now exp meta z ∅ idx (w_redis w) v'.
Proof.
  intros now exp id owner a Hc Htok Httl [Hto [Hat Hne] Hrow Hact Hfrom Hown Hblob [Hpos Hmax]] Hk Hp Hz Hsz Hidx db'.
  assert (Hid : well_formed_id id = true).
  { unfold well_formed_id, hex_of_len. pose proof (hex_of_bytes_len (w_tokens w 0)) as Hl. by rewrite Htok in Hl. }
  destruct (well_formed_path id Hid) as [path Hpath]. exists path.
  assert (Hexp : expiry (ea_timestamp a) (ea_ttl a) now (ea_hard_ceiling a) = exp) by (cbn; unfold expiry; lia).
  assert (Hmeta : exists meta, build_meta a exp = Ok meta) by (by eexists).
  destruct Hmeta as [meta Hmeta]. exists meta.
  unfold deliver_internal. rewrite Hfrom. rewrite (proj2 (String.eqb_neq _ _) Hne), (b64_truthy _ _ Hblob Hpos). cbn [negb orb].
  unfold select_alias. rewrite run_doc_bind, run_doc_sql. cbn [fst snd]. rewrite Hrow, Hact. cbn [negb bool_decide].
  set (w0 := set_databases _ _ w). assert (E0 : w0 = w) by (by destruct w). rewrite E0. clear w0 E0.
  rewrite bool_decide_true by done. cbn [negb].
  assert (Eown : run_doc (if String.eqb from "" then ret true
                          else let! own := sql (fun db => (select_one (own_active from pk) (t_aliases db), db)) in
                               ret (match own with Some _ => true | None => false end)) w = (Ok true, w)).
  { destruct (String.eqb_spec from "") as [|Hf]; [done|]. destruct Hown as [|[o Ho]]; [done|].
    rewrite run_doc_bind, run_doc_sql. cbn [fst snd]. rewrite Ho. by destruct w. }
  rewrite run_doc_bind, Eown. cbn [negb]. rewrite Hblob, (proj2 (Z.ltb_ge _ _)) by lia.
  rewrite run_doc_bind, run_doc_token, run_doc_bind, run_doc_now, run_doc_bind. fold id owner. set (w1 := set_tokens _ w).
  change (w_now w1) with now. fold a.
  pose proof (run_write_enqueue a blob path w1 meta z ∅ idx) as Hrun. cbv zeta in Hrun.
  change (w_now w1) with now in Hrun. rewrite Hexp in Hrun. destruct Hrun as (v' & E & Hpost); try done; [lia|].
  exists v'. split; [done|]. split; [done|]. rewrite E. unfold update_alias.
  rewrite run_doc_bind, run_doc_sql, run_doc_bind, run_doc_commit, run_doc_bind, run_doc_spawn, run_doc_ret. done.
Qed.
End Delivery.

Lemma internal_meta s id owner from now exp meta :
  build_meta (mail_args s id owner from now) exp = Ok meta ->
  dict_get "channel" meta = Some (JStr "mail") /\ dict_get "mail_origin" meta = Some (JStr "internal") /\
  dict_get "mail_from" meta = if String.eqb from "" then None else Some (JStr from).
Proof.
  unfold build_meta, mail_args, truthy, set_if. cbn [ea_sealed ea_channel ea_mail_origin ea_mail_from ea_extra_meta].
  destruct (String.eqb from "") eqn:E; [|rewrite E]; intros [= <-]; done.
Qed.

Section Arrival.
  Context `{R : Redis} `{Sha256} (s : Settings) (ms : MailSettings).

(** Mail between accounts arrives.  On a calm server, what an account sends to an active address of
    this relay, in its own name or in none, is sent: the owner of the address can fetch exactly the
    ciphertext; its metadata names no key as sender, and the address in whose name it was sent only if
    that is an active address of the sender's account; the address has counted one more mail, no other
    row of any table changed, and a notification of the owner is started. *)
Theorem internal_mail_arrives body session pk to_alias from blob row z idx (w : world rstore) :
  let now := w_now w in
  let v := w_redis (absw w) in
  let id := hex_of_bytes (w_tokens w 0) in
  let owner := hex_of_bytes (ma_owner_pubkey row) in
  calm w -> string_len (w_tokens w 0) = 32%Z -> (0 < mail_ttl_seconds s)%Z -> w_work w = w_db w ->
  bytes_fromhex (pubkey_hex session) = Some pk -> deliverable ms (w_db w) body pk to_alias from blob row ->
  rv_keys v !! _envelope_meta_key id = None -> set_at (_pending_recipients_key id) v = Some ∅ ->
  zset_at (_inbox_key owner) v = Some z -> (Z.of_nat (size (live now z)) < MAX_INBOX_QUEUE_DEPTH)%Z ->
  zset_at _BLOB_EXPIRY_INDEX_KEY v = Some idx ->
  let x := run (with_session (send_internal s ms body session)) w in
  fst x = Ok SentMail /\
  (forall reader, pubkey_hex reader = owner -> fst (run (get_envelope_blob id reader) (snd x)) = Ok blob) /\
  (exists m meta, str_at (_envelope_meta_key id) (w_redis (absw (snd x))) = Some (Some m) /\ loads m = Some (JObj meta) /\
     dict_get "from" meta = Some (JStr "") /\ dict_get "to" meta = Some (JStr owner) /\
     dict_get "channel" meta = Some (JStr "mail") /\ dict_get "mail_origin" meta = Some (JStr "internal") /\
     forall j, dict_get "mail_from" meta = Some j -> j = JStr from /\
       exists a, a ∈ t_aliases (w_db w) /\ own_active from pk a = true) /\
  w_db (snd x) = set_aliases (map (fun a => if has_alias to_alias a then received a else a) (t_aliases (w_db w))) (w_db w) /\
  w_tasks (snd x) = w_tasks w ++ [TPush [owner]].
Proof.
  intros now v id owner Hc Htok Httl Hw Hpk Hde Hk Hp Hz Hsz Hidx x.
  destruct (run_deliver s ms body pk to_alias from blob row z idx (absw w)) as (path & meta & v' & Hpath & Hmeta & E & Hpost); try done.
  { change (w_work (absw w)) with (w_work w). by rewrite Hw. }
  change (w_tokens (absw w) 0) with (w_tokens w 0) in *. fold id owner in Hpath, E, Hpost, Hmeta.
  set (w1 := set_tasks _ _) in E.
  assert (Erun : run_doc (with_session (send_internal s ms body session)) (absw w) = (Ok SentMail, w1)).
  { rewrite run_with_session. assert (Es : run_doc (send_internal s ms body session) (absw w) = (Ok SentMail, w1)).
    { unfold send_internal. rewrite run_doc_bind, (run_doc_fromhex _ pk) by done. rewrite (de_to _ _ _ _ _ _ _ _ Hde).
      destruct (de_name _ _ _ _ _ _ _ _ Hde) as [-> _]. exact E. }
    by rewrite Es. }
  assert (A1 : absw (snd x) = w1) by (unfold x; by rewrite snd_run_absw, Erun).
  destruct Hpost as [Pm Pi Pp _ _ _ Pf]. cbn [ea_recipient ea_envelope_id mail_args] in Pm, Pi.
  assert (Hid : well_formed_id id = true).
  { unfold well_formed_id, hex_of_len. pose proof (hex_of_bytes_len (w_tokens w 0)) as Hl. by rewrite Htok in Hl. }
  split; [unfold x; by rewrite fst_run, Erun|]. split; [|split; [|split]].
  - intros reader Hr. rewrite fst_run, A1, (run_fetch id reader (<[id := (now + mail_ttl_seconds s)%Z]> (live now z))); [|exact Hc|exact Hid|].
    + rewrite lookup_insert_eq. unfold blob_at. rewrite Hpath. unfold w1. cbn. by rewrite lookup_insert_eq.
    + rewrite Hr. unfold w1, zset_at. cbn [w_redis set_redis set_tasks set_databases]. by rewrite Pi.
  - destruct (build_meta_ok _ _ _ Hmeta) as (Hwf & Hf & Ht); [apply Forall_nil_2|].
    exists (dumps (JObj meta)), meta. split; [|split; [by apply loads_dumps|]].
    { rewrite A1. unfold w1, str_at. cbn [w_redis set_redis set_tasks set_databases]. by rewrite Pm. }
    split; [exact Hf|]. split; [exact Ht|].
    destruct (internal_meta _ _ _ _ _ _ _ Hmeta) as (Hch & Hor & Hmf). split; [exact Hch|]. split; [exact Hor|].
    intros j Hj. rewrite Hmf in Hj. destruct (String.eqb_spec from "") as [|Hne]; [done|]. injection Hj as <-. split; [done|].
    destruct (de_own _ _ _ _ _ _ _ _ Hde) as [|[a Ha]]; [done|]. apply select_in in Ha. by exists a.
  - change (w_db (absw (snd x)) = set_aliases (map (fun a => if has_alias to_alias a then received a else a) (t_aliases (w_db w))) (w_db w)).
    rewrite A1. cbn. by rewrite Hw.
  - change (w_tasks (absw (snd x)) = w_tasks w ++ [TPush [owner]]). by rewrite A1.
Qed.
End Arrival.

Module MailDemo.
#[local] Instance demo_sha : Sha256 := fun s => s.
Definition zeros (n : nat) : string := string_of_list_ascii (repeat "0"%char n).
Definition settings : Settings := mkSettings "relay" "" "" 86400 1000 30 0 604800 true "" 10 "".
Definition mail_settings : MailSettings := mkMailSettings "morok.email" 1000 30 3 1 15 "" "token" 20.
Definition alice : string := zeros 64.
Definition alice_key : string := default "" (bytes_fromhex alice).
Definition crane : MailAlias := mkAlias "hushed-crane-042" alice_key ACTIVE false None 500 0.
Definition letter : MailOutbound :=
  mkOutbound "0123456789abcdef" alice_key "hushed-crane-042" "bob@example.com" None (Some "hello") None None None QUEUED 0 None 900 900.
Definition db : database :=
  set_outbound [letter] (set_aliases [crane] (set_users [mkUser alice_key None FREE "relay" 100 None None None] empty_db)).
Definition relay : world (rstore (Redis := Mem_Redis)) :=
  World 1000 (View ∅ ∅ []) db db ∅ [] (fun _ => zeros 32) [] no_network [].
Definition session : Session := mkSession "tok" alice 2000.

Lemma demo_ok : mail_ok mail_settings 1000 db.
Proof.
  split.
  - apply NoDup_singleton.
  - intros pk. unfold count. cbn. by destruct (main_alive pk crane).
  - intros pk. unfold count. cbn. by destruct (extra_alive pk crane).
  - apply NoDup_singleton.
  - apply Forall_singleton. split; cbn; try done; try lia. by intros [?|?].
  - intros pk t. unfold count. cbn. by destruct (within_day pk t letter).
Qed.

Definition kill : mail_request := RKill "hushed-crane-042" session.

Definition claim : mail_request := RClaim [] (Some "token").

Definition body : dict := [("to_alias", JStr "Hushed-crane-042 "); ("blob_b64", JStr "QUJD"); ("from_alias", JStr "hushed-crane-042")].
Lemma mail_arrives_witness :
  let x := run (with_session (send_internal settings mail_settings body session)) relay in
  fst x = Ok SentMail /\ fst (run (get_envelope_blob (hex_of_bytes (zeros 32)) session) (snd x)) = Ok "ABC".
Proof.
  destruct (internal_mail_arrives settings mail_settings body session alice_key "hushed-crane-042" "hushed-crane-042" "ABC" crane ∅ ∅ relay)
    as (H1 & H2 & _); [..|split; [exact H1|apply H2; vm_compute; reflexivity]].
  - reflexivity.
  - reflexivity.
  - reflexivity.
  - reflexivity.
  - vm_compute. reflexivity.
  - split; try (vm_compute; reflexivity); [split; [reflexivity|discriminate]|right; vm_compute; by eexists|vm_compute; split; [reflexivity|discriminate]].
  - vm_compute. reflexivity.
  - vm_compute. reflexivity.
  - vm_compute. reflexivity.
  - reflexivity.
  - vm_compute. reflexivity.
Defined.
End MailDemo.
