(* ===== verification/PushFacts.v ===== *)
(** * Push notifications: properties

    What any request of api/push.py does to the table of subscriptions ([push_step]); what that keeps
    over any history; and that a push task leaves no trace in the tables. *)

From Stdlib Require Import Ascii String.
From stdpp Require Import prelude gmap strings list.
From S2P Require Import Prelude Json Codec RedisStore Models Effects Crypto Config Sessions RateLimit Deps Logic.
From S2P Require Import Account Push.

#[local] Open Scope morok_scope.

(** ** What a request may leave *)

Definition push_key (p : PushSubscription) : string * string := (ps_pubkey p, ps_endpoint p).
Definition of_account (pubkey : string) (p : PushSubscription) : bool := String.eqb (ps_pubkey p) pubkey.

Section Steps.
  Context (bracketed_ok : string -> bool).

(** Where the relay posts a web push to. *)
Definition addressed (p : PushSubscription) : Prop :=
  ps_platform p = "fcm" \/
  (ps_platform p = "webpush" /\ _endpoint_must_be_known_push_provider bracketed_ok (ps_endpoint p) = true).

(** A subscription after a request of its account. *)
Record renewed (now : Z) (p p' : PushSubscription) : Prop := {
  rn_key : push_key p' = push_key p;
  rn_created : ps_created_at p' = ps_created_at p;
  rn_platform : ps_platform p' = ps_platform p \/ ps_platform p' = "fcm"
}.

Record new_push (now : Z) (db : database) (p : PushSubscription) : Prop := {
  np_free : push_key p ∉ map push_key (t_push db);
  np_addressed : addressed p;
  np_created : ps_created_at p = now;
  np_quota : (count (of_account (ps_pubkey p)) (t_push db) < MAX_PUSH_SUBSCRIPTIONS_PER_ACCOUNT)%Z
}.

(** What a request of the account [pubkey] makes of the subscriptions. *)
Inductive push_rows (pubkey : string) (now : Z) (db : database) : list PushSubscription -> Prop :=
| push_renews l : Forall2 (fun p p' => p' = p \/ (ps_pubkey p = pubkey /\ renewed now p p')) (t_push db) l -> push_rows pubkey now db l
| push_new p : ps_pubkey p = pubkey -> new_push now db p -> push_rows pubkey now db (t_push db ++ [p])
| push_removes endpoint : push_rows pubkey now db (List.filter (fun p => negb (push_of pubkey endpoint p)) (t_push db)).

Definition push_step (now : Z) (db db' : database) : Prop :=
  exists pubkey l, push_rows pubkey now db l /\ db' = set_push l db.

Lemma push_same db : set_push (t_push db) db = db.
Proof. by destruct db. Qed.

(** The addresses are unique, few, and of known providers. *)
Record push_ok (db : database) : Prop := {
  pk_unique : NoDup (map push_key (t_push db));
  pk_few pubkey : (count (of_account pubkey) (t_push db) <= MAX_PUSH_SUBSCRIPTIONS_PER_ACCOUNT)%Z;
  pk_addressed : Forall addressed (t_push db)
}.

Lemma push_of_key pk e p : push_of pk e p = true <-> push_key p = (pk, e).
Proof. unfold push_of, push_key. rewrite andb_true_iff, !String.eqb_eq. split; [by intros [-> ->]|by intros [= -> ->]]. Qed.

Lemma push_step_ok now db db' : push_step now db db' -> push_ok db -> push_ok db'.
Proof.
  intros (pubkey & l & Hl & ->) [Hu Hf Ha]. destruct Hl as [l Hl|p _ [Hfree Had _ Hq]|e].
  - assert (Hk : forall p p', p' = p \/ (ps_pubkey p = pubkey /\ renewed now p p') -> push_key p' = push_key p)
      by (intros p p' [->|[_ [? _ _]]]; done).
    split; cbn.
    + by rewrite (related_keys _ push_key _ _ Hk Hl).
    + intros pk. etrans; [eapply count_related, Hl|apply Hf]. intros x y E%Hk. unfold of_account. by injection E as -> _.
    + clear Hu Hf. induction Hl as [|p p' t t' Hr _ IH]; [done|]. apply Forall_cons in Ha as [Hp Ha]. constructor; [|auto].
      destruct Hr as [->|[_ [E _ Hpl]]]; [done|]. injection E as _ E. unfold addressed in *. rewrite E.
      destruct Hpl as [->| ->]; [done|by left].
  - split; cbn.
    + rewrite map_app. apply NoDup_app. split_and!; [done| |by apply NoDup_singleton].
      intros x Hx Hx'%list_elem_of_singleton. by subst.
    + intros pk. rewrite count_app. destruct (of_account pk p) eqn:E; [|specialize (Hf pk); lia].
      apply String.eqb_eq in E as <-. lia.
    + apply Forall_app. by split; [|apply Forall_singleton].
  - split; cbn.
    + eapply sublist_NoDup; [exact Hu|]. apply (fmap_sublist push_key), filter_sublist.
    + intros pk. etrans; [apply count_filter|apply Hf].
    + apply Forall_forall. intros r Hr. apply list_elem_of_In, List.filter_In in Hr as [Hr _]. apply list_elem_of_In in Hr.
      by eapply Forall_forall in Ha.
Qed.

(** ** The handlers *)

Section Handlers.
  Context (vapid : string) (enabled : bool) (l : LocalFallbackLimiter) (now : Z) (db : database).

#[local] Abbreviation handled := (Logic.handled now db (push_step now db)).

(** The rate limit is in Redis, the key in the session. *)
Lemma leaves_limited b i : leaves (fun d : database => d) (limited enabled l b i).
Proof. unfold limited, check_rate_limit. leaves; done. Qed.
Lemma handled_limited {A} b i (k : unit -> M A) : (forall u, handled (k u)) -> handled (bind (limited enabled l b i) k).
Proof. intros Hk. eapply handled_reads; [apply reads_leaves, leaves_limited|]. auto. Qed.
Lemma handled_key {A} h (k : string -> M A) : (forall pk, handled (k pk)) -> handled (bind (fromhex_ h) k).
Proof. intros Hk. eapply handled_reads; [apply reads_leaves; unfold fromhex_; leaves|]. auto. Qed.

Lemma handled_renew {A} pk e f (k : unit -> M A) :
  (forall p, push_of pk e p = true -> renewed now p (f p)) -> no_sql (k tt) -> handled (bind (update_push (push_of pk e) f) k).
Proof.
  intros Hf Hk. unfold update_push. apply handled_sql; [|exact Hk]. right. exists pk. eexists. split; [|done].
  apply push_renews, update_related; [by left|]. intros p _ Hp. right.
  split; [|by apply Hf]. apply push_of_key in Hp. by injection Hp.
Qed.

Lemma handled_add {A} pk p (k : unit -> M A) :
  ps_pubkey p = pk -> addressed p -> ps_created_at p = now -> no_sql (k tt) -> handled (bind (add_subscription pk p) k).
Proof.
  intros <- Ha Hc Hk. unfold add_subscription. apply handled_assoc.
  eapply handled_reads; [apply reads_sql|]. intros n <-.
  destruct (Z.leb_spec MAX_PUSH_SUBSCRIPTIONS_PER_ACCOUNT (count (of_account (ps_pubkey p)) (t_push db))) as [Hle|Hlt].
  { unfold count, of_account in Hle. rewrite (proj2 (Z.leb_le _ _) Hle). apply handled_raise. }
  unfold count, of_account in Hlt. rewrite (proj2 (Z.leb_gt _ _) Hlt). unfold insert_push. apply handled_assoc, handled_sql.
  - destruct (existsb _ _) eqn:E; [by left|right]. exists (ps_pubkey p). eexists. split; [|done]. apply push_new; [done|].
    split; try done. intros (q & Eq & Hq)%list_elem_of_fmap. apply existsb_none in E.
    assert (Hin : q ∈ List.filter (push_of (ps_pubkey p) (ps_endpoint p)) (t_push db)); [|by rewrite E in Hin; apply elem_of_nil in Hin].
    apply list_elem_of_In, List.filter_In. split; [by apply list_elem_of_In|]. apply push_of_key. by rewrite <- Eq.
  - apply no_sql_bind; [by destruct (existsb _ _)|by intros []].
Qed.

Lemma renewed_refresh body p : renewed now p (refreshed_push body now p).
Proof. by split; [..|left]. Qed.
Lemma renewed_native ua p : renewed now p (as_native ua now p).
Proof. by split; [..|right]. Qed.

Lemma handled_subscribe body c :
  valid_PushSubscribeRequest bracketed_ok body = true -> handled (post_subscribe vapid enabled l body c).
Proof.
  intros Hv. unfold post_subscribe. destruct (String.eqb vapid ""); [apply handled_raise|].
  apply handled_limited. intros []. apply handled_key. intros pk.
  eapply handled_reads; [apply reads_now|]. intros n <-. eapply handled_reads; [apply reads_sql|]. intros o _. destruct o as [row|].
  - apply handled_renew; [|done]. intros p _. apply renewed_refresh.
  - apply handled_add; [done| |done|done]. right. split; [done|]. unfold valid_PushSubscribeRequest in Hv.
    rewrite !andb_true_iff in Hv. apply Hv.
Qed.

Lemma handled_remove {A} pk e (k : Z -> M A) : (forall n, no_sql (k n)) -> handled (bind (delete_push pk e) k).
Proof.
  intros Hk. unfold delete_push. apply handled_sql; [|by destruct (delete_where _ _)]. right. exists pk. eexists.
  split; [apply (push_removes _ _ _ e)|done].
Qed.

Lemma handled_subscribe_native token ua c : handled (post_subscribe_native enabled l token ua c).
Proof.
  unfold post_subscribe_native. apply handled_limited. intros []. apply handled_key. intros pk.
  eapply handled_reads; [apply reads_now|]. intros n <-. eapply handled_reads; [apply reads_sql|]. intros o _.
  destruct o as [row|].
  - apply handled_last, handled_renew; [|done]. intros p _. apply renewed_native.
  - apply handled_last, handled_add; [done|by left|done|done].
Qed.
End Handlers.
End Steps.

(** ** Requests and tasks *)

Inductive push_request :=
| QSubscribe (body : PushSubscribeRequest) (c : Session)
| QUnsubscribe (endpoint : string) (c : Session)
| QSubscribeNative (token : string) (user_agent : option string) (c : Session)
| QUnsubscribeNative (token : string) (c : Session).

(** A push task, with what the services answer to it. *)
Record push_task := PushTask {
  pt_services : Transport;
  pt_webpush : bool; pt_fcm : bool;
  pt_recipients : list string;
  pt_sender : option string; pt_group : option string; pt_kind : option string
}.

Section Requests.
  Context (bracketed_ok : string -> bool) (vapid : string) (enabled : bool) (l : LocalFallbackLimiter).

(** A body that does not validate is answered before the handler runs. *)
Definition push_prog (o : push_request) : prog unit :=
  match o with
  | QSubscribe body c =>
      if valid_PushSubscribeRequest bracketed_ok body then detached (with_session (post_subscribe vapid enabled l body c)) else Ret tt
  | QUnsubscribe endpoint c =>
      if len_between 1 4096 endpoint then detached (with_session (post_unsubscribe endpoint c)) else Ret tt
  | QSubscribeNative token ua c =>
      if valid_native token ua then detached (with_session (post_subscribe_native enabled l token ua c)) else Ret tt
  | QUnsubscribeNative token c =>
      if valid_native token None then detached (with_session (post_unsubscribe_native token c)) else Ret tt
  end.
Definition task_prog (t : push_task) : prog unit :=
  detached (_run_push_in_own_session (H := pt_services t) (pt_webpush t) (pt_fcm t) (pt_recipients t) (pt_sender t) (pt_group t) (pt_kind t)).

Lemma push_request_step o (w : vworld) :
  tables_of w = (w_db w, w_db w) ->
  let t := tables_of (snd (run_doc (push_prog o) w)) in
  t.1 = t.2 /\ (t.1 = w_db w \/ push_step bracketed_ok (w_now w) (w_db w) t.1).
Proof.
  intros Hw. assert (Hskip : let t := tables_of (snd (run_doc (Ret tt) w)) in
    t.1 = t.2 /\ (t.1 = w_db w \/ push_step bracketed_ok (w_now w) (w_db w) t.1))
    by (cbv zeta; change (snd (run_doc (Ret tt) w)) with w; rewrite Hw; auto).
  destruct o; cbn [push_prog].
  - destruct (valid_PushSubscribeRequest bracketed_ok body) eqn:Hv; [|exact Hskip].
    by apply (handled_session (w_now w)); [apply handled_subscribe|..].
  - destruct (len_between _ _ _); [|exact Hskip]. apply (handled_session (w_now w)); [|done..].
    apply handled_key. intros pk. by apply handled_last, handled_remove.
  - destruct (valid_native _ _); [|exact Hskip]. by apply (handled_session (w_now w)); [apply handled_subscribe_native|..].
  - destruct (valid_native _ _); [|exact Hskip]. apply (handled_session (w_now w)); [|done..].
    apply handled_key. intros pk. by apply handled_remove.
Qed.

(** Neither a commit nor a rollback in a task before its end. *)
Lemma no_sql_offline l' : no_sql (offline_of l').
Proof. induction l' as [|pk l' IH]; [done|]. cbn [offline_of]. unfold is_offline. no_sql; exact IH. Qed.
Lemma no_sql_each l' : no_sql (fromhex_each l').
Proof. induction l' as [|h l' IH]; [done|]. cbn [fromhex_each]. unfold fromhex_. no_sql; exact IH. Qed.
Lemma open_deletes gone : leaves (fun _ => tt) (delete_all gone).
Proof.
  induction gone as [|p gone IH]; [done|]. cbn [delete_all]. apply leaves_bind; [|intros _; exact IH].
  by apply leaves_sql.
Qed.
Lemma open_push `{T : Transport} wp fcm rs sender g k : leaves (fun _ => tt) (trigger_push wp fcm rs sender g k).
Proof.
  unfold trigger_push. destruct (_ && _); [done|].
  apply leaves_bind; [apply leaves_no_sql, no_sql_offline|]. intros [|pk off]; [done|].
  apply leaves_bind; [apply leaves_no_sql, no_sql_each|]. intros pks.
  apply leaves_bind; [by apply leaves_sql|]. intros [|r rows]; [done|].
  do 2 (apply leaves_bind; [by split|]; intros ?). cbv zeta.
  apply leaves_bind; [by apply leaves_sql|]. intros _. apply open_deletes.
Qed.

Lemma task_leaves t (w : vworld) : tables_of (snd (run_doc (task_prog t) w)) = (w_db w, w_db w).
Proof.
  unfold task_prog. rewrite run_detached. unfold _run_push_in_own_session. rewrite run_own_session. cbn [snd].
  set (p := trigger_push _ _ _ _ _ _).
  destruct (db_leaves (fun _ => tt) (w_now w) p (fun t => t.1 = w_db w) (open_push _ _ _ _ _ _) (fun _ _ _ _ H => H) w eq_refl eq_refl) as [E _].
  unfold tables_of in *. cbn in *. by rewrite E.
Qed.
End Requests.

(** ** Histories *)

Section History.
  Context `{R : Redis} (bracketed_ok : string -> bool).

(** A request, whatever the settings are and whatever the reserve of the limiter holds; a task; or time
    passes and other code runs, which at most removes subscriptions. *)
Inductive push_run (w : world rstore) : world rstore -> Prop :=
| push_request_run vapid enabled l o : push_run w (snd (run (push_prog bracketed_ok vapid enabled l o) w))
| push_task_run t : push_run w (snd (run (task_prog t) w))
| push_elsewhere w' (keep : PushSubscription -> bool) :
    w_work w' = w_db w' -> t_push (w_db w') = List.filter keep (t_push (w_db w)) -> push_run w w'.

Lemma push_ok_kept keep db db' :
  t_push db' = List.filter keep (t_push db) -> push_ok bracketed_ok db -> push_ok bracketed_ok db'.
Proof.
  intros E [Hu Hf Ha]. split; rewrite E.
  - eapply sublist_NoDup; [exact Hu|]. apply (fmap_sublist push_key), filter_sublist.
  - intros pk. etrans; [apply count_filter|apply Hf].
  - apply Forall_forall. intros r Hr. apply list_elem_of_In, List.filter_In in Hr as [Hr _]. apply list_elem_of_In in Hr.
    by eapply Forall_forall in Ha.
Qed.

Lemma push_run_ok (w w' : world rstore) :
  push_run w w' -> w_work w = w_db w /\ push_ok bracketed_ok (w_db w) -> w_work w' = w_db w' /\ push_ok bracketed_ok (w_db w').
Proof.
  intros Hrun [Hw Hok]. assert (Hrest : tables_of (absw w) = (w_db (absw w), w_db (absw w))) by (unfold tables_of; cbn; by rewrite Hw).
  destruct Hrun as [vapid enabled l o|t|w' keep Hw' E].
  - destruct (push_request_step bracketed_ok vapid enabled l o (absw w) Hrest) as [E Hstep].
    rewrite <- snd_run_absw in E, Hstep. cbn in E, Hstep. split; [done|].
    destruct Hstep as [->|Hstep]; [done|]. by eapply push_step_ok.
  - pose proof (task_leaves t (absw w)) as E. rewrite <- snd_run_absw in E. injection E as E1 E2. cbn in E1, E2.
    by rewrite E1, E2.
  - split; [done|]. by eapply push_ok_kept.
Qed.


End History.

Module PushDemo.
Definition alice : string := string_of_list_ascii (repeat "0"%char 64).
Definition alice_key : string := default "" (bytes_fromhex alice).
Definition bracketed (_ : string) : bool := false.
Definition endpoint : string := "https://updates.push.services.mozilla.com/wpush/v2/abc".
Definition phone : PushSubscription := mkPush alice_key endpoint "key" "secret" "webpush" None 900 900 None.
Definition db : database := set_push [phone] empty_db.
Definition relay : world (rstore (Redis := Mem_Redis)) :=
  World 1000 (View ∅ ∅ []) db db ∅ [] (fun _ => "") [] no_network [].
Definition session : Session := mkSession "tok" alice 2000.
Definition limiter : LocalFallbackLimiter := mkLimiter ∅ 0.

Lemma push_demo_ok : push_ok bracketed db.
Proof.
  split.
  - apply NoDup_singleton.
  - intros pk. change (t_push db) with [phone]. unfold count. cbn [List.filter]. by destruct (of_account pk phone).
  - apply Forall_singleton. right. split; [reflexivity|vm_compute; reflexivity].
Qed.

Definition subscribe : push_request :=
  QSubscribe (mkPushSubscribe "https://fcm.googleapis.com/fcm/send/xyz" "key" "secret" None) session.
Definition after_it : world rstore := snd (run (push_prog bracketed "vapid" false limiter subscribe) relay).

End PushDemo.
