(* ===== verification/SmtpFacts.v ===== *)
(** * The mail receiver: properties

    Whom mail from outside reaches, whatever fails; and that a letter to an active address arrives,
    sealed for its owner. *)

From Stdlib Require Import Ascii String.
From stdpp Require Import prelude gmap strings list.
From S2P Require Import Prelude Json Codec RedisStore Models Effects Crypto Config Sessions RateLimit Deps Logic.
From S2P Require Import CodecFacts BlobStorage Queue QueueFacts MailboxFacts DmsFacts Messages MessagesFacts FederationApiFacts InboxFacts.
From S2P Require Import RateLimitFacts Users Account Mail Push PushFacts MailFacts Smtp.

#[local] Open Scope morok_scope.

(** ** What a message may change in the tables *)

(** An address that counted some more mails. *)
Definition counted (a a' : MailAlias) : Prop :=
  exists n, a' = mkAlias (ma_alias a) (ma_owner_pubkey a) (ma_status a) (ma_is_primary a) (ma_label a) (ma_created_at a) n /\
    (ma_received_count a <= n)%Z.

#[export] Instance counted_preorder : PreOrder counted.
Proof.
  split; [intros a; exists (ma_received_count a); split; [by destruct a|done]|].
  intros a b c (n & -> & Hn) (m & -> & Hm). exists m. split; [done|]. cbn in Hm. lia.
Qed.
Lemma counted_received a : counted a (received a).
Proof. eexists. split; [done|lia]. Qed.

(** Counters of addresses and subscriptions for push; no address and no other table. *)
Record mail_left (db d : database) : Prop := {
  ml_aliases : Forall2 counted (t_aliases db) (t_aliases d);
  ml_push : sublist (map push_key (t_push d)) (map push_key (t_push db));
  ml_rest : d = set_push (t_push d) (set_aliases (t_aliases d) db)
}.

Lemma mail_left_refl db : mail_left db db.
Proof. split; [apply Forall2_same_length_lookup_2; [done|]; intros i x y Hx Hy; by simplify_eq|done|by destruct db]. Qed.
Lemma rest_set db d p a : d = set_push p (set_aliases a db) ->
  (forall x, set_aliases x d = set_push (t_push d) (set_aliases x db)) /\ (forall x, set_push x d = set_push x (set_aliases (t_aliases d) db)).
Proof. by intros ->. Qed.
Lemma left_update f alias db d : (forall a, counted a (f a)) -> mail_left db d ->
  mail_left db (set_aliases (snd (update_where (has_alias alias) f (t_aliases d))) d).
Proof.
  intros Hf [H1 H2 H3]. split; [|exact H2|exact (proj1 (rest_set _ _ _ _ H3) _)].
  change (Forall2 counted (t_aliases db) (snd (update_where (has_alias alias) f (t_aliases d)))).
  transitivity (t_aliases d); [exact H1|]. apply update_related; [reflexivity|auto].
Qed.
Lemma left_push l db d : sublist (map push_key l) (map push_key (t_push d)) -> mail_left db d -> mail_left db (set_push l d).
Proof. intros Hl [H1 H2 H3]. split; [exact H1|by transitivity (map push_key (t_push d))|exact (proj2 (rest_set _ _ _ _ H3) _)]. Qed.

Lemma left_trigger `{Transport} db wp fcm rs n g k : sql_keeps (mail_left db) (trigger_push wp fcm rs n g k).
Proof.
  unfold trigger_push. destruct (_ && _); [done|].
  apply sql_keeps_bind; [apply sql_keeps_no_sql, no_sql_offline|]. intros [|pk off]; [done|].
  apply sql_keeps_bind; [apply sql_keeps_no_sql, no_sql_each|]. intros pks.
  apply sql_keeps_bind; [by split|]. intros [|r rows]; [done|].
  do 2 (apply sql_keeps_bind; [by split|]; intros ?). cbv zeta.
  apply sql_keeps_bind.
  - split; [|done]. intros d Hd. cbn [snd]. apply left_push; [|exact Hd].
    assert (E : map push_key (snd (update_where (fun q => existsb (fun p => same_push p q)
      (List.filter (fun r0 => match send_one wp fcm (push_payload n g k a) r0 with Some SentOk => true | _ => false end) (r :: rows)))
      (used_at a0) (t_push d))) = map push_key (t_push d)); [|by rewrite E].
    cbn [update_where snd]. rewrite map_map. apply map_ext. intros p. by destruct (existsb _ _).
  - intros _. generalize (List.filter (fun r0 => match send_one wp fcm (push_payload n g k a) r0 with Some SentGone => true | _ => false end) (r :: rows)).
    intros gone. induction gone as [|p gone IH]; [done|]. cbn [delete_all]. apply sql_keeps_bind; [|intros _; exact IH].
    split; [|done]. intros d Hd. cbn [delete_where snd]. apply left_push; [|exact Hd].
    apply (fmap_sublist push_key), filter_sublist.
Qed.

Section Admission.
  Context `{Sha256} `{Email} `{MailCrypto} `{Transport}.
  Context (s : Settings) (ms : MailSettings) (spf : string -> string -> string -> string) (wp fcm : bool).

#[local] Abbreviation rcpt := (handle_RCPT ms).
#[local] Abbreviation rcpts := (handle_RCPTs ms).
#[local] Abbreviation data := (handle_DATA s ms spf wp fcm).

(** ** Which recipients are taken *)

Definition may_receive (db : database) (addr st owner : string) : Prop :=
  (exists a, a ∈ t_aliases db /\ ma_alias a = before (is_char "@") addr /\ ma_status a <> DEAD /\
     st = status_value (ma_status a) /\ owner = ma_owner_pubkey a) \/
  (st = "system" /\ bytes_fromhex (mail_admin_pubkey_hex ms) = Some owner).
Definition routes_ok (db : database) (c : smtp_session) : Prop :=
  forall addr st owner, sm_routes c !! addr = Some (st, owner) -> may_receive db addr st owner.

Lemma routes_insert db c e addr st owner :
  routes_ok db c -> may_receive db addr st owner -> routes_ok db (route addr st owner c e).1.2.
Proof.
  intros Hc Hm addr' st' owner'. cbn. destruct (decide (addr' = addr)) as [->|Hne].
  - rewrite lookup_insert_eq. by intros [= <- <-].
  - rewrite lookup_insert_ne by done. apply Hc.
Qed.

Lemma reads_rcpt now db c e address : routes_ok db c ->
  reads now db (rcpt c e address) (fun r => routes_ok db r.1.2).
Proof.
  intros Hc. unfold handle_RCPT. cbv zeta. destruct (negb _); [by apply reads_ret|].
  destruct (negb _); [by apply reads_ret|].
  eapply reads_bind; [apply reads_leaves; unfold _ip_allowed; leaves; done|]. intros ok _.
  destruct (negb ok); [by apply reads_ret|]. destruct (_ && _).
  - unfold fromhex_. destruct (bytes_fromhex _) as [owner|] eqn:E.
    + eapply reads_bind; [apply (reads_ret _ _ owner (eq owner)); done|]. intros o <-.
      apply reads_ret, routes_insert; [done|]. by right.
    + eapply reads_bind; [apply (reads_raise _ _ _ (fun _ => False))|]. by intros o [].
  - eapply reads_bind; [apply reads_own_session, reads_sql|]. intros o <-.
    destruct (select_one _ _) as [row|] eqn:Er; [|by apply reads_ret].
    case_bool_decide as Hd; [by apply reads_ret|]. apply reads_ret, routes_insert; [done|].
    apply select_in in Er as [Hin Ha%String.eqb_eq]. left. by exists row.
Qed.
Lemma reads_rcpts now db addresses c e : routes_ok db c ->
  reads now db (rcpts c e addresses) (fun r => routes_ok db r.1).
Proof.
  revert c e. induction addresses as [|address addresses IH]; intros c e Hc; cbn [handle_RCPTs]; [by apply reads_ret|].
  apply (reads_bind _ _ _ (fun r => routes_ok db r.1)).
  - apply reads_try; [|intros x; by apply reads_ret]. eapply reads_bind; [by apply reads_rcpt|].
    intros [[ans c'] e'] Hc'. by apply reads_ret.
  - intros [c' e'] Hc'. by apply IH.
Qed.

(** ** Whose inbox is touched *)

Section Keys.
  Context (o : string) (x : option entry).

#[local] Abbreviation J := (stays (_inbox_key o) x).

Ltac not_inbox :=
  unfold elsewhere; cbn [writes set_ex set_nx_ex]; rewrite ?not_elem_of_cons; repeat split;
  first [apply not_elem_of_nil | string_ne | by intros Eq%inbox_key_inj].
Ltac inbox_stays := unfold get_cmd, drop_meta; exchanges ltac:(solve [not_inbox]).

Lemma keep_lua r now id exp max : r <> o -> rkeeps J (_INBOX_ENQUEUE_LUA (_inbox_key r) now id exp max).
Proof.
  intros Hr. unfold _INBOX_ENQUEUE_LUA, lua_call.
  repeat first [ apply rkeeps_rbind; [apply rkeeps_rcall, stays_harmless; not_inbox|intros ?] | case_match | apply rkeeps_ret ].
Qed.
Lemma keep_enqueue a : ea_recipient a <> o -> exchanges_keep J (enqueue_envelope a).
Proof.
  intros Hr. unfold enqueue_envelope. apply exchanges_bind; [by inbox_stays|]. intros now. case_match; [done|].
  apply exchanges_bind; [done|]. intros meta. apply exchanges_bind; [by inbox_stays|]. intros written.
  case_match; [done|]. apply exchanges_bind.
  - apply exchanges_try; [apply exchanges_redis, keep_lua; done|by inbox_stays].
  - by inbox_stays.
Qed.
Lemma keep_offline l : exchanges_keep J (offline_of l).
Proof. induction l as [|pk l IH]; [done|]. cbn [offline_of]. unfold is_offline. inbox_stays. Qed.

Lemma keep_deletes gone : exchanges_keep J (delete_all gone).
Proof. induction gone as [|p gone IH]; [done|]. cbn [delete_all]. unfold delete_push. inbox_stays. Qed.
Lemma keep_each l : exchanges_keep J (fromhex_each l).
Proof. induction l as [|h l IH]; [done|]. cbn [fromhex_each]. unfold fromhex_. inbox_stays. Qed.
Lemma keep_trigger rs n g k : exchanges_keep J (trigger_push wp fcm rs n g k).
Proof.
  unfold trigger_push, update_push. destruct (_ && _); [done|].
  apply exchanges_bind; [apply keep_offline|]. intros [|pk off]; [done|].
  apply exchanges_bind; [apply keep_each|]. intros pks. apply exchanges_bind; [done|]. intros [|r rows]; [done|].
  do 3 (apply exchanges_bind; [done|]; intros ?). apply keep_deletes.
Qed.
Lemma keep_deliver_email raw local owner r : hex_of_bytes owner <> o -> exchanges_keep J (deliver_email s raw local owner r).
Proof. intros Hr. unfold deliver_email, seal_mail, randombytes, write_blob, of_res. inbox_stays. by apply keep_enqueue. Qed.
Lemma keep_after st local owner : exchanges_keep J (after_delivery wp fcm st local owner).
Proof.
  unfold after_delivery, own_session. apply exchanges_bind.
  - apply exchanges_try; [|done]. apply exchanges_bind; [|done]. apply exchanges_try; [|done].
    apply exchanges_bind; [apply keep_trigger|done].
  - intros _. destruct (String.eqb st "active"); [|done]. unfold update_alias. inbox_stays.
Qed.

Lemma keep_deliver_to routes raw r rcpt_tos :
  (forall addr st owner, routes !! addr = Some (st, owner) -> st <> "paused" -> hex_of_bytes owner <> o) ->
  exchanges_keep J (deliver_to s wp fcm routes raw r rcpt_tos).
Proof.
  intros Hroutes. induction rcpt_tos as [|rcpt_to rcpt_tos IH]; [done|]. cbn [deliver_to].
  destruct (routes !! rcpt_to) as [[st owner]|] eqn:E; [|exact IH].
  destruct (String.eqb_spec st "paused") as [|Hp]; [exact IH|]. cbv zeta.
  apply exchanges_bind; [apply exchanges_try; [apply exchanges_bind; [by eapply keep_deliver_email, Hroutes|done]|done]|].
  intros ok. destruct (negb ok); [done|]. apply exchanges_bind; [apply keep_after|]. intros _. exact IH.
Qed.
End Keys.

(** ** The tables *)

Lemma left_after db st local owner : sql_keeps (mail_left db) (after_delivery wp fcm st local owner).
Proof.
  unfold after_delivery. apply sql_keeps_bind.
  - apply sql_keeps_try; [|done]. apply sql_keeps_own, sql_keeps_bind; [apply left_trigger|done].
  - intros _. destruct (String.eqb st "active"); [|done]. apply sql_keeps_try; [|done].
    apply sql_keeps_own, sql_keeps_bind; [|done]. split; [|done]. intros d Hd. apply left_update; [apply counted_received|done].
Qed.
Lemma no_sql_deliver_email raw local owner r : no_sql (deliver_email s raw local owner r).
Proof. unfold deliver_email, seal_mail, randombytes, write_blob. no_sql. apply no_sql_enqueue. Qed.
Lemma left_data db c e : sql_keeps (mail_left db) (data c e).
Proof.
  unfold handle_DATA. destruct (_ <? _)%Z; [done|]. cbv zeta. apply sql_keeps_bind; [|done].
  induction (en_rcpt_tos e) as [|rcpt_to rcpt_tos IH]; [done|]. cbn [deliver_to].
  destruct (sm_routes c !! rcpt_to) as [[st owner]|]; [|exact IH]. destruct (String.eqb st "paused"); [exact IH|].
  apply sql_keeps_bind.
  - apply sql_keeps_try; [|done]. apply sql_keeps_bind; [apply sql_keeps_no_sql, no_sql_deliver_email|done].
  - intros ok. destruct (negb ok); [done|]. apply sql_keeps_bind; [apply left_after|]. intros _. exact IH.
Qed.

(** ** A message from outside *)

Lemma run_message c from addresses content (w : vworld) :
  run_doc (smtp_message s ms spf wp fcm c from addresses content) w =
  let x := run_doc (rcpts c (mkSmtpEnvelope from [] content) addresses) w in
  match fst x with
  | Ok (c', e') =>
      match en_rcpt_tos e' with
      | [] => (Ok (None, c'), snd x)
      | _ => let y := run_doc (data c' e') (snd x) in
             (match fst y with Ok answer => Ok (Some answer, c') | Raise e => Raise e end, snd y)
      end
  | Raise e => (Raise e, snd x)
  end.
Proof.
  unfold smtp_message. rewrite run_doc_bind. destruct (run_doc (rcpts _ _ _) w) as [[[c' e']|e] w1]; [|done]. cbn [fst snd].
  destruct (en_rcpt_tos e'); [done|]. rewrite run_doc_bind. by destruct (run_doc (data c' e') w1) as [[ans|e] w2].
Qed.
End Admission.

Section Reach.
  Context `{R : Redis} `{Sha256} `{Email} `{MailCrypto} `{Transport}.
  Context (s : Settings) (ms : MailSettings) (spf : string -> string -> string -> string) (wp fcm : bool).

Lemma keep_rcpts o x addresses c e : exchanges_keep (stays (_inbox_key o) x) (handle_RCPTs ms c e addresses).
Proof.
  revert c e. induction addresses as [|address addresses IH]; intros c e; [done|]. cbn [handle_RCPTs].
  apply exchanges_bind; [|intros [c' e']; apply IH]. apply exchanges_try; [|done]. apply exchanges_bind; [|by intros [[ans c'] e']].
  unfold handle_RCPT, _ip_allowed, cmd_, own_session, select_alias, fromhex_, mail_rl_key. cbv zeta.
  exchanges ltac:(solve [unfold elsewhere; cbn [writes]; rewrite not_elem_of_cons; split; [string_ne|apply not_elem_of_nil]]).
Qed.

(** C26: mail from outside reaches only those it may.  Whatever fails, a message of a new connection leaves
    the inbox of an account alone that has no active address and is not the administrator, whoever it is
    addressed to; and of the tables it changes only the counters of addresses and the subscriptions for
    push notifications, of which it can remove some. *)
Theorem smtp_reaches_only_owners o c from addresses content (w : world rstore) :
  sm_routes c = ∅ -> w_work w = w_db w ->
  (forall a, a ∈ t_aliases (w_db w) -> hex_of_bytes (ma_owner_pubkey a) = o -> ma_status a <> ACTIVE) ->
  (forall k, bytes_fromhex (mail_admin_pubkey_hex ms) = Some k -> hex_of_bytes k <> o) ->
  let w' := snd (run (smtp_message s ms spf wp fcm c from addresses content) w) in
  rv_keys (w_redis (absw w')) !! _inbox_key o = rv_keys (w_redis (absw w)) !! _inbox_key o /\
  mail_left (w_db w) (w_db w').
Proof.
  intros Hc Hw Hal Hadm w'. set (x := rv_keys (w_redis (absw w)) !! _inbox_key o).
  change (w_db w') with (w_db (absw w')). unfold w'. rewrite snd_run_absw, run_message. clear w'.
  assert (Ht : tables_of (absw w) = (w_db w, w_db w)) by (unfold tables_of; cbn; by rewrite Hw).
  assert (Hr0 : routes_ok ms (w_db w) c) by (intros addr st owner; by rewrite Hc, lookup_empty).
  destruct (reads_rcpts ms (w_now w) (w_db w) addresses c (mkSmtpEnvelope from [] content) Hr0 (absw w) eq_refl Ht) as [[Ht1 Hr1] _].
  pose proof (exchanges_run (stays (_inbox_key o) x) _ (absw w) (keep_rcpts o x addresses c (mkSmtpEnvelope from [] content)) eq_refl) as Hi.
  destruct (run_doc (handle_RCPTs ms c _ addresses) (absw w)) as [[[c' e']|e] w1]; cbn [fst snd] in *; unfold at_db, tables_of in Ht1; injection Ht1 as E1 E2.
  - assert (Hdone : rv_keys (w_redis w1) !! _inbox_key o = x /\ mail_left (w_db w) (w_db w1)) by (rewrite E1; split; [exact Hi|apply mail_left_refl]).
    destruct (en_rcpt_tos e'); [exact Hdone|]. cbn [snd]. split.
    + apply (exchanges_run (stays (_inbox_key o) x)); [|exact Hi]. unfold handle_DATA. destruct (_ <? _)%Z; [done|].
      apply exchanges_bind; [|done]. apply keep_deliver_to. intros addr st owner Hroute Hst Ho.
      destruct (Hr1 addr st owner Hroute) as [(a & Hin & _ & Hd & -> & ->)|[_ Hk]]; [|by eapply Hadm].
      specialize (Hal a Hin Ho). by destruct (ma_status a).
    + apply sql_keeps_run; [apply left_data|rewrite E1; apply mail_left_refl|rewrite E2; apply mail_left_refl].
  - rewrite E1. split; [exact Hi|apply mail_left_refl].
Qed.
End Reach.

(** ** A letter that arrives *)

(** The client's side of the format: [eph_pub], 32 bytes; the nonce, 24; the ciphertext. *)
Definition mail_open `{MailCrypto} (decrypt : string -> string -> string -> option string) (priv blob : string) : option string :=
  let eph_pub := substring 0 32 blob in
  let nonce := substring 32 24 blob in
  match scalarmult priv eph_pub with
  | Ok shared => decrypt (substring 56 (String.length blob - 56) blob) nonce (hkdf_sha256 shared eph_pub _MAIL_INFO)
  | Raise _ => None
  end.

Section Arrival.
  Context `{Sha256} `{Email} `{MailCrypto} `{Transport}.
  Context (s : Settings) (ms : MailSettings) (spf : string -> string -> string -> string) (wp fcm : bool).

(** The key [priv] belongs to [owner]: both sides of the exchange with an ephemeral key come to the same
    secret, and what is encrypted is decrypted. *)
Record keys_match (decrypt : string -> string -> string -> option string) (priv owner eph_priv : string) : Prop := {
  km_shared : exists x shared, ed25519_pk_to_curve25519 owner = Ok x /\ scalarmult eph_priv x = Ok shared /\
    scalarmult priv (scalarmult_base eph_priv) = Ok shared;
  km_length : string_len (scalarmult_base eph_priv) = 32%Z;
  km_decrypt p n k : decrypt (xchacha_encrypt p n k) n k = Some p
}.

(** The seal takes two random texts; the owner opens it. *)
Lemma run_seal decrypt priv owner payload (w : vworld) :
  keys_match decrypt priv owner (substring 0 32 (w_tokens w 0)) -> string_len (w_tokens w 1) = 32%Z ->
  exists blob, run_doc (seal_mail owner payload) w = (Ok blob, set_tokens (fun n => w_tokens w (S (S n))) w) /\
    mail_open decrypt priv blob = Some (dumps payload).
Proof.
  intros [(x & shared & Hx & Hs & Hp) Hl Hd] Hn. set (eph := substring 0 32 (w_tokens w 0)) in *.
  set (nonce := substring 0 24 (w_tokens w 1)).
  exists (scalarmult_base eph +:+ nonce +:+ xchacha_encrypt (dumps payload) nonce (hkdf_sha256 shared (scalarmult_base eph) _MAIL_INFO)).
  split.
  - unfold seal_mail, randombytes. rewrite !run_doc_bind, run_doc_token, run_doc_ret. fold eph.
    rewrite run_doc_bind. unfold of_res. rewrite Hx. cbn [run_doc run_exec]. rewrite run_doc_bind, Hs. cbn [run_doc run_exec].
    rewrite !run_doc_bind, run_doc_token, !run_doc_ret. done.
  - assert (E1 : String.length (scalarmult_base eph) = 32%nat) by (unfold string_len in Hl; lia).
    assert (E2 : String.length nonce = 24%nat) by (apply substring_length; unfold string_len in Hn; lia).
    unfold mail_open. set (ct := xchacha_encrypt _ _ _).
    assert (S1 : substring 0 32 (scalarmult_base eph +:+ nonce +:+ ct) = scalarmult_base eph) by (rewrite <- E1; apply substring_app_l).
    assert (S2 : substring 32 24 (scalarmult_base eph +:+ nonce +:+ ct) = nonce)
      by (rewrite <- E1 at 1; rewrite substring_app_r, <- E2; apply substring_app_l).
    assert (S3 : forall n, substring 56 n (scalarmult_base eph +:+ nonce +:+ ct) = substring 0 n ct).
    { intros n. change 56%nat with (32 + 24)%nat. rewrite <- E1, <- E2, <- string_length_app, <- string_app_assoc. apply substring_app_r. }
    rewrite S1, S2, S3, Hp, !string_length_app, E1, E2.
    replace (32 + (24 + String.length ct) - 56)%nat with (String.length ct) by lia. rewrite substring_all. apply Hd.
Qed.

(** The address is one of this relay, for [local], and active. *)
Record addressed_to (db : database) (address local : string) (row : MailAlias) : Prop := {
  ad_text : strip (lower address) = local +:+ "@" +:+ lower (mail_domain ms);
  ad_local : string_forallb (fun x => negb (is_char "@" x)) local = true;
  ad_row : select_one (has_alias local) (t_aliases db) = Some row;
  ad_active : ma_status row = ACTIVE;
  ad_plain : local ∉ ["postmaster"; "abuse"] \/ mail_admin_pubkey_hex ms = ""
}.

Lemma run_ip_allowed ip n (w : vworld) :
  calm w -> counts (mail_rl_key ip) n (w_redis w) -> (n < mail_rl_per_ip ms)%Z ->
  exists v, run_doc (_ip_allowed ms ip) w = (Ok true, set_redis v w) /\
    forall k, k <> mail_rl_key ip -> rv_keys v !! k = rv_keys (w_redis w) !! k.
Proof.
  intros Hc Hn Hlt. set (v1 := put (mail_rl_key ip) (Entry (VStr (print_Z (n + 1))) (deadline_of (mail_rl_key ip) (w_redis w))) (w_redis w)).
  assert (E : run_doc (redis_ (rcall (INCR (mail_rl_key ip)) as_int)) w = (Ok (n + 1)%Z, set_redis v1 w))
    by (rewrite run_doc_redis, rrun_rcall, (doc_incr _ _ n) by done; done).
  assert (F : forall k, k <> mail_rl_key ip -> rv_keys v1 !! k = rv_keys (w_redis w) !! k)
    by (intros k Hk; unfold v1; rewrite keys_put_ne by done; done).
  unfold _ip_allowed. rewrite run_doc_bind, E. destruct (Z.eqb_spec (n + 1) 1) as [E1|E1].
  - eexists. rewrite run_doc_bind, run_expire, run_doc_ret by done. rewrite (proj2 (Z.leb_le _ _)) by lia. split; [done|].
    intros k Hk. rewrite keys_touch_ne by done. by apply F.
  - exists v1. rewrite run_doc_bind, !run_doc_ret, (proj2 (Z.leb_le _ _)) by lia. done.
Qed.

Lemma run_rcpt c e address local row n (w : vworld) :
  calm w -> w_work w = w_db w -> addressed_to (w_db w) address local row ->
  counts (mail_rl_key (peer_of c)) n (w_redis w) -> (n < mail_rl_per_ip ms)%Z ->
  exists v, run_doc (handle_RCPT ms c e address) w =
      (Ok (route (local +:+ "@" +:+ lower (mail_domain ms)) "active" (ma_owner_pubkey row) c e), set_redis v w) /\
    forall k, k <> mail_rl_key (peer_of c) -> rv_keys v !! k = rv_keys (w_redis w) !! k.
Proof.
  intros Hc Hw [Htext Hlocal Hrow Hact Hplain] Hn Hlt. destruct (run_ip_allowed _ n w Hc Hn Hlt) as (v & E & Hv). exists v. split; [|exact Hv].
  unfold handle_RCPT. rewrite Htext. change ("@" +:+ lower (mail_domain ms)) with (String "@" (lower (mail_domain ms))).
  rewrite char_in_app, before_app, after_app, String.eqb_refl by done. cbn [negb].
  rewrite run_doc_bind, E. cbn [negb].
  assert (Hb : bool_decide (local ∈ ["postmaster"; "abuse"]) && negb (String.eqb (mail_admin_pubkey_hex ms) "") = false).
  { apply andb_false_iff. destruct Hplain as [Hp|Hp]; [left; by apply bool_decide_eq_false|right; by rewrite Hp]. }
  rewrite Hb, run_doc_bind, run_own_session. unfold select_alias. rewrite run_doc_sql. cbn [fst snd set_redis w_work w_db].
  rewrite Hw, Hrow, Hact, bool_decide_false, run_doc_ret by done. f_equal. destruct w; cbn in *; by subst.
Qed.

(** The letter is in the queue of the owner. *)
Lemma run_deliver_email decrypt priv raw msg local owner r z idx (w : vworld) :
  let now := w_now w in
  let id := hex_of_bytes (w_tokens w 2) in
  let exp := (now + mail_ttl_seconds s)%Z in
  let a := external_args s id (hex_of_bytes owner) now in
  calm w -> (forall i, string_len (w_tokens w i) = 32%Z) -> (0 < mail_ttl_seconds s)%Z -> parsebytes raw = Ok msg ->
  keys_match decrypt priv owner (substring 0 32 (w_tokens w 0)) ->
  rv_keys (w_redis w) !! _envelope_meta_key id = None -> set_at (_pending_recipients_key id) (w_redis w) = Some ∅ ->
  zset_at (_inbox_key (hex_of_bytes owner)) (w_redis w) = Some z -> (Z.of_nat (size (live now z)) < MAX_INBOX_QUEUE_DEPTH)%Z ->
  zset_at _BLOB_EXPIRY_INDEX_KEY (w_redis w) = Some idx ->
  exists path blob meta v', _blob_path id = Ok path /\ build_meta a exp = Ok meta /\
    mail_open decrypt priv blob = Some (dumps (email_payload msg local r now)) /\
    run_doc (deliver_email s raw local owner r) w =
      (Ok (Some id), set_redis v' (put_blob path blob (set_tokens (fun n => w_tokens w (S (S (S n)))) w))) /\
    posted a now exp meta z ∅ idx (w_redis w) v'.
Proof.
  intros now id exp a Hc Htok Httl Hmsg Hk Hm Hp Hz Hsz Hidx.
  assert (Hid : well_formed_id id = true).
  { unfold well_formed_id, hex_of_len. pose proof (hex_of_bytes_len (w_tokens w 2)) as Hl. by rewrite Htok in Hl. }
  destruct (well_formed_path id Hid) as [path Hpath]. exists path.
  destruct (run_seal decrypt priv owner (email_payload msg local r now) w Hk (Htok 1%nat)) as (blob & E & Hopen). exists blob.
  assert (Hexp : expiry (ea_timestamp a) (ea_ttl a) now (ea_hard_ceiling a) = exp) by (cbn; unfold expiry; lia).
  assert (Hmeta : exists meta, build_meta a exp = Ok meta) by (by eexists). destruct Hmeta as [meta Hmeta]. exists meta.
  unfold deliver_email. rewrite run_doc_bind. unfold of_res at 1. rewrite Hmsg. cbn [run_doc run_exec].
  rewrite run_doc_bind, run_doc_now. fold now. rewrite run_doc_bind, E. set (w1 := set_tokens _ w).
  rewrite run_doc_bind, run_doc_token. change (hex_of_bytes (w_tokens w1 0)) with id. set (w2 := set_tokens _ w1).
  rewrite run_doc_bind, (run_write_blob id path) by done. set (w3 := put_blob path blob w2).
  rewrite run_doc_bind, run_doc_now, run_doc_bind. change (w_now w3) with now. fold a.
  destruct (run_enqueue a w3 meta z ∅ idx) as (v' & E3 & Hpost); change (w_now w3) with now in *; rewrite ?Hexp in *; try done.
  { unfold exp. lia. }
  exists v'. rewrite E3, run_doc_ret. done.
Qed.

(** What follows a delivery counts the mail, whatever the push services answer. *)
Lemma run_offline_fine l (w : vworld) : calm w -> exists off, run_doc (offline_of l) w = (Ok off, w) /\ sublist off l.
Proof.
  intros Hc. induction l as [|pk l (off & E & Hs)]; [by exists []|].
  assert (Hoff : exists b, run_doc (is_offline pk) w = (Ok b, w)).
  { unfold is_offline. rewrite run_doc_bind, run_doc_try. destruct (run_get_any (ws_active_key pk) w) as (r & -> & _).
    destruct (calm_pop w Hc) as [_ ->]. destruct r as [o|e]; eexists; by rewrite ?run_doc_ret. }
  destruct Hoff as [b Eb]. exists (if b then pk :: off else off). cbn [offline_of].
  rewrite run_doc_bind, Eb, run_doc_bind, E, run_doc_ret. split; [done|]. destruct b; by constructor.
Qed.
Lemma run_deletes gone (w : vworld) : exists l,
  run_doc (delete_all gone) w = (Ok tt, set_databases (w_db w) (set_push l (w_work w)) w).
Proof.
  revert w. induction gone as [|p gone IH]; intros w; cbn [delete_all].
  - exists (t_push (w_work w)). rewrite run_doc_ret, push_same. by destruct w.
  - unfold delete_push. rewrite run_doc_bind, run_doc_sql. cbn [fst snd]. destruct (IH (set_databases (w_db w)
      (set_push (List.filter (fun r => negb (push_of (ps_pubkey p) (ps_endpoint p) r)) (t_push (w_work w))) (w_work w)) w)) as [l E].
    exists l. exact E.
Qed.
Lemma run_trigger_fine owner n g k (w : vworld) : calm w -> exists l,
  run_doc (trigger_push wp fcm [hex_of_bytes owner] n g k) w = (Ok tt, set_databases (w_db w) (set_push l (w_work w)) w).
Proof.
  intros Hc. assert (Hskip : exists l, (Ok tt, w) = (Ok (A := unit) tt, set_databases (w_db w) (set_push l (w_work w)) w))
    by (exists (t_push (w_work w)); rewrite push_same; by destruct w).
  unfold trigger_push. destruct (_ && _); [exact Hskip|].
  destruct (run_offline_fine [hex_of_bytes owner] w Hc) as (off & E & Hs). rewrite run_doc_bind, E.
  assert (Hoff : off = [] \/ off = [hex_of_bytes owner]).
  { destruct off as [|x off]; [by left|right]. pose proof (sublist_length _ _ Hs) as Hl. destruct off; [|cbn in Hl; lia].
    apply sublist_cons_r in Hs as [Hs|(l' & [= -> ->] & _)]; [by apply sublist_nil_r in Hs|done]. }
  destruct Hoff as [-> | ->]; [exact Hskip|]. cbn [fromhex_each].
  rewrite run_doc_bind, run_doc_bind, (run_doc_fromhex _ owner) by apply bytes_fromhex_hex.
  rewrite run_doc_bind, !run_doc_ret, run_doc_bind, run_doc_sql. cbn [fst snd].
  set (rows := List.filter _ _). set (w1 := set_databases _ _ w). assert (E1 : w1 = w) by (by destruct w). rewrite E1.
  destruct rows as [|row rows]; [exact Hskip|].
  rewrite run_doc_bind, run_doc_now, run_doc_bind, run_doc_now. cbv zeta. rewrite run_doc_bind. unfold update_push. rewrite run_doc_sql. cbn [fst snd].
  match goal with |- context [delete_all ?gone] => destruct (run_deletes gone (set_databases (w_db w)
    (set_push (snd (update_where (fun q => existsb (fun p => same_push p q)
       (List.filter (fun r => match send_one wp fcm (push_payload n g k (w_now w)) r with Some SentOk => true | _ => false end) (row :: rows)))
       (used_at (w_now w)) (t_push (w_work w)))) (w_work w)) w)) as [l El] end.
  exists l. exact El.
Qed.

Lemma run_after local owner (w : vworld) : calm w -> w_work w = w_db w -> exists l,
  run_doc (after_delivery wp fcm "active" local owner) w =
  (Ok tt, let d := set_aliases (snd (update_where (has_alias local) received (t_aliases (w_db w)))) (set_push l (w_db w)) in set_databases d d w).
Proof.
  intros Hc Hw. destruct (run_trigger_fine owner None None (Some "mail") w Hc) as [l E]. exists l.
  unfold after_delivery. rewrite run_doc_bind, run_doc_try, run_own_session, run_doc_bind, E, run_doc_commit. cbn [fst snd].
  change (String.eqb "active" "active") with true. cbv iota. rewrite run_doc_try, run_own_session. unfold update_alias. rewrite run_doc_bind, run_doc_sql, run_doc_commit. cbn [fst snd].
  by rewrite Hw.
Qed.

(** A message to one address of an account. *)
Lemma run_one_message decrypt priv c from address local row content msg n z idx (w : vworld) :
  let now := w_now w in
  let v := w_redis w in
  let id := hex_of_bytes (w_tokens w 2) in
  let owner := ma_owner_pubkey row in
  let exp := (now + mail_ttl_seconds s)%Z in
  let a := external_args s id (hex_of_bytes owner) now in
  let spf_result := spf (peer_of c) (default "" from) (default "" (sm_host_name c)) in
  calm w -> w_work w = w_db w -> (forall i, string_len (w_tokens w i) = 32%Z) -> (0 < mail_ttl_seconds s)%Z ->
  addressed_to (w_db w) address local row -> counts (mail_rl_key (peer_of c)) n v -> (n < mail_rl_per_ip ms)%Z ->
  (string_len content <= mail_max_bytes ms)%Z -> parsebytes content = Ok msg ->
  keys_match decrypt priv owner (substring 0 32 (w_tokens w 0)) ->
  rv_keys v !! _envelope_meta_key id = None -> set_at (_pending_recipients_key id) v = Some ∅ ->
  zset_at (_inbox_key (hex_of_bytes owner)) v = Some z -> (Z.of_nat (size (live now z)) < MAX_INBOX_QUEUE_DEPTH)%Z ->
  zset_at _BLOB_EXPIRY_INDEX_KEY v = Some idx ->
  exists c' path blob meta v0 v' l, _blob_path id = Ok path /\ build_meta a exp = Ok meta /\
    mail_open decrypt priv blob = Some (dumps (email_payload msg local spf_result now)) /\
    posted a now exp meta z ∅ idx v0 v' /\
    let d := set_aliases (snd (update_where (has_alias local) received (t_aliases (w_db w)))) (set_push l (w_db w)) in
    run_doc (smtp_message s ms spf wp fcm c from [address] content) w =
      (Ok (Some "250 OK", c'),
       set_databases d d (set_redis v' (put_blob path blob (set_tokens (fun n => w_tokens w (S (S (S n)))) w)))).
Proof.
  intros now v id owner exp a spf_result Hc Hw Htok Httl Had Hn Hlt Hsize Hmsg Hk Hm Hp Hz Hsz Hidx.
  set (e := mkSmtpEnvelope from [] content).
  destruct (run_rcpt c e address local row n w Hc Hw Had Hn Hlt) as (v0 & E0 & F0).
  set (rcpt_to := local +:+ "@" +:+ lower (mail_domain ms)) in E0. set (r := route rcpt_to "active" (ma_owner_pubkey row) c e) in E0.
  set (w1 := set_redis v0 w) in E0.
  destruct (run_deliver_email decrypt priv content msg local owner spf_result z idx w1) as (path & blob & meta & v' & Hpath & Hmeta & Hopen & E1 & Hpost);
    try done; try (change (w_redis w1) with v0);
    try (first [rewrite <- Hm; apply F0|rewrite <- Hp; apply set_at_ext, F0|rewrite <- Hz; apply zset_at_ext, F0|rewrite <- Hidx; apply zset_at_ext, F0];
         unfold mail_rl_key, _envelope_meta_key, _pending_recipients_key, _inbox_key, _BLOB_EXPIRY_INDEX_KEY; string_ne).
  set (w2 := set_redis v' _) in E1.
  destruct (run_after local owner w2 Hc Hw) as [l E2].
  exists r.1.2, path, blob, meta, v0, v', l. split_and!; [done..|]. cbv zeta.
  rewrite run_message. fold e. cbv zeta. assert (Ercpts : run_doc (handle_RCPTs ms c e [address]) w = (Ok (r.1.2, r.2), w1)).
  { cbn [handle_RCPTs]. rewrite run_doc_bind, run_doc_try, run_doc_bind, E0. cbn [r route fst snd]. by rewrite !run_doc_ret. }
  rewrite Ercpts. cbn [fst snd]. change (en_rcpt_tos r.2) with [rcpt_to].
  assert (Edata : run_doc (handle_DATA s ms spf wp fcm r.1.2 r.2) w1 = (Ok "250 OK", snd (run_doc (after_delivery wp fcm "active" local owner) w2))).
  { unfold handle_DATA. change (en_content r.2) with content. rewrite (proj2 (Z.ltb_ge _ _)) by done. cbv zeta.
    change (en_rcpt_tos r.2) with [rcpt_to]. cbn [deliver_to].
    change (sm_routes r.1.2) with (<[rcpt_to := ("active", owner)]> (sm_routes c)). rewrite lookup_insert_eq.
    change (String.eqb "active" "paused") with false. cbv iota zeta.
    assert (Hlocal : before (is_char "@") rcpt_to = local) by (apply before_app; [apply (ad_local _ _ _ _ Had)|done]). rewrite Hlocal.
    rewrite !run_doc_bind, run_doc_try, run_doc_bind. fold spf_result.
    change (peer_of r.1.2) with (peer_of c). change (sm_host_name r.1.2) with (sm_host_name c). change (en_mail_from r.2) with from. fold spf_result.
    rewrite E1, run_doc_ret. cbn [negb]. by rewrite run_doc_bind, E2. }
  rewrite Edata. cbn [fst snd]. by rewrite E2.
Qed.
End Arrival.

Lemma external_meta s id owner now exp meta : build_meta (external_args s id owner now) exp = Ok meta ->
  dict_get "channel" meta = Some (JStr "mail") /\ dict_get "mail_origin" meta = Some (JStr "external") /\ dict_get "mail_from" meta = None.
Proof. unfold build_meta, external_args, truthy, set_if. cbn. by intros [= <-]. Qed.

Section Property.
  Context `{R : Redis} `{Sha256} `{Email} `{MailCrypto} `{Transport}.
  Context (s : Settings) (ms : MailSettings) (spf : string -> string -> string -> string) (wp fcm : bool).

(** C25: mail from outside arrives sealed.  On a calm server, a letter within the size limit to an active
    address of this relay, from a peer that did not use up its minute, is answered 250: the owner of the
    address can fetch a ciphertext that the owner's private key opens to exactly the letter, as it was
    parsed; its metadata says that it is mail from outside and names no sender; the address has counted one
    more mail; and of the tables nothing else changed but subscriptions for push. *)
Theorem external_mail_arrives decrypt priv c from address local row content msg n z idx (w : world rstore) :
  let now := w_now w in
  let v := w_redis (absw w) in
  let id := hex_of_bytes (w_tokens w 2) in
  let owner := ma_owner_pubkey row in
  let spf_result := spf (peer_of c) (default "" from) (default "" (sm_host_name c)) in
  calm w -> w_work w = w_db w -> (forall i, string_len (w_tokens w i) = 32%Z) -> (0 < mail_ttl_seconds s)%Z ->
  addressed_to ms (w_db w) address local row -> counts (mail_rl_key (peer_of c)) n v -> (n < mail_rl_per_ip ms)%Z ->
  (string_len content <= mail_max_bytes ms)%Z -> parsebytes content = Ok msg ->
  keys_match decrypt priv owner (substring 0 32 (w_tokens w 0)) ->
  rv_keys v !! _envelope_meta_key id = None -> set_at (_pending_recipients_key id) v = Some ∅ ->
  zset_at (_inbox_key (hex_of_bytes owner)) v = Some z -> (Z.of_nat (size (live now z)) < MAX_INBOX_QUEUE_DEPTH)%Z ->
  zset_at _BLOB_EXPIRY_INDEX_KEY v = Some idx ->
  let x := run (smtp_message s ms spf wp fcm c from [address] content) w in
  (exists c', fst x = Ok (Some "250 OK", c')) /\
  (exists blob, (forall reader, pubkey_hex reader = hex_of_bytes owner -> fst (run (get_envelope_blob id reader) (snd x)) = Ok blob) /\
     mail_open decrypt priv blob = Some (dumps (email_payload msg local spf_result now))) /\
  (exists m meta, str_at (_envelope_meta_key id) (w_redis (absw (snd x))) = Some (Some m) /\ loads m = Some (JObj meta) /\
     dict_get "from" meta = Some (JStr "") /\ dict_get "to" meta = Some (JStr (hex_of_bytes owner)) /\
     dict_get "channel" meta = Some (JStr "mail") /\ dict_get "mail_origin" meta = Some (JStr "external") /\
     dict_get "mail_from" meta = None) /\
  exists l, w_db (snd x) =
    set_aliases (map (fun a => if has_alias local a then received a else a) (t_aliases (w_db w))) (set_push l (w_db w)).
Proof.
  intros now v id owner spf_result Hc Hw Htok Httl Had Hn Hlt Hsize Hmsg Hk Hm Hp Hz Hsz Hidx x.
  destruct (run_one_message s ms spf wp fcm decrypt priv c from address local row content msg n z idx (absw w))
    as (c' & path & blob & meta & v0 & v' & l & Hpath & Hmeta & Hopen & Hpost & E); try done.
  change (w_tokens (absw w) 2) with (w_tokens w 2) in *. fold id in Hpath, Hmeta, Hpost, E. cbv zeta in E.
  set (w1 := set_databases _ _ _) in E. assert (A1 : absw (snd x) = w1) by (unfold x; by rewrite snd_run_absw, E).
  destruct Hpost as [Pm Pi Pp _ _ _ Pf]. cbn [ea_recipient ea_envelope_id external_args] in Pm, Pi.
  assert (Hid : well_formed_id id = true).
  { unfold well_formed_id, hex_of_len. pose proof (hex_of_bytes_len (w_tokens w 2)) as Hl. by rewrite Htok in Hl. }
  split; [exists c'; unfold x; by rewrite fst_run, E|]. split; [|split].
  - exists blob. split; [|exact Hopen]. intros reader Hr.
    rewrite fst_run, A1, (run_fetch id reader (<[id := (now + mail_ttl_seconds s)%Z]> (live now z))); [|exact Hc|exact Hid|].
    + rewrite lookup_insert_eq. unfold blob_at. rewrite Hpath. unfold w1. cbn. by rewrite lookup_insert_eq.
    + rewrite Hr. unfold w1, zset_at, owner. cbn [w_redis set_redis set_databases]. by rewrite Pi.
  - destruct (build_meta_ok _ _ _ Hmeta) as (Hwf & Hf & Ht); [apply Forall_nil_2|].
    exists (dumps (JObj meta)), meta. split; [|split; [by apply loads_dumps|]].
    { rewrite A1. unfold w1, str_at. cbn [w_redis set_redis set_databases]. by rewrite Pm. }
    destruct (external_meta _ _ _ _ _ _ Hmeta) as (Hch & Hor & Hmf). by split_and!.
  - exists l. change (w_db (absw (snd x)) = set_aliases (map (fun a => if has_alias local a then received a else a) (t_aliases (w_db w))) (set_push l (w_db w))).
    by rewrite A1.
Qed.
End Property.

Module SmtpDemo.
#[local] Instance demo_sha : Sha256 := fun s => s.
(** A letter is its own text, every exchange comes to the same secret, and the cipher does nothing. *)
#[local] Instance demo_email : Email := fun raw => Ok (mkLetter (Some "bob@example.com") (Some "hi") None None None (Some raw) None []).
#[local] Instance demo_crypto : MailCrypto := {|
  scalarmult_base p := p; scalarmult a b := Ok "shared"; ed25519_pk_to_curve25519 pk := Ok pk;
  hkdf_sha256 ikm salt info := ikm; xchacha_encrypt p n k := p |}.
#[local] Instance demo_push : Transport := {| webpush _ _ _ _ := Status 201 ""; fcm_send _ := NoResponse |}.
Definition spf (ip mail_from helo : string) : string := "none".
Definition crane : MailAlias := mkAlias "hushed-crane-042" MailDemo.alice_key ACTIVE false None 500 0.
Definition db : database := set_aliases [crane] empty_db.
Definition relay : world (rstore (Redis := Mem_Redis)) :=
  World 1000 (View ∅ ∅ []) db db ∅ [] (fun _ => MailDemo.zeros 32) [] no_network [].
Definition caller : smtp_session := mkSmtp (Some "203.0.113.5") (Some "mx.example.com") ∅.
Definition session : Session := mkSession "tok" MailDemo.alice 2000.
Definition letter_id : string := hex_of_bytes (MailDemo.zeros 32).

Lemma demo_keys : keys_match (fun p n k => Some p) "priv" MailDemo.alice_key (substring 0 32 (MailDemo.zeros 32)).
Proof. split; [by exists MailDemo.alice_key, "shared"|reflexivity|reflexivity]. Qed.

Lemma external_mail_witness :
  let x := run (smtp_message MailDemo.settings MailDemo.mail_settings spf true true caller (Some "bob@example.com")
    ["Hushed-Crane-042@morok.email"] "hello") relay in
  (exists c', fst x = Ok (Some "250 OK", c')) /\
  exists blob, fst (run (get_envelope_blob letter_id session) (snd x)) = Ok blob.
Proof.
  destruct (external_mail_arrives MailDemo.settings MailDemo.mail_settings spf true true (fun p n k => Some p) "priv" caller
    (Some "bob@example.com") "Hushed-Crane-042@morok.email" "hushed-crane-042" crane "hello"
    (mkLetter (Some "bob@example.com") (Some "hi") None None None (Some "hello") None []) 0 ∅ ∅ relay)
    as (H1 & (blob & H2 & _) & _); [..|split; [exact H1|exists blob; apply H2; vm_compute; reflexivity]].
  - reflexivity.
  - reflexivity.
  - intros i. reflexivity.
  - reflexivity.
  - split; try (vm_compute; reflexivity). left. apply (bool_decide_eq_false _). reflexivity.
  - left. split; vm_compute; reflexivity.
  - reflexivity.
  - vm_compute. discriminate.
  - reflexivity.
  - exact demo_keys.
  - vm_compute. reflexivity.
  - vm_compute. reflexivity.
  - vm_compute. reflexivity.
  - reflexivity.
  - vm_compute. reflexivity.
Defined.

Lemma reach_witness :
  let x := snd (run (smtp_message MailDemo.settings MailDemo.mail_settings spf true true caller None ["hushed-crane-042@morok.email"; "x@y"] "spam") relay) in
  rv_keys (w_redis (absw x)) !! _inbox_key "bob" = rv_keys (w_redis (absw relay)) !! _inbox_key "bob" /\ mail_left db (w_db x).
Proof.
  apply (smtp_reaches_only_owners MailDemo.settings MailDemo.mail_settings spf true true "bob" caller None _ "spam" relay).
  - reflexivity.
  - reflexivity.
  - intros a Ha%list_elem_of_singleton E. subst a. vm_compute in E. discriminate E.
  - intros k Hk E. vm_compute in Hk. injection Hk as <-. vm_compute in E. discriminate E.
Defined.
End SmtpDemo.
