(* ===== verification/WebFacts.v ===== *)
(** * What the logs do not show (main.py) *)

From Stdlib Require Import Ascii String.
From stdpp Require Import prelude gmap strings list.
From S2P Require Import Prelude Json Codec CodecFacts Models Effects Config Web Database.

#[local] Open Scope morok_scope.

(** ** The filter of uvicorn's lines *)

(** The name of a parameter with a credential, and a separator before it. *)
Definition is_name (name : string) : Prop := name = "token=" \/ name = "ticket=".
Definition is_sep (sep : ascii) : Prop := sep = "?"%char \/ sep = "&"%char.
Definition is_value (v : string) : Prop := v <> "" /\ string_forallb value_char v = true.

Lemma in_value v x : string_forallb value_char v = true -> _TOKEN_QUERY_RE InValue (v +:+ x) = _TOKEN_QUERY_RE InValue x.
Proof.
  induction v as [|c v IH]; [done|]. rewrite string_app_cons. cbn [string_forallb]. intros [Hc Hv]%andb_true_iff.
  cbn [_TOKEN_QUERY_RE]. rewrite Hc. by apply IH.
Qed.
Lemma in_name name x : name <> "" ->
  _TOKEN_QUERY_RE (InName (String.length name)) (name +:+ x) = name +:+ "[redacted]" +:+ _TOKEN_QUERY_RE InValue x.
Proof.
  induction name as [|c name IH]; [done|]. intros _. rewrite !string_app_cons. cbn [String.length].
  destruct name as [|d name]; [done|]. cbn [String.length _TOKEN_QUERY_RE]. f_equal. by apply IH.
Qed.

Lemma name_found name v x : is_name name -> is_value v -> credential_name (name +:+ v +:+ x) = Some (String.length name).
Proof.
  intros Hname [Hne Hv]. destruct v as [|c v]; [done|]. cbn [string_forallb] in Hv. apply andb_true_iff in Hv as [Hc _].
  unfold credential_name, value_follows. destruct Hname as [-> | ->]; rewrite !string_app_cons, !string_app_nil_l; cbn -[value_char]; by rewrite Hc.
Qed.

(** Looking for a name does not reach behind a separator. *)
Lemma starts_stop p pre sep x : String.index 0 (String sep "") p = None ->
  starts_with p (pre +:+ String sep x) = starts_with p (pre +:+ String sep "") /\
  (starts_with p (pre +:+ String sep x) = true -> String.length p <= String.length pre)%nat.
Proof.
  revert pre. induction p as [|a p IH]; intros pre Hp; [cbn; split; [done|lia]|].
  assert (Ha : Ascii.eqb a sep = false /\ String.index 0 (String sep "") p = None).
  { cbn in Hp. destruct (ascii_dec sep a) as [->|Hne]; [by destruct p|]. split.
    - apply Ascii.eqb_neq. congruence.
    - by destruct (String.index 0 (String sep "") p). }
  destruct Ha as [Ha Hp']. destruct pre as [|c pre]; [rewrite !string_app_nil_l; cbn [starts_with]; by rewrite Ha|]. rewrite !string_app_cons. cbn [starts_with String.length].
  destruct (IH pre Hp') as [E Hl]. destruct (Ascii.eqb a c); cbn [andb]; [|done]. split; [exact E|]. intros H. specialize (Hl H). lia.
Qed.
Lemma get_before n pre sep x : (n <= String.length pre)%nat -> String.get n (pre +:+ String sep x) = String.get n (pre +:+ String sep "").
Proof.
  revert n. induction pre as [|c pre IH]; intros n Hn; [by destruct n; [|cbn in Hn; lia]|].
  rewrite !string_app_cons. destruct n as [|n]; [done|]. apply IH. cbn in Hn. lia.
Qed.
Lemma name_stop pre sep x : is_sep sep ->
  credential_name (pre +:+ String sep x) = credential_name (pre +:+ String sep "") /\
  forall n, credential_name (pre +:+ String sep x) = Some n -> (1 <= n <= String.length pre)%nat.
Proof.
  intros Hsep. assert (Hp : forall p, p = "token=" \/ p = "ticket=" -> String.index 0 (String sep "") p = None)
    by (intros p [-> | ->]; by destruct Hsep as [-> | ->]).
  destruct (starts_stop "token=" pre sep x (Hp _ (or_introl eq_refl))) as [E1 L1].
  destruct (starts_stop "ticket=" pre sep x (Hp _ (or_intror eq_refl))) as [E2 L2].
  assert (G : forall p, starts_with p (pre +:+ String sep x) = starts_with p (pre +:+ String sep "") ->
    (starts_with p (pre +:+ String sep x) = true -> String.length p <= String.length pre)%nat ->
    starts_with p (pre +:+ String sep x) && value_follows (String.length p) (pre +:+ String sep x) =
    starts_with p (pre +:+ String sep "") && value_follows (String.length p) (pre +:+ String sep "")).
  { intros p E L. rewrite <- E. destruct (starts_with p _) eqn:Es; [|done]. unfold value_follows. by rewrite (get_before _ _ _ _ (L eq_refl)). }
  split.
  - unfold credential_name. by rewrite (G "token=" E1 L1 : _ && value_follows 6 _ = _), (G "ticket=" E2 L2 : _ && value_follows 7 _ = _).
  - intros n. unfold credential_name. clear G E1 E2.
    assert (T1 : starts_with "token=" (pre +:+ String sep x) && value_follows 6 (pre +:+ String sep x) = true -> 6 <= String.length pre)
      by (intros [H1 _]%andb_true_iff; exact (L1 H1)).
    assert (T2 : starts_with "ticket=" (pre +:+ String sep x) && value_follows 7 (pre +:+ String sep x) = true -> 7 <= String.length pre)
      by (intros [H2 _]%andb_true_iff; exact (L2 H2)).
    destruct (_ && value_follows 6 _); [intros [= <-]; specialize (T1 eq_refl); lia|].
    destruct (_ && value_follows 7 _); [intros [= <-]; specialize (T2 eq_refl); lia|done].
Qed.

Section Query.
  Context (sep : ascii) (name : string) (Hsep : is_sep sep) (Hname : is_name name).

(** From the separator on, the value is gone. *)
Lemma redact_here st v x : is_value v -> st = Outside \/ st = InValue ->
  _TOKEN_QUERY_RE st (String sep (name +:+ v +:+ x)) =
  if (match st with InValue => value_char sep | _ => false end) then _TOKEN_QUERY_RE InValue x
  else String sep (name +:+ "[redacted]" +:+ _TOKEN_QUERY_RE InValue x).
Proof.
  intros Hv Hst. pose proof (name_found name v x Hname Hv) as Hn. destruct Hv as [Hne Hv].
  assert (Hs : Ascii.eqb sep "?" || Ascii.eqb sep "&" = true) by (by destruct Hsep as [-> | ->]).
  assert (Hnn : name <> "") by (by destruct Hname as [-> | ->]).
  assert (Hnv : string_forallb value_char name = true) by (by destruct Hname as [-> | ->]).
  cbn [_TOKEN_QUERY_RE]. rewrite Hs, Hn. destruct Hst as [-> | ->]; [|destruct (value_char sep); [by rewrite !in_value|]];
    by rewrite in_name, in_value.
Qed.

Lemma redact_blind pre st v v' x : is_value v -> is_value v' ->
  (forall k, st = InName k -> 1 <= k <= String.length pre)%nat ->
  _TOKEN_QUERY_RE st (pre +:+ String sep (name +:+ v +:+ x)) = _TOKEN_QUERY_RE st (pre +:+ String sep (name +:+ v' +:+ x)).
Proof.
  intros Hv Hv'. revert st. induction pre as [|c pre IH]; intros st Hst.
  - rewrite !string_app_nil_l. assert (st = Outside \/ st = InValue) by (destruct st as [|k|]; [by left| |by right]; specialize (Hst k eq_refl); cbn in Hst; lia).
    by rewrite !redact_here.
  - rewrite !string_app_cons. cbn [_TOKEN_QUERY_RE].
    destruct (name_stop pre sep (name +:+ v +:+ x) Hsep) as [E1 L1]. destruct (name_stop pre sep (name +:+ v' +:+ x) Hsep) as [E2 _].
    rewrite E2, <- E1. set (o := credential_name _) in *.
    assert (Hout : (match (if Ascii.eqb c "?" || Ascii.eqb c "&" then o else None) with
        | Some n => String c (_TOKEN_QUERY_RE (InName n) (pre +:+ String sep (name +:+ v +:+ x)))
        | None => String c (_TOKEN_QUERY_RE Outside (pre +:+ String sep (name +:+ v +:+ x))) end) =
      (match (if Ascii.eqb c "?" || Ascii.eqb c "&" then o else None) with
        | Some n => String c (_TOKEN_QUERY_RE (InName n) (pre +:+ String sep (name +:+ v' +:+ x)))
        | None => String c (_TOKEN_QUERY_RE Outside (pre +:+ String sep (name +:+ v' +:+ x))) end)).
    { destruct (_ || _); [|f_equal; by apply IH]. destruct o as [n|]; f_equal; apply IH; [|done]. intros k [= <-]. by apply L1. }
    destruct st as [|[|[|k]]|].
    + exact Hout.
    + specialize (Hst 0%nat eq_refl). lia.
    + do 2 f_equal. by apply IH.
    + f_equal. apply IH. intros k' [= <-]. specialize (Hst _ eq_refl). cbn in Hst. lia.
    + destruct (value_char c); [by apply IH|exact Hout].
Qed.
End Query.

(** ** Masked paths *)

Definition no_slash (s : string) : Prop := string_forallb (fun c => negb (Ascii.eqb c "/")) s = true.

Lemma split_plain s : no_slash s -> split_on "/" s = [s].
Proof.
  induction s as [|c s IH]; [done|]. unfold no_slash. cbn. intros [Hc%negb_true_iff Hs]%andb_true_iff. by rewrite Hc, (IH Hs).
Qed.
Lemma split_on_app a x : split_on "/" (a +:+ String "/" x) = split_on "/" a ++ split_on "/" x.
Proof.
  induction a as [|c a IH]; [done|]. rewrite string_app_cons. cbn [split_on]. destruct (Ascii.eqb c "/"); [by rewrite IH|].
  rewrite IH. assert (Hne : split_on "/" a <> []) by (destruct a as [|d a]; [done|cbn [split_on]; destruct (Ascii.eqb d "/"); [done|by destruct (split_on "/" a)]]).
  by destruct (split_on "/" a).
Qed.

(** The routes of the relay with a credential in their path: what is before and behind it. *)
Definition secret_routes : list (string * list string) :=
  [ ("/api/v1/burner", []); ("/api/v1/burner/public", []); ("/api/v1/burner/public", ["send"]);
    ("/api/v1/mail/aliases", []); ("/api/v1/mail/aliases", ["pause"]); ("/api/v1/mail/aliases", ["resume"]);
    ("/api/v1/mail/aliases", ["label"]); ("/api/v1/mail/resolve", []); ("/api/v1/groups/by-slug", []) ].
Definition route_path (a tok : string) (b : list string) : string :=
  a +:+ "/" +:+ tok +:+ match b with [] => "" | x :: _ => "/" +:+ x end.

Lemma masked p ps path c : sub p path = c -> first_masked ps c = c -> first_masked (p :: ps) path = c.
Proof. intros E Hc. cbn [first_masked]. rewrite E. destruct (String.eqb_spec c path) as [<-|]; [exact Hc|done]. Qed.
Lemma unmasked p ps path : sub_from p [] (split_on "/" path) = None -> first_masked (p :: ps) path = first_masked ps path.
Proof. intros E. cbn [first_masked]. unfold sub. rewrite E. cbn [default]. by rewrite String.eqb_refl. Qed.

Lemma split_route a tok b : no_slash tok -> Forall no_slash b -> (length b <= 1)%nat ->
  split_on "/" (route_path a tok b) = split_on "/" a ++ tok :: b.
Proof.
  intros Hs Hb Hl. unfold route_path. destruct b as [|x [|]]; cbv iota; [| |cbn in Hl; lia].
  - by rewrite string_app_nil_r, string_app_cons, string_app_nil_l, split_on_app, (split_plain tok).
  - rewrite Forall_singleton in Hb. rewrite !string_app_cons, !string_app_nil_l, !split_on_app, (split_plain tok), (split_plain x) by done. reflexivity.
Qed.

Lemma routes_fine : Forall (fun ab => Forall no_slash ab.2 /\ (length ab.2 <= 1)%nat) secret_routes.
Proof. repeat constructor. Qed.

#[local] Ltac skip_pattern Hsplit tok := rewrite unmasked;
  [|rewrite Hsplit; cbn; try destruct (String.eqb tok "api"); reflexivity].
#[local] Ltac mask_pattern Hsplit Hne tok :=
  apply masked; [unfold sub; rewrite Hsplit; cbn; rewrite ?Hne; cbn; try destruct (String.eqb tok "public"); reflexivity|reflexivity].

Lemma sanitize_route a b tok : (a, b) ∈ secret_routes -> no_slash tok -> tok <> "" ->
  _sanitize_path (route_path a tok b) = route_path a "***" b.
Proof.
  intros Hin Hs Hne%String.eqb_neq. unfold _sanitize_path, _SENSITIVE_PATH_PATTERNS.
  pose proof routes_fine as Hf. rewrite Forall_forall in Hf. destruct (Hf _ Hin) as [Hb Hl].
  pose proof (split_route a tok b Hs Hb Hl) as Hsplit. clear Hf Hb Hl.
  unfold secret_routes in Hin.
  repeat (rewrite elem_of_cons in Hin; destruct Hin as [[= -> ->]|Hin]); [..|by apply elem_of_nil in Hin].
  1-3: mask_pattern Hsplit Hne tok.
  1-5: skip_pattern Hsplit tok; mask_pattern Hsplit Hne tok.
  do 2 skip_pattern Hsplit tok. mask_pattern Hsplit Hne tok.
Qed.


(** The token of an invite, which is a credential too, stays in the line. *)
Example invite_token_logged :
  _sanitize_path "/api/v1/groups/5f/invites/c2VjcmV0" = "/api/v1/groups/5f/invites/c2VjcmV0".
Proof. vm_compute. reflexivity. Qed.

Module WebDemo.
(** A text with one place for a value. *)
Definition text_of (r : LogRecord) : option string :=
  match lr_args r with [] => Some (lr_msg r) | arg :: _ => Some (lr_msg r +:+ arg) end.
Definition line (v : string) : LogRecord := mkRecord "WebSocket /ws/v1/inbox?token=" [v].

End WebDemo.
