(* ===== verification/AdminFacts.v ===== *)
(** * The administrator's API: properties

    Who is let in, over any history; and that the statistics say nothing about anybody. *)

From Stdlib Require Import Ascii String.
From stdpp Require Import prelude gmap strings list.
From S2P Require Import Prelude Json Codec RedisStore Models Effects Crypto Config Sessions RateLimit Deps Logic.
From S2P Require Import FederationClient Admin.

#[local] Open Scope morok_scope.

(** ** Who is let in *)

(** The token that a header presents. *)
Definition presented (authorization : option string) : option string :=
  (fun a => strip (snd (partition_space a))) <$> truthy authorization.

(** Keys that were there before, and nothing else. *)
Definition no_more (v0 v : rview) : Prop := forall k e, rv_keys v !! k = Some e -> rv_keys v0 !! k = Some e.
Definition only_removes (c : command) : Prop := match c with EXISTS _ | DEL _ => True | _ => False end.
#[export] Instance no_more_harmless v0 : Harmless (no_more v0) only_removes.
Proof.
  intros c Hc now v Hv k e. destruct c as [| |ks|k'| | | | | | | | | | | | | | | |]; try done; [|by apply Hv].
  destruct (documented_del now ks v) as (n & _ & Hd). rewrite Hd. case_decide; [done|]. apply Hv.
Qed.

Section Admission.
  Context `{Sha256}.

Lemma run_admitted auth (w : vworld) :
  fst (run_doc (require_admin auth) w) = Ok tt ->
  exists tok, presented auth = Some tok /\ is_Some (rv_keys (w_redis w) !! admin_key tok).
Proof.
  unfold require_admin, presented. destruct (truthy auth) as [a|]; [|done]. cbn [fmap option_fmap option_map].
  destruct (partition_space a) as [scheme tok]. cbn [snd]. destruct (_ || _); [done|].
  unfold _verify_admin_token. destruct (String.eqb (strip tok) ""); [done|]. rewrite run_doc_bind, run_doc_try, run_doc_bind.
  destruct (run_doc_redis_any (rcall (EXISTS (admin_key (strip tok))) as_int) w) as (r & v' & -> & _ & Hr).
  destruct r as [n|e]; [|done]. destruct (Hr n eq_refl) as [E _]. rewrite rrun_rcall in E. cbn in E.
  intros Hok. exists (strip tok). split; [done|]. rewrite run_doc_ret in Hok.
  destruct (rv_keys (w_redis w) !! admin_key (strip tok)); [by eexists|]. injection E as <-. done.
Qed.

Lemma only_removes_require v0 auth : exchanges_keep (no_more v0) (require_admin auth).
Proof. unfold require_admin, _verify_admin_token. exchanges ltac:(exact I). Qed.
Lemma only_removes_logout v0 auth : exchanges_keep (no_more v0) (admin_logout auth).
Proof.
  unfold admin_logout. apply exchanges_bind; [apply only_removes_require|]. intros _. unfold cmd_. exchanges ltac:(exact I).
Qed.

(** A logout that was answered has removed the key. *)
Lemma run_logout auth (w : vworld) tok :
  fst (run_doc (admin_logout auth) w) = Ok tt -> presented auth = Some tok ->
  rv_keys (w_redis (snd (run_doc (admin_logout auth) w))) !! admin_key tok = None.
Proof.
  unfold admin_logout. rewrite run_doc_bind. destruct (run_doc (require_admin auth) w) as [[[]|e] w1] eqn:E; [|done].
  assert (Ht : fst (run_doc (require_admin auth) w) = Ok tt) by (by rewrite E). apply run_admitted in Ht as (tok' & Hp & _).
  rewrite Hp. intros Hok [= ->]. revert Hok. unfold presented in Hp. unfold require_admin in E.
  destruct (truthy auth) as [a|]; [|done]. cbn in Hp. injection Hp as Hp. destruct (partition_space a) as [scheme t]. cbn [snd] in *.
  destruct (String.eqb t "") eqn:Et; [by rewrite orb_true_r in E|]. rewrite Hp. unfold cmd_.
  destruct (run_doc_redis_any (rcall (DEL [admin_key tok]) as_any) w1) as (r & v' & -> & _ & Hr). cbn [fst snd]. intros ->.
  destruct (Hr tt eq_refl) as [_ ->]. cbn [w_redis set_redis]. rewrite rrun_rcall. cbn [fst snd].
  destruct (documented_del (w_now w1) [admin_key tok] (w_redis w1)) as (n & _ & Hd). rewrite Hd. apply decide_True. by left.
Qed.
End Admission.

Section History.
  Context `{R : Redis} `{Sha256} `{Pwhash} (ad : AdminSettings).

(** The name and the password that the relay was set up with. *)
Definition knows_secret (b : AdminLoginRequest) : bool :=
  bool_decide (al_username b = admin_username ad /\ pwhash_verify (admin_password_hash ad) (al_password b) = true).
Lemma credentials_known b : credentials_ok ad b = true -> knows_secret b = true.
Proof.
  unfold credentials_ok, _verify_password. rewrite andb_true_iff, String.eqb_eq. intros [Hn Hp].
  apply bool_decide_eq_true. split; [done|]. by destruct (String.eqb (admin_password_hash ad) "").
Qed.

(** A login with the right name and password: the key of its token, and when. *)
Abbreviation issued := (list (string * Z)).

(** The administrator's endpoints, called by anybody; or time passes and other code runs, which writes no
    key of an administrator's session. *)
Inductive admin_run (w : world rstore) (g : issued) : world rstore -> issued -> Prop :=
| admin_login_run body :
    admin_run w g (snd (run (admin_login ad body) w))
      (if knows_secret body then g ++ [(admin_key (w_tokens w 0), w_now w)] else g)
| admin_logout_run auth : admin_run w g (snd (run (admin_logout auth) w)) g
| admin_check_run auth : admin_run w g (snd (run (require_admin auth) w)) g
| admin_elsewhere w' :
    (forall tok e, rv_keys (w_redis (absw w')) !! admin_key tok = Some e -> rv_keys (w_redis (absw w)) !! admin_key tok = Some e) ->
    (w_now w <= w_now w')%Z -> admin_run w g w' g.

Inductive admin_history (w : world rstore) : world rstore -> issued -> Prop :=
| admin_start : admin_history w w []
| admin_next w1 g1 w2 g2 : admin_history w w1 g1 -> admin_run w1 g1 w2 g2 -> admin_history w w2 g2.

(** Every key of an administrator's session is of a token that was issued. *)
Definition all_issued (w : world rstore) (g : issued) : Prop :=
  forall tok e, rv_keys (w_redis (absw w)) !! admin_key tok = Some e ->
    exists t, (admin_key tok, t) ∈ g /\ (t <= w_now w)%Z /\ e_deadline e = Some (t + admin_session_ttl_seconds ad)%Z.

Lemma shrinks (w w' : world rstore) g {A} (p : M A) :
  w' = snd (run p w) -> exchanges_keep (no_more (w_redis (absw w))) p -> all_issued w g -> all_issued w' g.
Proof.
  intros -> Hp Hg tok e. rewrite snd_run_absw. intros Hk.
  pose proof (exchanges_run _ _ (absw w) Hp (fun _ _ E => E)) as Hv. rewrite srv_now. apply Hg. by apply Hv.
Qed.

Lemma issued_login w g body : (0 < admin_session_ttl_seconds ad)%Z -> all_issued w g ->
  all_issued (snd (run (admin_login ad body) w)) (if knows_secret body then g ++ [(admin_key (w_tokens w 0), w_now w)] else g).
Proof.
  intros Httl Hg tok e. rewrite snd_run_absw, srv_now. unfold admin_login.
  assert (Hsame : forall g' : issued, (forall x, x ∈ g -> x ∈ g') -> rv_keys (w_redis (absw w)) !! admin_key tok = Some e ->
    exists t, (admin_key tok, t) ∈ g' /\ (t <= w_now w)%Z /\ e_deadline e = Some (t + admin_session_ttl_seconds ad)%Z).
  { intros g' Hsub Hk. destruct (Hg tok e Hk) as (t & Hin & ? & ?). exists t. auto. }
  assert (Hgrow : forall x, x ∈ g -> x ∈ if knows_secret body then g ++ [(admin_key (w_tokens w 0), w_now w)] else g)
    by (intros x Hx; destruct (knows_secret body); [apply elem_of_app; by left|done]).
  destruct (_ || _); [by apply Hsame|]. destruct (credentials_ok ad body) eqn:Ec; [|by apply Hsame]. cbn [negb].
  rewrite (credentials_known body Ec). rewrite (credentials_known body Ec) in Hgrow.
  unfold _create_admin_token. rewrite !run_doc_bind, run_doc_token. set (w1 := set_tokens _ _).
  change (w_tokens (absw w) 0) with (w_tokens w 0). rewrite run_doc_bind. unfold cmd_.
  destruct (run_doc_redis_any (rcall (set_ex (admin_key (w_tokens w 0)) "1" (admin_session_ttl_seconds ad)) as_any) w1)
    as (r & v' & -> & Hv & _). intros Hk.
  assert (Hk' : rv_keys v' !! admin_key tok = Some e) by (destruct r; exact Hk). clear Hk.
  destruct Hv as [-> | ->]; [by apply Hsame|]. rewrite rrun_rcall, doc_set_ex in Hk' by done. cbn [fst snd] in Hk'.
  rewrite keys_put in Hk'. case_decide as E; [|by apply Hsame].
  injection Hk' as <-. exists (w_now w). rewrite <- E. split; [apply elem_of_app; right; by left|]. split; [lia|done].
Qed.

Lemma history_issued w w' g : (0 < admin_session_ttl_seconds ad)%Z ->
  all_issued w [] -> admin_history w w' g -> all_issued w' g.
Proof.
  intros Httl Hstart. induction 1 as [|w1 g1 w2 g2 _ IH Hs]; [done|]. destruct Hs as [body|auth|auth|w2 Hk Hn].
  - by apply issued_login.
  - by eapply shrinks, IH; [|apply only_removes_logout].
  - by eapply shrinks, IH; [|apply only_removes_require].
  - intros tok e He. destruct (IH tok e (Hk tok e He)) as (t & ? & ? & ?). exists t. split_and!; [done|lia|done].
Qed.

(** C31: nobody administers without a login.  Along any history of calls of the administrator's endpoints,
    by anybody and with whatever failures, that starts without sessions: who is let in presents a token
    with the digest of one that a login with the right name and password was given, less than the life of
    a session ago; and a logout that was answered ends the session, so its token is let in no more. *)
Theorem admin_needs_login (w w' : world rstore) g auth tok :
  (0 < admin_session_ttl_seconds ad)%Z -> all_issued w [] -> admin_history w w' g -> presented auth = Some tok ->
  (fst (run (require_admin auth) w') = Ok tt ->
     exists t, (admin_key tok, t) ∈ g /\ (t <= w_now w' < t + admin_session_ttl_seconds ad)%Z) /\
  (fst (run (admin_logout auth) w') = Ok tt ->
     let w2 := snd (run (admin_logout auth) w') in
     rv_keys (w_redis (absw w2)) !! admin_key tok = None /\ fst (run (require_admin auth) w2) <> Ok tt).
Proof.
  intros Httl Hstart Hh Hp. pose proof (history_issued w w' g Httl Hstart Hh) as Hg. split.
  - rewrite fst_run. intros Hok. destruct (run_admitted auth (absw w') Hok) as (tok' & Hp' & e & He).
    rewrite Hp in Hp'. injection Hp' as <-. destruct (Hg tok e He) as (t & Hin & Hle & Hd). exists t. split; [done|]. split; [done|].
    pose proof (view_all_live (w_now w') (w_redis w') _ _ He) as Hlive. unfold live_at in Hlive. cbn in Hlive. by rewrite Hd in Hlive.
  - rewrite fst_run. intros Hok. cbv zeta. rewrite snd_run_absw. pose proof (run_logout auth (absw w') tok Hok Hp) as Hn. split; [done|].
    rewrite fst_run, snd_run_absw. intros Hok'. destruct (run_admitted auth _ Hok') as (tok' & Hp' & e & He).
    rewrite Hp in Hp'. injection Hp' as <-. by rewrite Hn in He.
Qed.
End History.

(** ** The statistics *)

(** Rows that differ only in whom they are about. *)
Record user_alike (u u' : User) : Prop := {
  ua_home : u_home_relay u' = u_home_relay u; ua_created : u_created_at u' = u_created_at u;
  ua_seen : u_last_seen_at u' = u_last_seen_at u; ua_deleted : u_deleted_at u' = u_deleted_at u
}.
Record group_alike (g g' : Group) : Prop := {
  ga_home : g_home_relay g' = g_home_relay g; ga_deleted : g_deleted_at g' = g_deleted_at g
}.
Record fed_alike (r r' : FederationOutboundQueue) : Prop := {
  fa_status : fq_status r' = fq_status r; fa_created : fq_created_at r' = fq_created_at r
}.
(** Tables that the statistics cannot tell apart; those not named may hold anything. *)
Record tables_alike (db db' : database) : Prop := {
  ta_users : Forall2 user_alike (t_users db) (t_users db');
  ta_groups : Forall2 group_alike (t_groups db) (t_groups db');
  ta_fed : Forall2 fed_alike (t_fedqueue db) (t_fedqueue db');
  ta_peers : t_peers db' = t_peers db
}.

Lemma filter_alike {A} (S : A -> A -> Prop) (p : A -> bool) l l' :
  (forall x x', S x x' -> p x' = p x) -> Forall2 S l l' -> Forall2 S (List.filter p l) (List.filter p l').
Proof.
  intros Hp. induction 1 as [|x x' l l' Hx _ IH]; [done|]. cbn. rewrite (Hp x x' Hx). destruct (p x); [by constructor|done].
Qed.
Lemma count_alike {A} (S : A -> A -> Prop) (p : A -> bool) l l' :
  (forall x x', S x x' -> p x' = p x) -> Forall2 S l l' -> count_rows p l' = count_rows p l.
Proof. intros Hp Hl. unfold count_rows. by rewrite (Forall2_length _ _ _ (filter_alike S p l l' Hp Hl)). Qed.
Lemma map_alike {A B} (S : A -> A -> Prop) (f : A -> B) l l' :
  (forall x x', S x x' -> f x' = f x) -> Forall2 S l l' -> map f l' = map f l.
Proof. intros Hf. induction 1 as [|x x' l l' Hx _ IH]; [done|]. cbn. by rewrite (Hf x x' Hx), IH. Qed.

Lemma table_stats_alike home now n db db' : tables_alike db db' -> table_stats home now n db' = table_stats home now n db.
Proof.
  intros [Hu Hg Hf _]. unfold table_stats.
  assert (Hlive : forall u u', user_alike u u' -> user_live u' = user_live u) by (intros u u' [_ _ _ E]; unfold user_live; by rewrite E).
  assert (Hseen : forall t u u', user_alike u u' -> seen_after t u' = seen_after t u) by (intros t u u' [_ _ E _]; unfold seen_after; by rewrite E).
  set (q := fun g => bool_decide (g_deleted_at g = None)).
  assert (Hq : Forall2 group_alike (List.filter q (t_groups db)) (List.filter q (t_groups db')))
    by (apply filter_alike; [intros g g' [_ E]; unfold q; by rewrite E|exact Hg]).
  assert (Hseries : series_rows (now - 7 * 86400) (t_users db') = series_rows (now - 7 * 86400) (t_users db)).
  { unfold series_rows. do 2 f_equal. apply (map_alike user_alike); [intros u u' [_ E _ _]; exact E|].
    apply filter_alike; [intros u u' Huu; rewrite (Hlive _ _ Huu); destruct Huu as [_ -> _ _]; done|exact Hu]. }
  assert (Hst : by_status (t_fedqueue db') = by_status (t_fedqueue db)).
  { unfold by_status. f_equal. apply map_ext. intros st. f_equal. apply (count_alike fed_alike); [|exact Hf]. intros r r' [-> _]. done. }
  assert (Hold : oldest_pending_age now (t_fedqueue db') = oldest_pending_age now (t_fedqueue db)).
  { unfold oldest_pending_age. erewrite (map_alike fed_alike fq_created_at); [done|intros r r' [_ E]; exact E|].
    apply filter_alike; [intros r r' [-> _]; done|exact Hf]. }
  pose proof (fun p Hp => count_alike user_alike p _ _ Hp Hu) as Cu. pose proof (fun p Hp => count_alike group_alike p _ _ Hp Hq) as Cg.
  unfold reg_series. rewrite Hseries, Hst, Hold, !Cu, !Cg; try done.
  - intros g g' [-> _]. done.
  - apply Hseen.
  - apply Hseen.
  - intros u u' Huu. rewrite (Hlive _ _ Huu). by destruct Huu as [_ -> _ _].
  - intros u u' Huu. rewrite (Hlive _ _ Huu). by destruct Huu as [-> _ _ _].
Qed.

(** ** What the statistics say *)

Section Privacy.
  Context `{R : Redis} `{Ipaddress}.

Lemma no_sql_pings peers : no_sql (ping_all peers).
Proof.
  induction peers as [|p peers IH]; [done|]. cbn [ping_all]. unfold _ping_relay, _pinned_get, resolve_pinned_peer, resolve_, http_, json_of.
  no_sql; exact IH.
Qed.

End Privacy.

(** Two registrations of one day in different seconds are shown as one: the groups of the query are the
    seconds, and of those of a day the last is kept. *)
Example series_loses_registrations :
  let u t := mkUser "k" None FREE "here" t None None None in
  reg_series 864500 [u 864000%Z; u 864010%Z; u 864010%Z; u 864020%Z] !! 6%nat = Some (0%Z, 1%Z).
Proof. vm_compute. reflexivity. Qed.

Module AdminDemo.
#[local] Instance demo_sha : Sha256 := fun s => s.
#[local] Instance demo_hash : Pwhash := fun stored password => String.eqb stored ("$" +:+ password).
#[local] Instance demo_ip : Ipaddress := fun _ => None.
Definition admin : AdminSettings := mkAdminSettings "root" "$secret" 3600.
Definition relay : world (rstore (Redis := Mem_Redis)) :=
  World 1000 (View ∅ ∅ []) empty_db empty_db ∅ [] (fun n => if n is O then "aa" else "bb") [] no_network [].
Definition body : AdminLoginRequest := mkAdminLogin "root" "secret".
Definition relay1 : world (rstore (Redis := Mem_Redis)) := snd (run (admin_login admin body) relay).

Lemma admin_login_witness :
  fst (run (require_admin (Some "Bearer aa")) relay1) = Ok tt /\
  exists t, (admin_key "aa", t) ∈ [(admin_key "aa", 1000%Z)] /\ (t <= 1000 < t + 3600)%Z.
Proof.
  split; [vm_compute; reflexivity|].
  apply (admin_needs_login admin relay relay1 [(admin_key "aa", 1000%Z)] (Some "Bearer aa") "aa").
  - reflexivity.
  - intros tok e He. vm_compute in He. discriminate He.
  - exact (admin_next admin relay relay [] _ _ (admin_start admin relay) (admin_login_run admin relay [] body)).
  - vm_compute. reflexivity.
  - vm_compute. reflexivity.
Defined.

Definition with_user (key : string) (name : option string) : database :=
  set_users [mkUser key name FREE "here" 900 (Some 950%Z) None None] empty_db.
End AdminDemo.
