(* ===== verification/OperatorFacts.v ===== *)
(** * The operator's commands: properties

    Who is trusted, and under which key, over any history of commands and of handshakes of other relays. *)

From Stdlib Require Import Ascii String.
From stdpp Require Import prelude gmap strings list.
From S2P Require Import Prelude Json Codec RedisStore Models Effects Crypto Payloads Config Sessions RateLimit Deps Logic.
From S2P Require Import FederationClient Federation FederationApiFacts Operator.

#[local] Open Scope morok_scope.

(** ** Peers *)

(** Names of peers are unique. *)
Definition names_unique (db : database) : Prop := NoDup (map fp_hostname (t_peers db)).

Lemma same_name (l : list FederationPeer) p q :
  NoDup (map fp_hostname l) -> p ∈ l -> q ∈ l -> fp_hostname q = fp_hostname p -> q = p.
Proof.
  intros Hnd [i Hi]%list_elem_of_lookup [j Hj]%list_elem_of_lookup E.
  assert (j = i) as ->; [|congruence].
  eapply NoDup_lookup; [exact Hnd|..]; rewrite list_lookup_fmap, ?Hi, ?Hj; cbn; by rewrite ?E.
Qed.

(** What happens at the shell, and what other relays send; [Elsewhere]: other code of the relay runs. *)
Inductive op_event := ByOperator (args : Args) (answer : string) | Greeting (body : HandshakeRequest) | Elsewhere.

(** What the operator asks for. *)
Definition asks_trust (v : bool) (a : Args) (h : string) : Prop :=
  ar_list a = false /\ if v then truthy (ar_trust a) = Some h else truthy (ar_trust a) = None /\ truthy (ar_untrust a) = Some h.
Definition asks_key (a : Args) (h : string) : Prop :=
  ar_list a = false /\ truthy (ar_trust a) = None /\ truthy (ar_untrust a) = None /\ truthy (ar_show a) = None /\
  truthy (ar_replace_key a) = Some h.
Definition agrees (answer : string) : Prop := lower (strip answer) = "y".

(** What an event makes of a peer. *)
Inductive row_step (e : op_event) (q q' : FederationPeer) : Prop :=
| row_kept : fp_hostname q' = fp_hostname q -> fp_pubkey q' = fp_pubkey q -> fp_is_trusted q' = fp_is_trusted q -> row_step e q q'
| row_trust a ans v : e = ByOperator a ans -> asks_trust v a (fp_hostname q) -> fp_is_trusted q = negb v -> q' = trusting v q ->
    row_step e q q'
| row_rekey a ans : e = ByOperator a ans -> asks_key a (fp_hostname q) -> agrees ans -> fp_hostname q' = fp_hostname q ->
    fp_is_trusted q' = false -> row_step e q q'.
(** And of the table: a peer may also be new, and is then not trusted. *)
Definition peers_step (e : op_event) (l l' : list FederationPeer) : Prop :=
  exists f, (forall q, q ∈ l -> row_step e q (f q)) /\
    (l' = map f l \/
     exists n, l' = map f l ++ [n] /\ fp_is_trusted n = false /\ forall q, q ∈ l -> fp_hostname q <> fp_hostname n).

Lemma row_refl e q : row_step e q q.
Proof. by apply row_kept. Qed.
Lemma row_name e q q' : row_step e q q' -> fp_hostname q' = fp_hostname q.
Proof. intros [? _ _|a ans v _ _ _ ->|a ans _ _ _ ? _]; done. Qed.
Lemma peers_refl e l : peers_step e l l.
Proof. exists (fun q => q). split; [intros; apply row_refl|left; by rewrite map_id]. Qed.

Lemma peers_new e l n : fp_is_trusted n = false -> (forall q, q ∈ l -> fp_hostname q <> fp_hostname n) -> peers_step e l (l ++ [n]).
Proof. intros Hn Hl. exists (fun q => q). split; [intros; apply row_refl|]. right. exists n. by rewrite map_id. Qed.

Lemma peers_update e l p p' h : NoDup (map fp_hostname l) -> p ∈ l -> fp_hostname p = h -> row_step e p p' ->
  peers_step e l (map (fun q => if hosted_at h q then p' else q) l).
Proof.
  intros Hnd Hp <- Hs. eexists. split; [|by left]. intros q Hq. cbn beta. unfold hosted_at.
  destruct (String.eqb_spec (fp_hostname q) (fp_hostname p)) as [E|]; [|apply row_refl].
  by rewrite (same_name l p q Hnd Hp Hq E).
Qed.

Lemma peers_unique e l l' : NoDup (map fp_hostname l) -> peers_step e l l' -> NoDup (map fp_hostname l').
Proof.
  intros Hnd (f & Hf & Hl).
  assert (E : map fp_hostname (map f l) = map fp_hostname l).
  { rewrite map_map. apply map_ext_in. intros q Hq. apply list_elem_of_In in Hq. by eapply row_name, Hf. }
  destruct Hl as [->|(n & -> & _ & Hn)]; [by rewrite E|]. rewrite map_app, E. apply NoDup_app. split; [done|]. split; [|apply NoDup_singleton].
  intros h Hh Hn'. apply list_elem_of_singleton in Hn'. subst. apply list_elem_of_fmap in Hh as (q & Eq & Hq). by apply (Hn q).
Qed.

(** ** Commands *)

Section Commands.
  Context `{Sha256} `{Nacl} `{Ipaddress} (s : Settings) (before : string -> string -> bool).
  Context (now : Z) (db : database) (Hnames : names_unique db).

(** The only change is a step of the table of peers. *)
Definition after_event (e : op_event) (db' : database) : Prop := exists l', db' = set_peers l' db /\ peers_step e (t_peers db) l'.

Lemma reads_peer h : reads now db (select_peer h) (eq (select_one (hosted_at h) (t_peers db))).
Proof. apply reads_sql. Qed.
Lemma reads_quiet {A} (p : M A) : no_sql p -> reads now db p (fun _ => True).
Proof. intros Hp. apply reads_leaves, leaves_no_sql, Hp. Qed.

Lemma no_sql_handshake h : no_sql (accepted_answer s h).
Proof.
  unfold accepted_answer, remote_handshake, signed_, catch_http, _pinned_post, resolve_pinned_peer, answer_of, raise_for_status,
    json_of, resolve_, http_. cbv zeta. no_sql.
Qed.
Lemma no_sql_key d : no_sql (answered_key d).
Proof. unfold answered_key. cbv zeta. no_sql. Qed.

Lemma owned_store e p p' h {B} (b : B) : select_one (hosted_at h) (t_peers db) = Some p -> fp_hostname p' = fp_hostname p -> row_step e p p' ->
  owned now db (after_event e) (let! _ := store_peer p' in let! _ := commit in ret b).
Proof.
  intros Hs Hh Hr. apply select_in in Hs as [Hp _]. apply owned_write. cbn [snd]. eexists. split; [done|]. cbn [snd update_where].
  rewrite Hh. by apply (peers_update e _ p).
Qed.
Lemma owned_insert e p {B} (b : B) : fp_is_trusted p = false ->
  owned now db (after_event e) (let! _ := insert_peer p in let! _ := commit in ret b).
Proof.
  intros Hp w Hn Hw. unfold insert_peer. rewrite run_bind_assoc, run_doc_bind, run_doc_sql.
  unfold at_db, tables_of in *. injection Hw as Hd Hwk. rewrite Hwk. destruct (existsb _ _) eqn:Ex; cbn [fst snd].
  - rewrite run_doc_bind. split; [|done]. by left.
  - rewrite run_doc_bind, run_doc_ret, run_doc_bind, run_doc_commit. split; [|done]. right. cbn. eexists. split; [done|].
    apply peers_new; [done|]. intros q Hq E. apply list_elem_of_In in Hq.
    assert (Hx : existsb (hosted_at (fp_hostname p)) (t_peers db) = true)
      by (apply existsb_exists; exists q; unfold hosted_at; by rewrite E, String.eqb_refl).
    by rewrite Ex in Hx.
Qed.

Lemma settles_list e : settles now db (after_event e) (cmd_list before).
Proof. unfold cmd_list. eapply settles_reads; [apply reads_own_session, reads_sql|]. intros [] _; apply settles_ret. Qed.
Lemma settles_show e h : settles now db (after_event e) (cmd_show h).
Proof. unfold cmd_show. eapply settles_reads; [apply reads_own_session, reads_peer|]. intros [] _; apply settles_ret. Qed.

Lemma settles_trust a ans h v : asks_trust v a h -> settles now db (after_event (ByOperator a ans)) (_set_trust h v).
Proof.
  intros Ha. apply settles_own. eapply owned_reads; [apply reads_peer|]. intros [p|] E; [|apply owned_ret].
  pose proof (select_in _ _ _ E) as [_ Eh%String.eqb_eq]. rewrite <- Eh in Ha.
  destruct (fp_is_trusted p) eqn:Et, v; try apply owned_ret; cbn [Bool.eqb]; (eapply owned_store; [done..|]);
    by apply (row_trust _ _ _ a ans _ eq_refl Ha).
Qed.

Lemma settles_add a ans h : settles now db (after_event (ByOperator a ans)) (cmd_add s h).
Proof.
  unfold cmd_add. destruct (_ || _); [apply settles_ret|].
  eapply settles_reads; [apply reads_quiet, no_sql_handshake|]. intros [d|] _; [|apply settles_ret].
  eapply settles_reads; [apply reads_quiet, no_sql_key|]. intros [k|] _; [|apply settles_ret].
  destruct (negb _); [apply settles_ret|]. apply settles_own. eapply owned_reads; [apply reads_peer|]. intros [p|] E.
  - destruct (negb _); [apply owned_ret|]. eapply owned_reads; [apply reads_now|]. intros t _.
    by eapply owned_store; [done| |apply row_kept].
  - eapply owned_reads; [apply reads_now|]. intros t _. by apply owned_insert.
Qed.

Lemma settles_replace a ans h : asks_key a h -> settles now db (after_event (ByOperator a ans)) (cmd_replace_key s h ans).
Proof.
  intros Ha. unfold cmd_replace_key. destruct (String.eqb_spec (lower (strip ans)) "y") as [Hy|]; cbn [negb]; [|apply settles_ret].
  eapply settles_reads; [apply reads_quiet, no_sql_handshake|]. intros [d|] _; [|apply settles_ret].
  eapply settles_reads; [apply reads_quiet, no_sql_key|]. intros [k|] _; [|apply settles_ret].
  destruct (negb _); [apply settles_ret|]. apply settles_own. eapply owned_reads; [apply reads_peer|]. intros [p|] E; [|apply owned_ret].
  eapply owned_reads; [apply reads_now|]. intros t _. eapply owned_store; [done..|].
  apply (row_rekey _ _ _ a ans); try done. apply select_in in E as [_ Eh%String.eqb_eq]. by rewrite Eh.
Qed.

Lemma settles_main a ans : settles now db (after_event (ByOperator a ans)) (main s before a ans).
Proof.
  unfold main. destruct (ar_list a) eqn:El; [apply settles_list|].
  destruct (truthy (ar_trust a)) eqn:Et; [by apply settles_trust|].
  destruct (truthy (ar_untrust a)) eqn:Eu; [by apply settles_trust|].
  destruct (truthy (ar_show a)) eqn:Es; [apply settles_show|].
  destruct (truthy (ar_replace_key a)) eqn:Er; [by apply settles_replace|].
  destruct (truthy (ar_hostname a)); [apply settles_add|apply settles_ret].
Qed.

(** The command shows the fingerprint of the key that it trusts. *)
Lemma run_set_trust a ans q (w : vworld) : tables_of w = (db, db) -> q ∈ t_peers db -> fp_is_trusted q = false ->
  asks_trust true a (fp_hostname q) ->
  fst (run_doc (main s before a ans) w) = Ok (0%Z, [NowTrusted (fp_hostname q) (fingerprint (fp_pubkey q))]).
Proof.
  intros Ht Hq Hu [El Ea]. unfold main. rewrite El, Ea. unfold _set_trust. rewrite run_own_session. cbn [fst].
  unfold select_peer. rewrite run_doc_bind, run_doc_sql. injection Ht as _ Hw. rewrite Hw. cbn [fst snd].
  destruct (select_one (hosted_at (fp_hostname q)) (t_peers db)) as [p|] eqn:E.
  - apply select_in in E as [Hp Eh%String.eqb_eq]. rewrite (same_name _ _ _ Hnames Hq Hp Eh) in *. rewrite Hu. cbn [Bool.eqb].
    rewrite run_doc_bind. unfold store_peer. by rewrite run_doc_sql, run_doc_bind, run_doc_commit.
  - apply list_elem_of_In in Hq. pose proof (List.find_none _ _ E q Hq) as Hn. unfold hosted_at in Hn. by rewrite String.eqb_refl in Hn.
Qed.
End Commands.

(** ** Histories *)

Section History.
  Context `{R : Redis} `{Sha256} `{Nacl} `{Ipaddress} (s : Settings) (before : string -> string -> bool).

Inductive op_step (w : world rstore) : op_event -> world rstore -> Prop :=
| step_command a ans : op_step w (ByOperator a ans) (snd (run (main s before a ans) w))
| step_greeting body : op_step w (Greeting body) (snd (run (with_session (handshake s body)) w))
| step_elsewhere w' : t_peers (w_db w') = t_peers (w_db w) -> w_work w' = w_db w' -> op_step w Elsewhere w'.

Inductive op_history (w : world rstore) : world rstore -> Prop :=
| op_start : op_history w w
| op_more w1 e w2 : op_history w w1 -> op_step w1 e w2 -> op_history w w2.

(** At rest, and every name once. *)
Definition op_ok (w : world rstore) : Prop := w_work w = w_db w /\ names_unique (w_db w).

Lemma greeting_step body now key l l' : NoDup (map fp_hostname l) -> greeted_peers body now key l l' -> peers_step (Greeting body) l l'.
Proof.
  intros Hnd [(p & Hp & Hh & _ & ->)|[Hn ->]].
  - apply (peers_update _ l p); [done..|]. by apply row_kept.
  - by apply peers_new.
Qed.

Lemma step_peers w e w' : op_ok w -> op_step w e w' -> op_ok w' /\ peers_step e (t_peers (w_db w)) (t_peers (w_db w')).
Proof.
  intros [Hw Hnd] Hs.
  assert (Hdone : w_work w' = w_db w' -> peers_step e (t_peers (w_db w)) (t_peers (w_db w')) ->
    op_ok w' /\ peers_step e (t_peers (w_db w)) (t_peers (w_db w'))).
  { intros Hr Hp. split; [split; [done|by eapply peers_unique]|done]. }
  assert (Ht : tables_of (absw w) = (w_db w, w_db w)) by (unfold tables_of; cbn; by rewrite Hw).
  destruct Hs as [a ans|body|w' Hp Hr]; [| |apply Hdone; [done|rewrite Hp; apply peers_refl]].
  - destruct (settles_main s before (w_now w) (w_db w) Hnd a ans (absw w) eq_refl Ht) as [[Hr Hd] _].
    rewrite <- snd_run_absw in Hr, Hd. unfold tables_of in Hr, Hd. cbn in Hr, Hd. apply Hdone; [done|].
    destruct Hd as [-> |(l' & -> & Hl)]; [apply peers_refl|exact Hl].
  - pose proof (session_settled (handshake s body) (absw w)) as Hr. rewrite <- snd_run_absw in Hr. apply Hdone; [exact Hr|].
    change (w_db (snd ?x)) with (w_db (absw (snd x))). rewrite snd_run_absw.
    destruct (run_handshake s body (absw w)) as [[e E]|(key & l' & _ & Hg & E)]; rewrite run_with_session, E; cbn [fst snd]; [apply peers_refl|].
    change (w_work (absw w)) with (w_work w) in *. rewrite Hw in *. by eapply greeting_step.
Qed.

Lemma history_ok w w' : op_ok w -> op_history w w' -> op_ok w'.
Proof. intros Hok. induction 1 as [|w1 e w2 _ IH Hs]; [done|]. by eapply step_peers. Qed.

(** There was an event in the history of which [P] holds. *)
Definition happened (w w' : world rstore) (P : world rstore -> op_event -> world rstore -> Prop) : Prop :=
  exists w1 e w2, op_history w w1 /\ op_step w1 e w2 /\ op_history w2 w' /\ P w1 e w2.
Lemma happened_more P w w1 e w2 : op_step w1 e w2 -> happened w w1 P -> happened w w2 P.
Proof. intros Hs (a & e' & b & Ha & Hab & Hb & HP). exists a, e', b. split_and!; try done. by eapply op_more. Qed.
Lemma happened_last P w w1 e w2 : op_history w w1 -> op_step w1 e w2 -> P w1 e w2 -> happened w w2 P.
Proof. intros Hw Hs HP. exists w1, e, w2. split_and!; try done. apply op_start. Qed.

(** The operator said to trust the peer of this name when its key was [key], and was shown its fingerprint. *)
Definition was_trusted (name key : string) (w1 : world rstore) (e : op_event) (w2 : world rstore) : Prop :=
  exists a ans q, e = ByOperator a ans /\ asks_trust true a name /\ q ∈ t_peers (w_db w1) /\ fp_hostname q = name /\ fp_pubkey q = key /\
    fst (run (main s before a ans) w1) = Ok (0%Z, [NowTrusted name (fingerprint key)]).
(** The operator said to take the key that the peer of this name has now, and agreed; it is not trusted then. *)
Definition was_rekeyed (name : string) (w1 : world rstore) (e : op_event) (w2 : world rstore) : Prop :=
  exists a ans q, e = ByOperator a ans /\ asks_key a name /\ agrees ans /\ q ∈ t_peers (w_db w2) /\ fp_hostname q = name /\
    fp_is_trusted q = false.

Lemma trust_step w w1 e w2 p : op_ok w1 -> op_history w w1 -> op_step w1 e w2 -> p ∈ t_peers (w_db w2) -> fp_is_trusted p = true ->
  (exists q, q ∈ t_peers (w_db w1) /\ fp_hostname q = fp_hostname p /\ fp_pubkey q = fp_pubkey p /\ fp_is_trusted q = true) \/
  was_trusted (fp_hostname p) (fp_pubkey p) w1 e w2.
Proof.
  intros Hok Hh Hs Hp Ht. destruct (step_peers w1 e w2 Hok Hs) as [_ (f & Hf & Hl)].
  assert (Hin : exists q, q ∈ t_peers (w_db w1) /\ p = f q).
  { destruct Hl as [E|(n & E & Hn & _)]; rewrite E in Hp; [by apply list_elem_of_fmap in Hp as (q & -> & ?); exists q|].
    apply elem_of_app in Hp as [Hp|Hp%list_elem_of_singleton]; [by apply list_elem_of_fmap in Hp as (q & -> & ?); exists q|]. congruence. }
  destruct Hin as (q & Hq & ->). destruct (Hf q Hq) as [En Ek Et|a ans v -> Ha Hu E|a ans _ _ _ _ E]; [| |congruence].
  - left. exists q. split_and!; congruence.
  - destruct v; [|by rewrite E in Ht]. right. exists a, ans, q. rewrite E. cbn. split_and!; try done. rewrite fst_run.
    destruct Hok as [Hw Hnd]. apply (run_set_trust s before (w_db w1) Hnd); try done. unfold tables_of. cbn. by rewrite Hw.
Qed.

Lemma key_step w1 e w2 q : op_ok w1 -> op_step w1 e w2 -> q ∈ t_peers (w_db w1) ->
  exists p, p ∈ t_peers (w_db w2) /\ fp_hostname p = fp_hostname q /\
    (fp_pubkey p = fp_pubkey q \/ was_rekeyed (fp_hostname q) w1 e w2).
Proof.
  intros Hok Hs Hq. destruct (step_peers w1 e w2 Hok Hs) as [_ (f & Hf & Hl)]. exists (f q).
  assert (Hin : f q ∈ t_peers (w_db w2)).
  { assert (Hm : f q ∈ map f (t_peers (w_db w1))) by (by apply list_elem_of_fmap_2).
    destruct Hl as [->|(n & -> & _ & _)]; [done|]. apply elem_of_app. by left. }
  split; [done|]. split; [by eapply row_name, Hf|].
  destruct (Hf q Hq) as [_ Ek _|a ans v _ _ _ ->|a ans -> Ha Hy En Et]; [by left|by left|].
  right. exists a, ans, (f q). by split_and!.
Qed.

(** C29: trust is the operator's.  Along any history of commands of the operator, handshakes of other relays
    and other code that leaves the peers alone, whatever the network answers: a peer is trusted only
    under a key under which it was trusted before, or for which the operator gave the command to trust
    it, and that command showed the fingerprint of exactly this key; and the key of a known peer is
    another one only after the operator agreed to replace it, which takes the trust back.  No peer is
    lost. *)
Theorem trust_is_the_operators (w w' : world rstore) :
  op_ok w -> op_history w w' ->
  (forall p, p ∈ t_peers (w_db w') -> fp_is_trusted p = true ->
     (exists q, q ∈ t_peers (w_db w) /\ fp_hostname q = fp_hostname p /\ fp_pubkey q = fp_pubkey p /\ fp_is_trusted q = true) \/
     happened w w' (was_trusted (fp_hostname p) (fp_pubkey p))) /\
  (forall q, q ∈ t_peers (w_db w) -> exists p, p ∈ t_peers (w_db w') /\ fp_hostname p = fp_hostname q /\
     (fp_pubkey p = fp_pubkey q \/ happened w w' (was_rekeyed (fp_hostname q)))).
Proof.
  intros Hok Hh. induction Hh as [|w1 e w2 Hh IH Hs].
  { split; [intros p Hp Ht; left; by exists p|]. intros q Hq. exists q. auto. }
  pose proof (history_ok w w1 Hok Hh) as Hok1. destruct IH as [IHt IHk]. split.
  - intros p Hp Ht. destruct (trust_step w w1 e w2 p Hok1 Hh Hs Hp Ht) as [(q & Hq & En & Ek & Eq)|Hnow];
      [|right; by eapply happened_last].
    rewrite <- En, <- Ek. destruct (IHt q Hq Eq) as [Hold|Hold]; [by left|]. right. by eapply happened_more.
  - intros q Hq. destruct (IHk q Hq) as (p & Hp & En & Hk). destruct (key_step w1 e w2 p Hok1 Hs Hp) as (p' & Hp' & En' & Hk').
    exists p'. split; [done|]. split; [congruence|]. rewrite En in Hk'.
    destruct Hk' as [Ek'|Hnow]; [|right; by eapply happened_last].
    destruct Hk as [Ek|Hold]; [left; congruence|]. right. by eapply happened_more.
Qed.
End History.

(** ** Tiers *)

Section Tier.
  Context `{R : Redis}.

(** The command ends with code 0 exactly if it has set the tier of the account with that key, and of no
    other; otherwise the tables are as they were. *)
Lemma tier_changes_one pubkey_hex tier_str (w : world rstore) :
  w_work w = w_db w ->
  let x := run (set_user_tier pubkey_hex tier_str) w in
  (exists key t u said, bytes_fromhex pubkey_hex = Some key /\ tier_of tier_str = Some t /\ u ∈ t_users (w_db w) /\ u_pubkey u = key /\
     fst x = Ok (0%Z, [said]) /\
     w_db (snd x) = set_users (map (fun v => if String.eqb (u_pubkey v) key then with_tier t v else v) (t_users (w_db w))) (w_db w)) \/
  ((forall said, fst x <> Ok (0%Z, said)) /\ w_db (snd x) = w_db w).
Proof.
  intros Hw x. unfold x. change (w_db (snd ?y)) with (w_db (absw (snd y))). rewrite fst_run, snd_run_absw. clear x.
  unfold set_user_tier. destruct (_ || _); [by right|]. destruct (tier_of tier_str) as [t|]; [|by right].
  rewrite run_doc_bind. destruct (bytes_fromhex pubkey_hex) as [key|] eqn:Ek; [|unfold fromhex_; rewrite Ek; by right].
  rewrite (run_doc_fromhex _ _ _ Ek), run_own_session, run_doc_bind, run_doc_sql. change (w_work (absw w)) with (w_work w). rewrite Hw. cbn [fst snd].
  destruct (select_one _ _) as [u|] eqn:Eu; [|by right]. apply select_in in Eu as [Hu Hk%String.eqb_eq].
  rewrite run_doc_bind, run_doc_sql, run_doc_bind, run_doc_commit. cbn [fst snd]. rewrite Hk. left. by eexists key, t, u, _.
Qed.
End Tier.

Module OperatorDemo.
#[local] Instance demo_sha : Sha256 := fun s => s.
#[local] Instance demo_nacl : Nacl :=
  {| nacl_verify := fun _ _ _ => true; nacl_sign := fun _ _ => "s"; nacl_public := fun k => k;
     nacl_to_curve25519 := fun k => Ok k |}.
#[local] Instance demo_ip : Ipaddress := fun _ => Some (IpFlags false false false false false false).
Definition zeros (n : nat) : string := string_of_list_ascii (repeat "0"%char n).
Definition peer_key : string := string_of_list_ascii (repeat "7"%char 64).
Definition settings : Settings := mkSettings "relay" (zeros 64) (zeros 64) 86400 1000 30 0 0 true "" 10 "".
Definition accepts : json := JObj [("accepted", JBool true); ("our_pubkey_hex", JStr peer_key); ("our_relay_name", JStr "peer")].
Definition relay0 : world (rstore (Redis := Mem_Redis)) :=
  World 1000 (View ∅ ∅ []) empty_db empty_db ∅ [] (fun _ => "fresh") [] (fun _ => Answer (Some ["192.0.2.1"]) (Some (200%Z, Some accepts))) [].
Definition add : Args := mkArgs (Some "peer.example") false None None None None.
Definition trust : Args := mkArgs None false (Some "peer.example") None None None.
Definition relay1 := snd (run (main settings String.leb add "") relay0).
Definition relay2 := snd (run (main settings String.leb trust "") relay1).

Example shown : fst (run (main settings String.leb trust "") relay1) =
  Ok (0%Z, [NowTrusted "peer.example" "0583 0583 0583 0583 0583 0583 0583 0583"]).
Proof. vm_compute. reflexivity. Qed.

Lemma trust_witness :
  map fp_is_trusted (t_peers (w_db relay1)) = [false] /\ map fp_is_trusted (t_peers (w_db relay2)) = [true] /\
  forall p, p ∈ t_peers (w_db relay2) -> fp_is_trusted p = true ->
    (exists q, q ∈ t_peers (w_db relay0) /\ fp_hostname q = fp_hostname p /\ fp_pubkey q = fp_pubkey p /\ fp_is_trusted q = true) \/
    happened settings String.leb relay0 relay2 (was_trusted settings String.leb (fp_hostname p) (fp_pubkey p)).
Proof.
  split; [vm_compute; reflexivity|]. split; [vm_compute; reflexivity|].
  apply (trust_is_the_operators settings String.leb relay0 relay2).
  - split; [reflexivity|apply NoDup_nil_2].
  - eapply op_more; [eapply op_more; [apply op_start|]|]; apply step_command.
Defined.
End OperatorDemo.
