(* ===== verification/MailOutFacts.v ===== *)
(** * Mail to the outside: properties

    Which addresses are contacted and what a report rests on, whatever names, servers and the relay answer;
    and how many mails are taken in a day. *)

From Stdlib Require Import Ascii String.
From stdpp Require Import prelude gmap strings list.
From S2P Require Import Prelude Json Codec RedisStore Models Effects Crypto Config Sessions RateLimit Deps Logic.
From S2P Require Import FederationClient Account Mail MailOut.

#[local] Open Scope morok_scope.

(** ** What is asked *)

Section Safe.
  Context `{Ipaddress} `{Serialize} (env : trace -> question -> reply) (SOURCE_IP HELO_NAME : string).

(** The name was resolved, every address of the answer is public, and this one is the first. *)
Definition permitted (tr : trace) (host ip : string) : Prop :=
  exists ips, (QAddresses host, RAddresses ips) ∈ tr /\ head ips = Some ip /\ forallb _is_public_ip ips = true.

(** A server for mail of the domain took this text as mail from one address to another. *)
Definition taken (tr : trace) (from_addr to_addr raw : string) : Prop :=
  exists before_ after_ l mx ip code t1 t2 t3 t4,
    tr = before_ ++ [(QSay mx ip (MailFrom from_addr), RCode 250 t1); (QSay mx ip (RcptTo to_addr), RCode code t2);
                     (QSay mx ip DataVerb, RCode 354 t3); (QSay mx ip (Content raw), RCode 250 t4)] ++ after_ /\
    (code = 250 \/ code = 251)%Z /\
    (QMx (lower (after (is_char "@") to_addr)), RMx l) ∈ before_ /\ mx ∈ map (fun pe => rstrip_dots (snd pe)) l.

(** The relay gave the job out, and its text is in a message to its recipient that was taken. *)
Definition done_for (tr : trace) (id : string) : Prop :=
  exists limit jobs j sig msg, (QClaim limit, RJobs jobs) ∈ tr /\ j ∈ jobs /\ mj_id j = id /\
    ms_text msg = mj_text j /\ ("From", mj_from_addr j) ∈ ms_headers msg /\ ("To", mj_to_addr j) ∈ ms_headers msg /\
    taken tr (mj_from_addr j) (mj_to_addr j) (sig +:+ as_bytes msg).

(** What may be asked after [tr]. *)
Definition good (tr : trace) (q : question) : Prop :=
  match q with
  | QConnect source host ip => source = truthy (Some SOURCE_IP) /\ permitted tr host ip
  | QSay host ip v => permitted tr host ip /\ match v with Tls name => name = host | _ => True end
  | QReport id true _ _ => done_for tr id
  | _ => True
  end.
Inductive allowed : trace -> Prop :=
| allowed_nil : allowed []
| allowed_more tr q r : allowed tr -> good tr q -> allowed (tr ++ [(q, r)]).

Lemma allowed_at tr tr1 q r tr2 : allowed tr -> tr = tr1 ++ (q, r) :: tr2 -> good tr1 q.
Proof.
  intros Ha. revert tr2. induction Ha as [|tr q' r' Ha IH Hg]; intros tr2 E; [by destruct tr1|].
  destruct tr2 as [|x tr2 _] using rev_ind; [by apply app_inj_tail in E as [-> [= -> ->]]|].
  rewrite app_comm_cons, app_assoc in E. apply app_inj_tail in E as [-> _]. by eapply IH.
Qed.

Lemma permitted_more tr tr' host ip : tr `prefix_of` tr' -> permitted tr host ip -> permitted tr' host ip.
Proof. intros [k ->] (ips & Hin & ?). exists ips. split; [apply elem_of_app; by left|done]. Qed.
Lemma taken_more tr tr' a b raw : tr `prefix_of` tr' -> taken tr a b raw -> taken tr' a b raw.
Proof.
  intros [k ->] (x & y & l & mx & ip & code & t1 & t2 & t3 & t4 & -> & Hrest). exists x, (y ++ k), l, mx, ip, code, t1, t2, t3, t4.
  split; [by rewrite <- !app_assoc|done].
Qed.

(** [does pi tr p Q]: with the trace [tr] and with [pi] in the place of getaddrinfo, [p] asks only what is
    good, goes on from the trace, leaves [pi], and ends in [Q]. *)
Definition does {A} (pi : option (string * string)) (tr : trace) (p : X A) (Q : tried A -> trace -> Prop) : Prop :=
  forall n, nd_patch n = pi -> nd_trace n = tr -> allowed tr ->
    let n' := snd (p n) in
    nd_patch n' = pi /\ allowed (nd_trace n') /\ tr `prefix_of` nd_trace n' /\ Q (fst (p n)) (nd_trace n').

Section Rules.
  Context (pi : option (string * string)) (tr : trace).

Lemma does_ret {A} (a : A) (Q : tried A -> trace -> Prop) : Q (Done a) tr -> does pi tr (xret a) Q.
Proof. intros HQ n Hp <- Ha. cbn. auto. Qed.
Lemma does_fail {A} t (Q : tried A -> trace -> Prop) : Q (Failed t) tr -> does pi tr (xfail t) Q.
Proof. intros HQ n Hp <- Ha. cbn. auto. Qed.
Lemma does_odd {A} (r : reply) (Q : tried A -> trace -> Prop) : (forall t, Q (Failed t) tr) -> does pi tr (odd r) Q.
Proof. intros HQ. apply does_fail, HQ. Qed.
Lemma does_bind {A B} (p : X A) (f : A -> X B) Q1 Q :
  does pi tr p Q1 -> (forall a tr', tr `prefix_of` tr' -> Q1 (Done a) tr' -> does pi tr' (f a) Q) ->
  (forall t tr', tr `prefix_of` tr' -> Q1 (Failed t) tr' -> Q (Failed t) tr') -> does pi tr (xbind p f) Q.
Proof.
  intros Hp Hf He n Hpi Ht Ha. destruct (Hp n Hpi Ht Ha) as (Hpi1 & Ha1 & Ht1 & HQ). unfold xbind.
  destruct (p n) as [[a|t] n1]; cbn [fst snd] in *; [|by split_and!; auto].
  destruct (Hf a (nd_trace n1) Ht1 HQ n1 Hpi1 eq_refl Ha1) as (? & ? & ? & ?). split_and!; try done. by etrans.
Qed.
Lemma does_try {A} (p : X A) h Q1 Q :
  does pi tr p Q1 -> (forall a tr', tr `prefix_of` tr' -> Q1 (Done a) tr' -> Q (Done a) tr') ->
  (forall t tr', tr `prefix_of` tr' -> Q1 (Failed t) tr' -> does pi tr' (h t) Q) -> does pi tr (xtry p h) Q.
Proof.
  intros Hp Hd Hf n Hpi Ht Ha. destruct (Hp n Hpi Ht Ha) as (Hpi1 & Ha1 & Ht1 & HQ). unfold xtry.
  destruct (p n) as [[a|t] n1]; cbn [fst snd] in *; [by split_and!; auto|].
  destruct (Hf t (nd_trace n1) Ht1 HQ n1 Hpi1 eq_refl Ha1) as (? & ? & ? & ?). split_and!; try done. by etrans.
Qed.
Lemma does_weaken {A} (p : X A) (Q1 Q : tried A -> trace -> Prop) :
  does pi tr p Q1 -> (forall r tr', tr `prefix_of` tr' -> Q1 r tr' -> Q r tr') -> does pi tr p Q.
Proof. intros Hp HQ n Hpi Ht Ha. destruct (Hp n Hpi Ht Ha) as (? & ? & ? & ?). split_and!; auto. Qed.
Lemma does_ask q : good tr q -> does pi tr (ask env q) (fun r tr' => exists a, r = Done a /\ tr' = tr ++ [(q, a)]).
Proof. intros Hg n Hpi <- Ha. cbn. split_and!; [done|by apply allowed_more|by eexists|]. by eexists. Qed.
(** A question and what is done with the answer. *)
Lemma does_asked {B} q (f : reply -> X B) Q : good tr q -> (forall r, does pi (tr ++ [(q, r)]) (f r) Q) -> does pi tr (xbind (ask env q) f) Q.
Proof. intros Hg Hf. eapply does_bind; [by apply does_ask| |by intros t tr' _ (a & ? & _)]. intros r tr' _ (a & [= <-] & ->). apply Hf. Qed.
End Rules.
Lemma does_text pi tr q : good tr q -> does pi tr (ask_text env q) (fun _ _ => True).
Proof. intros Hg. apply does_asked; [done|]. intros r. destruct r; by apply does_ret || apply does_odd. Qed.

(** ** Names and connections *)

(** Without a replacement the answer is in the trace; with one it is the pinned address. *)
Lemma does_getaddrinfo tr host :
  does None tr (getaddrinfo env host) (fun r tr' => match r with Done l => (QAddresses host, RAddresses l) ∈ tr' | Failed _ => True end).
Proof.
  intros n Hpi Ht Ha. unfold getaddrinfo. rewrite Hpi.
  refine (does_asked None tr (QAddresses host) (fun r => match r with RAddresses l => xret l | _ => odd r end)
    (fun r tr' => match r with Done l => (QAddresses host, RAddresses l) ∈ tr' | Failed _ => True end) I _ n Hpi Ht Ha). intros r.
  destruct r; try (by apply does_odd). apply does_ret. rewrite elem_of_app, list_elem_of_singleton. auto.
Qed.
Lemma does_pinned_getaddrinfo tr host ip : does (Some (host, ip)) tr (getaddrinfo env host) (fun r _ => r = Done [ip]).
Proof. intros n Hpi <- Ha. unfold getaddrinfo. rewrite Hpi, String.eqb_refl. cbn. done. Qed.

Lemma does_resolve tr mx :
  does None tr (_resolve_pinned_mx env mx) (fun r tr' => match r with Done (Some ip) => permitted tr' mx ip | _ => True end).
Proof.
  eapply (does_try _ _ _ _ (fun r tr' => match r with Done (Some ip) => permitted tr' mx ip | _ => True end));
    [|done|intros t tr' _ _; by apply does_ret].
  eapply does_bind; [apply does_getaddrinfo| |done]. intros l tr' _ Hl. apply does_ret.
  destruct (forallb _is_public_ip l) eqn:Ef; [|done]. destruct (head l) as [ip|] eqn:Eh; [|done]. by exists l.
Qed.

(** ** A conversation with a permitted server *)

Section Talk.
  Context (mx ip : string).
Abbreviation pinned := (Some (mx, ip)).

(** [tr'] is [tr] and this exchange. *)
Definition answered (tr : trace) (v : verb) (r : tried (Z * string)) (tr' : trace) : Prop :=
  match r with Done (code, text) => tr' = tr ++ [(QSay mx ip v, RCode code text)] | Failed _ => True end.
Lemma does_say tr v : permitted tr mx ip -> match v with Tls _ => False | _ => True end ->
  does pinned tr (say env mx ip v) (answered tr v).
Proof.
  intros Hp Hv. apply does_asked; [split; [done|by destruct v]|]. intros r. destruct r; try (by apply does_odd). by apply does_ret.
Qed.
(** The exchange, and then the rest. *)
Lemma does_said {B} tr v (f : Z * string -> X B) Q : permitted tr mx ip -> match v with Tls _ => False | _ => True end ->
  (forall code text, let tr' := tr ++ [(QSay mx ip v, RCode code text)] in permitted tr' mx ip -> does pinned tr' (f (code, text)) Q) ->
  (forall t tr', Q (Failed t) tr') -> does pinned tr (xbind (say env mx ip v) f) Q.
Proof.
  intros Hp Hv Hf He. eapply does_bind; [by apply does_say| |auto]. intros [code text] tr' Ht ->. apply Hf. by eapply permitted_more.
Qed.

Lemma does_connection tr l : permitted tr mx ip -> l = [ip] -> forall last,
  does pinned tr (create_connection env SOURCE_IP mx last l) (fun r tr' => match r with Done i => i = ip | Failed _ => True end).
Proof.
  intros Hp -> last. cbn [create_connection]. apply does_asked; [done|]. intros r.
  destruct r; try (by apply does_fail). by apply does_ret.
Qed.
Lemma does_connect tr : permitted tr mx ip ->
  does pinned tr (smtp_connect env SOURCE_IP mx) (fun r _ => match r with Done i => i = ip | Failed _ => True end).
Proof.
  intros Hp. eapply does_bind; [apply does_pinned_getaddrinfo| |done]. intros l tr1 H1 [= ->].
  eapply does_bind; [apply does_connection; [by eapply permitted_more|done]| |done]. intros i tr2 H2 ->.
  apply does_said; [eapply permitted_more, permitted_more; eassumption|done| |done]. intros code text tr' _.
  destruct (code =? 220)%Z; [by apply does_ret|by apply does_fail].
Qed.
Lemma does_ehlo tr : permitted tr mx ip -> does pinned tr (ehlo env HELO_NAME mx ip) (fun _ _ => True).
Proof. intros Hp. apply does_said; [done..| |done]. intros code text tr' _. by apply does_ret. Qed.
Lemma does_starttls tr : permitted tr mx ip -> does pinned tr (starttls env mx ip) (fun _ _ => True).
Proof.
  intros Hp. apply does_said; [done..| |done]. intros code text tr' Hp'. destruct (code =? 220)%Z; [|by apply does_fail].
  apply does_asked; [done|]. intros r. destruct r; by apply does_ret || apply does_odd.
Qed.
Lemma does_refused {A} tr code e (Q : tried A -> trace -> Prop) : permitted tr mx ip -> (forall t tr', Q (Failed t) tr') ->
  does pinned tr (refused env mx ip code e) Q.
Proof.
  intros Hp He. eapply (does_bind _ _ _ _ (fun _ _ => True)); [|intros u tr' _ _; apply does_fail, He|auto].
  destruct (code =? 421)%Z; [by apply does_ret|]. eapply (does_try _ _ _ _ (fun _ _ => True)); [|done|intros; by apply does_ret].
  apply does_said; [done..| |done]. intros. by apply does_ret.
Qed.

(** The mail was taken when sendmail returns. *)
Lemma does_sendmail tr from_addr to_addr raw l : permitted tr mx ip ->
  (QMx (lower (after (is_char "@") to_addr)), RMx l) ∈ tr -> mx ∈ map (fun pe => rstrip_dots (snd pe)) l ->
  does pinned tr (sendmail env mx ip from_addr to_addr raw) (fun r tr' => match r with Done _ => taken tr' from_addr to_addr raw | Failed _ => True end).
Proof.
  intros Hp Hmx Hl. unfold sendmail. apply does_said; [done..| |done]. intros c1 t1 tr1 Hp1.
  destruct (Z.eqb_spec c1 250) as [->|]; cbn [negb]; [|by apply does_refused].
  apply does_said; [done..| |done]. intros c2 t2 tr2 Hp2.
  destruct (negb (c2 =? 250)%Z && negb (c2 =? 251)%Z) eqn:E2; [by apply does_refused|].
  apply does_said; [done..| |done]. intros c3 t3 tr3 Hp3. destruct (Z.eqb_spec c3 354) as [->|]; cbn [negb]; [|by apply does_fail].
  apply does_said; [done..| |done]. intros c4 t4 tr4 Hp4. destruct (Z.eqb_spec c4 250) as [->|]; cbn [negb]; [|by apply does_refused].
  apply does_ret. exists tr, [], l, mx, ip, c2, t1, t2, t3, t4. split; [|split; [lia|done]].
  unfold tr4, tr3, tr2, tr1. by rewrite <- !app_assoc.
Qed.
End Talk.

Lemma does_via tr mx ip from_addr to_addr raw l : permitted tr mx ip ->
  (QMx (lower (after (is_char "@") to_addr)), RMx l) ∈ tr -> mx ∈ map (fun pe => rstrip_dots (snd pe)) l ->
  does None tr (deliver_via env SOURCE_IP HELO_NAME mx ip from_addr to_addr raw)
    (fun r tr' => match r with Done _ => taken tr' from_addr to_addr raw | Failed _ => True end).
Proof.
  intros Hp Hmx Hl n Hpi Ht Ha. unfold deliver_via, _pinned_dns, xfinally.
  match goal with |- context [?p (patch (Some (mx, ip)) n)] => set (body := p) end.
  assert (Hbody : does (Some (mx, ip)) tr body (fun r tr' => match r with Done _ => taken tr' from_addr to_addr raw | Failed _ => True end)).
  { eapply does_bind; [by apply does_connect| |done]. intros i tr1 H1 ->.
    eapply does_bind; [apply does_ehlo; by eapply permitted_more| |done]. intros tls tr2 H2 _.
    assert (Hp2 : permitted tr2 mx ip) by (eapply permitted_more, permitted_more; eassumption).
    eapply (does_bind _ _ _ _ (fun _ _ => True)); [| |done].
    { destruct tls; [|by apply does_ret]. eapply does_bind; [by apply does_starttls| |done]. intros [] tr3 H3 _.
      eapply does_bind; [apply does_ehlo; by eapply permitted_more| |done]. intros b tr4 H4 _. by apply does_ret. }
    intros [] tr3 H3 _. assert (Hall : tr `prefix_of` tr3) by (do 2 (etrans; [eassumption|]); done).
    eapply does_bind; [eapply does_sendmail; [by eapply permitted_more| |exact Hl]| |done].
    { destruct Hall as [k ->]. apply elem_of_app. by left. }
    intros [] tr4 H4 Htk. eapply does_said; [eapply permitted_more, permitted_more; eassumption|done| |done].
    intros code text tr5 _. apply does_ret. eapply taken_more, Htk. by eexists. }
  destruct (Hbody (patch (Some (mx, ip)) n) eq_refl Ht Ha) as (_ & Ha' & Ht' & HQ).
  destruct (body (patch (Some (mx, ip)) n)) as [r n']. cbn [fst snd] in *. split_and!; done.
Qed.

(** ** A mail and its report *)

Lemma elem_of_insert_mx x y l : x ∈ insert_mx y l -> x = y \/ x ∈ l.
Proof.
  induction l as [|z l IH]; cbn; [by intros ->%list_elem_of_singleton; left|].
  destruct (mx_before y z); rewrite !elem_of_cons; [naive_solver|]. intros [->|Hx]; [auto|]. destruct (IH Hx); auto.
Qed.
Lemma elem_of_sorted_mx x l : x ∈ foldr insert_mx [] l -> x ∈ l.
Proof.
  induction l as [|y l IH]; [done|]. cbn. intros [->|Hx]%elem_of_insert_mx; rewrite elem_of_cons; auto.
Qed.

(** The resolver named these servers for the domain. *)
Definition served_by (tr : trace) (domain mx : string) : Prop :=
  exists l, (QMx domain, RMx l) ∈ tr /\ mx ∈ map (fun pe => rstrip_dots (snd pe)) l.
Lemma served_more tr tr' d mx : tr `prefix_of` tr' -> served_by tr d mx -> served_by tr' d mx.
Proof. intros [k ->] (l & Hin & Hl). exists l. split; [apply elem_of_app; by left|done]. Qed.

Lemma does_lookup tr domain :
  does None tr (lookup_mx env domain) (fun r tr' => match r with Done l => Forall (served_by tr' domain) l | Failed _ => True end).
Proof.
  apply does_asked; [done|]. intros r. destruct r; try (by apply does_odd). apply does_ret. rewrite Forall_forall. intros mx Hmx.
  apply list_elem_of_fmap in Hmx as (pe & -> & Hpe%elem_of_sorted_mx). apply list_elem_of_fmap in Hpe as (pe' & -> & Hin).
  exists l. split; [apply elem_of_app; right; by left|]. apply list_elem_of_fmap. by exists pe'.
Qed.

Lemma does_servers from_addr to_addr raw mxs : forall tr err, Forall (served_by tr (lower (after (is_char "@") to_addr))) mxs ->
  does None tr (try_servers env SOURCE_IP HELO_NAME from_addr to_addr raw err mxs)
    (fun r tr' => match r with Done (true, _) => taken tr' from_addr to_addr raw | _ => True end).
Proof.
  induction mxs as [|mx mxs IH]; intros tr err Hs; [by apply does_ret|]. apply Forall_cons in Hs as [(l & Hin & Hl) Hs].
  assert (Hlater : forall tr', tr `prefix_of` tr' -> Forall (served_by tr' (lower (after (is_char "@") to_addr))) mxs)
    by (intros tr' Ht; eapply Forall_impl; [exact Hs|intros x; by apply served_more]).
  cbn [try_servers]. eapply does_bind; [apply does_resolve| |done]. intros [ip|] tr1 H1 Hp; [|by apply IH, Hlater].
  eapply (does_bind _ _ _ _ (fun r tr' => match r with Done (inl _) => taken tr' from_addr to_addr raw | _ => True end)); [| |done].
  - eapply (does_try _ _ _ _ (fun r tr' => match r with Done (inl _) => taken tr' from_addr to_addr raw | _ => True end));
      [|done|intros; by apply does_ret].
    eapply does_bind; [eapply does_via; [exact Hp| |exact Hl]| |done].
    { destruct H1 as [k ->]. apply elem_of_app. by left. }
    intros ok tr2 H2 Ht. by apply does_ret.
  - intros [[[] i]|e] tr2 H2 Ht; [by apply does_ret|by apply does_ret|]. apply IH, Hlater. by etrans.
Qed.

Definition text_of_message (from_addr to_addr text : string) (msg : message) : Prop :=
  ms_text msg = text /\ ("From", from_addr) ∈ ms_headers msg /\ ("To", to_addr) ∈ ms_headers msg.

(** Headers are only added. *)
Definition adds (h : list (string * string)) (r : tried (list (string * string))) (_ : trace) : Prop :=
  match r with Done h' => h `prefix_of` h' | Failed _ => True end.
Lemma does_header tr name value h :
  does None tr (set_header name value h) (fun r _ => match r with Done h' => h' = h ++ [(name, value)] | Failed _ => True end).
Proof. unfold set_header. destruct (two_lines value); [by apply does_fail|by apply does_ret]. Qed.
Lemma does_threading tr r refs h : does None tr (threading r refs h) (adds h).
Proof.
  unfold threading. destruct (truthy r); [|apply does_ret; by exists []; rewrite app_nil_r]. eapply does_bind; [apply does_header| |done]. intros h1 tr1 _ ->.
  eapply does_weaken; [apply does_header|]. intros [h2|] tr2 _; [|done]. intros ->. rewrite <- app_assoc. by eexists.
Qed.
Lemma does_attachments tr j : does None tr (attachment_list j) (fun _ _ => True).
Proof. unfold attachment_list. destruct (negb _); [by apply does_ret|]. destruct j; by apply does_ret || apply does_fail. Qed.

Lemma does_build tr from_addr to_addr subject text html atts r refs :
  does None tr (build_message env from_addr to_addr subject text html atts r refs)
    (fun x _ => match x with Done msg => text_of_message from_addr to_addr text msg | Failed _ => True end).
Proof.
  unfold build_message. eapply does_bind; [apply does_header| |done]. intros h1 tr1 _ ->.
  eapply does_bind; [apply does_header| |done]. intros h2 tr2 _ ->. eapply does_bind; [apply does_header| |done]. intros h3 tr3 _ ->.
  eapply does_bind; [by apply does_text| |done]. intros date tr4 _ _. eapply does_bind; [apply does_header| |done]. intros h4 tr5 _ ->.
  eapply does_bind; [by apply does_text| |done]. intros id tr6 _ _. eapply does_bind; [apply does_header| |done]. intros h5 tr7 _ ->.
  eapply does_bind; [apply does_threading| |done]. intros h6 tr8 _ [k ->]. eapply does_bind; [apply does_attachments| |done].
  intros l tr9 _ _. apply does_ret. split; [done|]. cbn [ms_headers]. rewrite !elem_of_app, !list_elem_of_singleton. split; tauto.
Qed.

Lemma does_send tr from_addr to_addr subject text html atts r refs :
  does None tr (send_external env SOURCE_IP HELO_NAME from_addr to_addr subject text html atts r refs)
    (fun x tr' => match x with
                  | Done (true, _) => exists sig msg, text_of_message from_addr to_addr text msg /\ taken tr' from_addr to_addr (sig +:+ as_bytes msg)
                  | _ => True end).
Proof.
  unfold send_external. destruct (negb _); [by apply does_ret|]. set (dom := lower (after (is_char "@") to_addr)).
  eapply (does_bind _ _ _ _ (fun r tr' => match r with Done (inl l) => Forall (served_by tr' dom) l | _ => True end)); [| |done].
  { eapply (does_try _ _ _ _ (fun r tr' => match r with Done (inl l) => Forall (served_by tr' dom) l | _ => True end)); [|done|intros; by apply does_ret].
    eapply does_bind; [apply does_lookup| |done]. intros l tr1 _ Hl. by apply does_ret. }
  intros [[|mx mxs]|e] tr1 H1 Hs; [by apply does_ret| |by apply does_ret].
  eapply does_bind; [apply does_build| |done]. intros msg tr2 H2 Hm. unfold dkim_sign.
  eapply (does_bind _ _ _ _ (fun r tr' => match r with Done raw => exists sig, raw = sig +:+ as_bytes msg | _ => True end)); [| |done].
  { eapply does_bind; [by apply does_text| |done]. intros sig tr3 _ _. apply does_ret. by exists sig. }
  intros raw tr3 H3 [sig ->]. eapply does_weaken; [apply does_servers|].
  - eapply Forall_impl; [exact Hs|]. intros x. apply served_more. by etrans.
  - intros [[[] i]|] tr4 _ Ht; try done. by exists sig, msg.
Qed.

Lemma does_counter {A} tr (p : X A) : (forall n, nd_patch (snd (p n)) = nd_patch n /\ nd_trace (snd (p n)) = nd_trace n) ->
  does None tr p (fun _ _ => True).
Proof. intros Hp n Hpi Ht Ha. destruct (Hp n) as [E1 E2]. cbv zeta. by rewrite E1, E2, Ht. Qed.
Lemma does_today tr : does None tr (today_ env) (fun _ _ => True).
Proof. apply does_asked; [done|]. intros r. by apply does_ret. Qed.
Lemma does_count tr c d : does None tr (int_count c d) (fun _ _ => True).
Proof. unfold int_count. destruct (count_of c d); [by apply does_ret|by apply does_fail]. Qed.
Lemma does_sent_today tr : does None tr (_sent_today env) (fun _ _ => True).
Proof.
  eapply does_bind; [by apply does_counter| |done]. intros c tr1 _ _. eapply does_bind; [apply does_today| |done].
  intros d tr2 _ _. apply does_count.
Qed.
Lemma does_bump tr : does None tr (_bump_today env) (fun _ _ => True).
Proof.
  eapply does_bind; [by apply does_counter| |done]. intros c tr1 _ _. eapply does_bind; [apply does_today| |done].
  intros d tr2 _ _. eapply does_bind; [apply does_count| |done]. intros z tr3 _ _.
  apply does_asked; [done|]. intros r. apply does_counter. intros n. by destruct r.
Qed.
Lemma does_report tr id ok e again : (ok = true -> done_for tr id) -> does None tr (report env id ok e again) (fun _ _ => True).
Proof.
  intros Hd. apply does_asked; [by destruct ok; [apply Hd|]|]. intros r. destruct r; by apply does_ret || apply does_odd.
Qed.
Lemma does_sleep tr t : does None tr (sleep env t) (fun _ _ => True).
Proof. apply does_asked; [done|]. intros r. by apply does_ret. Qed.

Lemma does_job tr j limit jobs : (QClaim limit, RJobs jobs) ∈ tr -> j ∈ jobs -> does None tr (do_job env SOURCE_IP HELO_NAME j) (fun _ _ => True).
Proof.
  intros Hc Hj. unfold do_job. eapply does_bind; [apply does_send| |done]. intros [[] info] tr1 H1 Ht; [|by apply does_report].
  eapply does_bind; [apply does_bump| |done]. intros u tr2 H2 _. apply does_report. intros _.
  destruct Ht as (sig & msg & (Hx & Hf & Hto) & Ht). exists limit, jobs, j, sig, msg. split_and!; try done.
  - destruct H1 as [k ->], H2 as [k' ->]. rewrite !elem_of_app. auto.
  - by eapply taken_more.
Qed.
Lemma does_jobs limit all jobs : forall tr, (QClaim limit, RJobs all) ∈ tr -> (forall j, j ∈ jobs -> j ∈ all) ->
  does None tr (do_jobs env SOURCE_IP HELO_NAME jobs) (fun _ _ => True).
Proof.
  induction jobs as [|j jobs IH]; intros tr Hc Hall; [by apply does_ret|]. cbn [do_jobs].
  eapply does_bind; [eapply does_job; [exact Hc|apply Hall; by left]| |done]. intros u tr1 [k ->] _.
  apply IH; [apply elem_of_app; by left|]. intros j' Hj'. apply Hall. by right.
Qed.

Lemma does_turn cap poll tr : does None tr (turn env SOURCE_IP HELO_NAME cap poll) (fun _ _ => True).
Proof.
  eapply (does_try _ _ _ _ (fun _ _ => True)); [|done|intros; apply does_sleep].
  eapply does_bind; [apply does_sent_today| |done]. intros sent tr1 _ _. cbv zeta. destruct (_ <=? 0)%Z; [apply does_sleep|].
  eapply (does_bind _ _ _ _ (fun r tr' => match r with Done l => (QClaim (Z.min (cap - sent) 5), RJobs l) ∈ tr' | _ => True end)); [| |done].
  { apply does_asked; [done|]. intros r. destruct r; try (by apply does_odd). apply does_ret. apply elem_of_app. right. by left. }
  intros [|j jobs] tr2 _ Hc; [apply does_sleep|]. by eapply does_jobs.
Qed.
Lemma does_turns cap poll k : forall tr, does None tr (turns env SOURCE_IP HELO_NAME cap poll k) (fun _ _ => True).
Proof.
  induction k as [|k IH]; intros tr; [by apply does_ret|]. cbn [turns]. eapply does_bind; [apply does_turn| |done]. intros u tr1 _ _. apply IH.
Qed.

(** C27: the sending node asks for nothing it should not.  Whatever names resolve to, differently each time if
    they like, whatever servers and the relay answer and whatever fails: every connection of the worker
    goes out from the configured address to one that the name resolved to before, in an answer of public
    addresses only, and every word is said on such a connection, with the certificate checked for that
    name; a mail is reported as delivered only if the relay gave it out and a server that the resolver
    named for the recipient's domain took a message with its text from its sender to its recipient; and
    the resolver of the process is left as it was. *)
Theorem mailout_asks_safely TOKEN cap poll rounds file n' r :
  worker_main env SOURCE_IP HELO_NAME TOKEN cap poll rounds (Node [] None file) = (r, n') ->
  nd_patch n' = None /\ forall before_ q a after_, nd_trace n' = before_ ++ (q, a) :: after_ -> good before_ q.
Proof.
  intros E. assert (Hd : does None [] (worker_main env SOURCE_IP HELO_NAME TOKEN cap poll rounds) (fun _ _ => True)).
  { unfold worker_main. destruct (String.eqb TOKEN ""); [by apply does_fail|apply does_turns]. }
  destruct (Hd (Node [] None file) eq_refl eq_refl allowed_nil) as (Hp & Ha & _). rewrite E in Hp, Ha. split; [exact Hp|].
  intros b q a c. by apply allowed_at.
Qed.
End Safe.

(** ** How many mails are taken in a day *)

Section Cap.
  Context `{Ipaddress} `{Serialize} (env : trace -> question -> reply) (SOURCE_IP HELO_NAME : string).
  Context (day : nat -> Z) (iso : Z -> string).          (* the day of each question, and its text *)

(** The clock does not go back, the counter file can be written, servers answer to QUIT, and the relay hands
    out no more than it was asked for. *)
Record fair : Prop := {
  fa_day : forall i j, (i <= j)%nat -> (day i <= day j)%Z;
  fa_iso : forall d d', iso d = iso d' -> d = d';
  fa_today : forall tr, env tr QToday = RText (iso (day (length tr)));
  fa_save : forall tr text, env tr (QSave text) = RDone;
  fa_quit : forall tr host ip, exists code text, env tr (QSay host ip Quit) = RCode code text;
  fa_claim : forall tr n jobs, (0 <= n)%Z -> env tr (QClaim n) = RJobs jobs -> (Z.of_nat (length jobs) <= n)%Z
}.

(** A server took a mail. *)
Definition is_taken (x : question * reply) : bool :=
  match x with (QSay _ _ (Content _), RCode code _) => (code =? 250)%Z | _ => false end.
(** The days on which mails were taken. *)
Fixpoint taken_days (i : nat) (tr : trace) : list Z :=
  match tr with [] => [] | x :: tr' => (if is_taken x then [day i] else []) ++ taken_days (S i) tr' end.
Definition on_day (d : Z) (l : list Z) : Z := Z.of_nat (length (List.filter (fun x => (x =? d)%Z) l)).
Definition taken_on (d : Z) (tr : trace) : Z := on_day d (taken_days 0 tr).

Lemma taken_days_snoc tr : forall i x, taken_days i (tr ++ [x]) = taken_days i tr ++ if is_taken x then [day (i + length tr)] else [].
Proof.
  induction tr as [|y tr IH]; intros i x; cbn [taken_days app length]; [by rewrite Nat.add_0_r, app_nil_r|].
  by rewrite IH, app_assoc, <- plus_n_Sm.
Qed.
Lemma on_day_app d l l' : on_day d (l ++ l') = (on_day d l + on_day d l')%Z.
Proof. unfold on_day. rewrite List.filter_app, length_app. lia. Qed.
Lemma on_day_one d a : on_day d [a] = if (a =? d)%Z then 1%Z else 0%Z.
Proof. unfold on_day. cbn. by destruct (a =? d)%Z. Qed.
Lemma on_day_none d l : Forall (fun a => a < d)%Z l -> on_day d l = 0%Z.
Proof.
  unfold on_day. induction 1 as [|a l Ha _ IH]; [done|]. cbn. destruct (Z.eqb_spec a d); [lia|exact IH].
Qed.

Definition today_of (n : node) : Z := day (length (nd_trace n)).

(** [counts p Q]: [p] leaves the counter file, goes on in time, and the days on which mails are taken meanwhile
    are as [Q] says of its result. *)
Definition counts {A} (p : X A) (Q : tried A -> list Z -> Prop) : Prop :=
  forall n, let n' := snd (p n) in
    nd_counter n' = nd_counter n /\ (length (nd_trace n) <= length (nd_trace n'))%nat /\
    exists ds, taken_days 0 (nd_trace n') = taken_days 0 (nd_trace n) ++ ds /\
      Forall (fun a => today_of n <= a <= today_of n')%Z ds /\ Q (fst (p n)) ds.
Definition quiet {A} (p : X A) : Prop := counts p (fun _ ds => ds = []).

Section CountRules.
  Context (Hday : forall i j, (i <= j)%nat -> (day i <= day j)%Z).

Lemma counts_ret {A} (a : A) (Q : tried A -> list Z -> Prop) : Q (Done a) [] -> counts (xret a) Q.
Proof. intros HQ n. cbn. split_and!; [done|done|]. exists []. by rewrite app_nil_r. Qed.
Lemma counts_fail {A} t (Q : tried A -> list Z -> Prop) : Q (Failed t) [] -> counts (xfail t) Q.
Proof. intros HQ n. cbn. split_and!; [done|done|]. exists []. by rewrite app_nil_r. Qed.

Lemma counts_bind {A B} (p : X A) (f : A -> X B) (Q1 : tried A -> list Z -> Prop) (Q : tried B -> list Z -> Prop) :
  counts p Q1 -> (forall a ds, Q1 (Done a) ds -> counts (f a) (fun r ds' => Q r (ds ++ ds'))) ->
  (forall t ds, Q1 (Failed t) ds -> Q (Failed t) ds) -> counts (xbind p f) Q.
Proof.
  intros Hp Hf He n. destruct (Hp n) as (Hc1 & Hl1 & ds & Ed & Hds & HQ). unfold xbind.
  destruct (p n) as [[a|t] n1]; cbn [fst snd] in *; [|split_and!; eauto].
  destruct (Hf a ds HQ n1) as (Hc2 & Hl2 & ds' & Ed' & Hds' & HQ'). split; [congruence|]. split; [lia|].
  exists (ds ++ ds'). split; [by rewrite Ed', Ed, app_assoc|]. split; [|done]. apply Forall_app.
  pose proof (Hday _ _ Hl1). pose proof (Hday _ _ Hl2). unfold today_of in *. split; (eapply Forall_impl; [eassumption|]; cbn; lia).
Qed.
Lemma counts_try {A} (p : X A) h (Q1 Q : tried A -> list Z -> Prop) :
  counts p Q1 -> (forall a ds, Q1 (Done a) ds -> Q (Done a) ds) ->
  (forall t ds, Q1 (Failed t) ds -> counts (h t) (fun r ds' => Q r (ds ++ ds'))) -> counts (xtry p h) Q.
Proof.
  intros Hp Hd He n. destruct (Hp n) as (Hc1 & Hl1 & ds & Ed & Hds & HQ). unfold xtry.
  destruct (p n) as [[a|t] n1]; cbn [fst snd] in *; [split_and!; eauto|].
  destruct (He t ds HQ n1) as (Hc2 & Hl2 & ds' & Ed' & Hds' & HQ'). split; [congruence|]. split; [lia|].
  exists (ds ++ ds'). split; [by rewrite Ed', Ed, app_assoc|]. split; [|done]. apply Forall_app.
  pose proof (Hday _ _ Hl1). pose proof (Hday _ _ Hl2). unfold today_of in *. split; (eapply Forall_impl; [eassumption|]; cbn; lia).
Qed.
Lemma counts_weaken {A} (p : X A) (Q1 Q : tried A -> list Z -> Prop) : counts p Q1 -> (forall r ds, Q1 r ds -> Q r ds) -> counts p Q.
Proof. intros Hp HQ n. destruct (Hp n) as (? & ? & ds & ? & ? & ?). split_and!; try done. exists ds. auto. Qed.

(** A question, and what the answer counts for. *)
Lemma counts_ask q (Q : tried reply -> list Z -> Prop) :
  (forall tr, let r := env tr q in Q (Done r) (if is_taken (q, r) then [day (length tr)] else [])) -> counts (ask env q) Q.
Proof.
  intros HQ n. cbn [ask snd fst nd_counter nd_trace]. split; [done|]. rewrite length_app. split; [lia|].
  eexists. split; [apply taken_days_snoc|]. split; [|apply HQ].
  destruct (is_taken _); [|done]. apply Forall_singleton. unfold today_of. cbn [nd_trace]. rewrite length_app. cbn. split; [done|apply Hday; lia].
Qed.
(** A question by which nothing is taken, and the rest. *)
Lemma counts_asked {B} q (f : reply -> X B) Q : (forall r, is_taken (q, r) = false) -> (forall r, counts (f r) Q) -> counts (xbind (ask env q) f) Q.
Proof.
  intros Hq Hf. eapply (counts_bind _ _ (fun r ds => ds = [] /\ exists a, r = Done a)).
  - apply counts_ask. intros tr. cbv zeta. rewrite Hq. split; [done|by eexists].
  - intros a ds [-> _]. apply Hf.
  - intros t ds [_ [a ?]]. done.
Qed.

(** Programs by which nothing is taken. *)
Lemma quiet_bind {A B} (p : X A) (f : A -> X B) Q :
  quiet p -> (forall a, counts (f a) Q) -> (forall t, Q (Failed t) []) -> counts (xbind p f) Q.
Proof. intros Hp Hf He. eapply counts_bind; [exact Hp|intros a ds ->; apply Hf|intros t ds ->; apply He]. Qed.
Lemma quiet_ask q : (forall r, is_taken (q, r) = false) -> quiet (ask env q).
Proof. intros Hq. apply counts_ask. intros tr. cbv zeta. by rewrite Hq. Qed.
Lemma quiet_text q : (forall r, is_taken (q, r) = false) -> quiet (ask_text env q).
Proof. intros Hq. apply counts_asked; [done|]. intros r. destruct r; by apply counts_ret || apply counts_fail. Qed.
Lemma quiet_say mx ip v : match v with Content _ => False | _ => True end -> quiet (say env mx ip v).
Proof. intros Hv. apply counts_asked; [intros []; by destruct v|]. intros r. destruct r; by apply counts_ret || apply counts_fail. Qed.
Lemma quiet_getaddrinfo host : quiet (getaddrinfo env host).
Proof.
  intros n. unfold getaddrinfo.
  assert (Hq : quiet (do! r := ask env (QAddresses host) in match r with RAddresses l => xret l | _ => odd r end)).
  { apply counts_asked; [done|]. intros r. destruct r; by apply counts_ret || apply counts_fail. }
  destruct (nd_patch n) as [[h i]|]; [destruct (String.eqb host h)|]; [|apply Hq..].
  exact (counts_ret [i] (fun _ ds => ds = []) eq_refl n).
Qed.
Lemma quiet_resolve mx : quiet (_resolve_pinned_mx env mx).
Proof.
  eapply (counts_try _ _ (fun _ ds => ds = [])); [|done|intros t ds ->; by apply counts_ret].
  eapply quiet_bind; [apply quiet_getaddrinfo| |done]. intros l. by apply counts_ret.
Qed.
Lemma quiet_connection mx l : forall last, quiet (create_connection env SOURCE_IP mx last l).
Proof.
  induction l as [|ip l IH]; intros last; [by apply counts_fail|]. apply counts_asked; [done|]. intros r.
  destruct r; try apply IH. by apply counts_ret.
Qed.
Lemma quiet_connect mx : quiet (smtp_connect env SOURCE_IP mx).
Proof.
  eapply quiet_bind; [apply quiet_getaddrinfo| |done]. intros l. eapply quiet_bind; [apply quiet_connection| |done]. intros ip.
  eapply quiet_bind; [by apply quiet_say| |done]. intros [code text]. destruct (_ =? _)%Z; by apply counts_ret || apply counts_fail.
Qed.
Lemma quiet_ehlo mx ip : quiet (ehlo env HELO_NAME mx ip).
Proof. eapply quiet_bind; [by apply quiet_say| |done]. intros [code text]. by apply counts_ret. Qed.
Lemma quiet_starttls mx ip : quiet (starttls env mx ip).
Proof.
  eapply quiet_bind; [by apply quiet_say| |done]. intros [code text]. destruct (_ =? _)%Z; [|by apply counts_fail].
  apply counts_asked; [done|]. intros r. destruct r; by apply counts_ret || apply counts_fail.
Qed.
(** A refusal raises. *)
Lemma counts_refused {A} mx ip code e (Q : tried A -> list Z -> Prop) : (forall t, Q (Failed t) []) -> counts (refused env mx ip code e) Q.
Proof.
  intros He. eapply quiet_bind; [|intros u; apply counts_fail, He|exact He]. destruct (_ =? _)%Z; [by apply counts_ret|].
  eapply (counts_try _ _ (fun _ ds => ds = [])); [|done|intros t ds ->; by apply counts_ret].
  eapply quiet_bind; [by apply quiet_say| |done]. intros [code' text]. by apply counts_ret.
Qed.

(** A mail is taken exactly if the result is good. *)
Definition one_if {A} (yes : A -> Prop) (r : tried A) (ds : list Z) : Prop :=
  match r with Done a => (yes a /\ exists d, ds = [d]) \/ (~ yes a /\ ds = []) | Failed _ => ds = [] end.
Lemma counts_sendmail mx ip a b raw : counts (sendmail env mx ip a b raw) (one_if (fun _ => True)).
Proof.
  unfold sendmail. eapply quiet_bind; [by apply quiet_say| |done]. intros [c1 t1]. destruct (negb _); [by apply counts_refused|].
  eapply quiet_bind; [by apply quiet_say| |done]. intros [c2 t2]. destruct (_ && _); [by apply counts_refused|].
  eapply quiet_bind; [by apply quiet_say| |done]. intros [c3 t3]. destruct (negb _); [by apply counts_fail|].
  eapply (counts_bind _ _ (fun r ds => match r with Done (c, _) => if (c =? 250)%Z then exists d, ds = [d] else ds = [] | Failed _ => ds = [] end));
    [|intros [c4 t4] ds Hds|by intros t ds ->].
  - unfold say. eapply (counts_bind _ _ (fun r ds => match r with
      | Done (RCode c _) => if (c =? 250)%Z then exists d, ds = [d] else ds = [] | _ => ds = [] end)); [| |by intros t ds ->].
    + apply counts_ask. intros tr. cbv zeta. cbn [is_taken]. destruct (env tr _) as [| | | |c t| |]; try done. destruct (c =? 250)%Z; [by eexists|done].
    + intros r ds Hds. destruct r; try (subst; by apply counts_fail). apply counts_ret. by rewrite app_nil_r.
  - destruct (c4 =? 250)%Z; cbn [negb]; [apply counts_ret; rewrite app_nil_r; left; by split|]. subst ds. by apply counts_refused.
Qed.

Section Fair.
  Context (Hquit : forall tr host ip, exists code text, env tr (QSay host ip Quit) = RCode code text).

Lemma counts_quit mx ip : counts (say env mx ip Quit) (fun r ds => ds = [] /\ exists x, r = Done x).
Proof.
  unfold say. eapply (counts_bind _ _ (fun r ds => ds = [] /\ exists c t, r = Done (RCode c t))).
  - apply counts_ask. intros tr. cbv zeta. destruct (Hquit tr mx ip) as (c & t & ->). split; [done|by eexists _, _].
  - intros r ds [-> (c & t & [= ->])]. apply counts_ret. split; [done|by eexists].
  - by intros t ds [_ (c & t' & ?)].
Qed.

Definition delivered_ (x : bool * string) : Prop := fst x = true.
Lemma counts_via mx ip a b raw : counts (deliver_via env SOURCE_IP HELO_NAME mx ip a b raw) (one_if delivered_).
Proof.
  intros n. unfold deliver_via, _pinned_dns, xfinally.
  match goal with |- context [?p (patch (Some (mx, ip)) n)] => set (body := p) end.
  assert (Hbody : counts body (one_if delivered_)).
  { eapply quiet_bind; [apply quiet_connect| |done]. intros i. eapply quiet_bind; [apply quiet_ehlo| |done]. intros tls.
    eapply quiet_bind; [| |done].
    { destruct tls; [|by apply counts_ret]. eapply quiet_bind; [apply quiet_starttls| |done]. intros [].
      eapply quiet_bind; [apply quiet_ehlo| |done]. intros u. by apply counts_ret. }
    intros u. eapply counts_bind; [apply counts_sendmail| |done]. intros u' ds Hds.
    destruct Hds as [[_ [d ->]]|[Hn _]]; [|by destruct Hn]. eapply counts_bind; [apply counts_quit| |by intros t ds [_ [x ?]]].
    intros x ds [-> _]. apply counts_ret. left. split; [done|by exists d]. }
  pose proof (Hbody (patch (Some (mx, ip)) n)) as Hb. destruct (body (patch (Some (mx, ip)) n)) as [r n']. exact Hb.
Qed.

Lemma counts_servers a b raw mxs : forall err, counts (try_servers env SOURCE_IP HELO_NAME a b raw err mxs) (one_if delivered_).
Proof.
  induction mxs as [|mx mxs IH]; intros err; [apply counts_ret; right; by split|]. cbn [try_servers].
  eapply quiet_bind; [apply quiet_resolve| |done]. intros [ip|]; [|apply IH].
  eapply (counts_bind _ _ (fun r ds => match r with Done (inl x) => one_if delivered_ (Done x) ds | _ => ds = [] end)); [| |by intros t ds ->].
  - eapply (counts_try _ _ (fun r ds => match r with Done (inl x) => one_if delivered_ (Done x) ds | _ => ds = [] end));
      [|done|intros t ds ->; by apply counts_ret].
    eapply counts_bind; [apply counts_via| |by intros t ds ->]. intros ok ds Hds. apply counts_ret. by rewrite app_nil_r.
  - intros [x|e] ds Hds; [apply counts_ret; by rewrite app_nil_r|]. subst. apply IH.
Qed.

Lemma quiet_header name value h : quiet (set_header name value h).
Proof. unfold set_header. destruct (two_lines value); by apply counts_ret || apply counts_fail. Qed.
Lemma quiet_threading r refs h : quiet (threading r refs h).
Proof.
  unfold threading. destruct (truthy r); [|by apply counts_ret]. eapply quiet_bind; [apply quiet_header|intros h1; apply quiet_header|done].
Qed.
Lemma quiet_attachments j : quiet (attachment_list j).
Proof. unfold attachment_list. destruct (negb _); [by apply counts_ret|]. destruct j; by apply counts_ret || apply counts_fail. Qed.
Lemma quiet_build a b subject text html atts r refs : quiet (build_message env a b subject text html atts r refs).
Proof.
  unfold build_message. repeat (eapply quiet_bind; [apply quiet_header || by apply quiet_text|intros ?|done]).
  eapply quiet_bind; [apply quiet_threading|intros ?|done]. eapply quiet_bind; [apply quiet_attachments|intros ?|done]. by apply counts_ret.
Qed.
Lemma counts_send a b subject text html atts r refs :
  counts (send_external env SOURCE_IP HELO_NAME a b subject text html atts r refs) (one_if delivered_).
Proof.
  assert (Hno : forall info, counts (xret (false, info)) (one_if delivered_)) by (intros; apply counts_ret; right; by split).
  unfold send_external. destruct (negb _); [apply Hno|]. eapply (quiet_bind _ _); [| |done].
  { eapply (counts_try _ _ (fun _ ds => ds = [])); [|done|intros t ds ->; by apply counts_ret].
    eapply quiet_bind; [|intros l; by apply counts_ret|done]. apply counts_asked; [done|]. intros x. destruct x; by apply counts_ret || apply counts_fail. }
  intros [[|mx mxs]|e]; [apply Hno| |apply Hno]. eapply quiet_bind; [apply quiet_build| |done]. intros msg.
  eapply quiet_bind; [|intros raw; apply counts_servers|done]. unfold dkim_sign. eapply quiet_bind; [by apply quiet_text| |done]. intros sig. by apply counts_ret.
Qed.
End Fair.
End CountRules.

(** ** The counter *)

Section Counter.
  Context (Hfair : fair) (cap : Z).

Lemma days_forward : forall i j, (i <= j)%nat -> (day i <= day j)%Z.
Proof. apply Hfair. Qed.

Definition loaded (n : node) : json := default (JObj []) (nd_counter n ≫= loads).
(** The file counts [k] mails for [d] and none for other days. *)
Definition counted (d k x : Z) : Z := if (x =? d)%Z then k else 0%Z.
Definition says (n : node) (d k : Z) : Prop := forall x, count_of (loaded n) (iso x) = Some (counted d k x).

(** The file is not of a later day, covers what was taken today, and no day had more than the cap. *)
Record within (n : node) (d k : Z) : Prop := {
  wi_says : says n d k; wi_day : (d <= today_of n)%Z; wi_pos : (0 <= k)%Z;
  wi_today : (taken_on (today_of n) (nd_trace n) <= counted d k (today_of n))%Z;
  wi_cap : forall x, (taken_on x (nd_trace n) <= Z.max 0 cap)%Z
}.
(** There is room for [rem] more. *)
Definition room (n : node) (d k rem : Z) : Prop := (today_of n = d -> k + rem <= cap)%Z /\ (rem <= cap)%Z.
Definition sound (rem : Z) (n : node) : Prop := exists d k, within n d k /\ room n d k rem.
Definition safe (n : node) : Prop := exists d k, within n d k.

Lemma taken_before tr : Forall (fun a => a <= day (length tr))%Z (taken_days 0 tr).
Proof.
  induction tr as [|x tr IH] using rev_ind; [constructor|]. rewrite taken_days_snoc, length_app. apply Forall_app. split.
  - eapply Forall_impl; [exact IH|]. cbn. intros a Ha. pose proof (days_forward (length tr) (length tr + 1)). lia.
  - destruct (is_taken x); [|constructor]. apply Forall_singleton. apply days_forward. cbn. lia.
Qed.
Lemma none_ahead n x : (today_of n < x)%Z -> taken_on x (nd_trace n) = 0%Z.
Proof. intros Hx. apply on_day_none. eapply Forall_impl; [apply taken_before|]. cbn. unfold today_of in Hx. lia. Qed.

(** From [n] to [n'] without a word about the counter, with mails taken on the days [ds]. *)
Definition moved (n n' : node) (ds : list Z) : Prop :=
  nd_counter n' = nd_counter n /\ (length (nd_trace n) <= length (nd_trace n'))%nat /\
  taken_days 0 (nd_trace n') = taken_days 0 (nd_trace n) ++ ds /\ Forall (fun a => today_of n <= a <= today_of n')%Z ds.
Lemma moved_today n n' ds : moved n n' ds -> (today_of n <= today_of n')%Z.
Proof. intros (_ & Hl & _). by apply days_forward. Qed.
Lemma moved_says n n' ds d k : moved n n' ds -> says n d k -> says n' d k.
Proof. intros (E & _) Hs x. unfold loaded. rewrite E. apply Hs. Qed.
Lemma moved_taken n n' ds x : moved n n' ds -> taken_on x (nd_trace n') = (taken_on x (nd_trace n) + on_day x ds)%Z.
Proof. intros (_ & _ & E & _). unfold taken_on. by rewrite E, on_day_app. Qed.

Lemma within_quiet n n' d k : moved n n' [] -> within n d k -> within n' d k.
Proof.
  intros Hm [Hs Hd Hk Ht Hc]. pose proof (moved_today _ _ _ Hm) as Hle.
  assert (Et : forall x, taken_on x (nd_trace n') = taken_on x (nd_trace n)) by (intros x; rewrite (moved_taken _ _ _ x Hm); change (on_day x []) with 0%Z; lia).
  split; [by eapply moved_says|lia|done| |intros x; by rewrite Et].
  rewrite Et. destruct (Z.eq_dec (today_of n) (today_of n')) as [<-|]; [done|]. rewrite none_ahead by lia. unfold counted. case_match; lia.
Qed.
Lemma room_quiet n n' ds d k rem rem' : moved n n' ds -> within n d k -> (rem' <= rem)%Z -> room n d k rem -> room n' d k rem'.
Proof.
  intros Hm Hw Hr [H1 H2]. pose proof (moved_today _ _ _ Hm). pose proof (wi_day _ _ _ Hw). split; [|lia]. intros <-. assert (E : today_of n = today_of n') by lia. specialize (H1 E). lia.
Qed.
Lemma sound_quiet n n' rem rem' : moved n n' [] -> (rem' <= rem)%Z -> sound rem n -> sound rem' n'.
Proof. intros Hm Hr (d & k & Hw & Ho). exists d, k. split; [by eapply within_quiet|by eapply room_quiet]. Qed.
Lemma safe_quiet n n' : moved n n' [] -> safe n -> safe n'.
Proof. intros Hm (d & k & Hw). exists d, k. by eapply within_quiet. Qed.

(** A quiet program. *)
Lemma quiet_moves {A} (p : X A) n : quiet p -> moved n (snd (p n)) [].
Proof. intros Hp. destruct (Hp n) as (? & ? & ds & ? & ? & ->). by split_and!. Qed.

Lemma run_today n : today_ env n = (Done (iso (today_of n)), Node (nd_trace n ++ [(QToday, RText (iso (today_of n)))]) (nd_patch n) (nd_counter n)).
Proof. unfold today_, xbind, ask. by rewrite (fa_today Hfair). Qed.
Lemma run_int_count n d k x : says n d k -> forall m, int_count (loaded n) (iso x) m = (Done (counted d k x), m).
Proof. intros Hs m. unfold int_count. by rewrite Hs. Qed.
Lemma run_sent_today n d k : says n d k ->
  _sent_today env n = (Done (counted d k (today_of n)), Node (nd_trace n ++ [(QToday, RText (iso (today_of n)))]) (nd_patch n) (nd_counter n)).
Proof.
  intros Hs. unfold _sent_today, _load_counter. unfold xbind at 1. cbv beta iota. unfold xbind. rewrite run_today.
  by rewrite (run_int_count n d k _ Hs).
Qed.
Lemma run_bump_today n d k : says n d k ->
  let n' := snd (_bump_today env n) in
  fst (_bump_today env n) = Done tt /\ says n' (today_of n) (counted d k (today_of n) + 1) /\
  (length (nd_trace n) <= length (nd_trace n'))%nat /\ taken_days 0 (nd_trace n') = taken_days 0 (nd_trace n).
Proof.
  intros Hs. unfold _bump_today, _load_counter. unfold xbind at 1 3. cbv beta iota zeta. unfold xbind. rewrite run_today, (run_int_count n d k _ Hs).
  unfold _save_counter, ask, xbind. rewrite (fa_save Hfair). cbn [fst snd]. split; [done|]. split; [|split].
  - intros x. unfold loaded. cbn [nd_counter]. cbn [mbind option_bind]. rewrite loads_dumps.
    + cbn [default id count_of dict_get]. unfold counted at 2. destruct (Z.eqb_spec x (today_of n)) as [->|Hne].
      * by rewrite String.eqb_refl.
      * destruct (String.eqb_spec (iso x) (iso (today_of n))) as [E|_]; [by apply (fa_iso Hfair) in E|done].
    + constructor; [apply NoDup_singleton|by repeat constructor].
  - cbn [nd_trace]. rewrite !length_app. lia.
  - cbn [nd_trace]. by rewrite !taken_days_snoc, !app_nil_r.
Qed.

(** Comparisons of days. *)
Ltac days := unfold counted in *; repeat match goal with
  | |- context [(?x =? ?y)%Z] => destruct (Z.eqb_spec x y)
  | H : context [(?x =? ?y)%Z] |- _ => destruct (Z.eqb_spec x y)
  end; subst; try lia.

(** A mail that was taken, and its entry in the file. *)
Lemma sound_taken n n' n2 a rem : moved n n' [a] -> (1 <= rem)%Z -> sound rem n ->
  (forall d k, says n' d k -> says n2 (today_of n') (counted d k (today_of n') + 1)) ->
  (length (nd_trace n') <= length (nd_trace n2))%nat -> taken_days 0 (nd_trace n2) = taken_days 0 (nd_trace n') -> sound (rem - 1) n2.
Proof.
  intros Hm Hr (d & k & [Hs Hd Hk Ht Hc] & [Ho1 Ho2]) Hbump Hl E. pose proof (moved_today _ _ _ Hm) as Hle.
  pose proof (days_forward _ _ Hl) as Hle2. change (day (length (nd_trace n'))) with (today_of n') in Hle2. change (day (length (nd_trace n2))) with (today_of n2) in Hle2.
  assert (Ha : (today_of n <= a <= today_of n')%Z) by (destruct Hm as (_ & _ & _ & Hf); exact (proj1 (Forall_singleton _ _) Hf)).
  assert (Et : forall x, taken_on x (nd_trace n2) = (taken_on x (nd_trace n) + if (a =? x)%Z then 1 else 0)%Z).
  { intros x. rewrite <- on_day_one, <- (moved_taken n n' [a] x Hm). unfold taken_on. by rewrite E. }
  assert (Hahead : forall x, (today_of n < x)%Z -> taken_on x (nd_trace n) = 0%Z) by (intros x; apply none_ahead).
  exists (today_of n'), (counted d k (today_of n') + 1)%Z. unfold counted in *. split; [split|split; [intros _|lia]].
  - apply Hbump. by eapply moved_says.
  - done.
  - days.
  - rewrite Et. destruct (Z.eq_dec (today_of n2) (today_of n')) as [E2|]; [rewrite E2|rewrite Hahead by lia; days].
    destruct (Z.eq_dec (today_of n) (today_of n')) as [E3|]; [rewrite <- E3 in *; days|rewrite Hahead by lia; days].
  - intros x. rewrite Et. destruct (Z.eqb_spec a x) as [<-|]; [|specialize (Hc x); lia].
    destruct (Z.eq_dec (today_of n) a) as [<-|]; [|rewrite Hahead by lia; lia]. clear Et. days.
  - clear Et. destruct (Z.eqb_spec (today_of n') d) as [E2|]; [|lia]. assert (E3 : today_of n = d) by lia. specialize (Ho1 E3). lia.
Qed.

Lemma sound_job j n rem : (1 <= rem)%Z -> sound rem n -> sound (rem - 1) (snd (do_job env SOURCE_IP HELO_NAME j n)).
Proof.
  intros Hr Hs. unfold do_job. unfold xbind at 1.
  match goal with |- context [send_external ?e ?a ?b ?c ?d ?f ?g ?h ?i ?k ?l n] =>
    pose proof (counts_send days_forward (fa_quit Hfair) c d f g h i k l n) as Hsend; destruct (send_external e a b c d f g h i k l n) as [[[ok info]|t] n1] end;
    cbn [fst snd] in Hsend; destruct Hsend as (Hc & Hl & ds & Ed & Hf & Hq).
  2: { cbn in Hq. subst ds. cbn [snd]. apply (sound_quiet n _ rem); [by split_and!|lia|done]. }
  assert (Hrep : forall id o e g m, quiet (report env id o e g) -> moved m (snd (report env id o e g m)) []) by (intros; by apply quiet_moves).
  assert (Hquiet : forall id o e g, quiet (report env id o e g)).
  { intros. apply (counts_asked days_forward); [done|]. intros r. destruct r; by apply counts_ret || apply counts_fail. }
  destruct Hq as [[Hok [a ->]]|[Hno ->]]; unfold delivered_ in *; cbn [fst] in *.
  - subst ok. cbv iota. unfold xbind. destruct Hs as (d & k & Hw & Ho). assert (Hm : moved n n1 [a]) by (by split_and!).
    destruct (run_bump_today n1 d k) as (Er & _ & Hl2 & E2); [eapply moved_says, Hw; exact Hm|].
    pose proof (fun d' k' Hs' => proj1 (proj2 (run_bump_today n1 d' k' Hs'))) as Hb. destruct (_bump_today env n1) as [r n2]. cbn [fst snd] in *. subst r.
    eapply sound_quiet; [by apply Hrep|reflexivity|]. by eapply (sound_taken n n1 n2 a rem Hm Hr); [exists d, k| | |].
  - destruct ok; [done|]. eapply sound_quiet; [by apply Hrep|reflexivity|]. apply (sound_quiet n _ rem); [by split_and!|lia|done].
Qed.
Lemma sound_less n rem rem' : (rem' <= rem)%Z -> sound rem n -> sound rem' n.
Proof. intros Hr. apply sound_quiet; [|done]. split_and!; [done|done|by rewrite app_nil_r|constructor]. Qed.
Lemma sound_jobs jobs : forall n rem, (Z.of_nat (length jobs) <= rem)%Z -> sound rem n ->
  sound 0 (snd (do_jobs env SOURCE_IP HELO_NAME jobs n)).
Proof.
  induction jobs as [|j jobs IH]; intros n rem Hr Hs; [apply (sound_less n rem); [cbn in Hr; lia|exact Hs]|]. cbn [length] in Hr. cbn [do_jobs].
  unfold xbind. pose proof (sound_job j n rem ltac:(lia) Hs) as H1. destruct (do_job env SOURCE_IP HELO_NAME j n) as [[u|t] n1]; cbn [snd] in *.
  - apply (IH n1 (rem - 1)%Z); [lia|exact H1].
  - apply (sound_less n1 (rem - 1)); [lia|exact H1].
Qed.

Lemma quiet_sleep t : quiet (sleep env t).
Proof. apply (counts_asked days_forward); [done|]. intros r. by apply counts_ret. Qed.

Lemma safe_body poll n : safe n ->
  safe (snd ((do! sent := _sent_today env in
              let left := (cap - sent)%Z in
              if (left <=? 0)%Z then sleep env 3600
              else do! jobs := claim env (Z.min left 5) in
                   match jobs with [] => sleep env poll | _ => do_jobs env SOURCE_IP HELO_NAME jobs end) n)).
Proof.
  intros (d & k & Hw). unfold xbind at 1. rewrite (run_sent_today n d k (wi_says _ _ _ Hw)). set (n1 := Node _ _ _). cbv zeta.
  assert (Hm : moved n n1 []).
  { unfold n1. split; [done|]. cbn [nd_trace]. split; [rewrite length_app; lia|]. split; [apply taken_days_snoc|constructor]. }
  destruct (Z.leb_spec (cap - counted d k (today_of n)) 0) as [_|Hleft].
  { eapply safe_quiet, safe_quiet; [by apply quiet_moves, quiet_sleep|exact Hm|by exists d, k]. }
  set (left := (cap - counted d k (today_of n))%Z) in *.
  assert (Hs : sound left n1).
  { exists d, k. split; [by eapply within_quiet|]. pose proof (moved_today _ _ _ Hm). destruct Hw as [_ Hd Hk _ _]. unfold left. split.
    - intros E. assert (E2 : today_of n = d) by lia. unfold counted. rewrite E2, Z.eqb_refl. lia.
    - days. }
  unfold xbind, claim, ask. unfold xbind. destruct (env (nd_trace n1) (QClaim (Z.min left 5))) as [| | | | | |jobs] eqn:Ec; cbn [xret odd xfail fst snd].
  all: set (n2 := Node (_ ++ _) _ _).
  all: assert (Hm2 : moved n1 n2 []) by
    (unfold n2; split; [done|]; cbn [nd_trace]; split; [rewrite length_app; lia|]; split; [apply taken_days_snoc|constructor]).
  all: assert (Hs2 : sound left n2) by (by apply (sound_quiet n1 n2 left)).
  all: try (destruct Hs2 as (d2 & k2 & Hw2 & _); by exists d2, k2).
  pose proof (fa_claim Hfair _ (Z.min left 5) _ ltac:(lia) Ec) as Hlen. destruct jobs as [|j jobs].
  - eapply safe_quiet; [by apply quiet_moves, quiet_sleep|]. destruct Hs2 as (d2 & k2 & Hw2 & _). by exists d2, k2.
  - destruct (sound_jobs (j :: jobs) n2 left) as (d3 & k3 & Hw3 & _); [lia|exact Hs2|]. by exists d3, k3.
Qed.

Lemma safe_turn poll n : safe n -> safe (snd (turn env SOURCE_IP HELO_NAME cap poll n)).
Proof.
  intros Hs. unfold turn, xtry. pose proof (safe_body poll n Hs) as Hb. cbv zeta in Hb.
  match goal with |- context [match ?x with _ => _ end] => destruct x as [[u|t] n1] end; [exact Hb|].
  eapply safe_quiet; [by apply quiet_moves, quiet_sleep|exact Hb].
Qed.
Lemma safe_turns poll rounds : forall n, safe n -> safe (snd (turns env SOURCE_IP HELO_NAME cap poll rounds n)).
Proof.
  induction rounds as [|rounds IH]; intros n Hs; [exact Hs|]. cbn [turns]. unfold xbind. pose proof (safe_turn poll n Hs) as H1.
  destruct (turn env SOURCE_IP HELO_NAME cap poll n) as [[u|t] n1]; [by apply IH|exact H1].
Qed.
End Counter.

(** C28: the warm-up of the sending address.  However long the worker runs and whatever fails on the way: if the
    clock does not go back, the counter file can be written and is nobody else's, servers answer to QUIT and
    the relay hands out no more mails than it is asked for, then on no day more mails are taken by other
    servers than the cap. *)
Theorem mailout_daily_cap TOKEN cap poll rounds file d k :
  fair -> says (Node [] None file) d k -> (d <= day 0)%Z -> (0 <= k)%Z ->
  forall x, (taken_on x (nd_trace (snd (worker_main env SOURCE_IP HELO_NAME TOKEN cap poll rounds (Node [] None file)))) <= Z.max 0 cap)%Z.
Proof.
  intros Hf Hs Hd Hk. assert (Hsafe : safe cap (Node [] None file)).
  { exists d, k. split; try done; [|intros x; unfold taken_on, on_day; cbn [taken_days nd_trace List.filter length]; lia]. unfold taken_on, on_day, counted. cbn. destruct (_ =? d)%Z; lia. }
  unfold worker_main. destruct (String.eqb TOKEN ""); [intros x; unfold taken_on, on_day; cbn [xfail snd taken_days nd_trace List.filter length]; lia|].
  destruct (safe_turns Hf cap poll rounds _ Hsafe) as (d' & k' & Hw). apply Hw.
Qed.
End Cap.

(** The relay's part: a claim is answered with no more jobs than it asks for (api/mail.py). *)
Section Claim.
  Context (ms : MailSettings).

Lemma jobs_length rows : returns (value_is (fun jobs => length jobs = length rows)) (mail_jobs ms rows).
Proof.
  induction rows as [|r rows IH]; cbn [mail_jobs]; [done|]. apply returns_then. intros j.
  eapply returns_bind; [exact IH|]. intros js Hjs. cbn. by rewrite Hjs.
Qed.
Lemma claim_within n token (w : vworld) jobs : (0 <= n)%Z ->
  fst (run_doc (outbound_claim ms [("limit", JNum n)] token) w) = Ok jobs -> (Z.of_nat (length jobs) <= n)%Z.
Proof.
  intros Hn. unfold outbound_claim. rewrite run_doc_bind. destruct (run_doc (_check_worker_token ms token) w) as [[[]|e] w1]; [|done].
  cbn [dict_get String.eqb Ascii.eqb Bool.eqb default id]. unfold int_. cbn [int_of]. rewrite run_doc_bind, run_doc_ret, run_doc_bind, run_doc_now. cbv zeta.
  rewrite run_doc_bind, run_doc_sql, run_doc_bind. unfold update_outbound. rewrite run_doc_sql. destruct (Z.ltb_spec (Z.min n 20) 0); [lia|].
  rewrite run_doc_bind, run_doc_sql, run_doc_bind. cbn [fst snd].
  match goal with |- context [run_doc (mail_jobs ms ?l) ?v] => set (rows := l); pose proof (returns_run _ _ v (jobs_length rows)) as Hr;
    destruct (run_doc (mail_jobs ms rows) v) as [[js|e] w2] end; [|done].
  rewrite run_doc_bind, run_doc_sql, run_doc_bind, run_doc_commit, run_doc_ret. cbn [fst]. intros [= <-]. cbn in Hr.
  rewrite Hr. unfold rows. rewrite length_take. lia.
Qed.
End Claim.

Module MailOutDemo.
#[local] Instance demo_ip : Ipaddress := fun s => Some (IpFlags (String.eqb s "10.0.0.1") false false false false false).
#[local] Instance demo_bytes : Serialize := fun msg => ms_text msg.

Definition job : MailJob := mkMailJob "id" "alice@relay.example" "bob@Example.org" "hello" "text" (JArr []) "" "".
(** The first server of the domain is a private address; the second takes everything. *)
Definition world_answers (tr : trace) (q : question) : reply :=
  match q with
  | QMx _ => RMx [(20%Z, "mx2.example.org."); (10%Z, "mx1.example.org.")]
  | QAddresses h => RAddresses [if String.eqb h "mx1.example.org" then "10.0.0.1" else "192.0.2.7"]
  | QConnect _ _ _ => RDone
  | QSay _ _ v => match v with Greeting => RCode 220 "ready" | DataVerb => RCode 354 "go on" | _ => RCode 250 "ok" end
  | QDate => RText "Mon, 01 Jan 2024 00:00:00 -0000"
  | QMsgid => RText "<1@morok.email>"
  | QSign _ => RText "DKIM-Signature: x"
  | QToday => RText (print_Z (Z.of_nat (length tr) / 100))
  | QClaim n => RJobs (repeat job (Z.to_nat (Z.min n 2)))
  | _ => RDone
  end.
(** Three rounds with a cap of three. *)
Definition after_three : node :=
  snd (worker_main world_answers "192.0.2.1" "mail-out" "token" 3 15 3 (Node [] None None)).

Example three_taken : taken_on (fun i => (Z.of_nat i / 100)%Z) 0 (nd_trace after_three) = 3%Z /\ nd_counter after_three = Some (dumps (JObj [("0", JNum 3)])).
Proof. vm_compute. split; reflexivity. Qed.

Lemma asks_witness :
  length (List.filter (fun x => match fst x with QReport _ true _ _ => true | _ => false end) (nd_trace after_three)) = 3%nat /\
  nd_patch after_three = None /\ forall before_ q a after_, nd_trace after_three = before_ ++ (q, a) :: after_ -> good "192.0.2.1" before_ q.
Proof.
  split; [vm_compute; reflexivity|].
  eapply (mailout_asks_safely world_answers "192.0.2.1" "mail-out" "token" 3 15 3 None). apply surjective_pairing.
Defined.

Definition demo_day (i : nat) : Z := (Z.of_nat i / 100)%Z.
Lemma demo_fair : fair world_answers demo_day print_Z.
Proof.
  split; try done.
  - intros i j Hij. apply Z.div_le_mono; lia.
  - intros d d' E. pose proof (py_int_print d) as E1. rewrite E, py_int_print in E1. by injection E1.
  - intros tr host ip. by exists 250%Z, "ok".
  - intros tr n jobs Hn E. assert (Ej : jobs = repeat job (Z.to_nat (Z.min n 2))) by (cbn in E; by injection E).
    subst jobs. rewrite repeat_length. lia.
Qed.
Lemma cap_witness :
  taken_on demo_day 0 (nd_trace after_three) = 3%Z /\ forall x, (taken_on demo_day x (nd_trace after_three) <= Z.max 0 3)%Z.
Proof.
  split; [vm_compute; reflexivity|].
  apply (mailout_daily_cap world_answers "192.0.2.1" "mail-out" demo_day print_Z "token" 3 15 3 None 0 0); [exact demo_fair| |done|done].
  intros x. cbn. unfold counted. by destruct (x =? 0)%Z.
Defined.

(** A server that takes the mail and hangs up before it answers to QUIT: the next one gets it as well, and it
    is reported as not delivered. *)
Definition hangs_up (tr : trace) (q : question) : reply :=
  match q with
  | QAddresses _ => RAddresses ["192.0.2.7"]
  | QSay _ _ Quit => RFailed "Connection unexpectedly closed"
  | _ => world_answers tr q
  end.
Definition after_hang_up : node := snd (do_job hangs_up "192.0.2.1" "mail-out" job (Node [] None None)).
Example quit_lost_sends_twice :
  taken_on demo_day 0 (nd_trace after_hang_up) = 2%Z /\
  last (nd_trace after_hang_up) =
    Some (QReport "id" false "all MX failed (mx2.example.org: Connection unexpectedly closed)" true, RDone).
Proof. vm_compute. split; reflexivity. Qed.

(** A subject of two lines stops the batch: nothing of it is sent or reported, though all of it is claimed. *)
Definition two_line_job : MailJob := mkMailJob "bad" "alice@relay.example" "bob@example.org" (String "h" (String "010" "i")) "text" (JArr []) "" "".
Definition after_bad_batch : tried unit * node := do_jobs world_answers "192.0.2.1" "mail-out" [two_line_job; job; job] (Node [] None None).
Example bad_subject_stops_batch :
  fst after_bad_batch = Failed "Header values may not contain linefeed or carriage return characters" /\
  existsb (fun x => match fst x with QSay _ _ _ | QReport _ _ _ _ => true | _ => false end) (nd_trace (snd after_bad_batch)) = false.
Proof. vm_compute. split; reflexivity. Qed.

(** A timeout at a server whose name has the digits of a refusal is taken for one. *)
Example timeout_is_permanent : _is_permanent "all MX failed (mx5501.example.org: timed out)" = true.
Proof. vm_compute. reflexivity. Qed.
End MailOutDemo.
